(* ===== verification/_CoqProject ===== *)
-Q . S2P
Prelude.v
PyStr.v
Json.v
Refusals.v
Security.v
AgentLimits.v
Models.v
AuditTrail.v
AgentDevices.v
AgentRegistry.v
AgentAccess.v
Specs.v
Denials.v
Policy.v
Idempotency.v
Approvals.v
Capabilities.v
Decisions.v
Operations.v
Controller.v
Leases.v
PyFloat.v
Jobs.v
Tokens.v
Admission.v
Ordered.v
Projection.v
FieldMasks.v
InputErrors.v
Resources.v
IpAddress.v
Network.v
Throttle.v
Cadence.v
JsonText.v
PyJson.v
TailnetPolicy.v
Names.v
Providers.v
Certificates.v
Containers.v
Declarations.v
StaleWork.v
Inventory.v
Adoption.v
Sweeps.v
Dates.v
Recurrence.v
Calendar.v
CalendarEntries.v
Sessions.v
SignIn.v
