(* ===== verification/Prelude.v ===== *)
(** * Severino HQ: what its control plane promises

    Severino HQ (src/hq) is a Django application, one process over one SQLite file opened with
    IMMEDIATE transactions, that holds what a household and its servers are made of and lets people,
    their own devices and agents read and change it.  A caller comes in by a page, the command line,
    the machine API or MCP; each door names a principal, and everything past the door is one set of
    use cases (platform/application) over one set of tables.  A privileged controller, a separate Go
    process, pulls the work HQ queues for the hosts and reports what it did.  This development
    models the use cases that decide who may do what, once, and by whose leave, and the reads and
    refusals they are answered with.

    ** How the program is modelled

    A use case that reads and writes tables is a function of [M exn Db A]: the database in, an
    [outcome] (a value or the exception raised) and the database it leaves out.  An exception keeps
    the writes made before it; [atomic] (transaction.atomic) undoes them.  One writer at a time is
    what the database gives, so a use case is one step and interleavings are sequences of steps;
    work that runs in threads of its own ([Jobs]) is cut into the steps between which another may
    write.  The clock is an argument, in microseconds.  Strings are code points, JSON values keep the
    order of their keys, integers of Python are [Z], and floats are exact rationals where only the
    rounding is lost ([AgentLimits]) or IEEE doubles where it shows ([PyFloat], [Jobs]).

    ** The files

    - [Prelude], [PyStr], [Json]: the monad and its laws, what Python's strings, lists and dicts do,
      and the canonical text of a value.
    - [Refusals] (refusal_status.py, record_errors.py): exceptions, codes, doors and the envelope.
    - [Security] (security.py, roles.py): capabilities, principals, what an agent may hold.
    - [AgentLimits] (agent_limits.py): the rate limit, calls in flight, streams.
    - [Models] (core/models.py, domains/control_plane/models.py, domains/jobs/models.py): the rows,
      their constraints and the database [Db].
    - [AuditTrail] (core/audit.py, core/append_only.py), [Denials] (denials.py): the log, its triggers,
      its pruning, and refused calls counted in it.
    - [AgentDevices], [AgentRegistry], [AgentAccess] (the files of those names): where an agent calls
      from, what is known of it, and the brakes a person puts on it.
    - [Specs] (integration_specs.py, command_targets.py): what a deployment registers.
    - [Policy] (capability_policy.py, default_hold.py): whether a call runs, waits or is refused.
    - [Idempotency] (idempotency.py): one run under one retry key.
    - [Approvals], [Decisions] (approvals.py): a held call, and the person who decides it.
    - [Capabilities] (capabilities.py, call_envelope.py): how a capability runs, from door to handler.
    - [Operations] (resource_operations.py), [Controller] (controller.py): queueing work for the
      controller; scheduling, claiming under a lease, reporting, releasing.
    - [Leases]: the abstract queue, and that the controller's code implements it.
    - [Jobs] (domains/jobs): background work.
    - [Tokens] (tokens.py, own_devices.py, linked_accounts.py), [Admission] (agent_admission.py,
      api/views.py): a bearer token, from its signature to the call it is let through for.
    - [Ordered], [Projection] (projection.py): lists in order and pages of them.
    - [FieldMasks] (field_masks.py): the parts of a record a read asks for.
    - [InputErrors] (input_errors.py): what wrong input is told.
    - [Resources] (resources.py, resource_refusals.py): the reads every door shares, which compose
      the four before it.
    - [IpAddress] (Python's ipaddress), [Network] (core/network.py, trusted_networks.py, the ranges of
      reach.py): the addresses HQ answers on and to, and the settings that name them.
    - [Throttle] (core/throttle.py, core/signals.py, ThrottledLoginView): how often a password is tried.
    - [Cadence] (cadence.py, core/doorbell.py): when the controller visits and what it reads there.
    - [JsonText] (core/strict_json.py, over Python's json scanner), [PyJson] (what a use case does to a
      document it read), [TailnetPolicy] (tailnet.py, policy_fixes.py): JSON as text, and the two edits
      HQ makes to the tailnet's policy document.
    - [Names] (names.py), [Providers] (providers.py, provider_spec.py), [Certificates]
      (provider_adapters/tls.py, declarations.py, adguard.py): how a host is spelled, the registry of
      kinds a record may be of, and three kinds of it, with the certificate that is resolved through
      the places it is installed.
    - [Declarations] (infrastructure.py, desired_state.py, record_saves.py): saving a record, with the
      work it queues or calls off and the records that follow it; [StaleWork]: the two ends of the queue
      together, for a record edited while its work waits.
    - [Containers] (provider_adapters/portainer.py, github_public.py, container_standard.py): the kind of
      record a sweep lets go of by itself.
    - [Inventory] (inventory.py, reading_parts.py): what a sweep leaves of what it read, beside [Db] in an
      [Estate]; [Adoption] (adoption.py, sweep.py, the removal and acceptance of resource_operations.py):
      taking on what was found, stepping back from it, and the sweep as one step; [Sweeps]: what sweeps
      come to, one after another.
    - [Dates] (Python's datetime.date), [Recurrence] (domains/calendars/models.py and the reading half of
      calendar_entries.py): days as ordinals, and the generators a repeating entry steps through, beside a
      definition of the days it falls on.
    - [Calendar] (calendar.py): the events of every source in a window, and the month and day they are
      drawn in; it takes the operator's own source as an argument, as the code imports it lazily.
      [CalendarEntries] (calendar_entries.py, deletion.py, the constraints of the model): that source, and
      the entries behind it as they are written, beside [Db] in a [Book].
    - [Sessions] (sessions.py, core/oidc_logout.py): ending a person's sessions, and the identity provider's
      back-channel logout that does it through [Capabilities].  [SignIn] (core/oidc.py, oidc_views.py,
      linked_accounts.py, the assignment of roles.py): the account a sign-in is, the role it gives and what it
      binds, in tables beside [Db] in a [Hall], which the other use cases read as [User]s ([tables]).

    ** What is shown

    - Authority: no agent holds what is reserved to people, a token acts within its grant and its
      person's role, a caller without a permission is told that before anything else is looked at.
    - Consent: a call policy denies or holds never reaches its handler; an approval runs exactly the
      call that was held, once, by leave of a person who is not its asker, and only while nothing it
      was compared with has moved; what is settled stays settled.
    - Brakes: a paused, blocked or misplaced agent is not let through, holds no slot and has no work
      claimed; a block stands until a person lifts it.
    - Once: a change repeated under its key is answered as it was and runs nothing.
    - The queue: its rows stay well formed in every reachable state; it refines a table of leased
      tasks ([Leases]), from which exclusion and finality follow for the code's rows.
    - Limits: the rate limit is a token bucket; the counts are the slots held.
    - Reads: following cursors reads a list whole, each row once; a list that changes between pages
      loses no row that stood; a cursor reads back where it was issued and nowhere else; a mask
      answers exactly what it names, and a refusal tells nothing of what was sent.
    - Networks: only a caller in the ranges a deployment trusts is served, narrowing a setting admits
      nobody it left out, and an endpoint reads back from the URL made of it.
    - Passwords: the guesses let through in any stretch of time are bounded by its length.
    - The cadence: a controller told nothing is due sees no work, and a sweep that reads what it is
      told to read answers every read that was asked for.
    - Documents: a JSON value printed is read back, the strict reader reads what every parser reads, a
      path opened in the tailnet policy opens that path and closes none, and striking its empty groups
      changes nobody's reach.
    - Records: what is saved is what was sent over what was held, validated and agreed to; nobody
      overwrites what they did not read; a change that is applied by itself is queued in the save that
      made it, a record switched off leaves nothing waiting, and what resolves through a record moves
      with it exactly when its resolution did.
    - What was observed: a sweep replaces the records of the kinds that answered it and of no other, and
      says of each declaration whether it stands as declared; it takes on only what a connection HQ
      manages through has read, nothing declares and nobody kept out, and lets go only of a container a
      complete listing lacks; what is stepped back from stays out; and a container with a history that
      departs stops the sweeps that find it gone ([departed_with_history_stops_sweeps]).
    - The calendar: an entry's occurrences are the days it falls on, its loop ends, and each makes an event
      over the days the entry takes; a month counts every event of each of its days, in as few lanes as
      there can be; a source that fails takes nothing else with it; a color is shared only when all are
      taken; every call leaves entries that hold together, and what is saved reads back; the query of a
      window misses only an occurrence that runs on past the last day its entry repeats.
    - People: a sign-in ends in the account of its subject and no other, a verified address introduces only an
      account nobody signed in to, the role is the highest the settings give the claims and what tokens are held
      to ([held_by_bound]), and a name is found for a new account; a logout token ends the live sessions of the
      person it names, once, and nothing else does at that address.
    - Jobs end as their work did, and the log keeps what may not be pruned.

    ** Parameters

    [Site] and [Plant] gather what a deployment registers (specifications, handlers, validators,
    adapters, settings); [Tailnet], [IdentityProvider] are the daemon and the provider asked;
    [Resources] takes the signer (sign, unsign), difflib's close matches and the types pydantic
    itself raises; [Throttle] what the sign-in form makes of a name and a password; [Cadence] what
    the observations and providers of a deployment declare; [Certificates] the words pydantic finds for
    a spec it refuses; [Declarations] the names a connection's machines answer to ([names_at], read from
    what was observed, which a save does not write: [names_of_declarations]) and what a delivery under
    way is called; [Inventory] and [Adoption] the schemas of a deployment's observations, the parts a
    kind is read in, the digest a record's token is cut from (which is never blank: [digest_says]) and
    Django's [slugify]; [Calendar] the zone HQ is read in, as what its clocks show at an instant, and
    [CalendarEntries] the instant a clock shows a time at and what a reference names; [SignIn] the library HQ's
    backend extends, as what it makes of the methods it is given ([asks_the_methods]), the keeping of a picture
    and Django's spelling of a username; [Sessions] what pydantic makes of a sign-out.  A hypothesis on one is named where it
    is used (a signed value reads back; a provider adapter's strike leaves the queue alone) and a
    witness gives a function it holds of.  Digests are their material, so that two digests agree
    exactly when what they digest does.

    ** Fuel

    [loads] takes twice the length of its text, enough for every step it takes ([loads_has_fuel]).
    [prune_loop] runs at most as many batches as it is given; one more than the rows past their keep
    is enough ([prune_routine_removes]).  [split_expected] takes the length of its text.  A loop over the
    days of an entry resumes its generator [2 ^ 23] times at most, by halves, which is past the last day
    there is and the four hundred years after which the calendar repeats itself ([repeating_loops]).
    Everything else recurs on its data.

    ** Not modelled

    Pages, templates and words for display; the projections of provider snapshots (machines,
    services, zones, GitHub, topology), which read and never write; provider adapters and outbound
    requests, which are other programs' behaviour; the OpenAPI document and the MCP library's
    protocol; the controller's Go process, which is the other side of [Controller]; the forms of the
    business domains, and of the calendar its form, the list of an agenda, the sources that say what the
    estate is due and what happened, and moments so near either end of time that their zone puts them past it.
    Of signing in, the renewal of a session, the fetch of a picture and the address a sign-out goes on to.  Of the log, the rows that saving a registered model writes by itself, save for
    read requests; of a request's address, the forwarded hop uvicorn picks.  A call of [Cadence] reads
    the clock once where the code may read it again within the same request.
    Of JSON text, fractions, exponents, NaN and characters past code 255, which end in [Beyond]; a policy
    test written as a list of pairs, which [dict] would read.
    Of a record's spec, the values pydantic would coerce (a number sent as text), which are refused here.
    Of a sweep, the connections it reports, the records of domains, the projects of repositories and the
    problems it notes, and the summaries it answers with; of what is found, the join of facts on a page.
    Of managed resources, the other kinds of record, renewing a certificate, approving a route, allowing a
    path and import; of the rest, connections and their lifecycle, findings and attestations, and MCP's listing and task windows. *)
From stdpp Require Import base gmap strings list.
From Stdlib Require Import ZArith Lia.

#[global] Set Default Goal Selector "!".

(** * Outcomes, state and exceptions

    Python code that mutates the database and may raise is a function from a
    state to an outcome and the state it leaves behind.  An exception does not
    undo the writes made before it; only [atomic] does. *)

Inductive outcome (E A : Type) : Type :=
| Ok (a : A)
| Raise (e : E).
Arguments Ok {E A} _.
Arguments Raise {E A} _.

Definition M (E S A : Type) : Type := S -> outcome E A * S.

Section Monad.
Context {E S : Type}.

#[export] Instance M_ret : MRet (M E S) := fun A a s => (Ok a, s).

#[export] Instance M_bind : MBind (M E S) := fun A B f m s =>
  match m s with
  | (Ok a, s') => f a s'
  | (Raise e, s') => (Raise e, s')
  end.

#[export] Instance M_fmap : FMap (M E S) := fun A B f m s =>
  match m s with
  | (Ok a, s') => (Ok (f a), s')
  | (Raise e, s') => (Raise e, s')
  end.

Definition raise {A} (e : E) : M E S A := fun s => (Raise e, s).
Definition get : M E S S := fun s => (Ok s, s).
Definition gets {A} (f : S -> A) : M E S A := fun s => (Ok (f s), s).
Definition modify (f : S -> S) : M E S unit := fun s => (Ok tt, f s).

(** A step written out: what it answers of the state, and the state it leaves. *)
Definition act {A} (f : S -> outcome E A * S) : M E S A := f.

(** A value some code computes without touching the state, or raises. *)
Definition lift {A} (o : outcome E A) : M E S A := fun s => (o, s).

(** [if test: raise e] *)
Definition raise_if (test : bool) (e : E) : M E S unit :=
  if test then raise e else mret tt.

(** [transaction.atomic()]: a raise rolls back every write of the block. *)
Definition atomic {A} (m : M E S A) : M E S A := fun s =>
  match m s with
  | (Ok a, s') => (Ok a, s')
  | (Raise e, _) => (Raise e, s)
  end.

(** [try: m except ...: h]; [h] answers [None] for an exception it does not name. *)
Definition try {A} (m : M E S A) (h : E -> option (M E S A)) : M E S A := fun s =>
  match m s with
  | (Ok a, s') => (Ok a, s')
  | (Raise e, s') =>
      match h e with
      | Some k => k s'
      | None => (Raise e, s')
      end
  end.
End Monad.

(** [for x in xs: f x] *)
Fixpoint for_each {E S A : Type} (f : A -> M E S unit) (xs : list A) : M E S unit :=
  match xs with
  | [] => mret tt
  | x :: xs' => _ ← f x; for_each f xs'
  end.

(** A loop that threads an accumulator, [for x in xs: acc = f(acc, x)]. *)
Fixpoint fold_each {E S A B : Type} (f : B -> A -> M E S B) (b : B) (xs : list A) : M E S B :=
  match xs with
  | [] => mret b
  | x :: xs' => b' ← f b x; fold_each f b' xs'
  end.

Section MonadLaws.
Context {E S : Type}.

Lemma bind_ret {A B} (a : A) (f : A -> M E S B) s : (mret a ≫= f) s = f a s.
Proof. reflexivity. Qed.

Lemma bind_raise {A B} e (f : A -> M E S B) s : (raise e ≫= f) s = (Raise e, s).
Proof. reflexivity. Qed.

Lemma bind_inv_ok {A B} (m : M E S A) (f : A -> M E S B) s b s' :
  (m ≫= f) s = (Ok b, s') ->
  exists a s0, m s = (Ok a, s0) /\ f a s0 = (Ok b, s').
Proof.
  unfold mbind, M_bind. destruct (m s) as [[a|e] s0]; intros H; [by eauto|by inversion H].
Qed.

Lemma bind_step {A B} (m : M E S A) (f : A -> M E S B) s a s0 :
  m s = (Ok a, s0) -> (m ≫= f) s = f a s0.
Proof. unfold mbind, M_bind. by intros ->. Qed.

Lemma bind_stop {A B} (m : M E S A) (f : A -> M E S B) s e s0 :
  m s = (Raise e, s0) -> (m ≫= f) s = (Raise e, s0).
Proof. unfold mbind, M_bind. by intros ->. Qed.

Lemma raise_if_inv (t : bool) (e : E) (s s' : S) u :
  raise_if t e s = (Ok u, s') -> t = false /\ s' = s.
Proof. unfold raise_if. destruct t; cbn; intros H; inversion H; auto. Qed.

Lemma atomic_ok {A} (m : M E S A) s a s' :
  atomic m s = (Ok a, s') <-> m s = (Ok a, s').
Proof. unfold atomic. destruct (m s) as [[?|?] ?]; split; intros H; inversion H; auto. Qed.

Lemma atomic_raise {A} (m : M E S A) s e s' :
  atomic m s = (Raise e, s') -> s' = s.
Proof. unfold atomic. destruct (m s) as [[?|?] ?]; intros H; inversion H; auto. Qed.
End MonadLaws.

(** [m] keeps [P]: whatever it answers, the state it leaves satisfies [P]
    if the state it found did. *)
Definition preserves {E S A : Type} (P : S -> Prop) (m : M E S A) : Prop :=
  forall s, P s -> P (m s).2.

Section Preserves.
Context {E S : Type} (P : S -> Prop).

Lemma preserves_ret {A} (a : A) : preserves P (mret a : M E S A).
Proof. by intros s. Qed.

Lemma preserves_raise {A} e : preserves P (raise e : M E S A).
Proof. by intros s. Qed.

Lemma preserves_raise_if t e : preserves P (raise_if t e : M E S unit).
Proof. intros s. unfold raise_if. by destruct t. Qed.

Lemma preserves_lift {A} (o : outcome E A) : preserves P (lift o : M E S A).
Proof. by intros s. Qed.

Lemma preserves_gets {A} (f : S -> A) : preserves P (gets f : M E S A).
Proof. by intros s. Qed.

Lemma preserves_get : preserves P (get : M E S S).
Proof. by intros s. Qed.

Lemma preserves_modify f : (forall s, P s -> P (f s)) -> preserves P (modify f : M E S unit).
Proof. intros H s. apply H. Qed.

Lemma preserves_bind {A B} (m : M E S A) (f : A -> M E S B) :
  preserves P m -> (forall a, preserves P (f a)) -> preserves P (m ≫= f).
Proof.
  intros Hm Hf s Hs. unfold mbind, M_bind. specialize (Hm s Hs).
  destruct (m s) as [[a|e] s']; cbn in *; [by apply Hf|done].
Qed.

Lemma preserves_atomic {A} (m : M E S A) : preserves P m -> preserves P (atomic m).
Proof.
  intros Hm s Hs. unfold atomic. specialize (Hm s Hs).
  by destruct (m s) as [[a|e] s'].
Qed.

Lemma preserves_try {A} (m : M E S A) h :
  preserves P m -> (forall e k, h e = Some k -> preserves P k) -> preserves P (try m h).
Proof.
  intros Hm Hh s Hs. unfold try. specialize (Hm s Hs).
  destruct (m s) as [[a|e] s']; cbn in *; [done|].
  destruct (h e) as [k|] eqn:He; [by eapply Hh|done].
Qed.

Lemma preserves_for_each {A} (f : A -> M E S unit) xs :
  (forall x, preserves P (f x)) -> preserves P (for_each f xs).
Proof.
  intros Hf. induction xs as [|x xs IH]; cbn; [apply preserves_ret|].
  apply preserves_bind; [apply Hf|by intros _].
Qed.

Lemma preserves_fold_each {A B} (f : B -> A -> M E S B) xs :
  (forall b x, preserves P (f b x)) -> forall b, preserves P (fold_each f b xs).
Proof.
  intros Hf. induction xs as [|x xs IH]; cbn; intros b; [apply preserves_ret|].
  apply preserves_bind; [apply Hf|by intros b'].
Qed.
End Preserves.

Create HintDb keeps.
#[export] Hint Resolve preserves_ret preserves_raise preserves_raise_if preserves_lift preserves_gets
  preserves_get preserves_bind preserves_atomic preserves_for_each preserves_fold_each : keeps.

(** * Reading a run backwards *)

Section Inversion.
Context {E S : Type}.

Lemma bind_inv {A B} (m : M E S A) (f : A -> M E S B) s o s' :
  (m ≫= f) s = (o, s') ->
  (exists a s0, m s = (Ok a, s0) /\ f a s0 = (o, s')) \/ (exists e, m s = (Raise e, s') /\ o = Raise e).
Proof.
  unfold mbind, M_bind. destruct (m s) as [[a|e] s0]; intros H; [left; eauto|right].
  exists e. by simplify_eq.
Qed.

Lemma ret_inv {A} (a : A) s o s' : (mret a : M E S A) s = (o, s') -> o = Ok a /\ s' = s.
Proof. intros H. by inversion H. Qed.

Lemma raise_inv {A} e s o s' : (raise e : M E S A) s = (o, s') -> o = Raise e /\ s' = s.
Proof. intros H. by inversion H. Qed.

Lemma lift_inv {A} (r : outcome E A) s o s' : (lift r : M E S A) s = (o, s') -> o = r /\ s' = s.
Proof. intros H. by inversion H. Qed.

Lemma get_inv s o s' : (get : M E S S) s = (o, s') -> o = Ok s /\ s' = s.
Proof. intros H. by inversion H. Qed.

Lemma gets_inv {A} (f : S -> A) s o s' : (gets f : M E S A) s = (o, s') -> o = Ok (f s) /\ s' = s.
Proof. intros H. by inversion H. Qed.

Lemma modify_inv (f : S -> S) s o s' : (modify f : M E S unit) s = (o, s') -> o = Ok tt /\ s' = f s.
Proof. intros H. by inversion H. Qed.

Lemma act_inv {A} (f : S -> outcome E A * S) s r : (act f : M E S A) s = r -> f s = r.
Proof. done. Qed.

Lemma guard_inv (t : bool) (e : E) s o s' :
  (raise_if t e : M E S unit) s = (o, s') ->
  s' = s /\ ((t = true /\ o = Raise e) \/ (t = false /\ o = Ok tt)).
Proof. unfold raise_if. destruct t; intros H; inversion H; auto. Qed.

Lemma atomic_inv {A} (m : M E S A) s o s' :
  atomic m s = (o, s') ->
  (exists a, m s = (Ok a, s') /\ o = Ok a) \/ (exists e s0, m s = (Raise e, s0) /\ o = Raise e /\ s' = s).
Proof.
  unfold atomic. destruct (m s) as [[a|e] s0]; intros H; simplify_eq; [left; eauto|right; eauto].
Qed.

Lemma try_inv {A} (m : M E S A) h s o s' :
  try m h s = (o, s') ->
  (exists a, m s = (Ok a, s') /\ o = Ok a) \/
  (exists e s0, m s = (Raise e, s0) /\
     match h e with Some k => k s0 = (o, s') | None => o = Raise e /\ s' = s0 end).
Proof.
  unfold try. destruct (m s) as [[a|e] s0]; intros H; [left; simplify_eq; eauto|right].
  exists e, s0. split; [done|]. destruct (h e); by simplify_eq.
Qed.
End Inversion.

(** Takes the run in [H] apart, one construct at a time; [run] all of them it can
    without choosing a branch of a [match] on data. *)
Ltac run_step H :=
  lazymatch type of H with
  | (_ ≫= _) _ = (_, _) =>
      let H1 := fresh "Hrun" in
      apply bind_inv in H as [(? & ? & H1 & H)|(? & H & ?)]; [run_step H1|]
  | (mret _) _ = (_, _) => apply ret_inv in H as [? ?]
  | (raise _) _ = (_, _) => apply raise_inv in H as [? ?]
  | (lift _) _ = (_, _) => apply lift_inv in H as [? ?]
  | get _ = (_, _) => apply get_inv in H as [? ?]
  | (gets _) _ = (_, _) => apply gets_inv in H as [? ?]
  | (modify _) _ = (_, _) => apply modify_inv in H as [? ?]
  | (act _) _ = (_, _) => apply act_inv in H
  | (raise_if _ _) _ = (_, _) => apply guard_inv in H as (? & [[? ?]|[? ?]])
  | (atomic _) _ = (_, _) => apply atomic_inv in H as [(? & H & ?)|(? & ? & H & ? & ?)]
  | _ => idtac
  end; simplify_eq/=.

Ltac run :=
  repeat match goal with
  | H : (_ ≫= _) _ = (_, _) |- _ => run_step H
  | H : (mret _) _ = (_, _) |- _ => run_step H
  | H : (raise _) _ = (_, _) |- _ => run_step H
  | H : (lift _) _ = (_, _) |- _ => run_step H
  | H : get _ = (_, _) |- _ => run_step H
  | H : (gets _) _ = (_, _) |- _ => run_step H
  | H : (modify _) _ = (_, _) |- _ => run_step H
  | H : (act _) _ = (_, _) |- _ => run_step H
  | H : (raise_if _ _) _ = (_, _) |- _ => run_step H
  | H : (atomic _) _ = (_, _) |- _ => run_step H
  end.

(** [run], taking both branches of every test and every case of a [match] it meets. *)
Ltac run_all :=
  repeat first
    [ progress run
    | match goal with
      | H : (if ?b then _ else _) _ = (_, _) |- _ => destruct b eqn:?
      | H : match ?x with _ => _ end _ = (_, _) |- _ => destruct x eqn:?
      | H : context [let '(_, _) := ?x in _] |- _ => destruct x eqn:?
      end ].
