(* ===== verification/PyStr.v ===== *)
(** Python string and table operations the components share.

    A [str] is modelled as a [string] whose characters are the code points
    0-255 (Latin-1); each operation below is the Python method of that name on
    such text.  Tables whose row order matters are lists in insertion order. *)
From stdpp Require Import base gmap strings list pretty.
From Stdlib Require Import Ascii ZArith Lia.
From S2P Require Import Prelude.

#[local] Open Scope string_scope.

(** * [str] methods *)

Definition code (c : ascii) : nat := nat_of_ascii c.

(** [str.isspace] of one character. *)
Definition is_space (c : ascii) : bool :=
  let n := code c in
  (((9 <=? n) && (n <=? 13)) || ((28 <=? n) && (n <=? 32)) || (n =? 133) || (n =? 160))%nat.

(** [str.isdigit] of one character: superscripts two, three and one count. *)
Definition is_digit (c : ascii) : bool :=
  let n := code c in
  (((48 <=? n) && (n <=? 57)) || (n =? 178) || (n =? 179) || (n =? 185))%nat.

Fixpoint str_all (p : ascii -> bool) (s : string) : bool :=
  match s with
  | "" => true
  | String c s' => p c && str_all p s'
  end.

(** [s.isdigit()]: false of the empty string. *)
Definition isdigit (s : string) : bool :=
  match s with "" => false | _ => str_all is_digit s end.

Fixpoint mem_char (c : ascii) (s : string) : bool :=
  match s with
  | "" => false
  | String d s' => if decide (c = d) then true else mem_char c s'
  end.

(** [s.count(c)] for one character. *)
Fixpoint count_char (c : ascii) (s : string) : nat :=
  match s with
  | "" => 0
  | String d s' => (if decide (c = d) then 1 else 0) + count_char c s'
  end.

(** [s.partition(c)]: before, whether found, after. *)
Fixpoint partition (c : ascii) (s : string) : string * bool * string :=
  match s with
  | "" => ("", false, "")
  | String d s' =>
      if decide (c = d) then ("", true, s')
      else let '(b, f, a) := partition c s' in (String d b, f, a)
  end.

(** [s.rpartition(c)]: before the last, whether found, after; all of it after when not found. *)
Fixpoint rpartition (c : ascii) (s : string) : string * bool * string :=
  match s with
  | "" => ("", false, "")
  | String d s' =>
      match rpartition c s' with
      | (b, true, a) => (String d b, true, a)
      | (_, false, _) => if decide (c = d) then ("", true, s') else ("", false, String d s')
      end
  end.

(** [s.split(c)]: never empty. *)
Fixpoint split_on (c : ascii) (s : string) : list string :=
  match s with
  | "" => [""]
  | String d s' =>
      if decide (c = d) then "" :: split_on c s'
      else match split_on c s' with
           | [] => [String d ""]
           | w :: ws => String d w :: ws
           end
  end.

Fixpoint lstrip_by (p : ascii -> bool) (s : string) : string :=
  match s with
  | "" => ""
  | String c s' => if p c then lstrip_by p s' else s
  end.

Fixpoint rstrip_by (p : ascii -> bool) (s : string) : string :=
  match s with
  | "" => ""
  | String c s' =>
      match rstrip_by p s' with
      | "" => if p c then "" else String c ""
      | t => String c t
      end
  end.

(** [s.strip()] *)
Definition strip (s : string) : string := rstrip_by is_space (lstrip_by is_space s).

Definition lower_char (c : ascii) : ascii :=
  let n := code c in
  if (((65 <=? n) && (n <=? 90)) || ((192 <=? n) && (n <=? 222) && negb (n =? 215)))%nat
  then ascii_of_nat (n + 32) else c.

(** [s.lower()] *)
Fixpoint lower (s : string) : string :=
  match s with
  | "" => ""
  | String c s' => String (lower_char c) (lower s')
  end.

(** [s[:n]] *)
Fixpoint take_str (n : nat) (s : string) : string :=
  match n, s with
  | 0, _ | _, "" => ""
  | S n', String c s' => String c (take_str n' s')
  end.

(** [sep.join(parts)] *)
Fixpoint join (sep : string) (parts : list string) : string :=
  match parts with
  | [] => ""
  | [p] => p
  | p :: ps => p +:+ sep +:+ join sep ps
  end.

(** [s.startswith(p)] *)
Definition startswith (p s : string) : bool := String.prefix p s.

(** [ui.ended(text)] *)
Fixpoint last_char (s : string) : option ascii :=
  match s with "" => None | String c "" => Some c | String _ r => last_char r end.

Definition ended (text : string) : string :=
  let stripped := rstrip_by is_space text in
  match last_char stripped with
  | None => stripped
  | Some c => if bool_decide (c ∈ ["."%char; "!"%char; "?"%char]) then stripped else stripped +:+ "."
  end.

(** [a or b] on strings. *)
Definition str_or (a b : string) : string := if decide (a = "") then b else a.

(** [s.replace(c, r)] for one character. *)
Fixpoint replace_char (c : ascii) (r s : string) : string :=
  match s with
  | "" => ""
  | String d s' => (if decide (c = d) then r else String d "") +:+ replace_char c r s'
  end.

Definition hex_char (n : nat) : ascii :=
  ascii_of_nat (if n <? 10 then 48 + n else 87 + n)%nat.

(** One character of [repr(s)], between quotes [q]. *)
Definition repr_char (q c : ascii) : string :=
  let n := code c in
  if decide (c = q) then String "\"%char (String c "")
  else if (n =? 92)%nat then "\\"
  else if (n =? 10)%nat then "\n"
  else if (n =? 13)%nat then "\r"
  else if (n =? 9)%nat then "\t"
  else if (((n <? 32) || ((127 <=? n) && (n <=? 160)) || (n =? 173)))%nat
  then "\x" +:+ String (hex_char (n / 16)) (String (hex_char (n mod 16)) "")
  else String c "".

Fixpoint repr_chars (q : ascii) (s : string) : string :=
  match s with
  | "" => String q ""
  | String c s' => repr_char q c +:+ repr_chars q s'
  end.

Definition single_quote : ascii := "039"%char.
Definition double_quote : ascii := "034"%char.

(** [repr(s)]: in double quotes only where that spares an escape. *)
Definition repr (s : string) : string :=
  let q := if mem_char single_quote s && negb (mem_char double_quote s) then double_quote else single_quote in
  String q (repr_chars q s).

(** [sorted(names)]: by code point. *)
Fixpoint insert_name (x : string) (l : list string) : list string :=
  match l with
  | [] => [x]
  | y :: l' => if String.leb x y then x :: l else y :: insert_name x l'
  end.

Definition sorted (l : list string) : list string := fold_right insert_name [] l.

Lemma insert_name_perm x l : insert_name x l ≡ₚ x :: l.
Proof.
  induction l as [|y l IH]; cbn; [done|]. destruct (String.leb x y); [done|].
  rewrite IH. apply Permutation_swap.
Qed.

Lemma sorted_perm l : sorted l ≡ₚ l.
Proof. induction l as [|x l IH]; cbn; [done|]. by rewrite insert_name_perm, IH. Qed.

(** [int(s)] of text [str.isdigit] holds of: superscripts are digits [int] refuses,
    and so is text longer than the interpreter's limit. *)
Definition ascii_digit (c : ascii) : bool := ((48 <=? code c) && (code c <=? 57))%nat.

Fixpoint digits_value (acc : Z) (s : string) : Z :=
  match s with
  | "" => acc
  | String c s' => digits_value (10 * acc + (Z.of_nat (code c) - 48))%Z s'
  end.

Definition int_of (s : string) : option Z :=
  if str_all ascii_digit s && negb (bool_decide (s = "")) && (Z.of_nat (String.length s) <=? 4300)%Z
  then Some (digits_value 0 s) else None.

(** [f"{n:,}"] of a count. *)
Fixpoint commas_rev (n : nat) (s : list ascii) : list ascii :=
  match s with
  | [] => []
  | c :: s' =>
      match n with
      | 3 => ","%char :: c :: commas_rev 1 s'
      | _ => c :: commas_rev (S n) s'
      end
  end.

Definition with_commas (n : nat) : string :=
  String.string_of_list_ascii (rev (commas_rev 0 (rev (String.list_ascii_of_string (pretty n))))).

(** [counted(n, one, many)] *)
Definition counted (n : nat) (one many : string) : string :=
  with_commas n +:+ " " +:+ (if (n =? 1)%nat then one else many).

Example with_commas_thousand : with_commas 1234567 = "1,234,567".
Proof. vm_compute. reflexivity. Qed.

(** [sorted(set(a) - set(b))] *)
Definition minus_names (a b : list string) : list string :=
  sorted (remove_dups (List.filter (fun x => negb (bool_decide (x ∈ b))) a)).

(** * Tables as lists of rows *)

Section Table.
Context {A : Type}.

(** [.filter(p).first()] *)
Fixpoint first_where (p : A -> bool) (rows : list A) : option A :=
  match rows with
  | [] => None
  | r :: rs => if p r then Some r else first_where p rs
  end.

(** [.order_by(key)]: equal keys stay in the order their rows were created. *)
Fixpoint insert_by (key : A -> string) (x : A) (rows : list A) : list A :=
  match rows with
  | [] => [x]
  | y :: ys => if String.leb (key x) (key y) then x :: rows else y :: insert_by key x ys
  end.

Definition order_by (key : A -> string) (rows : list A) : list A := fold_right (insert_by key) [] rows.

Lemma elem_of_rev (l : list A) x : x ∈ rev l <-> x ∈ l.
Proof. by rewrite !list_elem_of_In, <- in_rev. Qed.

(** [.order_by(moment)]: oldest first, equal moments in the order their rows were created. *)
Fixpoint insert_time (key : A -> Z) (x : A) (rows : list A) : list A :=
  match rows with
  | [] => [x]
  | y :: ys => if (key x <=? key y)%Z then x :: rows else y :: insert_time key x ys
  end.

Definition order_by_time (key : A -> Z) (rows : list A) : list A := fold_right (insert_time key) [] rows.

Lemma insert_time_perm key x rows : insert_time key x rows ≡ₚ x :: rows.
Proof.
  induction rows as [|y ys IH]; cbn; [done|]. destruct (_ <=? _)%Z; [done|].
  rewrite IH. apply Permutation_swap.
Qed.

Lemma order_by_time_perm key rows : order_by_time key rows ≡ₚ rows.
Proof. induction rows as [|x xs IH]; cbn; [done|]. by rewrite insert_time_perm, IH. Qed.

Lemma insert_by_perm key x rows : insert_by key x rows ≡ₚ x :: rows.
Proof.
  induction rows as [|y ys IH]; cbn; [done|]. destruct (String.leb _ _); [done|].
  rewrite IH. apply Permutation_swap.
Qed.

Lemma order_by_perm key rows : order_by key rows ≡ₚ rows.
Proof. induction rows as [|x xs IH]; cbn; [done|]. by rewrite insert_by_perm, IH. Qed.

Lemma elem_of_order_by key rows x : x ∈ order_by key rows <-> x ∈ rows.
Proof. by rewrite order_by_perm. Qed.

(** [.filter(p).update(f)], and a row's [save] when [p] is its key. *)
Definition update_where (p : A -> bool) (f : A -> A) (rows : list A) : list A :=
  map (fun r => if p r then f r else r) rows.

(** [.filter(p)] *)
Definition rows_where (p : A -> bool) (rows : list A) : list A :=
  List.filter p rows.

(** [.filter(p).delete()] *)
Definition delete_where (p : A -> bool) (rows : list A) : list A :=
  List.filter (fun r => negb (p r)) rows.

(** [.filter(p).count()] *)
Definition count_where (p : A -> bool) (rows : list A) : nat :=
  length (rows_where p rows).

Lemma first_where_some p rows r :
  first_where p rows = Some r -> r ∈ rows /\ p r = true.
Proof.
  induction rows as [|x xs IH]; cbn; [done|].
  destruct (p x) eqn:Hp; intros H; simplify_eq; [split; [by left|done]|].
  destruct (IH H). split; [by right|done].
Qed.

Lemma first_where_none p rows :
  first_where p rows = None -> forall r, r ∈ rows -> p r = false.
Proof.
  induction rows as [|x xs IH]; cbn; intros H r Hr; [by apply elem_of_nil in Hr|].
  destruct (p x) eqn:Hp; [done|].
  apply elem_of_cons in Hr as [->|Hr]; [done|by apply IH].
Qed.

Lemma first_where_is_some p rows r :
  r ∈ rows -> p r = true -> exists x, first_where p rows = Some x.
Proof.
  intros Hr Hp. destruct (first_where p rows) as [x|] eqn:H; [by eauto|].
  by rewrite (first_where_none _ _ H r Hr) in Hp.
Qed.

Lemma elem_of_update_where p f rows x :
  x ∈ update_where p f rows <-> exists r, r ∈ rows /\ x = if p r then f r else r.
Proof.
  unfold update_where. rewrite list_elem_of_fmap. split; intros (r & H1 & H2); eauto.
Qed.

Lemma length_update_where p f rows : length (update_where p f rows) = length rows.
Proof. apply length_map. Qed.

Lemma map_update_where {B} (g : A -> B) p f rows :
  (forall r, r ∈ rows -> p r = true -> g (f r) = g r) ->
  map g (update_where p f rows) = map g rows.
Proof.
  unfold update_where. intros H. rewrite map_map.
  induction rows as [|x xs IH]; cbn; [done|]. f_equal.
  - destruct (p x) eqn:Hp; [apply H; [by left|done]|done].
  - apply IH. intros r Hr. apply H. by right.
Qed.

Lemma elem_of_rows_where p rows x : x ∈ rows_where p rows <-> x ∈ rows /\ p x = true.
Proof. unfold rows_where. rewrite !list_elem_of_In. apply filter_In. Qed.

Lemma elem_of_delete_where p rows x : x ∈ delete_where p rows <-> x ∈ rows /\ p x = false.
Proof.
  unfold delete_where. rewrite !list_elem_of_In, filter_In.
  by rewrite negb_true_iff.
Qed.

Lemma update_where_none p f rows :
  (forall r, r ∈ rows -> p r = false) -> update_where p f rows = rows.
Proof.
  unfold update_where. induction rows as [|x xs IH]; cbn; intros H; [done|].
  rewrite H by left. f_equal. apply IH. intros r Hr. apply H. by right.
Qed.
End Table.

(** * Laws of the string operations *)

Lemma partition_found c s b a :
  partition c s = (b, true, a) -> s = b +:+ String c a /\ mem_char c b = false.
Proof.
  revert b a. induction s as [|d s IH]; intros b a; cbn; [done|].
  case_decide as Hd; intros H; simplify_eq/=; [done|].
  destruct (partition c s) as [[b' f'] a'] eqn:Hp; simplify_eq/=.
  destruct (IH _ _ eq_refl) as [-> Hb]. split; [done|].
  by rewrite decide_False by done.
Qed.

Lemma mem_char_app c x y : mem_char c (x +:+ y) = mem_char c x || mem_char c y.
Proof.
  induction x as [|d x IH]; [done|].
  change (mem_char c (String d x +:+ y)) with (if decide (c = d) then true else mem_char c (x +:+ y)).
  cbn [mem_char]. by case_decide.
Qed.

Lemma str_all_app p x y : str_all p (x +:+ y) = str_all p x && str_all p y.
Proof. induction x as [|c x IH]; [done|]. change (String c x +:+ y) with (String c (x +:+ y)). cbn. by rewrite IH, andb_assoc. Qed.

Lemma append_empty_r x : x +:+ "" = x.
Proof. induction x as [|c x IH]; [done|]. change (String c x +:+ "") with (String c (x +:+ "")). by rewrite IH. Qed.

Lemma mem_char_here c s : mem_char c (String c s) = true.
Proof. cbn. by rewrite decide_True. Qed.

Lemma rpartition_spec c s :
  match rpartition c s with
  | (b, true, a) => s = b +:+ String c a /\ mem_char c a = false
  | (b, false, a) => b = "" /\ a = s /\ mem_char c s = false
  end.
Proof.
  induction s as [|d s IH]; cbn; [done|].
  destruct (rpartition c s) as [[b f] a]. destruct f.
  - destruct IH as [-> Ha]. done.
  - destruct IH as (-> & -> & Ha). case_decide as Hd; [by subst|done].
Qed.

(** The last separator splits apart what was joined, when the second part has none. *)
Lemma rpartition_join c x y :
  mem_char c y = false -> rpartition c (x +:+ String c y) = (x, true, y).
Proof.
  intros Hy. induction x as [|d x IH].
  - change ("" +:+ String c y) with (String c y). cbn [rpartition].
    pose proof (rpartition_spec c y) as H.
    destruct (rpartition c y) as [[b f] a]. destruct f.
    + destruct H as [-> Ha]. exfalso.
      by rewrite mem_char_app, mem_char_here, orb_true_r in Hy.
    + by rewrite decide_True.
  - change (rpartition c (String d x +:+ String c y)) with
      (match rpartition c (x +:+ String c y) with
       | (b, true, a) => (String d b, true, a)
       | (_, false, _) => if decide (c = d) then ("", true, x +:+ String c y) else ("", false, String d (x +:+ String c y))
       end).
    by rewrite IH.
Qed.

Lemma join_split c s : join (String c "") (split_on c s) = s.
Proof.
  induction s as [|d s IH]; [done|]. cbn [split_on].
  case_decide as Hd; subst.
  - destruct (split_on d s) as [|w ws] eqn:Hs; [by destruct s; cbn in Hs; repeat case_decide; simplify_eq|].
    change (join (String d "") ("" :: w :: ws)) with (String d (join (String d "") (w :: ws))).
    by rewrite IH.
  - destruct (split_on c s) as [|w ws] eqn:Hs.
    + exfalso. destruct s as [|e s]; cbn in Hs; [done|].
      case_decide; [done|]. by destruct (split_on c s).
    + destruct ws as [|w' ws]; [by cbn in *; rewrite IH|].
      change (String d (join (String c "") (w :: w' :: ws)) = String d s).
      by rewrite IH.
Qed.

Lemma split_on_none c s : mem_char c s = false -> split_on c s = [s].
Proof.
  induction s as [|d s IH]; [done|]. cbn [mem_char split_on]. case_decide; [done|].
  intros Hm. by rewrite IH.
Qed.

Lemma split_on_app c x y : mem_char c x = false -> split_on c (x +:+ String c y) = x :: split_on c y.
Proof.
  induction x as [|d x IH].
  - intros _. change ("" +:+ String c y) with (String c y). cbn [split_on]. by rewrite decide_True.
  - change (String d x +:+ String c y) with (String d (x +:+ String c y)). cbn [mem_char split_on].
    case_decide; [done|]. intros Hm. by rewrite IH.
Qed.

(** No part of a split holds the separator. *)
Lemma split_on_parts c s w : w ∈ split_on c s -> mem_char c w = false.
Proof.
  revert w. induction s as [|d s IH]; intros w; cbn [split_on].
  - by intros ->%list_elem_of_singleton.
  - case_decide as Hd.
    + intros [->|Hw]%elem_of_cons; [done|by apply IH].
    + destruct (split_on c s) as [|v vs]; [intros ->%list_elem_of_singleton; cbn; by rewrite decide_False|].
      intros [->|Hw]%elem_of_cons; [cbn; rewrite decide_False by done; apply IH; by left|apply IH; by right].
Qed.

Lemma join_app_sep c x y ys : join (String c "") (x :: y :: ys) = x +:+ String c (join (String c "") (y :: ys)).
Proof. reflexivity. Qed.

Lemma update_where_ext {A} (p q : A -> bool) (f g : A -> A) rows :
  (forall r, r ∈ rows -> (if p r then f r else r) = (if q r then g r else r)) -> update_where p f rows = update_where q g rows.
Proof.
  unfold update_where. intros H. induction rows as [|x xs IH]; cbn; [done|]. f_equal.
  - apply H. by left.
  - apply IH. intros r Hr. apply H. by right.
Qed.

Lemma update_where_twice {A} (p q : A -> bool) (f g : A -> A) rows :
  update_where q g (update_where p f rows) = map (fun r => let r' := if p r then f r else r in if q r' then g r' else r') rows.
Proof. unfold update_where. by rewrite map_map. Qed.

Lemma NoDup_rows_where {A} (p : A -> bool) rows : NoDup rows -> NoDup (rows_where p rows).
Proof.
  unfold rows_where. induction rows as [|x xs IH]; cbn; [done|]. intros [Hx Hnd]%NoDup_cons.
  destruct (p x); [|by apply IH]. apply NoDup_cons. split; [|by apply IH].
  intros H. apply Hx. apply list_elem_of_In, filter_In in H as [H _]. by apply list_elem_of_In.
Qed.

Lemma firstn_app_self {A} n (l : list A) : (firstn n l ++ skipn n l)%list = l.
Proof. apply firstn_skipn. Qed.

Lemma NoDup_firstn {A} n (l : list A) : NoDup l -> NoDup (firstn n l).
Proof. intros H. rewrite <- (firstn_app_self n l) in H. by apply NoDup_app in H as [? _]. Qed.

Lemma elem_of_firstn {A} n (l : list A) x : x ∈ firstn n l -> x ∈ l.
Proof. intros H. rewrite <- (firstn_app_self n l). apply elem_of_app. by left. Qed.

(** Rows under distinct keys are told apart by them. *)
Lemma unique_by {A B} (g : A -> B) rows x y : NoDup (map g rows) -> x ∈ rows -> y ∈ rows -> g x = g y -> x = y.
Proof.
  induction rows as [|z zs IH]; intros Hnd Hx Hy Heq; [by apply elem_of_nil in Hx|].
  cbn in Hnd. apply NoDup_cons in Hnd as [Hz Hnd]. apply elem_of_cons in Hx as [->|Hx], Hy as [->|Hy]; [done| | |by apply IH].
  - destruct Hz. rewrite Heq. by apply list_elem_of_fmap_2.
  - destruct Hz. rewrite <- Heq. by apply list_elem_of_fmap_2.
Qed.

Lemma NoDup_map_delete {A B} (g : A -> B) p rows : NoDup (map g rows) -> NoDup (map g (delete_where p rows)).
Proof.
  unfold delete_where. induction rows as [|x xs IH]; cbn; [done|]. intros [Hx Hnd]%NoDup_cons. destruct (p x); cbn; [by apply IH|].
  apply NoDup_cons. split; [|by apply IH]. intros (y & Heq & Hy)%list_elem_of_fmap. apply list_elem_of_In, filter_In in Hy as [Hy _].
  apply Hx, list_elem_of_fmap. exists y. split; [done|]. by apply list_elem_of_In.
Qed.

Lemma NoDup_map_rows {A B} (g : A -> B) p rows : NoDup (map g rows) -> NoDup (map g (rows_where p rows)).
Proof.
  intros H. apply (NoDup_map_delete g (fun r => negb (p r))) in H. unfold delete_where in H. unfold rows_where.
  rewrite (List.filter_ext _ p) in H; [done|]. intros r. apply negb_involutive.
Qed.
