(* ===== verification/Json.v ===== *)
(** JSON values, Python dict access, and the canonical text a fingerprint digests.

    A payload, a baseline, an answer and a validated command's attributes are
    [json].  A dict is an association list in insertion order, read and written
    as Python reads and writes one.  Numbers are integers: a float takes part in
    no rule modelled here.  [dumps] is [json.dumps] with [sort_keys=True] and
    [separators=(",", ":")], as [approvals._canonical] and
    [idempotency.request_fingerprint] call it. *)
From stdpp Require Import base gmap strings list pretty sorting.
From Stdlib Require Import Ascii ZArith Lia.
From S2P Require Import Prelude PyStr.

#[local] Open Scope string_scope.

Inductive json : Type :=
| JNull
| JBool (b : bool)
| JNum (z : Z)
| JStr (s : string)
| JList (items : list json)
| JObj (fields : list (string * json)).

Section JsonInd.
Variable P : json -> Prop.
Hypotheses (Hnull : P JNull) (Hbool : forall b, P (JBool b)) (Hnum : forall z, P (JNum z))
  (Hstr : forall s, P (JStr s)) (Hlist : forall l, Forall P l -> P (JList l))
  (Hobj : forall l, Forall (fun kv => P kv.2) l -> P (JObj l)).

(** Induction with the hypothesis for every item and every field. *)
Fixpoint json_rect' (j : json) : P j :=
  match j with
  | JNull => Hnull
  | JBool b => Hbool b
  | JNum z => Hnum z
  | JStr s => Hstr s
  | JList l => Hlist l ((fix go l := match l return Forall P l with
      | [] => Forall_nil_2 _
      | x :: xs => Forall_cons_2 _ _ _ (json_rect' x) (go xs) end) l)
  | JObj l => Hobj l ((fix go l := match l return Forall (fun kv => P kv.2) l with
      | [] => Forall_nil_2 _
      | kv :: xs => Forall_cons_2 _ kv _ (json_rect' kv.2) (go xs) end) l)
  end.
End JsonInd.

#[export] Instance json_eq_dec : EqDecision json.
Proof.
  refine (fix go (x y : json) : {x = y} + {x <> y} := _).
  assert (forall l1 l2 : list json, {l1 = l2} + {l1 <> l2}) as Hl.
  { fix IH 1. intros [|a l1] [|b l2]; [by left|by right|by right|].
    destruct (go a b) as [->|]; [|right; congruence].
    destruct (IH l1 l2) as [->|]; [by left|right; congruence]. }
  assert (forall l1 l2 : list (string * json), {l1 = l2} + {l1 <> l2}) as Ho.
  { fix IH 1. intros [|[k a] l1] [|[k' b] l2]; [by left|by right|by right|].
    destruct (decide (k = k')) as [->|]; [|right; congruence].
    destruct (go a b) as [->|]; [|right; congruence].
    destruct (IH l1 l2) as [->|]; [by left|right; congruence]. }
  destruct x as [|b|z|s|l|o], y as [|b'|z'|s'|l'|o']; try (right; discriminate).
  - by left.
  - destruct (decide (b = b')) as [->|]; [by left|right; congruence].
  - destruct (decide (z = z')) as [->|]; [by left|right; congruence].
  - destruct (decide (s = s')) as [->|]; [by left|right; congruence].
  - destruct (Hl l l') as [->|]; [by left|right; congruence].
  - destruct (Ho o o') as [->|]; [by left|right; congruence].
Defined.

(** * Dicts *)

Definition dict : Type := list (string * json).

(** [d.get(k)], [None] when absent. *)
Fixpoint dget (k : string) (d : dict) : option json :=
  match d with
  | [] => None
  | (k', v) :: d' => if decide (k = k') then Some v else dget k d'
  end.

(** [k in d] *)
Definition dhas (k : string) (d : dict) : bool :=
  match dget k d with Some _ => true | None => false end.

(** [d[k] = v]: in place where the key stands, else at the end. *)
Fixpoint dset (k : string) (v : json) (d : dict) : dict :=
  match d with
  | [] => [(k, v)]
  | (k', v') :: d' => if decide (k = k') then (k, v) :: d' else (k', v') :: dset k v d'
  end.

(** [{**a, **b}] *)
Definition dmerge (a b : dict) : dict := fold_left (fun d kv => dset kv.1 kv.2 d) b a.

(** [{key: value for key, value in d.items() if key != k}] *)
Definition dwithout (k : string) (d : dict) : dict :=
  List.filter (fun kv => negb (bool_decide (kv.1 = k))) d.

Definition keys (d : dict) : list string := map fst d.

(** What a key holds after one is set. *)
Lemma dget_dset k j v d : dget j (dset k v d) = if decide (j = k) then Some v else dget j d.
Proof.
  induction d as [|[k' v'] d IH]; cbn; [by repeat case_decide|].
  repeat (case_decide; cbn); subst; try done; by rewrite ?decide_True, ?decide_False in * by done.
Qed.

(** [getattr(command, name, None)] of a validated command. *)
Definition attr (name : string) (command : json) : option json :=
  match command with JObj d => dget name d | _ => None end.

(** [str(value)] of a text, a number, a truth or nothing. *)
Definition str_of (v : json) : string :=
  match v with
  | JStr s => s
  | JNull => "None"
  | JBool true => "True"
  | JBool false => "False"
  | JNum z => pretty z
  | JList _ | JObj _ => ""
  end.

(** [repr(value)] and [str(value)] of any JSON value. *)
Fixpoint py_repr (j : json) : string :=
  match j with
  | JStr s => repr s
  | JList l => "[" +:+ join ", " (map py_repr l) +:+ "]"
  | JObj d => "{" +:+ join ", " (map (fun kv => repr kv.1 +:+ ": " +:+ py_repr kv.2) d) +:+ "}"
  | _ => str_of j
  end.

Definition py_str (j : json) : string := match j with JStr s => s | _ => py_repr j end.

(** [str(getattr(command, name, default))], of an attribute that is no list and no dict. *)
Definition attr_str (name : string) (command : json) : string :=
  match attr name command with Some v => str_of v | None => "" end.

(** Python truth. *)
Definition truthy (j : json) : bool :=
  match j with
  | JNull | JBool false | JNum 0 | JStr "" | JList [] | JObj [] => false
  | _ => true
  end.

(** * Canonical text *)

Definition hex_digit (n : nat) : ascii :=
  ascii_of_nat (if (n <? 10)%nat then 48 + n else 87 + n).

(** One character as [json.dumps] writes it in a string, [ensure_ascii]. *)
Definition esc (c : ascii) : string :=
  let n := code c in
  if (n =? 34)%nat then "\" +:+ String c ""
  else if (n =? 92)%nat then "\\"
  else if (n =? 10)%nat then "\n"
  else if (n =? 13)%nat then "\r"
  else if (n =? 9)%nat then "\t"
  else if (n =? 12)%nat then "\f"
  else if (n =? 8)%nat then "\b"
  else if ((32 <=? n) && (n <=? 126))%nat then String c ""
  else "\u00" +:+ String (hex_digit (n / 16)) (String (hex_digit (n mod 16)) "").

Definition quote : ascii := "034"%char.

Fixpoint esc_all (s : string) : string :=
  match s with
  | "" => ""
  | String c s' => esc c +:+ esc_all s'
  end.

Definition dumps_str (s : string) : string := String quote (esc_all s +:+ String quote "").

(** The text of a value whose dicts are already in order. *)
Fixpoint print (j : json) : string :=
  match j with
  | JNull => "null"
  | JBool true => "true"
  | JBool false => "false"
  | JNum z => pretty z
  | JStr s => dumps_str s
  | JList l => "[" +:+ join "," (map print l) +:+ "]"
  | JObj d => "{" +:+ join "," (map (fun kv => dumps_str kv.1 +:+ ":" +:+ print kv.2) d) +:+ "}"
  end.

(** [sort_keys=True]: by the key's code points. *)
Fixpoint insert_key (kv : string * json) (d : dict) : dict :=
  match d with
  | [] => [kv]
  | kv' :: d' => if String.leb kv.1 kv'.1 then kv :: kv' :: d' else kv' :: insert_key kv d'
  end.

Definition sort_keys (d : dict) : dict := fold_right insert_key [] d.

Fixpoint normal (j : json) : json :=
  match j with
  | JList l => JList (map normal l)
  | JObj d => JObj (sort_keys (map (fun kv => (kv.1, normal kv.2)) d))
  | _ => j
  end.

Definition dumps (j : json) : string := print (normal j).

Example dumps_sorts :
  let q := String quote "" in
  dumps (JObj [("b", JNum (-12)); ("a", JList [JBool true; JNull; JStr q])])
  = "{" +:+ q +:+ "a" +:+ q +:+ ":[true,null," +:+ q +:+ "\" +:+ q +:+ q +:+ "],"
    +:+ q +:+ "b" +:+ q +:+ ":-12}".
Proof. vm_compute. reflexivity. Qed.

(** * The canonical text determines the value *)

Lemma app_assoc_str x y z : (x +:+ y) +:+ z = x +:+ (y +:+ z).
Proof. induction x as [|c x IH]; [done|]. exact (f_equal (String c) IH). Qed.

Definition num_char (c : ascii) : bool :=
  let n := code c in ((48 <=? n) && (n <=? 57))%nat || (n =? 45)%nat.

(** Text a number cannot run on into. *)
Definition stops (s : string) : Prop :=
  match s with "" => True | String c _ => num_char c = false end.

Lemma pretty_N_go_chars x s : str_all num_char s = true -> str_all num_char (pretty_N_go x s) = true.
Proof.
  revert s. induction (N.lt_wf_0 x) as [x _ IH]; intros s Hs.
  assert (x = 0 \/ 0 < x)%N as [->|?] by lia; [by rewrite pretty_N_go_0|].
  rewrite pretty_N_go_step by done. apply IH; [by apply N.div_lt|].
  cbn [str_all]. rewrite Hs, andb_true_r. unfold pretty_N_char. by repeat case_match.
Qed.

Lemma pretty_Z_chars (z : Z) : str_all num_char (pretty z) = true.
Proof.
  assert (forall n : N, str_all num_char (pretty n) = true) as HN.
  { intros n. unfold pretty, pretty_N. case_decide; [done|]. by apply pretty_N_go_chars. }
  destruct z as [|p|p]; [done|apply (HN (N.pos p))|].
  unfold pretty, pretty_Z. rewrite str_all_app. apply (HN (N.pos p)).
Qed.

(** A number is read back up to where it stops. *)
Lemma num_prefix x y s t :
  str_all num_char x = true -> str_all num_char y = true -> stops s -> stops t ->
  x +:+ s = y +:+ t -> x = y /\ s = t.
Proof.
  revert y. induction x as [|c x IH]; intros [|d y] Hx Hy Hs Ht H.
  - done.
  - change (s = String d (y +:+ t)) in H. subst s. cbn in *.
    apply andb_prop in Hy as [Hy _]. congruence.
  - change (String c (x +:+ s) = t) in H. subst t. cbn in *.
    apply andb_prop in Hx as [Hx _]. congruence.
  - change (String c (x +:+ s) = String d (y +:+ t)) in H. cbn in Hx, Hy.
    apply andb_prop in Hx as [_ Hx], Hy as [_ Hy]. simplify_eq.
    by destruct (IH y Hx Hy Hs Ht) as [-> ->].
Qed.

(** One escaped character is read back by its first two characters. *)
Definition unesc_hex (c : ascii) : nat := let n := code c in if (n <? 58)%nat then n - 48 else n - 87.

Definition unesc (s : string) : option (ascii * string) :=
  match s with
  | String b s' =>
      if decide (b = quote) then None
      else if (code b =? 92)%nat then
        match s' with
        | String e r =>
            let n := code e in
            if (n =? 34)%nat || (n =? 92)%nat then Some (e, r)
            else if (n =? 110)%nat then Some (ascii_of_nat 10, r)
            else if (n =? 114)%nat then Some (ascii_of_nat 13, r)
            else if (n =? 116)%nat then Some (ascii_of_nat 9, r)
            else if (n =? 102)%nat then Some (ascii_of_nat 12, r)
            else if (n =? 98)%nat then Some (ascii_of_nat 8, r)
            else match r with
                 | String _ (String _ (String h (String l r'))) =>
                     Some (ascii_of_nat (16 * unesc_hex h + unesc_hex l), r')
                 | _ => None
                 end
        | "" => None
        end
      else Some (b, s')
  | "" => None
  end.

Lemma unesc_esc c r : unesc (esc c +:+ r) = Some (c, r).
Proof. destruct c as [[] [] [] [] [] [] [] []]; reflexivity. Qed.

Lemma unesc_quote r : unesc (String quote r) = None.
Proof. reflexivity. Qed.

Lemma dumps_str_inj x y s t :
  dumps_str x +:+ s = dumps_str y +:+ t -> x = y /\ s = t.
Proof.
  unfold dumps_str. intros H.
  change (String quote ((esc_all x +:+ String quote "") +:+ s)
    = String quote ((esc_all y +:+ String quote "") +:+ t)) in H.
  apply (f_equal (fun u => match u with String _ r => r | _ => u end)) in H. cbn beta iota in H.
  rewrite !app_assoc_str in H. revert y H.
  induction x as [|c x IH]; intros [|d y] H.
  - by simplify_eq.
  - apply (f_equal unesc) in H. change (esc_all (String d y)) with (esc d +:+ esc_all y) in H.
    rewrite app_assoc_str, unesc_esc in H. done.
  - apply (f_equal unesc) in H. change (esc_all (String c x)) with (esc c +:+ esc_all x) in H.
    rewrite app_assoc_str, unesc_esc in H. done.
  - apply (f_equal unesc) in H.
    change (esc_all (String c x)) with (esc c +:+ esc_all x) in H.
    change (esc_all (String d y)) with (esc d +:+ esc_all y) in H.
    rewrite !app_assoc_str, !unesc_esc in H. simplify_eq.
    destruct (IH y) as [-> ->]; done.
Qed.

Section Unique.
Context {A : Type} (f : A -> string).

(** [f x] can be read back from any text that begins with it. *)
Definition readable (x : A) : Prop :=
  forall y s t, stops s -> stops t -> f x +:+ s = f y +:+ t -> x = y /\ s = t.

(** No item begins with the character that ends a list. *)
Definition starts_clear (close : ascii) : Prop := forall x s t, f x +:+ s <> String close t.

Lemma items_readable (close : ascii) l l' s t :
  num_char close = false -> close <> ","%char -> starts_clear close ->
  Forall readable l ->
  join "," (map f l) +:+ String close s = join "," (map f l') +:+ String close t ->
  l = l' /\ s = t.
Proof.
  intros Hn Hc Hclear Hl. revert l'. induction Hl as [|x l Hx Hl IH]; intros l' H.
  - destruct l' as [|y l']; [by simplify_eq/=|].
    exfalso. destruct l' as [|y' l']; cbn [map join] in H.
    + symmetry in H. by apply Hclear in H.
    + rewrite app_assoc_str in H. symmetry in H. by apply Hclear in H.
  - destruct l' as [|y l'].
    { exfalso. destruct l as [|x' l]; cbn [map join] in H.
      - by apply Hclear in H.
      - rewrite app_assoc_str in H. by apply Hclear in H. }
    destruct l as [|x' l], l' as [|y' l']; cbn [map join] in H; rewrite ?app_assoc_str in H;
      apply Hx in H; try done.
    + destruct H as [-> H]. by simplify_eq.
    + destruct H as [-> H]. exfalso. apply Hc.
      by apply (f_equal (fun u => match u with String c _ => c | _ => close end)) in H.
    + destruct H as [-> H]. exfalso. apply Hc.
      by apply (f_equal (fun u => match u with String c _ => c | _ => close end)) in H.
    + destruct H as [-> H].
      apply (f_equal (fun u => match u with String _ r => r | _ => u end)) in H.
      destruct (IH (y' :: l')) as [-> ->]; [|done].
      exact H.
Qed.
End Unique.

(** The first character of a value's text says which kind of value it is. *)
Definition kind_char (j : json) (c : ascii) : Prop :=
  match j with
  | JNull => c = "n"%char
  | JBool true => c = "t"%char
  | JBool false => c = "f"%char
  | JNum _ => num_char c = true
  | JStr _ => c = quote
  | JList _ => c = "["%char
  | JObj _ => c = "{"%char
  end.

Lemma print_head j : exists c r, print j = String c r /\ kind_char j c.
Proof.
  destruct j as [|[]|z|s|l|d]; try by (eexists _, _; split; [reflexivity|done]).
  pose proof (pretty_Z_chars z) as H. cbn [print kind_char].
  destruct (pretty z) as [|c r] eqn:Hz.
  - exfalso. destruct z as [|p|p]; unfold pretty, pretty_Z in Hz; try done.
    assert (@pretty N _ (N.pos p) <> "") as Hp; [|by apply Hp].
    intros Hp. assert (@pretty N _ (N.pos p) +:+ "" = @pretty N _ (N.pos p)) by (by rewrite Hp).
    revert Hp. unfold pretty, pretty_N. rewrite decide_False by done.
    rewrite pretty_N_go_step by done. intros Hp.
    assert (forall x u, u <> "" -> pretty_N_go x u <> "") as Hgo.
    { clear. intros x. induction (N.lt_wf_0 x) as [x _ IH]; intros u Hu.
      assert (x = 0 \/ 0 < x)%N as [->|?] by lia; [by rewrite pretty_N_go_0|].
      rewrite pretty_N_go_step by done. apply IH; [by apply N.div_lt|done]. }
    by apply Hgo in Hp.
  - eexists _, _. split; [done|]. cbn in H. by apply andb_prop in H as [H _].
Qed.

Lemma print_not_close close s j t :
  num_char close = false -> close ∉ ["n"; "t"; "f"; quote; "["; "{"]%char ->
  print j +:+ s <> String close t.
Proof.
  intros Hn Hc H. destruct (print_head j) as (c & r & Hp & Hk). rewrite Hp in H.
  change (String c (r +:+ s) = String close t) in H. injection H as -> _.
  destruct j as [|[]|z|x|l|d]; cbn in Hk; subst; try (apply Hc; set_solver). congruence.
Qed.

Definition print_field (kv : string * json) : string := dumps_str kv.1 +:+ ":" +:+ print kv.2.

Definition tag (j : json) : nat :=
  match j with
  | JNull => 0 | JBool true => 1 | JBool false => 2 | JNum _ => 3 | JStr _ => 4 | JList _ => 5 | JObj _ => 6
  end.

Lemma same_tag a b s t : print a +:+ s = print b +:+ t -> tag a = tag b.
Proof.
  destruct (print_head a) as (c & r & Ha & Ka), (print_head b) as (c' & r' & Hb & Kb).
  rewrite Ha, Hb. intros H. change (String c (r +:+ s) = String c' (r' +:+ t)) in H.
  injection H as <- _. clear Ha Hb.
  destruct a as [|[]|?|?|?|?], b as [|[]|?|?|?|?]; cbn in *; subst; try done; by vm_compute in Kb || by vm_compute in Ka.
Qed.

Lemma join_items_app open close body s :
  (String open "" +:+ body +:+ String close "") +:+ s = String open (body +:+ String close s).
Proof. by rewrite !app_assoc_str. Qed.

Lemma string_tail c x y : String c x = String c y -> x = y.
Proof. by intros [=]. Qed.

Lemma print_field_readable kv : readable print kv.2 -> readable print_field kv.
Proof.
  intros H [k' v'] s t Hs Ht Heq. destruct kv as [k v]. unfold print_field in Heq. cbn in *.
  rewrite !app_assoc_str in Heq. apply dumps_str_inj in Heq as [-> Heq].
  apply string_tail in Heq. by destruct (H v' s t Hs Ht Heq) as [-> ->].
Qed.

(** A value is read back from its text, whatever follows it. *)
Lemma print_readable j : readable print j.
Proof.
  induction j as [|b|z|s|l IH|d IH] using json_rect'; intros j' u t Hu Ht H;
    pose proof (same_tag _ _ _ _ H) as Htag;
    destruct j' as [|[]|z'|s'|l'|d']; try done; try (destruct b; done).
  - split; [done|]. by simplify_eq/=.
  - destruct b; [|done]. split; [done|]. by simplify_eq/=.
  - destruct b; [done|]. split; [done|]. by simplify_eq/=.
  - cbn in H. apply num_prefix in H as [H ->]; auto using pretty_Z_chars.
    split; [|done]. f_equal. by apply (inj pretty).
  - by apply dumps_str_inj in H as [-> ->].
  - cbn [print] in H. rewrite !join_items_app in H. apply string_tail in H.
    apply items_readable in H as [-> ->]; try done.
    intros x a b. apply print_not_close; [done|]. by vm_compute; set_unfold; intuition congruence.
  - cbn [print] in H. rewrite !join_items_app in H. apply string_tail in H.
    apply (items_readable print_field) in H as [-> ->]; try done.
    eapply Forall_impl; [exact IH|]. intros kv. apply print_field_readable.
Qed.

Lemma print_inj a b : print a = print b -> a = b.
Proof.
  intros H. destruct (print_readable a b "" "") as [-> _]; try done.
  by rewrite H.
Qed.

(** Two values have one canonical text exactly when they are equal up to the order of keys. *)
Lemma dumps_eq a b : dumps a = dumps b <-> normal a = normal b.
Proof. unfold dumps. split; [apply print_inj|by intros ->]. Qed.
