(* ===== verification/Refusals.v ===== *)
(** Refusals: the exceptions a use case raises and the one envelope a caller is answered.

    [exn] is the exceptions the modelled code raises and tests by class
    ([record_errors.py], [security.py], [approvals.py], [idempotency.py],
    [tokens.py]), [CODES] the table of [refusal_status.py], [Refusal] and
    [mapped] how a failure becomes one coded answer. *)
From stdpp Require Import base gmap strings list.
From Stdlib Require Import ZArith Lia.
From S2P Require Import Prelude PyStr Json.

#[local] Open Scope string_scope.

(** * Exceptions *)

(** The classes of [HostRefusal]: their reason is text HQ wrote. *)
Inductive host_kind : Type :=
| RecordNotFound
| RecordConflict
| PolicyError
| CertificateError
| InputError
| ApprovalError
| Settled
| RefusedHold
| TooManyPendingApprovals
| UnreadableSubject
| UnknownResource
| UnsupportedResourceOperation.

#[export] Instance host_kind_eq_dec : EqDecision host_kind.
Proof. solve_decision. Defined.

(** [HostRefusal.code], as each class declares or inherits it. *)
Definition host_code (k : host_kind) : string :=
  match k with
  | RecordNotFound => "not_found"
  | RecordConflict => "conflict"
  | PolicyError | ApprovalError | Settled => "precondition"
  | CertificateError => "invalid_material"
  | InputError => "invalid_input"
  | RefusedHold => "refused_hold"
  | TooManyPendingApprovals => "too_many_pending_approvals"
  | UnreadableSubject => "approval_subject_unreadable"
  | UnknownResource => "unknown_resource"
  | UnsupportedResourceOperation => "unsupported_operation"
  end.

Inductive exn : Type :=
| Host (k : host_kind) (reason : string) (details : json)
| AuthorizationError (reason : string)
| InsufficientScope (reason scope : string)
| PolicyDenied (reason : string)
(** Validation failures, with the message and details [input_errors] words them in. *)
| PydanticValidationError (message : string) (details : json)
| DjangoValidationError (message : string) (details : json)
| InvalidResourceInput (reason : string) (details : json)
| QueryRefusal (reason : string)
| ResourceError (reason : string)
| InvalidIdempotencyKey (reason : string)
| IdempotencyConflict (reason : string)
| TokenError (reason : string)
| ValueError (text : string)
| RuntimeError (text : string)
| DatabaseError (text : string)
| IntegrityError (text : string)
| OtherError (class text : string).

#[export] Instance exn_eq_dec : EqDecision exn.
Proof. solve_decision. Defined.

(** [str(exc)] of an exception whose text the code reads. *)
Definition exn_text (e : exn) : string :=
  match e with
  | Host _ t _ | AuthorizationError t | InsufficientScope t _ | PolicyDenied t | PydanticValidationError t _
  | DjangoValidationError t _ | InvalidResourceInput t _ | QueryRefusal t | ResourceError t | InvalidIdempotencyKey t
  | IdempotencyConflict t | TokenError t | ValueError t | RuntimeError t | DatabaseError t | IntegrityError t
  | OtherError _ t => t
  end.

(** [isinstance(exc, AuthorizationError)] *)
Definition is_authorization_error (e : exn) : bool :=
  match e with AuthorizationError _ | InsufficientScope _ _ | PolicyDenied _ => true | _ => false end.

(** [isinstance(exc, RefusedHold)] *)
Definition is_refused_hold (e : exn) : bool :=
  match e with
  | Host RefusedHold _ _ | Host TooManyPendingApprovals _ _ | Host UnreadableSubject _ _ => true
  | _ => false
  end.

(** [isinstance(exc, ValueError)], for the classes above. *)
Definition is_value_error (e : exn) : bool :=
  match e with
  | Host (PolicyError | CertificateError | InputError | ApprovalError | Settled | RefusedHold
         | TooManyPendingApprovals | UnreadableSubject | UnknownResource | UnsupportedResourceOperation) _ _
  | PydanticValidationError _ _ | InvalidResourceInput _ _ | QueryRefusal _ | ResourceError _
  | InvalidIdempotencyKey _ | IdempotencyConflict _ | ValueError _ => true
  | _ => false
  end.

(** * The table of codes *)

Inductive Door : Type :=
| D_ADMISSION | D_ENDPOINT | D_BODY | D_WAIT | D_RESOURCE | D_CAPABILITY | D_NAME
| D_TARGETED | D_UNTARGETED | D_STALE_WRITE | D_RETRY_KEY | D_HOLD | D_DECISION.

#[export] Instance Door_eq_dec : EqDecision Door.
Proof. solve_decision. Defined.

Record Code : Type := mkCode { status_of : Z; doors_of : list Door; said_of : string; waits_of : bool }.

Definition CODES : list (string * Code) :=
  [
    ("unknown_capability", mkCode 404 [D_NAME] "HQ has no command by that name" false);
    ("forbidden", mkCode 403 [D_ENDPOINT; D_CAPABILITY] "it has no grant for this" false);
    ("denied_by_policy", mkCode 403 [D_CAPABILITY] "the operator's rule refuses this client" false);
    ("not_found", mkCode 404 [D_RESOURCE; D_CAPABILITY] "the record it names is not there" false);
    ("unknown_resource", mkCode 404 [D_RESOURCE] "HQ has no list by that name" false);
    ("unsupported_operation", mkCode 405 [D_RESOURCE] "that list has nothing of that kind to read" false);
    ("approval_subject_unreadable", mkCode 404 [D_HOLD] "the record it names could not be read to show the person deciding" false);
    ("refused_hold", mkCode 409 [D_HOLD] "it could not be held for a person to decide" false);
    ("declined", mkCode 403 [D_DECISION] "a person declined it" false);
    ("expired", mkCode 409 [D_DECISION] "nobody decided it in time" false);
    ("stale", mkCode 409 [D_DECISION] "what it acts on changed before it ran" false);
    ("conflict", mkCode 409 [D_CAPABILITY; D_STALE_WRITE] "what it acts on changed since it was read" false);
    ("idempotency_conflict", mkCode 409 [D_RETRY_KEY] "its retry key was sent before with a different request" false);
    ("precondition", mkCode 409 [D_CAPABILITY] "what it acts on does not allow it yet" false);
    ("rejected", mkCode 409 [D_CAPABILITY] "HQ refused the command as sent" false);
    ("work_failed", mkCode 409 [D_CAPABILITY] "the work ran and failed" false);
    ("operation_failed", mkCode 500 [D_ENDPOINT; D_CAPABILITY] "something HQ did not expect went wrong" false);
    ("invalid_input", mkCode 400 [D_RESOURCE; D_CAPABILITY] "what it sent is not valid" false);
    ("target_required", mkCode 400 [D_TARGETED] "it names no record to act on" false);
    ("target_not_allowed", mkCode 400 [D_UNTARGETED] "it names a record, and this acts on none" false);
    ("invalid_material", mkCode 400 [D_CAPABILITY] "the certificate or key cannot be used" false);
    ("too_many_pending_approvals", mkCode 429 [D_HOLD] "it is holding more requests than a person has answered" false);
    ("rate_limited", mkCode 429 [D_ADMISSION] "it is calling faster than its rate" true);
    ("too_many_calls", mkCode 429 [D_ADMISSION] "it has as many calls in flight as it may" true);
    ("invalid_token", mkCode 401 [D_ADMISSION] "its access token is missing, malformed, expired or not HQ's" false);
    ("insufficient_scope", mkCode 403 [D_ADMISSION; D_ENDPOINT; D_CAPABILITY] "its token lacks a permission this needs" false);
    ("agents_paused", mkCode 403 [D_ADMISSION] "agents are paused" false);
    ("agent_blocked", mkCode 403 [D_ADMISSION] "the operator blocked this client" false);
    ("device_awaiting_approval", mkCode 403 [D_ADMISSION] "nobody has approved it on this device yet" false);
    ("device_blocked", mkCode 403 [D_ADMISSION] "it is blocked on this device" false);
    ("device_unknown", mkCode 403 [D_ADMISSION] "no tailnet device sent the call" false);
    ("tailnet_unavailable", mkCode 503 [D_ADMISSION] "HQ could not ask tailscaled which device sent the call" false);
    ("call_timed_out", mkCode 504 [D_WAIT] "HQ stopped waiting for the call" false);
    ("not_configured", mkCode 503 [D_ENDPOINT] "HQ is not set up for this" false);
    ("method_not_allowed", mkCode 405 [D_ENDPOINT] "that address does not take this method" false);
    ("unsupported_media_type", mkCode 415 [D_BODY] "its body is not a type HQ takes" false);
    ("request_too_large", mkCode 413 [D_BODY] "its body is too large" false);
    ("invalid_json", mkCode 400 [D_BODY] "its body is not valid JSON" false);
    ("idempotency_key_required", mkCode 400 [D_RETRY_KEY] "it sent no retry key" false);
    ("invalid_idempotency_key", mkCode 400 [D_RETRY_KEY] "its retry key is not valid" false)
  ].

Fixpoint code_facts (code : string) (table : list (string * Code)) : option Code :=
  match table with
  | [] => None
  | (c, f) :: rest => if decide (code = c) then Some f else code_facts code rest
  end.

(** [why(code)] *)
Definition why (code : string) : string :=
  match code_facts code CODES with Some f => said_of f | None => "" end.

(** [REFUSAL_STATUS] *)
Definition statuses : list (string * Z) := map (fun kv => (kv.1, status_of kv.2)) CODES.

(** [LATER_CODES] *)
Definition waiting : list string := map fst (List.filter (fun kv => waits_of kv.2) CODES).

Definition meets (a b : list Door) : bool := existsb (fun d => bool_decide (d ∈ b)) a.

(** [answered_by], of any of [doors]. *)
Definition answered_by (doors : list Door) : list string :=
  map fst (List.filter (fun kv => meets (doors_of kv.2) doors) CODES).

Definition listed (code : string) : bool :=
  match code_facts code CODES with Some _ => true | None => false end.

Definition later (code : string) : bool :=
  match code_facts code CODES with Some f => waits_of f | None => false end.

(** * One refusal *)

Record Refusal : Type := mkRefusal {
  r_code : string;
  r_message : string;
  r_details : json;            (* [JNull] is [None] *)
  r_retry_after : option Z;
}.

(** [Refusal(...)] with its [__post_init__]: a code the table does not hold is
    answered as the failure it is, and only a code that says "later" carries a wait. *)
Definition refusal (code message : string) (details : json) (retry_after : option Z) : Refusal :=
  let r := if listed code then mkRefusal code message details retry_after
           else mkRefusal "operation_failed" "This request could not be executed." JNull None in
  match r_retry_after r with
  | Some _ => if later (r_code r) then r else mkRefusal (r_code r) (r_message r) (r_details r) None
  | None => r
  end.

(** [Refusal.status]; [KeyError] is impossible for a refusal [refusal] built. *)
Definition status (r : Refusal) : option Z := status_of <$> code_facts (r_code r) CODES.

(** [str(value)] for the values a scope takes. *)
Definition scope (r : Refusal) : string :=
  if decide (r_code r = "insufficient_scope") then
    match r_details r with
    | JObj d => match dget "scope" d with Some (JStr s) => s | _ => "" end
    | _ => ""
    end
  else "".

(** [Refusal.answer()] *)
Definition answer (r : Refusal) : json :=
  let error := [("code", JStr (r_code r)); ("message", JStr (r_message r))] in
  let error := match r_details r with JNull => error | d => dset "details" d error end in
  let error := match r_retry_after r with None => error | Some n => dset "retry_after" (JNum n) error end in
  JObj [("ok", JBool false); ("error", JObj error)].

(** [refuse(code, message, details)] *)
Definition refuse (code message : string) (details : json) : json :=
  answer (refusal code message details None).

(** [refused(answer)]: [answer.get("ok") is False]. *)
Definition refused (a : json) : bool :=
  match attr "ok" a with Some (JBool false) => true | _ => false end.

(** [next_call(tool, **arguments)], and one with no arguments. *)
Definition next_call_with (tool : string) (arguments : dict) : json :=
  JObj [("tool", JStr tool); ("arguments", JObj arguments)].
Definition next_call (tool : string) : json := next_call_with tool [].

(** [refusal_of(outcome)] of a [{"ok": false}] answer. *)
Definition refusal_of_answer (name : string) (outcome : json) : Refusal :=
  let error := match attr "error" outcome with Some (JObj d) => d | _ => [] end in
  refusal
    (match dget "code" error with Some (JStr s) => s | _ => "operation_failed" end)
    (match dget "message" error with
     | Some (JStr s) => s
     | _ => str_or name "This request" +:+ " could not be executed."
     end)
    (default JNull (dget "details" error))
    (match dget "retry_after" error with Some (JNum n) => Some n | _ => None end).

(** [_mapped(exc, name)]: the refusal an exception stands for. *)
Definition mapped (e : exn) (name : string) : Refusal :=
  let subject := str_or name "This request" in
  match e with
  | PydanticValidationError m d | DjangoValidationError m d => refusal "invalid_input" m d None
  | InvalidResourceInput reason d => refusal "invalid_input" reason d None
  | Host k reason d => refusal (host_code k) reason d None
  | InsufficientScope reason s => refusal "insufficient_scope" reason (JObj [("scope", JStr s)]) None
  | PolicyDenied reason => refusal "denied_by_policy" reason JNull None
  | AuthorizationError reason => refusal "forbidden" reason JNull None
  | QueryRefusal reason | ResourceError reason => refusal "invalid_input" reason JNull None
  | InvalidIdempotencyKey _ | IdempotencyConflict _ | ValueError _ =>
      refusal "rejected" (subject +:+ " could not be executed.") JNull None
  | TokenError _ | RuntimeError _ | DatabaseError _ | IntegrityError _ | OtherError _ _ =>
      refusal "operation_failed" (subject +:+ " could not be executed.") JNull None
  end.

(** * The doors a call passes *)

Definition WRITE_DOORS : list Door := [D_RETRY_KEY; D_HOLD; D_DECISION].

Definition call_doors (targeted stale_write changes : bool) : list Door :=
  [D_CAPABILITY; if targeted then D_TARGETED else D_UNTARGETED]
    ++ (if stale_write then [D_STALE_WRITE] else [])
    ++ (if changes then WRITE_DOORS else []).

(** * Laws *)

Lemma code_facts_in code table f : code_facts code table = Some f -> (code, f) ∈ table.
Proof.
  induction table as [|[c g] rest IH]; cbn; [done|].
  case_decide as Hc; intros H; simplify_eq; [by left|right; auto].
Qed.

(** The code an exception is answered with. *)
Definition exn_code (e : exn) : string :=
  match e with
  | Host k _ _ => host_code k
  | InsufficientScope _ _ => "insufficient_scope"
  | PolicyDenied _ => "denied_by_policy"
  | AuthorizationError _ => "forbidden"
  | PydanticValidationError _ _ | DjangoValidationError _ _ | InvalidResourceInput _ _
  | QueryRefusal _ | ResourceError _ => "invalid_input"
  | InvalidIdempotencyKey _ | IdempotencyConflict _ | ValueError _ => "rejected"
  | _ => "operation_failed"
  end.

Lemma refusal_listed code message details wait :
  listed code = true -> refusal code message details wait =
    mkRefusal code message details (if later code then wait else None).
Proof.
  intros H. unfold refusal. rewrite H. cbn. destruct wait; [by destruct (later code)|by destruct (later code)].
Qed.

Lemma refusal_wf code message details wait :
  listed code = true -> wait = None \/ later code = true ->
  refusal code message details wait = mkRefusal code message details wait.
Proof.
  intros Hl Hw. rewrite refusal_listed by done. f_equal.
  destruct Hw as [-> | ->]; [by destruct (later code)|done].
Qed.

Lemma refusal_code_listed code message details wait :
  listed (r_code (refusal code message details wait)) = true.
Proof.
  unfold refusal. destruct (listed code) eqn:Hl; cbn; [|done].
  destruct wait; cbn; [|done]. by destruct (later code).
Qed.

(** whatever raised it, an exception is answered with a code the table holds,
    the code its class declares, and never with a wait. *)
Theorem mapped_is_listed (e : exn) (name : string) :
  r_code (mapped e name) = exn_code e /\
  (exists n, status (mapped e name) = Some n /\ (400 <= n < 600)%Z) /\
  r_retry_after (mapped e name) = None.
Proof.
  destruct e as [k r d| | | | | | | | | | | | | | | |]; [destruct k|..];
    (split; [reflexivity|split; [eexists; split; [vm_compute; reflexivity|lia]|reflexivity]]).
Qed.

(** an adapter reads back from the envelope the refusal it was answered. *)
Theorem refusal_of_answer_of (code message name : string) (details : json) (wait : option Z) :
  let r := refusal code message details wait in
  refusal_of_answer name (answer r) = r /\ refused (answer r) = true.
Proof.
  intros r. split; [|done].
  pose proof (refusal_code_listed code message details wait) as Hl. fold r in Hl.
  assert (r_retry_after r = None \/ later (r_code r) = true) as Hw.
  { unfold r, refusal. destruct (listed code); cbn; [|by left].
    destruct wait; cbn; [|by left]. destruct (later code) eqn:Hlat; cbn; [by right|by left]. }
  clearbody r. destruct r as [c m d w]. cbn in Hl, Hw.
  unfold refusal_of_answer, answer. cbn [r_code r_message r_details r_retry_after].
  destruct d, w as [n|]; by apply refusal_wf.
Qed.

(** No code of a retry key, a hold or a decision can be answered to a read. *)
Lemma read_doors_never_hold targeted stale code :
  code ∈ answered_by (call_doors targeted stale false) -> code ∉ answered_by WRITE_DOORS.
Proof.
  intros H. assert (forallb (fun c => negb (bool_decide (c ∈ answered_by WRITE_DOORS)))
    (answered_by (call_doors targeted stale false)) = true) as Hall.
  { by destruct targeted, stale; vm_compute. }
  rewrite forallb_forall in Hall. apply list_elem_of_In, Hall in H.
  by apply negb_true_iff, bool_decide_eq_false in H.
Qed.
