(* ===== verification/Security.v ===== *)
(** Principals, what they hold, and the roles of people ([security.py], [roles.py]).

    A capability is its name: [Capability] is a [StrEnum], equal to and hashed
    as its value.  What the installed extensions and the record domains declare
    ([plugin_capabilities], [record_permissions]) is the parameter [Deployment];
    everything else is the code's own constants. *)
From stdpp Require Import base gmap strings list.
From Stdlib Require Import Ascii ZArith Lia.
From S2P Require Import Prelude PyStr Json Refusals.

#[local] Open Scope string_scope.

(** * Constants *)

Definition READ := "read".
Definition READ_AUDIT_LOG := "read_audit_log".
Definition LOOK_UP_PUBLIC_RECORDS := "look_up_public_records".
Definition READ_CALENDAR := "read_calendar".
Definition WRITE_CALENDAR := "write_calendar".
Definition MANAGE_CONTACTS := "manage_contacts".
Definition SYNC_DOCUMENTATION := "sync_documentation".
Definition PRUNE_DOCUMENTATION := "prune_documentation".
Definition DELETE_CALENDAR := "delete_calendar".
Definition MANAGE_INFRASTRUCTURE := "manage_infrastructure".
Definition REQUEST_CERTIFICATE_RENEWAL := "request_certificate_renewal".
Definition UPLOAD_CERTIFICATE := "upload_certificate".
Definition UPLOAD_RECEIPT := "upload_receipt".
Definition DECIDE_APPROVALS := "decide_approvals".
Definition GOVERN_AGENTS := "govern_agents".
Definition SET_PREFERENCES := "set_preferences".
Definition PIN_FAVORITES := "pin_favorites".
Definition SET_ASIDE_ACTION_ITEMS := "set_aside_action_items".
Definition END_SESSIONS := "end_sessions".

(** [class Capability(StrEnum)] *)
Definition Capability : list string :=
  [READ; READ_AUDIT_LOG; LOOK_UP_PUBLIC_RECORDS; READ_CALENDAR; WRITE_CALENDAR; MANAGE_CONTACTS;
   SYNC_DOCUMENTATION; PRUNE_DOCUMENTATION; DELETE_CALENDAR; MANAGE_INFRASTRUCTURE;
   REQUEST_CERTIFICATE_RENEWAL; UPLOAD_CERTIFICATE; UPLOAD_RECEIPT; DECIDE_APPROVALS; GOVERN_AGENTS;
   SET_PREFERENCES; PIN_FAVORITES; SET_ASIDE_ACTION_ITEMS; END_SESSIONS].

Definition WEB_INTERFACE := "web".
Definition CLI_INTERFACE := "cli".
Definition CLI_ACTOR := "local-operator".
Definition MCP_INTERFACE := "mcp".
Definition API_INTERFACE := "api".
Definition JOB_INTERFACE := "job".
Definition CONTROLLER_INTERFACE := "controller".
Definition DEVICE_INTERFACE := "device".
Definition INTERNAL_INTERFACE := "internal".

(** [X in frozenset({...})], on a list of names. *)
Definition among (x : string) (names : list string) : bool := bool_decide (x ∈ names).

Definition INTERACTIVE_INTERFACES : list string := [WEB_INTERFACE; DEVICE_INTERFACE].
Definition OPERATOR_INTERFACES : list string := INTERACTIVE_INTERFACES ++ [CLI_INTERFACE].
Definition AGENT_SURFACES : list string := [MCP_INTERFACE; API_INTERFACE].

Definition HELD_ONLY_AT : list (string * list string) :=
  [(UPLOAD_CERTIFICATE, OPERATOR_INTERFACES);
   (UPLOAD_RECEIPT, OPERATOR_INTERFACES);
   (DECIDE_APPROVALS, INTERACTIVE_INTERFACES);
   (GOVERN_AGENTS, INTERACTIVE_INTERFACES);
   (END_SESSIONS, [INTERNAL_INTERFACE])].

(** [HELD_ONLY_AT.get(name)] *)
Fixpoint held_only_at (name : string) (table : list (string * list string)) : option (list string) :=
  match table with
  | [] => None
  | (c, at_) :: rest => if decide (name = c) then Some at_ else held_only_at name rest
  end.

Definition NEEDS_A_PERSON : list string := [SET_PREFERENCES; PIN_FAVORITES; SET_ASIDE_ACTION_ITEMS].

(** * Principals *)

Record Principal : Type := mkPrincipal {
  actor : string;
  interface : string;
  capabilities : gset string;
  approved_by : string;
  granted : gset string;
  person_key : string;
  grantable : gset string;
  device : string;
}.

(** [Principal(actor, interface, capabilities)], the rest by default. *)
Definition principal_of (a i : string) (c : gset string) : Principal :=
  mkPrincipal a i c "" ∅ "" ∅ "".

(** [replace(principal, device=d)] *)
Definition at_device (p : Principal) (d : string) : Principal :=
  mkPrincipal (actor p) (interface p) (capabilities p) (approved_by p) (granted p) (person_key p) (grantable p) d.

(** [replace(principal, approved_by=who)] *)
Definition with_approval (p : Principal) (who : string) : Principal :=
  mkPrincipal (actor p) (interface p) (capabilities p) who (granted p) (person_key p) (grantable p) (device p).

Definition is_interactive (p : Principal) : bool := among (interface p) INTERACTIVE_INTERFACES.

Definition has_a_person (p : Principal) : bool :=
  is_interactive p || negb (bool_decide (person_key p = "")).

Definition is_agent (i : string) : bool := among i AGENT_SURFACES.

(** [could_hold(interface, capabilities)] *)
Fixpoint could_hold (i : string) (names : list string) : bool :=
  match names with
  | [] => true
  | name :: rest =>
      match held_only_at name HELD_ONLY_AT with
      | Some interfaces => if among i interfaces then could_hold i rest else false
      | None => could_hold i rest
      end
  end.

(** [Principal.require(name)]: [None] when it holds it, else what it raises. *)
Definition require (p : Principal) (name : string) : option exn :=
  if among name NEEDS_A_PERSON && negb (has_a_person p) then
    Some (AuthorizationError (repr name +:+ " keeps something of a person's, and a " +:+ interface p +:+
      " principal " +:+ repr (actor p) +:+ " is nobody's: a machine's token has no person behind it. " +:+
      "Sign the agent in through a person."))
  else if bool_decide (name ∈ grantable p) then
    Some (InsufficientScope (interface p +:+ " principal " +:+ repr (actor p) +:+ " lacks " +:+ repr name +:+
      ": its token does not carry it. Grant " +:+ repr name +:+ " to the client " +:+ repr (actor p) +:+
      " in Pocket ID, then sign in again.") name)
  else if negb (bool_decide (name ∈ capabilities p)) then
    Some (AuthorizationError (interface p +:+ " principal " +:+ repr (actor p) +:+ " lacks " +:+ repr name +:+ "."))
  else if negb (could_hold (interface p) [name]) then
    let where_ := join " or " (sorted (default [] (held_only_at name HELD_ONLY_AT))) in
    Some (AuthorizationError (repr name +:+ " is held only through " +:+ where_ +:+ ", never by a " +:+
      interface p +:+ " principal."))
  else None.

(** [require_all(principal, capabilities)]: the first it lacks. *)
Fixpoint require_all (p : Principal) (names : list string) : option exn :=
  match names with
  | [] => None
  | name :: rest => match require p name with Some e => Some e | None => require_all p rest end
  end.

(** [Principal.permits(capabilities)] *)
Definition permits (p : Principal) (names : list string) : bool :=
  match require_all p names with None => true | Some e => negb (is_authorization_error e) end.

Definition disjoint_from (a b : list string) : bool := forallb (fun x => negb (among x b)) a.

(** [could_ever_hold(principal, capabilities)] *)
Definition could_ever_hold (p : Principal) (names : list string) : bool :=
  could_hold (interface p) names && (has_a_person p || disjoint_from NEEDS_A_PERSON names).

(** * Subjects *)

Definition SUBJECT_SEPARATOR : ascii := "@"%char.

(** [subject_of(client_id, person_key)] *)
Definition subject_of (client_id key : string) : string :=
  if decide (key = "") then client_id else client_id +:+ String SUBJECT_SEPARATOR key.

Definition agent_subject (p : Principal) : string := subject_of (actor p) (person_key p).

(** [subject_parts(subject)] *)
Definition subject_parts (subject : string) : string * string :=
  match rpartition SUBJECT_SEPARATOR subject with
  | (client_id, true, key) => (client_id, key)
  | _ => (subject, "")
  end.

(** * Grants *)

(** What the composed extensions and the record domains declare. *)
Record Deployment : Type := mkDeployment {
  record_write : gset string;      (* record_permissions("write") *)
  record_delete : gset string;     (* record_permissions("delete") *)
  plugin_operator : gset string;   (* plugin_capabilities("operator") *)
  plugin_mcp_read : gset string;   (* plugin_capabilities("mcp_read") *)
}.

Section Grants.
Variable dep : Deployment.

Definition host_capabilities : gset string :=
  list_to_set Capability ∪ record_write dep ∪ record_delete dep.

Definition operator_capabilities : gset string := host_capabilities ∪ plugin_operator dep.

Definition internal_principal (purpose : string) : Principal :=
  principal_of purpose INTERNAL_INTERFACE operator_capabilities.

Definition cli_principal : Principal :=
  principal_of CLI_ACTOR CLI_INTERFACE operator_capabilities.

(** [viewer_capabilities()] *)
Definition viewer_capabilities : gset string := {[ READ ]} ∪ plugin_mcp_read dep.

(** [roles.grants(role)] *)
Definition grants (role : string) : gset string :=
  if decide (role = "operator") then operator_capabilities
  else if decide (role = "viewer") then viewer_capabilities
  else ∅.

(** [web_principal(user)]: [None] is nobody signed in. *)
Definition web_principal (user : option (string * string)) : outcome exn Principal :=
  match user with
  | None => Raise (AuthorizationError "An authenticated web operator is required.")
  | Some (username, role) => Ok (principal_of username WEB_INTERFACE (grants role))
  end.

(** [agent_grantable()] *)
Definition agent_grantable : gset string :=
  filter (fun c => forallb (fun surface => could_hold surface [c]) AGENT_SURFACES = true)
    operator_capabilities.

(** [_within(names, held)] *)
Definition within (names : gset string) (held : option (gset string)) : gset string :=
  match held with None => names | Some h => names ∩ h end.

(** [agent_grant(granted, held)] *)
Definition agent_grant (grant : gset string) (held : option (gset string)) : gset string :=
  within (grant ∩ agent_grantable) held.

Section Held.
(** [roles.held_by(person_key)]: what that person's role grants, [None] for nobody with one. *)
Variable held_by : string -> option (gset string).

Definition held_by_person (key : string) : outcome exn (gset string) :=
  match held_by key with
  | None => Raise (AuthorizationError ("The person who signed this token in holds no role in HQ, so it can act for nobody. "
      +:+ "They sign in to HQ once, as a member of a group HQ gives a role."))
  | Some h => Ok h
  end.

(** [agent_principal(actor, interface, granted, person_key=key)] *)
Definition agent_principal (a i : string) (grant : gset string) (key : string) : outcome exn Principal :=
  if negb (is_agent i) then
    Raise (ValueError (repr i +:+ " is not an interface an agent reaches HQ through."))
  else
    match (if decide (key = "") then Ok None
           else match held_by_person key with Ok h => Ok (Some h) | Raise e => Raise e end) with
    | Raise e => Raise e
    | Ok held =>
        let caps := agent_grant grant held in
        Ok (mkPrincipal a i caps "" grant key (within agent_grantable held ∖ caps) "")
    end.

(** [device_principal(actor, capabilities, granted, person_key=key)] *)
Definition device_principal (a : string) (caps grant : gset string) (key : string) : outcome exn Principal :=
  match held_by_person key with
  | Raise e => Raise e
  | Ok role =>
      let held := caps ∩ role in
      Ok (mkPrincipal a DEVICE_INTERFACE held "" grant key (within agent_grantable (Some role) ∖ held) "")
  end.
End Held.

(** [mcp_principal()] *)
Definition mcp_principal : Principal :=
  principal_of "mcp-service-account" MCP_INTERFACE (agent_grant operator_capabilities None).
End Grants.

(** [safe_next]: [allowed] is Django's [url_has_allowed_host_and_scheme] for this request. *)
Definition safe_next (allowed : string -> bool) (posts : bool) (post_next get_next fallback scope : string) : string :=
  let candidate := strip (str_or (if posts then post_next else "") get_next) in
  if negb (bool_decide (candidate = "")) && (bool_decide (scope = "") || startswith scope candidate) && allowed candidate
  then candidate else fallback.

(** * Roles *)

(** [Role.values], lowest first. *)
Definition ROLES : list string := ["viewer"; "operator"].

Fixpoint index_of (x : string) (l : list string) : option nat :=
  match l with
  | [] => None
  | y :: l' => if decide (x = y) then Some 0 else S <$> index_of x l'
  end.

(** [highest(roles)] *)
Definition highest (roles : list string) : string :=
  match omap (fun r => index_of r ROLES) roles with
  | [] => ""
  | held => default "" (ROLES !! fold_right Nat.max 0 held)
  end.

(** One [name=role] entry of a role setting. *)
Definition parse_entry (setting default_ entry : string) (mapped : list (string * string))
  : outcome exn (list (string * string)) :=
  let '(name, _, role) := partition "="%char entry in
  let name := strip name in
  let role := str_or (strip role) default_ in
  if bool_decide (name = "") || negb (among role ROLES) then
    Raise (RuntimeError (setting +:+ " entries are name=role, each role one of " +:+ join ", " ROLES +:+ ": " +:+ repr entry +:+ "."))
  else if among name (map fst mapped) then
    Raise (RuntimeError (setting +:+ " names " +:+ repr name +:+ " twice."))
  else Ok (mapped ++ [(name, role)])%list.

(** [parse(entries, setting=..., default=...)] *)
Fixpoint parse_from (setting default_ : string) (entries : list string) (mapped : list (string * string))
  : outcome exn (list (string * string)) :=
  match entries with
  | [] => Ok mapped
  | e :: es =>
      match parse_entry setting default_ e mapped with
      | Raise x => Raise x
      | Ok m => parse_from setting default_ es m
      end
  end.

Definition parse (entries : list string) (setting default_ : string) : outcome exn (list (string * string)) :=
  parse_from setting default_ entries [].

(** * Laws *)

Lemma among_spec x l : among x l = true <-> x ∈ l.
Proof. apply bool_decide_eq_true. Qed.

(** No interface is both an agent's and a person's. *)
Lemma agent_not_interactive p : is_agent (interface p) = true -> is_interactive p = false.
Proof.
  unfold is_agent, is_interactive. intros Ha%among_spec.
  repeat (apply elem_of_cons in Ha as [->|Ha]; [reflexivity|]). by apply elem_of_nil in Ha.
Qed.

Lemma could_hold_spec i names :
  could_hold i names = true <->
  forall name at_, name ∈ names -> held_only_at name HELD_ONLY_AT = Some at_ -> i ∈ at_.
Proof.
  induction names as [|n names IH]; cbn [could_hold].
  - split; [intros _ name at_ H; by apply elem_of_nil in H|done].
  - destruct (held_only_at n HELD_ONLY_AT) as [at_|] eqn:Hn.
    + destruct (among i at_) eqn:Hi.
      * rewrite IH. apply among_spec in Hi. split.
        -- intros H name a [->|Hin]%elem_of_cons Ha; [congruence|by eapply H].
        -- intros H name a Hin. apply H. by right.
      * split; [done|]. intros H. rewrite (proj2 (among_spec i at_)) in Hi; [done|].
        eapply H; [by left|done].
    + rewrite IH. split.
      * intros H name a [->|Hin]%elem_of_cons Ha; [congruence|by eapply H].
      * intros H name a Hin. apply H. by right.
Qed.

Lemma could_hold_cons i n names : could_hold i (n :: names) = could_hold i [n] && could_hold i names.
Proof.
  cbn [could_hold]. destruct (held_only_at n HELD_ONLY_AT) as [at_|]; [by destruct (among i at_)|done].
Qed.

(** What [require] asks of one name. *)
Definition holds (p : Principal) (name : string) : Prop :=
  (name ∈ NEEDS_A_PERSON -> has_a_person p = true) /\
  name ∉ grantable p /\ name ∈ capabilities p /\ could_hold (interface p) [name] = true.

Lemma require_none p name : require p name = None <-> holds p name.
Proof.
  unfold require, holds, among. repeat case_bool_decide; cbn [andb negb];
    destruct (has_a_person p) eqn:Hp; cbn [andb negb];
    destruct (could_hold (interface p) [name]) eqn:Hc; cbn [negb];
    split; intros Hx; try done; naive_solver.
Qed.

Lemma require_is_authorization p name e : require p name = Some e -> is_authorization_error e = true.
Proof. unfold require. repeat case_match; intros; simplify_eq; done. Qed.

Lemma require_all_none p names : require_all p names = None <-> forall name, name ∈ names -> holds p name.
Proof.
  induction names as [|n names IH]; cbn [require_all].
  - split; [intros _ name H; by apply elem_of_nil in H|done].
  - destruct (require p n) as [e|] eqn:Hr.
    + split; [done|]. intros H. assert (holds p n) as Hh%require_none by (apply H; by left). congruence.
    + apply require_none in Hr. rewrite IH. split.
      * intros H name [->|Hin]%elem_of_cons; [done|by apply H].
      * intros H name Hin. apply H. by right.
Qed.

Lemma require_all_is_authorization p names e :
  require_all p names = Some e -> is_authorization_error e = true.
Proof.
  induction names as [|n names IH]; cbn [require_all]; [done|].
  destruct (require p n) eqn:Hr; [intros; simplify_eq; by eapply require_is_authorization|done].
Qed.

Lemma permits_spec p names : permits p names = true <-> forall name, name ∈ names -> holds p name.
Proof.
  rewrite <- require_all_none. unfold permits. destruct (require_all p names) as [e|] eqn:H; [|done].
  rewrite (require_all_is_authorization _ _ _ H). by split.
Qed.

Lemma disjoint_from_spec a b : disjoint_from a b = true <-> forall x, x ∈ a -> x ∉ b.
Proof.
  unfold disjoint_from. rewrite forallb_forall. split; intros H x Hx.
  - apply list_elem_of_In, H in Hx. apply negb_true_iff in Hx. by apply bool_decide_eq_false in Hx.
  - apply list_elem_of_In in Hx. apply negb_true_iff, bool_decide_eq_false. by apply H.
Qed.

#[export] Hint Rewrite among_spec require_none require_all_none permits_spec disjoint_from_spec : hq.

(** The reserved capabilities are held at no agent surface. *)
Lemma reserved_not_at_agents name at_ :
  held_only_at name HELD_ONLY_AT = Some at_ -> forall i, i ∈ AGENT_SURFACES -> could_hold i [name] = false.
Proof.
  intros H i Hi. cbn [could_hold]. rewrite H.
  assert (forallb (fun kv => forallb (fun i => negb (among i kv.2)) AGENT_SURFACES) HELD_ONLY_AT = true) as Hall by done.
  rewrite forallb_forall in Hall. destruct (among i at_) eqn:Ha; [|done]. exfalso.
  assert (In (name, at_) HELD_ONLY_AT) as Hin.
  { revert H. generalize HELD_ONLY_AT. clear. induction l as [|[c a] l IH]; cbn; [done|].
    case_decide; intros; simplify_eq; [by left|right; auto]. }
  apply Hall in Hin. rewrite forallb_forall in Hin. apply list_elem_of_In, Hin in Hi. cbn in Hi. by rewrite Ha in Hi.
Qed.

Lemma agent_principal_inv dep held_by a i grant key p :
  agent_principal dep held_by a i grant key = Ok p ->
  is_agent i = true /\ exists held,
    (if decide (key = "") then held = None else held_by key = held /\ held <> None) /\
    p = mkPrincipal a i (agent_grant dep grant held) "" grant key
          (within (agent_grantable dep) held ∖ agent_grant dep grant held) "".
Proof.
  unfold agent_principal, held_by_person. destruct (is_agent i); cbn [negb]; [|done].
  intros H. split; [done|].
  case_decide; [by simplify_eq; eauto|]. destruct (held_by key) as [h|] eqn:Hh; [|done].
  simplify_eq. by eauto.
Qed.

Section Properties.
Variables (dep : Deployment) (held_by : string -> option (gset string)).

(** C4: No agent's token holds what would let it lift its own limits, decide a
    held request, upload a file or end a session, whatever its grant and
    whoever signed it in. *)
Theorem agent_never_holds_reserved (a i key name : string) (grant : gset string) (at_ : list string) (p : Principal) (names : list string) :
  agent_principal dep held_by a i grant key = Ok p ->
  held_only_at name HELD_ONLY_AT = Some at_ -> name ∈ names ->
  permits p names = false /\ name ∉ capabilities p.
Proof.
  intros (Hi & held & _ & ->)%agent_principal_inv Hn Hin. apply among_spec in Hi. split.
  - apply not_true_iff_false. intros H. rewrite permits_spec in H. destruct (H _ Hin) as (_ & _ & _ & Hc).
    cbn [interface] in Hc. by rewrite (reserved_not_at_agents _ _ Hn i Hi) in Hc.
  - cbn. intros Hcap. assert (name ∈ agent_grantable dep) as Hg.
    { unfold agent_grant, within in Hcap. destruct held; set_solver. }
    unfold agent_grantable in Hg. apply elem_of_filter in Hg as [Hg _]. rewrite forallb_forall in Hg.
    specialize (Hg i (proj1 (list_elem_of_In _ _) Hi)).
    by rewrite (reserved_not_at_agents _ _ Hn i Hi) in Hg.
Qed.

(** A token a person signed in never holds more than its grant, nor more than
    that person's role; and what its refusal says a new sign-in would add is
    the rest of the role an agent can hold, never anything beyond it. *)
Theorem agent_within_its_person (a i key : string) (grant role : gset string) (p : Principal) :
  agent_principal dep held_by a i grant key = Ok p -> key <> "" -> held_by key = Some role ->
  capabilities p ⊆ grant ∩ role /\
  capabilities p ∪ grantable p = agent_grantable dep ∩ role /\ capabilities p ## grantable p.
Proof.
  intros (_ & held & Hheld & ->)%agent_principal_inv Hk Hr. rewrite decide_False in Hheld by done.
  destruct Hheld as [Hh _]. rewrite Hr in Hh. subst held. cbn. unfold agent_grant, within.
  split; [set_solver|split; [|set_solver]].
  apply leibniz_equiv. intros x. rewrite elem_of_union, elem_of_difference, !elem_of_intersection.
  destruct (decide (x ∈ grant)); set_solver.
Qed.

(** [could_ever_hold] is exact: it is what some grant would permit. *)
Theorem could_ever_hold_exact (p : Principal) (names : list string) :
  could_ever_hold p names = true <->
  exists caps grantable', permits (mkPrincipal (actor p) (interface p) caps (approved_by p) (granted p) (person_key p) grantable' (device p)) names = true.
Proof.
  unfold could_ever_hold. rewrite andb_true_iff, orb_true_iff, disjoint_from_spec. split.
  - intros [Hc Hp]. exists (list_to_set names), ∅. rewrite permits_spec. intros name Hin.
    split_and!; cbn [capabilities grantable interface].
    + intros Hn. destruct Hp as [Hp|Hp]; [done|]. by destruct (Hp name Hn).
    + set_solver.
    + by apply elem_of_list_to_set.
    + rewrite could_hold_spec in Hc |- *. intros n a [->|Hx]%elem_of_cons; [eauto|set_solver].
  - intros (caps & g & H). rewrite permits_spec in H. split.
    + rewrite could_hold_spec. intros name at_ Hin Hat. destruct (H _ Hin) as (_ & _ & _ & Hc).
      rewrite could_hold_spec in Hc. eapply Hc; [by left|done].
    + destruct (has_a_person p) eqn:Hp; [by left|right]. intros x Hx Hin.
      destruct (H _ Hin) as [Hperson _]. specialize (Hperson Hx). unfold has_a_person, is_interactive in *. cbn in *. congruence.
Qed.

(** A subject names one client as one person: apart again by its last separator. *)
Theorem subject_parts_of (client_id key : string) :
  mem_char SUBJECT_SEPARATOR key = false ->
  (key = "" -> mem_char SUBJECT_SEPARATOR client_id = false) ->
  subject_parts (subject_of client_id key) = (client_id, key).
Proof.
  intros Hk Hc. unfold subject_of, subject_parts. case_decide as Hd.
  - subst. specialize (Hc eq_refl). pose proof (rpartition_spec SUBJECT_SEPARATOR client_id) as H.
    destruct (rpartition SUBJECT_SEPARATOR client_id) as [[b []] r]; [|done].
    destruct H as [-> _]. by rewrite mem_char_app, mem_char_here, orb_true_r in Hc.
  - by rewrite rpartition_join.
Qed.
End Properties.

Definition demo_deployment : Deployment :=
  mkDeployment {[ "write_projects" ]} {[ "delete_projects" ]} {[ "example.run" ]} {[ "example.read" ]}.

Lemma agent_never_holds_reserved_witness :
  exists p, agent_principal demo_deployment (fun _ => None) "bot" "mcp" {[ "read"; "decide_approvals" ]} "" = Ok p /\
    permits p ["read"; "decide_approvals"] = false /\ "decide_approvals" ∉ capabilities p.
Proof.
  eexists. split; [reflexivity|].
  eapply (agent_never_holds_reserved demo_deployment (fun _ => None) "bot" "mcp" "" "decide_approvals");
    [reflexivity|reflexivity|set_solver].
Defined.

Lemma agent_within_its_person_witness :
  exists p, agent_principal demo_deployment (fun _ => Some {[ "read" ]}) "bot" "api" {[ "read"; "write_projects" ]} "abc" = Ok p /\
    capabilities p ⊆ {[ "read"; "write_projects" ]} ∩ {[ "read" ]} /\
    capabilities p ∪ grantable p = agent_grantable demo_deployment ∩ {[ "read" ]} /\ capabilities p ## grantable p.
Proof.
  eexists. split; [reflexivity|].
  eapply (agent_within_its_person demo_deployment (fun _ => Some {[ "read" ]}) "bot" "api" "abc");
    [reflexivity|done|reflexivity].
Defined.

Lemma subject_parts_of_witness :
  mem_char SUBJECT_SEPARATOR "9f2c" = false /\ subject_parts (subject_of "a@b" "9f2c") = ("a@b", "9f2c").
Proof. split; [reflexivity|]. apply subject_parts_of; [reflexivity|done]. Defined.
