(* ===== verification/AgentLimits.v ===== *)
(** How much one agent may ask of HQ ([agent_limits.py]).

    Time is exact rational seconds of the monotonic clock ([Q] where Python has
    a binary64 float).  [Limits] is the process's one object; a [Slot] is kept
    by its position in [slots], since the same slot may be given back twice.
    Each method runs under the object's lock, so one method is one step. *)
From stdpp Require Import base gmap strings list pretty.
From Stdlib Require Import ZArith QArith Qround Qminmax Lqa Lia.
From S2P Require Import Prelude.

#[local] Open Scope string_scope.

Definition RATE_LIMITED := "rate_limited".
Definition TOO_MANY_CALLS := "too_many_calls".
Definition STREAM_RETRY_AFTER : Z := 60.

(** The settings beside [SEVERINO_AGENT_CALLS_AT_ONCE]. *)
Record LimitSettings : Type := mkLimitSettings {
  CALLS_PER_MINUTE : Z;
  CALL_BURST : Z;
  CALLS_AT_ONCE : Z;
  CALLS_AT_ONCE_OVERALL : Z;
  STREAMS_AT_ONCE : Z;
}.

Record Limited : Type := mkLimited {
  l_code : string;
  l_reason : string;
  l_retry_after : Z;
}.

Record Slot : Type := mkSlot { s_actor : string; s_stream : bool; s_held : bool }.

Record Limits : Type := mkLimits {
  full_again : gmap string Q;
  running : gmap string Z;
  listening : gmap string Z;
  overall : Z;
  slots : list Slot;
}.

(** The numbers the deployment serves with ([config/settings.py]). *)
Definition SERVED : LimitSettings := mkLimitSettings 120 30 4 8 16.

Definition no_limits : Limits := mkLimits ∅ ∅ ∅ 0 [].

(** [math.ceil] *)
Definition ceil (q : Q) : Z := Qceiling q.

(** [_forget_recovered(now)]: a bucket full again is the same as none. *)
Definition forget_recovered (now : Q) (full : gmap string Q) : gmap string Q :=
  filter (fun kv => Qle_bool kv.2 now = false) full.

Section Limits.
Variable cfg : LimitSettings.

Definition spacing : Q := inject_Z 60 / inject_Z (CALLS_PER_MINUTE cfg).
Definition depth : Q := spacing * inject_Z (CALL_BURST cfg).

(** [_rate_reason(wait)] *)
Definition rate_reason (wait : Q) : string :=
  "This agent is calling faster than " +:+ pretty (CALLS_PER_MINUTE cfg) +:+ " calls a minute. " +:+
  "Retry in " +:+ pretty (ceil wait) +:+ " seconds.".

(** [max(self._full_again.get(actor, now), now)] *)
Definition level (st : Limits) (actor : string) (now : Q) : Q :=
  Qmax (default now (full_again st !! actor)) now.

(** [Limits.take] *)
Definition take (actor : string) (now : Q) (st : Limits) : option Limited * Limits :=
  let again := (level st actor now + spacing)%Q in
  let wait := (again - now - depth)%Q in
  if negb (Qle_bool wait 0) then
    (Some (mkLimited RATE_LIMITED (rate_reason wait) (ceil wait)), st)
  else
    (None, mkLimits (forget_recovered now (<[actor := again]> (full_again st)))
             (running st) (listening st) (overall st) (slots st)).

(** [Limits.occupy]: the slot is named by its position. *)
Definition occupy (actor : string) (st : Limits) : (Limited + nat) * Limits :=
  if (CALLS_AT_ONCE_OVERALL cfg <=? overall st)%Z then
    (inl (mkLimited TOO_MANY_CALLS "HQ is answering all the agent calls it takes at once. Retry shortly." 1), st)
  else
    let n := default 0%Z (running st !! actor) in
    if (CALLS_AT_ONCE cfg <=? n)%Z then
      (inl (mkLimited TOO_MANY_CALLS
              ("This agent already has " +:+ pretty n +:+ " calls in flight. Retry when one answers.") 1), st)
    else
      (inr (length (slots st)),
       mkLimits (full_again st) (<[actor := (n + 1)%Z]> (running st)) (listening st) (overall st + 1)
         (slots st ++ [mkSlot actor false true])%list).

(** [Limits.listen] *)
Definition listen (actor : string) (st : Limits) : (Limited + nat) * Limits :=
  let n := default 0%Z (listening st !! actor) in
  if (STREAMS_AT_ONCE cfg <=? n)%Z then
    (inl (mkLimited TOO_MANY_CALLS
            ("This agent already has " +:+ pretty n +:+ " listen streams open. Retry when one closes.") STREAM_RETRY_AFTER), st)
  else
    (inr (length (slots st)),
     mkLimits (full_again st) (running st) (<[actor := (n + 1)%Z]> (listening st)) (overall st)
       (slots st ++ [mkSlot actor true true])%list).
End Limits.

(** [Slot.given_back]: whether this is the first time, which marks it given back. *)
Definition given_back (i : nat) (all : list Slot) : option (bool * Slot * list Slot) :=
  match all !! i with
  | None => None
  | Some s => Some (s_held s, s, <[i := mkSlot (s_actor s) (s_stream s) false]> all)
  end.

(** [left = counts.pop(actor) - 1; if left: counts[actor] = left]; [None] is [KeyError]. *)
Definition count_down (actor : string) (counts : gmap string Z) : option (gmap string Z) :=
  match counts !! actor with
  | None => None
  | Some n =>
      let left := (n - 1)%Z in
      Some (if (left =? 0)%Z then delete actor counts else <[actor := left]> (delete actor counts))
  end.

(** [Limits.release]: [None] where Python would raise. *)
Definition release (i : nat) (st : Limits) : option Limits :=
  match given_back i (slots st) with
  | None => None
  | Some (false, _, after) => Some (mkLimits (full_again st) (running st) (listening st) (overall st) after)
  | Some (true, s, after) =>
      if s_stream s then
        counts ← count_down (s_actor s) (listening st);
        Some (mkLimits (full_again st) (running st) counts (overall st) after)
      else
        counts ← count_down (s_actor s) (running st);
        Some (mkLimits (full_again st) counts (listening st) (overall st - 1) after)
  end.

(** [Limits.held]: how many agents anything is held for. *)
Definition held (now : Q) (st : Limits) : nat * Limits :=
  let full := forget_recovered now (full_again st) in
  (size (dom full ∪ dom (running st) ∪ dom (listening st)),
   mkLimits full (running st) (listening st) (overall st) (slots st)).

(** * The rate *)

Section Rate.
Variable cfg : LimitSettings.
Hypothesis rate_positive : (0 < CALLS_PER_MINUTE cfg)%Z.
Hypothesis burst_positive : (1 <= CALL_BURST cfg)%Z.
#[local] Open Scope Q_scope.

Lemma spacing_positive : 0 < spacing cfg.
Proof.
  unfold spacing. apply Qlt_shift_div_l; [by rewrite (Zlt_Qlt 0) in rate_positive|].
  rewrite Qmult_0_l. done.
Qed.

Lemma spacing_within_depth : spacing cfg <= depth cfg.
Proof.
  pose proof spacing_positive. unfold depth.
  assert (1 <= inject_Z (CALL_BURST cfg)) by (by rewrite (Zle_Qle 1) in burst_positive).
  nra.
Qed.

Lemma level_now st a now : now <= level st a now.
Proof. apply Q.le_max_r. Qed.

Lemma Qle_bool_false x y : Qle_bool x y = false <-> y < x.
Proof.
  split; intros H.
  - apply Qnot_le_lt. intros Hle. apply Qle_bool_iff in Hle. congruence.
  - apply not_true_iff_false. intros Hle%Qle_bool_iff. apply (Qlt_not_le _ _ H Hle).
Qed.

Lemma take_admits a now st st' :
  take cfg a now st = (None, st') ->
  level st a now + spacing cfg <= now + depth cfg /\
  full_again st' = forget_recovered now (<[a := level st a now + spacing cfg]> (full_again st)).
Proof.
  unfold take. destruct (Qle_bool _ 0) eqn:Hw; cbn [negb]; intros H; [|done].
  simplify_eq. split; [|done]. apply Qle_bool_iff in Hw. lra.
Qed.

Lemma take_refuses a now st l st' :
  take cfg a now st = (Some l, st') ->
  st' = st /\ now + depth cfg < level st a now + spacing cfg /\
  l_retry_after l = ceil (level st a now + spacing cfg - now - depth cfg).
Proof.
  unfold take. destruct (Qle_bool _ 0) eqn:Hw; cbn [negb]; intros H; [done|].
  simplify_eq. apply Qle_bool_false in Hw. split_and!; [done|lra|done].
Qed.

Lemma ceil_lt x : inject_Z (ceil x) < x + 1.
Proof.
  pose proof (Qceiling_lt x) as H.
  replace (Qceiling x - 1)%Z with (Qceiling x + -1)%Z in H by lia.
  rewrite inject_Z_plus in H. assert (inject_Z (-1) == -1) as Hone by reflexivity.
  rewrite Hone in H. unfold ceil. lra.
Qed.

(** Forgetting a recovered bucket changes no level from then on. *)
Lemma level_forget st st' a t now :
  full_again st' = forget_recovered t (full_again st) -> t <= now ->
  level st' a now == level st a now.
Proof.
  intros Hf Ht. unfold level. rewrite Hf. unfold forget_recovered.
  destruct (full_again st !! a) as [f|] eqn:Ha.
  - destruct (Qle_bool f t) eqn:Hft.
    + rewrite map_lookup_filter_None_2 by (right; intros x Hx; cbn; congruence). cbn.
      apply Qle_bool_iff in Hft. rewrite Q.max_id, Q.max_r; [done|]. lra.
    + by rewrite (map_lookup_filter_Some_2 _ _ _ f).
  - rewrite map_lookup_filter_None_2 by (by left). done.
Qed.

Lemma level_le st a x now now' : x <= level st a now -> now <= now' -> x <= level st a now'.
Proof.
  unfold level. intros Hx Hn. destruct (full_again st !! a) as [f|]; cbn in *.
  - apply Q.max_le in Hx. destruct Hx as [Hx|Hx].
    + eapply Qle_trans; [exact Hx|apply Q.le_max_l].
    + eapply Qle_trans; [|apply Q.le_max_r]. lra.
  - rewrite Q.max_id in *. lra.
Qed.

(** [run evs st]: the calls of [evs], each a time and the agent calling, with
    how many of [a]'s were let through. *)
Fixpoint admitted (a : string) (evs : list (Q * string)) (st : Limits) : nat * Limits :=
  match evs with
  | [] => (0%nat, st)
  | (t, b) :: rest =>
      match take cfg b t st with
      | (None, st') =>
          let '(n, st'') := admitted a rest st' in ((if decide (a = b) then S n else n), st'')
      | (Some _, st') => admitted a rest st'
      end
  end.

(** The clock is monotonic. *)
Fixpoint monotonic (t : Q) (evs : list (Q * string)) : Prop :=
  match evs with
  | [] => True
  | (t', _) :: rest => t <= t' /\ monotonic t' rest
  end.

Definition last_time (t0 : Q) (evs : list (Q * string)) : Q :=
  default t0 (fst <$> last evs).

Lemma take_level_self a t st st' :
  take cfg a t st = (None, st') -> forall now, t <= now ->
  level st a t + spacing cfg <= level st' a now.
Proof.
  intros (Hadm & Hf)%take_admits now Hnow. unfold level at 2. rewrite Hf. unfold forget_recovered.
  destruct (Qle_bool (level st a t + spacing cfg) t) eqn:Hr.
  - rewrite map_lookup_filter_None_2.
    + cbn. apply Qle_bool_iff in Hr. rewrite Q.max_id. lra.
    + right. intros x. rewrite lookup_insert_eq. intros [= <-]. cbn. congruence.
  - rewrite (map_lookup_filter_Some_2 _ _ _ (level st a t + spacing cfg)); [|apply lookup_insert_eq|done].
    apply Q.le_max_l.
Qed.

Lemma take_level_other a b t st st' :
  a <> b -> take cfg b t st = (None, st') -> forall now, t <= now ->
  level st' a now == level st a now.
Proof.
  intros Hab (_ & Hf)%take_admits now Hnow.
  rewrite (level_forget (mkLimits (<[b:=level st b t + spacing cfg]> (full_again st)) ∅ ∅ 0 []) st' a t now Hf Hnow).
  unfold level. cbn. by rewrite lookup_insert_ne.
Qed.

Lemma admitted_level a evs : forall st t (x : Q) (k : nat),
  monotonic t evs -> (forall now, t <= now -> x + inject_Z (Z.of_nat k) * spacing cfg <= level st a now) ->
  let n := (admitted a evs st).1 in
  n = 0%nat \/ x + inject_Z (Z.of_nat (k + n)) * spacing cfg <= last_time t evs + depth cfg.
Proof.
  induction evs as [|[t' b] evs IH]; intros st t x k Hmono Hlev; [by left|].
  destruct Hmono as [Ht Hmono]. cbn [admitted].
  assert (last_time t ((t', b) :: evs) = last_time t' evs) as Hlast.
  { unfold last_time. by destruct evs as [|e evs] using rev_ind; [|rewrite app_comm_cons, !last_snoc]. }
  rewrite Hlast. destruct (take cfg b t' st) as [[l|] st'] eqn:Htake.
  - apply take_refuses in Htake as (-> & _). apply IH; [done|].
    intros now Hnow. apply Hlev. lra.
  - destruct (decide (a = b)) as [<-|Hab].
    + specialize (IH st' t' x (S k) Hmono). destruct (admitted a evs st') as [n st''] eqn:Hn. cbn [fst] in IH |- *.
      assert (x + inject_Z (Z.of_nat (S k)) * spacing cfg <= level st a t' + spacing cfg) as Hstep.
      { specialize (Hlev t' Ht). rewrite Nat2Z.inj_succ, <- Z.add_1_r, inject_Z_plus. change (inject_Z 1) with 1. lra. }
      destruct IH as [-> | IH].
      * intros now Hnow. eapply Qle_trans; [exact Hstep|]. by eapply take_level_self.
      * right. apply take_admits in Htake as [Hadm _]. rewrite Nat.add_1_r.
        assert (t' <= last_time t' evs) as Hl.
        { clear -Hmono. revert t' Hmono. induction evs as [|[u c] evs IH]; intros t' Hm; [apply Qle_refl|].
          destruct Hm as [Hu Hm]. specialize (IH u Hm).
          assert (last_time t' ((u, c) :: evs) = last_time u evs) as ->; [|lra].
          unfold last_time. by destruct evs as [|e evs] using rev_ind; [|rewrite app_comm_cons, !last_snoc]. }
        lra.
      * right. by rewrite Nat.add_succ_r in *.
    + destruct (admitted a evs st') as [n st''] eqn:Hn. cbn [fst].
      specialize (IH st' t' x k Hmono). rewrite Hn in IH. apply IH.
      intros now Hnow. rewrite (take_level_other a b t' st st' Hab Htake now Hnow). apply Hlev. lra.
Qed.

(** However the calls of every agent interleave and whatever went before, the
    calls of one agent let through between two moments are at most its burst
    and its rate over the time between them. *)
Theorem rate_bound (a : string) (t0 : Q) (evs : list (Q * string)) (st : Limits) :
  monotonic t0 evs ->
  let n := (admitted a evs st).1 in
  n = 0%nat \/ inject_Z (Z.of_nat n) * spacing cfg <= depth cfg + (last_time t0 evs - t0).
Proof.
  intros Hm n. destruct (admitted_level a evs st t0 t0 0 Hm) as [H|H].
  - intros now Hnow. change (inject_Z (Z.of_nat 0)) with 0. pose proof (level_now st a now). lra.
  - by left.
  - right. subst n. rewrite Nat.add_0_l in H. lra.
Qed.

(** A refused call spends nothing and its wait is enough: the same agent
    asking again once it has passed is let through, and any sooner than the
    exact wait it is refused again. *)
Theorem retry_after_is_enough (a : string) (now later : Q) (st st' : Limits) (l : Limited) :
  take cfg a now st = (Some l, st') ->
  st' = st /\ (1 <= l_retry_after l)%Z /\
  (now + inject_Z (l_retry_after l) <= later -> (take cfg a later st').1 = None) /\
  (now <= later -> later < now + inject_Z (l_retry_after l) - 1 -> exists l', (take cfg a later st').1 = Some l').
Proof.
  intros (-> & Hw & Hr)%take_refuses. pose proof spacing_positive. pose proof spacing_within_depth as Hsd.
  set (w := (level st a now + spacing cfg - now - depth cfg)%Q) in *.
  assert (now < level st a now) as Hlev by lra.
  assert (exists f, full_again st !! a = Some f /\ level st a now == f /\ now < f) as (f & Hf & Hlf & Hfn).
  { unfold level in *. destruct (full_again st !! a) as [f|]; cbn in *.
    - exists f. destruct (Qlt_le_dec now f) as [Hn|Hn].
      + split_and!; [done|apply Q.max_l; lra|done].
      + rewrite Q.max_r in Hlev by done. lra.
    - rewrite Q.max_id in Hlev. lra. }
  assert (w <= inject_Z (l_retry_after l)) as Hge by (rewrite Hr; apply Qle_ceiling).
  split_and!; [done| | |].
  - rewrite Hr. apply (Zlt_le_succ 0). rewrite Zlt_Qlt. eapply Qlt_le_trans; [|apply Qle_ceiling].
    unfold w in *. change (inject_Z 0) with 0. lra.
  - intros Hl. unfold take.
    assert (Qle_bool (level st a later + spacing cfg - later - depth cfg) 0 = true) as ->; [|done].
    apply Qle_bool_iff. unfold level. rewrite Hf. cbn. unfold w in Hge. rewrite Hlf in Hge.
    destruct (Qlt_le_dec f later) as [Hn|Hn].
    + rewrite Q.max_r by lra. lra.
    + rewrite Q.max_l by lra. lra.
  - intros Hn Hl. unfold take.
    assert (Qle_bool (level st a later + spacing cfg - later - depth cfg) 0 = false) as ->; [|cbn; eauto].
    apply Qle_bool_false. pose proof (ceil_lt w) as Hc. rewrite Hr in Hl.
    assert (f <= level st a later) as Hfl by (unfold level; rewrite Hf; apply Q.le_max_l).
    assert (w == f + spacing cfg - now - depth cfg) as Hwf by (unfold w; by rewrite Hlf).
    clearbody w. clear Hf Hsd Hlev Hge Hr. lra.
Qed.
(** * The rate as a token bucket

    The reference: each agent has a bucket of [CALL_BURST] tokens, one call takes one, and
    [CALLS_PER_MINUTE] a minute come back until it is full.  [take] keeps one moment per agent
    where this keeps a count and a moment. *)
Record Bucket : Type := mkBucket { b_tokens : Q; b_at : Q }.

Definition burst : Q := inject_Z (CALL_BURST cfg).
Definition per_second : Q := inject_Z (CALLS_PER_MINUTE cfg) / inject_Z 60.

Definition tokens_at (bs : gmap string Bucket) (a : string) (now : Q) : Q :=
  match bs !! a with Some b => Qmin burst (b_tokens b + (now - b_at b) * per_second) | None => burst end.

Definition bucket_take (a : string) (now : Q) (bs : gmap string Bucket) : bool * gmap string Bucket :=
  if Qle_bool 1 (tokens_at bs a now) then (true, <[a := mkBucket (tokens_at bs a now - 1) now]> bs) else (false, bs).

(** Which calls of a run each lets through. *)
Fixpoint bucket_run (evs : list (Q * string)) (bs : gmap string Bucket) : list bool :=
  match evs with
  | [] => []
  | (t, a) :: rest => let '(through, bs') := bucket_take a t bs in through :: bucket_run rest bs'
  end.

Fixpoint take_run (evs : list (Q * string)) (st : Limits) : list bool :=
  match evs with
  | [] => []
  | (t, a) :: rest =>
      let '(refused, st') := take cfg a t st in
      match refused with None => true | Some _ => false end :: take_run rest st'
  end.

(** What is missing from a full bucket is what its level is ahead of now. *)
Definition levels_match (st : Limits) (bs : gmap string Bucket) (t : Q) : Prop :=
  forall a now, t <= now -> spacing cfg * (burst - tokens_at bs a now) == level st a now - now.

Lemma spacing_per_second : spacing cfg * per_second == 1.
Proof.
  unfold spacing, per_second. assert (~ inject_Z (CALLS_PER_MINUTE cfg) == 0) as Hne.
  { intros H. change 0 with (inject_Z 0) in H. rewrite inject_Z_injective in H. lia. }
  by field.
Qed.

Lemma take_level_after a t st st' now : take cfg a t st = (None, st') -> t <= now ->
  level st' a now == Qmax (level st a t + spacing cfg) now.
Proof.
  intros (_ & Hf)%take_admits Hnow. unfold level at 1. rewrite Hf. unfold forget_recovered.
  destruct (Qle_bool (level st a t + spacing cfg) t) eqn:Hr.
  - rewrite map_lookup_filter_None_2.
    + cbn. apply Qle_bool_iff in Hr. rewrite Q.max_id, Q.max_r; [done|lra].
    + right. intros x. rewrite lookup_insert_eq. intros [= <-]. cbn. congruence.
  - by rewrite (map_lookup_filter_Some_2 _ _ _ (level st a t + spacing cfg)); [|apply lookup_insert_eq|].
Qed.

Lemma Qmin_minus x y z : z - Qmin x y == Qmax (z - x) (z - y).
Proof. destruct (Q.min_spec x y) as [[H ->]|[H ->]], (Q.max_spec (z - x) (z - y)) as [[H' ->]|[H' ->]]; lra. Qed.

Lemma Qmult_max_l x y z : 0 < z -> z * Qmax x y == Qmax (z * x) (z * y).
Proof.
  intros Hz. destruct (Q.max_spec x y) as [[H ->]|[H ->]].
  - rewrite Q.max_r; [done|]. rewrite Qmult_le_l by done. lra.
  - rewrite Q.max_l; [done|]. by rewrite Qmult_le_l.
Qed.

Lemma levels_match_later st bs t t' : levels_match st bs t -> t <= t' -> levels_match st bs t'.
Proof. intros Hm Ht a now Hnow. apply Hm. lra. Qed.

(** One call of either: the same answer, and what is left still matches. *)
Lemma take_matches st bs t a now : levels_match st bs t -> t <= now ->
  let '(refused, st') := take cfg a now st in
  let '(through, bs') := bucket_take a now bs in
  through = match refused with None => true | Some _ => false end /\ levels_match st' bs' now.
Proof.
  intros Hm Hnow. pose proof spacing_positive as Hsp. pose proof (Hm a now Hnow) as Ha. unfold bucket_take.
  assert (depth cfg == spacing cfg * burst) as Hd by done.
  destruct (take cfg a now st) as [[l|] st'] eqn:Htake.
  - apply take_refuses in Htake as (-> & Hw & _).
    rewrite (proj2 (Qle_bool_false 1 _)) by nra. split; [done|by eapply levels_match_later].
  - pose proof (take_admits _ _ _ _ Htake) as [Hw _]. rewrite (proj2 (Qle_bool_iff 1 _)) by nra. split; [done|].
    intros b later Hlater. destruct (decide (b = a)) as [->|Hba].
    + unfold tokens_at at 1. rewrite lookup_insert_eq. cbn [b_tokens b_at]. rewrite (take_level_after a now st st' later Htake Hlater).
      assert (spacing cfg * (burst - (tokens_at bs a now - 1 + (later - now) * per_second)) == level st a now + spacing cfg - later) as Hleft.
      { transitivity (spacing cfg * (burst - tokens_at bs a now) + spacing cfg - (later - now) * (spacing cfg * per_second)); [ring|].
        rewrite Ha, spacing_per_second. ring. }
      rewrite Qmin_minus, Qmult_max_l by done. rewrite Hleft. assert (spacing cfg * (burst - burst) == 0) as -> by ring.
      destruct (Q.max_spec 0 (level st a now + spacing cfg - later)) as [[H ->]|[H ->]],
        (Q.max_spec (level st a now + spacing cfg) later) as [[H' ->]|[H' ->]]; lra.
    + unfold tokens_at. rewrite lookup_insert_ne by done. fold (tokens_at bs b later).
      rewrite (take_level_other b a now st st' Hba Htake later Hlater). apply Hm. lra.
Qed.

Lemma runs_match evs : forall st bs t, levels_match st bs t -> monotonic t evs -> take_run evs st = bucket_run evs bs.
Proof.
  induction evs as [|[t' a] evs IH]; intros st bs t Hm Hmono; [done|]. destruct Hmono as [Ht Hmono]. cbn [take_run bucket_run].
  pose proof (take_matches st bs t a t' Hm Ht) as H. destruct (take cfg a t' st) as [refused st'], (bucket_take a t' bs) as [through bs'].
  destruct H as [-> Hm']. f_equal. by eapply IH.
Qed.

End Rate.

(** * The counts *)

Definition is_call (a : string) (s : Slot) : bool := s_held s && negb (s_stream s) && bool_decide (s_actor s = a).
Definition is_stream (a : string) (s : Slot) : bool := s_held s && s_stream s && bool_decide (s_actor s = a).
Definition is_any_call (s : Slot) : bool := s_held s && negb (s_stream s).

Definition tally (p : Slot -> bool) (l : list Slot) : Z := Z.of_nat (length (List.filter p l)).

(** [counts] holds, for each agent, how many slots [p] picks, and no zero. *)
Definition counted (p : string -> Slot -> bool) (l : list Slot) (counts : gmap string Z) : Prop :=
  forall a, default 0%Z (counts !! a) = tally (p a) l /\ counts !! a <> Some 0%Z.

Record limits_ok (cfg : LimitSettings) (st : Limits) : Prop := {
  ok_running : counted is_call (slots st) (running st);
  ok_listening : counted is_stream (slots st) (listening st);
  ok_overall : overall st = tally is_any_call (slots st);
  ok_own_cap : forall a, (tally (is_call a) (slots st) <= CALLS_AT_ONCE cfg)%Z;
  ok_stream_cap : forall a, (tally (is_stream a) (slots st) <= STREAMS_AT_ONCE cfg)%Z;
  ok_overall_cap : (overall st <= CALLS_AT_ONCE_OVERALL cfg)%Z;
}.

Section Tally.
Variable p : Slot -> bool.

Lemma tally_snoc l s : tally p (l ++ [s]) = (tally p l + if p s then 1 else 0)%Z.
Proof.
  unfold tally. rewrite List.filter_app, length_app. cbn. destruct (p s); cbn; lia.
Qed.

Lemma tally_insert l i s s' :
  l !! i = Some s ->
  tally p (<[i := s']> l) = (tally p l - (if p s then 1 else 0) + (if p s' then 1 else 0))%Z.
Proof.
  unfold tally. revert i. induction l as [|x l IH]; intros [|i] H; [done..| |].
  - injection H as ->. change (<[0%nat := s']> (s :: l)) with (s' :: l). cbn [List.filter].
    destruct (p s), (p s'); cbn [length]; lia.
  - specialize (IH i H). change (<[S i := s']> (x :: l)) with (x :: <[i := s']> l). cbn [List.filter].
    destruct (p x); cbn [length]; lia.
Qed.

Lemma tally_nonneg l : (0 <= tally p l)%Z.
Proof. unfold tally. lia. Qed.
End Tally.

Lemma tally_pos (p : Slot -> bool) l i s : l !! i = Some s -> p s = true -> (1 <= tally p l)%Z.
Proof.
  unfold tally. revert i. induction l as [|x l IH]; intros [|i] H Hp; cbn in *; simplify_eq.
  - rewrite Hp. cbn. lia.
  - specialize (IH i H Hp). destruct (p x); cbn; lia.
Qed.

Lemma tally_zero (p : Slot -> bool) l : (forall s, s ∈ l -> p s = false) -> tally p l = 0%Z.
Proof.
  intros H. unfold tally. induction l as [|x l IH]; [done|]. cbn. rewrite H by left. apply IH.
  intros s Hs. apply H. by right.
Qed.

(** A count that goes down keeps what it counts, and is never missing. *)
Lemma count_down_counted (p : string -> Slot -> bool) l i s s' counts :
  counted p l counts -> l !! i = Some s -> (forall a, p a s = bool_decide (s_actor s = a)) ->
  (forall a, p a s' = false) ->
  exists counts', count_down (s_actor s) counts = Some counts' /\ counted p (<[i := s']> l) counts'.
Proof.
  intros Hc Hi Hs Hs'. pose proof (Hc (s_actor s)) as [Hn Hz].
  assert (1 <= tally (p (s_actor s)) l)%Z as Hpos.
  { eapply tally_pos; [done|]. rewrite Hs. by apply bool_decide_eq_true. }
  unfold count_down. destruct (counts !! s_actor s) as [n|] eqn:Hget; cbn in Hn; [|lia].
  eexists. split; [done|]. intros a.
  rewrite (tally_insert _ _ _ _ _ Hi), Hs, Hs'. pose proof (Hc a) as [Ha Hza].
  destruct (decide (s_actor s = a)) as [<-|Hne].
  - rewrite bool_decide_eq_true_2 by done. destruct (n - 1 =? 0)%Z eqn:Hz0.
    + rewrite lookup_delete_eq. cbn. split; [|done]. apply Z.eqb_eq in Hz0. lia.
    + rewrite lookup_insert_eq. cbn. apply Z.eqb_neq in Hz0. split; [lia|congruence].
  - rewrite bool_decide_eq_false_2 by done. rewrite Z.sub_0_r, Z.add_0_r.
    destruct (n - 1 =? 0)%Z; rewrite ?lookup_insert_ne, lookup_delete_ne by done; done.
Qed.

Lemma count_up_counted (p : string -> Slot -> bool) l s counts :
  counted p l counts -> (forall a, p a s = bool_decide (s_actor s = a)) ->
  counted p (l ++ [s]) (<[s_actor s := (default 0 (counts !! s_actor s) + 1)%Z]> counts).
Proof.
  intros Hc Hs a. rewrite tally_snoc, Hs. pose proof (Hc a) as [Ha Hz].
  pose proof (tally_nonneg (p a) l). destruct (decide (s_actor s = a)) as [<-|Hne].
  - rewrite lookup_insert_eq, bool_decide_eq_true_2 by done. cbn. rewrite Ha. split; [lia|].
    intros [=]. lia.
  - rewrite lookup_insert_ne, bool_decide_eq_false_2, Z.add_0_r by done. done.
Qed.

Lemma counted_snoc_other (p : string -> Slot -> bool) l s counts :
  counted p l counts -> (forall a, p a s = false) -> counted p (l ++ [s]) counts.
Proof. intros Hc Hs a. rewrite tally_snoc, Hs, Z.add_0_r. apply Hc. Qed.

Lemma counted_insert_other (p : string -> Slot -> bool) l i s s' counts :
  counted p l counts -> l !! i = Some s -> (forall a, p a s = false) -> (forall a, p a s' = false) ->
  counted p (<[i := s']> l) counts.
Proof. intros Hc Hi Hs Hs' a. rewrite (tally_insert _ _ _ _ _ Hi), Hs, Hs', Z.sub_0_r, Z.add_0_r. apply Hc. Qed.

(** What the doors do with the limits: a call is let through, held at once, or
    a stream opened; any slot is given back, however often; the count is read. *)
Inductive limit_step (cfg : LimitSettings) : Limits -> Limits -> Prop :=
| step_take a now st : limit_step cfg st (take cfg a now st).2
| step_occupy a st : limit_step cfg st (occupy cfg a st).2
| step_listen a st : limit_step cfg st (listen cfg a st).2
| step_release i st st' : release i st = Some st' -> limit_step cfg st st'
| step_held now st : limit_step cfg st (held now st).2.

Section Counts.
Variable cfg : LimitSettings.

Lemma take_ok a now st : limits_ok cfg st -> limits_ok cfg (take cfg a now st).2.
Proof. intros []. unfold take. destruct (negb _); cbn; by constructor. Qed.

Lemma held_ok now st : limits_ok cfg st -> limits_ok cfg (held now st).2.
Proof. intros []. by constructor. Qed.

Lemma occupy_ok a st : limits_ok cfg st -> limits_ok cfg (occupy cfg a st).2.
Proof.
  intros [Hr Hl Ho Hc Hs Hoc]. unfold occupy.
  destruct (CALLS_AT_ONCE_OVERALL cfg <=? overall st)%Z eqn:H1; [by constructor|].
  destruct (CALLS_AT_ONCE cfg <=? _)%Z eqn:H2; [by constructor|].
  apply Z.leb_gt in H1, H2. cbn [snd]. constructor; cbn [slots running listening overall].
  - by apply (count_up_counted is_call _ (mkSlot a false true)).
  - by apply counted_snoc_other.
  - rewrite tally_snoc. cbn. lia.
  - intros b. rewrite tally_snoc. cbn. specialize (Hc b). case_bool_decide as Hab; [subst b|lia].
    destruct (Hr a) as [Ha _]. lia.
  - intros b. rewrite tally_snoc. cbn. specialize (Hs b). lia.
  - lia.
Qed.

Lemma listen_ok a st : limits_ok cfg st -> limits_ok cfg (listen cfg a st).2.
Proof.
  intros [Hr Hl Ho Hc Hs Hoc]. unfold listen.
  destruct (STREAMS_AT_ONCE cfg <=? _)%Z eqn:H2; [by constructor|].
  apply Z.leb_gt in H2. cbn [snd]. constructor; cbn [slots running listening overall].
  - by apply counted_snoc_other.
  - by apply (count_up_counted is_stream _ (mkSlot a true true)).
  - rewrite tally_snoc. cbn. lia.
  - intros b. rewrite tally_snoc. cbn. specialize (Hc b). lia.
  - intros b. rewrite tally_snoc. cbn. specialize (Hs b). case_bool_decide as Hab; [subst b|lia].
    destruct (Hl a) as [Ha _]. lia.
  - done.
Qed.

(** A slot this process handed out is given back without error, once. *)
Lemma release_ok i st :
  limits_ok cfg st -> (i < length (slots st))%nat ->
  exists st', release i st = Some st' /\ limits_ok cfg st'.
Proof.
  intros [Hr Hl Ho Hc Hs Hoc] Hi. apply lookup_lt_is_Some in Hi as [s His].
  unfold release, given_back. rewrite His. destruct s as [a [] []]; cbn [s_held s_stream s_actor].
  - set (s' := mkSlot a true false).
    destruct (count_down_counted is_stream _ i _ s' _ Hl His) as (counts & Hcd & Hcnt); [done..|]. cbn [s_actor] in Hcd. rewrite Hcd.
    eexists. split; [done|]. constructor; cbn [slots running listening overall]; try done.
    + by eapply counted_insert_other.
    + rewrite (tally_insert _ _ _ _ _ His). cbn. lia.
    + intros b. rewrite (tally_insert _ _ _ _ _ His). cbn. specialize (Hc b). lia.
    + intros b. rewrite (tally_insert _ _ _ _ _ His). cbn. specialize (Hs b). case_bool_decide; lia.
  - set (s' := mkSlot a true false).
    eexists. split; [done|]. constructor; cbn [slots running listening overall]; try done.
    + by eapply counted_insert_other.
    + by eapply counted_insert_other.
    + rewrite (tally_insert _ _ _ _ _ His). cbn. lia.
    + intros b. rewrite (tally_insert _ _ _ _ _ His). cbn. specialize (Hc b). lia.
    + intros b. rewrite (tally_insert _ _ _ _ _ His). cbn. specialize (Hs b). lia.
  - set (s' := mkSlot a false false).
    destruct (count_down_counted is_call _ i _ s' _ Hr His) as (counts & Hcd & Hcnt); [done..|]. cbn [s_actor] in Hcd. rewrite Hcd.
    eexists. split; [done|]. constructor; cbn [slots running listening overall]; try done.
    + by eapply counted_insert_other.
    + rewrite (tally_insert _ _ _ _ _ His). cbn. lia.
    + intros b. rewrite (tally_insert _ _ _ _ _ His). cbn. specialize (Hc b). case_bool_decide; lia.
    + intros b. rewrite (tally_insert _ _ _ _ _ His). cbn. specialize (Hs b). lia.
    + lia.
  - set (s' := mkSlot a false false).
    eexists. split; [done|]. constructor; cbn [slots running listening overall]; try done.
    + by eapply counted_insert_other.
    + by eapply counted_insert_other.
    + rewrite (tally_insert _ _ _ _ _ His). cbn. lia.
    + intros b. rewrite (tally_insert _ _ _ _ _ His). cbn. specialize (Hc b). lia.
    + intros b. rewrite (tally_insert _ _ _ _ _ His). cbn. specialize (Hs b). lia.
Qed.

Lemma limit_step_ok st st' : limits_ok cfg st -> limit_step cfg st st' -> limits_ok cfg st'.
Proof.
  intros Hok Hstep. destruct Hstep.
  - by apply take_ok.
  - by apply occupy_ok.
  - by apply listen_ok.
  - destruct (decide (i < length (slots st))%nat) as [Hi|Hi].
    + destruct (release_ok i st Hok Hi) as (st2 & H2 & Hok2). congruence.
    + unfold release, given_back in H. by rewrite (proj2 (lookup_ge_None _ _)) in H by lia.
  - by apply held_ok.
Qed.

(** In every reachable state the counts are exactly the slots not yet given
    back, none past its cap, and giving back any slot handed out raises
    nothing, the second time included. *)
Theorem counts_are_the_slots_held (st : Limits) :
  (0 <= CALLS_AT_ONCE cfg)%Z -> (0 <= CALLS_AT_ONCE_OVERALL cfg)%Z -> (0 <= STREAMS_AT_ONCE cfg)%Z ->
  rtc (limit_step cfg) no_limits st ->
  limits_ok cfg st /\
  forall i, (i < length (slots st))%nat -> exists st1 st2,
    release i st = Some st1 /\ release i st1 = Some st2 /\ st2 = st1.
Proof.
  intros H1 H2 H3 Hreach.
  assert (limits_ok cfg st) as Hok.
  { assert (limits_ok cfg no_limits) as H0.
    { constructor; cbn; try done; intros a; by split. }
    induction Hreach as [|x y z Hxy Hyz IH]; [done|]. apply IH. by eapply limit_step_ok. }
  split; [done|]. intros i Hi. destruct (release_ok i st Hok Hi) as (st1 & Hst1 & Hok1).
  exists st1, st1. split; [done|]. split; [|done].
  unfold release, given_back in Hst1. destruct (slots st !! i) as [s|] eqn:Hs; [|done].
  assert (slots st1 = <[i := mkSlot (s_actor s) (s_stream s) false]> (slots st)) as Hsl.
  { destruct (s_held s), (s_stream s); cbn in Hst1; try (destruct (count_down _ _); cbn in Hst1); by simplify_eq. }
  unfold release, given_back. rewrite Hsl, list_lookup_insert_eq by done. cbn.
  rewrite list_insert_insert_eq. rewrite <- Hsl. by destruct st1.
Qed.

(** An agent that is not calling holds nothing: with every slot given back and
    every bucket full again, the process keeps nothing of anyone. *)
Theorem idle_holds_nothing (st : Limits) (now : Q) :
  limits_ok cfg st -> (forall s, s ∈ slots st -> s_held s = false) ->
  (forall a f, full_again st !! a = Some f -> Qle f now) ->
  (held now st).1 = 0%nat /\ running st = ∅ /\ listening st = ∅ /\ overall st = 0%Z.
Proof.
  intros [Hr Hl Ho _ _ _] Hs Hf.
  assert (forall p counts, counted p (slots st) counts -> (forall a s, s_held s = false -> p a s = false) -> counts = ∅) as Hempty.
  { intros p counts Hc Hp. apply map_eq. intros a. rewrite lookup_empty. destruct (Hc a) as [Ha Hz].
    rewrite tally_zero in Ha by (intros s Hin; apply Hp, Hs, Hin).
    destruct (counts !! a); cbn in Ha; congruence. }
  assert (running st = ∅) as Hrun by (apply (Hempty is_call); [done|intros a [] ?; cbn in *; by subst]).
  assert (listening st = ∅) as Hlis by (apply (Hempty is_stream); [done|intros a [] ?; cbn in *; by subst]).
  assert (forget_recovered now (full_again st) = ∅) as Hfull.
  { apply map_eq. intros a. rewrite lookup_empty. unfold forget_recovered. apply map_lookup_filter_None_2.
    right. intros f Ha%Hf. cbn. apply Qle_bool_iff in Ha. congruence. }
  split_and!; [|done|done|].
  - cbn. rewrite Hrun, Hlis, Hfull. by rewrite !dom_empty_L.
  - rewrite Ho. apply tally_zero. intros s Hin. unfold is_any_call. by rewrite Hs.
Qed.
End Counts.


Lemma rate_bound_witness :
  let evs := [(0#1, "a"); (0#1, "b"); (0#1, "a"); (1#4, "a"); (1#2, "a")]%Q in
  let cfg := mkLimitSettings 120 2 4 8 16 in
  (admitted cfg "a" evs no_limits).1 = 3%nat /\
  (3%nat = 0%nat \/ (inject_Z 3 * spacing cfg <= depth cfg + (last_time 0 evs - 0))%Q).
Proof.
  split; [vm_compute; reflexivity|].
  exact (rate_bound (mkLimitSettings 120 2 4 8 16) "a" 0 [(0#1, "a"); (0#1, "b"); (0#1, "a"); (1#4, "a"); (1#2, "a")]%Q
    no_limits ltac:(cbn; repeat split; by apply Qle_bool_iff)).
Defined.

Definition one_call_settings : LimitSettings := mkLimitSettings 120 1 4 8 16.
Definition one_call_spent : Limits := (take one_call_settings "a" 0 no_limits).2.
Definition told_to_wait : Limited :=
  mkLimited RATE_LIMITED "This agent is calling faster than 120 calls a minute. Retry in 1 seconds." 1.

Lemma retry_after_is_enough_witness :
  take one_call_settings "a" 0 one_call_spent = (Some told_to_wait, one_call_spent) /\
  (take one_call_settings "a" 1 one_call_spent).1 = None.
Proof.
  assert (take one_call_settings "a" 0 one_call_spent = (Some told_to_wait, one_call_spent)) as H
    by (vm_compute; reflexivity).
  split; [exact H|].
  exact (proj1 (proj2 (proj2 (retry_after_is_enough one_call_settings ltac:(reflexivity) ltac:(vm_compute; discriminate)
    "a" 0 1 one_call_spent one_call_spent told_to_wait H))) ltac:(vm_compute; discriminate)).
Defined.

Lemma counts_are_the_slots_held_witness :
  let st := (occupy SERVED "a" no_limits).2 in
  limits_ok SERVED st /\
  forall i, (i < length (slots st))%nat -> exists st1 st2, release i st = Some st1 /\ release i st1 = Some st2 /\ st2 = st1.
Proof.
  apply (counts_are_the_slots_held SERVED); [cbn; lia..|].
  apply rtc_once, step_occupy.
Defined.

Lemma idle_holds_nothing_witness :
  (held 5 no_limits).1 = 0%nat /\ running no_limits = ∅ /\ listening no_limits = ∅ /\ overall no_limits = 0%Z.
Proof.
  apply (idle_holds_nothing SERVED).
  - constructor; cbn; try done; intros a; by split.
  - intros s Hs. by apply elem_of_nil in Hs.
  - intros a f H. exfalso. cbn in H. by apply lookup_empty_Some in H.
Defined.
