(* ===== verification/Models.v ===== *)
(** The rows HQ keeps and the state every component reads and writes.

    The models of [domains/control_plane/models.py], [domains/jobs/models.py] and
    [platform/core/models.py] that the modelled code touches, with the rules the
    database holds them to, and [Db], the one state.  A timestamp is a whole
    number of microseconds since 1970 in UTC, Django's precision. *)
From stdpp Require Import base gmap strings list pretty.
From Stdlib Require Import Ascii ZArith Lia.
From S2P Require Import Prelude PyStr Json Refusals Security.

#[local] Open Scope string_scope.

(** * Time *)

Definition SECOND : Z := 1000000.
Definition MINUTE : Z := 60 * SECOND.
Definition HOUR : Z := 60 * MINUTE.
Definition DAY : Z := 24 * HOUR.

(** [f"{n:0{width}d}"] of a number that is not negative. *)
Fixpoint zeros (n : nat) : string := match n with 0 => "" | S n' => String "0"%char (zeros n') end.

Definition padded (width : nat) (n : Z) : string :=
  let s := pretty n in zeros (width - String.length s) +:+ s.

(** The civil date of a count of days since 1970-01-01: year, month, day. *)
Definition civil (days : Z) : Z * Z * Z :=
  let z := (days + 719468)%Z in
  let era := (z / 146097)%Z in
  let doe := (z mod 146097)%Z in
  let yoe := ((doe - doe / 1460 + doe / 36524 - doe / 146096) / 365)%Z in
  let doy := (doe - (365 * yoe + yoe / 4 - yoe / 100))%Z in
  let mp := ((5 * doy + 2) / 153)%Z in
  let d := (doy - (153 * mp + 2) / 5 + 1)%Z in
  let m := (if mp <? 10 then mp + 3 else mp - 9)%Z in
  ((yoe + era * 400 + (if m <=? 2 then 1 else 0))%Z, m, d).

(** [moment.date().isoformat()] *)
Definition isodate (t : Z) : string :=
  let '(y, m, d) := civil (t / DAY) in
  padded 4 y +:+ "-" +:+ padded 2 m +:+ "-" +:+ padded 2 d.

(** [moment.isoformat()], in UTC. *)
Definition isoformat (t : Z) : string :=
  let s := (t mod DAY / SECOND)%Z in
  let us := (t mod SECOND)%Z in
  isodate t +:+ "T" +:+ padded 2 (s / 3600)%Z +:+ ":" +:+ padded 2 (s / 60 mod 60)%Z +:+ ":" +:+ padded 2 (s mod 60)%Z
    +:+ (if (us =? 0)%Z then "" else "." +:+ padded 6 us) +:+ "+00:00".

Definition iso_or_null (t : option Z) : json :=
  match t with Some t => JStr (isoformat t) | None => JNull end.

Example isoformat_example : isoformat 1793629800123456 = "2026-11-02T14:30:00.123456+00:00".
Proof. vm_compute. reflexivity. Qed.

(** * States *)

(** [class ApprovalState] *)
Inductive ApprovalState : Type := A_PENDING | A_APPROVED | A_REJECTED | A_EXPIRED | A_STALE.

#[export] Instance ApprovalState_eq_dec : EqDecision ApprovalState.
Proof. solve_decision. Defined.

Definition approval_value (s : ApprovalState) : string :=
  match s with
  | A_PENDING => "pending" | A_APPROVED => "approved" | A_REJECTED => "rejected"
  | A_EXPIRED => "expired" | A_STALE => "stale"
  end.

(** [held.get_state_display()] *)
Definition approval_display (s : ApprovalState) : string :=
  match s with
  | A_PENDING => "Waiting for a person" | A_APPROVED => "Approved and applied" | A_REJECTED => "Rejected"
  | A_EXPIRED => "Lapsed unanswered" | A_STALE => "Superseded by a later change"
  end.

(** [class OperationState] *)
Inductive OperationState : Type := O_QUEUED | O_CLAIMED | O_SUCCEEDED | O_FAILED | O_CANCELLED.

#[export] Instance OperationState_eq_dec : EqDecision OperationState.
Proof. solve_decision. Defined.

Definition operation_value (s : OperationState) : string :=
  match s with
  | O_QUEUED => "queued" | O_CLAIMED => "claimed" | O_SUCCEEDED => "succeeded"
  | O_FAILED => "failed" | O_CANCELLED => "cancelled"
  end.

(** [class JobState] *)
Inductive JobState : Type := J_QUEUED | J_RUNNING | J_SUCCEEDED | J_FAILED | J_LOST.

#[export] Instance JobState_eq_dec : EqDecision JobState.
Proof. solve_decision. Defined.

(** [OperationRequest.Action] *)
Definition RECONCILE := "reconcile".
Definition RENEW := "renew".
Definition DELETE := "delete".
Definition RESTART := "restart".
Definition START := "start".
Definition STOP := "stop".
Definition APPROVE_ROUTES := "approve-routes".

(** [CapabilityRule.Rule] *)
Definition ALLOW := "allow".
Definition APPROVE := "approve".
Definition DENY := "deny".

(** [AuditLog.Action], those recorded here. *)
Definition CREATED := "created".
Definition UPDATED := "updated".
Definition DELETED := "deleted".
Definition SETTINGS_CHANGED := "settings_changed".
Definition DONE := "done".
Definition FAILED := "failed".
Definition DENIED := "denied".
Definition OBSERVED := "observed".
Definition LOGOUT := "logout".

(** * Rows *)

(** A person who has signed in: [us_sign_in] is the login of their [LinkedAccount] with provider [oidc]
    (one each, by its unique constraints; empty for none), [us_role] their [PersonRole] (empty for none). *)
Record User : Type := mkUser {
  us_pk : Z;
  us_username : string;
  us_sign_in : string;
  us_role : string;
}.


(** [AgentAccess], the one row at pk 1. *)
Record AgentAccess : Type := mkAgentAccess {
  aa_paused : bool;
  aa_changed_by : option Z;
  aa_changed_at : option Z;
}.


(** [AgentIdentity], one per client and person. *)
Record AgentIdentity : Type := mkAgentIdentity {
  ai_client_id : string;
  ai_person_key : string;
  ai_interfaces : list string;
  ai_granted : list string;
  ai_first_seen : Z;
  ai_last_seen : Z;
  ai_signs_in : string;
  ai_blocked_at : option Z;
  ai_blocked_by : option Z;
  ai_person : option Z;
}.

Definition set_ai_interfaces (v : list string) (r : AgentIdentity) : AgentIdentity :=
  mkAgentIdentity (ai_client_id r) (ai_person_key r) v (ai_granted r) (ai_first_seen r) (ai_last_seen r) (ai_signs_in r) (ai_blocked_at r) (ai_blocked_by r) (ai_person r).
Definition set_ai_granted (v : list string) (r : AgentIdentity) : AgentIdentity :=
  mkAgentIdentity (ai_client_id r) (ai_person_key r) (ai_interfaces r) v (ai_first_seen r) (ai_last_seen r) (ai_signs_in r) (ai_blocked_at r) (ai_blocked_by r) (ai_person r).
Definition set_ai_last_seen (v : Z) (r : AgentIdentity) : AgentIdentity :=
  mkAgentIdentity (ai_client_id r) (ai_person_key r) (ai_interfaces r) (ai_granted r) (ai_first_seen r) v (ai_signs_in r) (ai_blocked_at r) (ai_blocked_by r) (ai_person r).
Definition set_ai_signs_in (v : string) (r : AgentIdentity) : AgentIdentity :=
  mkAgentIdentity (ai_client_id r) (ai_person_key r) (ai_interfaces r) (ai_granted r) (ai_first_seen r) (ai_last_seen r) v (ai_blocked_at r) (ai_blocked_by r) (ai_person r).
Definition set_ai_blocked_at (v : option Z) (r : AgentIdentity) : AgentIdentity :=
  mkAgentIdentity (ai_client_id r) (ai_person_key r) (ai_interfaces r) (ai_granted r) (ai_first_seen r) (ai_last_seen r) (ai_signs_in r) v (ai_blocked_by r) (ai_person r).
Definition set_ai_blocked_by (v : option Z) (r : AgentIdentity) : AgentIdentity :=
  mkAgentIdentity (ai_client_id r) (ai_person_key r) (ai_interfaces r) (ai_granted r) (ai_first_seen r) (ai_last_seen r) (ai_signs_in r) (ai_blocked_at r) v (ai_person r).
Definition set_ai_person (v : option Z) (r : AgentIdentity) : AgentIdentity :=
  mkAgentIdentity (ai_client_id r) (ai_person_key r) (ai_interfaces r) (ai_granted r) (ai_first_seen r) (ai_last_seen r) (ai_signs_in r) (ai_blocked_at r) (ai_blocked_by r) v.

(** [AgentDevice]: [ad_identity] is the unique key of the identity its foreign key names. *)
Record AgentDevice : Type := mkAgentDevice {
  ad_pk : Z;
  ad_identity : string * string;
  ad_person : option Z;
  ad_node_id : string;
  ad_name : string;
  ad_os : string;
  ad_owner : string;
  ad_first_seen : Z;
  ad_last_seen : Z;
  ad_approved_at : option Z;
  ad_approved_by : option Z;
  ad_blocked_at : option Z;
  ad_blocked_by : option Z;
}.

Definition set_ad_name (v : string) (r : AgentDevice) : AgentDevice :=
  mkAgentDevice (ad_pk r) (ad_identity r) (ad_person r) (ad_node_id r) v (ad_os r) (ad_owner r) (ad_first_seen r) (ad_last_seen r) (ad_approved_at r) (ad_approved_by r) (ad_blocked_at r) (ad_blocked_by r).
Definition set_ad_os (v : string) (r : AgentDevice) : AgentDevice :=
  mkAgentDevice (ad_pk r) (ad_identity r) (ad_person r) (ad_node_id r) (ad_name r) v (ad_owner r) (ad_first_seen r) (ad_last_seen r) (ad_approved_at r) (ad_approved_by r) (ad_blocked_at r) (ad_blocked_by r).
Definition set_ad_owner (v : string) (r : AgentDevice) : AgentDevice :=
  mkAgentDevice (ad_pk r) (ad_identity r) (ad_person r) (ad_node_id r) (ad_name r) (ad_os r) v (ad_first_seen r) (ad_last_seen r) (ad_approved_at r) (ad_approved_by r) (ad_blocked_at r) (ad_blocked_by r).
Definition set_ad_last_seen (v : Z) (r : AgentDevice) : AgentDevice :=
  mkAgentDevice (ad_pk r) (ad_identity r) (ad_person r) (ad_node_id r) (ad_name r) (ad_os r) (ad_owner r) (ad_first_seen r) v (ad_approved_at r) (ad_approved_by r) (ad_blocked_at r) (ad_blocked_by r).
Definition set_ad_approved_at (v : option Z) (r : AgentDevice) : AgentDevice :=
  mkAgentDevice (ad_pk r) (ad_identity r) (ad_person r) (ad_node_id r) (ad_name r) (ad_os r) (ad_owner r) (ad_first_seen r) (ad_last_seen r) v (ad_approved_by r) (ad_blocked_at r) (ad_blocked_by r).
Definition set_ad_approved_by (v : option Z) (r : AgentDevice) : AgentDevice :=
  mkAgentDevice (ad_pk r) (ad_identity r) (ad_person r) (ad_node_id r) (ad_name r) (ad_os r) (ad_owner r) (ad_first_seen r) (ad_last_seen r) (ad_approved_at r) v (ad_blocked_at r) (ad_blocked_by r).
Definition set_ad_blocked_at (v : option Z) (r : AgentDevice) : AgentDevice :=
  mkAgentDevice (ad_pk r) (ad_identity r) (ad_person r) (ad_node_id r) (ad_name r) (ad_os r) (ad_owner r) (ad_first_seen r) (ad_last_seen r) (ad_approved_at r) (ad_approved_by r) v (ad_blocked_by r).
Definition set_ad_blocked_by (v : option Z) (r : AgentDevice) : AgentDevice :=
  mkAgentDevice (ad_pk r) (ad_identity r) (ad_person r) (ad_node_id r) (ad_name r) (ad_os r) (ad_owner r) (ad_first_seen r) (ad_last_seen r) (ad_approved_at r) (ad_approved_by r) (ad_blocked_at r) v.

(** [OwnDevice]: a client a person registered as their own. *)
Record OwnDevice : Type := mkOwnDevice {
  od_user : Z;
  od_client_id : string;
}.


(** [CapabilityRule], keyed by subject and capability. *)
Record CapabilityRule : Type := mkCapabilityRule {
  cr_rule : string;
  cr_changed_by : option Z;
  cr_changed_at : Z;
}.


(** [ManagedResource]: desired state, and what a controller last observed of it. *)
Record ManagedResource : Type := mkManagedResource {
  mr_id : string;
  mr_key : string;
  mr_kind : string;
  mr_spec : dict;
  mr_enabled : bool;
  mr_desired_fingerprint : string;
  mr_generation : Z;
  mr_observed_generation : Z;
  mr_status : dict;
  mr_conditions : list json;
  mr_last_observed_at : option Z;
  mr_updated_at : Z;
}.

Definition set_mr_key (v : string) (r : ManagedResource) : ManagedResource :=
  mkManagedResource (mr_id r) v (mr_kind r) (mr_spec r) (mr_enabled r) (mr_desired_fingerprint r) (mr_generation r) (mr_observed_generation r) (mr_status r) (mr_conditions r) (mr_last_observed_at r) (mr_updated_at r).
Definition set_mr_kind (v : string) (r : ManagedResource) : ManagedResource :=
  mkManagedResource (mr_id r) (mr_key r) v (mr_spec r) (mr_enabled r) (mr_desired_fingerprint r) (mr_generation r) (mr_observed_generation r) (mr_status r) (mr_conditions r) (mr_last_observed_at r) (mr_updated_at r).
Definition set_mr_spec (v : dict) (r : ManagedResource) : ManagedResource :=
  mkManagedResource (mr_id r) (mr_key r) (mr_kind r) v (mr_enabled r) (mr_desired_fingerprint r) (mr_generation r) (mr_observed_generation r) (mr_status r) (mr_conditions r) (mr_last_observed_at r) (mr_updated_at r).
Definition set_mr_enabled (v : bool) (r : ManagedResource) : ManagedResource :=
  mkManagedResource (mr_id r) (mr_key r) (mr_kind r) (mr_spec r) v (mr_desired_fingerprint r) (mr_generation r) (mr_observed_generation r) (mr_status r) (mr_conditions r) (mr_last_observed_at r) (mr_updated_at r).
Definition set_mr_desired_fingerprint (v : string) (r : ManagedResource) : ManagedResource :=
  mkManagedResource (mr_id r) (mr_key r) (mr_kind r) (mr_spec r) (mr_enabled r) v (mr_generation r) (mr_observed_generation r) (mr_status r) (mr_conditions r) (mr_last_observed_at r) (mr_updated_at r).
Definition set_mr_generation (v : Z) (r : ManagedResource) : ManagedResource :=
  mkManagedResource (mr_id r) (mr_key r) (mr_kind r) (mr_spec r) (mr_enabled r) (mr_desired_fingerprint r) v (mr_observed_generation r) (mr_status r) (mr_conditions r) (mr_last_observed_at r) (mr_updated_at r).
Definition set_mr_observed_generation (v : Z) (r : ManagedResource) : ManagedResource :=
  mkManagedResource (mr_id r) (mr_key r) (mr_kind r) (mr_spec r) (mr_enabled r) (mr_desired_fingerprint r) (mr_generation r) v (mr_status r) (mr_conditions r) (mr_last_observed_at r) (mr_updated_at r).
Definition set_mr_status (v : dict) (r : ManagedResource) : ManagedResource :=
  mkManagedResource (mr_id r) (mr_key r) (mr_kind r) (mr_spec r) (mr_enabled r) (mr_desired_fingerprint r) (mr_generation r) (mr_observed_generation r) v (mr_conditions r) (mr_last_observed_at r) (mr_updated_at r).
Definition set_mr_conditions (v : list json) (r : ManagedResource) : ManagedResource :=
  mkManagedResource (mr_id r) (mr_key r) (mr_kind r) (mr_spec r) (mr_enabled r) (mr_desired_fingerprint r) (mr_generation r) (mr_observed_generation r) (mr_status r) v (mr_last_observed_at r) (mr_updated_at r).
Definition set_mr_last_observed_at (v : option Z) (r : ManagedResource) : ManagedResource :=
  mkManagedResource (mr_id r) (mr_key r) (mr_kind r) (mr_spec r) (mr_enabled r) (mr_desired_fingerprint r) (mr_generation r) (mr_observed_generation r) (mr_status r) (mr_conditions r) v (mr_updated_at r).
Definition set_mr_updated_at (v : Z) (r : ManagedResource) : ManagedResource :=
  mkManagedResource (mr_id r) (mr_key r) (mr_kind r) (mr_spec r) (mr_enabled r) (mr_desired_fingerprint r) (mr_generation r) (mr_observed_generation r) (mr_status r) (mr_conditions r) (mr_last_observed_at r) v.

(** [OperationRequest]: [op_resource] is the id of the resource its foreign key names. *)
Record OperationRequest : Type := mkOperationRequest {
  op_id : string;
  op_resource : string;
  op_action : string;
  op_state : OperationState;
  op_requested_actor : string;
  op_requested_interface : string;
  op_requested_device : string;
  op_reason : string;
  op_idempotency_key : string;
  op_input : json;
  op_result : json;
  op_claimed_by : string;
  op_claimed_at : option Z;
  op_lease_expires_at : option Z;
  op_attempt_count : Z;
  op_completed_at : option Z;
  op_created_at : Z;
}.

Definition set_op_state (v : OperationState) (r : OperationRequest) : OperationRequest :=
  mkOperationRequest (op_id r) (op_resource r) (op_action r) v (op_requested_actor r) (op_requested_interface r) (op_requested_device r) (op_reason r) (op_idempotency_key r) (op_input r) (op_result r) (op_claimed_by r) (op_claimed_at r) (op_lease_expires_at r) (op_attempt_count r) (op_completed_at r) (op_created_at r).
Definition set_op_result (v : json) (r : OperationRequest) : OperationRequest :=
  mkOperationRequest (op_id r) (op_resource r) (op_action r) (op_state r) (op_requested_actor r) (op_requested_interface r) (op_requested_device r) (op_reason r) (op_idempotency_key r) (op_input r) v (op_claimed_by r) (op_claimed_at r) (op_lease_expires_at r) (op_attempt_count r) (op_completed_at r) (op_created_at r).
Definition set_op_claimed_by (v : string) (r : OperationRequest) : OperationRequest :=
  mkOperationRequest (op_id r) (op_resource r) (op_action r) (op_state r) (op_requested_actor r) (op_requested_interface r) (op_requested_device r) (op_reason r) (op_idempotency_key r) (op_input r) (op_result r) v (op_claimed_at r) (op_lease_expires_at r) (op_attempt_count r) (op_completed_at r) (op_created_at r).
Definition set_op_claimed_at (v : option Z) (r : OperationRequest) : OperationRequest :=
  mkOperationRequest (op_id r) (op_resource r) (op_action r) (op_state r) (op_requested_actor r) (op_requested_interface r) (op_requested_device r) (op_reason r) (op_idempotency_key r) (op_input r) (op_result r) (op_claimed_by r) v (op_lease_expires_at r) (op_attempt_count r) (op_completed_at r) (op_created_at r).
Definition set_op_lease_expires_at (v : option Z) (r : OperationRequest) : OperationRequest :=
  mkOperationRequest (op_id r) (op_resource r) (op_action r) (op_state r) (op_requested_actor r) (op_requested_interface r) (op_requested_device r) (op_reason r) (op_idempotency_key r) (op_input r) (op_result r) (op_claimed_by r) (op_claimed_at r) v (op_attempt_count r) (op_completed_at r) (op_created_at r).
Definition set_op_attempt_count (v : Z) (r : OperationRequest) : OperationRequest :=
  mkOperationRequest (op_id r) (op_resource r) (op_action r) (op_state r) (op_requested_actor r) (op_requested_interface r) (op_requested_device r) (op_reason r) (op_idempotency_key r) (op_input r) (op_result r) (op_claimed_by r) (op_claimed_at r) (op_lease_expires_at r) v (op_completed_at r) (op_created_at r).
Definition set_op_completed_at (v : option Z) (r : OperationRequest) : OperationRequest :=
  mkOperationRequest (op_id r) (op_resource r) (op_action r) (op_state r) (op_requested_actor r) (op_requested_interface r) (op_requested_device r) (op_reason r) (op_idempotency_key r) (op_input r) (op_result r) (op_claimed_by r) (op_claimed_at r) (op_lease_expires_at r) (op_attempt_count r) v (op_created_at r).

(** [ApprovalRequest]: a change held until a person agrees. *)
Record ApprovalRequest : Type := mkApprovalRequest {
  ar_id : string;
  ar_capability : string;
  ar_target : string;
  ar_payload : json;
  ar_resource_kind : string;
  ar_resource_key : string;
  ar_baseline : json;
  ar_content_fingerprint : string;
  ar_requested_actor : string;
  ar_requested_interface : string;
  ar_requested_device : string;
  ar_requested_person_key : string;
  ar_reason : string;
  ar_state : ApprovalState;
  ar_expires_at : Z;
  ar_decided_actor : string;
  ar_decided_interface : string;
  ar_decided_at : option Z;
  ar_decision_note : string;
  ar_result : json;
  ar_created_at : Z;
}.

Definition set_ar_state (v : ApprovalState) (r : ApprovalRequest) : ApprovalRequest :=
  mkApprovalRequest (ar_id r) (ar_capability r) (ar_target r) (ar_payload r) (ar_resource_kind r) (ar_resource_key r) (ar_baseline r) (ar_content_fingerprint r) (ar_requested_actor r) (ar_requested_interface r) (ar_requested_device r) (ar_requested_person_key r) (ar_reason r) v (ar_expires_at r) (ar_decided_actor r) (ar_decided_interface r) (ar_decided_at r) (ar_decision_note r) (ar_result r) (ar_created_at r).
Definition set_ar_decided_actor (v : string) (r : ApprovalRequest) : ApprovalRequest :=
  mkApprovalRequest (ar_id r) (ar_capability r) (ar_target r) (ar_payload r) (ar_resource_kind r) (ar_resource_key r) (ar_baseline r) (ar_content_fingerprint r) (ar_requested_actor r) (ar_requested_interface r) (ar_requested_device r) (ar_requested_person_key r) (ar_reason r) (ar_state r) (ar_expires_at r) v (ar_decided_interface r) (ar_decided_at r) (ar_decision_note r) (ar_result r) (ar_created_at r).
Definition set_ar_decided_interface (v : string) (r : ApprovalRequest) : ApprovalRequest :=
  mkApprovalRequest (ar_id r) (ar_capability r) (ar_target r) (ar_payload r) (ar_resource_kind r) (ar_resource_key r) (ar_baseline r) (ar_content_fingerprint r) (ar_requested_actor r) (ar_requested_interface r) (ar_requested_device r) (ar_requested_person_key r) (ar_reason r) (ar_state r) (ar_expires_at r) (ar_decided_actor r) v (ar_decided_at r) (ar_decision_note r) (ar_result r) (ar_created_at r).
Definition set_ar_decided_at (v : option Z) (r : ApprovalRequest) : ApprovalRequest :=
  mkApprovalRequest (ar_id r) (ar_capability r) (ar_target r) (ar_payload r) (ar_resource_kind r) (ar_resource_key r) (ar_baseline r) (ar_content_fingerprint r) (ar_requested_actor r) (ar_requested_interface r) (ar_requested_device r) (ar_requested_person_key r) (ar_reason r) (ar_state r) (ar_expires_at r) (ar_decided_actor r) (ar_decided_interface r) v (ar_decision_note r) (ar_result r) (ar_created_at r).
Definition set_ar_decision_note (v : string) (r : ApprovalRequest) : ApprovalRequest :=
  mkApprovalRequest (ar_id r) (ar_capability r) (ar_target r) (ar_payload r) (ar_resource_kind r) (ar_resource_key r) (ar_baseline r) (ar_content_fingerprint r) (ar_requested_actor r) (ar_requested_interface r) (ar_requested_device r) (ar_requested_person_key r) (ar_reason r) (ar_state r) (ar_expires_at r) (ar_decided_actor r) (ar_decided_interface r) (ar_decided_at r) v (ar_result r) (ar_created_at r).
Definition set_ar_result (v : json) (r : ApprovalRequest) : ApprovalRequest :=
  mkApprovalRequest (ar_id r) (ar_capability r) (ar_target r) (ar_payload r) (ar_resource_kind r) (ar_resource_key r) (ar_baseline r) (ar_content_fingerprint r) (ar_requested_actor r) (ar_requested_interface r) (ar_requested_device r) (ar_requested_person_key r) (ar_reason r) (ar_state r) (ar_expires_at r) (ar_decided_actor r) (ar_decided_interface r) (ar_decided_at r) (ar_decision_note r) v (ar_created_at r).

(** [IdempotencyRecord], keyed by the actor's digest and the key. *)
Record IdempotencyRecord : Type := mkIdempotencyRecord {
  ir_actor : string;
  ir_request_sha256 : string;
  ir_response : option json;
  ir_created_at : Z;
  ir_expires_at : Z;
}.

Definition set_ir_response (v : option json) (r : IdempotencyRecord) : IdempotencyRecord :=
  mkIdempotencyRecord (ir_actor r) (ir_request_sha256 r) v (ir_created_at r) (ir_expires_at r).

(** [Job]: one piece of work that outlives the request that asked for it. *)
Record Job : Type := mkJob {
  jb_id : string;
  jb_kind : string;
  jb_label : string;
  jb_state : JobState;
  jb_percent : option Z;
  jb_note : string;
  jb_actor : string;
  jb_requested_by : option Z;
  jb_request : json;
  jb_result : json;
  jb_error : string;
  jb_created_at : Z;
  jb_started_at : option Z;
  jb_finished_at : option Z;
  jb_heartbeat_at : option Z;
}.

Definition set_jb_state (v : JobState) (r : Job) : Job :=
  mkJob (jb_id r) (jb_kind r) (jb_label r) v (jb_percent r) (jb_note r) (jb_actor r) (jb_requested_by r) (jb_request r) (jb_result r) (jb_error r) (jb_created_at r) (jb_started_at r) (jb_finished_at r) (jb_heartbeat_at r).
Definition set_jb_percent (v : option Z) (r : Job) : Job :=
  mkJob (jb_id r) (jb_kind r) (jb_label r) (jb_state r) v (jb_note r) (jb_actor r) (jb_requested_by r) (jb_request r) (jb_result r) (jb_error r) (jb_created_at r) (jb_started_at r) (jb_finished_at r) (jb_heartbeat_at r).
Definition set_jb_note (v : string) (r : Job) : Job :=
  mkJob (jb_id r) (jb_kind r) (jb_label r) (jb_state r) (jb_percent r) v (jb_actor r) (jb_requested_by r) (jb_request r) (jb_result r) (jb_error r) (jb_created_at r) (jb_started_at r) (jb_finished_at r) (jb_heartbeat_at r).
Definition set_jb_result (v : json) (r : Job) : Job :=
  mkJob (jb_id r) (jb_kind r) (jb_label r) (jb_state r) (jb_percent r) (jb_note r) (jb_actor r) (jb_requested_by r) (jb_request r) v (jb_error r) (jb_created_at r) (jb_started_at r) (jb_finished_at r) (jb_heartbeat_at r).
Definition set_jb_error (v : string) (r : Job) : Job :=
  mkJob (jb_id r) (jb_kind r) (jb_label r) (jb_state r) (jb_percent r) (jb_note r) (jb_actor r) (jb_requested_by r) (jb_request r) (jb_result r) v (jb_created_at r) (jb_started_at r) (jb_finished_at r) (jb_heartbeat_at r).
Definition set_jb_started_at (v : option Z) (r : Job) : Job :=
  mkJob (jb_id r) (jb_kind r) (jb_label r) (jb_state r) (jb_percent r) (jb_note r) (jb_actor r) (jb_requested_by r) (jb_request r) (jb_result r) (jb_error r) (jb_created_at r) v (jb_finished_at r) (jb_heartbeat_at r).
Definition set_jb_finished_at (v : option Z) (r : Job) : Job :=
  mkJob (jb_id r) (jb_kind r) (jb_label r) (jb_state r) (jb_percent r) (jb_note r) (jb_actor r) (jb_requested_by r) (jb_request r) (jb_result r) (jb_error r) (jb_created_at r) (jb_started_at r) v (jb_heartbeat_at r).
Definition set_jb_heartbeat_at (v : option Z) (r : Job) : Job :=
  mkJob (jb_id r) (jb_kind r) (jb_label r) (jb_state r) (jb_percent r) (jb_note r) (jb_actor r) (jb_requested_by r) (jb_request r) (jb_result r) (jb_error r) (jb_created_at r) (jb_started_at r) (jb_finished_at r) v.

(** [AuditLog]: what [record_event] writes. *)
Record AuditLog : Type := mkAuditLog {
  al_id : N;
  al_user : option Z;
  al_action : string;
  al_object_type : string;
  al_object_id : string;
  al_operation_id : string;
  al_message : string;
  al_metadata : dict;
  al_created_at : Z;
}.

Definition set_al_metadata (v : dict) (r : AuditLog) : AuditLog :=
  mkAuditLog (al_id r) (al_user r) (al_action r) (al_object_type r) (al_object_id r) (al_operation_id r) (al_message r) v (al_created_at r).

(** A row of Django's sessions: its key, what it holds, and when it ends. *)
Record Session : Type := mkSession { sn_key : string; sn_data : dict; sn_expires : Z }.

(** What runs once the transaction commits ([transaction.on_commit]), in order. *)
Inductive Effect : Type :=
| ToolsChanged (subject : string)   (* TOOLS_CHANGED, aimed at one agent's streams *)
| PersonsToolsChanged (keys : list string)   (* TOOLS_CHANGED, aimed at every agent of a person's *)
| StandingChanged                   (* STANDING_CHANGED *)
| AskSoon                           (* doorbell.ask_soon *)
| RingDoorbell                      (* cadence.ring_doorbell *)
| RequestReading (kind : string)    (* cadence.request_reading *)
| LaunchJob (id : string).          (* the start of a job's thread *)

(** What the process keeps between requests.  Lists are in the order rows were created;
    [db_unreadable] names the tables whose reads raise [DatabaseError] and [db_audit_down] says that
    the audit log refuses writes; [db_next_id] is the supply of fresh keys; [db_effects] the callbacks
    waiting for the transaction's commit, rolled back with it. *)
Record Db : Type := mkDb {
  db_users : list User;
  db_agent_access : option AgentAccess;
  db_identities : gmap (string * string) AgentIdentity;
  db_devices : list AgentDevice;
  db_own_devices : list OwnDevice;
  db_rules : gmap (string * string) CapabilityRule;
  db_resources : list ManagedResource;
  db_operations : list OperationRequest;
  db_approvals : list ApprovalRequest;
  db_retry_keys : gmap (string * string) IdempotencyRecord;
  db_jobs : list Job;
  db_sessions : list Session;
  db_audit : list AuditLog;
  db_effects : list Effect;
  db_unreadable : list string;
  db_audit_down : bool;
  db_next_id : N;
}.

Definition set_db_users (v : list User) (r : Db) : Db :=
  mkDb v (db_agent_access r) (db_identities r) (db_devices r) (db_own_devices r) (db_rules r) (db_resources r) (db_operations r) (db_approvals r) (db_retry_keys r) (db_jobs r) (db_sessions r) (db_audit r) (db_effects r) (db_unreadable r) (db_audit_down r) (db_next_id r).
Definition set_db_agent_access (v : option AgentAccess) (r : Db) : Db :=
  mkDb (db_users r) v (db_identities r) (db_devices r) (db_own_devices r) (db_rules r) (db_resources r) (db_operations r) (db_approvals r) (db_retry_keys r) (db_jobs r) (db_sessions r) (db_audit r) (db_effects r) (db_unreadable r) (db_audit_down r) (db_next_id r).
Definition set_db_identities (v : gmap (string * string) AgentIdentity) (r : Db) : Db :=
  mkDb (db_users r) (db_agent_access r) v (db_devices r) (db_own_devices r) (db_rules r) (db_resources r) (db_operations r) (db_approvals r) (db_retry_keys r) (db_jobs r) (db_sessions r) (db_audit r) (db_effects r) (db_unreadable r) (db_audit_down r) (db_next_id r).
Definition set_db_devices (v : list AgentDevice) (r : Db) : Db :=
  mkDb (db_users r) (db_agent_access r) (db_identities r) v (db_own_devices r) (db_rules r) (db_resources r) (db_operations r) (db_approvals r) (db_retry_keys r) (db_jobs r) (db_sessions r) (db_audit r) (db_effects r) (db_unreadable r) (db_audit_down r) (db_next_id r).
Definition set_db_own_devices (v : list OwnDevice) (r : Db) : Db :=
  mkDb (db_users r) (db_agent_access r) (db_identities r) (db_devices r) v (db_rules r) (db_resources r) (db_operations r) (db_approvals r) (db_retry_keys r) (db_jobs r) (db_sessions r) (db_audit r) (db_effects r) (db_unreadable r) (db_audit_down r) (db_next_id r).
Definition set_db_rules (v : gmap (string * string) CapabilityRule) (r : Db) : Db :=
  mkDb (db_users r) (db_agent_access r) (db_identities r) (db_devices r) (db_own_devices r) v (db_resources r) (db_operations r) (db_approvals r) (db_retry_keys r) (db_jobs r) (db_sessions r) (db_audit r) (db_effects r) (db_unreadable r) (db_audit_down r) (db_next_id r).
Definition set_db_resources (v : list ManagedResource) (r : Db) : Db :=
  mkDb (db_users r) (db_agent_access r) (db_identities r) (db_devices r) (db_own_devices r) (db_rules r) v (db_operations r) (db_approvals r) (db_retry_keys r) (db_jobs r) (db_sessions r) (db_audit r) (db_effects r) (db_unreadable r) (db_audit_down r) (db_next_id r).
Definition set_db_operations (v : list OperationRequest) (r : Db) : Db :=
  mkDb (db_users r) (db_agent_access r) (db_identities r) (db_devices r) (db_own_devices r) (db_rules r) (db_resources r) v (db_approvals r) (db_retry_keys r) (db_jobs r) (db_sessions r) (db_audit r) (db_effects r) (db_unreadable r) (db_audit_down r) (db_next_id r).
Definition set_db_approvals (v : list ApprovalRequest) (r : Db) : Db :=
  mkDb (db_users r) (db_agent_access r) (db_identities r) (db_devices r) (db_own_devices r) (db_rules r) (db_resources r) (db_operations r) v (db_retry_keys r) (db_jobs r) (db_sessions r) (db_audit r) (db_effects r) (db_unreadable r) (db_audit_down r) (db_next_id r).
Definition set_db_retry_keys (v : gmap (string * string) IdempotencyRecord) (r : Db) : Db :=
  mkDb (db_users r) (db_agent_access r) (db_identities r) (db_devices r) (db_own_devices r) (db_rules r) (db_resources r) (db_operations r) (db_approvals r) v (db_jobs r) (db_sessions r) (db_audit r) (db_effects r) (db_unreadable r) (db_audit_down r) (db_next_id r).
Definition set_db_jobs (v : list Job) (r : Db) : Db :=
  mkDb (db_users r) (db_agent_access r) (db_identities r) (db_devices r) (db_own_devices r) (db_rules r) (db_resources r) (db_operations r) (db_approvals r) (db_retry_keys r) v (db_sessions r) (db_audit r) (db_effects r) (db_unreadable r) (db_audit_down r) (db_next_id r).
Definition set_db_sessions (v : list Session) (r : Db) : Db :=
  mkDb (db_users r) (db_agent_access r) (db_identities r) (db_devices r) (db_own_devices r) (db_rules r) (db_resources r) (db_operations r) (db_approvals r) (db_retry_keys r) (db_jobs r) v (db_audit r) (db_effects r) (db_unreadable r) (db_audit_down r) (db_next_id r).
Definition set_db_audit (v : list AuditLog) (r : Db) : Db :=
  mkDb (db_users r) (db_agent_access r) (db_identities r) (db_devices r) (db_own_devices r) (db_rules r) (db_resources r) (db_operations r) (db_approvals r) (db_retry_keys r) (db_jobs r) (db_sessions r) v (db_effects r) (db_unreadable r) (db_audit_down r) (db_next_id r).
Definition set_db_effects (v : list Effect) (r : Db) : Db :=
  mkDb (db_users r) (db_agent_access r) (db_identities r) (db_devices r) (db_own_devices r) (db_rules r) (db_resources r) (db_operations r) (db_approvals r) (db_retry_keys r) (db_jobs r) (db_sessions r) (db_audit r) v (db_unreadable r) (db_audit_down r) (db_next_id r).
Definition set_db_unreadable (v : list string) (r : Db) : Db :=
  mkDb (db_users r) (db_agent_access r) (db_identities r) (db_devices r) (db_own_devices r) (db_rules r) (db_resources r) (db_operations r) (db_approvals r) (db_retry_keys r) (db_jobs r) (db_sessions r) (db_audit r) (db_effects r) v (db_audit_down r) (db_next_id r).
Definition set_db_audit_down (v : bool) (r : Db) : Db :=
  mkDb (db_users r) (db_agent_access r) (db_identities r) (db_devices r) (db_own_devices r) (db_rules r) (db_resources r) (db_operations r) (db_approvals r) (db_retry_keys r) (db_jobs r) (db_sessions r) (db_audit r) (db_effects r) (db_unreadable r) v (db_next_id r).
Definition set_db_next_id (v : N) (r : Db) : Db :=
  mkDb (db_users r) (db_agent_access r) (db_identities r) (db_devices r) (db_own_devices r) (db_rules r) (db_resources r) (db_operations r) (db_approvals r) (db_retry_keys r) (db_jobs r) (db_sessions r) (db_audit r) (db_effects r) (db_unreadable r) (db_audit_down r) v.

Definition empty_db : Db := mkDb [] None ∅ [] [] ∅ [] [] [] ∅ [] [] [] [] [] false 0%N.

(** * What the database holds every row to *)

Definition is_some {A} (o : option A) : bool := match o with Some _ => true | None => false end.

(** [approval_settled_says_when] and [approval_decision_names_who_decided] *)
Definition approval_rules (r : ApprovalRequest) : bool :=
  Bool.eqb (bool_decide (ar_state r = A_PENDING)) (negb (is_some (ar_decided_at r))) &&
  Bool.eqb (bool_decide (ar_state r = A_APPROVED \/ ar_state r = A_REJECTED)) (negb (bool_decide (ar_decided_actor r = ""))).

(** The key of [one_pending_approval_per_requested_change]. *)
Definition approval_key (r : ApprovalRequest) : string * string * string * string * string * string :=
  (ar_capability r, ar_target r, ar_content_fingerprint r, ar_requested_actor r, ar_requested_interface r, ar_requested_person_key r).

Definition is_pending (r : ApprovalRequest) : bool := bool_decide (ar_state r = A_PENDING).

(** A row's [Q(state__in=("queued", "claimed"))]. *)
Definition is_active (r : OperationRequest) : bool :=
  bool_decide (op_state r = O_QUEUED \/ op_state r = O_CLAIMED).

(** [operation_claimed_names_its_claim], [operation_queued_has_no_claim] and [operation_finished_says_when] *)
Definition operation_rules (r : OperationRequest) : bool :=
  (negb (bool_decide (op_state r = O_CLAIMED)) ||
     (negb (bool_decide (op_claimed_by r = "")) && is_some (op_lease_expires_at r))) &&
  (negb (bool_decide (op_state r = O_QUEUED)) ||
     (bool_decide (op_claimed_by r = "") && negb (is_some (op_claimed_at r)) && negb (is_some (op_lease_expires_at r)))) &&
  Bool.eqb (is_active r) (negb (is_some (op_completed_at r))).

(** [Job.is_live] *)
Definition is_live (r : Job) : bool := bool_decide (jb_state r = J_QUEUED \/ jb_state r = J_RUNNING).

(** [job_percent_at_most_100] *)
Definition job_rules (r : Job) : bool :=
  match jb_percent r with Some p => (0 <=? p)%Z && (p <=? 100)%Z | None => true end.

(** At most one row [p] picks for each key. *)
Definition one_each {A K : Type} (p : A -> bool) (key : A -> K) (rows : list A) : Prop :=
  NoDup (map key (rows_where p rows)).

Lemma one_each_unique {A K} (p : A -> bool) (key : A -> K) rows x y :
  one_each p key rows -> x ∈ rows -> y ∈ rows -> p x = true -> p y = true -> key x = key y -> x = y.
Proof.
  unfold one_each, rows_where. induction rows as [|z zs IH]; intros Hnd Hx Hy Hpx Hpy Hk; [by apply elem_of_nil in Hx|].
  cbn in Hnd. assert (forall w, w ∈ zs -> p w = true -> key w ∈ map key (List.filter p zs)) as Hin.
  { intros w Hw Hpw. apply list_elem_of_fmap. exists w. split; [done|]. apply list_elem_of_In, filter_In. split; [by apply list_elem_of_In|done]. }
  apply elem_of_cons in Hx as [->|Hx], Hy as [->|Hy]; [done| | |].
  - rewrite Hpx in Hnd. cbn in Hnd. apply NoDup_cons in Hnd as [Hz _]. destruct Hz. rewrite Hk. by apply Hin.
  - rewrite Hpy in Hnd. cbn in Hnd. apply NoDup_cons in Hnd as [Hz _]. destruct Hz. rewrite <- Hk. by apply Hin.
  - apply IH; try done. destruct (p z); [cbn in Hnd; by apply NoDup_cons in Hnd as [_ ?]|done].
Qed.

(** * Reads and writes *)

(** A [pk] nothing has: UUIDs and autofields alike. *)
Definition fresh_id (db : Db) : string := pretty (db_next_id db).

Definition take_id : M exn Db N :=
  act (fun db => (Ok (db_next_id db), set_db_next_id (db_next_id db + 1)%N db)).

(** A query of [table], which may be unreadable. *)
Definition reading {A} (table : string) (f : Db -> A) : M exn Db A := fun db =>
  if among table (db_unreadable db) then (Raise (DatabaseError table), db) else (Ok (f db), db).

(** [transaction.on_commit] *)
Definition on_commit (e : Effect) : M exn Db unit :=
  modify (fun db => set_db_effects (db_effects db ++ [e])%list db).

(** What one [record_event] call says. *)
Record Event : Type := mkEvent {
  ev_action : string;
  ev_type : string;
  ev_object : string;
  ev_operation : string;
  ev_message : string;
  ev_metadata : dict;
  ev_user : option Z;
}.

(** [record_event]: the new row's id.  A failing write is raised only when [required]. *)
Definition record_event (required : bool) (now : Z) (e : Event) : M exn Db (option N) := fun db =>
  if db_audit_down db then (if required then (Raise (DatabaseError "audit"), db) else (Ok None, db))
  else
    let id := db_next_id db in
    (Ok (Some id),
     set_db_next_id (id + 1)%N
       (set_db_audit (db_audit db ++ [mkAuditLog id (ev_user e) (ev_action e) (ev_type e) (ev_object e)
          (ev_operation e) (ev_message e) (ev_metadata e) now])%list db)).

(** * People *)

(** The user whose sign-in key this is: the login is unique, and blank is nobody's. *)
Definition user_of_key (key : string) (db : Db) : option User :=
  if decide (key = "") then None
  else first_where (fun u => bool_decide (us_sign_in u = key)) (db_users db).

(** [person_of(principal)] *)
Definition person_of (p : Principal) (db : Db) : option User :=
  if negb (has_a_person p) then None
  else if decide (interface p = WEB_INTERFACE)
  then first_where (fun u => bool_decide (us_username u = actor p)) (db_users db)
  else user_of_key (person_key p) db.

(** [person(principal)] *)
Definition person (p : Principal) : M exn Db User := fun db =>
  if negb (has_a_person p) then
    (Raise (AuthorizationError ("A " +:+ interface p +:+ " principal is nobody's, so it keeps nothing of a person's: a machine's token has no person behind it.")), db)
  else match person_of p db with
       | None => (Raise (Host RecordNotFound "That person was not found." JNull), db)
       | Some u => (Ok u, db)
       end.

Definition user_of (pk : option Z) (db : Db) : option User :=
  match pk with
  | None => None
  | Some k => first_where (fun u => bool_decide (us_pk u = k)) (db_users db)
  end.

(** [roles.role_of], the blank of nobody with one, and [roles.held_by]. *)
Definition held_by (dep : Deployment) (key : string) (db : Db) : option (gset string) :=
  match user_of_key key db with
  | Some u => if decide (us_role u = "") then None else Some (grants dep (us_role u))
  | None => None
  end.

(** * The joins the frames of two handlers share *)

Lemma record_event_inv required now e db o db' :
  record_event required now e db = (o, db') ->
  db_approvals db' = db_approvals db /\ db_operations db' = db_operations db /\ db_rules db' = db_rules db /\
  db_identities db' = db_identities db /\ db_devices db' = db_devices db /\ db_jobs db' = db_jobs db.
Proof.
  unfold record_event. destruct (db_audit_down db), required; intros H; simplify_eq/=; by split_and!.
Qed.

(** A required event that is recorded is the last row of the log. *)
Lemma record_event_required now e db o db' :
  record_event true now e db = (Ok o, db') ->
  exists row, db_audit db' = (db_audit db ++ [row])%list /\ al_user row = ev_user e /\ al_action row = ev_action e /\
    al_object_type row = ev_type e /\ al_message row = ev_message e /\ al_metadata row = ev_metadata e.
Proof.
  unfold record_event. destruct (db_audit_down db); intros H; simplify_eq/=. eexists. by split_and!.
Qed.

Lemma person_inv p db u db' :
  person p db = (Ok u, db') -> db' = db /\ has_a_person p = true /\ person_of p db = Some u.
Proof.
  unfold person. destruct (has_a_person p) eqn:Hp; cbn; [|done].
  destruct (person_of p db) eqn:H; intros; simplify_eq. auto.
Qed.

Lemma reading_inv {A} table (f : Db -> A) db a db' :
  reading table f db = (Ok a, db') -> db' = db /\ a = f db.
Proof. unfold reading. destruct (among _ _); intros H; by simplify_eq. Qed.

(** [person] leaves the state as it found it. *)
Lemma person_state p db o db' : person p db = (o, db') -> db' = db.
Proof. unfold person. repeat case_match; intros; by simplify_eq. Qed.
