(* ===== verification/AuditTrail.v ===== *)
(** The audit log's own rules ([core/append_only.py], [core/audit.py]): the two triggers
    that refuse an update or a delete of a row, the one change of a row's metadata HQ
    writes, and the daily prune of routine machine events. *)
From stdpp Require Import base gmap strings list pretty.
From Stdlib Require Import Ascii ZArith Lia.
From S2P Require Import Prelude PyStr Json Refusals Security Models.

#[local] Open Scope string_scope.

Definition CONNECTION_AUDIT_TYPE := "Connection".

(** [ROUTINE_EVENTS] *)
Definition ROUTINE_EVENTS : list (string * string) :=
  [(OBSERVED, CONNECTION_AUDIT_TYPE); (OBSERVED, "Background job")].

(** [denials.COUNT] and [denials.LAST_AT] *)
Definition COUNT := "count".
Definition LAST_AT := "last_at".

(** * The triggers *)

(** [coalesce(json_extract(metadata, '$.count'), 0)], where it is a number. *)
Definition count_at (d : dict) : option Z :=
  match dget COUNT d with
  | None | Some JNull => Some 0%Z
  | Some (JNum n) => Some n
  | Some (JBool b) => Some (if b then 1 else 0)%Z
  | Some _ => None
  end.

(** [coalesce(json_extract(metadata, '$.last_at'), '')], where it is text. *)
Definition last_at (d : dict) : option string :=
  match dget LAST_AT d with
  | None | Some JNull => Some ""
  | Some (JStr s) => Some s
  | Some _ => None
  end.

(** [recounted]: the count only grows, the latest time only moves forward, and nothing
    else of the metadata changes. *)
Definition recounted (old new : dict) : bool :=
  bool_decide (dwithout LAST_AT (dwithout COUNT new) = dwithout LAST_AT (dwithout COUNT old)) &&
  match dget COUNT new with
  | Some (JNum n) => match count_at old with Some m => (m <=? n)%Z | None => false end
  | _ => false
  end &&
  match last_at old, last_at new with Some a, Some b => String.leb a b | _, _ => false end.

(** Every stored column of the two rows but the user and the metadata. *)
Definition kept_columns (old new : AuditLog) : bool :=
  bool_decide (al_id new = al_id old) && bool_decide (al_action new = al_action old) &&
  bool_decide (al_object_type new = al_object_type old) && bool_decide (al_object_id new = al_object_id old) &&
  bool_decide (al_operation_id new = al_operation_id old) && bool_decide (al_message new = al_message old) &&
  bool_decide (al_created_at new = al_created_at old).

(** What the update trigger lets a row become. *)
Definition update_allowed (old new : AuditLog) : bool :=
  kept_columns old new &&
  ((negb (is_some (al_user new)) && bool_decide (al_metadata new = al_metadata old)) ||
   (bool_decide (al_user new = al_user old) && bool_decide (al_action old = DENIED) &&
    recounted (al_metadata old) (al_metadata new))).

(** The rows the delete trigger lets go. *)
Definition delete_allowed (old : AuditLog) : bool :=
  negb (is_some (al_user old)) && bool_decide ((al_action old, al_object_type old) ∈ ROUTINE_EVENTS).

Definition append_only : exn := IntegrityError "The audit log is append-only.".

(** * Writes *)

Definition audit_row (id : N) (db : Db) : option AuditLog :=
  first_where (fun r => bool_decide (al_id r = id)) (db_audit db).

(** [row.metadata = ...; row.save(update_fields=["metadata"])] *)
Definition save_metadata (row : AuditLog) (metadata : dict) : M exn Db unit :=
  _ ← act (fun db => if db_audit_down db then (Raise (DatabaseError "audit"), db) else (Ok tt, db));
  _ ← act (fun db =>
    match audit_row (al_id row) db with
    | Some old => (if update_allowed old (set_al_metadata metadata old) then Ok tt else Raise append_only, db)
    | None => (Raise (DatabaseError "Save with update_fields did not affect any rows."), db)
    end);
  modify (fun db => set_db_audit
    (update_where (fun r => bool_decide (al_id r = al_id row)) (set_al_metadata metadata) (db_audit db)) db).

(** [AuditLog.objects.filter(pk__in=ids).delete()[0]] *)
Definition delete_rows (ids : list N) : M exn Db nat := fun db =>
  let picked r := bool_decide (al_id r ∈ ids) in
  if forallb delete_allowed (rows_where picked (db_audit db))
  then (Ok (count_where picked (db_audit db)), set_db_audit (delete_where picked (db_audit db)) db)
  else (Raise append_only, db).

(** The rows [prune_routine] may remove at [now]. *)
Definition eligible (now days : Z) (r : AuditLog) : bool :=
  existsb (fun kind => bool_decide (al_action r = kind.1) && bool_decide (al_object_type r = kind.2)) ROUTINE_EVENTS &&
  negb (is_some (al_user r)) && (al_created_at r <? now - days * DAY)%Z.

(** One batch's primary keys, in the log's order: the latest first. *)
Definition next_batch (now days : Z) (batch : nat) (db : Db) : list N :=
  firstn batch (map al_id (rev (order_by_time al_created_at (rows_where (eligible now days) (db_audit db))))).

(** The [while True] of [prune_routine]; [None] is a loop still running. *)
Fixpoint prune_loop (fuel : nat) (now days : Z) (batch deleted : nat) : M exn Db (option nat) :=
  match fuel with
  | 0%nat => mret None
  | S fuel' =>
      ids ← gets (next_batch now days batch);
      match ids with
      | [] => mret (Some deleted)
      | _ => gone ← delete_rows ids; prune_loop fuel' now days batch (deleted + gone)
      end
  end.

(** [prune_routine(days=..., check_only=..., batch=...)], of at most [fuel] batches. *)
Definition prune_routine (fuel : nat) (now days : Z) (check_only : bool) (batch : nat) : M exn Db (option nat) :=
  if (days <? 1)%Z then raise (ValueError "Routine audit retention must be at least one day.")
  else if check_only then gets (fun db => Some (count_where (eligible now days) (db_audit db)))
  else prune_loop fuel now days batch 0.

(** * What they show *)

Lemma eligible_deletable now days r : eligible now days r = true -> delete_allowed r = true.
Proof.
  unfold eligible, delete_allowed. rewrite !andb_true_iff, existsb_exists.
  intros [[([a t] & Hk & Hat) Hu] _]. split; [done|].
  rewrite andb_true_iff, !bool_decide_eq_true in Hat. destruct Hat as [-> ->].
  apply bool_decide_eq_true. by apply list_elem_of_In.
Qed.

Definition keyed_rows (db : Db) : Prop := NoDup (map al_id (db_audit db)).

Section Batch.
Context (p : AuditLog -> bool) (rows sel : list AuditLog).
Hypotheses (Hkeys : NoDup (map al_id rows)) (Hsel : NoDup sel) (Hin : forall r, r ∈ sel -> r ∈ rows /\ p r = true).

Let picked (r : AuditLog) : bool := bool_decide (al_id r ∈ map al_id sel).

Lemma picked_iff r : r ∈ rows -> picked r = true <-> r ∈ sel.
Proof using Hkeys Hin.
  intros Hr. unfold picked. rewrite bool_decide_eq_true, list_elem_of_fmap. split.
  - intros (r' & Heq & Hr'). by rewrite (unique_by al_id rows r r' Hkeys Hr (proj1 (Hin _ Hr')) Heq).
  - intros H. by exists r.
Qed.

Lemma picked_rows : rows_where picked rows ≡ₚ sel.
Proof using Hkeys Hin Hsel.
  apply NoDup_Permutation; [|done|].
  - apply NoDup_rows_where. by eapply NoDup_fmap_1.
  - intros r. rewrite elem_of_rows_where. split.
    + intros [Hr H]. by apply picked_iff.
    + intros H. split; [by apply Hin|]. apply picked_iff; [by apply Hin|done].
Qed.

Lemma delete_picked_eligible : delete_where p (delete_where picked rows) = delete_where p rows.
Proof using Hkeys Hin.
  assert (forall r, r ∈ rows -> picked r = true -> p r = true) as Hp.
  { intros r Hr H%picked_iff; [|done]. by apply Hin. }
  clear -Hp. unfold delete_where. induction rows as [|x xs IH]; cbn; [done|].
  rewrite <- IH by (intros; apply Hp; [by right|done]).
  destruct (picked x) eqn:Hx; cbn; [|done]. by rewrite (Hp x) by (done || by left).
Qed.

Lemma count_after_picked : (count_where p (delete_where picked rows) + length sel = count_where p rows)%nat.
Proof using Hkeys Hin Hsel.
  assert (forall r, r ∈ rows -> picked r = true -> p r = true) as Hp.
  { intros r Hr H%picked_iff; [|done]. by apply Hin. }
  rewrite <- picked_rows. clear -Hp. unfold count_where, delete_where, rows_where.
  induction rows as [|x xs IH]; cbn; [done|]. specialize (IH ltac:(intros r Hr; apply Hp; by right)).
  destruct (picked x) eqn:Hx; cbn.
  - rewrite (Hp x) by (done || by left). cbn. lia.
  - destruct (p x); cbn; lia.
Qed.
End Batch.

Lemma delete_none (p : AuditLog -> bool) rows : rows_where p rows = [] -> delete_where p rows = rows.
Proof.
  unfold rows_where, delete_where. induction rows as [|x xs IH]; cbn; [done|].
  destruct (p x); cbn; [done|]. intros H. by rewrite IH.
Qed.

Section Pruning.
Variables (now days : Z) (batch : nat).
Hypothesis Hbatch : (0 < batch)%nat.

(** The log once every eligible row is gone. *)
Definition pruned (db : Db) : Db := set_db_audit (delete_where (eligible now days) (db_audit db)) db.

(** The rows one batch names. *)
Definition batch_rows (db : Db) : list AuditLog :=
  firstn batch (rev (order_by_time al_created_at (rows_where (eligible now days) (db_audit db)))).

Lemma batch_perm db : rev (order_by_time al_created_at (rows_where (eligible now days) (db_audit db))) ≡ₚ rows_where (eligible now days) (db_audit db).
Proof using. rewrite <- Permutation_rev. apply order_by_time_perm. Qed.

Lemma next_batch_rows db : next_batch now days batch db = map al_id (batch_rows db).
Proof using. unfold next_batch, batch_rows. by rewrite firstn_map. Qed.

Lemma batch_ok db : keyed_rows db ->
  NoDup (batch_rows db) /\ (forall r, r ∈ batch_rows db -> r ∈ db_audit db /\ eligible now days r = true) /\
  length (batch_rows db) = Nat.min batch (count_where (eligible now days) (db_audit db)).
Proof using.
  intros Hk. unfold batch_rows. split_and!.
  - apply NoDup_firstn. rewrite batch_perm. apply NoDup_rows_where, (NoDup_fmap_1 al_id), Hk.
  - intros r Hr. apply elem_of_rows_where. rewrite <- batch_perm. by apply elem_of_firstn in Hr.
  - rewrite length_firstn, batch_perm. done.
Qed.

Lemma delete_batch db : keyed_rows db ->
  delete_rows (next_batch now days batch db) db =
  (Ok (length (batch_rows db)), set_db_audit (delete_where (fun r => bool_decide (al_id r ∈ map al_id (batch_rows db))) (db_audit db)) db).
Proof using.
  intros Hk. destruct (batch_ok db Hk) as (Hnd & Hin & _). unfold delete_rows. rewrite next_batch_rows.
  rewrite (proj2 (forallb_forall _ _)).
  - f_equal. f_equal. unfold count_where. by rewrite (picked_rows (eligible now days) _ _ Hk Hnd Hin).
  - intros r Hr. apply list_elem_of_In in Hr. rewrite (picked_rows (eligible now days) _ _ Hk Hnd Hin) in Hr.
    by eapply eligible_deletable, Hin.
Qed.

Lemma keyed_delete db p : keyed_rows db -> keyed_rows (set_db_audit (delete_where p (db_audit db)) db).
Proof using.
  apply NoDup_map_delete.
Qed.

Lemma prune_loop_removes fuel deleted db :
  keyed_rows db -> (count_where (eligible now days) (db_audit db) < fuel)%nat ->
  prune_loop fuel now days batch deleted db = (Ok (Some (deleted + count_where (eligible now days) (db_audit db))%nat), pruned db).
Proof using Hbatch.
  revert deleted db. induction fuel as [|fuel IH]; intros deleted db Hk Hf; [lia|]. cbn [prune_loop].
  destruct (batch_ok db Hk) as (Hnd & Hin & Hlen). rewrite (bind_step _ _ _ (next_batch now days batch db) db) by done.
  destruct (next_batch now days batch db) as [|id ids] eqn:Hids.
  - rewrite next_batch_rows in Hids. apply (f_equal length) in Hids. rewrite length_map, Hlen in Hids. cbn in Hids.
    assert (count_where (eligible now days) (db_audit db) = 0%nat) as Hz by lia. rewrite Hz, Nat.add_0_r.
    unfold mret, M_ret. f_equal. unfold pruned. unfold count_where in Hz. apply nil_length_inv in Hz.
    rewrite (delete_none _ _ Hz). by destruct db.
  - rewrite <- Hids, (bind_step _ _ _ _ _ (delete_batch db Hk)).
    pose proof (count_after_picked (eligible now days) _ _ Hk Hnd Hin) as Hc.
    assert (0 < length (batch_rows db))%nat as Hpos.
    { rewrite next_batch_rows in Hids. apply (f_equal length) in Hids. rewrite length_map in Hids. cbn in Hids. lia. }
    rewrite IH; [|by apply keyed_delete|cbn [db_audit set_db_audit]; lia].
    f_equal; [cbn [db_audit set_db_audit]; do 2 f_equal; lia|].
    unfold pruned. cbn [db_audit set_db_audit]. by rewrite (delete_picked_eligible (eligible now days) _ _ Hk Hin).
Qed.
End Pruning.

(** C40: The daily prune ends, counts what it removed, and removes exactly the routine rows
    nobody made that are past their days: the triggers refuse none of it, and every row of
    the security record and every row a person made stays. *)
Theorem prune_routine_removes (fuel : nat) (now days : Z) (batch : nat) (db : Db) :
  (1 <= days)%Z -> (0 < batch)%nat -> NoDup (map al_id (db_audit db)) -> (count_where (eligible now days) (db_audit db) < fuel)%nat ->
  prune_routine fuel now days false batch db = (Ok (Some (count_where (eligible now days) (db_audit db))), pruned now days db) /\
  prune_routine fuel now days true batch db = (Ok (Some (count_where (eligible now days) (db_audit db))), db) /\
  forall r, r ∈ db_audit db -> (al_user r <> None \/ al_action r <> OBSERVED \/ now - days * DAY <= al_created_at r)%Z ->
    r ∈ db_audit (pruned now days db).
Proof.
  intros Hd Hb Hk Hf. unfold prune_routine. rewrite (proj2 (Z.ltb_ge days 1)) by done. split_and!; [by apply prune_loop_removes|done|].
  intros r Hr Hkeep. unfold pruned. cbn. apply elem_of_delete_where. split; [done|].
  apply not_true_is_false. unfold eligible. rewrite !andb_true_iff, Z.ltb_lt, existsb_exists.
  intros [[([a t] & Hk' & Hat) Hu] Ht]. rewrite andb_true_iff, !bool_decide_eq_true in Hat. destruct Hat as [Ha _]. cbn in Ha.
  destruct Hkeep as [Hkeep|[Hkeep|Hkeep]]; [by destruct (al_user r)| |lia].
  apply Hkeep. rewrite Ha. cbn in Hk'. destruct Hk' as [[= <- _]|[[= <- _]|[]]]; done.
Qed.

Definition an_old_reading (id : N) : AuditLog := mkAuditLog id None OBSERVED CONNECTION_AUDIT_TYPE "" "" "Read" [] 0.
Definition a_sign_in : AuditLog := mkAuditLog 9 (Some 7%Z) "login" "User" "7" "" "Signed in" [] 0.
Definition read_db : Db := set_db_audit [an_old_reading 1; a_sign_in; an_old_reading 2] empty_db.

Lemma prune_routine_removes_witness :
  prune_routine 9 (31 * DAY) 30 false 1 read_db = (Ok (Some 2%nat), pruned (31 * DAY) 30 read_db) /\ db_audit (pruned (31 * DAY) 30 read_db) = [a_sign_in].
Proof.
  split; [|reflexivity].
  apply (prune_routine_removes 9 (31 * DAY) 30 1 read_db); [lia|lia| |vm_compute; lia].
  apply (bool_decide_unpack _). vm_compute. exact I.
Defined.

(** * A refusal's count *)

Lemma dwithout_dset k v d : dwithout k (dset k v d) = dwithout k d.
Proof.
  unfold dwithout. induction d as [|[k' v'] d IH]; cbn; [by rewrite bool_decide_eq_true_2|].
  case_decide; cbn; [subst; by rewrite bool_decide_eq_true_2|]. by rewrite IH.
Qed.

Lemma dwithout_dset_ne k j v d : j <> k -> dwithout k (dset j v d) = dset j v (dwithout k d).
Proof.
  intros Hne. unfold dwithout. induction d as [|[k' v'] d IH]; cbn; [by rewrite bool_decide_eq_false_2|].
  destruct (decide (j = k')) as [<-|Hj]; cbn.
  - rewrite bool_decide_eq_false_2 by done. cbn. by rewrite decide_True.
  - destruct (bool_decide (k' = k)) eqn:Hk; cbn; [done|]. rewrite decide_False by done. by rewrite IH.
Qed.

(** The change of its count alone, or of its count and its latest time. *)
Lemma recounted_count d m n : count_at d = Some m -> (m <= n)%Z -> last_at d <> None -> recounted d (dset COUNT (JNum n) d) = true.
Proof.
  intros Hm Hn Hl. unfold recounted. rewrite dwithout_dset, bool_decide_eq_true_2 by done.
  rewrite dget_dset, decide_True by done. rewrite Hm, (proj2 (Z.leb_le m n)) by done. unfold last_at.
  rewrite dget_dset, decide_False by done. fold (last_at d). destruct (last_at d) as [s|]; [|done]. cbn [andb].
  pose proof (String.leb_total s s) as [H|H]; done.
Qed.

Lemma recounted_both d m n s t : count_at d = Some m -> (m <= n)%Z -> last_at d = Some s -> String.leb s t = true ->
  recounted d (dset LAST_AT (JStr t) (dset COUNT (JNum n) d)) = true.
Proof.
  intros Hm Hn Hs Ht. unfold recounted. rewrite dwithout_dset_ne, dwithout_dset, dwithout_dset, bool_decide_eq_true_2 by done.
  rewrite !dget_dset, decide_False, decide_True by done. rewrite Hm, (proj2 (Z.leb_le m n)), Hs by done.
  unfold last_at. by rewrite dget_dset, decide_True.
Qed.

Lemma save_metadata_allowed row metadata db :
  db_audit_down db = false -> audit_row (al_id row) db = Some row -> al_action row = DENIED ->
  recounted (al_metadata row) metadata = true ->
  save_metadata row metadata db =
    (Ok tt, set_db_audit (update_where (fun r => bool_decide (al_id r = al_id row)) (set_al_metadata metadata) (db_audit db)) db).
Proof.
  intros Hup Hrow Hd Hr. unfold save_metadata, mbind, M_bind, act. rewrite Hup, Hrow.
  assert (update_allowed row (set_al_metadata metadata row) = true) as ->; [|done].
  unfold update_allowed, kept_columns. cbn. rewrite Hr, !bool_decide_eq_true_2 by done. cbn [andb].
  rewrite (bool_decide_eq_true_2 (al_user row = al_user row)), (bool_decide_eq_true_2 (al_action row = DENIED)) by done. apply orb_true_r.
Qed.

(** The rows of the log stand under keys the supply has passed. *)
Definition older_rows (db : Db) : Prop := forall r, r ∈ db_audit db -> (al_id r < db_next_id db)%N.

Section LastRow.
Context (base : list AuditLog) (row : AuditLog) (Hnew : forall r, r ∈ base -> al_id r <> al_id row).

Lemma update_last f : update_where (fun r => bool_decide (al_id r = al_id row)) f (base ++ [row])%list = (base ++ [f row])%list.
Proof using Hnew.
  unfold update_where. rewrite map_app. cbn. rewrite bool_decide_eq_true_2 by done. f_equal.
  rewrite <- (map_id base) at 2. apply map_ext_in. intros r Hr%list_elem_of_In. by rewrite bool_decide_eq_false_2 by auto.
Qed.

Lemma find_last : first_where (fun r => bool_decide (al_id r = al_id row)) (base ++ [row])%list = Some row.
Proof using Hnew.
  induction base as [|x xs IH]; cbn; [by rewrite bool_decide_eq_true_2|].
  rewrite bool_decide_eq_false_2 by (apply Hnew; by left). apply IH. intros r Hr. apply Hnew. by right.
Qed.
End LastRow.
