(* ===== verification/AgentDevices.v ===== *)
(** The tailnet devices an agent calls from ([agent_devices.py]).

    What the daemon answers ([tailscaled.whois]) and where the deployment's site
    is are parameters.  [place] and [standing] decide a call's device; [observe]
    and the two setters keep the rows a person approves and blocks. *)
From stdpp Require Import base gmap strings list pretty.
From Stdlib Require Import Ascii ZArith Lia.
From S2P Require Import Prelude PyStr Json Refusals Security Models.

#[local] Open Scope string_scope.

Definition DEVICE_LABEL := "Agent device".

(** [TOUCH_INTERVAL], of this module and of [agent_registry]. *)
Definition TOUCH_INTERVAL : Z := 10 * MINUTE.

(** [tailnet.Device], the part an agent's call is placed by. *)
Record Device : Type := mkDevice { dv_node_id : string; dv_label : string; dv_os : string; dv_user : string }.

(** [class Unplaced] *)
Inductive Unplaced : Type := NO_DEVICE | UNANSWERED.

#[export] Instance Unplaced_eq_dec : EqDecision Unplaced.
Proof. solve_decision. Defined.

Definition unplaced_code (u : Unplaced) : string :=
  match u with NO_DEVICE => "device_unknown" | UNANSWERED => "tailnet_unavailable" end.

Record Placement : Type := mkPlacement {
  pl_device : option Device;
  pl_refused : option Unplaced;
  pl_detail : string;
}.

(** [Placement.node_id] *)
Definition node_id (p : Placement) : string :=
  match pl_device p with Some d => dv_node_id d | None => "" end.

Definition NOWHERE : Placement := mkPlacement None None "".

(** [tailscaled], as this deployment reaches it: the socket's path, empty for no
    tailnet, and what the daemon answers of an address ([inl] is [Unavailable]). *)
Record Tailnet : Type := mkTailnet { socket_path : string; whois : string -> string + option Device }.

(** [place(address)] *)
Definition place (net : Tailnet) (address : string) : Placement :=
  if decide (socket_path net = "") then NOWHERE
  else match whois net address with
       | inl said => mkPlacement None (Some UNANSWERED) said
       | inr None => mkPlacement None (Some NO_DEVICE) ""
       | inr (Some found) =>
           if decide (dv_node_id found = "") then mkPlacement None (Some NO_DEVICE) ""
           else mkPlacement (Some found) None ""
       end.

(** [str(identity)] *)
Definition identity_name (row : AgentIdentity) (db : Db) : string :=
  match user_of (ai_person row) db with
  | None => ai_client_id row
  | Some u => ai_client_id row +:+ " for " +:+ us_username u
  end.

(** [str(device)] *)
Definition device_name (row : AgentDevice) (db : Db) : string :=
  (match db_identities db !! ad_identity row with Some i => identity_name i db | None => "" end)
    +:+ " from " +:+ str_or (ad_name row) (ad_node_id row).

(** The unique columns of an [AgentDevice]: [unique_agent_device_per_person] and [_per_machine]. *)
Definition device_key (r : AgentDevice) : (string * string) * option Z * string :=
  (ad_identity r, ad_person r, ad_node_id r).

(** [AgentDevice.objects.create(...)] *)
Definition create_device (row : N -> AgentDevice) : M exn Db AgentDevice :=
  id ← take_id;
  let r := row id in
  act (fun db =>
    match first_where (fun x => bool_decide (device_key x = device_key r)) (db_devices db) with
    | Some _ => (Raise (IntegrityError "unique_agent_device"), db)
    | None => (Ok r, set_db_devices (db_devices db ++ [r])%list db)
    end).

(** [row.save(update_fields=...)]: every column of the row of that pk, the others unchanged in it. *)
Definition save_device (row : AgentDevice) : M exn Db unit :=
  modify (fun db => set_db_devices (update_where (fun r => bool_decide (ad_pk r = ad_pk row)) (fun _ => row) (db_devices db)) db).

(** The row [observe] makes for a device first seen; [None] where it was there after all. *)
Definition new_device (now : Z) (key : string * string) (who : option User) (device : Device) : M exn Db (option AgentDevice) :=
  try (row ← atomic (create_device (fun id => mkAgentDevice (Z.of_N id) key (us_pk <$> who) (dv_node_id device)
         (dv_label device) (dv_os device) (dv_user device) now now None None None None));
       mret (Some row))
    (fun e => match e with IntegrityError _ => Some (mret None) | _ => None end).

(** [observe(identity, person, device, interface=...)] *)
Definition observe_device (now : Z) (identity : AgentIdentity) (who : option User) (device : Device) (i : string)
  : M exn Db unit :=
  let key := (ai_client_id identity, ai_person_key identity) in
  found ← gets (fun db => first_where
    (fun r => bool_decide (device_key r = (key, us_pk <$> who, dv_node_id device))) (db_devices db));
  match found with
  | None =>
      created ← new_device now key who device;
      match created with
      | None => mret tt
      | Some row =>
          _ ← record_event false now (mkEvent CREATED DEVICE_LABEL (pretty (ad_pk row)) ""
                ("First seen: " +:+ ai_client_id identity +:+ " from " +:+ dv_label device +:+ ", awaiting approval")
                [("actor", JStr (ai_client_id identity)); ("interface", JStr i); ("client_id", JStr (ai_client_id identity));
                 ("device", JStr (dv_node_id device)); ("owner", JStr (dv_user device));
                 ("person", JStr (match who with Some u => us_username u | None => "" end))] None);
          mret tt
      end
  | Some row =>
      let changed := negb (bool_decide (ad_name row = dv_label device) && bool_decide (ad_os row = dv_os device)
                           && bool_decide (ad_owner row = dv_user device)) in
      if changed || (TOUCH_INTERVAL <=? now - ad_last_seen row)%Z then
        save_device (set_ad_last_seen now (set_ad_owner (dv_user device) (set_ad_os (dv_os device) (set_ad_name (dv_label device) row))))
      else mret tt
  end.

(** [class DeviceStanding], those [standing] answers. *)
Inductive DeviceStanding : Type := UNPLACED | APPROVED | AWAITING | BLOCKED.

#[export] Instance DeviceStanding_eq_dec : EqDecision DeviceStanding.
Proof. solve_decision. Defined.

(** [_rows_of(principal)], in the model's order. *)
Definition rows_of (p : Principal) (db : Db) : list AgentDevice :=
  order_by ad_name (rows_where
    (fun r => bool_decide (ad_identity r = (actor p, person_key p) /\ ad_node_id r = device p)) (db_devices db)).

(** What one device's row says. *)
Definition standing_of (row : option AgentDevice) : DeviceStanding :=
  match row with
  | Some r => if is_some (ad_blocked_at r) then BLOCKED else if is_some (ad_approved_at r) then APPROVED else AWAITING
  | None => AWAITING
  end.

(** [standing(principal)] *)
Definition standing (p : Principal) : M exn Db DeviceStanding :=
  if negb (is_agent (interface p)) || bool_decide (device p = "") then mret UNPLACED
  else try (row ← reading "AgentDevice" (fun db => head (rows_of p db)); mret (standing_of row))
         (fun e => match e with DatabaseError _ => Some (mret BLOCKED) | _ => None end).

(** [record_of(principal)] *)
Definition record_of (p : Principal) (db : Db) : option AgentDevice :=
  if decide (device p = "") then None else head (rows_of p db).

(** [device_anchor(key)] *)
Definition device_anchor (key : Z) : string := "device-" +:+ pretty key.

(** [where(principal)]: [site_url] and the page's path are the deployment's. *)
Definition where_ (site_url : string -> string) (agent_policy : string) (p : Principal) : M exn Db string :=
  try (row ← reading "AgentDevice" (fun db => head (rows_of p db));
       mret (match row with None => "" | Some r => site_url (agent_policy +:+ "#" +:+ device_anchor (ad_pk r)) end))
    (fun e => match e with DatabaseError _ => Some (mret "") | _ => None end).

(** [placement_posture()] *)
Definition placement_posture (net : Tailnet) : string := socket_path net.

(** [blocked_askers()], of one row's asker. *)
Definition blocked_askers (db : Db) (requested_actor requested_interface requested_device : string) : bool :=
  is_agent requested_interface &&
  existsb (fun r => is_some (ad_blocked_at r) && bool_decide ((ad_identity r).1 = requested_actor)
                    && bool_decide (ad_node_id r = requested_device)) (db_devices db).

(** [_pk(key)] *)
Definition pk (key : string) : outcome exn Z :=
  let text := strip key in
  if isdigit text then match int_of text with Some n => Ok n | None => Raise (ValueError "invalid literal for int()") end
  else Ok 0%Z.

(** [_locked(key)] *)
Definition locked_device (key : string) : M exn Db AgentDevice := fun db =>
  match pk key with
  | Raise e => (Raise e, db)
  | Ok n =>
      match first_where (fun r => bool_decide (ad_pk r = n)) (db_devices db) with
      | Some r => (Ok r, db)
      | None => (Raise (Host RecordNotFound "No agent has called HQ from that device." JNull), db)
      end
  end.

(** [_record(row, message, user, **state)] *)
Definition record_device (now : Z) (row : AgentDevice) (message : string) (user : User) (state : dict) : M exn Db unit :=
  _ ← record_event true now (mkEvent UPDATED DEVICE_LABEL (pretty (ad_pk row)) "" message
        ([("client_id", JStr (ad_identity row).1); ("device", JStr (ad_node_id row))] ++ state)%list (Some (us_pk user)));
  mret tt.

Definition device_answer (row : AgentDevice) (state : string) (v : bool) : json :=
  JObj [("ok", JBool true); ("device", JStr (pretty (ad_pk row))); (state, JBool v)].

(** [set_device_approved(command, principal=..., current_key=...)] *)
Definition set_device_approved (now : Z) (approving : bool) (p : Principal) (current_key : string) : M exn Db json :=
  user ← person p;
  atomic (
    row ← locked_device current_key;
    _ ← raise_if (match ad_person row with Some k => negb (bool_decide (k = us_pk user)) | None => false end)
          (AuthorizationError "Only the person this agent acts for approves the devices it calls from.");
    if bool_decide (is_some (ad_approved_at row) = approving) then mret (device_answer row "approved" approving)
    else
      let row := set_ad_approved_by (if approving then Some (us_pk user) else None)
                   (set_ad_approved_at (if approving then Some now else None) row) in
      _ ← save_device row;
      name ← gets (device_name row);
      _ ← record_device now row ((if approving then "Approved" else "Withdrew approval of") +:+ " " +:+ name) user
            [("approved", JBool approving)];
      mret (device_answer row "approved" approving)).

(** [set_device_blocked(command, principal=..., current_key=...)] *)
Definition set_device_blocked (now : Z) (blocking : bool) (p : Principal) (current_key : string) : M exn Db json :=
  user ← person p;
  atomic (
    row ← locked_device current_key;
    if bool_decide (is_some (ad_blocked_at row) = blocking) then mret (device_answer row "blocked" blocking)
    else
      let row := set_ad_blocked_by (if blocking then Some (us_pk user) else None)
                   (set_ad_blocked_at (if blocking then Some now else None) row) in
      _ ← save_device row;
      name ← gets (device_name row);
      _ ← record_device now row ((if blocking then "Blocked" else "Allowed") +:+ " " +:+ name) user
            [("blocked", JBool blocking)];
      mret (device_answer row "blocked" blocking)).

(** [device_approved(key)] and [device_blocked(key)] *)
Definition device_approved (key : string) (db : Db) : outcome exn bool :=
  match pk key with
  | Raise e => Raise e
  | Ok n => Ok (existsb (fun r => bool_decide (ad_pk r = n) && is_some (ad_approved_at r)) (db_devices db))
  end.

Definition device_blocked (key : string) (db : Db) : outcome exn bool :=
  match pk key with
  | Raise e => Raise e
  | Ok n => Ok (existsb (fun r => bool_decide (ad_pk r = n) && is_some (ad_blocked_at r)) (db_devices db))
  end.

(** * What one operation leaves *)

(** Every column of a device a person did not act on is as it was, and what one did is dated. *)
Definition device_dated (r : AgentDevice) : Prop :=
  (is_some (ad_approved_by r) = true -> is_some (ad_approved_at r) = true) /\
  (is_some (ad_blocked_by r) = true -> is_some (ad_blocked_at r) = true).

(** The devices' rows keep their keys, their places and the dates of what a person did. *)
Record devices_ok (db : Db) : Prop := {
  dok_unique : NoDup (map device_key (db_devices db));
  dok_pks : NoDup (map ad_pk (db_devices db));
  dok_below : forall r, r ∈ db_devices db -> (ad_pk r < Z.of_N (db_next_id db))%Z;
  dok_dated : forall r, r ∈ db_devices db -> device_dated r;
}.

Lemma pk_injective (rows : list AgentDevice) r x :
  NoDup (map ad_pk rows) -> r ∈ rows -> x ∈ rows -> ad_pk r = ad_pk x -> r = x.
Proof.
  induction rows as [|y ys IH]; intros Hnd Hr Hx Heq; [by apply elem_of_nil in Hr|].
  cbn in Hnd. apply NoDup_cons in Hnd as [Hy Hnd].
  apply elem_of_cons in Hr as [->|Hr], Hx as [->|Hx]; [done| | |by apply IH].
  - destruct Hy. rewrite Heq. by apply list_elem_of_fmap_2.
  - destruct Hy. rewrite <- Heq. by apply list_elem_of_fmap_2.
Qed.

(** One operation on the devices: they stay well formed, the identities stand as
    they were, and every row names an identity one named before, or [extra]. *)
Definition device_step (extra : option (string * string)) (db db' : Db) : Prop :=
  devices_ok db -> devices_ok db' /\ db_identities db' = db_identities db /\
  (forall d, d ∈ db_devices db' -> (exists d0, d0 ∈ db_devices db /\ ad_identity d = ad_identity d0) \/ extra = Some (ad_identity d)).

Lemma device_step_refl extra db : device_step extra db db.
Proof. intros H. split_and!; eauto. Qed.

Lemma device_step_trans extra a b c : device_step extra a b -> device_step extra b c -> device_step extra a c.
Proof.
  intros Hab Hbc Ha. destruct (Hab Ha) as (Hb & Hi & Hf), (Hbc Hb) as (Hc & Hi' & Hf').
  split_and!; [done|congruence|]. intros d [(d0 & Hd & E)|He]%Hf'; [|by right].
  destruct (Hf _ Hd) as [(d1 & ? & ?)|He]; [left; exists d1; split; [done|congruence]|right; congruence].
Qed.

(** Saving a row read from the table keeps its keys. *)
Lemma save_device_step extra db r row n :
  r ∈ db_devices db -> n = ad_pk r -> ad_pk row = ad_pk r -> device_key row = device_key r ->
  (device_dated r -> device_dated row) ->
  device_step extra db (set_db_devices (update_where (fun x => bool_decide (ad_pk x = n)) (fun _ => row) (db_devices db)) db).
Proof.
  intros Hr -> Hpk Hkey Hdated [Hu Hp Hb Hd].
  assert (forall x, x ∈ db_devices db -> bool_decide (ad_pk x = ad_pk r) = true -> x = r) as Hone.
  { intros x Hx Hxp%bool_decide_eq_true. by eapply pk_injective. }
  split_and!; [constructor; cbn|done|].
  - rewrite map_update_where; [done|]. intros x Hx Hxp. by rewrite (Hone x Hx Hxp).
  - rewrite map_update_where; [done|]. intros x Hx Hxp. by rewrite (Hone x Hx Hxp).
  - intros x (y & Hy & ->)%elem_of_update_where. case_bool_decide; [|by apply Hb]. rewrite Hpk. by apply Hb.
  - intros x (y & Hy & ->)%elem_of_update_where. case_bool_decide; [apply Hdated|]; by apply Hd.
  - cbn. intros d (y & Hy & ->)%elem_of_update_where. left. case_bool_decide as Hyp; [|eauto].
    exists r. split; [done|]. unfold device_key in Hkey. congruence.
Qed.

Lemma record_event_step extra required now e db o db' :
  record_event required now e db = (o, db') -> device_step extra db db'.
Proof.
  intros H [Hu Hp Hb Hd]. unfold record_event in H. destruct (db_audit_down db), required; simplify_eq/=;
    (split_and!; [constructor; cbn; try done; intros r Hr%Hb; lia|done|eauto]).
Qed.

Lemma create_device_inv f db o db' :
  create_device f db = (o, db') ->
  let r := f (db_next_id db) in
  (exists e, o = Raise e /\ db' = set_db_next_id (db_next_id db + 1)%N db) \/
  (o = Ok r /\ (forall x, x ∈ db_devices db -> device_key x <> device_key r) /\
   db' = set_db_devices (db_devices db ++ [r])%list (set_db_next_id (db_next_id db + 1)%N db)).
Proof.
  unfold create_device, take_id. intros H. run.
  destruct (first_where _ (db_devices db)) as [x|] eqn:Hf; simplify_eq/=.
  - left. by eexists.
  - right. split_and!; try done.
    intros x Hx Hk. by pose proof (first_where_none _ _ Hf x Hx) as Hn%bool_decide_eq_false.
Qed.

Lemma create_device_step f db o db' key :
  (forall n, ad_pk (f n) = Z.of_N n /\ ad_identity (f n) = key /\ device_dated (f n)) ->
  create_device f db = (o, db') -> device_step (Some key) db db'.
Proof.
  intros Hf [(e & -> & ->)|(-> & Hnew & ->)]%create_device_inv [Hu Hp Hb Hd].
  - split_and!; [constructor; cbn; try done; intros r Hr%Hb; lia|done|eauto].
  - destruct (Hf (db_next_id db)) as (Hpk & Hkey & Hdat). split_and!; [constructor; cbn|done|].
    + rewrite map_app. apply NoDup_app. split_and!; [done| |apply NoDup_singleton].
      intros k (x & -> & Hx)%list_elem_of_fmap Hk%list_elem_of_singleton. by apply (Hnew x).
    + rewrite map_app. apply NoDup_app. split_and!; [done| |apply NoDup_singleton].
      intros k (x & -> & Hx)%list_elem_of_fmap Hk%list_elem_of_singleton. specialize (Hb x Hx). rewrite Hk in Hb. lia.
    + intros r [Hr%Hb| ->%list_elem_of_singleton]%elem_of_app; [|rewrite Hpk]; lia.
    + intros r [Hr| ->%list_elem_of_singleton]%elem_of_app; [by apply Hd|done].
    + cbn. intros d [Hr| ->%list_elem_of_singleton]%elem_of_app; [eauto|right; congruence].
Qed.

Lemma locked_device_inv key db o db' :
  locked_device key db = (o, db') -> db' = db /\ (forall r, o = Ok r -> r ∈ db_devices db).
Proof.
  unfold locked_device. destruct (pk key); [|intros; by simplify_eq].
  destruct (first_where _ _) eqn:Hf; intros; simplify_eq; split; try done.
  intros r [= <-]. by apply first_where_some in Hf as [? _].
Qed.

(** Takes a setter's run to the row it saved. *)
Ltac device_setter :=
  run_all;
  repeat match goal with
  | H : person _ _ = (_, _) |- _ => apply person_state in H; simplify_eq
  | H : locked_device _ _ = (_, _) |- _ => apply locked_device_inv in H as [? ?]; simplify_eq
  | H : forall r, Ok _ = Ok r -> _ |- _ => specialize (H _ eq_refl)
  | H : record_event _ _ _ _ = (_, _) |- _ => apply (record_event_step None) in H
  end; try apply device_step_refl.

Lemma set_device_approved_step now b p key db o db' :
  set_device_approved now b p key db = (o, db') -> device_step None db db'.
Proof.
  unfold set_device_approved, save_device, record_device. intros H. device_setter.
  eapply device_step_trans; [|done]. eapply save_device_step; [done..|]. intros [? ?]. by destruct b.
Qed.

Lemma set_device_blocked_step now b p key db o db' :
  set_device_blocked now b p key db = (o, db') -> device_step None db db'.
Proof.
  unfold set_device_blocked, save_device, record_device. intros H. device_setter.
  eapply device_step_trans; [|done]. eapply save_device_step; [done..|]. intros [? ?]. by destruct b.
Qed.

Lemma new_device_step now key who dev db o db' :
  new_device now key who dev db = (o, db') -> device_step (Some key) db db'.
Proof.
  unfold new_device. intros [(a & H & ->)|(e & db1 & H & Hh)]%try_inv.
  - run. eapply create_device_step; [|done]. intros n. by split_and!.
  - run. repeat case_match; destruct_and?; simplify_eq; run; apply device_step_refl.
Qed.

Lemma observe_device_step now identity who dev i db o db' :
  observe_device now identity who dev i db = (o, db') ->
  device_step (Some (ai_client_id identity, ai_person_key identity)) db db'.
Proof.
  unfold observe_device, save_device. intros H. run_step H.
  destruct (first_where _ _) as [row|] eqn:Hf.
  - apply first_where_some in Hf as [Hin _]. run_all; [|apply device_step_refl].
    by eapply (save_device_step _ _ row).
  - run_all; repeat match goal with
      | H : new_device _ _ _ _ _ = _ |- _ => apply new_device_step in H
      | H : record_event _ _ _ _ = _ |- _ => eapply record_event_step in H
      end; try done; by eapply device_step_trans.
Qed.
