(* ===== verification/AgentRegistry.v ===== *)
(** The agents HQ has seen ([agent_registry.py]), and how a door is named ([doors.py]). *)
From stdpp Require Import base gmap strings list pretty.
From Stdlib Require Import Ascii ZArith Lia.
From S2P Require Import Prelude PyStr Json Refusals Security Models AgentDevices.

#[local] Open Scope string_scope.

Definition IDENTITY_LABEL := "Agent identity".

(** [interface_label(interface)] *)
Definition interface_label (i : string) : string :=
  if decide (i = CLI_INTERFACE) then "CLI"
  else if decide (i = MCP_INTERFACE) then "MCP"
  else if decide (i = API_INTERFACE) then "API"
  else i.

(** [door_words(interface)] *)
Definition door_words (i : string) : string :=
  if decide (i = "") then ""
  else if decide (i = WEB_INTERFACE) then "on the web"
  else if decide (i = DEVICE_INTERFACE) then "on their own device"
  else if decide (i = CLI_INTERFACE) then "at the shell"
  else if decide (i = MCP_INTERFACE) then "over MCP"
  else if decide (i = API_INTERFACE) then "over the API"
  else if decide (i = JOB_INTERFACE) then "in a background job"
  else if decide (i = CONTROLLER_INTERFACE) then "through the controller"
  else if decide (i = INTERNAL_INTERFACE) then "inside HQ"
  else "through " +:+ interface_label i.

(** The rows [identity_of(subject)] finds, by their keys: a client as a person, or a
    machine's client whole.  In the model's order, which puts the shorter client id first. *)
Definition identity_keys (subject : string) : list (string * string) :=
  let parts := subject_parts subject in
  if decide (parts = (subject, "")) then [(subject, "")] else [parts; (subject, "")].

(** [identity_of(subject).first()] *)
Definition identity_of (subject : string) (db : Db) : option AgentIdentity :=
  head (omap (fun k => db_identities db !! k) (identity_keys subject)).

Definition identity_key (row : AgentIdentity) : string * string := (ai_client_id row, ai_person_key row).

(** [row.save(update_fields=...)] *)
Definition save_identity (row : AgentIdentity) : M exn Db unit :=
  modify (fun db => set_db_identities (<[identity_key row := row]> (db_identities db)) db).

(** [AgentIdentity.objects.create(...)], under [agent_identity_one_per_client_and_person]. *)
Definition create_identity (row : AgentIdentity) : M exn Db AgentIdentity :=
  act (fun db =>
    match db_identities db !! identity_key row with
    | Some _ => (Raise (IntegrityError "agent_identity_one_per_client_and_person"), db)
    | None => (Ok row, set_db_identities (<[identity_key row := row]> (db_identities db)) db)
    end).

(** [_device(principal)] *)
Definition device_metadata (p : Principal) : dict :=
  if decide (device p = "") then [] else [("device", JStr (device p))].

(** [_grant_change(actor, added, removed)] *)
Definition grant_change (a : string) (added removed : list string) : string :=
  let parts := ((match added with [] => [] | _ => ["added " +:+ join ", " added] end) ++
                (match removed with [] => [] | _ => ["removed " +:+ join ", " removed] end))%list in
  "Grant for " +:+ a +:+ " changed: " +:+ join "; " parts.

Definition names (l : list string) : json := JList (map JStr l).

(** [_record_person(row, principal, person)]: the row, which now acts for [who]. *)
Definition record_person (now : Z) (row : AgentIdentity) (p : Principal) (who : option User) : M exn Db AgentIdentity :=
  before ← gets (user_of (ai_person row));
  let named := match who with None => "nobody" | Some u => us_username u end in
  _ ← record_event false now (mkEvent UPDATED IDENTITY_LABEL "" ""
        (actor p +:+ " now acts for " +:+ named +:+ match before with Some b => ", was " +:+ us_username b | None => "" end)
        ([("actor", JStr (actor p)); ("interface", JStr (interface p))] ++ device_metadata p ++
         [("person", JStr (match who with Some u => us_username u | None => "" end));
          ("was", JStr (match before with Some u => us_username u | None => "" end))])%list None);
  mret (set_ai_person (us_pk <$> who) row).

(** [sorted(principal.granted)] *)
Definition granted_list (p : Principal) : list string := sorted (elements (granted p)).

Definition signs_in_of (p : Principal) : string := if decide (person_key p = "") then "machine" else "person".

(** The row [_observe] makes for a client first seen; [None] where it was there after all. *)
Definition new_identity (row : AgentIdentity) : M exn Db (option AgentIdentity) :=
  try (r ← atomic (create_identity row); mret (Some r))
    (fun e => match e with IntegrityError _ => Some (mret None) | _ => None end).

(** The part of [_observe] a client first seen takes: [None] when its row was there after all. *)
Definition first_seen (now : Z) (p : Principal) (who : option User) : M exn Db (option AgentIdentity) :=
  let row := mkAgentIdentity (actor p) (person_key p) [interface p] (granted_list p) now now (signs_in_of p)
               None None (us_pk <$> who) in
  created ← new_identity row;
  match created with
  | None => mret None
  | Some r =>
      name ← gets (identity_name r);
      _ ← record_event false now (mkEvent CREATED IDENTITY_LABEL "" ""
            ("First seen: " +:+ name +:+ ", " +:+ door_words (interface p) +:+ ", granted " +:+
             counted (length (granted_list p)) "permission" "permissions")
            ([("actor", JStr (actor p)); ("interface", JStr (interface p))] ++ device_metadata p ++
             [("signs_in", JStr (signs_in_of p));
              ("person", JStr (match who with Some u => us_username u | None => "" end))])%list None);
      mret (Some r)
  end.

(** The part of [_observe] that brings a known row up to the token just seen. *)
Definition seen_again (now : Z) (p : Principal) (who : option User) (row : AgentIdentity) : M exn Db AgentIdentity :=
  let new_door := negb (bool_decide (interface p ∈ ai_interfaces row)) in
  let row1 := if new_door then set_ai_interfaces (sorted (remove_dups (interface p :: ai_interfaces row))) row else row in
  let new_way := negb (bool_decide (signs_in_of p = ai_signs_in row1)) in
  let row2 := if new_way then set_ai_signs_in (signs_in_of p) row1 else row1 in
  let new_person := negb (bool_decide (us_pk <$> who = ai_person row2)) in
  row3 ← (if new_person then record_person now row2 p who else mret row2);
  let new_grant := negb (bool_decide (granted_list p = ai_granted row3)) in
  row4 ← (if new_grant then
            (let added := minus_names (granted_list p) (ai_granted row3) in
             let removed := minus_names (ai_granted row3) (granted_list p) in
             _ ← on_commit (ToolsChanged (agent_subject p));
             _ ← record_event false now (mkEvent UPDATED IDENTITY_LABEL "" "" (grant_change (actor p) added removed)
                   ([("actor", JStr (actor p)); ("interface", JStr (interface p))] ++ device_metadata p ++
                    [("added", names added); ("removed", names removed)])%list None);
             mret (set_ai_granted (granted_list p) row3))
          else mret row3);
  if new_door || new_way || new_person || new_grant || (TOUCH_INTERVAL <=? now - ai_last_seen row4)%Z then
    (let row5 := set_ai_last_seen now row4 in _ ← save_identity row5; mret row5)
  else mret row4.

(** [_observe(principal)] *)
Definition observe_identity (now : Z) (p : Principal) : M exn Db (AgentIdentity * option User) :=
  who ← gets (user_of_key (person_key p));
  found ← gets (fun db => db_identities db !! (actor p, person_key p));
  match found with
  | Some row => row' ← seen_again now p who row; mret (row', who)
  | None =>
      created ← first_seen now p who;
      match created with
      | Some r => mret (r, who)
      | None =>
          again ← gets (fun db => db_identities db !! (actor p, person_key p));
          match again with
          | Some row => row' ← seen_again now p who row; mret (row', who)
          | None => raise (OtherError "DoesNotExist" "AgentIdentity matching query does not exist.")
          end
      end
  end.

(** [observe(principal, device)]: observation never blocks a request. *)
Definition observe (now : Z) (p : Principal) (placed : option Device) : M exn Db unit :=
  if decide (granted p = ∅) then mret tt
  else try
    (seen ← observe_identity now p;
     match placed with
     | Some d =>
         if is_agent (interface p) && (is_some seen.2 || bool_decide (person_key p = ""))
         then observe_device now seen.1 seen.2 d (interface p) else mret tt
     | None => mret tt
     end)
    (fun _ => Some (mret tt)).

(** * What observation leaves *)

(** Each row stands under its own key. *)
Definition keyed (db : Db) : Prop := forall k r, db_identities db !! k = Some r -> identity_key r = k.

(** What a person did to an identity: nothing but their own acts moves it. *)
Definition brake_of (r : AgentIdentity) : option Z * option Z := (ai_blocked_at r, ai_blocked_by r).

(** From one state to the next, every identity keeps its brake, one first seen has
    none, and the devices stand as they were. *)
Record observed (db db' : Db) : Prop := {
  obs_devices : db_devices db' = db_devices db;
  obs_keyed : keyed db -> keyed db';
  obs_kept : forall k r, db_identities db !! k = Some r ->
    exists r', db_identities db' !! k = Some r' /\ brake_of r' = brake_of r;
  obs_new : forall k r', db_identities db' !! k = Some r' ->
    brake_of r' = (None, None) \/ exists r, db_identities db !! k = Some r /\ brake_of r' = brake_of r;
  obs_ids : (db_next_id db <= db_next_id db')%N;
}.

#[export] Instance observed_preorder : PreOrder observed.
Proof.
  split.
  - intros db. constructor; try lia; eauto.
  - intros a b c [Hd1 Hk1 Ho1 Hn1 Hi1] [Hd2 Hk2 Ho2 Hn2 Hi2]. constructor; try congruence; try lia; auto.
    + intros k r (r' & H' & E')%Ho1. destruct (Ho2 _ _ H') as (r'' & ? & ?). exists r''. split; congruence.
    + intros k r'' [Hz|(r' & H' & E')]%Hn2; [by left|]. destruct (Hn1 _ _ H') as [Hz|(r & ? & ?)].
      * left. congruence.
      * right. exists r. split; congruence.
Qed.

Lemma record_event_observed required now e db o db' :
  record_event required now e db = (o, db') -> observed db db'.
Proof.
  unfold record_event. destruct (db_audit_down db), required; intros H; simplify_eq/=; try reflexivity;
    constructor; cbn; try lia; eauto.
Qed.

Lemma on_commit_observed e db o db' : on_commit e db = (o, db') -> observed db db' /\ db_identities db' = db_identities db.
Proof. unfold on_commit. intros H. run. split; [|done]. constructor; cbn; try lia; eauto. Qed.

Lemma save_identity_observed db r row :
  db_identities db !! identity_key row = Some r -> brake_of row = brake_of r ->
  observed db (set_db_identities (<[identity_key row := row]> (db_identities db)) db).
Proof.
  intros Hr Hb. constructor; unfold keyed; cbn; try done; try lia.
  - intros Hk k x Hx. apply lookup_insert_Some in Hx as [[<- <-]|[_ Hx]]; [done|by apply Hk].
  - intros k x Hx. destruct (decide (k = identity_key row)) as [->|Hne].
    + rewrite lookup_insert_eq. eexists. split; [done|]. congruence.
    + rewrite lookup_insert_ne by done. eauto.
  - intros k x Hx. apply lookup_insert_Some in Hx as [[<- <-]|[_ Hx]]; right; eauto.
Qed.

Lemma record_event_identities required now e db o db' :
  record_event required now e db = (o, db') -> db_identities db' = db_identities db.
Proof. unfold record_event. destruct (db_audit_down db), required; intros; by simplify_eq/=. Qed.

(** Forgets the writes [observe] makes beside the identities, keeping that they are beside them. *)
Ltac beside :=
  repeat match goal with
  | H : record_event _ _ _ _ = (_, _) |- _ =>
      let H' := fresh "Hids" in pose proof (record_event_identities _ _ _ _ _ _ H) as H'; apply record_event_observed in H
  | H : on_commit _ _ = (_, _) |- _ =>
      let H' := fresh "Hids" in apply on_commit_observed in H as [H H']
  end.

Lemma record_person_observed now row p who db o db' :
  record_person now row p who db = (o, db') -> observed db db' /\ db_identities db' = db_identities db /\
  (forall r, o = Ok r -> r = set_ai_person (us_pk <$> who) row).
Proof. unfold record_person. intros H. run_all; beside; split_and!; auto; by intros ? [= <-]. Qed.

(** What [seen_again] has made of [row] when it saves it: the same key, the same brake. *)
Definition same_row (row row' : AgentIdentity) : Prop :=
  identity_key row' = identity_key row /\ brake_of row' = brake_of row.

Lemma seen_again_observed now p who row db o db' :
  db_identities db !! identity_key row = Some row -> seen_again now p who row db = (o, db') ->
  observed db db' /\ (forall r, o = Ok r -> identity_key r = identity_key row).
Proof.
  intros Hrow H. unfold seen_again in H. cbv zeta in H.
  set (row2 := if (negb (bool_decide (signs_in_of p = _)) : bool) then set_ai_signs_in _ _ else _) in H.
  assert (same_row row row2) as H2 by (subst row2; by repeat case_match).
  clearbody row2. run_step H.
  - assert (observed db x0 /\ db_identities x0 = db_identities db /\ same_row row x) as (Hob & Hid & Hx).
    { destruct (negb (bool_decide (us_pk <$> who = ai_person row2))).
      - apply record_person_observed in Hrun as (? & ? & Hr). split_and!; [done..|]. by rewrite (Hr _ eq_refl).
      - by run. }
    clear Hrun. run_step H.
    + assert (observed x0 x2 /\ db_identities x2 = db_identities x0 /\ same_row row x1) as (Hob2 & Hid2 & Hx1).
      { run_all; beside; split_and!; try done; try (etransitivity; done); congruence. }
      clear Hrun. unfold save_identity in H. run_all.
      * split; [|by intros ? [= <-]; apply Hx1]. do 2 (etransitivity; [done|]).
        eapply (save_identity_observed _ row (set_ai_last_seen now x1)); [|apply Hx1].
        cbn. destruct Hx1 as [Hk _]. unfold identity_key in Hk |- *. cbn. rewrite Hid2, Hid. by rewrite Hk.
      * split; [by etransitivity|]. intros ? [= <-]. apply Hx1.
    + split; [|done]. etransitivity; [done|]. run_all; beside; try done; by etransitivity.
  - split; [|done]. destruct (negb (bool_decide (us_pk <$> who = ai_person row2))); [|by run].
    by apply record_person_observed in H as [? _].
Qed.

Lemma new_identity_inv row db o db' :
  new_identity row db = (o, db') ->
  (o = Ok None /\ db' = db) \/
  (o = Ok (Some row) /\ db_identities db !! identity_key row = None /\
   db' = set_db_identities (<[identity_key row := row]> (db_identities db)) db).
Proof.
  unfold new_identity, create_identity, act, try, atomic, mbind, M_bind, mret, M_ret.
  destruct (db_identities db !! identity_key row); intros H; simplify_eq/=; [by left|by right].
Qed.

Lemma new_identity_observed row db :
  db_identities db !! identity_key row = None -> brake_of row = (None, None) ->
  observed db (set_db_identities (<[identity_key row := row]> (db_identities db)) db).
Proof.
  intros Hr Hb. constructor; unfold keyed; cbn; try done; try lia.
  - intros Hk k x Hx. apply lookup_insert_Some in Hx as [[<- <-]|[_ Hx]]; [done|by apply Hk].
  - intros k x Hx. rewrite lookup_insert_ne by congruence. eauto.
  - intros k x Hx. apply lookup_insert_Some in Hx as [[<- <-]|[_ Hx]]; eauto.
Qed.

Lemma first_seen_observed now p who db o db' :
  first_seen now p who db = (o, db') ->
  observed db db' /\ (forall r, o = Ok (Some r) -> identity_key r = (actor p, person_key p) /\ is_Some (db_identities db' !! identity_key r)).
Proof.
  unfold first_seen. set (row := mkAgentIdentity _ _ _ _ _ _ _ _ _ _). intros H.
  apply bind_inv in H as [(c & db1 & Ht & H)|(e & Ht & ->)].
  - apply new_identity_inv in Ht as [[Hc ->]|(Hc & Hn & Hdb)]; injection Hc as ->; [by run|].
    assert (observed db db1) by (subst db1; by apply new_identity_observed).
    assert (is_Some (db_identities db1 !! identity_key row)) by (subst db1; cbn; by rewrite lookup_insert_eq).
    clear Hdb. run_all; beside; split; try done; try (by etransitivity).
    intros r [= <-]. split; [done|]. congruence.
  - by apply new_identity_inv in Ht as [[? _]|[? _]].
Qed.

Lemma observe_identity_observed now p db o db' :
  keyed db -> observe_identity now p db = (o, db') ->
  observed db db' /\ (forall r, o = Ok r -> is_Some (db_identities db' !! identity_key r.1)).
Proof.
  intros Hk H. unfold observe_identity in H. run_step H. run_step H.
  destruct (db_identities db !! (actor p, person_key p)) as [row|] eqn:Hrow.
  - pose proof (Hk _ _ Hrow) as Hkey. rewrite <- Hkey in Hrow. run.
    + apply seen_again_observed in Hrun as [Hob Hr]; [|done]. split; [done|]. intros r [= <-]. cbn.
      rewrite (Hr _ eq_refl). destruct (obs_kept _ _ Hob _ _ Hrow) as (? & ? & _). eauto.
    + apply seen_again_observed in H as [Hob Hr]; [|done]. by split.
  - run_step H.
    + apply first_seen_observed in Hrun as [Hob Hr]. destruct x as [r|].
      * run. split; [done|]. intros ? [= <-]. by destruct (Hr _ eq_refl).
      * run_step H. destruct (db_identities x0 !! (actor p, person_key p)) as [row|] eqn:Hrow0; [|by run].
        pose proof (obs_keyed _ _ Hob Hk _ _ Hrow0) as Hkey. rewrite <- Hkey in Hrow0. run.
        -- apply seen_again_observed in Hrun as [Hob2 Hr2]; [|done]. split; [by etransitivity|]. intros r [= <-]. cbn.
           rewrite (Hr2 _ eq_refl). destruct (obs_kept _ _ Hob2 _ _ Hrow0) as (? & ? & _). eauto.
        -- apply seen_again_observed in H as [Hob2 _]; [|done]. split; [by etransitivity|done].
    + apply first_seen_observed in H as [Hob _]. by split.
Qed.
