(* ===== verification/AgentAccess.v ===== *)
(** The brakes on agents ([agent_access.py]): the pause, a block on one client, and
    the approval and block of each device it calls from. *)
From stdpp Require Import base gmap strings list pretty.
From Stdlib Require Import Ascii ZArith Lia.
From S2P Require Import Prelude PyStr Json Refusals Security Models AgentDevices AgentRegistry.

#[local] Open Scope string_scope.

Definition ACCESS_LABEL := "Agent access".

(** [TOKEN_INTERFACES] *)
Definition TOKEN_INTERFACES : list string := (AGENT_SURFACES ++ [DEVICE_INTERFACE])%list.

(** [agents_paused()]: fails closed. *)
Definition agents_paused : M exn Db bool :=
  try (row ← reading "AgentAccess" db_agent_access; mret (match row with Some r => aa_paused r | None => false end))
    (fun e => match e with DatabaseError _ => Some (mret true) | _ => None end).

(** [paused_interfaces()] *)
Definition paused_interfaces : M exn Db (list string) :=
  paused ← agents_paused; mret (if (paused : bool) then AGENT_SURFACES else []).

(** [_blocked_clients()] *)
Definition blocked_clients (db : Db) : list AgentIdentity :=
  List.filter (fun r => is_some (ai_blocked_at r)) (map snd (map_to_list (db_identities db))).

(** [held_askers()]: whether the query picks a row this asker made, as the brakes stand now. *)
Definition held_askers : M exn Db (string -> string -> string -> bool) :=
  paused ← paused_interfaces;
  db ← get;
  mret (fun requested_actor requested_interface requested_device =>
    (among requested_interface TOKEN_INTERFACES && existsb (fun r => bool_decide (ai_client_id r = requested_actor)) (blocked_clients db))
    || blocked_askers db requested_actor requested_interface requested_device
    || among requested_interface paused).

(** Reading the brakes moves nothing. *)
Lemma held_askers_state db o db' : held_askers db = (o, db') -> db' = db.
Proof.
  unfold held_askers, paused_interfaces, agents_paused, try, reading. intros H.
  unfold mbind, M_bind, mret, M_ret, get in H. repeat (case_match; simplify_eq/=); done.
Qed.

(** [AgentRefusal] *)
Record AgentRefusal : Type := mkAgentRefusal { rf_code : string; rf_reason : string }.

(** [AgentRefusal.refusal] *)
Definition brake_refusal (r : AgentRefusal) : Refusal := refusal (rf_code r) (rf_reason r) JNull None.

Definition AGENTS_PAUSED := mkAgentRefusal "agents_paused" "Agents are paused by the operator.".
Definition AGENT_BLOCKED := mkAgentRefusal "agent_blocked" "This client is blocked by the operator.".
Definition DEVICE_AWAITING_APPROVAL := mkAgentRefusal "device_awaiting_approval"
  ("This client has not been approved on this device. The person it acts for approves the device " +:+
   "on HQ's Agents page, and the next call from it runs.").
Definition DEVICE_BLOCKED := mkAgentRefusal "device_blocked"
  "This client is blocked on this device by the operator. It is allowed again on HQ's Agents page.".
Definition DEVICE_UNKNOWN := mkAgentRefusal "device_unknown"
  ("No tailnet device sent this call, so HQ cannot place it on one and nobody can approve it. " +:+
   "An agent calls HQ over the tailnet from the device it runs on; the first call from a device waits " +:+
   "for the person it acts for to approve it on HQ's Agents page.").
Definition TAILNET_UNAVAILABLE := mkAgentRefusal "tailnet_unavailable"
  ("HQ could not ask tailscaled which device sent this call, so the call is refused. " +:+
   "Retry; if it goes on, the operator checks tailscaled on HQ's host.").

(** [_DEVICE_REFUSALS.get(standing)] *)
Definition device_refusal (s : DeviceStanding) : option AgentRefusal :=
  match s with
  | AWAITING => Some DEVICE_AWAITING_APPROVAL
  | BLOCKED => Some DEVICE_BLOCKED
  | UNPLACED | APPROVED => None
  end.

(** [unplaced(refused, detail)] *)
Definition unplaced (u : Unplaced) (detail : string) : AgentRefusal :=
  let r := match u with NO_DEVICE => DEVICE_UNKNOWN | UNANSWERED => TAILNET_UNAVAILABLE end in
  if decide (detail = "") then r
  else mkAgentRefusal (rf_code r) (rf_reason r +:+ " tailscaled said: " +:+ detail).

(** [blocked(principal)]: fails closed. *)
Definition blocked (p : Principal) : M exn Db bool :=
  try (reading "AgentIdentity" (fun db =>
         existsb (fun r => bool_decide (ai_client_id r = actor p) && bool_decide (ai_person_key r = person_key p)) (blocked_clients db)))
    (fun e => match e with DatabaseError _ => Some (mret true) | _ => None end).

Section Brakes.
(** Where the deployment's Agents page is. *)
Variables (site_url : string -> string) (agent_policy : string).

(** [refusal(principal)] *)
Definition brake (p : Principal) : M exn Db (option AgentRefusal) :=
  stopped ← (if among (interface p) TOKEN_INTERFACES then blocked p else mret false);
  if (stopped : bool) then mret (Some AGENT_BLOCKED)
  else
    s ← standing p;
    match device_refusal s with
    | Some device =>
        row ← where_ site_url agent_policy p;
        mret (Some (if decide (row = "") then device
                    else mkAgentRefusal (rf_code device) (rf_reason device +:+ " Its row there: " +:+ row)))
    | None =>
        paused ← paused_interfaces;
        mret (if among (interface p) paused then Some AGENTS_PAUSED else None)
    end.
End Brakes.

(** [set_agents_paused(command, principal=...)] *)
Definition set_agents_paused (now : Z) (paused : bool) (p : Principal) : M exn Db json :=
  user ← person p;
  atomic (
    row ← gets (fun db => default (mkAgentAccess false None None) (db_agent_access db));
    _ ← modify (set_db_agent_access (Some row));
    if bool_decide (aa_paused row = paused) then mret (JObj [("ok", JBool true); ("paused", JBool paused)])
    else
      _ ← modify (set_db_agent_access (Some (mkAgentAccess paused (Some (us_pk user)) (Some now))));
      _ ← record_event true now (mkEvent UPDATED ACCESS_LABEL "1" ""
            (if paused then "Agents paused" else "Agents resumed") [] (Some (us_pk user)));
      mret (JObj [("ok", JBool true); ("paused", JBool paused)])).

Definition no_agent : exn := Host RecordNotFound "No agent with that client has called HQ." JNull.

(** [set_agent_blocked(command, principal=..., current_key=...)] *)
Definition set_agent_blocked (now : Z) (blocking : bool) (p : Principal) (current_key : string) : M exn Db json :=
  user ← person p;
  atomic (
    found ← gets (identity_of current_key);
    match found with
    | None => raise no_agent
    | Some row =>
        let answer := JObj [("ok", JBool true); ("client_id", JStr (ai_client_id row)); ("subject", JStr current_key); ("blocked", JBool blocking)] in
        if bool_decide (is_some (ai_blocked_at row) = blocking) then mret answer
        else
          let row := set_ai_blocked_by (if blocking then Some (us_pk user) else None)
                       (set_ai_blocked_at (if blocking then Some now else None) row) in
          _ ← save_identity row;
          name ← gets (identity_name row);
          _ ← record_event true now (mkEvent UPDATED IDENTITY_LABEL "" ""
                ((if blocking then "Blocked" else "Allowed") +:+ " " +:+ name)
                [("client_id", JStr (ai_client_id row)); ("subject", JStr current_key); ("blocked", JBool blocking)]
                (Some (us_pk user)));
          mret answer
    end).

(** [remove_agent(command, principal=..., current_key=...)] *)
Definition remove_agent (now : Z) (p : Principal) (current_key : string) : M exn Db json :=
  user ← person p;
  atomic (
    found ← gets (identity_of current_key);
    match found with
    | None => raise no_agent
    | Some row =>
        _ ← raise_if (is_some (ai_blocked_at row))
              (Host PolicyError ("A blocked agent stays listed so its block holds. Allow it first, then remove it, " +:+
                 "if its client can no longer sign in.") JNull);
        let subject := subject_of (ai_client_id row) (ai_person_key row) in
        named ← gets (identity_name row);
        own_rules ← gets (fun db => Z.of_nat (size (filter (fun kv => kv.1.1 = subject) (db_rules db))));
        _ ← modify (fun db => set_db_rules (filter (fun kv => kv.1.1 <> subject) (db_rules db)) db);
        own_devices ← gets (fun db => Z.of_nat (count_where (fun d => bool_decide (ad_identity d = identity_key row)) (db_devices db)));
        _ ← record_event true now (mkEvent DELETED IDENTITY_LABEL "" "" ("Removed " +:+ named)
              [("client_id", JStr (ai_client_id row)); ("subject", JStr subject); ("devices", JNum own_devices); ("rules", JNum own_rules)]
              (Some (us_pk user)));
        _ ← modify (fun db => set_db_devices (delete_where (fun d => bool_decide (ad_identity d = identity_key row)) (db_devices db))
                                (set_db_identities (delete (identity_key row) (db_identities db)) db));
        mret (JObj [("ok", JBool true); ("client_id", JStr (ai_client_id row)); ("subject", JStr current_key);
                    ("devices", JNum own_devices); ("rules", JNum own_rules)])
    end).

(** * What lets a caller through *)

Definition readable (table : string) (db : Db) : Prop := among table (db_unreadable db) = false.

Lemma blocked_clients_in r db : r ∈ blocked_clients db <-> exists k, db_identities db !! k = Some r /\ is_some (ai_blocked_at r) = true.
Proof.
  unfold blocked_clients. rewrite list_elem_of_In, filter_In, <- list_elem_of_In, list_elem_of_fmap. split.
  - intros [([k x] & -> & Hx%elem_of_map_to_list) Hb]. eauto.
  - intros (k & Hk & Hb). split; [|done]. exists (k, r). split; [done|]. by apply elem_of_map_to_list.
Qed.

(** Whether a person's block stands on this client as this person. *)
Definition block_stands (p : Principal) (db : Db) : Prop :=
  exists k r, db_identities db !! k = Some r /\ ai_client_id r = actor p /\ ai_person_key r = person_key p /\
    is_some (ai_blocked_at r) = true.

Lemma blocked_answers p db :
  exists b, blocked p db = (Ok b, db) /\ (b = false <-> readable "AgentIdentity" db /\ ~ block_stands p db).
Proof.
  unfold blocked, try, reading, readable. destruct (among "AgentIdentity" (db_unreadable db)) eqn:Hu.
  - exists true. split; [done|]. split; [done|]. by intros [? _].
  - eexists. split; [done|]. rewrite <- not_true_iff_false, existsb_exists. split.
    + intros H. split; [done|]. intros (k & r & Hk & Ha & Hp & Hb). apply H. exists r. split.
      * apply list_elem_of_In, blocked_clients_in. eauto.
      * by rewrite !bool_decide_eq_true_2.
    + intros [_ H] (r & Hr & Hx). apply H. apply list_elem_of_In, blocked_clients_in in Hr as (k & Hk & Hb).
      apply andb_true_iff in Hx as [?%bool_decide_eq_true ?%bool_decide_eq_true]. by exists k, r.
Qed.

Lemma standing_answers p db :
  exists s, standing p db = (Ok s, db) /\
  (device_refusal s = None <->
   (is_agent (interface p) = true -> device p <> "" -> readable "AgentDevice" db /\
    exists row, head (rows_of p db) = Some row /\ ad_blocked_at row = None /\ is_some (ad_approved_at row) = true)).
Proof.
  unfold standing. destruct (is_agent (interface p)) eqn:Ha; cbn [negb orb]; [|exists UNPLACED; split; [done|by split]].
  case_bool_decide as Hd; [exists UNPLACED; split; [done|by split]|].
  unfold try, reading, readable, mbind, M_bind, mret, M_ret. destruct (among "AgentDevice" (db_unreadable db)) eqn:Hu; cbn.
  - exists BLOCKED. split; [done|]. split; [done|]. intros H. by destruct (H eq_refl Hd).
  - eexists. split; [done|]. destruct (head (rows_of p db)) as [row|]; cbn.
    + destruct (ad_blocked_at row) eqn:Hb, (is_some (ad_approved_at row)) eqn:Hap; cbn; split; try done; intros H.
      * destruct (H eq_refl Hd) as (_ & r & [= <-] & ? & _). congruence.
      * destruct (H eq_refl Hd) as (_ & r & [= <-] & ? & _). congruence.
      * intros _ _. split; [done|]. by exists row.
      * destruct (H eq_refl Hd) as (_ & r & [= <-] & _ & ?). congruence.
    + split; [done|]. intros H. by destruct (H eq_refl Hd) as (_ & r & ? & _).
Qed.

Definition paused_now (db : Db) : bool := match db_agent_access db with Some r => aa_paused r | None => false end.

Lemma paused_interfaces_answers db :
  exists l, paused_interfaces db = (Ok l, db) /\
  ((readable "AgentAccess" db /\ paused_now db = false /\ l = []) \/ (~ (readable "AgentAccess" db /\ paused_now db = false) /\ l = AGENT_SURFACES)).
Proof.
  unfold paused_interfaces, agents_paused, paused_now, try, reading, readable, mbind, M_bind, mret, M_ret.
  destruct (among "AgentAccess" (db_unreadable db)) eqn:Hu; cbn.
  - eexists. split; [done|]. right. split; [|done]. by intros [? _].
  - destruct (db_agent_access db) as [[[] ? ?]|]; cbn; eexists; (split; [done|]); [right|left..]; try done.
    split; [|done]. by intros [_ ?].
Qed.

Section Properties.
Variables (site_url : string -> string) (agent_policy : string).

Lemma where_answers p db : exists s, where_ site_url agent_policy p db = (Ok s, db).
Proof.
  unfold where_, try, reading, mbind, M_bind, mret, M_ret.
  destruct (among "AgentDevice" (db_unreadable db)); cbn; eauto.
Qed.

(** The one question both doors ask never raises and never writes, and it lets a
    caller through exactly when no person has stopped it and every table that
    would say so can be read: a token whose client is not blocked as its person,
    an agent whose device is approved and not blocked, and agents not paused.  An
    unreadable table refuses. *)
Theorem brake_lets_through (p : Principal) (db : Db) :
  exists r, brake site_url agent_policy p db = (Ok r, db) /\
  (r = None <->
   (interface p ∈ TOKEN_INTERFACES -> readable "AgentIdentity" db /\ ~ block_stands p db) /\
   (is_agent (interface p) = true -> device p <> "" -> readable "AgentDevice" db /\
      exists row, head (rows_of p db) = Some row /\ ad_blocked_at row = None /\ is_some (ad_approved_at row) = true) /\
   (is_agent (interface p) = true -> readable "AgentAccess" db /\ paused_now db = false)).
Proof.
  destruct (blocked_answers p db) as (b & Hb & Hbspec), (standing_answers p db) as (s & Hs & Hsspec),
    (paused_interfaces_answers db) as (l & Hl & Hlspec), (where_answers p db) as (w & Hw).
  assert (exists b', (if among (interface p) TOKEN_INTERFACES then blocked p else mret false) db = (Ok b', db) /\
    (b' = false <-> (interface p ∈ TOKEN_INTERFACES -> readable "AgentIdentity" db /\ ~ block_stands p db))) as (b' & Hb' & Hb'spec).
  { destruct (among (interface p) TOKEN_INTERFACES) eqn:Ht.
    - apply among_spec in Ht. exists b. split; [done|]. rewrite Hbspec. tauto.
    - exists false. split; [done|]. split; [|done]. intros _ Hin%among_spec. congruence. }
  unfold brake. rewrite (bind_step _ _ _ _ _ Hb'). destruct b'.
  { eexists. split; [done|]. split; [done|]. intros (H & _). apply Hb'spec in H. done. }
  rewrite (bind_step _ _ _ _ _ Hs). destruct (device_refusal s) eqn:Hd.
  { rewrite (bind_step _ _ _ _ _ Hw). eexists. split; [done|]. split; [done|]. intros (_ & H & _). apply Hsspec in H. done. }
  rewrite (bind_step _ _ _ _ _ Hl). eexists. split; [done|].
  rewrite <- Hb'spec, <- Hsspec. unfold is_agent.
  destruct Hlspec as [(Hr & Hp & ->)|[Hn ->]].
  - cbn. tauto.
  - destruct (among (interface p) AGENT_SURFACES); [|by split]. split; [done|]. intros (_ & _ & H). by destruct Hn, H.
Qed.
End Properties.

(** * What every act on agents keeps *)

(** The rows agents are answered from are well formed: each under its own key,
    each device of an identity there is, and every act a person took dated. *)
Record agents_ok (db : Db) : Prop := {
  ao_devices : devices_ok db;
  ao_keyed : keyed db;
  ao_known : forall d, d ∈ db_devices db -> is_Some (db_identities db !! ad_identity d);
  ao_dated : forall k r, db_identities db !! k = Some r -> is_some (ai_blocked_by r) = true -> is_some (ai_blocked_at r) = true;
}.

(** One act: an agent's call observed, or a person's change to its brakes. *)
Inductive agent_act : Type :=
| Observe (now : Z) (p : Principal) (placed : option Device)
| ApproveDevice (now : Z) (approving : bool) (p : Principal) (key : string)
| BlockDevice (now : Z) (blocking : bool) (p : Principal) (key : string)
| PauseAgents (now : Z) (paused : bool) (p : Principal)
| BlockAgent (now : Z) (blocking : bool) (p : Principal) (subject : string)
| RemoveAgent (now : Z) (p : Principal) (subject : string).

Definition perform (a : agent_act) (db : Db) : Db :=
  match a with
  | Observe now p placed => (observe now p placed db).2
  | ApproveDevice now b p key => (set_device_approved now b p key db).2
  | BlockDevice now b p key => (set_device_blocked now b p key db).2
  | PauseAgents now b p => (set_agents_paused now b p db).2
  | BlockAgent now b p subject => (set_agent_blocked now b p subject db).2
  | RemoveAgent now p subject => (remove_agent now p subject db).2
  end.

Definition perform_all (acts : list agent_act) (db : Db) : Db := fold_left (fun db a => perform a db) acts db.

(** A person allowing a blocked agent again. *)
Definition allows (a : agent_act) : Prop :=
  match a with BlockAgent _ false _ _ => True | _ => False end.

(** What [step] leaves of every identity's block, when it allows nobody. *)
Definition blocks_kept (db db' : Db) : Prop :=
  forall k r, db_identities db !! k = Some r -> is_some (ai_blocked_at r) = true ->
  exists r', db_identities db' !! k = Some r' /\ is_some (ai_blocked_at r') = true.

Lemma device_step_agents db db' :
  device_step None db db' -> agents_ok db -> agents_ok db' /\ db_identities db' = db_identities db.
Proof.
  intros H [Hd Hk Hf Ht]. destruct (H Hd) as (Hd' & Hi & Hfk). split; [|done].
  constructor; [done|unfold keyed; by rewrite Hi| |by rewrite Hi].
  intros d [(d0 & Hin & ->)|?]%Hfk; [|done]. rewrite Hi. by apply Hf.
Qed.

Lemma observed_agents db db' :
  observed db db' -> agents_ok db -> agents_ok db' /\ blocks_kept db db'.
Proof.
  intros [Hdev Hkey Hold Hnew Hids] [[Hu Hp Hb Hdt] Hk Hf Ht]. split; [constructor|].
  - constructor; rewrite Hdev; try done. intros r Hr%Hb. lia.
  - by apply Hkey.
  - rewrite Hdev. intros d Hd. destruct (Hf _ Hd) as [r Hr]. destruct (Hold _ _ Hr) as (r' & ? & _). eauto.
  - intros k r' Hr' Hby. destruct (Hnew _ _ Hr') as [Hz|(r & Hr & E)].
    + injection Hz as Ha Hb'. by rewrite Hb' in Hby.
    + injection E as Ha Hb'. rewrite Ha. apply (Ht _ _ Hr). by rewrite <- Hb'.
  - intros k r Hr Hbl. destruct (Hold _ _ Hr) as (r' & ? & E). exists r'. split; [done|]. unfold brake_of in E. congruence.
Qed.

Lemma observe_agents now p placed db :
  agents_ok db -> agents_ok (observe now p placed db).2 /\ blocks_kept db (observe now p placed db).2.
Proof.
  intros Hok. unfold observe. case_decide as Hg; [split; [done|intros k r; eauto]|].
  destruct (try _ _ db) as [o db'] eqn:H. cbn [snd].
  assert (exists db1 seen, observed db db1 /\ (db' = db1 \/ (is_Some (db_identities db1 !! identity_key seen) /\
    device_step (Some (identity_key seen)) db1 db'))) as (db1 & seen & Hob & Hd).
  { assert (forall o1 db1, (observe_identity now p ≫= (fun seen =>
       match placed with
       | Some d => if is_agent (interface p) && (is_some seen.2 || bool_decide (person_key p = ""))
                   then observe_device now seen.1 seen.2 d (interface p) else mret tt
       | None => mret tt end)) db = (o1, db1) ->
      exists db2 seen, observed db db2 /\ (db1 = db2 \/ (is_Some (db_identities db2 !! identity_key seen) /\
        device_step (Some (identity_key seen)) db2 db1))) as Hrun.
    { clear -Hok. intros o1 db1 [(s & db2 & Hs & H)|(e & Hs & ->)]%bind_inv;
        apply observe_identity_observed in Hs as [Hob Hin]; try apply (ao_keyed _ Hok).
      - specialize (Hin _ eq_refl). exists db2, s.1. split; [done|]. run_all; try by left.
        right. split; [done|]. by eapply observe_device_step.
      - exists db1, (mkAgentIdentity "" "" [] [] 0 0 "" None None None). split; [done|by left]. }
    apply try_inv in H as [(a & H & ->)|(e & db3 & H & Hh)]; apply Hrun in H as (db2 & s & ? & ?); [by eauto|].
    run. by eauto. }
  destruct (observed_agents _ _ Hob Hok) as [Hok1 Hbk]. destruct Hd as [->|[Hin Hst]]; [done|].
  destruct Hok1 as [Hd1 Hk1 Hf1 Ht1]. destruct (Hst Hd1) as (Hd' & Hi & Hfk). split.
  - constructor; [done|unfold keyed; by rewrite Hi| |by rewrite Hi]. rewrite Hi.
    intros d [(d0 & ? & ->)|[= <-]]%Hfk; [by apply Hf1|done].
  - unfold blocks_kept. rewrite Hi. exact Hbk.
Qed.

Lemma agents_frame db db' :
  db_devices db' = db_devices db -> db_identities db' = db_identities db -> (db_next_id db <= db_next_id db')%N ->
  agents_ok db -> agents_ok db' /\ blocks_kept db db'.
Proof.
  intros Hd Hi Hn [[Hu Hp Hb Hdt] Hk Hf Ht]. split; [constructor|].
  - constructor; rewrite Hd; try done. intros r Hr%Hb. lia.
  - unfold keyed. by rewrite Hi.
  - rewrite Hd, Hi. done.
  - by rewrite Hi.
  - intros k r. rewrite Hi. eauto.
Qed.

Lemma record_event_agents required now e db o db' :
  record_event required now e db = (o, db') ->
  db_devices db' = db_devices db /\ db_identities db' = db_identities db /\ (db_next_id db <= db_next_id db')%N.
Proof. unfold record_event. destruct (db_audit_down db), required; intros; simplify_eq/=; split_and!; try done; lia. Qed.

Lemma set_agents_paused_agents now b p db :
  agents_ok db -> agents_ok (set_agents_paused now b p db).2 /\ blocks_kept db (set_agents_paused now b p db).2.
Proof.
  intros Hok. destruct (set_agents_paused now b p db) as [o db'] eqn:H. cbn [snd].
  unfold set_agents_paused in H. run_all;
    repeat match goal with
    | H : person _ _ = _ |- _ => apply person_state in H; simplify_eq
    | H : record_event _ _ _ _ = _ |- _ => apply record_event_agents in H as (? & ? & ?)
    end; (apply agents_frame; try done; cbn; lia).
Qed.

Lemma identity_of_in subject db r :
  keyed db -> identity_of subject db = Some r -> db_identities db !! identity_key r = Some r.
Proof.
  intros Hk. unfold identity_of. intros H. apply head_Some_elem_of in H. apply list_elem_of_omap in H as (k & _ & Hr).
  by rewrite (Hk _ _ Hr).
Qed.

Lemma save_identity_agents db r row :
  agents_ok db -> db_identities db !! identity_key row = Some r ->
  (is_some (ai_blocked_by row) = true -> is_some (ai_blocked_at row) = true) ->
  agents_ok (set_db_identities (<[identity_key row := row]> (db_identities db)) db).
Proof.
  intros [Hd Hk Hf Ht] Hr Hrow. constructor.
  - by destruct Hd.
  - intros k x Hx. cbn in Hx. apply lookup_insert_Some in Hx as [[<- <-]|[_ Hx]]; [done|by apply Hk].
  - cbn. intros d [x Hx]%Hf. destruct (decide (ad_identity d = identity_key row)) as [->|Hne];
      [rewrite lookup_insert_eq|rewrite lookup_insert_ne by done]; eauto.
  - cbn. intros k x Hx. apply lookup_insert_Some in Hx as [[<- <-]|[_ Hx]]; [done|by eapply Ht].
Qed.

Lemma set_agent_blocked_agents now b p subject db :
  agents_ok db -> agents_ok (set_agent_blocked now b p subject db).2 /\
  (b = true -> blocks_kept db (set_agent_blocked now b p subject db).2).
Proof.
  intros Hok. assert (blocks_kept db db) as Hrefl by (intros k r; eauto).
  destruct (set_agent_blocked now b p subject db) as [o db'] eqn:H. cbn [snd].
  unfold set_agent_blocked, save_identity in H. run_all;
    repeat match goal with H : person _ _ = _ |- _ => apply person_state in H; simplify_eq end; try done.
  match goal with H : identity_of _ _ = Some ?r |- _ => apply identity_of_in in H; [|apply (ao_keyed _ Hok)]; rename H into Hin, r into row end.
  match goal with H : record_event _ _ _ _ = _ |- _ => apply record_event_agents in H as (Hdv & Hid & Hn) end.
  set (row' := set_ai_blocked_by _ _) in *.
  assert (agents_ok (set_db_identities (<[identity_key row' := row']> (db_identities db)) db)) as Hsaved.
  { eapply (save_identity_agents _ row); [done..|]. by destruct b. }
  cbn in Hdv, Hid, Hn. edestruct agents_frame as [Hok' _]; [| | |exact Hsaved|split; [exact Hok'|]]; cbn; [done..|].
  intros -> k r Hr Hb. rewrite Hid. change (identity_key row') with (identity_key row).
  destruct (decide (k = identity_key row)) as [->|Hne].
  - rewrite lookup_insert_eq. by exists row'.
  - rewrite lookup_insert_ne by done. eauto.
Qed.

Lemma remove_agent_agents now p subject db :
  agents_ok db -> agents_ok (remove_agent now p subject db).2 /\ blocks_kept db (remove_agent now p subject db).2.
Proof.
  intros Hok. assert (blocks_kept db db) as Hrefl by (intros k r; eauto).
  destruct (remove_agent now p subject db) as [o db'] eqn:H. cbn [snd].
  unfold remove_agent in H. run_all;
    repeat match goal with H : person _ _ = _ |- _ => apply person_state in H; simplify_eq end; try done.
  match goal with H : identity_of _ _ = Some ?r |- _ => apply identity_of_in in H; [|apply (ao_keyed _ Hok)]; rename H into Hin, r into row end.
  match goal with H : record_event _ _ _ _ = _ |- _ => apply record_event_agents in H as (Hdv & Hid & Hn) end.
  cbn in Hdv, Hid, Hn. destruct Hok as [[Hu Hp Hb Hdt] Hk Hf Ht]. split; [constructor|].
  - assert (forall B (g : AgentDevice -> B), NoDup (map g (db_devices db)) ->
      NoDup (map g (delete_where (fun d => bool_decide (ad_identity d = identity_key row)) (db_devices db)))) as Hsub.
    { intros B g. generalize (db_devices db). clear. intros l. induction l as [|x l IH]; cbn; [done|].
      intros [Hx Hnd]%NoDup_cons. destruct (negb _); cbn; [|by apply IH]. apply NoDup_cons. split; [|by apply IH].
      intros (y & ? & Hy)%list_elem_of_fmap. apply elem_of_delete_where in Hy as [Hy _]. apply Hx.
      apply list_elem_of_fmap. eauto. }
    constructor; cbn; rewrite Hdv; [by apply Hsub|by apply Hsub| |].
    + intros r [Hr%Hb _]%elem_of_delete_where. lia.
    + intros r [Hr _]%elem_of_delete_where. by apply Hdt.
  - unfold keyed. cbn. rewrite Hid. intros k r [_ Hr]%lookup_delete_Some. by apply Hk.
  - cbn. rewrite Hid, Hdv. intros d [Hd Hne%bool_decide_eq_false]%elem_of_delete_where.
    rewrite lookup_delete_ne by congruence. by apply Hf.
  - cbn. rewrite Hid. intros k r [_ Hr]%lookup_delete_Some. by eapply Ht.
  - intros k r Hr Hbl. cbn. rewrite Hid. destruct (decide (k = identity_key row)) as [->|Hne].
    + rewrite Hin in Hr. simplify_eq. congruence.
    + rewrite lookup_delete_ne by done. eauto.
Qed.

Lemma perform_agents a db :
  agents_ok db -> agents_ok (perform a db) /\ (~ allows a -> blocks_kept db (perform a db)).
Proof.
  intros Hok. destruct a as [now p placed|now b p key|now b p key|now b p|now b p s|now p s]; cbn [perform allows].
  - by destruct (observe_agents now p placed db Hok).
  - destruct (set_device_approved now b p key db) as [o db'] eqn:H.
    destruct (device_step_agents _ _ (set_device_approved_step _ _ _ _ _ _ _ H) Hok) as [? Hi].
    split; [done|]. intros _ k r. cbn. rewrite Hi. eauto.
  - destruct (set_device_blocked now b p key db) as [o db'] eqn:H.
    destruct (device_step_agents _ _ (set_device_blocked_step _ _ _ _ _ _ _ H) Hok) as [? Hi].
    split; [done|]. intros _ k r. cbn. rewrite Hi. eauto.
  - by destruct (set_agents_paused_agents now b p db Hok).
  - destruct (set_agent_blocked_agents now b p s db Hok) as [? Hb]. split; [done|]. destruct b; [by auto|by intros []].
  - by destruct (remove_agent_agents now p s db Hok).
Qed.

(** However agents call and whatever people set, the rows agents are answered from
    stay well formed: no orphaned device, no key twice, no undated decision. *)
Theorem agents_stay_ok (acts : list agent_act) (db : Db) :
  agents_ok db -> agents_ok (perform_all acts db).
Proof.
  revert db. induction acts as [|a acts IH]; intros db Hok; [done|]. cbn. apply IH. by apply perform_agents.
Qed.

(** A block ends one way: whatever the agent calls, from whichever device, and
    whoever approves, pauses or tries to remove it, a blocked client stays
    refused on every surface until a person allows it. *)
Theorem block_ends_by_allowing (site_url : string -> string) (agent_policy : string) (acts : list agent_act) (db : Db)
    (p : Principal) (r : AgentIdentity) :
  agents_ok db -> db_identities db !! (actor p, person_key p) = Some r -> is_some (ai_blocked_at r) = true ->
  interface p ∈ TOKEN_INTERFACES -> Forall (fun a => ~ allows a) acts ->
  let db' := perform_all acts db in
  brake site_url agent_policy p db' = (Ok (Some AGENT_BLOCKED), db').
Proof.
  intros Hok Hr Hb Hi Hacts db'.
  assert (exists r', db_identities db' !! (actor p, person_key p) = Some r' /\ is_some (ai_blocked_at r') = true /\ keyed db') as (r' & Hr' & Hb' & Hk).
  { subst db'. revert db r Hok Hr Hb. induction Hacts as [|a acts Ha Hacts IH]; intros db r Hok Hr Hb.
    - exists r. split_and!; [done..|]. apply (ao_keyed _ Hok).
    - destruct (perform_agents a db Hok) as [Hok' Hkept]. destruct (Hkept Ha _ _ Hr Hb) as (r' & ? & ?). cbn. by eapply IH. }
  destruct (blocked_answers p db') as (b & Hbl & Hspec).
  assert (b = true) as ->.
  { apply not_false_iff_true. intros Hf. apply Hspec in Hf as [_ Hf]. apply Hf. pose proof (Hk _ _ Hr') as Hkey.
    exists (actor p, person_key p), r'. injection Hkey as ? ?. done. }
  unfold brake. rewrite (proj2 (among_spec _ _) Hi). by rewrite (bind_step _ _ _ _ _ Hbl).
Qed.

(** A person's act on agents, and who takes it. *)
Definition act_of (a : agent_act) : option (Principal * M exn Db json) :=
  match a with
  | Observe _ _ _ => None
  | ApproveDevice now b p key => Some (p, set_device_approved now b p key)
  | BlockDevice now b p key => Some (p, set_device_blocked now b p key)
  | PauseAgents now b p => Some (p, set_agents_paused now b p)
  | BlockAgent now b p subject => Some (p, set_agent_blocked now b p subject)
  | RemoveAgent now p subject => Some (p, remove_agent now p subject)
  end.

(** Nothing an agent is answered from moved. *)
Definition brakes_unchanged (db db' : Db) : Prop :=
  db_audit db' = db_audit db /\ db_devices db' = db_devices db /\ db_identities db' = db_identities db /\
  db_rules db' = db_rules db /\ paused_now db' = paused_now db.

(** A person's change to the brakes is whole: refused, it leaves everything as it
    was; done, either nothing moved or exactly one row of the log names the
    signed-in person who moved it.  Where the log cannot be written, nothing is. *)
Theorem act_on_agents_is_audited (a : agent_act) (p : Principal) (m : M exn Db json) (db db' : Db) (o : outcome exn json) :
  act_of a = Some (p, m) -> m db = (o, db') ->
  match o with
  | Raise _ => db' = db
  | Ok _ => brakes_unchanged db db' \/
      exists row u, db_audit db' = (db_audit db ++ [row])%list /\ person_of p db = Some u /\ al_user row = Some (us_pk u)
  end.
Proof.
  intros Ha H.
  destruct a; cbn in Ha; simplify_eq;
    unfold set_device_approved, set_device_blocked, set_agents_paused, set_agent_blocked, remove_agent,
      save_device, save_identity, record_device in H;
    run_all;
    repeat match goal with
    | H : person _ _ = (Raise _, _) |- _ => apply person_state in H
    | H : person _ _ = (Ok _, _) |- _ => apply person_inv in H as (-> & _ & ?)
    | H : locked_device _ _ = (_, _) |- _ => apply locked_device_inv in H as [-> _]
    | H : record_event true _ _ _ = (Ok _, _) |- _ => apply record_event_required in H as (? & ? & ? & _)
    end; try done; try (by left); try (right; do 2 eexists; split_and!; cbn; [eassumption|eassumption|done]).
  left. unfold brakes_unchanged, paused_now. cbn. split_and!; try done. by destruct (db_agent_access db).
Qed.

(** A device is approved for an agent by one person at most: the one whose sign-in its
    calls come through, or, for a machine's own agent, any person who governs agents. *)
Theorem device_is_approved_by_its_person (now : Z) (b : bool) (p : Principal) (key : string) (db db' : Db) (o : outcome exn json) (d : AgentDevice) :
  set_device_approved now b p key db = (o, db') -> d ∈ db_devices db' -> is_some (ad_approved_at d) = true ->
  d ∈ db_devices db \/
  exists u, person_of p db = Some u /\ ad_approved_by d = Some (us_pk u) /\ (ad_person d = None \/ ad_person d = Some (us_pk u)).
Proof.
  intros H Hd Hap. unfold set_device_approved, save_device, record_device in H. run_all;
    repeat match goal with
    | H : person _ _ = (Raise _, _) |- _ => apply person_state in H; simplify_eq
    | H : person _ _ = (Ok _, _) |- _ => apply person_inv in H as (? & _ & ?); simplify_eq
    | H : locked_device _ _ = (_, _) |- _ => apply locked_device_inv in H as [? _]; simplify_eq
    end; try (by left).
  match goal with H : record_event _ _ _ _ = _ |- _ => apply record_event_inv in H as (_ & _ & _ & _ & Hdv & _) end.
  rewrite Hdv in Hd. cbn in Hd. apply elem_of_update_where in Hd as (r & Hr & ->). case_bool_decide; [|by left].
  destruct b; [|done]. right. eexists. split_and!; [done|done|]. cbn.
  match goal with H : match ad_person ?r with _ => _ end = false |- _ => destruct (ad_person r) as [k|]; [|by left] end.
  right. match goal with H : negb _ = false |- _ => apply negb_false_iff, bool_decide_eq_true in H; by subst end.
Qed.

Definition a_person : User := mkUser 7 "ada" "9f2c" "operator".
Definition ada : Principal := principal_of "ada" WEB_INTERFACE {[ GOVERN_AGENTS ]}.
Definition their_bot : Principal := mkPrincipal "bot" MCP_INTERFACE {[ READ ]} "" {[ READ ]} "9f2c" ∅ "n1".
Definition laptop : Device := mkDevice "n1" "laptop" "linux" "ada@example".
Definition one_person_db : Db := set_db_users [a_person] empty_db.
Definition bot_seen_db : Db := perform (Observe 0 their_bot (Some laptop)) one_person_db.
Definition bot_blocked_db : Db := perform (BlockAgent 5 true ada "bot@9f2c") bot_seen_db.

Lemma one_person_ok : agents_ok one_person_db.
Proof.
  constructor; [constructor|..]; cbn; try by constructor.
  - intros r Hr. by apply elem_of_nil in Hr.
  - intros r Hr. by apply elem_of_nil in Hr.
  - intros k r Hr. change (db_identities one_person_db) with (∅ : gmap (string * string) AgentIdentity) in Hr. by rewrite lookup_empty in Hr.
  - intros r Hr. by apply elem_of_nil in Hr.
  - intros k r Hr. change (db_identities one_person_db) with (∅ : gmap (string * string) AgentIdentity) in Hr. by rewrite lookup_empty in Hr.
Qed.

Lemma agents_stay_ok_witness :
  agents_ok (perform_all [Observe 0 their_bot (Some laptop); ApproveDevice 3 true ada "0"; RemoveAgent 4 ada "bot@9f2c"] one_person_db).
Proof. apply agents_stay_ok, one_person_ok. Defined.

Lemma block_ends_by_allowing_witness :
  let acts := [Observe 9 their_bot (Some laptop); ApproveDevice 9 true ada "2"; RemoveAgent 10 ada "bot@9f2c"] in
  let db' := perform_all acts bot_blocked_db in
  length (db_devices db') = 1%nat /\
  brake (fun s => s) "/agents/" their_bot db' = (Ok (Some AGENT_BLOCKED), db').
Proof.
  split; [vm_compute; reflexivity|].
  assert (exists r, db_identities bot_blocked_db !! (actor their_bot, person_key their_bot) = Some r /\ is_some (ai_blocked_at r) = true)
    as (r & Hr & Hb) by (eexists; split; [vm_compute; reflexivity|reflexivity]).
  apply (block_ends_by_allowing (fun s => s) "/agents/" _ bot_blocked_db their_bot r); [|exact Hr|exact Hb| |].
  - unfold bot_blocked_db, bot_seen_db. by apply perform_agents, perform_agents, one_person_ok.
  - apply among_spec. reflexivity.
  - rewrite !Forall_cons. split_and!; [by intros []..|by apply Forall_nil_2].
Defined.

Lemma act_on_agents_is_audited_witness :
  act_of (BlockAgent 5 true ada "bot@9f2c") = Some (ada, set_agent_blocked 5 true ada "bot@9f2c") /\
  exists row u, db_audit bot_blocked_db = (db_audit bot_seen_db ++ [row])%list /\ person_of ada bot_seen_db = Some u /\ al_user row = Some (us_pk u).
Proof.
  split; [reflexivity|].
  destruct (set_agent_blocked 5 true ada "bot@9f2c" bot_seen_db) as [o db'] eqn:H.
  pose proof (act_on_agents_is_audited (BlockAgent 5 true ada "bot@9f2c") ada _ _ _ _ eq_refl H) as Hth.
  assert (db' = bot_blocked_db) as -> by exact (eq_sym (f_equal snd H)).
  destruct o as [j|e]; [destruct Hth as [(Hau & _)|Hth]; [exfalso|exact Hth]|exfalso].
  - apply (f_equal (@length AuditLog)) in Hau. vm_compute in Hau. discriminate Hau.
  - apply (f_equal (fun d => length (db_audit d))) in Hth. vm_compute in Hth. discriminate Hth.
Defined.

Lemma device_is_approved_by_its_person_witness :
  let db' := perform (ApproveDevice 3 true ada "1") bot_seen_db in
  exists d u, head (db_devices db') = Some d /\ person_of ada bot_seen_db = Some u /\
    ad_approved_by d = Some (us_pk u) /\ (ad_person d = None \/ ad_person d = Some (us_pk u)).
Proof.
  destruct (set_device_approved 3 true ada "1" bot_seen_db) as [o db'] eqn:H.
  cbn [perform]. rewrite H. cbn [snd].
  destruct (head (db_devices db')) as [d|] eqn:Hd.
  2: { apply (f_equal snd) in H. cbn in H. subst db'. vm_compute in Hd. discriminate Hd. }
  assert (is_some (ad_approved_at d) = true /\ ~ (d ∈ db_devices bot_seen_db)) as [Hap Hnew].
  { apply (f_equal snd) in H. cbn [snd] in H. subst db'. vm_compute in Hd. injection Hd as <-. split; [reflexivity|].
    intros Hin. vm_compute in Hin. apply list_elem_of_singleton in Hin. discriminate Hin. }
  apply head_Some_elem_of in Hd as Hin.
  destruct (device_is_approved_by_its_person 3 true ada "1" bot_seen_db db' o d H Hin Hap) as [Hold|(u & Hu & Hby & Hp)]; [done|].
  exists d, u. done.
Defined.
