(* ===== verification/Specs.v ===== *)
(** What a deployment composes: its capabilities, its providers and its settings
    ([integration_specs.py], [providers.py], [config/settings.py]).

    A [CapabilitySpec] carries the handler it registers and the validator its
    command type is; both are the deployment's, so every theorem holds for any of
    them.  [Site] gathers what the use cases read of the deployment. *)
From stdpp Require Import base gmap strings list pretty.
From Stdlib Require Import Ascii ZArith Lia.
From S2P Require Import Prelude PyStr Json Refusals Security Models.

#[local] Open Scope string_scope.

(** A call's target: [str | int]. *)
Inductive Target : Type := TText (s : string) | TNumber (z : Z).

#[export] Instance Target_eq_dec : EqDecision Target.
Proof. solve_decision. Defined.

(** [str(target)] *)
Definition target_str (t : Target) : string := match t with TText s => s | TNumber z => pretty z end.

(** ["" if target is None else str(target)] *)
Definition target_text (t : option Target) : string := match t with Some t => target_str t | None => "" end.

Definition target_json (t : option Target) : json :=
  match t with None => JNull | Some (TText s) => JStr s | Some (TNumber z) => JNum z end.

(** What a handler is called with. *)
Record Call : Type := mkCall {
  cl_command : json;
  cl_principal : Principal;
  cl_target : option (string * Target);        (* the keyword its target kind binds, and the target coerced *)
  cl_expected_updated_at : option (option string);  (* handed only to a handler that declares it *)
  cl_sent : option (list string);              (* handed only to a handler that declares it *)
  cl_now : Z;
}.

(** [CapabilitySpec], and what its command type and handler declare. *)
Record CapabilitySpec : Type := mkCapabilitySpec {
  sp_name : string;
  sp_title : string;
  sp_effect : string;
  sp_required_capabilities : list string;
  sp_target_kind : string;                     (* empty for none *)
  sp_subject_resource : string;                (* empty for none *)
  sp_fields : list string;                     (* capability_fields(spec) *)
  sp_declares_idempotency_key : bool;          (* declares_idempotency_key(command_type) *)
  sp_takes_stale_write_token : bool;           (* takes_stale_write_token(handler) *)
  sp_takes_sent_fields : bool;                 (* takes_sent_fields(handler) *)
  sp_kept : option (Target -> Db -> outcome exn dict);  (* kept_by(spec).read *)
  sp_validate : dict -> outcome exn json;      (* command_adapter(command_type).validate_python *)
  sp_handler : Call -> M exn Db dict;          (* handler, as dict(result) *)
}.

Definition READ_EFFECT := "read".
Definition DESTRUCTIVE_EFFECT := "destructive".
Definition DECLARATIONS := "infrastructure".

(** [TargetKind.keyword] of [TARGET_KINDS]. *)
Definition target_keyword_name (kind : string) : option string :=
  if decide (kind = "slug") then Some "current_slug"
  else if decide (kind = "doc_id") then Some "current_doc_id"
  else if decide (kind = "integer") then Some "current_id"
  else if decide (kind = "key") then Some "current_key"
  else None.

(** A provider's declaration of one kind. *)
Record Provider : Type := mkProvider {
  pv_requires_approval : bool;
  pv_public_effect : bool;
  pv_declaration_only : bool;
}.

Record Site : Type := mkSite {
  h_deployment : Deployment;
  h_capabilities : list CapabilitySpec;                   (* integration_graph().capabilities.values() *)
  h_resources : list string;                              (* integration_graph().resources *)
  h_providers : string -> option Provider;                (* PROVIDERS.get *)
  h_record_spec : string -> dict -> option dict;          (* providers.record_spec *)
  h_get_resource : string -> Target -> Db -> outcome exn dict;  (* resources.get_resource, read internally *)
  h_sha256 : string -> string;                            (* hashlib.sha256(text.encode()).hexdigest() *)
  h_token : N -> string;                                  (* secrets.token_urlsafe(18) *)
  h_approval_window_hours : Z;                            (* SEVERINO_APPROVAL_WINDOW_HOURS *)
  h_idempotency_ttl_seconds : Z;                          (* SEVERINO_API_IDEMPOTENCY_TTL_SECONDS *)
  h_site_url : string -> string;                          (* hq_self.site_url *)
  h_approval_entry : string -> string;                    (* the route core:approval_entry *)
  h_uuid : string -> option string;                       (* Django's UUIDField.to_python, as text *)
  h_moment : string -> bool;                              (* whether datetime.fromisoformat reads the text *)
  h_envelope_words : string -> option Target -> option string -> string * json;  (* pydantic's words for a call's envelope *)
}.

(** [capability_registry().get(name)] *)
Definition registered (host : Site) (name : string) : option CapabilitySpec :=
  first_where (fun spec => bool_decide (sp_name spec = name)) (h_capabilities host).

(** * Labels ([labels.py]), of names in ASCII as the registry's are *)

Definition ACRONYMS : list string := ["acl"; "api"; "dns"; "hq"; "id"; "mcp"; "npm"; "nws"; "ssh"; "tls"; "url"; "vin"; "vm"].

Definition is_lower (c : ascii) : bool := ((97 <=? code c) && (code c <=? 122))%nat.
Definition is_upper (c : ascii) : bool := ((65 <=? code c) && (code c <=? 90))%nat.
Definition upper_char (c : ascii) : ascii := if is_lower c then ascii_of_nat (code c - 32) else c.

(** [word.upper()] *)
Fixpoint upper (s : string) : string :=
  match s with "" => "" | String c r => String (upper_char c) (upper r) end.

(** [word.title()]: a letter after a letter is small, any other a capital. *)
Fixpoint title_from (after_letter : bool) (s : string) : string :=
  match s with
  | "" => ""
  | String c r => String (if after_letter then lower_char c else upper_char c) (title_from (is_lower c || is_upper c) r)
  end.

(** [text.split()] *)
Definition words (s : string) : list string :=
  List.filter (fun w => negb (bool_decide (w = ""))) (split_on " "%char s).

(** [human_label(name)] *)
Definition human_label (name : string) : string :=
  join " " (map (fun w => if among w ACRONYMS then upper w else title_from false w)
    (words (replace_char "_"%char " " (replace_char "."%char " " name)))).

Example human_label_reads : human_label "tls.certificate" = "TLS Certificate" /\ human_label "cloudflare_dns" = "Cloudflare DNS".
Proof. by split. Qed.

(** [capability_title(name)] *)
Definition capability_title (host : Site) (name : string) : string :=
  match registered host name with Some spec => sp_title spec | None => human_label name end.

(** [item_name(item)] *)
Fixpoint first_name (fields : list string) (item : dict) : string :=
  match fields with
  | [] => ""
  | f :: fs =>
      match dget f item with
      | Some (JStr c) => if decide (strip c = "") then first_name fs item else strip c
      | _ => first_name fs item
      end
  end.

Definition item_name (item : dict) : string := first_name ["name"; "title"; "label"; "item_name"; "item"] item.

(** [is_destructive(spec, command)]: by its effect, or by what it asks for. *)
Definition DELETING_FLAGS : list string := ["prune_orphans"].

Definition is_destructive (spec : CapabilitySpec) (command : json) : bool :=
  bool_decide (sp_effect spec = DESTRUCTIVE_EFFECT) ||
  existsb (fun flag => bool_decide (attr flag command = Some (JBool true))) DELETING_FLAGS.

Lemma registered_name host name spec : registered host name = Some spec -> sp_name spec = name.
Proof. unfold registered. intros [_ H]%first_where_some. by apply bool_decide_eq_true in H. Qed.

(** * A small deployment to evaluate on *)

(** Removes a contact: a change with a target, which asks the controller once it has. *)
Definition demo_spec : CapabilitySpec := mkCapabilitySpec "contacts.remove" "Remove a contact" DESTRUCTIVE_EFFECT
  [MANAGE_CONTACTS] "key" "" ["reason"] false false false None
  (fun d => Ok (JObj d))
  (fun c => _ ← on_commit RingDoorbell; mret [("ok", JBool true); ("removed", JBool true)]).

(** Decides a held request: what an agent can never hold. *)
Definition demo_decide : CapabilitySpec := mkCapabilitySpec "approval.approve" "Approve" "remote_write"
  [DECIDE_APPROVALS] "" "" ["approval_id"] false false false None (fun d => Ok (JObj d)) (fun c => mret [("ok", JBool true)]).

Definition demo_host : Site := mkSite (mkDeployment ∅ ∅ ∅ ∅) [demo_spec; demo_decide] ["contacts"]
  (fun kind => if decide (kind = "tailnet.policy") then Some (mkProvider true false false) else None)
  (fun _ _ => None) (fun _ _ _ => Ok []) (fun s => s) (fun n => pretty n) 24 86400
  (fun path => "https://hq.example" +:+ path) (fun id => "/approvals/" +:+ id)
  (fun id => if isdigit id then Some id else None) (fun text => negb (bool_decide (text = "")))
  (fun name _ _ => (name +:+ ": target is invalid.", JList [])).
