(* ===== verification/Denials.v ===== *)
(** Refusals recorded in the audit log ([denials.py]): a row for each refusal of a known
    caller, one row a minute for a rejected credential, and one a minute for an agent that
    asks too much, each with its count.

    Times are microseconds: [now] is the wall clock, [mono] the monotonic one. *)
From stdpp Require Import base gmap strings list pretty.
From Stdlib Require Import Ascii ZArith Lia Sorting.Sorted.
From S2P Require Import Prelude PyStr Json Refusals Security Models AuditTrail Specs.

#[local] Open Scope string_scope.

Definition DENIED_LABEL := "Access denied".
Definition COALESCE_WINDOW : Z := 60 * SECOND.

(** U+201C and U+201D, in UTF-8. *)
Definition LEFT_QUOTE : string := String "226"%char (String "128"%char (String "156"%char "")).
Definition RIGHT_QUOTE : string := String "226"%char (String "128"%char (String "157"%char "")).

(** [_device(device)] *)
Definition denied_device (device : string) : dict := if decide (device = "") then [] else [("device", JStr device)].

(** The metadata both kinds of refusal carry. *)
Definition denied_metadata (i a reason capability source : string) (authenticated : bool) (device : string) : dict :=
  ([("interface", JStr i); ("actor", JStr a); ("reason", JStr reason); ("capability", JStr capability);
   ("source", JStr source); ("authenticated", JBool authenticated)] ++ denied_device device)%list.

Section Denials.
Variable host : Site.

(** [_message(reason, actor=..., capability=..., detail=...)] *)
Definition denied_message (reason a capability detail : string) : string :=
  let who := str_or a "An unauthenticated caller" in
  let what := if decide (capability = "") then "" else " " +:+ LEFT_QUOTE +:+ capability_title host capability +:+ RIGHT_QUOTE in
  let because := why reason in
  let said := who +:+ " was refused" +:+ what +:+ (if decide (because = "") then "" else ": " +:+ because) in
  if decide (detail = "") then said else strip (ended said +:+ " " +:+ detail).

(** The row [_coalesce] counts a refusal on. *)
Definition counts_here (now : Z) (i reason source : string) (r : AuditLog) : bool :=
  bool_decide (al_action r = DENIED) && bool_decide (al_object_type r = DENIED_LABEL) &&
  (now - COALESCE_WINDOW <=? al_created_at r)%Z &&
  bool_decide (dget "authenticated" (al_metadata r) = Some (JBool false)) &&
  bool_decide (dget "interface" (al_metadata r) = Some (JStr i)) &&
  bool_decide (dget "reason" (al_metadata r) = Some (JStr reason)) &&
  bool_decide (dget "source" (al_metadata r) = Some (JStr source)).

(** The latest by id, which is the last one written. *)
Definition recent_denial (now : Z) (i reason source : string) (db : Db) : option AuditLog :=
  first_where (counts_here now i reason source) (rev (db_audit db)).

(** [int(metadata.get(COUNT, 1))] *)
Definition counted_so_far (d : dict) : outcome exn Z :=
  match dget COUNT d with
  | None => Ok 1%Z
  | Some (JNum n) => Ok n
  | Some (JBool b) => Ok (if b then 1 else 0)%Z
  | Some (JStr s) => match int_of s with Some n => Ok n | None => Raise (ValueError "invalid literal for int()") end
  | Some _ => Raise (OtherError "TypeError" "int() argument must be a string or a number")
  end.

Definition counted_again (now n : Z) (d : dict) : dict :=
  dset LAST_AT (JStr (isoformat now)) (dset COUNT (JNum (n + 1)) d).

(** [_coalesce(interface, reason, source)] *)
Definition coalesce (now : Z) (i reason source : string) : M exn Db bool :=
  recent ← reading "audit" (recent_denial now i reason source);
  match recent with
  | None => mret false
  | Some row =>
      n ← lift (counted_so_far (al_metadata row));
      _ ← save_metadata row (counted_again now n (al_metadata row));
      mret true
  end.

Definition denied_event (i a reason capability source detail device : string) (authenticated : bool) : Event :=
  mkEvent DENIED DENIED_LABEL "" "" (denied_message reason a capability detail)
    (dset COUNT (JNum 1) (denied_metadata i a reason capability source authenticated device)) None.

(** [record_denial(...)]: recording never blocks the refusal. *)
Definition record_denial (now : Z) (i reason a capability source detail : string) (authenticated : bool) (device : string) : M exn Db unit :=
  try
    (counted ← (if negb authenticated then coalesce now i reason source else mret false : M exn Db bool);
     if counted : bool then mret tt
     else _ ← record_event false now (denied_event i a reason capability source detail device authenticated); mret tt)
    (fun _ => Some (mret tt)).

(** * Asking too much *)

(** [_Window]: one agent's refusals of one kind on one door. *)
Record Window : Type := mkWindow { w_opened : Z; w_count : Z; w_written : Z; w_row : option N }.

#[export] Instance Window_eq_dec : EqDecision Window.
Proof. solve_decision. Defined.

(** What the process counts in memory, beside the database. *)
Record Desk : Type := mkDesk { dk_windows : gmap (string * string * string) Window; dk_db : Db }.

Definition on_db {A} (m : M exn Db A) : M exn Desk A := fun s =>
  let (o, db) := m (dk_db s) in (o, mkDesk (dk_windows s) db).

Definition set_window (key : string * string * string) (w : Window) : M exn Desk unit :=
  modify (fun s => mkDesk (<[key := w]> (dk_windows s)) (dk_db s)).

(** [_write_count(window)] *)
Definition write_count (w : Window) : M exn Db unit :=
  match w_row w with
  | None => mret tt
  | Some id =>
      if (w_count w <=? w_written w)%Z then mret tt
      else
        row ← reading "audit" (audit_row id);
        match row with
        | None => mret tt
        | Some row => save_metadata row (dset COUNT (JNum (w_count w)) (al_metadata row))
        end
  end.

(** Whether [window] still counts at [mono]. *)
Definition open_at (mono : Z) (w : Window) : bool := (mono - w_opened w <? COALESCE_WINDOW)%Z.

(** The part of [record_limited] that opens a new window, closing the one before. *)
Definition open_window (now mono : Z) (i reason a source device : string) (closed : option Window) : M exn Desk unit :=
  let key := (i, a, reason) in
  _ ← set_window key (mkWindow mono 1 0 None);
  wrote ← try
    (_ ← on_db (match closed with Some w => write_count w | None => mret tt end);
     row ← on_db (record_event false now (denied_event i a reason "" source "" device true));
     mret (Some row))
    (fun _ => Some (mret None));
  match wrote with
  | None => mret tt
  | Some None => set_window key (mkWindow mono 1 0 None)
  | Some (Some id) => set_window key (mkWindow mono 1 1 (Some id))
  end.

(** [record_limited(interface=..., reason=..., actor=..., source=..., device=...)] *)
Definition record_limited (now mono : Z) (i reason a source device : string) : M exn Desk unit :=
  window ← gets (fun s => dk_windows s !! (i, a, reason));
  match window with
  | Some w =>
      if open_at mono w then set_window (i, a, reason) (mkWindow (w_opened w) (w_count w + 1) (w_written w) (w_row w))
      else open_window now mono i reason a source device (Some w)
  | None => open_window now mono i reason a source device None
  end.

Definition closed_windows (mono : Z) (a : string) (ws : gmap (string * string * string) Window) : list Window :=
  map snd (List.filter (fun kw => bool_decide (kw.1.1.2 = a) && negb (open_at mono kw.2)) (map_to_list ws)).

(** [settle(actor)] *)
Definition settle_windows (mono : Z) (a : string) : M exn Desk unit :=
  windows ← gets (fun s => closed_windows mono a (dk_windows s));
  _ ← modify (fun s => mkDesk (filter (fun kw => bool_decide (kw.1.1.2 = a) && negb (open_at mono kw.2) = false) (dk_windows s)) (dk_db s));
  for_each (fun w => try (on_db (write_count w)) (fun _ => Some (mret tt))) windows.


(** * What the log says of refusals *)

(** Recording never blocks the refusal, whatever the database answers. *)
Lemma record_denial_answers now i reason a capability source detail authenticated device db :
  (record_denial now i reason a capability source detail authenticated device db).1 = Ok tt.
Proof.
  unfold record_denial, try. match goal with |- context [match ?m with _ => _ end] => destruct m as [[[]|e] db'] end; done.
Qed.

Section Burst.
Variables (i reason source : string).

(** A rejected credential sent at each of [times]. *)
Definition rejected_at (times : list Z) : M exn Db unit :=
  for_each (fun t => record_denial t i reason "" "" source "" false "") times.

(** The row one burst leaves, of [n] refusals, the latest at [t]. *)
Definition burst_row (id : N) (t0 : Z) (n : Z) (t : Z) : AuditLog :=
  mkAuditLog id None DENIED DENIED_LABEL "" "" (denied_message reason "" "" "")
    (let d := dset COUNT (JNum n) (denied_metadata i "" reason "" source false "") in
     if (n =? 1)%Z then d else dset LAST_AT (JStr (isoformat t)) d) t0.

Lemma burst_counts id t0 n t now :
  (now - COALESCE_WINDOW <= t0)%Z -> counts_here now i reason source (burst_row id t0 n t) = true.
Proof.
  intros H. unfold counts_here, burst_row. cbn [al_action al_object_type al_created_at al_metadata].
  rewrite (proj2 (Z.leb_le _ _) H). destruct (n =? 1)%Z; cbn; by rewrite !bool_decide_eq_true_2 by done.
Qed.

Lemma burst_again id t0 n t t' :
  (0 < n)%Z -> counted_again t' n (al_metadata (burst_row id t0 n t)) = al_metadata (burst_row id t0 (n + 1) t').
Proof.
  intros Hn. unfold counted_again, burst_row. cbn [al_metadata]. rewrite (proj2 (Z.eqb_neq (n + 1) 1)) by lia.
  by destruct (n =? 1)%Z.
Qed.

(** What the burst finds before each further refusal. *)
Definition in_burst (base : list AuditLog) (id : N) (t0 n t : Z) (db : Db) : Prop :=
  db_audit db = (base ++ [burst_row id t0 n t])%list /\ db_audit_down db = false /\ among "audit" (db_unreadable db) = false.

Lemma burst_step base id t0 n t t' db :
  (forall r, r ∈ base -> al_id r <> id) -> (0 < n)%Z -> (t' - COALESCE_WINDOW <= t0)%Z ->
  (n = 1%Z \/ String.leb (isoformat t) (isoformat t') = true) -> in_burst base id t0 n t db ->
  exists db', record_denial t' i reason "" "" source "" false "" db = (Ok tt, db') /\ in_burst base id t0 (n + 1) t' db' /\
    db' = set_db_audit (db_audit db') db.
Proof.
  intros Hbase Hn Ht Hclock (Haudit & Hup & Hread).
  assert (recent_denial t' i reason source db = Some (burst_row id t0 n t)) as Hrecent.
  { unfold recent_denial. rewrite Haudit, rev_app_distr. cbn [rev app first_where]. by rewrite burst_counts. }
  assert (counted_so_far (al_metadata (burst_row id t0 n t)) = Ok n) as Hcount.
  { unfold counted_so_far, burst_row. cbn [al_metadata]. by destruct (n =? 1)%Z. }
  eexists. unfold record_denial, try, coalesce, negb. unfold mbind at 1, M_bind at 1. unfold mbind at 1, M_bind at 1. unfold reading. rewrite Hread, Hrecent.
  unfold mbind at 1, M_bind at 1. unfold lift. rewrite Hcount.
  erewrite (bind_step (save_metadata _ _)).
  2: { apply save_metadata_allowed; [done| |done|].
    - unfold audit_row. rewrite Haudit. by apply (find_last base (burst_row id t0 n t)).
    - unfold burst_row. cbn [al_metadata]. destruct (n =? 1)%Z eqn:H1.
      + apply (recounted_both _ n _ ""); [done|lia|done|by destruct (isoformat t')].
      + destruct Hclock as [->|Hclock]; [done|]. apply (recounted_both _ n _ (isoformat t)); [done|lia|done|done]. }
  cbn [mret M_ret]. unfold mret, M_ret. split; [reflexivity|]. split; [|done]. split_and!; [|done|done].
  cbn [db_audit set_db_audit]. rewrite Haudit. rewrite (update_last base (burst_row id t0 n t)) by done. do 2 f_equal.
  rewrite burst_again by done. done.
Qed.

Lemma burst_all base id t0 ts : forall n t db,
  (forall r, r ∈ base -> al_id r <> id) -> (0 < n)%Z -> Forall (fun t' => t' - COALESCE_WINDOW <= t0)%Z ts ->
  Sorted (fun a b => String.leb (isoformat a) (isoformat b) = true) ts ->
  (n = 1%Z \/ HdRel (fun a b => String.leb (isoformat a) (isoformat b) = true) t ts) -> in_burst base id t0 n t db ->
  exists t' db', rejected_at ts db = (Ok tt, db') /\ in_burst base id t0 (n + Z.of_nat (length ts)) t' db'.
Proof.
  induction ts as [|t1 ts IH]; intros n t db Hbase Hn Hwin Hsort Hhd Hin.
  - exists t, db. split; [done|]. by rewrite Z.add_0_r.
  - apply Forall_cons in Hwin as [H1 Hwin]. apply Sorted_inv in Hsort as [Hsort Hhd1].
    destruct (burst_step base id t0 n t t1 db) as (db1 & Hrun & Hin1 & _); [done..| |done|].
    { destruct Hhd as [->|Hhd]; [by left|right]. by apply HdRel_inv in Hhd. }
    destruct (IH (n + 1)%Z t1 db1) as (t' & db' & Hrest & Hin'); [done|lia|done|done|by right|done|].
    exists t', db'. split.
    + unfold rejected_at in *. cbn [for_each]. by rewrite (bind_step _ _ _ _ _ Hrun).
    + replace (n + Z.of_nat (length (t1 :: ts)))%Z with (n + 1 + Z.of_nat (length ts))%Z by (cbn [length]; lia). done.
Qed.
End Burst.

(** A rejected credential proves nothing about its sender: however many one source sends a
    door in a minute, the log gains one row, which counts them all.  The log's triggers
    refuse none of it, and no failure to record reaches the refusal. *)
Theorem refused_credentials_share_a_row (i reason source : string) (t0 : Z) (ts : list Z) (db : Db) :
  db_audit_down db = false -> among "audit" (db_unreadable db) = false -> older_rows db ->
  recent_denial t0 i reason source db = None ->
  Forall (fun t => t - COALESCE_WINDOW <= t0)%Z ts -> Sorted (fun a b => String.leb (isoformat a) (isoformat b) = true) ts ->
  exists row db', rejected_at i reason source (t0 :: ts) db = (Ok tt, db') /\
    db_audit db' = (db_audit db ++ [row])%list /\ al_action row = DENIED /\ al_created_at row = t0 /\
    dget COUNT (al_metadata row) = Some (JNum (1 + Z.of_nat (length ts))) /\
    dget "authenticated" (al_metadata row) = Some (JBool false).
Proof.
  intros Hup Hread Hold Hnone Hwin Hsort. set (id := db_next_id db).
  set (db1 := set_db_next_id (id + 1)%N (set_db_audit (db_audit db ++ [burst_row i reason source id t0 1 t0])%list db)).
  assert (record_denial t0 i reason "" "" source "" false "" db = (Ok tt, db1)) as Hfirst.
  { unfold record_denial, try, coalesce, negb, reading, mbind, M_bind. rewrite Hread, Hnone. cbn [mret M_ret].
    unfold mret, M_ret, record_event. by rewrite Hup. }
  destruct (burst_all i reason source (db_audit db) id t0 ts 1 t0 db1) as (t' & db' & Hrun & Haudit & _); try done.
  { intros r Hr Heq. specialize (Hold r Hr). subst id. lia. }
  { by left. }
  eexists _, db'. split_and!; [|exact Haudit|done|done| |].
  - unfold rejected_at. cbn [for_each]. by rewrite (bind_step _ _ _ _ _ Hfirst).
  - unfold burst_row. cbn [al_metadata]. by destruct (_ =? 1)%Z.
  - unfold burst_row. cbn [al_metadata]. by destruct (_ =? 1)%Z.
Qed.

(** * An agent refused for asking too much *)

Section Limited.
Variables (i reason a source device : string).
Let key : string * string * string := (i, a, reason).

(** The agent refused at each of [times], by the wall clock and the monotonic one. *)
Definition limited_at (times : list (Z * Z)) : M exn Desk unit :=
  for_each (fun t => record_limited t.1 t.2 i reason a source device) times.

Lemma limited_again ts : forall ws db m0 n id,
  ws !! key = Some (mkWindow m0 n 1 (Some id)) -> Forall (fun t => t.2 - m0 < COALESCE_WINDOW)%Z ts ->
  limited_at ts (mkDesk ws db) =
    (Ok tt, mkDesk (<[key := mkWindow m0 (n + Z.of_nat (length ts)) 1 (Some id)]> ws) db).
Proof.
  induction ts as [|[now m] ts IH]; intros ws db m0 n id Hw Hwin.
  - unfold limited_at. cbn. rewrite Z.add_0_r. unfold mret, M_ret. by rewrite insert_id.
  - apply Forall_cons in Hwin as [Hm Hwin]. cbn in Hm. unfold limited_at. cbn [for_each].
    assert (record_limited now m i reason a source device (mkDesk ws db) =
      (Ok tt, mkDesk (<[key := mkWindow m0 (n + 1) 1 (Some id)]> ws) db)) as Hstep.
    { unfold record_limited, mbind, M_bind, gets. cbn [dk_windows]. fold key. rewrite Hw. unfold open_at. cbn [w_opened].
      by rewrite (proj2 (Z.ltb_lt _ _) Hm). }
    cbn [fst snd]. rewrite (bind_step _ _ _ _ _ Hstep).
    change (limited_at ts (mkDesk (<[key := mkWindow m0 (n + 1) 1 (Some id)]> ws) db) =
      (Ok tt, mkDesk (<[key := mkWindow m0 (n + Z.of_nat (length ((now, m) :: ts))) 1 (Some id)]> ws) db)).
    rewrite (IH _ _ m0 (n + 1)%Z id) by (done || by rewrite lookup_insert_eq).
    rewrite insert_insert_eq. do 4 f_equal. cbn [length]. lia.
Qed.

(** What the settling of windows keeps of the row [id] once it counts [n]. *)
Definition row_counts (id : N) (n : Z) (db : Db) : Prop :=
  exists row, audit_row id db = Some row /\ al_id row = id /\ al_action row = DENIED /\ dget COUNT (al_metadata row) = Some (JNum n) /\
    last_at (al_metadata row) <> None.

Lemma audit_row_update id id' f rows : (forall r, al_id (f r) = al_id r) -> id <> id' ->
  first_where (fun r => bool_decide (al_id r = id)) (update_where (fun r => bool_decide (al_id r = id')) f rows) =
  first_where (fun r => bool_decide (al_id r = id)) rows.
Proof.
  intros Hf Hne. unfold update_where. induction rows as [|x xs IH]; cbn; [done|]. destruct (decide (al_id x = id')) as [Hx|Hx].
  - rewrite (bool_decide_eq_true_2 _ Hx), Hf, (bool_decide_eq_false_2 (al_id x = id)) by congruence. done.
  - rewrite (bool_decide_eq_false_2 _ Hx). by rewrite IH.
Qed.

Lemma audit_row_update_here id f rows r : (forall r, al_id (f r) = al_id r) ->
  first_where (fun r => bool_decide (al_id r = id)) rows = Some r ->
  first_where (fun r => bool_decide (al_id r = id)) (update_where (fun r => bool_decide (al_id r = id)) f rows) = Some (f r).
Proof.
  intros Hf. unfold update_where. induction rows as [|x xs IH]; cbn; [done|]. destruct (decide (al_id x = id)) as [Hx|Hx].
  - rewrite (bool_decide_eq_true_2 _ Hx), Hf, (bool_decide_eq_true_2 _ Hx). by intros [= ->].
  - by rewrite (bool_decide_eq_false_2 _ Hx), (bool_decide_eq_false_2 _ Hx).
Qed.

Lemma save_metadata_cases row metadata db o db' :
  save_metadata row metadata db = (o, db') ->
  db' = db \/ db' = set_db_audit (update_where (fun r => bool_decide (al_id r = al_id row)) (set_al_metadata metadata) (db_audit db)) db.
Proof.
  unfold save_metadata, mbind, M_bind, act, modify. destruct (db_audit_down db); [intros [= _ <-]; by left|].
  destruct (audit_row _ db); [|intros [= _ <-]; by left]. destruct (update_allowed _ _); intros [= _ <-]; [by right|by left].
Qed.

Definition still_up (db db' : Db) : Prop :=
  db_audit_down db' = db_audit_down db /\ db_unreadable db' = db_unreadable db /\ length (db_audit db') = length (db_audit db).

(** Another window's count leaves this row; this window's own makes it [n]. *)
Lemma write_other w id n db : w_row w <> Some id -> row_counts id n db -> 
  row_counts id n (write_count w db).2 /\ still_up db (write_count w db).2.
Proof.
  intros Hne Hrow. unfold write_count. destruct (w_row w) as [id'|]; [|done]. destruct (_ <=? _)%Z; [done|].
  unfold mbind, M_bind, reading. destruct (among _ _); [done|]. destruct (audit_row id' db) as [row|] eqn:Hr; [|done].
  destruct (save_metadata _ _ db) as [o db'] eqn:Hs. cbn [snd].
  apply first_where_some in Hr as [_ Hid%bool_decide_eq_true]. apply save_metadata_cases in Hs as [->| ->]; [done|].
  split; [|unfold still_up; cbn [db_audit set_db_audit db_audit_down db_unreadable]; by rewrite length_update_where].
  destruct Hrow as (r & Hr & Hrest). exists r. split; [|done]. unfold audit_row. cbn [db_audit set_db_audit].
  rewrite audit_row_update; [done|done|congruence].
Qed.

Lemma write_own w id m n db : w_row w = Some id -> w_count w = n -> (m <= n)%Z -> (w_written w <= m)%Z ->
  db_audit_down db = false -> among "audit" (db_unreadable db) = false -> row_counts id m db ->
  row_counts id n (write_count w db).2 /\ still_up db (write_count w db).2.
Proof.
  intros Hw Hc Hmn Hwm Hup Hread (row & Hr & Hid & Hd & Hcount & Hlast). unfold write_count. rewrite Hw, Hc.
  destruct (n <=? w_written w)%Z eqn:Hle.
  - apply Z.leb_le in Hle. assert (m = n) as -> by lia. split; [|done]. by exists row.
  - unfold mbind, M_bind, reading. rewrite Hread, Hr.
    assert (count_at (al_metadata row) = Some m) as Hat by (unfold count_at; by rewrite Hcount).
    rewrite save_metadata_allowed; [|done|by rewrite Hid|done|by eapply recounted_count]. cbn [snd].
    split; [|unfold still_up; cbn [db_audit set_db_audit db_audit_down db_unreadable]; by rewrite length_update_where].
    eexists. split_and!.
    + unfold audit_row. cbn [db_audit set_db_audit]. rewrite Hid. by apply audit_row_update_here.
    + done.
    + done.
    + cbn. by rewrite dget_dset, decide_True.
    + unfold last_at. cbn. by rewrite dget_dset, decide_False.
Qed.

Lemma settle_writes mine id n : w_row mine = Some id -> w_count mine = n -> w_written mine = 1%Z -> (1 <= n)%Z ->
  forall list ws db m, (m = 1%Z \/ m = n) -> (forall w, w ∈ list -> w = mine \/ w_row w <> Some id) ->
  db_audit_down db = false -> among "audit" (db_unreadable db) = false -> row_counts id m db ->
  exists db', for_each (fun w => try (on_db (write_count w)) (fun _ => Some (mret tt))) list (mkDesk ws db) = (Ok tt, mkDesk ws db') /\
    row_counts id (if decide (mine ∈ list) then n else m) db' /\ still_up db db'.
Proof.
  intros Hrow Hcount Hwritten Hn list ws. induction list as [|w list IH]; intros db m Hm Hl Hup Hread Hr.
  { exists db. rewrite decide_False by apply not_elem_of_nil. done. }
  assert (exists m', (m' = 1%Z \/ m' = n) /\ row_counts id m' (write_count w db).2 /\ still_up db (write_count w db).2 /\
    m' = if decide (w = mine) then n else m) as (m' & Hm' & Hr' & (Hup' & Hread' & Hlen') & Heq).
  { destruct (decide (w = mine)) as [->|Hne].
    - exists n. split; [by right|]. destruct (write_own mine id m n db) as [? ?]; try done; destruct Hm; lia.
    - exists m. destruct (Hl w) as [?|Hother]; [by left|done|]. by destruct (write_other w id m db Hother Hr). }
  destruct (IH (write_count w db).2 m') as (db' & Hrun & Hcnt & Hstill); [done| |congruence|by rewrite Hread'|done|].
  { intros w' Hw'. apply Hl. by right. }
  exists db'. split_and!.
  - cbn [for_each]. rewrite <- Hrun. unfold mbind, M_bind, try, on_db. cbn [dk_db dk_windows].
    destruct (write_count w db) as [[[]|e] db1]; done.
  - destruct (decide (mine ∈ w :: list)) as [Hin|Hin]; destruct (decide (mine ∈ list)) as [Hin'|Hin']; try done.
    + apply elem_of_cons in Hin as [<-|?]; [|done]. by rewrite decide_True in Heq by done; subst.
    + destruct Hin. by right.
    + rewrite decide_False in Heq; [by subst|]. intros ->. apply Hin. by left.
  - unfold still_up in *. destruct Hstill as (? & ? & ?). split_and!; congruence.
Qed.
End Limited.

Definition first_limited_row (i reason a source device : string) (now : Z) (id : N) : AuditLog :=
  mkAuditLog id None DENIED DENIED_LABEL "" "" (denied_message reason a "" "")
    (dset COUNT (JNum 1) (denied_metadata i a reason "" source true device)) now.

(** The first refusal of a window writes its row and opens the window on it. *)
Lemma limited_first i reason a source device now m0 ws db :
  db_audit_down db = false -> ws !! (i, a, reason) = None ->
  record_limited now m0 i reason a source device (mkDesk ws db) =
    (Ok tt, mkDesk (<[(i, a, reason) := mkWindow m0 1 1 (Some (db_next_id db))]> ws)
      (set_db_next_id (db_next_id db + 1)%N
        (set_db_audit (db_audit db ++ [first_limited_row i reason a source device now (db_next_id db)])%list db))).
Proof.
  intros Hup Hnone. unfold record_limited, open_window, mbind, M_bind, gets. cbn [dk_windows]. rewrite Hnone.
  unfold set_window, modify, try, on_db, mret, M_ret, record_event. cbn [dk_db dk_windows]. rewrite Hup.
  cbn [dk_windows dk_db]. by rewrite insert_insert_eq.
Qed.

Lemma first_limited_counts i reason a source device now db :
  older_rows db ->
  row_counts (db_next_id db) 1 (set_db_next_id (db_next_id db + 1)%N
    (set_db_audit (db_audit db ++ [first_limited_row i reason a source device now (db_next_id db)])%list db)).
Proof.
  intros Hold. exists (first_limited_row i reason a source device now (db_next_id db)).
  split_and!; [|done|done|by unfold first_limited_row; cbn [al_metadata]; rewrite dget_dset, decide_True|].
  - apply (find_last (db_audit db) (first_limited_row i reason a source device now (db_next_id db))).
    intros r Hr Heq. specialize (Hold r Hr). cbn in Heq. lia.
  - unfold last_at, first_limited_row. cbn [al_metadata]. rewrite dget_dset, decide_False by done. unfold denied_metadata, denied_device. by case_decide.
Qed.

(** A window [settle] closes is among those whose counts it writes. *)
Lemma closed_windows_iff mono a ws w :
  w ∈ closed_windows mono a ws <-> exists k, ws !! k = Some w /\ k.1.2 = a /\ open_at mono w = false.
Proof.
  unfold closed_windows. rewrite list_elem_of_fmap. split.
  - intros ([k w'] & -> & Hkw). apply list_elem_of_In, filter_In in Hkw as [Hin Hp].
    apply list_elem_of_In, elem_of_map_to_list in Hin. cbn in Hp. exists k.
    apply andb_true_iff in Hp as [Ha%bool_decide_eq_true Ho%negb_true_iff]. done.
  - intros (k & Hk & Ha & Ho). exists (k, w). split; [done|]. apply list_elem_of_In, filter_In. split.
    + by apply list_elem_of_In, elem_of_map_to_list.
    + cbn. by rewrite Ho, bool_decide_eq_true_2.
Qed.

(** The rows the windows name were written before any key still to come. *)
Definition desk_ok (s : Desk) : Prop :=
  older_rows (dk_db s) /\
  forall k w id, dk_windows s !! k = Some w -> w_row w = Some id -> (id < db_next_id (dk_db s))%N.

(** A flood writes a row a minute, not a row a call: an agent refused any number of times on
    one door for one reason within a window leaves one row, and the first call it is let
    through after that makes the row say exactly how many times, and forgets the window. *)
Theorem limited_calls_share_a_row (i reason a source device : string) (now m0 m_end : Z) (rest : list (Z * Z)) (s : Desk) :
  desk_ok s -> db_audit_down (dk_db s) = false -> among "audit" (db_unreadable (dk_db s)) = false ->
  dk_windows s !! (i, a, reason) = None ->
  Forall (fun t => t.2 - m0 < COALESCE_WINDOW)%Z rest -> (m0 + COALESCE_WINDOW <= m_end)%Z ->
  exists s1 s2, limited_at i reason a source device ((now, m0) :: rest) s = (Ok tt, s1) /\
    length (db_audit (dk_db s1)) = S (length (db_audit (dk_db s))) /\
    settle_windows m_end a s1 = (Ok tt, s2) /\
    length (db_audit (dk_db s2)) = S (length (db_audit (dk_db s))) /\
    row_counts (db_next_id (dk_db s)) (1 + Z.of_nat (length rest)) (dk_db s2) /\
    dk_windows s2 !! (i, a, reason) = None.
Proof.
  destruct s as [ws db]. unfold desk_ok. cbn [dk_db dk_windows]. intros [Hold Hrows] Hup Hread Hnone Hwin Hend.
  set (key := (i, a, reason)). set (id := db_next_id db). set (mine := mkWindow m0 (1 + Z.of_nat (length rest)) 1 (Some id)).
  pose proof (limited_first i reason a source device now m0 ws db Hup Hnone) as Hfirst.
  pose proof (first_limited_counts i reason a source device now db Hold) as Hr1. fold key id in Hfirst, Hr1.
  set (db1 := set_db_next_id _ _) in Hfirst, Hr1.
  pose proof (limited_again i reason a source device rest (<[key := mkWindow m0 1 1 (Some id)]> ws) db1 m0 1 id
    (lookup_insert_eq _ _ _) Hwin) as Hrest. fold key in Hrest. rewrite insert_insert_eq in Hrest. fold mine in Hrest.
  set (s1 := mkDesk (<[key := mine]> ws) db1) in *.
  assert (open_at m_end mine = false) as Hclosed by (apply Z.ltb_ge; cbn; lia).
  set (list := closed_windows m_end a (dk_windows s1)).
  assert (mine ∈ list) as Hmine.
  { apply closed_windows_iff. exists key. split; [apply lookup_insert_eq|done]. }
  destruct (settle_writes mine id (1 + Z.of_nat (length rest)) eq_refl eq_refl eq_refl ltac:(lia) list
    (filter (fun kw => bool_decide (kw.1.1.2 = a) && negb (open_at m_end kw.2) = false) (dk_windows s1)) db1 1)
    as (db2 & Hsettle & Hcount & _ & _ & Hlen); [by left| |done|done|done|].
  { intros w (k & Hkw & _)%closed_windows_iff. cbn [dk_windows s1] in Hkw.
    destruct (decide (k = key)) as [->|Hk]; [left; rewrite lookup_insert_eq in Hkw; by injection Hkw|right].
    rewrite lookup_insert_ne in Hkw by done. intros Hw. specialize (Hrows k w id Hkw Hw). subst id. lia. }
  rewrite decide_True in Hcount by done. exists s1. eexists. split_and!.
  - unfold limited_at. cbn [for_each fst snd]. by rewrite (bind_step _ _ _ _ _ Hfirst).
  - cbn. rewrite length_app. cbn. lia.
  - unfold settle_windows. rewrite (bind_step _ _ _ list s1) by done. erewrite (bind_step _ _ _ tt) by reflexivity. exact Hsettle.
  - cbn [dk_db]. rewrite Hlen. cbn. rewrite length_app. cbn. lia.
  - exact Hcount.
  - cbn [dk_windows]. apply map_lookup_filter_None. right. intros w Hw. unfold s1 in Hw. cbn [dk_windows] in Hw.
    rewrite lookup_insert_eq in Hw. injection Hw as <-. cbn. rewrite Hclosed. by rewrite bool_decide_eq_true_2.
Qed.

End Denials.

Lemma refused_credentials_share_a_row_witness :
  exists row db', rejected_at demo_host "api" "invalid_token" "10.0.0.9" [0; 5 * SECOND; 59 * SECOND]%Z empty_db = (Ok tt, db') /\
    db_audit db' = [row] /\ dget COUNT (al_metadata row) = Some (JNum 3).
Proof.
  destruct (refused_credentials_share_a_row demo_host "api" "invalid_token" "10.0.0.9" 0 [5 * SECOND; 59 * SECOND]%Z empty_db)
    as (row & db' & Hrun & Haudit & _ & _ & Hcount & _); try reflexivity.
  - intros r Hr. by apply elem_of_nil in Hr.
  - repeat constructor; unfold COALESCE_WINDOW, SECOND; lia.
  - repeat constructor.
  - exists row, db'. split; [exact Hrun|]. split; [exact Haudit|exact Hcount].
Defined.

Lemma limited_calls_share_a_row_witness :
  exists s1 s2, limited_at demo_host "mcp" "rate_limited" "bot" "10.0.0.9" "n1" [(0, 0); (1, 1); (2, 2)]%Z (mkDesk ∅ empty_db) = (Ok tt, s1) /\
    settle_windows (61 * SECOND) "bot" s1 = (Ok tt, s2) /\ row_counts 0 3 (dk_db s2).
Proof.
  destruct (limited_calls_share_a_row demo_host "mcp" "rate_limited" "bot" "10.0.0.9" "n1" 0 0 (61 * SECOND) [(1, 1); (2, 2)]%Z (mkDesk ∅ empty_db))
    as (s1 & s2 & H1 & _ & H2 & _ & H3 & _); try reflexivity.
  - split; [intros r Hr; by apply elem_of_nil in Hr|]. intros k w id Hw. cbn in Hw. by rewrite lookup_empty in Hw.
  - repeat constructor; unfold COALESCE_WINDOW, SECOND; cbn; lia.
  - unfold COALESCE_WINDOW, SECOND. lia.
  - exists s1, s2. split; [exact H1|]. split; [exact H2|exact H3].
Defined.
