(* ===== verification/Policy.v ===== *)
(** Whether a credential's call runs, waits for a person, or is refused
    ([default_hold.py], [capability_policy.py]). *)
From stdpp Require Import base gmap strings list pretty.
From Stdlib Require Import Ascii ZArith Lia.
From S2P Require Import Prelude PyStr Json Refusals Security Models AgentDevices AgentRegistry AgentAccess Specs.

#[local] Open Scope string_scope.

Definition POLICY_LABEL := "Capability policy".

(** [Rule.values] *)
Definition RULES : list string := [ALLOW; APPROVE; DENY].

(** [DOT] of [labels.py], and [dotted]. *)
Definition DOT : string := String "160"%char (String "183"%char " ").

Definition dotted (parts : list string) : string :=
  join DOT (List.filter (fun p => negb (bool_decide (p = ""))) parts).

(** * The default hold *)

(** [may_be_held_by_default(spec)] *)
Definition may_be_held_by_default (spec : CapabilitySpec) : bool :=
  negb (bool_decide (sp_effect spec = READ_EFFECT)) && bool_decide (sp_subject_resource spec = DECLARATIONS).

(** [_copies_live()] *)
Definition copies_live : list string :=
  ["infrastructure.resource.adopt"; "infrastructure.service.adopt"; "infrastructure.zone.adopt"].

(** [needs_approval(provider, spec)] *)
Definition needs_approval (provider : Provider) (spec : option CapabilitySpec) : bool :=
  pv_requires_approval provider ||
  (pv_public_effect provider &&
   match spec with None => true | Some s => negb (among (sp_name s) copies_live) end).

(** [_waits(provider, principal, spec)] *)
Definition waits (provider : Provider) (p : Principal) (spec : option CapabilitySpec) : bool :=
  needs_approval provider spec && (pv_requires_approval provider || is_agent (interface p)).

(** The declaration a key names: [ManagedResource.objects.filter(key=key).first()]. *)
Definition resource_of (key : string) (db : Db) : option ManagedResource :=
  first_where (fun r => bool_decide (mr_key r = key)) (db_resources db).

Section Policy.
Variable host : Site.

(** [PROVIDERS.get(kind) if kind else None] *)
Definition provider_of (kind : string) : option Provider :=
  if decide (kind = "") then None else h_providers host kind.

(** [held_by_default(spec, command, target, principal=...)] *)
Definition held_by_default (spec : CapabilitySpec) (command : json) (target : option Target) (p : Principal) (db : Db) : bool :=
  if negb (may_be_held_by_default spec) then false
  else
    let kind := match target with
                | Some t => match resource_of (target_str t) db with Some r => mr_kind r | None => "" end
                | None => attr_str "kind" command
                end in
    match provider_of kind with
    | Some provider => waits provider p (Some spec)
    | None => false
    end.

(** [consent_gap(kind, principal=...)] *)
Definition consent_gap (kind : string) (p : Principal) : string :=
  match h_providers host kind with
  | None => ""
  | Some provider =>
      if negb (waits provider p None) then ""
      else if is_interactive p || negb (bool_decide (approved_by p = "")) then ""
      else "This change needs a person to approve it. Ask for it through the API or " +:+
           "MCP, which records the request, then approve it in the browser, signed in."
  end.

(** * The policy *)

Record Decision : Type := mkDecision { dc_rule : string; dc_source : string; dc_default : string }.

(** [Decision.overrides_a_hold] *)
Definition overrides_a_hold (d : Decision) : bool :=
  bool_decide (dc_rule d = ALLOW) && bool_decide (dc_default d = APPROVE).

(** [default_rule(spec, command, target, principal=...)] *)
Definition default_rule (spec : CapabilitySpec) (command : json) (target : option Target) (p : Principal) (db : Db) : string :=
  if held_by_default spec command target p db then APPROVE else ALLOW.

(** [decide(spec, principal, command, target)] *)
Definition decide_policy (spec : CapabilitySpec) (p : Principal) (command : json) (target : option Target) (db : Db) : Decision :=
  let default := default_rule spec command target p db in
  if is_interactive p then mkDecision ALLOW "operator" default
  else if negb (is_agent (interface p)) then mkDecision default "default" default
  else
    let default := if is_destructive spec command then APPROVE else default in
    match db_rules db !! (agent_subject p, sp_name spec) with
    | None => mkDecision default "default" default
    | Some row => mkDecision (cr_rule row) (actor p +:+ " policy") default
    end.

(** [rules()] *)
Definition rules (db : Db) : gmap (string * string) string := cr_rule <$> db_rules db.

(** [agents_may_hold(spec)] *)
Definition agents_may_hold (spec : CapabilitySpec) : bool :=
  existsb (fun surface => could_hold surface (sp_required_capabilities spec)) AGENT_SURFACES.

(** [_held_by_grant(spec, granted)] *)
Definition held_by_grant (spec : CapabilitySpec) (granted : list string) : bool :=
  forallb (fun c => bool_decide (c ∈ granted)) (sp_required_capabilities spec).

(** [_usable_by(spec, identity)] *)
Definition usable_by (spec : CapabilitySpec) (identity : AgentIdentity) : bool :=
  is_some (ai_person identity) || disjoint_from NEEDS_A_PERSON (sp_required_capabilities spec).

(** [RULE_LABELS] and [_name(rule)] *)
Definition rule_label (rule : string) : string :=
  if decide (rule = ALLOW) then "On" else if decide (rule = APPROVE) then "Ask me first" else "Off".

Definition rule_name (rule : option string) : string :=
  match rule with None => "Default" | Some r => rule_label r end.

Definition opt_json (o : option string) : json := match o with Some s => JStr s | None => JNull end.

(** The checks [set_rule] makes before it writes. *)
Definition rule_refused (subject : string) (spec : CapabilitySpec) (rule : option string) (db : Db) : option string :=
  if match rule with Some r => negb (among r RULES) | None => false end
  then Some (match rule with Some r => repr r | None => "" end +:+ " is not a rule.")
  else if negb (agents_may_hold spec)
  then Some ("Only a person in the browser can " +:+ lower (sp_title spec) +:+ ", so no agent has a rule for it.")
  else if bool_decide (rule = Some APPROVE) && bool_decide (sp_effect spec = READ_EFFECT)
  then Some (sp_title spec +:+ " only reads. It can be allowed or blocked, not held for approval.")
  else match rule with
       | None => None
       | Some _ =>
           match identity_of subject db with
           | None => Some ("No agent named " +:+ subject +:+ " has connected yet.")
           | Some identity =>
               if negb (held_by_grant spec (ai_granted identity))
               then Some ("The sign-in service does not allow " +:+ subject +:+ " to use " +:+ sp_title spec +:+ ".")
               else if negb (usable_by spec identity)
               then Some (subject +:+ " signs in as itself, and " +:+ sp_title spec +:+ " keeps something of a person's.")
               else None
           end
       end.

(** [set_rule(subject=..., spec=..., rule=..., user=...)] *)
Definition set_rule (now : Z) (subject : string) (spec : CapabilitySpec) (rule : option string) (user : User) : M exn Db bool :=
  refused ← gets (rule_refused subject spec rule);
  match refused with
  | Some said => raise (ValueError said)
  | None =>
      atomic (
        existing ← gets (fun db => db_rules db !! (subject, sp_name spec));
        let before := cr_rule <$> existing in
        if bool_decide (before = rule) then mret false
        else
          _ ← modify (fun db => set_db_rules
                (match rule with
                 | None => delete (subject, sp_name spec) (db_rules db)
                 | Some r => <[(subject, sp_name spec) := mkCapabilityRule r (Some (us_pk user)) now]> (db_rules db)
                 end) db);
          _ ← record_event true now (mkEvent SETTINGS_CHANGED POLICY_LABEL "" ""
                (dotted [subject; sp_name spec +:+ ": from " +:+ rule_name before +:+ " to " +:+ rule_name rule])
                [("subject", JStr subject); ("capability", JStr (sp_name spec)); ("from", opt_json before); ("to", opt_json rule)]
                (Some (us_pk user)));
          mret true)
  end.

(** [RuleCell] *)
Record RuleCell : Type := mkRuleCell { rc_subject : string; rc_capability : string; rc_rule : string }.

(** One cell of [apply_changes]. *)
Definition apply_cell (now : Z) (user : User) (current : gmap (string * string) string) (done : nat * list string) (cell : RuleCell)
  : M exn Db (nat * list string) :=
  match registered host (rc_capability cell) with
  | None => mret (done.1, (done.2 ++ [rc_capability cell +:+ " is no longer something HQ can do."])%list)
  | Some spec =>
      let wanted := if decide (rc_rule cell = "") then None else Some (rc_rule cell) in
      if bool_decide (current !! (rc_subject cell, rc_capability cell) = wanted) then mret done
      else try (moved ← set_rule now (rc_subject cell) spec wanted user;
                mret (if (moved : bool) then S done.1 else done.1, done.2))
             (fun e => if is_value_error e then Some (mret (done.1, (done.2 ++ [exn_text e])%list)) else None)
  end.

(** [apply_changes(command, principal=...)] *)
Definition apply_changes (now : Z) (cells : list RuleCell) (p : Principal) : M exn Db json :=
  user ← person p;
  current ← gets rules;
  done ← fold_each (apply_cell now user current) (0%nat, []) cells;
  mret (JObj [("ok", JBool true); ("changed", JNum (Z.of_nat done.1)); ("problems", names done.2)]).
End Policy.

(** * The policy form *)

Definition FIELD_SEPARATOR : ascii := "|"%char.

(** [field_name(subject, capability)] *)
Definition field_name (subject capability : string) : string :=
  join (String FIELD_SEPARATOR "") ["rule"; subject; capability].

(** [_parse_field(name)] *)
Definition parse_field (name : string) : option (string * string) :=
  match split_on FIELD_SEPARATOR name with
  | [r; subject; capability] => if decide (r = "rule") then Some (subject, capability) else None
  | _ => None
  end.

(** [submitted_rules(post)] *)
Definition submitted_rules (post : list (string * string)) : list RuleCell :=
  omap (fun nv => match parse_field nv.1 with Some (s, c) => Some (mkRuleCell s c nv.2) | None => None end) post.

(** [PolicyCell], [Row] and [Group], the parts a split reads. *)
Record PolicyCell : Type := mkPolicyCell { pc_field : string; pc_column : string; pc_rule : option string; pc_options : list (string * string); pc_unavailable : string }.
Record PolicyRow : Type := mkPolicyRow { pr_name : string; pr_cells : list PolicyCell }.
Record Group : Type := mkGroup { gr_label : string; gr_rows : list PolicyRow }.

(** [Row.overrides] *)
Definition overrides (r : PolicyRow) : list PolicyCell :=
  List.filter (fun c => match pc_rule c with Some x => negb (bool_decide (x = "")) | None => false end) (pr_cells r).

Definition has_override (r : PolicyRow) : bool := match overrides r with [] => false | _ => true end.

(** [kept(changed=...)] *)
Definition kept_groups (changed : bool) (groups : list Group) : list Group :=
  List.filter (fun g => match gr_rows g with [] => false | _ => true end)
    (map (fun g => mkGroup (gr_label g) (List.filter (fun r => Bool.eqb (has_override r) changed) (gr_rows g))) groups).

(** [split_by_default(groups)] *)
Definition split_by_default (groups : list Group) : list Group * list Group :=
  (kept_groups true groups, kept_groups false groups).

(** [_cell(spec, column, current, grants)] *)
Definition cell (spec : CapabilitySpec) (subject label : string) (identity : AgentIdentity) (current : gmap (string * string) string) : PolicyCell :=
  let field := field_name subject (sp_name spec) in
  if negb (held_by_grant spec (ai_granted identity)) then mkPolicyCell field label None [] "Not granted"
  else if negb (usable_by spec identity) then mkPolicyCell field label None [] "Needs a person"
  else
    let options := [("", "Default"); (ALLOW, rule_label ALLOW)] in
    let options := if decide (sp_effect spec = READ_EFFECT) then options else (options ++ [(APPROVE, rule_label APPROVE)])%list in
    mkPolicyCell field label (current !! (subject, sp_name spec)) (options ++ [(DENY, rule_label DENY)])%list "".

(** * Laws *)

Section Laws.
Variable host : Site.

(** An agent's call runs at once exactly when the operator's own rule for that
    agent allows it, or there is no rule, it takes nothing away and no default
    holds it; any other standing of the rules waits or is refused.  Nobody
    signed in as a person is ever held. *)
Theorem agent_runs_only_if_allowed (spec : CapabilitySpec) (p : Principal) (command : json) (target : option Target) (db : Db) :
  let d := decide_policy host spec p command target db in
  (is_interactive p = true -> dc_rule d = ALLOW /\ dc_source d = "operator") /\
  (is_agent (interface p) = true ->
   (dc_rule d = ALLOW <->
    (exists row, db_rules db !! (agent_subject p, sp_name spec) = Some row /\ cr_rule row = ALLOW) \/
    (db_rules db !! (agent_subject p, sp_name spec) = None /\ is_destructive spec command = false /\
     held_by_default host spec command target p db = false)) /\
   (overrides_a_hold d = true <->
    exists row, db_rules db !! (agent_subject p, sp_name spec) = Some row /\ cr_rule row = ALLOW /\
    (is_destructive spec command = true \/ held_by_default host spec command target p db = true))).
Proof.
  unfold decide_policy, overrides_a_hold, default_rule. split; [by intros ->|].
  intros Ha. rewrite (agent_not_interactive _ Ha).
  rewrite Ha. cbn [negb]. assert (APPROVE <> ALLOW) as Hne by done.
  destruct (db_rules db !! _) as [row|] eqn:Hr, (is_destructive spec command) eqn:Hd,
    (held_by_default host spec command target p db) eqn:Hh; cbn [dc_rule dc_default];
    (split; [split|rewrite andb_true_iff, !bool_decide_eq_true; split]); naive_solver.
Qed.

(** Every rule that stands is one HQ has, for a capability an agent could hold, and
    holds no read for a person. *)
Definition rules_ok (db : Db) : Prop :=
  forall s c row, db_rules db !! (s, c) = Some row -> cr_rule row ∈ RULES /\
  forall spec, registered host c = Some spec -> agents_may_hold spec = true /\
    (cr_rule row = APPROVE -> sp_effect spec <> READ_EFFECT).

Lemma rule_refused_none subject spec r db :
  rule_refused subject spec (Some r) db = None ->
  r ∈ RULES /\ agents_may_hold spec = true /\ (r = APPROVE -> sp_effect spec <> READ_EFFECT).
Proof.
  unfold rule_refused. destruct (among r RULES) eqn:Hr; [|done]. apply among_spec in Hr. cbn [negb].
  destruct (agents_may_hold spec) eqn:Hm; [|done]. cbn [negb].
  destruct (bool_decide (Some r = Some APPROVE) && bool_decide (sp_effect spec = READ_EFFECT)) eqn:Ha; [done|].
  intros _. split_and!; [done..|]. intros -> He. by rewrite !bool_decide_eq_true_2 in Ha.
Qed.

(** What one call of [set_rule] did. *)
Lemma set_rule_inv now subject spec rule user db o db' :
  set_rule now subject spec rule user db = (o, db') ->
  (exists said, rule_refused subject spec rule db = Some said /\ o = Raise (ValueError said) /\ db' = db) \/
  (rule_refused subject spec rule db = None /\
   ((o = Ok false /\ db' = db /\ cr_rule <$> db_rules db !! (subject, sp_name spec) = rule) \/
    (exists e, o = Raise e /\ is_value_error e = false /\ db' = db) \/
    (o = Ok true /\ cr_rule <$> db_rules db !! (subject, sp_name spec) <> rule /\
     db_rules db' = (match rule with
       | None => delete (subject, sp_name spec) (db_rules db)
       | Some r => <[(subject, sp_name spec) := mkCapabilityRule r (Some (us_pk user)) now]> (db_rules db)
       end) /\
     exists row, db_audit db' = (db_audit db ++ [row])%list /\ al_user row = Some (us_pk user)))).
Proof.
  intros H. unfold set_rule in H. run_step H.
  destruct (rule_refused subject spec rule db) as [said|] eqn:Hr; [run; eauto 10|].
  right. split; [done|]. run_all.
  - left. split_and!; try done. match goal with H : bool_decide _ = true |- _ => by apply bool_decide_eq_true in H end.
  - right. right. match goal with H : bool_decide _ = false |- _ => apply bool_decide_eq_false in H end.
    pose proof Hrun as Hev. apply record_event_inv in Hev as (_ & _ & Hrules & _).
    apply record_event_required in Hrun as (row & Ha & Hu & _). split_and!; [done..|]. eexists. split; [exact Ha|done].
  - right. left. unfold record_event in H. destruct (db_audit_down _); simplify_eq. by eexists.
Qed.

Lemma set_rule_ok now subject spec rule user db o db' :
  registered host (sp_name spec) = Some spec -> set_rule now subject spec rule user db = (o, db') -> rules_ok db -> rules_ok db'.
Proof.
  intros Hreg H Hok.
  apply set_rule_inv in H as [(? & _ & _ & ->)|(Hr & [(_ & -> & _)|[(? & _ & _ & ->)|(_ & _ & Hrules & _)]])]; try done.
  intros s c row. rewrite Hrules. destruct rule as [r|].
  - intros [[[= <- <-] <-]|[_ Hrow]]%lookup_insert_Some; [|by eapply Hok].
    apply rule_refused_none in Hr as (? & ? & ?). split; [done|]. intros spec' Hs. by simplify_eq.
  - intros [_ Hrow]%lookup_delete_Some. by eapply Hok.
Qed.

(** One cell: the rules stay well formed, and what moved is in the log, row by row. *)
Lemma apply_cell_inv now user current done cell db o db' :
  apply_cell host now user current done cell db = (o, db') ->
  (rules_ok db -> rules_ok db') /\
  (forall done', o = Ok done' -> exists new, db_audit db' = (db_audit db ++ new)%list /\
     done'.1 = (length new + done.1)%nat /\ Forall (fun row => al_user row = Some (us_pk user)) new) /\
  (forall e, o = Raise e -> is_value_error e = false).
Proof.
  assert (forall d : nat * list string, exists new : list AuditLog, db_audit db = (db_audit db ++ new)%list /\ d.1 = (length new + d.1)%nat /\
    Forall (fun row => al_user row = Some (us_pk user)) new) as Hnone.
  { intros d. exists []. rewrite app_nil_r. split_and!; auto. }
  unfold apply_cell. intros H. destruct (registered host (rc_capability cell)) as [spec|] eqn:Hreg.
  2: { run. split_and!; try done. intros d [= <-]. apply (Hnone done). }
  set (wanted := if decide (rc_rule cell = "") then None else Some (rc_rule cell)) in *.
  case_bool_decide; [run; split_and!; try done; intros d [= <-]; apply Hnone|].
  pose proof (registered_name _ _ _ Hreg) as Hname. rewrite <- Hname in Hreg.
  apply try_inv in H as [(a & H & ->)|(e & db1 & H & Hh)].
  - run. pose proof (set_rule_ok _ _ _ _ _ _ _ _ Hreg Hrun) as Hok.
    apply set_rule_inv in Hrun as [(? & _ & ? & _)|(_ & [(? & -> & _)|[(? & ? & _)|(? & _ & _ & row & Ha & Hu)]])]; simplify_eq.
    + split_and!; try done. intros d [= <-]. apply (Hnone done).
    + split_and!; try done. intros d [= <-]. exists [row]. split_and!; [done|cbn; lia|by constructor].
  - run. pose proof (set_rule_ok _ _ _ _ _ _ _ _ Hreg H) as Hok.
    apply set_rule_inv in H as [(said & _ & ? & ->)|(_ & [(? & _)|[(? & ? & Hve & ->)|(? & _)]])]; simplify_eq.
    + cbn in Hh. run. split_and!; try done. intros d [= <-]. apply (Hnone done).
    + rewrite Hve in Hh. destruct Hh as [-> ->]. split_and!; try done. by intros ? [= <-].
Qed.

(** Applying a form of rules refuses cell by cell, never whole: it answers how many
    rules moved, each with its own row of the log naming the person, and the rules
    that stand stay ones HQ has.  Only a database that fails stops it. *)
Theorem apply_changes_moves_what_it_says (now : Z) (cells : list RuleCell) (p : Principal) (db db' : Db) (answer : json) :
  apply_changes host now cells p db = (Ok answer, db') -> rules_ok db ->
  rules_ok db' /\ exists user new problems, person_of p db = Some user /\
    answer = JObj [("ok", JBool true); ("changed", JNum (Z.of_nat (length new))); ("problems", names problems)] /\
    db_audit db' = (db_audit db ++ new)%list /\ Forall (fun row => al_user row = Some (us_pk user)) new.
Proof.
  unfold apply_changes. intros H Hok. run_step H; try done.
  apply person_inv in Hrun as (-> & _ & Hp). run_step H. run_step H; try done. run. rename Hrun into Hf.
  assert (forall cells d db1 d' db2, fold_each (apply_cell host now x (rules db)) d cells db1 = (Ok d', db2) -> rules_ok db1 ->
    rules_ok db2 /\ exists new, db_audit db2 = (db_audit db1 ++ new)%list /\ d'.1 = (length new + d.1)%nat /\
    Forall (fun row => al_user row = Some (us_pk x)) new) as Hfold.
  { clear. intros cells. induction cells as [|c cells IH]; cbn; intros d db1 d' db2 H Hok.
    - run. split; [done|]. exists []. rewrite app_nil_r. by split_and!.
    - run_step H; try done. apply apply_cell_inv in Hrun as (Hok' & Hdone & _).
      destruct (Hdone _ eq_refl) as (new1 & Ha1 & Hn1 & Hu1).
      destruct (IH _ _ _ _ H (Hok' Hok)) as (Hok2 & new2 & Ha2 & Hn2 & Hu2). split; [done|].
      exists (new1 ++ new2)%list. split_and!.
      + by rewrite Ha2, Ha1, app_assoc.
      + rewrite length_app. lia.
      + by apply Forall_app. }
  destruct (Hfold _ _ _ _ _ Hf Hok) as (Hok' & new & Ha & Hn & Hu). split; [done|].
  eexists x, new, _. split_and!; try done. cbn in Hn. by rewrite Hn, Nat.add_0_r.
Qed.
End Laws.

(** A policy form's field names one cell, read back as it was written. *)
Theorem parse_field_name (subject capability : string) :
  mem_char FIELD_SEPARATOR subject = false -> mem_char FIELD_SEPARATOR capability = false ->
  parse_field (field_name subject capability) = Some (subject, capability).
Proof.
  intros Hs Hc. unfold parse_field, field_name. rewrite join_app_sep, split_on_app by done.
  rewrite join_app_sep, split_on_app by done. cbn [join]. by rewrite split_on_none.
Qed.

Lemma kept_rows changed groups :
  concat (map gr_rows (kept_groups changed groups)) =
  List.filter (fun r => Bool.eqb (has_override r) changed) (concat (map gr_rows groups)).
Proof.
  unfold kept_groups. induction groups as [|g groups IH]; [done|]. cbn [map concat]. rewrite List.filter_app, <- IH.
  cbn [List.filter gr_rows]. by destruct (List.filter _ (gr_rows g)).
Qed.

(** Split by what differs from the default, every row stands on exactly one side, and
    no group is empty. *)
Theorem split_by_default_partitions (groups : list Group) :
  let '(changed, at_default) := split_by_default groups in
  concat (map gr_rows changed) ++ concat (map gr_rows at_default) ≡ₚ concat (map gr_rows groups) /\
  Forall (fun g => gr_rows g <> [] /\ Forall (fun r => has_override r = true) (gr_rows g)) changed /\
  Forall (fun g => gr_rows g <> [] /\ Forall (fun r => has_override r = false) (gr_rows g)) at_default.
Proof.
  unfold split_by_default. split_and!.
  - rewrite !kept_rows. induction (concat (map gr_rows groups)) as [|r rows IH]; [done|].
    cbn [List.filter]. destruct (has_override r); cbn [Bool.eqb app]; [by rewrite IH|].
    by rewrite <- Permutation_middle, IH.
  - apply Forall_forall. unfold kept_groups. intros g [Hg He]%list_elem_of_In%filter_In.
    apply list_elem_of_In, list_elem_of_fmap in Hg as (g0 & -> & _). cbn in *. split; [by destruct (List.filter _ _)|].
    apply Forall_forall. intros r [_ Hr]%list_elem_of_In%filter_In. by destruct (has_override r).
  - apply Forall_forall. unfold kept_groups. intros g [Hg He]%list_elem_of_In%filter_In.
    apply list_elem_of_In, list_elem_of_fmap in Hg as (g0 & -> & _). cbn in *. split; [by destruct (List.filter _ _)|].
    apply Forall_forall. intros r [_ Hr]%list_elem_of_In%filter_In. by destruct (has_override r).
Qed.

Definition bot_known_db : Db := set_db_identities
  {[ ("bot", "9f2c") := mkAgentIdentity "bot" "9f2c" ["mcp"] [MANAGE_CONTACTS] 0 0 "person" None None (Some 7%Z) ]} one_person_db.

Lemma apply_changes_moves_what_it_says_witness :
  let cells := [mkRuleCell "bot@9f2c" "contacts.remove" ALLOW; mkRuleCell "bot@9f2c" "approval.approve" ALLOW] in
  exists answer db', apply_changes demo_host 5 cells ada bot_known_db = (Ok answer, db') /\
    rules_ok demo_host db' /\ exists user new problems, person_of ada bot_known_db = Some user /\
    answer = JObj [("ok", JBool true); ("changed", JNum (Z.of_nat (length new))); ("problems", names problems)] /\
    db_audit db' = (db_audit bot_known_db ++ new)%list /\ Forall (fun row => al_user row = Some (us_pk user)) new.
Proof.
  intros cells. destruct (apply_changes demo_host 5 cells ada bot_known_db) as [[a|e] db'] eqn:H.
  - exists a, db'. split; [done|]. apply (apply_changes_moves_what_it_says demo_host _ _ _ _ _ _ H).
    intros s c row Hrow. change (db_rules bot_known_db) with (∅ : gmap (string * string) CapabilityRule) in Hrow.
    by rewrite lookup_empty in Hrow.
  - exfalso. apply (f_equal fst) in H. vm_compute in H. discriminate H.
Defined.

Lemma parse_field_name_witness :
  field_name "bot@9f2c" "contacts.remove" = "rule|bot@9f2c|contacts.remove" /\
  parse_field (field_name "bot@9f2c" "contacts.remove") = Some ("bot@9f2c", "contacts.remove").
Proof. split; [reflexivity|]. apply parse_field_name; reflexivity. Defined.
