(* ===== verification/Idempotency.v ===== *)
(** Retry keys: one answer per actor, key and request ([idempotency.py]). *)
From stdpp Require Import base gmap strings list pretty.
From Stdlib Require Import Ascii ZArith Lia.
From S2P Require Import Prelude PyStr Json Refusals Security Models Specs.

#[local] Open Scope string_scope.

Definition IDEMPOTENCY_FIELD := "idempotency_key".
Definition IDEMPOTENCY_KEY_LENGTH : nat := 128.
Definition CURRENT_API_VERSION : Z := 2.
Definition KEY_SHAPE : string := "A retry key is 1-128 URL-safe characters.".

Definition alphanumeric (c : ascii) : bool :=
  let n := code c in
  (((48 <=? n) && (n <=? 57)) || ((65 <=? n) && (n <=? 90)) || ((97 <=? n) && (n <=? 122)))%nat.

(** [KEY.fullmatch(value)] of [IDEMPOTENCY_KEY_PATTERN]. *)
Definition key_matches (value : string) : bool :=
  match value with
  | "" => false
  | String c rest =>
      alphanumeric c && str_all (fun d => alphanumeric d || mem_char d "._:-") rest &&
      (String.length value <=? IDEMPOTENCY_KEY_LENGTH)%nat
  end.

(** [validate_key(value)] *)
Definition validate_key (value : string) : outcome exn string :=
  if key_matches value then Ok value else Raise (InvalidIdempotencyKey KEY_SHAPE).

Section Keys.
(** [hashlib.sha256(text).hexdigest()] and the setting of the keys' life. *)
Variables (sha256 : string -> string) (ttl_seconds : Z).

(** The value [request_fingerprint] digests. *)
Definition request_material (name : string) (envelope : json) : json :=
  JObj [("api_version", JNum CURRENT_API_VERSION); ("capability", JStr name); ("request", envelope)].

(** [request_fingerprint(name, envelope)] *)
Definition request_fingerprint (name : string) (envelope : json) : string :=
  sha256 (dumps (request_material name envelope)).

(** [_actor_sha256(actor)] *)
Definition actor_sha256 (a : string) : string := sha256 a.

(** [IdempotencyRecord.objects.filter(expires_at__lte=now).delete()] *)
Definition purge (now : Z) (db : Db) : Db :=
  set_db_retry_keys (filter (fun kv => (now < ir_expires_at kv.2)%Z) (db_retry_keys db)) db.

(** [record.save(update_fields=("response",))]: an update of no row is an error. *)
Definition save_response (k : string * string) (response : dict) : M exn Db unit :=
  act (fun db =>
    match db_retry_keys db !! k with
    | None => (Raise (DatabaseError "Save with update_fields did not affect any rows."), db)
    | Some r => (Ok tt, set_db_retry_keys (<[k := set_ir_response (Some (JObj response)) r]> (db_retry_keys db)) db)
    end).

(** [response.get("ok", False)], as a test. *)
Definition ran_ok (response : dict) : bool :=
  match dget "ok" response with Some v => truthy v | None => false end.

(** [execute_once(actor=..., key=..., request_sha256=..., operation=...)] *)
Definition execute_once (now : Z) (a key request_sha256 : string) (operation : M exn Db dict) : M exn Db (dict * bool) :=
  let k := (actor_sha256 a, key) in
  atomic (
    _ ← modify (purge now);
    found ← gets (fun db => db_retry_keys db !! k);
    match found with
    | Some record =>
        _ ← raise_if (negb (bool_decide (ir_request_sha256 record = request_sha256)))
              (IdempotencyConflict "This retry key was already used for a different request.");
        match ir_response record with
        | Some (JObj response) => mret (response, true)
        | _ => raise (RuntimeError "An idempotency record has no committed response.")
        end
    | None =>
        _ ← modify (fun db => set_db_retry_keys (<[k := mkIdempotencyRecord (take_str 255 a) request_sha256 None now
              (now + ttl_seconds * SECOND)%Z]> (db_retry_keys db)) db);
        response ← operation;
        if negb (ran_ok response) then
          (_ ← modify (fun db => set_db_retry_keys (delete k (db_retry_keys db)) db); mret (response, false))
        else (_ ← save_response k response; mret (response, false))
    end).

(** [execute_form_once(actor=..., key=..., write=..., form=..., operation=...)] *)
Definition execute_form_once (now : Z) (a key write : string) (form : dict) (operation : M exn Db dict) : M exn Db (dict * bool) :=
  execute_once now a key (request_fingerprint ("form:" +:+ write) (JObj form)) operation.

(** [form_answer(actor=..., key=..., write=..., form=...)] *)
Definition form_answer (now : Z) (a key write : string) (form : dict) (db : Db) : option json :=
  match db_retry_keys db !! (actor_sha256 a, key) with
  | Some r =>
      if bool_decide (ir_request_sha256 r = request_fingerprint ("form:" +:+ write) (JObj form) /\ (now < ir_expires_at r)%Z)
      then ir_response r else None
  | None => None
  end.

(** * Laws *)

(** The operation leaves the row that reserves its own key alone. *)
Definition leaves_key (k : string * string) (operation : M exn Db dict) : Prop :=
  forall db, db_retry_keys (operation db).2 !! k = db_retry_keys db !! k.

Lemma purge_lookup now k db r :
  db_retry_keys (purge now db) !! k = Some r <-> db_retry_keys db !! k = Some r /\ (now < ir_expires_at r)%Z.
Proof. unfold purge. cbn. by rewrite map_lookup_filter_Some. Qed.

(** What one first use of a key does, on every way its operation ends. *)
Lemma execute_once_fresh now a key sha op db o db' :
  db_retry_keys (purge now db) !! (actor_sha256 a, key) = None -> leaves_key (actor_sha256 a, key) op ->
  execute_once now a key sha op db = (o, db') ->
  let k := (actor_sha256 a, key) in
  let reserved := mkIdempotencyRecord (take_str 255 a) sha None now (now + ttl_seconds * SECOND)%Z in
  let db0 := set_db_retry_keys (<[k := reserved]> (db_retry_keys (purge now db))) (purge now db) in
  (exists e, (op db0).1 = Raise e /\ o = Raise e /\ db' = db) \/
  (exists r, (op db0).1 = Ok r /\ o = Ok (r, false) /\ ran_ok r = false /\ db' = set_db_retry_keys (delete k (db_retry_keys (op db0).2)) (op db0).2) \/
  (exists r, (op db0).1 = Ok r /\ o = Ok (r, false) /\ ran_ok r = true /\
     db' = set_db_retry_keys (<[k := set_ir_response (Some (JObj r)) reserved]> (db_retry_keys (op db0).2)) (op db0).2).
Proof.
  intros Hnone Hop H k reserved db0. unfold execute_once, atomic, mbind, M_bind, modify, gets in H. cbv beta iota zeta in H.
  rewrite Hnone in H. fold k reserved in H. fold db0 in H.
  assert (db_retry_keys (op db0).2 !! k = Some reserved) as Hres by (rewrite Hop; cbn; by rewrite lookup_insert_eq).
  destruct (op db0) as [[r|e] db1] eqn:Hr; cbn [fst snd] in *; [|left; simplify_eq; eauto].
  right. destruct (ran_ok r) eqn:Hok; cbn [negb] in H.
  - unfold save_response, act in H. rewrite Hres in H. right. simplify_eq/=. eauto.
  - left. simplify_eq/=. eauto.
Qed.

Lemma execute_once_known now a key sha op db record :
  db_retry_keys (purge now db) !! (actor_sha256 a, key) = Some record ->
  execute_once now a key sha op db =
    if bool_decide (ir_request_sha256 record = sha) then
      match ir_response record with
      | Some (JObj response) => (Ok (response, true), purge now db)
      | _ => (Raise (RuntimeError "An idempotency record has no committed response."), db)
      end
    else (Raise (IdempotencyConflict "This retry key was already used for a different request."), db).
Proof.
  intros Hk. unfold execute_once, atomic, mbind, M_bind, modify, gets, raise_if. cbv beta iota zeta. rewrite Hk.
  case_bool_decide; cbn [negb]; [|done]. by destruct (ir_response record) as [[]|].
Qed.

Lemma once_then_known now now' a key sha op db db' r :
  db_retry_keys (purge now db) !! (actor_sha256 a, key) = None -> leaves_key (actor_sha256 a, key) op ->
  (now <= now' < now + ttl_seconds * SECOND)%Z ->
  execute_once now a key sha op db = (Ok (r, false), db') -> ran_ok r = true ->
  forall op', execute_once now' a key sha op' db' = (Ok (r, true), purge now' db').
Proof.
  intros Hnone Hop Hnow H Hr op'. set (k := (actor_sha256 a, key)) in *.
  destruct (execute_once_fresh _ _ _ _ _ _ _ _ Hnone Hop H) as [(e & _ & ? & _)|[(r' & _ & [= <-] & Hok & Hdb)|(r' & _ & [= <-] & Hok & ->)]];
    [done|congruence|].
  set (record := set_ir_response _ _). rewrite (execute_once_known _ _ _ _ _ _ record); [by rewrite bool_decide_eq_true_2|].
  apply purge_lookup. cbn. rewrite lookup_insert_eq. split; [done|]. cbn. lia.
Qed.

(** A retried request is answered once: whatever a key's first use answered, if it
    ran, the same request under it is answered the same until the key expires and
    the operation is not run again, the state moving only by expired keys; a
    different request under it is refused and changes nothing.  One that was
    refused, or raised, keeps nothing, so the key is free. *)
Theorem execute_once_runs_once (now now' : Z) (a key sha sha' : string) (op op' : M exn Db dict) (db db' : Db) (r : dict) :
  db_retry_keys (purge now db) !! (actor_sha256 a, key) = None -> leaves_key (actor_sha256 a, key) op ->
  (now <= now' < now + ttl_seconds * SECOND)%Z ->
  execute_once now a key sha op db = (Ok (r, false), db') ->
  if ran_ok r then
    execute_once now' a key sha op' db' = (Ok (r, true), purge now' db') /\
    (sha' <> sha -> execute_once now' a key sha' op' db' =
       (Raise (IdempotencyConflict "This retry key was already used for a different request."), db'))
  else db_retry_keys db' !! (actor_sha256 a, key) = None.
Proof.
  intros Hnone Hop Hnow H. set (k := (actor_sha256 a, key)) in *.
  destruct (execute_once_fresh _ _ _ _ _ _ _ _ Hnone Hop H) as [(e & _ & ? & _)|[(r' & _ & [= <-] & Hok & Hdb)|(r' & _ & [= <-] & Hok & Hdb)]];
    [done|subst db'; rewrite Hok..].
  - cbn. by rewrite lookup_delete_eq.
  - set (reserved := mkIdempotencyRecord _ _ _ _ _) in *.
    set (db1 := (op _).2). set (record := set_ir_response (Some (JObj r)) reserved).
    assert (db_retry_keys (purge now' (set_db_retry_keys (<[k := record]> (db_retry_keys db1)) db1)) !! k = Some record) as Hk.
    { apply purge_lookup. cbn. rewrite lookup_insert_eq. split; [done|]. cbn. lia. }
    split.
    + rewrite (execute_once_known _ _ _ _ _ _ record) by exact Hk. by rewrite bool_decide_eq_true_2.
    + intros Hne. rewrite (execute_once_known _ _ _ _ _ _ record) by exact Hk. by rewrite bool_decide_eq_false_2.
Qed.

(** A retry key's fingerprint tells any two requests apart, and no others: the same
    command sent with its keys in another order is the same request. *)
Theorem request_fingerprint_exact (name name' : string) (envelope envelope' : json) :
  Inj (=) (=) sha256 ->
  request_fingerprint name envelope = request_fingerprint name' envelope' <->
  name = name' /\ normal envelope = normal envelope'.
Proof.
  intros Hinj. unfold request_fingerprint. split.
  - intros H%(inj sha256)%dumps_eq. cbn in H. by simplify_eq.
  - intros [-> H]. f_equal. apply dumps_eq. cbn. by rewrite H.
Qed.

(** A form resent after its first post committed finds its answer until the key
    expires, and another post under the key finds none. *)
Theorem form_answer_finds (now now' : Z) (a key write : string) (form form' : dict) (op : M exn Db dict) (db db' : Db) (r : dict) :
  Inj (=) (=) sha256 ->
  db_retry_keys (purge now db) !! (actor_sha256 a, key) = None -> leaves_key (actor_sha256 a, key) op ->
  (now <= now' < now + ttl_seconds * SECOND)%Z ->
  execute_form_once now a key write form op db = (Ok (r, false), db') -> ran_ok r = true ->
  form_answer now' a key write form db' = Some (JObj r) /\
  (normal (JObj form') <> normal (JObj form) -> form_answer now' a key write form' db' = None).
Proof.
  intros Hinj Hnone Hop Hnow H Hok.
  destruct (execute_once_fresh _ _ _ _ _ _ _ _ Hnone Hop H) as [(e & _ & ? & _)|[(r' & _ & [= <-] & Hno & _)|(r' & _ & [= <-] & _ & Hdb)]];
    [done|congruence|subst db']. unfold form_answer. cbn [db_retry_keys set_db_retry_keys]. rewrite lookup_insert_eq.
  cbn [ir_request_sha256 ir_expires_at ir_response set_ir_response]. split.
  - rewrite bool_decide_eq_true_2; [done|]. split; [done|]. lia.
  - intros Hne. rewrite bool_decide_eq_false_2; [done|]. intros [Heq _]. apply Hne.
    unfold request_fingerprint in Heq. apply (inj sha256) in Heq. apply dumps_eq in Heq.
    unfold request_material in Heq. cbn [normal map] in Heq. injection Heq as Heq. cbn [normal map]. congruence.
Qed.
End Keys.

Definition demo_operation : M exn Db dict := _ ← on_commit RingDoorbell; mret [("ok", JBool true); ("n", JNum 1)].

Lemma demo_leaves_key k : leaves_key k demo_operation.
Proof. done. Qed.

Definition demo_kept_db : Db :=
  (execute_once (fun s => s) 60 0 "bot" "k1" "f1" demo_operation empty_db).2.

Lemma execute_once_runs_once_witness :
  execute_once (fun s => s) 60 (30 * SECOND) "bot" "k1" "f1" (raise (ValueError "never run")) demo_kept_db
    = (Ok ([("ok", JBool true); ("n", JNum 1)], true), purge (30 * SECOND) demo_kept_db).
Proof.
  refine (proj1 (execute_once_runs_once (fun s => s) 60 0 (30 * SECOND) "bot" "k1" "f1" "f2" demo_operation _ empty_db demo_kept_db
    [("ok", JBool true); ("n", JNum 1)] _ (demo_leaves_key _) _ _)).
  - reflexivity.
  - unfold SECOND. lia.
  - unfold demo_kept_db. vm_compute. reflexivity.
Defined.

Lemma request_fingerprint_exact_witness :
  Inj (=) (=) (fun s : string => s) /\
  request_fingerprint (fun s => s) "a" (JObj [("x", JNum 1); ("y", JNull)]) =
  request_fingerprint (fun s => s) "a" (JObj [("y", JNull); ("x", JNum 1)]).
Proof.
  assert (Inj (=) (=) (fun s : string => s)) as Hid by (intros x y H; exact H).
  split; [exact Hid|]. apply (request_fingerprint_exact (fun s => s) _ _ _ _ Hid). split; reflexivity.
Defined.

Lemma form_answer_finds_witness :
  let db' := (execute_form_once (fun s => s) 60 0 "ada" "k1" "pin" [("x", JNum 1)] demo_operation empty_db).2 in
  form_answer (fun s => s) 5 "ada" "k1" "pin" [("x", JNum 1)] db' = Some (JObj [("ok", JBool true); ("n", JNum 1)]) /\
  form_answer (fun s => s) 5 "ada" "k1" "pin" [("x", JNum 2)] db' = None.
Proof.
  intros db'.
  destruct (form_answer_finds (fun s => s) 60 0 5 "ada" "k1" "pin" [("x", JNum 1)] [("x", JNum 2)] demo_operation empty_db db'
    [("ok", JBool true); ("n", JNum 1)]) as [H1 H2].
  - intros x y H. exact H.
  - reflexivity.
  - apply demo_leaves_key.
  - unfold SECOND. lia.
  - vm_compute. reflexivity.
  - reflexivity.
  - split; [exact H1|]. apply H2. vm_compute. discriminate.
Defined.
