(* ===== verification/Approvals.v ===== *)
(** Changes a credential may ask for but only a person may allow: holding one, what
    it is about, and how an undecided one ends ([approvals.py], [held_answer.py]).
    [Decisions] approves and rejects. *)
From stdpp Require Import base gmap strings list pretty.
From Stdlib Require Import Ascii ZArith Lia.
From S2P Require Import Prelude PyStr Json Refusals Security Models AgentDevices AgentRegistry AgentAccess Specs Policy.

#[local] Open Scope string_scope.

Definition MAX_PENDING_PER_ACTOR : nat := 10.
Definition AWAITING_APPROVAL := "awaiting_approval".
Definition LAPSED_NOTE := "It expired without an answer.".

(** [ApprovalSubject] *)
Record ApprovalSubject : Type := mkApprovalSubject { as_kind : string; as_resource_key : string; as_baseline : dict }.

(** A dict, as a test: not empty. *)
Definition dict_true (d : dict) : bool := match d with [] => false | _ => true end.

Section Approvals.
Variable host : Site.

(** [_window()] *)
Definition window : Z := (h_approval_window_hours host * HOUR)%Z.

(** The value [fingerprint] digests. *)
Definition approval_material (capability target : string) (payload baseline : dict) : json :=
  JObj [("capability", JStr capability); ("target", JStr target); ("payload", JObj payload); ("baseline", JObj baseline)].

(** [fingerprint(capability, target, payload, baseline)], of the target's text. *)
Definition fingerprint (capability target : string) (payload baseline : dict) : string :=
  h_sha256 host (dumps (approval_material capability target payload baseline)).

(** [_baseline_of(resource)] *)
Definition baseline_of (r : ManagedResource) : dict :=
  [("spec", JObj (mr_spec r)); ("enabled", JBool (mr_enabled r)); ("generation", JNum (mr_generation r));
   ("observed", JObj (if dict_true (mr_status r) then default [] (h_record_spec host (mr_kind r) (mr_status r)) else []))].

(** [_declaration_subject(command, target)] *)
Definition declaration_subject (command : json) (target : option Target) (db : Db) : option ApprovalSubject :=
  match target with
  | Some t =>
      match resource_of (target_str t) db with
      | None => None
      | Some r => Some (mkApprovalSubject (mr_kind r) (mr_key r) (baseline_of r))
      end
  | None => Some (mkApprovalSubject (attr_str "kind" command) (attr_str "key" command) [])
  end.

(** The fields of a read a change shows: those it sends, and the record's name. *)
Definition shown_baseline (spec : CapabilitySpec) (baseline : dict) : dict :=
  let read := default (JObj baseline) (dget "resource" baseline) in
  let sent := omap (fun key => match dget key baseline with Some v => Some (key, v) | None => None end) (sp_fields spec) in
  dmerge [("name", JStr (match read with JObj r => item_name r | _ => "" end))] sent.

(** [_record_subject(spec, target)] *)
Definition record_subject (spec : CapabilitySpec) (target : option Target) (db : Db) : outcome exn (option ApprovalSubject) :=
  let kind := str_or (sp_subject_resource spec) (sp_name spec) in
  match target with
  | None => Ok (Some (mkApprovalSubject kind "" []))
  | Some t =>
      if decide (sp_subject_resource spec = "") then Ok (Some (mkApprovalSubject kind (target_str t) []))
      else
        match h_get_resource host (sp_subject_resource spec) t db with
        | Ok baseline =>
            let baseline := if dict_true baseline && negb (bool_decide (sp_effect spec = DESTRUCTIVE_EFFECT))
                            then shown_baseline spec baseline else baseline in
            Ok (Some (mkApprovalSubject kind (target_str t) baseline))
        | Raise (Host RecordNotFound _ _) => Ok None
        | Raise (Host UnsupportedResourceOperation _ _) | Raise (InvalidResourceInput _ _) =>
            Ok (Some (mkApprovalSubject kind (target_str t) []))
        | Raise e => Raise e
        end
  end.

(** [approval_subject(spec, command, target)] *)
Definition approval_subject (spec : CapabilitySpec) (command : json) (target : option Target) (db : Db)
  : outcome exn (option ApprovalSubject) :=
  if decide (sp_effect spec = READ_EFFECT) then Ok None
  else if decide (sp_subject_resource spec = DECLARATIONS) then Ok (declaration_subject command target db)
  else record_subject spec target db.

(** [serialize_approval(held)] *)
Definition serialize_approval (held : ApprovalRequest) : json :=
  JObj [("id", JStr (ar_id held)); ("capability", JStr (ar_capability held)); ("target", JStr (ar_target held));
        ("resource_kind", JStr (ar_resource_kind held)); ("resource_key", JStr (ar_resource_key held));
        ("state", JStr (approval_value (ar_state held))); ("requested_actor", JStr (ar_requested_actor held));
        ("requested_interface", JStr (ar_requested_interface held)); ("reason", JStr (ar_reason held));
        ("requested_at", JStr (isoformat (ar_created_at held))); ("expires_at", JStr (isoformat (ar_expires_at held)));
        ("content_fingerprint", JStr (ar_content_fingerprint held));
        ("review_url", JStr (h_site_url host (h_approval_entry host (ar_id held))))].

(** [_awaiting(held, repeated=...)] *)
Definition awaiting (held : ApprovalRequest) (repeated : bool) : dict :=
  [("ok", JBool true); ("status", JStr AWAITING_APPROVAL); ("queued", JBool false); ("applied", JBool false);
   ("message", JStr ("This change is waiting for a person to approve it in HQ. Nothing " +:+
      "has been written and nothing is queued. Tell whoever asked, with " +:+
      "the request id, and stop; approving it is not something a token " +:+ "can do."));
   ("repeated", JBool repeated); ("approval", serialize_approval held)].

(** [is_held(result)] *)
Definition is_held (result : dict) : bool := bool_decide (dget "status" result = Some (JStr AWAITING_APPROVAL)).

(** The row [_asked_already] looks for. *)
Definition same_ask (capability target digest : string) (p : Principal) (r : ApprovalRequest) : bool :=
  bool_decide (approval_key r = (capability, target, digest, actor p, interface p, person_key p)) && is_pending r.

(** [_asked_already(capability, target, digest, principal)]: newest first, as the model orders them. *)
Definition asked_already (capability target digest : string) (p : Principal) (db : Db) : option ApprovalRequest :=
  first_where (same_ask capability target digest p) (rev (order_by_time ar_created_at (db_approvals db))).

(** [held.save(force_insert=True)], under [one_pending_approval_per_requested_change]. *)
Definition insert_approval (held : ApprovalRequest) : M exn Db unit :=
  act (fun db =>
    if is_pending held && existsb (fun r => is_pending r && bool_decide (approval_key r = approval_key held)) (db_approvals db)
    then (Raise (IntegrityError "one_pending_approval_per_requested_change"), db)
    else (Ok tt, set_db_approvals (db_approvals db ++ [held])%list db)).

(** The ceiling [hold_for_approval] counts against. *)
Definition outstanding_of (p : Principal) (db : Db) : nat :=
  count_where (fun r => bool_decide (ar_requested_actor r = actor p) && bool_decide (ar_requested_person_key r = person_key p) && is_pending r)
    (db_approvals db).

Definition unreadable_subject : exn := Host UnreadableSubject
  ("This needs a person to approve it, but HQ could not read what it " +:+
   "would change. Check the target and ask again.") JNull.

(** The row [hold_for_approval] builds. *)
Definition requested (now : Z) (spec : CapabilitySpec) (payload : dict) (command : json) (target : option Target) (p : Principal)
    (subject : ApprovalSubject) (id : N) : ApprovalRequest :=
  mkApprovalRequest (pretty id) (sp_name spec) (target_text target) (JObj payload) (as_kind subject)
    (as_resource_key subject) (JObj (as_baseline subject))
    (fingerprint (sp_name spec) (target_text target) payload (as_baseline subject))
    (actor p) (interface p) (device p) (person_key p)
    (take_str 300 (attr_str "reason" command)) A_PENDING (now + window)%Z "" "" None "" (JObj []) now.

(** [hold_for_approval(spec, payload, command, target, principal=...)] *)
Definition hold_for_approval (now : Z) (spec : CapabilitySpec) (payload : dict) (command : json) (target : option Target) (p : Principal)
  : M exn Db (option dict) :=
  if is_interactive p then mret None
  else
    db ← get;
    found ← lift (approval_subject spec command target db);
    match found with
    | None => raise unreadable_subject
    | Some subject =>
        let digest := fingerprint (sp_name spec) (target_text target) payload (as_baseline subject) in
        existing ← gets (asked_already (sp_name spec) (target_text target) digest p);
        match existing with
        | Some held => mret (Some (awaiting held true))
        | None =>
            outstanding ← gets (outstanding_of p);
            _ ← raise_if (MAX_PENDING_PER_ACTOR <=? outstanding)%nat (Host TooManyPendingApprovals
                  ("This caller already has " +:+ counted outstanding "change" "changes" +:+ " waiting for " +:+
                   "approval. Nothing further is accepted from it until those are " +:+ "answered.") JNull);
            id ← take_id;
            let held := requested now spec payload command target p subject id in
            saved ← try (_ ← atomic (insert_approval held); mret (awaiting held false))
              (fun e => match e with
                        | IntegrityError _ => Some (
                            again ← gets (asked_already (sp_name spec) (target_text target) digest p);
                            match again with Some r => mret (awaiting r true) | None => raise e end)
                        | _ => None
                        end);
            mret (Some saved)
        end
    end.

(** * What its asker and the sweep read *)

(** A row by its primary key. *)
Definition approval_by (id : string) (db : Db) : option ApprovalRequest :=
  first_where (fun r => bool_decide (ar_id r = id)) (db_approvals db).

(** [asked_by(approval_id, principal=...)] *)
Definition asked_by (approval_id : string) (p : Principal) (db : Db) : option ApprovalRequest :=
  match h_uuid host approval_id with
  | None => None
  | Some id => first_where (fun r => bool_decide (ar_id r = id) && bool_decide (ar_requested_actor r = actor p) &&
                                     bool_decide (ar_requested_interface r = interface p)) (db_approvals db)
  end.

(** [outcome(held)] *)
Definition outcome_of (now : Z) (held : ApprovalRequest) : option json :=
  let state := if is_pending held && (ar_expires_at held <=? now)%Z then A_EXPIRED else ar_state held in
  match state with
  | A_PENDING => None
  | A_APPROVED => Some (ar_result held)
  | A_REJECTED =>
      let note := strip (ar_decision_note held) in
      Some (refuse "declined" (if decide (note = "") then "A person declined this change in HQ."
                               else "A person declined this change in HQ: " +:+ note) JNull)
  | A_EXPIRED => Some (refuse "expired" ("Nobody decided this change before its request lapsed, so nothing was written. " +:+
                                         "Ask again if it is still wanted.") JNull)
  | A_STALE => Some (refuse "stale" ("What this change acts on moved after it was asked for, so nothing was written. " +:+
                                     "Ask again if it is still wanted.") JNull)
  end.

(** [held.save(update_fields=...)] of the row of this id. *)
Definition save_approval (id : string) (f : ApprovalRequest -> ApprovalRequest) : M exn Db unit :=
  act (fun db =>
    match approval_by id db with
    | None => (Raise (DatabaseError "Save with update_fields did not affect any rows."), db)
    | Some _ => (Ok tt, set_db_approvals (update_where (fun r => bool_decide (ar_id r = id)) f (db_approvals db)) db)
    end).

(** What [_settle] writes. *)
Definition settled_as (now : Z) (state : ApprovalState) (note : string) (r : ApprovalRequest) : ApprovalRequest :=
  set_ar_decision_note note (set_ar_decided_at (Some now) (set_ar_state state r)).

(** [_settle(held, state, note, ...)] *)
Definition settle (now : Z) (held : ApprovalRequest) (state : ApprovalState) (note : string) : M exn Db unit :=
  atomic (save_approval (ar_id held) (settled_as now state note)).

Definition lapsed (now : Z) (r : ApprovalRequest) : bool := is_pending r && (ar_expires_at r <=? now)%Z.

(** [lapse_expired()] *)
Definition lapse_one (now : Z) (count : nat) (id : string) : M exn Db nat :=
  atomic (
    found ← gets (fun db => first_where (fun r => bool_decide (ar_id r = id) && lapsed now r) (db_approvals db));
    match found with
    | None => mret count
    | Some held => _ ← settle now held A_EXPIRED LAPSED_NOTE; mret (S count)
    end).

Definition lapse_expired (now : Z) : M exn Db nat :=
  ids ← gets (fun db => map ar_id (rows_where (lapsed now) (db_approvals db)));
  fold_each (lapse_one now) 0%nat ids.

(** [reads_every_hold(principal)] *)
Definition reads_every_hold (p : Principal) : bool :=
  among (interface p) OPERATOR_INTERFACES || bool_decide (interface p = INTERNAL_INTERFACE).

(** [pending(principal=..., limit=...)] *)
Definition pending (now : Z) (p : Principal) (limit : option nat) (db : Db) : outcome exn (list ApprovalRequest) :=
  match require p READ with
  | Some e => Raise e
  | None =>
      let waiting := rows_where (fun r => is_pending r && (now <? ar_expires_at r)%Z) (db_approvals db) in
      let waiting := if reads_every_hold p then waiting
                     else rows_where (fun r => bool_decide (ar_requested_actor r = actor p) && bool_decide (ar_requested_interface r = interface p)) waiting in
      let waiting := order_by_time ar_created_at waiting in
      Ok (match limit with Some n => take n waiting | None => waiting end)
  end.

Definition approval_error (said : string) : exn := Host ApprovalError said JNull.

(** What a malformed id is: Django's [ValidationError], which is no [ValueError]. *)
Definition malformed_id : exn := DjangoValidationError "the input is invalid." JNull.

(** [_decidable(approval_id, principal)] *)
Definition decidable_ (now : Z) (approval_id : string) : M exn Db ApprovalRequest :=
  match h_uuid host approval_id with
  | None => raise malformed_id
  | Some id =>
      found ← gets (approval_by id);
      match found with
      | None => raise (approval_error "That approval request was not found.")
      | Some held =>
          _ ← raise_if (negb (is_pending held)) (approval_error ("That request is already " +:+ lower (approval_display (ar_state held)) +:+ "."));
          if (ar_expires_at held <=? now)%Z then
            (_ ← settle now held A_EXPIRED LAPSED_NOTE;
             raise (Host Settled "That request expired before it was answered. Ask for it again if it is still wanted." JNull))
          else mret held
      end
  end.

(** [_require_person(principal, held)] *)
Definition require_person (p : Principal) (held : ApprovalRequest) : M exn Db unit :=
  _ ← raise_if (negb (is_interactive p))
        (AuthorizationError "Approve this in the browser, signed in. An agent cannot approve a change.");
  raise_if (bool_decide (actor p = ar_requested_actor held))
    (AuthorizationError "A request cannot be approved by whoever asked for it.").

(** [_require_asker_running(held)] *)
Definition require_asker_running (held : ApprovalRequest) : M exn Db unit :=
  brakes ← held_askers;
  found ← gets (fun db => existsb (fun r => bool_decide (ar_id r = ar_id held) &&
      (brakes : string -> string -> string -> bool) (ar_requested_actor r) (ar_requested_interface r) (ar_requested_device r)) (db_approvals db));
  raise_if found (approval_error
    "The agent that asked for this is paused or blocked. Resume or allow it to approve this, or decline it.").
End Approvals.

(** * What the requests are held to *)

(** How many requests one asker has outstanding. *)
Definition outstanding (a key : string) (db : Db) : nat :=
  count_where (fun r => bool_decide (ar_requested_actor r = a) && bool_decide (ar_requested_person_key r = key) && is_pending r) (db_approvals db).

(** A decision is a person's, and never the asker's own. *)
Definition decided_by_a_person (r : ApprovalRequest) : Prop :=
  ar_state r = A_APPROVED \/ ar_state r = A_REJECTED ->
  ar_decided_interface r ∈ INTERACTIVE_INTERFACES /\ ar_decided_actor r <> ar_requested_actor r.

(** Ids are distinct and taken from the supply, the database's rules hold of every
    row, one ask is outstanding once, and no asker past the ceiling. *)
Record approvals_ok (db : Db) : Prop := {
  apk_rules : forall r, r ∈ db_approvals db -> approval_rules r = true;
  apk_ids : NoDup (map ar_id (db_approvals db));
  apk_below : forall r, r ∈ db_approvals db -> exists n, ar_id r = pretty n /\ (n < db_next_id db)%N;
  apk_one : one_each is_pending approval_key (db_approvals db);
  apk_decided : forall r, r ∈ db_approvals db -> decided_by_a_person r;
  apk_ceiling : forall a key, (outstanding a key db <= MAX_PENDING_PER_ACTOR)%nat;
}.

Section OneEach.
Context {A K : Type} (p q : A -> bool) (key : A -> K) (f : A -> A).

(** Rows taken out of [p] leave at most one for each key. *)
Lemma one_each_drop rows :
  (forall r, r ∈ rows -> q r = true -> p (f r) = false) -> one_each p key rows -> one_each p key (update_where q f rows).
Proof.
  unfold one_each, rows_where, update_where. induction rows as [|x xs IH]; intros Hf Hnd; [done|].
  assert (forall k, k ∈ map key (List.filter p (map (fun r => if q r then f r else r) xs)) -> k ∈ map key (List.filter p xs)) as Hsub.
  { intros k (y & -> & Hy)%list_elem_of_fmap. apply list_elem_of_In, filter_In in Hy as [Hy Hp].
    apply list_elem_of_In, list_elem_of_fmap in Hy as (z & -> & Hz). destruct (q z) eqn:Hq.
    - rewrite (Hf z) in Hp; [done|by right|done].
    - apply list_elem_of_fmap. exists z. split; [done|]. by apply list_elem_of_In, filter_In; split; [apply list_elem_of_In|]. }
  cbn [map List.filter] in *. destruct (q x) eqn:Hq.
  - rewrite (Hf x) by (done || by left). apply IH; [intros; apply Hf; [by right|done]|].
    destruct (p x); [|done]. cbn in Hnd. by apply NoDup_cons in Hnd as [_ ?].
  - destruct (p x); cbn [map] in *.
    + apply NoDup_cons in Hnd as [Hx Hnd]. apply NoDup_cons. split; [by intros Hk%Hsub|].
      apply IH; [intros; apply Hf; [by right|done]|done].
    + apply IH; [intros; apply Hf; [by right|done]|done].
Qed.

Lemma count_update_le rows :
  (forall r, r ∈ rows -> q r = true -> p (f r) = true -> p r = true) -> (count_where p (update_where q f rows) <= count_where p rows)%nat.
Proof.
  unfold count_where, rows_where, update_where. induction rows as [|x xs IH]; intros Hf; [done|].
  cbn [map List.filter]. assert (forall r, r ∈ xs -> q r = true -> p (f r) = true -> p r = true) as Hxs by (intros; apply Hf; [by right|done..]).
  specialize (IH Hxs). destruct (q x) eqn:Hq.
  - destruct (p (f x)) eqn:Hp; [rewrite (Hf x) by (done || by left); cbn; lia|]. destruct (p x); cbn; lia.
  - destruct (p x); cbn; lia.
Qed.
End OneEach.

Lemma approval_by_in id db r : approval_by id db = Some r -> r ∈ db_approvals db /\ ar_id r = id.
Proof. intros [? H]%first_where_some. by apply bool_decide_eq_true in H. Qed.

Lemma approval_unique db r x :
  NoDup (map ar_id (db_approvals db)) -> r ∈ db_approvals db -> x ∈ db_approvals db -> ar_id r = ar_id x -> r = x.
Proof.
  apply unique_by.
Qed.

Lemma approval_by_unique db r :
  NoDup (map ar_id (db_approvals db)) -> r ∈ db_approvals db -> approval_by (ar_id r) db = Some r.
Proof.
  intros Hnd Hr. unfold approval_by. destruct (first_where_is_some (fun x => bool_decide (ar_id x = ar_id r)) _ r Hr) as [x Hx].
  { by apply bool_decide_eq_true. }
  rewrite Hx. f_equal. apply first_where_some in Hx as [Hin Hid%bool_decide_eq_true].
  eapply approval_unique; eauto.
Qed.

(** Settling one request by its id keeps them well formed: the columns a decision
    writes leave the request's own, and what they say is what the rules ask. *)
Lemma settle_row_ok db id f :
  approvals_ok db ->
  (forall r, ar_id (f r) = ar_id r /\ ar_requested_actor (f r) = ar_requested_actor r /\ ar_requested_person_key (f r) = ar_requested_person_key r) ->
  (forall r, r ∈ db_approvals db -> ar_id r = id -> is_pending (f r) = false /\ approval_rules (f r) = true /\ decided_by_a_person (f r)) ->
  approvals_ok (set_db_approvals (update_where (fun r => bool_decide (ar_id r = id)) f (db_approvals db)) db).
Proof.
  intros [Hr Hi Hb Ho Hd Hc] Hkeep Hf. constructor; cbn.
  - intros r (x & Hx & ->)%elem_of_update_where. case_bool_decide; [by apply Hf|by apply Hr].
  - rewrite map_update_where; [done|]. intros r _ _. apply Hkeep.
  - intros r (x & Hx & ->)%elem_of_update_where. case_bool_decide; [|by apply Hb].
    destruct (Hkeep x) as [-> _]. by apply Hb.
  - apply one_each_drop; [|done]. intros r Hin Hid%bool_decide_eq_true. by apply Hf.
  - intros r (x & Hx & ->)%elem_of_update_where. case_bool_decide; [by apply Hf|by apply Hd].
  - intros a k. etransitivity; [|apply (Hc a k)]. unfold outstanding. cbn. apply count_update_le.
    intros r Hin Hid%bool_decide_eq_true. destruct (Hf r Hin Hid) as [-> _]. by rewrite andb_false_r.
Qed.

Lemma approvals_frame db db' :
  db_approvals db' = db_approvals db -> (db_next_id db <= db_next_id db')%N -> approvals_ok db -> approvals_ok db'.
Proof.
  intros Ha Hn [Hr Hi Hb Ho Hd Hc]. constructor; rewrite ?Ha; try done.
  - intros r (n & ? & ?)%Hb. exists n. split; [done|lia].
  - intros a k. unfold outstanding. rewrite Ha. apply Hc.
Qed.

Lemma save_approval_inv id f db o db' :
  save_approval id f db = (o, db') ->
  (o = Raise (DatabaseError "Save with update_fields did not affect any rows.") /\ db' = db /\ approval_by id db = None) \/
  (o = Ok tt /\ db' = set_db_approvals (update_where (fun r => bool_decide (ar_id r = id)) f (db_approvals db)) db).
Proof. unfold save_approval. intros H. run. destruct (approval_by id db); simplify_eq; auto. Qed.

Lemma settle_ok now held state note db o db' :
  settle now held state note db = (o, db') -> state = A_EXPIRED \/ state = A_STALE ->
  (forall r, r ∈ db_approvals db -> ar_id r = ar_id held -> is_pending r = true) ->
  approvals_ok db -> approvals_ok db'.
Proof.
  intros H Hs Hp Hok. unfold settle in H.
  assert (db' = db \/ db' = set_db_approvals (update_where (fun r => bool_decide (ar_id r = ar_id held)) (settled_as now state note) (db_approvals db)) db) as [->| ->]; [|done|].
  { run. all: try by left. apply save_approval_inv in H as [(? & _ & _)|(_ & ->)]; [done|by right]. }
  apply settle_row_ok; [done|done|]. intros r Hr Hid.
  pose proof (apk_rules _ Hok _ Hr) as Hrules. specialize (Hp _ Hr Hid).
  unfold is_pending in Hp. apply bool_decide_eq_true in Hp.
  unfold approval_rules in Hrules. apply andb_true_iff in Hrules as [_ Hda].
  rewrite Hp in Hda. rewrite (bool_decide_eq_false_2 (A_PENDING = A_APPROVED \/ A_PENDING = A_REJECTED)) in Hda by naive_solver.
  apply eqb_prop, eq_sym, negb_false_iff, bool_decide_eq_true in Hda.
  split_and!.
  - unfold is_pending, settled_as. cbn. apply bool_decide_eq_false. by destruct Hs as [->| ->].
  - unfold approval_rules, settled_as. cbn. rewrite Hda. by destruct Hs as [->| ->].
  - unfold decided_by_a_person, settled_as. cbn. destruct Hs as [->| ->]; by intros [?|?].
Qed.

Section Holding.
Variable host : Site.

Lemma asked_already_some capability target digest p db r :
  asked_already capability target digest p db = Some r ->
  r ∈ db_approvals db /\ is_pending r = true /\ approval_key r = (capability, target, digest, actor p, interface p, person_key p).
Proof.
  intros [Hr Hs]%first_where_some. rewrite elem_of_rev, order_by_time_perm in Hr.
  unfold same_ask in Hs. by apply andb_true_iff in Hs as [?%bool_decide_eq_true ?].
Qed.

Lemma asked_already_none capability target digest p db r :
  asked_already capability target digest p db = None -> r ∈ db_approvals db -> is_pending r = true ->
  approval_key r <> (capability, target, digest, actor p, interface p, person_key p).
Proof.
  intros Hn Hr Hp Hk. pose proof (first_where_none _ _ Hn r) as Hf.
  rewrite elem_of_rev, order_by_time_perm in Hf. specialize (Hf Hr). unfold same_ask in Hf.
  by rewrite bool_decide_eq_true_2, Hp in Hf.
Qed.

(** What one call of [hold_for_approval] does, for a caller that is no person. *)
Lemma hold_inv now spec payload command target p db o db' :
  is_interactive p = false ->
  hold_for_approval host now spec payload command target p db = (o, db') ->
  (exists e, o = Raise e /\ db' = db) \/
  exists subject, approval_subject host spec command target db = Ok (Some subject) /\
    let digest := fingerprint host (sp_name spec) (target_text target) payload (as_baseline subject) in
    let held := requested host now spec payload command target p subject (db_next_id db) in
    (exists r, asked_already (sp_name spec) (target_text target) digest p db = Some r /\ o = Ok (Some (awaiting host r true)) /\ db' = db) \/
    (asked_already (sp_name spec) (target_text target) digest p db = None /\ (outstanding_of p db < MAX_PENDING_PER_ACTOR)%nat /\
     o = Ok (Some (awaiting host held false)) /\
     db' = set_db_approvals (db_approvals db ++ [held])%list (set_db_next_id (db_next_id db + 1)%N db)).
Proof.
  intros Hi H. unfold hold_for_approval in H. rewrite Hi in H.
  destruct (approval_subject host spec command target db) as [[subject|]|e] eqn:Hs.
  2: { left. unfold get, lift, mbind, M_bind in H. rewrite Hs in H. run. eauto. }
  2: { left. unfold get, lift, mbind, M_bind in H. rewrite Hs in H. simplify_eq. eauto. }
  rewrite (bind_step _ _ _ db db) in H by done.
  rewrite (bind_step _ _ _ (Some subject) db) in H by (unfold lift; by rewrite Hs).
  set (digest := fingerprint host (sp_name spec) (target_text target) payload (as_baseline subject)) in *.
  cbv beta iota zeta in H. fold digest in H.
  rewrite (bind_step _ _ _ (asked_already (sp_name spec) (target_text target) digest p db) db) in H by done.
  destruct (asked_already (sp_name spec) (target_text target) digest p db) as [r|] eqn:Ha.
  { right. exists subject. split; [done|]. cbn zeta. fold digest. rewrite Ha. left. exists r. by run. }
  rewrite (bind_step _ _ _ (outstanding_of p db) db) in H by done.
  destruct (MAX_PENDING_PER_ACTOR <=? outstanding_of p db)%nat eqn:Hc.
  { left. unfold raise_if in H. run. eauto. }
  apply Nat.leb_gt in Hc.
  right. exists subject. split; [done|]. cbn zeta. fold digest. right. split_and!; [done|done|..].
  all: set (held := requested host now spec payload command target p subject (db_next_id db)) in *.
  all: set (db1 := set_db_next_id (db_next_id db + 1)%N db) in *.
  all: assert (insert_approval held db1 = (Ok tt, set_db_approvals (db_approvals db ++ [held])%list db1)) as Hins
    by (unfold insert_approval, act; destruct (existsb _ (db_approvals db1)) eqn:He; [exfalso|by rewrite andb_false_r];
        apply existsb_exists in He as (r & Hr & [Hp Hk%bool_decide_eq_true]%andb_true_iff);
        apply (asked_already_none _ _ _ _ _ r Ha); [by apply list_elem_of_In|done|exact Hk]).
  all: unfold try, atomic, mbind, M_bind, take_id, act, raise_if, mret, M_ret in H; cbn [db_next_id] in H;
    fold held in H; fold db1 in H; rewrite Hins in H; by simplify_eq.
Qed.

Lemma hold_ok now spec payload command target p db o db' :
  hold_for_approval host now spec payload command target p db = (o, db') -> approvals_ok db -> approvals_ok db'.
Proof.
  intros H Hok. destruct (is_interactive p) eqn:Hi.
  { unfold hold_for_approval in H. rewrite Hi in H. by run. }
  apply hold_inv in H as [(? & _ & ->)|(subject & _ & [(? & _ & _ & ->)|(Ha & Hc & _ & ->)])]; [done..| |done].
  destruct Hok as [Hr Hids Hb Ho Hd Hcl]. constructor; cbn.
  - intros r [Hin| ->%list_elem_of_singleton]%elem_of_app; [by apply Hr|done].
  - rewrite map_app. apply NoDup_app. split_and!; [done| |apply NoDup_singleton].
    intros k (x & -> & Hx)%list_elem_of_fmap Hk%list_elem_of_singleton. destruct (Hb _ Hx) as (n & Hn & Hlt).
    rewrite Hn in Hk. change (pretty n = pretty (db_next_id db)) in Hk. apply (inj pretty) in Hk. lia.
  - intros r [(n & ? & ?)%Hb| ->%list_elem_of_singleton]%elem_of_app; [exists n|exists (db_next_id db)]; (split; [done|lia]).
  - unfold one_each, rows_where. rewrite List.filter_app, map_app. cbn. apply NoDup_app. split_and!; [done| |apply NoDup_singleton].
    intros k (x & -> & Hx)%list_elem_of_fmap Hk%list_elem_of_singleton.
    apply list_elem_of_In, filter_In in Hx as [Hx Hp]. by eapply asked_already_none; [exact Ha|by apply list_elem_of_In|..].
  - intros r [Hin| ->%list_elem_of_singleton]%elem_of_app; [by apply Hd|]. by intros [?|?].
  - intros a k. specialize (Hcl a k). unfold outstanding, count_where, rows_where in *. cbn [db_approvals set_db_approvals].
    set (held := requested _ _ _ _ _ _ _ _ _) in *. rewrite List.filter_app, length_app. cbn [List.filter].
    unfold outstanding_of, count_where, rows_where in Hc. change (is_pending held) with true. rewrite andb_true_r.
    change (ar_requested_actor held) with (actor p). change (ar_requested_person_key held) with (person_key p).
    destruct (bool_decide (actor p = a) && bool_decide (person_key p = k)) eqn:Hak; cbn [length]; [|lia].
    apply andb_true_iff in Hak as [<-%bool_decide_eq_true <-%bool_decide_eq_true].
    unfold MAX_PENDING_PER_ACTOR in *. lia.
Qed.

(** Holding a call writes the request and nothing else: no declaration moves, no
    operation is queued, nothing runs on commit.  The row is pending, its asker's
    own, and digests the call and what it was compared with; the same ask again,
    while it waits, is answered with that row and writes nothing at all. *)
Theorem hold_writes_only_the_request (now now' : Z) (spec : CapabilitySpec) (payload : dict) (command : json) (target : option Target)
    (p : Principal) (db db' : Db) (answer : dict) :
  is_interactive p = false ->
  hold_for_approval host now spec payload command target p db = (Ok (Some answer), db') ->
  exists held subject,
    approval_subject host spec command target db = Ok (Some subject) /\
    held ∈ db_approvals db' /\ is_pending held = true /\
    approval_key held = (sp_name spec, target_text target,
      fingerprint host (sp_name spec) (target_text target) payload (as_baseline subject), actor p, interface p, person_key p) /\
    (db' = db \/ db' = set_db_approvals (db_approvals db ++ [held])%list (set_db_next_id (db_next_id db + 1)%N db)) /\
    is_held answer = true /\ dget "approval" answer = Some (serialize_approval host held) /\
    (approval_subject host spec command target db' = Ok (Some subject) ->
     exists again, hold_for_approval host now' spec payload command target p db' = (Ok (Some (awaiting host again true)), db') /\
       approval_key again = approval_key held).
Proof.
  intros Hi H. pose proof H as Hrun.
  apply hold_inv in H as [(? & ? & _)|(subject & Hs & Hcase)]; [done| |done]. cbn zeta in Hcase.
  set (digest := fingerprint host (sp_name spec) (target_text target) payload (as_baseline subject)) in *.
  assert (exists held repeated, answer = awaiting host held repeated /\ held ∈ db_approvals db' /\ is_pending held = true /\
    approval_key held = (sp_name spec, target_text target, digest, actor p, interface p, person_key p) /\
    (db' = db \/ db' = set_db_approvals (db_approvals db ++ [held])%list (set_db_next_id (db_next_id db + 1)%N db)))
    as (held & repeated & -> & Hin & Hp & Hk & Hdb).
  { destruct Hcase as [(r & Ha & ? & ->)|(Ha & _ & ? & ->)]; simplify_eq.
    - apply asked_already_some in Ha as (? & ? & ?). exists r, true. split_and!; try done. by left.
    - eexists _, false. split_and!; [done| |done|done|by right]. cbn. apply elem_of_app. right. by left. }
  exists held, subject. split_and!; try done. intros Hs'.
  destruct (hold_for_approval host now' spec payload command target p db') as [o2 db2] eqn:H2.
  destruct (asked_already (sp_name spec) (target_text target) digest p db') as [again|] eqn:Hag.
  2: { by destruct (asked_already_none _ _ _ _ _ held Hag). }
  exists again. apply asked_already_some in Hag as Hsome. destruct Hsome as (_ & _ & ->). split; [|done].
  unfold hold_for_approval in H2. rewrite Hi in H2.
  unfold get, lift, gets, mbind, M_bind, mret, M_ret in H2. rewrite Hs' in H2. cbv beta iota zeta in H2. fold digest in H2.
  rewrite Hag in H2. by rewrite <- H2.
Qed.
End Holding.

Section Lapsing.
Variables (now : Z).

Definition lapse_row : ApprovalRequest -> ApprovalRequest := settled_as now A_EXPIRED LAPSED_NOTE.

(** The state once the requests of [ids] have been lapsed. *)
Definition lapsed_db (ids : list string) (db : Db) : Db :=
  set_db_approvals (update_where (fun r => lapsed now r && bool_decide (ar_id r ∈ ids)) lapse_row (db_approvals db)) db.

Lemma lapse_row_id r : ar_id (lapse_row r) = ar_id r.
Proof. done. Qed.

Lemma lapse_one_step db ids id r0 count :
  approvals_ok db -> r0 ∈ db_approvals db -> ar_id r0 = id -> lapsed now r0 = true -> id ∉ ids ->
  lapse_one now count id (lapsed_db ids db) = (Ok (S count), lapsed_db (ids ++ [id]) db).
Proof.
  intros Hok Hr0 Hid Hl Hnot.
  assert (r0 ∈ db_approvals (lapsed_db ids db)) as Hin.
  { cbn. apply elem_of_update_where. exists r0. split; [done|]. rewrite (bool_decide_eq_false_2 (ar_id r0 ∈ ids)) by congruence. by rewrite andb_false_r. }
  destruct (first_where_is_some (fun r => bool_decide (ar_id r = id) && lapsed now r) _ r0 Hin) as [held Hheld];
    [by rewrite bool_decide_eq_true_2|].
  destruct (first_where_is_some (fun r => bool_decide (ar_id r = id)) _ r0 Hin) as [row Hrow];
    [by rewrite bool_decide_eq_true_2|].
  pose proof Hheld as Hid'. apply first_where_some in Hid' as [_ [Hid'%bool_decide_eq_true _]%andb_true_iff].
  unfold lapse_one, settle, save_approval, approval_by, atomic, gets, act, mbind, M_bind, mret, M_ret.
  rewrite Hheld. rewrite Hid'. rewrite Hrow. f_equal.
  unfold lapsed_db. cbn [db_approvals set_db_approvals]. rewrite update_where_twice.
  unfold set_db_approvals. cbn. f_equal. apply map_ext_in. intros r Hr%list_elem_of_In. cbn zeta.
  destruct (lapsed now r) eqn:Hlr; cbn [andb].
  - destruct (decide (ar_id r ∈ ids)) as [Hi|Hi].
    + rewrite !(bool_decide_eq_true_2 (ar_id r ∈ ids)), (bool_decide_eq_true_2 (ar_id r ∈ (ids ++ [id])%list)) by (done || by apply elem_of_app; left).
      rewrite lapse_row_id, bool_decide_eq_false_2; [done|]. congruence.
    + rewrite (bool_decide_eq_false_2 (ar_id r ∈ ids)) by done. case_bool_decide as He; case_bool_decide as Ha; try done.
      * destruct Ha. apply elem_of_app. right. apply list_elem_of_singleton. done.
      * apply elem_of_app in Ha as [?| ?%list_elem_of_singleton]; congruence.
  - rewrite bool_decide_eq_false_2; [done|]. intros He. assert (r = r0) as -> by (eapply approval_unique; [apply (apk_ids _ Hok)|done..|congruence]).
    congruence.
Qed.

Lemma lapse_all db ids todo count :
  approvals_ok db -> NoDup (ids ++ todo) -> (forall id, id ∈ todo -> exists r, r ∈ db_approvals db /\ ar_id r = id /\ lapsed now r = true) ->
  fold_each (lapse_one now) count todo (lapsed_db ids db) = (Ok (length todo + count)%nat, lapsed_db (ids ++ todo) db).
Proof.
  intros Hok. revert ids count. induction todo as [|id todo IH]; intros ids count Hnd Hl.
  - cbn. by rewrite app_nil_r.
  - cbn [fold_each]. destruct (Hl id) as (r & Hr & Hid & Hlr); [by left|].
    assert (id ∉ ids) as Hnot.
    { apply NoDup_app in Hnd as (_ & Hnd & _). intros Hi. apply (Hnd _ Hi). by left. }
    rewrite (bind_step _ _ _ _ _ (lapse_one_step _ _ _ _ count Hok Hr Hid Hlr Hnot)).
    rewrite IH.
    + rewrite <- app_assoc. f_equal. f_equal. cbn. lia.
    + by rewrite <- app_assoc.
    + intros i Hi. apply Hl. by right.
Qed.

Lemma lapsed_none db : lapsed_db [] db = db.
Proof.
  unfold lapsed_db. rewrite update_where_none; [by destruct db|]. intros r _.
  by rewrite (bool_decide_eq_false_2 (ar_id r ∈ [])), andb_false_r by (intros H; by apply elem_of_nil in H).
Qed.

Lemma lapse_expired_runs db :
  approvals_ok db ->
  lapse_expired now db = (Ok (count_where (lapsed now) (db_approvals db)),
    set_db_approvals (update_where (lapsed now) lapse_row (db_approvals db)) db).
Proof.
  intros Hok. set (ids := map ar_id (rows_where (lapsed now) (db_approvals db))).
  unfold lapse_expired. rewrite (bind_step _ _ _ ids db) by done.
  rewrite <- (lapsed_none db) at 1. rewrite lapse_all; [|done| |].
  - rewrite Nat.add_0_r. f_equal; [by unfold count_where, ids; rewrite length_map|]. unfold lapsed_db. f_equal.
    apply update_where_ext. intros r Hr. destruct (lapsed now r) eqn:Hl; [|done]. cbn [andb].
    rewrite bool_decide_eq_true_2; [done|]. apply list_elem_of_fmap. exists r. split; [done|]. by apply elem_of_rows_where.
  - cbn [app]. apply NoDup_map_rows, (apk_ids _ Hok).
  - intros id (r & -> & [? ?]%elem_of_rows_where)%list_elem_of_fmap. eauto.
Qed.

(** The hourly sweep marks every request past its expiry lapsed, each exactly once,
    says how many it marked, and moves nothing else. *)
Theorem lapse_expired_lapses (db : Db) :
  approvals_ok db ->
  lapse_expired now db = (Ok (count_where (lapsed now) (db_approvals db)),
    set_db_approvals (update_where (lapsed now) lapse_row (db_approvals db)) db) /\
  rows_where (lapsed now) (db_approvals (lapse_expired now db).2) = [].
Proof.
  intros Hok. pose proof (lapse_expired_runs db Hok) as Heq. split; [done|]. rewrite Heq.
  cbn [snd db_approvals set_db_approvals]. apply elem_of_nil_inv. intros x Hin.
  apply elem_of_rows_where in Hin as [(r & Hr & ->)%elem_of_update_where Hl].
  destruct (lapsed now r) eqn:Hlr; [done|congruence].
Qed.
End Lapsing.

Section Reading.
Variable host : Site.

(** Who reads what of the queue: with [read], a person, the host's shell and HQ itself
    read every request still to be decided; any other caller exactly the ones it
    asked for on the interface it asked on.  Never one past its expiry. *)
Theorem pending_shows_its_own (now : Z) (p : Principal) (db : Db) (rows : list ApprovalRequest) :
  pending now p None db = Ok rows ->
  holds p READ /\
  forall r, r ∈ rows <-> r ∈ db_approvals db /\ outcome_of now r = None /\
    (reads_every_hold p = true \/ (ar_requested_actor r = actor p /\ ar_requested_interface r = interface p)).
Proof.
  unfold pending. destruct (require p READ) eqn:Hr; [done|]. intros [= <-]. apply require_none in Hr. split; [done|].
  assert (forall r, outcome_of now r = None <-> is_pending r && (now <? ar_expires_at r)%Z = true) as Hout.
  { intros r. unfold outcome_of, is_pending. rewrite Z.ltb_antisym. case_bool_decide as Hs; cbn [andb].
    - destruct (ar_expires_at r <=? now)%Z; cbn; [done|]. by rewrite Hs.
    - by destruct (ar_state r). }
  intros r. rewrite order_by_time_perm, Hout. destruct (reads_every_hold p).
  - rewrite elem_of_rows_where. naive_solver.
  - rewrite !elem_of_rows_where, !andb_true_iff, !bool_decide_eq_true. naive_solver.
Qed.

Lemma normal_material capability target payload baseline :
  normal (approval_material capability target payload baseline) =
  JObj [("baseline", normal (JObj baseline)); ("capability", JStr capability); ("payload", normal (JObj payload)); ("target", JStr target)].
Proof. reflexivity. Qed.

(** An approval covers exactly the call that was held and what it was compared with:
    one character of the payload, the target or the baseline apart is another digest. *)
Theorem fingerprint_covers (capability capability' target target' : string) (payload payload' baseline baseline' : dict) :
  Inj (=) (=) (h_sha256 host) ->
  fingerprint host capability target payload baseline = fingerprint host capability' target' payload' baseline' <->
  capability = capability' /\ target = target' /\ normal (JObj payload) = normal (JObj payload') /\
  normal (JObj baseline) = normal (JObj baseline').
Proof.
  intros Hinj. unfold fingerprint. split.
  - intros H%(inj (h_sha256 host))%dumps_eq. rewrite !normal_material in H. revert H.
    generalize (normal (JObj payload)), (normal (JObj payload')), (normal (JObj baseline)), (normal (JObj baseline')).
    intros ? ? ? ? [= <- <- <- <-]. done.
  - intros (-> & -> & Hp & Hb). f_equal. apply dumps_eq. rewrite !normal_material. congruence.
Qed.
End Reading.

Definition their_bot_remover : Principal := mkPrincipal "bot" MCP_INTERFACE {[ READ; MANAGE_CONTACTS ]} "" {[ READ; MANAGE_CONTACTS ]} "9f2c" ∅ "n1".

Definition asked_db : Db := (hold_for_approval demo_host 0 demo_spec [] (JObj []) (Some (TText "c1")) their_bot_remover bot_known_db).2.

Lemma bot_known_approvals_ok : approvals_ok bot_known_db.
Proof.
  constructor; cbn; try by constructor.
  - intros r Hr. by apply elem_of_nil in Hr.
  - intros r Hr. by apply elem_of_nil in Hr.
  - intros r Hr. by apply elem_of_nil in Hr.
  - intros a k. cbn. unfold MAX_PENDING_PER_ACTOR. lia.
Qed.

Lemma asked_approvals_ok : approvals_ok asked_db.
Proof.
  unfold asked_db. destruct (hold_for_approval _ _ _ _ _ _ _ bot_known_db) as [o db'] eqn:H.
  eapply hold_ok; [exact H|apply bot_known_approvals_ok].
Qed.

Lemma hold_writes_only_the_request_witness :
  exists answer held, hold_for_approval demo_host 0 demo_spec [] (JObj []) (Some (TText "c1")) their_bot_remover bot_known_db = (Ok (Some answer), asked_db) /\
    held ∈ db_approvals asked_db /\ is_pending held = true /\ is_held answer = true.
Proof.
  destruct (hold_for_approval demo_host 0 demo_spec [] (JObj []) (Some (TText "c1")) their_bot_remover bot_known_db) as [[[answer|]|e] db'] eqn:H;
    try (exfalso; apply (f_equal fst) in H; vm_compute in H; discriminate H).
  assert (db' = asked_db) as -> by exact (eq_sym (f_equal snd H)).
  destruct (hold_writes_only_the_request demo_host 0 9 demo_spec [] (JObj []) (Some (TText "c1")) their_bot_remover bot_known_db asked_db answer eq_refl H)
    as (held & subject & _ & Hin & Hp & _ & _ & Hh & _).
  exists answer, held. done.
Defined.

Lemma lapse_expired_lapses_witness :
  (lapse_expired (25 * HOUR) asked_db).1 = Ok 1%nat /\
  rows_where (lapsed (25 * HOUR)) (db_approvals (lapse_expired (25 * HOUR) asked_db).2) = [].
Proof.
  destruct (lapse_expired_lapses (25 * HOUR) asked_db asked_approvals_ok) as [H1 H2].
  split; [rewrite H1; vm_compute; reflexivity|exact H2].
Defined.

Lemma pending_shows_its_own_witness :
  exists rows, pending 5 their_bot_remover None asked_db = Ok rows /\ length rows = 1%nat /\
  forall r, r ∈ rows <-> r ∈ db_approvals asked_db /\ outcome_of 5 r = None /\
    (reads_every_hold their_bot_remover = true \/ (ar_requested_actor r = "bot" /\ ar_requested_interface r = MCP_INTERFACE)).
Proof.
  destruct (pending 5 their_bot_remover None asked_db) as [rows|e] eqn:H.
  - exists rows. split; [done|]. split; [|apply (pending_shows_its_own _ _ _ _ H)].
    apply (f_equal (fun o => match o with Ok l => length l | Raise _ => 7%nat end)) in H. vm_compute in H. symmetry. exact H.
  - exfalso. vm_compute in H. discriminate H.
Defined.

Lemma fingerprint_covers_witness :
  Inj (=) (=) (h_sha256 demo_host) /\
  fingerprint demo_host "a" "t" [("x", JNum 1)] [] <> fingerprint demo_host "a" "t" [("x", JNum 2)] [].
Proof.
  assert (Inj (=) (=) (h_sha256 demo_host)) as Hid by (intros x y H; exact H).
  split; [exact Hid|]. intros H. apply (fingerprint_covers demo_host _ _ _ _ _ _ _ _ Hid) in H as (_ & _ & H & _).
  vm_compute in H. discriminate H.
Defined.
