(* ===== verification/Capabilities.v ===== *)
(** The one way a capability runs ([capabilities.py], [call_envelope.py]): authority, the
    target, the retry key, the command's shape, consent, and then the handler, once.

    Every door runs a call here.  The handler and the validator are the spec's own. *)
From stdpp Require Import base gmap strings list pretty.
From Stdlib Require Import Ascii ZArith Lia.
From S2P Require Import Prelude PyStr Json Refusals Security Models AuditTrail AgentAccess Specs Denials Policy Idempotency Approvals.

#[local] Open Scope string_scope.

(** A capability's answer, and whether it is replayed. *)
Record Ran : Type := mkRan { rn_answer : dict; rn_replayed : bool }.

(** [{**answer}] of an envelope, which is always an object. *)
Definition fields (j : json) : dict := match j with JObj d => d | _ => [] end.

(** [Ran(refuse(code, message, details))] *)
Definition ran_refusal (code message : string) (details : json) : Ran := mkRan (fields (refuse code message details)) false.

(** [KEYLESS_INTERFACES] *)
Definition KEYLESS_INTERFACES : list string := [CLI_INTERFACE].

(** [key_required(effect, principal)] *)
Definition key_required (effect : string) (p : Principal) : bool :=
  negb (bool_decide (effect = READ_EFFECT)) && negb (among (interface p) KEYLESS_INTERFACES).

(** [authorize_capability(spec, principal)] *)
Definition authorize_capability (spec : CapabilitySpec) (p : Principal) : outcome exn unit :=
  match require_all p (sp_required_capabilities spec) with Some e => Raise e | None => Ok tt end.

(** * Targets *)

(** [int(text)] of text [INTEGER_TARGET] matches. *)
Definition int_text (s : string) : option Z :=
  match s with
  | String "-" digits => Z.opp <$> int_of digits
  | _ => int_of s
  end.

(** [kind.coerce(target)] *)
Definition coerce (kind : string) (target : option Target) : outcome exn Target :=
  if decide (kind = "integer") then
    match target with
    | Some (TNumber z) => Ok (TNumber z)
    | Some (TText s) => match int_text s with Some z => Ok (TNumber z) | None => Raise (ValueError "invalid literal for int()") end
    | None => Raise (OtherError "TypeError" "int() argument must be a string or a number")
    end
  else Ok (TText (match target with Some t => target_str t | None => "None" end)).

(** [_target_keyword(spec, target)] *)
Definition target_keyword (spec : CapabilitySpec) (target : option Target) : outcome exn (option (string * Target)) :=
  if decide (sp_target_kind spec = "") then Ok None
  else
    match target_keyword_name (sp_target_kind spec) with
    | None => Raise (OtherError "KeyError" (sp_target_kind spec))
    | Some keyword => match coerce (sp_target_kind spec) target with Ok t => Ok (Some (keyword, t)) | Raise e => Raise e end
    end.

(** [_INTEGER_DIGITS.fullmatch(value)] *)
Definition integer_digits (s : string) : bool :=
  let digits := match s with String "-" r => r | _ => s end in
  str_all ascii_digit digits && negb (bool_decide (digits = "")).

(** The target's field of [CallEnvelope] with [_as_its_kind]. *)
Definition target_reads (kind : string) (target : Target) : bool :=
  match target with
  | TNumber _ => true
  | TText s => negb (bool_decide (s = "")) && (negb (bool_decide (kind = "integer")) || integer_digits s)
  end.

Section Capabilities.
Variable host : Site.

(** [_moment(value)]: [moment] strips the text, and reads no empty one. *)
Definition moment_reads (text : string) : bool :=
  negb (bool_decide (strip text = "")) && h_moment host (strip text).

(** [read_call(spec, sent)]: the refusal of what a call carries beside its command. *)
Definition read_call (spec : CapabilitySpec) (target : option Target) (expected_updated_at : option string) : option Refusal :=
  if (match target with Some t => target_reads (sp_target_kind spec) t | None => true end) &&
     (match expected_updated_at with Some text => moment_reads text | None => true end)
  then None
  else let words := h_envelope_words host (sp_name spec) target expected_updated_at in
       Some (mapped (PydanticValidationError words.1 words.2) (sp_name spec)).

(** [_target_refusal(spec, target, expected_updated_at)] *)
Definition target_refusal (spec : CapabilitySpec) (target : option Target) (expected_updated_at : option string) : option dict :=
  let kinded := negb (bool_decide (sp_target_kind spec = "")) in
  let field := JObj [("field", JStr "target")] in
  if kinded && bool_decide (target = None) then
    Some (fields (refuse "target_required" (sp_name spec +:+ " requires a target: send the record it acts on as target.") field))
  else if negb kinded && negb (bool_decide (target = None)) then
    Some (fields (refuse "target_not_allowed" (sp_name spec +:+ " does not accept a target: send the call without one.") field))
  else fields ∘ answer <$> read_call spec target expected_updated_at.

(** * Retry keys *)

(** [_valid_key(given)] *)
Definition valid_key (given : option json) : outcome exn string :=
  match given with
  | None | Some JNull | Some (JStr "") => Ok ""
  | Some (JStr s) => validate_key s
  | Some _ => Raise (InvalidIdempotencyKey KEY_SHAPE)
  end.

(** [_retry_key(spec, payload, sent)] *)
Definition retry_key (spec : CapabilitySpec) (payload : dict) (sent : option string) : M exn Db (string * dict) :=
  if bool_decide (sp_effect spec = READ_EFFECT) then mret ("", payload)
  else
    beside ← lift (valid_key (JStr <$> sent));
    inside ← lift (valid_key (dget IDEMPOTENCY_FIELD payload));
    _ ← raise_if (negb (bool_decide (beside = "")) && negb (bool_decide (inside = "")) && negb (bool_decide (beside = inside)))
          (InvalidIdempotencyKey "Two different retry keys were sent with one request.");
    let key := str_or beside inside in
    let rest := dwithout IDEMPOTENCY_FIELD payload in
    if sp_declares_idempotency_key spec then
      (if decide (key = "") then
         (n ← take_id; mret (key, dset IDEMPOTENCY_FIELD (JStr ("command:" +:+ h_token host n)) rest))
       else mret (key, dset IDEMPOTENCY_FIELD (JStr key) rest))
    else mret (key, rest).

(** * The run *)

(** [validate_command(spec, payload, target)] *)
Definition validate_command (spec : CapabilitySpec) (payload : dict) (target : option Target) : M exn Db json :=
  match sp_kept spec, target with
  | Some kept, Some _ =>
      bound ← lift (target_keyword spec target);
      match bound with
      | None => raise (ValueError "not enough values to unpack")
      | Some (_, current) => db ← get; record ← lift (kept current db); lift (sp_validate spec (dmerge record payload))
      end
  | _, _ => lift (sp_validate spec payload)
  end.

(** [_consent(spec, payload, command, target, principal)] *)
Definition consent (now : Z) (spec : CapabilitySpec) (payload : dict) (command : json) (target : option Target) (p : Principal)
  : M exn Db (option dict * Principal) :=
  d ← gets (decide_policy host spec p command target);
  if decide (dc_rule d = DENY) then raise (PolicyDenied (sp_name spec +:+ " is refused by " +:+ dc_source d +:+ "."))
  else if decide (dc_rule d = APPROVE) then
    (held ← hold_for_approval host now spec payload command target p; mret (held, p))
  else if overrides_a_hold d then mret (None, with_approval p (dc_source d))
  else mret (None, p).

(** [_run(spec, command, principal=..., target=..., expected_updated_at=..., sent=...)] *)
Definition run_handler (now : Z) (spec : CapabilitySpec) (command : json) (p : Principal) (target : option Target)
    (expected_updated_at : option string) (sent : list string) : M exn Db dict :=
  arguments ← lift (target_keyword spec target);
  result ← sp_handler spec (mkCall command p arguments
    (if sp_takes_stale_write_token spec then Some expected_updated_at else None)
    (if sp_takes_sent_fields spec then Some sent else None) now);
  _ ← (if bool_decide (sp_effect spec = READ_EFFECT) then mret tt else on_commit AskSoon);
  _ ← (if among GOVERN_AGENTS (sp_required_capabilities spec) then on_commit StandingChanged else mret tt);
  mret result.

Definition call_envelope (payload : dict) (target : option Target) (expected_updated_at : option string) : json :=
  JObj [("command", JObj payload); ("target", target_json target);
        ("expected_updated_at", match expected_updated_at with Some s => JStr s | None => JNull end)].

(** [_once(spec, key, request, act, actor=...)], where a conflict of the key is a refusal. *)
Definition once (now : Z) (spec : CapabilitySpec) (key : string) (request : json) (run : M exn Db dict) (a : string) : M exn Db Ran :=
  try
    (answered ← execute_once (h_sha256 host) (h_idempotency_ttl_seconds host) now a key
       (request_fingerprint (h_sha256 host) (sp_name spec) request) run;
     mret (mkRan answered.1 answered.2))
    (fun e => match e with IdempotencyConflict reason => Some (mret (ran_refusal "idempotency_conflict" reason JNull)) | _ => None end).

Definition KEY_REQUIRED : Ran := ran_refusal "idempotency_key_required"
  ("A retry key is required for capabilities that change state: send a new one as " +:+
   "payload.idempotency_key, and the same one again when you retry this change.")
  (JObj [("field", JStr "payload.idempotency_key")]).

(** [_authorized_run(spec, payload, principal=..., target=..., expected_updated_at=..., sent_key=...)] *)
Definition authorized_run (now : Z) (spec : CapabilitySpec) (payload : dict) (p : Principal) (target : option Target)
    (expected_updated_at sent_key : option string) : M exn Db Ran :=
  _ ← lift (authorize_capability spec p);
  match target_refusal spec target expected_updated_at with
  | Some refused => mret (mkRan refused false)
  | None =>
      keyed ← retry_key spec payload sent_key;
      let '(key, payload) := (keyed : string * dict) in
      if bool_decide (key = "") && key_required (sp_effect spec) p then mret KEY_REQUIRED
      else
        command ← validate_command spec payload target;
        consented ← consent now spec payload command target p;
        let '(held, acting) := (consented : option dict * Principal) in
        match held with
        | Some answer => mret (mkRan answer false)
        | None =>
            let run := run_handler now spec command acting target expected_updated_at (keys payload) in
            if decide (key = "") then (answer ← run; mret (mkRan answer false))
            else once now spec key (call_envelope payload target expected_updated_at) run (agent_subject p)
        end
  end.

(** [adapter_refusal(name, exc, principal=...)]: an authorization refusal, and a held call
    that could not wait, is recorded. *)
Definition adapter_refusal (now : Z) (name : string) (e : exn) (p : option Principal) : M exn Db dict :=
  let refused := mapped e name in
  match p with
  | Some p =>
      if is_authorization_error e || is_refused_hold e then
        (_ ← record_denial host now (interface p) (r_code refused) (actor p) name "" "" true (device p);
         mret (fields (answer refused)))
      else mret (fields (answer refused))
  | None => mret (fields (answer refused))
  end.

Definition unknown_capability (name : string) : Ran := ran_refusal "unknown_capability"
  ("Unknown capability " +:+ repr name +:+ ". describe_capabilities lists the ones this caller may run.")
  (JObj [("next", next_call "describe_capabilities")]).

(** [run_capability(name, payload, ...)] *)
Definition run_capability (now : Z) (name : string) (payload : dict) (p : Principal) (target : option Target)
    (expected_updated_at idempotency_key : option string) : M exn Db Ran :=
  match registered host name with
  | None => mret (unknown_capability name)
  | Some spec =>
      try (authorized_run now spec payload p target expected_updated_at idempotency_key)
        (fun e => Some
           match e with
           | InvalidIdempotencyKey reason => mret (ran_refusal "invalid_idempotency_key" reason JNull)
           | _ => refused ← adapter_refusal now name e (Some p); mret (mkRan refused false)
           end)
  end.

(** [execute_capability(name, payload, ...)] *)
Definition execute_capability (now : Z) (name : string) (payload : dict) (p : Principal) (target : option Target)
    (expected_updated_at : option string) : M exn Db dict :=
  ran ← run_capability now name payload p target expected_updated_at None; mret (rn_answer ran).

(** [execute_approved(spec, command, target, principal=..., sent=...)] *)
Definition execute_approved (now : Z) (spec : CapabilitySpec) (command : json) (target : option Target) (p : Principal) (sent : list string)
  : M exn Db dict :=
  run_handler now spec command p target None sent.

(** * What a caller is shown *)

(** [DOTTED_NAME.match(name)], of a stripped name. *)
Definition dotted_word (w : string) : bool :=
  match w with
  | "" => false
  | String c r => is_lower c && str_all (fun d => is_lower d || ascii_digit d || bool_decide (d = "_"%char)) r
  end.

Definition is_dotted_name (name : string) : bool := forallb dotted_word (split_on "."%char name).

(** [_narrowed(name, resource)] *)
Definition narrowed (name resource : string) : outcome exn (list CapabilitySpec) :=
  if negb (bool_decide (name = "")) && negb (is_dotted_name name) then
    Raise (QueryRefusal "capabilities: name is a dotted capability name or a prefix of one.")
  else if negb (bool_decide (resource = "")) && negb (among resource (h_resources host)) then
    Raise (QueryRefusal "That list name matches nothing HQ serves; describe_resources names each one.")
  else Ok (List.filter (fun spec =>
    (bool_decide (name = "") || bool_decide (sp_name spec = name) || startswith (name +:+ ".") (sp_name spec)) &&
    (bool_decide (resource = "") || bool_decide (sp_subject_resource spec = resource))) (h_capabilities host)).

(** [describe_capabilities(principal=..., name=..., resource=...)]: each capability described,
    with its [permitted]; the rest of a description is the spec's own declaration. *)
Definition describe_capabilities (p : Principal) (name resource : string) : outcome exn (list (CapabilitySpec * bool)) :=
  match narrowed (strip name) (strip resource) with
  | Raise e => Raise e
  | Ok specs => Ok (map (fun spec => (spec, permits p (sp_required_capabilities spec)))
      (List.filter (fun spec => could_ever_hold p (sp_required_capabilities spec)) specs))
  end.
End Capabilities.

(** * The gate before the handler *)

(** The same capability with another handler. *)
Definition with_handler (h : Call -> M exn Db dict) (s : CapabilitySpec) : CapabilitySpec :=
  mkCapabilitySpec (sp_name s) (sp_title s) (sp_effect s) (sp_required_capabilities s) (sp_target_kind s) (sp_subject_resource s)
    (sp_fields s) (sp_declares_idempotency_key s) (sp_takes_stale_write_token s) (sp_takes_sent_fields s) (sp_kept s) (sp_validate s) h.

(** A call the gate lets through: its key, what its command was read from, the command and
    whom it runs as. *)
Record Passed : Type := mkPassed { ps_key : string; ps_payload : dict; ps_command : json; ps_acting : Principal }.

Section Gate.
Variable host : Site.

(** [_authorized_run] up to the handler: an answer of its own, or the call to run. *)
Definition gate (now : Z) (spec : CapabilitySpec) (payload : dict) (p : Principal) (target : option Target)
    (expected_updated_at sent_key : option string) : M exn Db (Ran + Passed) :=
  _ ← lift (authorize_capability spec p);
  match target_refusal host spec target expected_updated_at with
  | Some refused => mret (inl (mkRan refused false))
  | None =>
      keyed ← retry_key host spec payload sent_key;
      let '(key, payload) := (keyed : string * dict) in
      if bool_decide (key = "") && key_required (sp_effect spec) p then mret (inl KEY_REQUIRED)
      else
        command ← validate_command spec payload target;
        consented ← consent host now spec payload command target p;
        let '(held, acting) := (consented : option dict * Principal) in
        match held with
        | Some answer => mret (inl (mkRan answer false))
        | None => mret (inr (mkPassed key payload command acting))
        end
  end.

(** What runs once the gate is passed. *)
Definition proceed (now : Z) (spec : CapabilitySpec) (p : Principal) (target : option Target) (expected_updated_at : option string)
    (go : Passed) : M exn Db Ran :=
  let run := run_handler now spec (ps_command go) (ps_acting go) target expected_updated_at (keys (ps_payload go)) in
  if decide (ps_key go = "") then (answer ← run; mret (mkRan answer false))
  else once host now spec (ps_key go) (call_envelope (ps_payload go) target expected_updated_at) run (agent_subject p).

Lemma authorized_run_gate now spec payload p target stamp sent db :
  authorized_run host now spec payload p target stamp sent db =
  match gate now spec payload p target stamp sent db with
  | (Ok (inl r), db') => (Ok r, db')
  | (Ok (inr go), db') => proceed now spec p target stamp go db'
  | (Raise e, db') => (Raise e, db')
  end.
Proof.
  unfold authorized_run, gate, lift. unfold mbind at 1 6, M_bind at 1 6.
  destruct (authorize_capability spec p); [|done]. destruct (target_refusal host spec target stamp); [done|].
  unfold mbind at 1 5, M_bind at 1 5. destruct (retry_key host spec payload sent db) as [[[key rest]|e] db1]; [|done].
  destruct (bool_decide (key = "") && _); [done|].
  unfold mbind at 1 4, M_bind at 1 4. destruct (validate_command spec rest target db1) as [[command|e] db2]; [|done].
  unfold mbind at 1 3, M_bind at 1 3. destruct (consent host now spec rest command target p db2) as [[[[held|] acting]|e] db3]; done.
Qed.

Lemma gate_handler h now spec payload p target stamp sent :
  gate now (with_handler h spec) payload p target stamp sent = gate now spec payload p target stamp sent.
Proof. reflexivity. Qed.

(** * Each step of the gate, run backwards *)

(** The state a step leaves when it writes keys at most, and when it writes requests too. *)
Lemma same_keys (db : Db) : exists n, db = set_db_next_id n db.
Proof. exists (db_next_id db). by destruct db. Qed.

Lemma same_requests (db : Db) : exists n rows, db = set_db_next_id n (set_db_approvals rows db).
Proof. exists (db_next_id db), (db_approvals db). by destruct db. Qed.

Lemma retry_key_inv spec payload sent db o db' :
  retry_key host spec payload sent db = (o, db') ->
  (exists n, db' = set_db_next_id n db) /\
  forall key rest, o = Ok (key, rest) -> bool_decide (sp_effect spec = READ_EFFECT) = false ->
    exists beside inside, valid_key (JStr <$> sent) = Ok beside /\ valid_key (dget IDEMPOTENCY_FIELD payload) = Ok inside /\
      key = str_or beside inside.
Proof.
  unfold retry_key. destruct (bool_decide (sp_effect spec = READ_EFFECT)) eqn:He.
  { intros [-> ->]%ret_inv. split; [apply same_keys|done]. }
  destruct (valid_key (JStr <$> sent)) as [beside|e]; [|intros [= <- <-]; split; [apply same_keys|done]].
  destruct (valid_key (dget _ payload)) as [inside|e]; [|intros [= <- <-]; split; [apply same_keys|done]].
  cbn [lift mbind M_bind]. unfold lift, mbind, M_bind, raise_if, raise, mret, M_ret, take_id, act.
  destruct (_ && _ && _); [intros [= <- <-]; split; [apply same_keys|done]|].
  destruct (sp_declares_idempotency_key spec); [destruct (decide (str_or beside inside = ""))|]; cbv beta; intros [<- <-]%pair_eq; (split;
    [first [by eexists|apply same_keys]|intros ? ? Hok _; exists beside, inside; by simplify_eq]).
Qed.

Lemma validate_command_state spec payload target db o db' : validate_command spec payload target db = (o, db') -> db' = db.
Proof.
  unfold validate_command. destruct (sp_kept spec) as [kept|], target as [t|]; try by intros [_ ->]%lift_inv.
  unfold lift, mbind, M_bind, get. destruct (target_keyword spec (Some t)) as [[[k current]|]|e]; [|by intros [= _ <-]..].
  destruct (kept current db); by intros [= _ <-].
Qed.

Lemma decide_policy_same spec p command target db db' :
  db_rules db' = db_rules db -> db_resources db' = db_resources db ->
  decide_policy host spec p command target db' = decide_policy host spec p command target db.
Proof.
  intros Hr Hs. unfold decide_policy, default_rule, held_by_default, resource_of. by rewrite Hr, Hs.
Qed.

Lemma consent_inv now spec payload command target p db o db' :
  consent host now spec payload command target p db = (o, db') ->
  (exists n rows, db' = set_db_next_id n (set_db_approvals rows db)) /\
  forall held acting, o = Ok (held, acting) ->
    let d := decide_policy host spec p command target db in
    dc_rule d <> DENY /\ (held = None -> dc_rule d <> APPROVE \/ is_interactive p = true) /\
    (forall answer, held = Some answer -> is_held answer = true) /\
    (held = None -> db' = db /\ acting = if overrides_a_hold d then with_approval p (dc_source d) else p).
Proof.
  unfold consent. intros H. rewrite (bind_step _ _ _ (decide_policy host spec p command target db) db) in H by done.
  set (d := decide_policy host spec p command target db) in *. destruct (decide (dc_rule d = DENY)) as [Hd|Hd].
  { apply raise_inv in H as [-> ->]. split; [apply same_requests|done]. }
  destruct (decide (dc_rule d = APPROVE)) as [Ha|Ha].
  - assert (overrides_a_hold d = false) as Hov by (unfold overrides_a_hold; by rewrite Ha).
    unfold mbind, M_bind in H. destruct (hold_for_approval host now spec payload command target p db) as [h db1] eqn:Hh.
    destruct (is_interactive p) eqn:Hi.
    + assert (h = Ok None /\ db1 = db) as [-> ->] by (unfold hold_for_approval in Hh; rewrite Hi in Hh; by injection Hh as <- <-).
      injection H as <- <-. split; [apply same_requests|].
      intros held acting [= <- <-]. cbn zeta. rewrite Hov. split_and!; [done|by right|done|done].
    + apply hold_inv in Hh; [|done].
      assert ((exists n rows, db1 = set_db_next_id n (set_db_approvals rows db)) /\
        forall a, h = Ok a -> exists answer, a = Some answer /\ is_held answer = true) as [Hst Hsome].
      { destruct Hh as [(e & -> & ->)|(subject & _ & Hh)]; [split; [apply same_requests|done]|].
        cbn zeta in Hh. destruct Hh as [(r & _ & -> & ->)|(_ & _ & -> & ->)].
        - split; [apply same_requests|]. intros a [= <-]. by eexists.
        - split; [by eexists _, _|]. intros a [= <-]. by eexists. }
      destruct h as [a|e]; injection H as <- <-; (split; [done|]); [|done].
      intros held acting [= <- <-]. destruct (Hsome a eq_refl) as (answer & -> & Hheld). cbn zeta.
      split_and!; [done|done|by intros ? [= <-]|done].
  - assert (o = Ok (None, if overrides_a_hold d then with_approval p (dc_source d) else p) /\ db' = db) as [-> ->].
    { destruct (overrides_a_hold d); by injection H as <- <-. }
    split; [apply same_requests|].
    intros held acting [= <- <-]. cbn zeta. split_and!; [done|by left|done|done].
Qed.

Lemma refuse_refused code message details : refused (JObj (fields (refuse code message details))) = true.
Proof. done. Qed.

Lemma target_refusal_refuses spec target stamp r : target_refusal host spec target stamp = Some r -> refused (JObj r) = true.
Proof.
  unfold target_refusal. destruct (_ && bool_decide (target = None)); [by intros [= <-]|].
  destruct (negb _ && _); [by intros [= <-]|]. destruct (read_call host spec target stamp); [|done]. by intros [= <-].
Qed.

Lemma dwithout_absent k d : dget k d = None -> dwithout k d = d.
Proof.
  unfold dwithout. induction d as [|[k' v] d IH]; cbn; [done|]. case_decide as Hk; [done|]. intros H.
  rewrite bool_decide_eq_false_2 by done. cbn. by rewrite IH.
Qed.

(** What passing the gate took, and all it wrote on the way. *)
Lemma gate_inv now spec payload p target stamp sent db o db' :
  gate now spec payload p target stamp sent db = (o, db') ->
  (exists n rows, db' = set_db_next_id n (set_db_approvals rows db)) /\
  (forall r, o = Ok (inl r) -> rn_replayed r = false /\ (refused (JObj (rn_answer r)) = true \/ is_held (rn_answer r) = true)) /\
  forall go, o = Ok (inr go) ->
    require_all p (sp_required_capabilities spec) = None /\ target_refusal host spec target stamp = None /\
    (ps_key go = "" -> key_required (sp_effect spec) p = false) /\
    (bool_decide (sp_effect spec = READ_EFFECT) = false -> exists beside inside, valid_key (JStr <$> sent) = Ok beside /\
       valid_key (dget IDEMPOTENCY_FIELD payload) = Ok inside /\ ps_key go = str_or beside inside) /\
    let d := decide_policy host spec p (ps_command go) target db in
    dc_rule d <> DENY /\ (dc_rule d <> APPROVE \/ is_interactive p = true) /\
    ps_acting go = (if overrides_a_hold d then with_approval p (dc_source d) else p) /\
    (exists n, db' = set_db_next_id n db).
Proof.
  unfold gate, authorize_capability. intros H. destruct (require_all p _) as [e|].
  { injection H as <- <-. split; [apply same_requests|done]. }
  unfold mbind at 1, M_bind at 1 in H. cbn [lift] in H. unfold lift in H. destruct (target_refusal host spec target stamp) as [r|] eqn:Ht.
  { injection H as <- <-. split; [apply same_requests|]. split; [|done]. intros ? [= <-]. split; [done|]. left. by eapply target_refusal_refuses. }
  unfold mbind at 1, M_bind at 1 in H. destruct (retry_key host spec payload sent db) as [ok db1] eqn:Hk.
  apply retry_key_inv in Hk as [(n1 & ->) Hk]. assert (exists n rows, set_db_next_id n1 db = set_db_next_id n (set_db_approvals rows db)) as Hst1.
  { exists n1, (db_approvals db). by destruct db. }
  destruct ok as [[key rest]|e]; [|by injection H as <- <-]. destruct (bool_decide (key = "") && _) eqn:Hreq.
  { injection H as <- <-. split; [done|]. split; [|done]. intros ? [= <-]. split; [done|by left]. }
  unfold mbind at 1, M_bind at 1 in H. destruct (validate_command spec rest target _) as [oc db2] eqn:Hv.
  apply validate_command_state in Hv as Hdb. subst db2. destruct oc as [command|e]; [|by injection H as <- <-].
  unfold mbind at 1, M_bind at 1 in H. destruct (consent host now spec rest command target p _) as [oo db3] eqn:Hc.
  apply consent_inv in Hc as [(n & rows & ->) Hc].
  destruct oo as [[held acting]|e]; [|injection H as <- <-; split; [exists n, rows; by destruct db|done]].
  destruct (Hc held acting eq_refl) as (Hd & Ha & Hheld & Hnone). cbn zeta in *.
  rewrite (decide_policy_same spec p command target db (set_db_next_id n1 db)) in * by done.
  destruct held as [answer|]; injection H as <- <-; (split; [exists n, rows; by destruct db|]); (split; [|]); try done.
  - intros ? [= <-]. split; [done|]. right. by apply Hheld.
  - intros go [= <-]. cbn [ps_key ps_command ps_acting]. destruct (Hnone eq_refl) as [Hdb ->]. split_and!; try done.
    + intros ->. by rewrite bool_decide_eq_true_2 in Hreq by done.
    + intros He. by apply (Hk key rest).
    + by apply Ha.
    + exists n1. done.
Qed.

(** The ways a call stops before its handler. *)
Inductive stopped (spec : CapabilitySpec) (payload : dict) (p : Principal) (target : option Target) (stamp sent : option string) (db : Db) : Prop :=
| lacks_authority : require_all p (sp_required_capabilities spec) <> None -> stopped spec payload p target stamp sent db
| bad_target : target_refusal host spec target stamp <> None -> stopped spec payload p target stamp sent db
| sent_no_key : key_required (sp_effect spec) p = true -> valid_key (JStr <$> sent) = Ok "" ->
    valid_key (dget IDEMPOTENCY_FIELD payload) = Ok "" -> stopped spec payload p target stamp sent db
| no_consent : (forall command, let d := decide_policy host spec p command target db in
    dc_rule d = DENY \/ (dc_rule d = APPROVE /\ is_interactive p = false)) -> stopped spec payload p target stamp sent db.

Lemma stopped_gate now spec payload p target stamp sent db go db' :
  stopped spec payload p target stamp sent db -> gate now spec payload p target stamp sent db <> (Ok (inr go), db').
Proof.
  intros Hs H. apply gate_inv in H as (_ & _ & H). destruct (H go eq_refl) as (Hr & Ht & Hk & Hkey & Hd & Ha & _ & _).
  destruct Hs as [?|?|Hreq Hb Hi|Hc]; [done|done| |].
  - assert (bool_decide (sp_effect spec = READ_EFFECT) = false) as He.
    { unfold key_required in Hreq. by apply andb_true_iff in Hreq as [?%negb_true_iff _]. }
    destruct (Hkey He) as (beside & inside & Hb' & Hi' & Heq). rewrite Hb in Hb'. rewrite Hi in Hi'. injection Hb' as <-. injection Hi' as <-.
    specialize (Hk Heq). congruence.
  - destruct (Hc (ps_command go)) as [?|[? ?]]; [done|]. destruct Ha; congruence.
Qed.


(** A call that may run does run, once, as its validated command, under the caller's own
    name and the consent that let it through. *)
Theorem allowed_call_runs (now : Z) (spec : CapabilitySpec) (payload : dict) (p : Principal) (target : option Target)
    (stamp : option string) (db : Db) (command : json) :
  require_all p (sp_required_capabilities spec) = None -> target_refusal host spec target stamp = None ->
  key_required (sp_effect spec) p = false -> dget IDEMPOTENCY_FIELD payload = None -> sp_declares_idempotency_key spec = false ->
  validate_command spec payload target db = (Ok command, db) ->
  let d := decide_policy host spec p command target db in
  dc_rule d = ALLOW ->
  authorized_run host now spec payload p target stamp None db =
    (answer ← run_handler now spec command (if overrides_a_hold d then with_approval p (dc_source d) else p) target stamp (keys payload);
     mret (mkRan answer false)) db.
Proof.
  intros Hr Ht Hk Hnone Hdecl Hv d Hallow. rewrite authorized_run_gate.
  assert (retry_key host spec payload None db = (Ok ("", payload), db)) as Hkey.
  { unfold retry_key. destruct (bool_decide _); [done|]. rewrite Hnone, Hdecl. cbn. by rewrite dwithout_absent. }
  assert (gate now spec payload p target stamp None db =
    (Ok (inr (mkPassed "" payload command (if overrides_a_hold d then with_approval p (dc_source d) else p))), db)) as ->; [|done].
  unfold gate, authorize_capability. rewrite Hr, Ht.
  rewrite (bind_step _ _ _ tt db) by done. rewrite (bind_step _ _ _ _ _ Hkey). rewrite Hk, andb_false_r.
  rewrite (bind_step _ _ _ _ _ Hv). unfold consent. unfold mbind at 1, M_bind at 1.
  rewrite (bind_step _ _ _ d db) by done. rewrite Hallow. cbn [decide]. rewrite !decide_False by done. by destruct (overrides_a_hold d).
Qed.

Lemma adapter_refusal_answer now name e q db d db' :
  adapter_refusal host now name e q db = (Ok d, db') -> d = fields (answer (mapped e name)).
Proof.
  unfold adapter_refusal. destruct q as [q|]; [|by intros [= <- _]]. destruct (_ || _); [|by intros [= <- _]].
  intros H. apply bind_inv in H as [([] & s1 & _ & Hret)|(? & _ & ?)]; [|done]. by injection Hret as <- _.
Qed.

Lemma refused_not_ok d : refused (JObj d) = true -> ran_ok d = false.
Proof. unfold refused, ran_ok, attr. destruct (dget "ok" d) as [[| []| | | |]|]; done. Qed.

Lemma run_handler_leaves_key now spec command acting target stamp sent k :
  (forall call, leaves_key k (sp_handler spec call)) -> leaves_key k (run_handler now spec command acting target stamp sent).
Proof.
  intros Hh db. unfold run_handler, lift, mbind, M_bind. destruct (target_keyword spec target) as [arguments|]; [|done].
  match goal with |- context [sp_handler spec ?c db] => specialize (Hh c db); destruct (sp_handler spec c db) as [[result|] db1] end; [|done].
  cbn [snd] in Hh. rewrite <- Hh. destruct (bool_decide _), (among _ _); done.
Qed.

(** C26: Authority is asked first: a caller that lacks a permission is told exactly that, the same
    whatever target, key or payload it sent, and the refusal is in the log under its name. *)
Theorem authority_is_asked_first (now : Z) (name : string) (spec : CapabilitySpec) (payload : dict) (p : Principal)
    (target : option Target) (stamp sent : option string) (db : Db) (e : exn) :
  registered host name = Some spec -> require_all p (sp_required_capabilities spec) = Some e ->
  exists db', run_capability host now name payload p target stamp sent db = (Ok (mkRan (fields (answer (mapped e name))) false), db') /\
    db' = (record_denial host now (interface p) (r_code (mapped e name)) (actor p) name "" "" true (device p) db).2 /\
    (db_audit_down db = false -> exists row, db_audit db' = (db_audit db ++ [row])%list /\ al_action row = DENIED /\
       dget "actor" (al_metadata row) = Some (JStr (actor p)) /\ dget "capability" (al_metadata row) = Some (JStr name)).
Proof.
  intros Hreg He. pose proof (require_all_is_authorization _ _ _ He) as Hauth. eexists. split; [|split; [reflexivity|]].
  - unfold run_capability, try. rewrite Hreg. unfold authorized_run, authorize_capability. rewrite He.
    unfold mbind at 1, M_bind at 1. unfold lift at 1. unfold adapter_refusal. rewrite Hauth. cbn [orb].
    pose proof (record_denial_answers host now (interface p) (r_code (mapped e name)) (actor p) name "" "" true (device p) db) as Hok.
    unfold mbind, M_bind. destruct e; cbn [is_authorization_error] in Hauth; try discriminate;
      (destruct (record_denial _ _ _ _ _ _ _ _ _ _ db) as [[[]|] db1]; [done|discriminate]).
  - intros Hup. unfold record_denial, try, negb, mbind, M_bind, mret, M_ret, record_event. rewrite Hup. cbn [snd].
    eexists. split; [reflexivity|]. split; [done|]. unfold denied_event, denied_metadata. cbn [al_metadata ev_metadata]. by rewrite !dget_dset.
Qed.

Lemma retry_key_keyed spec payload key :
  key_matches key = true -> bool_decide (sp_effect spec = READ_EFFECT) = false ->
  (exists rest, forall db, retry_key host spec payload (Some key) db = (Ok (key, rest), db)) \/
  (exists e, forall db, retry_key host spec payload (Some key) db = (Raise e, db)).
Proof.
  intros Hkey He. assert (key <> "") as Hne by (by intros ->). unfold retry_key. rewrite He.
  assert (valid_key (JStr <$> Some key) = Ok key) as ->.
  { cbn. unfold validate_key. rewrite Hkey. by destruct key. }
  destruct (valid_key (dget IDEMPOTENCY_FIELD payload)) as [inside|e]; [|right; by exists e].
  unfold lift, mbind, M_bind. destruct (_ && _ && _); [right; by eexists|]. left.
  assert (str_or key inside = key) as -> by (unfold str_or; by rewrite decide_False).
  destruct (sp_declares_idempotency_key spec); [rewrite decide_False by done|]; by eexists.
Qed.

Lemma gate_again now spec payload p target stamp key db go db1 now' db2 :
  key_matches key = true -> bool_decide (sp_effect spec = READ_EFFECT) = false -> sp_kept spec = None ->
  gate now spec payload p target stamp (Some key) db = (Ok (inr go), db1) ->
  (forall command, dc_rule (decide_policy host spec p command target db2) = ALLOW) ->
  db1 = db /\ ps_key go = key /\ exists acting, gate now' spec payload p target stamp (Some key) db2 =
    (Ok (inr (mkPassed key (ps_payload go) (ps_command go) acting)), db2).
Proof.
  intros Hkey He Hkept Hg Hallow. unfold gate in *. destruct (authorize_capability spec p) as [[]|e]; [|done].
  unfold lift in *. unfold mbind at 1, M_bind at 1 in Hg. unfold mbind at 1, M_bind at 1.
  destruct (target_refusal host spec target stamp); [done|].
  destruct (retry_key_keyed spec payload key Hkey He) as [(rest & Hr)|(e & Hr)].
  2: { by rewrite (bind_stop _ _ _ _ _ (Hr db)) in Hg. }
  rewrite (bind_step _ _ _ _ _ (Hr db)) in Hg. rewrite (bind_step _ _ _ _ _ (Hr db2)).
  destruct (bool_decide (key = "") && _); [done|].
  assert (forall s, validate_command spec rest target s = (sp_validate spec rest, s)) as Hv.
  { intros s. unfold validate_command. by rewrite Hkept. }
  destruct (sp_validate spec rest) as [command|e] eqn:Hcom; [|by rewrite (bind_stop _ _ _ e db) in Hg by apply Hv].
  rewrite (bind_step _ _ _ command db) in Hg by apply Hv. rewrite (bind_step _ _ _ command db2) by apply Hv.
  unfold mbind at 1, M_bind at 1 in Hg. destruct (consent host now spec rest command target p db) as [oo db3] eqn:Hc.
  apply consent_inv in Hc as [_ Hc]. destruct oo as [[held acting]|]; [|done]. destruct (Hc held acting eq_refl) as (_ & _ & _ & Hnone).
  destruct held; [done|]. injection Hg as <- <-. destruct (Hnone eq_refl) as [-> _]. split; [done|]. split; [done|].
  unfold consent. unfold mbind at 1, M_bind at 1. rewrite (bind_step _ _ _ (decide_policy host spec p command target db2) db2) by done.
  rewrite Hallow, !decide_False by done. destruct (overrides_a_hold (decide_policy host spec p command target db2)); eexists; reflexivity.
Qed.

End Gate.

(** * What a caller is shown *)

(** The catalog shows a caller exactly the capabilities asked for that its interface could
    ever hold, each with whether this grant holds it now; a filter that names nothing HQ
    has is refused rather than read as everything. *)
Theorem catalog_shows_what_could_run (host : Site) (p : Principal) (name resource : string) (listed : list (CapabilitySpec * bool)) :
  describe_capabilities host p name resource = Ok listed ->
  (strip name = "" \/ is_dotted_name (strip name) = true) /\ (strip resource = "" \/ strip resource ∈ h_resources host) /\
  forall spec permitted, (spec, permitted) ∈ listed <->
    spec ∈ h_capabilities host /\ could_ever_hold p (sp_required_capabilities spec) = true /\
    (permitted = true <-> require_all p (sp_required_capabilities spec) = None) /\
    (strip name = "" \/ sp_name spec = strip name \/ startswith (strip name +:+ ".") (sp_name spec) = true) /\
    (strip resource = "" \/ sp_subject_resource spec = strip resource).
Proof.
  unfold describe_capabilities, narrowed. destruct (negb (bool_decide (strip name = "")) && _) eqn:Hn; [done|].
  destruct (negb (bool_decide (strip resource = "")) && _) eqn:Hr; [done|]. intros [= <-].
  apply andb_false_iff in Hn. apply andb_false_iff in Hr. rewrite !negb_false_iff, bool_decide_eq_true in Hn, Hr.
  unfold among in Hr. rewrite bool_decide_eq_true in Hr. split; [done|]. split; [done|]. intros spec permitted.
  assert (permits p (sp_required_capabilities spec) = true <-> require_all p (sp_required_capabilities spec) = None) as Hp.
  { rewrite permits_spec. by rewrite require_all_none. }
  rewrite list_elem_of_fmap. setoid_rewrite list_elem_of_In. setoid_rewrite filter_In. setoid_rewrite filter_In.
  rewrite <- Hp. split.
  - intros (spec' & [= -> ->] & [Hin Hm] & Hc). rewrite andb_true_iff, !orb_true_iff, !bool_decide_eq_true in Hm. naive_solver.
  - intros (Hin & Hc & Hpp & Hname & Hres). exists spec. split; [f_equal; by apply eq_true_iff_eq|].
    rewrite andb_true_iff, !orb_true_iff, !bool_decide_eq_true. naive_solver.
Qed.

Definition at_the_shell : Principal := principal_of CLI_ACTOR CLI_INTERFACE {[ READ; MANAGE_CONTACTS ]}.
Definition in_the_browser : Principal := principal_of "ada" WEB_INTERFACE {[ READ; MANAGE_CONTACTS ]}.


Lemma allowed_call_runs_witness :
  authorized_run demo_host 0 demo_spec [] at_the_shell (Some (TText "c1")) None None bot_known_db =
    (answer ← run_handler 0 demo_spec (JObj []) at_the_shell (Some (TText "c1")) None []; mret (mkRan answer false)) bot_known_db.
Proof. apply (allowed_call_runs demo_host 0 demo_spec [] at_the_shell (Some (TText "c1")) None bot_known_db (JObj [])); vm_compute; reflexivity. Defined.

Lemma authority_is_asked_first_witness :
  exists db' e, require_all their_bot [MANAGE_CONTACTS] = Some e /\
    run_capability demo_host 0 "contacts.remove" [] their_bot None None None bot_known_db = (Ok (mkRan (fields (answer (mapped e "contacts.remove"))) false), db').
Proof.
  destruct (require_all their_bot [MANAGE_CONTACTS]) as [e|] eqn:He; [|exfalso; vm_compute in He; discriminate He].
  destruct (authority_is_asked_first demo_host 0 "contacts.remove" demo_spec [] their_bot None None None bot_known_db e) as (db' & H & _);
    [vm_compute; reflexivity|exact He|]. exists db', e. split; [reflexivity|exact H].
Defined.

Definition removed_db : Db := (run_capability demo_host 0 "contacts.remove" [] in_the_browser (Some (TText "c1")) None (Some "k1") bot_known_db).2.


Lemma catalog_shows_what_could_run_witness :
  exists listed, describe_capabilities demo_host their_bot_remover "" "" = Ok listed /\ length listed = 1%nat /\
    forall spec permitted, (spec, permitted) ∈ listed -> could_ever_hold their_bot_remover (sp_required_capabilities spec) = true.
Proof.
  destruct (describe_capabilities demo_host their_bot_remover "" "") as [listed|e] eqn:H; [|exfalso; vm_compute in H; discriminate H].
  exists listed. split; [reflexivity|]. split.
  - apply (f_equal (fun o => match o with Ok l => length l | Raise _ => 0%nat end)) in H. vm_compute in H. symmetry. exact H.
  - intros spec permitted Hin. destruct (catalog_shows_what_could_run _ _ _ _ _ H) as (_ & _ & Hiff). apply Hiff in Hin as (_ & Hc & _). exact Hc.
Defined.
