(* ===== verification/Decisions.v ===== *)
(** Deciding a held request ([approvals.py], its second half): a person approves it, and
    exactly the held call runs as its asker's; or a person declines it; or nobody can.

    A request's life as a state machine closes the file: every step a held request can
    take, and what holds of every state those steps reach. *)
From stdpp Require Import base gmap strings list pretty.
From Stdlib Require Import Ascii ZArith Lia.
From S2P Require Import Prelude PyStr Json Refusals Security Models AuditTrail AgentAccess Specs Denials Policy Idempotency Approvals Capabilities.

#[local] Open Scope string_scope.

(** [held.target or None] *)
Definition held_target (held : ApprovalRequest) : option Target :=
  if decide (ar_target held = "") then None else Some (TText (ar_target held)).

(** [held.save(update_fields=...)], under the row's own rules. *)
Definition save_decision (id : string) (f : ApprovalRequest -> ApprovalRequest) : M exn Db unit :=
  act (fun db =>
    match approval_by id db with
    | Some r => if approval_rules (f r) then save_approval id f db
                else (Raise (IntegrityError "approval_decision_names_who_decided"), db)
    | None => save_approval id f db
    end).

(** The columns an approval writes. *)
Definition approved_as (now : Z) (p : Principal) (result : dict) (r : ApprovalRequest) : ApprovalRequest :=
  set_ar_result (JObj result) (set_ar_decided_at (Some now) (set_ar_decided_interface (interface p)
    (set_ar_decided_actor (actor p) (set_ar_state A_APPROVED r)))).

(** The columns a refusal writes. *)
Definition rejected_as (now : Z) (p : Principal) (note : string) (r : ApprovalRequest) : ApprovalRequest :=
  set_ar_decision_note (take_str 300 (strip note)) (set_ar_decided_at (Some now) (set_ar_decided_interface (interface p)
    (set_ar_decided_actor (actor p) (set_ar_state A_REJECTED r)))).

Section Decisions.
Variable host : Site.

Definition STALE_NOTE := "What it would change moved after it was requested.".

Definition superseded : exn := Host Settled
  ("This changed after the agent asked, so approving it would apply " +:+
   "something other than what is shown. Ask the agent to request it again.") JNull.

(** The principal a held call is replayed as: its asker, by leave of [p]. *)
Definition acting_for (held : ApprovalRequest) (p : Principal) : Principal :=
  mkPrincipal (ar_requested_actor held) (ar_requested_interface held) (capabilities p) (actor p) ∅
    (ar_requested_person_key held) ∅ (ar_requested_device held).

(** The part of [_apply] that changes anything: one transaction. *)
Definition apply_locked (now : Z) (spec : CapabilitySpec) (command : json) (held : ApprovalRequest) (p : Principal) : M exn Db dict :=
  atomic (
    found ← gets (approval_by (ar_id held));
    match found with
    | None => raise (OtherError "DoesNotExist" "ApprovalRequest matching query does not exist.")
    | Some locked =>
        _ ← raise_if (negb (is_pending locked)) (approval_error ("That request is already " +:+ lower (approval_display (ar_state locked)) +:+ "."));
        result ← execute_approved now spec command (held_target locked) (acting_for held p) (keys (fields (ar_payload held)));
        _ ← save_decision (ar_id locked) (approved_as now p result);
        mret [("ok", JBool true); ("approved", JStr (ar_id locked)); ("result", JObj result)]
    end).

(** [_apply(held, principal)] *)
Definition apply_held (now : Z) (held : ApprovalRequest) (p : Principal) : M exn Db dict :=
  match registered host (ar_capability held) with
  | None => raise (approval_error "What this request asks for is no longer something HQ can do, so it cannot be applied.")
  | Some spec =>
      _ ← require_person p held;
      _ ← require_asker_running held;
      _ ← lift (authorize_capability spec p);
      command ← validate_command spec (fields (ar_payload held)) (held_target held);
      db ← get;
      current ← lift (approval_subject host spec command (held_target held) db);
      let baseline := match current with Some subject => as_baseline subject | None => [] end in
      if bool_decide (fingerprint host (ar_capability held) (target_text (held_target held)) (fields (ar_payload held)) baseline = ar_content_fingerprint held)
      then apply_locked now spec command held p
      else (_ ← settle now held A_STALE STALE_NOTE; raise superseded)
  end.

(** [approve(command, principal=...)] *)
Definition approve (now : Z) (approval_id : string) (p : Principal) : M exn Db dict :=
  held ← decidable_ host now approval_id;
  apply_held now held p.

(** [reject(command, principal=...)] *)
Definition reject (now : Z) (approval_id note : string) (p : Principal) : M exn Db dict :=
  held ← decidable_ host now approval_id;
  _ ← require_person p held;
  atomic (
    _ ← save_decision (ar_id held) (rejected_as now p note);
    mret [("ok", JBool true); ("rejected", JStr (ar_id held))]).

(** [answered(decide)]: a settled refusal is an answer, so its mark is kept. *)
Definition answered (m : M exn Db dict) : M exn Db dict :=
  try m (fun e => match e with Host Settled _ _ => Some (mret (fields (answer (mapped e "")))) | _ => None end).

(** * One decision, run backwards *)

(** The state with the request [id] marked by [f]. *)
Definition marked (id : string) (f : ApprovalRequest -> ApprovalRequest) (db : Db) : Db :=
  set_db_approvals (update_where (fun r => bool_decide (ar_id r = id)) f (db_approvals db)) db.

Lemma save_approval_found id f db r : approval_by id db = Some r -> save_approval id f db = (Ok tt, marked id f db).
Proof. intros H. unfold save_approval, act. by rewrite H. Qed.

Lemma settle_found now held state note db :
  approval_by (ar_id held) db = Some held -> settle now held state note db = (Ok tt, marked (ar_id held) (settled_as now state note) db).
Proof. intros H. unfold settle, atomic. by rewrite (save_approval_found _ _ _ _ H). Qed.

(** [held] is the request [id] names and can still be decided at [now]. *)
Definition undecided (now : Z) (id : string) (db : Db) (held : ApprovalRequest) : Prop :=
  h_uuid host id = Some (ar_id held) /\ approval_by (ar_id held) db = Some held /\ is_pending held = true /\ (now < ar_expires_at held)%Z.

(** The mark a decision nobody could take leaves. *)
Definition marks (now : Z) (e : exn) (db db' : Db) : Prop :=
  exists held state note reason, approval_by (ar_id held) db = Some held /\ is_pending held = true /\
    (state = A_EXPIRED \/ state = A_STALE) /\ e = Host Settled reason JNull /\ db' = marked (ar_id held) (settled_as now state note) db.

Lemma decidable_inv now id db o db' :
  decidable_ host now id db = (o, db') ->
  (exists held, o = Ok held /\ db' = db /\ undecided now id db held) \/ (exists e, o = Raise e /\ (db' = db \/ marks now e db db')).
Proof.
  unfold decidable_. destruct (h_uuid host id) as [key|] eqn:Hid; [|intros [-> ->]%raise_inv; right; eauto].
  intros H. rewrite (bind_step _ _ _ (approval_by key db) db) in H by done.
  destruct (approval_by key db) as [held|] eqn:Hheld; [|apply raise_inv in H as [-> ->]; right; eauto].
  assert (ar_id held = key) as <- by exact (proj2 (approval_by_in _ _ _ Hheld)).
  destruct (is_pending held) eqn:Hp; cbn [negb] in H; [|injection H as <- <-; right; eauto].
  rewrite (bind_step _ _ _ tt db) in H by done. destruct (ar_expires_at held <=? now)%Z eqn:He.
  - rewrite (bind_step _ _ _ _ _ (settle_found now held A_EXPIRED LAPSED_NOTE db Hheld)) in H. apply raise_inv in H as [-> ->].
    right. eexists. split; [done|]. right. eexists held, A_EXPIRED, _, _. split_and!; [done|done|by left|reflexivity|reflexivity].
  - injection H as <- <-. left. exists held. apply Z.leb_gt in He. split_and!; by try split_and!.
Qed.

Lemma require_person_inv p held db o db' :
  require_person p held db = (o, db') ->
  db' = db /\ ((exists e, o = Raise e) \/ (o = Ok tt /\ is_interactive p = true /\ actor p <> ar_requested_actor held)).
Proof.
  unfold require_person, mbind, M_bind, raise_if. destruct (is_interactive p); cbn; [|intros [= <- <-]; eauto].
  case_bool_decide; intros [= <- <-]; eauto 6.
Qed.

(** Whether a brake on agents picks the asker of [held]. *)
Definition asker_held (held : ApprovalRequest) (db : Db) : Prop :=
  exists brakes, (held_askers db).1 = Ok brakes /\
    brakes (ar_requested_actor held) (ar_requested_interface held) (ar_requested_device held) = true.

Lemma require_asker_running_inv held db o db' :
  approval_by (ar_id held) db = Some held -> require_asker_running held db = (o, db') ->
  db' = db /\ ((exists e, o = Raise e) \/ (o = Ok tt /\ ~ asker_held held db)).
Proof.
  intros Hheld H. unfold require_asker_running, mbind at 1, M_bind at 1 in H.
  destruct (held_askers db) as [[brakes|e] db1] eqn:Hb; pose proof (held_askers_state _ _ _ Hb); subst db1; [|injection H as <- <-; eauto].
  unfold mbind, M_bind, gets, raise_if, raise, mret, M_ret in H. destruct (existsb _ _) eqn:Hex; injection H as <- <-; (split; [done|]); [eauto|].
  right. split; [done|]. intros (brakes' & Heq & Hbr). rewrite Hb in Heq. injection Heq as <-.
  apply not_true_iff_false in Hex. apply Hex, existsb_exists. exists held. split.
  - apply list_elem_of_In. exact (proj1 (approval_by_in _ _ _ Hheld)).
  - by rewrite bool_decide_eq_true_2.
Qed.

(** Everything [_apply] asked before the held call ran. *)
Record may_apply (now : Z) (held : ApprovalRequest) (p : Principal) (spec : CapabilitySpec) (command : json) (db : Db) : Prop := {
  ma_spec : registered host (ar_capability held) = Some spec;
  ma_person : is_interactive p = true;
  ma_other : actor p <> ar_requested_actor held;
  ma_asker : ~ asker_held held db;
  ma_authority : require_all p (sp_required_capabilities spec) = None;
  ma_command : validate_command spec (fields (ar_payload held)) (held_target held) db = (Ok command, db);
  ma_current : exists subject, approval_subject host spec command (held_target held) db = Ok subject /\
    fingerprint host (ar_capability held) (target_text (held_target held)) (fields (ar_payload held))
      (match subject with Some s => as_baseline s | None => [] end) = ar_content_fingerprint held;
}.

Lemma apply_locked_inv now spec command held p db o db' :
  approval_by (ar_id held) db = Some held -> is_pending held = true ->
  apply_locked now spec command held p db = (o, db') ->
  (exists e, o = Raise e /\ db' = db) \/
  exists result db1 row, run_handler now spec command (acting_for held p) (held_target held) None (keys (fields (ar_payload held))) db = (Ok result, db1) /\
    approval_by (ar_id held) db1 = Some row /\ approval_rules (approved_as now p result row) = true /\
    db' = marked (ar_id held) (approved_as now p result) db1 /\
    o = Ok [("ok", JBool true); ("approved", JStr (ar_id held)); ("result", JObj result)].
Proof.
  intros Hheld Hp H. unfold apply_locked in H. apply atomic_inv in H as [(a & H & ->)|(e & s0 & _ & -> & ->)]; [|eauto]. right.
  rewrite (bind_step _ _ _ (Some held) db) in H by (unfold gets; by rewrite Hheld). rewrite Hp in H.
  rewrite (bind_step _ _ _ tt db) in H by done. unfold execute_approved in H.
  apply bind_inv_ok in H as (result & db1 & Hrun & H). apply bind_inv_ok in H as ([] & db2 & Hsave & H).
  apply ret_inv in H as [[= ->] ->]. unfold save_decision, act in Hsave.
  destruct (approval_by (ar_id held) db1) as [row|] eqn:Hrow.
  - destruct (approval_rules (approved_as now p result row)) eqn:Hr; [|done].
    rewrite (save_approval_found _ _ _ _ Hrow) in Hsave. injection Hsave as <-. eexists _, _, row. split_and!; try done.
  - unfold save_approval, act in Hsave. by rewrite Hrow in Hsave.
Qed.

Lemma apply_held_inv now held p db o db' :
  approval_by (ar_id held) db = Some held -> is_pending held = true -> apply_held now held p db = (o, db') ->
  (exists e, o = Raise e /\ (db' = db \/ marks now e db db')) \/
  exists spec command, may_apply now held p spec command db /\ apply_locked now spec command held p db = (o, db') /\ exists a, o = Ok a.
Proof.
  intros Hheld Hpend H. unfold apply_held in H. destruct (registered host (ar_capability held)) as [spec|] eqn:Hspec.
  2: { apply raise_inv in H as [-> ->]. eauto. }
  unfold mbind at 1, M_bind at 1 in H. destruct (require_person p held db) as [o1 db1] eqn:H1.
  apply require_person_inv in H1 as [-> [[e ->]|(-> & Hint & Hne)]]; [injection H as <- <-; eauto|].
  unfold mbind at 1, M_bind at 1 in H. destruct (require_asker_running held db) as [o2 db2] eqn:H2.
  apply require_asker_running_inv in H2 as [-> [[e ->]|(-> & Hask)]]; [injection H as <- <-; eauto| |done].
  unfold authorize_capability in H. destruct (require_all p _) as [e|] eqn:Hall; [injection H as <- <-; eauto|].
  rewrite (bind_step _ _ _ tt db) in H by done.
  unfold mbind at 1, M_bind at 1 in H. destruct (validate_command spec _ _ db) as [o3 db3] eqn:H3.
  pose proof (validate_command_state _ _ _ _ _ _ H3). subst db3. destruct o3 as [command|e]; [|injection H as <- <-; eauto].
  rewrite (bind_step _ _ _ db db) in H by done.
  destruct (approval_subject host spec command (held_target held) db) as [subject|e] eqn:Hsub; [|injection H as <- <-; eauto].
  rewrite (bind_step _ _ _ subject db) in H by done. case_bool_decide as Hf.
  - destruct o as [a|e].
    + right. exists spec, command. split; [|by eauto]. constructor; eauto.
    + apply apply_locked_inv in H as [(e' & [= <-] & ->)|(? & ? & ? & _ & _ & _ & _ & ?)]; eauto. done.
  - rewrite (bind_step _ _ _ _ _ (settle_found now held A_STALE STALE_NOTE db Hheld)) in H. apply raise_inv in H as [-> ->].
    left. eexists. split; [done|]. right. eexists held, A_STALE, _, _. split_and!; [done|done|by right|reflexivity|reflexivity].
Qed.

Lemma approve_inv now id p db o db' :
  approve now id p db = (o, db') ->
  (exists e, o = Raise e /\ (db' = db \/ marks now e db db')) \/
  exists held spec command result db1 row, undecided now id db held /\ may_apply now held p spec command db /\
    run_handler now spec command (acting_for held p) (held_target held) None (keys (fields (ar_payload held))) db = (Ok result, db1) /\
    approval_by (ar_id held) db1 = Some row /\ approval_rules (approved_as now p result row) = true /\
    db' = marked (ar_id held) (approved_as now p result) db1 /\
    o = Ok [("ok", JBool true); ("approved", JStr (ar_id held)); ("result", JObj result)].
Proof.
  unfold approve. intros [(held & s0 & Hd & H)|(e & Hd & ->)]%bind_inv.
  2: { apply decidable_inv in Hd as [(? & ? & _)|(e' & [= <-] & Hd)]; [done|]. eauto. }
  apply decidable_inv in Hd as [(held' & [= <-] & -> & Hun)|(e & ? & _)]; [|done]. pose proof Hun as (_ & Hby & Hp & _).
  apply apply_held_inv in H as [H|(spec & command & Hmay & H & a & ->)]; [by left|right|done|done].
  apply apply_locked_inv in H as [(e & ? & _)|(result & db1 & row & Hrun & Hrow & Hrules & -> & Ho)]; [done| |done|done].
  exists held, spec, command, result, db1, row. by split_and!.
Qed.

Lemma reject_inv now id note p db o db' :
  reject now id note p db = (o, db') ->
  (exists e, o = Raise e /\ (db' = db \/ marks now e db db')) \/
  exists held, undecided now id db held /\ is_interactive p = true /\ actor p <> ar_requested_actor held /\
    approval_rules (rejected_as now p note held) = true /\ db' = marked (ar_id held) (rejected_as now p note) db /\
    o = Ok [("ok", JBool true); ("rejected", JStr (ar_id held))].
Proof.
  unfold reject. intros [(held & s0 & Hd & H)|(e & Hd & ->)]%bind_inv.
  2: { apply decidable_inv in Hd as [(? & ? & _)|(e' & [= <-] & Hd)]; [done|]. eauto. }
  apply decidable_inv in Hd as [(held' & [= <-] & -> & Hun)|(e & ? & _)]; [|done].
  apply bind_inv in H as [([] & s1 & Hr & H)|(e & Hr & ->)].
  2: { apply require_person_inv in Hr as [-> _]. left. eauto. }
  apply require_person_inv in Hr as [-> [[? ?]|(_ & Hint & Hne)]]; [done|].
  apply atomic_inv in H as [(a & H & ->)|(e & s2 & _ & -> & ->)]; [|left; eauto].
  apply bind_inv_ok in H as ([] & s3 & Hs & [[= ->] ->]%ret_inv). right. exists held. pose proof Hun as (_ & Hby & _).
  unfold save_decision, act in Hs. rewrite Hby in Hs. destruct (approval_rules _) eqn:Hrules; [|done].
  rewrite (save_approval_found _ _ _ _ Hby) in Hs. injection Hs as <-. by split_and!.
Qed.

(** * What a decision is *)


(** A decision that could not be taken moves nothing: the handler's own writes are rolled
    back with it, and all that stays is the mark of a request nobody can decide any more,
    which the refusal then explains and [answered] keeps. *)
Theorem failed_decision_moves_nothing (now : Z) (id note : string) (p : Principal) (db db' : Db) (e : exn) :
  approve now id p db = (Raise e, db') \/ reject now id note p db = (Raise e, db') ->
  (db' = db \/ marks now e db db') /\
  (approve now id p db = (Raise e, db') -> marks now e db db' ->
   answered (approve now id p) db = (Ok (fields (answer (mapped e ""))), db')).
Proof.
  intros H. split.
  - destruct H as [[(e' & [= <-] & H)|(? & ? & ? & ? & ? & ? & _ & _ & _ & _ & _ & _ & ?)]%approve_inv
                  |[(e' & [= <-] & H)|(? & _ & _ & _ & _ & _ & ?)]%reject_inv]; done.
  - intros Hrun (held & state & reason & ? & _ & _ & _ & -> & _). unfold answered, try. by rewrite Hrun.
Qed.

(** * A request's life *)

(** The handler leaves the requests as it found them. *)
Definition leaves_requests (spec : CapabilitySpec) : Prop :=
  forall call db, let db' := (sp_handler spec call db).2 in db_approvals db' = db_approvals db /\ (db_next_id db <= db_next_id db')%N.

(** Some interface that is no person's could hold what [spec] needs, so it can be asked for. *)
Definition askable (spec : CapabilitySpec) : Prop :=
  exists i, among i INTERACTIVE_INTERFACES = false /\ could_hold i (sp_required_capabilities spec) = true.

Lemma run_handler_leaves now spec command acting target stamp sent db o db' :
  leaves_requests spec -> run_handler now spec command acting target stamp sent db = (o, db') ->
  db_approvals db' = db_approvals db /\ (db_next_id db <= db_next_id db')%N.
Proof.
  intros Hh H. unfold run_handler, lift, mbind, M_bind in H. destruct (target_keyword spec target) as [arguments|]; [|by injection H as _ <-].
  match type of H with context [sp_handler spec ?c db] => specialize (Hh c db); destruct (sp_handler spec c db) as [[result|] db1] end;
    [|by injection H as _ <-]. cbn in Hh.
  destruct (bool_decide _), (among _ _); by injection H as _ <-.
Qed.

(** One step of the requests: a caller asks, the sweep runs, a person decides, or anything
    else happens that is not about them. *)
Inductive request_step : Db -> Db -> Prop :=
| step_ask now spec payload command target p o db db' :
    registered host (sp_name spec) = Some spec -> is_interactive p = false -> require_all p (sp_required_capabilities spec) = None ->
    hold_for_approval host now spec payload command target p db = (o, db') -> request_step db db'
| step_sweep now o db db' : lapse_expired now db = (o, db') -> request_step db db'
| step_approve now id p o db db' : approve now id p db = (o, db') -> request_step db db'
| step_reject now id note p o db db' : reject now id note p db = (o, db') -> request_step db db'
| step_other db db' : db_approvals db' = db_approvals db -> (db_next_id db <= db_next_id db')%N -> request_step db db'.

(** The requests stand well formed, and each asks for something a caller could ask for. *)
Definition requests_ok (db : Db) : Prop :=
  approvals_ok db /\ forall r spec, r ∈ db_approvals db -> registered host (ar_capability r) = Some spec -> askable spec.

(** Nothing moves a request that was decided or lapsed. *)
Definition settled_kept (db db' : Db) : Prop := forall r, r ∈ db_approvals db -> is_pending r = false -> r ∈ db_approvals db'.

Lemma marked_kept id f db r0 :
  approvals_ok db -> approval_by id db = Some r0 -> is_pending r0 = true -> settled_kept db (marked id f db).
Proof.
  intros Hok [Hin Hid]%approval_by_in Hp r Hr Hset. unfold marked. cbn. apply elem_of_update_where. exists r. split; [done|].
  case_bool_decide as He; [|done]. assert (r = r0) as -> by (eapply approval_unique; [apply (apk_ids _ Hok)|done..|congruence]). congruence.
Qed.

Lemma marked_ok id f db r0 :
  requests_ok db -> approval_by id db = Some r0 ->
  (forall r, ar_id (f r) = ar_id r /\ ar_requested_actor (f r) = ar_requested_actor r /\ ar_requested_person_key (f r) = ar_requested_person_key r /\
     ar_capability (f r) = ar_capability r) ->
  is_pending (f r0) = false -> approval_rules (f r0) = true -> decided_by_a_person (f r0) -> requests_ok (marked id f db).
Proof.
  intros [Hok Hask] [Hin Hid]%approval_by_in Hf Hp Hr Hd. split.
  - apply settle_row_ok; [done|intros r; destruct (Hf r) as (? & ? & ? & _); by split_and!|]. intros r Hr' Hid'.
    assert (r = r0) as -> by (eapply approval_unique; [apply (apk_ids _ Hok)|done..|congruence]). by split_and!.
  - intros r spec (x & Hx & ->)%elem_of_update_where. case_bool_decide; [destruct (Hf x) as (_ & _ & _ & ->)|]; by apply Hask.
Qed.

Lemma settled_row_ok now state note r : approval_rules r = true -> is_pending r = true -> state = A_EXPIRED \/ state = A_STALE ->
  is_pending (settled_as now state note r) = false /\ approval_rules (settled_as now state note r) = true /\
  decided_by_a_person (settled_as now state note r).
Proof.
  intros Hr Hp Hs. unfold is_pending in Hp. apply bool_decide_eq_true in Hp. unfold approval_rules in Hr. rewrite Hp in Hr.
  apply andb_true_iff in Hr as [_ Hr]. rewrite (bool_decide_eq_false_2 (A_PENDING = A_APPROVED \/ A_PENDING = A_REJECTED)) in Hr by naive_solver.
  apply eqb_prop, eq_sym, negb_false_iff, bool_decide_eq_true in Hr.
  split_and!.
  - unfold is_pending. cbn. apply bool_decide_eq_false. by destruct Hs as [->| ->].
  - unfold approval_rules. cbn. rewrite Hr. by destruct Hs as [->| ->].
  - unfold decided_by_a_person. cbn. destruct Hs as [->| ->]; by intros [?|?].
Qed.

Lemma marks_ok now e db db' : requests_ok db -> marks now e db db' -> requests_ok db' /\ settled_kept db db'.
Proof.
  intros Hok (held & state & note & reason & Hby & Hp & Hs & _ & ->). split; [|by eapply marked_kept; [apply Hok|done..]].
  destruct (settled_row_ok now state note held) as (? & ? & ?); [|done|done|by eapply marked_ok].
  apply (apk_rules _ (proj1 Hok)). exact (proj1 (approval_by_in _ _ _ Hby)).
Qed.

Lemma decided_row p r : is_interactive p = true -> actor p <> ar_requested_actor r ->
  ar_decided_interface r = interface p -> ar_decided_actor r = actor p -> decided_by_a_person r.
Proof.
  intros Hi Hne Hif Ha _. rewrite Hif, Ha. split; [|done]. unfold is_interactive, among in Hi. by apply bool_decide_eq_true in Hi.
Qed.

Lemma require_all_could_hold p names : require_all p names = None -> could_hold (interface p) names = true.
Proof.
  intros H. rewrite require_all_none in H. induction names as [|n names IH]; [done|]. cbn [could_hold].
  assert (holds p n) as Hh by (apply H; by left). specialize (IH (fun m Hm => H m (proj2 (elem_of_cons _ _ _) (or_intror Hm)))).
  destruct Hh as (_ & _ & _ & Hc). cbn [could_hold] in Hc. destruct (held_only_at n HELD_ONLY_AT) as [at_|]; [|done].
  by destruct (among (interface p) at_).
Qed.

Lemma sweep_ok now db : approvals_ok db -> approvals_ok (set_db_approvals (update_where (lapsed now) (lapse_row now) (db_approvals db)) db).
Proof.
  intros [Hr Hi Hb Ho Hd Hc].
  assert (forall r, r ∈ db_approvals db -> lapsed now r = true -> is_pending (lapse_row now r) = false /\
    approval_rules (lapse_row now r) = true /\ decided_by_a_person (lapse_row now r)) as Hf.
  { intros r Hin [Hp _]%andb_true_iff. apply settled_row_ok; [by apply Hr|done|by left]. }
  constructor; cbn.
  - intros r (x & Hx & ->)%elem_of_update_where. destruct (lapsed now x) eqn:Hl; [by apply Hf|by apply Hr].
  - rewrite map_update_where; [done|]. by intros r _ _.
  - intros r (x & Hx & ->)%elem_of_update_where. destruct (lapsed now x); by apply (Hb x).
  - apply one_each_drop; [|done]. intros r Hin Hl. by apply Hf.
  - intros r (x & Hx & ->)%elem_of_update_where. destruct (lapsed now x) eqn:Hl; [by apply Hf|by apply Hd].
  - intros a k. etransitivity; [|apply (Hc a k)]. unfold outstanding. cbn. apply count_update_le.
    intros r Hin Hl. destruct (Hf r Hin Hl) as [-> _]. by rewrite andb_false_r.
Qed.

Lemma settled_kept_refl db : settled_kept db db.
Proof. by intros r. Qed.

Lemma step_ok db db' :
  (forall spec, registered host (sp_name spec) = Some spec -> askable spec -> leaves_requests spec) ->
  request_step db db' -> requests_ok db -> requests_ok db' /\ settled_kept db db'.
Proof.
  intros Hleave Hstep Hok. destruct Hstep as [now spec payload command target p o db db' Hreg Hi Hall H|now o db db' H|now id p o db db' H|now id note p o db db' H|db db' Ha Hn].
  - assert (askable spec) as Hask by (exists (interface p); split; [done|by apply require_all_could_hold]).
    assert (approvals_ok db') as Hok' by (eapply hold_ok; [exact H|apply Hok]).
    apply hold_inv in H as [(e & -> & ->)|(subject & _ & [(r & _ & _ & ->)|(_ & _ & _ & ->)])]; [by auto using settled_kept_refl|by auto using settled_kept_refl| |done].
    split; [split; [done|]|].
    + intros r spec' [Hr| ->%list_elem_of_singleton]%elem_of_app; [by apply (proj2 Hok)|]. cbn. intros Hreg'. congruence.
    + intros r Hr _. cbn. apply elem_of_app. by left.
  - rewrite lapse_expired_runs in H by apply Hok. injection H as _ <-. split; [split|].
    + apply sweep_ok, Hok.
    + intros r spec (x & Hx & ->)%elem_of_update_where. destruct (lapsed now x); exact (proj2 Hok x spec Hx).
    + intros r Hr Hp. cbn. apply elem_of_update_where. exists r. split; [done|]. unfold lapsed. by rewrite Hp.
  - apply approve_inv in H as [(e & _ & [->|H])|(held & spec & command & result & db1 & row & (_ & Hby & Hp & _) & Hmay & Hrun & Hrow & Hrules & -> & _)];
      [by auto using settled_kept_refl|by eapply marks_ok|].
    assert (registered host (sp_name spec) = Some spec) as Hreg.
    { pose proof (ma_spec _ _ _ _ _ _ Hmay) as Hs. by rewrite (registered_name _ _ _ Hs). }
    assert (askable spec) as Hask by (eapply (proj2 Hok); [exact (proj1 (approval_by_in _ _ _ Hby))|apply (ma_spec _ _ _ _ _ _ Hmay)]).
    destruct (run_handler_leaves _ _ _ _ _ _ _ _ _ _ (Hleave spec Hreg Hask) Hrun) as [Ha Hn].
    assert (requests_ok db1) as Hok1.
    { split; [by eapply approvals_frame; [| |apply Hok]|]. intros r s. rewrite Ha. apply (proj2 Hok). }
    assert (row = held) as -> by (unfold approval_by in *; rewrite Ha in Hrow; congruence). split.
    + eapply marked_ok; [done|exact Hrow|done|done|done|]. eapply (decided_row p); [apply (ma_person _ _ _ _ _ _ Hmay)|apply (ma_other _ _ _ _ _ _ Hmay)|done|done].
    + intros r Hr Hs. eapply marked_kept; [apply Hok1|exact Hrow|done| |done]. by rewrite Ha.
  - apply reject_inv in H as [(e & _ & [->|H])|(held & (_ & Hby & Hp & _) & Hi & Hne & Hrules & -> & _)]; [by auto using settled_kept_refl|by eapply marks_ok|]. split.
    + eapply marked_ok; [done|exact Hby|done|done|done|]. by eapply (decided_row p).
    + eapply marked_kept; [apply Hok|exact Hby|done].
  - split; [split; [by eapply approvals_frame; [| |apply Hok]|]|].
    + intros r s. rewrite Ha. apply (proj2 Hok).
    + intros r Hr _. by rewrite Ha.
Qed.


(** A held call runs once: when it has been approved, nobody approves or declines it again. *)
Theorem approved_once (now now' : Z) (id note : string) (p p' : Principal) (db db' : Db) (said : dict) :
  (forall spec, registered host (sp_name spec) = Some spec -> askable spec -> leaves_requests spec) ->
  requests_ok db -> approve now id p db = (Ok said, db') ->
  let again := Raise (approval_error "That request is already approved and applied.") in
  approve now' id p' db' = (again, db') /\ reject now' id note p' db' = (again, db').
Proof.
  intros Hleave Hok H again.
  destruct (step_ok db db' Hleave (step_approve _ _ _ _ _ _ H) Hok) as [Hok' _].
  apply approve_inv in H as [(e & ? & _)|(held & spec & command & result & db1 & row & (Hid & Hby & _) & _ & _ & Hrow & _ & -> & _)]; [done|].
  assert (approval_by (ar_id held) (marked (ar_id held) (approved_as now p result) db1) = Some (approved_as now p result row)) as Hnow.
  { apply approval_by_in in Hrow as [Hin Heq]. rewrite <- Heq at 1. apply (approval_by_unique _ (approved_as now p result row)); [apply (apk_ids _ (proj1 Hok'))|].
    unfold marked. cbn. apply elem_of_update_where. exists row. split; [done|]. by rewrite bool_decide_eq_true_2. }
  assert (forall t, decidable_ host t id (marked (ar_id held) (approved_as now p result) db1) =
    (Raise (approval_error "That request is already approved and applied."), marked (ar_id held) (approved_as now p result) db1)) as Hd.
  { intros t. unfold decidable_. rewrite Hid. rewrite (bind_step _ _ _ (Some (approved_as now p result row)) _) by (unfold gets; by rewrite Hnow). done. }
  unfold approve, reject. by rewrite !(bind_stop _ _ _ _ _ (Hd now')).
Qed.
End Decisions.

Definition agreed_db : Db := (approve demo_host 5 "0" in_the_browser asked_db).2.

Lemma agreed : exists said, approve demo_host 5 "0" in_the_browser asked_db = (Ok said, agreed_db).
Proof.
  unfold agreed_db. destruct (approve demo_host 5 "0" in_the_browser asked_db) as [[said|e] db'] eqn:H; [by exists said|].
  exfalso. apply (f_equal fst) in H. vm_compute in H. discriminate H.
Qed.

Lemma demo_leaves spec : registered demo_host (sp_name spec) = Some spec -> askable spec -> leaves_requests spec.
Proof.
  intros Hreg _. unfold registered in Hreg. apply first_where_some in Hreg as [Hin _]. cbn in Hin.
  apply elem_of_cons in Hin as [->|Hin]; [by intros call db|]. apply list_elem_of_singleton in Hin as ->. intros call db. cbn. split; [done|lia].
Qed.

Lemma asked_requests_ok : requests_ok demo_host asked_db.
Proof.
  split; [apply asked_approvals_ok|]. intros r spec Hr Hreg.
  assert (ar_capability r = "contacts.remove") as Hcap.
  { assert (Forall (fun r => ar_capability r = "contacts.remove") (db_approvals asked_db)) as Hall by (vm_compute; repeat constructor).
    rewrite Forall_forall in Hall. by apply Hall. }
  rewrite Hcap in Hreg. assert (spec = demo_spec) as -> by (vm_compute in Hreg; by injection Hreg as <-).
  exists MCP_INTERFACE. done.
Qed.


Lemma failed_decision_moves_nothing_witness :
  exists e db', approve demo_host (30 * HOUR) "0" in_the_browser asked_db = (Raise e, db') /\ (db' = asked_db \/ marks (30 * HOUR) e asked_db db').
Proof.
  destruct (approve demo_host (30 * HOUR) "0" in_the_browser asked_db) as [[said|e] db'] eqn:H.
  - exfalso. apply (f_equal fst) in H. vm_compute in H. discriminate H.
  - exists e, db'. split; [reflexivity|].
    exact (proj1 (failed_decision_moves_nothing demo_host (30 * HOUR) "0" "" in_the_browser asked_db db' e (or_introl H))).
Defined.


Lemma approved_once_witness :
  approve demo_host 6 "0" in_the_browser agreed_db = (Raise (approval_error "That request is already approved and applied."), agreed_db).
Proof.
  destruct agreed as [said H].
  exact (proj1 (approved_once demo_host 5 6 "0" "" in_the_browser in_the_browser asked_db agreed_db said demo_leaves asked_requests_ok H)).
Defined.
