(* ===== verification/Operations.v ===== *)
(** The queue of operations a controller pulls ([resource_operations.py]): how one is
    asked for, and that asking again while it waits, or under the same key, queues nothing.

    What the providers declare of each kind is the deployment's: [Plant] gathers it. *)
From stdpp Require Import base gmap strings list pretty.
From Stdlib Require Import Ascii ZArith Lia.
From S2P Require Import Prelude PyStr Json Refusals Security Models Specs Policy.

#[local] Open Scope string_scope.

(** What the providers' declarations answer. *)
Record Plant : Type := mkPlant {
  pl_observes_only : ManagedResource -> Db -> bool;               (* observes_only(kind, spec) *)
  pl_action_policy : string -> string -> bool * string;           (* controller_action_policy(kind, action) *)
  pl_actions : list (string * string);                            (* enabled_controller_actions(automatic_only=True) *)
  pl_contract : ManagedResource -> Db -> outcome exn dict;        (* controller_contract(resource) *)
  pl_verification : string -> string -> option json;              (* the verification a kind's action declares *)
  pl_resolved_spec : ManagedResource -> Db -> dict;               (* resolved_spec(resource) *)
  pl_serialize_resource : ManagedResource -> json;                (* serialize_resource(resource) *)
  pl_strike_removed : ManagedResource -> M exn Db unit;           (* inventory.strike_removed(kind, spec) *)
  pl_swept : string -> bool;                                      (* swept(kind) *)
  pl_unit_gap : ManagedResource -> Db -> string;                  (* unit_gap(resource) *)
  pl_public_dns : bool;                                           (* public_dns_enabled() *)
  pl_repairs : Db -> list (string * string * string);             (* auto_remediable: rule, resource key, reason *)
  pl_auto_remedy : bool;                                          (* SEVERINO_FINDINGS_AUTO_REMEDY *)
  pl_moment : string -> option Z;                                 (* moment(text) *)
}.

(** [OperationCommand] *)
Record OperationCommand : Type := mkOperationCommand { oc_idempotency_key : string; oc_reason : string }.

(** [operation.resource] *)
Definition resource_by (id : string) (db : Db) : option ManagedResource :=
  first_where (fun r => bool_decide (mr_id r = id)) (db_resources db).

Definition resource_key_of (op : OperationRequest) (db : Db) : string :=
  match resource_by (op_resource op) db with Some r => mr_key r | None => "" end.

(** [serialize_operation(operation)] *)
Definition serialize_operation (op : OperationRequest) (db : Db) : json :=
  JObj [("id", JStr (op_id op)); ("resource", JStr (resource_key_of op db)); ("action", JStr (op_action op));
        ("state", JStr (operation_value (op_state op))); ("reason", JStr (op_reason op));
        ("requested_actor", JStr (op_requested_actor op)); ("requested_interface", JStr (op_requested_interface op));
        ("created_at", JStr (isoformat (op_created_at op))); ("completed_at", iso_or_null (op_completed_at op));
        ("claimed_by", JStr (op_claimed_by op)); ("lease_expires_at", iso_or_null (op_lease_expires_at op));
        ("attempt_count", JNum (op_attempt_count op)); ("result", op_result op)].

(** * The queue *)

(** The operation waiting or running for this resource and action; the rows are newest first. *)
Definition active_operation (resource action : string) (db : Db) : option OperationRequest :=
  first_where (fun o => bool_decide (op_resource o = resource) && bool_decide (op_action o = action) && is_active o)
    (rev (order_by_time op_created_at (db_operations db))).

Definition operation_of_key (key : string) (db : Db) : option OperationRequest :=
  first_where (fun o => bool_decide (op_idempotency_key o = key)) (db_operations db).

(** Who asked, from where, why and of what: the columns a caller of [enqueue] fills in. *)
Record Asked : Type := mkAsked { ak_actor : string; ak_interface : string; ak_device : string; ak_reason : string; ak_input : dict }.

Definition new_operation (now : Z) (resource : ManagedResource) (action key : string) (asked : Asked) (id : N) : OperationRequest :=
  mkOperationRequest (pretty id) (mr_id resource) action O_QUEUED (ak_actor asked) (ak_interface asked) (ak_device asked)
    (ak_reason asked) key (JObj (ak_input asked)) (JObj []) "" None None 0 None now.

(** [enqueue(resource, action, idempotency_key=..., ...)] *)
Definition enqueue (now : Z) (resource : ManagedResource) (action key : string) (asked : Asked) : M exn Db (OperationRequest * bool) :=
  active ← gets (active_operation (mr_id resource) action);
  match active with
  | Some op => mret (op, false)
  | None =>
      known ← gets (operation_of_key key);
      match known with
      | Some op => mret (op, false)
      | None =>
          id ← take_id;
          let op := new_operation now resource action key asked id in
          _ ← modify (fun db => set_db_operations (db_operations db ++ [op])%list db);
          mret (op, true)
      end
  end.

Section Queue.
Variables (host : Site) (plant : Plant).

Definition policy_error (said : string) : exn := Host PolicyError said JNull.

Definition OBSERVES_ONLY := "This connection only reads. Its setup guide says how to let HQ make changes through it.".

(** [_queue_operation(resource, command, principal=..., action=..., require_enabled=...)] *)
Definition queue_operation (now : Z) (resource : ManagedResource) (command : OperationCommand) (p : Principal) (action : string)
    (require_enabled : bool) : M exn Db dict :=
  _ ← raise_if (require_enabled && negb (mr_enabled resource)) (policy_error "This record is switched off in HQ.");
  observes ← gets (pl_observes_only plant resource);
  _ ← raise_if observes (policy_error OBSERVES_ONLY);
  let gap := consent_gap host (mr_kind resource) p in
  _ ← raise_if (negb (bool_decide (gap = ""))) (policy_error gap);
  let policy := pl_action_policy plant (mr_kind resource) action in
  _ ← raise_if (negb policy.1) (policy_error policy.2);
  let input := if decide (approved_by p = "") then [("generation", JNum (mr_generation resource))]
               else [("generation", JNum (mr_generation resource)); ("approved_by", JStr (approved_by p))] in
  made ← enqueue now resource action (oc_idempotency_key command)
    (mkAsked (actor p) (interface p) (device p) (oc_reason command) input);
  let '(op, queued) := (made : OperationRequest * bool) in
  _ ← raise_if (negb (bool_decide (op_resource op = mr_id resource)) || negb (bool_decide (op_action op = action)))
        (policy_error "Idempotency key is already used by another operation.");
  said ← gets (serialize_operation op);
  if queued then
    (_ ← on_commit RingDoorbell;
     mret [("ok", JBool true); ("queued", JBool true); ("operation", said)])
  else mret [("ok", JBool true); ("queued", JBool false); ("operation", said)].

(** [_resource_for_operation(key)] *)
Definition resource_for_operation (key : string) : M exn Db ManagedResource :=
  act (fun db =>
    match resource_of key db with
    | Some r => (Ok r, db)
    | None => (Raise (Host RecordNotFound "That record was not found." JNull), db)
    end).

(** [queue_reconcile(resource, principal=..., reason=...)] *)
Definition queue_reconcile (now : Z) (resource : ManagedResource) (p : Principal) (reason : string) : M exn Db dict :=
  queue_operation now resource
    (mkOperationCommand ("reconcile:" +:+ mr_id resource +:+ ":g" +:+ pretty (mr_generation resource)) reason) p RECONCILE true.

(** [request_reconcile(command, principal=..., current_key=...)] *)
Definition request_reconcile (now : Z) (command : OperationCommand) (p : Principal) (current_key : string) : M exn Db dict :=
  atomic (
    resource ← resource_for_operation current_key;
    _ ← (match h_providers host (mr_kind resource) with
         | None => raise (OtherError "KeyError" (mr_kind resource))
         | Some provider => raise_if (pv_public_effect provider && negb (pl_public_dns plant))
                              (policy_error "Public DNS changes are off on this server.")
         end);
    queue_operation now resource command p RECONCILE true).

(** [result["queued"]] *)
Definition says_queued (result : dict) : bool :=
  match dget "queued" result with Some v => truthy v | None => false end.

(** [_request_lifecycle(command, principal=..., current_key=..., action=...)] *)
Definition request_lifecycle (now : Z) (command : OperationCommand) (p : Principal) (current_key action : string) : M exn Db dict :=
  atomic (
    resource ← resource_for_operation current_key;
    gap ← gets (pl_unit_gap plant resource);
    _ ← raise_if (negb (bool_decide (gap = ""))) (policy_error gap);
    result ← queue_operation now resource command p action true;
    _ ← (if says_queued result && pl_swept plant (mr_kind resource) then on_commit (RequestReading (mr_kind resource)) else mret tt);
    mret result).

(** [request_restart], [request_start] and [request_stop] *)
Definition request_restart (now : Z) (command : OperationCommand) (p : Principal) (current_key : string) : M exn Db dict :=
  request_lifecycle now command p current_key RESTART.
Definition request_start (now : Z) (command : OperationCommand) (p : Principal) (current_key : string) : M exn Db dict :=
  request_lifecycle now command p current_key START.
Definition request_stop (now : Z) (command : OperationCommand) (p : Principal) (current_key : string) : M exn Db dict :=
  request_lifecycle now command p current_key STOP.
End Queue.

(** * What the queue is held to *)

(** The key of [one_active_operation_per_resource_action]. *)
Definition active_key (o : OperationRequest) : string * string := (op_resource o, op_action o).

Record operations_ok (db : Db) : Prop := {
  opk_rules : forall o, o ∈ db_operations db -> operation_rules o = true;
  opk_ids : NoDup (map op_id (db_operations db));
  opk_keys : NoDup (map op_idempotency_key (db_operations db));
  opk_below : forall o, o ∈ db_operations db -> exists n, op_id o = pretty n /\ (n < db_next_id db)%N;
  opk_one : one_each is_active active_key (db_operations db);
}.

Lemma active_operation_some resource action db o :
  active_operation resource action db = Some o -> o ∈ db_operations db /\ is_active o = true /\ active_key o = (resource, action).
Proof.
  intros [Hin H]%first_where_some. rewrite elem_of_rev, order_by_time_perm in Hin.
  apply andb_true_iff in H as [[Hr%bool_decide_eq_true Ha%bool_decide_eq_true]%andb_true_iff Hact].
  split_and!; [done|done|]. unfold active_key. congruence.
Qed.

Lemma active_operation_none resource action db o :
  active_operation resource action db = None -> o ∈ db_operations db -> is_active o = true -> active_key o <> (resource, action).
Proof.
  intros Hn Ho Hact [= Hr Ha]. pose proof (first_where_none _ _ Hn o) as Hf. rewrite elem_of_rev, order_by_time_perm in Hf.
  specialize (Hf Ho). by rewrite !bool_decide_eq_true_2, Hact in Hf.
Qed.

(** What one call of [enqueue] does. *)
Lemma enqueue_cases now resource action key asked db :
  let op := new_operation now resource action key asked (db_next_id db) in
  (exists o, active_operation (mr_id resource) action db = Some o /\ enqueue now resource action key asked db = (Ok (o, false), db)) \/
  (exists o, active_operation (mr_id resource) action db = None /\ operation_of_key key db = Some o /\
     enqueue now resource action key asked db = (Ok (o, false), db)) \/
  (active_operation (mr_id resource) action db = None /\ operation_of_key key db = None /\
   enqueue now resource action key asked db =
     (Ok (op, true), set_db_operations (db_operations db ++ [op])%list (set_db_next_id (db_next_id db + 1)%N db))).
Proof.
  intros op. unfold enqueue, mbind, M_bind, gets. destruct (active_operation (mr_id resource) action db) as [o|] eqn:Ha; [left; by eauto|].
  destruct (operation_of_key key db) as [o|] eqn:Hk; [right; left; by eauto|right; right]. done.
Qed.

Lemma enqueue_ok now resource action key asked db o db' :
  enqueue now resource action key asked db = (o, db') -> operations_ok db -> operations_ok db'.
Proof.
  intros H Hok. destruct (enqueue_cases now resource action key asked db) as [(x & _ & He)|[(x & _ & _ & He)|(Ha & Hk & He)]];
    rewrite He in H; injection H as <- <-; [done|done|]. destruct Hok as [Hr Hi Hkeys Hb Ho].
  set (op := new_operation now resource action key asked (db_next_id db)). constructor; cbn.
  - intros x [Hx| ->%list_elem_of_singleton]%elem_of_app; [by apply Hr|done].
  - rewrite map_app. apply NoDup_app. split_and!; [done| |apply NoDup_singleton].
    intros k (x & -> & Hx)%list_elem_of_fmap Heq%list_elem_of_singleton. destruct (Hb _ Hx) as (n & Hn & Hlt).
    rewrite Hn in Heq. change (pretty n = pretty (db_next_id db)) in Heq. apply (inj pretty) in Heq. lia.
  - rewrite map_app. apply NoDup_app. split_and!; [done| |apply NoDup_singleton].
    intros k (x & -> & Hx)%list_elem_of_fmap Heq%list_elem_of_singleton.
    pose proof (first_where_none _ _ Hk x Hx) as Hf. apply bool_decide_eq_false in Hf. by apply Hf.
  - intros x [(n & ? & ?)%Hb| ->%list_elem_of_singleton]%elem_of_app; [exists n|exists (db_next_id db)]; (split; [done|lia]).
  - unfold one_each, rows_where. rewrite List.filter_app, map_app. cbn. apply NoDup_app. split_and!; [done| |apply NoDup_singleton].
    intros k (x & -> & Hx)%list_elem_of_fmap Heq%list_elem_of_singleton. apply list_elem_of_In, filter_In in Hx as [Hx Hact].
    by eapply active_operation_none; [exact Ha|by apply list_elem_of_In|..].
Qed.

(** Work that waits is queued once: while an operation of a resource waits or runs, asking
    for the same one again, by anyone and under any key, finds it and adds nothing. *)
Theorem waiting_work_is_queued_once (now now' : Z) (resource : ManagedResource) (action key key' : string) (asked asked' : Asked)
    (op : OperationRequest) (created : bool) (db db' : Db) :
  operations_ok db -> enqueue now resource action key asked db = (Ok (op, created), db') -> is_active op = true -> active_key op = (mr_id resource, action) ->
  op ∈ db_operations db' /\ enqueue now' resource action key' asked' db' = (Ok (op, false), db') /\ operations_ok db' /\
  (created = true <-> op ∉ db_operations db).
Proof.
  intros Hok H Hact Hkey. assert (operations_ok db') as Hok' by by eapply enqueue_ok.
  assert (op ∈ db_operations db' /\ (created = true <-> op ∉ db_operations db)) as [Hin Hcr].
  { destruct (enqueue_cases now resource action key asked db) as [(x & Hx & He)|[(x & _ & Hx & He)|(_ & _ & He)]];
      rewrite He in H; injection H as <- <- <-.
    - apply active_operation_some in Hx as [? _]. by split.
    - apply first_where_some in Hx as [? _]. by split.
    - cbn. split; [apply elem_of_app; right; by apply list_elem_of_singleton|]. split; [|done]. intros _ Hin.
      destruct (opk_below _ Hok _ Hin) as (n & Hn & Hlt). change (pretty (db_next_id db) = pretty n) in Hn. apply (inj pretty) in Hn. lia. }
  split; [done|]. split; [|done].
  destruct (active_operation (mr_id resource) action db') as [o|] eqn:Ha.
  - apply active_operation_some in Ha as Hs. destruct Hs as (Ho & Hoact & Hokey).
    assert (o = op) as -> by (eapply one_each_unique; [apply (opk_one _ Hok')|done..|congruence]).
    unfold enqueue, mbind, M_bind, gets. by rewrite Ha.
  - by destruct (active_operation_none _ _ _ op Ha Hin Hact).
Qed.

Section QueueLaws.
Variables (host : Site) (plant : Plant).

(** What enters the queue was allowed in: the record is on, its connection manages, the kind
    takes the action, and where the kind is gated a person is behind it, signed in or on
    record as having agreed.  What is queued is the caller's own ask, at the generation it was
    made of, and the controller is told; where it was waiting already, nothing moves. *)
Theorem queued_work_was_allowed (now : Z) (resource : ManagedResource) (command : OperationCommand) (p : Principal) (action : string)
    (require_enabled : bool) (said : dict) (db db' : Db) :
  queue_operation host plant now resource command p action require_enabled db = (Ok said, db') ->
  (require_enabled = true -> mr_enabled resource = true) /\ pl_observes_only plant resource db = false /\
  (pl_action_policy plant (mr_kind resource) action).1 = true /\
  (forall provider, h_providers host (mr_kind resource) = Some provider -> waits provider p None = true ->
     is_interactive p = true \/ approved_by p <> "") /\
  exists op, op ∈ db_operations db' /\ active_key op = (mr_id resource, action) /\
    dget "operation" said = Some (serialize_operation op db') /\
    if says_queued said then
      db_operations db' = (db_operations db ++ [op])%list /\ op_state op = O_QUEUED /\ op_requested_actor op = actor p /\ op_requested_interface op = interface p /\
      op_requested_device op = device p /\ attr "generation" (op_input op) = Some (JNum (mr_generation resource)) /\
      db_effects db' = (db_effects db ++ [RingDoorbell])%list
    else db' = db.
Proof.
  unfold queue_operation. intros H. destruct (require_enabled && negb (mr_enabled resource)) eqn:He; [done|].
  rewrite (bind_step _ _ _ tt db) in H by done. rewrite (bind_step _ _ _ (pl_observes_only plant resource db) db) in H by done.
  destruct (pl_observes_only plant resource db); [done|]. rewrite (bind_step _ _ _ tt db) in H by done.
  case_bool_decide as Hgap; [|done]. rewrite (bind_step _ _ _ tt db) in H by done.
  destruct (pl_action_policy plant (mr_kind resource) action) as [allowed why_] eqn:Hpol. cbn [fst snd] in H. destruct allowed; [|done].
  rewrite (bind_step _ _ _ tt db) in H by done. apply bind_inv_ok in H as ([op queued] & db1 & Hen & H).
  destruct (negb (bool_decide (op_resource op = mr_id resource)) || negb (bool_decide (op_action op = action))) eqn:Hsame; [done|].
  apply orb_false_iff in Hsame as [Hres%negb_false_iff%bool_decide_eq_true Hact%negb_false_iff%bool_decide_eq_true].
  rewrite (bind_step _ _ _ tt db1) in H by done. rewrite (bind_step _ _ _ (serialize_operation op db1) db1) in H by done.
  split_and!; [by intros ->; destruct (mr_enabled resource)|done|done| |].
  { intros provider Hp Hw. unfold consent_gap in Hgap. rewrite Hp, Hw in Hgap. cbn in Hgap.
    destruct (is_interactive p); [by left|]. cbn in Hgap. case_bool_decide as Hap; [done|by right]. }
  exists op. set (input := if decide (approved_by p = "") then _ else _) in Hen.
  destruct (enqueue_cases now resource action (oc_idempotency_key command) (mkAsked (actor p) (interface p) (device p) (oc_reason command) input) db)
    as [(x & Hx & Heq)|[(x & _ & Hx & Heq)|(_ & _ & Heq)]]; rewrite Heq in Hen; injection Hen as <- <- <-; cbv iota in H.
  - apply ret_inv in H as [[= ->] ->]. apply active_operation_some in Hx as (? & _ & ?). by split_and!.
  - apply ret_inv in H as [[= ->] ->]. apply first_where_some in Hx as [? _]. split_and!; [done| |done|done]. unfold active_key. congruence.
  - rewrite (bind_step _ _ _ tt (set_db_effects (db_effects db ++ [RingDoorbell])%list
      (set_db_operations (db_operations db ++ [new_operation now resource action (oc_idempotency_key command)
        (mkAsked (actor p) (interface p) (device p) (oc_reason command) input) (db_next_id db)])%list (set_db_next_id (db_next_id db + 1)%N db)))) in H by done.
    apply ret_inv in H as [[= ->] ->]. cbn [says_queued dget]. split_and!; try done.
    + cbn. apply elem_of_app. right. by apply list_elem_of_singleton.
    + cbn. subst input. by case_decide.
Qed.
End QueueLaws.

(** * A small plant to evaluate on *)

Definition demo_plant (strike : M exn Db unit) : Plant := mkPlant (fun _ _ => false) (fun _ _ => (true, "")) [("dns.record", RECONCILE)]
  (fun r _ => if decide (mr_key r = "broken") then Raise (ValueError "no such host") else Ok [("spec", JObj (mr_spec r))])
  (fun _ _ => None) (fun r _ => mr_spec r) (fun r => JStr (mr_key r)) (fun _ => strike) (fun _ => true) (fun _ _ => "") true (fun _ => []) true (fun _ => None).

Definition working_plant : Plant := demo_plant (mret tt).

Definition a_record (id key : string) : ManagedResource := mkManagedResource id key "dns.record" [] true "" 2 1 [] [] None 0.
Definition estate_db : Db := set_db_resources [a_record "r1" "broken"; a_record "r2" "www"] empty_db.

Lemma empty_operations_ok db : db_operations db = [] -> operations_ok db.
Proof. intros H. constructor; rewrite ?H; try constructor; intros o Ho; by apply elem_of_nil in Ho. Qed.

Lemma waiting_work_is_queued_once_witness :
  exists op db', enqueue 0 (a_record "r2" "www") RECONCILE "k1" (mkAsked "ada" WEB_INTERFACE "" "" []) estate_db = (Ok (op, true), db') /\
    enqueue 9 (a_record "r2" "www") RECONCILE "k2" (mkAsked "bot" MCP_INTERFACE "" "" []) db' = (Ok (op, false), db').
Proof.
  destruct (enqueue 0 (a_record "r2" "www") RECONCILE "k1" (mkAsked "ada" WEB_INTERFACE "" "" []) estate_db) as [[[op created]|e] db'] eqn:H;
    [|exfalso; apply (f_equal fst) in H; vm_compute in H; discriminate H].
  assert (created = true /\ is_active op = true /\ active_key op = ("r2", RECONCILE)) as (Hc & Ha & Hk).
  { apply (f_equal fst) in H. vm_compute in H. injection H as <- <-. vm_compute. split; [reflexivity|]. split; reflexivity. }
  subst created. exists op, db'. split; [reflexivity|].
  exact (proj1 (proj2 (waiting_work_is_queued_once 0 9 (a_record "r2" "www") RECONCILE "k1" "k2" (mkAsked "ada" WEB_INTERFACE "" "" [])
    (mkAsked "bot" MCP_INTERFACE "" "" []) op true estate_db db' (empty_operations_ok estate_db eq_refl) H Ha Hk))).
Defined.

Lemma queued_work_was_allowed_witness :
  exists said db' op, queue_operation demo_host working_plant 0 (a_record "r2" "www") (mkOperationCommand "k1" "") (principal_of "ada" WEB_INTERFACE {[ READ ]}) RECONCILE true estate_db
      = (Ok said, db') /\ op ∈ db_operations db' /\ active_key op = ("r2", RECONCILE).
Proof.
  destruct (queue_operation demo_host working_plant 0 (a_record "r2" "www") (mkOperationCommand "k1" "") (principal_of "ada" WEB_INTERFACE {[ READ ]}) RECONCILE true estate_db)
    as [[said|e] db'] eqn:H; [|exfalso; apply (f_equal fst) in H; vm_compute in H; discriminate H].
  destruct (queued_work_was_allowed demo_host working_plant 0 (a_record "r2" "www") (mkOperationCommand "k1" "") (principal_of "ada" WEB_INTERFACE {[ READ ]}) RECONCILE true said estate_db db' H)
    as (_ & _ & _ & _ & op & Hin & Hk & _). exists said, db', op. split; [reflexivity|]. split; [exact Hin|exact Hk].
Defined.
