(* ===== verification/Controller.v ===== *)
(** The lease and report protocol of the privileged controller ([controller.py]): work is
    scheduled, claimed one operation at a time under a lease, and reported; a lease that
    runs out puts its work back. *)
From stdpp Require Import base gmap strings list pretty.
From Stdlib Require Import Ascii ZArith Lia.
From S2P Require Import Prelude PyStr Json Refusals Security Models AgentAccess Specs Policy Approvals Operations.

#[local] Open Scope string_scope.

Definition CERTIFICATE_KIND := "tls.certificate".
Definition UPLOADED_CERTIFICATE_KIND := "tls.uploaded_certificate".
Definition DELIVERY_TARGET_KIND := "tls.delivery_target".
Definition LIFECYCLE_VERBS : list string := [START; STOP; RESTART].
Definition DEFAULT_RENEWAL_WINDOW_DAYS : Z := 30.

(** [ControllerReport] *)
Record ControllerReport : Type := mkControllerReport {
  cr_success : bool; cr_observed_generation : Z; cr_status : dict; cr_conditions : list json; cr_message : string;
}.

(** The operation with its claim gone: [claimed_by=""], [claimed_at=None], [lease_expires_at=None]. *)
Definition unclaimed (o : OperationRequest) : OperationRequest :=
  set_op_lease_expires_at None (set_op_claimed_at None (set_op_claimed_by "" o)).

(** * Leases *)

Definition lease_lapsed (now : Z) (o : OperationRequest) : bool :=
  bool_decide (op_state o = O_CLAIMED) && match op_lease_expires_at o with Some t => (t <=? now)%Z | None => false end.

(** The [switched_off] of [_release_lapsed]. *)
Definition switched_off (db : Db) (o : OperationRequest) : bool :=
  existsb (fun r => negb (mr_enabled r) && bool_decide (mr_id r = op_resource o)) (db_resources db) && negb (bool_decide (op_action o = DELETE)).

Definition SWITCHED_OFF : json :=
  JObj [("ok", JBool false);
        ("message", JStr "The record was switched off in HQ, and its lease ran out before it reported.");
        ("reason", JStr "SwitchedOff")].

Definition released (now : Z) (db : Db) (o : OperationRequest) : OperationRequest :=
  if switched_off db o
  then unclaimed (set_op_result SWITCHED_OFF (set_op_completed_at (Some now) (set_op_state O_CANCELLED o)))
  else unclaimed (set_op_completed_at None (set_op_state O_QUEUED o)).

(** [_release_lapsed(now)] *)
Definition release_lapsed (now : Z) : M exn Db unit :=
  modify (fun db => set_db_operations (update_where (lease_lapsed now) (released now db) (db_operations db)) db).

(** [_compatible_operations(operations, capabilities)], of one operation. *)
Definition compatible (capabilities : list (string * string)) (db : Db) (o : OperationRequest) : bool :=
  match capabilities with
  | [] => true
  | _ => existsb (fun ka => match resource_by (op_resource o) db with
                            | Some r => bool_decide (mr_kind r = ka.1) && bool_decide (op_action o = ka.2)
                            | None => false
                            end) capabilities
  end.

Section Controller.
Variables (host : Site) (plant : Plant).

(** [_verification(operation)] *)
Definition verification (o : OperationRequest) (db : Db) : option json :=
  match resource_by (op_resource o) db with
  | Some r => pl_verification plant (mr_kind r) (if decide (mr_kind r = CERTIFICATE_KIND) then "renew" else op_action o)
  | None => None
  end.

(** [_pending(operation)] *)
Definition pending_operation (o : OperationRequest) (db : Db) : dict :=
  ([("ok", JBool true); ("operation", serialize_operation o db)] ++
   match verification o db with Some v => [("verification", v)] | None => [] end)%list.

(** [operation.save(update_fields=...)] *)
Definition save_operation (id : string) (f : OperationRequest -> OperationRequest) : M exn Db unit :=
  act (fun db =>
    match first_where (fun o => bool_decide (op_id o = id)) (db_operations db) with
    | None => (Raise (DatabaseError "Save with update_fields did not affect any rows."), db)
    | Some o => if operation_rules (f o)
                then (Ok tt, set_db_operations (update_where (fun o => bool_decide (op_id o = id)) f (db_operations db)) db)
                else (Raise (IntegrityError "operation_claimed_names_its_claim"), db)
    end).

(** [controller_contract(operation.resource)], and whether its failure is one [_next_resolvable] expects. *)
Definition contract_of (o : OperationRequest) (db : Db) : outcome exn dict :=
  match resource_by (op_resource o) db with
  | Some r => pl_contract plant r db
  | None => Raise (OtherError "DoesNotExist" "ManagedResource matching query does not exist.")
  end.

Definition unresolvable (e : exn) : bool :=
  is_value_error e || match e with OtherError c _ => bool_decide (c = "KeyError" \/ c = "TypeError") | _ => false end.

Definition failed_as (now : Z) (said : string) (o : OperationRequest) : OperationRequest :=
  set_op_result (JObj [("ok", JBool false); ("message", JStr said); ("reason", JStr "Unresolvable")])
    (set_op_completed_at (Some now) (set_op_state O_FAILED o)).

(** [_next_resolvable(operations, now)] *)
Fixpoint next_resolvable (now : Z) (operations : list OperationRequest) : M exn Db (option (OperationRequest * dict)) :=
  match operations with
  | [] => mret None
  | o :: rest =>
      contract ← gets (contract_of o);
      match contract with
      | Ok answer => mret (Some (o, answer))
      | Raise e =>
          if unresolvable e then (_ ← save_operation (op_id o) (failed_as now (exn_text e)); next_resolvable now rest)
          else raise e
      end
  end.

(** The queued operations a claim may take, oldest first: what a paused or blocked agent
    asked for is left queued. *)
Definition claimable (capabilities : list (string * string)) (brakes : string -> string -> string -> bool) (db : Db) : list OperationRequest :=
  rows_where (compatible capabilities db)
    (rows_where (fun o => negb (brakes (op_requested_actor o) (op_requested_interface o) (op_requested_device o)))
      (order_by_time op_created_at (rows_where (fun o => bool_decide (op_state o = O_QUEUED)) (db_operations db)))).

Definition claimed_as (now : Z) (controller_id : string) (lease_seconds : Z) (o : OperationRequest) : OperationRequest :=
  set_op_attempt_count (op_attempt_count o + 1) (set_op_lease_expires_at (Some (now + lease_seconds * SECOND)%Z)
    (set_op_claimed_at (Some now) (set_op_claimed_by controller_id (set_op_state O_CLAIMED o)))).

(** [claim_next_operation(controller_id, lease_seconds=..., capabilities=...)] *)
Definition claim_next_operation (now : Z) (controller_id : string) (lease_seconds : Z) (capabilities : list (string * string)) : M exn Db dict :=
  atomic (
    _ ← raise_if (negb ((30 <=? lease_seconds)%Z && (lease_seconds <=? 3600)%Z)) (ValueError "Lease duration must be between 30 and 3600 seconds.");
    _ ← raise_if (bool_decide (controller_id = "")) (ValueError "A claim names the controller making it.");
    _ ← release_lapsed now;
    brakes ← held_askers;
    operations ← gets (claimable capabilities brakes);
    found ← next_resolvable now operations;
    match found with
    | None => mret [("ok", JBool true); ("operation", JNull)]
    | Some (o, contract) =>
        let claimed := claimed_as now controller_id lease_seconds o in
        _ ← save_operation (op_id o) (claimed_as now controller_id lease_seconds);
        said ← gets (pending_operation claimed);
        mret (dmerge said contract)
    end).

(** [peek_next_operation(capabilities=...)] *)
Definition peek_next_operation (capabilities : list (string * string)) (db : Db) : outcome exn dict :=
  match rows_where (compatible capabilities db)
          (order_by_time op_created_at (rows_where (fun o => bool_decide (op_state o = O_QUEUED)) (db_operations db))) with
  | [] => Ok [("ok", JBool true); ("operation", JNull)]
  | o :: _ =>
      let result := pending_operation o db in
      match contract_of o db with
      | Ok contract => Ok (dmerge result contract)
      | Raise e => if unresolvable e then Ok (dset "unresolvable" (JStr (exn_text e)) result) else Raise e
      end
  end.

(** * Automatic work *)

(** [str(item.get(name, ""))] of a condition. *)
Definition condition_text (name : string) (item : json) : string := attr_str name item.

Definition said_of_conditions (conditions : list json) : list json :=
  List.filter (fun item => among (match attr "type" item with Some (JStr t) => t | _ => "" end) ["Drifted"; "Degraded"]) conditions.

Definition is_drifted_or_degraded (conditions : list json) : bool :=
  existsb (fun item => bool_decide (attr "status" item = Some (JBool true))) (said_of_conditions conditions).

(** [_certificate_expiry(resource)] *)
Definition certificate_expiry (r : ManagedResource) : option Z :=
  match dget "not_after" (mr_status r) with
  | Some v => if truthy v then pl_moment plant (str_of v) else pl_moment plant ""
  | None => pl_moment plant ""
  end.

(** [_automatic_reconcile(resource)] *)
Definition automatic_reconcile (r : ManagedResource) : option (string * string) :=
  let not_after := match dget "not_after" (mr_status r) with Some v => truthy v | None => false end in
  if bool_decide (mr_kind r = CERTIFICATE_KIND) && not_after && bool_decide (certificate_expiry r = None) then
    Some ("Automatic: the certificate's expiry could not be read.", "invalid-expiry")
  else if negb (bool_decide (mr_generation r = mr_observed_generation r)) then
    Some ("Automatic: HQ's config for it changed.", "generation")
  else if is_drifted_or_degraded (mr_conditions r) then
    let said := join "|" (map (condition_text "message") (said_of_conditions (mr_conditions r))) in
    Some ("Automatic: it was changed outside HQ.", "drift-" +:+ take_str 16 (h_sha256 host said))
  else None.

(** [renewal_window(spec)] *)
Definition renewal_window (spec : dict) : Z :=
  match dget "renewal_window_days" spec with
  | Some (JNum n) => if (n =? 0)%Z then DEFAULT_RENEWAL_WINDOW_DAYS else n
  | Some (JBool true) => 1
  | Some (JStr s) => match int_of s with Some n => n | None => DEFAULT_RENEWAL_WINDOW_DAYS end
  | _ => DEFAULT_RENEWAL_WINDOW_DAYS
  end.

(** [_automatic_renewal(resource, now)] *)
Definition automatic_renewal (now : Z) (r : ManagedResource) : option (string * string) :=
  if negb (bool_decide (mr_kind r = CERTIFICATE_KIND)) then None
  else
    match certificate_expiry r with
    | None => None
    | Some expiry =>
        if (expiry - renewal_window (mr_spec r) * DAY <=? now)%Z
        then Some ("Automatic renewal window reached.", match dget "not_after" (mr_status r) with Some v => str_of v | None => "" end)
        else None
    end.

(** [_automatic_action(resource, action, now)]: [None] when it is not due. *)
Definition automatic_action (now : Z) (r : ManagedResource) (action : string) : option (string * string) :=
  if decide (action = RECONCILE) then automatic_reconcile r
  else if decide (action = RENEW) then automatic_renewal now r
  else None.

(** The actions of one kind, a renewal first. *)
Definition automatic_actions (kind : string) : list string :=
  let actions := map snd (List.filter (fun ka => bool_decide (ka.1 = kind)) (pl_actions plant)) in
  (List.filter (fun a => bool_decide (a = RENEW)) actions ++ List.filter (fun a => negb (bool_decide (a = RENEW))) actions)%list.

Fixpoint first_due (now : Z) (r : ManagedResource) (actions : list string) : option (string * string * string) :=
  match actions with
  | [] => None
  | action :: rest =>
      match automatic_action now r action with
      | Some (reason, identity) => Some (action, reason, identity)
      | None => first_due now r rest
      end
  end.

Definition asked_by_controller (controller_id reason : string) (r : ManagedResource) : Asked :=
  mkAsked controller_id CONTROLLER_INTERFACE "" reason [("generation", JNum (mr_generation r))].

(** One resource's turn in [schedule_automatic_operations]. *)
Definition schedule_one (now : Z) (controller_id : string) (scheduled : list string) (r : ManagedResource) : M exn Db (list string) :=
  observes ← gets (pl_observes_only plant r);
  if observes : bool then mret scheduled
  else
    match first_due now r (automatic_actions (mr_kind r)) with
    | None => mret scheduled
    | Some (action, reason, identity) =>
        let key := take_str 200 ("controller:" +:+ action +:+ ":" +:+ mr_id r +:+ ":g" +:+ pretty (mr_generation r) +:+ ":" +:+ identity +:+ ":" +:+ isodate now) in
        made ← enqueue now r action key (asked_by_controller controller_id reason r);
        mret (if (made : OperationRequest * bool).2 then (scheduled ++ [op_id made.1])%list else scheduled)
    end.

(** One repair's turn in [_finding_repairs]. *)
Definition repair_one (now : Z) (controller_id : string) (queued : list string) (repair : string * string * string) : M exn Db (list string) :=
  let '(rule, resource_key, reason) := repair in
  found ← gets (fun db => first_where (fun r => bool_decide (mr_key r = resource_key) && mr_enabled r) (db_resources db));
  match found with
  | None => mret queued
  | Some r =>
      observes ← gets (pl_observes_only plant r);
      if observes : bool then mret queued
      else
        let key := take_str 200 ("finding:" +:+ rule +:+ ":" +:+ mr_id r +:+ ":g" +:+ pretty (mr_generation r) +:+ ":" +:+ isodate now) in
        made ← enqueue now r RECONCILE key (asked_by_controller controller_id reason r);
        mret (if (made : OperationRequest * bool).2 then (queued ++ [mr_key r])%list else queued)
  end.

(** [_finding_repairs(controller_id, now)] *)
Definition finding_repairs (now : Z) (controller_id : string) : M exn Db (list string) :=
  atomic (
    if negb (pl_auto_remedy plant) then mret []
    else
      repairs ← gets (pl_repairs plant);
      fold_each (repair_one now controller_id) [] repairs).

(** [ManagedResource.objects.filter(enabled=True, kind__in=by_kind)], by kind and key. *)
Definition automatic_resources (db : Db) : list ManagedResource :=
  order_by mr_kind (order_by mr_key (rows_where (fun r => mr_enabled r && among (mr_kind r) (map fst (pl_actions plant))) (db_resources db))).

(** [schedule_automatic_operations(controller_id)] *)
Definition schedule_automatic_operations (now : Z) (controller_id : string) : M exn Db dict :=
  resources ← gets automatic_resources;
  scheduled ← fold_each (schedule_one now controller_id) [] resources;
  repaired ← finding_repairs now controller_id;
  mret [("ok", JBool true); ("scheduled", JList (map JStr scheduled)); ("repaired", JList (map JStr repaired))].

(** * Reports *)

(** [stamped(previous, conditions)]: when a condition began to hold as it does. *)
Definition since_of (previous : list json) (item : json) : option json :=
  let said := List.filter (fun p => match attr "since" p with Some v => truthy v | None => false end &&
      bool_decide (attr "type" p = attr "type" item) && bool_decide (attr "status" p = attr "status" item)) previous in
  match rev said with p :: _ => attr "since" p | [] => None end.

Definition stamped_one (now : Z) (previous : list json) (item : json) : json :=
  match item with
  | JObj d =>
      let since := match since_of previous item with
                   | Some v => v
                   | None => match dget "since" d with
                             | Some v => if truthy v then v else JStr (isoformat now)
                             | None => JStr (isoformat now)
                             end
                   end in
      JObj (dset "since" since d)
  | _ => item
  end.

Definition stamped (now : Z) (previous conditions : list json) : list json := map (stamped_one now previous) conditions.

(** [resource.save(update_fields=...)] *)
Definition save_resource (id : string) (f : ManagedResource -> ManagedResource) : M exn Db unit :=
  act (fun db =>
    match resource_by id db with
    | None => (Raise (DatabaseError "Save with update_fields did not affect any rows."), db)
    | Some _ => (Ok tt, set_db_resources (update_where (fun r => bool_decide (mr_id r = id)) f (db_resources db)) db)
    end).

Definition items (v : option json) : list json := match v with Some (JList l) => l | _ => [] end.

(** [_confirm_delivery_targets(resource, status)] *)
Definition confirm_delivery_targets (now : Z) (r : ManagedResource) (status : dict) : M exn Db unit :=
  if negb (among (mr_kind r) [CERTIFICATE_KIND; UPLOADED_CERTIFICATE_KIND]) then mret tt
  else
    let named item := match attr "consumer" item with Some v => truthy v | None => false end in
    let verified := map (attr_str "consumer") (List.filter named (items (dget "consumers" status))) in
    match verified with
    | [] => mret tt
    | _ =>
        resolved ← gets (pl_resolved_spec plant r);
        let reached := omap (fun c =>
          match attr "name" c, attr "connection_ref" c with
          | Some (JStr n), Some ref => if among n verified && truthy ref then Some ref else None
          | _, _ => None
          end) (items (dget "consumers" (resolved : dict))) in
        match reached with
        | [] => mret tt
        | _ => modify (fun db => set_db_resources (update_where
                 (fun t => bool_decide (mr_kind t = DELIVERY_TARGET_KIND) &&
                           match dget "connection_ref" (mr_spec t) with Some ref => bool_decide (ref ∈ reached) | None => false end)
                 (set_mr_last_observed_at (Some now)) (db_resources db)) db)
        end
    end.

(** [_read_back_lifecycle(operation)] *)
Definition read_back_lifecycle (o : OperationRequest) (kind : string) : M exn Db unit :=
  if among (op_action o) LIFECYCLE_VERBS && pl_swept plant kind then on_commit (RequestReading kind) else mret tt.

Definition reported_as (now : Z) (report : ControllerReport) (o : OperationRequest) : OperationRequest :=
  set_op_state (if cr_success report then O_SUCCEEDED else O_FAILED) (set_op_lease_expires_at None
    (set_op_completed_at (Some now)
      (set_op_result (JObj [("message", JStr (cr_message report)); ("status", JObj (cr_status report)); ("conditions", JList (cr_conditions report))]) o))).

Definition observed_as (now : Z) (report : ControllerReport) (r : ManagedResource) : ManagedResource :=
  let r := set_mr_updated_at now (set_mr_conditions (stamped now (mr_conditions r) (cr_conditions report)) r) in
  if cr_success report
  then set_mr_observed_generation (cr_observed_generation report) (set_mr_last_observed_at (Some now) (set_mr_status (cr_status report) r))
  else r.

(** [_settle_report(operation, report)] *)
Definition settle_report (now : Z) (o : OperationRequest) (r : ManagedResource) (report : ControllerReport) : M exn Db dict :=
  let o' := reported_as now report o in
  let r' := observed_as now report r in
  _ ← save_operation (op_id o) (reported_as now report);
  _ ← save_resource (mr_id r) (observed_as now report);
  _ ← (if cr_success report then confirm_delivery_targets now r' (cr_status report) else mret tt);
  _ ← read_back_lifecycle o' (mr_kind r');
  said ← gets (serialize_operation o');
  if cr_success report && bool_decide (op_action o = DELETE) then
    (_ ← modify (fun db => set_db_operations (delete_where (fun x => bool_decide (op_resource x = mr_id r)) (db_operations db)) db);
     _ ← pl_strike_removed plant r';
     _ ← modify (fun db => set_db_resources (delete_where (fun x => bool_decide (mr_id x = mr_id r)) (db_resources db)) db);
     mret [("ok", JBool true); ("operation", said); ("resource", pl_serialize_resource plant r'); ("removed", JBool true)])
  else mret [("ok", JBool true); ("operation", said); ("resource", pl_serialize_resource plant r')].

Definition operation_by (id : string) (db : Db) : option OperationRequest :=
  first_where (fun o => bool_decide (op_id o = id)) (db_operations db).

(** [report_operation(operation_id, report, controller_id=...)]: not one transaction. *)
Definition report_operation (now : Z) (operation_id : string) (report : ControllerReport) (controller_id : string) : M exn Db dict :=
  match h_uuid host operation_id with
  | None => raise malformed_id
  | Some id =>
      found ← gets (operation_by id);
      match found with
      | None => raise (ValueError ("Operation " +:+ repr operation_id +:+ " was not found."))
      | Some o =>
          _ ← raise_if (negb (bool_decide (op_state o = O_CLAIMED))) (ValueError ("Operation is " +:+ repr (operation_value (op_state o)) +:+ ", not claimed."));
          _ ← raise_if (negb (bool_decide (op_claimed_by o = controller_id))) (ValueError "Operation is leased by a different controller.");
          _ ← raise_if (match op_lease_expires_at o with Some t => (t <=? now)%Z | None => false end) (ValueError "Operation lease has expired.");
          _ ← raise_if (negb (bool_decide (attr "generation" (op_input o) = Some (JNum (cr_observed_generation report)))))
                (ValueError "Report generation does not match the operation's requested generation.");
          resource ← gets (resource_by (op_resource o));
          match resource with
          | None => raise (OtherError "DoesNotExist" "ManagedResource matching query does not exist.")
          | Some r => settle_report now o r report
          end
      end
  end.
End Controller.

(** * What every step keeps of the queue *)

Section OneEachUpdate.
Context {A K : Type} (p q : A -> bool) (key : A -> K) (f : A -> A).

Lemma one_each_update rows :
  (forall r, r ∈ rows -> q r = true -> key (f r) = key r /\ (p (f r) = true -> p r = true)) ->
  one_each p key rows -> one_each p key (update_where q f rows).
Proof.
  unfold one_each, rows_where, update_where. induction rows as [|x xs IH]; intros Hf Hnd; [done|].
  assert (forall r, r ∈ xs -> q r = true -> key (f r) = key r /\ (p (f r) = true -> p r = true)) as Hxs by (intros; apply Hf; [by right|done]).
  assert (forall k, k ∈ map key (List.filter p (map (fun r => if q r then f r else r) xs)) -> k ∈ map key (List.filter p xs)) as Hsub.
  { intros k (y & -> & Hy)%list_elem_of_fmap. apply list_elem_of_In, filter_In in Hy as [Hy Hp].
    apply list_elem_of_In, list_elem_of_fmap in Hy as (z & -> & Hz). apply list_elem_of_fmap. exists z.
    destruct (q z) eqn:Hq; [destruct (Hxs z Hz Hq) as [-> Hpz]; specialize (Hpz Hp)|]; (split; [done|]);
      apply list_elem_of_In, filter_In; (split; [by apply list_elem_of_In|done]). }
  cbn [map List.filter] in *. set (x' := if q x then f x else x).
  assert (key x' = key x /\ (p x' = true -> p x = true)) as [Hk Hp].
  { subst x'. destruct (q x) eqn:Hq; [apply Hf; [by left|done]|done]. }
  destruct (p x') eqn:Hp'; cbn [map].
  - rewrite (Hp eq_refl) in Hnd. cbn in Hnd. apply NoDup_cons in Hnd as [Hx Hnd]. apply NoDup_cons. rewrite Hk. split; [by intros ?%Hsub|by apply IH].
  - apply IH; [done|]. destruct (p x); [cbn in Hnd; by apply NoDup_cons in Hnd as [_ ?]|done].
Qed.

Lemma one_each_delete rows : one_each p key rows -> one_each p key (delete_where q rows).
Proof.
  unfold one_each, rows_where, delete_where. induction rows as [|x xs IH]; intros Hnd; [done|]. cbn [List.filter] in *.
  assert (forall k, k ∈ map key (List.filter p (List.filter (fun r => negb (q r)) xs)) -> k ∈ map key (List.filter p xs)) as Hsub.
  { intros k (y & -> & Hy)%list_elem_of_fmap. apply list_elem_of_In, filter_In in Hy as [Hy Hp]. apply filter_In in Hy as [Hy _].
    apply list_elem_of_fmap. exists y. split; [done|]. by apply list_elem_of_In, filter_In. }
  destruct (q x); cbn [negb List.filter]; destruct (p x); cbn [map List.filter] in *; try apply NoDup_cons in Hnd as [Hx Hnd]; try by apply IH.
  apply NoDup_cons. split; [by intros ?%Hsub|by apply IH].
Qed.
End OneEachUpdate.

(** The columns that say which operation a row is. *)
Definition same_operation (o o' : OperationRequest) : Prop :=
  op_id o' = op_id o /\ op_idempotency_key o' = op_idempotency_key o /\ active_key o' = active_key o.

Lemma operations_update_ok q f db :
  operations_ok db ->
  (forall o, o ∈ db_operations db -> q o = true -> same_operation o (f o) /\ operation_rules (f o) = true /\ (is_active (f o) = true -> is_active o = true)) ->
  operations_ok (set_db_operations (update_where q f (db_operations db)) db).
Proof.
  intros [Hr Hi Hk Hb Ho] Hf. constructor; cbn.
  - intros o (x & Hx & ->)%elem_of_update_where. destruct (q x) eqn:Hq; [by apply Hf|by apply Hr].
  - rewrite map_update_where; [done|]. intros o Hin Hq. apply Hf; done.
  - rewrite map_update_where; [done|]. intros o Hin Hq. apply Hf; done.
  - intros o (x & Hx & ->)%elem_of_update_where. destruct (q x) eqn:Hq; [|by apply Hb].
    destruct (Hf x Hx Hq) as [(-> & _ & _) _]. by apply Hb.
  - apply one_each_update; [|done]. intros o Hin Hq. destruct (Hf o Hin Hq) as [(_ & _ & ?) [_ ?]]. done.
Qed.

Lemma operations_delete_ok q db : operations_ok db -> operations_ok (set_db_operations (delete_where q (db_operations db)) db).
Proof.
  intros [Hr Hi Hk Hb Ho]. constructor; cbn.
  - intros o [? _]%elem_of_delete_where. by apply Hr.
  - by apply NoDup_map_delete.
  - by apply NoDup_map_delete.
  - intros o [? _]%elem_of_delete_where. by apply Hb.
  - by apply one_each_delete.
Qed.

Lemma operations_frame db db' :
  db_operations db' = db_operations db -> (db_next_id db <= db_next_id db')%N -> operations_ok db -> operations_ok db'.
Proof.
  intros Ho Hn [Hr Hi Hk Hb H1]. constructor; rewrite ?Ho; try done. intros o (n & ? & ?)%Hb. exists n. split; [done|lia].
Qed.

Lemma save_operation_ok id f db o db' :
  save_operation id f db = (o, db') -> operations_ok db ->
  (forall x, x ∈ db_operations db -> op_id x = id -> same_operation x (f x) /\ (is_active (f x) = true -> is_active x = true)) ->
  operations_ok db' /\ db_resources db' = db_resources db /\ db_next_id db' = db_next_id db.
Proof.
  unfold save_operation, act. intros H Hok Hf. destruct (first_where _ _) as [x|] eqn:Hx; [|by injection H as _ <-].
  destruct (operation_rules (f x)) eqn:Hr; [|by injection H as _ <-]. injection H as _ <-. split; [|done].
  apply first_where_some in Hx as [Hin Hid%bool_decide_eq_true]. apply operations_update_ok; [done|].
  intros y Hy Hq%bool_decide_eq_true. assert (y = x) as -> by (eapply (unique_by op_id); [apply (opk_ids _ Hok)|done..|congruence]).
  destruct (Hf x Hy Hq). done.
Qed.

Lemma release_lapsed_ok now db : operations_ok db -> operations_ok (release_lapsed now db).2.
Proof.
  intros Hok. apply operations_update_ok; [done|]. intros o Ho [Hs%bool_decide_eq_true _]%andb_true_iff.
  unfold released. destruct (switched_off db o); (split; [done|]); (split; [done|]); intros _; unfold is_active; rewrite Hs; by apply bool_decide_eq_true_2; right.
Qed.

Section Laws.
Variables (host : Site) (plant : Plant).

(** * A lease that runs out *)

(** No lease outlives itself: a claim takes back every operation whose lease has run out, to
    wait again, or, where its record was switched off and it is no removal, to end
    cancelled; no other operation moves. *)
Theorem lapsed_lease_is_released (now : Z) (db : Db) :
  let db' := (release_lapsed now db).2 in
  (forall o, o ∈ db_operations db' -> lease_lapsed now o = false) /\
  (forall o, o ∈ db_operations db -> lease_lapsed now o = true ->
     released now db o ∈ db_operations db' /\ op_claimed_by (released now db o) = "" /\
     (op_state (released now db o) = O_CANCELLED <->
        (exists r, r ∈ db_resources db /\ mr_id r = op_resource o /\ mr_enabled r = false) /\ op_action o <> DELETE) /\
     (op_state (released now db o) <> O_CANCELLED -> op_state (released now db o) = O_QUEUED /\ op_result (released now db o) = op_result o)) /\
  (forall o, o ∈ db_operations db -> lease_lapsed now o = false -> o ∈ db_operations db').
Proof.
  cbn. split_and!.
  - intros o (x & Hx & ->)%elem_of_update_where. destruct (lease_lapsed now x) eqn:Hl; [|done].
    unfold released. by destruct (switched_off db x).
  - intros o Ho Hl. split; [apply elem_of_update_where; exists o; by rewrite Hl|].
    assert (switched_off db o = true <-> (exists r, r ∈ db_resources db /\ mr_id r = op_resource o /\ mr_enabled r = false) /\ op_action o <> DELETE) as Hsw.
    { unfold switched_off. rewrite andb_true_iff, existsb_exists, negb_true_iff, bool_decide_eq_false. setoid_rewrite andb_true_iff.
      setoid_rewrite negb_true_iff. setoid_rewrite bool_decide_eq_true. setoid_rewrite <- list_elem_of_In. naive_solver. }
    rewrite <- Hsw. unfold released. destruct (switched_off db o); by split_and!.
  - intros o Ho Hl. apply elem_of_update_where. exists o. by rewrite Hl.
Qed.

(** * A claim *)

Lemma elem_of_claimable capabilities brakes db o :
  o ∈ claimable capabilities brakes db <->
  o ∈ db_operations db /\ op_state o = O_QUEUED /\ brakes (op_requested_actor o) (op_requested_interface o) (op_requested_device o) = false /\
  compatible capabilities db o = true.
Proof.
  unfold claimable. rewrite !elem_of_rows_where, order_by_time_perm, elem_of_rows_where, negb_true_iff, bool_decide_eq_true. naive_solver.
Qed.

Lemma claimable_distinct capabilities brakes db : operations_ok db -> NoDup (map op_id (claimable capabilities brakes db)).
Proof.
  intros Hok. unfold claimable. do 2 apply NoDup_map_rows. rewrite order_by_time_perm. apply NoDup_map_rows, (opk_ids _ Hok).
Qed.

(** The row of an operation, saved. *)
Lemma save_operation_found id f db o :
  operations_ok db -> o ∈ db_operations db -> op_id o = id -> operation_rules (f o) = true ->
  save_operation id f db = (Ok tt, set_db_operations (update_where (fun x => bool_decide (op_id x = id)) f (db_operations db)) db).
Proof.
  intros Hok Ho Hid Hr. unfold save_operation, act.
  destruct (first_where_is_some (fun x => bool_decide (op_id x = id)) _ o Ho) as [x Hx]; [by apply bool_decide_eq_true|]. rewrite Hx.
  apply first_where_some in Hx as [Hin Heq%bool_decide_eq_true].
  assert (x = o) as -> by (eapply (unique_by op_id); [apply (opk_ids _ Hok)|done..|congruence]). by rewrite Hr.
Qed.

Lemma failed_rules now said o : operation_rules o = true -> op_state o = O_QUEUED -> operation_rules (failed_as now said o) = true.
Proof. done. Qed.

(** Failing one queued operation keeps the queue well formed. *)
Lemma failed_ok now said o db db' out :
  operations_ok db -> save_operation (op_id o) (failed_as now said) db = (out, db') -> operations_ok db' /\ db_resources db' = db_resources db.
Proof. intros Hok H. eapply save_operation_ok in H as (? & ? & _); [done|done|]. intros x _ _. done. Qed.

(** The queue once each of [rows] is failed, as its contract says why. *)
Definition why_not (db : Db) (o : OperationRequest) : string := match contract_of plant o db with Raise e => exn_text e | Ok _ => "" end.

Definition failed_all (now : Z) (rows : list OperationRequest) (db : Db) : Db :=
  set_db_operations (update_where (fun x => bool_decide (op_id x ∈ map op_id rows)) (fun x => failed_as now (why_not db x) x) (db_operations db)) db.

(** A contract reads the declarations, not the queue. *)
Definition contract_reads_no_queue : Prop :=
  forall r ops db, pl_contract plant r (set_db_operations ops db) = pl_contract plant r db.

Lemma contract_of_queue (Hc : contract_reads_no_queue) o ops db : contract_of plant o (set_db_operations ops db) = contract_of plant o db.
Proof. unfold contract_of, resource_by. cbn. destruct (first_where _ _); [apply Hc|done]. Qed.

Lemma why_not_queue (Hc : contract_reads_no_queue) o ops db : why_not (set_db_operations ops db) o = why_not db o.
Proof. unfold why_not. by rewrite contract_of_queue. Qed.

Lemma failed_all_nil now db : failed_all now [] db = db.
Proof.
  unfold failed_all. rewrite update_where_none; [by destruct db|]. intros r _.
  apply bool_decide_eq_false_2. intros H. by apply elem_of_nil in H.
Qed.

Lemma failed_all_cons (Hc : contract_reads_no_queue) now o rows db :
  op_id o ∉ map op_id rows -> (forall x, x ∈ db_operations db -> op_id x = op_id o -> x = o) ->
  failed_all now rows (set_db_operations (update_where (fun x => bool_decide (op_id x = op_id o)) (failed_as now (why_not db o)) (db_operations db)) db) =
  failed_all now (o :: rows) db.
Proof.
  intros Hnot Huniq. unfold failed_all. cbn [db_operations set_db_operations]. rewrite update_where_twice. unfold set_db_operations. cbn. f_equal.
  unfold update_where. apply map_ext_in. intros x Hx%list_elem_of_In. cbn zeta. destruct (decide (op_id x = op_id o)) as [He|He].
  - rewrite (bool_decide_eq_true_2 _ He). assert (x = o) as -> by by apply Huniq. cbn.
    rewrite (bool_decide_eq_false_2 _ Hnot), bool_decide_eq_true_2 by by left. done.
  - rewrite (bool_decide_eq_false_2 _ He). change (set_db_operations ?ops db) with (set_db_operations ops db).
    destruct (decide (op_id x ∈ map op_id rows)) as [Hin|Hin].
    + rewrite (bool_decide_eq_true_2 _ Hin), (bool_decide_eq_true_2 (op_id x ∈ op_id o :: map op_id rows)) by by right.
      f_equal. apply (why_not_queue Hc).
    + rewrite (bool_decide_eq_false_2 _ Hin), (bool_decide_eq_false_2 (op_id x ∈ op_id o :: map op_id rows)); [done|].
      by intros [?|?]%elem_of_cons.
Qed.

(** [x] waits in the queue of [db]. *)
Definition queued_in (db : Db) (x : OperationRequest) : Prop := x ∈ db_operations db /\ op_state x = O_QUEUED.

(** What one pass over the candidates does to those it cannot describe. *)
Lemma fail_one (Hc : contract_reads_no_queue) now x e db :
  operations_ok db -> queued_in db x -> contract_of plant x db = Raise e ->
  let db1 := set_db_operations (update_where (fun y => bool_decide (op_id y = op_id x)) (failed_as now (exn_text e)) (db_operations db)) db in
  save_operation (op_id x) (failed_as now (exn_text e)) db = (Ok tt, db1) /\ operations_ok db1 /\
  (forall y, queued_in db y -> op_id y <> op_id x -> queued_in db1 y) /\ (forall y, contract_of plant y db1 = contract_of plant y db).
Proof.
  intros Hok [Hx Hs] He db1. assert (operation_rules (failed_as now (exn_text e) x) = true) as Hr by (apply failed_rules; [by apply (opk_rules _ Hok)|done]).
  pose proof (save_operation_found _ _ _ _ Hok Hx eq_refl Hr) as Hsave. split_and!; [done| | |].
  - eapply failed_ok in Hsave as [? _]; [done|done].
  - intros y [Hy Hys] Hne. split; [|done]. cbn. apply elem_of_update_where. exists y. split; [done|]. by rewrite bool_decide_eq_false_2.
  - intros y. by apply contract_of_queue.
Qed.

Lemma next_resolvable_finds (Hc : contract_reads_no_queue) now o rest contract : forall failed db,
  operations_ok db -> NoDup (map op_id (failed ++ o :: rest)) -> Forall (queued_in db) failed ->
  (forall x, x ∈ failed -> exists e, contract_of plant x db = Raise e /\ unresolvable e = true) -> contract_of plant o db = Ok contract ->
  next_resolvable plant now (failed ++ o :: rest) db = (Ok (Some (o, contract)), failed_all now failed db).
Proof.
  induction failed as [|x failed IH]; intros db Hok Hnd Hq Hf Ho.
  - cbn [app next_resolvable]. rewrite (bind_step _ _ _ (contract_of plant o db) db) by done. rewrite Ho, failed_all_nil. done.
  - cbn [app next_resolvable]. destruct (Hf x) as (e & He & Hu); [by left|]. apply Forall_cons in Hq as [Hx Hq].
    rewrite (bind_step _ _ _ (contract_of plant x db) db) by done. rewrite He, Hu. cbn in Hnd. apply NoDup_cons in Hnd as [Hnot Hnd].
    destruct (fail_one Hc now x e db Hok Hx He) as (Hsave & Hok1 & Hstay & Hsame). rewrite (bind_step _ _ _ _ _ Hsave).
    assert (op_id x ∉ map op_id failed) as Hnf by (intros H; apply Hnot; rewrite map_app; apply elem_of_app; by left).
    rewrite IH; [| done | done | | |by rewrite Hsame].
    + replace (exn_text e) with (why_not db x) by (unfold why_not; by rewrite He). rewrite failed_all_cons; [done|done|done|].
      intros y Hy Heq. eapply (unique_by op_id); [apply (opk_ids _ Hok)|done|apply Hx|done].
    + rewrite Forall_forall in Hq |- *. intros y Hy. apply Hstay; [by apply Hq|]. intros Heq. apply Hnf. rewrite <- Heq. by apply list_elem_of_fmap_2.
    + intros y Hy. rewrite Hsame. apply Hf. by right.
Qed.

Lemma failed_all_elem now failed db x :
  operations_ok db -> (forall y, y ∈ failed -> y ∈ db_operations db) -> x ∈ db_operations db ->
  (x ∈ failed -> failed_as now (why_not db x) x ∈ db_operations (failed_all now failed db)) /\ (x ∉ failed -> x ∈ db_operations (failed_all now failed db)).
Proof.
  intros Hok Hin Hx. split; intros Hf; cbn; apply elem_of_update_where; exists x; (split; [done|]).
  - rewrite bool_decide_eq_true_2; [done|]. by apply list_elem_of_fmap_2.
  - rewrite bool_decide_eq_false_2; [done|]. intros (y & Heq & Hy)%list_elem_of_fmap. apply Hf.
    assert (x = y) as -> by (eapply (unique_by op_id); [apply (opk_ids _ Hok)|done|by apply Hin|done]). done.
Qed.

Lemma failed_all_ok (Hc : contract_reads_no_queue) now failed db : operations_ok db -> Forall (queued_in db) failed -> operations_ok (failed_all now failed db).
Proof.
  intros Hok Hq. apply operations_update_ok; [done|]. intros x Hx Hin%bool_decide_eq_true. apply list_elem_of_fmap in Hin as (y & Heq & Hy).
  rewrite Forall_forall in Hq. destruct (Hq y Hy) as [Hyin Hys].
  assert (x = y) as -> by (eapply (unique_by op_id); [apply (opk_ids _ Hok)|done..]). split; [done|]. split; [done|].
  by unfold is_active, failed_as.
Qed.

Lemma claimed_rules now controller_id lease o : operation_rules o = true -> op_state o = O_QUEUED -> controller_id <> "" ->
  operation_rules (claimed_as now controller_id lease o) = true.
Proof.
  intros Hr Hs Hne. unfold operation_rules in *. rewrite !andb_true_iff in Hr. destruct Hr as [_ Hd].
  unfold is_active in Hd. rewrite Hs, (bool_decide_eq_true_2 (O_QUEUED = O_QUEUED \/ O_QUEUED = O_CLAIMED)) in Hd by by left. apply eqb_prop in Hd.
  unfold is_active, claimed_as. cbn. by rewrite (bool_decide_eq_false_2 _ Hne), <- Hd.
Qed.

(** An operation HQ cannot describe never stands in the way: a claim fails each such one it
    meets, saying why, takes the oldest operation behind them that the controller can run and
    no brake on its asker holds, and leases it; every other operation stays as it was. *)
Theorem claim_takes_the_oldest_it_can (now : Z) (controller_id : string) (lease : Z) (capabilities : list (string * string)) (db : Db)
    (brakes : string -> string -> string -> bool) (failed rest : list OperationRequest) (o : OperationRequest) (contract : dict) :
  contract_reads_no_queue -> operations_ok db -> (30 <= lease <= 3600)%Z -> controller_id <> "" ->
  let db0 := (release_lapsed now db).2 in
  (held_askers db0).1 = Ok brakes -> claimable capabilities brakes db0 = (failed ++ o :: rest)%list ->
  (forall x, x ∈ failed -> exists e, contract_of plant x db0 = Raise e /\ unresolvable e = true) -> contract_of plant o db0 = Ok contract ->
  exists said db', claim_next_operation plant now controller_id lease capabilities db = (Ok said, db') /\ operations_ok db' /\
    claimed_as now controller_id lease o ∈ db_operations db' /\
    (forall x, x ∈ failed -> failed_as now (why_not db0 x) x ∈ db_operations db') /\
    (forall x, x ∈ db_operations db0 -> x ∉ failed -> x <> o -> x ∈ db_operations db').
Proof.
  intros Hc Hok Hlease Hid db0 Hb Hcand Hf Ho. assert (operations_ok db0) as Hok0 by by apply release_lapsed_ok.
  assert (forall x, x ∈ (failed ++ o :: rest)%list -> queued_in db0 x) as Hq.
  { intros x Hx. rewrite <- Hcand in Hx. apply elem_of_claimable in Hx as (? & ? & _). done. }
  assert (NoDup (map op_id (failed ++ o :: rest)%list)) as Hnd by (rewrite <- Hcand; by apply claimable_distinct).
  assert (Forall (queued_in db0) failed) as Hqf by (apply Forall_forall; intros x Hx; apply Hq, elem_of_app; by left).
  destruct (Hq o) as [Hoin Hos]; [apply elem_of_app; right; by left|].
  pose proof (next_resolvable_finds Hc now o rest contract failed db0 Hok0 Hnd Hqf Hf Ho) as Hnext.
  assert (o ∉ failed) as Hof.
  { intros H. rewrite map_app in Hnd. apply NoDup_app in Hnd as (_ & Hd & _). apply (Hd (op_id o)); [by apply list_elem_of_fmap_2|by left]. }
  set (db1 := failed_all now failed db0) in *. assert (operations_ok db1) as Hok1 by by apply failed_all_ok.
  assert (forall x, x ∈ db_operations db0 -> (x ∈ failed -> failed_as now (why_not db0 x) x ∈ db_operations db1) /\ (x ∉ failed -> x ∈ db_operations db1)) as Hel.
  { intros x Hx. apply failed_all_elem; [done| |done]. intros y Hy. rewrite Forall_forall in Hqf. by apply Hqf. }
  assert (o ∈ db_operations db1) as Ho1 by by apply Hel.
  pose proof (save_operation_found (op_id o) (claimed_as now controller_id lease) db1 o Hok1 Ho1 eq_refl
    (claimed_rules _ _ _ _ (opk_rules _ Hok0 _ Hoin) Hos Hid)) as Hsave.
  destruct (save_operation_ok _ _ _ _ _ Hsave Hok1) as (Hok2 & _ & _).
  { intros x Hx Heq. assert (x = o) as -> by (eapply (unique_by op_id); [apply (opk_ids _ Hok1)|done..]). split; [done|].
    intros _. unfold is_active. rewrite Hos. apply bool_decide_eq_true_2. by left. }
  eexists _, _. split_and!; [|exact Hok2|..].
  - unfold claim_next_operation, atomic. rewrite (proj2 (Z.leb_le 30 lease)), (proj2 (Z.leb_le lease 3600)) by lia.
    rewrite (bool_decide_eq_false_2 _ Hid). rewrite !(bind_step _ _ _ tt db) by done. rewrite (bind_step _ _ _ tt db0) by done.
    destruct (held_askers db0) as [ob dbb] eqn:Hheld. cbn in Hb. subst ob. apply held_askers_state in Hheld as Hst. subst dbb.
    rewrite (bind_step _ _ _ _ _ Hheld). rewrite (bind_step _ _ _ (failed ++ o :: rest)%list db0) by (unfold gets; by rewrite Hcand).
    rewrite (bind_step _ _ _ _ _ Hnext). rewrite (bind_step _ _ _ _ _ Hsave). reflexivity.
  - cbn. apply elem_of_update_where. exists o. split; [done|]. by rewrite bool_decide_eq_true_2.
  - intros x Hx. rewrite Forall_forall in Hqf. destruct (Hqf x Hx) as [Hxin _]. destruct (Hel x Hxin) as [Hx1 _]. specialize (Hx1 Hx).
    cbn. apply elem_of_update_where. eexists. split; [exact Hx1|]. rewrite bool_decide_eq_false_2; [done|]. cbn. intros Heq.
    apply Hof. assert (x = o) as <- by (eapply (unique_by op_id); [apply (opk_ids _ Hok0)|done..]). done.
  - intros x Hx Hxf Hxo. cbn. apply elem_of_update_where. exists x. split; [by apply Hel|]. rewrite bool_decide_eq_false_2; [done|].
    intros Heq. apply Hxo. by eapply (unique_by op_id); [apply (opk_ids _ Hok0)|..].
Qed.

(** Every row of the queue is as it was, or was failed as what cannot be described. *)
Lemma save_failed_rows now said o db out db' :
  save_operation (op_id o) (failed_as now said) db = (out, db') ->
  forall x, x ∈ db_operations db' -> x ∈ db_operations db \/ (op_state x = O_FAILED /\ op_id x = op_id o).
Proof.
  unfold save_operation, act. destruct (first_where _ _) as [y|]; [|intros [= _ <-]; by left].
  destruct (operation_rules _); intros [= _ <-]; [|by left]. intros x (z & Hz & ->)%elem_of_update_where.
  case_bool_decide; [by right|by left].
Qed.

Lemma next_resolvable_rows now : forall l db out db',
  next_resolvable plant now l db = (out, db') -> operations_ok db -> NoDup (map op_id l) ->
  operations_ok db' /\ (forall x, x ∈ db_operations db' -> x ∈ db_operations db \/ op_state x = O_FAILED) /\
  (forall o c, out = Ok (Some (o, c)) -> o ∈ l /\ forall x, x ∈ db_operations db' -> op_id x = op_id o -> x ∈ db_operations db).
Proof.
  induction l as [|y l IH]; intros db out db' H Hok Hnd; cbn [next_resolvable] in H.
  { injection H as <- <-. split_and!; [done|by left|done]. }
  rewrite (bind_step _ _ _ (contract_of plant y db) db) in H by done. destruct (contract_of plant y db) as [c|e].
  { injection H as <- <-. split_and!; [done|by left|]. intros o c' [= <- <-]. split; [by left|done]. }
  destruct (unresolvable e); [|injection H as <- <-; split_and!; [done|by left|done]].
  apply bind_inv in H as [([] & db1 & Hs & H)|(e' & Hs & ->)].
  2: { split_and!; [by eapply failed_ok in Hs as [? _]| |done]. intros x Hx. destruct (save_failed_rows _ _ _ _ _ _ Hs x Hx) as [?|[? _]]; auto. }
  apply NoDup_cons in Hnd as [Hy Hnd]. destruct (failed_ok _ _ _ _ _ _ Hok Hs) as [Hok1 _]. destruct (IH _ _ _ H Hok1 Hnd) as (Hok' & Hrows & Hfound).
  pose proof (save_failed_rows _ _ _ _ _ _ Hs) as Hs'. split_and!; [done| |].
  - intros x Hx. destruct (Hrows x Hx) as [Hx1|?]; [|by right]. destruct (Hs' x Hx1) as [?|[? _]]; auto.
  - intros o c Ho. destruct (Hfound o c Ho) as [Hin Huniq]. split; [by right|]. intros x Hx Heq.
    destruct (Hs' x (Huniq x Hx Heq)) as [?|[_ Hid]]; [done|]. destruct Hy. rewrite <- Hid, Heq. by apply list_elem_of_fmap_2.
Qed.

(** What a claim that answers did. *)
Lemma claim_inv (now : Z) (controller_id : string) (lease : Z) (capabilities : list (string * string)) (db db' : Db) (said : dict) :
  operations_ok db -> claim_next_operation plant now controller_id lease capabilities db = (Ok said, db') ->
  let db0 := (release_lapsed now db).2 in
  operations_ok db' /\ (30 <= lease <= 3600)%Z /\ controller_id <> "" /\
  exists brakes, (held_askers db0).1 = Ok brakes /\
    forall x, x ∈ db_operations db' -> op_state x = O_CLAIMED ->
      (x ∈ db_operations db0 /\ lease_lapsed now x = false) \/
      exists o, x = claimed_as now controller_id lease o /\ o ∈ db_operations db0 /\ op_state o = O_QUEUED /\ compatible capabilities db0 o = true /\
        brakes (op_requested_actor o) (op_requested_interface o) (op_requested_device o) = false.
Proof.
  intros Hok H db0. unfold claim_next_operation in H. apply (proj1 (atomic_ok _ _ _ _)) in H.
  apply bind_inv_ok in H as ([] & s1 & [Hl ->]%raise_if_inv & H). apply bind_inv_ok in H as ([] & s2 & [Hid ->]%raise_if_inv & H).
  apply negb_false_iff, andb_true_iff in Hl as [Hl1%Z.leb_le Hl2%Z.leb_le]. apply bool_decide_eq_false in Hid.
  rewrite (bind_step _ _ _ tt db0) in H by done. apply bind_inv_ok in H as (brakes & s3 & Hb & H).
  apply held_askers_state in Hb as Hst. subst s3. rewrite (bind_step _ _ _ (claimable capabilities brakes db0) db0) in H by done.
  assert (operations_ok db0) as Hok0 by by apply release_lapsed_ok. apply bind_inv_ok in H as (found & db1 & Hn & H).
  destruct (next_resolvable_rows _ _ _ _ _ Hn Hok0 (claimable_distinct capabilities brakes db0 Hok0)) as (Hok1 & Hrows & Hfound).
  assert (forall x, x ∈ db_operations db1 -> op_state x = O_CLAIMED -> x ∈ db_operations db0 /\ lease_lapsed now x = false) as Hold.
  { intros x Hx Hs. destruct (Hrows x Hx) as [Hx0|?]; [|congruence]. split; [done|].
    cbn in Hx0. apply elem_of_update_where in Hx0 as (z & _ & ->). destruct (lease_lapsed now z) eqn:Hz; [|done]. unfold released in *. by destruct (switched_off db z). }
  split_and!; [|done|done|done|].
  - destruct found as [[o contract]|]; [|by injection H as _ <-]. destruct (Hfound o contract eq_refl) as [Hin Huniq].
    apply elem_of_claimable in Hin as (Hoin & Hos & _). apply bind_inv_ok in H as ([] & s4 & Hs & H). injection H as _ <-.
    eapply save_operation_ok in Hs as [? _]; [done|done|]. intros x Hx Heq. split; [done|]. intros _.
    assert (x = o) as -> by (eapply (unique_by op_id); [apply (opk_ids _ Hok0)|by apply Huniq|done..]). unfold is_active. rewrite Hos. apply bool_decide_eq_true_2. by left.
  - exists brakes. rewrite Hb. split; [done|]. destruct found as [[o contract]|]; [|injection H as _ <-; auto].
    destruct (Hfound o contract eq_refl) as [Hin Huniq]. apply elem_of_claimable in Hin as (Hoin & Hos & Hbr & Hcomp).
    apply bind_inv_ok in H as ([] & s4 & Hs & H). injection H as _ <-. unfold save_operation, act in Hs.
    destruct (first_where _ _) as [y|]; [|done]. destruct (operation_rules _); [|done]. injection Hs as <-.
    intros x (z & Hz & ->)%elem_of_update_where. case_bool_decide as Heq; [|by left; apply Hold]. intros _. right. exists o. split_and!; try done.
    f_equal. eapply (unique_by op_id); [apply (opk_ids _ Hok0)|by apply Huniq|done..].
Qed.


(** * A report *)

(** Striking a removed record from the stored lists leaves the queue and the declarations. *)
Definition strike_leaves_queue : Prop :=
  forall r db, let db' := (pl_strike_removed plant r db).2 in
    db_operations db' = db_operations db /\ db_resources db' = db_resources db /\ (db_next_id db <= db_next_id db')%N.

Lemma confirm_leaves_queue now r status db o db' :
  confirm_delivery_targets plant now r status db = (o, db') ->
  o = Ok tt /\ db_operations db' = db_operations db /\ db_next_id db' = db_next_id db.
Proof.
  unfold confirm_delivery_targets. intros H. destruct (negb _); [by injection H as <- <-|]. destruct (map _ _); [by injection H as <- <-|].
  rewrite (bind_step _ _ _ (pl_resolved_spec plant r db) db) in H by done. destruct (omap _ _); by injection H as <- <-.
Qed.

Lemma reported_rules now report o : operation_rules (reported_as now report o) = true.
Proof. unfold operation_rules, reported_as, is_active. cbn. by destruct (cr_success report). Qed.

(** Whether the report says that the record is gone. *)
Definition reports_removal (o : OperationRequest) (report : ControllerReport) : bool := cr_success report && bool_decide (op_action o = DELETE).

(** The queue a settled report leaves. *)
Lemma settle_report_rows now o r report db said db' :
  strike_leaves_queue -> operations_ok db -> operation_by (op_id o) db = Some o ->
  settle_report plant now o r report db = (Ok said, db') ->
  let ops := update_where (fun x => bool_decide (op_id x = op_id o)) (reported_as now report) (db_operations db) in
  db_operations db' = (if reports_removal o report then delete_where (fun x => bool_decide (op_resource x = mr_id r)) ops else ops) /\
  (reports_removal o report = true -> forall x, x ∈ db_resources db' -> mr_id x <> mr_id r).
Proof.
  intros Hstrike Hok Hby H. apply first_where_some in Hby as [Hin _]. unfold settle_report in H.
  rewrite (bind_step _ _ _ _ _ (save_operation_found _ _ _ _ Hok Hin eq_refl (reported_rules now report o))) in H.
  set (ops := update_where _ (reported_as now report) (db_operations db)) in *.
  apply bind_inv_ok in H as ([] & s1 & Hs1 & H). assert (db_operations s1 = ops) as H1.
  { unfold save_resource, act in Hs1. destruct (resource_by _ _); [|done]. by injection Hs1 as <-. }
  apply bind_inv_ok in H as ([] & s2 & Hs2 & H). assert (db_operations s2 = ops) as H2.
  { destruct (cr_success report); [|by injection Hs2 as <-]. apply confirm_leaves_queue in Hs2 as (_ & ? & _). congruence. }
  apply bind_inv_ok in H as ([] & s3 & Hs3 & H). assert (db_operations s3 = ops) as H3.
  { unfold read_back_lifecycle in Hs3. destruct (_ && _); by injection Hs3 as <-. }
  apply bind_inv_ok in H as (sd & s4 & [_ ->]%gets_inv & H). fold (reports_removal o report) in H. cbn zeta.
  destruct (reports_removal o report); [|by injection H as _ <-].
  rewrite (bind_step _ _ _ tt (set_db_operations (delete_where (fun x => bool_decide (op_resource x = mr_id r)) (db_operations s3)) s3)) in H by done.
  apply bind_inv_ok in H as ([] & s5 & Hs5 & H). destruct (Hstrike (observed_as now report r) (set_db_operations (delete_where (fun x => bool_decide (op_resource x = mr_id r)) (db_operations s3)) s3)) as (Ho & _ & _).
  rewrite Hs5 in Ho. cbn in Ho. injection H as _ <-. cbn. split; [congruence|]. intros _ x [_ Hx]%elem_of_delete_where. by apply bool_decide_eq_false in Hx.
Qed.

(** Only the controller that holds the lease settles an operation, while the lease runs and
    for the generation it was asked of; the operation then says what was reported, or is
    gone with its record where it was a removal, and nobody reports on it again. *)
Theorem only_the_lease_holder_reports (now : Z) (id : string) (report : ControllerReport) (controller_id : string) (db db' : Db) (said : dict) :
  strike_leaves_queue -> operations_ok db -> report_operation host plant now id report controller_id db = (Ok said, db') ->
  exists o r, h_uuid host id = Some (op_id o) /\ operation_by (op_id o) db = Some o /\ resource_by (op_resource o) db = Some r /\
    op_state o = O_CLAIMED /\ op_claimed_by o = controller_id /\ (forall t, op_lease_expires_at o = Some t -> now < t)%Z /\
    attr "generation" (op_input o) = Some (JNum (cr_observed_generation report)) /\
    (if reports_removal o report
     then (forall x, x ∈ db_operations db' -> op_resource x <> mr_id r) /\ (forall x, x ∈ db_resources db' -> mr_id x <> mr_id r)
     else reported_as now report o ∈ db_operations db' /\ (forall x, x ∈ db_operations db -> op_id x <> op_id o -> x ∈ db_operations db')) /\
    (forall now' report' c, exists why, report_operation host plant now' id report' c db' = (Raise (ValueError why), db')).
Proof.
  intros Hstrike Hok H. unfold report_operation in H. destruct (h_uuid host id) as [key|] eqn:Hid; [|done].
  rewrite (bind_step _ _ _ (operation_by key db) db) in H by done. destruct (operation_by key db) as [o|] eqn:Hby; [|done].
  assert (op_id o = key) as <- by (by apply first_where_some in Hby as [_ ?%bool_decide_eq_true]).
  apply bind_inv_ok in H as ([] & ? & [Hs%negb_false_iff%bool_decide_eq_true ->]%raise_if_inv & H).
  apply bind_inv_ok in H as ([] & ? & [Hc%negb_false_iff%bool_decide_eq_true ->]%raise_if_inv & H).
  apply bind_inv_ok in H as ([] & ? & [Hl ->]%raise_if_inv & H).
  apply bind_inv_ok in H as ([] & ? & [Hg%negb_false_iff%bool_decide_eq_true ->]%raise_if_inv & H).
  rewrite (bind_step _ _ _ (resource_by (op_resource o) db) db) in H by done. destruct (resource_by (op_resource o) db) as [r|] eqn:Hr; [|done].
  assert (op_resource o = mr_id r) as Hor by (by apply first_where_some in Hr as [_ ?%bool_decide_eq_true]).
  destruct (settle_report_rows now o r report db said db' Hstrike Hok Hby H) as [Hops Hgone].
  apply first_where_some in Hby as Hin. destruct Hin as [Hin _].
  exists o, r. split_and!; try done.
  - intros t Ht. rewrite Ht in Hl. by apply Z.leb_gt in Hl.
  - destruct (reports_removal o report).
    + split; [|by apply Hgone]. intros x Hx. rewrite Hops in Hx. apply elem_of_delete_where in Hx as [_ Hx]. by apply bool_decide_eq_false in Hx.
    + rewrite Hops. split; [apply elem_of_update_where; exists o; by rewrite bool_decide_eq_true_2|].
      intros x Hx Hne. apply elem_of_update_where. exists x. by rewrite bool_decide_eq_false_2.
  - intros now' report' c. unfold report_operation. rewrite Hid. rewrite (bind_step _ _ _ (operation_by (op_id o) db') db') by done.
    destruct (operation_by (op_id o) db') as [x|] eqn:Hx; [|by eexists]. apply first_where_some in Hx as [Hxin Hxid%bool_decide_eq_true].
    assert (op_state x <> O_CLAIMED) as Hns.
    { assert (x ∈ update_where (fun x => bool_decide (op_id x = op_id o)) (reported_as now report) (db_operations db)) as Hxu.
      { rewrite Hops in Hxin. destruct (reports_removal o report); [by apply elem_of_delete_where in Hxin as [? _]|done]. }
      apply elem_of_update_where in Hxu as (y & Hy & ->). case_bool_decide as Hyid; [|by destruct Hyid].
      cbn. by destruct (cr_success report). }
    rewrite (bool_decide_eq_false_2 _ Hns). by eexists.
Qed.

(** * Automatic work *)

(** The queue has grown, and nothing else has moved. *)
Definition queue_grown (db db' : Db) : Prop :=
  exists more n, db' = set_db_operations (db_operations db ++ more)%list (set_db_next_id n db).

Lemma queue_grown_refl db : queue_grown db db.
Proof. exists [], (db_next_id db). rewrite app_nil_r. by destruct db. Qed.

Lemma queue_grown_trans db1 db2 db3 : queue_grown db1 db2 -> queue_grown db2 db3 -> queue_grown db1 db3.
Proof. intros (m1 & n1 & ->) (m2 & n2 & ->). exists (m1 ++ m2)%list, n2. cbn. by rewrite app_assoc. Qed.

(** What the providers and the findings say does not depend on the queue. *)
Definition declarations_read_no_queue : Prop :=
  (forall r ops n db, pl_observes_only plant r (set_db_operations ops (set_db_next_id n db)) = pl_observes_only plant r db) /\
  (forall ops n db, pl_repairs plant (set_db_operations ops (set_db_next_id n db)) = pl_repairs plant db).

(** Nothing more is queued for this resource and action under this key. *)
Definition enough (resource action key : string) (db : Db) : Prop :=
  exists o, o ∈ db_operations db /\ ((is_active o = true /\ active_key o = (resource, action)) \/ op_idempotency_key o = key).

Lemma enough_grown resource action key db db' : queue_grown db db' -> enough resource action key db -> enough resource action key db'.
Proof. intros (m & n & ->) (o & Ho & H). exists o. split; [|done]. cbn. apply elem_of_app. by left. Qed.

Lemma enqueue_enough now r action key asked db : enough (mr_id r) action key db -> exists o, enqueue now r action key asked db = (Ok (o, false), db).
Proof.
  intros (o & Ho & H). destruct (enqueue_cases now r action key asked db) as [(x & _ & He)|[(x & _ & _ & He)|(Ha & Hk & _)]]; [by eauto..|].
  exfalso. destruct H as [[Hact Hkey]|Hkey]; [by eapply active_operation_none|].
  pose proof (first_where_none _ _ Hk o Ho) as Hf. by apply bool_decide_eq_false in Hf.
Qed.

Lemma enqueue_makes_enough now r action key asked db : exists o made db',
  enqueue now r action key asked db = (Ok (o, made), db') /\ queue_grown db db' /\ enough (mr_id r) action key db'.
Proof.
  destruct (enqueue_cases now r action key asked db) as [(x & Hx & He)|[(x & _ & Hx & He)|(_ & _ & He)]]; rewrite He; eexists _, _, _; (split; [reflexivity|]).
  - split; [apply queue_grown_refl|]. apply active_operation_some in Hx as (? & ? & ?). exists x. auto.
  - split; [apply queue_grown_refl|]. apply first_where_some in Hx as [? Hk%bool_decide_eq_true]. exists x. auto.
  - split; [by eexists _, _|]. eexists. cbn. split; [apply elem_of_app; right; by left|by right].
Qed.

(** A turn of the pass that finds nothing to do. *)
Definition idle {A B} (turn : list A -> B -> M exn Db (list A)) (x : B) (db : Db) : Prop := forall acc, turn acc x db = (Ok acc, db).

(** A turn that queues what is due once, and is idle from then on. *)
Definition settles {A B} (turn : list A -> B -> M exn Db (list A)) : Prop :=
  forall acc x db, exists acc' db', turn acc x db = (Ok acc', db') /\ queue_grown db db' /\ forall db2, queue_grown db' db2 -> idle turn x db2.

Lemma fold_settles {A B} (turn : list A -> B -> M exn Db (list A)) (xs : list B) : settles turn ->
  forall acc db, exists acc' db', fold_each turn acc xs db = (Ok acc', db') /\ queue_grown db db' /\
    forall db2 acc2, queue_grown db' db2 -> fold_each turn acc2 xs db2 = (Ok acc2, db2).
Proof.
  intros Ht. induction xs as [|x xs IH]; intros acc db; cbn [fold_each].
  { exists acc, db. split; [done|]. split; [apply queue_grown_refl|done]. }
  destruct (Ht acc x db) as (acc1 & db1 & H1 & Hg1 & Hi1). destruct (IH acc1 db1) as (acc' & db' & H2 & Hg2 & Hi2).
  exists acc', db'. split; [by rewrite (bind_step _ _ _ _ _ H1)|]. split; [by eapply queue_grown_trans|].
  intros db2 acc2 Hg. rewrite (bind_step _ _ _ acc2 db2); [by apply Hi2|]. apply Hi1. by eapply queue_grown_trans.
Qed.

Lemma schedule_one_settles now controller_id : declarations_read_no_queue -> settles (schedule_one host plant now controller_id).
Proof.
  intros [Hobs _] acc r db. unfold schedule_one, idle.
  assert (forall db2, queue_grown db db2 -> pl_observes_only plant r db2 = pl_observes_only plant r db) as Hsame by (intros db2 (m & n & ->); apply Hobs).
  rewrite (bind_step _ _ _ (pl_observes_only plant r db) db) by done.
  destruct (pl_observes_only plant r db) eqn:Ho.
  { exists acc, db. split; [done|]. split; [apply queue_grown_refl|]. intros db2 Hg acc2.
    by rewrite (bind_step _ _ _ (pl_observes_only plant r db2) db2), (Hsame db2 Hg) by done. }
  destruct (first_due host plant now r (automatic_actions plant (mr_kind r))) as [[[action reason] identity]|] eqn:Hd.
  2: { exists acc, db. split; [done|]. split; [apply queue_grown_refl|]. intros db2 Hg acc2.
       by rewrite (bind_step _ _ _ (pl_observes_only plant r db2) db2), (Hsame db2 Hg) by done. }
  set (key := take_str 200 _). destruct (enqueue_makes_enough now r action key (asked_by_controller controller_id reason r) db) as (o & made & db' & He & Hg & Hen).
  rewrite (bind_step _ _ _ _ _ He). eexists _, db'. split; [reflexivity|]. split; [done|]. intros db2 Hg2 acc2.
  rewrite (bind_step _ _ _ (pl_observes_only plant r db2) db2), (Hsame db2) by (done || by eapply queue_grown_trans).
  destruct (enqueue_enough now r action key (asked_by_controller controller_id reason r) db2) as [o2 He2]; [by eapply enough_grown|].
  by rewrite (bind_step _ _ _ _ _ He2).
Qed.

Lemma repair_one_settles now controller_id : declarations_read_no_queue -> settles (repair_one plant now controller_id).
Proof.
  intros [Hobs _] acc [[rule rkey] reason] db. unfold repair_one, idle.
  set (find := fun db : Db => first_where (fun r => bool_decide (mr_key r = rkey) && mr_enabled r) (db_resources db)).
  assert (forall db2, queue_grown db db2 -> find db2 = find db) as Hfind by (intros db2 (m & n & ->); done).
  rewrite (bind_step _ _ _ (find db) db) by done. destruct (find db) as [r|] eqn:Hr.
  2: { exists acc, db. split; [done|]. split; [apply queue_grown_refl|]. intros db2 Hg acc2.
       by rewrite (bind_step _ _ _ (find db2) db2), (Hfind db2 Hg) by done. }
  assert (forall db2, queue_grown db db2 -> pl_observes_only plant r db2 = pl_observes_only plant r db) as Hsame by (intros db2 (m & n & ->); apply Hobs).
  rewrite (bind_step _ _ _ (pl_observes_only plant r db) db) by done. destruct (pl_observes_only plant r db) eqn:Ho.
  { exists acc, db. split; [done|]. split; [apply queue_grown_refl|]. intros db2 Hg acc2.
    rewrite (bind_step _ _ _ (find db2) db2), (Hfind db2 Hg) by done. by rewrite (bind_step _ _ _ (pl_observes_only plant r db2) db2), (Hsame db2 Hg) by done. }
  set (key := take_str 200 _). destruct (enqueue_makes_enough now r RECONCILE key (asked_by_controller controller_id reason r) db) as (o & made & db' & He & Hg & Hen).
  rewrite (bind_step _ _ _ _ _ He). eexists _, db'. split; [reflexivity|]. split; [done|]. intros db2 Hg2 acc2.
  assert (queue_grown db db2) as Hg3 by by eapply queue_grown_trans.
  rewrite (bind_step _ _ _ (find db2) db2), (Hfind db2 Hg3) by done. rewrite (bind_step _ _ _ (pl_observes_only plant r db2) db2), (Hsame db2 Hg3) by done.
  destruct (enqueue_enough now r RECONCILE key (asked_by_controller controller_id reason r) db2) as [o2 He2]; [exact (enough_grown _ _ _ _ _ Hg2 Hen)|].
  by rewrite (bind_step _ _ _ _ _ He2).
Qed.

Lemma finding_repairs_settles now controller_id db : declarations_read_no_queue ->
  exists queued db', finding_repairs plant now controller_id db = (Ok queued, db') /\ queue_grown db db' /\
    forall db2, queue_grown db' db2 -> finding_repairs plant now controller_id db2 = (Ok [], db2).
Proof.
  intros Hread. unfold finding_repairs, atomic. destruct (pl_auto_remedy plant); cbn [negb].
  2: { exists [], db. split; [done|]. split; [apply queue_grown_refl|done]. }
  rewrite (bind_step _ _ _ (pl_repairs plant db) db) by done.
  destruct (fold_settles _ (pl_repairs plant db) (repair_one_settles now controller_id Hread) [] db) as (acc & db' & Hf & Hg & Hi).
  rewrite Hf. exists acc, db'. split; [done|]. split; [done|]. intros db2 Hg2. rewrite (bind_step _ _ _ (pl_repairs plant db2) db2) by done.
  assert (pl_repairs plant db2 = pl_repairs plant db) as ->; [|by rewrite Hi].
  destruct (queue_grown_trans _ _ _ Hg Hg2) as (m & n & ->). by destruct Hread as [_ Hrep].
Qed.

(** The pass that queues automatic work always ends with an answer, adds to the queue and
    moves nothing else, and is done once: run again for the same moment it queues nothing. *)
Theorem automatic_work_is_queued_once (now : Z) (controller_id : string) (db : Db) :
  declarations_read_no_queue ->
  exists said db', schedule_automatic_operations host plant now controller_id db = (Ok said, db') /\ queue_grown db db' /\
    schedule_automatic_operations host plant now controller_id db' =
      (Ok [("ok", JBool true); ("scheduled", JList []); ("repaired", JList [])], db').
Proof.
  intros Hread. unfold schedule_automatic_operations. rewrite (bind_step _ _ _ (automatic_resources plant db) db) by done.
  destruct (fold_settles _ (automatic_resources plant db) (schedule_one_settles now controller_id Hread) [] db) as (acc & db1 & Hf & Hg1 & Hi1).
  rewrite (bind_step _ _ _ _ _ Hf). destruct (finding_repairs_settles now controller_id db1 Hread) as (queued & db' & Hq & Hg2 & Hi2).
  rewrite (bind_step _ _ _ _ _ Hq). eexists _, db'. split; [reflexivity|]. split; [by eapply queue_grown_trans|].
  rewrite (bind_step _ _ _ (automatic_resources plant db') db') by done.
  assert (automatic_resources plant db' = automatic_resources plant db) as ->.
  { destruct (queue_grown_trans _ _ _ Hg1 Hg2) as (m & n & ->). done. }
  rewrite (bind_step _ _ _ _ _ (Hi1 db' [] Hg2)). by rewrite (bind_step _ _ _ _ _ (Hi2 db' (queue_grown_refl db'))).
Qed.

(** * The queue's life *)

Lemma preserves_save_reported now report id : preserves operations_ok (save_operation id (reported_as now report)).
Proof.
  intros db Hok. destruct (save_operation id (reported_as now report) db) as [o db'] eqn:H. cbn.
  eapply save_operation_ok in H as [? _]; [done|done|]. intros x _ _. split; [done|]. unfold is_active, reported_as. cbn. by destruct (cr_success report).
Qed.

Lemma preserves_frame {A} (m : M exn Db A) :
  (forall db, db_operations (m db).2 = db_operations db /\ (db_next_id db <= db_next_id (m db).2)%N) -> preserves operations_ok m.
Proof. intros H db Hok. destruct (H db) as [Ho Hn]. by eapply operations_frame. Qed.

Lemma preserves_report now id report controller_id : strike_leaves_queue -> preserves operations_ok (report_operation host plant now id report controller_id).
Proof.
  intros Hstrike. unfold report_operation. destruct (h_uuid host id) as [key|]; [|apply preserves_raise].
  apply preserves_bind; [apply preserves_gets|]. intros [o|]; [|apply preserves_raise].
  do 4 (apply preserves_bind; [apply preserves_raise_if|intros []]). apply preserves_bind; [apply preserves_gets|]. intros [r|]; [|apply preserves_raise].
  unfold settle_report. apply preserves_bind; [apply preserves_save_reported|intros []].
  apply preserves_bind; [apply preserves_frame; intros db; unfold save_resource, act; destruct (resource_by _ _); cbn; split; [done|lia|done|lia]|intros []].
  apply preserves_bind; [|intros []].
  { destruct (cr_success report); [|apply preserves_ret]. apply preserves_frame. intros db.
    destruct (confirm_delivery_targets plant now (observed_as now report r) (cr_status report) db) as [out db'] eqn:H.
    apply confirm_leaves_queue in H as (_ & ? & ?). cbn. split; [done|lia]. }
  apply preserves_bind; [|intros []].
  { apply preserves_frame. intros db. unfold read_back_lifecycle. destruct (_ && _); cbn; split; [done|lia|done|lia]. }
  apply preserves_bind; [apply preserves_gets|intros said]. destruct (_ && _); [|apply preserves_ret].
  apply preserves_bind; [apply preserves_modify; intros db; apply operations_delete_ok|intros []].
  apply preserves_bind; [|intros []].
  { apply preserves_frame. intros db. destruct (Hstrike (observed_as now report r) db) as (? & _ & ?). done. }
  apply preserves_bind; [|intros []; apply preserves_ret]. apply preserves_frame. intros db. cbn. split; [done|lia].
Qed.

Lemma preserves_enqueue now r action key asked : preserves operations_ok (enqueue now r action key asked).
Proof. intros db Hok. destruct (enqueue now r action key asked db) as [o db'] eqn:H. by eapply enqueue_ok. Qed.

Lemma preserves_queue_operation now r command p action en : preserves operations_ok (queue_operation host plant now r command p action en).
Proof.
  unfold queue_operation. apply preserves_bind; [apply preserves_raise_if|intros []]. apply preserves_bind; [apply preserves_gets|intros observes].
  do 3 (apply preserves_bind; [apply preserves_raise_if|intros []]). apply preserves_bind; [apply preserves_enqueue|intros [op queued]].
  apply preserves_bind; [apply preserves_raise_if|intros []]. apply preserves_bind; [apply preserves_gets|intros said].
  destruct queued; [|apply preserves_ret]. apply preserves_bind; [|intros []; apply preserves_ret]. apply preserves_frame. intros db. cbn. split; [done|lia].
Qed.

Lemma preserves_schedule now controller_id : preserves operations_ok (schedule_automatic_operations host plant now controller_id).
Proof.
  unfold schedule_automatic_operations. apply preserves_bind; [apply preserves_gets|intros resources].
  apply preserves_bind; [|intros scheduled; apply preserves_bind; [|intros; apply preserves_ret]].
  - apply preserves_fold_each. intros acc r. unfold schedule_one. apply preserves_bind; [apply preserves_gets|intros []]; [apply preserves_ret|].
    destruct (first_due _ _ _ _ _) as [[[action reason] identity]|]; [|apply preserves_ret].
    apply preserves_bind; [apply preserves_enqueue|intros; apply preserves_ret].
  - unfold finding_repairs. apply preserves_atomic. destruct (negb _); [apply preserves_ret|]. apply preserves_bind; [apply preserves_gets|intros repairs].
    apply preserves_fold_each. intros acc [[rule key] reason]. unfold repair_one. apply preserves_bind; [apply preserves_gets|intros [r|]]; [|apply preserves_ret].
    apply preserves_bind; [apply preserves_gets|intros []]; [apply preserves_ret|]. apply preserves_bind; [apply preserves_enqueue|intros; apply preserves_ret].
Qed.

Lemma preserves_claim now controller_id lease capabilities : preserves operations_ok (claim_next_operation plant now controller_id lease capabilities).
Proof.
  intros db Hok. destruct (claim_next_operation plant now controller_id lease capabilities db) as [[said|e] db'] eqn:H; cbn.
  - by apply claim_inv in H as [? _].
  - unfold claim_next_operation in H. by apply atomic_raise in H as ->.
Qed.

(** One step of the queue: somebody asks, the pass schedules, a controller claims or reports
    (an interrupted report too), or anything else happens that is not about it. *)
Inductive queue_step : Db -> Db -> Prop :=
| q_ask now r command p action en db : queue_step db (queue_operation host plant now r command p action en db).2
| q_schedule now controller_id db : queue_step db (schedule_automatic_operations host plant now controller_id db).2
| q_claim now controller_id lease capabilities db : queue_step db (claim_next_operation plant now controller_id lease capabilities db).2
| q_report now id report controller_id db : queue_step db (report_operation host plant now id report controller_id db).2
| q_other db db' : db_operations db' = db_operations db -> (db_next_id db <= db_next_id db')%N -> queue_step db db'.

(** C14: In every state the queue can reach: one operation of a resource and action waits or runs
    at a time, a key names one operation, a claimed operation names its controller and its
    lease, a queued one is nobody's, and one says when it ended exactly when it has. *)
Theorem queue_stays_ok (db db' : Db) : strike_leaves_queue -> rtc queue_step db db' -> operations_ok db -> operations_ok db'.
Proof.
  intros Hstrike Hsteps. induction Hsteps as [db|db db1 db' Hstep Hsteps IH]; [done|]. intros Hok. apply IH.
  destruct Hstep as [now r command p action en db|now c db|now c lease caps db|now id report c db|db db1 Ho Hn].
  - by apply preserves_queue_operation.
  - by apply preserves_schedule.
  - by apply preserves_claim.
  - by apply preserves_report.
  - by eapply operations_frame.
Qed.
End Laws.

(** * A small plant to evaluate on *)

(** Each record's change is queued, and the one HQ cannot describe is first. *)
Definition scheduled_db : Db := (schedule_automatic_operations demo_host working_plant 0 "homelab" estate_db).2.
Definition claimed_db : Db := (claim_next_operation working_plant 5 "homelab" 300 [] scheduled_db).2.

Lemma scheduled_ok : operations_ok scheduled_db.
Proof. apply preserves_schedule, empty_operations_ok. done. Qed.

Lemma claimed_ok : operations_ok claimed_db.
Proof. apply preserves_claim, scheduled_ok. Qed.

Lemma working_strike : strike_leaves_queue working_plant.
Proof. intros r db. cbn. split_and!; [done|done|lia]. Qed.

(** The brakes as they stand there: on nobody. *)
Definition scheduled_brakes : string -> string -> string -> bool :=
  match (held_askers scheduled_db).1 with Ok b => b | Raise _ => fun _ _ _ => false end.

Lemma claim_takes_the_oldest_it_can_witness :
  exists said db' failed o rest, claim_next_operation working_plant 5 "homelab" 300 [] scheduled_db = (Ok said, db') /\
    claimable [] scheduled_brakes scheduled_db = (failed ++ o :: rest)%list /\ length failed = 1%nat /\
    claimed_as 5 "homelab" 300 o ∈ db_operations db'.
Proof.
  destruct (claimable [] scheduled_brakes scheduled_db) as [|x [|o rest]] eqn:Hc; [exfalso; vm_compute in Hc; discriminate Hc..|].
  destruct (claim_takes_the_oldest_it_can working_plant 5 "homelab" 300 [] scheduled_db scheduled_brakes [x] rest o [("spec", JObj [])])
    as (said & db' & H & _ & Hin & _).
  - intros r ops db. reflexivity.
  - exact scheduled_ok.
  - lia.
  - discriminate.
  - unfold scheduled_brakes. assert ((release_lapsed 5 scheduled_db).2 = scheduled_db) as -> by (vm_compute; reflexivity).
    destruct (held_askers scheduled_db).1 as [b|e] eqn:Hb; [reflexivity|exfalso; vm_compute in Hb; discriminate Hb].
  - assert ((release_lapsed 5 scheduled_db).2 = scheduled_db) as -> by (vm_compute; reflexivity). exact Hc.
  - intros y Hy. apply list_elem_of_singleton in Hy. subst y. exists (ValueError "no such host").
    vm_compute in Hc. injection Hc as <- _ _. vm_compute. split; reflexivity.
  - vm_compute in Hc. injection Hc as _ <- _. vm_compute. reflexivity.
  - exists said, db', [x], o, rest. split; [exact H|]. split; [reflexivity|]. split; [reflexivity|exact Hin].
Defined.


Definition a_report : ControllerReport := mkControllerReport true 2 [] [] "Applied.".

Lemma only_the_lease_holder_reports_witness :
  exists said db' why, report_operation demo_host working_plant 6 "1" a_report "homelab" claimed_db = (Ok said, db') /\
    report_operation demo_host working_plant 7 "1" a_report "homelab" db' = (Raise (ValueError why), db').
Proof.
  destruct (report_operation demo_host working_plant 6 "1" a_report "homelab" claimed_db) as [[said|e] db'] eqn:H.
  - destruct (only_the_lease_holder_reports demo_host working_plant 6 "1" a_report "homelab" claimed_db db' said working_strike claimed_ok H)
      as (o & r & _ & _ & _ & _ & _ & _ & _ & _ & Hagain). destruct (Hagain 7%Z a_report "homelab") as [why Hwhy].
    exists said, db', why. split; [reflexivity|exact Hwhy].
  - exfalso. apply (f_equal fst) in H. vm_compute in H. discriminate H.
Defined.

Lemma automatic_work_is_queued_once_witness :
  exists said db', schedule_automatic_operations demo_host working_plant 0 "homelab" estate_db = (Ok said, db') /\
    schedule_automatic_operations demo_host working_plant 0 "homelab" db' =
      (Ok [("ok", JBool true); ("scheduled", JList []); ("repaired", JList [])], db').
Proof.
  destruct (automatic_work_is_queued_once demo_host working_plant 0 "homelab" estate_db) as (said & db' & H1 & _ & H2).
  - split; intros; reflexivity.
  - exists said, db'. split; [exact H1|exact H2].
Defined.

Lemma queue_stays_ok_witness : operations_ok claimed_db.
Proof.
  apply (queue_stays_ok demo_host working_plant estate_db claimed_db working_strike); [|apply empty_operations_ok; reflexivity].
  apply (rtc_l _ _ scheduled_db); [exact (q_schedule demo_host working_plant 0 "homelab" estate_db)|].
  apply rtc_once. exact (q_claim demo_host working_plant 5 "homelab" 300 [] scheduled_db).
Defined.

(** * A report that is interrupted *)

(** A plant whose stored lists cannot be written. *)
Definition failing_plant : Plant := demo_plant (raise (DatabaseError "database is locked")).

Definition removing_db : Db := set_db_operations
  [mkOperationRequest "1" "r2" DELETE O_CLAIMED "ada" WEB_INTERFACE "" "" "k" (JObj [("generation", JNum 2)]) (JObj []) "homelab" (Some 0%Z) (Some (300 * SECOND)%Z) 1 None 0]
  estate_db.

(** [report_operation] is not one transaction: where striking the removed record from the
    stored lists fails, the operation is gone and its record still stands, so the controller
    can neither report again nor be told to. *)
Theorem interrupted_report_loses_its_operation :
  exists e db', report_operation demo_host failing_plant 6 "1" a_report "homelab" removing_db = (Raise e, db') /\
    db_operations db' = [] /\ resource_by "r2" db' <> None /\ operation_by "1" removing_db <> None.
Proof.
  destruct (report_operation demo_host failing_plant 6 "1" a_report "homelab" removing_db) as [[said|e] db'] eqn:H.
  - exfalso. apply (f_equal fst) in H. vm_compute in H. discriminate H.
  - exists e, db'. split; [done|]. assert (db' = (report_operation demo_host failing_plant 6 "1" a_report "homelab" removing_db).2) as -> by by rewrite H.
    split_and!; vm_compute; [reflexivity|discriminate|discriminate].
Qed.
