(* ===== verification/Leases.v ===== *)
(** What the controller's queue promises ([controller.py], [operations.py]): a table of tasks, each
    waiting, held under a lease, or ended, and the few ways one may move.  [Controller] is shown
    to implement it: whatever a call does to the database, it moves the table only by these steps. *)
From stdpp Require Import base gmap strings list pretty.
From Stdlib Require Import Ascii ZArith Lia.
From S2P Require Import Prelude PyStr Json Refusals Security Models AgentAccess Specs Policy Approvals Operations Controller.

#[local] Open Scope string_scope.

(** * The specification *)

(** Where a task stands: [Ended] says whether it was done. *)
Inductive Phase : Type :=
| Waiting
| Held (by_ : string) (until : Z)
| Ended (done_ : bool).

Record Task : Type := mkTask { t_record : string; t_action : string; t_phase : Phase }.

Definition moved (phase : Phase) (t : Task) : Task := mkTask (t_record t) (t_action t) phase.

Definition open_task (t : Task) : Prop := match t_phase t with Ended _ => False | _ => True end.

(** One step of the tasks at a moment, by whoever acts:
    - the actor takes a waiting task, once no lease in the table has run out;
    - a lease that ran out puts its task back, or ends it undone;
    - a waiting task is given up;
    - the holder ends its task, while its lease runs;
    - a removal that was done takes every task of its record with it. *)
Inductive lease_step (now : Z) (who : string) : gmap string Task -> gmap string Task -> Prop :=
| ls_claim m id t until :
    m !! id = Some t -> t_phase t = Waiting -> who <> "" -> (now < until)%Z ->
    (forall id' t' by_ until', m !! id' = Some t' -> t_phase t' = Held by_ until' -> (now < until')%Z) ->
    lease_step now who m (<[id := moved (Held who until) t]> m)
| ls_lapse m id t by_ until phase :
    m !! id = Some t -> t_phase t = Held by_ until -> (until <= now)%Z -> phase = Waiting \/ phase = Ended false ->
    lease_step now who m (<[id := moved phase t]> m)
| ls_give_up m id t :
    m !! id = Some t -> t_phase t = Waiting ->
    lease_step now who m (<[id := moved (Ended false) t]> m)
| ls_report m id t until done_ :
    m !! id = Some t -> t_phase t = Held who until -> (now < until)%Z ->
    lease_step now who m (<[id := moved (Ended done_) t]> m)
| ls_remove m id t :
    m !! id = Some t -> t_action t = DELETE -> t_phase t = Ended true ->
    lease_step now who m (filter (fun kt => t_record kt.2 <> t_record t) m).

(** The tasks, and the first number no task was ever given. *)
Record Table : Type := mkTable { tb_tasks : gmap string Task; tb_next : N }.

(** One step of the table: a step of its tasks, work asked for under a number of its own where
    none of its record and action is open, or a number passed over. *)
Inductive table_step (now : Z) (who : string) : Table -> Table -> Prop :=
| ts_task m m' n : lease_step now who m m' -> table_step now who (mkTable m n) (mkTable m' n)
| ts_ask m n record action :
    (forall id t, m !! id = Some t -> t_record t = record -> t_action t = action -> ~ open_task t) ->
    table_step now who (mkTable m n) (mkTable (<[pretty n := mkTask record action Waiting]> m) (n + 1))
| ts_pass m n n' : (n <= n')%N -> table_step now who (mkTable m n) (mkTable m n').

(** What one task may come to in one step of anybody but its holder, while its lease runs. *)
Lemma held_by_another now who m m' id t c until : lease_step now who m m' ->
  m !! id = Some t -> t_phase t = Held c until -> (now < until)%Z -> c <> who -> m' !! id = Some t \/ m' !! id = None.
Proof.
  intros Hstep Hid Hp Hlt Hne. destruct Hstep as [m k t' u Hk Hp' _ _ _|m k t' b u ph Hk Hp' Hu _|m k t' Hk Hp'|m k t' u d Hk Hp' Hu|m k t' Hk _ _].
  - left. rewrite lookup_insert_ne; [done|]. intros <-. congruence.
  - left. rewrite lookup_insert_ne; [done|]. intros <-. assert (t' = t) as -> by congruence. rewrite Hp in Hp'. injection Hp' as -> ->. lia.
  - left. rewrite lookup_insert_ne; [done|]. intros <-. congruence.
  - left. rewrite lookup_insert_ne; [done|]. intros <-. assert (t' = t) as -> by congruence. rewrite Hp in Hp'. by injection Hp' as -> ->.
  - destruct (decide (t_record t <> t_record t')) as [Hr|Hr].
    + left. by apply map_lookup_filter_Some_2.
    + right. apply map_lookup_filter_None_2. right. intros x Hx. assert (x = t) as -> by congruence. done.
Qed.

(** An ended task stays ended: nobody takes it up again. *)
Lemma ended_stays now who m m' id t d : lease_step now who m m' ->
  m !! id = Some t -> t_phase t = Ended d -> m' !! id = Some t \/ m' !! id = None.
Proof.
  intros Hstep Hid Hp. destruct Hstep as [m k t' u Hk Hp' _ _ _|m k t' b u ph Hk Hp' Hu _|m k t' Hk Hp'|m k t' u dd Hk Hp' Hu|m k t' Hk _ _].
  1-4: left; rewrite lookup_insert_ne; [done|]; intros <-; congruence.
  destruct (decide (t_record t <> t_record t')) as [Hr|Hr].
  - left. by apply map_lookup_filter_Some_2.
  - right. apply map_lookup_filter_None_2. right. intros x Hx. assert (x = t) as -> by congruence. done.
Qed.

(** A number no task has is never given to one again but by an ask. *)
Lemma absent_stays now who m m' id : lease_step now who m m' -> m !! id = None -> m' !! id = None.
Proof.
  intros Hstep Hid. destruct Hstep as [m k t' u Hk _ _ _ _|m k t' b u ph Hk _ _ _|m k t' Hk _|m k t' u d Hk _ _|m k t' Hk _ _].
  1-4: rewrite lookup_insert_ne; [done|congruence].
  apply map_lookup_filter_None_2. by left.
Qed.

(** A task every step of its tasks keeps or takes away is kept or gone ever after. *)
Lemma table_keeps now who (P : Task -> Prop) : (forall m m' id t, lease_step now who m m' -> m !! id = Some t -> P t -> m' !! id = Some t \/ m' !! id = None) ->
  forall tb tb', rtc (table_step now who) tb tb' -> forall k t, (k < tb_next tb)%N -> P t ->
  tb_tasks tb !! pretty k = Some t \/ tb_tasks tb !! pretty k = None ->
  (k < tb_next tb')%N /\ (tb_tasks tb' !! pretty k = Some t \/ tb_tasks tb' !! pretty k = None).
Proof.
  intros Hstep tb tb' Hsteps. induction Hsteps as [|tb tb1 tb' H1 _ IH]; [done|]. intros k t Hk Hp Hat.
  assert ((k < tb_next tb1)%N /\ (tb_tasks tb1 !! pretty k = Some t \/ tb_tasks tb1 !! pretty k = None)) as [Hk1 Hat1]; [|by apply IH].
  destruct H1 as [m m' n Hs|m n r a _|m n n' Hn]; cbn in *.
  - split; [done|]. destruct Hat as [Hat|Hat]; [by eapply Hstep|right; by eapply absent_stays].
  - split; [lia|]. rewrite lookup_insert_ne; [done|]. intros Heq%(inj pretty). lia.
  - split; [lia|done].
Qed.

(** * The queue as such a table *)

Definition phase_of (o : OperationRequest) : Phase :=
  match op_state o with
  | O_QUEUED => Waiting
  | O_CLAIMED => Held (op_claimed_by o) (default 0%Z (op_lease_expires_at o))
  | O_SUCCEEDED => Ended true
  | O_FAILED | O_CANCELLED => Ended false
  end.

Definition task_of (o : OperationRequest) : Task := mkTask (op_resource o) (op_action o) (phase_of o).

Definition table_of (rows : list OperationRequest) : gmap string Task := list_to_map (map (fun o => (op_id o, task_of o)) rows).

Definition queue_view (db : Db) : Table := mkTable (table_of (db_operations db)) (db_next_id db).

Lemma table_ids rows : map fst (map (fun o => (op_id o, task_of o)) rows) = map op_id rows.
Proof. by rewrite map_map. Qed.

Lemma lookup_table rows id t : NoDup (map op_id rows) ->
  table_of rows !! id = Some t <-> exists o, o ∈ rows /\ op_id o = id /\ t = task_of o.
Proof.
  intros Hnd. unfold table_of. rewrite <- elem_of_list_to_map.
  - rewrite list_elem_of_fmap. split; [intros (o & [= -> ->] & Ho); by exists o|intros (o & Ho & <- & ->); by exists o].
  - change (NoDup (map fst (map (fun o => (op_id o, task_of o)) rows))). by rewrite table_ids.
Qed.

Lemma table_row rows o : NoDup (map op_id rows) -> o ∈ rows -> table_of rows !! op_id o = Some (task_of o).
Proof. intros Hnd Ho. apply lookup_table; [done|]. by exists o. Qed.

Lemma table_is rows m : NoDup (map op_id rows) ->
  (forall o, o ∈ rows -> m !! op_id o = Some (task_of o)) -> (forall id, id ∉ map op_id rows -> m !! id = None) -> m = table_of rows.
Proof.
  intros Hnd Hin Hout. apply map_eq. intros id. destruct (decide (id ∈ map op_id rows)) as [Hid|Hid].
  - apply list_elem_of_fmap in Hid as (o & -> & Ho). by rewrite Hin, table_row.
  - rewrite Hout by done. destruct (table_of rows !! id) as [t|] eqn:Ht; [|done].
    apply lookup_table in Ht as (o & Ho & <- & _); [|done]. destruct Hid. by apply list_elem_of_fmap_2.
Qed.

(** Rows updated one by one: each the table's step, or no move at all. *)
Section Updates.
Variables (now : Z) (who : string) (q : OperationRequest -> bool) (f : OperationRequest -> OperationRequest).

Definition steps_to (o : OperationRequest) : Prop :=
  op_id (f o) = op_id o /\
  (task_of (f o) = task_of o \/ forall m, m !! op_id o = Some (task_of o) -> lease_step now who m (<[op_id o := task_of (f o)]> m)).

Lemma rows_step rows : NoDup (map op_id rows) -> (forall o, o ∈ rows -> q o = true -> steps_to o) ->
  forall m, (forall o, o ∈ rows -> m !! op_id o = Some (task_of o)) ->
  exists m', rtc (lease_step now who) m m' /\
    (forall o, o ∈ rows -> m' !! op_id o = Some (task_of (if q o then f o else o))) /\ (forall id, id ∉ map op_id rows -> m' !! id = m !! id).
Proof.
  induction rows as [|x xs IH]; intros Hnd Hf m Hm; [exists m; split_and!; [constructor| |done]; intros o Ho; by apply elem_of_nil in Ho|].
  apply NoDup_cons in Hnd as [Hx Hnd].
  set (m1 := if q x then <[op_id x := task_of (f x)]> m else m).
  assert (rtc (lease_step now who) m m1) as Hstep.
  { subst m1. destruct (q x) eqn:Hq; [|constructor]. specialize (Hm x (list_elem_of_here _ _)).
    destruct (Hf x (list_elem_of_here _ _) Hq) as [_ [->|Hs]]; [by rewrite insert_id|by apply rtc_once, Hs]. }
  assert (forall id, id <> op_id x -> m1 !! id = m !! id) as Hother by (intros id Hid; subst m1; destruct (q x); [by rewrite lookup_insert_ne|done]).
  destruct (IH Hnd (fun o Ho => Hf o (list_elem_of_further _ _ _ Ho)) m1) as (m' & Hsteps & Hin & Hout).
  { intros o Ho. rewrite Hother; [by apply Hm; right|]. intros Heq. apply Hx. rewrite <- Heq. by apply list_elem_of_fmap_2. }
  exists m'. split_and!; [by etransitivity| |].
  - intros o [->|Ho]%elem_of_cons; [|by apply Hin]. rewrite Hout by done. subst m1. destruct (q x); [by rewrite lookup_insert_eq|by apply Hm; left].
  - intros id Hid. cbn in Hid. apply not_elem_of_cons in Hid as [? ?]. by rewrite Hout, Hother.
Qed.

Lemma table_update rows : NoDup (map op_id rows) -> (forall o, o ∈ rows -> q o = true -> steps_to o) ->
  rtc (lease_step now who) (table_of rows) (table_of (update_where q f rows)).
Proof.
  intros Hnd Hf. destruct (rows_step rows Hnd Hf (table_of rows)) as (m' & Hs & Hin & Hout); [intros o Ho; by apply table_row|].
  assert (map op_id (update_where q f rows) = map op_id rows) as Hids.
  { apply map_update_where. intros o Ho Hq. by apply Hf. }
  assert (m' = table_of (update_where q f rows)) as <-; [|done].
  apply table_is; [by rewrite Hids| |rewrite Hids].
  - intros o (x & Hx & ->)%elem_of_update_where. specialize (Hin x Hx). destruct (q x) eqn:Hq; [|done]. by rewrite (proj1 (Hf x Hx Hq)).
  - intros id Hid. rewrite Hout by done. destruct (table_of rows !! id) as [t|] eqn:Ht; [|done].
    apply lookup_table in Ht as (o & Ho & <- & _); [|done]. destruct Hid. by apply list_elem_of_fmap_2.
Qed.
End Updates.

Lemma table_update_one id f rows o : NoDup (map op_id rows) -> o ∈ rows -> op_id o = id -> op_id (f o) = id ->
  table_of (update_where (fun x => bool_decide (op_id x = id)) f rows) = <[id := task_of (f o)]> (table_of rows).
Proof.
  intros Hnd Ho Hid Hfid.
  assert (forall x, x ∈ rows -> op_id x = id -> x = o) as Huniq by (intros x Hx Heq; eapply (unique_by op_id); [exact Hnd|done|done|congruence]).
  assert (map op_id (update_where (fun x => bool_decide (op_id x = id)) f rows) = map op_id rows) as Hids.
  { apply map_update_where. intros x Hx Hq%bool_decide_eq_true. rewrite (Huniq x Hx Hq). congruence. }
  symmetry. apply table_is; [by rewrite Hids| |rewrite Hids].
  - intros x (y & Hy & ->)%elem_of_update_where. case_bool_decide as Heq.
    + rewrite (Huniq y Hy Heq), Hfid. by rewrite lookup_insert_eq.
    + rewrite lookup_insert_ne by done. by apply table_row.
  - intros k Hk. rewrite lookup_insert_ne.
    + destruct (table_of rows !! k) as [t|] eqn:Ht; [|done]. apply lookup_table in Ht as (x & Hx & <- & _); [|done]. destruct Hk. by apply list_elem_of_fmap_2.
    + intros <-. apply Hk. rewrite <- Hid. by apply list_elem_of_fmap_2.
Qed.

(** * The refinement *)

Section Refinement.
Variables (host : Site) (plant : Plant) (now : Z) (who : string).
Hypothesis strike : strike_leaves_queue plant.

Notation steps := (rtc (table_step now who)).

(** A well-formed queue reached from a table by its steps. *)
Definition reached (from : Table) (db : Db) : Prop := operations_ok db /\ steps from (queue_view db).

Lemma reached_frame from db db' :
  db_operations db' = db_operations db -> (db_next_id db <= db_next_id db')%N -> reached from db -> reached from db'.
Proof.
  intros Ho Hn [Hok Hs]. split; [by eapply operations_frame|]. etransitivity; [exact Hs|]. apply rtc_once.
  unfold queue_view. rewrite Ho. by apply ts_pass.
Qed.

Lemma preserves_reached_frame {A} from (m : M exn Db A) :
  (forall db, db_operations (m db).2 = db_operations db /\ (db_next_id db <= db_next_id (m db).2)%N) -> preserves (reached from) m.
Proof. intros H db Hr. destruct (H db) as [Ho Hn]. by eapply reached_frame. Qed.

Lemma preserves_reached_enqueue from at_ r action key asked : preserves (reached from) (enqueue at_ r action key asked).
Proof.
  intros db [Hok Hs]. destruct (enqueue at_ r action key asked db) as [o db'] eqn:H. cbn.
  assert (operations_ok db') as Hok' by by eapply enqueue_ok. split; [done|].
  destruct (enqueue_cases at_ r action key asked db) as [(x & _ & He)|[(x & _ & _ & He)|(Ha & Hk & He)]];
    rewrite He in H; injection H as <- <-; [done|done|]. etransitivity; [exact Hs|]. apply rtc_once.
  set (op := new_operation at_ r action key asked (db_next_id db)) in *. unfold queue_view. cbn [db_operations set_db_operations].
  assert (op_id op ∉ map op_id (db_operations db)) as Hfresh.
  { pose proof (opk_ids _ Hok') as Hnd. cbn in Hnd. rewrite map_app in Hnd. apply NoDup_app in Hnd as (_ & Hnd & _). intros Hin. apply (Hnd _ Hin). by left. }
  assert (table_of (db_operations db ++ [op])%list = <[op_id op := mkTask (mr_id r) action Waiting]> (table_of (db_operations db))) as ->.
  { symmetry. apply table_is; [apply (opk_ids _ Hok')| |].
    - intros x [Hx| ->%list_elem_of_singleton]%elem_of_app; [|by rewrite lookup_insert_eq].
      rewrite lookup_insert_ne; [by apply table_row; [apply (opk_ids _ Hok)|]|]. intros Heq. apply Hfresh. rewrite Heq. by apply list_elem_of_fmap_2.
    - intros id Hid. rewrite map_app, elem_of_app in Hid. rewrite lookup_insert_ne.
      + destruct (table_of _ !! id) as [t|] eqn:Ht; [|done]. apply lookup_table in Ht as (x & Hx & <- & _); [|apply (opk_ids _ Hok)].
        destruct Hid. left. by apply list_elem_of_fmap_2.
      + intros <-. destruct Hid. right. by left. }
  cbn [db_next_id set_db_next_id set_db_operations]. apply ts_ask.
  intros id t Ht Hrec Hact Hopen. apply lookup_table in Ht as (x & Hx & _ & ->); [|apply (opk_ids _ Hok)]. cbn in Hrec, Hact.
    eapply (active_operation_none _ _ _ x Ha Hx); [|unfold active_key; congruence].
    unfold open_task, task_of, phase_of, is_active in *. cbn in Hopen. destruct (op_state x); try done; by apply bool_decide_eq_true.
Qed.

Lemma row_steps q f db : operations_ok db -> (forall o, o ∈ db_operations db -> q o = true -> steps_to now who f o) ->
  steps (queue_view db) (mkTable (table_of (update_where q f (db_operations db))) (db_next_id db)).
Proof.
  intros Hok Hf. unfold queue_view. apply (rtc_congruence (R := lease_step now who) (fun m => mkTable m (db_next_id db))).
  - intros m m'. apply ts_task.
  - apply table_update; [apply (opk_ids _ Hok)|done].
Qed.

(** Leases that ran out. *)
Lemma reached_lapsed from db : reached from db -> reached from (release_lapsed now db).2.
Proof.
  intros [Hok Hs]. split; [by apply release_lapsed_ok|]. etransitivity; [exact Hs|].
  change (queue_view (release_lapsed now db).2) with (mkTable (table_of (update_where (lease_lapsed now) (released now db) (db_operations db))) (db_next_id db)).
  apply row_steps; [done|]. intros o Ho Hq.
  apply andb_true_iff in Hq as [Hst%bool_decide_eq_true Hl]. split; [unfold released; by destruct (switched_off db o)|]. right. intros m Hm.
  destruct (op_lease_expires_at o) as [t|] eqn:Ht; [|done]. apply Z.leb_le in Hl.
  assert (exists phase, task_of (released now db o) = moved phase (task_of o) /\ (phase = Waiting \/ phase = Ended false)) as (phase & -> & Hphase).
  { unfold released. destruct (switched_off db o); eexists; (split; [reflexivity|by auto]). }
  apply (ls_lapse now who m _ _ (op_claimed_by o) t); [done| |done|done]. cbn. unfold phase_of. by rewrite Hst, Ht.
Qed.

(** A save of one row that is the table's step. *)
Lemma reached_save from f db o out db' : save_operation (op_id o) f db = (out, db') -> reached from db -> o ∈ db_operations db ->
  same_operation o (f o) -> (is_active (f o) = true -> is_active o = true) ->
  lease_step now who (table_of (db_operations db)) (<[op_id o := task_of (f o)]> (table_of (db_operations db))) -> reached from db'.
Proof.
  intros H [Hok Hs] Ho Hsame Hact Hstep.
  assert (operations_ok db' /\ db_resources db' = db_resources db /\ db_next_id db' = db_next_id db) as (Hok' & _).
  { eapply save_operation_ok; [exact H|done|]. intros x Hx Hid. assert (x = o) as -> by (eapply (unique_by op_id); [apply (opk_ids _ Hok)|done..]). done. }
  split; [done|]. etransitivity; [exact Hs|]. revert H. unfold save_operation, act.
  destruct (first_where _ _) as [found|]; [|by intros [= _ <-]]. destruct (operation_rules _); intros [= _ <-]; [|done].
  apply rtc_once, ts_task. cbn [db_operations set_db_operations].
  rewrite (table_update_one _ f _ o); [done|apply (opk_ids _ Hok)|done|done|apply Hsame].
Qed.

(** What a claim could not describe was given up, and what it found waits. *)
Lemma next_resolvable_reached from : forall l db out db',
  next_resolvable plant now l db = (out, db') -> reached from db -> NoDup (map op_id l) -> Forall (queued_in db) l ->
  reached from db' /\ forall o c, out = Ok (Some (o, c)) -> queued_in db' o.
Proof.
  induction l as [|y l IH]; intros db out db' H Hr Hnd Hq; cbn [next_resolvable] in H; [by injection H as <- <-|].
  apply Forall_cons in Hq as [Hy Hq]. apply NoDup_cons in Hnd as [Hyl Hnd].
  rewrite (bind_step _ _ _ (contract_of plant y db) db) in H by done. destruct (contract_of plant y db) as [c|e].
  { injection H as <- <-. split; [done|]. intros o c' [= <- <-]. done. }
  destruct (unresolvable e); [|by injection H as <- <-]. destruct Hr as [Hok Hsteps].
  assert (forall out1 db1, save_operation (op_id y) (failed_as now (exn_text e)) db = (out1, db1) -> reached from db1) as Hsave.
  { intros out1 db1 Hs. eapply reached_save; [exact Hs|done|apply Hy|done|done|].
    apply (ls_give_up now who _ _ (task_of y)); [apply table_row; [apply (opk_ids _ Hok)|apply Hy]|]. cbn. unfold phase_of. by rewrite (proj2 Hy). }
  apply bind_inv in H as [([] & db1 & Hs & H)|(e' & Hs & ->)]; [|split; [by eapply Hsave|done]].
  apply (IH db1); [done|by eapply Hsave|done|]. apply Forall_forall. intros x Hx. rewrite Forall_forall in Hq. destruct (Hq x Hx) as [Hxin Hxs].
  split; [|done]. revert Hs. unfold save_operation, act. destruct (first_where _ _); [|by intros [= <-]]. destruct (operation_rules _); [|done].
  intros [= <-]. cbn. apply elem_of_update_where. exists x. split; [done|]. rewrite bool_decide_eq_false_2; [done|].
  intros Heq. apply Hyl. rewrite <- Heq. by apply list_elem_of_fmap_2.
Qed.

Lemma reached_claim from lease capabilities db : reached from db -> reached from (claim_next_operation plant now who lease capabilities db).2.
Proof.
  intros Hr. destruct (claim_next_operation plant now who lease capabilities db) as [[said|e] db'] eqn:H; cbn.
  2: { unfold claim_next_operation in H. by apply atomic_raise in H as ->. }
  destruct (claim_inv plant now who lease capabilities db db' said (proj1 Hr) H) as (_ & Hlease & Hwho & _).
  unfold claim_next_operation in H. apply (proj1 (atomic_ok _ _ _ _)) in H.
  apply bind_inv_ok in H as ([] & s1 & [_ ->]%raise_if_inv & H). apply bind_inv_ok in H as ([] & s2 & [_ ->]%raise_if_inv & H).
  set (db0 := (release_lapsed now db).2) in *. assert (reached from db0) as Hr0 by by apply reached_lapsed.
  rewrite (bind_step _ _ _ tt db0) in H by done. apply bind_inv_ok in H as (brakes & s3 & Hb & H).
  apply held_askers_state in Hb as ->. rewrite (bind_step _ _ _ (claimable capabilities brakes db0) db0) in H by done.
  apply bind_inv_ok in H as (found & db1 & Hn & H). destruct Hr0 as [Hok0 Hs0].
  pose proof (next_resolvable_rows _ _ _ _ _ _ Hn Hok0 (claimable_distinct capabilities brakes db0 Hok0)) as (_ & Hrows & _).
  destruct (next_resolvable_reached from _ _ _ _ Hn (conj Hok0 Hs0) (claimable_distinct capabilities brakes db0 Hok0)) as [Hr1 Hfound].
  { apply Forall_forall. intros x Hx. apply elem_of_claimable in Hx as (? & ? & _). done. }
  destruct found as [[o contract]|]; [|by injection H as _ <-]. destruct (Hfound o contract eq_refl) as [Hoin Hos].
  apply bind_inv_ok in H as ([] & s4 & Hs & H). injection H as _ <-. destruct Hr1 as [Hok1 Hs1].
  eapply reached_save; [exact Hs|done|done|done|intros _; unfold is_active; rewrite Hos; apply bool_decide_eq_true_2; by left|].
  apply (ls_claim now who _ _ (task_of o) (now + lease * SECOND)%Z); [by apply table_row; [apply (opk_ids _ Hok1)|]| |done|unfold SECOND; lia|].
  - cbn. unfold phase_of. by rewrite Hos.
  - intros id t by_ until Ht Hp. apply lookup_table in Ht as (x & Hx & _ & ->); [|apply (opk_ids _ Hok1)].
    cbn in Hp. unfold phase_of in Hp. destruct (op_state x) eqn:Hxs; try done. injection Hp as _ <-.
    destruct (Hrows x Hx) as [Hx0|?]; [|congruence].
    cbn in Hx0. apply elem_of_update_where in Hx0 as (z & Hz & ->). destruct (lease_lapsed now z) eqn:Hl; [unfold released in Hxs; by destruct (switched_off db z)|].
    unfold lease_lapsed in Hl. rewrite Hxs in Hl. rewrite bool_decide_eq_true_2 in Hl by done.
    pose proof (opk_rules _ (proj1 Hr) z Hz) as Hrules. unfold operation_rules in Hrules. rewrite Hxs in Hrules.
    destruct (op_lease_expires_at z) as [t'|]; [by apply Z.leb_gt in Hl|]. rewrite bool_decide_eq_true_2, andb_false_r in Hrules by done. done.
Qed.

Lemma reached_queue from r command p action en : preserves (reached from) (queue_operation host plant now r command p action en).
Proof.
  unfold queue_operation. apply preserves_bind; [apply preserves_raise_if|intros []]. apply preserves_bind; [apply preserves_gets|intros observes].
  do 3 (apply preserves_bind; [apply preserves_raise_if|intros []]). apply preserves_bind; [apply preserves_reached_enqueue|intros [op queued]].
  apply preserves_bind; [apply preserves_raise_if|intros []]. apply preserves_bind; [apply preserves_gets|intros said].
  destruct queued; [|apply preserves_ret]. apply preserves_bind; [|intros []; apply preserves_ret]. apply preserves_reached_frame. intros db. cbn. split; [done|lia].
Qed.

Lemma reached_schedule from controller_id : preserves (reached from) (schedule_automatic_operations host plant now controller_id).
Proof.
  unfold schedule_automatic_operations. apply preserves_bind; [apply preserves_gets|intros resources].
  apply preserves_bind; [|intros scheduled; apply preserves_bind; [|intros; apply preserves_ret]].
  - apply preserves_fold_each. intros acc r. unfold schedule_one. apply preserves_bind; [apply preserves_gets|intros []]; [apply preserves_ret|].
    destruct (first_due _ _ _ _ _) as [[[action reason] identity]|]; [|apply preserves_ret].
    apply preserves_bind; [apply preserves_reached_enqueue|intros; apply preserves_ret].
  - unfold finding_repairs. apply preserves_atomic. destruct (negb _); [apply preserves_ret|]. apply preserves_bind; [apply preserves_gets|intros repairs].
    apply preserves_fold_each. intros acc [[rule key] reason]. unfold repair_one. apply preserves_bind; [apply preserves_gets|intros [r|]]; [|apply preserves_ret].
    apply preserves_bind; [apply preserves_gets|intros []]; [apply preserves_ret|]. apply preserves_bind; [apply preserves_reached_enqueue|intros; apply preserves_ret].
Qed.

(** A record taken away with its operations, after its removal was done. *)
Lemma reached_removed from o db : reached from db -> o ∈ db_operations db -> op_action o = DELETE -> op_state o = O_SUCCEEDED ->
  reached from (set_db_operations (delete_where (fun x => bool_decide (op_resource x = op_resource o)) (db_operations db)) db).
Proof.
  intros [Hok Hs] Ho Ha Hst. split; [by apply operations_delete_ok|]. etransitivity; [exact Hs|]. apply rtc_once, ts_task.
  cbn [db_operations set_db_operations].
  assert (table_of (delete_where (fun x => bool_decide (op_resource x = op_resource o)) (db_operations db)) =
          filter (fun kt => t_record kt.2 <> t_record (task_of o)) (table_of (db_operations db))) as ->.
  { pose proof (opk_ids _ Hok) as Hnd. symmetry. apply table_is; [by apply NoDup_map_delete| |].
    - intros x [Hx Hne%bool_decide_eq_false]%elem_of_delete_where. apply map_lookup_filter_Some_2; [by apply table_row|done].
    - intros id Hid. apply map_lookup_filter_None_2. destruct (table_of _ !! id) as [t|] eqn:Ht; [right|by left].
      intros x [= <-]. apply lookup_table in Ht as (y & Hy & <- & ->); [|done]. cbn. intros Hne. apply Hid.
      apply list_elem_of_fmap_2, elem_of_delete_where. split; [done|by apply bool_decide_eq_false_2]. }
  apply (ls_remove now who _ (op_id o)); [by apply table_row; [apply (opk_ids _ Hok)|]|done|]. cbn. unfold phase_of. by rewrite Hst.
Qed.

(** A queue reached, with a row in it. *)
Definition reached_with (from : Table) (o : OperationRequest) (db : Db) : Prop := reached from db /\ o ∈ db_operations db.

Lemma preserves_with_frame {A} from o (m : M exn Db A) :
  (forall db, db_operations (m db).2 = db_operations db /\ (db_next_id db <= db_next_id (m db).2)%N) -> preserves (reached_with from o) m.
Proof. intros H db [Hr Ho]. destruct (H db) as [Hops Hn]. split; [by eapply reached_frame|by rewrite Hops]. Qed.

(** The lists a settled report writes after the operation. *)
Lemma settle_frames report r o :
  let frame {A} (m : M exn Db A) := forall db, db_operations (m db).2 = db_operations db /\ (db_next_id db <= db_next_id (m db).2)%N in
  frame (save_resource (mr_id r) (observed_as now report)) /\
  frame (if cr_success report then confirm_delivery_targets plant now (observed_as now report r) (cr_status report) else mret tt) /\
  frame (read_back_lifecycle plant o (mr_kind (observed_as now report r))) /\
  frame (pl_strike_removed plant (observed_as now report r)).
Proof.
  intros frame. split_and!; intros db.
  - unfold save_resource, act. destruct (resource_by _ _); cbn; split; [done|lia|done|lia].
  - destruct (cr_success report); [|by split].
    destruct (confirm_delivery_targets plant now (observed_as now report r) (cr_status report) db) as [out db'] eqn:H.
    apply confirm_leaves_queue in H as (_ & ? & ?). cbn. split; [done|lia].
  - unfold read_back_lifecycle. destruct (_ && _); cbn; split; [done|lia|done|lia].
  - destruct (strike (observed_as now report r) db) as (? & _ & ?). done.
Qed.

Lemma reached_settle from o r report db : reached from db -> o ∈ db_operations db -> mr_id r = op_resource o ->
  lease_step now who (table_of (db_operations db)) (<[op_id o := task_of (reported_as now report o)]> (table_of (db_operations db))) ->
  reached from (settle_report plant now o r report db).2.
Proof.
  intros Hr Ho Hres Hstep. unfold settle_report.
  pose proof (save_operation_found _ _ _ _ (proj1 Hr) Ho eq_refl (reported_rules now report o)) as Hsave.
  rewrite (bind_step _ _ _ _ _ Hsave). set (db1 := set_db_operations _ db) in *.
  assert (reached_with from (reported_as now report o) db1) as H1.
  { split; [|cbn; apply elem_of_update_where; exists o; by rewrite bool_decide_eq_true_2].
    eapply reached_save; [exact Hsave|done|done|done| |done]. unfold is_active, reported_as. cbn. by destruct (cr_success report). }
  destruct (settle_frames report r (reported_as now report o)) as (F1 & F2 & F3 & F4).
  clearbody db1. clear Hsave Hstep Hr Ho. revert db1 H1.
  assert (forall A (m : M exn Db A), preserves (reached_with from (reported_as now report o)) m ->
    forall db1, reached_with from (reported_as now report o) db1 -> reached from (m db1).2) as Hweak by (intros A m Hm db1 H1; by apply Hm).
  assert (forall A B (m : M exn Db A) (k : A -> M exn Db B), preserves (reached_with from (reported_as now report o)) m ->
    (forall a db1, reached_with from (reported_as now report o) db1 -> reached from (k a db1).2) ->
    forall db1, reached_with from (reported_as now report o) db1 -> reached from ((m ≫= k) db1).2) as Hbind.
  { intros A B m k Hm Hk db1 H1. unfold mbind, M_bind. specialize (Hm db1 H1). destruct (m db1) as [[a|e] db2]; cbn in *; [by apply Hk|apply Hm]. }
  apply Hbind; [by apply preserves_with_frame|intros []]. apply Hbind; [by apply preserves_with_frame|intros []].
  apply Hbind; [by apply preserves_with_frame|intros []]. apply Hbind; [apply preserves_gets|intros said].
  destruct (cr_success report && bool_decide (op_action o = DELETE)) eqn:Hgone; [|intros db1 [H1 _]; exact H1].
  apply andb_true_iff in Hgone as [Hsucc Hdel%bool_decide_eq_true]. intros db1 [H1 Hin].
  rewrite (bind_step _ _ _ tt (set_db_operations (delete_where (fun x => bool_decide (op_resource x = mr_id r)) (db_operations db1)) db1)) by done.
  rewrite Hres. change (op_resource o) with (op_resource (reported_as now report o)).
  eapply reached_removed in Hin; [|done|done|unfold reported_as; cbn; by rewrite Hsucc].
  revert Hin. generalize (set_db_operations (delete_where (fun x => bool_decide (op_resource x = op_resource (reported_as now report o))) (db_operations db1)) db1).
  apply preserves_bind; [by apply preserves_reached_frame|intros []]. apply preserves_bind; [|intros []; apply preserves_ret].
  apply preserves_reached_frame. intros db2. cbn. split; [done|lia].
Qed.

Lemma reached_report from id report db : reached from db -> reached from (report_operation host plant now id report who db).2.
Proof.
  intros Hr. unfold report_operation. destruct (h_uuid host id) as [key|]; [|done].
  rewrite (bind_step _ _ _ (operation_by key db) db) by done. destruct (operation_by key db) as [o|] eqn:Hby; [|done].
  apply first_where_some in Hby as [Hin _].
  unfold raise_if. destruct (negb (bool_decide (op_state o = O_CLAIMED))) eqn:Hs; [done|]. rewrite (bind_step _ _ _ tt db) by done.
  destruct (negb (bool_decide (op_claimed_by o = who))) eqn:Hc; [done|]. rewrite (bind_step _ _ _ tt db) by done.
  destruct (op_lease_expires_at o) as [until|] eqn:Hl.
  2: { exfalso. pose proof (opk_rules _ (proj1 Hr) o Hin) as Hrules. apply negb_false_iff, bool_decide_eq_true in Hs.
       unfold operation_rules in Hrules. rewrite Hs, Hl in Hrules. rewrite (bool_decide_eq_true_2 (O_CLAIMED = O_CLAIMED)), andb_false_r in Hrules by done. done. }
  destruct (Z.leb_spec until now) as [Hle|Hlt]; [done|]. rewrite (bind_step _ _ _ tt db) by done.
  destruct (negb (bool_decide (attr "generation" (op_input o) = _))); [done|]. rewrite (bind_step _ _ _ tt db) by done.
  rewrite (bind_step _ _ _ (resource_by (op_resource o) db) db) by done. destruct (resource_by (op_resource o) db) as [r|] eqn:Hrb; [|done].
  apply first_where_some in Hrb as [_ Hrid%bool_decide_eq_true]. apply negb_false_iff, bool_decide_eq_true in Hs, Hc.
  apply reached_settle; [done|done|done|].
  assert (task_of (reported_as now report o) = moved (Ended (cr_success report)) (task_of o)) as ->.
  { unfold task_of, moved, phase_of, reported_as. cbn. by destruct (cr_success report). }
  apply (ls_report now who _ _ _ until); [by apply table_row; [apply (opk_ids _ (proj1 Hr))|]| |done]. cbn. unfold phase_of. by rewrite Hs, Hc, Hl.
Qed.

(** One call of the queue at this moment, or anything else that leaves it. *)
Inductive queue_act : Db -> Db -> Prop :=
| qa_ask r command p action en db : queue_act db (queue_operation host plant now r command p action en db).2
| qa_schedule controller_id db : queue_act db (schedule_automatic_operations host plant now controller_id db).2
| qa_claim lease capabilities db : queue_act db (claim_next_operation plant now who lease capabilities db).2
| qa_report id report db : queue_act db (report_operation host plant now id report who db).2
| qa_other db db' : db_operations db' = db_operations db -> (db_next_id db <= db_next_id db')%N -> queue_act db db'.

Lemma act_reached from db db' : queue_act db db' -> reached from db -> reached from db'.
Proof.
  intros [r command p action en d|c d|lease caps d|id report d|d d' Ho Hn] Hr.
  - by apply reached_queue.
  - by apply reached_schedule.
  - by apply reached_claim.
  - by apply reached_report.
  - by eapply reached_frame.
Qed.

(** C9: The queue implements the table of tasks: whatever one call of it does, answered or interrupted,
    it moves the table by the table's own steps, taken by that caller at that moment. *)
Theorem queue_refines_leases (db db' : Db) : operations_ok db -> queue_act db db' -> steps (queue_view db) (queue_view db').
Proof. intros Hok Hact. by apply (act_reached (queue_view db) db db' Hact). Qed.

(** While a lease runs its operation is its holder's: no other controller's call, no ask and no
    schedule moves it, short of its record's going and the operation with it. *)
Theorem lease_excludes_others (db db' : Db) (o o' : OperationRequest) (until : Z) :
  operations_ok db -> queue_act db db' -> o ∈ db_operations db ->
  op_state o = O_CLAIMED -> op_claimed_by o <> who -> op_lease_expires_at o = Some until -> (now < until)%Z ->
  o' ∈ db_operations db' -> op_id o' = op_id o ->
  op_state o' = O_CLAIMED /\ op_claimed_by o' = op_claimed_by o /\ default 0%Z (op_lease_expires_at o') = until.
Proof.
  intros Hok Hact Ho Hs Hc Hl Hlt Ho' Hid. destruct (act_reached (queue_view db) db db' Hact) as [Hok' Hsteps]; [by split|].
  destruct (opk_below _ Hok _ Ho) as (k & Hk & Hlow).
  assert (t_phase (task_of o) = Held (op_claimed_by o) until) as Hp by (cbn; unfold phase_of; by rewrite Hs, Hl).
  destruct (table_keeps now who (fun t => t_phase t = Held (op_claimed_by o) until)) with (tb := queue_view db) (tb' := queue_view db') (k := k) (t := task_of o)
    as [_ Hkept]; [intros m m' id t Hstep Hm Ht; by eapply held_by_another|done|done|done| |].
  - left. rewrite <- Hk. cbn. by apply table_row; [apply (opk_ids _ Hok)|].
  - rewrite <- Hk, <- Hid in Hkept. cbn in Hkept. rewrite (table_row _ _ (opk_ids _ Hok') Ho') in Hkept. destruct Hkept as [[= Hr Ha Hph]|?]; [|done].
    unfold phase_of in Hph. rewrite Hs, Hl in Hph. destruct (op_state o') eqn:Hs'; try done. by injection Hph as -> ->.
Qed.
End Refinement.

Section Life.
Variables (host : Site) (plant : Plant).
Hypothesis strike : strike_leaves_queue plant.

Lemma step_reached db db' : queue_step host plant db db' -> operations_ok db -> exists now who, reached now who (queue_view db) db'.
Proof.
  intros Hstep Hok. assert (forall now who, reached now who (queue_view db) db) as Hr by by split.
  destruct Hstep as [now r command p action en db|now c db|now c lease caps db|now id report c db|db db' Hops Hn].
  - exists now, "". by apply reached_queue.
  - exists now, "". by apply reached_schedule.
  - exists now, c. by apply reached_claim.
  - exists now, c. by apply reached_report.
  - exists 0%Z, "". by eapply reached_frame.
Qed.

(** The number of an ended task, from any queue on. *)
Lemma ended_kept db db' k t d : rtc (queue_step host plant) db db' -> operations_ok db -> t_phase t = Ended d -> (k < db_next_id db)%N ->
  tb_tasks (queue_view db) !! pretty k = Some t \/ tb_tasks (queue_view db) !! pretty k = None ->
  operations_ok db' /\ (tb_tasks (queue_view db') !! pretty k = Some t \/ tb_tasks (queue_view db') !! pretty k = None).
Proof.
  intros Hsteps. induction Hsteps as [db|db db1 db' Hstep _ IH]; intros Hok Hd Hlow Hat; [done|].
  destruct (step_reached _ _ Hstep Hok) as (now & who & Hok1 & Hsteps1).
  destruct (table_keeps now who (fun t => t_phase t = Ended d)) with (tb := queue_view db) (tb' := queue_view db1) (k := k) (t := t) as [Hlow1 Hat1];
    [intros m m' id t' Hs Hm Ht; by eapply ended_stays|done..|by apply IH].
Qed.

(** Work that has ended stays as it ended, whoever calls whatever afterwards: nothing is run again
    by its number. *)
Theorem ended_work_stays_ended (db db' : Db) (o o' : OperationRequest) :
  operations_ok db -> rtc (queue_step host plant) db db' ->
  o ∈ db_operations db -> is_active o = false -> o' ∈ db_operations db' -> op_id o' = op_id o -> task_of o' = task_of o.
Proof.
  intros Hok Hsteps Ho Hact Ho' Hid. destruct (opk_below _ Hok _ Ho) as (k & Hk & Hlow).
  assert (exists d, t_phase (task_of o) = Ended d) as [d Hd].
  { cbn. unfold phase_of. unfold is_active in Hact. apply bool_decide_eq_false in Hact. destruct (op_state o); try by eexists.
    - by destruct Hact; left.
    - by destruct Hact; right. }
  destruct (ended_kept db db' k (task_of o) d Hsteps Hok Hd Hlow) as [Hok' Hkept].
  - left. rewrite <- Hk. cbn. by apply table_row; [apply (opk_ids _ Hok)|].
  - rewrite <- Hk, <- Hid in Hkept. cbn in Hkept. rewrite (table_row _ _ (opk_ids _ Hok') Ho') in Hkept. destruct Hkept as [Hkept|?]; [congruence|done].
Qed.
End Life.

(** * Witnesses: a claim, and another controller's report *)

Lemma queue_refines_leases_witness :
  rtc (table_step 5 "homelab") (queue_view scheduled_db) (queue_view claimed_db).
Proof.
  apply (queue_refines_leases demo_host working_plant 5 "homelab" working_strike); [exact scheduled_ok|].
  exact (qa_claim demo_host working_plant 5 "homelab" 300 [] scheduled_db).
Defined.

Lemma lease_excludes_others_witness :
  let db' := (report_operation demo_host working_plant 6 "1" a_report "spare" claimed_db).2 in
  exists o o', o ∈ db_operations claimed_db /\ o' ∈ db_operations db' /\ op_claimed_by o = "homelab" /\ op_state o' = O_CLAIMED /\ op_claimed_by o' = "homelab".
Proof.
  intros db'. destruct (db_operations claimed_db) as [|x [|o rest]] eqn:Hops; [exfalso; vm_compute in Hops; discriminate Hops..|].
  assert (db_operations db' = db_operations claimed_db) as Hsame by (vm_compute; reflexivity).
  assert (op_claimed_by o = "homelab" /\ op_state o = O_CLAIMED /\ op_lease_expires_at o = Some (300 * SECOND + 5)%Z) as (Hc & Hs & Hl)
    by (vm_compute in Hops; injection Hops as _ <- _; vm_compute; split_and!; reflexivity).
  assert (o ∈ db_operations claimed_db) as Ho by (rewrite Hops; right; left).
  destruct (lease_excludes_others demo_host working_plant 6 "spare" working_strike claimed_db db' o o (300 * SECOND + 5)) as (H1 & H2 & _).
  - exact claimed_ok.
  - exact (qa_report demo_host working_plant 6 "spare" "1" a_report claimed_db).
  - exact Ho.
  - exact Hs.
  - rewrite Hc. discriminate.
  - exact Hl.
  - unfold SECOND. lia.
  - rewrite Hsame. exact Ho.
  - reflexivity.
  - exists o, o. split_and!; [right; left|rewrite Hsame; exact Ho|exact Hc|exact H1|congruence].
Defined.

(** The operation that could not be described was failed, and scheduling again leaves it so. *)
Lemma ended_work_stays_ended_witness :
  exists o o', o ∈ db_operations claimed_db /\ o' ∈ db_operations (schedule_automatic_operations demo_host working_plant 7 "homelab" claimed_db).2 /\
    task_of o = mkTask (op_resource o) RECONCILE (Ended false) /\ task_of o' = task_of o.
Proof.
  destruct (db_operations claimed_db) as [|o rest] eqn:Hops; [exfalso; vm_compute in Hops; discriminate Hops|].
  destruct (db_operations (schedule_automatic_operations demo_host working_plant 7 "homelab" claimed_db).2) as [|o' rest'] eqn:Hops';
    [exfalso; vm_compute in Hops'; discriminate Hops'|].
  exists o, o'. split; [left|]. split; [left|].
  assert (is_active o = false /\ op_id o' = op_id o /\ task_of o = mkTask (op_resource o) RECONCILE (Ended false)) as (Hact & Hid & Ht)
    by (vm_compute in Hops, Hops'; injection Hops as <- _; injection Hops' as <- _; vm_compute; split_and!; reflexivity).
  split; [exact Ht|].
  apply (ended_work_stays_ended demo_host working_plant working_strike claimed_db (schedule_automatic_operations demo_host working_plant 7 "homelab" claimed_db).2).
  - exact claimed_ok.
  - apply rtc_once. exact (q_schedule demo_host working_plant 7 "homelab" claimed_db).
  - rewrite Hops. left.
  - exact Hact.
  - rewrite Hops'. left.
  - exact Hid.
Defined.
