(* ===== verification/PyFloat.v ===== *)
(** Python's floats where the code reads a clock through them: IEEE 754 doubles, computed on
    [SpecFloat] with 53 bits of mantissa, so that a comparison or a rounding of an elapsed
    time is the one Python makes, its rounding errors included. *)
From stdpp Require Import base tactics.
From Stdlib Require Import ZArith Lia Floats.SpecFloat.

#[local] Open Scope Z_scope.

Definition of_int (z : Z) : spec_float := binary_normalize 53 1024 z 0 false.
Definition fdiv (x y : spec_float) : spec_float := SFdiv 53 1024 x y.
Definition fmul (x y : spec_float) : spec_float := SFmul 53 1024 x y.
Definition fsub (x y : spec_float) : spec_float := SFsub 53 1024 x y.

(** [delta.total_seconds()] of a number of microseconds, and [moment.timestamp()] of a moment
    counted in them from the epoch: the quotient of two integers a double holds exactly. *)
Definition total_seconds (us : Z) : spec_float := fdiv (of_int us) (of_int 1000000).

(** [round(x)] and [f"{x:.0f}"]: to the nearest integer, a tie to the even one. *)
Definition half_even (f : spec_float) : Z :=
  match f with
  | S754_finite s m e =>
      let n := if 0 <=? e then Zpos m * 2 ^ e
               else let d := 2 ^ (- e) in
                    let q := Zpos m / d in
                    match 2 * (Zpos m mod d) ?= d with
                    | Lt => q
                    | Gt => q + 1
                    | Eq => if Z.even q then q else q + 1
                    end in
      if s then - n else n
  | _ => 0
  end.

(** Python: [round(1.0005 * 1000) == 1000], [round(0.0005 * 1000) == 0], [f"{2.5:.0f}" == "2"]. *)
Example rounds_as_python : (half_even (fmul (total_seconds 1000500) (of_int 1000)), half_even (fmul (total_seconds 500) (of_int 1000)),
  half_even (total_seconds 2500000), half_even (total_seconds 3500000)) = (1000, 0, 2, 4).
Proof. vm_compute. reflexivity. Qed.

(** A float that is not a negative number. *)
Definition not_negative (f : spec_float) : Prop := forall m e, f <> S754_finite true m e.

Lemma half_even_nonneg f : not_negative f -> 0 <= half_even f.
Proof.
  destruct f as [| | |[] m e]; intros H; [done..|by destruct (H m e)|]. unfold half_even.
  destruct (0 <=? e); [apply Z.mul_nonneg_nonneg; [lia|by apply Z.pow_nonneg]|].
  assert (0 <= Zpos m / 2 ^ (- e)) by (apply Z_div_nonneg_nonneg; [lia|by apply Z.pow_nonneg]).
  repeat case_match; lia.
Qed.

Lemma round_aux_not_negative mx ex lx : not_negative (binary_round_aux 53 1024 false mx ex lx).
Proof. intros m e. unfold binary_round_aux. repeat case_match; congruence. Qed.

Lemma of_int_not_negative z : 0 <= z -> not_negative (of_int z).
Proof.
  intros Hz m e. unfold of_int, binary_normalize. destruct z; [done| |lia].
  unfold binary_round. destruct (shl_align _ _ _). apply round_aux_not_negative.
Qed.

Lemma fdiv_not_negative x y : not_negative x -> not_negative y -> not_negative (fdiv x y).
Proof.
  intros Hx Hy m e. unfold fdiv, SFdiv. destruct x as [| | |[] mx ex], y as [| | |[] my ey];
    first [done|by edestruct Hx|by edestruct Hy|idtac]. destruct (SFdiv_core_binary _ _ _ _ _ _) as [[? ?] ?]. apply round_aux_not_negative.
Qed.

Lemma fmul_not_negative x y : not_negative x -> not_negative y -> not_negative (fmul x y).
Proof.
  intros Hx Hy m e. unfold fmul, SFmul. destruct x as [| | |[] mx ex], y as [| | |[] my ey];
    first [done|by edestruct Hx|by edestruct Hy|idtac]. apply round_aux_not_negative.
Qed.

Lemma total_seconds_not_negative us : 0 <= us -> not_negative (total_seconds us).
Proof. intros H. apply fdiv_not_negative; by apply of_int_not_negative. Qed.
