(* ===== verification/Jobs.v ===== *)
(** Background work ([domains/jobs/models.py], [domains/jobs/runner.py], the facets of
    [core/facets.py] it records): a row for each job, one live job of a kind, its progress, how
    it ends, and the sweep that finds the ones whose process stopped.

    Times are microseconds.  A function that reads the clock takes what it reads; [here] is the
    person the request being served has signed in, none on a job's own thread.  The work is a
    parameter: it runs with its [Progress] and the database, and answers a dict or raises. *)
From stdpp Require Import base gmap strings list pretty relations.
From Stdlib Require Import Ascii ZArith Lia.
From S2P Require Import Prelude PyStr Json Refusals Security Models Specs PyFloat.

#[local] Open Scope string_scope.

(** * The row *)

Definition HEARTBEAT_GRACE : Z := 5 * MINUTE.
Definition LOST_ERROR := "HQ stopped before it finished.".

(** [Job.is_stale] *)
Definition is_stale (now : Z) (r : Job) : bool :=
  match jb_state r, jb_heartbeat_at r with
  | J_RUNNING, Some beat => (HEARTBEAT_GRACE <? now - beat)%Z
  | J_QUEUED, _ => (HEARTBEAT_GRACE <? now - jb_created_at r)%Z
  | _, _ => false
  end.

(** [Job.seen_state] *)
Definition seen_state (now : Z) (r : Job) : JobState := if is_stale now r then J_LOST else jb_state r.

(** [Job.seen_error] *)
Definition seen_error (now : Z) (r : Job) : string := if is_stale now r then LOST_ERROR else jb_error r.

Definition has_id (id : string) (r : Job) : bool := bool_decide (jb_id r = id).
Definition of_kind (kind : string) (r : Job) : bool := bool_decide (jb_kind r = kind).

(** [one_live_job_per_kind], as the database finds the rows. *)
Definition one_live (rows : list Job) : bool := bool_decide (one_each is_live jb_kind rows).

(** [Job.objects.filter(...).update(...)]: refused whole when it would break a constraint. *)
Definition update_jobs (p : Job -> bool) (f : Job -> Job) : M exn Db nat :=
  act (fun db =>
    let rows := update_where p f (db_jobs db) in
    if one_live rows && forallb job_rules rows then (Ok (count_where p (db_jobs db)), set_db_jobs rows db)
    else (Raise (IntegrityError "one_live_job_per_kind"), db)).

(** * What a job's ending records *)

(** [type(exc).__name__] *)
Definition class_name (e : exn) : string :=
  match e with
  | Host RecordNotFound _ _ => "RecordNotFound" | Host RecordConflict _ _ => "RecordConflict"
  | Host PolicyError _ _ => "PolicyError" | Host CertificateError _ _ => "CertificateError"
  | Host InputError _ _ => "InputError" | Host ApprovalError _ _ => "ApprovalError" | Host Settled _ _ => "Settled"
  | Host RefusedHold _ _ => "RefusedHold" | Host TooManyPendingApprovals _ _ => "TooManyPendingApprovals"
  | Host UnreadableSubject _ _ => "UnreadableSubject" | Host UnknownResource _ _ => "UnknownResource"
  | Host UnsupportedResourceOperation _ _ => "UnsupportedResourceOperation"
  | AuthorizationError _ => "AuthorizationError" | InsufficientScope _ _ => "InsufficientScope"
  | PolicyDenied _ => "PolicyDenied" | PydanticValidationError _ _ | DjangoValidationError _ _ => "ValidationError"
  | InvalidResourceInput _ _ => "InvalidResourceInput" | QueryRefusal _ => "QueryRefusal"
  | ResourceError _ => "ResourceError" | InvalidIdempotencyKey _ => "InvalidIdempotencyKey"
  | IdempotencyConflict _ => "IdempotencyConflict" | TokenError _ => "TokenError" | ValueError _ => "ValueError"
  | RuntimeError _ => "RuntimeError" | DatabaseError _ => "DatabaseError" | IntegrityError _ => "IntegrityError"
  | OtherError c _ => c
  end.

(** [Failed], which the work raises to say why it did not do what was asked; [JobConflict]. *)
Definition Failed (said : string) : exn := OtherError "Failed" said.
Definition ALREADY_RUNNING := "Already running.".
Definition JobConflict : exn := OtherError "JobConflict" ALREADY_RUNNING.
Definition NOT_STARTED := "HQ could not start it; its log holds why.".

(** [unexpected(kind, job_id)] *)
Definition unexpected (kind id : string) : string :=
  "It stopped on an unexpected " +:+ kind +:+ "; HQ's log, under job " +:+ id +:+ ", says why.".

Definition COUNT_FIELDS : list string := ["seen"; "created"; "updated"; "deleted"; "skipped"].

(** One field of [Counts(...)]: absent, or what [_non_negative] lets through. *)
Definition count_field (name : string) (result : dict) : outcome exn dict :=
  match dget name result with
  | None | Some JNull => Ok []
  | Some (JNum z) => if (z <? 0)%Z then Raise (ValueError ("Counts." +:+ name +:+ " cannot be negative.")) else Ok [(name, JNum z)]
  | Some (JBool b) => Ok [(name, JBool b)]
  | Some _ => Raise (OtherError "TypeError" "'<' not supported")
  end.

(** [_counts(result)]: the numbers, empty where the work reported none. *)
Definition counts_of (result : dict) : outcome exn dict :=
  fold_left (fun acc name => match acc with
                             | Raise e => Raise e
                             | Ok d => match count_field name result with Ok f => Ok (d ++ f)%list | Raise e => Raise e end
                             end) COUNT_FIELDS (Ok []).

(** [count.created or 0] *)
Definition or_zero (v : option json) : Z :=
  match v with Some (JNum z) => z | Some (JBool true) => 1 | _ => 0 end.

(** [_changed(job, counts)] *)
Definition changed_by (job : Job) (counts : dict) (db : Db) : bool :=
  negb (or_zero (dget "created" counts) + or_zero (dget "updated" counts) + or_zero (dget "deleted" counts) =? 0)%Z ||
  existsb (fun row => bool_decide (al_operation_id row = jb_id job)) (db_audit db).

Definition AUDIT_TYPE := "Background job".
Definition SCHEDULER := "timer".

(** [_routine(job)] *)
Definition routine (job : Job) : bool := bool_decide (jb_requested_by job = None) && bool_decide (jb_actor job = SCHEDULER).

(** How long the job ran, in microseconds; 0 for one that never started. *)
Definition elapsed (job : Job) (ended : Z) : Z := match jb_started_at job with Some t => ended - t | None => 0 end.

(** [round(seconds * 1000)] *)
Definition duration_ms (us : Z) : Z := half_even (fmul (total_seconds us) (of_int 1000)).

(** [f" in {seconds:.0f}s" if seconds >= 1 else ""] *)
Definition took (us : Z) : string :=
  if SpecFloat.SFleb (of_int 1) (total_seconds us) then " in " +:+ pretty (half_even (total_seconds us)) +:+ "s" else "".

(** [f"{outcome[:1].upper()}{outcome[1:]}"] *)
Definition capitalized (s : string) : string := match s with "" => "" | String c r => String (upper_char c) r end.

(** What [_audit] records: [facets] beside the timing, then [detail]. *)
Definition ending_event (here : option Z) (job : Job) (action outcome : string) (detail facets : dict) (ended : Z) : Event :=
  let us := elapsed job ended in
  mkEvent action AUDIT_TYPE (jb_id job) (jb_id job) (capitalized outcome +:+ took us)
    (dmerge ([("timing", JObj [("duration_ms", JNum (duration_ms us))])] ++ facets)%list detail)
    (match jb_requested_by job with Some u => Some u | None => here end).

(** [_audit(job, action, outcome, detail, ended, facets)] *)
Definition audit_ending (here : option Z) (job : Job) (action outcome : string) (detail facets : dict) (ended : Z) : M exn Db unit :=
  _ ← raise_if (duration_ms (elapsed job ended) <? 0)%Z (ValueError "Timing.duration_ms cannot be negative.");
  _ ← record_event false ended (ending_event here job action outcome detail facets ended);
  mret tt.

(** * The sweep *)

(** The rows [reap] found lost when it read them. *)
Definition lost_jobs (now : Z) (kind : string) (db : Db) : list Job :=
  rows_where (fun r => is_live r && (bool_decide (kind = "") || of_kind kind r) && is_stale now r) (db_jobs db).

Definition lost_as (ended : Z) (r : Job) : Job :=
  set_jb_finished_at (Some ended) (set_jb_error LOST_ERROR (set_jb_state J_LOST r)).

Definition last_heard (r : Job) : dict := [("last_said", JStr (jb_note r)); ("last_beat", iso_or_null (jb_heartbeat_at r))].

(** What [reap] does of the rows it found: each ending audited, then every row marked by its key. *)
Definition mark_lost (here : option Z) (ended : Z) (lost : list Job) : M exn Db nat :=
  match lost with
  | [] => mret 0%nat
  | _ =>
      _ ← for_each (fun job => audit_ending here job FAILED "stopped early" (last_heard job) [] ended) lost;
      update_jobs (fun r => among (jb_id r) (map jb_id lost)) (lost_as ended)
  end.

(** [reap(kind)]; the blank kind is every kind. *)
Definition reap (here : option Z) (now ended : Z) (kind : string) : M exn Db nat :=
  lost ← gets (lost_jobs now kind);
  mark_lost here ended lost.

(** * Recording and starting *)

Definition new_job (now : Z) (kind label who : string) (requested_by : option Z) (request : dict) (id : N) : Job :=
  mkJob (pretty id) kind label J_QUEUED None "" who requested_by (JObj request) (JObj []) "" now None None None.

(** [Job.objects.create(...)] *)
Definition create_job (now : Z) (kind label who : string) (requested_by : option Z) (request : dict) : M exn Db Job :=
  id ← take_id;
  let job := new_job now kind label who requested_by request id in
  act (fun db =>
    let rows := (db_jobs db ++ [job])%list in
    if one_live rows then (Ok job, set_db_jobs rows db) else (Raise (IntegrityError "one_live_job_per_kind"), db)).

Definition has_live (kind : string) (db : Db) : bool := existsb (fun r => of_kind kind r && is_live r) (db_jobs db).

(** [_record(kind, label, actor=..., requested_by=..., request=...)]; [requested_by] a signed-in person or none. *)
Definition record (here : option Z) (now : Z) (kind label who : string) (requested_by : option Z) (request : dict) : M exn Db Job :=
  _ ← reap here now now kind;
  try (atomic (create_job now kind label who requested_by request))
    (fun e => match e with
              | IntegrityError _ => Some (live ← gets (has_live kind); if (live : bool) then raise JobConflict else raise e)
              | _ => None
              end).

(** [start(kind, label, work, ...)]: the thread waits for the row to be committed. *)
Definition start (here : option Z) (now : Z) (kind label who : string) (requested_by : option Z) (request : dict) : M exn Db Job :=
  job ← record here now kind label who requested_by request;
  _ ← on_commit (LaunchJob (jb_id job));
  mret job.

Definition failed_job (ended : Z) (error : string) (r : Job) : Job :=
  set_jb_finished_at (Some ended) (set_jb_error error (set_jb_state J_FAILED r)).

(** [_launch(job, work)]; [can't start new thread] is the [RuntimeError] a thread that cannot start raises. *)
Definition launch (here : option Z) (ended : Z) (job : Job) (thread_starts : bool) : M exn Db unit :=
  if thread_starts then mret tt
  else
    (_ ← audit_ending here job FAILED "could not start" [] [] ended;
     _ ← update_jobs (has_id (jb_id job)) (failed_job ended NOT_STARTED);
     raise (RuntimeError "can't start new thread")).

(** * Running *)

(** [Progress]: whose it is, when it last wrote ([timestamp()], 0.0 before the first time) and what it said. *)
Record Progress : Type := mkProgress { pg_job : string; pg_last : SpecFloat.spec_float; pg_note : string }.

(** What the work runs against. *)
Record Running : Type := mkRunning { rg_progress : Progress; rg_db : Db }.

Definition on_rows {A} (m : M exn Db A) : M exn Running A := fun s =>
  let '(o, db) := m (rg_db s) in (o, mkRunning (rg_progress s) db).

Definition REPORT_SECONDS : Z := 2.

(** What a report writes: the beat, and the note and the percent it was given. *)
Definition beaten (now : Z) (note : string) (percent : option Z) (r : Job) : Job :=
  let r := set_jb_heartbeat_at (Some now) r in
  let r := if decide (note = "") then r else set_jb_note (take_str 200 note) r in
  match percent with Some p => set_jb_percent (Some (Z.max 0 (Z.min 100 p))) r | None => r end.

(** Whether [Progress.__call__] returns before it writes. *)
Definition too_soon (now : Z) (note : string) (force : bool) (p : Progress) : bool :=
  negb force && negb (negb (bool_decide (note = "")) && negb (bool_decide (note = pg_note p))) &&
  negb (SpecFloat.SFeqb (pg_last p) (of_int 0)) &&
  SpecFloat.SFltb (fsub (total_seconds now) (pg_last p)) (of_int REPORT_SECONDS).

(** [progress(note, percent, force=...)] *)
Definition report_progress (now : Z) (note : string) (percent : option Z) (force : bool) : M exn Running unit := fun s =>
  let p := rg_progress s in
  if too_soon now note force p then (Ok tt, s)
  else
    let p' := mkProgress (pg_job p) (total_seconds now) (if decide (note = "") then pg_note p else note) in
    (_ ← on_rows (update_jobs (has_id (pg_job p)) (beaten now note percent)); mret tt) (mkRunning p' (rg_db s)).

Definition running_as (started : Z) (r : Job) : Job :=
  set_jb_heartbeat_at (Some started) (set_jb_started_at (Some started) (set_jb_state J_RUNNING r)).

Definition done_as (ended : Z) (result : dict) (r : Job) : Job :=
  set_jb_heartbeat_at (Some ended) (set_jb_finished_at (Some ended) (set_jb_percent (Some 100%Z)
    (set_jb_result (JObj result) (set_jb_state J_SUCCEEDED r)))).

Definition stopped_as (ended : Z) (error : string) (r : Job) : Job := set_jb_heartbeat_at (Some ended) (failed_job ended error r).

(** The start of [_work]: the row says it runs, and is read back. *)
Definition begin_work (started : Z) (id : string) : M exn Db Job :=
  _ ← update_jobs (has_id id) (running_as started);
  act (fun db => match first_where (has_id id) (db_jobs db) with
                 | Some job => (Ok job, db)
                 | None => (Raise (OtherError "DoesNotExist" "Job matching query does not exist."), db)
                 end).

(** The end of the [try] of [_work], with what the work answered. *)
Definition finish_work (here : option Z) (ended : Z) (job : Job) (answer : option dict) : M exn Db unit :=
  let result := default [] answer in
  counts ← lift (counts_of result);
  changed ← gets (changed_by job counts);
  _ ← audit_ending here job (if (changed : bool) || negb (routine job) then DONE else OBSERVED)
        (if changed then "finished" else "finished with nothing to change")
        (List.filter (fun kv => negb (dhas kv.1 counts)) result)
        (match counts with [] => [] | _ => [("counts", JObj counts)] end) ended;
  _ ← update_jobs (has_id (jb_id job)) (done_as ended result);
  mret tt.

(** [_fail(job, error, failure)] *)
Definition fail (here : option Z) (ended : Z) (job : Job) (error message kind : string) : M exn Db unit :=
  _ ← audit_ending here job FAILED "failed" [] [("failure", JObj [("message", JStr message); ("kind", JStr kind)])] ended;
  _ ← update_jobs (has_id (jb_id job)) (stopped_as ended error);
  mret tt.

(** The sentence a [Failed] carries. *)
Definition said_failed (e : exn) : option string :=
  match e with OtherError c said => if decide (c = "Failed") then Some said else None | _ => None end.

(** The [except] clauses of [_work]. *)
Definition failed_with (here : option Z) (ended : Z) (job : Job) (e : exn) : M exn Db unit :=
  match said_failed e with
  | Some said => fail here ended job (str_or said "Failed.") (take_str 400 said) "Failed"
  | None => let kind := take_str 80 (class_name e) in
            let said := unexpected kind (jb_id job) in
            fail here ended job said (take_str 400 said) kind
  end.

(** [_work(job_id, work)]; [ended] is read when the work answers, [failed_at] when something raised. *)
Definition work_job (here : option Z) (started ended failed_at : Z) (id : string) (work : M exn Running (option dict)) : M exn Db unit :=
  job ← begin_work started id;
  act (fun db =>
     let '(o, s) := try (answer ← work; on_rows (finish_work here ended job answer))
                      (fun e => Some (on_rows (failed_with here failed_at job e)))
                      (mkRunning (mkProgress id (of_int 0) "") db) in
     (o, rg_db s)).

(** [run(kind, label, work, ...)]; [serving] names the request being served, blank outside one. *)
Definition run_now (here : option Z) (serving : string) (now started ended failed_at : Z) (kind label who : string)
    (requested_by : option Z) (request : dict) (work : M exn Running (option dict)) : M exn Db Job :=
  _ ← raise_if (negb (bool_decide (serving = "")))
        (OtherError "OutboundInRequest" (serving +:+ " tried to run the " +:+ kind +:+ " job itself. A request starts a job and answers at once."));
  job ← record here now kind label who requested_by request;
  _ ← work_job here started ended failed_at (jb_id job) work;
  act (fun db => match first_where (has_id (jb_id job)) (db_jobs db) with
                 | Some job => (Ok job, db)
                 | None => (Raise (OtherError "DoesNotExist" "Job matching query does not exist."), db)
                 end).

(** * Whether work is due *)

Definition SLACK : Z := 10 * MINUTE.

Definition about (subject : option string) (r : Job) : bool :=
  match subject with None => true | Some s => bool_decide (attr "subject" (jb_request r) = Some (JStr s)) end.

Definition latest (times : list Z) : option Z :=
  match times with [] => None | t :: ts => Some (fold_left Z.max ts t) end.

(** [due(kind, every, now=..., subject=...)] *)
Definition due (kind : string) (every now : Z) (subject : option string) (db : Db) : bool :=
  let jobs := rows_where (fun r => of_kind kind r && about subject r) (db_jobs db) in
  if existsb is_live jobs then false
  else match latest (omap jb_finished_at (rows_where (fun r => bool_decide (jb_state r = J_SUCCEEDED)) jobs)) with
       | None => true
       | Some last => (every - SLACK <=? now - last)%Z
       end.

(** * What the rows are held to *)

(** A running job has started and been heard from, so the sweep can find it lost; one that has
    ended says when. *)
Definition row_ok (r : Job) : Prop :=
  job_rules r = true /\
  (jb_state r = J_RUNNING -> is_some (jb_heartbeat_at r) = true /\ is_some (jb_started_at r) = true) /\
  (is_live r = false -> is_some (jb_finished_at r) = true).

Record jobs_ok (db : Db) : Prop := {
  jk_ids : NoDup (map jb_id (db_jobs db));
  jk_below : forall r, r ∈ db_jobs db -> exists n, jb_id r = pretty n /\ (n < db_next_id db)%N;
  jk_one : one_each is_live jb_kind (db_jobs db);
  jk_rows : forall r, r ∈ db_jobs db -> row_ok r;
}.

(** What every write of a job's columns keeps. *)
Record keeps_row (f : Job -> Job) : Prop := {
  kr_id : forall r, jb_id (f r) = jb_id r;
  kr_kind : forall r, jb_kind (f r) = jb_kind r;
  kr_ok : forall r, row_ok r -> row_ok (f r);
}.

Lemma is_live_state s r : jb_state r = s -> is_live r = bool_decide (s = J_QUEUED \/ s = J_RUNNING).
Proof. by intros <-. Qed.

Ltac keeps_row := constructor; [done|done|]; intros r (Hr & Hb & He); unfold row_ok, job_rules, is_live in *; cbn in *;
  split_and!; try done.

Lemma lost_as_keeps ended : keeps_row (lost_as ended).
Proof. by keeps_row. Qed.

Lemma failed_job_keeps ended error : keeps_row (failed_job ended error).
Proof. by keeps_row. Qed.

Lemma stopped_as_keeps ended error : keeps_row (stopped_as ended error).
Proof. by keeps_row. Qed.

Lemma running_as_keeps started : keeps_row (running_as started).
Proof. by keeps_row. Qed.

Lemma done_as_keeps ended result : keeps_row (done_as ended result).
Proof. by keeps_row. Qed.

Lemma beaten_keeps now note percent : keeps_row (beaten now note percent).
Proof.
  unfold beaten. constructor.
  - intros r. by destruct (decide (note = "")), percent.
  - intros r. by destruct (decide (note = "")), percent.
  - intros r (Hr & Hb & He). unfold row_ok, job_rules, is_live in *.
    destruct (decide (note = "")), percent as [p|]; cbn in *; (split_and!; [|intros H; split; [done|by apply Hb]|done]);
      try done; apply andb_true_iff; split; apply Z.leb_le; lia.
Qed.

Lemma keeps_live (f : Job -> Job) : (forall r, jb_kind (f r) = jb_kind r) -> forall p rows,
  one_each is_live jb_kind rows -> (forall r, r ∈ rows -> p r = true -> is_live (f r) = true -> is_live r = true) ->
  one_each is_live jb_kind (update_where p f rows).
Proof.
  intros Hk p rows. unfold one_each, rows_where. induction rows as [|x xs IH]; intros Hone Hl; [constructor|].
  assert (one_each is_live jb_kind xs) as Hxs.
  { unfold one_each, rows_where. cbn in Hone. destruct (is_live x); [by apply NoDup_cons in Hone as [_ ?]|done]. }
  specialize (IH Hxs (fun r Hr => Hl r (list_elem_of_further _ _ _ Hr))).
  assert (forall k, k ∈ map jb_kind (List.filter is_live (update_where p f xs)) -> k ∈ map jb_kind (List.filter is_live xs)) as Hsub.
  { intros k (y & -> & Hy)%list_elem_of_fmap. apply list_elem_of_In, filter_In in Hy as [Hy%list_elem_of_In Hyl].
    apply elem_of_update_where in Hy as (r & Hr & ->). apply list_elem_of_fmap. destruct (p r) eqn:Hp.
    - exists r. split; [by rewrite Hk|]. apply list_elem_of_In, filter_In. split; [by apply list_elem_of_In|].
      by apply Hl; [apply list_elem_of_further|..].
    - exists r. split; [done|]. apply list_elem_of_In, filter_In. by rewrite <- list_elem_of_In. }
  cbn in *. destruct (p x) eqn:Hp.
  - destruct (is_live (f x)) eqn:Hfx; [|done]. rewrite (Hl x (list_elem_of_here _ _) Hp Hfx) in Hone.
    apply NoDup_cons in Hone as [Hx _]. constructor; [|done]. rewrite Hk. by intros Hin%Hsub.
  - destruct (is_live x); [|done]. apply NoDup_cons in Hone as [Hx _]. constructor; [|done]. by intros Hin%Hsub.
Qed.

Lemma updated_jobs_ok p f db : keeps_row f -> one_each is_live jb_kind (update_where p f (db_jobs db)) -> jobs_ok db ->
  jobs_ok (set_db_jobs (update_where p f (db_jobs db)) db).
Proof.
  intros [Hid Hk Hf] Hone [Hi Hb _ Hr]. constructor; cbn; [|..|done|].
  - by rewrite map_update_where.
  - intros r (x & Hx & ->)%elem_of_update_where. destruct (Hb x Hx) as (n & ? & ?). exists n. split; [|done]. by destruct (p x); rewrite ?Hid.
  - intros r (x & Hx & ->)%elem_of_update_where. destruct (p x); [apply Hf|]; by apply Hr.
Qed.

(** Whatever it answers, a write of columns that [keeps_row] describes leaves the rows well formed. *)
Lemma update_jobs_ok p f : keeps_row f -> preserves jobs_ok (update_jobs p f).
Proof.
  intros Hf db Hok. unfold update_jobs, act. destruct (one_live _) eqn:H1; [|done]. destruct (forallb _ _); [|done]. cbn.
  apply updated_jobs_ok; [done| |done]. by apply bool_decide_eq_true in H1.
Qed.

(** The write goes through where it makes nothing live that was not. *)
Lemma update_jobs_runs p f db : keeps_row f -> jobs_ok db ->
  (forall r, r ∈ db_jobs db -> p r = true -> is_live (f r) = true -> is_live r = true) ->
  update_jobs p f db = (Ok (count_where p (db_jobs db)), set_db_jobs (update_where p f (db_jobs db)) db).
Proof.
  intros [Hid Hk Hf] Hok Hl. unfold update_jobs, act, one_live. rewrite bool_decide_eq_true_2 by (apply keeps_live; [done|apply Hok|done]).
  enough (forallb job_rules (update_where p f (db_jobs db)) = true) as -> by done.
  apply forallb_forall. intros r Hin. apply list_elem_of_In, elem_of_update_where in Hin as (x & Hx & ->).
  pose proof (jk_rows _ Hok x Hx) as Hx'. destruct (p x); [apply Hf in Hx'|]; apply Hx'.
Qed.

Lemma jobs_ok_below db db' : db_jobs db' = db_jobs db -> (db_next_id db <= db_next_id db')%N -> jobs_ok db -> jobs_ok db'.
Proof.
  intros Hj Hn [Hi Hb Ho Hr]. constructor; rewrite ?Hj; try done. intros r Hin. destruct (Hb r Hin) as (n & ? & ?). exists n. split; [done|lia].
Qed.

Lemma record_event_next required now e db o db' : record_event required now e db = (o, db') -> (db_next_id db <= db_next_id db')%N.
Proof. unfold record_event. destruct (db_audit_down db), required; intros H; simplify_eq/=; lia. Qed.

Lemma audit_ending_jobs here job action outcome detail facets ended db o db' :
  audit_ending here job action outcome detail facets ended db = (o, db') -> db_jobs db' = db_jobs db /\ (db_next_id db <= db_next_id db')%N.
Proof.
  unfold audit_ending. intros H. run; first [split; [done|lia]|idtac];
    match goal with Hr : record_event _ _ _ _ = _ |- _ =>
      split; [by apply record_event_inv in Hr as (_ & _ & _ & _ & _ & ?)|by apply record_event_next in Hr] end.
Qed.

Lemma audit_ending_ok here job action outcome detail facets ended : preserves jobs_ok (audit_ending here job action outcome detail facets ended).
Proof.
  intros db Hok. destruct (audit_ending _ _ _ _ _ _ _ _) as [o db'] eqn:H. apply audit_ending_jobs in H as [? ?]. by eapply jobs_ok_below.
Qed.

(** An ending no earlier than its start is recorded, where the log takes rows. *)
Lemma audit_ending_runs here job action outcome detail facets ended db : (0 <= elapsed job ended)%Z ->
  exists db', audit_ending here job action outcome detail facets ended db = (Ok tt, db') /\ db_jobs db' = db_jobs db /\
    (db_next_id db <= db_next_id db')%N /\
    (db_audit_down db = false -> exists row, db_audit db' = (db_audit db ++ [row])%list /\ al_object_id row = jb_id job /\
       al_object_type row = AUDIT_TYPE /\ al_action row = action /\ al_user row = match jb_requested_by job with Some u => Some u | None => here end).
Proof.
  intros Hel. assert ((duration_ms (elapsed job ended) <? 0)%Z = false) as Hd.
  { apply Z.ltb_ge, half_even_nonneg, fmul_not_negative; [by apply total_seconds_not_negative|by apply of_int_not_negative]. }
  unfold audit_ending. rewrite Hd. unfold mbind, M_bind, raise_if, mret, M_ret, record_event. destruct (db_audit_down db) eqn:Hdown.
  - eexists. split_and!; [reflexivity|done|lia|done].
  - eexists. split_and!; [reflexivity|done|cbn; lia|]. intros _. eexists. by split_and!.
Qed.

#[export] Hint Resolve update_jobs_ok audit_ending_ok lost_as_keeps failed_job_keeps stopped_as_keeps running_as_keeps done_as_keeps beaten_keeps : keeps.

Lemma mark_lost_ok here ended lost : preserves jobs_ok (mark_lost here ended lost).
Proof. destruct lost; cbn [mark_lost]; eauto 8 with keeps. Qed.

Lemma reap_ok here now ended kind : preserves jobs_ok (reap here now ended kind).
Proof. unfold reap. apply preserves_bind; [apply preserves_gets|intros lost; apply mark_lost_ok]. Qed.

(** What [create_job] leaves when it goes through. *)
Definition recorded (job : Job) (db : Db) : Db := set_db_jobs (db_jobs db ++ [job])%list (set_db_next_id (db_next_id db + 1)%N db).

Lemma create_job_run now kind label who requested_by request db :
  create_job now kind label who requested_by request db =
  let job := new_job now kind label who requested_by request (db_next_id db) in
  if one_live (db_jobs db ++ [job])%list then (Ok job, recorded job db)
  else (Raise (IntegrityError "one_live_job_per_kind"), set_db_next_id (db_next_id db + 1)%N db).
Proof. reflexivity. Qed.

Lemma recorded_ok now kind label who requested_by request db :
  let job := new_job now kind label who requested_by request (db_next_id db) in
  one_live (db_jobs db ++ [job])%list = true -> jobs_ok db -> jobs_ok (recorded job db).
Proof.
  intros job H1%bool_decide_eq_true [Hi Hb Ho Hr]. constructor; cbn; [| |done|].
  - rewrite map_app. apply NoDup_app. split_and!; [done| |apply NoDup_singleton].
    intros k (x & -> & Hx)%list_elem_of_fmap Heq%list_elem_of_singleton. destruct (Hb _ Hx) as (n & Hn & Hlt).
    rewrite Hn in Heq. change (pretty n = pretty (db_next_id db)) in Heq. apply (inj pretty) in Heq. lia.
  - intros x [(n & ? & ?)%Hb| ->%list_elem_of_singleton]%elem_of_app; [exists n|exists (db_next_id db)]; (split; [done|lia]).
  - intros x [Hx| ->%list_elem_of_singleton]%elem_of_app; [by apply Hr|done].
Qed.

Lemma create_job_ok now kind label who requested_by request : preserves jobs_ok (create_job now kind label who requested_by request).
Proof.
  intros db Hok. rewrite create_job_run. cbv zeta. destruct (one_live _) eqn:H1; cbn [snd]; [by apply recorded_ok|].
  eapply jobs_ok_below; [| |exact Hok]; [done|cbn; lia].
Qed.

Lemma record_ok here now kind label who requested_by request : preserves jobs_ok (record here now kind label who requested_by request).
Proof.
  unfold record. apply preserves_bind; [apply reap_ok|intros _]. apply preserves_try; [apply preserves_atomic, create_job_ok|].
  intros e k. destruct e; intros [= <-]. apply preserves_bind; [apply preserves_gets|]. intros []; apply preserves_raise.
Qed.

Lemma launch_ok here ended job b : preserves jobs_ok (launch here ended job b).
Proof. unfold launch. destruct b; eauto 8 with keeps. Qed.

Lemma begin_work_ok started id : preserves jobs_ok (begin_work started id).
Proof.
  unfold begin_work. apply preserves_bind; [auto with keeps|intros _ db Hok]. unfold act. by destruct (first_where _ _).
Qed.

Lemma finish_work_ok here ended job answer : preserves jobs_ok (finish_work here ended job answer).
Proof.
  unfold finish_work. apply preserves_bind; [apply preserves_lift|intros counts]. apply preserves_bind; [apply preserves_gets|intros changed].
  eauto 8 with keeps.
Qed.

Lemma failed_with_ok here ended job e : preserves jobs_ok (failed_with here ended job e).
Proof. unfold failed_with, fail. destruct (said_failed e); eauto 8 with keeps. Qed.

Lemma report_progress_ok now note percent force s : jobs_ok (rg_db s) -> jobs_ok (rg_db (report_progress now note percent force s).2).
Proof.
  intros Hok. unfold report_progress. destruct (too_soon _ _ _ _); [done|]. unfold mbind, M_bind, on_rows. cbn [rg_db].
  pose proof (update_jobs_ok (has_id (pg_job (rg_progress s))) _ (beaten_keeps now note percent) _ Hok) as H.
  by destruct (update_jobs _ _ _) as [[?|?] db'].
Qed.

(** ** The steps threads and processes take in any order

    A job's work and the sweep run beside each other, so [_work] and [reap] are taken apart
    where another writer may come between: a job begins, reports, ends or fails, and the sweep
    marks the rows it read at some earlier moment, whatever has become of them since. *)
Inductive job_step : Db -> Db -> Prop :=
| js_record here now kind label who requested_by request db : job_step db (record here now kind label who requested_by request db).2
| js_launch here ended job starts db : job_step db (launch here ended job starts db).2
| js_begin started id db : job_step db (begin_work started id db).2
| js_report now note percent force p db : job_step db (rg_db (report_progress now note percent force (mkRunning p db)).2)
| js_finish here ended job answer db : job_step db (finish_work here ended job answer db).2
| js_fail here ended job e db : job_step db (failed_with here ended job e db).2
| js_mark here ended lost db : job_step db (mark_lost here ended lost db).2
| js_other db db' : db_jobs db' = db_jobs db -> (db_next_id db <= db_next_id db')%N -> job_step db db'.

(** However the work of many threads, the sweep and every other writer interleave, the rows stay
    well formed: one live job of a kind, a running job that has started and been heard from (so
    that the sweep can find it lost), an ended one that says when, and progress from 0 to 100. *)
Theorem jobs_stay_ok (db db' : Db) : rtc job_step db db' -> jobs_ok db -> jobs_ok db'.
Proof.
  induction 1 as [|db db1 db' Hstep _ IH]; intros Hok; [done|]. apply IH. clear IH. destruct Hstep;
    [by apply record_ok|by apply launch_ok|by apply begin_work_ok|by apply report_progress_ok|by apply finish_work_ok
    |by apply failed_with_ok|by apply mark_lost_ok|by eapply jobs_ok_below].
Qed.

(** * How a job ends *)

Lemma has_id_true id r : has_id id r = true <-> jb_id r = id.
Proof. apply bool_decide_eq_true. Qed.

Lemma updated_row id f db r : jobs_ok db -> r ∈ db_jobs db -> jb_id r = id ->
  f r ∈ update_where (has_id id) f (db_jobs db).
Proof. intros Hok Hr Hid. apply elem_of_update_where. exists r. split; [done|]. by rewrite (proj2 (has_id_true id r) Hid). Qed.

(** The end of a job nothing can make live again: its audit row, then its state. *)
Lemma ending_runs here job action outcome detail facets ended (f : Job -> Job) db r :
  keeps_row f -> (forall r, is_live (f r) = false) -> (0 <= elapsed job ended)%Z -> jobs_ok db -> r ∈ db_jobs db -> jb_id r = jb_id job ->
  exists db', (_ ← audit_ending here job action outcome detail facets ended;
               _ ← update_jobs (has_id (jb_id job)) f;
               (mret tt : M exn Db unit)) db = (Ok tt, db') /\ jobs_ok db' /\ f r ∈ db_jobs db' /\
    (db_audit_down db = false -> exists row, row ∈ db_audit db' /\ al_object_id row = jb_id job /\ al_action row = action).
Proof.
  intros Hf Hl Hel Hok Hr Hid.
  destruct (audit_ending_runs here job action outcome detail facets ended db Hel) as (db1 & H1 & Hj & Hn & Ha).
  assert (jobs_ok db1) as Hok1 by (by eapply jobs_ok_below). rewrite <- Hj in Hr.
  erewrite bind_step by exact H1. erewrite bind_step by (apply update_jobs_runs; [done|done|]; intros x _ _; by rewrite Hl).
  eexists. split_and!; [reflexivity| |by apply updated_row|].
  - apply updated_jobs_ok; [done| |done]. apply keeps_live; [apply Hf|apply Hok1|]. intros x _ _. by rewrite Hl.
  - intros Hd. destruct (Ha Hd) as (row & Hrow & ? & _ & ? & _). exists row. split_and!; [|done|done]. cbn. rewrite Hrow.
    apply elem_of_app. right. by left.
Qed.

Lemma failed_with_runs here ended job e db r :
  (0 <= elapsed job ended)%Z -> jobs_ok db -> r ∈ db_jobs db -> jb_id r = jb_id job ->
  exists db' error, failed_with here ended job e db = (Ok tt, db') /\ jobs_ok db' /\ stopped_as ended error r ∈ db_jobs db' /\
    error = match said_failed e with Some said => str_or said "Failed." | None => unexpected (take_str 80 (class_name e)) (jb_id job) end /\
    (db_audit_down db = false -> exists row, row ∈ db_audit db' /\ al_object_id row = jb_id job /\ al_action row = FAILED).
Proof.
  intros Hel Hok Hr Hid. unfold failed_with, fail. destruct (said_failed e) as [said|].
  - edestruct ending_runs as (db' & H & Ho & Hin & Ha); [apply (stopped_as_keeps ended (str_or said "Failed."))|done|exact Hel|exact Hok|exact Hr|exact Hid|].
    exists db', (str_or said "Failed."). split_and!; [exact H|done|done|done|done].
  - edestruct ending_runs as (db' & H & Ho & Hin & Ha);
      [apply (stopped_as_keeps ended (unexpected (take_str 80 (class_name e)) (jb_id job)))|done|exact Hel|exact Hok|exact Hr|exact Hid|].
    exists db', (unexpected (take_str 80 (class_name e)) (jb_id job)). split_and!; [exact H|done|done|done|done].
Qed.

(** What the work leaves of its own job: it reports through [Progress], which moves no state, so its row is there when it ends. *)
Definition minds_its_row (id : string) (work : M exn Running (option dict)) : Prop :=
  forall s, jobs_ok (rg_db s) -> (exists r, r ∈ db_jobs (rg_db s) /\ jb_id r = id) ->
    jobs_ok (rg_db (work s).2) /\ (exists r, r ∈ db_jobs (rg_db (work s).2) /\ jb_id r = id).

(** The database once a queued job says it runs. *)
Definition begun (started : Z) (id : string) (db : Db) : Db := set_db_jobs (update_where (has_id id) (running_as started) (db_jobs db)) db.

Lemma begin_work_runs started db r : jobs_ok db -> r ∈ db_jobs db -> jb_state r = J_QUEUED ->
  begin_work started (jb_id r) db = (Ok (running_as started r), begun started (jb_id r) db) /\ jobs_ok (begun started (jb_id r) db) /\
  running_as started r ∈ db_jobs (begun started (jb_id r) db).
Proof.
  intros Hok Hr Hq. assert (forall x, x ∈ db_jobs db -> has_id (jb_id r) x = true -> is_live (running_as started x) = true -> is_live x = true) as Hl.
  { intros x Hx Hid%has_id_true _. assert (x = r) as -> by (by eapply unique_by; [apply Hok|..]). unfold is_live. rewrite Hq. reflexivity. }
  assert (jobs_ok (begun started (jb_id r) db)) as Hok'.
  { apply updated_jobs_ok; [auto with keeps|apply keeps_live; [done|apply Hok|done]|done]. }
  assert (running_as started r ∈ db_jobs (begun started (jb_id r) db)) as Hin by (by apply updated_row).
  split_and!; [|done|done]. unfold begin_work. erewrite bind_step by (apply update_jobs_runs; [auto with keeps|done|done]).
  unfold act. fold (begun started (jb_id r) db).
  destruct (first_where_is_some (has_id (jb_id r)) _ _ Hin) as [x Hx]; [by apply has_id_true|]. rewrite Hx.
  apply first_where_some in Hx as [Hx Hid%has_id_true]. do 3 f_equal. by eapply (unique_by jb_id); [apply Hok'|..].
Qed.

Lemma finish_work_runs here ended job answer db r :
  (0 <= elapsed job ended)%Z -> jobs_ok db -> r ∈ db_jobs db -> jb_id r = jb_id job ->
  match counts_of (default [] answer) with
  | Raise e => finish_work here ended job answer db = (Raise e, db)
  | Ok _ => exists db' action, finish_work here ended job answer db = (Ok tt, db') /\ jobs_ok db' /\
              done_as ended (default [] answer) r ∈ db_jobs db' /\
              (db_audit_down db = false -> exists row, row ∈ db_audit db' /\ al_object_id row = jb_id job /\ al_action row = action) /\
              (action = DONE \/ action = OBSERVED)
  end.
Proof.
  intros Hel Hok Hr Hid. unfold finish_work, lift, gets. destruct (counts_of _) as [counts|e] eqn:Hc.
  - unfold mbind at 1, M_bind at 1. unfold mbind at 1, M_bind at 1. cbv zeta beta iota.
    edestruct ending_runs as (db' & H & Ho & Hin & Ha); [apply (done_as_keeps ended (default [] answer))|done|exact Hel|exact Hok|exact Hr|exact Hid|].
    eexists db', _. split_and!; [exact H|done|done|exact Ha|]. destruct (_ || _); [by left|by right].
  - reflexivity.
Qed.

(** A row that ended as the work's answer [o] has it end. *)
Definition ended_as (ended failed_at : Z) (o : outcome exn (option dict)) (row : Job) : Prop :=
  let failed e := jb_state row = J_FAILED /\ jb_finished_at row = Some failed_at /\
    jb_error row = match said_failed e with Some said => str_or said "Failed." | None => unexpected (take_str 80 (class_name e)) (jb_id row) end in
  match o with
  | Raise e => failed e
  | Ok answer =>
      match counts_of (default [] answer) with
      | Raise e => failed e
      | Ok _ => jb_state row = J_SUCCEEDED /\ jb_finished_at row = Some ended /\ jb_result row = JObj (default [] answer) /\ jb_percent row = Some 100%Z
      end
  end.

(** A job that runs ends, and as its work did: whatever the work answers or raises, the row is left
    succeeded with the result, or failed with the sentence the work said or the kind of the fault,
    its slot free, and the log says how it ended. *)
Theorem work_ends_the_job (here : option Z) (started ended failed_at : Z) (r : Job) (work : M exn Running (option dict)) (db : Db) :
  jobs_ok db -> r ∈ db_jobs db -> jb_state r = J_QUEUED -> (started <= ended)%Z -> (started <= failed_at)%Z -> minds_its_row (jb_id r) work ->
  let ran := work (mkRunning (mkProgress (jb_id r) (of_int 0) "") (begun started (jb_id r) db)) in
  exists db' row, work_job here started ended failed_at (jb_id r) work db = (Ok tt, db') /\ jobs_ok db' /\
    row ∈ db_jobs db' /\ jb_id row = jb_id r /\ is_live row = false /\ ended_as ended failed_at ran.1 row /\
    (db_audit_down (rg_db ran.2) = false -> exists entry, entry ∈ db_audit db' /\ al_object_id entry = jb_id r /\
       al_action entry ∈ match ran.1 with Ok answer => match counts_of (default [] answer) with Ok _ => [DONE; OBSERVED] | Raise _ => [FAILED] end
                         | Raise _ => [FAILED] end).
Proof.
  intros Hok Hr Hq He Hf Hwork ran. destruct (begin_work_runs started db r Hok Hr Hq) as (Hb & Hokb & Hinb).
  set (job := running_as started r) in *. set (s0 := mkRunning _ _) in ran. destruct (Hwork s0 Hokb) as [Hok1 (x & Hx & Hxid)]; [by exists job|].
  assert (forall t, (started <= t)%Z -> (0 <= elapsed job t)%Z) as Hel by (intros t Ht; cbn; lia).
  unfold work_job. erewrite bind_step by exact Hb. unfold act, try. fold s0. unfold mbind, M_bind.
  fold ran in Hok1, Hx. destruct ran as [[answer|e] s1] eqn:Hran; subst ran; rewrite Hran; cbn [fst snd] in *.
  - unfold on_rows. pose proof (finish_work_runs here ended job answer (rg_db s1) x (Hel _ He) Hok1 Hx Hxid) as Hfin.
    unfold ended_as. destruct (counts_of (default [] answer)) as [counts|e] eqn:Hc.
    + destruct Hfin as (db' & action & Hd & Ho & Hin & Ha & Hact). rewrite Hd. cbn.
      eexists db', _. split_and!; [reflexivity|done|exact Hin|done|done|done|done|done|done|].
      intros Hdown. destruct (Ha Hdown) as (entry & ? & ? & Hac). exists entry. split_and!; [done|done|]. rewrite Hac.
      destruct Hact as [-> | ->]; set_solver.
    + rewrite Hfin. cbn [rg_db]. destruct (failed_with_runs here failed_at job e (rg_db s1) x (Hel _ Hf) Hok1 Hx Hxid) as (db' & error & Hd & Ho & Hin & Herr & Ha).
      rewrite Hd. eexists db', _. split_and!; [reflexivity|done|exact Hin|done|done|done|done|cbn; rewrite Hxid; exact Herr|].
      intros Hdown. destruct (Ha Hdown) as (entry & ? & ? & Hac). exists entry. split_and!; [done|done|rewrite Hac; set_solver].
  - unfold on_rows, ended_as. destruct (failed_with_runs here failed_at job e (rg_db s1) x (Hel _ Hf) Hok1 Hx Hxid) as (db' & error & Hd & Ho & Hin & Herr & Ha).
    rewrite Hd. eexists db', _. split_and!; [reflexivity|done|exact Hin|done|done|done|done|cbn; rewrite Hxid; exact Herr|].
    intros Hdown. destruct (Ha Hdown) as (entry & ? & ? & Hac). exists entry. split_and!; [done|done|rewrite Hac; set_solver].
Qed.

(** * The one live slot of a kind *)

Definition started_by (now : Z) (db : Db) : Prop := forall r t, r ∈ db_jobs db -> jb_started_at r = Some t -> (t <= now)%Z.

Lemma started_by_elapsed now db r : started_by now db -> r ∈ db_jobs db -> (0 <= elapsed r now)%Z.
Proof. intros H Hr. unfold elapsed. destruct (jb_started_at r) as [t|] eqn:Ht; [|lia]. specialize (H r t Hr Ht). lia. Qed.

Lemma audit_lost_runs here ended lost db : (forall r, r ∈ lost -> (0 <= elapsed r ended)%Z) ->
  exists db', for_each (fun job => audit_ending here job FAILED "stopped early" (last_heard job) [] ended) lost db = (Ok tt, db') /\
    db_jobs db' = db_jobs db /\ (db_next_id db <= db_next_id db')%N.
Proof.
  revert db. induction lost as [|x xs IH]; intros db H; cbn; [exists db; split_and!; [done|done|lia]|].
  destruct (audit_ending_runs here x FAILED "stopped early" (last_heard x) [] ended db (H x (list_elem_of_here _ _))) as (db1 & H1 & Hj & Hn & _).
  destruct (IH db1 (fun r Hr => H r (list_elem_of_further _ _ _ Hr))) as (db2 & H2 & Hj2 & Hn2).
  exists db2. rewrite (bind_step _ _ _ _ _ H1). split_and!; [done|congruence|lia].
Qed.

Definition is_lost (now : Z) (kind : string) (r : Job) : bool := is_live r && of_kind kind r && is_stale now r.

Lemma lost_jobs_of now kind db : kind <> "" -> lost_jobs now kind db = rows_where (is_lost now kind) (db_jobs db).
Proof. intros Hk. unfold lost_jobs, is_lost, rows_where. by rewrite (bool_decide_eq_false_2 (kind = "")). Qed.

(** The sweep of a kind marks exactly its stale jobs. *)
Lemma reap_runs here now kind db : jobs_ok db -> kind <> "" -> started_by now db ->
  exists n db', reap here now now kind db = (Ok n, db') /\ jobs_ok db' /\
    db_jobs db' = update_where (is_lost now kind) (lost_as now) (db_jobs db) /\
    ((forall r, r ∈ db_jobs db -> is_lost now kind r = false) -> db' = db).
Proof.
  intros Hok Hk Hst. pose proof (reap_ok here now now kind db Hok) as Hok'.
  unfold reap, gets, mbind, M_bind in *. rewrite (lost_jobs_of _ _ _ Hk) in *.
  assert (forall r, r ∈ db_jobs db -> among (jb_id r) (map jb_id (rows_where (is_lost now kind) (db_jobs db))) = is_lost now kind r) as Hp.
  { intros r Hr. destruct (is_lost now kind r) eqn:Hl.
    - apply bool_decide_eq_true, list_elem_of_fmap. exists r. split; [done|]. by apply elem_of_rows_where.
    - apply bool_decide_eq_false. intros (x & Hid & [Hx Hxl]%elem_of_rows_where)%list_elem_of_fmap.
      rewrite (unique_by jb_id _ x r (jk_ids _ Hok) Hx Hr (eq_sym Hid)) in Hxl. congruence. }
  destruct (rows_where (is_lost now kind) (db_jobs db)) as [|y ys] eqn:Hrows.
  - exists 0%nat, db. split_and!; [done|done| |done]. symmetry. apply update_where_none. intros r Hr. rewrite <- (Hp r Hr). done.
  - assert (forall r, r ∈ y :: ys -> (0 <= elapsed r now)%Z) as Hel.
    { intros r Hr. rewrite <- Hrows in Hr. apply elem_of_rows_where in Hr as [Hr _]. by eapply started_by_elapsed. }
    destruct (audit_lost_runs here now (y :: ys) db Hel) as (db1 & H1 & Hj & Hn).
    unfold mark_lost in *. rewrite (bind_step _ _ _ _ _ H1) in *.
    rewrite (update_jobs_runs _ _ db1 (lost_as_keeps now)) in * by first [by eapply jobs_ok_below|by intros].
    eexists _, _. split_and!; [reflexivity|exact Hok'| |].
    + cbn [db_jobs set_db_jobs]. rewrite Hj. apply update_where_ext. intros r Hr. by rewrite Hp.
    + intros Hno. assert (y ∈ db_jobs db /\ is_lost now kind y = true) as [Hy Hl].
      { apply elem_of_rows_where. rewrite Hrows. by left. } by rewrite Hno in Hl.
Qed.

(** A live job of the kind that has been heard from. *)
Definition holds_the_slot (now : Z) (kind : string) (r : Job) : bool := of_kind kind r && is_live r && negb (is_stale now r).

Lemma one_live_app rows job : is_live job = true -> one_each is_live jb_kind rows ->
  one_live (rows ++ [job])%list = negb (existsb (fun r => of_kind (jb_kind job) r && is_live r) rows).
Proof.
  intros Hl Hone. unfold one_live, one_each, rows_where. rewrite List.filter_app. cbn. rewrite Hl, map_app. cbn.
  destruct (existsb _ rows) eqn:He; cbn.
  - apply bool_decide_eq_false. intros (_ & Hnot & _)%NoDup_app. apply existsb_exists in He as (r & Hr & [Hk%bool_decide_eq_true Hrl]%andb_true_iff).
    apply (Hnot (jb_kind job)); [|by left]. rewrite <- Hk. apply list_elem_of_fmap. exists r. split; [done|]. by apply list_elem_of_In, filter_In.
  - apply bool_decide_eq_true, NoDup_app. split_and!; [done| |apply NoDup_singleton].
    intros k (r & -> & Hr)%list_elem_of_fmap Hk%list_elem_of_singleton. apply list_elem_of_In, filter_In in Hr as [Hr Hrl].
    apply not_true_iff_false in He. apply He, existsb_exists. exists r. split; [done|]. apply andb_true_iff. split; [|done].
    by apply bool_decide_eq_true.
Qed.

(** A kind's one slot: while a job of the kind is live and heard from, another is refused and
    nothing is written; otherwise the new job is queued, and a stale one that held the slot is
    marked lost, no other row touched. *)
Theorem slot_is_given_once (here : option Z) (now : Z) (kind label who : string) (requested_by : option Z) (request : dict) (db : Db) :
  jobs_ok db -> kind <> "" -> started_by now db ->
  match record here now kind label who requested_by request db with
  | (Raise e, db') => e = JobConflict /\ db' = db /\ (exists r, r ∈ db_jobs db /\ holds_the_slot now kind r = true)
  | (Ok job, db') => (forall r, r ∈ db_jobs db -> holds_the_slot now kind r = false) /\ jb_kind job = kind /\ jb_state job = J_QUEUED /\
      db_jobs db' = (update_where (is_lost now kind) (lost_as now) (db_jobs db) ++ [job])%list
  end.
Proof.
  intros Hok Hk Hst. destruct (reap_runs here now kind db Hok Hk Hst) as (n & db1 & H1 & Hok1 & Hj & Hsame).
  unfold record. rewrite (bind_step _ _ _ _ _ H1). unfold try, atomic. rewrite create_job_run. cbv zeta.
  set (job := new_job _ _ _ _ _ _ _). rewrite one_live_app; [|done|apply Hok1]. change (jb_kind job) with kind.
  destruct (existsb _ (db_jobs db1)) eqn:He; cbn [negb].
  - assert (has_live kind db1 = true) as Hlive by exact He. unfold mbind, M_bind, gets. rewrite Hlive. cbn.
    apply existsb_exists in He as (r & Hr%list_elem_of_In & [Hrk Hrl]%andb_true_iff). rewrite Hj in Hr.
    apply elem_of_update_where in Hr as (x & Hx & ->). destruct (is_lost now kind x) eqn:Hlost; [done|].
    assert (is_stale now x = false) as Hns by (unfold is_lost in Hlost; by rewrite Hrk, Hrl in Hlost).
    split_and!; [done| |exists x; split; [done|]; unfold holds_the_slot; by rewrite Hrk, Hrl, Hns].
    apply Hsame. intros y Hy. destruct (is_lost now kind y) eqn:Hly; [|done]. unfold is_lost in Hly.
    apply andb_true_iff in Hly as [[Hyl Hyk]%andb_true_iff Hys]. apply bool_decide_eq_true in Hyk, Hrk.
    rewrite (one_each_unique is_live jb_kind (db_jobs db) x y) in Hns; [congruence|apply Hok|done..|congruence].
  - split_and!; [|done|done|by rewrite <- Hj].
    intros r Hr. destruct (holds_the_slot now kind r) eqn:Hh; [|done]. exfalso. apply not_true_iff_false in He. apply He, existsb_exists.
    unfold holds_the_slot in Hh. apply andb_true_iff in Hh as [Hkl Hns%negb_true_iff]. exists r. split; [|done].
    apply list_elem_of_In. rewrite Hj. apply elem_of_update_where. exists r. split; [done|]. unfold is_lost. by rewrite Hns, andb_false_r.
Qed.

(** * When work is due again *)

Lemma fold_max_spec ts t m : (m <= fold_left Z.max ts t)%Z <-> (m <= t)%Z \/ exists x, x ∈ ts /\ (m <= x)%Z.
Proof.
  revert t. induction ts as [|x xs IH]; intros t; cbn.
  - split; [by left|]. intros [?|(y & Hy & _)]; [done|by apply elem_of_nil in Hy].
  - rewrite IH. split.
    + intros [H|(y & Hy & ?)]; [|right; exists y; split; [by right|done]].
      apply Z.max_le in H as [?|?]; [by left|right; exists x; split; [by left|done]].
    + intros [?|(y & [->|Hy]%elem_of_cons & ?)]; [left; lia|left; lia|right; by exists y].
Qed.

(** Work is due exactly when none of it is live and every time it was done is at least its
    cadence ago, less the slack the hourly timer is allowed. *)
Theorem due_exactly (kind : string) (every now : Z) (subject : option string) (db : Db) :
  due kind every now subject db = true <->
  forall r, r ∈ db_jobs db -> of_kind kind r = true -> about subject r = true ->
    is_live r = false /\ (forall t, jb_state r = J_SUCCEEDED -> jb_finished_at r = Some t -> (every - SLACK <= now - t)%Z).
Proof.
  unfold due. set (jobs := rows_where _ _).
  assert (forall r, r ∈ jobs <-> r ∈ db_jobs db /\ of_kind kind r = true /\ about subject r = true) as Hin.
  { intros r. unfold jobs. rewrite elem_of_rows_where, andb_true_iff. tauto. }
  set (times := omap jb_finished_at _).
  assert (forall t, t ∈ times <-> exists r, r ∈ jobs /\ jb_state r = J_SUCCEEDED /\ jb_finished_at r = Some t) as Ht.
  { intros t. unfold times. rewrite list_elem_of_omap. setoid_rewrite elem_of_rows_where. setoid_rewrite bool_decide_eq_true. naive_solver. }
  destruct (existsb is_live jobs) eqn:Hl.
  - split; [done|]. intros H. apply existsb_exists in Hl as (r & Hr%list_elem_of_In%Hin & Hlive). destruct (H r) as [Hf _]; [tauto..|congruence].
  - assert (forall r, r ∈ jobs -> is_live r = false) as Hnl.
    { intros r Hr. destruct (is_live r) eqn:Hlr; [|done]. apply not_true_iff_false in Hl. destruct Hl. apply existsb_exists. exists r. by rewrite <- list_elem_of_In. }
    transitivity (forall t, t ∈ times -> (every - SLACK <= now - t)%Z).
    + destruct times as [|t ts]; cbn; [split; [intros _ t Hn; by apply elem_of_nil in Hn|done]|]. rewrite Z.leb_le. split.
      * intros H x Hx. assert (x <= fold_left Z.max ts t)%Z; [|lia]. apply fold_max_spec.
        apply elem_of_cons in Hx as [->|Hx]; [by left|right; by exists x].
      * intros H. destruct (proj1 (fold_max_spec ts t (fold_left Z.max ts t)) (Z.le_refl _)) as [Hm|(x & Hx & Hm)].
        -- specialize (H t (list_elem_of_here _ _)). lia.
        -- specialize (H x (list_elem_of_further _ _ _ Hx)). lia.
    + split.
      * intros H r Hr Hk Hs. split; [apply Hnl, Hin; tauto|]. intros t Hst Hf. apply H, Ht. exists r. split; [apply Hin; tauto|done].
      * intros H t (r & Hr%Hin & Hst & Hf)%Ht. destruct (H r) as [_ H']; [tauto..|by apply H'].
Qed.

(** * On concrete rows *)

Definition a_job (id kind : string) (s : JobState) (beat : option Z) : Job :=
  mkJob id kind "Import" s None "" SCHEDULER None (JObj []) (JObj []) "" 0 beat (if bool_decide (s = J_LOST) then Some 0%Z else None) beat.

Definition queued_db : Db := set_db_next_id 5%N (set_db_jobs [a_job "1" "notes.import" J_QUEUED None; a_job "2" "mail.sync" J_RUNNING (Some 0%Z)] empty_db).

(** Work that says one thing, reports it and answers what it made. *)
Definition some_work : M exn Running (option dict) :=
  _ ← report_progress (3 * SECOND) "Reading" (Some 40%Z) false;
  mret (Some [("created", JNum 2); ("path", JStr "notes")]).

Lemma queued_db_ok : jobs_ok queued_db.
Proof.
  constructor.
  - apply (bool_decide_unpack _). vm_compute. reflexivity.
  - intros r [->|[->|[]%elem_of_nil]%elem_of_cons]%elem_of_cons; [by exists 1%N|by exists 2%N].
  - apply (bool_decide_unpack _). vm_compute. reflexivity.
  - intros r [->|[->|[]%elem_of_nil]%elem_of_cons]%elem_of_cons; split_and!; done.
Qed.

Lemma report_minds_its_row id now note percent force : minds_its_row id (_ ← report_progress now note percent force; mret (Some [("created", JNum 2); ("path", JStr "notes")])).
Proof.
  intros s Hok (r & Hr & Hid). pose proof (report_progress_ok now note percent force s Hok) as Hok'.
  assert (exists x, x ∈ db_jobs (rg_db (report_progress now note percent force s).2) /\ jb_id x = id) as Hx.
  { unfold report_progress. destruct (too_soon _ _ _ _); [by exists r|]. unfold mbind, M_bind, on_rows. cbn [rg_db].
    unfold update_jobs, act. destruct (_ && _); [|by exists r]. cbn.
    set (f := beaten now note percent). exists (if has_id (pg_job (rg_progress s)) r then f r else r). split.
    - apply elem_of_update_where. by exists r.
    - destruct (has_id _ r); [|done]. rewrite <- Hid. apply (kr_id _ (beaten_keeps now note percent)). }
  unfold mbind, M_bind. destruct (report_progress now note percent force s) as [[?|?] s']; by split.
Qed.

Lemma jobs_stay_ok_witness : jobs_ok (begin_work 7 "1" queued_db).2.
Proof. exact (jobs_stay_ok queued_db _ (rtc_once _ _ (js_begin 7 "1" queued_db)) queued_db_ok). Defined.

Lemma work_ends_the_job_witness :
  exists db' row, work_job None SECOND (5 * SECOND) (5 * SECOND) "1" some_work queued_db = (Ok tt, db') /\ row ∈ db_jobs db' /\
    jb_state row = J_SUCCEEDED /\ jb_finished_at row = Some (5 * SECOND)%Z.
Proof.
  destruct (work_ends_the_job None SECOND (5 * SECOND) (5 * SECOND) (a_job "1" "notes.import" J_QUEUED None) some_work queued_db
    queued_db_ok (list_elem_of_here _ _) eq_refl ltac:(unfold SECOND; lia) ltac:(unfold SECOND; lia)
    (report_minds_its_row "1" (3 * SECOND) "Reading" (Some 40%Z) false)) as (db' & row & H & _ & Hin & _ & _ & He & _).
  exists db', row. split; [exact H|]. split; [exact Hin|]. vm_compute in He. destruct He as (H1 & H2 & _). split; [exact H1|exact H2].
Defined.

Lemma slot_is_given_once_witness :
  record None (6 * MINUTE) "mail.sync" "Sync" SCHEDULER None [] queued_db =
    (Ok (new_job (6 * MINUTE) "mail.sync" "Sync" SCHEDULER None [] 6%N), (record None (6 * MINUTE) "mail.sync" "Sync" SCHEDULER None [] queued_db).2) /\
  (forall r, r ∈ db_jobs queued_db -> holds_the_slot (6 * MINUTE) "mail.sync" r = false).
Proof.
  assert (started_by (6 * MINUTE) queued_db) as Hst.
  { intros r t [->|[->|[]%elem_of_nil]%elem_of_cons]%elem_of_cons; cbn; intros Ht; [discriminate Ht|injection Ht as <-; unfold MINUTE, SECOND; lia]. }
  pose proof (slot_is_given_once None (6 * MINUTE) "mail.sync" "Sync" SCHEDULER None [] queued_db queued_db_ok ltac:(intros H; discriminate H) Hst) as H.
  assert (record None (6 * MINUTE) "mail.sync" "Sync" SCHEDULER None [] queued_db =
    (Ok (new_job (6 * MINUTE) "mail.sync" "Sync" SCHEDULER None [] 6%N), (record None (6 * MINUTE) "mail.sync" "Sync" SCHEDULER None [] queued_db).2)) as E
    by (vm_compute; reflexivity).
  rewrite E in H. destruct H as [H _]. split; [exact E|exact H].
Defined.

(** ** Two edges of the sweep *)

Definition the_sync : Job := a_job "2" "mail.sync" J_RUNNING (Some 0%Z).
Definition synced_db : Db := (finish_work None (6 * MINUTE) the_sync (Some [("updated", JNum 3)]) queued_db).2.
Definition swept_db : Db := (mark_lost None (6 * MINUTE) (lost_jobs (6 * MINUTE) "" queued_db) synced_db).2.
Definition state_of (id : string) (db : Db) : option (JobState * json) :=
  (fun r => (jb_state r, jb_result r)) <$> first_where (has_id id) (db_jobs db).

(** The sweep marks the rows it read by their keys alone: a job silent for more than five minutes
    that ends between the sweep's read and its write is left as one that never finished, beside
    the result it finished with. *)
Theorem sweep_overwrites_an_ending :
  rtc job_step queued_db swept_db /\
  state_of "2" synced_db = Some (J_SUCCEEDED, JObj [("updated", JNum 3)]) /\
  state_of "2" swept_db = Some (J_LOST, JObj [("updated", JNum 3)]).
Proof.
  split_and!; [|vm_compute; reflexivity|vm_compute; reflexivity].
  eapply rtc_l; [apply (js_finish None (6 * MINUTE) the_sync (Some [("updated", JNum 3)]))|]. apply rtc_once. apply js_mark.
Qed.

(** A job of the timer's, found lost while a person's request records the next of its kind, is
    recorded against that person. *)
Theorem lost_job_is_its_finders :
  map (fun row => (al_user row, al_object_id row, al_message row))
    (db_audit (record (Some 7%Z) (6 * MINUTE) "mail.sync" "Sync" "ada" (Some 7%Z) [] queued_db).2) = [(Some 7%Z, "2", "Stopped early in 360s")] /\
  jb_requested_by the_sync = None.
Proof. vm_compute. split; reflexivity. Qed.
