(* ===== verification/Tokens.v ===== *)
(** Who a bearer token is ([tokens.py]): the token verified against the keys held, its grant
    read, and the agent or the person's own device it names ([own_devices.py]).

    [PyJWT] and the identity provider are parameters ([IdentityProvider]): the header a token claims,
    and the claims its library answers for a token, a key, an audience and an issuer; [None] is
    any [PyJWTError].  A key is opaque. *)
From stdpp Require Import base gmap strings list pretty.
From Stdlib Require Import Ascii ZArith Lia.
From S2P Require Import Prelude PyStr Json Refusals Security Models.

#[local] Open Scope string_scope.

(** * Text of claims *)

(** [s.split()]: the runs between whitespace. *)
Fixpoint split_space_from (word s : string) : list string :=
  match s with
  | "" => if decide (word = "") then [] else [word]
  | String c r =>
      if is_space c then (if decide (word = "") then split_space_from "" r else word :: split_space_from "" r)
      else split_space_from (word +:+ String c "") r
  end.

Definition split_space (s : string) : list string := split_space_from "" s.

(** [a or b] of two values that may be absent. *)
Definition or_value (a b : option json) : option json :=
  match a with Some v => if truthy v then a else b | None => b end.

(** [str(value or "")] *)
Definition str_or_blank (v : option json) : string :=
  match v with Some j => if truthy j then py_str j else "" | None => "" end.

(** * The token itself *)

Definition NOT_ACCEPTED : exn := TokenError "The access token was not accepted.".
Definition ACCESS_TOKEN_TYPES : list string := ["at+jwt"; "application/at+jwt"].

(** What the deployment is told of its identity provider, and what [PyJWT] answers. *)
Record IdentityProvider : Type := mkIdentityProvider {
  pv_resource : string;                                    (* SEVERINO_API_RESOURCE *)
  pv_issuer : string;                                      (* OIDC_ISSUER *)
  pv_header : string -> option dict;                       (* jwt.get_unverified_header *)
  pv_decode : Z -> string -> string -> string -> string -> option dict;  (* jwt.decode at a moment: token, key, audience, issuer *)
}.

(** [SigningKeys]: the keys held by their id, and whether a read of the key set is asked for. *)
Record SigningKeys : Type := mkSigningKeys { sk_held : gmap string string; sk_wanted : bool }.

Section Verify.
Variable provider : IdentityProvider.

(** [_header(token)] *)
Definition header (token : string) : outcome exn dict :=
  match pv_header provider token with Some h => Ok h | None => Raise NOT_ACCEPTED end.

(** [KEYS.find(kid)] *)
Definition find_key (kid : string) : M exn SigningKeys string := fun keys =>
  match sk_held keys !! kid with
  | Some key => (Ok key, keys)
  | None => (Raise NOT_ACCEPTED, mkSigningKeys (sk_held keys) true)
  end.

(** [signing_key(token)] *)
Definition signing_key (token : string) : M exn SigningKeys string :=
  h ← lift (header token);
  find_key (str_or_blank (dget "kid" h)).

(** [decode(token, key, audience=..., types=...)] *)
Definition decode (now : Z) (token key audience : string) (types : list string) : outcome exn dict :=
  if bool_decide (audience = "") || bool_decide (pv_issuer provider = "") then Raise NOT_ACCEPTED
  else match header token with
       | Raise e => Raise e
       | Ok h =>
           if negb (among (lower (str_or_blank (dget "typ" h))) types) then Raise NOT_ACCEPTED
           else match pv_decode provider now token key audience (pv_issuer provider) with
                | Some claims => Ok claims
                | None => Raise NOT_ACCEPTED
                end
       end.

(** [verify(token)] *)
Definition verify (now : Z) (token : string) : M exn SigningKeys dict :=
  _ ← raise_if (bool_decide (pv_resource provider = "")) (TokenError "The machine API is not configured.");
  key ← signing_key token;
  lift (decode now token key (pv_resource provider) ACCESS_TOKEN_TYPES).

(** * What it grants *)

Definition DEVICE_SCOPE := "own_device".
Definition IDENTITY_SCOPES : list string := ["openid"; "profile"; "email"; "groups"; "offline_access"].
Definition GRANT_CLAIMS : list string := ["scope"; "scp"].

Fixpoint granted_by (names : list string) (claims : dict) : gset string :=
  match names with
  | [] => ∅
  | name :: rest =>
      match dget name claims with
      | Some (JStr s) => list_to_set (split_space s) ∖ list_to_set IDENTITY_SCOPES
      | Some (JList l) => list_to_set (map py_str l) ∖ list_to_set IDENTITY_SCOPES
      | _ => granted_by rest claims
      end
  end.

(** [granted(claims)] *)
Definition granted_of (claims : dict) : gset string := granted_by GRANT_CLAIMS claims.

(** * Who it names *)

(** [REGISTERED_CLIENT_ID.fullmatch(client)] *)
Definition client_char (c : ascii) : bool :=
  ascii_digit c || ((65 <=? code c) && (code c <=? 90))%nat || ((97 <=? code c) && (code c <=? 122))%nat ||
  bool_decide (c = "."%char) || bool_decide (c = "_"%char) || bool_decide (c = "-"%char).

Definition registered_client_id (client : string) : bool := negb (bool_decide (client = "")) && str_all client_char client.

(** The rows of [OwnDevice] whose user signed in under [key]. *)
Definition own_device_of (client key : string) (db : Db) : bool :=
  existsb (fun d => bool_decide (od_client_id d = client) &&
    existsb (fun u => bool_decide (us_pk u = od_user d) && bool_decide (us_sign_in u = key)) (db_users db)) (db_own_devices db).

(** [own_devices.registered(client_id, person_key)]: fails closed. *)
Definition own_registered (client key : string) : M exn Db bool :=
  if bool_decide (key = "") || negb (registered_client_id client) then mret false
  else try (reading "OwnDevice" (own_device_of client key))
         (fun e => match e with DatabaseError _ => Some (mret false) | _ => None end).

(** [hashlib.sha256(text).hexdigest()] and what the deployment composes. *)
Variables (sha256 : string -> string) (dep : Deployment).

(** [sign_in_subject(issuer, subject)] *)
Definition sign_in_subject (issuer subject : string) : string := sha256 (issuer +:+ String "000"%char subject).

(** [_person_key(claims, actor)] *)
Definition person_key_of (claims : dict) (a : string) : string :=
  let subject := strip (str_or_blank (dget "sub" claims)) in
  let client := match or_value (dget "client_id" claims) (Some (JStr a)) with Some v => py_str v | None => "" end in
  if bool_decide (subject = "") || bool_decide (subject = a) || bool_decide (subject = "client-" +:+ client) then ""
  else sign_in_subject (pv_issuer provider) subject.

(** [_require_a_persons_client(claims, person_key)] *)
Definition require_a_persons_client (claims : dict) (key : string) : outcome exn unit :=
  if negb (registered_client_id (str_or_blank (dget "client_id" claims))) then
    Raise (AuthorizationError ("This token carries " +:+ repr DEVICE_SCOPE +:+ " but names no registered client in `client_id`. " +:+
      "Give it only to a person's own device clients on the Pocket ID API resource."))
  else if bool_decide (key = "") then
    Raise (AuthorizationError ("This token carries " +:+ repr DEVICE_SCOPE +:+ " without a person: a device's token is one a person signed in for."))
  else Ok tt.

(** The client a token's claims name. *)
Definition client_of (claims : dict) : string :=
  strip (str_or_blank (or_value (or_value (dget "client_id" claims) (dget "azp" claims)) (dget "sub" claims))).

(** [token_principal(claims, interface)] *)
Definition token_principal (claims : dict) (i : string) : M exn Db Principal :=
  let grant := granted_of claims in
  let permissions := grant ∖ {[ DEVICE_SCOPE ]} in
  _ ← raise_if (bool_decide (permissions = ∅))
        (AuthorizationError "This token grants no HQ permissions. Add them to the client's scope on the Pocket ID API resource.");
  let a := client_of claims in
  _ ← raise_if (bool_decide (a = ""))
        (AuthorizationError ("This token names no client. Its `client_id`, `azp` or `sub` claim " +:+
           "is what HQ records as the actor for everything it does."));
  let key := person_key_of claims a in
  role ← gets (fun db k => held_by dep k db);
  if negb (bool_decide (DEVICE_SCOPE ∈ grant)) then lift (agent_principal dep role a i permissions key)
  else
    _ ← raise_if (negb (is_agent i)) (ValueError (repr i +:+ " is not an interface a token reaches HQ through."));
    _ ← lift (require_a_persons_client claims key);
    own ← own_registered a key;
    if negb own then lift (agent_principal dep role a i grant key)
    else lift (device_principal dep role a permissions grant key).
End Verify.

(** * Own devices *)

#[export] Instance OwnDevice_eq_dec : EqDecision OwnDevice.
Proof. solve_decision. Defined.

Definition OWN_DEVICE_LABEL := "Own device".

Definition own_row (user : Z) (client : string) (d : OwnDevice) : bool :=
  bool_decide (od_user d = user) && bool_decide (od_client_id d = client).

(** [set_own_device(command, principal=..., current_key=...)] *)
Definition set_own_device (now : Z) (registering : bool) (p : Principal) (current_key : string) : M exn Db json :=
  user ← person p;
  let client := strip current_key in
  _ ← raise_if (negb (registered_client_id client))
        (Host InputError "A device's client id is the one Pocket ID registered: letters, digits, . _ or -." JNull);
  let answer := JObj [("ok", JBool true); ("client_id", JStr client); ("registered", JBool registering)] in
  atomic (
    held ← gets (fun db => existsb (own_row (us_pk user) client) (db_own_devices db));
    if Bool.eqb held registering then mret answer
    else
      _ ← raise_if (registering && bool_decide (us_sign_in user = ""))
            (Host PolicyError "You have not signed in through Pocket ID, so no device's token can name you yet." JNull);
      _ ← (if registering then modify (fun db => set_db_own_devices (db_own_devices db ++ [mkOwnDevice (us_pk user) client])%list db) else mret tt);
      _ ← record_event true now (mkEvent (if registering then CREATED else DELETED) OWN_DEVICE_LABEL "" ""
            (client +:+ (if registering then " added to" else " removed from") +:+ " your own devices")
            [("client_id", JStr client); ("registered", JBool registering)] (Some (us_pk user)));
      _ ← (if registering then mret tt else modify (fun db => set_db_own_devices (delete_where (own_row (us_pk user) client) (db_own_devices db)) db));
      mret answer).

(** * What verifying a token means *)

(** A token is accepted exactly when HQ is configured, its header is an access token's and names a
    key HQ holds, and the library reads it under that key as addressed to HQ by its issuer; every
    other is refused in the same words, and at most asks for the keys to be read again. *)
Theorem verified_is_addressed_here (provider : IdentityProvider) (now : Z) (token : string) (keys : SigningKeys) :
  let '(o, keys') := verify provider now token keys in
  sk_held keys' = sk_held keys /\
  (forall claims, o = Ok claims <->
     pv_resource provider <> "" /\ pv_issuer provider <> "" /\ exists h key, pv_header provider token = Some h /\
       lower (str_or_blank (dget "typ" h)) ∈ ACCESS_TOKEN_TYPES /\ sk_held keys !! str_or_blank (dget "kid" h) = Some key /\
       pv_decode provider now token key (pv_resource provider) (pv_issuer provider) = Some claims) /\
  (forall e, o = Raise e -> e = NOT_ACCEPTED \/ pv_resource provider = "" /\ e = TokenError "The machine API is not configured.").
Proof.
  unfold verify, signing_key, find_key, decode, header, mbind, M_bind, lift, raise_if.
  destruct (decide (pv_resource provider = "")) as [Hr|Hr].
  { rewrite bool_decide_eq_true_2 by done. split_and!; [done| |]; [intros claims; split; [done|by intros [? _]]|intros e [= <-]; by right]. }
  rewrite bool_decide_eq_false_2 by done. cbn [mret M_ret].
  destruct (pv_header provider token) as [h|] eqn:Hh; [|split_and!; [done| |]; [intros claims; split; [done|by intros (_ & _ & ? & ? & ? & _)]|intros e [= <-]; by left]].
  destruct (sk_held keys !! str_or_blank (dget "kid" h)) as [key|] eqn:Hk;
    [|split_and!; [done| |]; [intros claims; split; [done|intros (_ & _ & ? & ? & [= <-] & _ & ? & _); congruence]|intros e [= <-]; by left]].
  destruct (decide (pv_issuer provider = "")) as [Hi|Hi].
  { rewrite (bool_decide_eq_true_2 (pv_issuer provider = "")), orb_true_r by done.
    split_and!; [done| |]; [intros claims; split; [done|by intros (_ & ? & _)]|intros e [= <-]; by left]. }
  rewrite !bool_decide_eq_false_2 by done. cbn [orb].
  destruct (among (lower (str_or_blank (dget "typ" h))) ACCESS_TOKEN_TYPES) eqn:Ht; cbn [negb].
  - apply among_spec in Ht. destruct (pv_decode provider now token key (pv_resource provider) (pv_issuer provider)) as [c|] eqn:Hd.
    + split_and!; [done| |done]. intros claims. split.
      * intros [= <-]. split_and!; [done|done|]. by exists h, key.
      * intros (_ & _ & h' & key' & [= <-] & _ & Hk' & Hd'). congruence.
    + split_and!; [done| |]; [|intros e [= <-]; by left]. intros claims. split; [done|].
      intros (_ & _ & h' & key' & [= <-] & _ & Hk' & Hd'). congruence.
  - split_and!; [done| |]; [|intros e [= <-]; by left]. intros claims. split; [done|].
    intros (_ & _ & h' & key' & [= <-] & Ht' & _). apply among_spec in Ht'. congruence.
Qed.

(** * What a token may do *)

Lemma own_registered_answers client key db : exists b, own_registered client key db = (Ok b, db) /\
  (b = true -> key <> "" /\ own_device_of client key db = true).
Proof.
  unfold own_registered. destruct (decide (key = "")) as [->|Hk]; [by exists false|]. rewrite bool_decide_eq_false_2 by done. cbn [orb].
  destruct (registered_client_id client); cbn [negb]; [|by exists false]. unfold try, reading.
  destruct (among "OwnDevice" (db_unreadable db)); [by exists false|]. eexists. by split.
Qed.

Lemma granted_by_no_identity names claims x : x ∈ granted_by names claims -> x ∉ IDENTITY_SCOPES.
Proof.
  induction names as [|n ns IH]; cbn [granted_by]; [by intros H%not_elem_of_empty|].
  destruct (dget n claims) as [[| | | | |]|]; try done; intros [_ H]%elem_of_difference Hx; apply H; by apply elem_of_list_to_set.
Qed.

Section Standing.
Variables (provider : IdentityProvider) (sha256 : string -> string) (dep : Deployment).

(** The ways [token_principal] answers. *)
Inductive named (claims : dict) (i : string) (db : Db) (p : Principal) : Prop :=
| as_agent (grant : gset string) : grant ⊆ granted_of claims -> is_agent i = true ->
    agent_principal dep (fun k => held_by dep k db) (client_of claims) i grant (person_key_of provider sha256 claims (client_of claims)) = Ok p ->
    named claims i db p
| as_device : DEVICE_SCOPE ∈ granted_of claims -> is_agent i = true ->
    own_device_of (client_of claims) (person_key_of provider sha256 claims (client_of claims)) db = true ->
    device_principal dep (fun k => held_by dep k db) (client_of claims) (granted_of claims ∖ {[ DEVICE_SCOPE ]}) (granted_of claims)
      (person_key_of provider sha256 claims (client_of claims)) = Ok p ->
    named claims i db p.

Lemma token_principal_inv claims i db p db' :
  token_principal provider sha256 dep claims i db = (Ok p, db') ->
  db' = db /\ client_of claims <> "" /\ named claims i db p.
Proof.
  unfold token_principal. set (a := client_of claims). set (key := person_key_of _ _ _ _). intros H.
  run; repeat match goal with Hb : bool_decide _ = false |- _ => apply bool_decide_eq_false in Hb end.
  destruct (bool_decide (DEVICE_SCOPE ∈ granted_of claims)) eqn:Hd; cbn [negb] in H.
  - apply bool_decide_eq_true in Hd. run. destruct (own_registered_answers a key db) as (b & Hb & Hreg).
    match goal with Hr : own_registered a key db = _ |- _ => rewrite Hb in Hr; injection Hr as <- <- end.
    destruct b; cbn [negb] in H; run.
    + split_and!; [done|done|]. apply as_device; [exact Hd|by apply negb_false_iff|by apply Hreg|by symmetry].
    + split_and!; [done|done|]. apply (as_agent _ _ _ _ (granted_of claims)); [reflexivity|by apply negb_false_iff|by symmetry].
  - run. split_and!; [done|done|]. match goal with Ha : Ok p = agent_principal _ _ _ _ _ _ |- _ => symmetry in Ha;
      eapply as_agent; [|by apply agent_principal_inv in Ha as [? _]|exact Ha] end. apply subseteq_difference_l. reflexivity.
Qed.

Lemma device_principal_inv a caps grant key held p :
  device_principal dep held a caps grant key = Ok p ->
  exists role, held key = Some role /\ actor p = a /\ person_key p = key /\ interface p = DEVICE_INTERFACE /\ capabilities p = caps ∩ role.
Proof.
  unfold device_principal, held_by_person. destruct (held key) as [role|] eqn:Hh; [|done]. intros [= <-]. by exists role.
Qed.

(** A token acts within what it was granted: its principal names the client, holds nothing the
    grant does not name and no identity scope, nothing beyond the role of the person it names,
    and is a person's own device only by both the provider's word and that person's. *)
Theorem token_acts_within_its_grant (claims : dict) (i : string) (db db' : Db) (p : Principal) :
  token_principal provider sha256 dep claims i db = (Ok p, db') ->
  db' = db /\ actor p <> "" /\
  (forall c, c ∈ capabilities p -> c ∈ granted_of claims /\ c ∉ IDENTITY_SCOPES) /\
  (person_key p <> "" -> exists role, held_by dep (person_key p) db = Some role /\ capabilities p ⊆ role) /\
  (interface p = i /\ is_agent i = true \/
   interface p = DEVICE_INTERFACE /\ DEVICE_SCOPE ∈ granted_of claims /\ own_device_of (actor p) (person_key p) db = true).
Proof.
  intros (-> & Ha & [grant Hsub Hi Hp|Hd Hi Hown Hp])%token_principal_inv.
  - apply agent_principal_inv in Hp as (_ & held & Hheld & ->). cbn [actor capabilities person_key interface]. split_and!; [done|done| | |by left].
    + intros c Hc. assert (c ∈ granted_of claims) as Hg.
      { apply Hsub. unfold agent_grant, within in Hc. destruct held; set_solver. }
      split; [done|by eapply granted_by_no_identity].
    + intros Hk. destruct (decide _); [done|]. destruct Hheld as [Hh Hn]. destruct held as [role|]; [|done].
      exists role. split; [done|]. unfold agent_grant, within. set_solver.
  - apply device_principal_inv in Hp as (role & Hrole & Hact & Hkey & Hint & Hcaps). rewrite Hact, Hkey, Hcaps, Hint. split_and!; [done|done| | |by right].
    + intros c Hc. assert (c ∈ granted_of claims) as Hg by set_solver. split; [done|by eapply granted_by_no_identity].
    + intros _. exists role. split; [done|set_solver].
Qed.
End Standing.

(** * A person's own devices are theirs to name *)

Lemma existsb_own_row u client rows : existsb (own_row u client) rows = true <-> mkOwnDevice u client ∈ rows.
Proof.
  rewrite existsb_exists. split.
  - intros ([u' c'] & Hin & [H1%bool_decide_eq_true H2%bool_decide_eq_true]%andb_true_iff). cbn in *. subst. by apply list_elem_of_In.
  - intros Hin. exists (mkOwnDevice u client). split; [by apply list_elem_of_In|]. unfold own_row. cbn. by rewrite !bool_decide_eq_true_2.
Qed.

Lemma own_row_false u client d : own_row u client d = false <-> d <> mkOwnDevice u client.
Proof.
  unfold own_row. rewrite andb_false_iff, !bool_decide_eq_false. destruct d as [u' c']. cbn. split.
  - intros [H|H] [=]; by subst.
  - intros H. destruct (decide (u' = u)) as [->|]; [right; intros ->; done|by left].
Qed.

(** What a call of [set_own_device] that answers did. *)
Lemma set_own_device_inv now registering p key db j db' :
  set_own_device now registering p key db = (Ok j, db') ->
  exists u, person_of p db = Some u /\ registered_client_id (strip key) = true /\
    db_users db' = db_users db /\ db_unreadable db' = db_unreadable db /\
    (forall d, d ∈ db_own_devices db' <-> if decide (d = mkOwnDevice (us_pk u) (strip key)) then registering = true else d ∈ db_own_devices db).
Proof.
  unfold set_own_device. set (client := strip key). intros H. run.
  match goal with Hp : person p db = _ |- _ => apply person_inv in Hp as (-> & _ & Hp) end.
  rename x into u. exists u. apply negb_false_iff in H1. split; [done|]. split; [done|]. run.
  destruct (existsb (own_row (us_pk u) client) (db_own_devices db)) eqn:He.
  - apply existsb_own_row in He. destruct registering; cbn [Bool.eqb] in H; run.
    + split_and!; [done|done|]. intros d. destruct (decide _) as [->|]; done.
    + unfold record_event in *. destruct (db_audit_down db); simplify_eq/=. split_and!; [done|done|]. intros d.
      rewrite elem_of_delete_where, own_row_false. destruct (decide _); naive_solver.
  - apply not_true_iff_false in He. rewrite existsb_own_row in He. destruct registering; cbn [Bool.eqb] in H; run.
    + unfold record_event in *. simplify_eq/=. destruct (db_audit_down db); simplify_eq/=. split_and!; [done|done|]. intros d.
      rewrite elem_of_app, list_elem_of_singleton. destruct (decide _); naive_solver.
    + split_and!; [done|done|]. intros d. destruct (decide _) as [->|]; done.
Qed.

(** A primary key is one person's, and so is a sign-in key. *)
Definition people_ok (db : Db) : Prop :=
  NoDup (map us_pk (db_users db)) /\
  (forall u v, u ∈ db_users db -> v ∈ db_users db -> us_sign_in u <> "" -> us_sign_in u = us_sign_in v -> u = v).

Lemma own_device_of_spec client k db : people_ok db -> forall u, u ∈ db_users db -> us_sign_in u = k -> k <> "" ->
  own_device_of client k db = true <-> mkOwnDevice (us_pk u) client ∈ db_own_devices db.
Proof.
  intros [Hpk Hsign] u Hu Hk Hne. unfold own_device_of. rewrite existsb_exists. split.
  - intros ([v c] & Hd & [Hc%bool_decide_eq_true (w & Hw%list_elem_of_In & [H1%bool_decide_eq_true H2%bool_decide_eq_true]%andb_true_iff)%existsb_exists]%andb_true_iff).
    cbn in *. subst c. rewrite (Hsign u w) by congruence. rewrite H1. by apply list_elem_of_In.
  - intros Hd. exists (mkOwnDevice (us_pk u) client). split; [by apply list_elem_of_In|]. cbn. rewrite bool_decide_eq_true_2 by done.
    apply existsb_exists. exists u. split; [by apply list_elem_of_In|]. by rewrite !bool_decide_eq_true_2.
Qed.

(** Nobody's standing rests on a row of another's. *)
Lemma own_device_of_other client k db : (forall u, u ∈ db_users db -> us_sign_in u <> k) -> own_device_of client k db = false.
Proof.
  intros H. apply not_true_iff_false. unfold own_device_of. rewrite existsb_exists.
  intros (d & _ & [_ (w & Hw%list_elem_of_In & [_ H2%bool_decide_eq_true]%andb_true_iff)%existsb_exists]%andb_true_iff). by apply (H w).
Qed.

Lemma own_registered_run client k db : among "OwnDevice" (db_unreadable db) = false ->
  own_registered client k db = (Ok (negb (bool_decide (k = "")) && registered_client_id client && own_device_of client k db), db).
Proof.
  intros Hr. unfold own_registered. destruct (bool_decide (k = "")), (registered_client_id client); try done. cbn [orb negb].
  unfold try, reading. by rewrite Hr.
Qed.

Lemma own_device_of_same client k db db' : people_ok db -> db_users db' = db_users db ->
  (forall u, u ∈ db_users db -> us_sign_in u = k -> k <> "" -> mkOwnDevice (us_pk u) client ∈ db_own_devices db' <-> mkOwnDevice (us_pk u) client ∈ db_own_devices db) ->
  k <> "" -> own_device_of client k db' = own_device_of client k db.
Proof.
  intros Hok Hu Hsame Hk. assert (people_ok db') as Hok' by (unfold people_ok; by rewrite Hu).
  destruct (first_where (fun u => bool_decide (us_sign_in u = k)) (db_users db)) as [u|] eqn:Hf.
  - apply first_where_some in Hf as [Hin Hs%bool_decide_eq_true]. apply eq_true_iff_eq.
    rewrite (own_device_of_spec client k db' Hok' u) by (by rewrite ?Hu). rewrite (own_device_of_spec client k db Hok u) by done. by apply Hsame.
  - assert (forall u, u ∈ db_users db -> us_sign_in u <> k) as Hno.
    { intros u Hin. pose proof (first_where_none _ _ Hf u Hin) as Hx. by apply bool_decide_eq_false in Hx. }
    rewrite !own_device_of_other; [done|done|by rewrite Hu].
Qed.

Lemma person_of_in p db u : person_of p db = Some u -> u ∈ db_users db.
Proof. unfold person_of, user_of_key. intros H. repeat case_match; try done; by apply first_where_some in H as [? _]. Qed.

(** Registering a client makes it the device of the person who asked and removing it ends that at
    once; the standing of every other client, and of the same client signed in by anyone else, is
    untouched. *)
Theorem own_device_is_its_persons (now : Z) (registering : bool) (p : Principal) (key : string) (u : User) (db db' : Db) (j : json) :
  set_own_device now registering p key db = (Ok j, db') -> person_of p db = Some u -> us_sign_in u <> "" ->
  people_ok db -> among "OwnDevice" (db_unreadable db) = false ->
  own_registered (strip key) (us_sign_in u) db' = (Ok registering, db') /\
  (forall client k, (client, k) <> (strip key, us_sign_in u) -> (own_registered client k db').1 = (own_registered client k db).1).
Proof.
  intros (u' & Hu' & Hid & Husers & Hread & Hrows)%set_own_device_inv Hu Hs Hok Hr. pose proof (person_of_in _ _ _ Hu) as Hin. rewrite Hu in Hu'. injection Hu' as <-.
  assert (people_ok db') as Hok' by (unfold people_ok; by rewrite Husers).
  rewrite !own_registered_run by congruence. split.
  - rewrite bool_decide_eq_false_2, Hid by done. cbn [negb andb]. do 2 f_equal. apply eq_true_iff_eq.
    rewrite (own_device_of_spec _ _ db' Hok' u) by (by rewrite ?Husers). rewrite Hrows. by destruct (decide _).
  - intros client k Hne. rewrite !own_registered_run by congruence. cbn [fst]. f_equal.
    destruct (decide (k = "")) as [->|Hk]; [done|]. rewrite (bool_decide_eq_false_2 (k = "")) by done. cbn [negb andb]. f_equal.
    apply own_device_of_same; [done|done| |done]. intros v Hv Hvs _. rewrite Hrows. destruct (decide _) as [[= Hpk ->]|]; [|done].
    destruct Hne. f_equal. rewrite <- Hvs. f_equal. by eapply (unique_by us_pk); [apply Hok|..].
Qed.

(** * On concrete tokens *)

Definition a_deployment : Deployment := mkDeployment ∅ ∅ ∅ ∅.
Definition named_key (text : string) : string := "key of " +:+ text.
Definition a_provider : IdentityProvider := mkIdentityProvider "https://hq.example" "https://id.example"
  (fun _ => Some [("typ", JStr "at+jwt"); ("kid", JStr "k1")])
  (fun _ _ _ _ _ => Some [("client_id", JStr "shortcut"); ("sub", JStr "ada"); ("scope", JStr "openid read own_device")]).
Definition device_claims : dict := [("client_id", JStr "shortcut"); ("sub", JStr "ada"); ("scope", JStr "openid read own_device")].
Definition ada_key : string := sign_in_subject named_key "https://id.example" "ada".
Definition ada_user : User := mkUser 7 "ada" ada_key "operator".
Definition ada_db : Db := set_db_users [ada_user] empty_db.
Definition ada_here : Principal := principal_of "ada" WEB_INTERFACE {[ READ ]}.
Definition device_db : Db := (set_own_device 5 true ada_here "shortcut" ada_db).2.
Definition token_in (db : Db) : Principal :=
  match (token_principal a_provider named_key a_deployment device_claims MCP_INTERFACE db).1 with Ok p => p | Raise _ => ada_here end.

Lemma token_acts_within_its_grant_witness :
  interface (token_in ada_db) = MCP_INTERFACE /\ interface (token_in device_db) = DEVICE_INTERFACE /\ actor (token_in device_db) <> "".
Proof.
  assert (token_principal a_provider named_key a_deployment device_claims MCP_INTERFACE device_db = (Ok (token_in device_db), device_db)) as H
    by (vm_compute; reflexivity).
  destruct (token_acts_within_its_grant a_provider named_key a_deployment device_claims MCP_INTERFACE device_db device_db (token_in device_db) H) as (_ & Ha & _).
  split; [vm_compute; reflexivity|]. split; [vm_compute; reflexivity|exact Ha].
Defined.

Lemma ada_db_ok : people_ok ada_db.
Proof.
  split; [apply NoDup_singleton|]. intros u v ->%list_elem_of_singleton ->%list_elem_of_singleton _ _. reflexivity.
Qed.

Lemma own_device_is_its_persons_witness : own_registered "shortcut" ada_key device_db = (Ok true, device_db).
Proof.
  assert (set_own_device 5 true ada_here "shortcut" ada_db =
    (Ok (JObj [("ok", JBool true); ("client_id", JStr "shortcut"); ("registered", JBool true)]), device_db)) as H by (vm_compute; reflexivity).
  assert (us_sign_in ada_user <> "") as Hs by (intros Hx; vm_compute in Hx; discriminate Hx).
  exact (proj1 (own_device_is_its_persons 5 true ada_here "shortcut" ada_user ada_db device_db _ H eq_refl Hs ada_db_ok eq_refl)).
Defined.
