(* ===== verification/Admission.v ===== *)
(** How a bearer token is let through an agent door ([agent_admission.py], and the machine
    API's door in [api/views.py]): who the token is, whether that caller may act now, and the
    call it holds while it does.

    A door keeps the signing keys, the limits and the counts of refusals in memory beside the
    database.  [now] is the wall clock and [mono] the monotonic one, in microseconds. *)
From stdpp Require Import base gmap strings list pretty.
From Stdlib Require Import Ascii ZArith QArith Lia.
From S2P Require Import Prelude PyStr Json Refusals Security AgentLimits Models AuditTrail AgentDevices AgentRegistry AgentAccess Specs Denials Tokens.

#[local] Open Scope string_scope.

(** What a process serving agents keeps. *)
Record DoorState : Type := mkDoorState { ds_keys : SigningKeys; ds_limits : Limits; ds_desk : Desk }.

Definition ds_db (s : DoorState) : Db := dk_db (ds_desk s).

Definition on_keys {A} (m : M exn SigningKeys A) : M exn DoorState A := fun s =>
  let '(o, k) := m (ds_keys s) in (o, mkDoorState k (ds_limits s) (ds_desk s)).
Definition on_desk {A} (m : M exn Desk A) : M exn DoorState A := fun s =>
  let '(o, d) := m (ds_desk s) in (o, mkDoorState (ds_keys s) (ds_limits s) d).
Definition on_limits {A} (f : Limits -> A * Limits) : M exn DoorState A := fun s =>
  let '(a, l) := f (ds_limits s) in (Ok a, mkDoorState (ds_keys s) l (ds_desk s)).

(** [Unadmitted] *)
Record Unadmitted : Type := mkUnadmitted { ua_code : string; ua_reason : string; ua_verified : bool }.

(** [Unadmitted.scope] *)
Definition unadmitted_scope (u : Unadmitted) : string := if ua_verified u then READ else "".

(** [Limited | AgentRefusal] *)
Inductive Stopping : Type := ByLimit (l : Limited) | ByBrake (r : AgentRefusal).

(** What [admit_bearer] answers: [Principal | Stopped | Unadmitted]. *)
Inductive AdmittedAs : Type := Caller (p : Principal) | StoppedCaller (p : Principal) (why : Stopping) | NoCaller (u : Unadmitted).

Definition MISSING : Unadmitted := mkUnadmitted "invalid_token" "An access token is required." false.

(** The except clauses of [admit_bearer]. *)
Definition unadmitted_of (e : exn) : option Unadmitted :=
  match e with
  | TokenError reason => Some (mkUnadmitted "invalid_token" reason false)
  | _ => if is_authorization_error e then Some (mkUnadmitted "insufficient_scope" (exn_text e) true) else None
  end.

(** [time.monotonic()], in seconds. *)
Definition seconds_of (mono : Z) : Q := Qmake mono 1000000.

Section Admission.
Variables (host : Site) (provider : IdentityProvider) (cfg : LimitSettings) (net : Tailnet) (site_url : string -> string) (agent_policy : string).
Variables (now mono : Z).

(** [token_principal(verify(bearer), interface)] *)
Definition principal_of_bearer (bearer i : string) : M exn DoorState Principal :=
  claims ← on_keys (verify provider now bearer);
  on_desk (on_db (token_principal provider (h_sha256 host) (h_deployment host) claims i)).

(** What [admit_bearer] does of a good token. *)
Definition admit_principal (p : Principal) (source : string) : M exn DoorState AdmittedAs :=
  limited ← on_limits (take cfg (agent_subject p) (seconds_of mono));
  match limited with
  | Some l => mret (StoppedCaller p (ByLimit l))
  | None =>
      _ ← on_desk (settle_windows mono (actor p));
      let placed := place net source in
      let p := at_device p (node_id placed) in
      _ ← on_desk (on_db (observe now p (pl_device placed)));
      match pl_refused placed with
      | Some why => mret (StoppedCaller p (ByBrake (unplaced why (pl_detail placed))))
      | None => mret (Caller p)
      end
  end.

(** [admit(bearer, interface=..., source=...)] *)
Definition admit_bearer (bearer i source : string) : M exn DoorState AdmittedAs := fun s =>
  let unadmitted u := (_ ← on_desk (on_db (record_denial host now i (ua_code u) "" "" source "" false "")); mret (NoCaller u)) in
  if decide (bearer = "") then unadmitted MISSING s
  else match principal_of_bearer bearer i s with
       | (Ok p, s') => admit_principal p source s'
       | (Raise e, s') => match unadmitted_of e with Some u => unadmitted u s' | None => (Raise e, s') end
       end.

Definition limited_here (p : Principal) (l : Limited) (source : string) : M exn DoorState unit :=
  on_desk (record_limited host now mono (interface p) (l_code l) (actor p) source (device p)).

(** [refused(caller, source=...)]: [stopped] is the caller's own refusal, else the one the request carries. *)
Definition refused_now (p : Principal) (stopped : option Stopping) (source : string) : M exn DoorState (option Stopping) :=
  let record (r : AgentRefusal) : M exn DoorState (option Stopping) :=
    (_ ← on_desk (on_db (record_denial host now (interface p) (rf_code r) (actor p) "" source "" true (device p)));
     mret (Some (ByBrake r))) in
  match stopped with
  | Some (ByLimit l) => _ ← limited_here p l source; mret stopped
  | Some (ByBrake r) => record r
  | None =>
      applies ← on_desk (on_db (brake site_url agent_policy p));
      match applies with Some r => record r | None => mret None end
  end.

(** [at_once(principal, source=...)], as it is entered: the refusal, or the slot held. *)
Definition at_once (p : Principal) (source : string) : M exn DoorState (Limited + nat) :=
  held ← on_limits (occupy cfg (agent_subject p));
  match held with
  | inl l => _ ← limited_here p l source; mret (inl l)
  | inr slot => mret (inr slot)
  end.

(** The slot given back as the block is left. *)
Definition give_back (slot : nat) : M exn DoorState unit := fun s =>
  match release slot (ds_limits s) with
  | Some l => (Ok tt, mkDoorState (ds_keys s) l (ds_desk s))
  | None => (Raise (OtherError "KeyError" ""), s)
  end.

(** [stream_opened(principal, source=...)] *)
Definition stream_opened (p : Principal) (source : string) : M exn DoorState (Limited + nat) :=
  held ← on_limits (listen cfg (agent_subject p));
  match held with
  | inl l => _ ← limited_here p l source; mret (inl l)
  | inr slot => mret (inr slot)
  end.

(** [Limited.refusal] and [AgentRefusal.refusal]: what every door answers. *)
Definition stopping_refusal (w : Stopping) : Refusal :=
  match w with
  | ByLimit l => refusal (l_code l) (l_reason l) JNull (Some (l_retry_after l))
  | ByBrake r => brake_refusal r
  end.

(** [_admit_token(request)]: the caller, or what the door answers it. *)
Definition admit_token (bearer source : string) : M exn DoorState (Principal + Refusal) :=
  admitted ← admit_bearer bearer API_INTERFACE source;
  match admitted with
  | NoCaller u =>
      mret (inr (refusal (ua_code u) (ua_reason u)
        (if decide (unadmitted_scope u = "") then JNull else JObj [("scope", JStr (unadmitted_scope u))]) None))
  | Caller p =>
      applies ← refused_now p None source;
      mret (match applies with Some w => inr (stopping_refusal w) | None => inl p end)
  | StoppedCaller p why =>
      applies ← refused_now p (Some why) source;
      mret (match applies with Some w => inr (stopping_refusal w) | None => inl p end)
  end.

(** [_answering(principal, view)] *)
Definition answering {A} (p : Principal) (view : M exn DoorState A) : M exn DoorState (A + Refusal) := fun s =>
  match view s with
  | (Ok a, s') => (Ok (inl a), s')
  | (Raise e, s') =>
      let refused := mapped e "" in
      if is_authorization_error e || is_refused_hold e then
        (_ ← on_desk (on_db (record_denial host now (interface p) (r_code refused) (actor p) "" "" "" true (device p)));
         mret (inr refused)) s'
      else (Ok (inr refused), s')
  end.

(** [_run_for_agent(request, view)] *)
Definition run_for_agent {A} (bearer source : string) (view : Principal -> M exn DoorState A) : M exn DoorState (A + Refusal) :=
  admitted ← admit_token bearer source;
  match admitted with
  | inr r => mret (inr r)
  | inl p =>
      busy ← at_once p source;
      match busy with
      | inl l => mret (inr (stopping_refusal (ByLimit l)))
      | inr slot => answer ← answering p (view p); _ ← give_back slot; mret answer
      end
  end.
End Admission.

(** * The challenge a refusal carries *)

Definition backslash : ascii := "092"%char.

(** [_quoted(value)] *)
Definition quoted (value : string) : string :=
  replace_char double_quote (String backslash (String double_quote "")) (replace_char backslash (String backslash (String backslash "")) value).

(** [challenge( *params )] *)
Definition challenge (params : list (string * string)) : string :=
  "Bearer " +:+ join ", " (map (fun nv => nv.1 +:+ "=" +:+ String double_quote (quoted nv.2 +:+ String double_quote "")) params).

(** How a client reads a quoted-string (RFC 9110, section 5.6.4), past its opening quote: the value, and what follows. *)
Fixpoint read_quoted (s : string) : option (string * string) :=
  match s with
  | "" => None
  | String c r =>
      if decide (c = double_quote) then Some ("", r)
      else if decide (c = backslash) then
        match r with
        | "" => None
        | String d r' => match read_quoted r' with Some (v, rest) => Some (String d v, rest) | None => None end
        end
      else match read_quoted r with Some (v, rest) => Some (String c v, rest) | None => None end
  end.

Lemma append_cons c x y : String c x +:+ y = String c (x +:+ y).
Proof. reflexivity. Qed.

Lemma append_nil y : "" +:+ y = y.
Proof. reflexivity. Qed.

Lemma replace_char_cons c r d s : replace_char c r (String d s) = (if decide (c = d) then r else String d "") +:+ replace_char c r s.
Proof. reflexivity. Qed.

Lemma quoted_cons c s : quoted (String c s) =
  if decide (c = backslash) then String backslash (String backslash (quoted s))
  else if decide (c = double_quote) then String backslash (String double_quote (quoted s)) else String c (quoted s).
Proof.
  unfold quoted. rewrite replace_char_cons. destruct (decide (backslash = c)) as [<-|Hb].
  - rewrite decide_True by reflexivity. rewrite !append_cons, append_nil, !replace_char_cons. reflexivity.
  - rewrite (decide_False (P := c = backslash)) by congruence. rewrite append_cons, append_nil, replace_char_cons.
    destruct (decide (double_quote = c)) as [<-|Hq].
    + rewrite decide_True by reflexivity. by rewrite !append_cons, append_nil.
    + rewrite (decide_False (P := c = double_quote)) by congruence. by rewrite append_cons, append_nil.
Qed.

(** Whatever a value holds, quotes and backslashes included, a client reads back that value and
    what follows it: no value ends its own quoting. *)
Theorem challenge_value_reads_back (value rest : string) :
  read_quoted (quoted value +:+ String double_quote rest) = Some (value, rest).
Proof.
  induction value as [|c s IH]; [reflexivity|]. rewrite quoted_cons.
  destruct (decide (c = backslash)) as [->|Hb]; [|destruct (decide (c = double_quote)) as [->|Hq]]; rewrite !append_cons; cbn [read_quoted].
  - rewrite (decide_False (P := backslash = double_quote)), decide_True by done. by rewrite IH.
  - rewrite (decide_False (P := backslash = double_quote)), decide_True by done. by rewrite IH.
  - rewrite (decide_False (P := c = double_quote)), (decide_False (P := c = backslash)) by done. by rewrite IH.
Qed.

(** * Who is let through *)

Lemma on_desk_inv {A} (m : M exn Desk A) s o s' : on_desk m s = (o, s') ->
  m (ds_desk s) = (o, ds_desk s') /\ ds_keys s' = ds_keys s /\ ds_limits s' = ds_limits s.
Proof. unfold on_desk. destruct (m (ds_desk s)) as [x d]. intros [= <- <-]. done. Qed.

Lemma on_db_inv {A} (m : M exn Db A) d o d' : on_db m d = (o, d') -> m (dk_db d) = (o, dk_db d') /\ dk_windows d' = dk_windows d.
Proof. unfold on_db. destruct (m (dk_db d)) as [x db]. intros [= <- <-]. done. Qed.

Lemma on_keys_inv {A} (m : M exn SigningKeys A) s o s' : on_keys m s = (o, s') ->
  m (ds_keys s) = (o, ds_keys s') /\ ds_limits s' = ds_limits s /\ ds_desk s' = ds_desk s.
Proof. unfold on_keys. destruct (m (ds_keys s)) as [x k]. intros [= <- <-]. done. Qed.

Lemma on_limits_inv {A} (f : Limits -> A * Limits) s o s' : on_limits f s = (o, s') ->
  exists a, o = Ok a /\ f (ds_limits s) = (a, ds_limits s') /\ ds_keys s' = ds_keys s /\ ds_desk s' = ds_desk s.
Proof. unfold on_limits. destruct (f (ds_limits s)) as [a l]. intros [= <- <-]. by exists a. Qed.

Section LetThrough.
Variables (host : Site) (provider : IdentityProvider) (cfg : LimitSettings) (net : Tailnet) (site_url : string -> string) (agent_policy : string).
Variables (now mono : Z).

(** What a good token is: verified against the keys held, and named from its claims. *)
Definition good_token (bearer i : string) (s : DoorState) (p : Principal) : Prop :=
  exists claims, (verify provider now bearer (ds_keys s)).1 = Ok claims /\
    (token_principal provider (h_sha256 host) (h_deployment host) claims i (ds_db s)).1 = Ok p.

Lemma principal_of_bearer_ok bearer i s p s' : principal_of_bearer host provider now bearer i s = (Ok p, s') ->
  good_token bearer i s p /\ ds_limits s' = ds_limits s /\ ds_desk s' = ds_desk s.
Proof.
  unfold principal_of_bearer. intros (claims & s1 & (Hv & Hl & Hd)%on_keys_inv & H)%bind_inv_ok.
  apply on_desk_inv in H as (H & Hk & Hl'). apply on_db_inv in H as [H Hw]. split.
  - exists claims. rewrite Hv. split; [done|]. unfold ds_db. rewrite <- Hd. by rewrite H.
  - split; [congruence|]. apply token_principal_inv in H as (Hdb & _). destruct s' as [k l [w db]], s1 as [k1 l1 [w1 db1]]. cbn in *. congruence.
Qed.

(** A call past its agent's rate costs nothing but its refusal: admitting it writes no row,
    registers nothing, moves no count and spends none of the rate. *)
Theorem flood_writes_nothing (bearer i source : string) (s s' : DoorState) (p : Principal) (l : Limited) :
  admit_bearer host provider cfg net now mono bearer i source s = (Ok (StoppedCaller p (ByLimit l)), s') ->
  good_token bearer i s p /\ (take cfg (agent_subject p) (seconds_of mono) (ds_limits s)).1 = Some l /\
  ds_desk s' = ds_desk s /\ ds_limits s' = ds_limits s.
Proof.
  intros H. unfold admit_bearer in H. destruct (decide (bearer = "")); [by run|].
  destruct (principal_of_bearer host provider now bearer i s) as [[p0|e] s0] eqn:Hp; [|destruct (unadmitted_of e); by run].
  apply principal_of_bearer_ok in Hp as (Hgood & Hl & Hd). unfold admit_principal in H.
  apply bind_inv_ok in H as (lim & s1 & (a & [= <-] & Ht & Hk1 & Hd1)%on_limits_inv & H).
  destruct lim as [l0|]; [|run; destruct (pl_refused _); by run].
  apply ret_inv in H as [Heq ->]. injection Heq as -> ->. rewrite Hl in Ht. split_and!; [done|by rewrite Ht|congruence|].
  unfold take in Ht. destruct (negb _); [by injection Ht as _ <-|done].
Qed.

(** How [admit_bearer] lets a caller in. *)
Lemma admit_caller bearer i source s p s' :
  admit_bearer host provider cfg net now mono bearer i source s = (Ok (Caller p), s') ->
  exists p0, good_token bearer i s p0 /\ p = at_device p0 (node_id (place net source)) /\ pl_refused (place net source) = None /\
    take cfg (agent_subject p0) (seconds_of mono) (ds_limits s) = (None, ds_limits s').
Proof.
  intros H. unfold admit_bearer in H. destruct (decide (bearer = "")); [by run|].
  destruct (principal_of_bearer host provider now bearer i s) as [[p0|e] s0] eqn:Hp; [|destruct (unadmitted_of e); by run].
  apply principal_of_bearer_ok in Hp as (Hgood & Hl & Hd). unfold admit_principal in H.
  apply bind_inv_ok in H as (lim & s1 & (a & [= <-] & Ht & Hk1 & Hd1)%on_limits_inv & H).
  destruct lim as [l0|]; [by run|].
  apply bind_inv_ok in H as (u1 & s2 & (_ & _ & Hl2)%on_desk_inv & H). apply bind_inv_ok in H as (u2 & s3 & (_ & _ & Hl3)%on_desk_inv & H).
  destruct (pl_refused (place net source)) eqn:Hr; [by run|]. apply ret_inv in H as [Heq ->]. injection Heq as ->.
  exists p0. split_and!; [done|done|done|]. congruence.
Qed.

Lemma refused_now_none p stopped source s s' :
  refused_now host site_url agent_policy now mono p stopped source s = (Ok None, s') ->
  stopped = None /\ (brake site_url agent_policy p (ds_db s)).1 = Ok None /\ ds_limits s' = ds_limits s.
Proof.
  unfold refused_now. destruct stopped as [[l|r]|]; [by intros H; run..|].
  intros (applies & s1 & (Hb & _ & Hl)%on_desk_inv & H)%bind_inv_ok. apply on_db_inv in Hb as [Hb _].
  destruct applies as [r|]; [by run|]. apply ret_inv in H as [_ ->]. split_and!; [done|unfold ds_db; by rewrite Hb|done].
Qed.

Lemma admit_token_lets_through bearer source s p s' :
  admit_token host provider cfg net site_url agent_policy now mono bearer source s = (Ok (inl p), s') ->
  exists p0 s1, good_token bearer API_INTERFACE s p0 /\ p = at_device p0 (node_id (place net source)) /\
    pl_refused (place net source) = None /\ take cfg (agent_subject p0) (seconds_of mono) (ds_limits s) = (None, ds_limits s') /\
    admit_bearer host provider cfg net now mono bearer API_INTERFACE source s = (Ok (Caller p), s1) /\
    (brake site_url agent_policy p (ds_db s1)).1 = Ok None.
Proof.
  unfold admit_token. intros (adm & s1 & Ha & H)%bind_inv_ok. destruct adm as [q|q why|u]; [|apply bind_inv_ok in H as (ap & s2 & Hr & H)|by run].
  - apply bind_inv_ok in H as (ap & s2 & Hr & H). destruct ap as [w|]; apply ret_inv in H as [Heq ->]; [done|]. injection Heq as ->.
    apply refused_now_none in Hr as (_ & Hb & Hl). pose proof (admit_caller _ _ _ _ _ _ Ha) as (p0 & ? & ? & ? & Ht).
    exists p0, s1. split_and!; [done|done|done|congruence|done|done].
  - destruct ap as [w|]; apply ret_inv in H as [Heq ->]; [done|]. by apply refused_now_none in Hr as [? _].
Qed.
End LetThrough.

(** * A call's slot *)

(** The calls and streams held are as [l] has them. *)
Definition holds_as (l : Limits) (s : DoorState) : Prop :=
  running (ds_limits s) = running l /\ listening (ds_limits s) = listening l /\ overall (ds_limits s) = overall l /\ slots (ds_limits s) = slots l.

Section HoldsAs.
Variable l : Limits.

Lemma on_desk_holds {A} (m : M exn Desk A) : preserves (holds_as l) (on_desk m).
Proof. intros s Hs. unfold on_desk. by destruct (m (ds_desk s)). Qed.

Lemma on_keys_holds {A} (m : M exn SigningKeys A) : preserves (holds_as l) (on_keys m).
Proof. intros s Hs. unfold on_keys. by destruct (m (ds_keys s)). Qed.

Lemma take_holds cfg a t : preserves (holds_as l) (on_limits (take cfg a t)).
Proof. intros s Hs. unfold on_limits, take. by destruct (negb _). Qed.
End HoldsAs.

#[export] Hint Resolve on_desk_holds on_keys_holds take_holds : keeps.

Section Slots.
Variables (host : Site) (provider : IdentityProvider) (cfg : LimitSettings) (net : Tailnet) (site_url : string -> string) (agent_policy : string).
Variables (now mono : Z).

Lemma admit_holds l bearer i source : preserves (holds_as l) (admit_bearer host provider cfg net now mono bearer i source).
Proof.
  intros s Hs. unfold admit_bearer.
  assert (forall u, preserves (holds_as l) (_ ← on_desk (on_db (record_denial host now i (ua_code u) "" "" source "" false "")); (mret (NoCaller u) : M exn DoorState AdmittedAs))) as Hu.
  { intros u. apply preserves_bind; [auto with keeps|]. intros _. apply preserves_ret. }
  destruct (decide (bearer = "")); [by apply Hu|].
  assert (preserves (holds_as l) (principal_of_bearer host provider now bearer i)) as Hp.
  { unfold principal_of_bearer. apply preserves_bind; auto with keeps. }
  specialize (Hp s Hs). destruct (principal_of_bearer _ _ _ _ _ s) as [[p|e] s0]; cbn in Hp; [|destruct (unadmitted_of e); [by apply Hu|done]].
  revert s0 Hp. change (preserves (holds_as l) (admit_principal cfg net now mono p source)). unfold admit_principal.
  apply preserves_bind; [auto with keeps|]. intros [lim|]; [apply preserves_ret|].
  apply preserves_bind; [auto with keeps|intros _]. apply preserves_bind; [auto with keeps|intros _]. destruct (pl_refused _); apply preserves_ret.
Qed.

Lemma refused_now_holds l p stopped source : preserves (holds_as l) (refused_now host site_url agent_policy now mono p stopped source).
Proof.
  unfold refused_now, limited_here. destruct stopped as [[lim|r]|]; [eauto 6 with keeps..|].
  apply preserves_bind; [auto with keeps|]. intros [r|]; eauto 6 with keeps.
Qed.

Lemma admit_token_holds l bearer source : preserves (holds_as l) (admit_token host provider cfg net site_url agent_policy now mono bearer source).
Proof.
  unfold admit_token. apply preserves_bind; [apply admit_holds|]. intros [p|p why|u]; [..|apply preserves_ret];
    (apply preserves_bind; [apply refused_now_holds|intros [w|]; apply preserves_ret]).
Qed.

(** Occupying a slot and giving it back leaves the counts as they were. *)
Lemma occupied_then_released a l slot l1 l2 : limits_ok cfg l -> occupy cfg a l = (inr slot, l1) ->
  running l2 = running l1 -> listening l2 = listening l1 -> overall l2 = overall l1 -> slots l2 = slots l1 ->
  exists l3, release slot l2 = Some l3 /\ running l3 = running l /\ listening l3 = listening l /\ overall l3 = overall l.
Proof.
  intros Hok Ho Hr Hl Hov Hs. unfold occupy in Ho. destruct (_ <=? _)%Z; [done|]. destruct (_ <=? _)%Z; [done|]. injection Ho as <- <-. cbn in *.
  unfold release, given_back. rewrite Hs, lookup_app_r, Nat.sub_diag by lia. cbn. unfold count_down. rewrite Hr, lookup_insert_eq. cbn.
  eexists. split; [reflexivity|]. cbn. split_and!; [|congruence|rewrite Hov; lia].
  destruct (ok_running _ _ Hok a) as [Hn Hz]. destruct (running l !! a) as [n|] eqn:Hget; cbn.
  - replace (n + 1 - 1)%Z with n by lia. destruct (n =? 0)%Z eqn:H0; [apply Z.eqb_eq in H0; subst; done|].
    rewrite delete_insert_eq, insert_delete_eq. by apply insert_id.
  - rewrite delete_insert_eq. by apply delete_id.
Qed.

Lemma at_once_cases p source s o s' : at_once host cfg now mono p source s = (o, s') ->
  (ds_limits s' = ds_limits s /\ (forall slot, o <> Ok (inr slot))) \/
  (exists slot, o = Ok (inr slot) /\ occupy cfg (agent_subject p) (ds_limits s) = (inr slot, ds_limits s')).
Proof.
  unfold at_once. intros [(held & s1 & (a & [= <-] & Ho & _)%on_limits_inv & H)|(e & (a & Hf & _)%on_limits_inv & _)]%bind_inv; [|done].
  destruct held as [lim|slot].
  - left. assert (ds_limits s1 = ds_limits s) as Hl1. { unfold occupy in Ho. repeat case_match; by simplify_eq. }
    unfold limited_here in H. apply bind_inv in H as [(u & s2 & (_ & _ & Hl2)%on_desk_inv & [-> ->]%ret_inv)|(e & (_ & _ & Hl2)%on_desk_inv & ->)];
      (split; [congruence|done]).
  - right. apply ret_inv in H as [-> ->]. by exists slot.
Qed.

Lemma answering_limits {A} p (view : M exn DoorState A) s : (forall st, ds_limits (view st).2 = ds_limits st) ->
  exists a s', answering host now p view s = (Ok a, s') /\ ds_limits s' = ds_limits s.
Proof.
  intros Hview. specialize (Hview s). unfold answering. destruct (view s) as [[a|e] s1]; cbn in Hview; [by eauto|].
  destruct (_ || _); [|by eauto]. unfold mbind, M_bind, on_desk, on_db.
  pose proof (record_denial_answers host now (interface p) (r_code (mapped e "")) (actor p) "" "" "" true (device p) (dk_db (ds_desk s1))) as Hr.
  destruct (record_denial _ _ _ _ _ _ _ _ _ _ _) as [[[]|x] db']; [|done]. by eauto.
Qed.

(** Whatever its view answers or raises, and whoever refuses it, a call that is over holds nothing:
    the calls in flight and the streams open are counted as they were before it came. *)
Theorem call_gives_its_slot_back {A} (bearer source : string) (view : Principal -> M exn DoorState A) (s : DoorState) :
  limits_ok cfg (ds_limits s) -> (forall p st, ds_limits (view p st).2 = ds_limits st) ->
  let s' := (run_for_agent host provider cfg net site_url agent_policy now mono bearer source view s).2 in
  running (ds_limits s') = running (ds_limits s) /\ listening (ds_limits s') = listening (ds_limits s) /\ overall (ds_limits s') = overall (ds_limits s).
Proof.
  intros Hok Hview. cbv zeta. destruct (run_for_agent _ _ _ _ _ _ _ _ _ _ _ s) as [o s'] eqn:H. cbn [snd]. unfold run_for_agent in H.
  pose proof (admit_token_holds (ds_limits s) bearer source s ltac:(done)) as Hadm.
  apply bind_inv in H as [([p|r] & s1 & Hrun & H)|(e & Hrun & _)]; rewrite Hrun in Hadm; destruct Hadm as (Hr & Hl & Ho & Hs); cbn [snd] in *;
    [|by run|done].
  assert (limits_ok cfg (ds_limits s1)) as Hok1.
  { destruct Hok as [H1 H2 H3 H4 H5 H6]. constructor; rewrite ?Hr, ?Hl, ?Ho, ?Hs; done. }
  rewrite <- Hr, <- Hl, <- Ho.
  apply bind_inv in H as [(busy & s2 & Hat & H)|(e & Hat & _)]; destruct (at_once_cases _ _ _ _ _ Hat) as [[Hsame Hno]|(slot & Heq & Hocc)];
    [|injection Heq as ->|by rewrite Hsame|done].
  - destruct busy as [lim|slot]; [|by destruct (Hno slot)]. apply ret_inv in H as [_ ->]. by rewrite Hsame.
  - destruct (answering_limits p (view p) s2 (Hview p)) as (a & s3 & Ha & Hl3). rewrite (bind_step _ _ _ _ _ Ha) in H.
    destruct (occupied_then_released _ _ _ _ (ds_limits s3) Hok1 Hocc) as (l3 & Hrel & Hr3 & Hli3 & Ho3); [by rewrite Hl3..|].
    unfold mbind, M_bind, give_back in H. rewrite Hrel in H. injection H as <- <-. done.
Qed.

End Slots.

(** * On concrete requests *)

Definition bot_provider : IdentityProvider := mkIdentityProvider "https://hq.example" "https://id.example"
  (fun _ => Some [("typ", JStr "at+jwt"); ("kid", JStr "k1")])
  (fun _ _ _ _ _ => Some [("client_id", JStr "bot"); ("sub", JStr "ada"); ("scope", JStr "openid read")]).
Definition no_tailnet : Tailnet := mkTailnet "" (fun _ => inl "").
Definition idle_door : DoorState := mkDoorState (mkSigningKeys {[ "k1" := "a key" ]} false) no_limits
  (mkDesk ∅ (set_db_users [mkUser 7 "ada" (sign_in_subject (h_sha256 demo_host) "https://id.example" "ada") "operator"] empty_db)).
Definition in_url (path : string) : string := "https://hq.example" +:+ path.
Definition names_caller (p : Principal) : M exn DoorState string := mret (actor p).
Definition first_call := run_for_agent demo_host bot_provider one_call_settings no_tailnet in_url "/agents/" 9 9 "token" "10.0.0.9" names_caller idle_door.
Definition called_door : DoorState := first_call.2.
Definition second_admission := admit_bearer demo_host bot_provider one_call_settings no_tailnet 9 9 "token" API_INTERFACE "10.0.0.9" called_door.

Lemma idle_limits_ok : limits_ok one_call_settings (ds_limits idle_door).
Proof. constructor; cbn; try done; intros a; by split. Qed.


Lemma call_gives_its_slot_back_witness : running (ds_limits called_door) = running (ds_limits idle_door).
Proof.
  exact (proj1 (call_gives_its_slot_back demo_host bot_provider one_call_settings no_tailnet in_url "/agents/" 9 9 "token" "10.0.0.9"
    names_caller idle_door idle_limits_ok (fun _ _ => eq_refl))).
Defined.

Lemma flood_writes_nothing_witness : ds_desk second_admission.2 = ds_desk called_door.
Proof.
  destruct second_admission as [[[p|p [l|r]|u]|e] s'] eqn:H;
    [exfalso; vm_compute in H; discriminate H| |exfalso; vm_compute in H; discriminate H..].
  exact (proj1 (proj2 (proj2 (flood_writes_nothing demo_host bot_provider one_call_settings no_tailnet 9 9 "token" API_INTERFACE "10.0.0.9"
    called_door s' p l H)))).
Defined.
