(* ===== verification/Ordered.v ===== *)
(** Values a database sorts by: a typeclass of total comparisons, with the columns HQ orders lists
    by as instances, and the sorting of rows under a keyset of them. *)
From stdpp Require Import base list sorting strings.
From Stdlib Require Import Ascii ZArith Lia.
From S2P Require Import Prelude.

(** A comparison that orders all of [A]. *)
Class Compared (A : Type) := {
  cmp : A -> A -> comparison;
  cmp_eq x y : cmp x y = Eq <-> x = y;
  cmp_opp x y : cmp y x = CompOpp (cmp x y);
  cmp_trans x y z : cmp x y = Lt -> cmp y z = Lt -> cmp x z = Lt;
}.

#[export] Instance Z_compared : Compared Z.
Proof.
  refine {| cmp := Z.compare |}.
  - apply Z.compare_eq_iff.
  - intros x y. apply Z.compare_antisym.
  - apply Zcompare.Zcompare_Lt_trans.
Defined.

Lemma ascii_compare_trans a b c : Ascii.compare a b = Lt -> Ascii.compare b c = Lt -> Ascii.compare a c = Lt.
Proof. unfold Ascii.compare. rewrite !N.compare_lt_iff. lia. Qed.

Lemma ascii_compare_refl a : Ascii.compare a a = Eq.
Proof. apply N.compare_refl. Qed.

Lemma string_compare_trans x y z : String.compare x y = Lt -> String.compare y z = Lt -> String.compare x z = Lt.
Proof.
  revert y z. induction x as [|a x IH]; intros [|b y] [|c z]; cbn; try done.
  destruct (Ascii.compare a b) eqn:Hab, (Ascii.compare b c) eqn:Hbc; try done; intros H1 H2.
  - apply Ascii.compare_eq_iff in Hab as ->, Hbc as ->. rewrite ascii_compare_refl. by eapply IH.
  - apply Ascii.compare_eq_iff in Hab as ->. by rewrite Hbc.
  - apply Ascii.compare_eq_iff in Hbc as ->. by rewrite Hab.
  - by rewrite (ascii_compare_trans _ _ _ Hab Hbc).
Qed.

Lemma string_compare_eq x y : String.compare x y = Eq <-> x = y.
Proof.
  split; [apply String.compare_eq_iff|]. intros <-. induction x as [|a x IH]; cbn; [done|]. by rewrite ascii_compare_refl.
Qed.

#[export] Instance string_compared : Compared string.
Proof.
  refine {| cmp := String.compare |}.
  - apply string_compare_eq.
  - intros x y. apply String.compare_antisym.
  - apply string_compare_trans.
Defined.

(** What a column holds: a number, a text or a moment. *)
Inductive Value : Type := VInt (z : Z) | VText (s : string) | VMoment (t : Z).

#[export] Instance Value_eq_dec : EqDecision Value.
Proof. solve_decision. Defined.

Definition value_compare (a b : Value) : comparison :=
  match a, b with
  | VInt x, VInt y | VMoment x, VMoment y => cmp x y
  | VText x, VText y => cmp x y
  | VInt _, _ | VText _, VMoment _ => Lt
  | _, _ => Gt
  end.

#[export] Instance Value_compared : Compared Value.
Proof.
  refine {| cmp := value_compare |}.
  - intros [x|x|x] [y|y|y]; cbn; try done; rewrite ?Z.compare_eq_iff, ?string_compare_eq; split; congruence.
  - intros [x|x|x] [y|y|y]; cbn; try done; first [apply Z.compare_antisym|apply String.compare_antisym].
  - intros [x|x|x] [y|y|y] [z|z|z]; cbn; try done; first [apply Zcompare.Zcompare_Lt_trans|apply string_compare_trans].
Defined.

(** * Rows under a keyset

    A row's key is its values in the order of the keyset; [descends] says, key by key, which way
    each runs. *)
Section Keys.
Context {V : Type} {Hv : Compared V}.

(** The comparison of one column, run backwards where it descends. *)
Definition cmp_in (descends : bool) (x y : V) : comparison := if descends then cmp y x else cmp x y.

Fixpoint before (descends : list bool) (a b : list V) : bool :=
  match descends, a, b with
  | d :: ds, x :: xs, y :: ys => match cmp_in d x y with Lt => true | Eq => before ds xs ys | Gt => false end
  | _, _, _ => false
  end.

Lemma cmp_refl (x : V) : cmp x x = Eq.
Proof. by apply cmp_eq. Qed.

Lemma cmp_in_eq d (x y : V) : cmp_in d x y = Eq <-> x = y.
Proof. unfold cmp_in. destruct d; rewrite cmp_eq; naive_solver. Qed.

Lemma cmp_in_opp d (x y : V) : cmp_in d y x = CompOpp (cmp_in d x y).
Proof. unfold cmp_in. destruct d; apply cmp_opp. Qed.

Lemma cmp_in_trans d (x y z : V) : cmp_in d x y = Lt -> cmp_in d y z = Lt -> cmp_in d x z = Lt.
Proof. unfold cmp_in. destruct d; intros; by eapply cmp_trans. Qed.

Lemma before_irrefl ds (a : list V) : before ds a a = false.
Proof.
  revert a. induction ds as [|d ds IH]; intros [|x a]; try done. cbn. by rewrite (proj2 (cmp_in_eq d x x) eq_refl).
Qed.

Lemma before_trans ds (a b c : list V) : before ds a b = true -> before ds b c = true -> before ds a c = true.
Proof.
  revert a b c. induction ds as [|d ds IH]; intros [|x a] [|y b] [|z c]; try done. cbn.
  destruct (cmp_in d x y) eqn:Hxy, (cmp_in d y z) eqn:Hyz; try done; intros H1 H2.
  - apply cmp_in_eq in Hxy as ->, Hyz as ->. rewrite (proj2 (cmp_in_eq d z z) eq_refl). by eapply IH.
  - apply cmp_in_eq in Hxy as ->. by rewrite Hyz.
  - apply cmp_in_eq in Hyz as ->. by rewrite Hxy.
  - by rewrite (cmp_in_trans _ _ _ _ Hxy Hyz).
Qed.

Lemma before_total ds (a b : list V) : length a = length ds -> length b = length ds -> a <> b -> before ds a b = true \/ before ds b a = true.
Proof.
  revert a b. induction ds as [|d ds IH]; intros [|x a] [|y b]; try done. cbn. intros [= Ha] [= Hb] Hne.
  rewrite (cmp_in_opp d x y). destruct (cmp_in d x y) eqn:Hxy; cbn; [|by left|by right].
  apply cmp_in_eq in Hxy as ->. apply IH; [done|done|congruence].
Qed.
End Keys.

(** * Sorting *)

Section Sort.
Context {A : Type} (lt : A -> A -> bool).

Fixpoint insert_row (x : A) (rows : list A) : list A :=
  match rows with [] => [x] | y :: ys => if lt y x then y :: insert_row x ys else x :: rows end.

(** [ORDER BY] *)
Definition sort_rows (rows : list A) : list A := fold_right insert_row [] rows.

Lemma insert_row_perm x rows : insert_row x rows ≡ₚ x :: rows.
Proof. induction rows as [|y ys IH]; cbn; [done|]. destruct (lt y x); [|done]. rewrite IH. constructor. Qed.

Lemma sort_rows_perm rows : sort_rows rows ≡ₚ rows.
Proof. induction rows as [|x xs IH]; cbn; [done|]. by rewrite insert_row_perm, IH. Qed.

Lemma elem_of_sort_rows rows x : x ∈ sort_rows rows <-> x ∈ rows.
Proof. by rewrite sort_rows_perm. Qed.

Lemma length_sort_rows rows : length (sort_rows rows) = length rows.
Proof. by rewrite sort_rows_perm. Qed.

Context (lt_trans : forall x y z, lt x y = true -> lt y z = true -> lt x z = true).

Definition ascends : relation A := fun x y => lt x y = true.

Lemma insert_row_sorted x rows :
  StronglySorted ascends rows -> (forall y, y ∈ rows -> lt x y = true \/ lt y x = true) -> StronglySorted ascends (insert_row x rows).
Proof.
  induction rows as [|y ys IH]; cbn; intros Hs Ht; [by repeat constructor|]. apply StronglySorted_cons in Hs as [Hy Hs].
  destruct (lt y x) eqn:Hyx.
  - apply StronglySorted_cons. split; [|apply IH; [done|]; intros z Hz; apply Ht; by right].
    apply Forall_forall. intros z Hz. rewrite insert_row_perm in Hz. apply elem_of_cons in Hz as [->|Hz]; [done|].
    rewrite Forall_forall in Hy. by apply Hy.
  - assert (lt x y = true) as Hxy by (destruct (Ht y (list_elem_of_here _ _)); congruence).
    apply StronglySorted_cons. split; [|by apply StronglySorted_cons]. apply Forall_cons. split; [done|].
    apply Forall_forall. intros z Hz. rewrite Forall_forall in Hy. eapply lt_trans; [done|by apply Hy].
Qed.

(** Rows any two of which are in order sort into one order. *)
Lemma sort_rows_sorted rows :
  NoDup rows -> (forall x y, x ∈ rows -> y ∈ rows -> x <> y -> lt x y = true \/ lt y x = true) -> StronglySorted ascends (sort_rows rows).
Proof.
  induction rows as [|x xs IH]; cbn; intros Hnd Ht; [constructor|]. apply NoDup_cons in Hnd as [Hx Hnd]. apply insert_row_sorted.
  - apply IH; [done|]. intros y z Hy Hz. apply Ht; by right.
  - intros y Hy. rewrite sort_rows_perm in Hy. apply Ht; [by left|by right|by intros <-].
Qed.

(** Two sorted lists of the same rows are the same list. *)
Lemma sorted_unique (l1 l2 : list A) : (forall x, lt x x = false) ->
  StronglySorted ascends l1 -> StronglySorted ascends l2 -> (forall x, x ∈ l1 <-> x ∈ l2) -> l1 = l2.
Proof.
  intros Hirr. revert l2. induction l1 as [|x xs IH]; intros [|y ys] H1 H2 Hin; [done| | |].
  - exfalso. apply (not_elem_of_nil y), Hin. by left.
  - exfalso. apply (not_elem_of_nil x), Hin. by left.
  - apply StronglySorted_cons in H1 as [Hx H1], H2 as [Hy H2]. rewrite Forall_forall in Hx, Hy.
    assert (x = y) as <-.
    { destruct (proj1 (elem_of_cons ys x y) (proj1 (Hin x) (list_elem_of_here _ _))) as [|Hxy]; [done|].
      destruct (proj1 (elem_of_cons xs y x) (proj2 (Hin y) (list_elem_of_here _ _))) as [|Hyx]; [done|].
      specialize (Hirr x). specialize (lt_trans x y x (Hx y Hyx) (Hy x Hxy)). congruence. }
    f_equal. apply IH; [done|done|]. intros z. split; intros Hz.
    + assert (z <> x) as Hne by (intros ->; specialize (Hx x Hz); unfold ascends in Hx; by rewrite Hirr in Hx).
      destruct (proj1 (elem_of_cons ys z x) (proj1 (Hin z) (list_elem_of_further _ _ _ Hz))); done.
    + assert (z <> x) as Hne by (intros ->; specialize (Hy x Hz); unfold ascends in Hy; by rewrite Hirr in Hy).
      destruct (proj1 (elem_of_cons xs z x) (proj2 (Hin z) (list_elem_of_further _ _ _ Hz))); done.
Qed.

(** Cutting a sorted list: what is cut off comes after everything kept, the last kept row included. *)
Lemma sorted_cut n (rows : list A) : (0 < n)%nat -> (n < length rows)%nat -> StronglySorted ascends rows ->
  exists low, last (firstn n rows) = Some low /\ low ∈ firstn n rows /\
    (forall x, x ∈ firstn n rows -> x = low \/ lt x low = true) /\
    (forall x y, x ∈ firstn n rows -> y ∈ skipn n rows -> lt x y = true).
Proof.
  intros Hn Hlen Hs. rewrite <- (firstn_skipn n rows) in Hs. apply StronglySorted_app in Hs as (Hcross & Hkept & _).
  destruct (last (firstn n rows)) as [low|] eqn:Hlast.
  2: { apply last_None in Hlast. apply (f_equal length) in Hlast. rewrite length_firstn in Hlast. cbn in Hlast. lia. }
  exists low. apply last_Some in Hlast as [kept Hk]. rewrite Hk in Hkept |- *. apply StronglySorted_app in Hkept as (Hlow & _ & _).
  split_and!; [done|apply elem_of_app; right; by left| |].
  - intros x [Hx|Hx%list_elem_of_singleton]%elem_of_app; [|by left]. right. apply Hlow; [done|by left].
  - rewrite <- Hk. intros x y Hx Hy. by apply Hcross.
Qed.
End Sort.
