(* ===== verification/Projection.v ===== *)
(** How a list is read a page at a time ([projection.py]): a keyset cut of a queryset, resumed
    from the position the page before it answered with, and a window on a list derived whole.

    A queryset is its rows; [filter], [order_by] and slicing are the database's, by the columns'
    order.  [column_read] is how Django reads a cursor's value back for a column ([None] where it
    raises), a parameter. *)
From stdpp Require Import base list sorting strings pretty.
From Stdlib Require Import Ascii ZArith Lia.
From S2P Require Import Prelude PyStr Json Refusals Security Models Ordered.

#[local] Open Scope string_scope.

Definition MAX_PAGE_SIZE : Z := 100.

(** [page_size(limit, maximum=...)] *)
Definition page_size (limit maximum : Z) : outcome exn nat :=
  if (limit <? 1)%Z then Raise (ValueError "limit must be at least 1") else Ok (Z.to_nat (Z.min limit maximum)).

(** [PageScope], and what it answers: [_claimed] for the first cut alone. *)
Record PageScope : Type := mkPageScope { ps_position : option dict; ps_claimed : bool; ps_after : option dict }.

(** A cut runs with the list read's scope, or with none. *)
Definition Paged (A : Type) : Type := M exn (option PageScope) A.

(** [_claimed()]: whether this cut is the list read's, and the position it resumes from. *)
Definition claimed : Paged (option (option dict)) := act (fun scope =>
  match scope with
  | Some s => if ps_claimed s then (Ok None, scope) else (Ok (Some (ps_position s)), Some (mkPageScope (ps_position s) true (ps_after s)))
  | None => (Ok None, None)
  end).

(** [scope.after = ...] of the scope a cut claimed. *)
Definition set_after (after : option dict) : Paged unit :=
  modify (fun scope => match scope with Some s => Some (mkPageScope (ps_position s) (ps_claimed s) after) | None => None end).

Definition CursorRefusal : exn := QueryRefusal "cursor was issued for another order of this list.".

(** What a page answers: the rows, how many, how many in all, and whether more follow (told only to a list read). *)
Record Page (A : Type) : Type := mkPage { pg_items : list A; pg_count : nat; pg_total : nat; pg_truncated : option bool }.
Arguments mkPage {A} _ _ _ _.
Arguments pg_items {A} _.
Arguments pg_count {A} _.
Arguments pg_total {A} _.
Arguments pg_truncated {A} _.

(** [_cursor_value(value)] *)
Definition cursor_value (v : Value) : json :=
  match v with VInt z => JNum z | VText s => JStr s | VMoment t => JStr (isoformat t) end.

(** * The model read *)

(** What a cut reads of a model: its name, its primary key's, which of its columns may be null
    ([None] for a name that is no field), and each row's value of a column. *)
Record Meta (Row : Type) : Type := mkMeta {
  mt_name : string;
  mt_pk : string;
  mt_null : string -> option bool;
  mt_column : string -> Row -> Value;
}.
Arguments mkMeta {Row} _ _ _ _.
Arguments mt_name {Row} _.
Arguments mt_pk {Row} _.
Arguments mt_null {Row} _.
Arguments mt_column {Row} _ _ _.

Section Paging.
Context {Row : Type} (meta : Meta Row) (column_read : string -> json -> option Value).

(** A column by its name or by ["pk"]. *)
Definition column (name : string) (r : Row) : Value := mt_column meta (if decide (name = "pk") then mt_pk meta else name) r.

(** [name.removeprefix("-"), name.startswith("-")] *)
Definition ordered_by (name : string) : string * bool :=
  match name with String "-" rest => (rest, true) | _ => (name, false) end.

Definition is_key (name : string) : bool := bool_decide (name = "pk") || bool_decide (name = mt_pk meta).

(** The keys of [_keyset] before their check. *)
Definition keys_of (order : list string) : list (string * bool) :=
  let keys := map ordered_by order in
  if existsb (fun k => is_key k.1) keys then keys else (keys ++ [("pk", match last keys with Some k => k.2 | None => false end)])%list.

(** The check of [_keyset]: a column is a field, and never null. *)
Fixpoint pageable (keys : list (string * bool)) : outcome exn unit :=
  match keys with
  | [] => Ok tt
  | (name, _) :: rest =>
      match (if decide (name = "pk") then Some (default false (mt_null meta (mt_pk meta))) else mt_null meta name) with
      | None => Raise (OtherError "FieldDoesNotExist" name)
      | Some true => Raise (OtherError "TypeError" (mt_name meta +:+ "." +:+ name +:+ " is nullable, so a list cannot page by it."))
      | Some false => pageable rest
      end
  end.

(** [_keyset(qs, order)] *)
Definition keyset (order : list string) : outcome exn (list (string * bool)) :=
  match pageable (keys_of order) with Ok _ => Ok (keys_of order) | Raise e => Raise e end.

(** A row's key, and the order of rows by it: [order_by(...)]. *)
Definition key_of (keys : list (string * bool)) (r : Row) : list Value := map (fun k => column k.1 r) keys.
Definition row_before (keys : list (string * bool)) (x y : Row) : bool := before (map snd keys) (key_of keys x) (key_of keys y).
Definition order_rows (keys : list (string * bool)) (rows : list Row) : list Row := sort_rows (row_before keys) rows.

Definition json_names (keys : list (string * bool)) : json := JList (map (fun k => JStr k.1) keys).

(** The values of a cursor as Django reads them for each column. *)
Fixpoint read_values (keys : list (string * bool)) (values : list json) : option (list Value) :=
  match keys, values with
  | k :: ks, v :: vs =>
      match column_read k.1 v, read_values ks vs with Some x, Some xs => Some (x :: xs) | _, _ => None end
  | _, _ => Some []
  end.

(** The [step] of [_past] at one index: tied on each earlier key and past it here. *)
Definition step_past (keys : list (string * bool)) (values : list Value) (r : Row) (index : nat) : bool :=
  forallb (fun kv => bool_decide (column kv.1.1 r = kv.2)) (firstn index (combine keys values)) &&
  match combine keys values !! index with
  | Some ((name, descending), v) => match cmp (column name r) v with Lt => descending | Gt => negb descending | Eq => false end
  | None => false
  end.

(** The [Q] of [_past]: a disjunction over the keys. *)
Definition past_values (keys : list (string * bool)) (values : list Value) (r : Row) : bool :=
  existsb (step_past keys values r) (seq 0 (length keys)).

(** [_past(keys, position)], applied to a row. *)
Definition past (keys : list (string * bool)) (position : dict) : outcome exn (Row -> bool) :=
  match dget "order" position, dget "keys" position with
  | Some order, Some (JList values) =>
      if negb (bool_decide (order = json_names keys)) || negb (length values =? length keys)%nat then Raise CursorRefusal
      else match read_values keys values with
           | Some vs => Ok (past_values keys vs)
           | None => Raise (ValueError "Field expected another value.")
           end
  | _, _ => Raise CursorRefusal
  end.

(** The position a page leaves: its last row's key. *)
Definition position_of (keys : list (string * bool)) (r : Row) : dict :=
  [("order", json_names keys); ("keys", JList (map cursor_value (key_of keys r)))].

(** [keyset_page(qs, order, limit)] *)
Definition keyset_page (rows : list Row) (order : list string) (limit : Z) : Paged (Page Row) :=
  keys ← lift (keyset order);
  scope ← claimed;
  size ← lift (page_size limit MAX_PAGE_SIZE);
  let position := match scope with Some p => p | None => None end in
  after ← lift (match position with Some p => past keys p | None => Ok (fun _ => true) end);
  let cut := firstn (S size) (order_rows keys (rows_where after rows)) in
  let page := firstn size cut in
  let more := (size <? length cut)%nat in
  let total := if more || is_some position then length rows else length page in
  match scope with
  | None => mret (mkPage page (length page) total None)
  | Some _ =>
      _ ← set_after (if more then match last page with Some r => Some (position_of keys r) | None => None end else None);
      mret (mkPage page (length page) total (Some more))
  end.

(** [window(items, limit, maximum=...)] *)
Definition window (items : list Row) (limit maximum : Z) : Paged (Page Row) :=
  scope ← claimed;
  size ← lift (page_size limit maximum);
  start ← lift (match scope with
                | Some (Some p) => match dget "at" p with
                                   | Some (JNum at_) => if (at_ <? 0)%Z then Raise CursorRefusal else Ok (Z.to_nat at_)
                                   | _ => Raise CursorRefusal
                                   end
                | _ => Ok 0%nat
                end);
  let page := firstn size (skipn start items) in
  let more := (start + size <? length items)%nat in
  match scope with
  | None => mret (mkPage page (length page) (length items) None)
  | Some _ =>
      _ ← set_after (if more then Some [("at", JNum (Z.of_nat (start + size)))] else None);
      mret (mkPage page (length page) (length items) (Some more))
  end.

(** One list read: its handler's cut inside [paging(position)]: the page, and where it stopped. *)
Definition paged (cut : Paged (Page Row)) (position : option dict) : outcome exn (Page Row * option dict) :=
  match cut (Some (mkPageScope position false None)) with
  | (Ok page, Some scope) => Ok (page, ps_after scope)
  | (Ok page, None) => Ok (page, None)
  | (Raise e, _) => Raise e
  end.

(** A list read whole: each cut resumes where the page before it stopped, one cut a read, until
    none follows.  The rows of the pages, and whether the last of them was reached. *)
Fixpoint read_pages (cuts : list (Paged (Page Row))) (position : option dict) : outcome exn (list Row * bool) :=
  match cuts with
  | [] => Ok ([], false)
  | cut :: rest =>
      match paged cut position with
      | Raise e => Raise e
      | Ok (page, None) => Ok (pg_items page, true)
      | Ok (page, Some p) =>
          match read_pages rest (Some p) with
          | Ok (rows, ended) => Ok ((pg_items page ++ rows)%list, ended)
          | Raise e => Raise e
          end
      end
  end.
End Paging.

(** * What a position is past *)

Section Walk.
Context {Row : Type} (meta : Meta Row) (column_read : string -> json -> option Value).

Notation column := (column meta).
Notation key_of := (key_of meta).
Notation row_before := (row_before meta).

Lemma step_past_later k ks v vs r i :
  step_past meta (k :: ks) (v :: vs) r (S i) = bool_decide (column k.1 r = v) && step_past meta ks vs r i.
Proof. unfold step_past. cbn. by rewrite andb_assoc. Qed.

(** The disjunction [_past] builds is the order of the keyset. *)
Lemma past_values_before keys values r : length values = length keys ->
  past_values meta keys values r = before (map snd keys) values (key_of keys r).
Proof.
  unfold past_values. revert values. induction keys as [|[name d] ks IH]; intros [|v vs]; try done. intros [= Hlen].
  change (seq 0 (length ((name, d) :: ks))) with (0%nat :: seq 1 (length ks)). rewrite <- seq_shift. cbn [existsb map].
  assert (existsb (step_past meta ((name, d) :: ks) (v :: vs) r) (map S (seq 0 (length ks))) =
          bool_decide (column name r = v) && existsb (step_past meta ks vs r) (seq 0 (length ks))) as ->.
  { clear IH Hlen. induction (seq 0 (length ks)) as [|i rest IH]; cbn [existsb map]; [by rewrite andb_false_r|].
    rewrite IH, step_past_later. cbn [fst]. by destruct (bool_decide _). }
  rewrite (IH vs Hlen). cbn [map snd before Projection.key_of fst]. unfold cmp_in.
  assert (step_past meta ((name, d) :: ks) (v :: vs) r 0 = match cmp (column name r) v with Lt => d | Gt => negb d | Eq => false end) as -> by done.
  rewrite (cmp_opp v (column name r)). destruct (cmp v (column name r)) eqn:Hc; cbn [CompOpp].
  - apply cmp_eq in Hc as <-. rewrite bool_decide_eq_true_2 by done. by destruct d.
  - rewrite bool_decide_eq_false_2 by (intros <-; rewrite cmp_refl in Hc; done). by destruct d.
  - rewrite bool_decide_eq_false_2 by (intros <-; rewrite cmp_refl in Hc; done). by destruct d.
Qed.

(** * One page *)

(** A row is found again by the values its page left. *)
Context (reads_back : forall name r, column_read name (cursor_value (column name r)) = Some (column name r)).

Lemma read_values_back keys r : read_values column_read keys (map cursor_value (key_of keys r)) = Some (key_of keys r).
Proof. unfold Projection.key_of. induction keys as [|[name d] ks IH]; [done|]. cbn. by rewrite reads_back, IH. Qed.

Lemma past_position keys r : past meta column_read keys (position_of meta keys r) = Ok (past_values meta keys (key_of keys r)).
Proof.
  unfold past. change (dget "order" (position_of meta keys r)) with (Some (json_names keys)).
  change (dget "keys" (position_of meta keys r)) with (Some (JList (map cursor_value (key_of keys r)))).
  cbv iota beta. rewrite bool_decide_eq_true_2 by done. unfold Projection.key_of at 1. rewrite !length_map, Nat.eqb_refl. cbn [negb orb].
  by rewrite read_values_back.
Qed.

(** The rows after [low], or all of them. *)
Definition beyond (keys : list (string * bool)) (low : option Row) (r : Row) : bool :=
  match low with Some l => row_before keys l r | None => true end.

Definition remaining (keys : list (string * bool)) (low : option Row) (rows : list Row) : list Row :=
  order_rows meta keys (rows_where (beyond keys low) rows).

Definition size_of (limit : Z) : nat := Z.to_nat (Z.min limit MAX_PAGE_SIZE).

(** Where the page past [low] stops: its last row's position, where more are left. *)
Definition page_after (limit : Z) (keys : list (string * bool)) (low : option Row) (rows : list Row) : option dict :=
  if (size_of limit <? length (remaining keys low rows))%nat
  then position_of meta keys <$> last (firstn (size_of limit) (remaining keys low rows)) else None.

(** A page past [low]: the first rows of what is left, and where it stopped. *)
Lemma page_run rows order limit keys low : keyset meta order = Ok keys -> (1 <= limit)%Z ->
  let items := firstn (size_of limit) (remaining keys low rows) in
  exists total,
    keyset_page meta column_read rows order limit (Some (mkPageScope (position_of meta keys <$> low) false None)) =
    (Ok (mkPage items (length items) total (Some (size_of limit <? length (remaining keys low rows))%nat)),
     Some (mkPageScope (position_of meta keys <$> low) true (page_after limit keys low rows))).
Proof.
  intros Hk Hl.
  assert (page_size limit MAX_PAGE_SIZE = Ok (size_of limit)) as Hsize by (unfold page_size; by rewrite (proj2 (Z.ltb_ge _ _)) by lia).
  assert (match position_of meta keys <$> low with Some p => past meta column_read keys p | None => Ok (fun _ => true) end =
          Ok (match low with Some l => past_values meta keys (key_of keys l) | None => fun _ => true end)) as Hpast.
  { destruct low as [l|]; cbn [fmap option_fmap option_map]; [by rewrite past_position|done]. }
  assert (rows_where (match low with Some l => past_values meta keys (key_of keys l) | None => fun _ => true end) rows =
          rows_where (beyond keys low) rows) as Hrows.
  { unfold rows_where. apply filter_ext. intros r. destruct low as [l|]; cbn [beyond]; [|done].
    rewrite past_values_before; [done|]. unfold Projection.key_of. apply length_map. }
  unfold keyset_page, mbind, M_bind, lift, claimed, act. rewrite Hk. cbv beta iota. cbn [ps_claimed ps_position ps_after].
  rewrite Hsize. cbv beta iota zeta. rewrite Hpast. cbv beta iota zeta. rewrite Hrows.
  fold (remaining keys low rows). unfold set_after, modify, mret, M_ret. cbv beta iota zeta. unfold page_after.
  assert ((size_of limit <? length (firstn (S (size_of limit)) (remaining keys low rows)))%nat = (size_of limit <? length (remaining keys low rows))%nat) as ->.
  { rewrite length_firstn. apply eq_true_iff_eq. rewrite !Nat.ltb_lt. lia. }
  rewrite firstn_firstn, Nat.min_l by lia.
  destruct (size_of limit <? length (remaining keys low rows))%nat; [|by eexists].
  destruct (last (firstn (size_of limit) (remaining keys low rows))); by eexists.
Qed.

Lemma page_past rows order limit keys low : keyset meta order = Ok keys -> (1 <= limit)%Z ->
  exists count total more,
    paged (keyset_page meta column_read rows order limit) (position_of meta keys <$> low) =
    Ok (mkPage (firstn (size_of limit) (remaining keys low rows)) count total more, page_after limit keys low rows).
Proof.
  intros Hk Hl. destruct (page_run rows order limit keys low Hk Hl) as [total Hrun]. unfold paged. rewrite Hrun. by do 3 eexists.
Qed.

(** * Rows in the order of a keyset *)

(** A table's rows: one for each primary key. *)
Definition distinct (rows : list Row) : Prop :=
  NoDup rows /\ forall x y, x ∈ rows -> y ∈ rows -> column "pk" x = column "pk" y -> x = y.

Lemma row_before_trans keys x y z : row_before keys x y = true -> row_before keys y z = true -> row_before keys x z = true.
Proof. apply before_trans. Qed.

Lemma row_before_irrefl keys x : row_before keys x x = false.
Proof. apply before_irrefl. Qed.

(** A keyset holds the primary key, so a row's key tells it from any other of its table. *)
Lemma keyset_has_pk order keys x y : keyset meta order = Ok keys -> key_of keys x = key_of keys y -> column "pk" x = column "pk" y.
Proof.
  unfold keyset. destruct (pageable _ _); [|done]. intros [= <-].
  assert (exists k, k ∈ keys_of meta order /\ is_key meta k.1 = true) as (k & Hk & Hpk).
  { unfold keys_of. destruct (existsb _ _) eqn:Hex.
    - apply existsb_exists in Hex as (k & Hin & Hk). exists k. split; [by apply list_elem_of_In|done].
    - eexists (_, _). split; [apply elem_of_app; right; by left|]. unfold is_key. cbn [fst]. by rewrite bool_decide_eq_true_2. }
  intros Heq. assert (column k.1 x = column k.1 y) as Hcol.
  { unfold Projection.key_of in Heq. revert Hk Heq. generalize (keys_of meta order). intros ks. induction ks as [|k' ks IH]; intros Hin Hm.
    - by apply elem_of_nil in Hin.
    - cbn in Hm. injection Hm as H1 H2. apply elem_of_cons in Hin as [->|Hin]; [done|by apply IH]. }
  unfold is_key in Hpk. apply orb_true_iff in Hpk as [Hpk|Hpk]; apply bool_decide_eq_true in Hpk; rewrite Hpk in Hcol; [done|].
  unfold Projection.column in *. case_decide; [done|]. by rewrite decide_True.
Qed.

Lemma length_key_of keys r : length (key_of keys r) = length (map snd keys).
Proof. unfold Projection.key_of. by rewrite !length_map. Qed.

Lemma row_before_total order keys rows x y : keyset meta order = Ok keys -> distinct rows ->
  x ∈ rows -> y ∈ rows -> x <> y -> row_before keys x y = true \/ row_before keys y x = true.
Proof.
  intros Hk [_ Hd] Hx Hy Hne. apply before_total; [apply length_key_of|apply length_key_of|].
  intros Heq. apply Hne, Hd; [done|done|]. by eapply keyset_has_pk.
Qed.

Lemma elem_of_remaining keys low rows r : r ∈ remaining keys low rows <-> beyond keys low r = true /\ r ∈ rows.
Proof. unfold remaining, order_rows. rewrite elem_of_sort_rows, !list_elem_of_In. unfold rows_where. rewrite filter_In. tauto. Qed.

Lemma remaining_sorted order keys low rows : keyset meta order = Ok keys -> distinct rows ->
  StronglySorted (ascends (row_before keys)) (remaining keys low rows).
Proof.
  intros Hk Hd. apply sort_rows_sorted.
  - apply row_before_trans.
  - destruct Hd as [Hnd _]. apply NoDup_ListNoDup, List.NoDup_filter. by apply NoDup_ListNoDup.
  - intros x y Hx Hy. unfold rows_where in *. rewrite list_elem_of_In, filter_In, <- list_elem_of_In in Hx, Hy.
    eapply row_before_total; [done..|tauto|tauto].
Qed.

Lemma size_of_pos limit : (1 <= limit)%Z -> (0 < size_of limit)%nat.
Proof. unfold size_of, MAX_PAGE_SIZE. lia. Qed.

(** Past a page's last row is what the page left. *)
Lemma remaining_next order limit keys low rows : keyset meta order = Ok keys -> (1 <= limit)%Z -> distinct rows ->
  (size_of limit < length (remaining keys low rows))%nat ->
  exists l, last (firstn (size_of limit) (remaining keys low rows)) = Some l /\
    (forall r, r ∈ firstn (size_of limit) (remaining keys low rows) -> r = l \/ row_before keys r l = true) /\
    remaining keys (Some l) rows = skipn (size_of limit) (remaining keys low rows).
Proof.
  intros Hk Hl Hd Hlen. pose proof (remaining_sorted order keys low rows Hk Hd) as Hs.
  destruct (sorted_cut _ _ _ (size_of_pos limit Hl) Hlen Hs) as (l & Hlast & Hin & Hkept & Hcross).
  exists l. split_and!; [done|done|]. apply (sorted_unique (row_before keys)).
  - apply row_before_trans.
  - apply row_before_irrefl.
  - by eapply remaining_sorted.
  - rewrite <- (firstn_skipn (size_of limit) (remaining keys low rows)) in Hs. by apply StronglySorted_app in Hs as (_ & _ & Hs).
  - intros r. rewrite elem_of_remaining. cbn [beyond]. split.
    + intros [Hlr Hr]. assert (r ∈ remaining keys low rows) as Hrem.
      { apply elem_of_remaining. split; [|done]. assert (l ∈ remaining keys low rows) as Hlrem.
        { rewrite <- (firstn_skipn (size_of limit) (remaining keys low rows)). apply elem_of_app. by left. }
        apply elem_of_remaining in Hlrem as [Hlow _]. destruct low as [b|]; [|done]. by eapply row_before_trans. }
      rewrite <- (firstn_skipn (size_of limit) (remaining keys low rows)) in Hrem. apply elem_of_app in Hrem as [Hbad|]; [|done].
      exfalso. destruct (Hkept r Hbad) as [->|Hrl]; [by rewrite row_before_irrefl in Hlr|].
      pose proof (row_before_trans _ _ _ _ Hrl Hlr) as Hc. by rewrite row_before_irrefl in Hc.
    + intros Hr. split; [by apply Hcross|]. assert (r ∈ remaining keys low rows) as Hrem.
      { rewrite <- (firstn_skipn (size_of limit) (remaining keys low rows)). apply elem_of_app. by right. }
      by apply elem_of_remaining in Hrem as [_ Hrem].
Qed.

(** * A list read to its end *)

(** One cut a read of a table that may have changed between two of them. *)
Definition page_cuts (order : list string) (limit : Z) (tables : list (list Row)) : list (Paged (Page Row)) :=
  map (fun rows => keyset_page meta column_read rows order limit) tables.

Lemma read_pages_from order limit keys : keyset meta order = Ok keys -> (1 <= limit)%Z -> forall tables, Forall distinct tables ->
  forall low items ended, read_pages (page_cuts order limit tables) (position_of meta keys <$> low) = Ok (items, ended) ->
  StronglySorted (ascends (row_before keys)) items /\
  (forall r, r ∈ items -> beyond keys low r = true /\ exists rows, rows ∈ tables /\ r ∈ rows) /\
  (ended = true -> forall r, beyond keys low r = true -> (forall rows, rows ∈ tables -> r ∈ rows) -> r ∈ items).
Proof.
  intros Hk Hl tables. induction tables as [|rows tables IH]; intros Hall low items ended.
  - intros [= <- <-]. split_and!; [constructor| |done]. intros r Hr. by apply elem_of_nil in Hr.
  - apply Forall_cons in Hall as [Hd Hall]. cbn [page_cuts map read_pages].
    destruct (page_past rows order limit keys low Hk Hl) as (c & t & m & ->). unfold page_after. cbn [pg_items].
    assert (forall r, r ∈ firstn (size_of limit) (remaining keys low rows) -> beyond keys low r = true /\ r ∈ rows) as Hin.
    { intros r Hr. apply elem_of_remaining. rewrite <- (firstn_skipn (size_of limit)). apply elem_of_app. by left. }
    pose proof (remaining_sorted order keys low rows Hk Hd) as Hs. rewrite <- (firstn_skipn (size_of limit)) in Hs.
    apply StronglySorted_app in Hs as (Hcross & Hs & _).
    destruct (Nat.ltb_spec (size_of limit) (length (remaining keys low rows))) as [Hlen|Hlen].
    + destruct (remaining_next order limit keys low rows Hk Hl Hd Hlen) as (l & Hlast & Hkept & Hnext). rewrite Hlast.
      cbn [fmap option_fmap option_map]. destruct (read_pages _ (Some _)) as [[more ended']|e] eqn:Hrest; [|done]. intros [= <- <-].
      change (Some (position_of meta keys l)) with (position_of meta keys <$> Some l) in Hrest.
      apply (IH Hall) in Hrest as (Hms & Hmin & Hmall). cbn [beyond] in *.
      assert (forall r, row_before keys l r = true -> beyond keys low r = true) as Hlow.
      { intros r Hr. assert (beyond keys low l = true) as Hbl.
        { apply Hin. apply last_Some in Hlast as [k ->]. apply elem_of_app. right. by left. }
        destruct low as [b|]; [|done]. by eapply row_before_trans. }
      split_and!.
      * apply StronglySorted_app. split_and!; [|done|done]. intros x y Hx Hy. apply Hmin in Hy as [Hy _].
        destruct (Hkept x Hx) as [->|Hxl]; [done|]. by eapply row_before_trans.
      * intros r [Hr|Hr]%elem_of_app.
        -- apply Hin in Hr as [? ?]. split; [done|]. exists rows. split; [by left|done].
        -- apply Hmin in Hr as [? (rs & ? & ?)]. split; [by apply Hlow|]. exists rs. split; [by right|done].
      * intros Hend r Hr Hstay. apply elem_of_app.
        assert (r ∈ remaining keys low rows) as Hrem by (apply elem_of_remaining; split; [done|apply Hstay; by left]).
        rewrite <- (firstn_skipn (size_of limit)) in Hrem. apply elem_of_app in Hrem as [|Hrem]; [by left|right].
        apply Hmall; [done| |intros rs Hrs; apply Hstay; by right]. rewrite <- Hnext in Hrem. by apply elem_of_remaining in Hrem as [Hrem _].
    + intros [= <- <-]. split_and!; [done| |].
      * intros r Hr. apply Hin in Hr as [? ?]. split; [done|]. exists rows. split; [by left|done].
      * intros _ r Hr Hstay. rewrite firstn_all2 by done. apply elem_of_remaining. split; [done|]. apply Hstay. by left.
Qed.

Lemma read_pages_of order limit keys rows : keyset meta order = Ok keys -> (1 <= limit)%Z -> distinct rows ->
  forall n low, (0 < n)%nat -> (length (remaining keys low rows) <= n * size_of limit)%nat ->
  read_pages (page_cuts order limit (replicate n rows)) (position_of meta keys <$> low) = Ok (remaining keys low rows, true).
Proof.
  intros Hk Hl Hd n. induction n as [|n IH]; intros low Hn Hlen; [lia|]. cbn [replicate page_cuts map read_pages].
  destruct (page_past rows order limit keys low Hk Hl) as (c & t & m & ->). unfold page_after. cbn [pg_items].
  destruct (Nat.ltb_spec (size_of limit) (length (remaining keys low rows))) as [Hmore|Hless]; [|by rewrite firstn_all2].
  destruct (remaining_next order limit keys low rows Hk Hl Hd Hmore) as (l & -> & _ & Hnext).
  change (position_of meta keys <$> Some l) with (Some (position_of meta keys l)). cbn iota beta.
  specialize (IH (Some l)). rewrite Hnext, length_skipn in IH. change (position_of meta keys <$> Some l) with (Some (position_of meta keys l)) in IH.
  unfold page_cuts in IH. rewrite IH; [|nia|nia]. by rewrite firstn_skipn.
Qed.

(** C30: Paging a table that changes between reads shows no row twice, each one after the last, and
    reaches every row that was there throughout. *)
Theorem pages_miss_nothing order limit keys tables items ended :
  keyset meta order = Ok keys -> (1 <= limit)%Z -> Forall distinct tables ->
  read_pages (page_cuts order limit tables) None = Ok (items, ended) ->
  StronglySorted (ascends (row_before keys)) items /\
  (forall r, r ∈ items -> exists rows, rows ∈ tables /\ r ∈ rows) /\
  (ended = true -> forall r, (forall rows, rows ∈ tables -> r ∈ rows) -> r ∈ items).
Proof.
  intros Hk Hl Hall Hrun. destruct (read_pages_from order limit keys Hk Hl tables Hall None items ended Hrun) as (Hs & Hin & Hend).
  split_and!; [done|intros r Hr; by apply Hin|]. intros He r. by apply Hend.
Qed.

(** Enough pages of a table that stays are its rows in order, once each, and the last page says so. *)
Theorem pages_are_the_list order limit keys rows n :
  keyset meta order = Ok keys -> (1 <= limit)%Z -> distinct rows -> (0 < n)%nat -> (length rows <= n * size_of limit)%nat ->
  read_pages (page_cuts order limit (replicate n rows)) None = Ok (order_rows meta keys rows, true).
Proof.
  intros Hk Hl Hd Hn Hlen. pose proof (read_pages_of order limit keys rows Hk Hl Hd n None Hn) as H.
  assert (remaining keys None rows = order_rows meta keys rows) as Hall.
  { unfold remaining, rows_where. cbn [beyond]. f_equal. apply List.forallb_filter_id, forallb_forall. done. }
  rewrite Hall in H. apply H. unfold order_rows. by rewrite length_sort_rows.
Qed.

(** One window from a place in its list. *)
Definition window_after (start size : nat) (items : list Row) : option dict :=
  if (start + size <? length items)%nat then Some [("at", JNum (Z.of_nat (start + size)))] else None.

Lemma window_page limit maximum (items : list Row) start position : (1 <= limit)%Z ->
  position = Some [("at", JNum (Z.of_nat start))] \/ position = None /\ start = 0%nat ->
  exists count total more,
    paged (window items limit maximum) position =
    Ok (mkPage (firstn (Z.to_nat (Z.min limit maximum)) (skipn start items)) count total more,
        window_after start (Z.to_nat (Z.min limit maximum)) items).
Proof.
  intros Hl Hpos. unfold paged, window, mbind, M_bind, lift, claimed, act, page_size. cbn [ps_claimed ps_position ps_after].
  rewrite (proj2 (Z.ltb_ge limit 1)) by lia. unfold window_after. destruct Hpos as [->|[-> ->]]; cbv beta iota zeta.
  - change (dget "at" [("at", JNum (Z.of_nat start))]) with (Some (JNum (Z.of_nat start))). cbv beta iota zeta.
    rewrite (proj2 (Z.ltb_ge (Z.of_nat start) 0)) by lia. rewrite Nat2Z.id. cbv beta iota zeta.
    unfold set_after, modify. destruct (_ <? _)%nat; by do 3 eexists.
  - unfold set_after, modify. destruct (_ <? _)%nat; by do 3 eexists.
Qed.

(** A window's pages are its list, whatever its own ceiling. *)
Theorem windows_are_the_list limit maximum (items : list Row) n :
  (1 <= limit)%Z -> (1 <= maximum)%Z -> (0 < n)%nat -> (length items <= n * Z.to_nat (Z.min limit maximum))%nat ->
  read_pages (replicate n (window items limit maximum)) None = Ok (items, true).
Proof.
  intros Hl Hm Hn Hlen. set (size := Z.to_nat (Z.min limit maximum)) in *.
  assert (forall k start position, (0 < k)%nat -> (length items - start <= k * size)%nat ->
    position = Some [("at", JNum (Z.of_nat start))] \/ position = None /\ start = 0%nat ->
    read_pages (replicate k (window items limit maximum)) position = Ok (skipn start items, true)) as Hgo.
  { clear n Hn Hlen. intros k. induction k as [|k IH]; intros start position Hk Hlen Hpos; [lia|]. cbn [replicate read_pages].
    destruct (window_page limit maximum items start position Hl Hpos) as (c & t & m & ->). fold size. unfold window_after. cbn [pg_items].
    destruct (Nat.ltb_spec (start + size) (length items)) as [Hmore|Hless].
    - rewrite (IH (start + size)%nat); [|nia|nia|by left]. rewrite <- drop_drop. by rewrite firstn_skipn.
    - rewrite firstn_all2; [done|]. rewrite length_skipn. lia. }
  apply (Hgo n 0%nat None Hn); [lia|by right].
Qed.

(** A cursor another order of the list issued is refused, whatever the table holds. *)
Theorem cursor_of_another_order_is_refused order limit keys rows other r :
  keyset meta order = Ok keys -> (1 <= limit)%Z -> map fst other <> map fst keys ->
  paged (keyset_page meta column_read rows order limit) (Some (position_of meta other r)) = Raise CursorRefusal.
Proof.
  intros Hk Hl Hne. unfold paged, keyset_page, mbind, M_bind, lift, claimed, act. rewrite Hk. cbv beta iota. cbn [ps_claimed ps_position ps_after].
  unfold page_size. rewrite (proj2 (Z.ltb_ge limit 1)) by lia. cbv beta iota zeta. unfold past.
  change (dget "order" (position_of meta other r)) with (Some (json_names other)).
  change (dget "keys" (position_of meta other r)) with (Some (JList (map cursor_value (key_of other r)))). cbv iota beta.
  rewrite bool_decide_eq_false_2; [done|]. unfold json_names. intros [= Heq]. apply Hne.
  apply (f_equal (map (fun j => match j with JStr s => s | _ => EmptyString end))) in Heq. by rewrite !map_map in Heq.
Qed.
End Walk.

(** * Witnesses: notes, ordered by when they were last touched *)

Record Note : Type := mkNote { no_id : Z; no_slug : string; no_touched : Z }.

#[export] Instance Note_eq_dec : EqDecision Note.
Proof. solve_decision. Defined.

Definition note_meta : Meta Note :=
  mkMeta "Note" "id" (fun name => if decide (name = "id" \/ name = "slug" \/ name = "touched") then Some false else None)
    (fun name r => if decide (name = "slug") then VText (no_slug r) else if decide (name = "touched") then VInt (no_touched r) else VInt (no_id r)).

(** A number and a text read back as they were. *)
Definition note_read (name : string) (v : json) : option Value :=
  match v with JNum z => Some (VInt z) | JStr s => Some (VText s) | _ => None end.

Lemma note_reads_back name r : note_read name (cursor_value (column note_meta name r)) = Some (column note_meta name r).
Proof. unfold column, note_meta. cbn [mt_column mt_pk]. by repeat case_decide. Qed.

Definition plans : Note := mkNote 1 "plans" 30.
Definition bills : Note := mkNote 2 "bills" 10.
Definition ideas : Note := mkNote 3 "ideas" 30.
Definition trips : Note := mkNote 4 "trips" 20.

Definition by_touch : list (string * bool) := [("touched", true); ("pk", true)].

Lemma notes_distinct (rows : list Note) : NoDup (map no_id rows) -> distinct note_meta rows.
Proof.
  intros Hnd. split; [by apply (NoDup_fmap_1 no_id)|]. intros x y Hx Hy [= Heq].
  by eapply (one_each_unique (fun _ => true) no_id rows x y); [unfold one_each, rows_where; rewrite List.filter_true|..].
Qed.

(** A note is taken away and another added between the pages. *)
Lemma pages_miss_nothing_witness :
  let read := read_pages (page_cuts note_meta note_read ["-touched"] 2 [[plans; bills; ideas]; [bills; ideas; trips]]) None in
  read = Ok ([ideas; plans; trips; bills], true) /\ bills ∈ [ideas; plans; trips; bills].
Proof.
  assert (read_pages (page_cuts note_meta note_read ["-touched"] 2 [[plans; bills; ideas]; [bills; ideas; trips]]) None =
          Ok ([ideas; plans; trips; bills], true)) as Hread by (vm_compute; reflexivity).
  split; [exact Hread|].
  refine (proj2 (proj2 (pages_miss_nothing note_meta note_read note_reads_back ["-touched"] 2 by_touch _ _ true _ _ _ Hread)) eq_refl bills _).
  - reflexivity.
  - lia.
  - constructor; [|constructor; [|constructor]].
    + apply notes_distinct. apply (bool_decide_unpack _). vm_compute. exact I.
    + apply notes_distinct. apply (bool_decide_unpack _). vm_compute. exact I.
  - intros rows [->|[->|H]%elem_of_cons]%elem_of_cons; [by right; left|by left|by apply elem_of_nil in H].
Defined.

Lemma pages_are_the_list_witness :
  read_pages (page_cuts note_meta note_read ["-touched"] 3 (replicate 2 [plans; bills; ideas; trips])) None = Ok ([ideas; plans; trips; bills], true).
Proof.
  refine (pages_are_the_list note_meta note_read note_reads_back ["-touched"] 3 by_touch [plans; bills; ideas; trips] 2 _ _ _ _ _).
  - reflexivity.
  - lia.
  - apply notes_distinct. apply (bool_decide_unpack _). vm_compute. exact I.
  - lia.
  - vm_compute. lia.
Defined.

Lemma windows_are_the_list_witness :
  read_pages (replicate 3 (window [plans; bills; ideas; trips; plans] 200 2)) None = Ok ([plans; bills; ideas; trips; plans], true).
Proof. apply windows_are_the_list; [lia|lia|lia|vm_compute; lia]. Defined.

Lemma cursor_of_another_order_is_refused_witness :
  paged (keyset_page note_meta note_read [plans; bills] ["slug"] 2) (Some (position_of note_meta by_touch plans)) = Raise CursorRefusal.
Proof. apply (cursor_of_another_order_is_refused note_meta note_read ["slug"] 2 [("slug", false); ("pk", false)]); [reflexivity|lia|discriminate]. Defined.
