(* ===== verification/FieldMasks.v ===== *)
(** Field masks over resource records ([field_masks.py]): the parts of each record a read names,
    merged into one mask, and the records cut to it, every record of a depth together. *)
From stdpp Require Import base list strings pretty.
From Stdlib Require Import Ascii ZArith Lia.
From S2P Require Import Prelude PyStr Json.

#[local] Open Scope string_scope.

Definition WHOLE_RECORD := "*".

(** A mask keeps each name's whole value ([None]), or only parts of it. *)
Inductive Mask : Type := Node (children : list (string * option Mask)).

Definition children (m : Mask) : list (string * option Mask) := match m with Node cs => cs end.

Definition path : Type := list string.

(** One error of a refusal, as Pydantic shapes one. *)
Record MaskError : Type := mkMaskError { me_type : string; me_loc : list json; me_msg : string }.

(** What [selected] raises: its refusal, or what Python raises where the code is wrong. *)
Inductive mask_exn : Type :=
| FieldMaskRefusal (errors : list MaskError)
| Broken (what : string).

Definition Cut (A : Type) : Type := outcome mask_exn A.

(** [asks_whole(fields)] *)
Definition asks_whole (fields : list string) : bool := bool_decide (fields = [WHOLE_RECORD]).

(** [_FIELD_PATH.fullmatch(field)]: names with a dot between each two. *)
Definition field_path (field : string) : bool := forallb (fun segment => negb (bool_decide (segment = ""))) (split_on "." field).

(** * The mask *)

(** A dict of a mask, read and written as Python does: in place where the key stands. *)
Section Children.
Context {A : Type}.

Fixpoint mget (k : string) (cs : list (string * A)) : option A :=
  match cs with [] => None | (k', v) :: rest => if decide (k = k') then Some v else mget k rest end.

Fixpoint mset (k : string) (v : A) (cs : list (string * A)) : list (string * A) :=
  match cs with [] => [(k, v)] | (k', v') :: rest => if decide (k = k') then (k, v) :: rest else (k', v') :: mset k v rest end.
End Children.

(** [_merge(mask, segments)] *)
Fixpoint merge (m : Mask) (segments : path) : Mask :=
  match segments with
  | [] => m
  | [leaf] => Node (mset leaf None (children m))
  | segment :: rest =>
      match mget segment (children m) with
      | Some None => m
      | Some (Some child) => Node (mset segment (Some (merge child rest)) (children m))
      | None => Node (mset segment (Some (merge (Node []) rest)) (children m))
      end
  end.

(** The first field that names each path. *)
Definition Origin : Type := list (path * nat).

Fixpoint origin_of (p : path) (origin : Origin) : option nat :=
  match origin with [] => None | (p', i) :: rest => if decide (p = p') then Some i else origin_of p rest end.

(** [origin.setdefault(path, index)] *)
Definition set_origin (index : nat) (origin : Origin) (p : path) : Origin :=
  match origin_of p origin with Some _ => origin | None => (origin ++ [(p, index)])%list end.

(** Each prefix of a path that names something: [segments[: depth + 1]]. *)
Definition prefixes (segments : path) : list path := map (fun depth => firstn (S depth) segments) (seq 0 (length segments)).

Record Selection : Type := mkSelection { sl_mask : Mask; sl_origin : Origin }.

Definition add_field (s : Selection) (field : nat * string) : Selection :=
  let segments := split_on "." field.2 in
  mkSelection (merge (sl_mask s) segments) (fold_left (set_origin field.1) (prefixes segments) (sl_origin s)).

Definition numbered {A} (xs : list A) : list (nat * A) := combine (seq 0 (length xs)) xs.

Definition mask_loc (rest : list json) : list json := JStr "fields" :: rest.
Definition number (i : nat) : json := JNum (Z.of_nat i).

Definition malformed_error (field : nat * string) : MaskError :=
  mkMaskError "string_pattern_mismatch" (mask_loc [number field.1]) "String should match 'name.name'".

(** [_selection(fields)] *)
Definition selection (fields : list string) : Cut Selection :=
  match fields with
  | [] => Raise (FieldMaskRefusal [mkMaskError "too_short" (mask_loc []) "List should have at least 1 item"])
  | _ =>
      match List.filter (fun f => negb (field_path f.2)) (numbered fields) with
      | [] => Ok (fold_left add_field (numbered fields) (mkSelection (Node []) []))
      | malformed =>
          Raise (FieldMaskRefusal (map malformed_error malformed))
      end
  end.

(** [_Selection.refuse(path, error_type, msg, at=...)] *)
Definition refuse {A} (origin : Origin) (p : path) (error_type msg : string) (at_ : path) : Cut A :=
  match origin_of p origin with
  | Some i => Raise (FieldMaskRefusal [mkMaskError error_type (mask_loc (number i :: map JStr at_)) msg])
  | None => Raise (Broken "KeyError")
  end.

(** * The cut *)

(** [list(dict.fromkeys(names))] *)
Fixpoint names_once (names : list string) : list string :=
  match names with [] => [] | x :: xs => x :: List.filter (fun y => negb (bool_decide (y = x))) (names_once xs) end.

Definition known_names (records : list dict) : list string := names_once (concat (map keys records)).

Definition choices (known : list string) : string :=
  "Input should be " +:+ join ", " (map (fun k => "'" +:+ k +:+ "'") known).

Fixpoint all_objects (items : list json) : option (list dict) :=
  match items with
  | [] => Some []
  | JObj d :: rest => match all_objects rest with Some ds => Some (d :: ds) | None => None end
  | _ :: _ => None
  end.

(** The objects under [key], one or each element of a list: the first half of [_cut_within]. *)
Fixpoint elements_under (origin : Origin) (key : string) (p : path) (records : list dict) : Cut (list dict) :=
  match records with
  | [] => Ok []
  | r :: rest =>
      let refused := refuse origin p "dict_type" "Input should be a valid dictionary" p in
      let with_ ds := match elements_under origin key p rest with Ok more => Ok (ds ++ more)%list | Raise e => Raise e end in
      match dget key r with
      | Some (JObj d) => with_ [d]
      | Some (JList items) => match all_objects items with Some ds => with_ ds | None => refused end
      | Some JNull | None => with_ []
      | Some _ => refused
      end
  end.

(** The cut elements, put back where each came from: the second half. *)
Fixpoint put_back (key : string) (records : list dict) (shaped outs : list dict) : Cut (list dict) :=
  match records, outs with
  | [], [] => Ok []
  | r :: rest, out :: outs =>
      let go shaped out := match put_back key rest shaped outs with Ok more => Ok (out :: more) | Raise e => Raise e end in
      match dget key r with
      | Some (JObj _) => match shaped with s :: ss => go ss (dset key (JObj s) out) | [] => Raise (Broken "StopIteration") end
      | Some (JList items) =>
          if (length shaped <? length items)%nat then Raise (Broken "StopIteration")
          else go (skipn (length items) shaped) (dset key (JList (map JObj (firstn (length items) shaped))) out)
      | Some _ => go shaped (dset key JNull out)
      | None => go shaped out
      end
  | _, _ => Raise (Broken "ValueError")
  end.

(** [for key, inner in mask.items(): if inner is not None: _cut_within(...)] *)
Section Within.
Variables (cut_inner : Mask -> list dict -> path -> Cut (list dict)) (origin : Origin) (records : list dict) (at_ : path).

Fixpoint cut_within (cs : list (string * option Mask)) (outs : list dict) : Cut (list dict) :=
  match cs with
  | [] => Ok outs
  | (_, None) :: rest => cut_within rest outs
  | (key, Some inner) :: rest =>
      match elements_under origin key (at_ ++ [key])%list records with
      | Raise e => Raise e
      | Ok elements =>
          match cut_inner inner elements (at_ ++ [key])%list with
          | Raise e => Raise e
          | Ok shaped => match put_back key records shaped outs with Raise e => Raise e | Ok outs => cut_within rest outs end
          end
      end
  end.
End Within.

(** [{key: out[key] for key in record if key in out}] *)
Definition in_order (record out : dict) : dict :=
  omap (fun kv => match dget kv.1 out with Some v => Some (kv.1, v) | None => None end) record.

Definition kept_whole (cs : list (string * option Mask)) (record : dict) : dict :=
  List.filter (fun kv => match mget kv.1 cs with Some None => true | _ => false end) record.

(** [_cut(selection, records, mask, at)] *)
Fixpoint cut (origin : Origin) (m : Mask) (records : list dict) (at_ : path) {struct m} : Cut (list dict) :=
  match m with
  | Node cs =>
      let known := known_names records in
      match records, List.filter (fun key => negb (bool_decide (key ∈ known))) (map fst cs) with
      | _ :: _, unknown :: _ => refuse origin (at_ ++ [unknown])%list "literal_error" (choices known) []
      | _, _ =>
          match cut_within (cut origin) origin records at_ cs (map (kept_whole cs) records) with
          | Raise e => Raise e
          | Ok outs => Ok (map (fun ro => in_order ro.1 ro.2) (combine records outs))
          end
      end
  end.

(** [selected(records, fields)] *)
Definition selected (records : list dict) (fields : list string) : Cut (list dict) :=
  match selection fields with
  | Raise e => Raise e
  | Ok s => cut (sl_origin s) (sl_mask s) records []
  end.

(** What is read of two records. *)
Definition two_records : list dict :=
  [[("slug", JStr "www"); ("spec", JObj [("host", JStr "h1"); ("port", JNum 80)]); ("links", JList [JObj [("to", JStr "a"); ("as", JStr "b")]])];
   [("slug", JStr "db"); ("spec", JNull); ("links", JList [])]].

Example cut_example : selected two_records ["links.to"; "spec.port"; "slug"] =
  Ok [[("slug", JStr "www"); ("spec", JObj [("port", JNum 80)]); ("links", JList [JObj [("to", JStr "a")]])];
      [("slug", JStr "db"); ("spec", JNull); ("links", JList [])]].
Proof. reflexivity. Qed.

Example refused_example : selected two_records ["slug"; "spec.hots"] =
  Raise (FieldMaskRefusal [mkMaskError "literal_error" [JStr "fields"; JNum 1] "Input should be 'host', 'port'"]).
Proof. reflexivity. Qed.

(** * The reference: what some path names

    A name whose whole value some path names is kept whole; one that paths go on under keeps the
    parts they name; any other is left out. *)
Definition under (k : string) (paths : list path) : list path :=
  omap (fun p => match p with h :: ((_ :: _) as rest) => if decide (h = k) then Some rest else None | _ => None end) paths.

Section Named.
Variable value : list path -> json -> json.

Definition named_field (paths : list path) (k : string) (v : json) : option (string * json) :=
  if decide ([k] ∈ paths) then Some (k, v)
  else match under k paths with [] => None | deeper => Some (k, value deeper v) end.

Fixpoint named_fields (paths : list path) (d : dict) : dict :=
  match d with
  | [] => []
  | (k, v) :: rest => match named_field paths k v with Some kv => kv :: named_fields paths rest | None => named_fields paths rest end
  end.
End Named.

Fixpoint named_value (paths : list path) (v : json) {struct v} : json :=
  match v with
  | JObj d => JObj (named_fields named_value paths d)
  | JList items => JList (map (named_value paths) items)
  | _ => v
  end.

Definition named (paths : list path) (record : dict) : dict := named_fields named_value paths record.

(** A Python dict has each key once, at every depth. *)
Fixpoint unique_keys (j : json) : bool :=
  match j with
  | JObj d => bool_decide (NoDup (map fst d)) && forallb (fun kv => unique_keys kv.2) d
  | JList items => forallb unique_keys items
  | _ => true
  end.

(** * Dicts *)

Section Dicts.
Context {A : Type}.

Lemma mget_mset (k k' : string) (v : A) cs : mget k (mset k' v cs) = if decide (k = k') then Some v else mget k cs.
Proof. induction cs as [|[k1 v1] cs IH]; cbn; repeat case_decide; cbn; repeat case_decide; simplify_eq; try done; by rewrite IH. Qed.

Lemma elem_of_mset (k k' : string) (v v' : A) cs : (k, v) ∈ mset k' v' cs -> (k, v) = (k', v') \/ (k, v) ∈ cs.
Proof.
  induction cs as [|[k1 v1] cs IH]; cbn; [by intros ->%list_elem_of_singleton; left|].
  case_decide; intros [Hx|Hx]%elem_of_cons; [by left|by right; right|right; rewrite Hx; left|]. destruct (IH Hx); [by left|by right; right].
Qed.

Lemma mget_elem (k : string) (v : A) cs : mget k cs = Some v -> (k, v) ∈ cs.
Proof. induction cs as [|[k1 v1] cs IH]; cbn; [done|]. case_decide; [intros [= <-]; subst; left|intros Hx; right; by apply IH]. Qed.

Lemma elem_mget (k : string) (v : A) cs : NoDup (map fst cs) -> (k, v) ∈ cs -> mget k cs = Some v.
Proof.
  induction cs as [|[k1 v1] cs IH]; cbn; [by intros _ ?%elem_of_nil|]. intros [Hk Hnd]%NoDup_cons [[= <- <-]|H]%elem_of_cons.
  - by rewrite decide_True.
  - rewrite decide_False; [by apply IH|]. intros <-. apply Hk. by apply (list_elem_of_fmap_2 fst _ (k, v)).
Qed.

Lemma mget_none (k : string) (cs : list (string * A)) : mget k cs = None <-> k ∉ map fst cs.
Proof.
  induction cs as [|[k1 v1] cs IH]; cbn; [split; [intros _ H; by apply elem_of_nil in H|done]|].
  rewrite not_elem_of_cons. case_decide; naive_solver.
Qed.

Lemma NoDup_mset (k : string) (v : A) cs : NoDup (map fst cs) -> NoDup (map fst (mset k v cs)).
Proof.
  induction cs as [|[k1 v1] cs IH]; cbn; [intros _; apply NoDup_singleton|]. intros [Hk Hnd]%NoDup_cons.
  case_decide; cbn; subst; apply NoDup_cons; (split; [|by try apply IH]); [done|].
  intros (x & -> & Hx)%list_elem_of_fmap. destruct x as [k2 v2]. apply elem_of_mset in Hx as [[= -> ->]|Hx]; [done|].
  apply Hk. by apply (list_elem_of_fmap_2 fst _ (k2, v2)).
Qed.
End Dicts.

Lemma dget_mget k (d : dict) : dget k d = mget k d.
Proof. induction d as [|[k1 v1] d IH]; cbn; [done|]. by rewrite IH. Qed.

Lemma dset_mset k v (d : dict) : dset k v d = mset k v d.
Proof. induction d as [|[k1 v1] d IH]; cbn; [done|]. by rewrite IH. Qed.

(** * The mask the fields make *)

(** A mask holds exactly the paths: whole values win, and shared prefixes are one part. *)
Inductive holds : Mask -> list path -> Prop :=
| holds_node cs paths :
    NoDup (map fst cs) ->
    (forall k, mget k cs = Some None <-> [k] ∈ paths) ->
    (forall k, mget k cs = None <-> [k] ∉ paths /\ under k paths = []) ->
    (forall k m, mget k cs = Some (Some m) -> holds m (under k paths)) ->
    holds (Node cs) paths.

Lemma under_app k p q : under k (p ++ q)%list = (under k p ++ under k q)%list.
Proof. unfold under. apply omap_app. Qed.

Lemma under_one k segments : under k [segments] =
  match segments with h :: ((_ :: _) as rest) => if decide (h = k) then [rest] else [] | _ => [] end.
Proof. unfold under. destruct segments as [|h [|x rest]]; cbn; [done|done|]. by case_decide. Qed.

Lemma singleton_of_app (k : string) (paths : list path) (segments : path) : [k] ∈ (paths ++ [segments])%list <-> [k] ∈ paths \/ segments = [k].
Proof. rewrite elem_of_app, list_elem_of_singleton. split; intros [H|H]; auto. Qed.

Lemma holds_nothing : holds (Node []) [].
Proof.
  constructor; [constructor| | |done]; intros k; cbn.
  - split; [done|by intros ?%elem_of_nil].
  - split; [split; [by intros ?%elem_of_nil|done]|done].
Qed.

Lemma holds_deeper cs paths k child x rest : holds (Node cs) paths -> [k] ∉ paths -> holds child (under k paths ++ [x :: rest])%list ->
  holds (Node (mset k (Some child) cs)) (paths ++ [k :: x :: rest])%list.
Proof.
  intros Hm Hk Hchild. inversion Hm as [cs' paths' Hnd Hwhole Hnone Hdeep]; subst. constructor; [by apply NoDup_mset| | |].
  - intros k'. rewrite mget_mset, singleton_of_app. case_decide; [subst|rewrite Hwhole]; naive_solver.
  - intros k'. rewrite mget_mset, singleton_of_app, under_app, under_one. case_decide as Hkk.
    + subst. rewrite decide_True by done. split; [done|]. intros [_ Hnil%app_eq_nil]. by destruct Hnil.
    + rewrite decide_False by congruence. rewrite app_nil_r, Hnone. naive_solver.
  - intros k' m. rewrite mget_mset, under_app, under_one. case_decide as Hkk.
    + subst. rewrite decide_True by done. by intros [= <-].
    + rewrite decide_False, app_nil_r by congruence. apply Hdeep.
Qed.

Lemma holds_merge m paths segments : holds m paths -> segments <> [] -> holds (merge m segments) (paths ++ [segments])%list.
Proof.
  revert m paths. induction segments as [|s segments IH]; intros m paths Hm Hne; [done|].
  destruct segments as [|x rest]; pose proof Hm as Hm'; destruct Hm as [cs paths Hnd Hwhole Hnone Hdeep].
  - cbn [merge children]. constructor; [by apply NoDup_mset| | |].
    + intros k. rewrite mget_mset, singleton_of_app. case_decide; [subst; naive_solver|]. rewrite Hwhole. naive_solver.
    + intros k. rewrite mget_mset, singleton_of_app, under_app, under_one, app_nil_r. case_decide; [subst; naive_solver|]. rewrite Hnone. naive_solver.
    + intros k m. rewrite mget_mset, under_app, under_one, app_nil_r. case_decide; [done|]. apply Hdeep.
  - cbn [merge children]. destruct (mget s cs) as [[child|]|] eqn:Hs.
    + apply holds_deeper; [done|intros Hin%Hwhole; congruence|]. by apply IH; [apply Hdeep|].
    + constructor; [done| | |].
      * intros k. rewrite singleton_of_app, Hwhole. naive_solver.
      * intros k. rewrite singleton_of_app, under_app, under_one, Hnone. case_decide; [subst|rewrite app_nil_r; naive_solver].
        apply Hwhole in Hs. naive_solver.
      * intros k m Hk. rewrite under_app, under_one. rewrite decide_False, app_nil_r by congruence. by apply Hdeep.
    + apply Hnone in Hs as [Hs1 Hs2]. apply holds_deeper; [done|done|]. rewrite Hs2. by apply (IH (Node []) []); [apply holds_nothing|].
Qed.

Lemma split_on_nonempty c s : split_on c s <> [].
Proof. destruct s as [|a s]; cbn; [done|]. destruct (decide _); [done|]. by destruct (split_on c s). Qed.

(** The mask of the fields. *)
Lemma selection_mask fields s : selection fields = Ok s -> holds (sl_mask s) (map (split_on ".") fields).
Proof.
  unfold selection. destruct fields as [|field fields]; [done|]. destruct (List.filter _ _); [|done]. intros [= <-].
  assert (forall start xs s0 paths, holds (sl_mask s0) paths ->
    holds (sl_mask (fold_left add_field (combine (seq start (length xs)) xs) s0)) (paths ++ map (split_on ".") xs)%list) as Hgo.
  { intros start xs. revert start. induction xs as [|x xs IH]; intros start s0 paths Hs; cbn; [by rewrite app_nil_r|].
    rewrite cons_middle, app_assoc.
    apply IH. cbn. apply holds_merge; [done|apply split_on_nonempty]. }
  by apply (Hgo 0%nat (field :: fields) (mkSelection (Node []) []) []), holds_nothing.
Qed.

(** * The cut is what the paths name *)

(** What [key]'s value is made into by a cut of the objects in it. *)
Definition shape (f : dict -> dict) (v : json) : json :=
  match v with
  | JObj d => JObj (f d)
  | JList items => JList (map (fun j => match j with JObj d => JObj (f d) | _ => j end) items)
  | _ => JNull
  end.

(** The objects of a value, and the values that hold nothing else. *)
Definition objects_of (v : option json) : list dict :=
  match v with Some (JObj d) => [d] | Some (JList items) => default [] (all_objects items) | _ => [] end.

Definition shapely (v : option json) : Prop :=
  match v with
  | Some (JList items) => is_Some (all_objects items)
  | None | Some (JObj _) | Some JNull => True
  | Some _ => False
  end.

Lemma all_objects_some items ds : all_objects items = Some ds -> items = map JObj ds.
Proof.
  revert ds. induction items as [|[| | | | |d] items IH]; intros ds; cbn; try done; [by intros [= <-]|].
  destruct (all_objects items) as [ds'|]; [|done]. intros [= <-]. cbn. by rewrite (IH ds').
Qed.

Lemma refuse_raises {A} origin p error_type msg at_ : exists e, (refuse origin p error_type msg at_ : Cut A) = Raise e.
Proof. unfold refuse. destruct (origin_of p origin); by eexists. Qed.

Lemma elements_inv origin key p records els : elements_under origin key p records = Ok els ->
  els = concat (map (fun r => objects_of (dget key r)) records) /\ Forall (fun r => shapely (dget key r)) records.
Proof.
  revert els. induction records as [|r rest IH]; intros els; cbn [elements_under]; [by intros [= <-]|].
  destruct (@refuse_raises (list dict) origin p "dict_type" "Input should be a valid dictionary" p) as [e ->].
  assert (forall ds, match elements_under origin key p rest with Ok more => Ok (ds ++ more)%list | Raise e => Raise e end = Ok els ->
    els = (ds ++ concat (map (fun r => objects_of (dget key r)) rest))%list /\ Forall (fun r => shapely (dget key r)) rest) as Hwith.
  { intros ds. destruct (elements_under origin key p rest) as [more|e']; [|done]. intros [= <-]. by destruct (IH more eq_refl) as [-> ?]. }
  cbn [map concat]. intros H. rewrite Forall_cons. destruct (dget key r) as [[| | | | items|d]|]; try done; cbn [objects_of shapely].
  - by destruct (Hwith [] H).
  - destruct (all_objects items) as [ds|]; [|done]. destruct (Hwith ds H). by eauto.
  - by destruct (Hwith [d] H).
  - by destruct (Hwith [] H).
Qed.

Lemma put_back_shapes key f : forall records outs, length outs = length records -> Forall (fun r => shapely (dget key r)) records ->
  put_back key records (map f (concat (map (fun r => objects_of (dget key r)) records))) outs =
  Ok (zip_with (fun r out => match dget key r with Some v => dset key (shape f v) out | None => out end) records outs).
Proof.
  induction records as [|r records IH]; intros [|out outs] Hlen Hall; try done. injection Hlen as Hlen. apply Forall_cons in Hall as [Hr Hall].
  cbn [put_back map concat zip_with]. specialize (IH outs Hlen Hall).
  destruct (dget key r) as [[| | | | items|d]|]; try done; cbn [objects_of app map]; try by rewrite IH.
  destruct Hr as [ds Hds]. rewrite Hds. change (default [] (Some ds)) with ds. apply all_objects_some in Hds as ->. rewrite map_app, !length_app, !length_map.
  match goal with |- context [Nat.ltb ?a ?b] => replace (Nat.ltb a b) with false by (symmetry; apply Nat.ltb_ge, Nat.le_add_r) end.
  rewrite firstn_app, skipn_app, !length_map, Nat.sub_diag.
  rewrite (firstn_all2 (n := length ds)) by (rewrite length_map; lia). rewrite (skipn_all2 (n := length ds)) by (rewrite length_map; lia).
  rewrite skipn_O, firstn_O, app_nil_r, app_nil_l, IH. cbn [shape]. by rewrite !map_map.
Qed.

Lemma shape_named paths v : shapely (Some v) -> shape (named paths) v = named_value paths v.
Proof.
  destruct v as [| | | |items|d]; cbn; try done. intros [ds ->%all_objects_some]. by rewrite !map_map.
Qed.

(** A record and what the whole values of [cs] leave of it, once each part is put back. *)
Definition painted (paths : list path) (cs : list (string * option Mask)) (r out : dict) : dict :=
  fold_left (fun out kc => match kc.2 with
    | Some _ => match dget kc.1 r with Some v => dset kc.1 (shape (named (under kc.1 paths)) v) out | None => out end
    | None => out
    end) cs out.

Definition one_keyed (r : dict) : Prop := unique_keys (JObj r) = true.

Lemma unique_dget k r v : one_keyed r -> dget k r = Some v -> unique_keys v = true.
Proof.
  unfold one_keyed. cbn. rewrite andb_true_iff, forallb_forall. intros [_ Hall] Hv. rewrite dget_mget in Hv. apply mget_elem in Hv.
  by apply (Hall (k, v)), list_elem_of_In.
Qed.

Lemma objects_one_keyed k r : one_keyed r -> Forall one_keyed (objects_of (dget k r)).
Proof.
  intros Hr. destruct (dget k r) as [v|] eqn:Hv; [|constructor]. pose proof (unique_dget k r v Hr Hv) as Hu.
  destruct v as [| | | |items|d]; cbn; try constructor; [|done|constructor]. destruct (all_objects items) as [ds|] eqn:Hds; [|constructor].
  apply all_objects_some in Hds as ->. change (forallb unique_keys (map JObj ds) = true) in Hu. cbn. apply Forall_forall. intros d Hd.
  rewrite forallb_forall in Hu. by apply Hu, list_elem_of_In, list_elem_of_fmap_2.
Qed.

Lemma elements_one_keyed key records : Forall one_keyed records -> Forall one_keyed (concat (map (fun r => objects_of (dget key r)) records)).
Proof.
  induction 1 as [|r records Hr _ IH]; cbn; [constructor|]. apply Forall_app. split; [by apply objects_one_keyed|done].
Qed.

Lemma zip_with_length_r {A B} (f : A -> B -> B) l k : length k = length l -> length (zip_with f l k) = length l.
Proof. intros H. rewrite length_zip_with. lia. Qed.

Lemma zip_with_twice {A B} (f g : A -> B -> B) l k : zip_with f l (zip_with g l k) = zip_with (fun a b => f a (g a b)) l k.
Proof. revert k. induction l as [|a l IH]; intros [|b k]; cbn; try done. by rewrite IH. Qed.

Lemma zip_with_same {A B} (f : A -> B -> B) l k : (forall a b, f a b = b) -> length k = length l -> zip_with f l k = k.
Proof. intros Hf. revert k. induction l as [|a l IH]; intros [|b k]; cbn; try done. intros [= H]. by rewrite Hf, IH. Qed.

Section Painting.
Variables (cut_inner : Mask -> list dict -> path -> Cut (list dict)) (origin : Origin) (records : list dict) (at_ : path) (paths : list path).
Hypothesis keyed : Forall one_keyed records.

Definition deep_keys_shapely (cs : list (string * option Mask)) : Prop :=
  forall k m, (k, Some m) ∈ cs -> Forall (fun r => shapely (dget k r)) records.

Lemma cut_within_paints cs : forall outs outs', length outs = length records ->
  (forall k m, (k, Some m) ∈ cs -> forall elements at' shaped, Forall one_keyed elements -> cut_inner m elements at' = Ok shaped ->
     shaped = map (named (under k paths)) elements) ->
  cut_within cut_inner origin records at_ cs outs = Ok outs' ->
  outs' = zip_with (painted paths cs) records outs /\ deep_keys_shapely cs.
Proof.
  induction cs as [|[key [inner|]] cs IH]; intros outs outs' Hlen Hinner H; cbn [cut_within] in H.
  - injection H as <-. split; [by rewrite zip_with_same|]. intros k m Hk. by apply elem_of_nil in Hk.
  - destruct (elements_under _ _ _ _) as [els|e] eqn:Hels; [|done]. apply elements_inv in Hels as [-> Hshapely].
    destruct (cut_inner inner _ _) as [shaped|e] eqn:Hcut; [|done].
    apply (Hinner key inner (list_elem_of_here _ _)) in Hcut as ->; [|by apply elements_one_keyed].
    rewrite put_back_shapes in H by done. apply IH in H as [-> Hdeep].
    + split; [by rewrite zip_with_twice|]. intros k m [[= -> ->]|Hk]%elem_of_cons; [done|by eapply Hdeep].
    + by rewrite zip_with_length_r.
    + intros k m Hk. apply Hinner. by right.
  - apply IH in H as [-> Hdeep]; [|done|].
    + split; [done|]. intros k m [?|Hk]%elem_of_cons; [done|by eapply Hdeep].
    + intros k m Hk. apply Hinner. by right.
Qed.
End Painting.

(** What each name of a painted record holds. *)
Lemma dget_painted paths cs r : NoDup (map fst cs) -> forall out k,
  dget k (painted paths cs r out) =
  match mget k cs, dget k r with
  | Some (Some _), Some v => Some (shape (named (under k paths)) v)
  | _, _ => dget k out
  end.
Proof.
  induction cs as [|[key c] cs IH]; intros Hnd out k; [done|]. apply NoDup_cons in Hnd as [Hkey Hnd].
  unfold painted. cbn [fold_left fst snd mget]. fold (painted paths cs r). change (fold_left _ cs ?o) with (painted paths cs r o). rewrite IH by done.
  case_decide as Hk; [subst key|].
  - rewrite (proj2 (mget_none k cs) Hkey). destruct c as [m|]; [|done]. destruct (dget k r) as [v|]; [|done]. by rewrite dget_dset, decide_True.
  - destruct (mget k cs) as [[m|]|], (dget k r) as [v|]; try done; destruct c as [m'|]; try done; destruct (dget key r) as [w|]; try done;
      by rewrite dget_dset, decide_False.
Qed.

Lemma dget_kept cs r k : one_keyed r -> dget k (kept_whole cs r) = match mget k cs with Some None => dget k r | _ => None end.
Proof.
  intros _. unfold kept_whole. induction r as [|[k1 v1] r IH]; cbn; [by destruct (mget k cs) as [[]|]|].
  destruct (mget k1 cs) as [[m1|]|] eqn:H1; cbn; rewrite IH; case_decide; subst; rewrite ?H1; done.
Qed.

Lemma named_field_of cs paths k v : holds (Node cs) paths ->
  named_field named_value paths k v =
  match mget k cs with Some None => Some (k, v) | Some (Some _) => Some (k, named_value (under k paths) v) | None => None end.
Proof.
  intros Hm. inversion Hm as [cs' paths' _ Hwhole Hnone _]; subst. unfold named_field.
  destruct (mget k cs) as [[m|]|] eqn:Hk.
  - case_decide as Hin; [apply Hwhole in Hin; congruence|]. destruct (under k paths) as [|p ps] eqn:Hu; [|done].
    assert (mget k cs = None) as Hbad by (by apply Hnone). congruence.
  - rewrite decide_True; [done|]. by apply Hwhole.
  - apply Hnone in Hk as [? ->]. by rewrite decide_False.
Qed.

Lemma in_order_named cs paths r : holds (Node cs) paths -> one_keyed r ->
  (forall k m, (k, Some m) ∈ cs -> shapely (dget k r)) -> in_order r (painted paths cs r (kept_whole cs r)) = named paths r.
Proof.
  intros Hm Hr Hdeep. assert (NoDup (map fst cs)) as Hnd by (by inversion Hm).
  assert (forall kv, kv ∈ r -> dget kv.1 r = Some kv.2) as Hget.
  { intros [k v] Hin. rewrite dget_mget. apply elem_mget; [|done]. unfold one_keyed in Hr. cbn in Hr. by apply andb_true_iff in Hr as [Hu%bool_decide_eq_true _]. }
  unfold in_order, named. set (out := painted paths cs r (kept_whole cs r)).
  assert (forall kv, kv ∈ r -> match dget kv.1 out with Some v => Some (kv.1, v) | None => None end = named_field named_value paths kv.1 kv.2) as Hfield.
  { intros [k v] Hin. specialize (Hget _ Hin). cbn [fst snd] in *. rewrite (named_field_of cs) by done. subst out.
    rewrite dget_painted by done. rewrite Hget. destruct (mget k cs) as [[m|]|] eqn:Hk; rewrite ?dget_kept, ?Hk, ?Hget; try done.
    rewrite shape_named; [done|]. rewrite <- Hget. by eapply Hdeep, mget_elem. }
  clearbody out. revert Hfield. clear. induction r as [|[k v] r IH]; intros Hfield; [done|]. cbn [named_fields]. rewrite <- IH by (intros; apply Hfield; by right).
  pose proof (Hfield (k, v) (list_elem_of_here _ _)) as Hkv. cbn [fst snd] in Hkv. rewrite <- Hkv. cbn. by destruct (dget k out).
Qed.

(** Every answered cut is what the paths name of each record, of a mask that holds them. *)
Lemma cut_named origin m paths : holds m paths -> forall records at_ out,
  Forall one_keyed records -> cut origin m records at_ = Ok out -> out = map (named paths) records.
Proof.
  induction 1 as [cs paths Hnd Hwhole Hnone Hdeep IH]; intros records at_ out Hkeyed H.
  assert (holds (Node cs) paths) as Hm by by constructor.
  assert (exists outs, cut_within (cut origin) origin records at_ cs (map (kept_whole cs) records) = Ok outs /\
    out = map (fun ro => in_order ro.1 ro.2) (combine records outs)) as (outs & Hw & ->).
  { cbn [cut] in H. destruct records as [|r records]; [|destruct (List.filter _ _) as [|unknown more];
      [|by destruct (@refuse_raises (list dict) origin (at_ ++ [unknown])%list "literal_error" (choices (known_names (r :: records))) []) as [e He]; rewrite He in H]];
    (destruct (cut_within _ _ _ _ _ _) as [outs|e]; [|done]; injection H as <-; by eexists). }
  apply (cut_within_paints _ _ _ _ paths) in Hw as [-> Hshapely]; [|done|by rewrite length_map|].
  2: { intros k m Hk. by apply IH, elem_mget. }
  assert (forall r, r ∈ records -> in_order r (painted paths cs r (kept_whole cs r)) = named paths r) as Heach.
  { intros r Hr. apply in_order_named; [done| |].
    - by eapply Forall_forall in Hkeyed.
    - intros k m Hk. specialize (Hshapely k m Hk). by eapply Forall_forall in Hshapely. }
  revert Heach. clear. induction records as [|r records IH]; intros Heach; [done|]. cbn [combine zip_with map fst snd]. rewrite Heach by left. f_equal. apply IH. intros x Hx. apply Heach. by right.
Qed.

(** C27: A masked read answers of each record exactly what the fields name, whatever order they come in
    and however they overlap: a name named whole is kept whole, one named in part keeps the parts,
    and the rest is left out, each record in its own order. *)
Theorem selected_is_what_is_named (records : list dict) (fields : list string) (out : list dict) :
  Forall one_keyed records -> selected records fields = Ok out -> out = map (named (map (split_on ".") fields)) records.
Proof.
  intros Hkeyed. unfold selected. destruct (selection fields) as [s|e] eqn:Hs; [|done].
  apply cut_named; [by apply selection_mask|done].
Qed.

(** * Parts *)

(** A value is part of another: the same, or an object with some of the other's names in its order,
    each holding a part, or a list of a part of each item. *)
Inductive part : json -> json -> Prop :=
| part_whole v : part v v
| part_object d kept d' : kept `sublist_of` d -> Forall2 (fun kv' kv => kv'.1 = kv.1 /\ part kv'.2 kv.2) d' kept -> part (JObj d') (JObj d)
| part_list items' items : Forall2 part items' items -> part (JList items') (JList items).

Lemma named_value_part v : forall paths, part (named_value paths v) v.
Proof.
  induction v as [|b|z|s|items IH|d IH] using json_rect'; intros paths; try by constructor.
  - cbn. apply part_list. induction IH as [|x xs Hx _ IH]; constructor; [apply Hx|done].
  - cbn. assert (exists kept, kept `sublist_of` d /\ Forall2 (fun kv' kv => kv'.1 = kv.1 /\ part kv'.2 kv.2) (named_fields named_value paths d) kept) as (kept & Hk & Hp);
      [|by eapply part_object].
    induction IH as [|[k v] d Hv _ IH]; [by exists []|]. destruct IH as (kept & Hk & Hp). cbn [named_fields].
    destruct (named_field named_value paths k v) as [[k' v']|] eqn:Hf; [|exists kept; split; [by constructor|done]].
    exists ((k, v) :: kept). split; [by constructor|]. constructor; [|done]. unfold named_field in Hf. cbn in *.
    case_decide; [injection Hf as <- <-; split; [done|constructor]|]. destruct (under k paths); [done|]. injection Hf as <- <-. split; [done|apply Hv].
Qed.

Lemma selected_parts (records : list dict) (fields : list string) (out : list dict) :
  Forall one_keyed records -> selected records fields = Ok out -> Forall2 (fun o r => part (JObj o) (JObj r)) out records.
Proof.
  intros Hkeyed. unfold selected. destruct (selection fields) as [s|e] eqn:Hs; [|done]. intros H.
  apply (cut_named _ _ _ (selection_mask fields s Hs)) in H as ->; [|done]. clear. induction records as [|r records IH]; cbn; constructor; [|done].
  apply (named_value_part (JObj r)).
Qed.

(** C39: Cutting adds nothing: each answer is part of its record, one for one and in the same order, so
    no name, value or item is ever shown that its record does not hold. *)
Theorem selected_is_a_part (records : list dict) (fields : list string) (out : list dict) :
  Forall one_keyed records -> selected records fields = Ok out -> Forall2 (fun o r => part (JObj o) (JObj r)) out records.
Proof. apply selected_parts. Qed.

(** * Refusals *)

(** Every path of a mask has a field that names it. *)
Inductive covered (origin : Origin) (n : nat) : Mask -> path -> Prop :=
| covered_node cs at_ :
    (forall k c, (k, c) ∈ cs -> exists i, origin_of (at_ ++ [k])%list origin = Some i /\ (i < n)%nat) ->
    (forall k m, (k, Some m) ∈ cs -> covered origin n m (at_ ++ [k])%list) ->
    covered origin n (Node cs) at_.

(** An error that points at a field, or at the fields where there are none. *)
Definition points_at (n : nat) (e : MaskError) : Prop :=
  (n = 0%nat /\ me_loc e = mask_loc []) \/ exists i rest, me_loc e = mask_loc (number i :: rest) /\ (i < n)%nat.

Definition refused_at (n : nat) {A} (o : Cut A) : Prop :=
  match o with Ok _ => True | Raise (FieldMaskRefusal errors) => errors <> [] /\ Forall (points_at n) errors | Raise (Broken _) => False end.

Lemma origin_grows index origin p q i : origin_of q origin = Some i -> origin_of q (set_origin index origin p) = Some i.
Proof.
  unfold set_origin. intros Hq. destruct (origin_of p origin); [done|]. induction origin as [|[p' j] origin IH]; [done|]. cbn in *. case_decide; [done|by apply IH].
Qed.

Lemma origin_set index origin p : exists i, origin_of p (set_origin index origin p) = Some i /\ (i = index \/ origin_of p origin = Some i).
Proof.
  unfold set_origin. destruct (origin_of p origin) as [j|] eqn:Hp; [exists j; by auto|]. exists index. split; [|by left].
  induction origin as [|[p' j] origin IH]; cbn in *; [by rewrite decide_True|]. case_decide; [done|by apply IH].
Qed.

Lemma origins_grow index : forall ps origin q i, origin_of q origin = Some i -> origin_of q (fold_left (set_origin index) ps origin) = Some i.
Proof. induction ps as [|p ps IH]; intros origin q i Hq; [done|]. cbn. by apply IH, origin_grows. Qed.

(** Every origin is the number of a field. *)
Definition low (n : nat) (origin : Origin) : Prop := Forall (fun pi => (pi.2 < n)%nat) origin.

Lemma origin_of_low n origin p i : low n origin -> origin_of p origin = Some i -> (i < n)%nat.
Proof. induction 1 as [|[p' j] origin Hj _ IH]; cbn; [done|]. case_decide; [by intros [= <-]|done]. Qed.

Lemma set_origin_low index n origin p : (index < n)%nat -> low n origin -> low n (set_origin index origin p).
Proof. intros Hn Hlow. unfold set_origin. destruct (origin_of p origin); [done|]. apply Forall_app. split; [done|by constructor]. Qed.

Lemma origins_low index n : (index < n)%nat -> forall ps origin, low n origin -> low n (fold_left (set_origin index) ps origin).
Proof. intros Hn ps. induction ps as [|p ps IH]; intros origin Hlow; [done|]. by apply IH, set_origin_low. Qed.

Lemma origins_set index : forall ps origin p, p ∈ ps -> exists i, origin_of p (fold_left (set_origin index) ps origin) = Some i.
Proof.
  induction ps as [|x ps IH]; intros origin p Hp; [by apply elem_of_nil in Hp|]. cbn. apply elem_of_cons in Hp as [->|Hp]; [|by apply IH].
  destruct (origin_set index origin x) as (i & Hi & _). exists i. by apply origins_grow.
Qed.

Lemma covered_grows origin origin' n m at_ : (forall q i, origin_of q origin = Some i -> origin_of q origin' = Some i) -> covered origin n m at_ -> covered origin' n m at_.
Proof.
  intros Hgrow. induction 1 as [cs at_ Hk _ IH]. constructor; [|done]. intros k c Hin. destruct (Hk k c Hin) as (i & Hi & Hlt). exists i. auto.
Qed.

(** A merged mask is covered where the prefixes of what is merged are. *)
Lemma covered_merge origin n : forall segments m at_, covered origin n m at_ ->
  (forall depth, (depth < length segments)%nat -> exists i, origin_of (at_ ++ firstn (S depth) segments)%list origin = Some i /\ (i < n)%nat) ->
  covered origin n (merge m segments) at_.
Proof.
  induction segments as [|s segments IH]; intros m at_ Hm Hor; [done|]. pose proof Hm as Hm'. destruct Hm as [cs at_ Hk Hdeep].
  pose proof (Hor 0%nat ltac:(cbn; lia)) as Hs. change (firstn 1 (s :: segments)) with [s] in Hs.
  destruct segments as [|x rest]; cbn [merge children].
  - constructor; [|intros k m [[=]|Hin]%elem_of_mset; by apply Hdeep]. intros k c [[= -> ->]|Hin]%elem_of_mset; [done|by eapply Hk].
  - assert (forall child, covered origin n child (at_ ++ [s])%list -> covered origin n (Node (mset s (Some (merge child (x :: rest))) cs)) at_) as Hput.
    { intros child Hchild. constructor.
      - intros k c [[= -> ->]|Hin]%elem_of_mset; [done|by eapply Hk].
      - intros k m [[= -> ->]|Hin]%elem_of_mset; [|by apply Hdeep]. apply IH; [done|]. intros depth Hd.
        destruct (Hor (S depth)) as (i & Hi & Hlt); [cbn in *; lia|]. exists i. split; [|done]. rewrite <- app_assoc. exact Hi. }
    destruct (mget s cs) as [[child|]|] eqn:Hc; [|done|].
    + apply Hput, Hdeep. by apply mget_elem.
    + apply (Hput (Node [])). constructor; [intros k c H; by apply elem_of_nil in H|intros k m H; by apply elem_of_nil in H].
Qed.

Lemma selection_covers fields s : selection fields = Ok s -> covered (sl_origin s) (length fields) (sl_mask s) [].
Proof.
  unfold selection. destruct fields as [|field fields]; [done|]. destruct (List.filter _ _); [|done]. intros [= <-].
  assert (forall n xs start s0, (start + length xs <= n)%nat -> low n (sl_origin s0) -> covered (sl_origin s0) n (sl_mask s0) [] ->
    let s1 := fold_left add_field (combine (seq start (length xs)) xs) s0 in covered (sl_origin s1) n (sl_mask s1) []) as Hgo.
  { intros n xs. induction xs as [|x xs IH]; intros start s0 Hlen Hlow Hc; [done|]. cbn in Hlen. cbn [length seq combine fold_left]. apply IH; [lia| |].
    - cbn. apply origins_low; [lia|done].
    - cbn. apply covered_merge; [eapply covered_grows; [intros q i; by apply origins_grow|done]|].
      intros depth Hd. cbn [app]. destruct (origins_set start (prefixes (split_on "." x)) (sl_origin s0) (firstn (S depth) (split_on "." x))) as [i Hi].
      + apply list_elem_of_fmap. exists depth. split; [done|]. apply elem_of_seq. lia.
      + exists i. split; [done|]. eapply origin_of_low; [|exact Hi]. apply origins_low; [lia|done]. }
  apply (Hgo _ (field :: fields) 0%nat (mkSelection (Node []) [])); [done|constructor|].
  constructor; [intros k c H; by apply elem_of_nil in H|intros k m H; by apply elem_of_nil in H].
Qed.

Lemma refuse_at n {A} origin p error_type msg at_ : (exists i, origin_of p origin = Some i /\ (i < n)%nat) ->
  refused_at n (refuse origin p error_type msg at_ : Cut A).
Proof.
  intros (i & Hi & Hlt). unfold refuse. rewrite Hi. split; [done|]. constructor; [|constructor]. right. exists i, (map JStr at_). done.
Qed.

Lemma elements_refused n origin key p records : (exists i, origin_of p origin = Some i /\ (i < n)%nat) -> refused_at n (elements_under origin key p records).
Proof.
  intros Hp. induction records as [|r rest IH]; cbn [elements_under]; [done|].
  pose proof (@refuse_at n (list dict) origin p "dict_type" "Input should be a valid dictionary" p Hp) as Href.
  destruct (elements_under origin key p rest) as [more|e]; destruct (dget key r) as [[| | | | items|d]|]; try done; by destruct (all_objects items).
Qed.

(** Putting back as many objects as were taken out never runs short. *)
Lemma put_back_ok key : forall records shaped outs, length outs = length records -> Forall (fun r => shapely (dget key r)) records ->
  length shaped = length (concat (map (fun r => objects_of (dget key r)) records)) ->
  exists outs', put_back key records shaped outs = Ok outs' /\ length outs' = length records.
Proof.
  induction records as [|r records IH]; intros shaped [|out outs] Hlen Hall Hs; try done; [by exists []|]. injection Hlen as Hlen. apply Forall_cons in Hall as [Hr Hall].
  cbn [map concat] in Hs. rewrite length_app in Hs. cbn [put_back].
  destruct (dget key r) as [[| | | |items|d]|]; try done; cbn [objects_of length] in Hs.
  - destruct (IH shaped outs Hlen Hall Hs) as (outs' & -> & H). eexists. split; [done|]. cbn. by rewrite H.
  - destruct Hr as [ds Hds]. rewrite Hds in Hs. apply all_objects_some in Hds as ->. change (default [] (Some ds)) with ds in Hs.
    pose proof (length_map JObj ds) as Hn. set (n := length (map JObj ds)) in *. clearbody n.
    assert (length shaped = (n + length (concat (map (fun r => objects_of (dget key r)) records)))%nat) as Hs' by (rewrite Hn; exact Hs). clear Hs.
    destruct (Nat.ltb_spec (length shaped) n); [lia|].
    destruct (IH (skipn n shaped) outs Hlen Hall) as (outs' & -> & H'); [rewrite length_skipn, Hs', Nat.add_comm; apply Nat.add_sub|].
    eexists. split; [done|]. cbn. by rewrite H'.
  - destruct shaped as [|s ss]; [done|]. injection Hs as Hs. destruct (IH ss outs Hlen Hall Hs) as (outs' & -> & H). eexists. split; [done|]. cbn. by rewrite H.
  - destruct (IH shaped outs Hlen Hall Hs) as (outs' & -> & H). eexists. split; [done|]. cbn. by rewrite H.
Qed.

(** A cut of a covered mask is answered, one record for each, or refused where a field is. *)
Lemma cut_refused n origin m at_ : covered origin n m at_ -> forall records,
  refused_at n (cut origin m records at_) /\ (forall out, cut origin m records at_ = Ok out -> length out = length records).
Proof.
  induction 1 as [cs at_ Hkeys Hdeep IH]. intros records.
  assert (forall cs' outs, (forall kc, kc ∈ cs' -> kc ∈ cs) -> length outs = length records ->
    let o := cut_within (cut origin) origin records at_ cs' outs in refused_at n o /\ (forall outs', o = Ok outs' -> length outs' = length records)) as Hw.
  { intros cs'. induction cs' as [|[key [inner|]] cs' IHc]; intros outs Hsub Hlen; cbn [cut_within].
    - split; [done|]. by intros outs' [= <-].
    - pose proof (elements_refused n origin key (at_ ++ [key])%list records) as Hel.
      specialize (Hel (Hkeys key (Some inner) (Hsub _ (list_elem_of_here _ _)))).
      destruct (elements_under _ _ _ _) as [els|e] eqn:Hels; [|split; [exact Hel|done]]. apply elements_inv in Hels as [Hels Hshapely].
      destruct (IH key inner (Hsub _ (list_elem_of_here _ _)) els) as [Href Hcl].
      destruct (cut origin inner els _) as [shaped|e]; [|split; [exact Href|done]]. specialize (Hcl shaped eq_refl).
      destruct (put_back_ok key records shaped outs Hlen Hshapely) as (outs1 & -> & Hlen1); [by rewrite Hcl, Hels|].
      apply IHc; [|done]. intros kc Hkc. apply Hsub. by right.
    - apply IHc; [|done]. intros kc Hkc. apply Hsub. by right. }
  destruct (Hw cs (map (kept_whole cs) records) (fun _ H => H) ltac:(by rewrite length_map)) as [Hcw Hlen]. cbn [cut].
  assert (let o := match cut_within (cut origin) origin records at_ cs (map (kept_whole cs) records) with
      | Ok outs => Ok (map (fun ro => in_order ro.1 ro.2) (combine records outs)) | Raise e => Raise e end in
    refused_at n o /\ (forall out, o = Ok out -> length out = length records)) as Hend.
  { cbn zeta. destruct (cut_within _ _ _ _ _ _) as [outs|e]; [|done]. split; [done|]. intros out [= <-].
    rewrite length_map, length_combine, (Hlen outs eq_refl). lia. }
  destruct records as [|r records]; [exact Hend|]. destruct (List.filter _ _) as [|unknown more] eqn:Hu; [exact Hend|].
  assert (unknown ∈ map fst cs) as Hin.
  { assert (In unknown (unknown :: more)) as Hin by by left. rewrite <- Hu in Hin. apply filter_In in Hin as [Hin _]. by apply list_elem_of_In. }
  apply list_elem_of_fmap in Hin as ([k c] & -> & Hin). split; [by apply refuse_at, (Hkeys k c)|].
  intros out Hout. destruct (@refuse_raises (list dict) origin (at_ ++ [k])%list "literal_error" (choices (known_names (r :: records))) []) as [e He]. cbn [fst] in Hout. congruence.
Qed.

Lemma malformed_points (fields : list string) : Forall (fun f : nat * string => (f.1 < length fields)%nat) (numbered fields).
Proof.
  unfold numbered. apply Forall_forall. intros [i x] Hin%list_elem_of_In%in_combine_l. apply in_seq in Hin. cbn in *. lia.
Qed.

(** A mask is answered for every record, or refused in HQ's own shape, each error at a field the
    caller sent, or at the list of them where it is empty: no mask, however it is written,
    breaks the read. *)
Theorem mask_is_answered_or_refused (records : list dict) (fields : list string) :
  (exists out, selected records fields = Ok out /\ length out = length records) \/
  (exists errors, selected records fields = Raise (FieldMaskRefusal errors) /\ errors <> [] /\ Forall (points_at (length fields)) errors).
Proof.
  assert (refused_at (length fields) (selected records fields) /\ (forall out, selected records fields = Ok out -> length out = length records)) as [Href Hlen].
  { unfold selected. destruct (selection fields) as [s|e] eqn:Hs; [by apply cut_refused, selection_covers|]. split; [|done]. revert Hs.
    unfold selection. destruct fields as [|field fields]; [intros [= <-]; cbn; split; [done|]; constructor; [by left|constructor]|].
    pose proof (malformed_points (field :: fields)) as Hlow. destruct (List.filter _ _) as [|bad more] eqn:Hbad; [done|]. intros [= <-]. split; [done|].
    change (Forall (points_at (length (field :: fields))) (map malformed_error (bad :: more))).
    apply Forall_forall. intros e (f & -> & Hf)%list_elem_of_fmap. right. exists f.1, []. split; [done|].
    rewrite <- Hbad in Hf. apply list_elem_of_In, filter_In in Hf as [Hf _]. rewrite Forall_forall in Hlow. by apply Hlow, list_elem_of_In. }
  destruct (selected records fields) as [out|[errors|what]]; [left; eauto|right; by exists errors|done].
Qed.

(** * Witnesses *)

Lemma two_records_keyed : Forall one_keyed two_records.
Proof. repeat constructor. Qed.

Lemma selected_is_what_is_named_witness :
  selected two_records ["spec.port"; "slug"; "spec.port"] = Ok (map (named [["spec"; "port"]; ["slug"]; ["spec"; "port"]]) two_records).
Proof.
  destruct (selected two_records ["spec.port"; "slug"; "spec.port"]) as [out|e] eqn:H; [|exfalso; vm_compute in H; discriminate H].
  apply f_equal. exact (selected_is_what_is_named two_records ["spec.port"; "slug"; "spec.port"] out two_records_keyed H).
Defined.

Lemma selected_is_a_part_witness :
  exists out, selected two_records ["links.to"] = Ok out /\ Forall2 (fun o r => part (JObj o) (JObj r)) out two_records.
Proof.
  destruct (selected two_records ["links.to"]) as [out|e] eqn:H; [|exfalso; vm_compute in H; discriminate H].
  exists out. split; [reflexivity|]. exact (selected_is_a_part two_records ["links.to"] out two_records_keyed H).
Defined.
