(* ===== verification/InputErrors.v ===== *)
(** The one answer an [invalid_input] refusal carries ([input_errors.py]): what was wrong with the
    input, told from a library's errors without a word the caller sent.

    [pydantic_types] is the set of error types pydantic declares, and the errors are as pydantic and
    Django raise them: parameters of what is told. *)
From stdpp Require Import base list strings pretty.
From Stdlib Require Import Ascii ZArith Lia.
From S2P Require Import Prelude PyStr Json Refusals.

#[local] Open Scope string_scope.

(** How many problems the sentence names. *)
Definition NAMED : nat := 5.

(** Types whose text can be the caller's, or a validator's own. *)
Definition OPAQUE : list string := ["assertion_error"; "get_attribute_error"; "json_invalid"; "union_tag_invalid"; "value_error"].
Definition CHOICE : list string := ["enum"; "literal_error"].
Definition OPAQUE_MSG := "Input is invalid".

(** One error as pydantic shapes it; [pe_rest] is its [input], [url] and [ctx]. *)
Record PydanticError : Type := mkPydanticError { pe_type : string; pe_loc : list json; pe_msg : string; pe_rest : dict }.

(** [InputRefusal] *)
Record InputRefusal : Type := mkInputRefusal { ir_message : string; ir_details : json }.

Definition EXTRA_TYPE := "extra_forbidden".
Definition EXTRA_MSG := "Extra inputs are not permitted".

(** [_unknown_as_extra(error)] *)
Definition unknown_as_extra (e : PydanticError) : PydanticError :=
  if decide (pe_type e = "unexpected_keyword_argument") then mkPydanticError EXTRA_TYPE (pe_loc e) EXTRA_MSG (pe_rest e) else e.

(** [unknown_field_errors(fields)] *)
Definition unknown_field_errors (fields : list string) : list PydanticError :=
  map (fun f => mkPydanticError EXTRA_TYPE [JStr f] EXTRA_MSG []) fields.

(** [_ERROR_CLAUSE.split(msg, maxsplit=1)[0]]: the text before the first comma or colon and a space. *)
Fixpoint before_clause (s : string) : string :=
  match s with
  | "" => ""
  | String c r =>
      match r with
      | String " " _ => if bool_decide (c = ","%char \/ c = ":"%char) then "" else String c (before_clause r)
      | _ => String c (before_clause r)
      end
  end.

(** [_path(loc)] *)
Definition path_part (told : string) (part : json) : string :=
  match part with
  | JNum _ | JBool _ => told +:+ "[" +:+ str_of part +:+ "]"
  | _ => if decide (told = "") then str_of part else told +:+ "." +:+ str_of part
  end.

Definition path_of (loc : list json) : string := fold_left path_part loc "".

(** [_message(subject, problems)] *)
Definition problem_text (problem : string * string) : string := str_or problem.1 "the input" +:+ " " +:+ problem.2.

Definition message (subject : string) (problems : list (string * string)) : string :=
  let named := map problem_text problems in
  match named with
  | [] => subject +:+ ": the input is invalid."
  | _ =>
      let shown := join "; " (firstn NAMED named) in
      let more := if (NAMED <? length named)%nat then "; and " +:+ pretty (length named - NAMED)%nat +:+ " more (see details)" else "" in
      ended (subject +:+ ": " +:+ shown +:+ more)
  end.

(** * The declared choices *)

Definition is_quote (c : ascii) : bool := bool_decide (c = "'"%char \/ c = "034"%char).
Definition strip_quotes (s : string) : string := rstrip_by is_quote (lstrip_by is_quote s).

(** What follows where [_EXPECTED_SPLIT] splits: a comma and any space, or [or] between spaces. *)
Definition after_separator (s : string) : option string :=
  match s with
  | "" => None
  | String c r =>
      if decide (c = ","%char) then Some (lstrip_by is_space r)
      else if is_space c then
        match lstrip_by is_space r with
        | String "o" (String "r" (String c' r)) => if is_space c' then Some (lstrip_by is_space r) else None
        | _ => None
        end
      else None
  end.

(** [_EXPECTED_SPLIT.split(s)], a character or a separator at a time: [fuel] is the length of the text. *)
Fixpoint split_expected (fuel : nat) (s : string) : list string :=
  match fuel with
  | O => [s]
  | S fuel =>
      match s with
      | "" => [""]
      | String c r =>
          match after_separator s with
          | Some rest => "" :: split_expected fuel rest
          | None => match split_expected fuel r with w :: ws => String c w :: ws | [] => [String c ""] end
          end
      end
  end.

Definition expected_parts (s : string) : list string := split_expected (String.length s) s.

Definition removeprefix (p s : string) : string := if startswith p s then String.substring (String.length p) (String.length s) s else s.

Definition SHOULD_BE := "Input should be ".

(** The choices of a message, as [_pydantic_reason] reads them. *)
Definition choices_of (msg : string) : list string :=
  map (fun c => strip_quotes (strip c)) (List.filter (fun c => negb (bool_decide (strip c = ""))) (expected_parts (removeprefix SHOULD_BE msg))).

(** A letter, a digit or an underscore: [\w] in ASCII. *)
Definition word_char (c : ascii) : bool :=
  let n := code c in ((48 <=? n) && (n <=? 57) || (65 <=? n) && (n <=? 90) || (97 <=? n) && (n <=? 122) || (n =? 95))%nat.

(** [_SHOULD.sub("must ", msg)] *)
Definition should_to_must (msg : string) : string :=
  let rest := lstrip_by word_char msg in
  if negb (bool_decide (rest = msg)) && startswith " should " rest then "must " +:+ removeprefix " should " rest else msg.

Section Pydantic.
Variable pydantic_types : string -> bool.

(** [_safe_msg(error)] *)
Definition safe_msg (e : PydanticError) : string :=
  if negb (pydantic_types (pe_type e)) || bool_decide (pe_type e ∈ OPAQUE) then ""
  else if bool_decide (pe_type e ∈ CHOICE) then pe_msg e
  else before_clause (pe_msg e).

(** One entry of the details. *)
Record Told : Type := mkTold { td_type : string; td_loc : list json; td_msg : string }.

Definition told (e : PydanticError) : Told :=
  let e := unknown_as_extra e in mkTold (pe_type e) (pe_loc e) (str_or (safe_msg e) OPAQUE_MSG).

Definition told_json (t : Told) : json := JObj [("type", JStr (td_type t)); ("loc", JList (td_loc t)); ("msg", JStr (td_msg t))].

(** [_pydantic_reason(error)] *)
Definition pydantic_reason (t : Told) : string :=
  if decide (td_type t = "missing") then "is required"
  else if decide (td_type t = "extra_forbidden") then "is not a known field"
  else if bool_decide (td_type t ∈ CHOICE) && startswith SHOULD_BE (td_msg t) then "must be one of " +:+ join ", " (choices_of (td_msg t))
  else if negb (bool_decide (td_msg t = "")) && negb (bool_decide (td_msg t = OPAQUE_MSG)) then should_to_must (td_msg t)
  else "is invalid".

(** [pydantic_refusal(subject, errors)] *)
Definition pydantic_refusal (subject : string) (errors : list PydanticError) : InputRefusal :=
  let details := map told errors in
  mkInputRefusal (message subject (map (fun t => (path_of (td_loc t), pydantic_reason t)) details)) (JList (map told_json details)).
End Pydantic.

(** * Django's errors *)

(** A validation error: its code, empty where it has none, and its [limit_value]. *)
Record DjangoError : Type := mkDjangoError { de_code : string; de_limit : option json }.

Definition NON_FIELD_ERRORS := "__all__".

(** [_DJANGO_REASONS] *)
Definition DJANGO_REASONS (code : string) : option string :=
  if bool_decide (code ∈ ["blank"; "null"; "required"]) then Some "is required"
  else if decide (code = "invalid_choice") then Some "is not one of the allowed choices"
  else if bool_decide (code ∈ ["unique"; "unique_together"]) then Some "is already taken"
  else None.

(** [isinstance(limit, int)], as text. *)
Definition whole_number (limit : option json) : option string :=
  match limit with Some (JNum z) => Some (pretty z) | Some (JBool b) => Some (str_of (JBool b)) | _ => None end.

(** [_django_reason(error)] *)
Definition django_reason (e : DjangoError) : string :=
  match DJANGO_REASONS (de_code e) with
  | Some said => said
  | None =>
      match whole_number (de_limit e) with
      | Some limit =>
          if decide (de_code e = "max_length") then "must have at most " +:+ limit +:+ " characters"
          else if decide (de_code e = "min_length") then "must have at least " +:+ limit +:+ " characters"
          else if decide (de_code e = "max_value") then "must be at most " +:+ limit
          else if decide (de_code e = "min_value") then "must be at least " +:+ limit
          else "is invalid"
      | None => "is invalid"
      end
  end.

(** [django_refusal(subject, exc)], of the errors by field. *)
Definition django_refusal (subject : string) (grouped : list (string * list DjangoError)) : InputRefusal :=
  let details := map (fun fe => (fe.1, JList (map (fun e => JStr (str_or (de_code e) "invalid")) fe.2)))
                   (List.filter (fun fe => match fe.2 with [] => false | _ => true end) grouped) in
  let problems := concat (map (fun fe => map (fun e => (if decide (fe.1 = NON_FIELD_ERRORS) then "" else fe.1, django_reason e)) fe.2) grouped) in
  mkInputRefusal (message subject problems) (JObj details).

Example reads_choices : choices_of "Input should be 'a', 'b' or 'c'" = ["a"; "b"; "c"].
Proof. reflexivity. Qed.
Example reads_should : should_to_must "String should match 'name.name'" = "must match 'name.name'".
Proof. reflexivity. Qed.
Example cuts_clause : before_clause "Input should be a valid integer, unable to parse" = "Input should be a valid integer".
Proof. reflexivity. Qed.

(** * What is told depends on nothing sent *)

(** Two errors a caller cannot tell apart: of one type and place, and, where the type's text may be
    shown, of one text up to the clause that can quote the input. *)
Definition alike (pydantic_types : string -> bool) (e e' : PydanticError) : Prop :=
  pe_type e = pe_type e' /\ pe_loc e = pe_loc e' /\
  (pydantic_types (pe_type e) = true -> pe_type e ∉ OPAQUE ->
   if decide (pe_type e ∈ CHOICE) then pe_msg e = pe_msg e' else before_clause (pe_msg e) = before_clause (pe_msg e')).

(** A refusal is the same for two inputs refused alike: what either held is nowhere in it. *)
Theorem refusal_tells_nothing_sent (pydantic_types : string -> bool) (subject : string) (errors errors' : list PydanticError) :
  Forall2 (alike pydantic_types) errors errors' -> pydantic_refusal pydantic_types subject errors = pydantic_refusal pydantic_types subject errors'.
Proof.
  intros H. unfold pydantic_refusal. assert (map (told pydantic_types) errors = map (told pydantic_types) errors') as ->; [|done].
  induction H as [|e e' errors errors' (Ht & Hl & Hm) _ IH]; [done|]. cbn [map]. rewrite IH. f_equal. unfold told, unknown_as_extra. rewrite Ht, Hl.
  destruct (decide (pe_type e' = "unexpected_keyword_argument")); cbn [pe_type pe_loc]; [done|]. rewrite Ht, Hl. f_equal. f_equal.
  unfold safe_msg. rewrite Ht in *. destruct (pydantic_types (pe_type e')); [|done]. case_bool_decide as Ho; [done|]. cbn [negb orb].
  specialize (Hm eq_refl Ho). case_bool_decide as Hc; [by rewrite decide_True in Hm|by rewrite decide_False in Hm].
Qed.

(** * The choices of an enumeration read back *)

(** A name no separator or quote can be taken out of. *)
Definition plain_char (c : ascii) : bool := negb (is_space c) && negb (is_quote c) && negb (bool_decide (c = ","%char)).
Definition plain (s : string) : bool := negb (bool_decide (s = "")) && str_all plain_char s.

Definition quoted_name (s : string) : string := "'" +:+ s +:+ "'".

(** How pydantic words them: ['a', 'b' or 'c']. *)
Fixpoint phrased (names : list string) : string :=
  match names with
  | [] => ""
  | [x] => quoted_name x
  | [x; y] => quoted_name x +:+ " or " +:+ quoted_name y
  | x :: rest => quoted_name x +:+ ", " +:+ phrased rest
  end.

(** A character no separator starts with. *)
Definition inner (c : ascii) : bool := negb (is_space c) && negb (bool_decide (c = ","%char)).

Lemma inner_no_separator c r : inner c = true -> after_separator (String c r) = None.
Proof.
  unfold inner. rewrite andb_true_iff, !negb_true_iff, bool_decide_eq_false. intros [Hs Hc].
  unfold after_separator. by rewrite decide_False, Hs.
Qed.

(** A word is read whole, up to what follows it. *)
Lemma split_word w : str_all inner w = true -> forall fuel s, (String.length w + String.length s <= fuel)%nat ->
  exists fuel', (String.length s <= fuel')%nat /\
    split_expected fuel (w +:+ s) = match split_expected fuel' s with x :: xs => (w +:+ x) :: xs | [] => [w] end.
Proof.
  induction w as [|c w IH]; intros Hw fuel s Hf.
  - exists fuel. split; [done|]. change ("" +:+ s) with s. destruct (split_expected fuel s) as [|x xs] eqn:Hs; [|done].
    exfalso. revert Hs. destruct fuel as [|fuel]; cbn; [done|]. destruct s as [|c r]; [done|]. destruct (after_separator _); [done|]. by destruct (split_expected fuel r).
  - cbn in Hw. apply andb_true_iff in Hw as [Hc Hw]. destruct fuel as [|fuel]; [cbn in Hf; lia|]. cbn in Hf.
    destruct (IH Hw fuel s ltac:(lia)) as (fuel' & Hf' & Heq). exists fuel'. split; [done|].
    change (String c w +:+ s) with (String c (w +:+ s)). cbn [split_expected]. rewrite inner_no_separator by done. rewrite Heq.
    by destruct (split_expected fuel' s).
Qed.

Lemma str_all_impl (p q : ascii -> bool) s : (forall c, p c = true -> q c = true) -> str_all p s = true -> str_all q s = true.
Proof. intros Hpq. induction s as [|c s IH]; cbn; [done|]. rewrite !andb_true_iff. intros [? ?]. auto. Qed.

Lemma quoted_inner x : plain x = true -> str_all inner (quoted_name x) = true.
Proof.
  unfold plain. intros [_ Hx]%andb_true_iff. unfold quoted_name. rewrite !str_all_app. rewrite (str_all_impl plain_char inner x); [done| |done].
  intros c. unfold plain_char, inner. rewrite !andb_true_iff. tauto.
Qed.

Lemma length_app_str x y : String.length (x +:+ y) = (String.length x + String.length y)%nat.
Proof. induction x as [|c x IH]; [done|]. change (String c x +:+ y) with (String c (x +:+ y)). cbn. by rewrite IH. Qed.

Lemma app_empty_str s : s +:+ "" = s.
Proof. induction s as [|c s IH]; [done|]. change (String c s +:+ "") with (String c (s +:+ "")). by rewrite IH. Qed.

(** A word, then a separator. *)
Lemma split_at w s rest : str_all inner w = true -> after_separator s = Some rest -> (String.length rest < String.length s)%nat ->
  forall fuel, (String.length (w +:+ s) <= fuel)%nat ->
  exists fuel', (String.length rest <= fuel')%nat /\ split_expected fuel (w +:+ s) = w :: split_expected fuel' rest.
Proof.
  intros Hw Hs Hlen fuel Hf. rewrite length_app_str in Hf. destruct (split_word w Hw fuel s Hf) as (fuel1 & Hf1 & ->).
  destruct fuel1 as [|fuel1]; [lia|]. exists fuel1. split; [lia|]. destruct s as [|c r]; [done|]. cbn [split_expected]. by rewrite Hs, app_empty_str.
Qed.

(** A word at the end. *)
Lemma split_end w : str_all inner w = true -> forall fuel, (String.length w <= fuel)%nat -> split_expected fuel w = [w].
Proof.
  intros Hw fuel Hf. destruct (split_word w Hw fuel "") as (fuel' & _ & Heq); [cbn; lia|]. rewrite app_empty_str in Heq. rewrite Heq.
  destruct fuel' as [|fuel']; cbn; by rewrite app_empty_str.
Qed.

Lemma phrased_head names : names <> [] -> exists r, phrased names = String "'" r.
Proof. destruct names as [|x [|y [|z rest]]]; [done|by eexists..]. Qed.

Lemma lstrip_phrased names : names <> [] -> lstrip_by is_space (phrased names) = phrased names.
Proof. intros Hne. by destruct (phrased_head names Hne) as [r ->]. Qed.

Lemma split_phrased names : names <> [] -> Forall (fun x => plain x = true) names ->
  forall fuel, (String.length (phrased names) <= fuel)%nat -> split_expected fuel (phrased names) = map quoted_name names.
Proof.
  induction names as [|x names IH]; intros Hne Hall fuel Hf; [done|]. apply Forall_cons in Hall as [Hx Hall]. apply quoted_inner in Hx.
  destruct names as [|y rest]; [by apply split_end|].
  assert (exists sep, phrased (x :: y :: rest) = quoted_name x +:+ (sep +:+ phrased (y :: rest)) /\ (sep = " or " \/ sep = ", ")) as (sep & Hp & Hsep).
  { destruct rest as [|z rest]; [exists " or "|exists ", "]; (split; [done|by auto]). }
  assert (after_separator (sep +:+ phrased (y :: rest)) = Some (phrased (y :: rest))) as Hafter.
  { destruct (phrased_head (y :: rest) ltac:(done)) as [r Hr]. rewrite Hr. destruct Hsep as [->| ->]; reflexivity. }
  rewrite Hp in Hf |- *. destruct (split_at (quoted_name x) _ _ Hx Hafter) with (fuel := fuel) as (fuel' & Hf' & ->); [|done|].
  - rewrite length_app_str. destruct Hsep as [->| ->]; cbn; lia.
  - cbn [map]. f_equal. by apply IH.
Qed.

Lemma lstrip_stays p c r : p c = false -> lstrip_by p (String c r) = String c r.
Proof. cbn. by intros ->. Qed.

Lemma rstrip_keeps p s c : p c = false -> rstrip_by p (s +:+ String c "") = s +:+ String c "".
Proof.
  intros Hc. induction s as [|a s IH]; [change ("" +:+ String c "") with (String c ""); cbn; by rewrite Hc|].
  change (String a s +:+ String c "") with (String a (s +:+ String c "")). cbn [rstrip_by].
  rewrite IH. by destruct s.
Qed.

Lemma rstrip_drops p s c : p c = true -> str_all (fun a => negb (p a)) s = true -> rstrip_by p (s +:+ String c "") = s.
Proof.
  intros Hc. induction s as [|a s IH]; cbn [str_all]; [change ("" +:+ String c "") with (String c ""); cbn; by rewrite Hc|]. rewrite andb_true_iff, negb_true_iff. intros [Ha Hs].
  change (String a s +:+ String c "") with (String a (s +:+ String c "")). cbn [rstrip_by]. rewrite (IH Hs). destruct s; [by rewrite Ha|done].
Qed.

Lemma quoted_as x : quoted_name x = String "'" (x +:+ String "'" "").
Proof. done. Qed.

Lemma strip_quoted x : strip (quoted_name x) = quoted_name x.
Proof.
  unfold strip. rewrite quoted_as, lstrip_stays by done. change (String "'" (x +:+ String "'" "")) with ((String "'" x) +:+ String "'" "").
  by apply rstrip_keeps.
Qed.

Lemma unquoted x : plain x = true -> strip_quotes (quoted_name x) = x.
Proof.
  unfold plain. intros [Hne Hx]%andb_true_iff. apply negb_true_iff, bool_decide_eq_false in Hne.
  assert (str_all (fun a => negb (is_quote a)) x = true) as Hq.
  { eapply str_all_impl; [|exact Hx]. intros c. unfold plain_char. rewrite !andb_true_iff. tauto. }
  unfold strip_quotes. rewrite quoted_as. change (lstrip_by is_quote (String "'" (x +:+ String "'" ""))) with (lstrip_by is_quote (x +:+ String "'" "")).
  destruct x as [|c x]; [done|]. change (String c x +:+ String "'" "") with (String c (x +:+ String "'" "")). rewrite lstrip_stays.
  - by apply (rstrip_drops is_quote (String c x)).
  - cbn in Hq. apply andb_true_iff in Hq as [Hc _]. by apply negb_true_iff.
Qed.

Lemma prefix_app p s : startswith p (p +:+ s) = true.
Proof. unfold startswith. induction p as [|c p IH]; [by destruct s|]. change (String c p +:+ s) with (String c (p +:+ s)). cbn. by destruct (ascii_dec c c). Qed.

Lemma substring_all s n : (String.length s <= n)%nat -> String.substring 0 n s = s.
Proof. revert n. induction s as [|c s IH]; intros [|n] H; cbn in *; try done; [lia|]. rewrite IH; [done|lia]. Qed.

Lemma substring_app p s n : (String.length s <= n)%nat -> String.substring (String.length p) n (p +:+ s) = s.
Proof. intros H. induction p as [|c p IH]; [by apply substring_all|]. change (String c p +:+ s) with (String c (p +:+ s)). cbn. apply IH. Qed.

Lemma removeprefix_app p s : removeprefix p (p +:+ s) = s.
Proof. unfold removeprefix. rewrite prefix_app. apply substring_app. rewrite length_app_str. lia. Qed.

(** The choices a library words are the choices HQ names: each of them, in order, and nothing else. *)
Theorem choices_read_back (names : list string) :
  names <> [] -> Forall (fun x => plain x = true) names -> choices_of (SHOULD_BE +:+ phrased names) = names.
Proof.
  intros Hne Hall. unfold choices_of, expected_parts. rewrite removeprefix_app, split_phrased by done. clear Hne.
  induction Hall as [|x names Hx _ IH]; [done|]. cbn [map List.filter]. rewrite strip_quoted. rewrite (bool_decide_eq_false_2 (quoted_name x = "")) by done.
  cbn [negb map]. by rewrite IH, strip_quoted, unquoted.
Qed.

Lemma choices_read_back_witness : choices_of "Input should be 'queued', 'running' or 'done'" = ["queued"; "running"; "done"].
Proof. apply (choices_read_back ["queued"; "running"; "done"]); [discriminate|repeat constructor]. Defined.

Lemma refusal_tells_nothing_sent_witness :
  let of_type t := bool_decide (t = "int_parsing") in
  let sent v := [mkPydanticError "int_parsing" [JStr "limit"] ("Input should be a valid integer, unable to parse " +:+ v) [("input", JStr v)]] in
  pydantic_refusal of_type "audit" (sent "hunter2") = pydantic_refusal of_type "audit" (sent "swordfish").
Proof.
  apply (refusal_tells_nothing_sent (fun t => bool_decide (t = "int_parsing")) "audit"). constructor; [|constructor].
  split; [reflexivity|]. split; [reflexivity|]. intros _ _. vm_compute. reflexivity.
Defined.
