(* ===== verification/Resources.v ===== *)
(** The reads every adapter shares ([resources.py], [resource_refusals.py]): a list a page at a time,
    its cursor signed and bound to the kind and the filters it was issued under, and one record by
    its identifier, each cut to the fields asked for.

    Parameters: a deployment's registry, whose specs carry their handlers and query types; Django's
    signing; pydantic's error types; [difflib]'s nearest names. *)
From stdpp Require Import base list strings pretty countable gmap.
From Stdlib Require Import Ascii ZArith Lia.
From S2P Require Import Prelude PyStr Json Refusals Security Models Specs Ordered Projection FieldMasks InputErrors.

#[local] Open Scope string_scope.

Definition PAGE_FIELD := "cursor".
Definition PAGING : list string := ["limit"; PAGE_FIELD].
Definition INFRASTRUCTURE := "infrastructure".
Definition READINGS := "readings".

Definition FOUND_BY :=
  " details.identifier names the field this resource's records are addressed by, and details.next the listing that finds a record's value.".
Definition NEAREST_RECORDS := " details.closest reads each record whose identifier is nearest the one asked for.".
Definition NEAREST_RESOURCES := " details.closest describes each resource whose name is nearest the one asked for.".
Definition CLOSEST : nat := 3.

(** A list's query model: its fields, and its validation of what a caller sent into every field. *)
Record QueryType : Type := mkQueryType {
  qt_fields : list string;
  qt_validate : dict -> bool -> list PydanticError + dict;
}.

(** [ResourceSpec]. A list handler answers a page cut in the read's scope; [principal] is given only
    where the spec passes it. *)
Record ResourceSpec : Type := mkResourceSpec {
  rs_name : string;
  rs_required_capabilities : list string;
  rs_list_handler : option (dict -> option Principal -> Paged json);
  rs_list_query_type : option QueryType;
  rs_detail_handler : option (json -> option Principal -> outcome exn json);
  rs_identifier : string;                                   (* empty for none *)
  rs_identifier_type : json -> bool -> list PydanticError + json;
  rs_not_found : exn -> bool;                               (* isinstance(exc, spec.not_found_errors) *)
  rs_pass_principal : bool;
  rs_list_fields : list string;
}.

(** A list serves a resource whose handler and query it declares. *)
Definition listable (spec : ResourceSpec) : option ((dict -> option Principal -> Paged json) * QueryType) :=
  match rs_list_handler spec, rs_list_query_type spec with Some h, Some q => Some (h, q) | _, _ => None end.

Definition detailed (spec : ResourceSpec) : option (json -> option Principal -> outcome exn json) :=
  match rs_detail_handler spec with Some h => if decide (rs_identifier spec = "") then None else Some h | None => None end.

(** [list_filters(query)] *)
Definition list_filters (q : QueryType) : list string := List.filter (fun f => negb (bool_decide (f ∈ PAGING))) (qt_fields q).

(** * Refusals *)

(** [served(spec)] *)
Definition named_call (tool name : string) : json := next_call_with tool [("name", JStr name)].

Definition served (spec : ResourceSpec) : json :=
  match listable spec, detailed spec with
  | Some _, _ => JObj [("next", named_call "list_resource" (rs_name spec))]
  | None, Some _ => JObj [("identifier", JStr (rs_identifier spec)); ("next", named_call "get_resource" (rs_name spec))]
  | None, None => JObj [("next", next_call "describe_resources")]
  end.

Definition unlisted (spec : ResourceSpec) : exn :=
  Host UnsupportedResourceOperation "This resource cannot be listed; details.next is what it does serve." (served spec).
Definition undetailed (spec : ResourceSpec) : exn :=
  Host UnsupportedResourceOperation "This resource has no detail view; details.next is what it does serve." (served spec).

(** [found_by(spec)] *)
Definition found_by (spec : ResourceSpec) : dict :=
  ([("identifier", if decide (rs_identifier spec = "") then JNull else JStr (rs_identifier spec))] ++
   match rs_list_query_type spec with Some _ => [("next", named_call "list_resource" (rs_name spec))] | None => [] end)%list.

Fixpoint contains (needle s : string) : bool :=
  startswith needle s || match s with "" => false | String _ r => contains needle r end.

Section Resources.
Variables (host : Site) (registry : list ResourceSpec) (observations : string -> bool).
Variables (close_matches : string -> list string -> list string) (pydantic_types : string -> bool).
Variables (sign : json -> string) (unsign : string -> option json).

(** [resource_registry().get(name)] *)
Definition resource_named (name : string) : option ResourceSpec := first_where (fun s => bool_decide (rs_name s = name)) registry.

(** [closest(asked, held)], of names in ASCII. *)
Definition by_length (names : list string) : list string := order_by_time (fun s => Z.of_nat (String.length s)) names.

Definition closest (asked : string) (held : list string) : list string :=
  let folded := fold_left (fun d v => mset (lower v) v d) (List.filter (fun v => negb (bool_decide (v = asked))) held) [] in
  let key := lower asked in
  let holding := by_length (List.filter (fun v => (CLOSEST <=? String.length key)%nat && contains key v) (map fst folded)) in
  let alike := close_matches key (map fst folded) in
  firstn CLOSEST (omap (fun v => mget v folded) (names_once (holding ++ alike)%list)).

(** [unknown(name, names)] *)
Definition unknown (name : string) (names : list string) : exn :=
  if is_some (h_providers host name) then
    Host UnknownResource
      "HQ serves no resource by that name: it is a type of record the infrastructure resource holds, and details.next lists those records."
      (JObj [("next", next_call_with "list_resource" [("name", JStr INFRASTRUCTURE); ("filters", JObj [("kind", JStr name)])])])
  else if observations name then
    Host UnknownResource
      "HQ serves no resource by that name: it is a type of reading the readings resource holds, and details.next reads it with its records."
      (JObj [("next", next_call_with "get_resource" [("name", JStr READINGS); ("identifier", JStr name)])])
  else
    let reason := "HQ serves no resource by that name; describe_resources names each one." in
    match closest name names with
    | [] => Host UnknownResource reason (JObj [("next", next_call "describe_resources")])
    | nearest => Host UnknownResource (reason +:+ NEAREST_RESOURCES)
                   (JObj [("next", next_call "describe_resources"); ("closest", JList (map (fun v => named_call "describe_resources" v) nearest))])
    end.

(** [missed(refusal, spec, identifier, held)], of a refusal's reason. *)
Definition missed (reason : string) (spec : ResourceSpec) (identifier : json) (held : list json) : exn :=
  let values := fold_left (fun d v => mset (str_of v) v d) held [] in
  match closest (str_of identifier) (map fst values) with
  | [] => Host RecordNotFound reason (JObj (found_by spec))
  | nearest =>
      let calls := map (fun v => next_call_with "get_resource" [("name", JStr (rs_name spec)); ("identifier", default JNull (mget v values))]) nearest in
      Host RecordNotFound (reason +:+ NEAREST_RECORDS) (JObj (dset "closest" (JList calls) (found_by spec)))
  end.

(** [InvalidResourceInput(name, errors)] *)
Definition invalid_resource_input (name : string) (errors : list PydanticError) : exn :=
  let refusal := pydantic_refusal pydantic_types name errors in
  let filters := match resource_named name with
                 | Some spec => match rs_list_query_type spec with Some q => [("filters", JList (map JStr (list_filters q)))] | None => [] end
                 | None => []
                 end in
  InvalidResourceInput (ir_message refusal)
    (JObj ([("errors", ir_details refusal); ("next", named_call "describe_resources" name)] ++ filters)%list).

(** [_cursor_refused(name, reason)] *)
Definition cursor_refused (name reason : string) : exn :=
  invalid_resource_input name [mkPydanticError "value_error" [JStr PAGE_FIELD] reason []].

(** * One page of a list *)

(** [json.dumps(value, sort_keys=True)], its separators each with a space. *)
Fixpoint print_spaced (j : json) : string :=
  match j with
  | JNull => "null"
  | JBool true => "true"
  | JBool false => "false"
  | JNum z => pretty z
  | JStr s => dumps_str s
  | JList l => "[" +:+ join ", " (map print_spaced l) +:+ "]"
  | JObj d => "{" +:+ join ", " (map (fun kv => dumps_str kv.1 +:+ ": " +:+ print_spaced kv.2) d) +:+ "}"
  end.

(** [_bound(parsed)] *)
Definition bound_of (parsed : dict) : string :=
  take_str 32 (h_sha256 host (print_spaced (normal (JObj (dwithout PAGE_FIELD (dwithout "limit" parsed)))))).

(** [_issued(name, bound, position)] *)
Definition issued (name bound : string) (position : dict) : string :=
  sign (JObj [("kind", JStr name); ("bound", JStr bound); ("at", JObj position)]).

(** [_opened(name, token, bound)] *)
Definition opened (name token bound : string) : outcome exn dict :=
  match unsign token with
  | None => Raise (cursor_refused name "cursor is not one HQ issued; send a page's next.cursor as it came.")
  | Some (JObj d) =>
      match dget "at" d with
      | Some (JObj position) =>
          if negb (bool_decide (dget "kind" d = Some (JStr name))) then Raise (cursor_refused name "cursor was issued for another list.")
          else if negb (bool_decide (dget "bound" d = Some (JStr bound)))
          then Raise (cursor_refused name "cursor was issued under other filters; send the filters it was issued with.")
          else Ok position
      | _ => Raise (cursor_refused name "cursor was issued for another list.")
      end
  | Some _ => Raise (cursor_refused name "cursor was issued for another list.")
  end.

(** [_HANDLED.validate_python(result, strict=True)] *)
Record HandledPage : Type := mkHandledPage {
  hp_answer : dict; hp_items : list dict; hp_count : Z; hp_total : option Z; hp_truncated : option bool;
}.

Definition handled (result : json) : option HandledPage :=
  match result with
  | JObj d =>
      match dget "items" d, dget "count" d with
      | Some (JList items), Some (JNum count) =>
          let total := match dget "total" d with None | Some JNull => Some None | Some (JNum z) => Some (Some z) | Some _ => None end in
          let truncated := match dget "truncated" d with None => Some None | Some (JBool b) => Some (Some b) | Some _ => None end in
          match all_objects items, total, truncated with
          | Some items, Some total, Some truncated => Some (mkHandledPage d items count total truncated)
          | _, _, _ => None
          end
      | _, _ => None
      end
  | _ => None
  end.

(** [_page(spec, parsed, result, scope, bound)] *)
Definition page_position (spec : ResourceSpec) (q : QueryType) (parsed : dict) (result : HandledPage) (scope : PageScope) (bound : string) : outcome exn dict :=
  let total := match hp_total result with Some z => JNum z | None => JNull end in
  if ps_claimed scope && bool_decide (PAGE_FIELD ∈ qt_fields q) then
    match ps_after scope with
    | Some position => Ok [("total", total); ("truncated", JBool true); ("next", JObj [("cursor", JStr (issued (rs_name spec) bound position))])]
    | None => Ok [("total", total); ("truncated", JBool false); ("next", JNull)]
    end
  else
    let full := match dget "limit" parsed with
                | Some (JNum limit) => match page_size limit MAX_PAGE_SIZE with Ok size => Ok (Z.of_nat size <=? hp_count result)%Z | Raise e => Raise e end
                | _ => Ok false
                end in
    match full with
    | Raise e => Raise e
    | Ok full =>
        let by_count := match hp_total result with Some t => (hp_count result <? t)%Z | None => full end in
        Ok [("total", total); ("truncated", JBool (default by_count (hp_truncated result))); ("next", JNull)]
    end.

(** [_masked(name, records, fields)], of records that are objects. *)
Definition as_pydantic (e : MaskError) : PydanticError := mkPydanticError (me_type e) (me_loc e) (me_msg e) [].

Definition masked (name : string) (records : list dict) (fields : list string) : outcome exn (list dict) :=
  match selected records fields with
  | Ok cut => Ok cut
  | Raise (FieldMaskRefusal errors) => Raise (invalid_resource_input name (map as_pydantic errors))
  | Raise (Broken what) => Raise (OtherError what "")
  end.

(** [_listed_fields(spec, items)] *)
Definition listed_fields (spec : ResourceSpec) (items : list dict) : list dict :=
  match rs_list_fields spec with
  | [] => items
  | listed => map (fun item => List.filter (fun kv => bool_decide (kv.1 ∈ listed)) item) items
  end.

Definition with_items (items : list dict) (page : dict) : dict := dset "items" (JList (map JObj items)) page.

(** The page as it is answered, its items cut as the caller asked. *)
Definition answer_page (spec : ResourceSpec) (fields : option (list string)) (items : list dict) (page : dict) : outcome exn dict :=
  match fields with
  | None => Ok (with_items (listed_fields spec items) page)
  | Some fields =>
      if asks_whole fields then Ok page
      else match masked (rs_name spec) items fields with Ok cut => Ok (with_items cut page) | Raise e => Raise e end
  end.

(** [_resource(name)] and [_authorize(spec, principal)] *)
Definition authorized (name : string) (p : Principal) : outcome exn ResourceSpec :=
  match resource_named name with
  | None => Raise (unknown name (map rs_name registry))
  | Some spec => match require_all p (rs_required_capabilities spec) with Some e => Raise e | None => Ok spec end
  end.

Definition caller (spec : ResourceSpec) (p : Principal) : option Principal := if rs_pass_principal spec then Some p else None.

(** The scope a list read's handler runs in, and what it left of it. *)
Definition handle (spec : ResourceSpec) (handler : dict -> option Principal -> Paged json) (asked : dict) (p : Principal) (position : option dict) : outcome exn (json * PageScope) :=
  match handler asked (caller spec p) (Some (mkPageScope position false None)) with
  | (Raise e, _) => if bool_decide (e = CursorRefusal) then Raise (cursor_refused (rs_name spec) (exn_text e)) else Raise e
  | (Ok result, scope) => Ok (result, default (mkPageScope position false None) scope)
  end.

(** [list_resource(name, query, principal=..., strict=..., fields=...)] *)
Definition list_resource (name : string) (query : dict) (p : Principal) (strict : bool) (fields : option (list string)) : outcome exn dict :=
  match authorized name p with
  | Raise e => Raise e
  | Ok spec =>
      match listable spec with
      | None => Raise (unlisted spec)
      | Some (handler, q) =>
          match qt_validate q query strict with
          | inl errors => Raise (invalid_resource_input name errors)
          | inr parsed =>
              let bound := bound_of parsed in
              let resumed := match dget PAGE_FIELD parsed with
                             | Some (JStr token) => if decide (token = "") then Ok None
                                                    else match opened name token bound with Ok at_ => Ok (Some at_) | Raise e => Raise e end
                             | _ => Ok None
                             end in
              match resumed with
              | Raise e => Raise e
              | Ok position =>
                  match handle spec handler (dwithout PAGE_FIELD parsed) p position with
                  | Raise e => Raise e
                  | Ok (result, scope) =>
                      if bool_decide (PAGE_FIELD ∈ qt_fields q) && negb (ps_claimed scope)
                      then Raise (RuntimeError ("Resource " +:+ repr name +:+ " declares a cursor its handler never paged by."))
                      else
                        let invalid := RuntimeError ("Resource " +:+ repr name +:+ " list handler returned an invalid collection.") in
                        match handled result with
                        | None => Raise invalid
                        | Some h =>
                            if negb (hp_count h =? Z.of_nat (length (hp_items h)))%Z then Raise invalid
                            else match page_position spec q parsed h scope bound with
                                 | Raise e => Raise e
                                 | Ok said => answer_page spec fields (hp_items h) (dmerge (hp_answer h) said)
                                 end
                        end
                  end
              end
          end
      end
  end.

(** * One record *)

(** [item[identifier]] of the first page's items that carry it: the value of [_held(spec, principal)]. *)
Definition held_identifiers (spec : ResourceSpec) (p : Principal) : outcome exn (list json) :=
  match listable spec with
  | Some (_, q) =>
      if decide (rs_identifier spec = "") then Ok []
      else
        let query := if bool_decide ("limit" ∈ qt_fields q) then [("limit", JNum MAX_PAGE_SIZE)] else [] in
        match list_resource (rs_name spec) query p true (Some [rs_identifier spec]) with
        | Ok page =>
            match dget "items" page with
            | Some (JList items) => Ok (omap (fun item => attr (rs_identifier spec) item) items)
            | _ => Ok []
            end
        | Raise e =>
            match e with
            | Host _ _ _ | InvalidResourceInput _ _ | ResourceError _ => Ok []
            | _ => Raise e
            end
        end
  | None => Ok []
  end.

(** [get_resource(name, identifier, principal=..., strict=..., fields=...)] *)
Definition get_resource (name : string) (identifier : json) (p : Principal) (strict : bool) (fields : option (list string)) : outcome exn dict :=
  match authorized name p with
  | Raise e => Raise e
  | Ok spec =>
      match detailed spec with
      | None => Raise (undetailed spec)
      | Some handler =>
          match rs_identifier_type spec identifier strict with
          | inl errors => Raise (invalid_resource_input name errors)
          | inr parsed =>
              let miss reason := match held_identifiers spec p with Ok held => Raise (missed reason spec parsed held) | Raise e => Raise e end in
              match handler parsed (caller spec p) with
              | Raise (Host RecordNotFound reason _) => miss reason
              | Raise e => if rs_not_found spec e then miss ("No record matches the requested identifier." +:+ FOUND_BY) else Raise e
              | Ok (JObj result) =>
                  match fields with
                  | None => Ok result
                  | Some fields =>
                      if asks_whole fields then Ok result
                      else match masked name [result] fields with
                           | Ok (cut :: _) => Ok cut
                           | Ok [] => Raise (OtherError "IndexError" "list index out of range")
                           | Raise e => Raise e
                           end
                  end
              | Ok _ => Raise (OtherError "TypeError" ("Resource " +:+ repr name +:+ " detail handler returned a non-object."))
              end
          end
      end
  end.

(** [readable(spec, principal)] *)
Definition readable (spec : ResourceSpec) (p : Principal) : bool := permits p (rs_required_capabilities spec).

(** [name_refusal(tool, name)]: a resource read as [tool] reads one. *)
Definition name_refusal (tool name : string) : option exn :=
  if negb (bool_decide (tool ∈ ["describe_resources"; "list_resource"; "get_resource"])) then None
  else match resource_named name with
       | None => Some (unknown name (map rs_name registry))
       | Some spec =>
           if decide (tool = "list_resource") then match listable spec with Some _ => None | None => Some (unlisted spec) end
           else if decide (tool = "get_resource") then match detailed spec with Some _ => None | None => Some (undetailed spec) end
           else None
       end.
End Resources.

(** * A listing of a queryset *)

Section Listing.
Context {Row : Type} (meta : Meta Row) (column_read : string -> json -> option Value).

(** The page as [keyset_page] answers it, each row serialized: [projection.listing], unnarrowed. *)
Definition page_json (serialize : Row -> dict) (page : Page Row) : json :=
  JObj ([("items", JList (map (fun r => JObj (serialize r)) (pg_items page)));
         ("count", JNum (Z.of_nat (pg_count page))); ("total", JNum (Z.of_nat (pg_total page)))] ++
        match pg_truncated page with Some more => [("truncated", JBool more)] | None => [] end)%list.

Definition listing (rows : list Row) (serialize : Row -> dict) (order : list string) (limit : Z) : Paged json :=
  page ← keyset_page meta column_read rows order limit;
  mret (page_json serialize page).

(** [lambda limit, **_: listing(rows, serialize, order=..., limit=limit)] *)
Definition listing_handler (rows : list Row) (serialize : Row -> dict) (order : list string) (asked : dict) (_ : option Principal) : Paged json :=
  match dget "limit" asked with Some (JNum limit) => listing rows serialize order limit | _ => raise (OtherError "TypeError" "limit") end.
End Listing.

Lemma all_objects_map {A} (f : A -> dict) xs : all_objects (map (fun x => JObj (f x)) xs) = Some (map f xs).
Proof. induction xs as [|x xs IH]; [done|]. cbn [map all_objects]. by rewrite IH. Qed.

Lemma handled_listing {Row : Type} (serialize : Row -> dict) items count total more :
  handled (page_json serialize (mkPage items count total (Some more))) =
  Some (mkHandledPage
    [("items", JList (map (fun r => JObj (serialize r)) items)); ("count", JNum (Z.of_nat count)); ("total", JNum (Z.of_nat total)); ("truncated", JBool more)]
    (map serialize items) (Z.of_nat count) (Some (Z.of_nat total)) (Some more)).
Proof.
  unfold page_json. cbn [pg_items pg_count pg_total pg_truncated app]. unfold handled.
  match goal with |- context [dget "items" ?d] =>
    change (dget "items" d) with (Some (JList (map (fun r => JObj (serialize r)) items))); change (dget "count" d) with (Some (JNum (Z.of_nat count)));
    change (dget "total" d) with (Some (JNum (Z.of_nat total))); change (dget "truncated" d) with (Some (JBool more)) end.
  cbv beta iota zeta. by rewrite all_objects_map.
Qed.

(** * The laws of a read *)

Section Reads.
Variables (host : Site) (registry : list ResourceSpec) (observations : string -> bool).
Variables (close_matches : string -> list string -> list string) (pydantic_types : string -> bool).
Variables (sign : json -> string) (unsign : string -> option json).

Notation list_resource := (list_resource host registry observations close_matches pydantic_types sign unsign).
Notation get_resource := (get_resource host registry observations close_matches pydantic_types sign unsign).
Notation opened := (opened registry pydantic_types unsign).
Notation issued := (issued sign).
Notation bound_of := (bound_of host).

(** A caller lacking a permission of a resource is told that, and only that: whatever it asks of
    which page, record or fields, and whatever its handlers would answer. *)
Theorem reads_ask_authority_first (name : string) (spec : ResourceSpec) (p : Principal) (e : exn) :
  resource_named registry name = Some spec -> require_all p (rs_required_capabilities spec) = Some e ->
  (forall query strict fields, list_resource name query p strict fields = Raise e) /\
  (forall identifier strict fields, get_resource name identifier p strict fields = Raise e) /\
  is_authorization_error e = true /\ readable spec p = false.
Proof.
  intros Hs He. split_and!.
  - intros. unfold Resources.list_resource, authorized. by rewrite Hs, He.
  - intros. unfold Resources.get_resource, authorized. by rewrite Hs, He.
  - by eapply require_all_is_authorization.
  - unfold readable, permits. rewrite He. apply require_all_is_authorization in He. by rewrite He.
Qed.


(** What a cursor is refused for is never told: the sentence is dropped as a validator's own words. *)
Theorem cursor_reason_is_never_told (name reason reason' : string) :
  cursor_refused registry pydantic_types name reason = cursor_refused registry pydantic_types name reason' /\
  exists details, cursor_refused registry pydantic_types name reason = InvalidResourceInput (ended (name +:+ ": cursor is invalid")) details.
Proof.
  assert (forall r, told pydantic_types (mkPydanticError "value_error" [JStr PAGE_FIELD] r []) = mkTold "value_error" [JStr PAGE_FIELD] OPAQUE_MSG) as Htold.
  { intros r. unfold told, unknown_as_extra. rewrite decide_False by done. cbn [pe_type pe_loc]. f_equal. unfold safe_msg. cbn [pe_type].
    rewrite (bool_decide_eq_true_2 ("value_error" ∈ OPAQUE)) by (by do 4 right; left). by rewrite orb_true_r. }
  unfold cursor_refused, invalid_resource_input, pydantic_refusal. cbn [map]. rewrite !Htold. split; [done|]. by eexists.
Qed.

(** What a page holds, and the cursor it leaves. *)
Definition page_items (page : dict) : list dict := match dget "items" page with Some (JList items) => default [] (all_objects items) | _ => [] end.
Definition next_cursor (page : dict) : option string :=
  match dget "next" page with Some (JObj d) => match dget "cursor" d with Some (JStr c) => Some c | _ => None end | _ => None end.

(** A caller that sends each page's cursor back, at most [pages] times: the items, and whether the
    last page said nothing follows. *)
Fixpoint follow (name : string) (p : Principal) (query : option string -> dict) (pages : nat) (cursor : option string) : outcome exn (list dict * bool) :=
  match pages with
  | O => Ok ([], false)
  | S pages =>
      match list_resource name (query cursor) p true (Some [WHOLE_RECORD]) with
      | Raise e => Raise e
      | Ok page =>
          match next_cursor page with
          | None => Ok (page_items page, true)
          | Some c => match follow name p query pages (Some c) with Ok (more, ended) => Ok ((page_items page ++ more)%list, ended) | Raise e => Raise e end
          end
      end
  end.

Lemma dget_dmerge k d said : dhas k said = false -> dget k (dmerge d said) = dget k d.
Proof.
  unfold dmerge. revert d. induction said as [|[k' v] said IH]; intros d; [done|]. unfold dhas. cbn [dget fold_left fst snd].
  case_decide as Hk; [done|]. intros H. rewrite IH by exact H. rewrite dget_dset. by rewrite decide_False.
Qed.

Lemma page_position_items spec q parsed h scope bound said : page_position sign spec q parsed h scope bound = Ok said -> dhas "items" said = false.
Proof.
  unfold page_position. destruct (_ && _); [by destruct (ps_after scope); intros [= <-]|].
  destruct (match dget "limit" parsed with Some (JNum _) => _ | _ => _ end); [|done]. by intros [= <-].
Qed.

Lemma all_objects_objects items : all_objects (map JObj items) = Some items.
Proof. rewrite (all_objects_map (fun d => d)). by rewrite map_id. Qed.

Lemma page_items_with items page : page_items (with_items items page) = items.
Proof. unfold page_items, with_items. rewrite dget_dset, decide_True by done. by rewrite all_objects_objects. Qed.

Lemma handled_items result h : handled result = Some h -> page_items (hp_answer h) = hp_items h.
Proof.
  unfold handled. destruct result as [| | | | |d]; try done. destruct (dget "items" d) as [[| | | |items|]|] eqn:Hi; try done.
  destruct (dget "count" d) as [[| |count| | |]|]; try done. destruct (all_objects items) as [ds|] eqn:Hds; [|done].
  destruct (match dget "total" d with None | Some JNull => _ | Some (JNum _) => _ | Some _ => _ end); [|done].
  destruct (match dget "truncated" d with None => _ | Some (JBool _) => _ | Some _ => _ end); [|done]. intros [= <-].
  unfold page_items. cbn [hp_answer hp_items]. by rewrite Hi, Hds.
Qed.

Lemma listed_parts spec items : Forall2 (fun o r => part (JObj o) (JObj r)) (listed_fields spec items) items.
Proof.
  unfold listed_fields. destruct (rs_list_fields spec) as [|f fs]; [by induction items; constructor; [constructor|]|].
  induction items as [|item items IH]; cbn [map]; constructor; [|done].
  apply part_object with (kept := List.filter (fun kv => bool_decide (kv.1 ∈ f :: fs)) item).
  - clear. induction item as [|kv item IH]; cbn [List.filter]; [constructor|]. case_bool_decide; by constructor.
  - clear. generalize (List.filter (fun kv => bool_decide (kv.1 ∈ f :: fs)) item). intros l. induction l; constructor; [|done]. split; [done|constructor].
Qed.

(** A list read was the caller's to make, and shows nothing but parts of what its handler answered
    for that caller, item for item: neither the fields asked for nor a cursor widen it. *)
Theorem a_list_read_shows_its_handlers_items (name : string) (query : dict) (p : Principal) (strict : bool) (fields : option (list string)) (page : dict) :
  list_resource name query p strict fields = Ok page ->
  exists spec handler q parsed position result scope h,
    resource_named registry name = Some spec /\ readable spec p = true /\ listable spec = Some (handler, q) /\
    handler (dwithout PAGE_FIELD parsed) (caller spec p) (Some (mkPageScope position false None)) = (Ok result, scope) /\
    handled result = Some h /\ hp_count h = Z.of_nat (length (hp_items h)) /\
    (Forall one_keyed (hp_items h) -> Forall2 (fun o r => part (JObj o) (JObj r)) (page_items page) (hp_items h)).
Proof.
  unfold Resources.list_resource, authorized. destruct (resource_named registry name) as [spec|] eqn:Hs; [|done].
  destruct (require_all p (rs_required_capabilities spec)) eqn:Hr; [done|]. destruct (listable spec) as [[handler q]|] eqn:Hl; [|done].
  destruct (qt_validate q query strict) as [errors|parsed]; [done|].
  destruct (match dget PAGE_FIELD parsed with Some (JStr token) => _ | _ => _ end) as [position|e]; [|done].
  destruct (handle _ _ spec handler _ p position) as [[result scope]|e] eqn:Hh; [|done]. unfold handle in Hh.
  destruct (handler (dwithout PAGE_FIELD parsed) (caller spec p) (Some (mkPageScope position false None))) as [[r|e] scope'] eqn:Hrun; [|by destruct (bool_decide _)].
  injection Hh as -> Hscope. destruct (_ && negb (ps_claimed scope)); [done|]. destruct (handled result) as [h|] eqn:Hhd; [|done].
  destruct (Z.eqb_spec (hp_count h) (Z.of_nat (length (hp_items h)))) as [Hc|]; [|done]. cbn [negb].
  destruct (page_position sign spec q parsed h scope (bound_of parsed)) as [said|e] eqn:Hp; [|done]. intros Hans.
  exists spec, handler, q, parsed, position, result, scope', h. split_and!; try done; [unfold readable, permits; by rewrite Hr|].
  intros Hkeyed. unfold answer_page in Hans. destruct fields as [fs|].
  - destruct (asks_whole fs).
    + injection Hans as <-. unfold page_items. rewrite dget_dmerge by (by eapply page_position_items).
      fold (page_items (hp_answer h)). rewrite (handled_items result h Hhd).
      clear. induction (hp_items h); constructor; [constructor|done].
    + unfold masked in Hans. destruct (selected (hp_items h) fs) as [cut|[errors|what]] eqn:Hcut; [|done|done]. injection Hans as <-.
      rewrite page_items_with. by apply selected_parts in Hcut.
  - injection Hans as <-. rewrite page_items_with. apply listed_parts.
Qed.

Section Whole.
Context {Row : Type} (meta : Meta Row) (column_read : string -> json -> option Value).
Variables (name : string) (p : Principal) (spec : ResourceSpec) (q : QueryType) (query : option string -> dict) (narrowing : dict).
Variables (rows : list Row) (serialize : Row -> dict) (order : list string) (keys : list (string * bool)) (limit : Z).
Hypothesis (reads_back : forall name r, column_read name (cursor_value (column meta name r)) = Some (column meta name r)).
Hypothesis (signs : forall v, unsign (sign v) = Some v) (sign_text : forall v, sign v <> "").
Hypothesis (named : resource_named registry name = Some spec) (may : require_all p (rs_required_capabilities spec) = None).
Hypothesis (lists : listable spec = Some (listing_handler meta column_read rows serialize order, q)) (pages : PAGE_FIELD ∈ qt_fields q).
Hypothesis (validated : forall c, qt_validate q (query c) true =
  inr (("limit", JNum limit) :: (PAGE_FIELD, match c with Some t => JStr t | None => JNull end) :: narrowing)).
Hypothesis (keyset_ok : keyset meta order = Ok keys) (limit_ok : (1 <= limit)%Z) (rows_ok : distinct meta rows).

Definition bound_here : string := bound_of (("limit", JNum limit) :: (PAGE_FIELD, JNull) :: narrowing).

Definition cursor_at (low : option Row) : option string := (fun l => issued name bound_here (position_of meta keys l)) <$> low.

(** One page past [low], as the caller reads it. *)
Lemma page_read low : exists page, list_resource name (query (cursor_at low)) p true (Some [WHOLE_RECORD]) = Ok page /\
  page_items page = map serialize (firstn (size_of limit) (remaining meta keys low rows)) /\
  next_cursor page = issued name bound_here <$> page_after meta limit keys low rows.
Proof.
  unfold Resources.list_resource, authorized. rewrite named, may, lists, validated.
  assert (rs_name spec = name) as Hname by (by apply first_where_some in named as [_ ?%bool_decide_eq_true]).
  set (parsed := ("limit", JNum limit) :: (PAGE_FIELD, match cursor_at low with Some t => JStr t | None => JNull end) :: narrowing).
  assert (bound_of parsed = bound_here) as -> by done.
  assert (dget "limit" (dwithout PAGE_FIELD parsed) = Some (JNum limit)) as Hlim by done.
  assert (match dget PAGE_FIELD parsed with
     | Some (JStr token) => if decide (token = "") then Ok None else match opened name token bound_here with Ok at_ => Ok (Some at_) | Raise e => Raise e end
     | _ => Ok None end = Ok (position_of meta keys <$> low)) as ->.
  { subst parsed. destruct low as [l|]; [|done]. cbn [cursor_at fmap option_fmap option_map dget]. rewrite decide_False, decide_True by done.
    rewrite decide_False by apply sign_text. unfold Resources.opened, Resources.issued. rewrite signs.
    change (dget "at" [("kind", JStr name); ("bound", JStr bound_here); ("at", JObj (position_of meta keys l))]) with (Some (JObj (position_of meta keys l))). cbv iota beta.
    change (dget "kind" [("kind", JStr name); ("bound", JStr bound_here); ("at", JObj (position_of meta keys l))]) with (Some (JStr name)).
    change (dget "bound" [("kind", JStr name); ("bound", JStr bound_here); ("at", JObj (position_of meta keys l))]) with (Some (JStr bound_here)).
    by rewrite !bool_decide_eq_true_2. }
  unfold handle, listing_handler. rewrite Hlim. unfold listing.
  destruct (page_run meta column_read reads_back rows order limit keys low keyset_ok limit_ok) as [total Hrun].
  rewrite (bind_step _ _ _ _ _ Hrun). cbn [mret M_ret]. unfold mret, M_ret. cbn [default from_option id ps_claimed].
  rewrite (bool_decide_eq_true_2 (PAGE_FIELD ∈ qt_fields q)) by done. cbn [negb andb].
  set (items := firstn (size_of limit) (remaining meta keys low rows)).
  rewrite handled_listing. cbn [hp_count hp_items hp_answer]. rewrite length_map, Z.eqb_refl. cbn [negb].
  unfold page_position. cbn [ps_claimed ps_after hp_total]. rewrite (bool_decide_eq_true_2 (PAGE_FIELD ∈ qt_fields q)) by done. cbn [andb].
  rewrite Hname. unfold answer_page, asks_whole. rewrite (bool_decide_eq_true_2 ([WHOLE_RECORD] = [WHOLE_RECORD])) by done.
  destruct (page_after meta limit keys low rows) as [position|]; eexists; (split; [reflexivity|]); split; try reflexivity;
    change (default [] (all_objects (map (fun r => JObj (serialize r)) items)) = map serialize items); by rewrite all_objects_map.
Qed.

Lemma follow_from n : forall low, (0 < n)%nat -> (length (remaining meta keys low rows) <= n * size_of limit)%nat ->
  follow name p query n (cursor_at low) = Ok (map serialize (remaining meta keys low rows), true).
Proof.
  induction n as [|n IH]; intros low Hn Hlen; [lia|]. cbn [follow].
  destruct (page_read low) as (page & -> & Hitems & Hnext). rewrite Hitems, Hnext. unfold page_after.
  destruct (Nat.ltb_spec (size_of limit) (length (remaining meta keys low rows))) as [Hmore|Hless].
  - destruct (remaining_next meta order limit keys low rows keyset_ok limit_ok rows_ok Hmore) as (l & -> & _ & Hleft).
    cbn [fmap option_fmap option_map]. change (issued name bound_here (position_of meta keys l)) with (default "" (cursor_at (Some l))).
    specialize (IH (Some l)). rewrite Hleft, length_skipn in IH.
    assert (Some (default "" (cursor_at (Some l))) = cursor_at (Some l)) as -> by done. rewrite IH; [|nia|nia].
    by rewrite <- map_app, firstn_skipn.
  - cbn [fmap option_fmap option_map]. by rewrite firstn_all2.
Qed.

(** C17: Sending each page's cursor back reads the whole list: every row once, in the list's order, as
    the list serializes it, with nothing left after as many pages as its length needs. *)
Theorem following_cursors_reads_the_list (n : nat) :
  (0 < n)%nat -> (length rows <= n * size_of limit)%nat ->
  follow name p query n None = Ok (map serialize (order_rows meta keys rows), true).
Proof.
  intros Hn Hlen. pose proof (follow_from n None Hn) as H.
  assert (remaining meta keys None rows = order_rows meta keys rows) as Hall.
  { unfold remaining, rows_where. cbn [beyond]. f_equal. apply List.forallb_filter_id, forallb_forall. done. }
  rewrite Hall in H. apply H. unfold order_rows. by rewrite length_sort_rows.
Qed.
End Whole.
End Reads.

(** * Witnesses: the notes, listed to a reader

    A signing whose tokens are the digits of a value's code, so that a token reads back as what was
    signed. *)
Fixpoint to_tree (j : json) : gen_tree (string + Z + bool) :=
  match j with
  | JNull => GenNode 0 []
  | JBool b => GenLeaf (inr b)
  | JNum z => GenLeaf (inl (inr z))
  | JStr s => GenLeaf (inl (inl s))
  | JList l => GenNode 1 (map to_tree l)
  | JObj d => GenNode 2 (map (fun kv => GenNode 3 [GenLeaf (inl (inl kv.1)); to_tree kv.2]) d)
  end.

Fixpoint of_tree (t : gen_tree (string + Z + bool)) : json :=
  match t with
  | GenLeaf (inr b) => JBool b
  | GenLeaf (inl (inr z)) => JNum z
  | GenLeaf (inl (inl s)) => JStr s
  | GenNode 1 l => JList (map of_tree l)
  | GenNode 2 l => JObj (map (fun kt => match kt with GenNode _ [GenLeaf (inl (inl k)); v] => (k, of_tree v) | _ => (EmptyString, JNull) end) l)
  | GenNode _ _ => JNull
  end.

Lemma of_to_tree j : of_tree (to_tree j) = j.
Proof.
  induction j as [|b|z|s|l IH|d IH] using json_rect'; try done; cbn; f_equal.
  - induction IH as [|x xs Hx _ IH]; [done|]. cbn. by rewrite Hx, IH.
  - induction IH as [|[k v] d Hv _ IH]; [done|]. cbn in *. by rewrite Hv, IH.
Qed.

Fixpoint digits (n : positive) : string := match n with xH => "1" | xO n => String "0" (digits n) | xI n => String "i" (digits n) end.

Fixpoint undigits (s : string) : option positive :=
  match s with
  | "1" => Some xH
  | String "0" r => xO <$> undigits r
  | String "i" r => xI <$> undigits r
  | _ => None
  end.

Lemma undigits_digits n : undigits (digits n) = Some n.
Proof. induction n as [n IH|n IH|]; [| |done]; cbn; rewrite IH; by destruct (digits n). Qed.

Definition code_sign (v : json) : string := digits (encode (to_tree v)).
Definition code_unsign (s : string) : option json := t ← undigits s; of_tree <$> decode t.

Lemma code_signs v : code_unsign (code_sign v) = Some v.
Proof. unfold code_unsign, code_sign. rewrite undigits_digits. cbn. rewrite decode_encode. cbn. by rewrite of_to_tree. Qed.

Lemma code_sign_text v : code_sign v <> "".
Proof. unfold code_sign. by destruct (encode (to_tree v)). Qed.

Definition note_query : QueryType := mkQueryType ["limit"; "cursor"]
  (fun sent _ => inr [("limit", default (JNum 50) (dget "limit" sent)); ("cursor", default JNull (dget "cursor" sent))]).

Definition note_dict (n : Note) : dict := [("slug", JStr (no_slug n)); ("touched", JNum (no_touched n))].

Definition notes : list Note := [plans; bills; ideas; trips].

Definition notes_spec : ResourceSpec :=
  mkResourceSpec "notes" [READ] (Some (listing_handler note_meta note_read notes note_dict ["-touched"])) (Some note_query) None ""
    (fun j _ => inr j) (fun _ => false) false [].

Definition reader : Principal := principal_of "ada" WEB_INTERFACE {[ READ ]}.
Definition stranger : Principal := principal_of "eve" WEB_INTERFACE ∅.

Definition two_at_a_time (cursor : option string) : dict :=
  (("limit", JNum 2) :: match cursor with Some t => [("cursor", JStr t)] | None => [] end).

Notation no_matches := (fun (_ : string) (_ : list string) => []).
Notation no_types := (fun _ : string => false).
Notation no_readings := (fun _ : string => false).

Lemma following_cursors_reads_the_list_witness :
  follow demo_host [notes_spec] no_readings no_matches no_types code_sign code_unsign "notes" reader two_at_a_time 2 None =
  Ok (map note_dict [ideas; plans; trips; bills], true).
Proof.
  refine (following_cursors_reads_the_list demo_host [notes_spec] no_readings no_matches no_types code_sign code_unsign note_meta note_read
    "notes" reader notes_spec note_query two_at_a_time [] notes note_dict ["-touched"] by_touch 2 note_reads_back code_signs code_sign_text
    eq_refl eq_refl eq_refl _ _ eq_refl _ _ 2 _ _).
  - right. left.
  - intros [t|]; reflexivity.
  - lia.
  - apply notes_distinct. apply (bool_decide_unpack _). vm_compute. exact I.
  - lia.
  - vm_compute. lia.
Defined.

Lemma reads_ask_authority_first_witness :
  exists e, list_resource demo_host [notes_spec] no_readings no_matches no_types code_sign code_unsign "notes" [] stranger true None = Raise e /\
    is_authorization_error e = true.
Proof.
  destruct (require_all stranger [READ]) as [e|] eqn:He; [|exfalso; vm_compute in He; discriminate He]. exists e.
  destruct (reads_ask_authority_first demo_host [notes_spec] no_readings no_matches no_types code_sign code_unsign "notes" notes_spec stranger e eq_refl He) as (Hl & _ & Ha & _).
  split; [apply Hl|exact Ha].
Defined.


Lemma a_list_read_shows_its_handlers_items_witness :
  exists page, list_resource demo_host [notes_spec] no_readings no_matches no_types code_sign code_unsign "notes" [("limit", JNum 2)] reader true (Some ["slug"]) = Ok page /\
    length (page_items page) = 2%nat /\ readable notes_spec reader = true.
Proof.
  destruct (list_resource demo_host [notes_spec] no_readings no_matches no_types code_sign code_unsign "notes" [("limit", JNum 2)] reader true (Some ["slug"])) as [page|e] eqn:H;
    [|exfalso; vm_compute in H; discriminate H].
  exists page. split; [reflexivity|].
  destruct (a_list_read_shows_its_handlers_items _ _ _ _ _ _ _ _ _ _ _ _ _ H) as (spec & _ & _ & _ & _ & _ & _ & h & Hs & Hr & _).
  injection Hs as <-. split; [|exact Hr]. vm_compute in H. injection H as <-. vm_compute. reflexivity.
Defined.
