(* ===== verification/IpAddress.v ===== *)
(** Internet addresses as Python's [ipaddress] reads and writes them: [ip_address], [ip_network(...,
    strict=False)], [str] of both, [in], and [supernet_of].  An address written is read back, and an
    address is in a network exactly when it lies in its range. *)
From stdpp Require Import base gmap strings list pretty.
From Stdlib Require Import Ascii ZArith Lia.
From S2P Require Import Prelude PyStr.

#[local] Open Scope string_scope.

(** [IPv4Address] and [IPv6Address]: the integer, and the zone an IPv6 address may name. *)
Inductive Ip : Type := V4 (n : Z) | V6 (n : Z) (scope : option string).

#[export] Instance Ip_eq_dec : EqDecision Ip.
Proof. solve_decision. Defined.

Definition ip_int (a : Ip) : Z := match a with V4 n | V6 n _ => n end.
Definition version (a : Ip) : Z := match a with V4 _ => 4 | V6 _ _ => 6 end.
Definition width (a : Ip) : Z := match a with V4 _ => 32 | V6 _ _ => 128 end.

(** * IPv4 text *)

(** [_parse_octet] *)
Definition parse_octet (s : string) : option Z :=
  if str_all ascii_digit s && negb (bool_decide (s = "")) && (String.length s <=? 3)%nat && (bool_decide (s = "0") || negb (startswith "0" s))
  then let n := digits_value 0 s in if (n <=? 255)%Z then Some n else None
  else None.

(** [IPv4Address(text)._ip] *)
Definition parse_v4 (s : string) : option Z :=
  match split_on "." s with
  | [a; b; c; d] =>
      a ← parse_octet a; b ← parse_octet b; c ← parse_octet c; d ← parse_octet d;
      Some (((a * 256 + b) * 256 + c) * 256 + d)%Z
  | _ => None
  end.

Definition octets (n : Z) : list Z := [n / 2 ^ 24 mod 256; n / 2 ^ 16 mod 256; n / 2 ^ 8 mod 256; n mod 256]%Z.

(** [str(IPv4Address(n))] *)
Definition v4_str (n : Z) : string := join "." (map (fun o => pretty o) (octets n)).

(** * IPv6 text *)

Definition hex_value (c : ascii) : option Z :=
  let n := Z.of_nat (code c) in
  if (48 <=? n)%Z && (n <=? 57)%Z then Some (n - 48)%Z
  else if (65 <=? n)%Z && (n <=? 70)%Z then Some (n - 55)%Z
  else if (97 <=? n)%Z && (n <=? 102)%Z then Some (n - 87)%Z
  else None.

Fixpoint hex_digits (acc : Z) (s : string) : option Z :=
  match s with
  | "" => Some acc
  | String c s' => d ← hex_value c; hex_digits (acc * 16 + d) s'
  end.

(** [_parse_hextet]: [int] refuses an empty text. *)
Definition parse_hextet (s : string) : option Z :=
  if bool_decide (s = "") || (4 <? String.length s)%nat then None else hex_digits 0 s.

Fixpoint hextets_value (acc : Z) (parts : list string) : option Z :=
  match parts with
  | [] => Some acc
  | h :: rest => n ← parse_hextet h; hextets_value (acc * 65536 + n) rest
  end.

(** ['%x' % n] of at most four digits. *)
Definition hextet_str (n : Z) : string :=
  let digits := map (fun d => String (hex_char (Z.to_nat d)) "") [n / 4096 mod 16; n / 256 mod 16; n / 16 mod 16]%Z in
  lstrip_by (fun c => bool_decide (c = "0"%char)) (String.concat "" digits) +:+ String (hex_char (Z.to_nat (n mod 16))) "".

Fixpoint blanks_from (i : nat) (parts : list string) : list nat :=
  match parts with
  | [] => []
  | p :: rest => if decide (p = "") then i :: blanks_from (S i) rest else blanks_from (S i) rest
  end.

(** The empty parts that are not at an end: [range(1, len(parts) - 1)]. *)
Definition inner_blanks (parts : list string) : list nat := blanks_from 1 (removelast (tl parts)).

(** An IPv4 suffix becomes two hextets. *)
Definition v4_suffix (parts : list string) : option (list string) :=
  let tail_ := default "" (last parts) in
  if mem_char "." tail_
  then n ← parse_v4 tail_; Some (removelast parts ++ [hextet_str (n / 65536 mod 65536)%Z; hextet_str (n mod 65536)%Z])%list
  else Some parts.

(** The integer of the parts between the colons. *)
Definition parts_value (parts : list string) : option Z :=
  let n := length parts in
  match inner_blanks parts with
  | [] => if (n =? 8)%nat && negb (bool_decide (hd "" parts = "")) && negb (bool_decide (last parts = Some "")) then hextets_value 0 parts else None
  | [skip] =>
      let hi := if decide (hd "" parts = "") then (skip - 1)%nat else skip in
      let lo := if decide (last parts = Some "") then (n - skip - 2)%nat else (n - skip - 1)%nat in
      if (bool_decide (hd "" parts = "") && negb (hi =? 0)%nat) || (bool_decide (last parts = Some "") && negb (lo =? 0)%nat) then None
      else if (8 <=? hi + lo)%nat then None
      else
        high ← hextets_value 0 (firstn hi parts);
        hextets_value (high * 2 ^ (16 * Z.of_nat (8 - (hi + lo)))) (skipn (n - lo) parts)
  | _ => None
  end.

(** [IPv6Address._ip_int_from_string] *)
Definition parse_v6 (s : string) : option Z :=
  let parts := split_on ":" s in
  if (length parts <? 3)%nat then None
  else
    parts ← v4_suffix parts;
    if (9 <? length parts)%nat then None else parts_value parts.

(** [IPv6Address(text)]: the zone is what a percent sign parts. *)
Definition parse_zoned (s : string) : option Ip :=
  let '(addr, found, zone) := partition "%" s in
  if mem_char "/" s then None
  else if found && (bool_decide (zone = "") || mem_char "%" zone) then None
  else n ← parse_v6 addr; Some (V6 n (if found then Some zone else None)).

(** [ip_address(text)] *)
Definition ip_address (s : string) : option Ip :=
  match parse_v4 s with
  | Some n => Some (V4 n)
  | None => parse_zoned s
  end.

Definition hextets (n : Z) : list Z := map (fun i => n / 2 ^ (16 * i) mod 65536)%Z [7; 6; 5; 4; 3; 2; 1; 0]%Z.

(** [_compress_hextets]: the scan for the first longest run of zeros, as where it starts and how long
    it is. *)
Record Run : Type := mkRun { rn_best : nat; rn_longest : nat; rn_start : option nat; rn_length : nat }.

Definition scan (i : nat) (zero : bool) (r : Run) : Run :=
  if zero then
    let start := default i (rn_start r) in
    let n := S (rn_length r) in
    if (rn_longest r <? n)%nat then mkRun start n (Some start) n else mkRun (rn_best r) (rn_longest r) (Some start) n
  else mkRun (rn_best r) (rn_longest r) None 0.

Fixpoint scan_all (i : nat) (zeros : list bool) (r : Run) : Run :=
  match zeros with
  | [] => r
  | z :: rest => scan_all (S i) rest (scan i z r)
  end.

Definition longest_run (zeros : list bool) : nat * nat := let r := scan_all 0 zeros (mkRun 0 0 None 0) in (rn_best r, rn_longest r).

Definition compress_hextets (parts : list string) : list string :=
  let '(start, n) := longest_run (map (fun p => bool_decide (p = "0")) parts) in
  if (1 <? n)%nat then
    let after := skipn (start + n) parts in
    ((if (start =? 0)%nat then [""] else []) ++ firstn start parts ++ [""] ++ after ++ (if (start + n =? length parts)%nat then [""] else []))%list
  else parts.

(** [_string_from_ip_int] *)
Definition v6_int_str (n : Z) : string := join ":" (compress_hextets (map hextet_str (hextets n))).

(** [str(IPv6Address)]: an address that maps an IPv4 one shows it. *)
Definition v6_str (n : Z) (zone : option string) : string :=
  (if (n / 2 ^ 32 =? 65535)%Z then v6_int_str (n / 2 ^ 32) +:+ ":" +:+ v4_str (n mod 2 ^ 32) else v6_int_str n)
  +:+ match zone with Some z => "%" +:+ z | None => "" end.

Definition ip_str (a : Ip) : string := match a with V4 n => v4_str n | V6 n zone => v6_str n zone end.

Example mapped_str : map ip_str [V4 3232235777; V6 1 None; V6 281473913979137 None; V6 338963523518870617245727861372719529985 (Some "eth0"); V6 0 None]
  = ["192.168.1.1"; "::1"; "::ffff:192.168.1.1"; "ff02::1:ff01:1%eth0"; "::"].
Proof. vm_compute. reflexivity. Qed.

Example addresses_read : map ip_address ["10.0.0.4"; "010.0.0.4"; "::1"; "1::2::3"; "::ffff:10.0.0.1"; "fe80::1%eth0"; "1:2:3:4:5:6:7:8"; "1:2:3:4:5:6:7:8:9"; ":1:2"; "10.0.0"; "256.1.1.1"; "fe80::1%"; ""; "::"]
  = [Some (V4 167772164); None; Some (V6 1 None); None; Some (V6 281470849515521 None); Some (V6 338288524927261089654018896841347694593 (Some "eth0")); Some (V6 5192455318486707404433266433261576 None); None; None; None; None; None; None; Some (V6 0 None)].
Proof. vm_compute. reflexivity. Qed.

(** * Networks *)

(** [IPv4Network] and [IPv6Network]. *)
Record Network : Type := mkNetwork { nw_address : Ip; nw_prefix : Z }.

#[export] Instance Network_eq_dec : EqDecision Network.
Proof. solve_decision. Defined.

(** The address with the bits past a prefix cleared: [packed & int(netmask)]. *)
Definition masked (w p n : Z) : Z := (n - n mod 2 ^ (w - p))%Z.

(** [_prefix_from_prefix_string] *)
Definition prefix_number (w : Z) (m : string) : option Z :=
  match int_of m with Some p => if (p <=? w)%Z then Some p else None | None => None end.

(** [_prefix_from_ip_int]: the prefix whose netmask a number is. *)
Definition prefix_of_mask (n : Z) : option Z := first_where (fun p => (n =? (2 ^ p - 1) * 2 ^ (32 - p))%Z) (seqZ 0 33).

(** [_make_netmask] of an IPv4 network: a prefix, a netmask or a hostmask. *)
Definition v4_prefix (m : string) : option Z :=
  match prefix_number 32 m with
  | Some p => Some p
  | None => n ← parse_v4 m; match prefix_of_mask n with Some p => Some p | None => prefix_of_mask (2 ^ 32 - 1 - n)%Z end
  end.

(** [IPv6Address(packed & netmask)] names no zone, and is built only when a bit is cleared. *)
Definition v6_network (a : Ip) (p : Z) : Network :=
  match a with
  | V4 n => mkNetwork (V4 (masked 32 p n)) p
  | V6 n zone => mkNetwork (V6 (masked 128 p n) (if (masked 128 p n =? n)%Z then zone else None)) p
  end.

(** [ip_network(text, strict=False)] *)
Definition ip_network (s : string) : option Network :=
  match split_on "/" s with
  | addr :: rest =>
      mask ← match rest with [] => Some None | [m] => Some (Some m) | _ => None end;
      match n ← parse_v4 addr; p ← match mask with None => Some 32%Z | Some m => v4_prefix m end; Some (n, p) with
      | Some (n, p) => Some (mkNetwork (V4 (masked 32 p n)) p)
      | None => a ← parse_zoned addr; p ← match mask with None => Some 128%Z | Some m => prefix_number 128 m end; Some (v6_network a p)
      end
  | [] => None
  end.

(** [str(network)] *)
Definition network_str (nw : Network) : string := ip_str (nw_address nw) +:+ "/" +:+ pretty (nw_prefix nw).

(** [address in network] *)
Definition holds_address (nw : Network) (a : Ip) : bool :=
  (version a =? version (nw_address nw))%Z && (masked (width a) (nw_prefix nw) (ip_int a) =? ip_int (nw_address nw))%Z.

(** [network.broadcast_address] *)
Definition broadcast (nw : Network) : Z := (ip_int (nw_address nw) + (2 ^ (width (nw_address nw) - nw_prefix nw) - 1))%Z.

(** [network.supernet_of(other)], of two networks of one version. *)
Definition supernet_of (nw other : Network) : bool :=
  (ip_int (nw_address nw) <=? ip_int (nw_address other))%Z && (broadcast other <=? broadcast nw)%Z.

Example networks_read : map (fun s => network_str <$> ip_network s) ["10.1.2.3/8"; "192.168.1.0/255.255.255.0"; "192.168.1.77/0.0.0.255"; "fe80::1%eth0/64"; "fe80::1%eth0"; "fd7a:115c:a1e0::/48"; "10.0.0.0/33"; "1.2.3.4/8/9"; "home"]
  = [Some "10.0.0.0/8"; Some "192.168.1.0/24"; Some "192.168.1.0/24"; Some "fe80::/64"; Some "fe80::1%eth0/128"; Some "fd7a:115c:a1e0::/48"; None; None; None].
Proof. vm_compute. reflexivity. Qed.

(** * Text that reads back *)

Lemma split_join c (parts : list string) : parts <> [] -> Forall (fun p => mem_char c p = false) parts -> split_on c (join (String c "") parts) = parts.
Proof.
  induction parts as [|x parts IH]; intros Hne Hall; [done|]. inversion_clear Hall as [|? ? Hx Hall'].
  destruct parts as [|y parts]; [by apply split_on_none|]. rewrite join_app_sep, split_on_app by done. f_equal. by apply IH.
Qed.

Lemma mem_char_join c sep (parts : list string) : mem_char c sep = false -> Forall (fun p => mem_char c p = false) parts -> mem_char c (join sep parts) = false.
Proof.
  intros Hsep Hall. induction Hall as [|x parts Hx Hall IH]; [done|]. destruct parts as [|y parts]; [done|].
  change (join sep (x :: y :: parts)) with (x +:+ sep +:+ join sep (y :: parts)). by rewrite !mem_char_app, Hx, Hsep, IH.
Qed.

Lemma partition_join c x y : mem_char c x = false -> partition c (x +:+ String c y) = (x, true, y).
Proof.
  induction x as [|d x IH]; [intros _; change ("" +:+ String c y) with (String c y); cbn; by rewrite decide_True|].
  change (String d x +:+ String c y) with (String d (x +:+ String c y)). cbn. case_decide; [done|]. intros Hx. by rewrite IH.
Qed.

Lemma partition_none c x : mem_char c x = false -> partition c x = (x, false, "").
Proof. induction x as [|d x IH]; [done|]. cbn. case_decide; [done|]. intros Hx. by rewrite IH. Qed.

(** Text of digits alone, of either base. *)
Definition is_hex (c : ascii) : bool := match hex_value c with Some _ => true | None => false end.
Definition plain (s : string) : bool := str_all is_hex s.

Lemma plain_free s c : plain s = true -> is_hex c = false -> mem_char c s = false.
Proof.
  unfold plain. intros Hs Hc. induction s as [|d s IH]; [done|]. cbn in *. apply andb_true_iff in Hs as [Hd Hs]. case_decide; [congruence|by apply IH].
Qed.

(** ** IPv4 *)

Lemma octet_reads_back n : (0 <= n < 256)%Z -> parse_octet (pretty n) = Some n /\ plain (pretty n) = true.
Proof.
  intros Hn. assert (forallb (fun n => bool_decide (parse_octet (pretty n) = Some n) && plain (pretty n)) (seqZ 0 256) = true) as H by (vm_compute; reflexivity).
  rewrite forallb_forall in H. specialize (H n). rewrite <- list_elem_of_In, elem_of_seqZ in H. specialize (H ltac:(lia)).
  apply andb_true_iff in H as [H ?]. by apply bool_decide_eq_true in H.
Qed.

Lemma octets_bound n : Forall (fun o => 0 <= o < 256)%Z (octets n).
Proof. unfold octets. repeat constructor; apply Z.mod_pos_bound; lia. Qed.

Lemma octets_plain n : Forall (fun p => plain p = true) (map (fun o => pretty o) (octets n)).
Proof. apply Forall_map. eapply Forall_impl; [apply octets_bound|]. intros o Ho. by apply octet_reads_back. Qed.

Lemma v4_reads_back n : (0 <= n < 2 ^ 32)%Z -> parse_v4 (v4_str n) = Some n.
Proof.
  intros Hn. unfold parse_v4, v4_str. rewrite split_join.
  - pose proof (octets_bound n) as Hb. unfold octets in *. cbn [map]. inversion_clear Hb as [|? ? Ha Hb1]. inversion_clear Hb1 as [|? ? Hb Hc1]. inversion_clear Hc1 as [|? ? Hc Hd1]. inversion_clear Hd1 as [|? ? Hd _].
    repeat match goal with H : (0 <= ?o < 256)%Z |- _ => apply octet_reads_back in H as [-> _]; cbn [mbind option_bind] end.
    f_equal. change (2 ^ 32)%Z with 4294967296%Z in *. change (2 ^ 24)%Z with 16777216%Z. change (2 ^ 16)%Z with 65536%Z. change (2 ^ 8)%Z with 256%Z.
    Z.div_mod_to_equations. lia.
  - done.
  - eapply Forall_impl; [apply octets_plain|]. intros p Hp. by apply (plain_free _ _ Hp).
Qed.

Lemma v4_str_free n c : is_hex c = false -> c <> "."%char -> mem_char c (v4_str n) = false.
Proof.
  intros Hc Hdot. apply mem_char_join.
  - cbn. by rewrite decide_False.
  - eapply Forall_impl; [apply octets_plain|]. intros p Hp. by apply (plain_free _ _ Hp).
Qed.

(** ** IPv6 *)

Lemma hex_value_char d : (0 <= d < 16)%Z -> hex_value (hex_char (Z.to_nat d)) = Some d.
Proof.
  intros Hd. assert (forallb (fun d => bool_decide (hex_value (hex_char (Z.to_nat d)) = Some d)) (seqZ 0 16) = true) as H by reflexivity.
  rewrite forallb_forall in H. specialize (H d). rewrite <- list_elem_of_In, elem_of_seqZ in H. by eapply bool_decide_eq_true, H; lia.
Qed.

Lemma hex_char_zero d : (0 <= d < 16)%Z -> bool_decide (hex_char (Z.to_nat d) = "0"%char) = bool_decide (d = 0%Z).
Proof.
  intros Hd. assert (forallb (fun d => Bool.eqb (bool_decide (hex_char (Z.to_nat d) = "0"%char)) (bool_decide (d = 0%Z))) (seqZ 0 16) = true) as H by reflexivity.
  rewrite forallb_forall in H. specialize (H d). rewrite <- list_elem_of_In, elem_of_seqZ in H. by apply eqb_prop, H; lia.
Qed.

Lemma hex_char_plain d : (0 <= d < 16)%Z -> plain (String (hex_char (Z.to_nat d)) "") = true.
Proof.
  intros Hd. assert (forallb (fun d => plain (String (hex_char (Z.to_nat d)) "")) (seqZ 0 16) = true) as H by reflexivity.
  rewrite forallb_forall in H. specialize (H d). rewrite <- list_elem_of_In, elem_of_seqZ in H. apply H; lia.
Qed.

Lemma plain_app x y : plain x = true -> plain y = true -> plain (x +:+ y) = true.
Proof.
  unfold plain. intros Hx Hy. induction x as [|c x IH]; [done|]. change (String c x +:+ y) with (String c (x +:+ y)). cbn in *. apply andb_true_iff in Hx as [-> Hx]. by apply IH.
Qed.

(** The digits of a hextet, its leading zeros stripped. *)
Lemma stripped_digits (ds : list Z) d :
  Forall (fun d => 0 <= d < 16)%Z (d :: ds) ->
  let s := lstrip_by (fun c => bool_decide (c = "0"%char)) (String.concat "" (map (fun d => String (hex_char (Z.to_nat d)) "") ds)) +:+ String (hex_char (Z.to_nat d)) "" in
  hex_digits 0 s = Some (fold_left (fun acc d => acc * 16 + d)%Z (ds ++ [d]) 0%Z) /\ (String.length s <= S (length ds))%nat /\ s <> "" /\ plain s = true /\ (s = "0" <-> Forall (fun d => d = 0%Z) (d :: ds)).
Proof.
  intros Hall s. subst s. inversion_clear Hall as [|? ? Hd Hds].
  assert (forall ds acc, Forall (fun d => 0 <= d < 16)%Z ds ->
    let s := String.concat "" (map (fun d => String (hex_char (Z.to_nat d)) "") ds) +:+ String (hex_char (Z.to_nat d)) "" in
    hex_digits acc s = Some (fold_left (fun acc d => acc * 16 + d)%Z (ds ++ [d])%list acc) /\ String.length s = S (length ds) /\ plain s = true) as Hwhole.
  { clear Hds ds. induction ds as [|x ds IH]; intros acc Hds.
    - cbn [map String.concat fold_left app length]. change ("" +:+ ?x) with x. cbn [hex_digits]. rewrite hex_value_char by done. cbn. split_and!; [done..|]. by apply hex_char_plain.
    - inversion_clear Hds as [|? ? Hx Hds']. specialize (IH (acc * 16 + x)%Z Hds') as (IHv & IHl & IHp).
      assert (String.concat "" (map (fun d => String (hex_char (Z.to_nat d)) "") (x :: ds)) = String (hex_char (Z.to_nat x)) (String.concat "" (map (fun d => String (hex_char (Z.to_nat d)) "") ds))) as -> by by destruct ds.
      change (String ?a ?b +:+ ?c) with (String a (b +:+ c)). cbn [hex_digits]. rewrite hex_value_char by done. cbn [mbind option_bind app fold_left String.length length]. rewrite IHv, IHl. split_and!; [done..|].
      change (String ?a ?b) with (String a "" +:+ b). apply plain_app; [by apply hex_char_plain|done]. }
  induction ds as [|x ds IH].
  - destruct (Hwhole [] 0%Z ltac:(constructor)) as (Hv & Hl & Hp). cbn [map String.concat lstrip_by]. split_and!; [done|cbn [length]; cbn in Hl; cbn; lia|done|done|].
    change ("" +:+ ?x) with x. pose proof (hex_char_zero d Hd) as Hz. split; intros H.
    + injection H as H. apply (bool_decide_eq_true_2 _) in H. rewrite H in Hz. symmetry in Hz. apply bool_decide_eq_true in Hz. by repeat constructor.
    + inversion_clear H as [|? ? H0 _]. subst d. done.
  - inversion_clear Hds as [|? ? Hx Hds'].
    assert (String.concat "" (map (fun d => String (hex_char (Z.to_nat d)) "") (x :: ds)) = String (hex_char (Z.to_nat x)) (String.concat "" (map (fun d => String (hex_char (Z.to_nat d)) "") ds))) as -> by by destruct ds.
    cbn [lstrip_by]. rewrite hex_char_zero by done. destruct (bool_decide_reflect (x = 0%Z)) as [->|Hne].
    + destruct (IH Hds') as (Hv & Hl & Hs & Hp & Hz). split_and!; [done|cbn [length]; lia|done|done|]. rewrite Hz. split; intros H; inversion_clear H as [|? ? H0 H1]; [by repeat constructor|]. inversion_clear H1. by constructor.
    + destruct (Hwhole (x :: ds) 0%Z ltac:(by constructor)) as (Hv & Hl & Hp).
      assert (String.concat "" (map (fun d => String (hex_char (Z.to_nat d)) "") (x :: ds)) = String (hex_char (Z.to_nat x)) (String.concat "" (map (fun d => String (hex_char (Z.to_nat d)) "") ds))) as Hc by by destruct ds.
      rewrite Hc in *. split_and!; [done|lia|done|done|]. split; intros H.
      * exfalso. change (String ?a ?b +:+ ?c) with (String a (b +:+ c)) in H. injection H as H _. apply (bool_decide_eq_true_2 _) in H. rewrite hex_char_zero in H by done. by apply bool_decide_eq_true in H.
      * inversion_clear H as [|? ? _ H1]. by inversion_clear H1.
Qed.

Lemma hextet_facts n : (0 <= n < 65536)%Z ->
  parse_hextet (hextet_str n) = Some n /\ hextet_str n <> "" /\ plain (hextet_str n) = true /\ (hextet_str n = "0" <-> n = 0%Z).
Proof.
  intros Hn. unfold hextet_str.
  destruct (stripped_digits [n / 4096 mod 16; n / 256 mod 16; n / 16 mod 16]%Z (n mod 16)%Z) as (Hv & Hl & Hne & Hp & Hz);
    [repeat constructor; apply Z.mod_pos_bound; lia|].
  cbn [map] in *. split_and!; [|done|done|].
  - unfold parse_hextet. rewrite bool_decide_eq_false_2 by done. cbn [length] in Hl. destruct (Nat.ltb_spec 4 (String.length (lstrip_by (λ c : ascii, bool_decide (c = "0"%char))
         (String.concat "" [String (hex_char (Z.to_nat ((n / 4096) mod 16))) ""; String (hex_char (Z.to_nat ((n / 256) mod 16))) ""; String (hex_char (Z.to_nat ((n / 16) mod 16))) ""]) +:+ String (hex_char (Z.to_nat (n mod 16))) ""))); [lia|].
    cbn [orb]. rewrite Hv. f_equal. cbn [fold_left app]. Z.div_mod_to_equations. lia.
  - rewrite Hz, !Forall_cons, Forall_nil. Z.div_mod_to_equations. lia.
Qed.

Lemma hextets_bound n : Forall (fun h => 0 <= h < 65536)%Z (hextets n).
Proof. unfold hextets. cbn [map]. repeat constructor; apply Z.mod_pos_bound; lia. Qed.

(** The value of hextets in a row. *)
Definition value_of (acc : Z) (hs : list Z) : Z := fold_left (fun acc h => acc * 65536 + h)%Z hs acc.

Lemma value_of_hextets n : (0 <= n < 2 ^ 128)%Z -> value_of 0 (hextets n) = n.
Proof.
  intros Hn. unfold value_of, hextets. cbn [map fold_left].
  assert (forall i j, (0 <= i)%Z -> j = (i + 1)%Z -> n / 2 ^ (16 * i) = (n / 2 ^ (16 * j)) * 65536 + n / 2 ^ (16 * i) mod 65536)%Z as Hstep.
  { intros i j Hi ->. replace (16 * (i + 1))%Z with (16 * i + 16)%Z by lia. rewrite Z.pow_add_r by lia. rewrite <- Z.div_div by lia. change (2 ^ 16)%Z with 65536%Z.
    rewrite (Z.div_mod (n / 2 ^ (16 * i)) 65536) at 1 by lia. lia. }
  pose proof (Hstep 0 1 ltac:(lia) ltac:(lia))%Z. pose proof (Hstep 1 2 ltac:(lia) ltac:(lia))%Z. pose proof (Hstep 2 3 ltac:(lia) ltac:(lia))%Z. pose proof (Hstep 3 4 ltac:(lia) ltac:(lia))%Z.
  pose proof (Hstep 4 5 ltac:(lia) ltac:(lia))%Z. pose proof (Hstep 5 6 ltac:(lia) ltac:(lia))%Z. pose proof (Hstep 6 7 ltac:(lia) ltac:(lia))%Z. pose proof (Hstep 7 8 ltac:(lia) ltac:(lia))%Z.
  assert (n / 2 ^ (16 * 0) = n)%Z by apply Z.div_1_r. assert (n / 2 ^ (16 * 8) = 0)%Z by (apply Z.div_small; exact Hn).
  clear Hstep Hn. repeat match goal with |- context[(n / ?d)%Z] => generalize dependent (n / d)%Z; intros end. lia.
Qed.

Lemma hextets_value_str hs acc : Forall (fun h => 0 <= h < 65536)%Z hs -> hextets_value acc (map hextet_str hs) = Some (value_of acc hs).
Proof.
  revert acc. induction hs as [|h hs IH]; intros acc Hall; [done|]. inversion_clear Hall as [|? ? Hh Hhs]. cbn [map hextets_value].
  destruct (hextet_facts h Hh) as (-> & _). cbn [mbind option_bind]. by apply IH.
Qed.

Lemma value_of_app acc a b : value_of acc (a ++ b) = value_of (value_of acc a) b.
Proof. apply fold_left_app. Qed.

Lemma value_of_zeros acc n : value_of acc (replicate n 0%Z) = (acc * 2 ^ (16 * Z.of_nat n))%Z.
Proof.
  revert acc. induction n as [|n IH]; intros acc; [unfold value_of; cbn; lia|]. change (replicate (S n) 0%Z) with (0%Z :: replicate n 0%Z).
  change (value_of acc (0%Z :: replicate n 0%Z)) with (value_of (acc * 65536 + 0) (replicate n 0%Z)). rewrite IH.
  replace (16 * Z.of_nat (S n))%Z with (16 + 16 * Z.of_nat n)%Z by lia. rewrite Z.pow_add_r by lia. change (2 ^ 16)%Z with 65536%Z. lia.
Qed.

(** What the scan finds is a run of zeros. *)
Lemma scan_all_zeros (zeros : list bool) : forall (rest : list bool) i r,
  (forall k : nat, rest !! k = zeros !! (i + k)%nat) ->
  (forall k, rn_best r <= k < rn_best r + rn_longest r -> zeros !! k = Some true)%nat -> (rn_best r + rn_longest r <= i)%nat ->
  match rn_start r with Some s => (s + rn_length r = i)%nat /\ (forall k, s <= k < i -> zeros !! k = Some true)%nat | None => rn_length r = 0%nat end ->
  let r' := scan_all i rest r in
  (forall k, rn_best r' <= k < rn_best r' + rn_longest r' -> zeros !! k = Some true)%nat /\ (rn_best r' + rn_longest r' <= i + length rest)%nat.
Proof.
  induction rest as [|z rest IH]; intros i r Hsuf Hbest Hle Hstart r'; [subst r'; cbn; by rewrite Nat.add_0_r|].
  subst r'. cbn [scan_all length]. replace (i + S (length rest))%nat with (S i + length rest)%nat by lia.
  assert (zeros !! i = Some z) as Hz by (rewrite <- (Nat.add_0_r i), <- Hsuf; done).
  assert (forall k, rest !! k = zeros !! (S i + k)%nat) as Hsuf' by (intros k; rewrite Nat.add_succ_comm; exact (Hsuf (S k))).
  unfold scan. destruct z; [|apply IH; cbn; [done|done|lia|done]].
  destruct (rn_start r) as [s|] eqn:Hs; cbn [default].
  - destruct Hstart as [Hlen Hrun].
    assert (forall k, s <= k < S i -> zeros !! k = Some true)%nat as Hrun' by (intros k Hk; destruct (decide (k = i)) as [->|]; [done|apply Hrun; lia]).
    destruct (Nat.ltb_spec (rn_longest r) (S (rn_length r))); apply IH; cbn; try done; try lia; try (intros k Hk; apply Hrun'; lia); split; [lia|done|lia|done].
  - rewrite Hstart. assert (forall k, i <= k < S i -> zeros !! k = Some true)%nat as Hrun' by (intros k Hk; by replace k with i by lia).
    destruct (Nat.ltb_spec (rn_longest r) 1); apply IH; cbn; try done; try lia; try (intros k Hk; apply Hrun'; lia); split; [lia|done|lia|done].
Qed.

Lemma longest_run_zeros (zeros : list bool) start n : longest_run zeros = (start, n) -> (start + n <= length zeros)%nat /\ forall k, (start <= k < start + n)%nat -> zeros !! k = Some true.
Proof. intros [= <- <-]. destruct (scan_all_zeros zeros zeros 0 (mkRun 0 0 None 0)) as [H1 H2]; cbn; [done|lia|lia|done|]. split; [done|exact H1]. Qed.

Lemma run_of_zeros (hs : list Z) start n : (start + n <= length hs)%nat -> (forall k, start <= k < start + n -> hs !! k = Some 0%Z)%nat ->
  hs = (firstn start hs ++ replicate n 0%Z ++ skipn (start + n) hs)%list.
Proof.
  intros Hle Hz. rewrite <- (firstn_skipn start hs) at 1. f_equal. rewrite <- (firstn_skipn n (skipn start hs)) at 1. rewrite skipn_skipn. f_equal; [|f_equal; lia].
  apply list_eq. intros k. destruct (decide (k < n)%nat) as [Hk|Hk].
  - rewrite lookup_take_lt, lookup_drop, lookup_replicate_2 by done. apply Hz. lia.
  - rewrite lookup_take_ge by lia. symmetry. apply lookup_ge_None. rewrite length_replicate. lia.
Qed.

Lemma blanks_none i (l : list string) : Forall (fun p => p <> "") l -> blanks_from i l = [].
Proof. intros H. revert i. induction H as [|p l Hp _ IH]; intros i; [done|]. cbn. by rewrite decide_False. Qed.

Lemma blanks_one i (l1 l2 : list string) : Forall (fun p => p <> "") l1 -> Forall (fun p => p <> "") l2 -> blanks_from i (l1 ++ "" :: l2) = [(i + length l1)%nat].
Proof.
  intros H1 H2. revert i. induction H1 as [|p l1 Hp _ IH]; intros i; cbn; [by rewrite blanks_none, Nat.add_0_r|].
  rewrite decide_False by done. rewrite IH. f_equal. lia.
Qed.

Lemma parts_value_at (parts : list string) (skip hi lo : nat) :
  inner_blanks parts = [skip] -> (hd "" parts = "" /\ hi = 0 /\ skip = 1 \/ hd "" parts <> "" /\ hi = skip)%nat ->
  (last parts = Some "" /\ lo = 0 /\ length parts = skip + 2 \/ last parts <> Some "" /\ length parts = lo + skip + 1)%nat -> (hi + lo < 8)%nat ->
  parts_value parts = (high ← hextets_value 0 (firstn hi parts); hextets_value (high * 2 ^ (16 * Z.of_nat (8 - (hi + lo)))) (skipn (length parts - lo) parts)).
Proof.
  intros Hin Hhi Hlo Hlt. unfold parts_value. rewrite Hin.
  assert ((if decide (hd "" parts = "") then (skip - 1)%nat else skip) = hi /\ bool_decide (hd "" parts = "") && negb (hi =? 0)%nat = false) as [-> ->].
  { destruct Hhi as [(-> & -> & ->)|[Hne ->]]; [done|]. by rewrite decide_False, bool_decide_eq_false_2. }
  assert ((if decide (last parts = Some "") then (length parts - skip - 2)%nat else (length parts - skip - 1)%nat) = lo /\ bool_decide (last parts = Some "") && negb (lo =? 0)%nat = false) as [-> ->].
  { destruct Hlo as [(Hl & -> & ->)|[Hne ->]]; [rewrite decide_True, bool_decide_eq_true_2 by done; split; [lia|done]|]. rewrite decide_False, bool_decide_eq_false_2 by done. split; [lia|done]. }
  cbn [orb]. by destruct (Nat.leb_spec 8 (hi + lo)); [lia|].
Qed.

(** What is read of a gap between two rows of hextets, at an end or not. *)
Lemma parts_value_gap (pre post : list string) :
  Forall (fun p => p <> "") pre -> Forall (fun p => p <> "") post -> (length pre + length post < 8)%nat ->
  parts_value ((if (length pre =? 0)%nat then [""] else []) ++ pre ++ [""] ++ post ++ (if (length post =? 0)%nat then [""] else [])) =
  (high ← hextets_value 0 pre; hextets_value (high * 2 ^ (16 * Z.of_nat (8 - (length pre + length post)))) post).
Proof.
  intros Hpre Hpost Hlt. assert (post = [] \/ exists l x, post = (l ++ [x])%list /\ x <> "" /\ Forall (fun p => p <> "") l) as Hend.
  { destruct (decide (post = [])) as [->|Hne]; [by left|right]. destruct (exists_last Hne) as (l & x & ->). exists l, x. apply Forall_app in Hpost as [Hl Hx]. split_and!; [done|by inversion_clear Hx|done]. }
  destruct Hend as [->|(l & y & -> & Hy & Hl)]; destruct pre as [|x pre]; cbn [length Nat.eqb app].
  - reflexivity.
  - inversion_clear Hpre as [|? ? Hx Hpre']. rewrite (parts_value_at _ (S (length pre)) (S (length pre)) 0).
    + rewrite app_comm_cons, (take_app_length' (x :: pre)) by done. rewrite skipn_all2 by lia. by rewrite Nat.add_0_r.
    + unfold inner_blanks. cbn [tl]. assert ((pre ++ ["" ; ""]) = (pre ++ [""]) ++ [""])%list as -> by by rewrite <- app_assoc. rewrite removelast_last. by apply blanks_one.
    + right. done.
    + left. rewrite app_comm_cons, last_app. cbn [length]. rewrite length_app. cbn. split_and!; [done..|lia].
    + cbn in Hlt. lia.
  - rewrite length_app, Nat.add_comm. cbn [length Nat.add Nat.eqb]. rewrite app_nil_r. rewrite (parts_value_at _ 1 0 (S (length l))).
    + cbn [length]. rewrite length_app. cbn [length]. replace (S (S (length l + 1)) - S (length l))%nat with 2%nat by lia. done.
    + unfold inner_blanks. cbn [tl]. rewrite app_comm_cons, removelast_last. change ("" :: l) with ([] ++ "" :: l)%list. by rewrite blanks_one.
    + left. done.
    + right. rewrite !app_comm_cons, last_snoc. cbn [length]. rewrite length_app. cbn. split; [congruence|lia].
    + cbn in Hlt. rewrite length_app in Hlt. cbn in Hlt. lia.
  - inversion_clear Hpre as [|? ? Hx Hpre']. rewrite length_app, (Nat.add_comm (length l)). cbn [length Nat.add Nat.eqb]. rewrite app_nil_r.
    cbn [length] in Hlt. rewrite length_app in Hlt. cbn in Hlt. rewrite (parts_value_at _ (S (length pre)) (S (length pre)) (S (length l))).
    + rewrite app_comm_cons, (take_app_length' (x :: pre)) by done. replace ((x :: pre) ++ "" :: l ++ [y])%list with (((x :: pre) ++ [""]) ++ (l ++ [y]))%list by by rewrite <- app_assoc.
      rewrite drop_app_length' by (rewrite !length_app; cbn; lia). done.
    + unfold inner_blanks. cbn [tl]. rewrite app_comm_cons, app_assoc, removelast_last. by apply blanks_one.
    + right. done.
    + right. rewrite (app_comm_cons l), app_comm_cons, app_assoc, last_snoc. rewrite !length_app. cbn. split; [congruence|lia].
    + lia.
Qed.

Lemma hextets_shown hs : Forall (fun h => 0 <= h < 65536)%Z hs -> Forall (fun p => p <> "" /\ plain p = true) (map hextet_str hs).
Proof. intros H. apply Forall_map. eapply Forall_impl; [exact H|]. intros h Hh. by destruct (hextet_facts h Hh) as (_ & ? & ? & _). Qed.

Lemma parts_value_whole (parts : list string) : length parts = 8%nat -> Forall (fun p => p <> "") parts -> parts_value parts = hextets_value 0 parts.
Proof.
  intros Hlen Hall. unfold parts_value, inner_blanks. rewrite Hlen.
  assert (Forall (fun p => p <> "") (removelast (tl parts))) as Hin.
  { destruct parts as [|x parts]; [done|]. inversion_clear Hall as [|? ? _ Hall']. cbn [tl]. destruct (decide (parts = [])) as [->|Hne]; [done|].
    destruct (exists_last Hne) as (l & y & ->). rewrite removelast_last. by apply Forall_app in Hall' as [? _]. }
  rewrite blanks_none by done. rewrite !bool_decide_eq_false_2; [done| |].
  - intros Hl. apply last_Some_elem_of in Hl. by eapply Forall_forall in Hall.
  - destruct parts; [done|]. by inversion_clear Hall.
Qed.

(** The compressed hextets and where they may be parted. *)
Lemma compressed_value hs : length hs = 8%nat -> Forall (fun h => 0 <= h < 65536)%Z hs ->
  let parts := compress_hextets (map hextet_str hs) in
  parts_value parts = Some (value_of 0 hs) /\ (3 <= length parts <= 9)%nat /\ Forall (fun p => plain p = true) parts.
Proof.
  intros Hlen Hb parts. subst parts. unfold compress_hextets. destruct (longest_run _) as [start n] eqn:Hrun.
  destruct (longest_run_zeros _ _ _ Hrun) as [Hle Hz]. rewrite !length_map in Hle. pose proof (hextets_shown hs Hb) as Hs.
  assert (Forall (fun p => p <> "") (map hextet_str hs) /\ Forall (fun p => plain p = true) (map hextet_str hs)) as [Hshown Hplain]
    by (split; eapply Forall_impl; [exact Hs|by intros ? []|exact Hs|by intros ? []]).
  destruct (Nat.ltb_spec 1 n) as [Hn|Hn].
  2: { split_and!; [|rewrite length_map; lia..|done]. rewrite parts_value_whole by (done || by rewrite length_map). by apply hextets_value_str. }
  assert (hs = (firstn start hs ++ replicate n 0%Z ++ skipn (start + n) hs)%list) as Hhs.
  { apply run_of_zeros; [done|]. intros k Hk. specialize (Hz k Hk). rewrite !list_lookup_fmap in Hz. destruct (hs !! k) as [h|] eqn:Hh; [|done]. cbn in Hz. injection Hz as Hz. apply bool_decide_eq_true in Hz.
    f_equal. eapply hextet_facts; [|done]. by apply (Forall_lookup_1 _ _ _ _ Hb Hh). }
  rewrite firstn_map, skipn_map. set (pre := firstn start hs) in *. set (post := skipn (start + n) hs) in *.
  assert (length pre = start) as Hpre by (unfold pre; rewrite length_take; lia). assert (length post = 8 - (start + n))%nat as Hpost by (unfold post; rewrite length_drop; lia).
  assert ((start =? 0)%nat = (length (map hextet_str pre) =? 0)%nat) as -> by (by rewrite length_map, Hpre).
  assert ((start + n =? length (map hextet_str hs))%nat = (length (map hextet_str post) =? 0)%nat) as -> by (rewrite !length_map, Hpost, Hlen; apply eq_true_iff_eq; rewrite !Nat.eqb_eq; lia).
  assert (Forall (fun h => 0 <= h < 65536)%Z pre /\ Forall (fun h => 0 <= h < 65536)%Z post) as [Hbpre Hbpost] by (by split; [apply Forall_take|apply Forall_drop]).
  pose proof (hextets_shown _ Hbpre) as Hspre. pose proof (hextets_shown _ Hbpost) as Hspost. split_and!.
  - rewrite parts_value_gap; [|by eapply Forall_impl; [done|intros ? []]..|rewrite !length_map; lia]. rewrite hextets_value_str by done. cbn [mbind option_bind]. rewrite hextets_value_str by done. f_equal.
    rewrite Hhs at 1. rewrite !value_of_app, value_of_zeros, !length_map. do 4 f_equal. lia.
  - rewrite !length_app, !length_map. destruct (Nat.eqb_spec (length pre) 0), (Nat.eqb_spec (length post) 0); cbn; lia.
  - rewrite !length_app, !length_map. destruct (Nat.eqb_spec (length pre) 0), (Nat.eqb_spec (length post) 0); cbn; lia.
  - repeat apply Forall_app_2; try (by destruct (_ =? 0)%nat; repeat constructor); try (by eapply Forall_impl; [done|intros ? []]). by repeat constructor.
Qed.

Lemma v6_int_reads_back n : (0 <= n < 2 ^ 128)%Z -> parse_v6 (v6_int_str n) = Some n.
Proof.
  intros Hn. unfold parse_v6, v6_int_str. destruct (compressed_value (hextets n)) as (Hv & Hlen & Hp); [done|apply hextets_bound|].
  rewrite split_join by ((destruct (compress_hextets _); [cbn in Hlen; lia|done]) || (eapply Forall_impl; [exact Hp|intros p H; by apply (plain_free _ _ H)])).
  destruct (Nat.ltb_spec (length (compress_hextets (map hextet_str (hextets n)))) 3); [lia|].
  unfold v4_suffix. assert (mem_char "." (default "" (last (compress_hextets (map hextet_str (hextets n))))) = false) as ->.
  { destruct (last _) as [p|] eqn:Hl; [|done]. apply last_Some_elem_of in Hl. apply (plain_free p); [by eapply Forall_forall in Hp|done]. }
  cbn [mbind option_bind]. destruct (Nat.ltb_spec 9 (length (compress_hextets (map hextet_str (hextets n))))); [lia|]. by rewrite Hv, value_of_hextets.
Qed.

Lemma v6_int_free n c : is_hex c = false -> c <> ":"%char -> mem_char c (v6_int_str n) = false.
Proof.
  intros Hc Hcolon. apply mem_char_join; [cbn; by rewrite decide_False|]. destruct (compressed_value (hextets n)) as (_ & _ & Hp); [done|apply hextets_bound|].
  eapply Forall_impl; [exact Hp|]. intros p H. by apply (plain_free _ _ H).
Qed.

(** The address of an IPv4-mapped one. *)
Lemma mapped_reads_back m : (0 <= m < 2 ^ 32)%Z -> parse_v6 ("::ffff:" +:+ v4_str m) = Some (65535 * 2 ^ 32 + m)%Z.
Proof.
  intros Hm. unfold parse_v6. assert (split_on ":" ("::ffff:" +:+ v4_str m) = [""; ""; "ffff"; v4_str m]) as ->.
  { change ("::ffff:" +:+ v4_str m) with (join ":" [""; ""; "ffff"; v4_str m]). apply split_join; [done|]. repeat constructor. by apply v4_str_free. }
  cbn [length Nat.ltb Nat.leb]. unfold v4_suffix. cbn [last default]. change (id (v4_str m)) with (v4_str m).
  assert (mem_char "." (v4_str m) = true) as -> by (unfold v4_str, octets; cbn [map join]; rewrite !mem_char_app; cbn; by rewrite orb_true_r).
  rewrite v4_reads_back by done. cbn [mbind option_bind removelast app length Nat.ltb Nat.leb].
  change (2 ^ 32)%Z with 4294967296%Z in *.
  destruct (hextet_facts (m / 65536 mod 65536)%Z) as (Ha & Hane & _); [Z.div_mod_to_equations; lia|]. destruct (hextet_facts (m mod 65536)%Z) as (Hb & Hbne & _); [Z.div_mod_to_equations; lia|].
  pose proof (parts_value_gap [] ["ffff"; hextet_str (m / 65536 mod 65536); hextet_str (m mod 65536)]%Z) as H. cbn [length Nat.eqb app Nat.add Nat.sub] in H.
  rewrite H; [|repeat constructor; done|repeat constructor; done|lia]. cbn [hextets_value mbind option_bind]. change (parse_hextet "ffff") with (Some 65535%Z). rewrite Ha, Hb. cbn [mbind option_bind]. f_equal. Z.div_mod_to_equations. lia.
Qed.

(** ** Addresses and networks *)

Definition zone_ok (z : string) : bool := negb (bool_decide (z = "")) && negb (mem_char "%" z) && negb (mem_char "/" z).

Definition ip_ok (a : Ip) : bool :=
  (0 <=? ip_int a)%Z && (ip_int a <? 2 ^ width a)%Z && match a with V6 _ (Some z) => zone_ok z | _ => true end.

Lemma ip_int_bound a : ip_ok a = true -> (0 <= ip_int a < 2 ^ width a)%Z.
Proof. unfold ip_ok. rewrite !andb_true_iff, Z.leb_le, Z.ltb_lt. tauto. Qed.

Lemma octet_digits s n c : parse_octet s = Some n -> ascii_digit c = false -> mem_char c s = false.
Proof.
  unfold parse_octet. intros H Hc. destruct (str_all ascii_digit s) eqn:Hs; [|done]. clear H. induction s as [|d s IH]; [done|]. cbn in *. apply andb_true_iff in Hs as [Hd Hs].
  case_decide; [congruence|by apply IH].
Qed.

Lemma v4_read_free s n c : parse_v4 s = Some n -> ascii_digit c = false -> c <> "."%char -> mem_char c s = false.
Proof.
  unfold parse_v4. intros H Hc Hdot. rewrite <- (join_split "."%char s). apply mem_char_join; [cbn; by rewrite decide_False|].
  destruct (split_on "." s) as [|p [|q [|r [|t [|? ?]]]]]; try done.
  destruct (parse_octet p) eqn:Hp, (parse_octet q) eqn:Hq, (parse_octet r) eqn:Hr, (parse_octet t) eqn:Ht; try done.
  repeat constructor; by eapply octet_digits.
Qed.

Lemma join_parted c (parts : list string) : (2 <= length parts)%nat -> mem_char c (join (String c "") parts) = true.
Proof. destruct parts as [|x [|y parts]]; cbn [length]; try lia. intros _. rewrite join_app_sep, mem_char_app, mem_char_here. by rewrite orb_true_r. Qed.

(** The text of an IPv6 address without its zone. *)
Definition v6_bare (n : Z) : string := v6_str n None.

Lemma v6_str_bare n zone : v6_str n zone = v6_bare n +:+ match zone with Some z => String "%" z | None => "" end.
Proof. unfold v6_bare, v6_str. rewrite append_empty_r. by destruct zone. Qed.

Lemma v6_bare_facts n : (0 <= n < 2 ^ 128)%Z ->
  parse_v6 (v6_bare n) = Some n /\ mem_char ":" (v6_bare n) = true /\ (forall c, is_hex c = false -> c <> ":"%char -> c <> "."%char -> mem_char c (v6_bare n) = false).
Proof.
  intros Hn. unfold v6_bare, v6_str. rewrite append_empty_r. destruct (Z.eqb_spec (n / 2 ^ 32) 65535) as [Hm|Hm].
  - rewrite Hm. change (v6_int_str 65535) with "::ffff". change ("::ffff" +:+ ":" +:+ v4_str (n mod 2 ^ 32)) with ("::ffff:" +:+ v4_str (n mod 2 ^ 32)). split_and!; [|done|].
    + rewrite mapped_reads_back by (apply Z.mod_pos_bound; lia). f_equal. rewrite <- Hm. rewrite (Z.div_mod n (2 ^ 32)) at 3 by lia. lia.
    + intros c Hc Hcolon Hdot. change ("::ffff:" +:+ v4_str (n mod 2 ^ 32)) with ("::ffff" +:+ String ":" (v4_str (n mod 2 ^ 32))). rewrite mem_char_app. change "::ffff" with (v6_int_str 65535). rewrite v6_int_free by done. cbn [mem_char orb]. rewrite decide_False by done. by apply v4_str_free.
  - split_and!; [by apply v6_int_reads_back| |].
    + apply join_parted. destruct (compressed_value (hextets n)) as (_ & ? & _); [done|apply hextets_bound|lia].
    + intros c Hc Hcolon Hdot. by apply v6_int_free.
Qed.

Lemma zoned_reads_back n zone : ip_ok (V6 n zone) = true -> parse_zoned (v6_str n zone) = Some (V6 n zone).
Proof.
  intros Hok. pose proof (ip_int_bound _ Hok) as Hn. destruct (v6_bare_facts n Hn) as (Hv & _ & Hfree). unfold parse_zoned. rewrite v6_str_bare.
  destruct zone as [z|].
  - rewrite partition_join by (by apply Hfree). unfold ip_ok, zone_ok in Hok. rewrite !andb_true_iff, !negb_true_iff in Hok. destruct Hok as (_ & (Hz & Hp) & Hs).
    rewrite mem_char_app, Hfree by done. cbn [mem_char]. rewrite decide_False by done. rewrite Hs, Hz, Hp. cbn [orb andb]. by rewrite Hv.
  - rewrite append_empty_r, partition_none by (by apply Hfree). rewrite Hfree by done. cbn [andb]. by rewrite Hv.
Qed.

Lemma v6_not_v4 n zone : (0 <= n < 2 ^ 128)%Z -> parse_v4 (v6_str n zone) = None.
Proof.
  intros Hn. destruct (parse_v4 _) as [m|] eqn:Hp; [|done]. apply v4_read_free with (c := ":"%char) in Hp; [|done|done].
  destruct (v6_bare_facts n Hn) as (_ & Hc & _). rewrite v6_str_bare, mem_char_app, Hc in Hp. done.
Qed.

(** An address written is read back. *)
Lemma ip_reads_back a : ip_ok a = true -> ip_address (ip_str a) = Some a.
Proof.
  intros Hok. pose proof (ip_int_bound _ Hok) as Hn. unfold ip_address. destruct a as [n|n zone]; cbn [ip_str].
  - by rewrite v4_reads_back.
  - rewrite v6_not_v4 by done. by apply zoned_reads_back.
Qed.

Lemma ip_str_free a c : ip_ok a = true -> is_hex c = false -> c ∉ [":"; "."; "%"]%char -> match a with V6 _ (Some z) => mem_char c z = false | _ => True end -> mem_char c (ip_str a) = false.
Proof.
  intros Hok Hc Hnot Hz. assert (c <> ":"%char /\ c <> "."%char /\ c <> "%"%char) as (Hcolon & Hdot & Hper) by (split_and!; intros ->; apply Hnot; set_solver).
  pose proof (ip_int_bound _ Hok) as Hn. destruct a as [n|n zone]; cbn [ip_str].
  - by apply v4_str_free.
  - destruct (v6_bare_facts n Hn) as (_ & _ & Hfree). rewrite v6_str_bare, mem_char_app, Hfree by done. destruct zone as [z|]; [|done].
    cbn [mem_char]. by rewrite decide_False.
Qed.

Lemma masked_range w p n low : (0 <= p <= w)%Z -> (low mod 2 ^ (w - p) = 0)%Z -> masked w p n = low <-> (low <= n <= low + (2 ^ (w - p) - 1))%Z.
Proof.
  intros Hp Hlow. unfold masked. assert (0 < 2 ^ (w - p))%Z as Hpos by (apply Z.pow_pos_nonneg; lia). pose proof (Z.mod_pos_bound n (2 ^ (w - p)) Hpos).
  apply Z.mod_divide in Hlow as [k ->]; [|lia]. split; [lia|]. intros Hr. rewrite (Z.div_mod n (2 ^ (w - p))) at 1 by lia. assert (n / 2 ^ (w - p) = k)%Z as ->; [|lia].
  symmetry. apply (Z.div_unique_pos n _ k (n - k * 2 ^ (w - p))); lia.
Qed.

(** A network as it is built: its prefix in its width, its address the lowest of its range. *)
Definition network_ok (nw : Network) : bool :=
  let w := width (nw_address nw) in
  ip_ok (nw_address nw) && (0 <=? nw_prefix nw)%Z && (nw_prefix nw <=? w)%Z && (ip_int (nw_address nw) mod 2 ^ (w - nw_prefix nw) =? 0)%Z.

(** The addresses of a network are those of its version in its range. *)
Lemma holds_range nw a : network_ok nw = true ->
  holds_address nw a = true <-> version a = version (nw_address nw) /\ (ip_int (nw_address nw) <= ip_int a <= broadcast nw)%Z.
Proof.
  unfold network_ok, holds_address, broadcast. rewrite !andb_true_iff, !Z.leb_le, !Z.eqb_eq. intros (((_ & Hp) & Hw) & Hlow).
  destruct (decide (version a = version (nw_address nw))) as [Hv|Hv]; [|tauto]. assert (width a = width (nw_address nw)) as -> by (by destruct a, (nw_address nw)).
  rewrite masked_range by done. tauto.
Qed.

(** The range of a network within another's. *)
Lemma supernet_holds nw other a : network_ok nw = true -> network_ok other = true -> version (nw_address nw) = version (nw_address other) ->
  supernet_of nw other = true -> holds_address other a = true -> holds_address nw a = true.
Proof.
  intros Hok Hok' Hv. unfold supernet_of. rewrite andb_true_iff, !Z.leb_le. intros [? ?]. rewrite !holds_range by done. intros [? ?]. split; [congruence|lia].
Qed.

(** What is read is an address, or a network, of its width. *)
Lemma digits_value_pos s acc : (0 <= acc)%Z -> str_all ascii_digit s = true -> (0 <= digits_value acc s)%Z.
Proof.
  revert acc. induction s as [|c s IH]; intros acc Hacc Hs; [done|]. cbn in *. apply andb_true_iff in Hs as [Hc Hs]. apply IH; [|done].
  unfold ascii_digit in Hc. rewrite andb_true_iff, !Nat.leb_le in Hc. lia.
Qed.

Lemma octet_bound s n : parse_octet s = Some n -> (0 <= n < 256)%Z.
Proof.
  unfold parse_octet. destruct (str_all ascii_digit s) eqn:Hs; [|done]. cbn [andb]. destruct (_ && _ && _); [|done]. destruct (Z.leb_spec (digits_value 0 s) 255); [|done]. intros [= <-].
  pose proof (digits_value_pos s 0 ltac:(lia) Hs). lia.
Qed.

Lemma v4_bound s n : parse_v4 s = Some n -> (0 <= n < 2 ^ 32)%Z.
Proof.
  unfold parse_v4. destruct (split_on "." s) as [|p [|q [|r [|t [|? ?]]]]]; try done.
  destruct (parse_octet p) eqn:Hp, (parse_octet q) eqn:Hq, (parse_octet r) eqn:Hr, (parse_octet t) eqn:Ht; try done.
  apply octet_bound in Hp, Hq, Hr, Ht. cbn. intros [= <-]. change (2 ^ 32)%Z with 4294967296%Z. lia.
Qed.

Lemma hex_value_bound c d : hex_value c = Some d -> (0 <= d < 16)%Z.
Proof.
  unfold hex_value. generalize (Z.of_nat (code c)). intros n.
  destruct (Z.leb_spec 48 n), (Z.leb_spec n 57), (Z.leb_spec 65 n), (Z.leb_spec n 70), (Z.leb_spec 97 n), (Z.leb_spec n 102); cbn; intros [= <-]; lia.
Qed.

Lemma hex_digits_bound s : forall acc n k, hex_digits acc s = Some n -> (0 <= k)%Z -> (0 <= acc < 2 ^ k)%Z -> (0 <= n < 2 ^ (k + 4 * Z.of_nat (String.length s)))%Z.
Proof.
  induction s as [|c s IH]; intros acc n k Hn Hk Hacc; cbn in Hn; [injection Hn as <-; by rewrite Z.add_0_r|].
  destruct (hex_value c) as [d|] eqn:Hd; [|done]. apply hex_value_bound in Hd. cbn [String.length].
  replace (k + 4 * Z.of_nat (S (String.length s)))%Z with ((k + 4) + 4 * Z.of_nat (String.length s))%Z by lia. apply (IH (acc * 16 + d)%Z); [done|lia|].
  rewrite Z.pow_add_r by lia. change (2 ^ 4)%Z with 16%Z. lia.
Qed.

Lemma hextet_bound s n : parse_hextet s = Some n -> (0 <= n < 65536)%Z.
Proof.
  unfold parse_hextet. destruct (Nat.ltb_spec 4 (String.length s)) as [|Hl]; [by rewrite orb_true_r|]. destruct (_ || _); [done|]. intros Hn.
  apply (hex_digits_bound s 0 n 0) in Hn; [|lia|lia]. assert (2 ^ (0 + 4 * Z.of_nat (String.length s)) <= 2 ^ 16)%Z as Hle by (apply Z.pow_le_mono_r; lia). change (2 ^ 16)%Z with 65536%Z in Hle. lia.
Qed.

Lemma hextets_value_bound (parts : list string) : forall acc n k, hextets_value acc parts = Some n -> (0 <= k)%Z -> (0 <= acc < 2 ^ k)%Z -> (0 <= n < 2 ^ (k + 16 * Z.of_nat (length parts)))%Z.
Proof.
  induction parts as [|h parts IH]; intros acc n k Hn Hk Hacc; cbn in Hn; [injection Hn as <-; by rewrite Z.add_0_r|].
  destruct (parse_hextet h) as [d|] eqn:Hd; [|done]. apply hextet_bound in Hd. cbn [length].
  replace (k + 16 * Z.of_nat (S (length parts)))%Z with ((k + 16) + 16 * Z.of_nat (length parts))%Z by lia. apply (IH (acc * 65536 + d)%Z); [done|lia|].
  rewrite Z.pow_add_r by lia. change (2 ^ 16)%Z with 65536%Z. lia.
Qed.

Lemma parts_value_bound (parts : list string) n : parts_value parts = Some n -> (0 <= n < 2 ^ 128)%Z.
Proof.
  unfold parts_value. destruct (inner_blanks parts) as [|skip [|? ?]]; [| |done].
  - destruct (Nat.eqb_spec (length parts) 8) as [Hl|]; [|done]. destruct (_ && _); [|done]. intros Hn. apply (hextets_value_bound parts 0 n 0) in Hn; [|lia|lia]. by rewrite Hl in Hn.
  - set (hi := if decide (hd "" parts = "") then _ else _). set (lo := if decide (last parts = Some "") then _ else _). destruct (_ || _); [done|]. destruct (Nat.leb_spec 8 (hi + lo)) as [|Hlt]; [done|].
    destruct (hextets_value 0 (firstn hi parts)) as [high|] eqn:Hh; [|done]. cbn. intros Hn. apply (hextets_value_bound _ 0 high 0) in Hh; [|lia|lia].
    pose proof (length_take_le parts hi) as _. assert (length (firstn hi parts) <= hi)%nat as Hhi by (rewrite length_take; lia). assert (length (skipn (length parts - lo) parts) <= lo)%nat as Hlo by (rewrite length_drop; lia).
    apply (hextets_value_bound _ _ n (16 * Z.of_nat hi + 16 * Z.of_nat (8 - (hi + lo)))) in Hn; [|lia|].
    + assert (2 ^ (16 * Z.of_nat hi + 16 * Z.of_nat (8 - (hi + lo)) + 16 * Z.of_nat (length (skipn (length parts - lo) parts))) <= 2 ^ 128)%Z by (apply Z.pow_le_mono_r; lia). lia.
    + rewrite Z.pow_add_r by lia. assert (high < 2 ^ (16 * Z.of_nat hi))%Z.
      { eapply Z.lt_le_trans; [apply Hh|]. apply Z.pow_le_mono_r; lia. }
      assert (0 < 2 ^ (16 * Z.of_nat (8 - (hi + lo))))%Z by (apply Z.pow_pos_nonneg; lia). nia.
Qed.

Lemma zoned_ok s a : parse_zoned s = Some a -> ip_ok a = true /\ version a = 6%Z.
Proof.
  unfold parse_zoned. destruct (partition "%" s) as [[addr found] zone] eqn:Hp. destruct (mem_char "/" s) eqn:Hs; [done|].
  destruct (found && (bool_decide (zone = "") || mem_char "%" zone)) eqn:Hz; [done|]. unfold parse_v6. destruct (_ <? _)%nat; [done|]. destruct (v4_suffix _) as [parts|]; [|done]. cbn.
  match goal with |- context[if ?b then _ else _] => destruct b; [done|] end. destruct (parts_value parts) as [n|] eqn:Hn; [|done]. apply parts_value_bound in Hn. cbn. intros [= <-]. split; [|done].
  unfold ip_ok. cbn [ip_int width]. rewrite (proj2 (Z.leb_le _ _)), (proj2 (Z.ltb_lt _ _)) by lia. destruct found; [|done]. cbn [andb] in *. apply orb_false_iff in Hz as [Hz1 Hz2]. unfold zone_ok. rewrite Hz1, Hz2.
  apply partition_found in Hp as [-> _]. rewrite mem_char_app in Hs. apply orb_false_iff in Hs as [_ Hs]. cbn [mem_char] in Hs. rewrite decide_False in Hs by done. by rewrite Hs.
Qed.

Lemma ip_address_ok s a : ip_address s = Some a -> ip_ok a = true.
Proof.
  unfold ip_address. destruct (parse_v4 s) as [n|] eqn:Hn; [|intros H; by apply zoned_ok in H as [? _]]. apply v4_bound in Hn. intros [= <-].
  unfold ip_ok. cbn [ip_int width]. by rewrite (proj2 (Z.leb_le _ _)), (proj2 (Z.ltb_lt _ _)) by lia.
Qed.

Lemma prefix_number_bound w m p : prefix_number w m = Some p -> (0 <= p <= w)%Z.
Proof.
  unfold prefix_number, int_of. destruct (str_all ascii_digit m) eqn:Hs; [|done]. cbn [andb]. destruct (_ && _); [|done]. destruct (Z.leb_spec (digits_value 0 m) w); [|done]. intros [= <-]. split; [|done].
  by apply digits_value_pos.
Qed.

Lemma prefix_of_mask_bound n p : prefix_of_mask n = Some p -> (0 <= p <= 32)%Z.
Proof. unfold prefix_of_mask. intros H. apply first_where_some in H as [H _]. apply (elem_of_seqZ 0 33) in H. lia. Qed.

Lemma v4_prefix_bound m p : v4_prefix m = Some p -> (0 <= p <= 32)%Z.
Proof.
  unfold v4_prefix. destruct (prefix_number 32 m) as [q|] eqn:Hq; [intros [= <-]; by apply prefix_number_bound in Hq|].
  destruct (parse_v4 m) as [n|]; [|done]. cbn. destruct (prefix_of_mask n) as [q|] eqn:Hn; [intros [= <-]|]; intros; by eapply prefix_of_mask_bound.
Qed.

Lemma masked_facts w p n : (0 <= p <= w)%Z -> (0 <= n < 2 ^ w)%Z -> (0 <= masked w p n < 2 ^ w)%Z /\ (masked w p n mod 2 ^ (w - p) = 0)%Z.
Proof.
  intros Hp Hn. unfold masked. assert (0 < 2 ^ (w - p))%Z as Hpos by (apply Z.pow_pos_nonneg; lia). pose proof (Z.mod_pos_bound n _ Hpos). pose proof (Z.mod_le n (2 ^ (w - p)) ltac:(lia) Hpos).
  split; [lia|]. rewrite Zminus_mod, Zmod_mod, Z.sub_diag. apply Z.mod_0_l. lia.
Qed.

Lemma ip_network_ok s nw : ip_network s = Some nw -> network_ok nw = true.
Proof.
  unfold ip_network. destruct (split_on "/" s) as [|addr rest]; [done|]. destruct (match rest with [] => Some None | [m] => Some (Some m) | _ => None end) as [mask|]; [|done]. cbn [mbind option_bind].
  destruct (n ← parse_v4 addr; _) as [[n p]|] eqn:H4.
  - intros [= <-]. destruct (parse_v4 addr) as [n'|] eqn:Hn; [|done]. cbn in H4. apply v4_bound in Hn. destruct (match mask with None => _ | Some m => v4_prefix m end) as [p'|] eqn:Hp; [|done]. injection H4 as <- <-.
    assert (0 <= p' <= 32)%Z as Hb by (destruct mask; [by eapply v4_prefix_bound|by injection Hp as <-]). destruct (masked_facts 32 p' n' Hb Hn) as [Hm Hz].
    unfold network_ok, ip_ok. cbn [nw_address nw_prefix ip_int width]. rewrite !andb_true_iff, !Z.leb_le, Z.ltb_lt, Z.eqb_eq. split_and!; try done; lia.
  - destruct (parse_zoned addr) as [a|] eqn:Ha; [|done]. cbn [mbind option_bind]. apply zoned_ok in Ha as [Hok Hv]. destruct (match mask with None => _ | Some m => prefix_number 128 m end) as [p|] eqn:Hp; [|done]. intros [= <-].
    assert (0 <= p <= 128)%Z as Hb by (destruct mask; [by eapply prefix_number_bound|by injection Hp as <-]). destruct a as [n|n zone]; [done|].
    pose proof (ip_int_bound _ Hok) as Hn. destruct (masked_facts 128 p n Hb Hn) as [Hm Hz]. unfold ip_ok in Hok. rewrite !andb_true_iff in Hok. destruct Hok as [_ Hzone].
    unfold network_ok, ip_ok. cbn [v6_network nw_address nw_prefix ip_int width]. rewrite !andb_true_iff, !Z.leb_le, Z.ltb_lt, Z.eqb_eq. split_and!; try done; try lia. by destruct (_ =? n)%Z.
Qed.

Lemma masked_all w n : masked w w n = n.
Proof. unfold masked. rewrite Z.sub_diag, Z.mod_1_r. lia. Qed.

(** [ip_network] of an address is the network of that address alone. *)
Definition host_network (a : Ip) : Network := mkNetwork a (width a).

Lemma host_network_reads a : ip_ok a = true -> ip_network (ip_str a) = Some (host_network a).
Proof.
  intros Hok. pose proof (ip_int_bound _ Hok) as Hn. unfold ip_network. rewrite split_on_none.
  - destruct a as [n|n zone]; cbn [ip_str mbind option_bind].
    + rewrite v4_reads_back by done. cbn [mbind option_bind]. by rewrite masked_all.
    + rewrite v6_not_v4 by done. cbn [mbind option_bind]. rewrite zoned_reads_back by done. cbn [mbind option_bind v6_network]. by rewrite masked_all, Z.eqb_refl.
  - apply ip_str_free; [done|done|apply (bool_decide_unpack _); vm_compute; exact I|]. destruct a as [n|n [z|]]; try done. unfold ip_ok, zone_ok in Hok. rewrite !andb_true_iff, !negb_true_iff in Hok. tauto.
Qed.

Lemma prefix_reads_back w p : (0 <= p <= w)%Z -> (w <= 128)%Z -> prefix_number w (pretty p) = Some p /\ plain (pretty p) = true.
Proof.
  intros Hp Hw. assert (forallb (fun p => bool_decide (int_of (pretty p) = Some p) && plain (pretty p)) (seqZ 0 129) = true) as H by (vm_compute; reflexivity).
  rewrite forallb_forall in H. specialize (H p). rewrite <- list_elem_of_In, elem_of_seqZ in H. specialize (H ltac:(lia)). apply andb_true_iff in H as [H ?]. apply bool_decide_eq_true in H.
  split; [|done]. unfold prefix_number. rewrite H. by destruct (Z.leb_spec p w); [|lia].
Qed.

Lemma masked_same w p n : (n mod 2 ^ (w - p) = 0)%Z -> masked w p n = n.
Proof. unfold masked. intros ->. lia. Qed.

(** A network written is read back. *)
Lemma network_reads_back nw : network_ok nw = true -> ip_network (network_str nw) = Some nw.
Proof.
  destruct nw as [a p]. unfold network_ok. cbn [nw_address nw_prefix]. rewrite !andb_true_iff, !Z.leb_le, Z.eqb_eq. intros (((Hok & Hp) & Hw) & Hlow). pose proof (ip_int_bound _ Hok) as Hn.
  assert (mem_char "/" (ip_str a) = false) as Hfree.
  { apply ip_str_free; [done|done|apply (bool_decide_unpack _); vm_compute; exact I|]. destruct a as [n|n [z|]]; try done. unfold ip_ok, zone_ok in Hok. rewrite !andb_true_iff, !negb_true_iff in Hok. tauto. }
  assert (width a <= 128)%Z as Hw128 by by destruct a. destruct (prefix_reads_back (width a) p) as [Hread Hplain]; [done..|].
  unfold ip_network, network_str. cbn [nw_address nw_prefix]. change ("/" +:+ pretty p) with (String "/" (pretty p)). rewrite split_on_app, split_on_none by (done || by apply (plain_free _ _ Hplain)).
  cbn [mbind option_bind]. destruct a as [n|n zone]; cbn [ip_str] in *; cbn [width ip_int] in *.
  - rewrite v4_reads_back by done. cbn [mbind option_bind]. unfold v4_prefix. rewrite Hread. cbn [mbind option_bind]. by rewrite masked_same.
  - rewrite v6_not_v4 by done. cbn [mbind option_bind]. rewrite zoned_reads_back by done. cbn [mbind option_bind]. rewrite Hread. cbn [mbind option_bind v6_network]. by rewrite masked_same, Z.eqb_refl.
Qed.
