(* ===== verification/Network.v ===== *)
(** Where a request came from, and whether that place may reach HQ ([core/network.py]), and what a
    narrower setting of it would be ([trusted_networks.py]).  [ProxyHeadersMiddleware] is uvicorn's:
    it resolves the caller's address, which is the text these read. *)
From stdpp Require Import base gmap strings list pretty sorting.
From Stdlib Require Import Ascii ZArith Lia.
From S2P Require Import Prelude PyStr IpAddress.

#[local] Open Scope string_scope.

(** [settings.SEVERINO_TRUSTED_NETWORKS], [..._PROXIES] and [SEVERINO_ENFORCE_TRUSTED_NETWORK]. *)
Record NetworkSettings : Type := mkNetworkSettings { trusted_networks : list string; trusted_proxy_entries : list string; enforce_trusted_network : bool }.

(** [env_list]: a setting's chunks, or its default. *)
Definition env_list (raw : string) (default_ : list string) : list string :=
  match List.filter (fun chunk => negb (bool_decide (chunk = ""))) (map strip (split_on "," raw)) with
  | [] => default_
  | items => items
  end.

(** [_networks]: an entry that is no network is left out. *)
Definition networks (cidrs : list string) : list Network := omap (fun cidr => ip_network (strip cidr)) cidrs.

Definition is_bracket (c : ascii) : bool := bool_decide (c = "["%char).
Definition is_colon (c : ascii) : bool := bool_decide (c = ":"%char).
Definition is_dot (c : ascii) : bool := bool_decide (c = "."%char).

(** [split_host_port] *)
Definition split_host_port (value : string) : string * string :=
  let candidate := strip value in
  if decide (candidate = "") then ("", "")
  else if startswith "[" candidate then
    let '(host, _, rest) := partition "]" candidate in (lstrip_by is_bracket host, lstrip_by is_colon rest)
  else if (count_char ":" candidate =? 1)%nat then
    let '(host, _, port) := rpartition ":" candidate in (host, port)
  else (candidate, "").

(** [strict_host] *)
Definition strict_host (value : string) : string :=
  let candidate := lower (strip value) in
  let '(_, closed, after) := partition "]" candidate in
  let malformed_bracket :=
    startswith "[" candidate &&
    (negb closed || (negb (bool_decide (after = "")) && negb (match after with String c digits => is_colon c && isdigit digits | "" => false end))) in
  if malformed_bracket then ""
  else
    let '(host, port) := split_host_port candidate in
    if negb (bool_decide (port = "")) && negb (isdigit port) then ""
    else if (count_char ":" candidate =? 1)%nat && bool_decide (port = "") then ""
    else rstrip_by is_dot host.

(** [is_address] *)
Definition is_address (text : string) : bool := match ip_address text with Some _ => true | None => false end.

(** [parse_ip] *)
Definition parse_ip (value : string) : option Ip :=
  let '(host, _) := split_host_port value in
  if decide (host = "") then None else ip_address host.

(** What [_within] is asked of: an address already read, or text. *)
Inductive Peer : Type := Address (a : Ip) | Text (s : string).

(** [_within] *)
Definition within_networks (value : Peer) (cidrs : list string) : bool :=
  match match value with Address a => Some a | Text s => parse_ip s end with
  | None => false
  | Some address => existsb (fun network => holds_address network address) (networks cidrs)
  end.

Section Trust.
Variable settings : NetworkSettings.

(** [is_trusted_proxy] *)
Definition is_trusted_proxy (value : Peer) : bool := within_networks value (trusted_proxy_entries settings).

(** [trusted_proxies()]: as uvicorn's middleware reads them. *)
Definition trusted_proxies : list string := map network_str (networks (trusted_proxy_entries settings)).

(** [is_trusted_address] *)
Definition is_trusted_address (address : string) : bool := within_networks (Text address) (trusted_networks settings).

(** [client_ip(request)] and [is_trusted_client]: the address uvicorn resolved, [None] where META has none. *)
Definition client_ip (remote_addr : option string) : string := strip (default "" remote_addr).
Definition is_trusted_client (remote_addr : option string) : bool := is_trusted_address (client_ip remote_addr).

(** What a gate answers: the application, or a refusal that names no range. *)
Inductive Gate : Type := Served | Forbidden.

(** [TrustedNetworkMiddleware.__call__] *)
Definition trusted_middleware (remote_addr : option string) : Gate :=
  if enforce_trusted_network settings && negb (is_trusted_client remote_addr) then Forbidden else Served.

(** [TrustedNetworkASGI.__call__], of a scope's type and the host of its client. *)
Definition trusted_asgi (scope_type : string) (client : option string) : Gate :=
  if bool_decide (scope_type = "http") && enforce_trusted_network settings && negb (is_trusted_address (default "" client)) then Forbidden else Served.
End Trust.

(** [socket_peer(request)]: the recorded peer, or the address judged. *)
Definition socket_peer (recorded remote_addr : option string) : string :=
  strip (str_or (default "" recorded) (default "" remote_addr)).

(** * Narrowing the trusted networks *)

(** [TAILNET] ([reach.py]). *)
Definition TAILNET : list Network := omap ip_network ["100.64.0.0/10"; "fd7a:115c:a1e0::/48"].

(** [_wide_trust] *)
Definition wide_trust (settings : NetworkSettings) : list Network :=
  List.filter (fun network => existsb (fun tailnet => (version (nw_address network) =? version (nw_address tailnet))%Z && supernet_of network tailnet) TAILNET)
    (omap (fun cidr => ip_network (strip cidr)) (trusted_networks settings)).

(** [_within_any]: [in] holds of one version alone. *)
Definition within_any (hosts : list Ip) (network : Network) : bool := existsb (fun host => holds_address network host) hosts.

(** [_within] of [trusted_networks.py] *)
Definition within_wide (address : string) (nws : list Network) : bool :=
  match parse_ip address with Some found => existsb (fun network => within_any [found] network) nws | None => false end.

(** [dict.fromkeys(items)]: each once, where it first comes. *)
Fixpoint once_each (seen items : list string) : list string :=
  match items with
  | [] => []
  | x :: rest => if decide (x ∈ seen) then once_each seen rest else x :: once_each (x :: seen) rest
  end.

(** [sorted(..., key=(version, address))], stable. *)
Definition ip_before (a b : Ip) : bool := (version a <? version b)%Z || ((version a =? version b)%Z && (ip_int a <? ip_int b)%Z).

Fixpoint insert_ip (a : Ip) (l : list Ip) : list Ip :=
  match l with
  | [] => [a]
  | b :: l' => if ip_before b a then b :: insert_ip a l' else a :: l
  end.

Definition sort_ips (l : list Ip) : list Ip := fold_right insert_ip [] l.

(** The entries kept: every one that is a network, but a wide one some device is in. *)
Definition kept_entries (settings : NetworkSettings) (wide : list Network) (hosts : list Ip) : list string :=
  omap (fun cidr => match ip_network (strip cidr) with
    | Some network => if negb (bool_decide (network ∈ wide)) || negb (within_any hosts network) then Some (strip cidr) else None
    | None => None end) (trusted_networks settings).

(** [narrowed]: nothing where an address is none, which [sorted] raises for. *)
Definition narrowed_value (settings : NetworkSettings) (wide : list Network) (addresses routes : list string) : option string :=
  hosts ← mapM parse_ip addresses;
  let hosts := sort_ips hosts in
  hosts_used ← mapM (fun host => network_str <$> ip_network (ip_str host)) hosts;
  Some (join "," (once_each [] (kept_entries settings wide hosts ++ hosts_used ++ sorted routes))).

(** An estate's node, as the rule reads it. *)
Record TrustNode : Type := mkTrustNode { tn_id : string; tn_kind : string; tn_facts : list (string * string) }.

Definition facts_of (key : string) (n : TrustNode) : list string := map snd (List.filter (fun kv => bool_decide (kv.1 = key)) (tn_facts n)).

(** A finding's fields: its rule and severity are constant. *)
Record WiderFinding : Type := mkWiderFinding { wf_subject : string; wf_title : string; wf_evidence : list (string * string); wf_command : option string }.

(** [wider_than_tailnet] *)
Definition wider_finding (settings : NetworkSettings) (wide : list Network) (n : TrustNode) : option WiderFinding :=
  if negb (bool_decide (tn_kind n = "connection")) || negb (bool_decide (facts_of "hq-admits-only-named" n = [])) then None
  else
    let addresses := List.filter (fun a => within_wide a wide) (facts_of "tailnet-address" n) in
    let routes := List.filter (fun r => negb (bool_decide (r = ""))) (facts_of "tailnet-route" n) in
    if decide (addresses = []) then None
    else
      let uses := counted (length addresses) "device address" "device addresses" in
      let uses := if decide (routes = []) then uses else uses +:+ " and " +:+ counted (length routes) "subnet route" "subnet routes" in
      Some (mkWiderFinding (tn_id n)
        ("HQ trusts all of " +:+ join ", " (map network_str wide) +:+ ", and the tailnet uses " +:+ uses)
        (map (fun nw => ("Trusted", network_str nw)) wide ++ map (fun a => ("Device address", a)) addresses ++ map (fun r => ("Subnet route", r)) routes)%list
        ((fun v => "SEVERINO_TRUSTED_NETWORKS=" +:+ v) <$> narrowed_value settings wide addresses routes)).

Definition wider_than_tailnet (settings : NetworkSettings) (nodes : list TrustNode) : list WiderFinding :=
  let wide := wide_trust settings in
  if decide (wide = []) then [] else order_by wf_title (omap (wider_finding settings wide) nodes).

(** * Endpoints that read back *)

Lemma lstrip_none (p : ascii -> bool) s : str_all (fun c => negb (p c)) s = true -> lstrip_by p s = s.
Proof. destruct s as [|c s]; [done|]. cbn. by destruct (p c). Qed.

Lemma rstrip_none (p : ascii -> bool) s : str_all (fun c => negb (p c)) s = true -> rstrip_by p s = s.
Proof. induction s as [|c s IH]; [done|]. cbn. rewrite andb_true_iff, negb_true_iff. intros [Hc Hs]. rewrite IH by done. destruct s; [by rewrite Hc|done]. Qed.

Lemma strip_none s : str_all (fun c => negb (is_space c)) s = true -> strip s = s.
Proof. intros H. unfold strip. by rewrite lstrip_none, rstrip_none. Qed.

Lemma free_all p s : (forall c, p c = true -> mem_char c s = false) -> str_all (fun c => negb (p c)) s = true.
Proof.
  induction s as [|d s IH]; intros H; [done|]. cbn. rewrite andb_true_iff, negb_true_iff. split.
  - destruct (p d) eqn:Hd; [|done]. specialize (H d Hd). by rewrite mem_char_here in H.
  - apply IH. intros c Hc. specialize (H c Hc). cbn in H. by case_decide.
Qed.

(** An address with no zone: what a proxy writes. *)
Definition no_zone (a : Ip) : bool := match a with V6 _ (Some _) => false | _ => true end.

Lemma space_not_hex c : is_space c = true -> is_hex c = false.
Proof.
  intros Hc. unfold is_hex, hex_value, is_space in *. rewrite !orb_true_iff, !andb_true_iff, !Nat.leb_le, !Nat.eqb_eq in Hc.
  destruct (Z.leb_spec 48 (Z.of_nat (code c))), (Z.leb_spec (Z.of_nat (code c)) 57), (Z.leb_spec 65 (Z.of_nat (code c))), (Z.leb_spec (Z.of_nat (code c)) 70), (Z.leb_spec 97 (Z.of_nat (code c))), (Z.leb_spec (Z.of_nat (code c)) 102); cbn; try done; lia.
Qed.

Lemma ip_str_spaceless a : ip_ok a = true -> no_zone a = true -> str_all (fun c => negb (is_space c)) (ip_str a) = true.
Proof.
  intros Hok Hz. apply free_all. intros c Hc. apply ip_str_free; [done|by apply space_not_hex| |by destruct a as [|? []]].
  intros Hin. assert (is_space ":" = false /\ is_space "." = false /\ is_space "%" = false) as (H1 & H2 & H3) by done. set_unfold in Hin. destruct Hin as [->|[->|[->|[]]]]; congruence.
Qed.

Lemma count_char_none c s : mem_char c s = false -> count_char c s = 0%nat.
Proof. induction s as [|d s IH]; [done|]. cbn. case_decide; [done|]. by apply IH. Qed.

Lemma count_char_app c x y : count_char c (x +:+ y) = (count_char c x + count_char c y)%nat.
Proof. induction x as [|d x IH]; [done|]. change (String d x +:+ y) with (String d (x +:+ y)). cbn. rewrite IH. lia. Qed.

Lemma count_char_join c (parts : list string) : (length parts - 1 <= count_char c (join (String c "") parts))%nat.
Proof.
  induction parts as [|x [|y parts] IH]; [cbn; lia..|]. rewrite join_app_sep, count_char_app. cbn [length count_char] in *. rewrite decide_True by done. lia.
Qed.

Lemma v6_colons n : (0 <= n < 2 ^ 128)%Z -> (2 <= count_char ":" (v6_bare n))%nat.
Proof.
  intros Hn. unfold v6_bare, v6_str. rewrite append_empty_r. destruct (Z.eqb_spec (n / 2 ^ 32) 65535) as [Hm|Hm].
  - rewrite Hm, !count_char_app. change (count_char ":" (v6_int_str 65535)) with 2%nat. lia.
  - unfold v6_int_str. destruct (compressed_value (hextets n)) as (_ & Hlen & _); [done|apply hextets_bound|].
    pose proof (count_char_join ":" (compress_hextets (map hextet_str (hextets n)))). lia.
Qed.

Lemma head_free s : mem_char "[" s = false -> startswith "[" s = false.
Proof.
  destruct s as [|c s]; [done|]. cbn [mem_char]. destruct (decide ("["%char = c)) as [|Hc]; [done|]. intros _. unfold startswith. cbn [String.prefix]. by destruct (Ascii.ascii_dec "[" c).
Qed.

Lemma head_bracket s : startswith "[" (String "[" s) = true.
Proof. unfold startswith. cbn. by destruct s. Qed.

Lemma ip_str_head a : ip_ok a = true -> no_zone a = true -> startswith "[" (ip_str a) = false.
Proof.
  intros Hok Hz. apply head_free, ip_str_free; [done|done|apply (bool_decide_unpack _); vm_compute; exact I|by destruct a as [|? []]].
Qed.

Lemma ip_str_shown a : ip_ok a = true -> ip_str a <> "".
Proof. intros Hok He. pose proof (ip_reads_back a Hok) as H. rewrite He in H. discriminate H. Qed.

(** The ways an endpoint is written: alone, with a port, or an IPv6 address in brackets. *)
Inductive endpoint : Ip -> string -> Prop :=
| endpoint_bare a : endpoint a (ip_str a)
| endpoint_port n port : isdigit port = true -> endpoint (V4 n) (v4_str n +:+ ":" +:+ port)
| endpoint_bracket n : endpoint (V6 n None) ("[" +:+ v6_str n None +:+ "]")
| endpoint_bracket_port n port : isdigit port = true -> endpoint (V6 n None) ("[" +:+ v6_str n None +:+ "]:" +:+ port).

Lemma digits_free p s : isdigit s = true -> (forall c, p c = true -> is_digit c = false) -> str_all (fun c => negb (p c)) s = true.
Proof.
  intros Hs Hp. assert (str_all is_digit s = true) as Hd by by destruct s. clear Hs. induction s as [|c s IH]; [done|]. cbn in *. apply andb_true_iff in Hd as [Hc Hd].
  rewrite IH, andb_true_r by done. apply negb_true_iff. destruct (p c) eqn:H; [|done]. by rewrite Hp in Hc.
Qed.

Lemma space_not_digit c : is_space c = true -> is_digit c = false.
Proof.
  unfold is_space, is_digit. rewrite !orb_true_iff, !andb_true_iff, !Nat.leb_le, !Nat.eqb_eq. intros H. rewrite !orb_false_iff, !andb_false_iff, !Nat.leb_gt, !Nat.eqb_neq. lia.
Qed.

Lemma all_free c s : str_all (fun d => negb (bool_decide (d = c))) s = true -> mem_char c s = false.
Proof. induction s as [|d s IH]; [done|]. cbn. rewrite andb_true_iff, negb_true_iff, bool_decide_eq_false. intros [Hd Hs]. rewrite decide_False by congruence. by apply IH. Qed.

Lemma digits_lack c s : isdigit s = true -> is_digit c = false -> mem_char c s = false.
Proof. intros Hs Hc. apply all_free, digits_free; [done|]. intros d Hd. apply bool_decide_eq_true in Hd. by subst. Qed.

(** A bracketed address, whatever follows the bracket. *)
Lemma bracket_split n rest : (0 <= n < 2 ^ 128)%Z -> str_all (fun c => negb (is_space c)) rest = true ->
  split_host_port ("[" +:+ v6_str n None +:+ String "]" rest) = (v6_str n None, lstrip_by is_colon rest).
Proof.
  intros Hn Hrest. assert (ip_ok (V6 n None) = true) as Hok by (unfold ip_ok; cbn [ip_int width]; by rewrite (proj2 (Z.leb_le _ _)), (proj2 (Z.ltb_lt _ _)) by lia).
  destruct (v6_bare_facts n Hn) as (_ & _ & Hfree). unfold split_host_port.
  rewrite strip_none by (rewrite !str_all_app; pose proof (ip_str_spaceless (V6 n None) Hok eq_refl) as H; cbn [ip_str] in H; rewrite H; exact Hrest).
  change ("[" +:+ ?x) with (String "[" x). rewrite decide_False by done. rewrite head_bracket.
  change (String "[" (v6_str n None +:+ String "]" rest)) with (String "[" (v6_bare n) +:+ String "]" rest). rewrite partition_join by (cbn [mem_char]; rewrite decide_False by done; by apply Hfree).
  f_equal. cbn [lstrip_by]. change (is_bracket "[") with true. cbv iota. apply lstrip_none, free_all. intros c Hc. apply bool_decide_eq_true in Hc. subst c. by apply Hfree.
Qed.

(** An address written alone, with a port or in brackets is read back as itself: no hop is taken for
    another by how a proxy or a daemon wrote it. *)
Theorem endpoint_reads_back (a : Ip) (s : string) : ip_ok a = true -> no_zone a = true -> endpoint a s -> parse_ip s = Some a.
Proof.
  intros Hok Hz Hend. pose proof (ip_int_bound _ Hok) as Hn. unfold parse_ip. assert ((if decide (ip_str a = "") then None else ip_address (ip_str a)) = Some a) as Hread by (rewrite decide_False by (by apply ip_str_shown); by apply ip_reads_back).
  destruct Hend as [a|n port Hport|n|n port Hport].
  - assert (split_host_port (ip_str a) = (ip_str a, "")) as ->; [|exact Hread]. unfold split_host_port. rewrite strip_none by by apply ip_str_spaceless.
    rewrite decide_False by by apply ip_str_shown. rewrite ip_str_head by done. assert (count_char ":" (ip_str a) <> 1%nat) as Hc.
    { destruct a as [n|n [z|]]; cbn [ip_str] in *; [by rewrite count_char_none by by apply v4_str_free|done|]. pose proof (v6_colons n Hn) as H. unfold v6_bare in H. lia. }
    apply Nat.eqb_neq in Hc. by rewrite Hc.
  - assert (split_host_port (v4_str n +:+ ":" +:+ port) = (v4_str n, port)) as ->; [|exact Hread]. unfold split_host_port.
    rewrite strip_none by (rewrite !str_all_app; pose proof (ip_str_spaceless (V4 n) Hok eq_refl) as H; cbn [ip_str] in H; rewrite H; cbn; apply digits_free; [done|apply space_not_digit]).
    assert (v4_str n +:+ ":" +:+ port <> "") as Hne by (pose proof (ip_str_shown _ Hok) as Hne; cbn [ip_str] in Hne; by destruct (v4_str n)). rewrite decide_False by done.
    rewrite head_free by (rewrite !mem_char_app, v4_str_free by done; cbn; by apply digits_lack).
    rewrite !count_char_app, (count_char_none ":" (v4_str n)) by by apply v4_str_free. rewrite (count_char_none ":" port) by by apply digits_lack. cbn [count_char Nat.add Nat.eqb]. rewrite decide_True by done. cbn [Nat.add Nat.eqb].
    change (v4_str n +:+ ":" +:+ port) with (v4_str n +:+ String ":" port). rewrite rpartition_join by by apply digits_lack. done.
  - change ("[" +:+ v6_str n None +:+ "]") with ("[" +:+ v6_str n None +:+ String "]" ""). rewrite bracket_split by done. exact Hread.
  - change ("]:" +:+ port) with (String "]" (String ":" port)). rewrite bracket_split; [exact Hread|done|]. cbn. apply digits_free; [done|apply space_not_digit].
Qed.

(** * Who is let in *)

(** An address lies in a network an entry names. *)
Definition names_range (entries : list string) (a : Ip) : Prop :=
  exists entry nw, entry ∈ entries /\ ip_network (strip entry) = Some nw /\ version a = version (nw_address nw) /\ (ip_int (nw_address nw) <= ip_int a <= broadcast nw)%Z.

Lemma elem_networks entries nw : nw ∈ networks entries <-> exists entry, entry ∈ entries /\ ip_network (strip entry) = Some nw.
Proof. apply list_elem_of_omap. Qed.

Lemma within_networks_spec value entries a : match value with Address a => Some a | Text s => parse_ip s end = Some a ->
  within_networks value entries = true <-> exists nw, nw ∈ networks entries /\ holds_address nw a = true.
Proof.
  intros Ha. unfold within_networks. rewrite Ha, existsb_exists. split; intros (nw & Hin & Hh); exists nw; by rewrite list_elem_of_In in *.
Qed.

Lemma within_networks_range value entries a : match value with Address a => Some a | Text s => parse_ip s end = Some a ->
  within_networks value entries = true <-> names_range entries a.
Proof.
  intros Ha. rewrite (within_networks_spec _ _ _ Ha). unfold names_range. split.
  - intros (nw & Hin & Hh). apply elem_networks in Hin as (entry & Hin & Hr). exists entry, nw. rewrite holds_range in Hh by by eapply ip_network_ok. tauto.
  - intros (entry & nw & Hin & Hr & Hv & Hb). exists nw. rewrite elem_networks, holds_range by by eapply ip_network_ok. split; [by exists entry|done].
Qed.

(** A request is served exactly when the gate is off or its address reads as one in the range of a
    trusted network, at the middleware and beside Django alike: text that is no address is outside,
    and an entry that is no network lets nobody in. *)
Theorem served_from_trusted_ranges (settings : NetworkSettings) (remote_addr : option string) :
  (trusted_middleware settings remote_addr = Served <->
    enforce_trusted_network settings = false \/ exists a, parse_ip (client_ip remote_addr) = Some a /\ names_range (trusted_networks settings) a) /\
  (forall scope_type, trusted_asgi settings scope_type remote_addr = Served <->
    scope_type <> "http" \/ enforce_trusted_network settings = false \/ exists a, parse_ip (default "" remote_addr) = Some a /\ names_range (trusted_networks settings) a).
Proof.
  assert (forall s, is_trusted_address settings s = true <-> exists a, parse_ip s = Some a /\ names_range (trusted_networks settings) a) as Htrust.
  { intros s. unfold is_trusted_address. split.
    - intros Hw. destruct (parse_ip s) as [a|] eqn:Ha; [|unfold within_networks in Hw; by rewrite Ha in Hw]. exists a. split; [done|]. by apply (within_networks_range (Text s) _ a).
    - intros (a & Ha & Hr). by apply (within_networks_range (Text s) _ a). }
  split; [|intros scope_type]; rewrite <- Htrust.
  - unfold trusted_middleware, is_trusted_client. destruct (enforce_trusted_network settings); cbn; [|split; [intros _; by left|done]]. destruct (is_trusted_address _ _); cbn; intuition done.
  - unfold trusted_asgi. case_bool_decide as Hh; cbn; [|split; [intros _; by left|done]]. destruct (enforce_trusted_network settings); cbn; [|split; [intros _; by right; left|done]]. destruct (is_trusted_address _ _); cbn; intuition done.
Qed.

Lemma rstrip_app p x y : rstrip_by p y <> "" -> rstrip_by p (x +:+ y) = x +:+ rstrip_by p y.
Proof.
  intros Hy. induction x as [|c x IH]; [done|]. change (String c x +:+ y) with (String c (x +:+ y)). cbn [rstrip_by]. rewrite IH.
  change (String c x +:+ rstrip_by p y) with (String c (x +:+ rstrip_by p y)). destruct (x +:+ rstrip_by p y) eqn:He; [|done]. destruct x; [by cbn in He|done].
Qed.

Lemma strip_between x m y : x <> "" -> y <> "" -> str_all (fun c => negb (is_space c)) x = true -> str_all (fun c => negb (is_space c)) y = true -> strip (x +:+ m +:+ y) = x +:+ m +:+ y.
Proof.
  intros Hx Hy Hsx Hsy. unfold strip. assert (lstrip_by is_space (x +:+ m +:+ y) = x +:+ m +:+ y) as ->.
  { destruct x as [|c x]; [done|]. change (String c x +:+ ?z) with (String c (x +:+ z)). cbn in *. by destruct (is_space c). }
  assert (rstrip_by is_space y = y) as Hr by by apply rstrip_none. assert (rstrip_by is_space (m +:+ y) = m +:+ y) as Hm by (rewrite rstrip_app; congruence).
  rewrite rstrip_app; [congruence|]. rewrite Hm. intros He. apply Hy. by destruct m.
Qed.

Lemma network_str_stripped nw : network_ok nw = true -> strip (network_str nw) = network_str nw.
Proof.
  destruct nw as [a p]. unfold network_ok, network_str. cbn [nw_address nw_prefix]. rewrite !andb_true_iff, !Z.leb_le. intros (((Hok & Hp) & Hw) & _).
  destruct (prefix_reads_back (width a) p) as [Hr Hplain]; [done|by destruct a|].
  assert (str_all (fun c => negb (is_space c)) (pretty p) = true) as Hsp.
  { apply free_all. intros c Hc. apply (plain_free _ _ Hplain). by apply space_not_hex. }
  assert (pretty p <> "") as Hne by (intros He; by rewrite He in Hr). pose proof (ip_int_bound _ Hok) as Hn.
  destruct a as [n|n zone]; cbn [ip_str].
  - apply strip_between; [by apply (ip_str_shown (V4 n))|done|by apply (ip_str_spaceless (V4 n))|done].
  - assert (ip_ok (V6 n None) = true) as Hok' by (unfold ip_ok in *; rewrite !andb_true_iff in *; tauto).
    rewrite v6_str_bare. assert (forall z, (v6_bare n +:+ z) +:+ "/" +:+ pretty p = v6_bare n +:+ (z +:+ "/") +:+ pretty p) as Happ.
    { intros z. generalize (v6_bare n). intros x. induction x as [|c x IH]; [|change (String c (((x +:+ z) +:+ "/" +:+ pretty p)) = String c (x +:+ (z +:+ "/") +:+ pretty p)); by rewrite IH].
      change ("" +:+ ?w) with w. induction z as [|c z IH]; [done|]. change (String c (z +:+ "/" +:+ pretty p) = String c ((z +:+ "/") +:+ pretty p)). by rewrite IH. }
    rewrite Happ. apply strip_between; [by apply (ip_str_shown (V6 n None))|done|by apply (ip_str_spaceless (V6 n None))|done].
Qed.

Lemma networks_str (nws : list Network) : Forall (fun nw => network_ok nw = true) nws -> networks (map network_str nws) = nws.
Proof.
  unfold networks. intros H. induction H as [|nw nws Hnw _ IH]; [done|]. cbn [map omap list_omap]. rewrite network_str_stripped, network_reads_back by done. by rewrite IH.
Qed.

(** What uvicorn is handed are the networks HQ itself reads. *)
Theorem trusted_proxies_read_back (settings : NetworkSettings) : networks (trusted_proxies settings) = networks (trusted_proxy_entries settings).
Proof. apply networks_str, Forall_forall. intros nw Hnw. apply elem_networks in Hnw as (? & _ & ?). by eapply ip_network_ok. Qed.

(** * Narrowing *)

Lemma sort_ips_perm l : sort_ips l ≡ₚ l.
Proof.
  assert (forall a l, insert_ip a l ≡ₚ a :: l) as Hins.
  { intros a. induction l0 as [|b l' IH]; [done|]. cbn. destruct (ip_before b a); [|done]. rewrite IH. by constructor. }
  induction l as [|a l IH]; [done|]. cbn. by rewrite Hins, IH.
Qed.

Lemma elem_once_each items : forall seen x, x ∈ once_each seen items <-> x ∈ items /\ x ∉ seen.
Proof.
  induction items as [|y items IH]; intros seen x; cbn; [set_solver|]. case_decide as Hy; rewrite ?elem_of_cons, IH; [set_solver|]. destruct (decide (x = y)); set_solver.
Qed.

Lemma rstrip_idem p s : rstrip_by p (rstrip_by p s) = rstrip_by p s.
Proof.
  induction s as [|c s IH]; [done|]. cbn. destruct (rstrip_by p s) as [|d t] eqn:Hr.
  - destruct (p c) eqn:Hc; [done|]. cbn. by rewrite Hc.
  - cbn [rstrip_by] in IH |- *. by rewrite IH.
Qed.

Lemma strip_strip s : strip (strip s) = strip s.
Proof.
  unfold strip. assert (forall s, lstrip_by is_space s = "" \/ exists c r, lstrip_by is_space s = String c r /\ is_space c = false) as Hl.
  { clear. induction s as [|c s IH]; [by left|]. cbn. destruct (is_space c) eqn:Hc; [done|]. right. by eexists _, _. }
  destruct (Hl s) as [->|(c & r & -> & Hc)]; [done|]. assert (lstrip_by is_space (rstrip_by is_space (String c r)) = rstrip_by is_space (String c r)) as ->; [|apply rstrip_idem].
  cbn. destruct (rstrip_by is_space r); [by rewrite Hc; cbn; rewrite Hc|]. cbn. by rewrite Hc.
Qed.

Lemma env_list_join (items : list string) default_ :
  items <> [] -> Forall (fun x => x <> "" /\ strip x = x /\ mem_char "," x = false) items -> env_list (join "," items) default_ = items.
Proof.
  intros Hne Hall. unfold env_list. rewrite split_join; [|done|by eapply Forall_impl; [exact Hall|intros x (_ & _ & ?)]].
  assert (List.filter (fun chunk => negb (bool_decide (chunk = ""))) (map strip items) = items) as ->; [|by destruct items].
  clear Hne. induction Hall as [|x items (Hx & Hs & _) _ IH]; [done|]. cbn [map List.filter]. rewrite Hs, bool_decide_eq_false_2 by done. cbn [negb]. by rewrite IH.
Qed.

Lemma ip_network_shown s nw : ip_network s = Some nw -> s <> "".
Proof. intros H ->. discriminate H. Qed.

Section Narrowing.
Variables (settings : NetworkSettings) (addresses routes : list string).
Hypothesis entries_ok : Forall (fun entry => mem_char "," entry = false) (trusted_networks settings).
Hypothesis addresses_ok : Forall (fun a => within_wide a (wide_trust settings) = true /\ exists ip, parse_ip a = Some ip /\ no_zone ip = true) addresses.
Hypothesis routes_ok : Forall (fun r => r <> "" /\ strip r = r /\ mem_char "," r = false) routes.
Hypothesis some_address : addresses <> [].

Notation wide := (wide_trust settings).

(** What a narrower setting holds. *)
Definition used_entries (hosts : list Ip) : list string :=
  once_each [] (kept_entries settings wide hosts ++ map (fun h => network_str (host_network h)) hosts ++ sorted routes).

Lemma wide_is_trusted nw : nw ∈ wide -> nw ∈ networks (trusted_networks settings).
Proof. unfold wide_trust. rewrite list_elem_of_In, List.filter_In, <- list_elem_of_In. by intros [? _]. Qed.

Lemma parse_ip_ok s a : parse_ip s = Some a -> ip_ok a = true.
Proof. unfold parse_ip. destruct (split_host_port s) as [host port]. case_decide; [done|]. apply ip_address_ok. Qed.

Lemma narrowed_entries : exists hosts, mapM parse_ip addresses = Some hosts /\ Forall (fun h => ip_ok h = true /\ no_zone h = true) hosts /\
  narrowed_value settings wide addresses routes = Some (join "," (used_entries (sort_ips hosts))).
Proof.
  assert (exists hosts, mapM parse_ip addresses = Some hosts) as [hosts Hh].
  { apply mapM_is_Some. eapply Forall_impl; [exact addresses_ok|]. intros a (_ & ip & Hp & _). by exists ip. }
  exists hosts. assert (Forall (fun h => ip_ok h = true /\ no_zone h = true) hosts) as Hall.
  { apply mapM_Some in Hh. clear -Hh addresses_ok. induction Hh as [|a h addresses hosts Ha _ IH]; [done|]. inversion_clear addresses_ok as [|? ? (_ & ip & Hp & Hz) Hrest]. rewrite Ha in Hp. injection Hp as <-.
    constructor; [split; [by eapply parse_ip_ok|done]|by apply IH]. }
  split_and!; [done|done|]. unfold narrowed_value. rewrite Hh. cbn [mbind option_bind].
  assert (mapM (fun host => network_str <$> ip_network (ip_str host)) (sort_ips hosts) = Some (map (fun h => network_str (host_network h)) (sort_ips hosts))) as ->; [|done].
  apply mapM_Some, Forall2_fmap_r, Forall_Forall2_diag, Forall_forall. intros h Hin. rewrite sort_ips_perm in Hin. eapply Forall_forall in Hall as [Hok _]; [|exact Hin]. by rewrite host_network_reads.
Qed.

Lemma host_free h : ip_ok h = true -> no_zone h = true -> mem_char "," (network_str (host_network h)) = false.
Proof.
  intros Hok Hz. unfold network_str. cbn [nw_address nw_prefix host_network]. rewrite !mem_char_app. rewrite ip_str_free; [by destruct h|done|done|apply (bool_decide_unpack _); vm_compute; exact I|by destruct h as [|? []]].
Qed.

Lemma host_network_ok h : ip_ok h = true -> network_ok (host_network h) = true.
Proof. intros Hok. unfold network_ok, host_network. cbn [nw_address nw_prefix]. rewrite Hok, Z.sub_diag, Z.mod_1_r. by destruct h. Qed.

Lemma elem_used hosts x : x ∈ used_entries hosts <-> x ∈ kept_entries settings wide hosts \/ (exists h, h ∈ hosts /\ x = network_str (host_network h)) \/ x ∈ routes.
Proof.
  unfold used_entries. rewrite elem_once_each, !elem_of_app, sorted_perm, list_elem_of_fmap. split.
  - intros [[?|[(h & -> & ?)|?]] _]; [by left|right; left; by exists h|by right; right].
  - intros H. split; [|by intros ?%elem_of_nil]. destruct H as [?|[(h & ? & ->)|?]]; [by left|right; left; by exists h|by right; right].
Qed.

Lemma elem_kept hosts x : x ∈ kept_entries settings wide hosts <->
  exists entry nw, entry ∈ trusted_networks settings /\ x = strip entry /\ ip_network (strip entry) = Some nw /\ (nw ∉ wide \/ within_any hosts nw = false).
Proof.
  unfold kept_entries. rewrite list_elem_of_omap. split.
  - intros (entry & Hin & He). destruct (ip_network (strip entry)) as [nw|] eqn:Hn; [|done]. exists entry, nw. case_bool_decide as Hw; cbn in He.
    + destruct (within_any hosts nw) eqn:Ha; [done|]. injection He as <-. by split_and!; [| | |right].
    + injection He as <-. by split_and!; [| | |left].
  - intros (entry & nw & Hin & -> & Hn & Hor). exists entry. split; [done|]. rewrite Hn. destruct Hor as [Hw| ->]; [by rewrite bool_decide_eq_false_2|by rewrite orb_true_r].
Qed.

Lemma free_strip c s : mem_char c s = false -> mem_char c (strip s) = false.
Proof.
  intros H. unfold strip. assert (mem_char c (lstrip_by is_space s) = false) as Hl.
  { induction s as [|d s IH]; [done|]. cbn in *. case_decide; [done|]. destruct (is_space d); [by apply IH|]. cbn. by rewrite decide_False. }
  revert Hl. generalize (lstrip_by is_space s). clear. intros s. induction s as [|d s IH]; [done|]. cbn. case_decide; [done|]. intros Hs. specialize (IH Hs).
  destruct (rstrip_by is_space s) as [|e t]; [destruct (is_space d); [done|]; cbn; by rewrite decide_False|]. cbn in *. by rewrite decide_False.
Qed.

Lemma used_ok hosts : Forall (fun h => ip_ok h = true /\ no_zone h = true) hosts -> Forall (fun x => x <> "" /\ strip x = x /\ mem_char "," x = false) (used_entries hosts).
Proof.
  intros Hall. apply Forall_forall. intros x Hx. apply elem_used in Hx as [Hx|[(h & Hh & ->)|Hx]].
  - apply elem_kept in Hx as (entry & nw & Hin & -> & Hn & _). split_and!; [by eapply ip_network_shown|apply strip_strip|]. apply free_strip. by eapply Forall_forall in entries_ok.
  - eapply Forall_forall in Hall as [Hok Hz]; [|exact Hh]. split_and!; [|by apply network_str_stripped, host_network_ok|by apply host_free].
    eapply ip_network_shown. apply network_reads_back. by apply host_network_ok.
  - by eapply Forall_forall in routes_ok.
Qed.

Lemma same_place h a nw : holds_address (host_network h) a = true -> holds_address nw h = true -> holds_address nw a = true.
Proof.
  unfold holds_address, host_network. cbn [nw_address nw_prefix]. rewrite !andb_true_iff, !Z.eqb_eq. intros [Hv Hi]. assert (width a = width h) as Hw by by destruct a, h. rewrite Hw, masked_all in Hi. rewrite Hw. rewrite Hv, Hi. done.
Qed.

Lemma device_trusted a h : a ∈ addresses -> parse_ip a = Some h -> exists nw, nw ∈ networks (trusted_networks settings) /\ holds_address nw h = true.
Proof.
  intros Ha Hh. eapply Forall_forall in addresses_ok as [Hw _]; [|exact Ha]. unfold within_wide in Hw. rewrite Hh in Hw. apply existsb_exists in Hw as (nw & Hin & Hn). exists nw.
  unfold within_any in Hn. cbn in Hn. rewrite orb_false_r in Hn. split; [|done]. by apply wide_is_trusted, list_elem_of_In.
Qed.

(** The setting the finding proposes, as the process reads it. *)
Definition narrowed_settings (v : string) : NetworkSettings :=
  mkNetworkSettings (env_list v []) (trusted_proxy_entries settings) (enforce_trusted_network settings).

Lemma narrowed_trusts hosts : hosts <> [] -> Forall (fun h => ip_ok h = true /\ no_zone h = true) hosts -> forall s a, parse_ip s = Some a ->
  is_trusted_address (narrowed_settings (join "," (used_entries hosts))) s = true <-> exists x nw, x ∈ used_entries hosts /\ ip_network x = Some nw /\ holds_address nw a = true.
Proof.
  intros Hne Hall s a Ha. pose proof (used_ok hosts Hall) as Hok. unfold is_trusted_address. rewrite (within_networks_spec (Text s) _ a Ha). cbn [trusted_networks narrowed_settings].
  rewrite env_list_join; [|destruct hosts as [|h hosts]; [done|]|done]. 
  2: { intros He. assert (network_str (host_network h) ∈ used_entries (h :: hosts)) as Hin by (apply elem_used; right; left; exists h; split; [by left|done]). rewrite He in Hin. by apply elem_of_nil in Hin. }
  split.
  - intros (nw & Hin & Hn). apply elem_networks in Hin as (x & Hx & Hr). eapply Forall_forall in Hok as (_ & Hs & _); [|exact Hx]. rewrite Hs in Hr. by exists x, nw.
  - intros (x & nw & Hx & Hr & Hn). exists nw. rewrite elem_networks. split; [|done]. exists x. eapply Forall_forall in Hok as (_ & Hs & _); [|exact Hx]. by rewrite Hs.
Qed.

(** The narrower setting a finding proposes still trusts every device address it was read from, trusts
    nothing that was not trusted before but the subnet routes it names, and keeps every network that
    is no whole tailnet range. *)
Theorem narrowing_widens_nothing : exists v, narrowed_value settings wide addresses routes = Some v /\
  (forall a, a ∈ addresses -> is_trusted_address (narrowed_settings v) a = true) /\
  (forall s, is_trusted_address (narrowed_settings v) s = true -> is_trusted_address settings s = true \/
    exists r nw a, r ∈ routes /\ ip_network r = Some nw /\ parse_ip s = Some a /\ holds_address nw a = true) /\
  (forall s a nw, nw ∈ networks (trusted_networks settings) -> nw ∉ wide -> parse_ip s = Some a -> holds_address nw a = true -> is_trusted_address (narrowed_settings v) s = true).
Proof.
  destruct narrowed_entries as (hosts & Hh & Hall & ->). eexists. split; [done|]. apply mapM_Some in Hh.
  assert (Forall (fun h => ip_ok h = true /\ no_zone h = true) (sort_ips hosts)) as Hall' by by rewrite sort_ips_perm.
  assert (sort_ips hosts <> []) as Hne by (intros He; pose proof (sort_ips_perm hosts) as Hp; rewrite He in Hp; apply Permutation_nil_l in Hp; subst; by inversion Hh; subst).
  pose proof (narrowed_trusts (sort_ips hosts) Hne Hall') as Htrust. split_and!.
  - intros a Ha. apply list_elem_of_lookup in Ha as [i Hi]. destruct (Forall2_lookup_l _ _ _ _ _ Hh Hi) as (h & Hl & Hp). apply list_elem_of_lookup_2 in Hl. rewrite (Htrust a h Hp).
    exists (network_str (host_network h)), (host_network h). eapply Forall_forall in Hall as [Hok _]; [|exact Hl]. split_and!; [|by apply network_reads_back, host_network_ok|].
    + apply elem_used. right. left. exists h. by rewrite sort_ips_perm.
    + unfold holds_address, host_network. cbn [nw_address nw_prefix]. by rewrite masked_all, !Z.eqb_refl.
  - intros s Hs. destruct (parse_ip s) as [a|] eqn:Ha; [|exfalso; revert Hs; unfold is_trusted_address, within_networks; by rewrite Ha]. destruct (proj1 (Htrust s a Ha) Hs) as (x & nw & Hx & Hr & Hn).
    unfold is_trusted_address. rewrite (within_networks_spec (Text s) _ a Ha). apply elem_used in Hx as [Hx|[(h & Hin & ->)|Hx]]; [left|left|right; by exists x, nw, a].
    + apply elem_kept in Hx as (entry & nw' & He & -> & Hr' & _). exists nw. split; [|done]. apply elem_networks. by exists entry.
    + rewrite sort_ips_perm in Hin. eapply Forall_forall in Hall as [Hok _]; [|exact Hin]. rewrite network_reads_back in Hr by by apply host_network_ok. injection Hr as <-.
      apply list_elem_of_lookup in Hin as [i Hi]. destruct (Forall2_lookup_r _ _ _ _ _ Hh Hi) as (addr & Hl & Hp). apply list_elem_of_lookup_2 in Hl.
      destruct (device_trusted addr h Hl Hp) as (nw & Hnw & Hholds). exists nw. split; [done|]. by eapply same_place.
  - intros s a nw Hnw Hw Ha Hn. rewrite (Htrust s a Ha). apply elem_networks in Hnw as (entry & He & Hr). exists (strip entry), nw. split_and!; [|done|done]. apply elem_used. left. apply elem_kept. exists entry, nw. split_and!; try done. by left.
Qed.
End Narrowing.

(** * Host headers *)

Lemma space_lower c : is_space (lower_char c) = is_space c.
Proof. by destruct c as [[] [] [] [] [] [] [] []]. Qed.

Lemma strip_lower s : strip (lower s) = lower (strip s).
Proof.
  assert (forall s, lstrip_by is_space (lower s) = lower (lstrip_by is_space s)) as Hl by (clear; induction s as [|c s IH]; [done|]; cbn; rewrite space_lower; by destruct (is_space c)).
  assert (forall s, rstrip_by is_space (lower s) = lower (rstrip_by is_space s)) as Hr.
  { clear. induction s as [|c s IH]; [done|]. cbn. rewrite IH, space_lower. destruct (rstrip_by is_space s); [by destruct (is_space c)|done]. }
  unfold strip. by rewrite Hl, Hr.
Qed.

(** How a Host header names a host: alone, with a port, in brackets, or in brackets with a port. *)
Inductive names_host : string -> string -> Prop :=
| host_alone c : startswith "[" c = false -> count_char ":" c <> 1%nat -> names_host c c
| host_port host port : startswith "[" host = false -> mem_char ":" host = false -> isdigit port = true -> names_host (host +:+ String ":" port) host
| host_bracket inner : mem_char "]" inner = false -> count_char ":" inner <> 1%nat -> names_host (String "[" inner +:+ "]") (lstrip_by is_bracket inner)
| host_bracket_port inner port : mem_char "]" inner = false -> isdigit port = true -> names_host (String "[" inner +:+ String "]" (String ":" port)) (lstrip_by is_bracket inner).

Lemma partition_spec c s : match partition c s with (b, true, a) => s = b +:+ String c a /\ mem_char c b = false | (b, false, a) => b = s /\ a = "" /\ mem_char c s = false end.
Proof.
  destruct (partition c s) as [[b []] a] eqn:Hp; [by apply partition_found|]. revert b a Hp. induction s as [|d s IH]; intros b a; cbn; [by intros [= <- <-]|].
  case_decide; [done|]. destruct (partition c s) as [[b' f'] a'] eqn:Hq. intros [= <- -> <-]. by destruct (IH _ _ eq_refl) as (-> & -> & ->).
Qed.

Lemma starts_bracket s : startswith "[" s = true -> exists r, s = String "[" r.
Proof. destruct s as [|c s]; [done|]. unfold startswith. cbn [String.prefix]. destruct (Ascii.ascii_dec "[" c) as [<-|]; [intros _; by exists s|done]. Qed.

Lemma count_one c s : count_char c s = 1%nat -> exists x y, s = x +:+ String c y /\ mem_char c x = false /\ mem_char c y = false.
Proof.
  intros H. pose proof (partition_spec c s) as Hp. destruct (partition c s) as [[x []] y]; [|destruct Hp as (_ & _ & Hp); apply count_char_none in Hp; lia].
  destruct Hp as [-> Hx]. exists x, y. split_and!; [done|done|]. rewrite count_char_app, count_char_none in H by done. cbn in H. rewrite decide_True in H by done.
  destruct (mem_char c y) eqn:Hy; [|done]. exfalso. assert (count_char c y = 0%nat) as Hz by lia. clear -Hy Hz. induction y as [|d y IH]; [done|]. cbn in *. case_decide; [done|by apply IH].
Qed.

Lemma digits_port port : isdigit port = true -> port <> "" /\ lstrip_by is_colon port = port /\ mem_char ":" port = false.
Proof. intros H. split_and!; [by intros ->|apply lstrip_none, digits_free; [done|]; intros c Hc; apply bool_decide_eq_true in Hc; by subst|by apply digits_lack]. Qed.

Lemma head_bracket_app x y : startswith "[" (String "[" x +:+ y) = true.
Proof. exact (head_bracket (x +:+ y)). Qed.

Lemma strict_names value host : names_host (lower (strip value)) host -> strict_host value = rstrip_by is_dot host.
Proof.
  intros Hn. unfold strict_host, split_host_port. rewrite strip_lower, strip_strip. inversion Hn as [c Hb Hc|h port Hb Hm Hp|inner Hm Hc|inner port Hm Hp]; subst; clear Hn.
  - rewrite Hb. destruct (partition "]" _) as [[? ?] ?]. cbn [andb]. case_decide as He; [by rewrite He|]. apply Nat.eqb_neq in Hc. rewrite Hc. cbn. done.
  - destruct (digits_port port Hp) as (Hne & _ & Hfree). assert (startswith "[" (host +:+ String ":" port) = false) as Hb'.
    { destruct host as [|d host]; [done|]. destruct (startswith "[" (String d host +:+ String ":" port)) eqn:Hs; [|done]. apply starts_bracket in Hs as [r Hr]. change (String d host +:+ ?x) with (String d (host +:+ x)) in Hr. injection Hr as -> _. by rewrite head_bracket in Hb. }
    rewrite Hb'. destruct (partition "]" _) as [[? ?] ?]. cbn [andb]. rewrite decide_False by by destruct host. rewrite count_char_app, count_char_none by done. cbn [count_char]. rewrite decide_True, count_char_none by done. cbn [Nat.add Nat.eqb].
    rewrite rpartition_join by done. rewrite Hp, bool_decide_eq_false_2 by done. done.
  - change (String "[" inner +:+ "]") with (String "[" inner +:+ String "]" "") in *. rewrite head_bracket_app, partition_join by (cbn; exact Hm). cbn [negb orb andb]. rewrite bool_decide_eq_true_2 by done. cbn [negb orb andb].
    rewrite decide_False by done. cbn [lstrip_by]. change (is_bracket "[") with true. cbv iota. rewrite bool_decide_eq_true_2 by done. cbn [negb andb].
    rewrite count_char_app. cbn [count_char]. rewrite !decide_False by done. apply Nat.eqb_neq in Hc. cbn [Nat.add]. rewrite Nat.add_0_r, Hc. done.
  - destruct (digits_port port Hp) as (Hne & Hl & _). rewrite head_bracket_app, partition_join by (cbn; exact Hm). rewrite Hp. rewrite bool_decide_eq_false_2 by done. change (is_colon ":") with true. cbn [negb orb andb].
    rewrite decide_False by done. cbn [lstrip_by]. change (is_bracket "[") with true. change (is_colon ":") with true. cbv iota.
    rewrite Hl, Hp, (bool_decide_eq_false_2 (port = "")) by done. cbn [negb andb]. by rewrite andb_false_r.
Qed.

(** A Host header is read strictly: a host is named only by one of the four forms, and everything else
    (an unclosed bracket, text after one, a port that is no number) names none. *)
Theorem strict_host_exact (value : string) :
  (strict_host value <> "" -> exists host, names_host (lower (strip value)) host /\ strict_host value = rstrip_by is_dot host) /\
  (forall host, names_host (lower (strip value)) host -> strict_host value = rstrip_by is_dot host).
Proof.
  split; [|apply strict_names]. intros Hne. assert (exists host, names_host (lower (strip value)) host) as [host Hh]; [|exists host; split; [done|by apply strict_names]].
  revert Hne. unfold strict_host, split_host_port. rewrite strip_lower, strip_strip. generalize (lower (strip value)) as c. intros c. pose proof (partition_spec "]" c) as Hp.
  destruct (partition "]" c) as [[b f] a]. destruct (startswith "[" c) eqn:Hb.
  - apply starts_bracket in Hb as [r ->]. destruct f; [|by intros []]. destruct Hp as [Hc Hm]. cbn [negb orb andb]. destruct b as [|d b]; [done|]. change (String d b +:+ String "]" a) with (String d (b +:+ String "]" a)) in Hc. injection Hc as <- ->.
    cbn in Hm. destruct (bool_decide_reflect (a = "")) as [->|Ha]; cbn [negb andb].
    + rewrite decide_False by done. cbn [lstrip_by]. cbn [count_char]. rewrite decide_False by done. rewrite count_char_app. cbn [count_char]. rewrite decide_False by done. cbn [Nat.add]. rewrite Nat.add_0_r. rewrite bool_decide_eq_true_2 by done. cbn [negb andb].
      destruct (Nat.eqb_spec (count_char ":" b) 1) as [|Hcount]; [by intros []|]. intros _. eexists. by apply host_bracket.
    + destruct a as [|e digits]; [done|]. unfold is_colon at 1. destruct (bool_decide_reflect (e = ":"%char)) as [->|]; [|by intros []]. cbn [andb]. destruct (isdigit digits) eqn:Hd; [|by intros []]. intros _. eexists. by apply host_bracket_port.
  - cbn [andb]. destruct (Nat.eqb_spec (count_char ":" c) 1) as [Hcount|Hcount].
    + destruct (count_one _ _ Hcount) as (x & y & -> & Hx & Hy). rewrite decide_False by by destruct x. rewrite rpartition_join by done. destruct (bool_decide_reflect (y = "")) as [->|Hne]; cbn [negb andb]; [by intros []|].
      destruct (isdigit y) eqn:Hd; cbn [negb]; [|by intros []]. intros _. eexists. apply host_port; [|done|done]. destruct x as [|e x]; [done|]. destruct (startswith "[" (String e x)) eqn:Hs; [|done]. apply starts_bracket in Hs as [r' [= -> _]].
      change (String "[" x +:+ ?z) with (String "[" (x +:+ z)) in Hb. by rewrite head_bracket in Hb.
    + intros _. exists c. by apply host_alone.
Qed.

(** * Witnesses: the settings as they come, and a tailnet of two devices and a route *)

Definition default_settings : NetworkSettings :=
  mkNetworkSettings ["127.0.0.0/8"; "::1/128"; "100.64.0.0/10"; "fd7a:115c:a1e0::/48"; "hom e"] ["127.0.0.0/8"; "::1/128"] true.

Example gate_examples : map (fun s => trusted_middleware default_settings (Some s)) ["127.0.0.1"; "100.101.1.2"; "192.168.1.4"; "::1"; "fd7a:115c:a1e0::7"; "2001:db8::1"; "proxy"; ""]
  = [Served; Served; Forbidden; Served; Served; Forbidden; Forbidden; Forbidden].
Proof. vm_compute. reflexivity. Qed.

Example host_examples : map strict_host ["HQ.example.:8443"; "[::1]:80"; "[::1"; "[::1]x"; "hq:eighty"; "hq:"; "::1"]
  = ["hq.example"; "::1"; ""; ""; ""; ""; "::1"].
Proof. vm_compute. reflexivity. Qed.

Example narrowed_example : narrowed_value default_settings (wide_trust default_settings) ["fd7a:115c:a1e0::53"; "100.64.0.9"; "100.64.0.1"] ["192.168.4.0/24"]
  = Some "127.0.0.0/8,::1/128,100.64.0.1/32,100.64.0.9/32,fd7a:115c:a1e0::53/128,192.168.4.0/24".
Proof. vm_compute. reflexivity. Qed.

Lemma endpoint_reads_back_witness : parse_ip "[fd7a:115c:a1e0::53]:8443" = Some (V6 (253 * 2 ^ 120 + 122 * 2 ^ 112 + 4444 * 2 ^ 96 + 41440 * 2 ^ 80 + 83) None)%Z.
Proof.
  apply (endpoint_reads_back _ "[fd7a:115c:a1e0::53]:8443"); [vm_compute; reflexivity|reflexivity|].
  exact (endpoint_bracket_port (253 * 2 ^ 120 + 122 * 2 ^ 112 + 4444 * 2 ^ 96 + 41440 * 2 ^ 80 + 83)%Z "8443" eq_refl).
Defined.

Lemma narrowing_widens_nothing_witness :
  is_trusted_address (narrowed_settings default_settings "127.0.0.0/8,::1/128,100.64.0.1/32,fd7a:115c:a1e0::53/128,192.168.4.0/24") "100.64.0.1" = true.
Proof.
  destruct (narrowing_widens_nothing default_settings ["fd7a:115c:a1e0::53"; "100.64.0.1"] ["192.168.4.0/24"]) as (v & Hv & Htrust & _).
  - repeat constructor.
  - repeat constructor; (vm_compute; reflexivity) || (eexists; split; vm_compute; reflexivity).
  - repeat constructor. discriminate.
  - discriminate.
  - assert (v = "127.0.0.0/8,::1/128,100.64.0.1/32,fd7a:115c:a1e0::53/128,192.168.4.0/24") as <- by (apply (f_equal (default "")) in Hv; change (default "" (Some v)) with v in Hv; rewrite <- Hv; vm_compute; reflexivity).
    apply Htrust. right. left.
Defined.
