(* ===== verification/Throttle.v ===== *)
(** The password form and what guessing at it costs ([core/throttle.py], [ThrottledLoginView] of
    [core/views.py], [_on_login_failed] of [core/signals.py]): a lockout read from the failed sign-ins the
    audit log holds.  What Django's form answers of a name and a password is a parameter. *)
From stdpp Require Import base gmap strings list sorting pretty.
From Stdlib Require Import Ascii ZArith Lia.
From S2P Require Import Prelude PyStr Json Refusals Security Models.

#[local] Open Scope string_scope.

(** [settings.SEVERINO_LOGIN_MAX_ATTEMPTS], [..._WINDOW_SECONDS], and whether passwords are off. *)
Record LoginSettings : Type := mkLoginSettings { login_max_attempts : Z; login_window_seconds : Z; sso_only : bool }.

(** [Lockout] *)
Record Lockout : Type := mkLockout { locked : bool; seconds_remaining : Z }.

(** [Lockout.minutes_remaining] *)
Definition minutes_remaining (l : Lockout) : Z := Z.max 1 (- (- seconds_remaining l / 60)).

Definition second : Z := 1000000.
Definition LOGIN_FAILED : string := "login_failed".
Definition LOGIN : string := "login".

(** SQLite's [LIKE] of whole text: the letters of ASCII in either case. *)
Definition ascii_lower (c : ascii) : ascii :=
  let n := code c in if ((65 <=? n) && (n <=? 90))%nat then ascii_of_nat (n + 32) else c.

Fixpoint fold_case (s : string) : string := match s with "" => "" | String c s' => String (ascii_lower c) (fold_case s') end.

Definition metadata_text (key : string) (row : AuditLog) : option string := match dget key (al_metadata row) with Some (JStr s) => Some s | _ => None end.

Definition names_account (subject : string) (row : AuditLog) : bool :=
  match metadata_text "username" row with Some u => bool_decide (fold_case u = fold_case subject) | None => false end.

Definition names_source (ip : string) (row : AuditLog) : bool := bool_decide (metadata_text "ip" row = Some ip).

(** [_recent_failures(username, ip)]: by account or by source, either alone. *)
Definition recent_failures (cfg : LoginSettings) (now : Z) (username ip : string) (rows : list AuditLog) : list AuditLog :=
  let window_start := (now - login_window_seconds cfg * second)%Z in
  let subject := lower (strip username) in
  if bool_decide (subject = "") && bool_decide (ip = "") then []
  else
    rows_where (fun row => bool_decide (al_action row = LOGIN_FAILED) && (window_start <=? al_created_at row)%Z &&
      ((negb (bool_decide (subject = "")) && names_account subject row) || (negb (bool_decide (ip = "")) && names_source ip row))) rows.

(** [failures.order_by("-created_at")], as their moments. *)
Definition recent_moments (rows : list AuditLog) : list Z := map al_created_at (rev (order_by_time al_created_at rows)).

(** [lockout(username, ip)], its two readings of the clock [now] and [later].  Elapsed time is whole
    microseconds: the double it is in Python keeps which side of a whole second it is on. *)
Definition lockout (cfg : LoginSettings) (now later : Z) (username ip : string) : M exn Db Lockout :=
  if (login_max_attempts cfg <=? 0)%Z then mret (mkLockout false 0)
  else
    recent ← reading "audit" (fun db => recent_moments (recent_failures cfg now username ip (db_audit db)));
    if (Z.of_nat (length recent) <? login_max_attempts cfg)%Z then mret (mkLockout false 0)
    else
      let elapsed := (later - hd 0%Z recent)%Z in
      let remaining := (login_window_seconds cfg * second - elapsed)%Z in
      if (remaining <=? 0)%Z then mret (mkLockout false 0)
      else mret (mkLockout true (Z.quot remaining second)).

(** What Django's form makes of a name and a password: refused before any credential is checked, a
    guess that failed under the name it checked, or a user let in. *)
Inductive FormOutcome : Type := Unchecked | Guessed (username : string) | Entered (pk : Z) (name : string).

(** [_on_login_failed] and [_on_login]: what each leaves in the log, beside the door's own metadata. *)
Definition login_failed_event (context : dict) (username ip : string) : Event :=
  mkEvent LOGIN_FAILED "User" "" "" ("Failed login attempt for " +:+ repr username) (dset "ip" (JStr ip) (dset "username" (JStr username) context)) None.

Definition login_event (context : dict) (pk : Z) (name : string) : Event :=
  mkEvent LOGIN "User" (pretty pk) "" (name +:+ " signed in") context (Some pk).

(** What the form's post is answered. *)
Inductive SignIn : Type := PasswordsOff | TooMany (message : string) | FormInvalid | SignedIn (pk : Z).

(** One post, with the moments the lockout reads the clock and the one its row is written at. *)
Record Attempt : Type := mkAttempt { at_asked : Z; at_checked : Z; at_recorded : Z; at_username : string; at_password : string; at_ip : string }.

Section View.
Variables (cfg : LoginSettings) (form : string -> string -> FormOutcome) (context : dict).

(** [ThrottledLoginView.post] *)
Definition login_post (a : Attempt) : M exn Db SignIn :=
  if sso_only cfg then mret PasswordsOff
  else
    state ← lockout cfg (at_asked a) (at_checked a) (at_username a) (at_ip a);
    if locked state then
      mret (TooMany ("Too many failed sign-in attempts. Try again in " +:+ counted (Z.to_nat (minutes_remaining state)) "minute" "minutes" +:+ "."))
    else match form (at_username a) (at_password a) with
         | Unchecked => mret FormInvalid
         | Guessed username => _ ← record_event false (at_recorded a) (login_failed_event context username (at_ip a)); mret FormInvalid
         | Entered pk name => _ ← record_event false (at_recorded a) (login_event context pk name); mret (SignedIn pk)
         end.
End View.

(** * What bars sign-in *)

Lemma recent_moments_spec rows : length (recent_moments rows) = length rows /\
  (forall t, t ∈ recent_moments rows <-> exists r, r ∈ rows /\ al_created_at r = t) /\ (forall r, r ∈ rows -> (al_created_at r <= hd 0 (recent_moments rows))%Z).
Proof.
  assert (forall x l, StronglySorted Z.le (map al_created_at l) -> StronglySorted Z.le (map al_created_at (insert_time al_created_at x l))) as Hins.
  { intros x l. induction l as [|y l IH]; intros Hs; [by repeat constructor|]. cbn. destruct (Z.leb_spec (al_created_at x) (al_created_at y)) as [Hle|Hlt]; cbn [map].
    - constructor; [done|]. cbn in Hs. apply StronglySorted_inv in Hs as [_ Hall]. constructor; [done|]. eapply Forall_impl; [exact Hall|]. intros z; cbn. lia.
    - cbn in Hs. apply StronglySorted_inv in Hs as [Hs Hall]. constructor; [by apply IH|]. rewrite insert_time_perm. cbn. constructor; [lia|done]. }
  assert (StronglySorted Z.le (map al_created_at (order_by_time al_created_at rows))) as Hsorted by (induction rows; [constructor|by apply Hins]).
  unfold recent_moments. split_and!.
  - rewrite length_map, length_rev. by rewrite order_by_time_perm.
  - intros t. rewrite list_elem_of_fmap. split; intros (r & H1 & H2); exists r; rewrite elem_of_rev, order_by_time_perm in *; done.
  - intros r Hr. rewrite <- (order_by_time_perm al_created_at) in Hr. rewrite map_rev. revert Hr Hsorted. generalize (order_by_time al_created_at rows). clear. intros l. induction l as [|x l _] using rev_ind; [by intros ?%elem_of_nil|].
    rewrite map_app. cbn [map]. rewrite rev_app_distr. cbn. intros [Hr| ->%list_elem_of_singleton]%elem_of_app Hs; [|lia].
    eapply StronglySorted_app_1_elem_of; [exact Hs| |by left]. apply list_elem_of_fmap. by exists r.
Qed.

(** The lock stands exactly while enough failures of the account or the source are in the window and the
    last of them is younger than it; what it says of the wait is right to the second. *)
Lemma lockout_spec cfg now later username ip db :
  among "audit" (db_unreadable db) = false ->
  let failures := recent_failures cfg now username ip (db_audit db) in
  let until t := (t + login_window_seconds cfg * second)%Z in
  exists l, lockout cfg now later username ip db = (Ok l, db) /\
    (locked l = true <-> (0 < login_max_attempts cfg <= Z.of_nat (length failures))%Z /\ exists r, r ∈ failures /\ (later < until (al_created_at r))%Z) /\
    (locked l = true -> (exists r, r ∈ failures /\ (later + seconds_remaining l * second <= until (al_created_at r))%Z) /\
      forall r, r ∈ failures -> (until (al_created_at r) < later + (seconds_remaining l + 1) * second)%Z).
Proof.
  intros Hread failures until. unfold lockout. destruct (Z.leb_spec (login_max_attempts cfg) 0) as [Hoff|Hon]; [exists (mkLockout false 0); split_and!; [done|split; [done|lia]|done]|].
  rewrite (bind_step _ _ _ (recent_moments failures) db) by (unfold reading; by rewrite Hread). destruct (recent_moments_spec failures) as (Hlen & Hin & Hmax). rewrite Hlen.
  destruct (Z.ltb_spec (Z.of_nat (length failures)) (login_max_attempts cfg)) as [Hfew|Hmany]; [exists (mkLockout false 0); split_and!; [done|split; [done|lia]|done]|].
  assert (exists r, r ∈ failures /\ al_created_at r = hd 0%Z (recent_moments failures)) as (r & Hr & Hhd).
  { apply Hin. destruct (recent_moments failures); [cbn in Hlen; lia|by left]. }
  set (remaining := (login_window_seconds cfg * second - (later - hd 0 (recent_moments failures)))%Z).
  destruct (Z.leb_spec remaining 0) as [Hleft|Hleft].
  - exists (mkLockout false 0). split_and!; [done| |done]. split; [done|]. intros (_ & r' & Hr' & Hlt). specialize (Hmax r' Hr'). unfold until, remaining in *. lia.
  - exists (mkLockout true (Z.quot remaining second)). cbn [locked seconds_remaining]. split_and!; [done| |].
    + split; [|done]. intros _. split; [lia|]. exists r. split; [done|]. unfold until, remaining in *. lia.
    + intros _. pose proof (Z.quot_rem' remaining second) as Hqr. pose proof (Z.rem_bound_pos remaining second ltac:(lia) ltac:(done)) as Hrem. split.
      * exists r. split; [done|]. unfold until, remaining in *. lia.
      * intros r' Hr'. specialize (Hmax r' Hr'). unfold until, remaining in *. lia.
Qed.

(** * What guessing costs *)

Lemma fold_case_idem s : fold_case (fold_case s) = fold_case s.
Proof. induction s as [|c s IH]; [done|]. cbn. rewrite IH. f_equal. by destruct c as [[] [] [] [] [] [] [] []]. Qed.

(** Who guesses are counted against: an address, or an account whose name has no capital outside ASCII. *)
Inductive Subject : Type := Source (ip : string) | Account (name : string).

Definition is_of (s : Subject) (a : Attempt) : bool :=
  match s with
  | Source ip => bool_decide (at_ip a = ip)
  | Account name => bool_decide (fold_case (strip (at_username a)) = name) && bool_decide (lower (strip (at_username a)) = fold_case (strip (at_username a)))
  end.

Definition counts_for (s : Subject) (row : AuditLog) : bool :=
  bool_decide (al_action row = LOGIN_FAILED) && match s with Source ip => names_source ip row | Account name => match metadata_text "username" row with Some u => bool_decide (fold_case u = name) | None => false end end.

Definition named (s : Subject) : Prop := match s with Source ip => ip <> "" | Account name => name <> "" end.

Section Guesses.
Variables (cfg : LoginSettings) (form : string -> string -> FormOutcome) (context : dict) (s : Subject).
Hypothesis form_strips : forall username password u, form username password = Guessed u -> u = strip username.
Hypothesis s_named : named s.

(** The posts of a run, each with its answer. *)
Fixpoint posts (l : list Attempt) (db : Db) : list (Attempt * outcome exn SignIn) :=
  match l with
  | [] => []
  | a :: rest => let '(o, db') := login_post cfg form context a db in (a, o) :: posts rest db'
  end.

(** A guess of the subject's that was checked, and failed. *)
Definition failed_guess (p : Attempt * outcome exn SignIn) : bool :=
  is_of s p.1 && match p.2, form (at_username p.1) (at_password p.1) with Ok FormInvalid, Guessed _ => true | _, _ => false end.

Definition guesses (l : list Attempt) (db : Db) : list Attempt := map fst (List.filter failed_guess (posts l db)).

Definition in_turn (a : Attempt) : Prop := (at_asked a <= at_checked a <= at_recorded a)%Z.

(** The moments of the subject's failures in the log. *)
Definition failures_of (db : Db) : list Z := map al_created_at (rows_where (counts_for s) (db_audit db)).

Lemma counted_here a now row : is_of s a = true -> counts_for s row = true -> (now - login_window_seconds cfg * second <= al_created_at row)%Z ->
  forall db, row ∈ db_audit db -> row ∈ recent_failures cfg now (at_username a) (at_ip a) (db_audit db).
Proof.
  intros Ha Hrow Hwin db Hin. unfold counts_for in Hrow. apply andb_true_iff in Hrow as [Hact Hrow]. unfold recent_failures.
  destruct s as [ip|name]; cbn in *.
  - apply bool_decide_eq_true in Ha. rewrite Ha, (bool_decide_eq_false_2 (ip = "")), andb_false_r by done. apply elem_of_rows_where. split; [done|]. rewrite Hact, Hrow, (proj2 (Z.leb_le _ _) Hwin). cbn. by rewrite orb_true_r.
  - rewrite andb_true_iff, !bool_decide_eq_true in Ha. destruct Ha as [Hname Hlow]. assert (lower (strip (at_username a)) <> "") as Hne by (rewrite Hlow, Hname; done).
    rewrite (bool_decide_eq_false_2 (_ = "")) by done. cbn [andb]. apply elem_of_rows_where. split; [done|]. rewrite Hact, (proj2 (Z.leb_le _ _) Hwin). cbn [negb andb].
    unfold names_account. destruct (metadata_text "username" row) as [u|]; [|done]. apply bool_decide_eq_true in Hrow. by rewrite bool_decide_eq_true_2 by (rewrite Hlow, Hname in *; rewrite Hrow, <- Hname; symmetry; apply fold_case_idem).
Qed.

Lemma count_in_window t rows m : (m <= length (List.filter (fun x => (t <=? x)%Z) (map al_created_at (rows_where (counts_for s) rows))))%nat ->
  forall a db, rows = db_audit db -> is_of s a = true -> t = (at_asked a - login_window_seconds cfg * second)%Z ->
  (m <= length (recent_failures cfg (at_asked a) (at_username a) (at_ip a) (db_audit db)))%nat.
Proof.
  intros Hm a db -> Ha ->. etransitivity; [exact Hm|]. clear Hm.
  assert (forall row, row ∈ db_audit db -> counts_for s row = true -> (at_asked a - login_window_seconds cfg * second <=? al_created_at row)%Z = true ->
    row ∈ recent_failures cfg (at_asked a) (at_username a) (at_ip a) (db_audit db)) as Hin by (intros row Hrow Hc Hw; apply counted_here; [done|done|by apply Z.leb_le|done]).
  revert Hin. unfold recent_failures. destruct (bool_decide (lower (strip (at_username a)) = "") && bool_decide (at_ip a = "")).
  - intros Hin. destruct (List.filter _ _) as [|x xs] eqn:Hf; [cbn; lia|]. exfalso. assert (In x (x :: xs)) as Hx by by left. rewrite <- Hf in Hx. apply filter_In in Hx as [Hx Hw]. apply in_map_iff in Hx as (row & <- & Hrow).
    rewrite <- list_elem_of_In, elem_of_rows_where in Hrow. destruct Hrow as [H1 H2]. specialize (Hin row H1 H2 Hw). by apply elem_of_nil in Hin.
  - match goal with |- (forall row, _ -> _ -> _ -> row ∈ rows_where ?q _) -> _ => generalize q end. intros q. generalize (at_asked a - login_window_seconds cfg * second)%Z. intros t. unfold rows_where.
    induction (db_audit db) as [|row rows IH]; intros Hin; [cbn; lia|]. cbn [List.filter]. 
    assert (length (List.filter (fun x => (t <=? x)%Z) (map al_created_at (List.filter (counts_for s) rows))) <= length (List.filter q rows))%nat as Hle.
    { apply IH. intros row' Hrow' Hc Hw. specialize (Hin row' ltac:(by right) Hc Hw). rewrite elem_of_rows_where in *. by destruct Hin. }
    destruct (counts_for s row) eqn:Hc; [|destruct (q row); cbn; lia]. cbn [map List.filter]. destruct (t <=? al_created_at row)%Z eqn:Hw; [|destruct (q row); cbn; lia].
    specialize (Hin row ltac:(by left) Hc Hw). apply elem_of_rows_where in Hin as [_ ->]. cbn. lia.
Qed.

Definition up (db : Db) : Prop := db_audit_down db = false /\ among "audit" (db_unreadable db) = false.

Lemma recorded_counts now e db db' o : up db -> record_event false now e db = (o, db') ->
  exists row id, o = Ok (Some id) /\ db_audit db' = (db_audit db ++ [row])%list /\ al_action row = ev_action e /\ al_metadata row = ev_metadata e /\ al_created_at row = now /\ up db'.
Proof. intros [Hdown Hread]. unfold record_event. rewrite Hdown. intros [= <- <-]. by do 2 eexists. Qed.

Lemma failures_grow (db db' : Db) row : db_audit db' = (db_audit db ++ [row])%list -> failures_of db' = (failures_of db ++ if counts_for s row then [al_created_at row] else [])%list.
Proof. unfold failures_of, rows_where. intros ->. rewrite List.filter_app, map_app. f_equal. cbn. by destruct (counts_for s row). Qed.

(** A post leaves the failures there were, and its own when it is a failed guess of the subject's. *)
Lemma post_step a db o db' : up db -> login_post cfg form context a db = (o, db') ->
  up db' /\ failures_of db `sublist_of` failures_of db' /\
  (failed_guess (a, o) = true -> failures_of db' = (failures_of db ++ [at_recorded a])%list /\
    exists l, lockout cfg (at_asked a) (at_checked a) (at_username a) (at_ip a) db = (Ok l, db) /\ locked l = false).
Proof.
  intros Hup. pose proof Hup as [Hdown Hread]. unfold login_post. destruct (sso_only cfg); [intros [= <- <-]; split_and!; [done|done|unfold failed_guess; cbn; by rewrite andb_false_r]|].
  destruct (lockout_spec cfg (at_asked a) (at_checked a) (at_username a) (at_ip a) db Hread) as (l & Hl & _). rewrite (bind_step _ _ _ _ _ Hl). destruct (locked l) eqn:Hlock.
  { intros [= <- <-]. split_and!; [done|done|unfold failed_guess; cbn; by rewrite andb_false_r]. }
  unfold failed_guess. cbn [fst snd]. destruct (form (at_username a) (at_password a)) as [|u|pk name] eqn:Hform.
  - intros [= <- <-]. split_and!; [done|done|by rewrite andb_false_r].
  - destruct (record_event false (at_recorded a) (login_failed_event context u (at_ip a)) db) as [o1 db1] eqn:Hrec. destruct (recorded_counts _ _ _ _ _ Hup Hrec) as (row & id & -> & Haudit & Hact & Hmeta & Hat & Hup').
    rewrite (bind_step _ _ _ _ _ Hrec). intros [= <- <-]. pose proof (failures_grow _ _ _ Haudit) as Hgrow. split_and!; [done|rewrite Hgrow; apply sublist_inserts_r; done|].
    intros Hof. rewrite andb_true_r in Hof. split; [|by exists l]. rewrite Hgrow, Hat. assert (counts_for s row = true) as ->; [|done]. unfold counts_for, names_source, metadata_text. rewrite Hact, Hmeta. cbn [login_failed_event ev_action ev_metadata].
    rewrite !dget_dset. rewrite decide_True by done. rewrite decide_False by done. rewrite decide_True by done. rewrite (form_strips _ _ _ Hform). cbn [andb].
    destruct s as [ip|nm]; cbn in Hof; [apply bool_decide_eq_true in Hof; apply bool_decide_eq_true_2; congruence|]. apply andb_true_iff in Hof as [Hof _]. by rewrite Hof.
  - destruct (record_event false (at_recorded a) (login_event context pk name) db) as [o1 db1] eqn:Hrec. destruct (recorded_counts _ _ _ _ _ Hup Hrec) as (row & id & -> & Haudit & _ & _ & _ & Hup').
    rewrite (bind_step _ _ _ _ _ Hrec). intros [= <- <-]. split_and!; [done|rewrite (failures_grow _ _ _ Haudit); apply sublist_inserts_r; done|by rewrite andb_false_r].
Qed.

Lemma filter_sublist {A} (p : A -> bool) (l1 l2 : list A) : l1 `sublist_of` l2 -> (length (List.filter p l1) <= length (List.filter p l2))%nat.
Proof. induction 1; cbn; repeat case_match; cbn; lia. Qed.

(** An open form has waited out all but the last few of the failures before it. *)
Lemma open_form_waited (past : list Z) a db l (i : nat) t : (0 < login_max_attempts cfg)%Z ->
  up db -> past `sublist_of` failures_of db -> StronglySorted Z.le past -> in_turn a -> is_of s a = true ->
  lockout cfg (at_asked a) (at_checked a) (at_username a) (at_ip a) db = (Ok l, db) -> locked l = false ->
  past !! i = Some t -> (i + Z.to_nat (login_max_attempts cfg) = length past)%nat -> (t + login_window_seconds cfg * second <= at_checked a)%Z.
Proof.
  intros Hmax [_ Hread] Hsub Hsorted Hturn Ha Hl Hlock Ht Hi. destruct (Z.le_gt_cases (t + login_window_seconds cfg * second) (at_checked a)) as [|Hgt]; [done|exfalso].
  destruct (lockout_spec cfg (at_asked a) (at_checked a) (at_username a) (at_ip a) db Hread) as (l' & Hl' & Hspec & _). rewrite Hl in Hl'. injection Hl' as <-.
  assert (locked l = true) as Hbar; [|congruence]. apply Hspec. clear Hspec. unfold in_turn in Hturn. set (low := (at_asked a - login_window_seconds cfg * second)%Z).
  assert (Forall (fun x => t <= x)%Z (skipn i past)) as Hlate.
  { rewrite <- (firstn_skipn i past) in Hsorted. apply StronglySorted_app_1_r in Hsorted. rewrite (drop_S _ _ _ Ht) in *. apply StronglySorted_inv in Hsorted as [_ Hall]. by constructor. }
  split.
  - split; [done|]. assert (Z.to_nat (login_max_attempts cfg) <= length (recent_failures cfg (at_asked a) (at_username a) (at_ip a) (db_audit db)))%nat; [|lia].
    apply (count_in_window low (db_audit db)); [|done..]. etransitivity; [|apply (filter_sublist _ _ _ Hsub)]. rewrite <- (firstn_skipn i past), List.filter_app, length_app.
    assert (List.filter (fun x => (low <=? x)%Z) (skipn i past) = skipn i past) as ->; [|rewrite length_drop; lia]. apply List.forallb_filter_id, forallb_forall. intros x Hx. rewrite <- list_elem_of_In in Hx. eapply Forall_forall in Hlate; [|exact Hx]. apply Z.leb_le. unfold low. lia.
  - assert (t ∈ failures_of db) as Hin by (eapply elem_of_sublist; [by eapply list_elem_of_lookup_2|exact Hsub]). unfold failures_of in Hin. apply list_elem_of_fmap in Hin as (row & -> & Hrow). apply elem_of_rows_where in Hrow as [Hrow Hc].
    exists row. split; [|done]. apply counted_here; [done|done|lia|done].
Qed.

(** The failed guesses of a run that goes on from failures already there. *)
Lemma guesses_from : (0 < login_max_attempts cfg)%Z -> forall l db past,
  up db -> Forall in_turn l -> StronglySorted (fun a b => at_recorded a <= at_asked b)%Z l ->
  past `sublist_of` failures_of db -> StronglySorted Z.le past -> (forall p a, p ∈ past -> a ∈ l -> p <= at_asked a)%Z ->
  forall i k t h, (past ++ map at_recorded (guesses l db))%list !! i = Some t -> guesses l db !! k = Some h -> (i + Z.to_nat (login_max_attempts cfg) = length past + k)%nat ->
  (t + login_window_seconds cfg * second <= at_checked h)%Z.
Proof.
  intros Hmax l. induction l as [|a rest IH]; intros db past Hup Hturns Hord Hsub Hsorted Hbefore i k t h Ht Hh Hik; [done|].
  inversion_clear Hturns as [|? ? Hturn Hturns']. apply StronglySorted_inv in Hord as [Hord Hnext]. unfold guesses in *. cbn [posts] in *. destruct (login_post cfg form context a db) as [o db'] eqn:Hpost.
  destruct (post_step _ _ _ _ Hup Hpost) as (Hup' & Hgrow & Hguess). cbn [List.filter] in *. destruct (failed_guess (a, o)) eqn:Hf; cbn [map fst] in *.
  - destruct (Hguess eq_refl) as (Hadd & lk & Hl & Hlock). unfold failed_guess in Hf. cbn in Hf. apply andb_true_iff in Hf as [Ha _]. destruct k as [|k].
    + injection Hh as <-. assert (i < length past)%nat as Hlt by lia. rewrite lookup_app_l in Ht by done. eapply (open_form_waited past a db lk i t); try done. lia.
    + cbn in Hh. eapply (IH db' (past ++ [at_recorded a])%list); [done|done|done| | | | |exact Hh|].
      * rewrite Hadd. by apply sublist_app.
      * apply StronglySorted_app_2; [|done|by repeat constructor]. intros p q Hp ->%list_elem_of_singleton. specialize (Hbefore p a Hp ltac:(by left)). unfold in_turn in Hturn. lia.
      * intros p b [Hp| ->%list_elem_of_singleton]%elem_of_app Hb; [by apply Hbefore; [|by right]|by eapply Forall_forall in Hnext].
      * rewrite <- app_assoc. exact Ht.
      * rewrite length_app. cbn. lia.
  - eapply (IH db' past); try done; [by etransitivity|]. intros p b Hp Hb. apply Hbefore; [done|by right].
Qed.

End Guesses.

(** * Witness: three guesses and a post the form is closed to, where two are let fail *)

Definition strict_login : LoginSettings := mkLoginSettings 2 900 false.
Definition guess_at (t : Z) (username : string) : Attempt := mkAttempt (t * second) (t * second + 5) (t * second + 9) username "hunter2" "10.0.0.9".
Definition a_guesser : list Attempt := [guess_at 0 "Ada"; guess_at 10 " ada"; guess_at 20 "root"; guess_at 1000 "ada"].
Definition all_refused (username password : string) : FormOutcome := Guessed (strip username).

Example guesser_answers : map snd (posts strict_login all_refused [] a_guesser empty_db)
  = [Ok FormInvalid; Ok FormInvalid; Ok (TooMany "Too many failed sign-in attempts. Try again in 15 minutes."); Ok FormInvalid].
Proof. vm_compute. reflexivity. Qed.

