(* ===== verification/Cadence.v ===== *)
(** When the controller should sweep, and how it hears that there is work ([cadence.py],
    [core/doorbell.py]): the two markers HQ keeps on the host, the read requests that force a sweep, the
    verdict a controller is handed and the doorbell that starts its pass.

    What the observations and the providers declare is the deployment's: [Catalogue] gathers it.  Moments
    are whole microseconds, and one call reads the clock once. *)
From stdpp Require Import base gmap strings list pretty sorting.
From Stdlib Require Import Ascii ZArith Lia.
From S2P Require Import Prelude PyStr Json Refusals Security Models AuditTrail AgentDevices AgentRegistry AgentAccess Specs Policy Operations Controller InputErrors.

#[local] Open Scope string_scope.

(** * What is kept *)

(** [ProviderInventory], as the cadence reads it. *)
Record Inventory : Type := mkInventory { in_kind : string; in_observed_at : option Z; in_updated_at : Z }.

(** [ProviderConnection] *)
Record Connection : Type := mkConnection {
  cn_ref : string; cn_controller : string; cn_provider : string; cn_probed : bool; cn_reachable : bool; cn_observed_at : Z }.

(** [ReadRequest] *)
Record ReadRequest : Type := mkReadRequest { rq_pk : N; rq_connection_ref : string; rq_kind : string; rq_requested_at : Z }.

(** [DashboardRefreshRequest] *)
Record PanelRequest : Type := mkPanelRequest { pn_panel : string; pn_requested_at : Z; pn_completed_at : option Z }.

(** The tables beside [Db], and the files on the volume the host shares: the moment each marker was
    last replaced, and how often each doorbell was.  [sh_host_down] says the volume takes no write. *)
Record Shelf : Type := mkShelf {
  sh_db : Db;
  sh_inventories : list Inventory;
  sh_connections : list Connection;
  sh_requests : list ReadRequest;
  sh_panels : list PanelRequest;
  sh_contracts : option (list (string * string));   (* the stored reading [RECORD_CONTRACTS] *)
  sh_activity : option Z;
  sh_heartbeat : option Z;
  sh_rings : nat;
  sh_glance_rings : nat;
  sh_host_down : bool;
}.

Definition set_sh_db v s := mkShelf v (sh_inventories s) (sh_connections s) (sh_requests s) (sh_panels s) (sh_contracts s) (sh_activity s) (sh_heartbeat s) (sh_rings s) (sh_glance_rings s) (sh_host_down s).
Definition set_sh_requests v s := mkShelf (sh_db s) (sh_inventories s) (sh_connections s) v (sh_panels s) (sh_contracts s) (sh_activity s) (sh_heartbeat s) (sh_rings s) (sh_glance_rings s) (sh_host_down s).
Definition set_sh_contracts v s := mkShelf (sh_db s) (sh_inventories s) (sh_connections s) (sh_requests s) (sh_panels s) v (sh_activity s) (sh_heartbeat s) (sh_rings s) (sh_glance_rings s) (sh_host_down s).
Definition set_sh_activity v s := mkShelf (sh_db s) (sh_inventories s) (sh_connections s) (sh_requests s) (sh_panels s) (sh_contracts s) v (sh_heartbeat s) (sh_rings s) (sh_glance_rings s) (sh_host_down s).
Definition set_sh_heartbeat v s := mkShelf (sh_db s) (sh_inventories s) (sh_connections s) (sh_requests s) (sh_panels s) (sh_contracts s) (sh_activity s) v (sh_rings s) (sh_glance_rings s) (sh_host_down s).
Definition set_sh_rings v s := mkShelf (sh_db s) (sh_inventories s) (sh_connections s) (sh_requests s) (sh_panels s) (sh_contracts s) (sh_activity s) (sh_heartbeat s) v (sh_glance_rings s) (sh_host_down s).
Definition set_sh_glance_rings v s := mkShelf (sh_db s) (sh_inventories s) (sh_connections s) (sh_requests s) (sh_panels s) (sh_contracts s) (sh_activity s) (sh_heartbeat s) (sh_rings s) v (sh_host_down s).

(** Code over [Db] alone, run on the whole. *)
Definition on_database {A} (m : M exn Db A) : M exn Shelf A := fun s => let '(o, db) := m (sh_db s) in (o, set_sh_db db s).

(** What an observation declares: whether the controller reads it, whether it keeps a clock of its own,
    and the fingerprint of what a record of it may hold. *)
Record ObservationSpec : Type := mkObservationSpec { ob_by_controller : bool; ob_own_clock : bool; ob_fingerprint : string }.

Record Catalogue : Type := mkCatalogue {
  ct_observations : list (string * ObservationSpec);   (* OBSERVATIONS *)
  ct_provider : string -> option bool;                 (* PROVIDERS: whether a kind says why it is unobserved *)
  ct_fed_kinds : string -> list string;                (* fed_kinds(provider) *)
  ct_label : string -> string;                         (* registry_label(kind) *)
  ct_refresh : string -> string;                       (* the refresh command's words, of a variant *)
  ct_duration : Z -> string;                           (* duration(delta) *)
  ct_moved : Z -> Z -> string * json;                  (* what the log says of a requested_at that moved *)
}.

(** The settings the cadence reads, in seconds. *)
Record CadenceSettings : Type := mkCadenceSettings {
  cs_activity_throttle : Z; cs_active_window : Z; cs_interval_active : Z; cs_interval_idle : Z; cs_ssh_probe_interval : Z; cs_read_request : Z }.

(** [_seconds(name)], as the moment arithmetic takes it. *)
Definition seconds (n : Z) : Z := (Z.max 0 n * SECOND)%Z.

Definition CONTROLLER_FLOOR : Z := (15 * 60 * SECOND)%Z.
Definition CONTROLLER_SILENT_AFTER : Z := (2 * CONTROLLER_FLOOR)%Z.

(** * The markers *)

(** [_ring(doorbell)] and [_touch]: best effort. *)
Definition ring_with (f : Shelf -> Shelf) : M exn Shelf bool := act (fun s => if sh_host_down s then (Ok false, s) else (Ok true, f s)).

(** [ring_doorbell()] and [ring_glance_doorbell()] *)
Definition ring_doorbell : M exn Shelf bool := ring_with (fun s => set_sh_rings (S (sh_rings s)) s).
Definition ring_glance_doorbell : M exn Shelf bool := ring_with (fun s => set_sh_glance_rings (S (sh_glance_rings s)) s).

(** [note_activity()] *)
Definition note_activity (cs : CadenceSettings) (now : Z) : M exn Shelf unit :=
  modify (fun s =>
    match sh_activity s with
    | Some t => if (now - t <? seconds (cs_activity_throttle cs))%Z then s else if sh_host_down s then s else set_sh_activity (Some now) s
    | None => if sh_host_down s then s else set_sh_activity (Some now) s
    end).

(** [recently_used()], and the moment the derivation asking is told it holds until. *)
Definition recently_used (cs : CadenceSettings) (asked_ahead : bool) (now : Z) (s : Shelf) : bool * option Z :=
  if asked_ahead then (true, None)
  else
    match sh_activity s with
    | None => (false, None)
    | Some touched =>
        let window := seconds (cs_active_window cs) in
        if (window <? now - touched)%Z then (false, None) else (true, Some (touched + window)%Z)
    end.

(** [note_controller()] *)
Definition note_controller (now : Z) : M exn Shelf unit := modify (fun s => if sh_host_down s then s else set_sh_heartbeat (Some now) s).

(** [max(times, default=None)] and [min] of them. *)
Definition latest (l : list Z) : option Z := match l with [] => None | x :: l' => Some (fold_left Z.max l' x) end.
Definition earliest (l : list Z) : option Z := match l with [] => None | x :: l' => Some (fold_left Z.min l' x) end.

(** [newest_reading()] *)
Definition newest_reading (s : Shelf) : option Z := latest (omap in_observed_at (sh_inventories s)).

(** [ControllerStanding] and [controller_standing()] *)
Record ControllerStanding : Type := mkControllerStanding { seen_at : option Z; silent : bool }.

Definition controller_standing (now : Z) (s : Shelf) : ControllerStanding :=
  match match sh_heartbeat s with Some t => Some t | None => newest_reading s end with
  | None => mkControllerStanding None false
  | Some t => mkControllerStanding (Some t) (CONTROLLER_SILENT_AFTER <? now - t)%Z
  end.

(** [sweep_interval()], [slowest_sweep_interval()], [ssh_probe_interval()] and [read_request_lifetime()] *)
Definition sweep_interval (cs : CadenceSettings) (asked_ahead : bool) (now : Z) (s : Shelf) : Z :=
  seconds (if (recently_used cs asked_ahead now s).1 then cs_interval_active cs else cs_interval_idle cs).
Definition slowest_sweep_interval (cs : CadenceSettings) : Z := seconds (cs_interval_idle cs).
Definition ssh_probe_interval (cs : CadenceSettings) : Z := seconds (cs_ssh_probe_interval cs).
Definition read_request_lifetime (cs : CadenceSettings) : Z := seconds (cs_read_request cs).

(** * The sweep *)

Section Cadence.
Variables (cat : Catalogue) (cs : CadenceSettings) (plant : Plant) (context : dict) (subject : string).

Definition observation_of (kind : string) : option ObservationSpec := snd <$> first_where (fun o => bool_decide (o.1 = kind)) (ct_observations cat).

(** [swept(kind)] and [every_sweep(kind)] *)
Definition swept (kind : string) : bool :=
  match observation_of kind with
  | Some reading => ob_by_controller reading
  | None => match ct_provider cat kind with Some unobserved => negb unobserved | None => false end
  end.

Definition every_sweep (kind : string) : bool :=
  swept kind && match observation_of kind with Some reading => negb (ob_own_clock reading) | None => true end.

(** [attempted_at(observed_at, updated_at)] *)
Definition attempted_at (i : Inventory) : Z := match in_observed_at i with None => in_updated_at i | Some t => Z.max t (in_updated_at i) end.

(** [_oldest_sweep()] *)
Definition oldest_sweep (s : Shelf) : option Z := earliest (map attempted_at (rows_where (fun i => every_sweep (in_kind i)) (sh_inventories s))).

(** [carried_connections(controller_id, failing=...)] *)
Definition carried_connections (now : Z) (controller_id : string) (failing : bool) (s : Shelf) : list string :=
  sorted (map cn_ref (rows_where (fun c => bool_decide (cn_controller c = controller_id) && bool_decide (cn_provider c = "ssh") && cn_probed c &&
    (now - ssh_probe_interval cs <=? cn_observed_at c)%Z && (failing || cn_reachable c)) (sh_connections s))).

(** [connection_providers(connection_ref)]: each once, in order. *)
Definition connection_providers (ref : string) (s : Shelf) : list string :=
  sorted (remove_dups (map cn_provider (rows_where (fun c => bool_decide (cn_ref c = ref) && negb (bool_decide (cn_provider c = ""))) (sh_connections s)))).

(** [dict.fromkeys(items)] as a tuple. *)
Fixpoint fromkeys (items : list string) : list string :=
  match items with [] => [] | x :: rest => x :: List.filter (fun y => negb (bool_decide (y = x))) (fromkeys rest) end.

(** [forced_kinds(connection_ref, kind)]; [None] is every kind. *)
Definition forced_kinds (ref kind : string) (s : Shelf) : option (list string) :=
  if negb (bool_decide (kind = "")) then Some [kind]
  else if negb (bool_decide (ref = "")) then Some (fromkeys (concat (map (ct_fed_kinds cat) (connection_providers ref s))))
  else None.

(** [ForcedRead] *)
Record ForcedRead : Type := mkForcedRead { fr_connection_ref : string; fr_kind : string; fr_requested_at : Z; fr_kinds : option (list string) }.

(** [ForcedRead.subject] and [as_dict()] *)
Definition fr_subject (r : ForcedRead) : string := str_or (fr_connection_ref r) (str_or (fr_kind r) "every connection").
Definition fr_dict (r : ForcedRead) : json :=
  JObj [("connection_ref", JStr (fr_connection_ref r)); ("kind", JStr (fr_kind r)); ("requested_at", JStr (isoformat (fr_requested_at r)));
        ("kinds", match fr_kinds r with Some l => JList (map JStr l) | None => JNull end)].

(** [stored.get(kind)] and [probed.get(ref)]: a kind has one row, a ref its newest probe. *)
Definition stored_at (kind : string) (s : Shelf) : option Z := in_updated_at <$> first_where (fun i => bool_decide (in_kind i = kind)) (sh_inventories s).
Definition probed_at (ref : string) (s : Shelf) : option Z := latest (map cn_observed_at (rows_where (fun c => bool_decide (cn_ref c = ref)) (sh_connections s))).

(** [_answered(read, stored, probed)] *)
Definition answered_read (s : Shelf) (r : ForcedRead) : bool :=
  let asked := fr_requested_at r in
  if negb (bool_decide (fr_connection_ref r = "")) && (default asked (probed_at (fr_connection_ref r) s) <=? asked)%Z then false
  else
    match fr_kinds r with
    | None => match earliest (map in_updated_at (rows_where (fun i => every_sweep (in_kind i)) (sh_inventories s))) with Some t => (asked <? t)%Z | None => false end
    | Some kinds => forallb (fun kind => (asked <? default asked (stored_at kind s))%Z) kinds
    end.

Definition forced_of (s : Shelf) (r : ReadRequest) : ForcedRead :=
  mkForcedRead (rq_connection_ref r) (rq_kind r) (rq_requested_at r) (forced_kinds (rq_connection_ref r) (rq_kind r) s).

(** [forced_reads()] *)
Definition forced_reads (now : Z) (s : Shelf) : list ForcedRead :=
  rows_where (fun r => negb (answered_read s r))
    (map (forced_of s) (order_by_time rq_requested_at (rows_where (fun r => (now - read_request_lifetime cs <=? rq_requested_at r)%Z) (sh_requests s)))).

(** [_carry] and [_asked_kinds] *)
Definition carry (now : Z) (controller_id : string) (forced : list ForcedRead) (failing : bool) (s : Shelf) : list string :=
  if decide (controller_id = "") then []
  else
    let asked := List.filter (fun ref => negb (bool_decide (ref = ""))) (map fr_connection_ref forced) in
    List.filter (fun ref => negb (bool_decide (ref ∈ asked))) (carried_connections now controller_id failing s).

Definition asked_kinds (forced : list ForcedRead) : list string :=
  if existsb (fun r => match fr_kinds r with None => true | Some _ => false end) forced then []
  else sorted (remove_dups (concat (map (fun r => default [] (fr_kinds r)) forced))).

(** What [sweep_due] answers, and the dict it is. *)
Record Verdict : Type := mkVerdict { vd_interval : Z; vd_carry : list string; vd_forced : list ForcedRead; vd_only_kinds : list string; vd_due : bool; vd_reason : string; vd_age : option Z }.

Definition verdict_dict (v : Verdict) : dict :=
  ([("ok", JBool true); ("interval_seconds", JNum (vd_interval v / SECOND)); ("carry", JList (map JStr (vd_carry v)));
   ("forced", JList (map fr_dict (vd_forced v))); ("only_kinds", JList (map JStr (vd_only_kinds v))); ("due", JBool (vd_due v)); ("reason", JStr (vd_reason v))]
  ++ match vd_age v with Some a => [("age_seconds", JNum (Z.quot a SECOND))] | None => [] end)%list.

(** [sweep_due(controller_id)] *)
Definition sweep_due (asked_ahead : bool) (now : Z) (controller_id : string) (s : Shelf) : Verdict :=
  let forced := forced_reads now s in
  let interval := sweep_interval cs asked_ahead now s in
  match oldest_sweep s with
  | None => mkVerdict interval (carry now controller_id forced false s) forced [] true "Nothing has been read yet." None
  | Some oldest =>
      let age := (now - oldest)%Z in
      let due := (interval <=? age)%Z in
      let reason := "The oldest reading is " +:+ ct_duration cat age +:+ " old and everything is read every " +:+ ct_duration cat interval +:+ ": " +:+ (if due then "due" else "not due") +:+ "." in
      if negb due && negb (bool_decide (length forced = 0%nat))
      then mkVerdict interval (carry now controller_id forced true s) forced (asked_kinds forced) true
             (reason +:+ ended (" A refresh was asked for " +:+ join ", " (map fr_subject forced))) (Some age)
      else mkVerdict interval (carry now controller_id forced false s) forced [] (due || negb (bool_decide (length forced = 0%nat))) reason (Some age)
  end.

(** * Asking for a read *)

(** A row of the log about a read request ([register_audit(ReadRequest, ...)]). *)
Definition request_event (action : string) (r : ReadRequest) (message : string) (metadata : dict) : Event :=
  mkEvent action "Read request" (pretty (rq_pk r)) "" message metadata None.

Definition requested_again (now : Z) (r : ReadRequest) : ReadRequest := mkReadRequest (rq_pk r) (rq_connection_ref r) (rq_kind r) now.
Definition is_request (ref kind : string) (r : ReadRequest) : bool := bool_decide (rq_connection_ref r = ref) && bool_decide (rq_kind r = kind).

(** [ReadRequest.objects.update_or_create(connection_ref=..., kind=..., defaults={"requested_at": now})] *)
Definition ask_for (now : Z) (ref kind : string) : M exn Shelf unit :=
  found ← gets (fun s => first_where (is_request ref kind) (sh_requests s));
  match found with
  | Some r =>
      _ ← modify (fun s => set_sh_requests (update_where (is_request ref kind) (requested_again now) (sh_requests s)) s);
      if (rq_requested_at r =? now)%Z then mret tt
      else let '(said, changes) := ct_moved cat (rq_requested_at r) now in
           _ ← on_database (record_event false now (request_event "updated" r said (dset "changes" changes context))); mret tt
  | None =>
      pk ← on_database take_id;
      let r := mkReadRequest pk ref kind now in
      _ ← modify (fun s => set_sh_requests (sh_requests s ++ [r])%list s);
      _ ← on_database (record_event false now (request_event "created" r "" context)); mret tt
  end.

(** [settle_read_requests()] *)
Definition settle_read_requests (now : Z) : M exn Shelf nat :=
  pending ← gets (fun s => map (fun r => (fr_connection_ref r, fr_kind r)) (forced_reads now s));
  settled ← gets (fun s => rows_where (fun r => negb (bool_decide ((rq_connection_ref r, rq_kind r) ∈ pending))) (sh_requests s));
  _ ← for_each (fun r =>
    _ ← modify (fun s => set_sh_requests (delete_where (fun x => bool_decide (rq_pk x = rq_pk r)) (sh_requests s)) s);
    _ ← on_database (record_event false now (request_event "deleted" r
          ("Read of " +:+ str_or (rq_connection_ref r) (str_or (rq_kind r) "every connection") +:+ " answered") context));
    mret tt) settled;
  mret (length settled).

(** [ControllerSweepCommand] *)
Record ControllerSweepCommand : Type := mkControllerSweepCommand { sw_connection_ref : string; sw_kind : string; sw_every_connection : bool }.

(** What a validation error of these fields is told as. *)
Definition refused_fields (errors : list (string * list DjangoError)) : exn :=
  let r := django_refusal subject errors in DjangoValidationError (ir_message r) (ir_details r).

Definition known_kind (kind : string) : bool :=
  match observation_of kind with Some _ => true | None => match ct_provider cat kind with Some _ => true | None => false end end.

(** [_read_subject(command)] *)
Definition read_subject (command : ControllerSweepCommand) (s : Shelf) : outcome exn (option (string * string)) :=
  let ref := strip (sw_connection_ref command) in
  let kind := strip (sw_kind command) in
  let named := ((if decide (ref = "") then [] else ["connection_ref"]) ++ (if decide (kind = "") then [] else ["kind"]) ++
                (if sw_every_connection command then ["every_connection"] else []))%list in
  if (1 <? length named)%nat then Raise (refused_fields (map (fun n => (n, [mkDjangoError "" None])) named))
  else if negb (bool_decide (ref = "")) && bool_decide (connection_providers ref s = []) then Raise (refused_fields [("connection_ref", [mkDjangoError "invalid_choice" None])])
  else if negb (bool_decide (kind = "")) && negb (known_kind kind) then Raise (refused_fields [("kind", [mkDjangoError "invalid_choice" None])])
  else Ok (if (length named =? 0)%nat then None else Some (ref, kind)).

(** * Whether a pass is due *)

(** [unapplied()] *)
Definition applied_kinds : list string := map fst (List.filter (fun ka => bool_decide (ka.2 = RECONCILE)) (pl_actions plant)).
Definition applies : list string := RECONCILE :: map snd (List.filter (fun ka => bool_decide (ka.1 ∈ applied_kinds)) (pl_actions plant)).

Definition op_generation (o : OperationRequest) : option json := match op_input o with JObj d => dget "generation" d | _ => None end.

Definition handled (r : ManagedResource) (db : Db) : bool :=
  existsb (fun o => bool_decide (op_resource o = mr_id r) && bool_decide (op_action o ∈ applies) && bool_decide (op_generation o = Some (JNum (mr_generation r)))) (db_operations db).

Definition moved (db : Db) : list ManagedResource :=
  order_by mr_kind (order_by mr_key (rows_where (fun r => mr_enabled r && bool_decide (mr_kind r ∈ applied_kinds) && (mr_observed_generation r <? mr_generation r)%Z && negb (handled r db)) (db_resources db))).

Definition unapplied (db : Db) : list string := map mr_key (rows_where (fun r => negb (pl_observes_only plant r db)) (moved db)).

(** [pass_due()] *)
Definition pass_due (asked_ahead : bool) (now : Z) (s : Shelf) : string :=
  let db := sh_db s in
  if existsb (fun o => bool_decide (op_state o = O_QUEUED)) (db_operations db) then "Work is queued."
  else if existsb (lease_lapsed now) (db_operations db) then "Work a controller took did not finish in time."
  else if existsb (fun p => negb (is_some (pn_completed_at p)) && (now - read_request_lifetime cs <=? pn_requested_at p)%Z) (sh_panels s) then "A dashboard reading was asked for."
  else if negb (bool_decide (length (unapplied db) = 0%nat)) then "A record's settings changed and nothing has applied them yet."
  else let verdict := sweep_due asked_ahead now "" s in if vd_due verdict then vd_reason verdict else "".

(** [ring_when_due()] and the doorbell's [ask()] *)
Definition ring_when_due (asked_ahead : bool) (now : Z) : M exn Shelf bool :=
  why ← gets (pass_due asked_ahead now);
  if decide (why = "") then mret false else ring_doorbell.

(** * Requests *)

(** [request_readings(kinds)] *)
Definition request_readings (now : Z) (kinds : list string) : M exn Shelf bool := _ ← for_each (ask_for now "") kinds; ring_doorbell.

Definition GITHUB_KIND : string := "github.delivery".

(** [request_boot_reads()]: [holds_github] is whether a record of the GitHub kind is declared. *)
Definition request_boot_reads (now : Z) : M exn Shelf (list string) :=
  let current := map (fun o => (o.1, ob_fingerprint o.2)) (ct_observations cat) in
  s ← get;
  let stored := default [] (sh_contracts s) in
  let fingerprint_in (d : list (string * string)) kind := snd <$> first_where (fun kv => bool_decide (kv.1 = kind)) d in
  let held := map in_kind (sh_inventories s) in
  let delivery := bool_decide (GITHUB_KIND ∈ held) || existsb (fun r => bool_decide (mr_kind r = GITHUB_KIND)) (db_resources (sh_db s)) in
  let moved_kinds := sorted (List.filter (fun kind => is_some (observation_of kind) && negb (bool_decide (fingerprint_in stored kind = fingerprint_in current kind)) && swept kind) held) in
  let asked := ((if delivery then [GITHUB_KIND] else []) ++ moved_kinds)%list in
  _ ← (if decide (asked = []) then mret tt else (_ ← request_readings now asked; mret tt));
  _ ← modify (set_sh_contracts (Some current));
  mret asked.

(** [_read_label(subject)] *)
Definition read_label (s : option (string * string)) : string :=
  match s with None => "" | Some (ref, kind) => str_or ref (str_or kind "every connection") end.

(** [requested(words, subject)] *)
Definition requested_words (words about : string) : string :=
  ended (words +:+ " requested" +:+ (if decide (about = "") then "" else " for " +:+ about)).

(** [_sweep_message(subject, due=...)] *)
Definition sweep_message (s : option (string * string)) (due : bool) : string :=
  let '(ref, kind) := default ("", "") s in
  if negb (bool_decide (ref = "")) || negb (bool_decide (kind = "")) then requested_words (ct_refresh cat "") (str_or ref (ct_label cat kind))
  else
    let asked := requested_words (ct_refresh cat "all") "" in
    if due || is_some s then asked else asked +:+ " What HQ shows is already up to date.".

(** [request_controller_sweep(command)] *)
Definition request_controller_sweep (asked_ahead : bool) (now : Z) (command : ControllerSweepCommand) : M exn Shelf dict :=
  found ← act (fun s => (read_subject command s, s));
  _ ← note_activity cs now;
  _ ← match found with Some (ref, kind) => ask_for now ref kind | None => mret tt end;
  verdict ← gets (sweep_due asked_ahead now "");
  rung ← ring_doorbell;
  _ ← raise_if (negb rung) (ValueError "HQ could not reach the controller to start it.");
  mret [("ok", JBool true); ("requested", JBool true); ("due", JBool (vd_due verdict)); ("reason", JStr (vd_reason verdict));
        ("read_now", JStr (read_label found)); ("message", JStr (sweep_message found (vd_due verdict)))].

(** [request_reads(kinds)] *)
Fixpoint wanted_kinds (kinds : list string) (s : Shelf) : outcome exn (list string) :=
  match kinds with
  | [] => Ok []
  | kind :: rest =>
      match read_subject (mkControllerSweepCommand "" kind false) s with
      | Raise e => Raise e
      | Ok found => match wanted_kinds rest s with Raise e => Raise e | Ok l => Ok (match found with Some (_, k) => k :: l | None => l end) end
      end
  end.

Definition request_reads (now : Z) (kinds : list string) : M exn Shelf (list string) :=
  atomic (
    wanted ← act (fun s => (wanted_kinds (fromkeys kinds) s, s));
    if decide (wanted = []) then mret []
    else
      _ ← note_activity cs now;
      _ ← for_each (ask_for now "") wanted;
      _ ← on_database (on_commit RingDoorbell);
      mret wanted).
End Cadence.

(** * A quiet doorbell *)

Lemma existsb_none {A} (p : A -> bool) (l : list A) : existsb p l = false -> forall x, x ∈ l -> p x = false.
Proof. intros H x Hx. destruct (p x) eqn:Hp; [|done]. rewrite <- H. symmetry. apply existsb_exists. exists x. by rewrite <- list_elem_of_In. Qed.

Lemma existsb_some {A} (p : A -> bool) (l : list A) x : x ∈ l -> p x = true -> existsb p l = true.
Proof. intros Hx Hp. apply existsb_exists. exists x. by rewrite <- list_elem_of_In. Qed.

Lemma rows_where_nil {A} (p : A -> bool) (rows : list A) : (forall x, x ∈ rows -> p x = false) -> rows_where p rows = [].
Proof.
  unfold rows_where. induction rows as [|x rows IH]; intros H; [done|]. cbn. rewrite H by by left. apply IH. intros y Hy. apply H. by right.
Qed.

Section Quiet.
Variables (cat : Catalogue) (cs : CadenceSettings) (plant : Plant).

(** What leaves the doorbell silent. *)
Lemma pass_due_silent asked_ahead now s : pass_due cat cs plant asked_ahead now s = "" ->
  (forall o, o ∈ db_operations (sh_db s) -> op_state o <> O_QUEUED /\ lease_lapsed now o = false) /\
  unapplied plant (sh_db s) = [] /\ forced_reads cat cs now s = [] /\
  exists oldest, oldest_sweep cat s = Some oldest /\ (now - oldest < sweep_interval cs asked_ahead now s)%Z.
Proof.
  unfold pass_due. destruct (existsb _ (db_operations (sh_db s))) eqn:Hq; [done|]. destruct (existsb (lease_lapsed now) _) eqn:Hl; [done|].
  destruct (existsb _ (sh_panels s)); [done|]. destruct (bool_decide_reflect (length (unapplied plant (sh_db s)) = 0%nat)) as [Hu|]; [|done]. cbn [negb].
  unfold sweep_due. destruct (oldest_sweep cat s) as [oldest|] eqn:Ho; [|done]. destruct (Z.leb_spec (sweep_interval cs asked_ahead now s) (now - oldest)) as [Hdue|Hdue]; cbn [negb andb orb vd_due vd_reason]; [done|].
  destruct (bool_decide_reflect (length (forced_reads cat cs now s) = 0%nat)) as [Hf|Hf]; cbn [negb vd_due vd_reason]; [|done]. intros _. split_and!.
  - intros o Hin. split; [|by eapply existsb_none]. intros Hs. pose proof (existsb_none _ _ Hq o Hin) as H. cbn in H. by rewrite bool_decide_eq_true_2 in H.
  - by apply length_zero_iff_nil.
  - by apply length_zero_iff_nil.
  - by exists oldest.
Qed.

End Quiet.

(** * Asked reads, and the sweep that answers them *)

Section Reads.
Variables (cat : Catalogue) (cs : CadenceSettings).

Lemma elem_forced now s r : r ∈ forced_reads cat cs now s <->
  exists q, q ∈ sh_requests s /\ (now - read_request_lifetime cs <= rq_requested_at q)%Z /\ r = forced_of cat s q /\ answered_read cat s r = false.
Proof.
  unfold forced_reads. rewrite elem_of_rows_where, list_elem_of_fmap, negb_true_iff. split.
  - intros [(q & -> & Hq) Ha]. rewrite order_by_time_perm, elem_of_rows_where, Z.leb_le in Hq. exists q. tauto.
  - intros (q & Hq & Hlife & -> & Ha). split; [|done]. exists q. split; [done|]. rewrite order_by_time_perm, elem_of_rows_where, Z.leb_le. done.
Qed.

Lemma fold_min_spec l x t : (t < x)%Z -> Forall (fun y => t < y)%Z l -> (t < fold_left Z.min l x)%Z.
Proof. intros Hx Hl. revert x Hx. induction Hl as [|y l Hy _ IH]; intros x Hx; [done|]. cbn. apply IH. lia. Qed.

Lemma earliest_after l t : l <> [] -> Forall (fun y => t < y)%Z l -> exists m, earliest l = Some m /\ (t < m)%Z.
Proof. destruct l as [|x l]; [done|]. intros _ H. inversion_clear H as [|? ? Hx Hl]. eexists. split; [done|]. by apply fold_min_spec. Qed.

Lemma fold_max_le (l : list Z) x t : (x <= t)%Z -> Forall (fun y => y <= t)%Z l -> (fold_left Z.max l x <= t)%Z.
Proof. intros Hx Hl. revert x Hx. induction Hl as [|y l Hy _ IH]; intros x Hx; [done|]. cbn. apply IH. lia. Qed.

Lemma elem_of_fromkeys items x : x ∈ fromkeys items <-> x ∈ items.
Proof.
  induction items as [|y items IH]; [done|]. cbn. rewrite !elem_of_cons. split.
  - intros [->|H]; [by left|right]. rewrite list_elem_of_In, filter_In, <- list_elem_of_In in H. apply IH. by destruct H.
  - intros [->|H]; [by left|]. destruct (decide (x = y)) as [->|Hne]; [by left|right]. rewrite list_elem_of_In, filter_In, <- list_elem_of_In, IH. split; [done|]. by rewrite bool_decide_eq_false_2.
Qed.

(** What the controller's sweep is told to read: the kinds a verdict names, or every kind a sweep reads. *)
Definition told_to_read (v : Verdict) (kind : string) : Prop := if decide (vd_only_kinds v = []) then swept cat kind = true else kind ∈ vd_only_kinds v.

(** A sweep that did what a verdict of [now] told it: every kind is stored after it, and every connection
    it was not to carry was probed after it. *)
Record Obeyed (now : Z) (v : Verdict) (s s' : Shelf) : Prop := {
  ob_providers : forall ref, connection_providers ref s' = connection_providers ref s;
  ob_one_row : NoDup (map in_kind (sh_inventories s'));
  ob_stored : forall kind, told_to_read v kind -> exists t, stored_at kind s' = Some t /\ (now < t)%Z;
  ob_probed : forall ref, ref ∈ map cn_ref (sh_connections s) -> ref ∉ vd_carry v -> exists t, probed_at ref s' = Some t /\ (now < t)%Z;
}.

(** What was asked, of what can be read: the past, a connection that was reported, a kind a sweep reads. *)
Definition readable_request (now : Z) (s : Shelf) (q : ReadRequest) : Prop :=
  (rq_requested_at q <= now)%Z /\ (rq_connection_ref q <> "" -> rq_connection_ref q ∈ map cn_ref (sh_connections s)) /\
  (forall kinds kind, forced_kinds cat (rq_connection_ref q) (rq_kind q) s = Some kinds -> kind ∈ kinds -> swept cat kind = true).

Lemma carry_spares now c forced failing s ref : ref <> "" -> ref ∈ map fr_connection_ref forced -> ref ∉ carry cs now c forced failing s.
Proof.
  intros Hne Hin. unfold carry. case_decide; [by intros ?%elem_of_nil|]. rewrite list_elem_of_In, filter_In. intros [_ Hno]. apply negb_true_iff, bool_decide_eq_false in Hno. apply Hno.
  rewrite list_elem_of_In, filter_In, <- list_elem_of_In. split; [done|]. by rewrite bool_decide_eq_false_2.
Qed.

Lemma verdict_carry asked_ahead now c s : exists failing, vd_carry (sweep_due cat cs asked_ahead now c s) = carry cs now c (forced_reads cat cs now s) failing s.
Proof. unfold sweep_due. destruct (oldest_sweep cat s); [|by exists false]. destruct (_ && _); [by exists true|by exists false]. Qed.

Lemma verdict_kinds asked_ahead now c s : let v := sweep_due cat cs asked_ahead now c s in
  vd_only_kinds v = [] \/ vd_only_kinds v = asked_kinds (forced_reads cat cs now s).
Proof. unfold sweep_due. destruct (oldest_sweep cat s); [|by left]. destruct (_ && _); [by right|by left]. Qed.

(** A kind some pending request forces is among what the sweep is told to read. *)
Lemma forced_is_told asked_ahead now c s q kinds kind : readable_request now s q -> forced_of cat s q ∈ forced_reads cat cs now s ->
  forced_kinds cat (rq_connection_ref q) (rq_kind q) s = Some kinds -> kind ∈ kinds -> told_to_read (sweep_due cat cs asked_ahead now c s) kind.
Proof.
  intros (_ & _ & Hswept) Hf Hk Hin. unfold told_to_read. case_decide as Hnone; [by eapply Hswept|]. destruct (verdict_kinds asked_ahead now c s) as [?|Heq]; [done|]. rewrite Heq in *. unfold asked_kinds in *.
  destruct (existsb _ _); [done|]. rewrite sorted_perm. apply elem_of_remove_dups. rewrite list_elem_of_In, in_concat. exists kinds. rewrite <- !list_elem_of_In. split; [|done].
  apply list_elem_of_fmap. exists (forced_of cat s q). split; [|done]. cbn. by rewrite Hk.
Qed.

End Reads.

(** * What asking leaves *)

Section Asking.
Variables (cat : Catalogue) (cs : CadenceSettings) (context : dict) (subject : string).

(** Nothing moved but the read requests and the log. *)
Record beside (s s' : Shelf) : Prop := {
  bs_inventories : sh_inventories s' = sh_inventories s;
  bs_connections : sh_connections s' = sh_connections s;
  bs_host : sh_host_down s' = sh_host_down s;
  bs_rings : sh_rings s' = sh_rings s;
  bs_operations : db_operations (sh_db s') = db_operations (sh_db s);
  bs_effects : db_effects (sh_db s') = db_effects (sh_db s);
}.

#[local] Instance beside_preorder : PreOrder beside.
Proof. split; [by split|]. intros s1 s2 s3 [] []. split; congruence. Qed.

Lemma event_beside now e s : exists id db, on_database (record_event false now e) s = (Ok id, set_sh_db db s) /\ beside s (set_sh_db db s) /\
  (db_audit_down (sh_db s) = false -> exists row, db_audit db = (db_audit (sh_db s) ++ [row])%list /\ al_action row = ev_action e /\ al_object_id row = ev_object e /\ al_message row = ev_message e) /\ db_audit_down db = db_audit_down (sh_db s).
Proof.
  unfold on_database, record_event. destruct (db_audit_down (sh_db s)) eqn:Hdown; do 2 eexists; (split; [done|]); split_and!; try done; try (by split). intros _. eexists. by split_and!.
Qed.

Lemma ask_for_spec now ref kind s : exists s', ask_for cat context now ref kind s = (Ok tt, s') /\ beside s s' /\
  (forall q, is_request ref kind q = false -> q ∈ sh_requests s' <-> q ∈ sh_requests s) /\
  (forall q, q ∈ sh_requests s' -> is_request ref kind q = true -> rq_requested_at q = now) /\
  (exists q, q ∈ sh_requests s' /\ is_request ref kind q = true).
Proof.
  unfold ask_for. rewrite (bind_step _ _ _ (first_where (is_request ref kind) (sh_requests s)) s) by done. destruct (first_where (is_request ref kind) (sh_requests s)) as [r|] eqn:Hfind.
  - apply first_where_some in Hfind as [Hin Hr]. set (s1 := set_sh_requests (update_where (is_request ref kind) (requested_again now) (sh_requests s)) s). rewrite (bind_step _ _ _ tt s1) by done.
    assert (beside s s1) as Hb1 by by split.
    assert ((forall q, is_request ref kind q = false -> q ∈ sh_requests s1 <-> q ∈ sh_requests s) /\ (forall q, q ∈ sh_requests s1 -> is_request ref kind q = true -> rq_requested_at q = now) /\
      (exists q, q ∈ sh_requests s1 /\ is_request ref kind q = true)) as Hrows.
    { cbn [s1 sh_requests set_sh_requests]. split_and!.
      - intros q Hq. rewrite elem_of_update_where. split; [intros (y & Hy & ->); destruct (is_request ref kind y) eqn:Hy'; [by cbn in Hq; unfold is_request in *; cbn in Hq; rewrite Hq in Hy'|done]|]. intros Hq'. exists q. by rewrite Hq.
      - intros q (y & Hy & ->)%elem_of_update_where Hq. destruct (is_request ref kind y) eqn:Hy'; [done|congruence].
      - exists (requested_again now r). split; [|done]. apply elem_of_update_where. exists r. by rewrite Hr. }
    destruct (rq_requested_at r =? now)%Z; [by exists s1|]. destruct (ct_moved cat (rq_requested_at r) now) as [said changes].
    destruct (event_beside now (request_event "updated" r said (dset "changes" changes context)) s1) as (id & db & Hev & Hb & _). rewrite (bind_step _ _ _ _ _ Hev). eexists. split; [done|]. split; [by etransitivity|exact Hrows].
  - pose proof (first_where_none _ _ Hfind) as Hnone. set (s1 := set_sh_db (set_db_next_id (db_next_id (sh_db s) + 1)%N (sh_db s)) s). rewrite (bind_step _ _ _ (db_next_id (sh_db s)) s1) by done.
    set (r := mkReadRequest (db_next_id (sh_db s)) ref kind now). set (s2 := set_sh_requests (sh_requests s1 ++ [r])%list s1). cbv zeta. rewrite (bind_step _ _ _ tt s2) by done.
    destruct (event_beside now (request_event "created" r "" context) s2) as (id & db & Hev & Hb & _). rewrite (bind_step _ _ _ _ _ Hev). eexists. split; [done|]. assert (is_request ref kind r = true) as Hr by (unfold is_request; cbn; by rewrite !bool_decide_eq_true_2).
    split; [transitivity s2; [by split|done]|]. cbn [sh_requests set_sh_db s2 set_sh_requests s1]. split_and!.
    + intros q Hq. rewrite elem_of_app, list_elem_of_singleton. split; [intros [?| ->]; [done|congruence]|by left].
    + intros q [Hq| ->%list_elem_of_singleton]%elem_of_app Hq'; [by rewrite (Hnone q Hq) in Hq'|done].
    + exists r. split; [apply elem_of_app; right; by left|done].
Qed.

Lemma is_request_other ref k k' q : is_request ref k q = true -> k <> k' -> is_request ref k' q = false.
Proof. unfold is_request. rewrite andb_true_iff, !bool_decide_eq_true. intros [_ <-] Hne. apply andb_false_iff. right. by apply bool_decide_eq_false_2. Qed.

Lemma ask_each now kinds : forall s, exists s', for_each (ask_for cat context now "") kinds s = (Ok tt, s') /\ beside s s' /\
  (forall q, (rq_connection_ref q <> "" \/ rq_kind q ∉ kinds) -> q ∈ sh_requests s' <-> q ∈ sh_requests s) /\
  (forall k, k ∈ kinds -> (exists q, q ∈ sh_requests s' /\ is_request "" k q = true) /\ forall q, q ∈ sh_requests s' -> is_request "" k q = true -> rq_requested_at q = now).
Proof.
  induction kinds as [|k kinds IH]; intros s; [exists s; split_and!; [done|done|done|by intros k ?%elem_of_nil]|]. cbn [for_each].
  destruct (ask_for_spec now "" k s) as (s1 & Hask & Hb1 & Hother & Hnow & Hex). rewrite (bind_step _ _ _ _ _ Hask). destruct (IH s1) as (s2 & Hrest & Hb2 & Hother2 & Hk2). exists s2.
  assert (forall q k0, is_request "" k0 q = true -> rq_connection_ref q = "" /\ rq_kind q = k0) as Hreq by (intros q k0; unfold is_request; by rewrite andb_true_iff, !bool_decide_eq_true).
  split_and!; [done|by etransitivity| |].
  - intros q Hq. rewrite Hother2, Hother; [done| |destruct Hq as [?|Hq]; [by left|right; set_solver]]. destruct (is_request "" k q) eqn:Hr; [|done]. apply Hreq in Hr as [? <-]. destruct Hq as [?|Hq]; [done|set_solver].
  - intros k' Hk'. destruct (decide (k' ∈ kinds)) as [Hin|Hout]; [by apply Hk2|]. assert (k' = k) as -> by set_solver.
    assert (forall q, is_request "" k q = true -> q ∈ sh_requests s2 <-> q ∈ sh_requests s1) as Hsame by (intros q Hq; apply Hother2; right; by apply Hreq in Hq as [_ ->]).
    split; [destruct Hex as (q & Hq & Hr); exists q; by rewrite Hsame|]. intros q Hq Hr. apply Hnow; [by apply Hsame|done].
Qed.

Lemma wanted_known kinds s wanted : wanted_kinds cat subject kinds s = Ok wanted -> forall k, k ∈ wanted -> k <> "" /\ known_kind cat k = true.
Proof.
  revert wanted. induction kinds as [|kind kinds IH]; intros wanted; cbn; [intros [= <-] k Hk; by apply elem_of_nil in Hk|].
  unfold read_subject. cbn [sw_connection_ref sw_kind sw_every_connection]. change (strip "") with "". rewrite (decide_True (P := "" = "")) by done. cbn [app]. rewrite app_nil_r.
  destruct (decide (strip kind = "")) as [He|He]; cbn [length Nat.ltb Nat.leb negb andb].
  - rewrite He. cbn. destruct (wanted_kinds _ _ _ _) as [l|]; [|done]. intros [= <-]. by apply IH.
  - rewrite (bool_decide_eq_false_2 (strip kind = "")) by done. rewrite bool_decide_eq_true_2 by done. cbn [negb andb]. destruct (known_kind cat (strip kind)) eqn:Hknown; [|done]. cbn.
    destruct (wanted_kinds _ _ _ _) as [l|]; [|done]. intros [= <-] k [->|Hk]%elem_of_cons; [done|]. by apply (IH l).
Qed.

Lemma note_beside now s : beside s (note_activity cs now s).2 /\ sh_requests (note_activity cs now s).2 = sh_requests s.
Proof.
  assert (beside s s /\ beside s (set_sh_activity (Some now) s)) as [H1 H2] by by split; split.
  unfold note_activity, modify. cbn [snd]. destruct (sh_activity s) as [t|]; [destruct (_ <? _)%Z; [done|]|]; by destruct (sh_host_down s).
Qed.

(** A request of this moment, of a kind nothing was stored of later, is pending. *)
Lemma fresh_is_forced now s q k : q ∈ sh_requests s -> is_request "" k q = true -> k <> "" -> rq_requested_at q = now ->
  (forall i, i ∈ sh_inventories s -> (in_updated_at i <= now)%Z) -> mkForcedRead "" k now (Some [k]) ∈ forced_reads cat cs now s.
Proof.
  unfold is_request. rewrite andb_true_iff, !bool_decide_eq_true. intros Hq [Href Hkind] Hne Hat Hpast. apply elem_forced. exists q. split_and!; [done|unfold read_request_lifetime, seconds, SECOND; lia| |].
  - unfold forced_of, forced_kinds. rewrite Href, Hkind, Hat. by rewrite bool_decide_eq_false_2.
  - unfold answered_read. cbn [fr_connection_ref fr_requested_at fr_kinds forallb]. rewrite bool_decide_eq_true_2 by done. cbn [negb andb]. rewrite andb_true_r. apply Z.ltb_ge.
    unfold stored_at. destruct (first_where _ _) as [i|] eqn:Hi; [|done]. apply first_where_some in Hi as [Hi _]. by apply Hpast.
Qed.

Lemma forced_makes_due asked_ahead now c s r : r ∈ forced_reads cat cs now s -> vd_due (sweep_due cat cs asked_ahead now c s) = true.
Proof.
  intros Hr. unfold sweep_due. destruct (oldest_sweep cat s); [|done]. destruct (forced_reads cat cs now s) as [|x l]; [by apply elem_of_nil in Hr|]. cbn [length]. rewrite bool_decide_eq_false_2 by done. cbn [negb]. destruct (_ && true); [done|]. cbn. by rewrite orb_true_r.
Qed.

(** Asking for kinds to be read now either asks for all of them or leaves nothing: a kind that is none is
    refused before anything is written.  Every kind asked for then forces a sweep that is told to read
    it, no other request moves, and the controller is rung once, after the requests are stored. *)
Theorem asked_reads_are_forced (now : Z) (kinds : list string) (s s' : Shelf) (o : outcome exn (list string)) :
  (forall i, i ∈ sh_inventories s -> (in_updated_at i <= now)%Z) ->
  request_reads cat cs context subject now kinds s = (o, s') ->
  match o with
  | Raise e => s' = s /\ exists message details, e = DjangoValidationError message details
  | Ok wanted =>
      (forall k, k ∈ wanted -> known_kind cat k = true /\ mkForcedRead "" k now (Some [k]) ∈ forced_reads cat cs now s' /\
        forall asked_ahead c, vd_due (sweep_due cat cs asked_ahead now c s') = true) /\
      (forall q, rq_connection_ref q <> "" \/ rq_kind q ∉ wanted -> q ∈ sh_requests s' <-> q ∈ sh_requests s) /\
      db_effects (sh_db s') = (db_effects (sh_db s) ++ if decide (wanted = []) then [] else [RingDoorbell])%list /\ sh_rings s' = sh_rings s
  end.
Proof.
  intros Hpast Hrun. unfold request_reads in Hrun. destruct (wanted_kinds cat subject (fromkeys kinds) s) as [wanted|e] eqn:Hw.
  - unfold atomic in Hrun. rewrite (bind_step _ _ _ wanted s) in Hrun by (unfold act; by rewrite Hw). destruct (decide (wanted = [])) as [->|Hne].
    + injection Hrun as <- <-. split_and!; [by intros k ?%elem_of_nil|done|by rewrite app_nil_r|done].
    + set (s1 := (note_activity cs now s).2). assert (note_activity cs now s = (Ok tt, s1)) as Hnote by done. rewrite (bind_step _ _ _ _ _ Hnote) in Hrun.
      destruct (note_beside now s) as [Hb1 Hreq1]. fold s1 in Hb1, Hreq1.
      destruct (ask_each now wanted s1) as (s2 & Heach & Hb2 & Hother & Hasked). rewrite (bind_step _ _ _ _ _ Heach) in Hrun.
      set (s3 := set_sh_db (set_db_effects (db_effects (sh_db s2) ++ [RingDoorbell])%list (sh_db s2)) s2). rewrite (bind_step _ _ _ tt s3) in Hrun by done. injection Hrun as <- <-.
      pose proof (bs_inventories _ _ Hb2) as Hi2. pose proof (bs_inventories _ _ Hb1) as Hi1. split_and!.
      * intros k Hk. destruct (wanted_known _ _ _ Hw k Hk) as [Hk0 Hknown]. destruct (Hasked k Hk) as [(q & Hq & Hr) Hat].
        assert (mkForcedRead "" k now (Some [k]) ∈ forced_reads cat cs now s3) as Hf.
        { eapply fresh_is_forced; [exact Hq|done|done|by apply Hat|]. intros i Hi. apply Hpast. cbn [sh_inventories s3 set_sh_db] in Hi. by rewrite Hi2, Hi1 in Hi. }
        split_and!; [done|done|]. intros. by eapply forced_makes_due.
      * intros q Hq. cbn [sh_requests s3 set_sh_db]. rewrite Hother by done. by rewrite Hreq1.
      * rewrite decide_False by done. cbn. by rewrite (bs_effects _ _ Hb2), (bs_effects _ _ Hb1).
      * cbn. by rewrite (bs_rings _ _ Hb2), (bs_rings _ _ Hb1).
  - unfold atomic in Hrun. rewrite (bind_stop _ _ _ e s) in Hrun by (unfold act; by rewrite Hw). injection Hrun as <- <-. split; [done|]. clear -Hw.
    revert Hw. generalize (fromkeys kinds). intros l. induction l as [|kind l IH]; cbn; [done|]. destruct (read_subject cat subject (mkControllerSweepCommand "" kind false) s) as [found|e'] eqn:Hs.
    + destruct (wanted_kinds cat subject l s) as [l'|e']; [done|]. intros [= <-]. by apply IH.
    + intros [= <-]. unfold read_subject in Hs. repeat (case_match; try done); injection Hs as <-; unfold refused_fields; by do 2 eexists.
Qed.

(** * Settling *)

(** No two requests of one key, and none of one subject. *)
Definition requests_distinct (s : Shelf) : Prop := NoDup (map rq_pk (sh_requests s)) /\ NoDup (map (fun r => (rq_connection_ref r, rq_kind r)) (sh_requests s)).

Lemma settle_each now settled : forall s, exists s', for_each (fun r =>
    _ ← modify (fun s => set_sh_requests (delete_where (fun x => bool_decide (rq_pk x = rq_pk r)) (sh_requests s)) s);
    _ ← on_database (record_event false now (request_event "deleted" r
          ("Read of " +:+ str_or (rq_connection_ref r) (str_or (rq_kind r) "every connection") +:+ " answered") context));
    mret tt) settled s = (Ok tt, s') /\ beside s s' /\
  (forall q, q ∈ sh_requests s' <-> q ∈ sh_requests s /\ rq_pk q ∉ map rq_pk settled) /\
  (db_audit_down (sh_db s) = false -> exists rows, db_audit (sh_db s') = (db_audit (sh_db s) ++ rows)%list /\
    map al_message rows = map (fun r => "Read of " +:+ str_or (rq_connection_ref r) (str_or (rq_kind r) "every connection") +:+ " answered") settled).
Proof.
  induction settled as [|r settled IH]; intros s; [exists s; split_and!; [done|done|intros q; cbn; split; [split; [done|by intros ?%elem_of_nil]|tauto]|intros _; exists []; split; [by rewrite app_nil_r|done]]|].
  cbn [for_each]. set (s1 := set_sh_requests (delete_where (fun x => bool_decide (rq_pk x = rq_pk r)) (sh_requests s)) s).
  destruct (event_beside now (request_event "deleted" r ("Read of " +:+ str_or (rq_connection_ref r) (str_or (rq_kind r) "every connection") +:+ " answered") context) s1) as (id & db & Hev & Hb & Hlog & Hdown).
  destruct (IH (set_sh_db db s1)) as (s2 & Hrest & Hb2 & Hreq & Haudit). exists s2. split_and!.
  - erewrite bind_step; [exact Hrest|]. rewrite (bind_step _ _ _ tt s1) by done. by rewrite (bind_step _ _ _ _ _ Hev).
  - transitivity s1; [by split|]. by etransitivity.
  - intros q. rewrite Hreq. cbn [sh_requests set_sh_db s1 set_sh_requests map]. rewrite elem_of_delete_where, bool_decide_eq_false, not_elem_of_cons. tauto.
  - intros Hup. destruct (Hlog Hup) as (row & Hrow & _ & _ & Hmsg). destruct (Haudit ltac:(cbn; by rewrite Hdown)) as (rows & Hrows & Hmsgs). exists (row :: rows). cbn [sh_db set_sh_db] in Hrows. rewrite Hrows, Hrow, <- app_assoc. split; [done|]. cbn [map]. by rewrite Hmsg, Hmsgs.
Qed.

Lemma beside_forced now s s' : beside s s' -> (forall q, q ∈ sh_requests s' -> q ∈ sh_requests s) -> forall r, r ∈ forced_reads cat cs now s' -> r ∈ forced_reads cat cs now s.
Proof.
  intros [Hi Hc _ _ _ _] Hsub r (q & Hq & Hlife & -> & Hans)%elem_forced. apply elem_forced. exists q.
  assert (forced_of cat s' q = forced_of cat s q) as Hf by (unfold forced_of, forced_kinds, connection_providers; by rewrite Hc). split_and!; [by apply Hsub|done|done|]. rewrite Hf in Hans |- *. unfold answered_read, probed_at, stored_at in *. rewrite Hi, Hc in Hans. exact Hans.
Qed.

(** Settling forgets exactly the requests that no longer force a read, answered or past their lifetime:
    every one left is pending, what is pending is as it was, and each that went is in the log. *)
Theorem settling_keeps_what_is_pending (now : Z) (s : Shelf) : requests_distinct s ->
  exists n s', settle_read_requests cat cs context now s = (Ok n, s') /\
    (forall q, q ∈ sh_requests s' <-> q ∈ sh_requests s /\ exists r, r ∈ forced_reads cat cs now s /\ fr_connection_ref r = rq_connection_ref q /\ fr_kind r = rq_kind q) /\
    (forall r, r ∈ forced_reads cat cs now s' <-> r ∈ forced_reads cat cs now s) /\
    (db_audit_down (sh_db s) = false -> length (db_audit (sh_db s')) = (length (db_audit (sh_db s)) + n)%nat).
Proof.
  intros [Hpk Hsubj]. unfold settle_read_requests. rewrite (bind_step _ _ _ (map (fun r => (fr_connection_ref r, fr_kind r)) (forced_reads cat cs now s)) s) by done.
  set (settled := rows_where (fun r => negb (bool_decide ((rq_connection_ref r, rq_kind r) ∈ map (fun r => (fr_connection_ref r, fr_kind r)) (forced_reads cat cs now s)))) (sh_requests s)).
  rewrite (bind_step _ _ _ settled s) by done. destruct (settle_each now settled s) as (s' & Heach & Hb & Hreq & Haudit). rewrite (bind_step _ _ _ _ _ Heach). exists (length settled), s'. split; [done|].
  assert (forall q, q ∈ sh_requests s -> (rq_pk q ∉ map rq_pk settled <-> exists r, r ∈ forced_reads cat cs now s /\ fr_connection_ref r = rq_connection_ref q /\ fr_kind r = rq_kind q)) as Hkept.
  { intros q Hq. split.
    - intros Hout. destruct (decide ((rq_connection_ref q, rq_kind q) ∈ map (fun r => (fr_connection_ref r, fr_kind r)) (forced_reads cat cs now s))) as [Hin|Hno].
      + apply list_elem_of_fmap in Hin as (r & [= H1 H2] & Hr). by exists r.
      + destruct Hout. apply list_elem_of_fmap. exists q. split; [done|]. apply elem_of_rows_where. split; [done|]. by rewrite bool_decide_eq_false_2.
    - intros (r & Hr & H1 & H2) Hin. apply list_elem_of_fmap in Hin as (q' & Heq & Hq'). apply elem_of_rows_where in Hq' as [Hq' Hno]. assert (q = q') as <- by (by eapply (unique_by rq_pk)).
      apply negb_true_iff, bool_decide_eq_false in Hno. apply Hno. apply list_elem_of_fmap. exists r. by rewrite H1, H2. }
  split_and!.
  - intros q. rewrite Hreq. split; intros [Hq H]; (split; [done|]); by apply Hkept.
  - intros r. split; [by apply beside_forced; [|intros q Hq; by apply Hreq]|]. intros Hr. pose proof Hr as (q & Hq & Hlife & -> & Hans)%elem_forced. apply elem_forced. exists q.
    destruct Hb as [Hi Hc _ _ _ _]. assert (forced_of cat s' q = forced_of cat s q) as Hf by (unfold forced_of, forced_kinds, connection_providers; by rewrite Hc).
    split_and!; [|done|done|unfold answered_read, probed_at, stored_at in *; by rewrite Hi, Hc]. apply Hreq. split; [done|]. apply Hkept; [done|]. by exists (forced_of cat s q).
  - intros Hup. destruct (Haudit Hup) as (rows & -> & Hmsgs). rewrite length_app. f_equal. apply (f_equal length) in Hmsgs. by rewrite !length_map in Hmsgs.
Qed.
End Asking.

(** * Witnesses: a machine read by the sweep, a registry HQ reads itself, and a connection asked for *)

Definition small_catalogue : Catalogue := mkCatalogue
  [("machine.host", mkObservationSpec true false "f1"); ("registry.image", mkObservationSpec false false "f2")]
  (fun kind => if decide (kind = "dns.zone") then Some false else None)
  (fun provider => if decide (provider = "ssh") then ["machine.host"] else [])
  (fun kind => kind) (fun variant => if decide (variant = "all") then "Refresh all" else "Refresh")
  (fun t => pretty (t / SECOND)%Z +:+ " seconds") (fun _ _ => ("Asked again", JNull)).

Definition usual_cadence : CadenceSettings := mkCadenceSettings 60 900 300 43200 3600 900.

Definition idle_plant : Plant := mkPlant (fun _ _ => false) (fun _ _ => (true, "")) [("machine.host", RECONCILE)] (fun _ _ => Ok []) (fun _ _ => None) (fun _ _ => []) (fun _ => JNull) (fun _ => mret tt) (fun _ => true) (fun _ _ => "") false (fun _ => []) false (fun _ => None).

Definition read_at (t : Z) (requests : list ReadRequest) : Shelf :=
  mkShelf empty_db [mkInventory "machine.host" (Some (t * SECOND)%Z) (t * SECOND); mkInventory "dns.zone" None (100 * SECOND)]
    [mkConnection "vps" "homelab" "ssh" true true (t * SECOND)] requests [] None (Some (90 * SECOND)%Z) None 0 0 false.

Definition asked_of_vps : ReadRequest := mkReadRequest 1 "vps" "" (150 * SECOND).

Example verdict_of_a_refresh : let v := sweep_due small_catalogue usual_cadence false (200 * SECOND) "homelab" (read_at 100 [asked_of_vps]) in
  (vd_due v, vd_only_kinds v, vd_carry v, vd_reason v)
  = (true, ["machine.host"], [], "The oldest reading is 100 seconds old and everything is read every 300 seconds: not due. A refresh was asked for vps.").
Proof. vm_compute. reflexivity. Qed.



Lemma asked_reads_are_forced_witness :
  vd_due (sweep_due small_catalogue usual_cadence false (200 * SECOND) "homelab" (request_reads small_catalogue usual_cadence [] "page" (200 * SECOND) ["dns.zone"; ""; "dns.zone "] (read_at 100 [])).2) = true.
Proof.
  refine (proj2 (proj2 (proj1 (asked_reads_are_forced small_catalogue usual_cadence [] "page" (200 * SECOND) ["dns.zone"; ""; "dns.zone "] (read_at 100 []) _ (Ok ["dns.zone"; "dns.zone"]) _ _) "dns.zone" _)) false "homelab").
  - intros i Hi. vm_compute in Hi. apply elem_of_cons in Hi as [->|Hi]; [discriminate|]. apply list_elem_of_singleton in Hi. subst i. discriminate.
  - vm_compute. reflexivity.
  - left.
Defined.

Lemma settling_keeps_what_is_pending_witness : exists n s', settle_read_requests small_catalogue usual_cadence [] (300 * SECOND) (read_at 250 [asked_of_vps]) = (Ok n, s') /\
  forall r, r ∈ forced_reads small_catalogue usual_cadence (300 * SECOND) s' <-> r ∈ forced_reads small_catalogue usual_cadence (300 * SECOND) (read_at 250 [asked_of_vps]).
Proof.
  destruct (settling_keeps_what_is_pending small_catalogue usual_cadence [] (300 * SECOND) (read_at 250 [asked_of_vps])) as (n & s' & Hrun & _ & Hforced & _).
  - split; apply (bool_decide_unpack _); vm_compute; exact I.
  - exists n, s'. split; [exact Hrun|exact Hforced].
Defined.
