(* ===== verification/JsonText.v ===== *)
(** JSON text, read as Python's [json.loads] reads it and as HQ's doors do ([core/strict_json.py]).

    [value] is the scanner of Python's json.decoder, over what is left of the text.  A number with a
    fraction or an exponent, a constant such as [NaN] and a character past code point 255 are values
    [json] does not hold: the reader says [Beyond] of them.  What is never a value is [Malformed]. *)
From stdpp Require Import base gmap strings list pretty.
From Stdlib Require Import Ascii ZArith Lia.
From S2P Require Import Prelude PyStr Json.

#[local] Open Scope string_scope.

(** Why a text is not answered with a value.  [Repeated] and [Constant] are the refusals of the strict
    door; [Deep] is a reader out of fuel, which [loads] never is ([loads_has_fuel]). *)
Inductive unread : Type := Malformed | Repeated | Constant | Beyond | Deep.

#[export] Instance unread_eq_dec : EqDecision unread.
Proof. solve_decision. Defined.

Notation Reader := (M unread string).

Definition json_space (c : ascii) : bool := bool_decide (code c = 32 \/ code c = 9 \/ code c = 10 \/ code c = 13).

Definition skip_space : Reader unit := modify (lstrip_by json_space).

(** The next character, which is consumed. *)
Definition next_char : Reader ascii :=
  act (fun s => match s with String c r => (Ok c, r) | "" => (Raise Malformed, s) end).

(** [text.startswith(word, idx)], past it when it does. *)
Fixpoint after_word (word s : string) : option string :=
  match word, s with
  | "", _ => Some s
  | String c w, String d r => if decide (c = d) then after_word w r else None
  | _, "" => None
  end.

(** The longest run of ASCII digits, and what follows it. *)
Fixpoint digits_of (s : string) : string * string :=
  match s with
  | String c r => if ascii_digit c then let '(d, rest) := digits_of r in (String c d, rest) else ("", s)
  | "" => ("", "")
  end.

(** Whether a fraction or an exponent follows, which makes the number a float. *)
Definition goes_on (s : string) : bool :=
  match s with
  | String "."%char (String c _) => ascii_digit c
  | String c (String d r) =>
      bool_decide (c = "e"%char \/ c = "E"%char) &&
      (ascii_digit d || (bool_decide (d = "+"%char \/ d = "-"%char) && match r with String f _ => ascii_digit f | "" => false end))
  | _ => false
  end.

(** The digits of a number and what follows: a leading zero stands alone. *)
Definition digits_run (s : string) : string * string :=
  match s with String "0"%char r => ("0", r) | _ => digits_of s end.

(** A number from its digits on. *)
Definition number_from (negative : bool) : Reader json :=
  act (fun s =>
    let '(digits, rest) := digits_run s in
    if bool_decide (digits = "") then (Raise Malformed, s)
    else if goes_on rest then (Raise Beyond, rest)
    else match int_of digits with
         | Some z => (Ok (JNum (if negative then - z else z)%Z), rest)
         | None => (Raise Malformed, rest)
         end).

Definition hex_value (c : ascii) : option nat :=
  let n := code c in
  if ((48 <=? n) && (n <=? 57))%nat then Some (n - 48)
  else if ((97 <=? n) && (n <=? 102))%nat then Some (n - 87)
  else if ((65 <=? n) && (n <=? 70))%nat then Some (n - 55)
  else None.

(** What a backslash and the text after it stand for. *)
Definition unescape (s : string) : outcome unread ascii * string :=
  match s with
  | "" => (Raise Malformed, s)
  | String e r =>
      if bool_decide (e = quote) then (Ok e, r)
      else if bool_decide (e = "\"%char) then (Ok e, r)
      else if bool_decide (e = "/"%char) then (Ok e, r)
      else if bool_decide (e = "b"%char) then (Ok (ascii_of_nat 8), r)
      else if bool_decide (e = "f"%char) then (Ok (ascii_of_nat 12), r)
      else if bool_decide (e = "n"%char) then (Ok (ascii_of_nat 10), r)
      else if bool_decide (e = "r"%char) then (Ok (ascii_of_nat 13), r)
      else if bool_decide (e = "t"%char) then (Ok (ascii_of_nat 9), r)
      else if bool_decide (e = "u"%char) then
        match r with
        | String a (String b (String c (String d r'))) =>
            match hex_value a, hex_value b, hex_value c, hex_value d with
            | Some a, Some b, Some c, Some d =>
                if (a =? 0)%nat && (b =? 0)%nat then (Ok (ascii_of_nat (16 * c + d)), r') else (Raise Beyond, r')
            | _, _, _, _ => (Raise Malformed, r)
            end
        | _ => (Raise Malformed, r)
        end
      else (Raise Malformed, r)
  end.

(** [scanstring]: the text up to the quote that ends it, its opening quote already read. *)
Fixpoint scan_string (fuel : nat) (s : string) : outcome unread string * string :=
  match fuel with
  | 0 => (Raise Deep, s)
  | S fuel =>
      match s with
      | "" => (Raise Malformed, s)
      | String c r =>
          if bool_decide (c = quote) then (Ok "", r)
          else if bool_decide (c = "\"%char) then
            match unescape r with
            | (Ok x, r') => match scan_string fuel r' with (Ok t, r'') => (Ok (String x t), r'') | stop => stop end
            | (Raise e, r') => (Raise e, r')
            end
          else if (code c <? 32)%nat then (Raise Malformed, r)
          else match scan_string fuel r with (Ok t, r') => (Ok (String c t), r') | stop => stop end
      end
  end.

Definition a_string : Reader string := act (fun s => scan_string (S (String.length s)) s).

Section Reading.
(** Whether the door is strict: [parse_constant] and [object_pairs_hook] of [strict_json.loads]. *)
Variable strict : bool.

(** A constant JSON does not have: Python reads a float, the strict door refuses it. *)
Definition constant : Reader json := if strict then raise Constant else raise Beyond.

(** [_once_each(pairs)]; Python's own dict keeps the last copy where the first stood. *)
Definition once_each (pairs : dict) : Reader json :=
  if strict && negb (bool_decide (NoDup (keys pairs))) then raise Repeated
  else mret (JObj (fold_left (fun d kv => dset kv.1 kv.2 d) pairs [])).

(** A value, the rest of a list's items after [acc], and the rest of an object's members after [acc]. *)
Fixpoint value (fuel : nat) : Reader json :=
  match fuel with
  | 0 => raise Deep
  | S fuel =>
      s ← get;
      match after_word "null" s with
      | Some r => _ ← modify (fun _ => r); mret JNull
      | None =>
      match after_word "true" s with
      | Some r => _ ← modify (fun _ => r); mret (JBool true)
      | None =>
      match after_word "false" s with
      | Some r => _ ← modify (fun _ => r); mret (JBool false)
      | None =>
      match after_word "NaN" s with
      | Some _ => constant
      | None =>
      match after_word "Infinity" s with
      | Some _ => constant
      | None =>
      match after_word "-Infinity" s with
      | Some _ => constant
      | None =>
      match s with
      | "" => raise Malformed
      | String c r =>
          if bool_decide (c = quote) then (_ ← modify (fun _ => r); t ← a_string; mret (JStr t))
          else if bool_decide (c = "["%char) then
            (_ ← modify (fun _ => lstrip_by json_space r);
             s ← get;
             match after_word "]" s with
             | Some r => _ ← modify (fun _ => r); mret (JList [])
             | None => elements fuel []
             end)
          else if bool_decide (c = "{"%char) then
            (_ ← modify (fun _ => lstrip_by json_space r);
             s ← get;
             match after_word "}" s with
             | Some r => _ ← modify (fun _ => r); mret (JObj [])
             | None => members fuel []
             end)
          else if bool_decide (c = "-"%char) then (_ ← modify (fun _ => r); number_from true)
          else number_from false
      end end end end end end end
  end
with elements (fuel : nat) (acc : list json) : Reader json :=
  match fuel with
  | 0 => raise Deep
  | S fuel =>
      x ← value fuel;
      _ ← skip_space;
      c ← next_char;
      if bool_decide (c = "]"%char) then mret (JList (acc ++ [x])%list)
      else if bool_decide (c = ","%char) then (_ ← skip_space; elements fuel (acc ++ [x])%list)
      else raise Malformed
  end
with members (fuel : nat) (acc : dict) : Reader json :=
  match fuel with
  | 0 => raise Deep
  | S fuel =>
      q ← next_char;
      _ ← raise_if (negb (bool_decide (q = quote))) Malformed;
      k ← a_string;
      _ ← skip_space;
      colon ← next_char;
      _ ← raise_if (negb (bool_decide (colon = ":"%char))) Malformed;
      _ ← skip_space;
      x ← value fuel;
      _ ← skip_space;
      c ← next_char;
      if bool_decide (c = "}"%char) then once_each (acc ++ [(k, x)])%list
      else if bool_decide (c = ","%char) then (_ ← skip_space; members fuel (acc ++ [(k, x)])%list)
      else raise Malformed
  end.

Definition fuel_for (text : string) : nat := 2 * String.length text + 2.

(** [json.loads(text)], or [strict_json.loads(text)]: one value and nothing after it but space. *)
Definition loads (text : string) : outcome unread json :=
  match value (fuel_for text) (lstrip_by json_space text) with
  | (Ok j, rest) => if bool_decide (lstrip_by json_space rest = "") then Ok j else Raise Malformed
  | (Raise e, _) => Raise e
  end.
End Reading.

Definition q1 : string := String quote "".
Definition quoted_text (s : string) : string := q1 +:+ s +:+ q1.

Example loads_reads :
  loads false (" {" +:+ quoted_text "a" +:+ " : [1, -20 ,true],\n" +:+ quoted_text "a" +:+ ":" +:+ quoted_text "x\u00e9\n" +:+ "} ")
    = Raise Malformed /\
  loads false (" {" +:+ quoted_text "a" +:+ " : [1, -20 ,true]," +:+ quoted_text "a" +:+ ":" +:+ quoted_text "x\u0041" +:+ "} ")
    = Ok (JObj [("a", JStr "xA")]) /\
  loads true (" {" +:+ quoted_text "a" +:+ " : [1, -20 ,true]," +:+ quoted_text "a" +:+ ":" +:+ quoted_text "x\u0041" +:+ "} ")
    = Raise Repeated /\
  loads true "[1, -0, NaN]" = Raise Constant /\ loads false "[01]" = Raise Malformed /\ loads false "1.5" = Raise Beyond /\
  loads false "[1,]" = Raise Malformed /\ loads true "[[], {}, -12]" = Ok (JList [JList []; JObj []; JNum (-12)]).
Proof. vm_compute. by repeat split. Qed.

(** * What is printed is read back *)

(** [json.dumps(value, separators=(comma, colon))], which [print] is with no space in them. *)
Fixpoint print_sep (comma colon : string) (j : json) : string :=
  match j with
  | JList l => "[" +:+ join comma (map (print_sep comma colon) l) +:+ "]"
  | JObj d => "{" +:+ join comma (map (fun kv => dumps_str kv.1 +:+ colon +:+ print_sep comma colon kv.2) d) +:+ "}"
  | _ => print j
  end.

(** [json.dumps(value)] *)
Definition dumps_plain (j : json) : string := print_sep ", " ": " j.

(** A number [int] reads back: no longer than the interpreter's limit. *)
Definition short_number (z : Z) : bool := (Z.of_nat (String.length (pretty (Z.abs_N z))) <=? 4300)%Z.

(** A value a dict and a list can hold: no key twice in one object. *)
Fixpoint well_keyed (j : json) : bool :=
  match j with
  | JNum z => short_number z
  | JList l => forallb well_keyed l
  | JObj d => bool_decide (NoDup (keys d)) && forallb (fun kv => well_keyed kv.2) d
  | _ => true
  end.

(** Text a value cannot run on into. *)
Definition ends_value (s : string) : bool :=
  match s with "" => true | String c _ => bool_decide (c = ","%char \/ c = "]"%char \/ c = "}"%char) end.

Lemma digits_value_go (x : N) s : digits_value 0 (pretty_N_go x s) = digits_value (Z.of_N x) s.
Proof.
  revert s. induction (N.lt_wf_0 x) as [x _ IH]; intros s.
  assert (x = 0 \/ 0 < x)%N as [->|Hx] by lia; [by rewrite pretty_N_go_0|].
  rewrite pretty_N_go_step by done. rewrite IH by (by apply N.div_lt). cbn [digits_value]. f_equal.
  assert (Z.of_nat (code (pretty_N_char (x `mod` 10))) - 48 = Z.of_N (x `mod` 10))%Z as ->.
  { assert (x `mod` 10 < 10)%N as Hm by (by apply N.mod_lt). revert Hm. generalize (x `mod` 10)%N. intros [|p] Hp; [done|].
    do 10 (destruct p as [p|p|]; try done; try lia). }
  pose proof (N.div_mod x 10 ltac:(done)) as Hdm. revert Hdm. generalize (x / 10)%N (x `mod` 10)%N. lia.
Qed.

Lemma go_digits (x : N) s : str_all ascii_digit s = true -> str_all ascii_digit (pretty_N_go x s) = true.
Proof.
  revert s. induction (N.lt_wf_0 x) as [x _ IH]; intros s Hs.
  assert (x = 0 \/ 0 < x)%N as [->|?] by lia; [by rewrite pretty_N_go_0|].
  rewrite pretty_N_go_step by done. apply IH; [by apply N.div_lt|].
  cbn [str_all]. rewrite Hs, andb_true_r. unfold pretty_N_char. by repeat case_match.
Qed.

(** A positive number begins with a digit that is not zero. *)
Lemma go_head (x : N) s : (0 < x)%N -> exists c r, pretty_N_go x s = String c r /\ ascii_digit c = true /\ c <> "0"%char.
Proof.
  revert s. induction (N.lt_wf_0 x) as [x _ IH]; intros s Hx. rewrite pretty_N_go_step by done.
  destruct (N.eq_0_gt_0_cases (x / 10)) as [H0|H0]; [|by apply IH; [apply N.div_lt|]].
  rewrite H0, pretty_N_go_0. eexists _, _. split; [done|].
  assert (0 < x `mod` 10 < 10)%N as Hm.
  { pose proof (N.div_mod x 10 ltac:(done)) as Hdm. pose proof (N.mod_lt x 10 ltac:(done)) as Hlt. rewrite H0 in Hdm.
    revert Hdm Hlt. generalize (x `mod` 10)%N. lia. }
  revert Hm. generalize (x `mod` 10)%N. intros [|p] Hp; [lia|]. do 10 (destruct p as [p|p|]; try done; try lia).
Qed.

Lemma pretty_digits (n : N) :
  exists c r, pretty n = String c r /\ str_all ascii_digit (String c r) = true /\ (c = "0"%char -> r = "") /\ digits_value 0 (pretty n) = Z.of_N n.
Proof.
  unfold pretty, pretty_N. case_decide as Hn; [by subst; eexists _, _|].
  destruct (go_head n "" ltac:(lia)) as (c & r & Hg & Hc & H0). exists c, r.
  split_and!; [done| |done|by rewrite digits_value_go]. rewrite <- Hg. by apply go_digits.
Qed.

Lemma digits_of_app x s : str_all ascii_digit x = true -> match s with String c _ => ascii_digit c = false | "" => True end ->
  digits_of (x +:+ s) = (x, s).
Proof.
  intros Hx Hs. induction x as [|c x IH]; [destruct s as [|c s]; [done|change (digits_of (String c s) = ("", String c s)); cbn; by rewrite Hs]|].
  cbn in Hx. apply andb_true_iff in Hx as [Hc Hx]. change (digits_of (String c (x +:+ s)) = (String c x, s)). cbn. by rewrite Hc, IH.
Qed.

Lemma ends_value_digit s : ends_value s = true -> match s with String c _ => ascii_digit c = false | "" => True end.
Proof. destruct s as [|c s]; [done|]. cbn. intros [->|[->| ->]]%bool_decide_eq_true; done. Qed.

Lemma ends_value_goes_on s : ends_value s = true -> goes_on s = false.
Proof. destruct s as [|c s]; [done|]. cbn. intros [->|[->| ->]]%bool_decide_eq_true; by destruct s. Qed.

Lemma number_reads_back negative (n : N) s :
  short_number (Z.of_N n) = true -> ends_value s = true ->
  number_from negative (pretty n +:+ s) = (Ok (JNum (if negative then - Z.of_N n else Z.of_N n)%Z), s).
Proof.
  intros Hn Hs. unfold short_number in Hn. assert (Z.abs_N (Z.of_N n) = n) as Ha by lia. rewrite Ha in Hn.
  destruct (pretty_digits n) as (c & r & Hp & Hd & H0 & Hv). unfold number_from, act.
  assert (digits_run (pretty n +:+ s) = (pretty n, s)) as ->.
  { rewrite Hp. destruct (decide (c = "0"%char)) as [->|Hc]; [by rewrite (H0 eq_refl)|].
    rewrite <- (digits_of_app (String c r) s) by (done || by apply ends_value_digit).
    change (digits_run (String c (r +:+ s)) = digits_of (String c (r +:+ s))). unfold digits_run.
    destruct c as [[] [] [] [] [] [] [] []]; try done. }
  rewrite bool_decide_eq_false_2 by (by rewrite Hp). rewrite ends_value_goes_on by done. unfold int_of.
  assert (str_all ascii_digit (pretty n) = true) as -> by (by rewrite Hp). rewrite bool_decide_eq_false_2 by (by rewrite Hp).
  cbn [andb negb]. rewrite Hn, Hv. by destruct negative.
Qed.

(** A character is written as itself or as a backslash and what stands for it. *)
Lemma esc_cases c :
  (esc c = String c "" /\ bool_decide (c = quote) = false /\ bool_decide (c = "\"%char) = false /\ (code c <? 32)%nat = false) \/
  (exists e, esc c = String "\" e /\ forall t, unescape (e +:+ t) = (Ok c, t)).
Proof.
  destruct c as [[] [] [] [] [] [] [] []]; first [left; by vm_compute | right; eexists; split; [reflexivity|intros t; reflexivity]].
Qed.

Lemma scan_escaped n c t :
  scan_string (S n) (esc c +:+ t) = match scan_string n t with (Ok u, r) => (Ok (String c u), r) | (Raise e, r) => (Raise e, r) end.
Proof.
  destruct (esc_cases c) as [(-> & Hq & Hb & Hc)|(e & -> & He)].
  - change (String c "" +:+ t) with (String c t). cbn [scan_string]. rewrite Hq, Hb, Hc. by destruct (scan_string n t) as [[] ?].
  - change (String "\" e +:+ t) with (String "\" (e +:+ t)). cbn [scan_string]. rewrite He. by destruct (scan_string n t) as [[] ?].
Qed.

Lemma scan_reads_back n x s : String.length x < n -> scan_string n (esc_all x +:+ String quote s) = (Ok x, s).
Proof.
  revert n. induction x as [|c x IH]; intros [|n] Hn; [lia|done|lia|].
  change (esc_all (String c x)) with (esc c +:+ esc_all x). rewrite app_assoc_str, scan_escaped, IH by (cbn in Hn; lia). done.
Qed.

Lemma length_str_app x y : String.length (x +:+ y) = String.length x + String.length y.
Proof. induction x as [|c x IH]; [done|]. exact (f_equal S IH). Qed.

Lemma length_esc_all x : String.length x <= String.length (esc_all x).
Proof.
  induction x as [|c x IH]; [done|]. change (esc_all (String c x)) with (esc c +:+ esc_all x). rewrite length_str_app.
  assert (1 <= String.length (esc c)) by (destruct c as [[] [] [] [] [] [] [] []]; apply Nat.leb_le; reflexivity). cbn [String.length]. lia.
Qed.

Lemma a_string_reads_back x s : a_string (esc_all x +:+ String quote s) = (Ok x, s).
Proof. unfold a_string, act. apply scan_reads_back. rewrite length_str_app. pose proof (length_esc_all x). cbn. lia. Qed.

Lemma quoted_app x s : dumps_str x +:+ s = String quote (esc_all x +:+ String quote s).
Proof. unfold dumps_str. change (String quote ((esc_all x +:+ String quote "") +:+ s) = String quote (esc_all x +:+ String quote s)). by rewrite app_assoc_str. Qed.

(** How much fuel reading a value takes. *)
Fixpoint need (j : json) : nat :=
  match j with
  | JList l => S (list_sum (map (fun x => S (need x)) l))
  | JObj d => S (list_sum (map (fun kv => S (need kv.2)) d))
  | _ => 1
  end.

Lemma lstrip_spaces sp s : str_all json_space sp = true -> lstrip_by json_space (sp +:+ s) = lstrip_by json_space s.
Proof.
  induction sp as [|c sp IH]; [done|]. cbn. intros [Hc Hsp]%andb_true_iff. change (lstrip_by json_space (String c (sp +:+ s)) = lstrip_by json_space s).
  cbn. by rewrite Hc, IH.
Qed.

Lemma digit_char c : ascii_digit c = true -> exists d, d < 10 /\ c = ascii_of_nat (48 + d).
Proof.
  unfold ascii_digit, code. intros [H1%Nat.leb_le H2%Nat.leb_le]%andb_true_iff. exists (nat_of_ascii c - 48). split; [lia|].
  replace (48 + (nat_of_ascii c - 48)) with (nat_of_ascii c) by lia. by rewrite ascii_nat_embedding.
Qed.

(** A number's text, read as a value. *)
Lemma value_digit strict n c r : ascii_digit c = true -> value strict (S n) (String c r) = number_from false (String c r).
Proof. intros (d & Hd & ->)%digit_char. do 10 (destruct d as [|d]; [reflexivity|]). lia. Qed.

Lemma value_minus strict n c r : ascii_digit c = true -> value strict (S n) (String "-" (String c r)) = number_from true (String c r).
Proof. intros (d & Hd & ->)%digit_char. do 10 (destruct d as [|d]; [reflexivity|]). lia. Qed.

Lemma pretty_Z_neg p : pretty (Z.neg p) = String "-" (pretty (N.pos p)).
Proof. reflexivity. Qed.

Lemma number_value strict n z s : short_number z = true -> ends_value s = true -> value strict (S n) (pretty z +:+ s) = (Ok (JNum z), s).
Proof.
  intros Hz Hs. destruct z as [|p|p].
  - change (value strict (S n) (String "0" s) = (Ok (JNum 0), s)). rewrite value_digit by done. exact (number_reads_back false 0 s eq_refl Hs).
  - change (pretty (Z.pos p)) with (pretty (N.pos p)). destruct (pretty_digits (N.pos p)) as (c & r & Hp & Hd & _).
    rewrite Hp. change (String c r +:+ s) with (String c (r +:+ s)). rewrite value_digit by (by apply andb_true_iff in Hd as [??]).
    change (String c (r +:+ s)) with (String c r +:+ s). rewrite <- Hp. by apply (number_reads_back false (N.pos p)).
  - rewrite pretty_Z_neg. change (String "-" (pretty (N.pos p)) +:+ s) with (String "-" (pretty (N.pos p) +:+ s)).
    destruct (pretty_digits (N.pos p)) as (c & r & Hp & Hd & _).
    rewrite Hp. change (String c r +:+ s) with (String c (r +:+ s)). rewrite value_minus by (by apply andb_true_iff in Hd as [??]).
    change (String c (r +:+ s)) with (String c r +:+ s). rewrite <- Hp. by apply (number_reads_back true (N.pos p)).
Qed.

Lemma value_quote strict n r :
  value strict (S n) (String quote r) = match a_string r with (Ok t, r') => (Ok (JStr t), r') | (Raise e, r') => (Raise e, r') end.
Proof. reflexivity. Qed.

Lemma value_open_list strict n r :
  value strict (S n) (String "[" r) =
    match after_word "]" (lstrip_by json_space r) with Some r => (Ok (JList []), r) | None => elements strict n [] (lstrip_by json_space r) end.
Proof.
  change (value strict (S n) (String "[" r)) with
    ((match after_word "]" (lstrip_by json_space r) with Some r => (_ ← modify (fun _ => r); mret (JList []) : Reader json) | None => elements strict n [] end)
       (lstrip_by json_space r)).
  by destruct (after_word "]" (lstrip_by json_space r)).
Qed.

Lemma value_open_object strict n r :
  value strict (S n) (String "{" r) =
    match after_word "}" (lstrip_by json_space r) with Some r => (Ok (JObj []), r) | None => members strict n [] (lstrip_by json_space r) end.
Proof.
  change (value strict (S n) (String "{" r)) with
    ((match after_word "}" (lstrip_by json_space r) with Some r => (_ ← modify (fun _ => r); mret (JObj []) : Reader json) | None => members strict n [] end)
       (lstrip_by json_space r)).
  by destruct (after_word "}" (lstrip_by json_space r)).
Qed.

Lemma string_app_cons c x y : String c x +:+ y = String c (x +:+ y).
Proof. done. Qed.

Lemma list_sum_cons x l : list_sum (x :: l) = x + list_sum l.
Proof. done. Qed.

Section ReadBack.
Context (strict : bool) (sp sp' : string) (Hsp : str_all json_space sp = true) (Hsp' : str_all json_space sp' = true).

Notation comma := (String "," sp).
Notation colon := (String ":" sp').
Notation text := (print_sep comma colon).

(** A value's text begins with neither a space nor the end of a list. *)
Lemma text_head j : exists c r, text j = String c r /\ json_space c = false /\ c <> "]"%char /\ c <> "}"%char.
Proof.
  destruct j as [|[]|z|s|l|d]; try by (eexists _, _; split; [reflexivity|by split_and!]).
  destruct z as [|p|p]; [by eexists _, _| |by eexists _, _; split; [apply pretty_Z_neg|]].
  destruct (pretty_digits (N.pos p)) as (c & r & Hp & (Hc & _)%andb_true_iff & _). exists c, r. split; [exact Hp|].
  apply digit_char in Hc as (d & Hd & ->). do 10 (destruct d as [|d]; [by split_and!|]). lia.
Qed.

Lemma lstrip_text j s : lstrip_by json_space (text j +:+ s) = text j +:+ s.
Proof. destruct (text_head j) as (c & r & -> & Hc & _). change (lstrip_by json_space (String c (r +:+ s)) = String c (r +:+ s)). cbn. by rewrite Hc. Qed.

Lemma lstrip_not_space c s : json_space c = false -> lstrip_by json_space (String c s) = String c s.
Proof. cbn. by intros ->. Qed.

(** What an object's member is written as. *)
Definition member_text (kv : string * json) : string := dumps_str kv.1 +:+ colon +:+ text kv.2.

Definition reads_back (j : json) : Prop :=
  well_keyed j = true -> forall n s, need j <= n -> ends_value s = true -> value strict n (text j +:+ s) = (Ok j, s).

Lemma join_cons (x : string) (xs : list string) : xs <> [] -> join comma (x :: xs) = x +:+ comma +:+ join comma xs.
Proof. by destruct xs. Qed.

(** One turn of a list: a value, then the end or the next. *)
Lemma elements_step n acc x r s : value strict n r = (Ok x, s) ->
  elements strict (S n) acc r =
    match lstrip_by json_space s with
    | "" => (Raise Malformed, "")
    | String c t => if bool_decide (c = "]"%char) then (Ok (JList (acc ++ [x])%list), t)
                    else if bool_decide (c = ","%char) then elements strict n (acc ++ [x])%list (lstrip_by json_space t)
                    else (Raise Malformed, t)
    end.
Proof.
  intros H. change (elements strict (S n) acc r) with
    ((x ← value strict n; _ ← skip_space; c ← next_char;
      if bool_decide (c = "]"%char) then mret (JList (acc ++ [x])%list)
      else if bool_decide (c = ","%char) then (_ ← skip_space; elements strict n (acc ++ [x])%list) else raise Malformed) r).
  rewrite (bind_step _ _ _ x s H). unfold skip_space, next_char, act, modify, mbind, M_bind.
  destruct (lstrip_by json_space s) as [|c t]; [done|]. by repeat case_bool_decide.
Qed.

Lemma elements_read_back l n acc s : Forall reads_back l -> forallb well_keyed l = true -> l <> [] ->
  list_sum (map (fun x => S (need x)) l) <= n ->
  elements strict n acc (join comma (map text l) +:+ String "]" s) = (Ok (JList (acc ++ l)%list), s).
Proof.
  intros Hl. revert n acc. induction Hl as [|x l Hx Hl IH]; intros n acc Hk Hne Hn; [done|].
  cbn [forallb] in Hk. apply andb_true_iff in Hk as [Hkx Hk]. change (S (need x) + list_sum (map (fun x => S (need x)) l) <= n) in Hn.
  destruct n as [|n]; [lia|]. destruct l as [|y l].
  - cbn [map join]. rewrite (elements_step n acc x _ (String "]" s)) by (apply Hx; [done|cbn in Hn; lia|done]). done.
  - cbn [map]. rewrite join_cons by done. rewrite !app_assoc_str.
    rewrite (elements_step n acc x _ (comma +:+ (join comma (map text (y :: l)) +:+ String "]" s))) by (apply Hx; [done|lia|done]).
    rewrite string_app_cons. rewrite lstrip_not_space by done.
    rewrite bool_decide_eq_false_2, bool_decide_eq_true_2 by done. rewrite lstrip_spaces by done.
    assert (forall t, lstrip_by json_space (join comma (map text (y :: l)) +:+ t) = join comma (map text (y :: l)) +:+ t) as ->.
    { intros t. destruct l as [|z l]; [apply lstrip_text|]. cbn [map]. rewrite join_cons by done. rewrite !app_assoc_str. apply lstrip_text. }
    rewrite IH by (done || lia). by rewrite <- app_assoc.
Qed.

(** One turn of an object: a member, then the end or the next. *)
Lemma members_step n acc k x r s : value strict n r = (Ok x, s) -> (exists j t, r = text j +:+ t) ->
  members strict (S n) acc (dumps_str k +:+ colon +:+ r) =
    match lstrip_by json_space s with
    | "" => (Raise Malformed, "")
    | String c t => if bool_decide (c = "}"%char) then once_each strict (acc ++ [(k, x)])%list t
                    else if bool_decide (c = ","%char) then members strict n (acc ++ [(k, x)])%list (lstrip_by json_space t)
                    else (Raise Malformed, t)
    end.
Proof.
  intros H (j & t & Hr). rewrite quoted_app.
  change (members strict (S n) acc (String quote (esc_all k +:+ String quote (colon +:+ r)))) with
    ((k ← a_string; _ ← skip_space; co ← next_char; _ ← raise_if (negb (bool_decide (co = ":"%char))) Malformed; _ ← skip_space; x ← value strict n; _ ← skip_space; c ← next_char;
      if bool_decide (c = "}"%char) then once_each strict (acc ++ [(k, x)])%list
      else if bool_decide (c = ","%char) then (_ ← skip_space; members strict n (acc ++ [(k, x)])%list) else raise Malformed)
     (esc_all k +:+ String quote (colon +:+ r))).
  rewrite (bind_step _ _ _ k _ (a_string_reads_back k (colon +:+ r))).
  rewrite (bind_step _ _ _ tt (colon +:+ r)) by done. rewrite (bind_step _ _ _ ":"%char (sp' +:+ r)) by done.
  rewrite (bind_step _ _ _ tt (sp' +:+ r)) by done. rewrite (bind_step _ _ _ tt r).
  2: { unfold skip_space, modify. by rewrite lstrip_spaces, Hr, lstrip_text. }
  rewrite (bind_step _ _ _ x s H). unfold skip_space, next_char, act, modify, mbind, M_bind.
  destruct (lstrip_by json_space s) as [|c u]; [done|]. by repeat case_bool_decide.
Qed.

Lemma members_read_back d n acc s : Forall (fun kv => reads_back kv.2) d -> forallb (fun kv => well_keyed kv.2) d = true -> d <> [] ->
  list_sum (map (fun kv => S (need kv.2)) d) <= n ->
  members strict n acc (join comma (map member_text d) +:+ String "}" s) = once_each strict (acc ++ d)%list s.
Proof.
  intros Hd. revert n acc. induction Hd as [|[k x] d Hx Hd IH]; intros n acc Hk Hne Hn; [done|].
  cbn [forallb snd] in Hk, Hx. apply andb_true_iff in Hk as [Hkx Hk]. change (S (need x) + list_sum (map (fun kv => S (need kv.2)) d) <= n) in Hn.
  destruct n as [|n]; [lia|]. destruct d as [|y d].
  - cbn [map join]. unfold member_text. cbn [fst snd]. rewrite !app_assoc_str.
    rewrite (members_step n acc k x _ (String "}" s)) by (eauto || (apply Hx; [done|cbn in Hn; lia|done])). done.
  - cbn [map]. rewrite join_cons by done. unfold member_text at 1. cbn [fst snd]. rewrite !app_assoc_str.
    rewrite (members_step n acc k x _ (comma +:+ (join comma (map member_text (y :: d)) +:+ String "}" s))) by (eauto || (apply Hx; [done|lia|done])).
    rewrite string_app_cons. rewrite lstrip_not_space by done.
    rewrite bool_decide_eq_false_2, bool_decide_eq_true_2 by done. rewrite lstrip_spaces by done.
    assert (forall t, lstrip_by json_space (join comma (map member_text (y :: d)) +:+ t) = join comma (map member_text (y :: d)) +:+ t) as ->.
    { intros t. destruct d as [|z d]; [|cbn [map]; rewrite join_cons by done]; unfold member_text at 1; cbn [map join]; unfold member_text;
        rewrite ?app_assoc_str, !quoted_app; by apply lstrip_not_space. }
    rewrite IH by (done || lia). by rewrite <- app_assoc.
Qed.

Lemma once_each_keyed d s : NoDup (keys d) -> once_each strict d s = (Ok (JObj d), s).
Proof.
  intros Hd. unfold once_each. rewrite bool_decide_eq_true_2 by done. rewrite andb_false_r. 
  transitivity (Ok (JObj (fold_left (fun d kv => dset kv.1 kv.2 d) d [])) : outcome unread json, s); [done|]. do 3 f_equal.
  assert (forall acc : dict, NoDup (keys (acc ++ d)%list) -> fold_left (fun d kv => dset kv.1 kv.2 d) d acc = (acc ++ d)%list) as H; [|by apply (H [])].
  clear. induction d as [|[k v] d IH]; intros acc H; [by rewrite app_nil_r|]. cbn [fold_left fst snd].
  assert (dset k v acc = (acc ++ [(k, v)])%list) as ->.
  { assert (k ∉ keys acc) as Hk.
    { unfold keys in *. rewrite map_app in H. apply NoDup_app in H as (_ & H & _). intros Hin. apply (H k Hin). by left. }
    clear - Hk. induction acc as [|[j w] acc IH]; [done|]. cbn in Hk |- *. apply not_elem_of_cons in Hk as [Hj Hk].
    rewrite decide_False by done. by rewrite IH. }
  rewrite IH by (by rewrite <- app_assoc). by rewrite <- app_assoc.
Qed.

Lemma value_reads_back j : reads_back j.
Proof.
  induction j as [|b|z|x|l IH|d IH] using json_rect'; intros Hk [|n] s Hn Hs; try (cbn in Hn; lia).
  - done.
  - by destruct b.
  - by apply number_value.
  - change (text (JStr x)) with (dumps_str x). rewrite quoted_app, value_quote. by rewrite a_string_reads_back.
  - change (text (JList l) +:+ s) with ((String "[" "" +:+ join comma (map text l) +:+ String "]" "") +:+ s). rewrite join_items_app, value_open_list.
    destruct l as [|x l]; [done|]. assert (exists c t, join comma (map text (x :: l)) +:+ String "]" s = String c t /\ json_space c = false /\ c <> "]"%char) as (c & t & Hj & Hc & He).
    { destruct (text_head x) as (c & r & Hx & Hc & He & _). exists c. destruct l as [|y l]; cbn [map]; [|rewrite join_cons by done]; rewrite ?app_assoc_str; cbn [map join]; rewrite Hx; by eexists. }
    rewrite Hj, lstrip_not_space by done. cbn [after_word]. rewrite decide_False by done. rewrite <- Hj.
    apply elements_read_back; [done|by apply Hk|done|]. cbn [need] in Hn. lia.
  - change (text (JObj d) +:+ s) with ((String "{" "" +:+ join comma (map member_text d) +:+ String "}" "") +:+ s). rewrite join_items_app, value_open_object.
    cbn [well_keyed] in Hk. apply andb_true_iff in Hk as [Hnd%bool_decide_eq_true Hk].
    destruct d as [|x d]; [done|]. assert (exists t, join comma (map member_text (x :: d)) +:+ String "}" s = String quote t) as (t & Hj).
    { destruct d as [|y d]; cbn [map]; [|rewrite join_cons by done]; rewrite ?app_assoc_str; cbn [map join]; unfold member_text at 1; rewrite ?app_assoc_str, quoted_app; by eexists. }
    rewrite Hj, lstrip_not_space by done. cbn [after_word]. rewrite decide_False by done. rewrite <- Hj.
    rewrite (members_read_back _ n [] s IH Hk) by (done || (cbn [need] in Hn; lia)). by apply once_each_keyed.
Qed.

Lemma need_length j : need j + 1 <= 2 * String.length (text j).
Proof.
  assert (forall j, 1 <= String.length (text j)) as H1 by (intros i; destruct (text_head i) as (c & r & -> & _); cbn; lia).
  assert (forall (xs : list string) open close, list_sum (map String.length xs) + 2 <= String.length (String open "" +:+ join comma xs +:+ String close "")) as Hj.
  { intros xs open close. rewrite !length_str_app. assert (list_sum (map String.length xs) <= String.length (join comma xs)) as H; [|cbn; lia].
    induction xs as [|x [|y xs] IH]; [done|cbn; lia|]. rewrite join_cons, !length_str_app by done. cbn [map] in IH |- *. rewrite !list_sum_cons in *. cbn [String.length]. lia. }
  induction j as [|b|z|x|l IH|d IH] using json_rect'; try (match goal with |- context [text ?j] => pose proof (H1 j); cbn [need]; lia end).
  - pose proof (Hj (map text l) "["%char "]"%char) as Hl. change (text (JList l)) with (String "[" "" +:+ join comma (map text l) +:+ String "]" "").
    assert (list_sum (map (fun x => S (need x)) l) <= 2 * list_sum (map String.length (map text l))) as H; [|cbn [need]; lia].
    clear Hl. induction IH as [|x l Hx _ IHl]; [done|]. cbn [map]. rewrite !list_sum_cons. lia.
  - pose proof (Hj (map member_text d) "{"%char "}"%char) as Hl. change (text (JObj d)) with (String "{" "" +:+ join comma (map member_text d) +:+ String "}" "").
    assert (list_sum (map (fun kv => S (need kv.2)) d) <= 2 * list_sum (map String.length (map member_text d))) as H; [|cbn [need]; lia].
    clear Hl. induction IH as [|x d Hx _ IHd]; [done|]. cbn [map]. rewrite !list_sum_cons.
    assert (String.length (text x.2) <= String.length (member_text x)) by (unfold member_text; rewrite !length_str_app; lia). lia.
Qed.

(** What is printed, with whatever space between its parts, is read back as it was, at either door. *)
Lemma loads_print j : well_keyed j = true -> loads strict (text j) = Ok j.
Proof.
  intros Hk. unfold loads. assert (lstrip_by json_space (text j) = text j) as -> by (rewrite <- (append_empty_r (text j)); apply lstrip_text).
  assert (value strict (fuel_for (text j)) (text j) = (Ok j, "")) as ->; [|done].
  rewrite <- (append_empty_r (text j)) at 2. apply value_reads_back; [done| |done]. unfold fuel_for. pose proof (need_length j). lia.
Qed.
End ReadBack.

(** * A reader never runs out of fuel *)

(** Running on [s], a reader answers, or refuses, with no more text than it was given; [Deep] is not said. *)
Definition fed {A} (m : Reader A) (s : string) (most : nat) : Prop :=
  match m s with
  | (Ok _, s') => String.length s' <= most
  | (Raise e, _) => e <> Deep
  end.

Lemma fed_weaken {A} (m : Reader A) s a b : fed m s a -> a <= b -> fed m s b.
Proof. unfold fed. destruct (m s) as [[?|?] ?]; [lia|done]. Qed.

Lemma fed_bind {A B} (m : Reader A) (f : A -> Reader B) s most k :
  fed m s most -> (forall x s', String.length s' <= most -> fed (f x) s' k) -> fed (m ≫= f) s k.
Proof.
  unfold fed, mbind, M_bind. intros Hm Hf. destruct (m s) as [[x|e] s']; [by apply Hf|done].
Qed.

Lemma fed_ret {A} (x : A) s k : String.length s <= k -> fed (mret x) s k.
Proof. done. Qed.

Lemma fed_raise {A} e s k : e <> Deep -> fed (raise e : Reader A) s k.
Proof. done. Qed.

Lemma fed_raise_if t e s : e <> Deep -> fed (raise_if t e) s (String.length s).
Proof. intros He. destruct t; [exact He|exact (le_n _)]. Qed.

Lemma length_lstrip p s : String.length (lstrip_by p s) <= String.length s.
Proof. induction s as [|c s IH]; [done|]. cbn. destruct (p c); cbn; lia. Qed.

Lemma fed_skip s : fed skip_space s (String.length s).
Proof. apply (length_lstrip json_space). Qed.

Lemma fed_next s : fed next_char s (String.length s - 1).
Proof. destruct s as [|c s]; [done|]. cbn. lia. Qed.

Lemma unescape_shorter s : match unescape s with (Ok _, r) => String.length r < String.length s | (Raise e, _) => e <> Deep end.
Proof. unfold unescape. repeat case_match; simplify_eq; cbn; try lia; done. Qed.

Lemma fed_a_string s : fed a_string s (String.length s - 1).
Proof.
  unfold a_string, fed, act.
  assert (forall n t, String.length t < n -> match scan_string n t with (Ok _, r) => String.length r <= String.length t - 1 | (Raise e, _) => e <> Deep end) as H; [|by apply H; lia].
  induction n as [|n IH]; intros t Hn; [lia|]. destruct t as [|c r]; [done|]. cbn [String.length] in Hn. cbn [scan_string].
  case_bool_decide; [cbn; lia|]. case_bool_decide.
  - pose proof (unescape_shorter r) as Hu. destruct (unescape r) as [[x|e] r']; [|done].
    specialize (IH r' ltac:(lia)). destruct (scan_string n r') as [[u|e] r'']; [cbn; lia|done].
  - destruct (code c <? 32)%nat; [done|]. specialize (IH r ltac:(lia)). destruct (scan_string n r) as [[u|e] r'']; [cbn; lia|done].
Qed.

Lemma digits_of_shorter s : String.length (digits_of s).2 + String.length (digits_of s).1 = String.length s.
Proof.
  induction s as [|c s IH]; [done|]. cbn. destruct (ascii_digit c); [|done]. destruct (digits_of s) as [d r]. cbn in *. lia.
Qed.

Lemma fed_number b s : fed (number_from b) s (String.length s - 1).
Proof.
  unfold number_from, fed, act. assert (String.length (digits_run s).2 + String.length (digits_run s).1 = String.length s) as H.
  { unfold digits_run. repeat case_match; try apply digits_of_shorter; cbn; lia. }
  destruct (digits_run s) as [d r]. cbn in H. case_bool_decide as Hd; [done|]. destruct (goes_on r); [done|]. destruct (int_of d); [|done].
  destruct d; [done|]. cbn in H. lia.
Qed.

Lemma after_word_shorter w s r : after_word w s = Some r -> String.length r + String.length w = String.length s.
Proof.
  revert s. induction w as [|c w IH]; intros [|d s] H; cbn in H; simplify_eq; cbn; try lia. case_decide; [|done]. apply IH in H. lia.
Qed.

Lemma fed_once_each strict d s : fed (once_each strict d) s (String.length s).
Proof. unfold once_each. case_match; [by apply fed_raise|by apply fed_ret]. Qed.

Lemma fed_constant strict s k : fed (constant strict) s k.
Proof. destruct strict; by apply fed_raise. Qed.

Lemma fed_get {A} (f : string -> Reader A) s k : fed (f s) s k -> fed (get ≫= f) s k.
Proof. done. Qed.

Lemma fed_put {A} (m : Reader A) r s k : fed m r k -> fed (modify (fun _ => r) ≫= fun _ => m) s k.
Proof. done. Qed.

(** The three readers, by one induction on the fuel. *)
Lemma readers_fed strict n :
  (forall s, 2 * String.length s < n -> fed (value strict n) s (String.length s - 1)) /\
  (forall acc s, 2 * String.length s + 1 < n -> fed (elements strict n acc) s (String.length s)) /\
  (forall acc s, 2 * String.length s + 1 < n -> fed (members strict n acc) s (String.length s)).
Proof.
  induction n as [|n (IHv & IHe & IHm)]; [split_and!; intros; lia|]. split_and!.
  - intros s Hn. cbn [value]. apply fed_get; cbv beta.
    do 3 (case_match eqn:Hw; [apply fed_put, fed_ret; apply after_word_shorter in Hw; cbn in Hw; lia|clear Hw]).
    do 3 (case_match; [apply fed_constant|]). destruct s as [|c r]; [done|]. cbn [String.length] in *.
    pose proof (length_lstrip json_space r) as Hr.
    repeat case_bool_decide; try (match goal with |- fed (modify _ ≫= _) _ _ => apply fed_put end).
    + eapply fed_bind; [apply fed_a_string|]. intros t s' Hs. apply fed_ret. lia.
    + apply fed_get; cbv beta. case_match eqn:Hw; [apply fed_put, fed_ret; apply after_word_shorter in Hw; cbn in Hw; lia|].
      eapply fed_weaken; [apply IHe|]; lia.
    + apply fed_get; cbv beta. case_match eqn:Hw; [apply fed_put, fed_ret; apply after_word_shorter in Hw; cbn in Hw; lia|].
      eapply fed_weaken; [apply IHm|]; lia.
    + eapply fed_weaken; [apply fed_number|lia].
    + eapply fed_weaken; [apply fed_number|cbn; lia].
  - intros acc s Hn. destruct s as [|c0 s]; [destruct n as [|n]; [cbn in Hn; cbn [String.length]; lia|done]|]. cbn [String.length] in Hn. cbn [elements]. eapply fed_bind; [apply IHv; cbn [String.length]; cbn [String.length]; lia|]. intros x s1 H1; cbn [String.length] in H1.
    eapply fed_bind; [apply fed_skip|]. intros _ s2 H2. eapply fed_bind; [apply fed_next|]. intros c s3 H3. repeat case_bool_decide; [apply fed_ret; cbn [String.length]; lia| |done].
    eapply fed_bind; [apply fed_skip|]. intros _ s4 H4. eapply fed_weaken; [apply IHe|]; cbn [String.length]; lia.
  - intros acc s Hn. destruct s as [|c0 s]; [done|]. cbn [String.length] in Hn. cbn [members]. eapply fed_bind; [apply fed_next|]. intros q s1 H1; cbn [String.length] in H1.
    eapply fed_bind; [by apply fed_raise_if|]. intros _ s2 H2. eapply fed_bind; [apply fed_a_string|]. intros k s3 H3.
    eapply fed_bind; [apply fed_skip|]. intros _ s4 H4. eapply fed_bind; [apply fed_next|]. intros co s5 H5.
    eapply fed_bind; [by apply fed_raise_if|]. intros _ s6 H6. eapply fed_bind; [apply fed_skip|]. intros _ s7 H7.
    eapply fed_bind; [apply IHv; cbn [String.length]; lia|]. intros x s8 H8. eapply fed_bind; [apply fed_skip|]. intros _ s9 H9.
    eapply fed_bind; [apply fed_next|]. intros c s10 H10. repeat case_bool_decide; [eapply fed_weaken; [apply fed_once_each|cbn; lia]| |done].
    eapply fed_bind; [apply fed_skip|]. intros _ s11 H11. eapply fed_weaken; [apply IHm|]; cbn [String.length]; lia.
Qed.

(** The fuel [loads] hands its reader is enough for any text. *)
Lemma loads_has_fuel strict text : loads strict text <> Raise Deep.
Proof.
  unfold loads. destruct (readers_fed strict (fuel_for text)) as (H & _ & _). specialize (H (lstrip_by json_space text)).
  pose proof (length_lstrip json_space text) as Hl. unfold fed, fuel_for in *. specialize (H ltac:(lia)).
  destruct (value strict _ _) as [[j|e] rest]; [by case_bool_decide|congruence].
Qed.

(** * The two doors *)

(** What runs to a value at the strict door runs to the same one at the other. *)
Definition agrees {A} (m m' : Reader A) : Prop := forall s j s', m s = (Ok j, s') -> m' s = (Ok j, s').

Lemma agrees_refl {A} (m : Reader A) : agrees m m.
Proof. by intros s j s'. Qed.

Lemma agrees_bind {A B} (m m' : Reader A) (f f' : A -> Reader B) : agrees m m' -> (forall x, agrees (f x) (f' x)) -> agrees (m ≫= f) (m' ≫= f').
Proof. intros Hm Hf s j s' (x & s0 & H & Hx)%bind_inv_ok. rewrite (bind_step _ _ _ _ _ (Hm _ _ _ H)). by apply Hf. Qed.

Lemma agrees_constant : agrees (constant true) (constant false).
Proof. by intros s j s'. Qed.

Lemma agrees_once_each d : agrees (once_each true d) (once_each false d).
Proof. unfold once_each. intros s j s'. cbn [andb]. by case_match. Qed.

Create HintDb agree.
#[local] Hint Resolve agrees_refl agrees_bind agrees_constant agrees_once_each : agree.

Lemma doors_agree n :
  agrees (value true n) (value false n) /\ (forall acc, agrees (elements true n acc) (elements false n acc)) /\
  (forall acc, agrees (members true n acc) (members false n acc)).
Proof.
  induction n as [|n (IHv & IHe & IHm)]; [split_and!; intros; apply agrees_refl|].
  split_and!; intros; cbn [value elements members]; repeat (first [apply agrees_refl | apply agrees_constant | apply agrees_once_each | apply IHv | apply IHe | apply IHm
    | apply agrees_bind; [|intros ?] | case_match]).
Qed.

(** What Python reads, the strict door reads as well or refuses for a repeated field. *)
Definition reads_or_repeats {A} (m m' : Reader A) : Prop :=
  forall s j s', m s = (Ok j, s') -> m' s = (Ok j, s') \/ exists s'', m' s = (Raise Repeated, s'').

Lemma reads_or_repeats_refl {A} (m : Reader A) : reads_or_repeats m m.
Proof. intros s j s'. by left. Qed.

Lemma reads_or_repeats_bind {A B} (m m' : Reader A) (f f' : A -> Reader B) :
  reads_or_repeats m m' -> (forall x, reads_or_repeats (f x) (f' x)) -> reads_or_repeats (m ≫= f) (m' ≫= f').
Proof.
  intros Hm Hf s j s' (x & s0 & H & Hx)%bind_inv_ok. destruct (Hm _ _ _ H) as [H'|[s'' H']].
  - rewrite (bind_step _ _ _ _ _ H'). by apply Hf.
  - right. exists s''. by apply bind_stop.
Qed.

Lemma reads_or_repeats_once_each d : reads_or_repeats (once_each false d) (once_each true d).
Proof. unfold once_each. intros s j s'. cbn [andb]. case_match; [right; by eexists|by left]. Qed.

Lemma doors_differ_by_repeats n :
  reads_or_repeats (value false n) (value true n) /\ (forall acc, reads_or_repeats (elements false n acc) (elements true n acc)) /\
  (forall acc, reads_or_repeats (members false n acc) (members true n acc)).
Proof.
  assert (reads_or_repeats (constant false) (constant true)) as Hc by by intros s j s'.
  induction n as [|n (IHv & IHe & IHm)]; [split_and!; intros; apply reads_or_repeats_refl|].
  split_and!; intros; cbn [value elements members]; repeat (first [apply reads_or_repeats_refl | apply Hc | apply reads_or_repeats_once_each | apply IHv | apply IHe | apply IHm
    | apply reads_or_repeats_bind; [|intros ?] | case_match]).
Qed.

(** No key twice in one object, anywhere. *)
Fixpoint keys_once (j : json) : bool :=
  match j with
  | JList l => forallb keys_once l
  | JObj d => bool_decide (NoDup (keys d)) && forallb (fun kv => keys_once kv.2) d
  | _ => true
  end.

(** [m] answers only values with no key twice. *)
Definition answers (P : json -> bool) (m : Reader json) : Prop := forall s j s', m s = (Ok j, s') -> P j = true.

Lemma answers_ret (P : json -> bool) j : P j = true -> answers P (mret j).
Proof. intros H s j' s' [= <- _]. done. Qed.

Lemma answers_bind {A} P (m : Reader A) f : (forall x, answers P (f x)) -> answers P (m ≫= f).
Proof. intros Hf s j s' (x & s0 & _ & H)%bind_inv_ok. by eapply Hf. Qed.

Lemma answers_value {A} P (m : Reader json) (f : json -> Reader A) (Q : A -> Prop) :
  answers P m -> (forall x, P x = true -> forall s j s', f x s = (Ok j, s') -> Q j) -> forall s j s', (m ≫= f) s = (Ok j, s') -> Q j.
Proof. intros Hm Hf s j s' (x & s0 & H & Hx)%bind_inv_ok. by eapply Hf; [eapply Hm|]. Qed.

Lemma answers_number P b : (forall z, P (JNum z) = true) -> answers P (number_from b).
Proof. intros H s j s'. unfold number_from, act. repeat case_match; intros; simplify_eq; apply H. Qed.

Lemma once_each_strict d : forallb (fun kv => keys_once kv.2) d = true -> answers keys_once (once_each true d).
Proof.
  intros Hd. unfold once_each. cbn [andb]. case_bool_decide as Hk; cbn [negb]; [|by intros s j s'].
  intros s j s' H. pose proof (once_each_keyed true d s Hk) as Ho. unfold once_each in Ho. rewrite bool_decide_eq_true_2 in Ho by done. cbn [andb negb] in Ho.
  rewrite Ho in H. injection H as <- _. cbn [keys_once]. by rewrite bool_decide_eq_true_2, Hd.
Qed.

Lemma strict_reads_keys_once n :
  answers keys_once (value true n) /\ (forall acc, forallb keys_once acc = true -> answers keys_once (elements true n acc)) /\
  (forall acc, forallb (fun kv => keys_once kv.2) acc = true -> answers keys_once (members true n acc)).
Proof.
  induction n as [|n (IHv & IHe & IHm)]; [split_and!; by intros|]. split_and!.
  - cbn [value]. repeat (first [apply IHe; done | apply IHm; done | by apply answers_ret | by apply answers_number | by intros ?? ? | apply answers_bind; intros ? | case_match]).
  - intros acc Ha. cbn [elements]. intros s j s'. apply (answers_value keys_once _ _ (fun j => keys_once j = true) IHv). intros x Hx.
    assert (forallb keys_once (acc ++ [x])%list = true) as Hax by (rewrite forallb_app, Ha; cbn; by rewrite Hx).
    do 2 (apply answers_bind; intros ?). repeat case_match; [by apply answers_ret|apply answers_bind; intros ?; by apply IHe|by intros ???].
  - intros acc Ha. cbn [members]. do 7 (apply answers_bind; intros ?). intros s j s'. apply (answers_value keys_once _ _ (fun j => keys_once j = true) IHv). intros v Hx.
    assert (forall k : string, forallb (fun kv : string * json => keys_once kv.2) (acc ++ [(k, v)])%list = true) as Hax by (intros k; rewrite forallb_app, Ha; cbn; by rewrite Hx).
    do 2 (apply answers_bind; intros ?). repeat case_match; [by apply once_each_strict|apply answers_bind; intros ?; by apply IHm|by intros ???].
Qed.

(** * What is promised of JSON text *)

(** A value written as JSON, with any space after its commas and colons, is read back as that
    value, at either door: one with no key twice and no number past the interpreter's digits. *)
Theorem printed_is_read_back (strict : bool) (sp sp' : string) (j : json) :
  str_all json_space sp = true -> str_all json_space sp' = true -> well_keyed j = true ->
  loads strict (print_sep (String "," sp) (String ":" sp') j) = Ok j.
Proof. intros. by apply loads_print. Qed.

(** A request read at the strict door is read by every parser alike: what the door reads, Python's own
    parser reads as the same value, and no object of it names a field twice; of what Python reads,
    the door refuses only what repeats a field. *)
Theorem strict_door_reads_the_same (text : string) (j : json) :
  (loads true text = Ok j -> loads false text = Ok j /\ keys_once j = true) /\
  (loads false text = Ok j -> loads true text = Ok j \/ loads true text = Raise Repeated).
Proof.
  unfold loads. set (s := lstrip_by json_space text). set (n := fuel_for text). split; intros H.
  - destruct (value true n s) as [[v|e] rest] eqn:Hv; [|done]. rewrite (proj1 (doors_agree n) _ _ _ Hv).
    case_bool_decide; [|done]. injection H as ->. split; [done|]. exact (proj1 (strict_reads_keys_once n) _ _ _ Hv).
  - destruct (value false n s) as [[v|e] rest] eqn:Hv; [|done]. destruct (proj1 (doors_differ_by_repeats n) _ _ _ Hv) as [-> |[s'' ->]]; [|by right].
    left. by case_bool_decide.
Qed.

Lemma printed_is_read_back_witness :
  loads true (print_sep ", " ": " (JObj [("a", JList [JNum (-30); JBool true]); ("b", JStr (String quote "x"))]))
    = Ok (JObj [("a", JList [JNum (-30); JBool true]); ("b", JStr (String quote "x"))]).
Proof.
  apply (printed_is_read_back true " " " " (JObj [("a", JList [JNum (-30); JBool true]); ("b", JStr (String quote "x"))]));
    vm_compute; reflexivity.
Defined.

Lemma strict_door_reads_the_same_witness :
  loads false (dumps_str "a") = Ok (JStr "a") /\ keys_once (JStr "a") = true.
Proof. apply (proj1 (strict_door_reads_the_same (dumps_str "a") (JStr "a"))). vm_compute. reflexivity. Defined.
