(* ===== verification/PyJson.v ===== *)
(** What Python does with a value [json.loads] answered, whatever its shape turned out to be.

    Code that reads a document a person wrote meets values of any type; each operation here answers what
    Python's answers, or raises what Python raises. *)
From stdpp Require Import base gmap strings list pretty.
From Stdlib Require Import Ascii ZArith Lia.
From S2P Require Import Prelude PyStr Json Refusals JsonText.

#[local] Open Scope string_scope.

(** * Computations that may raise *)

#[export] Instance outcome_ret {E} : MRet (outcome E) := fun A a => Ok a.
#[export] Instance outcome_bind {E} : MBind (outcome E) := fun A B f m => match m with Ok a => f a | Raise e => Raise e end.

#[export] Instance outcome_fmap {E} : FMap (outcome E) := fun A B f m => match m with Ok a => Ok (f a) | Raise e => Raise e end.

Lemma outcome_bind_ok {E A B} (m : outcome E A) (f : A -> outcome E B) b : (m ≫= f) = Ok b <-> exists a, m = Ok a /\ f a = Ok b.
Proof. destruct m as [a|e]; cbn; [naive_solver|]. split; [done|by intros (? & ? & _)]. Qed.

(** [[f(x) for x in xs]], where [f] may raise. *)
Fixpoint each_of {E A B} (f : A -> outcome E B) (xs : list A) : outcome E (list B) :=
  match xs with
  | [] => Ok []
  | x :: xs => y ← f x; ys ← each_of f xs; Ok (y :: ys)
  end.

Lemma each_of_ok {E A B} (f : A -> outcome E B) xs ys : each_of f xs = Ok ys <-> Forall2 (fun x y => f x = Ok y) xs ys.
Proof.
  revert ys. induction xs as [|x xs IH]; intros ys; cbn [each_of].
  - split; [by intros [= <-]|by intros ->%Forall2_nil_inv_l].
  - rewrite outcome_bind_ok. split.
    + intros (y & Hy & (zs & Hz & [= <-])%outcome_bind_ok). constructor; [done|by apply IH].
    + intros (y & zs & Hy & Hz & ->)%Forall2_cons_inv_l. exists y. split; [done|]. apply outcome_bind_ok. exists zs. split; [by apply IH|done].
Qed.

(** An answer, or a value in its place. *)
Definition or_else {E A} (default : A) (o : outcome E A) : A := match o with Ok a => a | Raise _ => default end.

(** [json.loads(document)], as a use case calls it: what is no JSON is a [ValueError]. *)
Definition json_loads (text : string) : outcome exn json :=
  match loads false text with
  | Ok j => Ok j
  | Raise Beyond => Raise (OtherError "Unrepresented" text)
  | Raise _ => Raise (ValueError text)
  end.

(** * Values of any shape *)

Definition type_error (text : string) : exn := OtherError "TypeError" text.
Definition no_attribute (name : string) : exn := OtherError "AttributeError" name.

(** [list(value or ())]: a text's characters, a dict's keys. *)
Definition listed (v : option json) : outcome exn (list json) :=
  match v with
  | Some (JList l) => Ok l
  | Some (JStr s) => Ok (map (fun c => JStr (String c "")) (String.list_ascii_of_string s))
  | Some (JObj d) => Ok (map JStr (keys d))
  | Some v => if truthy v then Raise (type_error "object is not iterable") else Ok []
  | None => Ok []
  end.

(** [part in text] *)
Fixpoint is_infix (part text : string) : bool :=
  startswith part text || match text with "" => false | String _ rest => is_infix part rest end.

(** [x in (value or ())] of a text. *)
Definition found_in (x : string) (v : option json) : outcome exn bool :=
  match v with
  | Some (JList l) => Ok (bool_decide (JStr x ∈ l))
  | Some (JStr s) => Ok (negb (bool_decide (s = "")) && is_infix x s)
  | Some (JObj d) => Ok (dhas x d)
  | Some v => if truthy v then Raise (type_error "argument is not iterable") else Ok false
  | None => Ok false
  end.

(** [value.get(key)] *)
Definition get_of (key : string) (v : json) : outcome exn (option json) :=
  match v with JObj d => Ok (dget key d) | _ => Raise (no_attribute "get") end.

(** [dict(value)] of a dict, or of nothing in any other shape.  A list of pairs, which Python would make
    a dict of, is refused here. *)
Definition dict_of (v : json) : outcome exn dict :=
  match v with JObj d => Ok d | JList [] | JStr "" => Ok [] | _ => Raise (type_error "cannot convert to a dict") end.

(** [d.pop(key, None)] *)
Definition dpop (key : string) (d : dict) : dict := dwithout key d.

Lemma dget_dwithout j k d : dget j (dwithout k d) = if decide (j = k) then None else dget j d.
Proof.
  induction d as [|[k' v] d IH]; [by case_decide|]. change (dwithout k ((k', v) :: d)) with
    (if negb (bool_decide (k' = k)) then (k', v) :: dwithout k d else dwithout k d).
  case_bool_decide as Hk; cbn [negb dget]; rewrite ?IH; repeat case_decide; congruence.
Qed.

Lemma keys_dset k v d : keys (dset k v d) = if bool_decide (k ∈ keys d) then keys d else (keys d ++ [k])%list.
Proof.
  induction d as [|[k' v'] d IH]; [by rewrite bool_decide_eq_false_2 by (by intros ?%elem_of_nil)|]. cbn [dset].
  destruct (decide (k = k')) as [->|Hk].
  - rewrite bool_decide_eq_true_2; [done|by left].
  - change (keys ((k', v') :: dset k v d)) with (k' :: keys (dset k v d)). change (keys ((k', v') :: d)) with (k' :: keys d). rewrite IH.
    destruct (decide (k ∈ keys d)) as [Hin|Hin].
    + rewrite !bool_decide_eq_true_2; [done|by right|done].
    + rewrite !bool_decide_eq_false_2; [done|by intros [?|?]%elem_of_cons|done].
Qed.

Lemma NoDup_dset k v d : NoDup (keys d) -> NoDup (keys (dset k v d)).
Proof.
  intros H. rewrite keys_dset. case_bool_decide; [done|]. apply NoDup_app. split_and!; [done| |apply NoDup_singleton].
  intros x Hx ->%list_elem_of_singleton. done.
Qed.

Lemma elem_of_dset k v d x : x ∈ dset k v d -> x = (k, v) \/ x ∈ d.
Proof.
  induction d as [|[k' v'] d IH]; cbn [dset]; [intros ->%list_elem_of_singleton; by left|]. case_decide.
  - intros [->|Hx]%elem_of_cons; [by left|right; by right].
  - intros [->|Hx]%elem_of_cons; [right; by left|]. destruct (IH Hx) as [->|?]; [by left|right; by right].
Qed.

Lemma forallb_dset (P : string * json -> bool) k v d : forallb P d = true -> P (k, v) = true -> forallb P (dset k v d) = true.
Proof.
  intros Hd Hp. apply forallb_forall. intros x Hx%list_elem_of_In%elem_of_dset. destruct Hx as [->|Hx]; [done|].
  rewrite forallb_forall in Hd. by apply Hd, list_elem_of_In.
Qed.

Lemma dget_elem k v d : dget k d = Some v -> (k, v) ∈ d.
Proof. induction d as [|[k' v'] d IH]; cbn; [done|]. case_decide; [intros [= ->]; subst; by left|right; by apply IH]. Qed.

(** * What was read is well keyed *)

Lemma well_keyed_field k v d : well_keyed (JObj d) = true -> dget k d = Some v -> well_keyed v = true.
Proof. cbn. intros [_ H]%andb_true_iff Hv%dget_elem. rewrite forallb_forall in H. by apply (H (k, v)), list_elem_of_In. Qed.

Lemma well_keyed_dset k v d : well_keyed (JObj d) = true -> well_keyed v = true -> well_keyed (JObj (dset k v d)) = true.
Proof.
  cbn. intros [Hk%bool_decide_eq_true H]%andb_true_iff Hv. rewrite bool_decide_eq_true_2 by by apply NoDup_dset. by apply forallb_dset.
Qed.

Lemma well_keyed_dwithout k d : well_keyed (JObj d) = true -> well_keyed (JObj (dwithout k d)) = true.
Proof.
  cbn. intros [Hk%bool_decide_eq_true H]%andb_true_iff. unfold keys, dwithout.
  assert (NoDup (map fst (List.filter (fun kv : string * json => negb (bool_decide (kv.1 = k))) d))) as Hn by by apply (NoDup_map_rows fst).
  rewrite bool_decide_eq_true_2 by done. cbn [andb]. rewrite forallb_forall in *. intros x [Hx _]%filter_In. by apply H.
Qed.

Lemma digits_value_bound s acc : str_all ascii_digit s = true -> (0 <= acc)%Z ->
  (0 <= digits_value acc s < (acc + 1) * 10 ^ Z.of_nat (String.length s))%Z.
Proof.
  revert acc. induction s as [|c s IH]; intros acc; cbn [digits_value str_all String.length]; [rewrite Z.pow_0_r; lia|].
  intros [Hc Hs]%andb_true_iff Ha. apply digit_char in Hc as (d & Hd & ->). unfold code. rewrite nat_ascii_embedding by lia.
  rewrite Nat2Z.inj_succ, Z.pow_succ_r by lia. specialize (IH (10 * acc + (Z.of_nat (48 + d) - 48))%Z Hs ltac:(lia)). nia.
Qed.

Lemma length_go (x : N) s m : (Z.of_N x < 10 ^ Z.of_nat m)%Z -> String.length (pretty_N_go x s) <= m + String.length s.
Proof.
  revert s m. induction (N.lt_wf_0 x) as [x _ IH]; intros s m Hx.
  assert (x = 0 \/ 0 < x)%N as [->|H0] by lia; [rewrite pretty_N_go_0; lia|].
  rewrite pretty_N_go_step by done. destruct m as [|m]; [change (10 ^ Z.of_nat 0)%Z with 1%Z in Hx; lia|].
  rewrite Nat2Z.inj_succ, Z.pow_succ_r in Hx by lia.
  assert (Z.of_N (x / 10) < 10 ^ Z.of_nat m)%Z as Hq by (rewrite N2Z.inj_div; apply Z.div_lt_upper_bound; lia).
  specialize (IH _ (N.div_lt x 10 ltac:(done) ltac:(done)) (String (pretty_N_char (x `mod` 10)) s) m Hq). cbn [String.length] in IH. lia.
Qed.

(** A number read is one that may be read again. *)
Lemma int_of_short digits z : int_of digits = Some z -> short_number z = true /\ short_number (- z) = true.
Proof.
  unfold int_of. destruct (str_all ascii_digit digits) eqn:Hd; [|done]. cbn [andb]. case_bool_decide as H0; [done|]. cbn [negb].
  destruct (Z.leb_spec (Z.of_nat (String.length digits)) 4300); [|done]. intros [= <-].
  pose proof (digits_value_bound digits 0 Hd ltac:(lia)) as [Hv0 Hv]. rewrite Z.mul_1_l in Hv.
  assert (Z.of_nat (String.length (pretty (Z.abs_N (digits_value 0 digits)))) <= 4300)%Z as Hl.
  { unfold pretty, pretty_N. case_decide; [done|].
    pose proof (length_go (Z.abs_N (digits_value 0 digits)) "" (String.length digits)) as Hg. cbn [String.length] in Hg.
    rewrite N2Z.inj_abs_N, Z.abs_eq in Hg by done. specialize (Hg Hv). lia. }
  unfold short_number. assert (Z.abs_N (- digits_value 0 digits) = Z.abs_N (digits_value 0 digits)) as -> by lia.
  split; by apply Z.leb_le.
Qed.

Lemma answers_read_number b : answers well_keyed (number_from b).
Proof.
  intros s j s'. unfold number_from, act. destruct (digits_run s) as [d r]. case_bool_decide; [done|]. destruct (goes_on r); [done|].
  destruct (int_of d) as [z|] eqn:Hz; [|done]. intros [= <- _]. apply int_of_short in Hz as [??]. by destruct b.
Qed.

Lemma once_each_well_keyed strict d : forallb (fun kv => well_keyed kv.2) d = true -> answers well_keyed (once_each strict d).
Proof.
  intros Hd s j s'. unfold once_each. case_match; [done|]. intros [= <- _].
  assert (forall acc, well_keyed (JObj acc) = true -> well_keyed (JObj (fold_left (fun d kv => dset kv.1 kv.2 d) d acc)) = true) as Hf; [|by apply Hf].
  clear - Hd. induction d as [|[k v] d IH]; intros acc Ha; [done|]. cbn in Hd. apply andb_true_iff in Hd as [Hv Hd].
  apply IH; [done|]. by apply well_keyed_dset.
Qed.

Lemma readers_well_keyed strict n :
  answers well_keyed (value strict n) /\ (forall acc, forallb well_keyed acc = true -> answers well_keyed (elements strict n acc)) /\
  (forall acc, forallb (fun kv => well_keyed kv.2) acc = true -> answers well_keyed (members strict n acc)).
Proof.
  assert (answers well_keyed (constant strict)) as Hc by by intros s j s'; destruct strict.
  induction n as [|n (IHv & IHe & IHm)]; [split_and!; by intros|]. split_and!.
  - cbn [value]. repeat (first [apply IHe; done | apply IHm; done | by apply answers_ret | apply answers_read_number | apply Hc | by intros ?? ? | apply answers_bind; intros ? | case_match]).
  - intros acc Ha. cbn [elements]. intros s j s'. apply (answers_value well_keyed _ _ (fun j => well_keyed j = true) IHv). intros x Hx.
    assert (forallb well_keyed (acc ++ [x])%list = true) as Hax by (rewrite forallb_app, Ha; cbn; by rewrite Hx).
    do 2 (apply answers_bind; intros ?). repeat case_match; [by apply answers_ret|apply answers_bind; intros ?; by apply IHe|by intros ???].
  - intros acc Ha. cbn [members]. do 7 (apply answers_bind; intros ?). intros s j s'. apply (answers_value well_keyed _ _ (fun j => well_keyed j = true) IHv). intros v Hx.
    assert (forall k : string, forallb (fun kv : string * json => well_keyed kv.2) (acc ++ [(k, v)])%list = true) as Hax by (intros k; rewrite forallb_app, Ha; cbn; by rewrite Hx).
    do 2 (apply answers_bind; intros ?). repeat case_match; [by apply once_each_well_keyed|apply answers_bind; intros ?; by apply IHm|by intros ???].
Qed.

(** Whatever is read may be written and read again. *)
Lemma loads_well_keyed strict text j : loads strict text = Ok j -> well_keyed j = true.
Proof.
  unfold loads. destruct (value strict _ _) as [[v|e] rest] eqn:Hv; [|done]. case_bool_decide; [|done]. intros [= <-].
  exact (proj1 (readers_well_keyed strict _) _ _ _ Hv).
Qed.

Lemma loads_dumps_plain strict j : well_keyed j = true -> loads strict (dumps_plain j) = Ok j.
Proof. by apply (loads_print strict " " " "). Qed.

Lemma well_keyed_listed v l : listed v = Ok l -> (forall j, v = Some j -> well_keyed j = true) -> forallb well_keyed l = true.
Proof.
  destruct v as [[|[]|[]|s|l'|d]|]; cbn; intros H Hv; simplify_eq; try done; try by apply (Hv (JList l)).
  - clear Hv. induction s as [|c s IH]; [done|exact IH].
  - clear Hv. induction d as [|[k v] d IH]; [done|exact IH].
Qed.

Lemma well_keyed_section key d l : well_keyed (JObj d) = true -> listed (dget key d) = Ok l -> forallb well_keyed l = true.
Proof. intros Hd Hl. apply (well_keyed_listed _ _ Hl). intros j Hj. by apply (well_keyed_field key j d). Qed.

Lemma well_keyed_list l x : forallb well_keyed l = true -> x ∈ l -> well_keyed x = true.
Proof. intros H Hx. rewrite forallb_forall in H. by apply H, list_elem_of_In. Qed.

Lemma forallb_snoc {A} (P : A -> bool) l x : forallb P (l ++ [x])%list = forallb P l && P x.
Proof. rewrite forallb_app. cbn. by rewrite andb_true_r. Qed.

Lemma forallb_insert {A} (P : A -> bool) i x l : forallb P l = true -> P x = true -> forallb P (<[i := x]> l) = true.
Proof.
  intros Hl Hx. revert i. induction l as [|y l IH]; intros [|i]; try done; cbn in *; apply andb_true_iff in Hl as [Hy Hl];
    apply andb_true_iff; split; auto.
Qed.

(** * Comparing and printing values *)

(** A value as Python's [==] sees it: a dict by its keys, and [True] as 1. *)
Fixpoint compared (j : json) : json :=
  match j with
  | JBool b => JNum (if b then 1 else 0)
  | JList l => JList (map compared l)
  | JObj d => JObj (map (fun kv => (kv.1, compared kv.2)) d)
  | _ => j
  end.

(** [a == b] *)
Definition py_eq (a b : json) : bool := bool_decide (normal (compared a) = normal (compared b)).

Lemma py_eq_refl a : py_eq a a = true.
Proof. unfold py_eq. by apply bool_decide_eq_true. Qed.

Lemma py_eq_sym a b : py_eq a b = py_eq b a.
Proof. unfold py_eq. apply bool_decide_ext. split; by intros ->. Qed.

Lemma py_eq_trans a b c : py_eq a b = true -> py_eq b c = true -> py_eq a c = true.
Proof. unfold py_eq. rewrite !bool_decide_eq_true. by intros -> ->. Qed.

(** [json.dumps(value, sort_keys=True, separators=(",", ":"), ensure_ascii=False)] *)
Fixpoint raw_all (s : string) : string :=
  match s with "" => "" | String c r => (if (code c <? 127)%nat then esc c else String c "") +:+ raw_all r end.

Definition raw_str (s : string) : string := String quote (raw_all s +:+ String quote "").

Fixpoint print_raw (j : json) : string :=
  match j with
  | JStr s => raw_str s
  | JList l => "[" +:+ join "," (map print_raw l) +:+ "]"
  | JObj d => "{" +:+ join "," (map (fun kv => raw_str kv.1 +:+ ":" +:+ print_raw kv.2) d) +:+ "}"
  | _ => print j
  end.

Definition canonical (j : json) : string := print_raw (normal j).

Example compares : py_eq (JObj [("a", JNum 1); ("b", JList [JNull])]) (JObj [("b", JList [JNull]); ("a", JBool true)]) = true
  /\ py_eq (JList [JNum 1; JNum 2]) (JList [JNum 2; JNum 1]) = false /\ py_eq (JStr "1") (JNum 1) = false.
Proof. vm_compute. done. Qed.

Example prints : py_str (JList [JStr "a"; JObj [("k", JBool true)]; JNull]) = "['a', {'k': True}, None]"
  /\ canonical (JObj [("b", JNum 1); ("a", JStr "x")]) = "{" +:+ dumps_str "a" +:+ ":" +:+ dumps_str "x" +:+ "," +:+ dumps_str "b" +:+ ":1}".
Proof. vm_compute. done. Qed.
