(* ===== verification/TailnetPolicy.v ===== *)
(** The tailnet's policy as HQ edits it: a path a reading proved is shut opened in its grants
    ([tailnet.policy_allowing]), and the groups with no member struck from its rules
    ([policy_fixes.policy_without_empty_groups]).

    A policy is the JSON document Tailscale keeps.  [carries] reads a grant as Tailscale does, a name of
    each side and a port, and says what either edit changes of who reaches what. *)
From stdpp Require Import base gmap strings list pretty.
From Stdlib Require Import Ascii ZArith Lia.
From S2P Require Import Prelude PyStr Json Refusals Security JsonText PyJson.

#[local] Open Scope string_scope.

(** [parsed.get(key)] of the document itself, and its section [key], [parsed.get(key) or ()]. *)
Definition section (key : string) (parsed : dict) : outcome exn (list json) := listed (dget key parsed).

(** * Opening a path *)

(** [source in (grant.get("src") or ()) and target in (grant.get("dst") or ())] *)
Definition between (source target : string) (grant : json) : outcome exn bool :=
  src ← get_of "src" grant;
  from ← found_in source src;
  if (from : bool) then (dst ← get_of "dst" grant; found_in target dst) else Ok false.

(** [next((grant for grant in grants if ...), None)], with where it stands. *)
Fixpoint first_between (source target : string) (grants : list json) : outcome exn (option (nat * json)) :=
  match grants with
  | [] => Ok None
  | grant :: rest =>
      yes ← between source target grant;
      if (yes : bool) then Ok (Some (0, grant))
      else (found ← first_between source target rest; Ok ((fun ig : nat * json => (S ig.1, ig.2)) <$> (found : option (nat * json))))
  end.

(** [_grant(parsed, source, target, wanted)]: the document it leaves and what it says; the grant between
    the two is changed where it stands. *)
Definition grant (parsed : dict) (source target wanted : string) : outcome exn (dict * string) :=
  grants ← section "grants" parsed;
  existing ← first_between source target grants;
  match (existing : option (nat * json)) with
  | None =>
      Ok (dset "grants" (JList (grants ++ [JObj [("src", JList [JStr source]); ("dst", JList [JStr target]); ("ip", JList [JStr wanted])]])) parsed,
          "a grant from " +:+ source +:+ " to " +:+ target +:+ " on " +:+ wanted)
  | Some (i, existing) =>
      ip ← get_of "ip" existing;
      ports ← listed ip;
      if bool_decide (JStr wanted ∈ ports) then Ok (parsed, "")
      else
        old ← dict_of existing;
        Ok (dset "grants" (JList (<[i := JObj (dset "ip" (JList (ports ++ [JStr wanted])) old)]> grants)) parsed,
            wanted +:+ " added to the grant from " +:+ source +:+ " to " +:+ target)
  end.

(** [_denies(test, source, asserted)] *)
Definition denies (source asserted : string) (test : dict) : outcome exn bool :=
  if bool_decide (dget "src" test = Some (JStr source)) &&
     bool_decide (match dget "proto" test with Some v => v | None => JStr "tcp" end = JStr "tcp")
  then found_in asserted (dget "deny" test) else Ok false.

(** [items.remove(x)], of one that is there. *)
Fixpoint remove_first (x : json) (items : list json) : list json :=
  match items with [] => [] | y :: rest => if bool_decide (y = x) then rest else y :: remove_first x rest end.

(** [_accept(test, asserted)] *)
Definition accept (asserted : string) (test : dict) : outcome exn dict :=
  denied ← listed (dget "deny" test);
  if negb (bool_decide (JStr asserted ∈ denied)) then Raise (ValueError "list.remove(x): x not in list")
  else
    let denied := remove_first (JStr asserted) denied in
    let test := match denied with [] => dpop "deny" test | _ => dset "deny" (JList denied) test end in
    accepted ← listed (dget "accept" test);
    Ok (if bool_decide (JStr asserted ∈ accepted) then test else dset "accept" (JList (accepted ++ [JStr asserted])) test).

(** One test of the policy, moved with the grant where it contradicts it. *)
Definition moved_test (source asserted : string) (test : dict) : outcome exn (dict * list string) :=
  contradicts ← denies source asserted test;
  if (contradicts : bool)
  then (test ← accept asserted test; Ok (test, [asserted +:+ " moved from denied to accepted for " +:+ source]))
  else Ok (test, []).

(** [policy_allowing(document, source=..., target=..., port=...)] *)
Definition policy_allowing (document source target : string) (port : Z) : outcome exn (string * string) :=
  read ← json_loads document;
  match (read : json) with
  | JObj parsed =>
      granted ← grant parsed source target ("tcp:" +:+ pretty port);
      let '(parsed, granted) := (granted : dict * string) in
      if bool_decide (granted = "") then Ok ("", "")
      else
        listed_tests ← section "tests" parsed;
        tests ← each_of dict_of listed_tests;
        moved ← each_of (moved_test source (target +:+ ":" +:+ pretty port)) tests;
        Ok (dumps_plain (JObj (dset "tests" (JList (map (fun m => JObj m.1) moved)) parsed)),
            join "; " (granted :: concat (map snd moved)))
  | _ => Raise (no_attribute "get")
  end.

(** * Groups with no member *)

Definition UNREADABLE := "HQ cannot read the policy as a JSON object, so it cannot edit it. Edit the policy by hand.".
Definition RULE_SIDES : list string := ["src"; "dst"].

(** A name of a set: a dict or a list is no member of one. *)
Definition hashable (x : json) : outcome exn json :=
  match x with JList _ | JObj _ => Raise (type_error "unhashable type") | _ => Ok x end.

(** [for name in rule.get(side) or ()], each hashed. *)
Definition side_names (rule : json) (side : string) : outcome exn (list json) :=
  v ← get_of side rule; names ← listed v; each_of hashable names.

Definition rule_names (rule : json) : outcome exn (list json) := names ← each_of (side_names rule) RULE_SIDES; Ok (concat (names : list (list json))).



(** [parsed.get("groups") or {}], as items. *)
Definition groups_of (parsed : dict) : outcome exn dict :=
  match dget "groups" parsed with
  | Some (JObj d) => Ok d
  | Some v => if truthy v then Raise (no_attribute "items") else Ok []
  | None => Ok []
  end.

(** [empty_granted_groups(parsed)] *)
Definition empty_granted_groups (parsed : dict) : outcome exn (list string) :=
  groups ← groups_of parsed;
  grants ← section "grants" parsed;
  ssh ← section "ssh" parsed;
  named ← each_of rule_names (grants ++ ssh);
  Ok (sorted (map fst (List.filter (fun kv : string * json => negb (truthy kv.2) && bool_decide (JStr kv.1 ∈ concat named)) groups))).

(** [_names(value)] *)
Fixpoint names_in (v : json) : list string :=
  match v with
  | JStr s => [s]
  | JObj d => keys d ++ concat (map (fun kv => names_in kv.2) d)
  | JList l => concat (map names_in l)
  | _ => []
  end.

(** [_referenced_outside_rules(parsed, group)], as whether it finds any. *)
Definition referenced_outside_rules (parsed : dict) (group : string) : bool :=
  existsb (fun kv : string * json => negb (among kv.1 ["groups"; "grants"; "ssh"]) && bool_decide (group ∈ names_in kv.2)) parsed.

(** [amended[side] = [name for name in amended[side] or () if name not in groups]], where the side is written. *)
Definition struck_side (groups : list string) (side : string) (rule : dict) : outcome exn dict :=
  if dhas side rule
  then (names ← listed (dget side rule); names ← each_of hashable names;
        Ok (dset side (JList (List.filter (fun n => negb (bool_decide (n ∈ map JStr groups))) names)) rule))
  else Ok rule.

(** Whether a side that is written names nobody any more. *)
Definition side_emptied (rule : dict) (side : string) : bool :=
  match dget side rule with Some v => negb (truthy v) | None => false end.

(** One rule of [_without(rules, groups)]: struck, or dropped. *)
Definition without_rule (groups : list string) (rule : json) : outcome exn (option json) :=
  rule ← dict_of rule;
  amended ← struck_side groups "src" rule;
  amended ← struck_side groups "dst" amended;
  Ok (if existsb (side_emptied amended) RULE_SIDES then None else Some (JObj amended)).

(** [_without(rules, groups)]: the rules and how many were dropped. *)
Definition without (groups : list string) (rules : list json) : outcome exn (list json * nat) :=
  amended ← each_of (without_rule groups) rules;
  Ok (omap id amended, length (List.filter (fun r => match r with None => true | Some _ => false end) amended)).

(** One section of the document, struck where the document has it. *)
Definition without_in (groups : list string) (key : string) (parsed : dict) : outcome exn (dict * nat) :=
  if dhas key parsed
  then (rules ← section key parsed; amended ← without groups rules; Ok (dset key (JList (fst (amended : list json * nat))) parsed, snd amended))
  else Ok (parsed, 0).

(** [policy_without_empty_groups(document)] *)
Definition policy_without_empty_groups (document : string) : outcome exn (string * string) :=
  match json_loads document with
  | Ok (JObj parsed) =>
      empty ← empty_granted_groups parsed;
      match (empty : list string) with
      | [] => Ok ("", "")
      | _ =>
          if existsb (referenced_outside_rules parsed) empty
          then Raise (Host PolicyError "A group the policy grants is also named outside its rules, such as by a tag owner, an auto-approver or a test. Edit the policy by hand." JNull)
          else
            groups ← groups_of parsed;
            let parsed := dset "groups" (JObj (List.filter (fun kv : string * json => negb (bool_decide (kv.1 ∈ empty))) groups)) parsed in
            struck ← without_in empty "grants" parsed;
            struck' ← without_in empty "ssh" (fst (struck : dict * nat));
            let dropped := snd struck + snd struck' in
            Ok (dumps_plain (JObj (fst (struck' : dict * nat))),
                "removed " +:+ join ", " (sorted empty) +:+
                  (if (dropped =? 0)%nat then "" else " and " +:+ counted dropped "rule" "rules" +:+ " that admitted only them"))
      end
  | Raise (OtherError c t) => Raise (OtherError c t)
  | _ => Raise (Host PolicyError UNREADABLE JNull)
  end.

(** * What they do, on documents *)

Definition grant_of (src dst ip : list string) : json :=
  JObj [("src", JList (map JStr src)); ("dst", JList (map JStr dst)); ("ip", JList (map JStr ip))].

Example a_shared_grant_opens_for_each :
  policy_allowing (dumps_plain (JObj [("grants", JList [grant_of ["watcher"; "guest"] ["web"] ["tcp:22"]])])) "watcher" "web" 443
  = Ok (dumps_plain (JObj [("grants", JList [grant_of ["watcher"; "guest"] ["web"] ["tcp:22"; "tcp:443"]]); ("tests", JList [])]),
        "tcp:443 added to the grant from watcher to web").
Proof. vm_compute. reflexivity. Qed.

Example a_denying_test_moves :
  policy_allowing (dumps_plain (JObj [("tests", JList [JObj [("src", JStr "watcher"); ("deny", JList [JStr "web:443"]); ("accept", JList [JStr "web:80"])]])])) "watcher" "web" 443
  = Ok (dumps_plain (JObj [("tests", JList [JObj [("src", JStr "watcher"); ("accept", JList [JStr "web:80"; JStr "web:443"])]]);
                           ("grants", JList [grant_of ["watcher"] ["web"] ["tcp:443"]])]),
        "a grant from watcher to web on tcp:443; web:443 moved from denied to accepted for watcher").
Proof. vm_compute. reflexivity. Qed.

Example an_empty_group_is_struck :
  policy_without_empty_groups (dumps_plain (JObj [("groups", JObj [("group:none", JList []); ("group:all", JList [JStr "ada"])]);
    ("grants", JList [grant_of ["group:none"; "group:all"] ["web"] ["*"]; grant_of ["group:none"] ["db"] ["*"]])]))
  = Ok (dumps_plain (JObj [("groups", JObj [("group:all", JList [JStr "ada"])]); ("grants", JList [grant_of ["group:all"] ["web"] ["*"]])]),
        "removed group:none and 1 rule that admitted only them").
Proof. vm_compute. reflexivity. Qed.

(** * Who a policy lets reach whom *)

(** The names a rule lists under [key], and the rules a section lists. *)
Definition side (key : string) (rule : json) : list json :=
  match rule with JObj d => match dget key d with Some (JList l) => l | _ => [] end | _ => [] end.

Definition rules (key : string) (parsed : dict) : list json := match dget key parsed with Some (JList l) => l | _ => [] end.

(** [grant] lets [s] reach [t] on [ip], and some grant of the policy does. *)
Definition carries (s t ip : string) (grant : json) : Prop :=
  JStr s ∈ side "src" grant /\ JStr t ∈ side "dst" grant /\ JStr ip ∈ side "ip" grant.

Definition opens (parsed : dict) (s t ip : string) : Prop := exists g, g ∈ rules "grants" parsed /\ carries s t ip g.

(** A policy written as Tailscale writes one: each rule an object, each side of it a list of names. *)
Definition list_or_absent (v : option json) : bool := match v with None | Some (JList _) => true | _ => false end.

Definition shaped_rule (rule : json) : bool :=
  match rule with JObj d => forallb (fun k => list_or_absent (dget k d)) ["src"; "dst"; "ip"] | _ => false end.

Definition shaped (key : string) (parsed : dict) : bool := list_or_absent (dget key parsed) && forallb shaped_rule (rules key parsed).

Lemma section_shaped key parsed : list_or_absent (dget key parsed) = true -> section key parsed = Ok (rules key parsed).
Proof. unfold section, rules. by destruct (dget key parsed) as [[]|]. Qed.

Lemma found_in_side x key d : list_or_absent (dget key d) = true -> found_in x (dget key d) = Ok (bool_decide (JStr x ∈ side key (JObj d))).
Proof.
  unfold side. by destruct (dget key d) as [[]|].
Qed.

Lemma listed_side key d : list_or_absent (dget key d) = true -> listed (dget key d) = Ok (side key (JObj d)).
Proof. unfold side. by destruct (dget key d) as [[]|]. Qed.

(** Whether a grant names both ends, as a decidable property of it. *)
Definition names_both (s t : string) (grant : json) : Prop := JStr s ∈ side "src" grant /\ JStr t ∈ side "dst" grant.

#[export] Instance names_both_dec s t g : Decision (names_both s t g).
Proof. unfold names_both. apply _. Defined.

Lemma shaped_rule_inv g : shaped_rule g = true ->
  exists d, g = JObj d /\ list_or_absent (dget "src" d) = true /\ list_or_absent (dget "dst" d) = true /\ list_or_absent (dget "ip" d) = true.
Proof. destruct g as [| | | | |d]; try done. cbn. intros [? [? [? _]%andb_true_iff]%andb_true_iff]%andb_true_iff. by exists d. Qed.

Lemma between_shaped s t g : shaped_rule g = true -> between s t g = Ok (bool_decide (names_both s t g)).
Proof.
  intros (d & -> & Hs & Hd & _)%shaped_rule_inv. change (between s t (JObj d)) with
    (from ← found_in s (dget "src" d); if (from : bool) then found_in t (dget "dst" d) else Ok false).
  rewrite !found_in_side by done. unfold names_both. destruct (decide (JStr s ∈ side "src" (JObj d))) as [H1|H1].
  - rewrite (bool_decide_eq_true_2 _ H1). cbn [mbind outcome_bind]. f_equal. apply bool_decide_ext. naive_solver.
  - rewrite (bool_decide_eq_false_2 _ H1). cbn [mbind outcome_bind]. f_equal. symmetry. apply bool_decide_eq_false. naive_solver.
Qed.

Lemma first_between_shaped s t gs : forallb shaped_rule gs = true -> first_between s t gs = Ok (list_find (names_both s t) gs).
Proof.
  induction gs as [|g gs IH]; [done|]. cbn [forallb first_between list_find]. intros [Hg Hgs]%andb_true_iff.
  rewrite between_shaped by done. cbn [mbind outcome_bind]. case_bool_decide as H.
  - by rewrite decide_True.
  - rewrite decide_False, IH by done. cbn [mbind outcome_bind]. by destruct (list_find (names_both s t) gs) as [[]|].
Qed.

Lemma rules_dset key l parsed : rules key (dset key (JList l) parsed) = l.
Proof. unfold rules. by rewrite dget_dset, decide_True. Qed.

Lemma rules_dset_other key k v parsed : key <> k -> rules key (dset k v parsed) = rules key parsed.
Proof. intros H. unfold rules. by rewrite dget_dset, decide_False. Qed.

Definition new_grant (s t w : string) : json := JObj [("src", JList [JStr s]); ("dst", JList [JStr t]); ("ip", JList [JStr w])].

(** A grant with one more port, where it stands. *)
Definition widened (w : string) (d : dict) : json := JObj (dset "ip" (JList (side "ip" (JObj d) ++ [JStr w])) d).

(** What [grant] leaves of the grants of a policy that is shaped. *)
Lemma grant_shaped parsed s t w : shaped "grants" parsed = true ->
  grant parsed s t w =
    match list_find (names_both s t) (rules "grants" parsed) with
    | None => Ok (dset "grants" (JList (rules "grants" parsed ++ [new_grant s t w])) parsed, "a grant from " +:+ s +:+ " to " +:+ t +:+ " on " +:+ w)
    | Some (i, g) =>
        if bool_decide (JStr w ∈ side "ip" g) then Ok (parsed, "")
        else match g with
             | JObj d => Ok (dset "grants" (JList (<[i := widened w d]> (rules "grants" parsed))) parsed, w +:+ " added to the grant from " +:+ s +:+ " to " +:+ t)
             | _ => Raise (type_error "cannot convert to a dict")
             end
    end.
Proof.
  unfold shaped. intros [Hl Hs]%andb_true_iff. unfold grant. rewrite section_shaped by done. cbn [mbind outcome_bind].
  rewrite first_between_shaped by done. cbn [mbind outcome_bind]. destruct (list_find (names_both s t) (rules "grants" parsed)) as [[i g]|] eqn:Hf; [|done].
  apply list_find_Some in Hf as (Hg & _ & _). apply list_elem_of_lookup_2, list_elem_of_In in Hg.
  rewrite forallb_forall in Hs. apply Hs in Hg. apply shaped_rule_inv in Hg as (d & -> & _ & _ & Hip).
  cbn [get_of mbind outcome_bind]. rewrite listed_side by done. cbn [mbind outcome_bind dict_of]. by case_bool_decide.
Qed.

Lemma side_widened w d key : side key (widened w d) = if decide (key = "ip") then (side "ip" (JObj d) ++ [JStr w])%list else side key (JObj d).
Proof. unfold widened, side. rewrite dget_dset. case_decide as H; [by subst|done]. Qed.

Lemma names_both_widened s t w d : names_both s t (widened w d) <-> names_both s t (JObj d).
Proof. unfold names_both. rewrite !side_widened. by rewrite !decide_False by done. Qed.

Lemma shaped_widened w d : shaped_rule (JObj d) = true -> shaped_rule (widened w d) = true.
Proof.
  cbn. rewrite !dget_dset. repeat (case_decide; [done|]). rewrite decide_True by done. cbn.
  by intros [-> [-> _]%andb_true_iff]%andb_true_iff.
Qed.

(** * The policy's own tests *)

Lemma elem_of_remove_first x l y : y ∈ remove_first x l -> y ∈ l.
Proof. induction l as [|z l IH]; cbn; [done|]. case_bool_decide; [by right|]. intros [->|Hx]%elem_of_cons; [by left|right; by apply IH]. Qed.

Lemma remove_first_once x l : NoDup l -> x ∉ remove_first x l.
Proof.
  induction l as [|z l IH]; cbn; [by intros _ ?%elem_of_nil|]. intros [Hz Hl]%NoDup_cons. case_bool_decide as H; [by subst|].
  intros [->|Hx]%elem_of_cons; [done|by apply IH].
Qed.

(** What [accept] leaves of the denials and of everything else of a test. *)
Lemma accept_inv asserted test test' :
  accept asserted test = Ok test' ->
  exists l, listed (dget "deny" test) = Ok l /\ JStr asserted ∈ l /\
    dget "deny" test' = (match remove_first (JStr asserted) l with [] => None | rest => Some (JList rest) end) /\
    (forall k, k ∉ ["deny"; "accept"] -> dget k test' = dget k test).
Proof.
  unfold accept. intros (l & Hl & H)%outcome_bind_ok. exists l. case_bool_decide as Hin; [|done]. cbn [negb] in H.
  set (struck := match remove_first (JStr asserted) l with [] => _ | _ => _ end) in H.
  apply outcome_bind_ok in H as (acc & Hacc & H).
  assert (dget "deny" test' = dget "deny" struck /\ forall k, k <> "accept" -> dget k test' = dget k struck) as [Hd Ho].
  { case_bool_decide; injection H as <-; [done|]. split; [|intros k Hk]; by rewrite dget_dset, decide_False. }
  split_and!; [done|done| |].
  - rewrite Hd. unfold struck, dpop. destruct (remove_first _ l); [by rewrite dget_dwithout, decide_True|by rewrite dget_dset, decide_True].
  - intros k Hk. rewrite Ho by set_solver. unfold struck, dpop.
    destruct (remove_first _ l); [by rewrite dget_dwithout, decide_False by set_solver|by rewrite dget_dset, decide_False by set_solver].
Qed.

Lemma moved_test_inv source asserted test test' said :
  moved_test source asserted test = Ok (test', said) ->
  (denies source asserted test = Ok false /\ test' = test /\ said = []) \/
  (denies source asserted test = Ok true /\ accept asserted test = Ok test').
Proof.
  unfold moved_test. intros ([] & Hd & H)%outcome_bind_ok; [right|left; by simplify_eq].
  apply outcome_bind_ok in H as (t & Ht & H). by simplify_eq.
Qed.

(** A test that lists what it denies once each denies the path no more. *)
Lemma moved_test_agrees source asserted test test' said :
  moved_test source asserted test = Ok (test', said) ->
  (forall l, listed (dget "deny" test) = Ok l -> NoDup l) -> denies source asserted test' = Ok false.
Proof.
  intros [(Hd & -> & _)|(Hd & Ha)]%moved_test_inv Hnd; [done|]. apply accept_inv in Ha as (l & Hl & Hin & Hdeny & Ho).
  unfold denies in *. rewrite !Ho by set_solver. destruct (_ && _); [|done]. rewrite Hdeny. pose proof (remove_first_once (JStr asserted) l (Hnd l Hl)) as Hn.
  destruct (remove_first (JStr asserted) l) as [|x rest]; [done|]. cbn [found_in]. by rewrite bool_decide_eq_false_2.
Qed.

Lemma accept_well_keyed asserted test test' : accept asserted test = Ok test' -> well_keyed (JObj test) = true -> well_keyed (JObj test') = true.
Proof.
  unfold accept. intros (l & Hl & H)%outcome_bind_ok Hk. case_bool_decide; [|done]. cbn [negb] in H.
  set (struck := match remove_first (JStr asserted) l with [] => _ | _ => _ end) in H.
  assert (well_keyed (JObj struck) = true) as Hs.
  { pose proof (well_keyed_section _ _ _ Hk Hl) as Hlk. unfold struck, dpop. destruct (remove_first (JStr asserted) l) as [|x rest] eqn:Hr; [by apply well_keyed_dwithout|].
    apply well_keyed_dset; [done|]. change (forallb well_keyed (x :: rest) = true). rewrite <- Hr. apply forallb_forall. intros y Hy%list_elem_of_In%elem_of_remove_first.
    by apply (well_keyed_list l). }
  apply outcome_bind_ok in H as (acc & Hacc & H). case_bool_decide; injection H as <-; [done|]. apply well_keyed_dset; [done|].
  change (forallb well_keyed (acc ++ [JStr asserted])%list = true). rewrite forallb_snoc, (well_keyed_section _ _ _ Hs Hacc). done.
Qed.

Lemma moved_well_keyed source asserted tests moved :
  each_of (moved_test source asserted) tests = Ok moved -> forallb (fun t => well_keyed (JObj t)) tests = true ->
  forallb well_keyed (map (fun m : dict * list string => JObj m.1) moved) = true.
Proof.
  rewrite each_of_ok. induction 1 as [|t [t' said] tests moved Ht _ IH]; [done|]. cbn [forallb map fst]. intros [Hk Hks]%andb_true_iff.
  rewrite IH by done. rewrite andb_true_r. apply moved_test_inv in Ht as [(_ & -> & _)|(_ & Ha)]; [done|by eapply accept_well_keyed].
Qed.

Lemma dicts_well_keyed l ds : each_of dict_of l = Ok ds -> forallb well_keyed l = true -> forallb (fun t => well_keyed (JObj t)) ds = true.
Proof.
  rewrite each_of_ok. induction 1 as [|j d l ds Hd _ IH]; [done|]. cbn [forallb]. intros [Hk Hks]%andb_true_iff. rewrite IH by done. rewrite andb_true_r.
  destruct j as [| | |[]|[]|]; cbn in Hd; simplify_eq; done.
Qed.

(** * What opening a path changes *)

(** The grants [grant] leaves when it changes any. *)
Inductive amended (s t w : string) (grants grants' : list json) : Prop :=
| Appended : list_find (names_both s t) grants = None -> grants' = (grants ++ [new_grant s t w])%list -> amended s t w grants grants'
| Widened i d : list_find (names_both s t) grants = Some (i, JObj d) -> JStr w ∉ side "ip" (JObj d) ->
    grants' = <[i := widened w d]> grants -> amended s t w grants grants'.

Lemma grant_amends parsed s t w parsed' said : shaped "grants" parsed = true -> grant parsed s t w = Ok (parsed', said) ->
  (parsed' = parsed /\ said = "") \/
  exists grants', amended s t w (rules "grants" parsed) grants' /\ parsed' = dset "grants" (JList grants') parsed /\ said <> "".
Proof.
  intros Hs. rewrite grant_shaped by done. destruct (list_find _ _) as [[i g]|] eqn:Hf.
  - case_bool_decide as Hw; [by intros [= <- <-]; left|]. destruct g as [| | | | |d]; try done. intros [= <- <-]. right.
    eexists. split; [by eapply Widened|]. split; [done|]. by destruct w.
  - intros [= <- <-]. right. eexists. split; [by apply Appended|done].
Qed.

Section Amended.
Context (s t w : string) (grants grants' : list json) (Ha : amended s t w grants grants').

(** The path asked is open, by the first grant that names both its ends. *)
Lemma amended_finds : exists i g, list_find (names_both s t) grants' = Some (i, g) /\ JStr w ∈ side "ip" g.
Proof.
  destruct Ha as [Hf ->|i d Hf Hw ->].
  - exists (length grants), (new_grant s t w). split; [|by left]. apply list_find_Some. split_and!.
    + rewrite lookup_app_r by lia. by rewrite Nat.sub_diag.
    + split; by left.
    + intros j y Hj Hlt. rewrite lookup_app_l in Hj by done. apply list_find_None in Hf. rewrite Forall_forall in Hf. apply Hf. by eapply list_elem_of_lookup_2.
  - apply list_find_Some in Hf as (Hi & Hb & Hbefore). exists i, (widened w d). split.
    + apply list_find_Some. split_and!; [apply list_lookup_insert_eq; by eapply lookup_lt_Some|by apply names_both_widened|].
      intros j y Hj Hlt. rewrite list_lookup_insert_ne in Hj by lia. by eapply Hbefore.
    + rewrite side_widened, decide_True by done. apply elem_of_app. right. by left.
Qed.

(** Who reached what before still does. *)
Lemma amended_keeps a b ip : (exists g, g ∈ grants /\ carries a b ip g) -> exists g, g ∈ grants' /\ carries a b ip g.
Proof.
  intros (g & Hg & Hc). destruct Ha as [Hf ->|i d Hf Hw ->]; [exists g; split; [by apply elem_of_app; left|done]|].
  apply list_find_Some in Hf as (Hi & _ & _). apply list_elem_of_lookup in Hg as [j Hj]. destruct (decide (i = j)) as [->|Hij].
  - exists (widened w d). split; [eapply list_elem_of_lookup_2, list_lookup_insert_eq; by eapply lookup_lt_Some|].
    rewrite Hi in Hj. injection Hj as <-. destruct Hc as (? & ? & ?). unfold carries. rewrite !side_widened.
    rewrite (decide_False (P := "src" = "ip")), (decide_False (P := "dst" = "ip")), decide_True by done.
    split_and!; [done|done|]. apply elem_of_app. by left.
  - exists g. split; [|done]. eapply list_elem_of_lookup_2. by rewrite list_lookup_insert_ne.
Qed.

(** Whatever more is open is the port asked, to whom the grant that was changed names. *)
Lemma amended_adds a b ip : (exists g, g ∈ grants' /\ carries a b ip g) ->
  (exists g, g ∈ grants /\ carries a b ip g) \/
  (ip = w /\ ((a = s /\ b = t) \/ exists g, g ∈ grants /\ names_both s t g /\ names_both a b g)).
Proof.
  intros (g & Hg & Hc). destruct Ha as [Hf ->|i d Hf Hw ->].
  - apply elem_of_app in Hg as [Hg| ->%list_elem_of_singleton]; [left; by exists g|right].
    destruct Hc as (H1 & H2 & H3). cbn in H1, H2, H3. apply list_elem_of_singleton in H1, H2, H3. split; [congruence|left; split; congruence].
  - apply list_find_Some in Hf as (Hi & Hb & _). apply list_elem_of_lookup in Hg as [j Hj]. destruct (decide (i = j)) as [->|Hij].
    + rewrite list_lookup_insert_eq in Hj by (by eapply lookup_lt_Some). injection Hj as <-. destruct Hc as (H1 & H2 & H3).
      rewrite side_widened, decide_False in H1 by done. rewrite side_widened, decide_False in H2 by done. rewrite side_widened, decide_True in H3 by done.
      apply list_elem_of_lookup_2 in Hi. apply elem_of_app in H3 as [H3|H3%list_elem_of_singleton].
      * left. by exists (JObj d).
      * right. split; [congruence|right]. by exists (JObj d).
    + rewrite list_lookup_insert_ne in Hj by done. left. exists g. split; [by eapply list_elem_of_lookup_2|done].
Qed.

Lemma amended_shaped : forallb shaped_rule grants = true -> forallb shaped_rule grants' = true.
Proof.
  intros Hs. destruct Ha as [Hf ->|i d Hf Hw ->]; [by rewrite forallb_snoc, Hs|]. apply forallb_insert; [done|]. apply shaped_widened.
  apply list_find_Some in Hf as (Hi & _ & _). apply list_elem_of_lookup_2, list_elem_of_In in Hi. rewrite forallb_forall in Hs. by apply Hs.
Qed.

Lemma amended_well_keyed : forallb well_keyed grants = true -> forallb well_keyed grants' = true.
Proof.
  intros Hs. destruct Ha as [Hf ->|i d Hf Hw ->]; [by rewrite forallb_snoc, Hs|]. apply forallb_insert; [done|].
  apply list_find_Some in Hf as (Hi & _ & _). apply list_elem_of_lookup_2 in Hi. pose proof (well_keyed_list _ _ Hs Hi) as Hd.
  apply well_keyed_dset; [done|]. change (forallb well_keyed (side "ip" (JObj d) ++ [JStr w])%list = true). rewrite forallb_snoc, andb_true_r.
  unfold side. destruct (dget "ip" d) as [[| | | |l|]|] eqn:Hl; try done. by apply (well_keyed_field "ip" (JList l) d).
Qed.
End Amended.

Lemma json_loads_well_keyed text j : json_loads text = Ok j -> well_keyed j = true.
Proof.
  unfold json_loads. destruct (loads false text) as [v|e] eqn:H; [|by destruct e]. intros [= <-]. by eapply loads_well_keyed.
Qed.

Lemma json_loads_dumps j : well_keyed j = true -> json_loads (dumps_plain j) = Ok j.
Proof. intros H. unfold json_loads. by rewrite loads_dumps_plain. Qed.

(** The whole amendment, taken apart: the document read, the grants, the tests, the document written. *)
Lemma policy_allowing_inv doc s t port doc' said :
  policy_allowing doc s t port = Ok (doc', said) -> said <> "" ->
  (forall parsed, json_loads doc = Ok (JObj parsed) -> shaped "grants" parsed = true) ->
  let w := "tcp:" +:+ pretty port in
  exists parsed grants' tests moved,
    json_loads doc = Ok (JObj parsed) /\ shaped "grants" parsed = true /\ amended s t w (rules "grants" parsed) grants' /\
    section "tests" parsed ≫= each_of dict_of = Ok tests /\ each_of (moved_test s (t +:+ ":" +:+ pretty port)) tests = Ok moved /\
    json_loads doc' = Ok (JObj (dset "tests" (JList (map (fun m => JObj m.1) moved)) (dset "grants" (JList grants') parsed))).
Proof.
  unfold policy_allowing. intros ([| | | | |parsed] & Hread & H)%outcome_bind_ok Hsaid Hshape; try done.
  apply outcome_bind_ok in H as ([parsed1 granted] & Hg & H). specialize (Hshape parsed Hread).
  destruct (grant_amends _ _ _ _ _ _ Hshape Hg) as [[-> ->]|(grants' & Ha & -> & Hne)]; [rewrite bool_decide_eq_true_2 in H by done; congruence|].
  rewrite bool_decide_eq_false_2 in H by done. apply outcome_bind_ok in H as (lt & Hlt & H). apply outcome_bind_ok in H as (tests & Ht & H).
  apply outcome_bind_ok in H as (moved & Hm & H). injection H as <- _. unfold section in Hlt. rewrite dget_dset, decide_False in Hlt by done.
  exists parsed, grants', tests, moved. split_and!; try done.
  - apply outcome_bind_ok. by exists lt.
  - apply json_loads_dumps. pose proof (json_loads_well_keyed _ _ Hread) as Hk.
    assert (forallb well_keyed (rules "grants" parsed) = true) as Hr.
    { unfold rules. destruct (dget "grants" parsed) as [[| | | |l|]|] eqn:Hl; try done. by apply (well_keyed_field "grants" (JList l) parsed). }
    apply well_keyed_dset; [apply well_keyed_dset; [done|]|].
    + by apply (amended_well_keyed _ _ _ _ _ Ha).
    + apply (moved_well_keyed _ _ _ _ Hm). by eapply dicts_well_keyed; [exact Ht|eapply well_keyed_section; [exact Hk|exact Hlt]].
Qed.

(** C20: Opening a path changes the policy by that path: it is open after, whoever reached what still does,
    and what else is open is the same port, between names the changed grant already joined; sections
    other than the grants and the tests stand, no test that denies a path once denies this one any more,
    and asked again the policy is left as it is. *)
Theorem opened_path_is_all_that_opens (doc s t : string) (port : Z) (doc' said : string) :
  policy_allowing doc s t port = Ok (doc', said) -> said <> "" ->
  (forall parsed, json_loads doc = Ok (JObj parsed) -> shaped "grants" parsed = true) ->
  let w := "tcp:" +:+ pretty port in
  exists parsed parsed', json_loads doc = Ok (JObj parsed) /\ json_loads doc' = Ok (JObj parsed') /\
    opens parsed' s t w /\
    (forall a b ip, opens parsed a b ip -> opens parsed' a b ip) /\
    (forall a b ip, opens parsed' a b ip -> opens parsed a b ip \/
       ip = w /\ (a = s /\ b = t \/ exists g, g ∈ rules "grants" parsed /\ names_both s t g /\ names_both a b g)) /\
    (forall k, k ∉ ["grants"; "tests"] -> dget k parsed' = dget k parsed) /\
    ((forall tests test l, section "tests" parsed ≫= each_of dict_of = Ok tests -> test ∈ tests -> listed (dget "deny" test) = Ok l -> NoDup l) ->
     forall test, JObj test ∈ rules "tests" parsed' -> denies s (t +:+ ":" +:+ pretty port) test = Ok false) /\
    policy_allowing doc' s t port = Ok ("", "").
Proof.
  intros H Hsaid Hshape w. destruct (policy_allowing_inv _ _ _ _ _ _ H Hsaid Hshape) as (parsed & grants' & tests & moved & Hread & Hs & Ha & Ht & Hm & Hread').
  set (parsed' := dset "tests" _ _) in Hread'. exists parsed, parsed'.
  assert (rules "grants" parsed' = grants') as Hr by (unfold parsed'; by rewrite rules_dset_other, rules_dset).
  pose proof (amended_finds _ _ _ _ _ Ha) as (i & g & Hf & Hip). split_and!; [done|done| | | | | |].
  - exists g. apply list_find_Some in Hf as (Hi & [Hsrc Hdst] & _). split; [rewrite Hr; by eapply list_elem_of_lookup_2|by split_and!].
  - intros a b ip Hab. unfold opens. rewrite Hr. by apply (amended_keeps _ _ _ _ _ Ha).
  - intros a b ip Hab. unfold opens in *. rewrite Hr in Hab. by apply (amended_adds _ _ _ _ _ Ha).
  - intros k Hk. unfold parsed'. rewrite !dget_dset. rewrite !decide_False by set_solver. done.
  - intros Hnd test Hin. unfold parsed' in Hin. rewrite rules_dset in Hin. apply list_elem_of_fmap in Hin as ([test' said'] & [= ->] & Hin).
    apply each_of_ok in Hm. apply list_elem_of_lookup in Hin as [j Hj]. destruct (Forall2_lookup_r _ _ _ _ _ Hm Hj) as (old & Hold & Hmv).
    eapply moved_test_agrees; [exact Hmv|]. intros l. eapply Hnd; [done|by eapply list_elem_of_lookup_2].
  - unfold policy_allowing. rewrite Hread'. cbn [mbind outcome_bind]. rewrite grant_shaped.
    + rewrite Hr, Hf. by rewrite bool_decide_eq_true_2.
    + unfold shaped. rewrite Hr. rewrite (amended_shaped _ _ _ _ _ Ha) by (unfold shaped in Hs; by apply andb_true_iff in Hs as [_ ?]).
      unfold parsed'. by rewrite dget_dset, decide_False, dget_dset, decide_True.
Qed.

(** The port is opened for everyone the grant it joins names, though one path was asked for: a name that
    shares the source's side of that grant reaches the target on the port as well. *)
Theorem a_shared_grant_opens_for_everyone_in_it (doc s t : string) (port : Z) (doc' said : string) (parsed : dict) (i : nat) (g : json) (a b : string) :
  policy_allowing doc s t port = Ok (doc', said) -> said <> "" -> json_loads doc = Ok (JObj parsed) -> shaped "grants" parsed = true ->
  list_find (names_both s t) (rules "grants" parsed) = Some (i, g) -> names_both a b g ->
  exists parsed', json_loads doc' = Ok (JObj parsed') /\ opens parsed' a b ("tcp:" +:+ pretty port).
Proof.
  intros H Hsaid Hread Hs Hg Hab. destruct (policy_allowing_inv _ _ _ _ _ _ H Hsaid) as (p & grants' & tests & moved & Hread0 & _ & Ha & _ & _ & Hread');
    [intros p Hp; congruence|]. assert (p = parsed) as -> by congruence. eexists. split; [exact Hread'|]. unfold opens. rewrite rules_dset_other, rules_dset by done.
  destruct Ha as [Hf _|j d Hf Hw ->]; [congruence|]. assert (i = j /\ g = JObj d) as [-> ->] by (split; congruence).
  apply list_find_Some in Hg as (Hi & _ & _). exists (widened ("tcp:" +:+ pretty port) d). split; [eapply list_elem_of_lookup_2, list_lookup_insert_eq; by eapply lookup_lt_Some|].
  unfold carries. rewrite !side_widened. rewrite (decide_False (P := "src" = "ip")), (decide_False (P := "dst" = "ip")), decide_True by done.
  destruct Hab. split_and!; [done|done|]. apply elem_of_app. right. by left.
Qed.

(** * What striking the empty groups changes *)

(** No name of a struck group is asked after. *)
Lemma each_hashable l l' : each_of hashable l = Ok l' -> l' = l.
Proof.
  rewrite each_of_ok. induction 1 as [|x y l l' Hx _ IH]; [done|]. subst. f_equal. destruct x; cbn in Hx; congruence.
Qed.

Lemma struck_side_inv groups key rule rule' :
  struck_side groups key rule = Ok rule' ->
  (forall k, k <> key -> dget k rule' = dget k rule) /\
  (dget key rule = None /\ rule' = rule \/
   exists names, listed (dget key rule) = Ok names /\ dget key rule' = Some (JList (List.filter (fun n => negb (bool_decide (n ∈ map JStr groups))) names))).
Proof.
  unfold struck_side, dhas. destruct (dget key rule) as [v|] eqn:Hv; [|intros [= <-]; split; [done|by left]].
  intros (names & Hn & H)%outcome_bind_ok. apply outcome_bind_ok in H as (names' & Hh & [= <-]). apply each_hashable in Hh as ->.
  split; [intros k Hk; by rewrite dget_dset, decide_False|]. right. exists names. split; [done|]. by rewrite dget_dset, decide_True.
Qed.

Lemma each_hashable_sub l l' : each_of hashable l = Ok l -> (forall x, x ∈ l' -> x ∈ l) -> each_of hashable l' = Ok l'.
Proof.
  rewrite !each_of_ok. intros Hl Hsub. induction l' as [|x l' IH]; constructor; [|apply IH; intros y Hy; apply Hsub; by right].
  assert (x ∈ l) as [i Hi]%list_elem_of_lookup by (apply Hsub; by left). destruct (Forall2_lookup_l _ _ _ _ _ Hl Hi) as (y & Hy & Hh).
  congruence.
Qed.

Lemma side_names_ok rule key ns : side_names (JObj rule) key = Ok ns <-> listed (dget key rule) = Ok ns /\ each_of hashable ns = Ok ns.
Proof.
  unfold side_names. cbn [get_of mbind outcome_bind]. split.
  - intros (l & Hl & Hh)%outcome_bind_ok. pose proof (each_hashable _ _ Hh) as ->. done.
  - intros [-> Hh]. done.
Qed.

Lemma side_names_struck groups key rule rule' k ns : struck_side groups key rule = Ok rule' -> side_names (JObj rule) k = Ok ns ->
  exists ns', side_names (JObj rule') k = Ok ns' /\ forall x, x ∈ ns' -> x ∈ ns.
Proof.
  intros H [Hl Hh]%side_names_ok. apply struck_side_inv in H as [Ho H]. destruct (decide (k = key)) as [->|Hk].
  - destruct H as [[Hn ->]|(names & Hn & H)]; [exists ns; split; [by apply side_names_ok; split|done]|]. assert (names = ns) as -> by congruence.
    eexists. rewrite side_names_ok, H. cbn [listed]. split; [split; [done|]|].
    + eapply each_hashable_sub; [exact Hh|]. intros x [Hx _]%list_elem_of_In%filter_In. by apply list_elem_of_In.
    + intros x [Hx _]%list_elem_of_In%filter_In. by apply list_elem_of_In.
  - exists ns. rewrite side_names_ok, Ho by done. by split_and!.
Qed.

Lemma rule_names_ok d ns : rule_names (JObj d) = Ok ns <->
  exists a b, side_names (JObj d) "src" = Ok a /\ side_names (JObj d) "dst" = Ok b /\ ns = (a ++ b)%list.
Proof.
  unfold rule_names, RULE_SIDES. cbn [each_of]. split.
  - intros (l & (a & Ha & (ys & (b & Hb & (zs & [= <-] & [= <-])%outcome_bind_ok)%outcome_bind_ok & [= <-])%outcome_bind_ok)%outcome_bind_ok & [= <-])%outcome_bind_ok.
    exists a, b. cbn [concat]. by rewrite app_nil_r.
  - intros (a & b & -> & -> & ->). cbn. by rewrite app_nil_r.
Qed.

(** One rule struck, as what is left of it. *)
Lemma without_rule_inv groups rule out : without_rule groups rule = Ok out -> forall d, rule = JObj d ->
  exists d1 d2, struck_side groups "src" d = Ok d1 /\ struck_side groups "dst" d1 = Ok d2 /\
    out = if existsb (side_emptied d2) RULE_SIDES then None else Some (JObj d2).
Proof.
  unfold without_rule. intros (d0 & Hd & H)%outcome_bind_ok d ->. injection Hd as <-.
  apply outcome_bind_ok in H as (d1 & H1 & H). apply outcome_bind_ok in H as (d2 & H2 & [= <-]). by exists d1, d2.
Qed.

Lemma without_rule_names groups rule r' ns : without_rule groups rule = Ok (Some r') -> rule_names rule = Ok ns ->
  exists ns', rule_names r' = Ok ns' /\ forall x, x ∈ ns' -> x ∈ ns.
Proof.
  intros H Hn. destruct rule as [| | | | |d]; try (unfold rule_names, side_names in Hn; cbn in Hn; discriminate).
  destruct (without_rule_inv _ _ _ H _ eq_refl) as (d1 & d2 & H1 & H2 & Ho).
  destruct (existsb _ _); [done|]. injection Ho as ->. apply rule_names_ok in Hn as (a & b & Ha & Hb & ->).
  destruct (side_names_struck _ _ _ _ _ _ H1 Ha) as (a1 & Ha1 & Hsa1), (side_names_struck _ _ _ _ _ _ H1 Hb) as (b1 & Hb1 & Hsb1).
  destruct (side_names_struck _ _ _ _ _ _ H2 Ha1) as (a2 & Ha2 & Hsa2), (side_names_struck _ _ _ _ _ _ H2 Hb1) as (b2 & Hb2 & Hsb2).
  exists (a2 ++ b2)%list. split; [apply rule_names_ok; by exists a2, b2|]. intros x [Hx|Hx]%elem_of_app; apply elem_of_app; [left|right]; auto.
Qed.

Lemma without_names groups rules out nss : without groups rules = Ok out -> each_of rule_names rules = Ok nss ->
  exists nss', each_of rule_names out.1 = Ok nss' /\ forall x, x ∈ concat nss' -> x ∈ concat nss.
Proof.
  unfold without. intros (am & Ham & [= <-])%outcome_bind_ok Hn. cbn [fst]. apply each_of_ok in Ham, Hn. revert nss Hn.
  induction Ham as [|r o rules am Hr _ IH]; intros nss Hn.
  - exists []. split; [done|]. by intros x ?%elem_of_nil.
  - apply Forall2_cons_inv_l in Hn as (ns & nss0 & Hns & Hnss & ->). destruct (IH _ Hnss) as (nss' & He & Hsub).
    destruct o as [r'|]; cbn [omap list_omap id].
    + destruct (without_rule_names _ _ _ _ Hr Hns) as (ns' & Hr' & Hs'). exists (ns' :: nss'). split.
      * apply each_of_ok. constructor; [done|by apply each_of_ok].
      * cbn [concat]. intros x [Hx|Hx]%elem_of_app; apply elem_of_app; [left|right]; auto.
    + exists nss'. split; [done|]. cbn [concat]. intros x Hx. apply elem_of_app. right. auto.
Qed.

Lemma side_struck groups key rule rule' : struck_side groups key rule = Ok rule' -> list_or_absent (dget key rule) = true ->
  forall k, side k (JObj rule') = if decide (k = key) then List.filter (fun n => negb (bool_decide (n ∈ map JStr groups))) (side k (JObj rule)) else side k (JObj rule).
Proof.
  intros [Ho H]%struck_side_inv Hl k. unfold side. case_decide as Hk; [subst k|by rewrite Ho].
  destruct H as [[Hn ->]|(names & Hn & ->)]; [by rewrite Hn|]. by destruct (dget key rule) as [[]|]; try done; cbn in Hn; injection Hn as <-.
Qed.

Lemma elem_of_unstruck groups x l : JStr x ∈ List.filter (fun n => negb (bool_decide (n ∈ map JStr groups))) l <-> JStr x ∈ l /\ x ∉ groups.
Proof.
  rewrite !list_elem_of_In, filter_In, <- !list_elem_of_In. rewrite negb_true_iff, bool_decide_eq_false.
  assert (JStr x ∈ map JStr groups <-> x ∈ groups) as ->; [|done]. rewrite list_elem_of_fmap. naive_solver.
Qed.

(** What a struck rule still carries is what it carried between names that stay; a dropped rule carried none. *)
Lemma without_rule_carries groups rule out : shaped_rule rule = true -> without_rule groups rule = Ok out -> forall a b ip,
  (exists r, out = Some r /\ carries a b ip r) <-> carries a b ip rule /\ a ∉ groups /\ b ∉ groups.
Proof.
  intros (d & -> & Hs & Hd & Hip)%shaped_rule_inv H a b ip. destruct (without_rule_inv _ _ _ H _ eq_refl) as (d1 & d2 & H1 & H2 & ->).
  assert (list_or_absent (dget "dst" d1) = true) as Hd1 by (apply struck_side_inv in H1 as [Ho _]; by rewrite Ho).
  assert (carries a b ip (JObj d2) <-> carries a b ip (JObj d) /\ a ∉ groups /\ b ∉ groups) as Hc.
  { unfold carries. rewrite !(side_struck _ _ _ _ H2 Hd1), (decide_False (P := "src" = "dst")), (decide_False (P := "ip" = "dst")), decide_True by done.
    rewrite !(side_struck _ _ _ _ H1 Hs), (decide_False (P := "dst" = "src")), (decide_False (P := "ip" = "src")), decide_True by done.
    rewrite !elem_of_unstruck. naive_solver. }
  rewrite <- Hc. destruct (existsb (side_emptied d2) RULE_SIDES) eqn:He; [|naive_solver]. split; [naive_solver|]. intros (Ha & Hb & _). exfalso.
  apply existsb_exists in He as (k & Hk & He). unfold side_emptied in He.
  assert (forall k x, JStr x ∈ side k (JObj d2) -> match dget k d2 with Some v => negb (truthy v) | None => false end = false) as Hne.
  { intros k' x. unfold side. destruct (dget k' d2) as [[| | | |[|y l]|]|]; try (by intros ?%elem_of_nil). done. }
  destruct Hk as [<-|[<-|[]]]; [by rewrite (Hne _ _ Ha) in He|by rewrite (Hne _ _ Hb) in He].
Qed.

Lemma without_carries groups grants out : forallb shaped_rule grants = true -> without groups grants = Ok out -> forall a b ip,
  (exists g, g ∈ out.1 /\ carries a b ip g) <-> (exists g, g ∈ grants /\ carries a b ip g) /\ a ∉ groups /\ b ∉ groups.
Proof.
  unfold without. intros Hs (am & Ham & [= <-])%outcome_bind_ok a b ip. cbn [fst]. apply each_of_ok in Ham. revert Hs.
  induction Ham as [|r o grants am Hr _ IH]; cbn [forallb]; [intros _; split; [by intros (g & ?%elem_of_nil & _)|by intros ((g & ?%elem_of_nil & _) & _)]|].
  intros [Hsr Hs]%andb_true_iff. specialize (IH Hs). pose proof (without_rule_carries _ _ _ Hsr Hr a b ip) as Hc.
  assert ((exists g, g ∈ omap id (o :: am) /\ carries a b ip g) <-> (exists r', o = Some r' /\ carries a b ip r') \/ exists g, g ∈ omap id am /\ carries a b ip g) as ->.
  { destruct o as [r'|]; cbn [omap list_omap id].
    - setoid_rewrite elem_of_cons. naive_solver.
    - naive_solver. }
  rewrite Hc, IH. setoid_rewrite elem_of_cons. naive_solver.
Qed.

(** One section struck: what it then lists, and everything else as it stood. *)
Lemma without_in_inv groups key parsed out : without_in groups key parsed = Ok out ->
  (forall k, k <> key -> dget k out.1 = dget k parsed) /\
  (dget key parsed = None /\ out.1 = parsed \/
   exists rs struck, section key parsed = Ok rs /\ without groups rs = Ok struck /\ dget key out.1 = Some (JList struck.1)).
Proof.
  unfold without_in, dhas. destruct (dget key parsed) eqn:Hk; [|intros [= <-]; split; [done|by left]].
  intros (rs & Hrs & H)%outcome_bind_ok. apply outcome_bind_ok in H as (struck & Hst & [= <-]). cbn [fst].
  split; [intros k Hn; by rewrite dget_dset, decide_False|]. right. exists rs, struck. by rewrite dget_dset, decide_True.
Qed.

Lemma without_in_names groups key parsed out rs nss : without_in groups key parsed = Ok out -> section key parsed = Ok rs -> each_of rule_names rs = Ok nss ->
  exists rs' nss', section key out.1 = Ok rs' /\ each_of rule_names rs' = Ok nss' /\ forall x, x ∈ concat nss' -> x ∈ concat nss.
Proof.
  intros [_ [[Hn ->]|(rs0 & struck & Hrs & Hst & Hd)]]%without_in_inv Hs Hnss; [by exists rs, nss|].
  assert (rs0 = rs) as -> by congruence. destruct (without_names _ _ _ _ Hst Hnss) as (nss' & He & Hsub). exists struck.1, nss'.
  unfold section. rewrite Hd. done.
Qed.

Lemma without_names_all groups rules out : without groups rules = Ok out -> forallb well_keyed rules = true -> forallb well_keyed out.1 = true.
Proof.
  unfold without. intros (am & Ham & [= <-])%outcome_bind_ok. cbn [fst]. apply each_of_ok in Ham. induction Ham as [|r o rules am Hr _ IH]; [done|].
  cbn [forallb]. intros [Hk Hks]%andb_true_iff. specialize (IH Hks). destruct o as [r'|]; cbn [omap list_omap id forallb]; [|done].
  rewrite IH, andb_true_r. unfold without_rule in Hr. apply outcome_bind_ok in Hr as (d & Hd & H). apply outcome_bind_ok in H as (d1 & H1 & H).
  apply outcome_bind_ok in H as (d2 & H2 & H). destruct (existsb _ _); [done|]. injection H as <-.
  assert (well_keyed (JObj d) = true) as Hkd by (destruct r as [| | |[]|[]|]; cbn in Hd; simplify_eq; done).
  assert (forall key x y, struck_side groups key x = Ok y -> well_keyed (JObj x) = true -> well_keyed (JObj y) = true) as Hstep.
  { intros key x y. unfold struck_side. destruct (dhas key x); [|by intros [= <-]]. intros (ns & Hn & H)%outcome_bind_ok Hx.
    apply outcome_bind_ok in H as (ns' & Hh & [= <-]). pose proof (each_hashable _ _ Hh) as ->. apply well_keyed_dset; [done|].
    pose proof (well_keyed_section _ _ _ Hx Hn) as Hns. change (forallb well_keyed (List.filter (fun n => negb (bool_decide (n ∈ map JStr groups))) ns) = true).
    rewrite forallb_forall in *. intros z [Hz _]%filter_In. by apply Hns. }
  eapply Hstep; [exact H2|]. by eapply Hstep.
Qed.

Lemma without_in_well_keyed groups key parsed out : without_in groups key parsed = Ok out -> well_keyed (JObj parsed) = true -> well_keyed (JObj out.1) = true.
Proof.
  unfold without_in. destruct (dhas key parsed); [|by intros [= <-]]. intros (rs & Hrs & H)%outcome_bind_ok Hk.
  apply outcome_bind_ok in H as (st & Hst & [= <-]). apply well_keyed_dset; [done|]. eapply without_names_all; [exact Hst|]. by eapply well_keyed_section.
Qed.

Lemma elem_of_sorted x l : x ∈ sorted l <-> x ∈ l.
Proof. by rewrite sorted_perm. Qed.

Lemma truthy_keyed_filter (P : string * json -> bool) d : well_keyed (JObj d) = true -> well_keyed (JObj (List.filter P d)) = true.
Proof.
  cbn. intros [Hk%bool_decide_eq_true H]%andb_true_iff. rewrite bool_decide_eq_true_2 by by apply (NoDup_map_rows fst).
  cbn [andb]. rewrite forallb_forall in *. intros x [Hx _]%filter_In. by apply H.
Qed.

(** The whole edit, taken apart. *)
Lemma policy_without_inv doc doc' said : policy_without_empty_groups doc = Ok (doc', said) -> said <> "" ->
  exists parsed empty groups grants' ssh',
    json_loads doc = Ok (JObj parsed) /\ empty_granted_groups parsed = Ok empty /\ empty <> [] /\ groups_of parsed = Ok groups /\
    let parsed1 := dset "groups" (JObj (List.filter (fun kv : string * json => negb (bool_decide (kv.1 ∈ empty))) groups)) parsed in
    without_in empty "grants" parsed1 = Ok grants' /\ without_in empty "ssh" grants'.1 = Ok ssh' /\ json_loads doc' = Ok (JObj ssh'.1).
Proof.
  unfold policy_without_empty_groups. destruct (json_loads doc) as [[| | | | |parsed]|[]] eqn:Hread; try done.
  intros (empty & Hempty & H)%outcome_bind_ok Hsaid. destruct empty as [|e empty]; [by injection H as <- <-|].
  destruct (existsb _ _); [done|]. apply outcome_bind_ok in H as (groups & Hg & H). apply outcome_bind_ok in H as (gr & Hgr & H).
  apply outcome_bind_ok in H as (ssh & Hssh & [= <- _]). exists parsed, (e :: empty), groups, gr, ssh. split_and!; try done.
  apply json_loads_dumps. pose proof (json_loads_well_keyed _ _ Hread) as Hk.
  eapply without_in_well_keyed; [exact Hssh|]. eapply without_in_well_keyed; [exact Hgr|]. apply well_keyed_dset; [done|]. apply truthy_keyed_filter.
  unfold groups_of in Hg. destruct (dget "groups" parsed) as [v|] eqn:Hv; [|by injection Hg as <-].
  destruct v as [|[]|[]|[]|[]|d]; cbn in Hg; simplify_eq; try done. by apply (well_keyed_field "groups" (JObj groups) parsed).
Qed.

Lemma each_of_app {E A B} (f : A -> outcome E B) xs ys zs :
  each_of f (xs ++ ys)%list = Ok zs <-> exists a b, each_of f xs = Ok a /\ each_of f ys = Ok b /\ zs = (a ++ b)%list.
Proof.
  rewrite each_of_ok. split.
  - intros (a & b & Ha & Hb & ->)%Forall2_app_inv_l. exists a, b. by rewrite !each_of_ok.
  - intros (a & b & Ha & Hb & ->). rewrite each_of_ok in Ha, Hb. by apply Forall2_app.
Qed.

(** Once struck, no group without a member is named any more. *)
Lemma struck_names_no_empty parsed groups grants sshs named empty gr ssh :
  section "grants" parsed = Ok grants -> section "ssh" parsed = Ok sshs -> each_of rule_names (grants ++ sshs)%list = Ok named ->
  empty = sorted (map fst (List.filter (fun kv : string * json => negb (truthy kv.2) && bool_decide (JStr kv.1 ∈ concat named)) groups)) ->
  let kept := List.filter (fun kv : string * json => negb (bool_decide (kv.1 ∈ empty))) groups in
  without_in empty "grants" (dset "groups" (JObj kept) parsed) = Ok gr -> without_in empty "ssh" gr.1 = Ok ssh ->
  empty_granted_groups ssh.1 = Ok [].
Proof.
  intros Hsg Hss Hn Hempty kept Hgr Hssh. apply each_of_app in Hn as (n1 & n2 & Hn1 & Hn2 & ->).
  pose proof (without_in_inv _ _ _ _ Hgr) as [Hk1 _]. pose proof (without_in_inv _ _ _ _ Hssh) as [Hk2 _].
  assert (section "grants" (dset "groups" (JObj kept) parsed) = Ok grants) as Hsg1 by (unfold section; by rewrite dget_dset, decide_False).
  assert (section "ssh" gr.1 = Ok sshs) as Hss1 by (unfold section; by rewrite Hk1, dget_dset, decide_False).
  destruct (without_in_names _ _ _ _ _ _ Hgr Hsg1 Hn1) as (rs & m1 & Hrs & Hm1 & Hsub1).
  destruct (without_in_names _ _ _ _ _ _ Hssh Hss1 Hn2) as (ss & m2 & Hss2 & Hm2 & Hsub2).
  unfold empty_granted_groups, groups_of. rewrite Hk2, Hk1, dget_dset, decide_True by done. cbn [mbind outcome_bind].
  assert (section "grants" ssh.1 = Ok rs) as -> by (unfold section; by rewrite Hk2). rewrite Hss2. cbn [mbind outcome_bind].
  assert (each_of rule_names (rs ++ ss)%list = Ok (m1 ++ m2)%list) as -> by (apply each_of_app; by exists m1, m2). cbn [mbind outcome_bind].
  assert (List.filter (fun kv : string * json => negb (truthy kv.2) && bool_decide (JStr kv.1 ∈ concat (m1 ++ m2)%list)) kept = []) as ->; [|done].
  destruct (List.filter _ kept) as [|kv rest] eqn:Hf; [done|exfalso]. assert (In kv (kv :: rest)) as Hin by by left. rewrite <- Hf in Hin.
  apply filter_In in Hin as [[Hkv Hout]%filter_In [Ht Hnamed%bool_decide_eq_true]%andb_true_iff].
  apply negb_true_iff, bool_decide_eq_false in Hout. apply Hout. rewrite Hempty, elem_of_sorted. apply list_elem_of_fmap. exists kv. split; [done|].
  apply list_elem_of_In, filter_In. split; [done|]. rewrite Ht, concat_app in *. cbn [andb]. apply bool_decide_eq_true.
  apply elem_of_app in Hnamed as [Hx|Hx]; apply elem_of_app; [left|right]; auto.
Qed.

(** Striking the empty groups changes nobody's reach: between any two names that stay, the grants carry
    exactly what they carried; each group struck had no member, none is named by a grant any more, and
    struck again the policy is left as it is. *)
Theorem empty_groups_change_no_reach (doc doc' said : string) :
  policy_without_empty_groups doc = Ok (doc', said) -> said <> "" ->
  (forall parsed, json_loads doc = Ok (JObj parsed) -> shaped "grants" parsed = true) ->
  exists parsed parsed' empty groups, json_loads doc = Ok (JObj parsed) /\ json_loads doc' = Ok (JObj parsed') /\
    groups_of parsed = Ok groups /\ empty <> [] /\
    (forall g, g ∈ empty -> exists members, (g, members) ∈ groups /\ truthy members = false) /\
    (forall a b ip, opens parsed' a b ip <-> opens parsed a b ip /\ a ∉ empty /\ b ∉ empty) /\
    policy_without_empty_groups doc' = Ok ("", "").
Proof.
  intros H Hsaid Hshape. destruct (policy_without_inv _ _ _ H Hsaid) as (parsed & empty & groups & gr & ssh & Hread & He & Hne & Hg & Hgr & Hssh & Hread').
  exists parsed, ssh.1, empty, groups. specialize (Hshape _ Hread). unfold shaped in Hshape. apply andb_true_iff in Hshape as [Hl Hs].
  unfold empty_granted_groups in He. rewrite Hg in He. cbn [mbind outcome_bind] in He. rewrite (section_shaped _ _ Hl) in He. cbn [mbind outcome_bind] in He.
  apply outcome_bind_ok in He as (sshs & Hsec & He). apply outcome_bind_ok in He as (named & Hnamed & [= Hempty]).
  set (kept := List.filter (fun kv : string * json => negb (bool_decide (kv.1 ∈ empty))) groups) in *.
  split_and!; [done|done|done|done| | |].
  - intros g. rewrite <- Hempty, elem_of_sorted. intros ([k v] & -> & [Hin Hf]%list_elem_of_In%filter_In)%list_elem_of_fmap.
    exists v. split; [by apply list_elem_of_In|]. apply andb_true_iff in Hf as [Hf _]. by apply negb_true_iff in Hf.
  - intros a b ip. unfold opens. pose proof (without_in_inv _ _ _ _ Hssh) as [Hsk _]. pose proof (without_in_inv _ _ _ _ Hgr) as [_ Hcase].
    assert (rules "grants" ssh.1 = rules "grants" gr.1) as -> by (unfold rules; by rewrite Hsk).
    destruct Hcase as [[Hn ->]|(rs & st & Hrs & Hst & Hd)].
    + assert (rules "grants" parsed = []) as Hnil.
      { unfold rules. rewrite dget_dset, decide_False in Hn by done. by rewrite Hn. }
      rewrite rules_dset_other, Hnil by done. split; [by intros (g & ?%elem_of_nil & _)|by intros ((g & ?%elem_of_nil & _) & _)].
    + unfold section in Hrs. rewrite dget_dset, decide_False in Hrs by done. fold (section "grants" parsed) in Hrs. rewrite section_shaped in Hrs by done.
      injection Hrs as <-. assert (rules "grants" gr.1 = st.1) as -> by (unfold rules; by rewrite Hd). by apply without_carries.
  - unfold policy_without_empty_groups. rewrite Hread'.
    rewrite (struck_names_no_empty parsed groups (rules "grants" parsed) sshs named empty gr ssh); try done. by apply section_shaped.
Qed.

(** * At concrete documents *)

Definition shared_doc : string := dumps_plain (JObj [("grants", JList [grant_of ["watcher"; "guest"] ["web"] ["tcp:22"]])]).

Ltac shaped_doc := let p := fresh "p" in let Hp := fresh "Hp" in intros p Hp; vm_compute in Hp; injection Hp as <-; vm_compute; reflexivity.

Lemma opened_path_is_all_that_opens_witness :
  exists doc' said parsed', policy_allowing shared_doc "watcher" "web" 443 = Ok (doc', said) /\ json_loads doc' = Ok (JObj parsed') /\
    opens parsed' "watcher" "web" "tcp:443" /\ policy_allowing doc' "watcher" "web" 443 = Ok ("", "").
Proof.
  destruct (policy_allowing shared_doc "watcher" "web" 443) as [[doc' said]|e] eqn:H; [|vm_compute in H; discriminate H].
  assert (said <> "") as Hsaid by (vm_compute in H; injection H as _ <-; discriminate).
  destruct (opened_path_is_all_that_opens shared_doc "watcher" "web" 443 doc' said H Hsaid ltac:(shaped_doc))
    as (parsed & parsed' & _ & Hread & Hopen & _ & _ & _ & _ & Hagain).
  exists doc', said, parsed'. split; [reflexivity|]. split; [exact Hread|]. split; [exact Hopen|exact Hagain].
Defined.

Lemma a_shared_grant_opens_for_everyone_in_it_witness :
  exists doc' said parsed', policy_allowing shared_doc "watcher" "web" 443 = Ok (doc', said) /\ json_loads doc' = Ok (JObj parsed') /\
    opens parsed' "guest" "web" "tcp:443".
Proof.
  destruct (policy_allowing shared_doc "watcher" "web" 443) as [[doc' said]|e] eqn:H; [|vm_compute in H; discriminate H].
  assert (said <> "") as Hsaid by (vm_compute in H; injection H as _ <-; discriminate).
  destruct (a_shared_grant_opens_for_everyone_in_it shared_doc "watcher" "web" 443 doc' said
    [("grants", JList [grant_of ["watcher"; "guest"] ["web"] ["tcp:22"]])] 0 (grant_of ["watcher"; "guest"] ["web"] ["tcp:22"]) "guest" "web" H Hsaid)
    as (parsed' & Hread & Hopen).
  - vm_compute. reflexivity.
  - vm_compute. reflexivity.
  - vm_compute. reflexivity.
  - apply (bool_decide_unpack _). vm_compute. exact I.
  - exists doc', said, parsed'. split; [reflexivity|]. split; [exact Hread|exact Hopen].
Defined.

Definition grouped_doc : string := dumps_plain (JObj [("groups", JObj [("group:none", JList []); ("group:all", JList [JStr "ada"])]);
  ("grants", JList [grant_of ["group:none"; "group:all"] ["web"] ["*"]; grant_of ["group:none"] ["db"] ["*"]])]).

Lemma empty_groups_change_no_reach_witness :
  exists doc' said, policy_without_empty_groups grouped_doc = Ok (doc', said) /\ policy_without_empty_groups doc' = Ok ("", "").
Proof.
  destruct (policy_without_empty_groups grouped_doc) as [[doc' said]|e] eqn:H; [|vm_compute in H; discriminate H].
  assert (said <> "") as Hsaid by (vm_compute in H; injection H as _ <-; discriminate).
  destruct (empty_groups_change_no_reach grouped_doc doc' said H Hsaid ltac:(shaped_doc)) as (p & p' & empty & groups & _ & _ & _ & _ & _ & _ & Hagain).
  exists doc', said. split; [reflexivity|exact Hagain].
Defined.
