(* ===== verification/Names.v ===== *)
(** How HQ spells and compares DNS names ([names.py]): one spelling of a name, whether a name is in a
    zone, whether a certificate's names answer for it. *)
From stdpp Require Import base strings list.
From Stdlib Require Import Ascii ZArith Lia.
From S2P Require Import Prelude PyStr Json IpAddress.

#[local] Open Scope string_scope.

Definition dot : ascii := "."%char.

(** [normalized_hostname(name)], of a text. *)
Definition normalized_hostname (name : string) : string := rstrip_by (fun c => bool_decide (c = dot)) (lower (strip name)).

(** [text.removeprefix(prefix)] *)
Definition remove_prefix (prefix text : string) : string :=
  if startswith prefix text then String.substring (String.length prefix) (String.length text - String.length prefix) text else text.

(** [text.endswith(suffix)] *)
Fixpoint ends_with (ending text : string) : bool :=
  bool_decide (text = ending) || match text with "" => false | String _ rest => ends_with ending rest end.

(** [in_zone(name, zone)] *)
Definition in_zone (name zone : string) : bool :=
  let bare := remove_prefix "*." (normalized_hostname name) in
  let wanted := normalized_hostname zone in
  negb (bool_decide (wanted = "")) && (bool_decide (bare = wanted) || ends_with (String dot wanted) bare).

(** One label of [_HOSTNAME]. *)
Definition label_char (c : ascii) : bool := ascii_digit c || ((97 <=? code c) && (code c <=? 122))%nat || (code c =? 45)%nat.
Definition host_label (label : string) : bool :=
  str_all label_char label && (1 <=? String.length label)%nat && (String.length label <=? 63)%nat &&
  negb (startswith "-" label) && negb (ends_with "-" label).

(** [is_hostname(name)] *)
Definition is_hostname (name : string) : bool :=
  let text := normalized_hostname name in
  (String.length text <=? 253)%nat && forallb host_label (split_on dot text) && match ip_address text with None => true | Some _ => false end.

(** [certificate_covers(domain, names)] *)
Definition certificate_covers (domain : string) (names : list string) : bool :=
  let normalized := normalized_hostname domain in
  bool_decide (normalized ∈ names) ||
  let '(_, separator, parent) := partition dot normalized in separator && bool_decide (("*." +:+ parent) ∈ names).

(** [names_a_host(name)] *)
Definition names_a_host (name : string) : bool := negb (existsb (startswith "_") (split_on dot name)).

Example names_normalized : map normalized_hostname ["App.Example.COM."; " a.b.. "; "..."; ""] = ["app.example.com"; "a.b"; ""; ""].
Proof. vm_compute. reflexivity. Qed.

Example names_in_zones : map (fun nz => in_zone nz.1 nz.2)
  [("*.app.example.com", "example.com"); ("notexample.com", "example.com"); ("example.com.", "EXAMPLE.com"); ("a.com", ""); ("com", "example.com")]
  = [true; false; true; false; false].
Proof. vm_compute. reflexivity. Qed.

Example hosts : map is_hostname ["app.example.com"; "*.example.com"; "192.0.2.10"; "-a.com"; "a-.com"; "a..b"; ""; "_dmarc.a"; "h1"]
  = [true; false; false; false; false; false; false; false; true].
Proof. vm_compute. reflexivity. Qed.

Example covered : map (fun d => certificate_covers d ["*.example.com"; "example.org"]) ["a.example.com"; "a.b.example.com"; "example.com"; "Example.ORG."; ""]
  = [true; false; false; true; false].
Proof. vm_compute. reflexivity. Qed.

(** * What they decide *)

Lemma ends_with_spec ending text : ends_with ending text = true <-> exists front, text = front +:+ ending.
Proof.
  induction text as [|c text IH]; cbn [ends_with]; rewrite orb_true_iff, bool_decide_eq_true.
  - split; [intros [-> |?]; [by exists ""|done]|intros [[|? ?] H]; [by left|done]].
  - split.
    + intros [<- |[front ->]%IH]; [by exists ""|by exists (String c front)].
    + intros [[|d front] H]; [by left|right; apply IH; injection H as -> ->; by exists front].
Qed.

(** A wildcard covers one label, and a plain name covers itself. *)
Definition covers (pattern host : string) : Prop :=
  pattern = host \/ exists label parent, pattern = "*." +:+ parent /\ host = label +:+ String dot parent /\ mem_char dot label = false.

Lemma app_one_dot a b c d : mem_char dot a = false -> mem_char dot c = false -> a +:+ String dot b = c +:+ String dot d -> a = c /\ b = d.
Proof.
  intros Ha Hc H. apply (f_equal (split_on dot)) in H as Hs. rewrite !split_on_app in Hs by done. injection Hs as -> Hs.
  split; [done|]. by apply (inj (String.append c)) in H as [= ->].
Qed.

Lemma partition_missing c s b a : partition c s = (b, false, a) -> mem_char c s = false.
Proof.
  revert b a. induction s as [|d s IH]; intros b a; cbn; [done|]. case_decide; [done|].
  destruct (partition c s) as [[b' f'] a'] eqn:Hp. intros [= <- -> <-]. by eapply IH.
Qed.

(** A certificate answers for a host exactly when one of its names covers it. *)
Lemma certificate_covers_spec domain names :
  certificate_covers domain names = true <-> exists pattern, pattern ∈ names /\ covers pattern (normalized_hostname domain).
Proof.
  unfold certificate_covers. set (host := normalized_hostname domain). destruct (partition dot host) as [[before sep] after] eqn:Hp.
  rewrite orb_true_iff, andb_true_iff, !bool_decide_eq_true. split.
  - intros [Hin|[-> Hin]]; [exists host; split; [done|by left]|]. apply partition_found in Hp as [-> Hb].
    eexists. split; [exact Hin|]. right. by exists before, after.
  - intros (pattern & Hin & [<-|(label & parent & -> & Hh & Hl)]); [by left|right]. destruct sep.
    + apply partition_found in Hp as [Hp Hb]. rewrite Hh in Hp. apply app_one_dot in Hp as [-> ->]; done.
    + apply partition_missing in Hp. rewrite Hh, mem_char_app, mem_char_here, orb_true_r in Hp. done.
Qed.

Lemma split_on_parted c s : split_on c s <> [].
Proof. destruct s as [|d s]; cbn; [done|]. case_decide; [done|]. by destruct (split_on c s). Qed.

Lemma split_on_front c s front back : split_on c s = (front ++ back)%list -> front <> [] -> back <> [] ->
  s = join (String c "") front +:+ String c (join (String c "") back).
Proof.
  intros H Hf Hb. rewrite <- (join_split c s), H. clear H. induction front as [|x front IH]; [done|].
  destruct front as [|y front]; destruct back as [|z back]; try done.
  cbn [app]. rewrite join_app_sep. cbn [app] in IH. rewrite IH by done. by rewrite (join_app_sep c x y front), app_assoc_str.
Qed.

Lemma split_on_app_all c x y : split_on c (x +:+ String c y) = (split_on c x ++ split_on c y)%list.
Proof.
  induction x as [|d x IH].
  - change ("" +:+ String c y) with (String c y). cbn [split_on]. by rewrite decide_True.
  - change (String d x +:+ String c y) with (String d (x +:+ String c y)). cbn [split_on]. rewrite IH. case_decide; [done|].
    by destruct (split_on c x) eqn:E; [destruct (split_on_parted _ _ E)|].
Qed.

Lemma ends_with_labels wanted bare :
  bare = wanted \/ ends_with (String dot wanted) bare = true <-> exists front, split_on dot bare = (front ++ split_on dot wanted)%list.
Proof.
  rewrite ends_with_spec. split.
  - intros [->|[front ->]]; [by exists []|]. exists (split_on dot front). apply split_on_app_all.
  - intros [front H]. destruct front as [|x front]; [left; cbn in H|right].
    { pose proof (join_split dot bare) as Hb. rewrite H in Hb. by rewrite <- Hb, join_split. }
    exists (join (String dot "") (x :: front)). apply split_on_front in H; [|done|apply split_on_parted]. by rewrite (join_split dot wanted) in H.
Qed.

(** A name is in a zone exactly when the zone's labels end its own: on label boundaries, never on letters. *)
Lemma in_zone_spec name zone :
  in_zone name zone = true <-> normalized_hostname zone <> "" /\
    exists front, split_on dot (remove_prefix "*." (normalized_hostname name)) = (front ++ split_on dot (normalized_hostname zone))%list.
Proof.
  unfold in_zone. rewrite andb_true_iff, negb_true_iff, bool_decide_eq_false, orb_true_iff, bool_decide_eq_true. by rewrite ends_with_labels.
Qed.

(** Trimming comes before the dots go, so a name with a space before its last dot keeps it, and spelled
    again is spelled another way. *)
Example spelled_twice : normalized_hostname "app.example.com ." = "app.example.com " /\ normalized_hostname "app.example.com " = "app.example.com".
Proof. vm_compute. done. Qed.
