(* ===== verification/Providers.v ===== *)
(** The registry of kinds HQ manages ([providers.py], [provider_spec.py]): what a provider's
    declaration holds, and what is asked of it by kind.

    A provider's own hooks (its model, its reading of a record) are functions of the declaration, as
    they are in the code; [Certificates] gives the ones of a certificate. *)
From stdpp Require Import base gmap strings list.
From Stdlib Require Import Ascii ZArith Lia.
From S2P Require Import Prelude PyStr Json Refusals Security Models Specs PyJson.

#[local] Open Scope string_scope.

(** [ControllerActionPolicy] *)
Record ActionPolicy : Type := mkActionPolicy { ap_applies : bool; ap_automatic : bool; ap_reason : string; ap_verification : option json }.

(** [applies(automatic=..., verification=...)] and [locked(reason)] *)
Definition applies_action (automatic : bool) (verification : option json) : ActionPolicy := mkActionPolicy true automatic "" verification.
Definition locked_action (reason : string) : ActionPolicy := mkActionPolicy false false reason None.

(** [ControllerActionPolicy.why_locked()] *)
Definition why_locked (p : ActionPolicy) : string := str_or (ap_reason p) "HQ cannot run this action.".

(** [ProviderResolutionContext] *)
Record Resolution : Type := mkResolution {
  cx_delivery_targets : list dict;
  cx_resource_status : option (string -> list string -> option dict);
  cx_resource_key : string;
  cx_caddy_routes : option (list dict);
  cx_names_at : option (string -> list string);
}.

(** [ProviderSpec]: [pr_validate] is the model validated and written back as JSON, [pr_resolved] the same
    of [resolved_type].  The hooks pages and forms draw with (readout, seed, origin, family, home) are left
    out. *)
Record ProviderSpec : Type := mkProviderSpec {
  pr_label : string;
  pr_validate : dict -> outcome exn dict;
  pr_resolver : option (dict -> Resolution -> outcome exn dict);
  pr_resolved : option (dict -> outcome exn dict);
  pr_public_effect : bool;
  pr_requires_approval : bool;
  pr_declaration_only : bool;
  pr_resolution_input : bool;
  pr_withheld : bool;
  pr_facet : string;
  pr_hostnames : option (dict -> outcome exn (list string));
  pr_identity : option (dict -> outcome exn (list string));
  pr_key_hint : option (dict -> outcome exn string);
  pr_from_record : option (dict -> outcome exn dict);
  pr_adopts : option (dict -> bool);
  pr_adoption_gap : string;
  pr_connection_providers : list string;
  pr_unobservable_fields : list string;
  pr_reported_fields : list string;
  pr_field_titles : list (string * string);
  pr_contains : option (string * string * string);
  pr_actions : list (string * ActionPolicy);
}.

(** [PROVIDERS], in admission order. *)
Notation Registry := (list (string * ProviderSpec)).

(** [_registry()]: the declarations past those already seen. *)
Fixpoint registry_from (seen : list string) (declarations : Registry) : outcome exn Registry :=
  match declarations with
  | [] => Ok []
  | (kind, d) :: rest =>
      if among kind seen then Raise (ValueError ("Two modules name " +:+ repr kind +:+ "."))
      else (more ← registry_from (kind :: seen) rest; Ok ((kind, d) :: (more : Registry)))
  end.

Definition registry_of (declarations : Registry) : outcome exn Registry := registry_from [] declarations.

(** What a hook may fail with: [except (KeyError, TypeError, ValueError)]. *)
Definition is_unread (e : exn) : bool :=
  is_value_error e || match e with OtherError c _ => bool_decide (c = "KeyError" \/ c = "TypeError") | _ => false end.

Section Registry.
Variable (providers : Registry).

(** [PROVIDERS.get(kind)] *)
Definition provider_at (kind : string) : option ProviderSpec := snd <$> first_where (fun kp => bool_decide (kp.1 = kind)) providers.

Definition key_error (key : string) : exn := OtherError "KeyError" (repr key).

(** [PROVIDERS[kind]] *)
Definition provider_named (kind : string) : outcome exn ProviderSpec :=
  match provider_at kind with Some p => Ok p | None => Raise (key_error kind) end.

(** [registry_label(kind)]: [readings] names the kinds a controller only reads. *)
Definition registry_label (readings : string -> option string) (kind : string) : string :=
  match provider_at kind with
  | Some p => if decide (pr_label p = "") then match readings kind with Some l => l | None => "Unknown type" end else pr_label p
  | None => match readings kind with Some l => l | None => "Unknown type" end
  end.

(** [spec_withheld(kind)] and [shown_spec(kind, spec)] *)
Definition spec_withheld (kind : string) : bool := match provider_at kind with Some p => pr_withheld p | None => false end.
Definition shown_spec (kind : string) (spec : dict) : dict := if spec_withheld kind then [] else spec.

(** [read_record(kind, record, read)] *)
Definition read_record {A} (kind : string) (record : dict) (read : dict -> outcome exn A) : outcome exn (option A) :=
  match provider_at kind ≫= pr_from_record with
  | Some from_record =>
      match (spec ← from_record record; read spec) with
      | Ok a => Ok (Some a)
      | Raise e => if is_unread e then Ok None else Raise e
      end
  | None => Ok None
  end.

(** [record_spec(kind, record)] *)
Definition record_spec (kind : string) (record : dict) : outcome exn (option dict) := read_record kind record Ok.

(** [read_spec(kind, spec, read)] *)
Definition read_spec {A} (spec : dict) (read : dict -> outcome exn A) : outcome exn (option A) :=
  match read spec with
  | Ok a => Ok (Some a)
  | Raise e => if is_unread e then Ok None else Raise e
  end.

(** [controller_capability_registry()] *)
Definition controller_capability_registry : outcome exn (list (string * list (string * ActionPolicy))) :=
  match sorted (map fst (List.filter (fun kp : string * ProviderSpec => bool_decide (pr_actions kp.2 = [])) providers)) with
  | [] => Ok (map (fun kp : string * ProviderSpec => (kp.1, pr_actions kp.2)) providers)
  | missing => Raise (ValueError ("Every connection type must say what HQ may do to it. Missing: " +:+ join ", " missing))
  end.

(** Pairs in Python's order of tuples of strings. *)
Fixpoint insert_pair (x : string * string) (l : list (string * string)) : list (string * string) :=
  match l with
  | [] => [x]
  | y :: rest => if String.ltb y.1 x.1 || bool_decide (y.1 = x.1) && String.ltb y.2 x.2 then y :: insert_pair x rest else x :: l
  end.

(** [enabled_controller_actions(automatic_only=...)] *)
Definition enabled_controller_actions (automatic_only : bool) : outcome exn (list (string * string)) :=
  registry ← controller_capability_registry;
  Ok (fold_right insert_pair [] (concat (map (fun ka : string * list (string * ActionPolicy) =>
        map (fun ap : string * ActionPolicy => (ka.1, ap.1))
          (List.filter (fun ap : string * ActionPolicy => ap_applies ap.2 && (ap_automatic ap.2 || negb automatic_only)) ka.2)) registry))).

(** [policy = capability.actions.get(action) if capability else None] *)
Definition action_of (kind action : string) : option ActionPolicy :=
  provider_at kind ≫= fun p => snd <$> first_where (fun ap => bool_decide (ap.1 = action)) (pr_actions p).

(** [controller_action_policy(kind, action)] *)
Definition controller_action_policy (kind action : string) : outcome exn (bool * string) :=
  _ ← controller_capability_registry;
  Ok match action_of kind action with
     | None => (false, "HQ does not do that to this type of record.")
     | Some policy => if ap_applies policy then (true, "HQ can run this action.") else (false, why_locked policy)
     end.

(** [kind_converges(kind)] *)
Definition kind_converges (kind : string) : outcome exn bool :=
  _ ← controller_capability_registry;
  Ok match action_of kind RECONCILE with Some policy => ap_applies policy | None => false end.

(** [validate_spec(kind, payload)] *)
Definition validate_spec (kind : string) (payload : dict) : outcome exn dict :=
  match provider_at kind with
  | None => Raise (ValueError ("Unknown record type " +:+ repr kind +:+ "."))
  | Some p => pr_validate p payload
  end.

(** [resolve_provider_spec(kind, payload, context=...)] *)
Definition resolve_provider_spec (kind : string) (payload : dict) (context : Resolution) : outcome exn dict :=
  p ← provider_named kind;
  authored ← validate_spec kind payload;
  resolved ← (match pr_resolver p with Some f => f authored context | None => Ok authored end);
  match pr_resolved p with Some validate => validate resolved | None => pr_validate p resolved end.

(** The site whose [PROVIDERS] is this registry. *)
Definition site_provider (kind : string) : option Provider :=
  (fun p => mkProvider (pr_requires_approval p) (pr_public_effect p) (pr_declaration_only p)) <$> provider_at kind.

Definition site_of (host : Site) : Site :=
  mkSite (h_deployment host) (h_capabilities host) (h_resources host) site_provider
    (fun kind record => match record_spec kind record with Ok s => s | Raise _ => None end)
    (h_get_resource host) (h_sha256 host) (h_token host) (h_approval_window_hours host) (h_idempotency_ttl_seconds host) (h_site_url host)
    (h_approval_entry host) (h_uuid host) (h_moment host) (h_envelope_words host).
End Registry.

(** * What the registry answers *)

Lemma insert_pair_perm x l : insert_pair x l ≡ₚ x :: l.
Proof. induction l as [|y l IH]; cbn; [done|]. case_match; [|done]. rewrite IH. apply Permutation_swap. Qed.

Lemma sort_pairs_perm l : fold_right insert_pair [] l ≡ₚ l.
Proof. induction l as [|x l IH]; cbn; [done|]. by rewrite insert_pair_perm, IH. Qed.

Lemma provider_at_in providers kind p : provider_at providers kind = Some p -> (kind, p) ∈ providers.
Proof.
  unfold provider_at. destruct (first_where _ _) as [[k q]|] eqn:Hf; [|done]. intros [= <-].
  apply first_where_some in Hf as [Hin Hk%bool_decide_eq_true]. cbn in Hk. by subst.
Qed.

Lemma provider_at_unique providers kind p : NoDup (map fst providers) -> (kind, p) ∈ providers -> provider_at providers kind = Some p.
Proof.
  intros Hnd Hin. unfold provider_at. destruct (first_where _ _) as [[k q]|] eqn:Hf.
  - apply first_where_some in Hf as [Hin' Hk%bool_decide_eq_true]. cbn in Hk. subst. f_equal.
    by pose proof (unique_by fst _ _ _ Hnd Hin Hin' eq_refl) as [= ->].
  - pose proof (first_where_none _ _ Hf _ Hin) as H. cbn in H. by apply bool_decide_eq_false in H.
Qed.

Lemma registry_from_spec declarations seen providers : registry_from seen declarations = Ok providers ->
  providers = declarations /\ NoDup (map fst providers) /\ forall k, k ∈ map fst providers -> k ∉ seen.
Proof.
  revert seen providers. induction declarations as [|[kind d] ds IH]; intros seen out; cbn [registry_from].
  - intros [= <-]. split_and!; [done|constructor|by intros ? ?%elem_of_nil].
  - unfold among. case_bool_decide as Hk; [done|]. rewrite outcome_bind_ok. intros (more & (-> & Hnd & Hs)%IH & [= <-]). cbn. split_and!; [done| |].
    + apply NoDup_cons. split; [intros Hin; apply (Hs _ Hin); by left|done].
    + intros k [->|Hin]%elem_of_cons; [done|]. intros Hk'. apply (Hs _ Hin). by right.
Qed.

(** The registry admits every declaration under a kind of its own, or none. *)
Lemma registry_of_spec declarations providers : registry_of declarations = Ok providers -> providers = declarations /\ NoDup (map fst providers).
Proof. intros H. by apply registry_from_spec in H as (? & ? & _). Qed.

(** An action is queued by itself only where the policy for its kind says so. *)
Lemma enabled_actions_spec providers automatic_only actions kind action :
  NoDup (map fst providers) -> (forall k p, (k, p) ∈ providers -> NoDup (map fst (pr_actions p))) ->
  enabled_controller_actions providers automatic_only = Ok actions ->
  (kind, action) ∈ actions <-> exists policy, action_of providers kind action = Some policy /\ ap_applies policy = true /\ (automatic_only = true -> ap_automatic policy = true).
Proof.
  intros Hnd Hacts. unfold enabled_controller_actions. rewrite outcome_bind_ok. intros (registry & Hr & [= <-]).
  assert (registry = map (fun kp : string * ProviderSpec => (kp.1, pr_actions kp.2)) providers) as ->.
  { unfold controller_capability_registry in Hr. case_match; by simplify_eq. }
  rewrite sort_pairs_perm. unfold action_of. split.
  - intros (l & Hl & Hin)%list_elem_of_In%in_concat. apply in_map_iff in Hl as ([k acts] & <- & ([k' p] & [= <- <-] & Hp%list_elem_of_In)%in_map_iff).
    apply in_map_iff in Hin as ([a policy] & [= <- <-] & [Ha Hok]%filter_In). apply andb_true_iff in Hok as [Hap Hau].
    exists policy. rewrite (provider_at_unique _ _ _ Hnd Hp). cbn. split_and!; [|done|intros ->; by rewrite orb_false_r in Hau].
    destruct (first_where _ (pr_actions p)) as [[a' policy']|] eqn:Hf.
    + apply first_where_some in Hf as [Hin' Hk%bool_decide_eq_true]. cbn in Hk. subst. f_equal. apply list_elem_of_In in Ha.
      by pose proof (unique_by fst _ _ _ (Hacts _ _ Hp) Ha Hin' eq_refl) as [= ->].
    + apply list_elem_of_In in Ha. pose proof (first_where_none _ _ Hf _ Ha) as H. cbn in H. by apply bool_decide_eq_false in H.
  - intros (policy & Hp & Hap & Hau). apply bind_Some in Hp as (p & Hp%provider_at_in & Ha).
    destruct (first_where _ (pr_actions p)) as [[a policy']|] eqn:Hf; [|done]. injection Ha as ->.
    apply first_where_some in Hf as [Hin Hk%bool_decide_eq_true]. cbn in Hk. subst.
    apply list_elem_of_In, in_concat. eexists. split.
    + apply in_map_iff. exists (kind, pr_actions p). split; [reflexivity|]. apply in_map_iff. by exists (kind, p); split; [|apply list_elem_of_In].
    + apply in_map_iff. exists (action, policy). split; [done|]. apply filter_In. split; [by apply list_elem_of_In|]. cbn. rewrite Hap.
      destruct automatic_only; [by rewrite Hau|by rewrite orb_true_r].
Qed.
