(* ===== verification/Certificates.v ===== *)
(** Certificates HQ issues and where they are installed ([provider_adapters/tls.py], and the delivery
    target of [provider_adapters/declarations.py]), with an internal DNS record ([adguard.py]) beside
    them: a registry to run [Declarations] on.

    A pydantic model is read by [read_model]: its fields with their types, bounds and defaults, unknown
    fields forbidden.  Values pydantic would make another type of (a number for a flag) are refused here.
    [words] is what pydantic says of a payload a model refuses. *)
From stdpp Require Import base gmap strings list pretty.
From Stdlib Require Import Ascii ZArith Lia.
From S2P Require Import Prelude PyStr Json Refusals Security Models Specs Policy Operations Controller PyJson Names Providers.

#[local] Open Scope string_scope.

(** * Models *)

Inductive FieldType : Type :=
| FText (least most : nat) (matches : string -> bool)
| FTexts
| FFlag
| FNumber (lo hi : Z)
| FOneOf (values : list string).

Record Field : Type := mkField { fl_name : string; fl_type : FieldType; fl_default : option json }.

Definition fits (t : FieldType) (v : json) : bool :=
  match t, v with
  | FText least most matches, JStr s => (least <=? String.length s)%nat && (String.length s <=? most)%nat && matches s
  | FTexts, JList l => forallb (fun x => match x with JStr _ => true | _ => false end) l
  | FFlag, JBool _ => true
  | FNumber lo hi, JNum n => (lo <=? n)%Z && (n <=? hi)%Z
  | FOneOf values, JStr s => among s values
  | _, _ => false
  end.

(** [ProviderModel._settle_line_endings]: each [\r\n], then each [\r], becomes a newline. *)
Definition cr : ascii := "013"%char.
Definition nl : ascii := "010"%char.

Fixpoint settle_text (after_cr : bool) (s : string) : string :=
  match s with
  | "" => ""
  | String c r =>
      if decide (c = cr) then String nl (settle_text true r)
      else if after_cr && bool_decide (c = nl) then settle_text false r
      else String c (settle_text false r)
  end.

Definition settled (v : json) : json := match v with JStr s => if mem_char cr s then JStr (settle_text false s) else v | _ => v end.

Fixpoint read_fields (fields : list Field) (payload : dict) : option dict :=
  match fields with
  | [] => Some []
  | f :: rest =>
      v ← match dget (fl_name f) payload with Some v => if fits (fl_type f) v then Some (settled v) else None | None => fl_default f end;
      more ← read_fields rest payload;
      Some ((fl_name f, v) :: more)
  end.

Definition read_model (fields : list Field) (payload : dict) : option dict :=
  if forallb (fun k => among k (map fl_name fields)) (keys payload) then read_fields fields payload else None.

Definition any_text (_ : string) : bool := true.
Definition text_field (name : string) (least most : nat) : Field := mkField name (FText least most any_text) None.
Definition blank_field (name : string) (most : nat) : Field := mkField name (FText 0 most any_text) (Some (JStr "")).
Definition texts_field (name : string) : Field := mkField name FTexts (Some (JList [])).

(** [spec[name]] and [spec.get(name)] of a model read before, whose fields have their types. *)
Definition text_of (name : string) (d : dict) : string := match dget name d with Some (JStr s) => s | _ => "" end.
Definition texts_of (name : string) (d : dict) : list string := omap (fun v => match v with JStr s => Some s | _ => None end) (items (dget name d)).
Definition flag_of (name : string) (d : dict) : bool := match dget name d with Some v => truthy v | None => false end.

(** * A certificate *)

Definition lower_or_digit (c : ascii) : bool := ascii_digit c || is_lower c.

(** [CERTIFICATE_NAME_PATTERN] *)
Definition CERTIFICATE_NAME_PATTERN (s : string) : bool :=
  match s with String c r => lower_or_digit c && str_all (fun c => lower_or_digit c || (code c =? 45)%nat) r | "" => false end.

Definition CERTIFICATE_FIELDS : list Field :=
  [mkField "certificate_name" (FText 0 160 CERTIFICATE_NAME_PATTERN) None; texts_field "domains"; texts_field "install_on";
   mkField "renewal_window_days" (FNumber 1 60) (Some (JNum 30))].

Section Words.
Variable words : dict -> string * json.

Definition invalid (payload : dict) : exn := PydanticValidationError (words payload).1 (words payload).2.

Definition or_invalid (payload : dict) (read : option dict) : outcome exn dict := match read with Some d => Ok d | None => Raise (invalid payload) end.

(** [TLSCertificateSpec], with [a_certificate_needs_names_and_somewhere_to_go] *)
Definition certificate_spec (payload : dict) : outcome exn dict :=
  d ← or_invalid payload (read_model CERTIFICATE_FIELDS payload);
  if bool_decide (texts_of "domains" d = []) || bool_decide (texts_of "install_on" d = []) then Raise (invalid payload) else Ok d.

(** ** Where it is installed *)

(** [_delivery_target(connection_ref, context)] *)
Definition delivery_target (connection_ref : string) (targets : list dict) : outcome exn dict :=
  match first_where (fun t => bool_decide (dget "connection_ref" t = Some (JStr connection_ref))) targets with
  | Some t => Ok t
  | None => Raise (ValueError (repr connection_ref +:+ " is not a certificate target. Add it as one first."))
  end.

(** [sorted({*a, *b})] *)
Fixpoint dedup (l : list string) : list string :=
  match l with [] => [] | x :: r => if bool_decide (x ∈ r) then dedup r else x :: dedup r end.

(** [_consumer_at(target, ...)] *)
Definition consumer_at (target : dict) (certificate_key certificate_name : string) (domains : list string) (names_at : option (string -> list string)) : dict :=
  let kind := text_of "kind" target in
  let owns_the_name := negb (bool_decide (certificate_key = "")) && bool_decide (dget "certificate_resource" target = Some (JStr certificate_key)) in
  let landing := match names_at with Some f => f (text_of "connection_ref" target) | None => [] end in
  let verify := sorted (dedup (texts_of "verify_domains" target ++ List.filter (fun name => certificate_covers name domains) landing)) in
  ([("kind", JStr kind); ("connection_ref", JStr (text_of "connection_ref" target));
    ("name", JStr (if owns_the_name then text_of "name" target else certificate_name +:+ "-" +:+ kind)); ("verify_domains", JList (map JStr verify))] ++
   (if decide (kind = "caddy") then [("certificate_directory", JStr (text_of "certificate_directory" target))]
    else if decide (kind = "npm") then [("discover_covered_hosts", JBool (flag_of "discover_covered_hosts" target))]
    else if decide (kind = "cpanel") then [("install_domains", JList (if owns_the_name then map JStr (texts_of "install_domains" target) else []))]
    else []))%list.

(** [_publication_at(target, certificate_name=...)] *)
Definition publication_at (target : dict) (certificate_name : string) : dict :=
  [("kind", JStr "onepassword"); ("name", JStr (certificate_name +:+ "-onepassword")); ("connection_ref", JStr (text_of "connection_ref" target));
   ("vault", JStr (text_of "vault" target)); ("item", JStr (text_of "item" target))].

Definition is_publication (target : dict) : bool := bool_decide (text_of "kind" target = "onepassword").

(** [_resolve_tls(authored, context)] *)
Definition resolve_tls (authored : dict) (context : Resolution) : outcome exn dict :=
  let name := text_of "certificate_name" authored in
  targets ← each_of (fun ref => delivery_target ref (cx_delivery_targets context)) (texts_of "install_on" authored);
  match List.filter (fun t => negb (is_publication t)) targets with
  | [] => Raise (ValueError (name +:+ " has no install target. Add one that serves it."))
  | consumers =>
      Ok [("certificate_name", JStr name); ("domains", JList (map JStr (texts_of "domains" authored)));
          ("consumers", JList (map (fun t => JObj (consumer_at t (cx_resource_key context) name (texts_of "domains" authored) (cx_names_at context))) consumers));
          ("publish_to", JList (map (fun t => JObj (publication_at t name)) (List.filter is_publication targets)));
          ("renewal_window_days", match dget "renewal_window_days" authored with Some v => v | None => JNull end)]
  end.

(** ** What a resolved certificate is held to *)

Definition consumer_fields (kind : string) : option (list Field) :=
  let base := [text_field "name" 1 160; texts_field "verify_domains"; mkField "kind" (FOneOf [kind]) None; text_field "connection_ref" 1 160] in
  if decide (kind = "caddy") then Some (base ++ [text_field "certificate_directory" 1 500])%list
  else if decide (kind = "npm") then Some (base ++ [mkField "discover_covered_hosts" FFlag (Some (JBool false))])%list
  else if decide (kind = "cpanel") then Some (base ++ [texts_field "install_domains"])%list
  else None.

Definition PUBLICATION_FIELDS : list Field :=
  [mkField "kind" (FOneOf ["onepassword"]) None; text_field "name" 1 160; text_field "connection_ref" 1 160; text_field "vault" 1 160; text_field "item" 1 160].

(** One of [TLSConsumer], by its [kind], and one [OnePasswordPublication]. *)
Definition read_consumer (v : json) : option dict :=
  match v with JObj d => fields ← consumer_fields (text_of "kind" d); read_model fields d | _ => None end.

Definition read_publication (v : json) : option dict := match v with JObj d => read_model PUBLICATION_FIELDS d | _ => None end.

(** [normalize_domains(domains)] *)
Definition normalize_domains (domains : list string) : option (list string) :=
  let normalized := map normalized_hostname domains in
  if existsb (fun d => bool_decide (d = "") || mem_char " "%char d) normalized then None
  else if bool_decide (NoDup normalized) then Some normalized else None.

(** [validate_consumers()] *)
Definition consumers_agree (domains : list string) (consumers : list dict) : bool :=
  bool_decide (NoDup (map (fun c => (text_of "kind" c, text_of "name" c)) consumers)) &&
  forallb (fun c => negb (bool_decide (text_of "kind" c = "cpanel")) || forallb (fun d => certificate_covers d domains) (texts_of "install_domains" c)) consumers.

(** [ResolvedTLSCertificateSpec] *)
Definition RESOLVED_FIELDS : list string := ["certificate_name"; "domains"; "consumers"; "publish_to"; "renewal_window_days"].

Definition resolved_certificate (payload : dict) : outcome exn dict :=
  or_invalid payload (
    if negb (forallb (fun k => among k RESOLVED_FIELDS) (keys payload)) then None
    else
      head ← read_fields [text_field "certificate_name" 1 160; mkField "domains" FTexts None; mkField "renewal_window_days" (FNumber 1 60) (Some (JNum 30))] payload;
      domains ← normalize_domains (texts_of "domains" head);
      consumers ← mapM read_consumer (items (dget "consumers" payload));
      publish_to ← mapM read_publication (items (dget "publish_to" payload));
      if negb (bool_decide (domains = [])) && negb (bool_decide (consumers = [])) && consumers_agree domains consumers
      then Some [("certificate_name", JStr (text_of "certificate_name" head)); ("domains", JList (map JStr domains)); ("consumers", JList (map JObj consumers));
                 ("publish_to", JList (map JObj publish_to)); ("renewal_window_days", match dget "renewal_window_days" head with Some v => v | None => JNull end)]
      else None).

(** * A delivery target *)

Definition TARGET_FIELDS : list Field :=
  [mkField "kind" (FOneOf ["npm"; "caddy"; "cpanel"; "onepassword"]) None; text_field "connection_ref" 1 160; text_field "name" 1 160;
   blank_field "certificate_resource" 160; texts_field "verify_domains"; blank_field "certificate_directory" 500;
   mkField "discover_covered_hosts" FFlag (Some (JBool false)); texts_field "install_domains"; blank_field "vault" 160; blank_field "item" 160].

(** [TLSDeliveryTargetSpec.kind_decides_which_settings_apply()] *)
Definition settings_apply (d : dict) : bool :=
  let kind := text_of "kind" d in
  forallb (fun fk : string * string => negb (flag_of fk.1 d) || bool_decide (kind = fk.2))
    [("certificate_directory", "caddy"); ("discover_covered_hosts", "npm"); ("install_domains", "cpanel"); ("vault", "onepassword"); ("item", "onepassword")] &&
  (negb (bool_decide (kind = "caddy")) || flag_of "certificate_directory" d) &&
  (negb (bool_decide (kind = "onepassword")) || (flag_of "vault" d && flag_of "item" d && negb (flag_of "verify_domains" d))).

Definition delivery_target_spec (payload : dict) : outcome exn dict :=
  d ← or_invalid payload (read_model TARGET_FIELDS payload);
  if settings_apply d then Ok d else Raise (invalid payload).

(** * An internal DNS record *)

Definition rewrite_spec (payload : dict) : outcome exn dict :=
  or_invalid payload (read_model [text_field "domain" 1 253; text_field "answer" 1 253] payload).

(** [spec[name]] *)
Definition field_of (name : string) (d : dict) : outcome exn string :=
  match dget name d with Some (JStr s) => Ok s | Some v => Ok (py_str v) | None => Raise (key_error name) end.

Definition rewrite_of_record (record : dict) : outcome exn dict :=
  match dget "domain" record, dget "answer" record with
  | None, _ => Raise (key_error "domain")
  | _, None => Raise (key_error "answer")
  | Some domain, Some answer => Ok [("domain", domain); ("answer", answer)]
  end.

(** * The three as the registry holds them *)

Definition REWRITE_KIND := "adguard.rewrite".

Definition REWRITE : ProviderSpec :=
  mkProviderSpec "Internal DNS record" rewrite_spec None None false false false false false "dns"
    (Some (fun spec => domain ← field_of "domain" spec; Ok [domain])) None None (Some rewrite_of_record) None "" ["adguard"] [] []
    [("domain", "Hostname"); ("answer", "Points at")] None [("reconcile", applies_action true None); ("delete", applies_action false None)].

Definition CERTIFICATE : ProviderSpec :=
  mkProviderSpec "TLS certificate" certificate_spec (Some resolve_tls) (Some resolved_certificate) false false false false false "certificate"
    (Some (fun spec => Ok (texts_of "domains" spec))) None None None None "" ["cloudflare_dns"; "ssh"] [] []
    [("certificate_name", "Certificate name"); ("domains", "Domains"); ("install_on", "Install it on"); ("renewal_window_days", "Renew this many days early")] None
    [("reconcile", applies_action true None);
     ("renew", applies_action true (Some (JObj [("timeout_seconds", JNum 180); ("interval_seconds", JNum 5)])))].

Definition DELIVERY_TARGET : ProviderSpec :=
  mkProviderSpec "Certificate target" delivery_target_spec None None false false true true false "" None None
    (Some (fun spec => Ok (text_of "connection_ref" spec))) None None "" ["npm"; "ssh"; "onepassword"] [] []
    [("kind", "Type"); ("connection_ref", "Connection"); ("name", "Name at target"); ("certificate_resource", "Certificate using this name");
     ("verify_domains", "Check these names"); ("certificate_directory", "Certificate directory");
     ("discover_covered_hosts", "Check every proxy host it covers"); ("install_domains", "Install only on the sites serving these names");
     ("vault", "Vault"); ("item", "Item")] None
    [("reconcile", locked_action "Saved in HQ. Certificates installed here use it when next applied.")].

Definition REGISTRY : Registry := [(REWRITE_KIND, REWRITE); (CERTIFICATE_KIND, CERTIFICATE); (DELIVERY_TARGET_KIND, DELIVERY_TARGET)].
End Words.

(** * On a certificate and two targets *)

Definition demo_words (payload : dict) : string * json := ("Input is invalid", JObj payload).
Definition edge : dict := [("kind", JStr "caddy"); ("connection_ref", JStr "edge"); ("name", JStr "site"); ("certificate_directory", JStr "/etc/certs")].
Definition account : dict := [("kind", JStr "npm"); ("connection_ref", JStr "proxy"); ("name", JStr "site"); ("verify_domains", JList [JStr "app.example.com"])].
Definition site_certificate : dict := [("certificate_name", JStr "site"); ("domains", JList [JStr "*.Example.com"]); ("install_on", JList [JStr "edge"])].

Example a_certificate_resolves :
  resolve_provider_spec (REGISTRY demo_words) CERTIFICATE_KIND site_certificate
    (mkResolution (map (fun t => or_else [] (delivery_target_spec demo_words t)) [account; edge]) None "site" None (Some (fun _ => ["b.Example.com"; "other.org"]))) =
  Ok [("certificate_name", JStr "site"); ("domains", JList [JStr "*.example.com"]);
      ("consumers", JList [JObj [("name", JStr "site-caddy"); ("verify_domains", JList []); ("kind", JStr "caddy"); ("connection_ref", JStr "edge");
                                 ("certificate_directory", JStr "/etc/certs")]]); ("publish_to", JList []); ("renewal_window_days", JNum 30)].
Proof. vm_compute. reflexivity. Qed.

Example a_misplaced_setting_is_refused :
  delivery_target_spec demo_words (dset "vault" (JStr "v") edge) = Raise (PydanticValidationError "Input is invalid" (JObj (dset "vault" (JStr "v") edge))).
Proof. vm_compute. reflexivity. Qed.
