(* ===== verification/Containers.v ===== *)
(** The kind of a container HQ watches ([provider_adapters/portainer.py], [github_public.github_repository],
    [container_standard.CHECK_IDS]): what is declared of one, and how a sweep's record is read as one. *)
From stdpp Require Import base gmap strings list pretty.
From Stdlib Require Import Ascii ZArith Lia.
From S2P Require Import Prelude PyStr Json Refusals Security Specs Controller PyJson Names Providers Certificates.

#[local] Open Scope string_scope.

(** * Keys from free text ([provider_spec.key_from]) *)

Definition key_char (c : ascii) : bool := lower_or_digit c || (code c =? 45)%nat.

(** Each run of anything else is one hyphen. *)
Fixpoint hyphened (in_run : bool) (s : string) : string :=
  match s with
  | "" => ""
  | String c r => if key_char c then String c (hyphened false r) else if in_run then hyphened true r else String "-" (hyphened true r)
  end.

Definition is_hyphen (c : ascii) : bool := (code c =? 45)%nat.

(** [key_from(text)] *)
Definition key_from (text : string) : string := rstrip_by is_hyphen (lstrip_by is_hyphen (hyphened false (lower text))).

(** * A repository's URL *)

Definition among_chars (cs : string) (c : ascii) : bool := mem_char c cs.

(** What precedes the first of some characters, and the rest from it on. *)
Fixpoint span_until (stop : ascii -> bool) (s : string) : string * string :=
  match s with
  | "" => ("", "")
  | String c r => if stop c then ("", s) else let '(a, b) := span_until stop r in (String c a, b)
  end.

Fixpoint without_chars (p : ascii -> bool) (s : string) : string :=
  match s with "" => "" | String c r => if p c then without_chars p r else String c (without_chars p r) end.

Definition scheme_char (c : ascii) : bool := ascii_digit c || is_lower c || is_upper c || mem_char c "+-.".

(** [urlparse(url)]: the scheme, the netloc and the path, or none where it raises [ValueError]. *)
Definition urlparse (url : string) : option (string * string * string) :=
  let cleaned := without_chars (fun c => (code c =? 9)%nat || (code c =? 10)%nat || (code c =? 13)%nat) (lstrip_by (fun c => (code c <=? 32)%nat) url) in
  let '(head, colon, tail) := partition ":"%char cleaned in
  let named := colon && match head with String c _ => is_lower c || is_upper c | "" => false end && str_all scheme_char head in
  let scheme := if named then lower head else "" in
  let rest := if named then tail else cleaned in
  let '(netloc, rest) :=
    if startswith "//" rest then span_until (among_chars "/?#") (String.substring 2 (String.length rest - 2) rest) else ("", rest) in
  if mem_char "["%char netloc || mem_char "]"%char netloc then None
  else
    let '(path, _) := span_until (among_chars "?#") rest in
    Some (scheme, netloc, path).

(** The path without the parameters of its last part. *)
Definition path_without_params (path : string) : string :=
  match rev (split_on "/"%char path) with
  | last :: front => join "/" (rev ((span_until (among_chars ";") last).1 :: front))
  | [] => path
  end.

(** [parsed.hostname] *)
Definition hostname_of (netloc : string) : string := lower (span_until (among_chars ":") (match rev (split_on "@"%char netloc) with host :: _ => host | [] => "" end)).1.

Definition remove_suffix (suffix text : string) : string :=
  if ends_with suffix text then String.substring 0 (String.length text - String.length suffix) text else text.

(** [github_repository(repository_url)] *)
Definition github_repository (url : string) : option (option (string * string)) :=
  match urlparse url with
  | None => None
  | Some (scheme, netloc, path) =>
      let parts := List.filter (fun part => negb (bool_decide (part = ""))) (split_on "/"%char (path_without_params path)) in
      Some (if negb (bool_decide (scheme = "https")) || negb (among (hostname_of netloc) ["github.com"; "www.github.com"]) then None
            else match parts with
                 | [owner; named] => let repository := remove_suffix ".git" named in if bool_decide (repository = "") then None else Some (owner, repository)
                 | _ => None
                 end)
  end.

(** [_repository_url(value)]: the URL as kept, or none where it is refused. *)
Definition repository_url (value : string) : option string :=
  let value := remove_suffix "/" (strip value) in
  if bool_decide (value = "") then Some value
  else match github_repository value with Some (Some _) => Some value | _ => None end.

Example urls : map repository_url ["https://github.com/owner/repository.git/"; " https://www.GitHub.com/a/b?tab=1 "; "http://github.com/a/b"; "https://github.com/a"; "https://[github.com/a/b"; ""]
  = [Some "https://github.com/owner/repository.git"; Some "https://www.GitHub.com/a/b?tab=1"; None; None; None; Some ""].
Proof. vm_compute. reflexivity. Qed.

Example keys_from_text : map key_from ["Example Host-web"; "--a..b--"; "é"] = ["example-host-web"; "a-b"; ""].
Proof. vm_compute. reflexivity. Qed.

(** * A container *)

Definition CONTAINER_KIND := "portainer.container".

(** [CHECK_IDS] *)
Definition CHECK_IDS : list string :=
  ["not-privileged"; "no-docker-socket"; "own-process-namespace"; "confined"; "no-system-path-writable"; "no-powerful-capability"; "not-root";
   "no-new-privileges"; "no-devices"; "own-network"; "ports-bound"; "memory-limited"; "health-checked"].

(** [_known_checks_with_reasons(value)] *)
Definition known_checks_with_reasons (value : json) : option json :=
  match value with
  | JObj d =>
      if negb (forallb (fun kv => match kv.2 with JStr _ => true | _ => false end) d) || negb (forallb (fun k => among k CHECK_IDS) (keys d)) ||
         existsb (fun kv => bool_decide (strip (py_str kv.2) = "")) d
      then None else Some (JObj (map (fun kv => (kv.1, JStr (strip (py_str kv.2)))) d))
  | _ => None
  end.

(** [ports_are_ports(value)] *)
Definition ports_are_ports (value : json) : option json :=
  match value with
  | JList l => if forallb (fun v => match v with JNum n => (1 <=? n)%Z && (n <=? 65535)%Z | _ => false end) l then Some value else None
  | _ => None
  end.

Definition source_url (value : json) : option json :=
  match value with
  | JStr s => url ← repository_url s; if (String.length url <=? 300)%nat then Some (JStr url) else None
  | _ => None
  end.

Definition CONTAINER_FIELDS : list Field :=
  [text_field "connection_ref" 1 160; text_field "host" 1 160; text_field "name" 1 200; mkField "on_demand" FFlag (Some (JBool false));
   mkField "holds_docker_socket" FFlag (Some (JBool false)); mkField "hidden" FFlag (Some (JBool false))].

(** A field by its name, or its default. *)
Definition field_or (name : string) (default : json) (read : json -> option json) (payload : dict) : option (string * json) :=
  v ← match dget name payload with Some v => read v | None => Some default end; Some (name, v).

(** [PortainerContainerSpec], its fields in their order. *)
Definition read_container (payload : dict) : option dict :=
  let own := map fl_name CONTAINER_FIELDS in
  if negb (forallb (fun k => among k own || among k ["by_design"; "serves_ports"; "source"]) (keys payload)) then None
  else
    head ← read_fields CONTAINER_FIELDS payload;
    by_design ← field_or "by_design" (JObj []) known_checks_with_reasons payload;
    serves_ports ← field_or "serves_ports" (JList []) ports_are_ports payload;
    source ← field_or "source" (JStr "") source_url payload;
    Some (List.filter (fun kv => negb (bool_decide (kv.1 = "hidden"))) head ++ [by_design] ++
          List.filter (fun kv => bool_decide (kv.1 = "hidden")) head ++ [serves_ports; source])%list.

(** [record.get(name, "")] *)
Definition get_blank (name : string) (record : dict) : json := match dget name record with Some v => v | None => JStr "" end.

(** [_container_from_record(record)] *)
Definition container_from_record (record : dict) : dict :=
  [("connection_ref", get_blank "connection_ref" record); ("host", get_blank "host" record); ("name", get_blank "name" record)].

(** [_container_identity(spec)]: the two values as they are, of which only texts are known here. *)
Definition container_identity (spec : dict) : list string := [py_str (get_blank "host" spec); py_str (get_blank "name" spec)].

(** [_container_adopts(record)] *)
Definition container_adopts (record : dict) : bool := flag_of "stack" record.

Section Words.
Variable words : dict -> string * json.

Definition CONTAINER : ProviderSpec :=
  mkProviderSpec "Container" (fun payload => or_invalid words payload (read_container payload)) None None false false true false false "" None
    (Some (fun spec => Ok (container_identity spec)))
    (Some (fun spec => Ok (key_from (py_str (get_blank "host" spec) +:+ "-" +:+ py_str (get_blank "name" spec)))))
    (Some (fun record => Ok (container_from_record record))) (Some container_adopts) "" ["portainer"]
    ["serves_ports"; "hidden"; "on_demand"; "holds_docker_socket"; "by_design"; "source"] []
    [("connection_ref", "Portainer"); ("host", "Runs on"); ("name", "Container"); ("on_demand", "Runs on demand"); ("holds_docker_socket", "Holds the Docker socket");
     ("by_design", "Checks its job requires"); ("hidden", "Collapse on machine page"); ("serves_ports", "Answers on"); ("source", "Built from")] None
    [("reconcile", locked_action "Saved in HQ. Its compose file does not change."); ("restart", applies_action false None);
     ("start", applies_action false None); ("stop", applies_action false None)].
End Words.

Example a_container_is_read :
  pr_validate (CONTAINER demo_words) [("connection_ref", JStr "docker"); ("host", JStr "nas"); ("name", JStr "web"); ("by_design", JObj [("own-network", JStr " DNS ")])]
  = Ok [("connection_ref", JStr "docker"); ("host", JStr "nas"); ("name", JStr "web"); ("on_demand", JBool false); ("holds_docker_socket", JBool false);
        ("by_design", JObj [("own-network", JStr "DNS")]); ("hidden", JBool false); ("serves_ports", JList []); ("source", JStr "")].
Proof. vm_compute. reflexivity. Qed.
