(* ===== verification/Declarations.v ===== *)
(** Declarations as they are written ([infrastructure.py], [desired_state.py], [record_saves.py], and the
    removal and acceptance of [resource_operations.py]): one is saved, the work it calls for is queued, the
    work it no longer wants is called off, and what resolves through it is brought up to date.

    [providers] is the registry; [connections] the provider, the reference and whether it manages of every
    connection reported; [names_at] the names observed at a connection; [deploying_label] what a delivery
    under way is called. *)
From stdpp Require Import base gmap strings list pretty.
From Stdlib Require Import Ascii ZArith Lia.
From S2P Require Import Prelude PyStr Json Refusals Security Models InputErrors Specs Policy Operations Controller PyJson Names Providers Certificates.

#[local] Open Scope string_scope.

(** [ProviderConnection], as far as acting through it goes. *)
Record Managing : Type := mkManaging { mg_provider : string; mg_ref : string; mg_manages : bool }.

(** [ManagedResourceCommand] *)
Record ResourceCommand : Type := mkResourceCommand { rc_key : string; rc_kind : string; rc_spec : dict; rc_enabled : bool }.

(** * Who manages through what ([adoption.py]) *)

Section Observing.
Variables (providers : Registry) (connections : list Managing).

(** [_Management._named_manages(connection_ref)] *)
Definition named_manages (ref : string) : bool := existsb (fun c => bool_decide (mg_ref c = ref) && mg_manages c) connections.

(** [_Management._every_of_kind_manages(kind)] *)
Definition every_of_kind_manages (kind : string) : bool :=
  match provider_at providers kind with
  | None => false
  | Some p =>
      let flags := concat (map (fun name => map mg_manages (rows_where (fun c => bool_decide (mg_provider c = name)) connections)) (pr_connection_providers p)) in
      negb (bool_decide (flags = [])) && forallb id flags
  end.

(** [manages_through()(kind, connection_ref)] *)
Definition manages_through (kind ref : string) : bool :=
  if decide (ref = "") then every_of_kind_manages kind else named_manages ref.

(** [observes_only(kind, spec)] *)
Definition observes_only (kind : string) (spec : dict) : bool :=
  match provider_at providers kind with
  | None => false
  | Some p =>
      if bool_decide (pr_connection_providers p = []) || pr_declaration_only p then false
      else negb (manages_through kind (match dget "connection_ref" spec with Some v => py_str v | None => "" end))
  end.
End Observing.

(** * What a record is answered as *)

(** [serialize_public_status(status)] *)
Definition serialize_public_status (status : dict) : dict :=
  let public := dwithout "certificate_pem" status in
  match dget "certificate_pem" status with
  | Some v => if truthy v then dset "certificate_available" (JBool true) public else public
  | None => public
  end.

Definition DRIFT_LABEL := "Changed outside HQ".

(** [is_drifted(resource)] *)
Definition is_drifted (r : ManagedResource) : bool :=
  existsb (fun c => bool_decide (attr "type" c = Some (JStr "Drifted")) && bool_decide (attr "status" c = Some (JBool true))) (mr_conditions r).

(** [active.get(type)]: the last condition of the type that holds. *)
Definition active_condition (type : string) (r : ManagedResource) : option json :=
  last (List.filter (fun c => bool_decide (attr "type" c = Some (JStr type)) && bool_decide (attr "status" c = Some (JBool true))) (mr_conditions r)).

Definition health_part (state label : string) (reason message : json) : json :=
  JObj [("state", JStr state); ("label", JStr label); ("reason", reason); ("message", message)].

Definition said (name : string) (condition : json) : json := match attr name condition with Some v => v | None => JStr "" end.

(** [isoformat()] of a moment that may be missing is [iso_or_null]. *)

Section Declarations.
Variables (host : Site) (providers : Registry) (connections : list Managing) (public_dns : bool).
Variable names_at : Db -> string -> list string.
Variable deploying_label : ManagedResource -> Db -> string.
(** What a refused call is told its input was of. *)
Variable subject : string.
(** What the queue asks of a deployment beside the registry. *)
Variable rest : Plant.

(** [enabled_resources()], by kind then key. *)
Definition enabled_resources (db : Db) : list ManagedResource :=
  order_by mr_kind (order_by mr_key (rows_where mr_enabled (db_resources db))).

(** [_declared(kind)[kind]], and the two kinds resolution asks for. *)
Definition declared (kind : string) (db : Db) : list dict :=
  map mr_spec (rows_where (fun r => bool_decide (mr_kind r = kind)) (enabled_resources db)).

Definition CADDY_ROUTE_KIND := "caddy.route".
Definition delivery_targets (db : Db) : list dict := declared DELIVERY_TARGET_KIND db.
Definition caddy_routes (db : Db) : list dict := declared CADDY_ROUTE_KIND db.

(** The [resource_status] of [controller_contract]. *)
Definition resource_status (db : Db) (key : string) (kinds : list string) : option dict :=
  mr_status <$> first_where (fun r => bool_decide (mr_key r = key) && among (mr_kind r) kinds) (db_resources db).

(** [resolved_spec(resource)] *)
Definition resolved_spec (r : ManagedResource) (db : Db) : outcome exn dict :=
  match resolve_provider_spec providers (mr_kind r) (mr_spec r)
          (mkResolution (delivery_targets db) None (mr_key r) (Some (caddy_routes db)) (Some (names_at db))) with
  | Raise e => if is_unread e then Ok (mr_spec r) else Raise e
  | ok => ok
  end.

(** [controller_contract(resource)] *)
Definition controller_contract (r : ManagedResource) (db : Db) : outcome exn dict :=
  spec ← resolve_provider_spec providers (mr_kind r) (mr_spec r)
           (mkResolution (delivery_targets db) (Some (resource_status db)) (mr_key r) (Some (caddy_routes db)) (Some (names_at db)));
  Ok [("schema_version", JNum 1);
      ("resource", JObj [("key", JStr (mr_key r)); ("kind", JStr (mr_kind r)); ("generation", JNum (mr_generation r));
                         ("enabled", JBool (mr_enabled r)); ("spec", JObj spec);
                         ("observed", JObj (serialize_public_status (mr_status r)))])].

(** [resource_health(resource)] *)
Definition resource_health (r : ManagedResource) (db : Db) : outcome exn json :=
  let condition type state label :=
    (fun c => let deploying := if decide (state = "degraded") then deploying_label r db else "" in
              health_part (if decide (deploying = "") then state else "deploying") (str_or deploying label) (said "reason" c) (said "message" c))
    <$> active_condition type r in
  match condition "Drifted" "drifted" DRIFT_LABEL, condition "Degraded" "degraded" "Has a problem", condition "Ready" "healthy" "Working" with
  | Some h, _, _ | None, Some h, _ | None, None, Some h => Ok h
  | None, None, None =>
      converges ← kind_converges providers (mr_kind r);
      Ok (if negb (converges : bool) then health_part "declared" "Not checked" (JStr "") (JStr "")
          else if negb (mr_observed_generation r =? mr_generation r)%Z then health_part "pending" "Change waiting to apply" (JStr "") (JStr "")
          else health_part "unknown" "Not read yet" (JStr "") (JStr "HQ has not read it yet."))
  end.

(** [serialize_resource(resource)] *)
Definition serialize_resource (r : ManagedResource) (db : Db) : outcome exn json :=
  health ← resource_health r db;
  Ok (JObj [("id", JStr (mr_id r)); ("key", JStr (mr_key r)); ("kind", JStr (mr_kind r)); ("enabled", JBool (mr_enabled r));
            ("generation", JNum (mr_generation r)); ("observed_generation", JNum (mr_observed_generation r));
            ("in_sync", JBool (mr_generation r =? mr_observed_generation r)%Z); ("health", health);
            ("public_effect", JBool (match provider_at providers (mr_kind r) with Some p => pr_public_effect p | None => false end));
            ("spec", JObj (shown_spec providers (mr_kind r) (mr_spec r))); ("status", JObj (serialize_public_status (mr_status r)));
            ("conditions", JList (mr_conditions r)); ("last_observed_at", iso_or_null (mr_last_observed_at r));
            ("updated_at", JStr (isoformat (mr_updated_at r)))]).

(** * What is desired ([desired_state.py]) *)

(** [desired_fingerprint(kind, spec, enabled=..., targets=..., resource_key=...)] *)
Definition desired_fingerprint (kind : string) (spec : dict) (enabled : bool) (targets : list dict) (resource_key : string) (db : Db) : outcome exn string :=
  let desired := [("kind", JStr kind); ("spec", JObj spec); ("enabled", JBool enabled)] in
  resolved ← match resolve_provider_spec providers kind spec (mkResolution targets None resource_key None (Some (names_at db))) with
             | Raise e => if is_unread e then Ok spec else Raise e
             | ok => ok
             end;
  Ok (h_sha256 host (canonical (JObj (if py_eq (JObj resolved) (JObj spec) then desired else desired ++ [("resolved", JObj resolved)])))).

Definition fingerprint_of (targets : list dict) (r : ManagedResource) (db : Db) : outcome exn string :=
  desired_fingerprint (mr_kind r) (mr_spec r) (mr_enabled r) targets (mr_key r) db.

(** * The columns' own rules: [full_clean()] *)

Definition slug_char (c : ascii) : bool :=
  ascii_digit c || is_lower c || is_upper c || (code c =? 45)%nat || (code c =? 95)%nat.

Definition too_long (limit : nat) (text : string) : list DjangoError :=
  if (limit <? String.length text)%nat then [mkDjangoError "max_length" (Some (JNum (Z.of_nat limit)))] else [].

(** [clean_fields()] of the columns a save writes. *)
Definition field_errors (r : ManagedResource) : list (string * list DjangoError) :=
  [("key", if decide (mr_key r = "") then [mkDjangoError "blank" None]
           else ((if str_all slug_char (mr_key r) then [] else [mkDjangoError "invalid" None]) ++ too_long 180 (mr_key r))%list);
   ("kind", if decide (mr_kind r = "") then [mkDjangoError "blank" None] else too_long 64 (mr_kind r));
   ("spec", match mr_spec r with [] => [mkDjangoError "blank" None] | _ => [] end)].

(** [validate_unique()] and [validate_constraints()]. *)
Definition unique_errors (r : ManagedResource) (db : Db) : list (string * list DjangoError) :=
  [("key", if existsb (fun x => bool_decide (mr_key x = mr_key r) && negb (bool_decide (mr_id x = mr_id r))) (db_resources db)
           then [mkDjangoError "unique" None] else [])].

Definition resource_rules (r : ManagedResource) : bool := (1 <=? mr_generation r)%Z && (mr_observed_generation r <=? mr_generation r)%Z.

Definition constraint_errors (r : ManagedResource) : list (string * list DjangoError) :=
  [("generation", if (1 <=? mr_generation r)%Z then [] else [mkDjangoError "" None]);
   ("observed_generation", if (mr_observed_generation r <=? mr_generation r)%Z then [] else [mkDjangoError "" None])].

Definition some_errors (errors : list (string * list DjangoError)) : list (string * list DjangoError) :=
  List.filter (fun fe => negb (bool_decide (length fe.2 = 0%nat))) errors.

(** A column with an error of its own is not asked about again. *)
Definition clean_errors (r : ManagedResource) (db : Db) : list (string * list DjangoError) :=
  let own := some_errors (field_errors r) in
  let unless_named errors := List.filter (fun fe : string * list DjangoError => negb (among fe.1 (map fst own))) (some_errors errors) in
  (own ++ unless_named (unique_errors r db) ++ unless_named (constraint_errors r))%list.

Definition full_clean (r : ManagedResource) : M exn Db unit :=
  act (fun db =>
    match clean_errors r db with
    | [] => (Ok tt, db)
    | errors => (Raise (let told := django_refusal subject errors in DjangoValidationError (ir_message told) (ir_details told)), db)
    end).

(** [resource.save()]: the whole row, over the one it was read from. *)
Definition write_resource (r : ManagedResource) : M exn Db unit :=
  modify (fun db =>
    set_db_resources (match resource_by (mr_id r) db with
                      | Some _ => update_where (fun x => bool_decide (mr_id x = mr_id r)) (fun _ => r) (db_resources db)
                      | None => (db_resources db ++ [r])%list
                      end) db).

(** * Dependents ([desired_state.advance_dependents]) *)

Definition advance_one (now : Z) (targets : list dict) (advanced : list string) (r : ManagedResource) : M exn Db (list string) :=
  now_desired ← gets (fingerprint_of targets r);
  fingerprint ← lift now_desired;
  if decide (fingerprint = mr_desired_fingerprint r) then mret advanced
  else
    let adopting := bool_decide (mr_desired_fingerprint r = "") in
    let r' := set_mr_updated_at now (set_mr_desired_fingerprint fingerprint
                (if adopting then r else set_mr_generation (mr_generation r + 1) r)) in
    _ ← full_clean r';
    _ ← write_resource r';
    mret (if adopting then advanced else (advanced ++ [mr_key r])%list).

(** [advance_dependents(targets)] *)
Definition advance_dependents (now : Z) (targets : list dict) : M exn Db (list string) :=
  resources ← gets enabled_resources;
  fold_each (advance_one now targets) [] resources.

(** * The deployment, read off the registry *)

Definition site : Site := site_of providers host.

(** What [Operations] and [Controller] ask of a deployment, as the registry and the connections answer it. *)
Definition plant : Plant :=
  mkPlant (fun r _ => observes_only providers connections (mr_kind r) (mr_spec r))
    (fun kind action => or_else (false, "") (controller_action_policy providers kind action))
    (or_else [] (enabled_controller_actions providers true))
    controller_contract
    (fun kind action => action_of providers kind action ≫= ap_verification)
    (fun r db => or_else (mr_spec r) (resolved_spec r db))
    (pl_serialize_resource rest) (pl_strike_removed rest) (pl_swept rest) (pl_unit_gap rest) public_dns
    (pl_repairs rest) (pl_auto_remedy rest) (pl_moment rest).

(** * Saving one ([infrastructure.save_managed_resource]) *)

Definition conflict (text : string) : exn := Host RecordConflict text JNull.

(** [held(ManagedResource, MANAGED_RECORD, {"key": key}, expected_updated_at)] *)
Definition held_resource (key : string) (expected_updated_at : option string) : M exn Db ManagedResource :=
  r ← resource_for_operation key;
  _ ← raise_if (match expected_updated_at with
                | None | Some "" => false
                | Some expected => negb (bool_decide (isoformat (mr_updated_at r) = expected))
                end) (conflict "That record changed after it was read.");
  mret r.

(** [as_sent(resource, ManagedResourceCommand, {})] *)
Definition as_sent (r : ManagedResource) : ResourceCommand := mkResourceCommand (mr_key r) (mr_kind r) (mr_spec r) (mr_enabled r).

(** [{**as_sent(resource, ...), **written(command, sent)}] *)
Definition written_over (r : ManagedResource) (command : ResourceCommand) (sent : option (list string)) : ResourceCommand :=
  let was := as_sent r in
  let takes field := match sent with None => true | Some fields => among field fields end in
  mkResourceCommand (if takes "key" then rc_key command else rc_key was) (if takes "kind" then rc_kind command else rc_kind was)
    (if takes "spec" then rc_spec command else rc_spec was) (if takes "enabled" then rc_enabled command else rc_enabled was).

(** [_can_change_the_public_internet(kind)] *)
Definition can_change_the_public_internet (kind : string) : outcome exn bool :=
  actions ← enabled_controller_actions providers false;
  Ok (existsb (fun ka : string * string => bool_decide (ka.1 = kind)) actions).

(** [_refuse_withheld(kind, held_kind)] *)
Definition refuse_withheld (kind held_kind : string) : M exn Db unit :=
  raise_if (spec_withheld providers kind || spec_withheld providers held_kind) (policy_error "This record is changed from its own page, not here.").

Definition PUBLIC_DNS_OFF := "Public DNS changes are off in HQ's settings. Turn them on there to allow them, or save this record switched off.".

(** [_refuse_authored(command, validated_spec, principal=...)] *)
Definition refuse_authored (command : ResourceCommand) (validated : dict) (p : Principal) : M exn Db unit :=
  let gap := consent_gap site (rc_kind command) p in
  _ ← raise_if (negb (bool_decide (gap = ""))) (policy_error gap);
  if negb (rc_enabled command) then mret tt
  else
    provider ← lift (provider_named providers (rc_kind command));
    published ← (if pr_public_effect provider then lift (can_change_the_public_internet (rc_kind command)) else mret false);
    _ ← raise_if (published && negb public_dns) (policy_error PUBLIC_DNS_OFF);
    raise_if (observes_only providers connections (rc_kind command) validated) (policy_error OBSERVES_ONLY).

Definition SWITCHED_OFF_BEFORE : json :=
  JObj [("ok", JBool false); ("message", JStr "The record was switched off in HQ before this ran."); ("reason", JStr "SwitchedOff")].

(** [_call_off_waiting(resource)] *)
Definition called_off (now : Z) (o : OperationRequest) : OperationRequest :=
  set_op_result SWITCHED_OFF_BEFORE (set_op_completed_at (Some now) (set_op_state O_CANCELLED o)).

Definition waits_for (r : ManagedResource) (o : OperationRequest) : bool :=
  bool_decide (op_resource o = mr_id r) && bool_decide (op_state o = O_QUEUED) && negb (bool_decide (op_action o = DELETE)).

Definition call_off_waiting (now : Z) (r : ManagedResource) : M exn Db unit :=
  modify (fun db => set_db_operations (update_where (waits_for r) (called_off now) (db_operations db)) db).

(** [_apply_saved(resource, principal=...)] *)
Definition apply_saved (now : Z) (r : ManagedResource) (p : Principal) : M exn Db json :=
  automatic ← lift (enabled_controller_actions providers true);
  if negb (mr_enabled r) || negb (bool_decide ((mr_kind r, RECONCILE) ∈ automatic)) then mret JNull
  else
    answer ← queue_reconcile site plant now r p "HQ's copy of it changed.";
    mret (match dget "operation" (answer : dict) with Some o => o | None => JNull end).

(** Whether a save moved what the row says. *)
Definition moved_by (old : option ManagedResource) (command : ResourceCommand) (validated : dict) : bool :=
  match old with
  | None => true
  | Some r => negb (bool_decide (mr_key r = rc_key command)) || negb (bool_decide (mr_kind r = rc_kind command)) ||
              negb (py_eq (JObj (mr_spec r)) (JObj validated)) || negb (Bool.eqb (mr_enabled r) (rc_enabled command))
  end.

(** The row a save writes, but for its fingerprint. *)
Definition row_saved (now : Z) (id : string) (old : option ManagedResource) (command : ResourceCommand) (validated : dict) : ManagedResource :=
  match old with
  | None => mkManagedResource id (rc_key command) (rc_kind command) validated (rc_enabled command) "" 1 0 [] [] None now
  | Some r =>
      set_mr_updated_at now
        (set_mr_generation (if moved_by old command validated then mr_generation r + 1 else mr_generation r)
          (set_mr_enabled (rc_enabled command) (set_mr_spec validated (set_mr_kind (rc_kind command) (set_mr_key (rc_key command) r)))))
  end.

(** [save_managed_resource(command, principal=..., current_key=..., expected_updated_at=..., copied_from_live=..., sent=...)] *)
Definition save_managed_resource (now : Z) (sent_command : ResourceCommand) (p : Principal) (current_key expected_updated_at : option string)
    (copied_from_live : bool) (sent : option (list string)) : M exn Db dict :=
  atomic (
    old ← match current_key with
          | None => mret None
          | Some key => r ← held_resource key expected_updated_at; mret (Some r)
          end;
    let command := match (old : option ManagedResource) with None => sent_command | Some r => written_over r sent_command sent end in
    _ ← refuse_withheld (rc_kind command) (match old with None => "" | Some r => mr_kind r end);
    validated ← lift (validate_spec providers (rc_kind command) (rc_spec command));
    _ ← (if copied_from_live then mret tt else refuse_authored command validated p);
    provider ← lift (provider_named providers (rc_kind command));
    let changed := moved_by old command validated in
    id ← match old with None => fresh ← take_id; mret (pretty fresh) | Some r => mret (mr_id r) end;
    let row := row_saved now id old command validated in
    targets ← gets delivery_targets;
    desired ← gets (fingerprint_of targets row);
    fingerprint ← lift desired;
    let row := set_mr_desired_fingerprint fingerprint row in
    _ ← full_clean row;
    _ ← write_resource row;
    _ ← (if is_some old && negb (mr_enabled row) then call_off_waiting now row else mret tt);
    _ ← (if changed && pr_resolution_input provider
         then (targets ← gets delivery_targets; _ ← advance_dependents now targets; mret tt) else mret tt);
    applying ← (if changed && negb copied_from_live then apply_saved now row p else mret JNull);
    said ← gets (serialize_resource row);
    answer ← lift said;
    mret [("ok", JBool true); ("created", JBool (negb (is_some old))); ("resource", answer); ("applying", applying)]).
End Declarations.

(** * What the rows are held to *)

Record resources_ok (db : Db) : Prop := {
  rok_ids : NoDup (map mr_id (db_resources db));
  rok_keys : NoDup (map mr_key (db_resources db));
  rok_rules : forall r, r ∈ db_resources db -> resource_rules r = true;
  rok_fields : forall r, r ∈ db_resources db -> some_errors (field_errors r) = [];
  rok_below : forall r, r ∈ db_resources db -> exists n, mr_id r = pretty n /\ (n < db_next_id db)%N;
}.

#[local] Opaque field_errors.

Lemma some_errors_nil errors : some_errors errors = [] <-> forall fe, fe ∈ errors -> fe.2 = [].
Proof.
  unfold some_errors. split.
  - intros H fe Hin. destruct fe as [f [|e es]]; [done|]. assert ((f, e :: es) ∈ @nil (string * list DjangoError)) as Hn; [|by apply elem_of_nil in Hn].
    rewrite <- H. by apply list_elem_of_In, filter_In; split; [apply list_elem_of_In|].
  - intros H. induction errors as [|fe errors IH]; [done|]. cbn. rewrite (H fe) by (by left). cbn. apply IH. intros ? ?. apply H. by right.
Qed.

(** A row passes exactly when each of its columns does, no other row has its key and it has been
    observed at a generation it reached. *)
Lemma clean_errors_nil r db : clean_errors r db = [] <->
  some_errors (field_errors r) = [] /\ resource_rules r = true /\ (forall x, x ∈ db_resources db -> mr_key x = mr_key r -> mr_id x = mr_id r).
Proof.
  unfold clean_errors. split.
  - intros [Hown H]%app_nil. rewrite Hown in H.
    assert (forall es, List.filter (fun fe : string * list DjangoError => negb (among fe.1 (map fst (@nil (string * list DjangoError))))) es = es) as Hnone
      by (induction es as [|e es IH]; [done|]; cbn in *; by rewrite IH).
    rewrite !Hnone in H. apply app_nil in H as [Hu Hc]. rewrite some_errors_nil in Hu, Hc. split_and!; [done| |].
    + pose proof (Hc _ (list_elem_of_here _ _)) as Hg. pose proof (Hc _ (list_elem_of_further _ _ _ (list_elem_of_here _ _))) as Ho.
      cbn in Hg, Ho. unfold resource_rules. by destruct (1 <=? _)%Z, (_ <=? _)%Z.
    + intros x Hx Hk. unfold unique_errors in Hu. specialize (Hu _ (list_elem_of_here _ _)). cbn in Hu. destruct (existsb _ _) eqn:He; [done|].
      destruct (decide (mr_id x = mr_id r)) as [|Hne]; [done|]. assert (existsb (fun x => bool_decide (mr_key x = mr_key r) && negb (bool_decide (mr_id x = mr_id r))) (db_resources db) = true); [|congruence].
      apply existsb_exists. exists x. split; [by apply list_elem_of_In|]. by rewrite bool_decide_eq_true_2, bool_decide_eq_false_2.
  - intros (Hown & Hr & Hu). rewrite Hown. cbn [app]. unfold resource_rules in Hr. apply andb_true_iff in Hr as [Hg Ho].
    replace (some_errors (unique_errors r db)) with (@nil (string * list DjangoError)).
    2: { symmetry. apply some_errors_nil. intros fe ->%list_elem_of_singleton. cbn. destruct (existsb _ _) eqn:He; [|done].
         apply existsb_exists in He as (x & Hx%list_elem_of_In & [Hk%bool_decide_eq_true Hid%negb_true_iff%bool_decide_eq_false]%andb_true_iff). destruct Hid. by apply Hu. }
    replace (some_errors (constraint_errors r)) with (@nil (string * list DjangoError)); [done|]. unfold constraint_errors. by rewrite Hg, Ho.
Qed.

Lemma full_clean_inv subject r db o db' : full_clean subject r db = (o, db') ->
  db' = db /\ (o = Ok tt /\ clean_errors r db = [] \/ exists m d, o = Raise (DjangoValidationError m d)).
Proof. unfold full_clean, act. destruct (clean_errors r db) eqn:He; intros [= <- <-]; [by auto|]. split; [done|right; by eexists _, _]. Qed.

(** * One row written *)

Definition written_in (r : ManagedResource) (db : Db) : Db := (write_resource r db).2.

Lemma write_run r db : write_resource r db = (Ok tt, written_in r db).
Proof. done. Qed.

Lemma resource_by_in id db r : NoDup (map mr_id (db_resources db)) -> r ∈ db_resources db -> mr_id r = id -> resource_by id db = Some r.
Proof.
  intros Hnd Hin <-. unfold resource_by. destruct (first_where _ _) as [x|] eqn:Hf.
  - apply first_where_some in Hf as [Hx Hid%bool_decide_eq_true]. f_equal. by eapply (unique_by mr_id).
  - pose proof (first_where_none _ _ Hf _ Hin) as H. cbn in H. by apply bool_decide_eq_false in H.
Qed.

Lemma elem_of_written r db x : NoDup (map mr_id (db_resources db)) ->
  x ∈ db_resources (written_in r db) <-> x = r \/ (x ∈ db_resources db /\ mr_id x <> mr_id r).
Proof.
  intros Hnd. unfold written_in, write_resource, modify. cbn. destruct (resource_by (mr_id r) db) as [y|] eqn:Hy.
  - unfold resource_by in Hy. apply first_where_some in Hy as [Hin Hid%bool_decide_eq_true]. rewrite elem_of_update_where. split.
    + intros (z & Hz & ->). case_bool_decide as Hzid; [by left|by right].
    + intros [->|[Hx Hne]]; [exists y|exists x]; (split; [done|]); [by rewrite bool_decide_eq_true_2|by rewrite bool_decide_eq_false_2].
  - rewrite elem_of_app, list_elem_of_singleton. split; [|naive_solver]. intros [Hx| ->]; [right|by left]. split; [done|]. intros Heq.
    by rewrite (resource_by_in _ _ _ Hnd Hx Heq) in Hy.
Qed.

Lemma written_ids r db : map mr_id (db_resources (written_in r db)) =
  if resource_by (mr_id r) db then map mr_id (db_resources db) else (map mr_id (db_resources db) ++ [mr_id r])%list.
Proof.
  unfold written_in, write_resource, modify. cbn. destruct (resource_by (mr_id r) db); [|by rewrite map_app].
  apply map_update_where. by intros ? _ ->%bool_decide_eq_true.
Qed.

Lemma resource_by_none id db : resource_by id db = None -> id ∉ map mr_id (db_resources db).
Proof. intros H (x & -> & Hx)%list_elem_of_fmap. pose proof (first_where_none _ _ H _ Hx) as Hf. cbn in Hf. by apply bool_decide_eq_false in Hf. Qed.

(** Written over its row or as a new one, a row that passes leaves the table as it should be. *)
Lemma resources_ok_written r db : resources_ok db -> clean_errors r db = [] -> (exists n, mr_id r = pretty n /\ (n < db_next_id db)%N) ->
  resources_ok (written_in r db).
Proof.
  intros [Hi Hk Hr Hf Hb] (Hfr & Hrr & Hu)%clean_errors_nil Hid.
  assert (NoDup (map mr_id (db_resources (written_in r db)))) as Hi'.
  { rewrite written_ids. destruct (resource_by (mr_id r) db) eqn:Hy; [done|]. apply NoDup_app. split_and!; [done| |apply NoDup_singleton].
    intros x Hx ->%list_elem_of_singleton. by apply resource_by_none in Hy. }
  constructor; [done| | | |].
  - unfold written_in, write_resource, modify. cbn. destruct (resource_by (mr_id r) db) as [y|] eqn:Hy.
    + clear Hr Hf Hb Hi'. induction (db_resources db) as [|z zs IH] in Hi, Hk, Hu |- *; [constructor|]. cbn in *.
      apply NoDup_cons in Hi as [Hzi Hi], Hk as [Hzk Hk]. apply NoDup_cons. split; [|apply IH; [done|done|intros; apply Hu; [by right|done]]].
      case_bool_decide as Hz.
      * intros (w & Hw & (v & Hv & ->)%elem_of_update_where)%list_elem_of_fmap. case_bool_decide as Hv'.
        -- apply Hzi. rewrite Hz, <- Hv'. by apply list_elem_of_fmap_2.
        -- apply Hv'. apply Hu; [by right|done].
      * intros (w & Hw & (v & Hv & ->)%elem_of_update_where)%list_elem_of_fmap. case_bool_decide as Hv'.
        -- apply Hz. apply Hu; [by left|done].
        -- apply Hzk. rewrite Hw. by apply list_elem_of_fmap_2.
    + rewrite map_app. apply NoDup_app. split_and!; [done| |apply NoDup_singleton]. intros k (x & -> & Hx)%list_elem_of_fmap Heq%list_elem_of_singleton.
      by rewrite (resource_by_in _ _ _ Hi Hx (Hu _ Hx Heq)) in Hy.
  - intros x [->|[Hx _]]%elem_of_written; [done|by apply Hr|done].
  - intros x [->|[Hx _]]%elem_of_written; [exact Hfr|exact (Hf _ Hx)|done].
  - intros x [->|[Hx _]]%elem_of_written; [done|by apply Hb|done].
Qed.

Lemma resources_frame db db' : db_resources db' = db_resources db -> (db_next_id db <= db_next_id db')%N -> resources_ok db -> resources_ok db'.
Proof. intros He Hn [Hi Hk Hr Hf Hb]. constructor; rewrite ?He; try done. intros r (n & ? & ?)%Hb. exists n. split; [done|lia]. Qed.

(** * What an author wrote of a row, and what follows of it *)

(** What a person writes of a record. *)
Definition authored (r : ManagedResource) : string * string * dict * bool := (mr_key r, mr_kind r, mr_spec r, mr_enabled r).

(** A row brought up to a fingerprint. *)
Definition brought_up (now : Z) (fingerprint : string) (r : ManagedResource) : ManagedResource :=
  if decide (fingerprint = mr_desired_fingerprint r) then r
  else set_mr_updated_at now (set_mr_desired_fingerprint fingerprint
         (if decide (mr_desired_fingerprint r = "") then r else set_mr_generation (mr_generation r + 1) r)).

Lemma brought_up_authored now fp r : authored (brought_up now fp r) = authored r /\ mr_id (brought_up now fp r) = mr_id r.
Proof. unfold brought_up. repeat case_decide; done. Qed.

Lemma brought_up_twice now now' fp r : brought_up now' fp (brought_up now fp r) = brought_up now fp r.
Proof. unfold brought_up at 1. rewrite decide_True; [done|]. unfold brought_up. by repeat case_decide. Qed.

Lemma elem_of_enabled r db : r ∈ enabled_resources db <-> r ∈ db_resources db /\ mr_enabled r = true.
Proof. unfold enabled_resources. by rewrite !elem_of_order_by, elem_of_rows_where. Qed.

Lemma enabled_ids db : NoDup (map mr_id (db_resources db)) -> NoDup (map mr_id (enabled_resources db)).
Proof. intros H. unfold enabled_resources. rewrite !order_by_perm. by apply NoDup_map_rows. Qed.

Lemma update_where_ext_in {A} (p q : A -> bool) (f g : A -> A) rows :
  (forall x, x ∈ rows -> p x = q x /\ (p x = true -> f x = g x)) -> update_where p f rows = update_where q g rows.
Proof.
  unfold update_where. intros H. apply map_ext_in. intros x Hx%list_elem_of_In. destruct (H x Hx) as [<- Hf]. destruct (p x); [by apply Hf|done].
Qed.

Lemma update_where_id {A} (p : A -> bool) (f : A -> A) rows : (forall x, x ∈ rows -> p x = true -> f x = x) -> update_where p f rows = rows.
Proof.
  intros H. unfold update_where. rewrite <- (map_id rows) at 2. apply map_ext_in. intros x Hx%list_elem_of_In. destruct (p x) eqn:Hp; [by apply H|done].
Qed.

Section Dependents.
Context (host : Site) (providers : Registry) (names_at : Db -> string -> list string) (subject : string).

(** What is seen at a connection is read off what the declarations say, not off the state of their work. *)
Hypothesis names_of_declarations : forall db db',
  map authored (db_resources db) = map authored (db_resources db') -> names_at db = names_at db'.

Notation fingerprint_of := (fingerprint_of host providers names_at).
Notation advance_one := (advance_one host providers names_at subject).
Notation advance_dependents := (advance_dependents host providers names_at subject).

Lemma fingerprint_of_authored targets r r' db db' :
  authored r = authored r' -> map authored (db_resources db) = map authored (db_resources db') ->
  fingerprint_of targets r db = fingerprint_of targets r' db'.
Proof.
  unfold authored. intros [= Hk Hkind Hs He] H%names_of_declarations. unfold Declarations.fingerprint_of, desired_fingerprint. by rewrite Hk, Hkind, Hs, He, H.
Qed.

(** One row's turn: it is left as it is, or written with what it resolves to now. *)
Lemma advance_one_ok now targets advanced r db advanced' db' :
  NoDup (map mr_id (db_resources db)) -> r ∈ db_resources db ->
  advance_one now targets advanced r db = (Ok advanced', db') ->
  exists fp, fingerprint_of targets r db = Ok fp /\
    db' = set_db_resources (update_where (fun x => bool_decide (mr_id x = mr_id r)) (brought_up now fp) (db_resources db)) db /\
    (fp <> mr_desired_fingerprint r -> clean_errors (brought_up now fp r) db = []) /\
    advanced' = if bool_decide (fp = mr_desired_fingerprint r) || bool_decide (mr_desired_fingerprint r = "") then advanced else (advanced ++ [mr_key r])%list.
Proof.
  intros Hnd Hin H. unfold Declarations.advance_one in H. apply bind_inv_ok in H as (d & s & [= <- <-] & H).
  apply bind_inv_ok in H as (fp & s & Hl & H). apply lift_inv in Hl as [<- ->]. exists fp.
  assert (forall g, (forall x, x ∈ db_resources db -> mr_id x = mr_id r -> g x = brought_up now fp r) ->
    update_where (fun x => bool_decide (mr_id x = mr_id r)) g (db_resources db) = update_where (fun x => bool_decide (mr_id x = mr_id r)) (brought_up now fp) (db_resources db)) as Hone.
  { intros g Hg. apply update_where_ext_in. intros x Hx. split; [done|]. intros Hid%bool_decide_eq_true. rewrite (Hg x Hx Hid). f_equal. symmetry. by eapply (unique_by mr_id). }
  case_decide as Hfp.
  - injection H as <- <-. rewrite bool_decide_eq_true_2 by done. split_and!; [done| |done|done].
    rewrite update_where_id; [by destruct db|]. intros x Hx Hid%bool_decide_eq_true. unfold brought_up. rewrite decide_True; [done|].
    by rewrite (unique_by mr_id _ _ _ Hnd Hx Hin Hid).
  - rewrite (bool_decide_eq_false_2 (fp = _)) by done. cbn [orb].
    assert (set_mr_updated_at now (set_mr_desired_fingerprint fp (if bool_decide (mr_desired_fingerprint r = "") then r else set_mr_generation (mr_generation r + 1) r)) = brought_up now fp r) as Hr'.
    { unfold brought_up. rewrite decide_False by done. by case_decide; case_bool_decide. }
    rewrite Hr' in H. apply bind_inv_ok in H as ([] & s & Hclean & H). apply full_clean_inv in Hclean as [-> [[_ Hc]|(? & ? & ?)]]; [|done].
    apply bind_inv_ok in H as ([] & s & [= <-] & [= <- <-]). split_and!; [done| |done|done].
    unfold written_in. cbn. rewrite (proj2 (brought_up_authored now fp r)), (resource_by_in _ _ _ Hnd Hin eq_refl).
    f_equal. by apply Hone.
Qed.

Lemma update_authored p f db : (forall x, authored (f x) = authored x) ->
  map authored (db_resources (set_db_resources (update_where p f (db_resources db)) db)) = map authored (db_resources db).
Proof. intros Hf. cbn. apply map_update_where. intros. apply Hf. Qed.

Lemma advance_fold now targets db0 : forall l advanced db advanced' db',
  NoDup (map mr_id (db_resources db)) -> NoDup (map mr_id l) -> (forall r, r ∈ l -> r ∈ db_resources db) ->
  map authored (db_resources db) = map authored (db_resources db0) ->
  fold_each (advance_one now targets) advanced l db = (Ok advanced', db') ->
  (forall r, r ∈ l -> exists fp, fingerprint_of targets r db0 = Ok fp) /\
  db' = set_db_resources (update_where (fun x => bool_decide (mr_id x ∈ map mr_id l))
          (fun x => brought_up now (or_else "" (fingerprint_of targets x db0)) x) (db_resources db)) db /\
  advanced' = (advanced ++ map mr_key (List.filter (fun r => negb (bool_decide (or_else "" (fingerprint_of targets r db0) = mr_desired_fingerprint r)) &&
                                                             negb (bool_decide (mr_desired_fingerprint r = ""))) l))%list.
Proof.
  induction l as [|r l IH]; intros advanced db advanced' db' Hnd Hl Hin Ha H; cbn [fold_each] in H.
  - injection H as <- <-. rewrite app_nil_r. split_and!; [by intros ? ?%elem_of_nil| |done]. rewrite update_where_id; [by destruct db|].
    intros x _ Hx%bool_decide_eq_true. by apply elem_of_nil in Hx.
  - apply bind_inv_ok in H as (a1 & db1 & H1 & H). cbn in Hl. apply NoDup_cons in Hl as [Hrl Hl].
    pose proof (Hin r (list_elem_of_here _ _)) as Hr.
    destruct (advance_one_ok _ _ _ _ _ _ _ Hnd Hr H1) as (fp & Hfp & -> & _ & ->).
    rewrite (fingerprint_of_authored _ _ r _ db0 eq_refl Ha) in Hfp.
    apply IH in H as (Hall & -> & ->); clear IH; [..|exact Hl| |].
    + split_and!.
      * intros x [->|Hx]%elem_of_cons; [by exists fp|by apply Hall].
      * match goal with |- set_db_resources ?X _ = set_db_resources ?Y _ => assert (X = Y) as ->; [|by destruct db] end.
        cbn [db_resources set_db_resources]. rewrite update_where_twice. apply map_ext_in. intros x Hx%list_elem_of_In. cbn.
        destruct (decide (mr_id x = mr_id r)) as [Hid|Hid].
        -- rewrite (unique_by mr_id _ _ _ Hnd Hx Hr Hid). rewrite (bool_decide_eq_true_2 (mr_id r = mr_id r)) by done.
           rewrite (proj2 (brought_up_authored now fp r)). rewrite bool_decide_eq_false_2 by done. rewrite bool_decide_eq_true_2 by left. by rewrite Hfp.
        -- rewrite (bool_decide_eq_false_2 (mr_id x = mr_id r)) by done.
           rewrite (bool_decide_ext (mr_id x ∈ mr_id r :: map mr_id l) (mr_id x ∈ map mr_id l)); [done|]. rewrite elem_of_cons. naive_solver.
      * cbn. rewrite Hfp. cbn. repeat case_bool_decide; cbn; rewrite <- ?app_assoc; done.
    + cbn [db_resources set_db_resources]. rewrite map_update_where; [done|]. intros; apply brought_up_authored.
    + intros x Hx. cbn [db_resources set_db_resources]. apply elem_of_update_where. exists x. split; [apply Hin; by right|]. rewrite bool_decide_eq_false_2; [done|].
      intros Heq. apply Hrl. rewrite <- Heq. by apply list_elem_of_fmap_2.
    + rewrite update_authored; [done|]. intros; apply brought_up_authored.
Qed.

(** Every enabled row is brought up to what it resolves to now, and no other row moves; what is said to
    have advanced is those HQ had fingerprinted that resolve to something else now. *)
Lemma advance_dependents_ok now targets db advanced db' :
  NoDup (map mr_id (db_resources db)) -> advance_dependents now targets db = (Ok advanced, db') ->
  (forall r, r ∈ db_resources db -> mr_enabled r = true -> exists fp, fingerprint_of targets r db = Ok fp) /\
  db' = set_db_resources (update_where mr_enabled (fun r => brought_up now (or_else "" (fingerprint_of targets r db)) r) (db_resources db)) db /\
  advanced = map mr_key (List.filter (fun r => negb (bool_decide (or_else "" (fingerprint_of targets r db) = mr_desired_fingerprint r)) &&
                                               negb (bool_decide (mr_desired_fingerprint r = ""))) (enabled_resources db)).
Proof.
  intros Hnd H. unfold Declarations.advance_dependents in H. rewrite (bind_step _ _ _ (enabled_resources db) db) in H by done.
  apply (advance_fold now targets db) in H as (Hall & -> & ->); [|done|by apply enabled_ids|by intros r [? _]%elem_of_enabled|done].
  split_and!; [intros; by apply Hall, elem_of_enabled| |done].
  f_equal. apply update_where_ext_in. intros x Hx. split; [|done]. apply Bool.eq_iff_eq_true. rewrite bool_decide_eq_true. split.
  - intros (y & Hid & [Hy He]%elem_of_enabled)%list_elem_of_fmap. by rewrite (unique_by mr_id _ _ _ Hnd Hx Hy Hid).
  - intros He. by apply list_elem_of_fmap_2, elem_of_enabled.
Qed.

(** Rows that are all up to date are left as they are. *)
Lemma advance_settled now targets db : (forall r, r ∈ enabled_resources db -> fingerprint_of targets r db = Ok (mr_desired_fingerprint r)) ->
  advance_dependents now targets db = (Ok [], db).
Proof.
  intros H. unfold Declarations.advance_dependents. rewrite (bind_step _ _ _ (enabled_resources db) db) by done.
  induction (enabled_resources db) as [|r l IH]; [done|]. cbn [fold_each].
  rewrite (bind_step _ _ _ [] db); [apply IH; intros x Hx; apply H; by right|]. unfold Declarations.advance_one.
  rewrite (bind_step _ _ _ (fingerprint_of targets r db) db) by done. rewrite H by left.
  rewrite (bind_step _ _ _ (mr_desired_fingerprint r) db) by done. by rewrite decide_True.
Qed.

(** C34: What resolves through a changed record follows it: every record switched on is fingerprinted as it
    resolves now; one that resolves to something else moves on by one generation, unless HQ had never
    fingerprinted it; no record says anything else, one switched off is left alone; what is said to have
    advanced is what did; and done again nothing moves. *)
Theorem dependents_follow_what_they_resolve_through (now now' : Z) (targets : list dict) (db db' : Db) (advanced : list string) :
  NoDup (map mr_id (db_resources db)) -> advance_dependents now targets db = (Ok advanced, db') ->
  Forall2 (fun r r' => mr_id r' = mr_id r /\ authored r' = authored r /\
      if mr_enabled r
      then exists fp, fingerprint_of targets r db = Ok fp /\ mr_desired_fingerprint r' = fp /\
           mr_generation r' = (if bool_decide (fp = mr_desired_fingerprint r) || bool_decide (mr_desired_fingerprint r = "") then mr_generation r else mr_generation r + 1)%Z
      else r' = r) (db_resources db) (db_resources db') /\
  (forall key, key ∈ advanced <-> exists r fp, r ∈ db_resources db /\ mr_enabled r = true /\ mr_key r = key /\
      fingerprint_of targets r db = Ok fp /\ fp <> mr_desired_fingerprint r /\ mr_desired_fingerprint r <> "") /\
  db_operations db' = db_operations db /\ advance_dependents now' targets db' = (Ok [], db').
Proof.
  intros Hnd H. apply advance_dependents_ok in H as (Hall & -> & ->); [|done]. set (f := fun r => brought_up now (or_else "" (fingerprint_of targets r db)) r).
  assert (forall r, authored (f r) = authored r /\ mr_id (f r) = mr_id r) as Hf by (intros; apply brought_up_authored).
  split_and!; [| |done|].
  - cbn [db_resources set_db_resources]. unfold update_where. apply Forall2_fmap_r, Forall_Forall2_diag, Forall_forall. intros r Hr.
    unfold compose. destruct (mr_enabled r) eqn:He; [|by split_and!]. destruct (Hf r) as [Ha Hi]. split; [done|split; [done|]].
    destruct (Hall r Hr He) as [fp Hfp]. exists fp. unfold f. rewrite Hfp. cbn [or_else]. unfold brought_up. split_and!; [done|by repeat case_decide|].
    repeat case_decide; repeat case_bool_decide; done.
  - intros key. rewrite list_elem_of_fmap. split.
    + intros (r & -> & [Hr Hm]%list_elem_of_In%filter_In). apply list_elem_of_In, elem_of_enabled in Hr as [Hr He]. destruct (Hall r Hr He) as [fp Hfp].
      rewrite Hfp in Hm. cbn in Hm. apply andb_true_iff in Hm as [Hm1%negb_true_iff%bool_decide_eq_false Hm2%negb_true_iff%bool_decide_eq_false]. by exists r, fp.
    + intros (r & fp & Hr & He & <- & Hfp & Hne & Hold). exists r. split; [done|]. apply list_elem_of_In, filter_In. split; [by apply list_elem_of_In, elem_of_enabled|].
      rewrite Hfp. cbn. by rewrite !bool_decide_eq_false_2.
  - apply advance_settled. intros r' [(r & Hr & ->)%elem_of_update_where He']%elem_of_enabled.
    destruct (mr_enabled r) eqn:He; [|congruence]. destruct (Hall r Hr He) as [fp Hfp]. destruct (Hf r) as [Ha _].
    rewrite (fingerprint_of_authored _ _ r _ db Ha).
    2: { apply update_authored. intros; apply Hf. }
    rewrite Hfp. f_equal. unfold f. rewrite Hfp. cbn. unfold brought_up. by repeat case_decide.
Qed.
End Dependents.

(** * What a save does *)

Section Saving.
Context (host : Site) (providers : Registry) (connections : list Managing) (public_dns : bool).
Context (names_at : Db -> string -> list string) (deploying_label : ManagedResource -> Db -> string) (subject : string) (rest : Plant).

Notation site := (site host providers).
Notation plant := (plant providers connections public_dns names_at rest).
Notation fingerprint_of := (fingerprint_of host providers names_at).
Notation advance_dependents := (advance_dependents host providers names_at subject).
Notation apply_saved := (apply_saved host providers connections public_dns names_at rest).
Notation refuse_authored := (refuse_authored host providers connections public_dns).
Notation save_managed_resource := (save_managed_resource host providers connections public_dns names_at deploying_label subject rest).

(** What an authored record answers to before HQ acts on it: somebody's agreement where its kind asks for
    it, and, switched on, a connection that manages and the setting that lets the public internet move. *)
Definition agreed (kind : string) (spec : dict) (enabled : bool) (p : Principal) : Prop :=
  consent_gap site kind p = "" /\
  (enabled = true -> observes_only providers connections kind spec = false /\
     forall provider acts, provider_at providers kind = Some provider -> pr_public_effect provider = true ->
       can_change_the_public_internet providers kind = Ok acts -> acts = true -> public_dns = true).

Lemma provider_named_inv kind provider : provider_named providers kind = Ok provider -> provider_at providers kind = Some provider.
Proof. unfold provider_named. by destruct (provider_at providers kind); intros; simplify_eq. Qed.

Lemma refuse_authored_inv command validated p db db' : refuse_authored command validated p db = (Ok tt, db') ->
  db' = db /\ agreed (rc_kind command) validated (rc_enabled command) p.
Proof.
  unfold Declarations.refuse_authored. intros H. apply bind_inv_ok in H as ([] & s & [Hgap ->]%raise_if_inv & H).
  apply negb_false_iff, bool_decide_eq_true in Hgap. destruct (rc_enabled command); cbn [negb] in H; [|by injection H as <-].
  apply bind_inv_ok in H as (provider & s & [Hp ->]%lift_inv & H). symmetry in Hp. apply provider_named_inv in Hp.
  apply bind_inv_ok in H as (published & s & Hpub & H). apply bind_inv_ok in H as ([] & s' & [Hoff ->]%raise_if_inv & H).
  apply raise_if_inv in H as [Hobs ->].
  assert (s = db /\ (pr_public_effect provider = true -> can_change_the_public_internet providers (rc_kind command) = Ok published)) as [-> Hpub'].
  { destruct (pr_public_effect provider); [apply lift_inv in Hpub as [-> ->]; done|by injection Hpub as _ ->]. }
  split; [done|]. split; [done|]. intros _. split; [done|]. intros q acts Hq Heff Hacts ->. rewrite Hp in Hq. injection Hq as <-.
  rewrite (Hpub' Heff) in Hacts. injection Hacts as ->. by apply negb_false_iff in Hoff.
Qed.

(** The rows a save reads and leaves, step by step. *)
Inductive save_run (now : Z) (sent_command : ResourceCommand) (p : Principal) (current_key expected : option string) (copied : bool)
    (sent : option (list string)) (db : Db) (answer : dict) (db' : Db) : Prop :=
| SaveRun (old : option ManagedResource) (command : ResourceCommand) (validated : dict) (provider : ProviderSpec) (id fp : string)
    (row : ManagedResource) (db1 db3 db4 : Db) (applying said : json) :
    (forall key, current_key = Some key -> exists r, old = Some r /\ resource_of key db = Some r) -> (current_key = None -> old = None) ->
    command = match old with None => sent_command | Some r => written_over r sent_command sent end ->
    spec_withheld providers (rc_kind command) = false ->
    validate_spec providers (rc_kind command) (rc_spec command) = Ok validated ->
    (copied = false -> agreed (rc_kind command) validated (rc_enabled command) p) ->
    provider_at providers (rc_kind command) = Some provider ->
    (forall r, old = Some r -> id = mr_id r /\ db1 = db) -> (old = None -> id = pretty (db_next_id db) /\ db1 = set_db_next_id (db_next_id db + 1)%N db) ->
    fingerprint_of (delivery_targets db1) (row_saved now id old command validated) db1 = Ok fp ->
    row = set_mr_desired_fingerprint fp (row_saved now id old command validated) ->
    clean_errors row db1 = [] ->
    db3 = (if is_some old && negb (mr_enabled row) then (call_off_waiting now row (written_in row db1)).2 else written_in row db1) ->
    (if moved_by old command validated && pr_resolution_input provider
     then exists advanced, advance_dependents now (delivery_targets db3) db3 = (Ok advanced, db4) else db4 = db3) ->
    (if moved_by old command validated && negb copied then apply_saved now row p db4 = (Ok applying, db') else applying = JNull /\ db' = db4) ->
    serialize_resource providers deploying_label row db' = Ok said ->
    answer = [("ok", JBool true); ("created", JBool (negb (is_some old))); ("resource", said); ("applying", applying)] ->
    save_run now sent_command p current_key expected copied sent db answer db'.

Lemma resource_for_operation_inv key db r db' : resource_for_operation key db = (Ok r, db') -> db' = db /\ resource_of key db = Some r.
Proof. unfold resource_for_operation, act. destruct (resource_of key db); intros [=]; by subst. Qed.

Lemma save_inv now sent_command p current_key expected copied sent db answer db' :
  save_managed_resource now sent_command p current_key expected copied sent db = (Ok answer, db') ->
  save_run now sent_command p current_key expected copied sent db answer db'.
Proof.
  unfold Declarations.save_managed_resource. intros H. apply (proj1 (atomic_ok _ _ _ _)) in H. apply bind_inv_ok in H as (old & s & Hold & H).
  assert (s = db /\ (forall key, current_key = Some key -> exists r, old = Some r /\ resource_of key db = Some r) /\ (current_key = None -> old = None)) as (-> & Hkey & Hnone).
  { destruct current_key as [key|]; [|by injection Hold as <- <-]. apply bind_inv_ok in Hold as (r & s1 & Hr & Hold). injection Hold as <- <-.
    unfold held_resource in Hr. apply bind_inv_ok in Hr as (r' & s2 & Hr' & Hr). apply resource_for_operation_inv in Hr' as [-> Hr'].
    apply bind_inv_ok in Hr as ([] & s3 & [_ ->]%raise_if_inv & [= -> <-]). split_and!; [done| |done]. intros k [= <-]. by exists r. }
  cbn zeta in H. set (command := match old with None => sent_command | Some r => written_over r sent_command sent end) in *.
  apply bind_inv_ok in H as ([] & s & [Hw ->]%raise_if_inv & H). apply orb_false_iff in Hw as [Hw _].
  apply bind_inv_ok in H as (validated & s & [Hv ->]%lift_inv & H). symmetry in Hv.
  apply bind_inv_ok in H as ([] & s & Hag & H).
  assert (s = db /\ (copied = false -> agreed (rc_kind command) validated (rc_enabled command) p)) as [-> Hagreed].
  { destruct copied; [by injection Hag as ->|]. apply refuse_authored_inv in Hag as [-> ?]. done. }
  apply bind_inv_ok in H as (provider & s & [Hp ->]%lift_inv & H). symmetry in Hp. apply provider_named_inv in Hp.
  apply bind_inv_ok in H as (id & db1 & Hid & H).
  assert ((forall r, old = Some r -> id = mr_id r /\ db1 = db) /\ (old = None -> id = pretty (db_next_id db) /\ db1 = set_db_next_id (db_next_id db + 1)%N db)) as [Hid1 Hid2].
  { destruct old as [r|]; injection Hid as <- <-; (split; [|done]); [by intros ? [= <-]|done]. }
  apply bind_inv_ok in H as (targets & s & [= <- <-] & H). apply bind_inv_ok in H as (desired & s & [= <- <-] & H).
  apply bind_inv_ok in H as (fp & s & [Hfp ->]%lift_inv & H). symmetry in Hfp.
  set (row := set_mr_desired_fingerprint fp (row_saved now id old command validated)) in *.
  apply bind_inv_ok in H as ([] & s & Hclean & H). apply full_clean_inv in Hclean as [-> [[_ Hclean]|(? & ? & ?)]]; [|done].
  apply bind_inv_ok in H as ([] & s & [= <-] & H). fold (written_in row db1) in H.
  apply bind_inv_ok in H as ([] & db3 & Hoff & H). apply bind_inv_ok in H as ([] & db4 & Hadv & H).
  apply bind_inv_ok in H as (applying & db5 & Happ & H). apply bind_inv_ok in H as (told & s & [= <- <-] & H).
  apply bind_inv_ok in H as (said & s & [Hsaid ->]%lift_inv & [= <- <-]).
  eapply (SaveRun _ _ _ _ _ _ _ _ _ _ old command validated provider id fp row db1 db3 db4 applying said); try done.
  - fold row in Hoff. destruct (is_some old && negb (mr_enabled row)); [|by injection Hoff]. unfold call_off_waiting, modify in *. by injection Hoff as <-.
  - fold command in Hadv. destruct (moved_by old command validated && pr_resolution_input provider); [|by injection Hadv].
    apply bind_inv_ok in Hadv as (targets & s & [= <- <-] & Hadv). apply bind_inv_ok in Hadv as (advanced & s & Hadv & [= <-]). by exists advanced.
  - destruct (moved_by old command validated && negb copied); [done|by injection Happ].
Qed.

(** ** The work a save queues *)

Lemma queue_operation_ok r command act en now p db d db' :
  queue_operation site plant now r command p act en db = (Ok d, db') ->
  exists op queued s, enqueue now r act (oc_idempotency_key command)
      (mkAsked (actor p) (interface p) (device p) (oc_reason command)
         (if decide (approved_by p = "") then [("generation", JNum (mr_generation r))]
          else [("generation", JNum (mr_generation r)); ("approved_by", JStr (approved_by p))])) db = (Ok (op, queued), s) /\
    active_key op = (mr_id r, act) /\ db_operations db' = db_operations s /\ db_resources db' = db_resources s /\ db_next_id db' = db_next_id s /\
    dget "operation" d = Some (serialize_operation op s).
Proof.
  unfold queue_operation. intros H. apply bind_inv_ok in H as ([] & s1 & [_ ->]%raise_if_inv & H).
  apply bind_inv_ok in H as (obs & s2 & [= _ <-] & H). apply bind_inv_ok in H as ([] & s3 & [_ ->]%raise_if_inv & H).
  apply bind_inv_ok in H as ([] & s4 & [_ ->]%raise_if_inv & H). apply bind_inv_ok in H as ([] & s5 & [_ ->]%raise_if_inv & H).
  apply bind_inv_ok in H as ([op queued] & s & He & H). apply bind_inv_ok in H as ([] & s6 & [Hown ->]%raise_if_inv & H).
  apply orb_false_iff in Hown as [Hr%negb_false_iff%bool_decide_eq_true Ha%negb_false_iff%bool_decide_eq_true].
  apply bind_inv_ok in H as (said & s7 & [= <- <-] & H). exists op, queued, s. split; [done|]. split; [by unfold active_key; rewrite Hr, Ha|].
  destruct queued; [|by injection H as <- <-]. apply bind_inv_ok in H as ([] & s8 & [= <-] & [= <- <-]). done.
Qed.

Lemma enqueue_frame now r act key asked db op queued s : enqueue now r act key asked db = (Ok (op, queued), s) ->
  db_resources s = db_resources db /\ (db_next_id db <= db_next_id s)%N /\ forall o, o ∈ db_operations db -> o ∈ db_operations s.
Proof.
  intros H. destruct (enqueue_cases now r act key asked db) as [(x & _ & He)|[(x & _ & _ & He)|(_ & _ & He)]]; rewrite He in H; injection H as _ _ <-; cbn; try done.
  split_and!; [done|lia|]. intros o Ho. apply elem_of_app. by left.
Qed.

Lemma apply_saved_inv now row p db applying db' : apply_saved now row p db = (Ok applying, db') ->
  db_resources db' = db_resources db /\ (db_next_id db <= db_next_id db')%N /\ (forall o, o ∈ db_operations db -> o ∈ db_operations db') /\
  forall automatic, enabled_controller_actions providers true = Ok automatic ->
    mr_enabled row = true -> (mr_kind row, RECONCILE) ∈ automatic ->
    exists op, active_key op = (mr_id row, RECONCILE) /\ applying = serialize_operation op db' /\
      (is_active op = true -> op ∈ db_operations db') /\
      (is_active op = false -> op ∈ db_operations db /\ op_idempotency_key op = "reconcile:" +:+ mr_id row +:+ ":g" +:+ pretty (mr_generation row)).
Proof.
  unfold Declarations.apply_saved. intros H. apply bind_inv_ok in H as (automatic & s & [Ha ->]%lift_inv & H). symmetry in Ha.
  destruct (negb (mr_enabled row) || _) eqn:Hoff.
  { injection H as <- <-. split_and!; [done..|]. intros a Ha' He Hin. rewrite Ha in Ha'. injection Ha' as <-. rewrite He in Hoff. cbn in Hoff.
    by apply negb_true_iff, bool_decide_eq_false in Hoff. }
  apply bind_inv_ok in H as (d & s & Hq & H). unfold queue_reconcile in Hq. apply queue_operation_ok in Hq as (op & queued & s' & He & Hk & Ho & Hr & Hn & Hd).
  cbn [oc_idempotency_key] in He. pose proof (enqueue_frame _ _ _ _ _ _ _ _ _ He) as (Hr' & Hn' & Hin). rewrite Hd in H. injection H as <- <-.
  split_and!; [congruence|by rewrite Hn|intros o Hi; rewrite Ho; by apply Hin|]. intros _ _ _ _. exists op. split; [done|].
  assert (serialize_operation op s' = serialize_operation op s) as -> by (unfold serialize_operation, resource_key_of, resource_by; by rewrite Hr).
  split; [done|]. rewrite Ho.
  destruct (enqueue_cases now row RECONCILE ("reconcile:" +:+ mr_id row +:+ ":g" +:+ pretty (mr_generation row))
    (mkAsked (actor p) (interface p) (device p) "HQ's copy of it changed."
         (if decide (approved_by p = "") then [("generation", JNum (mr_generation row))]
          else [("generation", JNum (mr_generation row)); ("approved_by", JStr (approved_by p))])) db) as [(x & Hx & He')|[(x & _ & Hx & He')|(_ & _ & He')]];
    cbn [oc_reason] in He; rewrite He' in He; injection He as <- _ <-.
  - apply active_operation_some in Hx as (? & Hact & _). split; [done|congruence].
  - apply first_where_some in Hx as [Hx Hkey%bool_decide_eq_true]. by split.
  - split; [|done]. intros _. cbn. apply elem_of_app. right. by left.
Qed.

(** ** What it leaves of the rows *)

#[local] Transparent field_errors.

Lemma field_errors_authored r r' : authored r = authored r' -> field_errors r = field_errors r'.
Proof. unfold authored, field_errors. intros [= -> -> -> _]. done. Qed.

#[local] Opaque field_errors.

Lemma resources_update_ok p f db : (forall r, authored (f r) = authored r /\ mr_id (f r) = mr_id r /\ (resource_rules r = true -> resource_rules (f r) = true)) ->
  resources_ok db -> resources_ok (set_db_resources (update_where p f (db_resources db)) db).
Proof.
  intros Hf [Hi Hk Hr Hfe Hb].
  assert (forall r, r ∈ update_where p f (db_resources db) -> exists x, x ∈ db_resources db /\ authored r = authored x /\ mr_id r = mr_id x /\ (resource_rules x = true -> resource_rules r = true)) as Hin.
  { intros r (x & Hx & ->)%elem_of_update_where. exists x. destruct (p x); [|done]. by destruct (Hf x) as (? & ? & ?). }
  constructor; cbn [db_resources set_db_resources db_next_id].
  - rewrite map_update_where; [done|]. intros; apply Hf.
  - rewrite map_update_where; [done|]. intros x _ _. destruct (Hf x) as [Ha _]. by injection Ha.
  - intros r (x & Hx & _ & _ & Hrr)%Hin. by apply Hrr, Hr.
  - intros r (x & Hx & Ha & _)%Hin. rewrite (field_errors_authored _ _ Ha). by apply Hfe.
  - intros r (x & Hx & _ & -> & _)%Hin. by apply Hb.
Qed.

Lemma brought_up_rules now fp r : resource_rules r = true -> resource_rules (brought_up now fp r) = true.
Proof.
  unfold brought_up, resource_rules. rewrite !andb_true_iff, !Z.leb_le. intros [Hg Ho]. repeat case_decide; cbn; lia.
Qed.

Hypothesis names_of_declarations : forall db db',
  map authored (db_resources db) = map authored (db_resources db') -> names_at db = names_at db'.

(** What a save leaves beside the row it wrote: the rest is as it was, or brought up to date where the
    saved record is one others resolve through. *)
Inductive saved_rows (now : Z) (old : option ManagedResource) (row : ManagedResource) (input : bool) (db db' : Db) : Prop :=
| SavedRows (f : ManagedResource -> ManagedResource) :
    (forall x, authored (f x) = authored x /\ mr_id (f x) = mr_id x /\ (resource_rules x = true -> resource_rules (f x) = true) /\
               (f x = x \/ input = true /\ mr_enabled x = true /\ exists fp, f x = brought_up now fp x)) ->
    (forall x, x ∈ db_resources db' <-> exists y, x = f y /\ (y = row \/ y ∈ db_resources db /\ mr_id y <> mr_id row)) ->
    resources_ok db' -> saved_rows now old row input db db'.

Lemma call_off_frame now row db : db_resources (call_off_waiting now row db).2 = db_resources db /\ db_next_id (call_off_waiting now row db).2 = db_next_id db.
Proof. done. Qed.

Lemma row_saved_id now id old command validated fp : (forall r, old = Some r -> id = mr_id r) ->
  mr_id (set_mr_desired_fingerprint fp (row_saved now id old command validated)) = id.
Proof. intros H. destruct old as [r|]; [by rewrite (H r)|done]. Qed.

Lemma resources_run now sent_command p current_key expected copied sent db answer db' :
  resources_ok db -> save_run now sent_command p current_key expected copied sent db answer db' ->
  exists old command validated provider fp id,
    let row := set_mr_desired_fingerprint fp (row_saved now id old command validated) in
    (forall key, current_key = Some key -> exists r, old = Some r /\ resource_of key db = Some r) /\ (current_key = None -> old = None) /\
    command = match old with None => sent_command | Some r => written_over r sent_command sent end /\
    validate_spec providers (rc_kind command) (rc_spec command) = Ok validated /\
    (copied = false -> agreed (rc_kind command) validated (rc_enabled command) p) /\
    provider_at providers (rc_kind command) = Some provider /\ mr_id row = id /\ (forall r, old = Some r -> id = mr_id r /\ r ∈ db_resources db) /\
    (old = None -> id = pretty (db_next_id db)) /\
    saved_rows now old row (moved_by old command validated && pr_resolution_input provider) db db' /\
    exists db4 applying said, db_operations db4 = (if is_some old && negb (mr_enabled row) then update_where (waits_for row) (called_off now) (db_operations db) else db_operations db) /\
      db_resources db' = db_resources db4 /\ (db_next_id db <= db_next_id db4)%N /\
      (if moved_by old command validated && negb copied then apply_saved now row p db4 = (Ok applying, db') else applying = JNull /\ db' = db4) /\
      answer = [("ok", JBool true); ("created", JBool (negb (is_some old))); ("resource", said); ("applying", applying)].
Proof.
  intros Hok [old command validated provider id fp row db1 db3 db4 applying said Hkey Hnone -> Hw Hv Hag Hp Hid1 Hid2 Hfp Hrow Hclean Hdb3 Hadv Happ Hsaid Hans].
  set (command := match old with None => sent_command | Some r => written_over r sent_command sent end) in *.
  assert (forall r, old = Some r -> r ∈ db_resources db) as Hold.
  { intros r Hr. destruct current_key as [key|]; [|by rewrite Hnone in Hr]. destruct (Hkey key eq_refl) as (x & Hx & Hxdb). rewrite Hr in Hx. injection Hx as <-.
    by apply first_where_some in Hxdb as [? _]. }
  assert (mr_id row = id) as Hrid by (rewrite Hrow; apply row_saved_id; intros r Hr; by destruct (Hid1 r Hr)).
  assert (db_resources db1 = db_resources db /\ db_operations db1 = db_operations db /\ resources_ok db1 /\ exists n, id = pretty n /\ (n < db_next_id db1)%N) as (Hr1 & Ho1 & Hok1 & Hbelow).
  { destruct old as [r|].
    - destruct (Hid1 r eq_refl) as [-> ->]. split_and!; [done..|]. apply (rok_below _ Hok), Hold, eq_refl.
    - destruct (Hid2 eq_refl) as [-> ->]. split_and!; [done..| |]. { eapply resources_frame; [..|exact Hok]; [done|cbn; lia]. }
      exists (db_next_id db). split; [done|cbn; lia]. }
  assert (resources_ok (written_in row db1)) as Hok2 by (apply resources_ok_written; [done|done|by rewrite Hrid]).
  assert (db_resources db3 = db_resources (written_in row db1) /\ resources_ok db3 /\
    db_operations db3 = if is_some old && negb (mr_enabled row) then update_where (waits_for row) (called_off now) (db_operations db) else db_operations db) as (Hr3 & Hok3 & Ho3).
  { rewrite Hdb3. destruct (is_some old && negb (mr_enabled row)); [|by rewrite <- Ho1]. split_and!; [done| |by rewrite <- Ho1].
    eapply resources_frame; [..|exact Hok2]; [done|cbn; lia]. }
  exists old, command, validated, provider, fp, id. cbn zeta. rewrite <- Hrow. split_and!; [done..| | | |].
  - intros r Hr. destruct (Hid1 r Hr) as [-> _]. by split; [|apply Hold].
  - intros Hn. by destruct (Hid2 Hn).
  - assert (exists f, (forall x, authored (f x) = authored x /\ mr_id (f x) = mr_id x /\ (resource_rules x = true -> resource_rules (f x) = true) /\
      (f x = x \/ moved_by old command validated && pr_resolution_input provider = true /\ mr_enabled x = true /\ exists fp, f x = brought_up now fp x)) /\
      db_resources db4 = map f (db_resources db3) /\ db_next_id db4 = db_next_id db3) as (f & Hf & Hr4 & Hn4).
    { destruct (moved_by old command validated && pr_resolution_input provider).
      - destruct Hadv as (advanced & Hadv). apply advance_dependents_ok in Hadv as (_ & -> & _); [|done|apply (rok_ids _ Hok3)].
        eexists (fun x => if mr_enabled x then _ x else x). split; [|split; reflexivity]. intros x. destruct (mr_enabled x) eqn:He; [|by auto].
        cbn beta. destruct (brought_up_authored now (or_else "" (fingerprint_of (delivery_targets db3) x db3)) x) as [Ha Hi].
        split_and!; [done|done|apply brought_up_rules|right]. split_and!; [done..|]. by eexists.
      - exists (fun x => x). subst db4. rewrite map_id. split; [|done]. intros x. by auto. }
    assert (resources_ok db4) as Hok4.
    { assert (db_resources db4 = update_where (fun _ => true) f (db_resources db3)) as Hu by by rewrite Hr4.
      pose proof (resources_update_ok (fun _ => true) f db3 (fun x => let '(conj a (conj b (conj c _))) := Hf x in conj a (conj b c)) Hok3) as Hok4.
      eapply resources_frame; [..|exact Hok4]; [done|cbn; lia]. }
    assert (db_resources db' = db_resources db4 /\ resources_ok db') as [Hr' Hok'].
    { destruct (moved_by old command validated && negb copied); [|by destruct Happ as [_ ->]].
      apply apply_saved_inv in Happ as Hinv. destruct Hinv as (Hr' & Hn' & _). split; [done|]. by eapply resources_frame. }
    exists f; [done| |done]. intros x. rewrite Hr', Hr4, list_elem_of_fmap, Hr3. split.
    + intros (y & -> & Hy). exists y. split; [done|]. apply elem_of_written in Hy; [|apply (rok_ids _ Hok1)]. by rewrite Hr1 in Hy.
    + intros (y & -> & Hy). exists y. split; [done|]. apply elem_of_written; [apply (rok_ids _ Hok1)|]. by rewrite Hr1.
  - exists db4, applying, said. split_and!; [| | |done|done].
    + rewrite <- Ho3. destruct (moved_by old command validated && pr_resolution_input provider); [|by subst]. destruct Hadv as (advanced & Hadv).
      apply advance_dependents_ok in Hadv as (_ & -> & _); [done|done|apply (rok_ids _ Hok3)].
    + destruct (moved_by old command validated && negb copied); [by apply apply_saved_inv in Happ as [? _]|by destruct Happ as [_ ->]].
    + assert (db_next_id db4 = db_next_id db3) as ->.
      { destruct (moved_by old command validated && pr_resolution_input provider); [|by subst]. destruct Hadv as (advanced & Hadv).
        by apply advance_dependents_ok in Hadv as (_ & -> & _); [|done|apply (rok_ids _ Hok3)]. }
      assert (db_next_id db3 = db_next_id db1) as -> by (rewrite Hdb3; by destruct (is_some old && negb (mr_enabled row))).
      destruct old as [r|]; [destruct (Hid1 r eq_refl) as [_ ->]; lia|destruct (Hid2 eq_refl) as [_ ->]; cbn; lia].
Qed.

(** ** The promises *)

Lemma save_raise now sent_command p current_key expected copied sent db e db' :
  save_managed_resource now sent_command p current_key expected copied sent db = (Raise e, db') -> db' = db.
Proof. intros H. by apply atomic_raise in H. Qed.

Lemma apply_saved_ok now row p db o db' : apply_saved now row p db = (o, db') -> operations_ok db -> operations_ok db'.
Proof.
  intros H Hok. assert (preserves operations_ok (apply_saved now row p)) as Hp; [|specialize (Hp db Hok); by rewrite H in Hp].
  unfold Declarations.apply_saved. apply preserves_bind; [apply preserves_lift|intros automatic]. destruct (_ || _); [apply preserves_ret|].
  apply preserves_bind; [apply preserves_queue_operation|intros; apply preserves_ret].
Qed.

Lemma call_off_ok now row db : operations_ok db ->
  operations_ok (set_db_operations (update_where (waits_for row) (called_off now) (db_operations db)) db).
Proof.
  intros Ho. apply operations_update_ok; [done|]. intros x Hx Hw. split_and!; [done| |done].
  unfold waits_for in Hw. apply andb_true_iff in Hw as [[_ Hq%bool_decide_eq_true]%andb_true_iff _].
  pose proof (opk_rules _ Ho x Hx) as Hrules. unfold operation_rules, called_off, is_active in *. cbn. rewrite Hq in Hrules. by destruct (op_completed_at x), (op_claimed_at x), (op_lease_expires_at x).
Qed.

Lemma save_operations_ok now command p current_key expected copied sent db db' o :
  resources_ok db -> operations_ok db -> save_managed_resource now command p current_key expected copied sent db = (o, db') -> operations_ok db'.
Proof.
  intros Hr Ho H. destruct o as [answer|e]; [|by apply save_raise in H as ->]. apply save_inv, resources_run in H; [|done].
  destruct H as (old & cmd & validated & provider & fp & id & _ & _ & _ & _ & _ & _ & _ & _ & _ & _ & db4 & applying & said & Ho4 & _ & Hn & Happ & _).
  assert (operations_ok db4) as Hok4.
  { destruct (is_some old && negb _); [|by eapply operations_frame].
    eapply (operations_frame (set_db_operations (update_where _ _ (db_operations db)) db)); [exact Ho4|exact Hn|by apply call_off_ok]. }
  destruct (moved_by old cmd validated && negb copied); [by eapply apply_saved_ok|by destruct Happ as [_ ->]].
Qed.

(** C15: A save, whatever comes of it, leaves both tables as they should be: each record under a key and an id
    of its own, at a generation from one up and observed at one it reached, its columns within their
    rules, and one operation at most active for each record and action. *)
Theorem declarations_stay_ok (now : Z) (command : ResourceCommand) (p : Principal) (current_key expected : option string) (copied : bool)
    (sent : option (list string)) (db db' : Db) (o : outcome exn dict) :
  resources_ok db -> operations_ok db -> save_managed_resource now command p current_key expected copied sent db = (o, db') ->
  resources_ok db' /\ operations_ok db'.
Proof.
  intros Hr Ho H. split; [|by eapply save_operations_ok]. destruct o as [answer|e]; [|by apply save_raise in H as ->].
  apply save_inv, resources_run in H; [|done]. by destruct H as (old & cmd & validated & provider & fp & id & _ & _ & _ & _ & _ & _ & _ & _ & _ & [_ _ _ Hok] & _).
Qed.

Lemma row_saved_authored now fp old id command validated :
  authored (set_mr_desired_fingerprint fp (row_saved now id old command validated)) = (rc_key command, rc_kind command, validated, rc_enabled command).
Proof. by destruct old. Qed.


Lemma apply_saved_off now row p db applying db' : mr_enabled row = false -> apply_saved now row p db = (Ok applying, db') -> db' = db.
Proof.
  unfold Declarations.apply_saved. intros Hoff H. apply bind_inv_ok in H as (automatic & s & [_ ->]%lift_inv & H). rewrite Hoff in H. by injection H as _ <-.
Qed.

(** C19: Switching a record off calls off its work: of what was waiting for it only a removal still waits, what
    was cancelled says why, nothing new is queued, and no other operation moves. *)
Theorem switched_off_leaves_no_work (now : Z) (sent_command : ResourceCommand) (p : Principal) (key : string) (expected : option string) (copied : bool)
    (sent : option (list string)) (db db' : Db) (answer : dict) (r : ManagedResource) :
  resources_ok db -> resource_of key db = Some r -> rc_enabled (written_over r sent_command sent) = false ->
  save_managed_resource now sent_command p (Some key) expected copied sent db = (Ok answer, db') ->
  (forall o, o ∈ db_operations db' -> op_resource o = mr_id r -> op_state o = O_QUEUED -> op_action o = DELETE) /\
  (forall o, o ∈ db_operations db -> op_resource o = mr_id r -> op_state o = O_QUEUED -> op_action o <> DELETE -> called_off now o ∈ db_operations db') /\
  (forall o, o ∈ db_operations db -> (op_resource o = mr_id r -> op_state o = O_QUEUED -> op_action o = DELETE) -> o ∈ db_operations db') /\
  length (db_operations db') = length (db_operations db).
Proof.
  intros Hok Hr Hoff H. apply save_inv, resources_run in H; [|done].
  destruct H as (old & command & validated & provider & fp & id & Hkey & _ & Hcmd & _ & _ & _ & Hid & Hold & _ & _ & db4 & applying & said & Ho4 & _ & _ & Happ & _).
  destruct (Hkey key eq_refl) as (r' & -> & Hr'). rewrite Hr in Hr'. injection Hr' as <-. destruct (Hold r eq_refl) as [Hidr Hin].
  set (row := set_mr_desired_fingerprint fp (row_saved now id (Some r) command validated)) in *.
  assert (mr_enabled row = false) as Hrow by (rewrite <- Hoff, <- Hcmd; done). rewrite Hrow in Ho4. cbn in Ho4.
  assert (db_operations db' = update_where (waits_for row) (called_off now) (db_operations db)) as ->.
  { rewrite <- Ho4. destruct (moved_by (Some r) command validated && negb copied); [by rewrite (apply_saved_off _ _ _ _ _ _ Hrow Happ)|by destruct Happ as [_ ->]]. }
  assert (forall o, waits_for row o = true <-> op_resource o = mr_id r /\ op_state o = O_QUEUED /\ op_action o <> DELETE) as Hw.
  { intros o. unfold waits_for. rewrite Hid, Hidr, !andb_true_iff, negb_true_iff, !bool_decide_eq_true, bool_decide_eq_false. tauto. }
  split_and!.
  - intros o (x & Hx & ->)%elem_of_update_where. destruct (waits_for row x) eqn:Hwx; [done|]. intros Hres Hq.
    destruct (decide (op_action x = DELETE)) as [|Hne]; [done|]. assert (waits_for row x = true); [by apply Hw|congruence].
  - intros o Ho Hres Hq Ha. apply elem_of_update_where. exists o. split; [done|]. rewrite (proj2 (Hw o)); done.
  - intros o Ho Himp. apply elem_of_update_where. exists o. split; [done|]. destruct (waits_for row o) eqn:Hwo; [|done]. apply Hw in Hwo as (? & ? & Hne). by destruct Hne; apply Himp.
  - apply length_update_where.
Qed.

Lemma held_stale key expected r db : resource_of key db = Some r -> expected <> "" -> isoformat (mr_updated_at r) <> expected ->
  held_resource key (Some expected) db = (Raise (conflict "That record changed after it was read."), db).
Proof.
  intros Hr He Hne. unfold held_resource, resource_for_operation, mbind, M_bind, act, raise_if. rewrite Hr.
  destruct expected; [done|]. by rewrite bool_decide_eq_false_2.
Qed.

Lemma save_refused now sent_command p key expected copied sent db e :
  held_resource key expected db = (Raise e, db) ->
  save_managed_resource now sent_command p (Some key) expected copied sent db = (Raise e, db).
Proof. intros H. unfold Declarations.save_managed_resource, atomic. unfold mbind at 1, M_bind at 1. unfold mbind at 1, M_bind at 1. by rewrite H. Qed.

(** Of two people who read a record at the same moment and send that moment back, the second to save is
    refused and overwrites nothing, whatever either of them changed and whoever they are. *)
Theorem second_writer_is_refused (now now' : Z) (mine theirs : ResourceCommand) (p q : Principal) (key expected : string) (copied copied' : bool)
    (sent sent' : option (list string)) (db db1 : Db) (answer : dict) :
  resources_ok db -> expected <> "" -> isoformat now <> expected ->
  save_managed_resource now mine p (Some key) (Some expected) copied sent db = (Ok answer, db1) ->
  exists refused, save_managed_resource now' theirs q (Some key) (Some expected) copied' sent' db1 = (Raise (Host refused.1 refused.2 JNull), db1) /\
    refused ∈ [(RecordConflict, "That record changed after it was read."); (RecordNotFound, "That record was not found.")].
Proof.
  intros Hok He Hnow H. apply save_inv, resources_run in H; [|done].
  destruct H as (old & command & validated & provider & fp & id & Hkey & _ & _ & _ & _ & _ & Hid & Hold & _ & [f Hf Hin _] & _).
  set (row := set_mr_desired_fingerprint fp (row_saved now id old command validated)) in *.
  destruct (Hkey key eq_refl) as (r & -> & Hr). destruct (Hold r eq_refl) as [Hidr Hrin].
  destruct (resource_of key db1) as [x|] eqn:Hx.
  - exists (RecordConflict, "That record changed after it was read."). split; [|by left]. apply save_refused, (held_stale _ _ x); [done|done|].
    apply first_where_some in Hx as [(y & -> & Hy)%Hin Hxk%bool_decide_eq_true].
    assert (y = row) as ->.
    { destruct Hy as [->|[Hy Hne]]; [done|]. destruct (Hf y) as (Hya & _). injection Hya as Hyk _ _ _. apply first_where_some in Hr as [_ Hrk%bool_decide_eq_true].
      destruct Hne. rewrite Hid, Hidr. by rewrite (unique_by mr_key _ y r (rok_keys _ Hok) Hy Hrin) by congruence. }
    assert (mr_updated_at (f row) = now) as ->; [|done].
    destruct (Hf row) as (_ & _ & _ & [->|(_ & _ & fp' & ->)]); [done|]. unfold brought_up. by repeat case_decide.
  - exists (RecordNotFound, "That record was not found."). split; [|right; by left]. apply save_refused.
    unfold held_resource, resource_for_operation, mbind, M_bind, act. by rewrite Hx.
Qed.

Definition reconcile_key (id : string) (generation : Z) : string := "reconcile:" +:+ id +:+ ":g" +:+ pretty generation.

(** Switched on and of a kind HQ applies by itself, a change that was agreed to is applied: when the save
    is answered a reconcile of the record waits or runs, and the answer names it; unless an operation
    that has ended was asked for under the key this generation's reconcile is queued by. *)
Theorem agreed_change_is_queued (now : Z) (sent_command : ResourceCommand) (p : Principal) (key : string) (expected : option string)
    (sent : option (list string)) (db db' : Db) (answer validated : dict) (r : ManagedResource) (automatic : list (string * string)) :
  let command := written_over r sent_command sent in
  resources_ok db -> resource_of key db = Some r -> validate_spec providers (rc_kind command) (rc_spec command) = Ok validated ->
  moved_by (Some r) command validated = true -> rc_enabled command = true ->
  enabled_controller_actions providers true = Ok automatic -> (rc_kind command, RECONCILE) ∈ automatic ->
  (forall o, o ∈ db_operations db -> op_idempotency_key o = reconcile_key (mr_id r) (mr_generation r + 1) -> is_active o = true) ->
  save_managed_resource now sent_command p (Some key) expected false sent db = (Ok answer, db') ->
  exists op, op ∈ db_operations db' /\ is_active op = true /\ active_key op = (mr_id r, RECONCILE) /\
    dget "applying" answer = Some (serialize_operation op db').
Proof.
  intros command Hok Hr Hv Hmoved Hon Hauto Hin Hfree H. apply save_inv, resources_run in H; [|done].
  destruct H as (old & cmd & v & provider & fp & id & Hkey & _ & Hcmd & Hv' & _ & _ & Hid & Hold & _ & _ & db4 & applying & said & Ho4 & _ & _ & Happ & ->).
  destruct (Hkey key eq_refl) as (r' & -> & Hr'). rewrite Hr in Hr'. injection Hr' as <-. destruct (Hold r eq_refl) as [Hidr Hrin].
  fold command in Hcmd. subst cmd. rewrite Hv in Hv'. injection Hv' as <-.
  set (row := set_mr_desired_fingerprint fp (row_saved now id (Some r) command validated)) in *.
  assert (mr_enabled row = true) as Hrow by done. rewrite Hrow in Ho4. cbn in Ho4. rewrite Hmoved in Happ. cbn [negb andb] in Happ.
  apply apply_saved_inv in Happ as (_ & _ & Hkeep & Happ). destruct (Happ automatic Hauto Hrow Hin) as (op & Hk & -> & Hact & Hdone).
  rewrite Hid, Hidr in Hk. exists op. assert (is_active op = true) as Ha; [|split_and!; [by apply Hact|done..]].
  destruct (is_active op) eqn:Ha; [done|]. destruct (Hdone eq_refl) as [Hop Hopk]. rewrite Ho4 in Hop. rewrite <- Ha. apply Hfree; [done|].
  rewrite Hopk, Hid, Hidr. unfold reconcile_key. do 4 f_equal. unfold row. cbn. cbn in Hmoved. by rewrite Hmoved.
Qed.

(** The record an answered save changed: still there under its id, at a later generation, its queued work
    as it was. *)
Lemma saved_generation now sent_command p key expected copied sent db db' answer r :
  resources_ok db -> resource_of key db = Some r ->
  save_managed_resource now sent_command p (Some key) expected copied sent db = (Ok answer, db') ->
  rc_enabled (written_over r sent_command sent) = true ->
  (forall validated, validate_spec providers (rc_kind (written_over r sent_command sent)) (rc_spec (written_over r sent_command sent)) = Ok validated ->
     moved_by (Some r) (written_over r sent_command sent) validated = true) ->
  resources_ok db' /\ (exists row, row ∈ db_resources db' /\ mr_id row = mr_id r /\ (mr_generation r < mr_generation row)%Z) /\
  forall o, o ∈ db_operations db -> o ∈ db_operations db'.
Proof.
  intros Hok Hr H Hon Hmoved. apply save_inv, resources_run in H; [|done].
  destruct H as (old & command & validated & provider & fp & id & Hkey & _ & Hcmd & Hv & _ & _ & Hid & Hold & _ & [f Hf Hin Hok'] & db4 & applying & said & Ho4 & _ & _ & Happ & _).
  destruct (Hkey key eq_refl) as (r' & -> & Hr'). rewrite Hr in Hr'. injection Hr' as <-. destruct (Hold r eq_refl) as [Hidr _]. subst command.
  specialize (Hmoved _ Hv). set (row := set_mr_desired_fingerprint fp (row_saved now id (Some r) (written_over r sent_command sent) validated)) in *.
  assert (mr_enabled row = true) as Hrow by done. rewrite Hrow in Ho4. cbn in Ho4. split_and!; [done| |].
  - exists (f row). destruct (Hf row) as (_ & Hfi & _ & Hmove). split_and!; [apply Hin; exists row; split; [done|by left]|congruence|].
    assert (mr_generation row = mr_generation r + 1)%Z as Hg by (unfold row, row_saved; rewrite Hmoved; done).
    destruct Hmove as [->|(_ & _ & fp' & ->)]; [lia|]. unfold brought_up. repeat case_decide; cbn [mr_generation set_mr_updated_at set_mr_desired_fingerprint set_mr_generation]; lia.
  - intros o Ho. rewrite <- Ho4 in Ho. destruct (moved_by _ _ _ && negb copied); [|by destruct Happ as [_ ->]].
    apply apply_saved_inv in Happ as (_ & _ & Hkeep & _). by apply Hkeep.
Qed.
End Saving.

(** * On a registry of three kinds *)

#[local] Transparent field_errors.

(** What [resources_ok] asks, decided. *)
Definition resources_check (db : Db) : bool :=
  bool_decide (NoDup (map mr_id (db_resources db))) && bool_decide (NoDup (map mr_key (db_resources db))) &&
  forallb (fun r => resource_rules r && (length (some_errors (field_errors r)) =? 0)%nat &&
                    existsb (fun n => bool_decide (mr_id r = pretty (N.of_nat n))) (seq 0 (N.to_nat (db_next_id db)))) (db_resources db).

Lemma resources_checked db : resources_check db = true -> resources_ok db.
Proof.
  intros [[Hi%bool_decide_eq_true Hk%bool_decide_eq_true]%andb_true_iff H]%andb_true_iff. rewrite forallb_forall in H.
  assert (forall r, r ∈ db_resources db -> resource_rules r = true /\ some_errors (field_errors r) = [] /\ exists n, mr_id r = pretty n /\ (n < db_next_id db)%N) as Hall.
  { intros r Hr%list_elem_of_In. apply H in Hr as [[Hr Hf%Nat.eqb_eq]%andb_true_iff (n & Hn & Hid%bool_decide_eq_true)%existsb_exists]%andb_true_iff.
    split_and!; [done|by destruct (some_errors _)|]. exists (N.of_nat n). split; [done|]. apply in_seq in Hn. lia. }
  constructor; [done|done|intros r Hr; by apply Hall..].
Qed.

Definition demo_connections : list Managing := [mkManaging "adguard" "dns" true; mkManaging "ssh" "edge" true; mkManaging "cloudflare_dns" "zone" true].
Definition ada : Principal := principal_of "ada" WEB_INTERFACE {[ MANAGE_INFRASTRUCTURE ]}.
Notation demo_save := (save_managed_resource demo_host (REGISTRY demo_words) demo_connections false (fun _ _ => []) (fun _ _ => "") "infrastructure.resource.update" working_plant).

Definition app_record (answer : string) (enabled : bool) : ResourceCommand :=
  mkResourceCommand "app-dns" REWRITE_KIND [("domain", JStr "app.example.com"); ("answer", JStr answer)] enabled.

(** A delivery target, a certificate installed there and an internal DNS record, each with what its save queued. *)
Definition demo_db : Db :=
  (demo_save 3 (app_record "10.0.0.4" true) ada None None false None
    (demo_save 2 (mkResourceCommand "site" CERTIFICATE_KIND site_certificate true) ada None None false None
      (demo_save 1 (mkResourceCommand "edge" DELIVERY_TARGET_KIND edge true) ada None None false None empty_db).2).2).2.

Lemma demo_db_ok : resources_ok demo_db.
Proof. apply resources_checked. vm_compute. reflexivity. Qed.

(** The queue's rules, decided. *)
Definition operations_check (db : Db) : bool :=
  forallb operation_rules (db_operations db) && bool_decide (NoDup (map op_id (db_operations db))) && bool_decide (NoDup (map op_idempotency_key (db_operations db))) &&
  forallb (fun o => existsb (fun n => bool_decide (op_id o = pretty (N.of_nat n))) (seq 0 (N.to_nat (db_next_id db)))) (db_operations db) &&
  bool_decide (NoDup (map active_key (rows_where is_active (db_operations db)))).

Lemma operations_checked db : operations_check db = true -> operations_ok db.
Proof.
  unfold operations_check. rewrite !andb_true_iff, !bool_decide_eq_true, !forallb_forall. intros [[[[Hr Hi] Hk] Hb] Ho].
  constructor; [intros o Hin; by apply Hr, list_elem_of_In|done|done| |done].
  intros o Hin%list_elem_of_In. apply Hb, existsb_exists in Hin as (n & Hn & Hid%bool_decide_eq_true). exists (N.of_nat n). split; [done|]. apply in_seq in Hn. lia.
Qed.

Lemma demo_queue_ok : operations_ok demo_db.
Proof. apply operations_checked. vm_compute. reflexivity. Qed.

(** A run that was answered, by evaluating it. *)
Lemma answer_given {A} (r : outcome exn A * Db) : match r.1 with Ok _ => true | Raise _ => false end = true -> exists a, r = (Ok a, r.2).
Proof. destruct r as [[a|e] db]; [by exists a|done]. Qed.

Example the_save_queues :
  map (fun o => (op_resource o, op_action o, op_idempotency_key o)) (db_operations demo_db) =
    [("1", "reconcile", "reconcile:1:g1"); ("3", "reconcile", "reconcile:3:g1")] /\
  map (fun r => (mr_id r, mr_key r, mr_generation r)) (db_resources demo_db) = [("0", "edge", 1%Z); ("1", "site", 1%Z); ("3", "app-dns", 1%Z)].
Proof. vm_compute. done. Qed.

Lemma declarations_stay_ok_witness :
  let saved := demo_save 9 (app_record "10.0.0.5" true) ada (Some "app-dns") None false None demo_db in
  resources_ok saved.2 /\ operations_ok saved.2.
Proof.
  apply (declarations_stay_ok demo_host (REGISTRY demo_words) demo_connections false (fun _ _ => []) (fun _ _ => "") "infrastructure.resource.update" working_plant
    (fun _ _ _ => eq_refl) 9 (app_record "10.0.0.5" true) ada (Some "app-dns") None false None demo_db _ (demo_save 9 (app_record "10.0.0.5" true) ada (Some "app-dns") None false None demo_db).1).
  - exact demo_db_ok.
  - exact demo_queue_ok.
  - apply surjective_pairing.
Defined.


Lemma switched_off_leaves_no_work_witness :
  let saved := demo_save 9 (app_record "10.0.0.4" false) ada (Some "app-dns") None false (Some ["enabled"]) demo_db in
  exists answer r, saved = (Ok answer, saved.2) /\ mr_id r = "3" /\
    forall o, o ∈ db_operations saved.2 -> op_resource o = mr_id r -> op_state o = O_QUEUED -> op_action o = DELETE.
Proof.
  destruct (answer_given (demo_save 9 (app_record "10.0.0.4" false) ada (Some "app-dns") None false (Some ["enabled"]) demo_db) ltac:(vm_compute; reflexivity)) as [answer H].
  destruct (resource_of "app-dns" demo_db) as [r|] eqn:Hr; [|vm_compute in Hr; discriminate Hr].
  assert (Hid : mr_id <$> resource_of "app-dns" demo_db = Some "3") by (vm_compute; reflexivity). rewrite Hr in Hid. injection Hid as Hid.
  exists answer, r. split; [exact H|split; [exact Hid|]].
  exact (proj1 (switched_off_leaves_no_work demo_host (REGISTRY demo_words) demo_connections false (fun _ _ => []) (fun _ _ => "") "infrastructure.resource.update" working_plant
    (fun _ _ _ => eq_refl) 9 (app_record "10.0.0.4" false) ada "app-dns" None false (Some ["enabled"]) demo_db _ answer r demo_db_ok Hr eq_refl H)).
Defined.

Lemma second_writer_is_refused_witness :
  let saved := demo_save 9 (app_record "10.0.0.5" true) ada (Some "app-dns") (Some (isoformat 3)) false (Some ["spec"]) demo_db in
  exists refused, demo_save 10 (app_record "10.0.0.6" true) ada (Some "app-dns") (Some (isoformat 3)) false (Some ["spec"]) saved.2 = (Raise (Host refused.1 refused.2 JNull), saved.2).
Proof.
  destruct (answer_given (demo_save 9 (app_record "10.0.0.5" true) ada (Some "app-dns") (Some (isoformat 3)) false (Some ["spec"]) demo_db) ltac:(vm_compute; reflexivity)) as [answer H].
  assert (Hb : bool_decide (isoformat 3 = "") = false /\ bool_decide (isoformat 9 = isoformat 3) = false) by (vm_compute; split; reflexivity).
  destruct Hb as [Hne%bool_decide_eq_false Hnow%bool_decide_eq_false].
  destruct (second_writer_is_refused demo_host (REGISTRY demo_words) demo_connections false (fun _ _ => []) (fun _ _ => "") "infrastructure.resource.update" working_plant
    (fun _ _ _ => eq_refl) 9 10 (app_record "10.0.0.5" true) (app_record "10.0.0.6" true) ada ada "app-dns" (isoformat 3) false false (Some ["spec"]) (Some ["spec"]) demo_db _ answer
    demo_db_ok Hne Hnow H) as (refused & Hr & _).
  exists refused. exact Hr.
Defined.

Lemma agreed_change_is_queued_witness :
  let saved := demo_save 9 (app_record "10.0.0.5" true) ada (Some "app-dns") None false (Some ["spec"]) demo_db in
  exists op, op ∈ db_operations saved.2 /\ is_active op = true.
Proof.
  intros saved.
  destruct (answer_given (demo_save 9 (app_record "10.0.0.5" true) ada (Some "app-dns") None false (Some ["spec"]) demo_db) ltac:(vm_compute; reflexivity)) as [answer H].
  destruct (resource_of "app-dns" demo_db) as [r|] eqn:Hr; [|vm_compute in Hr; discriminate Hr].
  assert (Hrec : Some r = resource_of "app-dns" demo_db) by (symmetry; exact Hr).
  assert (Hr' : r = mkManagedResource "3" "app-dns" REWRITE_KIND [("domain", JStr "app.example.com"); ("answer", JStr "10.0.0.4")] true (mr_desired_fingerprint r) 1 0 [] [] None 3).
  { assert (Hall : (fun x => mkManagedResource (mr_id x) (mr_key x) (mr_kind x) (mr_spec x) (mr_enabled x) "" (mr_generation x) (mr_observed_generation x) (mr_status x) (mr_conditions x) (mr_last_observed_at x) (mr_updated_at x))
      <$> resource_of "app-dns" demo_db = Some (mkManagedResource "3" "app-dns" REWRITE_KIND [("domain", JStr "app.example.com"); ("answer", JStr "10.0.0.4")] true "" 1 0 [] [] None 3)) by (vm_compute; reflexivity).
    rewrite Hr in Hall. destruct r. cbn in Hall. injection Hall as -> -> -> -> -> -> -> -> -> -> ->. reflexivity. }
  assert (Hfree : forallb (fun o => negb (bool_decide (op_idempotency_key o = reconcile_key "3" 2)) || is_active o) (db_operations demo_db) = true) by (vm_compute; reflexivity).
  rewrite forallb_forall in Hfree.
  destruct (agreed_change_is_queued demo_host (REGISTRY demo_words) demo_connections false (fun _ _ => []) (fun _ _ => "") "infrastructure.resource.update" working_plant
    (fun _ _ _ => eq_refl) 9 (app_record "10.0.0.5" true) ada "app-dns" None (Some ["spec"]) demo_db saved.2 answer
    [("domain", JStr "app.example.com"); ("answer", JStr "10.0.0.5")] r [(REWRITE_KIND, RECONCILE); (CERTIFICATE_KIND, RECONCILE); (CERTIFICATE_KIND, RENEW)] demo_db_ok Hr) as (op & Hin & Hact & _).
  - rewrite Hr'. reflexivity.
  - rewrite Hr'. reflexivity.
  - rewrite Hr'. reflexivity.
  - reflexivity.
  - rewrite Hr'. cbn. by left.
  - intros o Ho%list_elem_of_In Hkey. specialize (Hfree o Ho). rewrite Hr' in Hkey. cbn in Hkey. rewrite bool_decide_eq_true_2 in Hfree by exact Hkey. exact Hfree.
  - exact H.
  - exists op. split; [exact Hin|exact Hact].
Defined.

Lemma dependents_follow_what_they_resolve_through_witness :
  let moved := [dset "certificate_directory" (JStr "/srv/certs") edge] in
  let advanced := advance_dependents demo_host (REGISTRY demo_words) (fun _ _ => []) "infrastructure.resource.update" 9 moved demo_db in
  advanced.1 = Ok ["site"] /\ advance_dependents demo_host (REGISTRY demo_words) (fun _ _ => []) "infrastructure.resource.update" 10 moved advanced.2 = (Ok [], advanced.2).
Proof.
  intros moved advanced. assert (H : advanced.1 = Ok ["site"]) by (vm_compute; reflexivity). split; [exact H|].
  refine (proj2 (proj2 (proj2 (dependents_follow_what_they_resolve_through demo_host (REGISTRY demo_words) (fun _ _ => []) "infrastructure.resource.update"
    (fun _ _ _ => eq_refl) 9 10 moved demo_db advanced.2 ["site"] (rok_ids _ demo_db_ok) _)))).
  unfold advanced in H |- *. destruct (advance_dependents demo_host (REGISTRY demo_words) (fun _ _ => []) "infrastructure.resource.update" 9 moved demo_db) as [o db']. cbn in H |- *. by rewrite H.
Defined.
