(* ===== verification/StaleWork.v ===== *)
(** A record edited while its reconcile waits: the contract a claim hands out is the record's as it is now
    ([controller.claim_next_operation]), and the operation still names the generation it was asked for at,
    which is what a report is held to ([controller.report_operation]). *)
From stdpp Require Import base gmap strings list pretty.
From Stdlib Require Import Ascii ZArith Lia.
From S2P Require Import Prelude PyStr Json Refusals Security Models Specs Policy AgentAccess Operations Controller PyJson Providers Certificates Declarations.

#[local] Open Scope string_scope.

(** The operation named in an answer. *)
Definition handed (said : dict) : option json := dget "operation" said ≫= attr "id".

(** The generation a contract names. *)
Definition contract_generation (said : dict) : option json := dget "resource" said ≫= attr "generation".

Section Claimed.
Context (host : Site) (plant : Plant).

(** The queue's columns no step of a claim writes. *)
Definition asked_of (o : OperationRequest) : string * string * string * json := (op_id o, op_resource o, op_action o, op_input o).

Definition same_work (db db' : Db) : Prop := db_resources db' = db_resources db /\ map asked_of (db_operations db') = map asked_of (db_operations db).

Lemma same_work_refl db : same_work db db.
Proof. done. Qed.

Lemma same_work_trans a b c : same_work a b -> same_work b c -> same_work a c.
Proof. intros [? ?] [? ?]. split; congruence. Qed.

Lemma same_work_update p f db : (forall o, asked_of (f o) = asked_of o) -> same_work db (set_db_operations (update_where p f (db_operations db)) db).
Proof. intros Hf. split; [done|]. cbn. apply map_update_where. intros. apply Hf. Qed.

Lemma save_operation_work id f db o db' : (forall x, asked_of (f x) = asked_of x) -> save_operation id f db = (o, db') -> same_work db db'.
Proof.
  intros Hf. unfold save_operation, act. destruct (first_where _ _); [|by intros [= _ <-]]. destruct (operation_rules _); intros [= _ <-]; [|done].
  by apply same_work_update.
Qed.

Lemma next_resolvable_work now : forall l db found db', next_resolvable plant now l db = (Ok found, db') ->
  same_work db db' /\ forall o contract, found = Some (o, contract) -> o ∈ l /\ exists s, db_resources s = db_resources db /\ contract_of plant o s = Ok contract.
Proof.
  induction l as [|x l IH]; intros db found db' H; cbn [next_resolvable] in H; [by injection H as <- <-|].
  rewrite (bind_step _ _ _ (contract_of plant x db) db) in H by done. destruct (contract_of plant x db) as [c|e] eqn:Hc.
  - injection H as <- <-. split; [done|]. intros o contract [= <- <-]. split; [by left|by exists db].
  - destruct (unresolvable e); [|done]. apply bind_inv_ok in H as ([] & s & Hs & H). apply save_operation_work in Hs; [|done].
    destruct (IH _ _ _ H) as [Hw Hfound]. split; [by eapply same_work_trans|]. intros o contract Ho. destruct (Hfound o contract Ho) as (Hin & s' & Hs' & Hc').
    split; [by right|]. exists s'. split; [|done]. destruct Hs as [<- _]. done.
Qed.

Lemma dget_dmerge_two k a va b vb d : a <> k -> b <> k -> dget k (dmerge d [(a, va); (b, vb)]) = dget k d.
Proof. intros Ha Hb. unfold dmerge. cbn. by rewrite !dget_dset, !decide_False by done. Qed.

(** What a claim that hands an operation out hands with it. *)
Lemma claim_hands now controller_id lease capabilities db said db' id :
  claim_next_operation plant now controller_id lease capabilities db = (Ok said, db') ->
  handed said = Some (JStr id) -> (forall r s c, pl_contract plant r s = Ok c -> exists v w, c = [("schema_version", v); ("resource", w)]) ->
  same_work db db' /\ exists o s contract, op_id o = id /\ o ∈ db_operations (release_lapsed now db).2 /\ db_resources s = db_resources db /\
    contract_of plant o s = Ok contract /\ dget "resource" said = dget "resource" contract.
Proof.
  intros H Hid Hshape. unfold claim_next_operation in H. apply (proj1 (atomic_ok _ _ _ _)) in H.
  apply bind_inv_ok in H as ([] & s1 & [_ ->]%raise_if_inv & H). apply bind_inv_ok in H as ([] & s2 & [_ ->]%raise_if_inv & H).
  set (db0 := (release_lapsed now db).2) in *. rewrite (bind_step _ _ _ tt db0) in H by done.
  assert (same_work db db0) as Hw0 by (apply same_work_update; intros o; unfold released; by destruct (switched_off db o)).
  apply bind_inv_ok in H as (brakes & s3 & Hb & H). apply held_askers_state in Hb. subst s3.
  rewrite (bind_step _ _ _ (claimable capabilities brakes db0) db0) in H by done. apply bind_inv_ok in H as (found & db1 & Hn & H).
  apply next_resolvable_work in Hn as [Hw1 Hfound]. destruct found as [[o contract]|]; [|by injection H as <- <-].
  destruct (Hfound o contract eq_refl) as (Hin & s & Hs & Hc). apply elem_of_claimable in Hin as (Hin & _).
  apply bind_inv_ok in H as ([] & db2 & Hsave & H). apply save_operation_work in Hsave; [|done]. injection H as <- <-.
  split; [by eapply same_work_trans; [|eapply same_work_trans]|].
  assert (exists v w, contract = [("schema_version", v); ("resource", w)]) as (v & w & ->).
  { unfold contract_of in Hc. destruct (resource_by (op_resource o) s); [by eapply Hshape|done]. }
  exists o, s, [("schema_version", v); ("resource", w)]. unfold handed in Hid.
  rewrite dget_dmerge_two in Hid by done. cbn in Hid. injection Hid as <-. split_and!; [done|done| |done|].
  - rewrite Hs. by destruct Hw0 as [-> _].
  - unfold dmerge. cbn [fold_left fst snd]. by rewrite dget_dset, decide_True.
Qed.
End Claimed.

Section Stale.
Context (host : Site) (providers : Registry) (connections : list Managing) (public_dns : bool).
Context (names_at : Db -> string -> list string) (deploying_label : ManagedResource -> Db -> string) (subject : string) (rest : Plant).
Hypothesis names_of_declarations : forall db db',
  map authored (db_resources db) = map authored (db_resources db') -> names_at db = names_at db'.

Notation site := (site host providers).
Notation plant := (plant providers connections public_dns names_at rest).
Notation save_managed_resource := (save_managed_resource host providers connections public_dns names_at deploying_label subject rest).

Lemma contract_shape r s c : pl_contract plant r s = Ok c -> exists v w, c = [("schema_version", v); ("resource", w)].
Proof. cbn. unfold controller_contract. rewrite outcome_bind_ok. intros (spec & _ & [= <-]). by eexists _, _. Qed.

Lemma contract_says r s c : pl_contract plant r s = Ok c -> contract_generation c = Some (JNum (mr_generation r)).
Proof. cbn. unfold controller_contract. rewrite outcome_bind_ok. by intros (spec & _ & [= <-]). Qed.

Lemma report_refused now id' id report controller_id o db : h_uuid host id' = Some id -> operation_by id db = Some o ->
  attr "generation" (op_input o) <> Some (JNum (cr_observed_generation report)) ->
  exists e, report_operation site plant now id' report controller_id db = (Raise e, db).
Proof.
  intros Hu Ho Hg. unfold report_operation. change (h_uuid site id') with (h_uuid host id'). rewrite Hu.
  rewrite (bind_step _ _ _ (Some o) db) by (unfold gets; by rewrite Ho). unfold raise_if, mbind, M_bind.
  destruct (negb (bool_decide (op_state o = O_CLAIMED))); [by eexists|]. destruct (negb (bool_decide (op_claimed_by o = controller_id))); [by eexists|].
  destruct (match op_lease_expires_at o with Some _ => _ | None => _ end); [by eexists|]. rewrite bool_decide_eq_false_2 by done. by eexists.
Qed.

(** C22: A record edited while its work waits is handed to the controller as it is now, and the operation it
    is handed under still names the generation it was asked for at: a report of the generation the
    contract names is refused, whenever it comes, and changes nothing. *)
Theorem edited_while_queued_cannot_be_reported (now now2 now3 : Z) (sent_command : ResourceCommand) (p : Principal) (key : string)
    (expected : option string) (copied : bool) (sent : option (list string)) (db db1 db2 : Db) (answer said : dict) (r : ManagedResource)
    (o : OperationRequest) (asked_at : Z) (controller_id id' : string) (lease : Z) (capabilities : list (string * string)) (report : ControllerReport) :
  let command := written_over r sent_command sent in
  resources_ok db -> operations_ok db -> resource_of key db = Some r ->
  o ∈ db_operations db -> op_resource o = mr_id r -> attr "generation" (op_input o) = Some (JNum asked_at) -> (asked_at <= mr_generation r)%Z ->
  rc_enabled command = true ->
  (forall validated, validate_spec providers (rc_kind command) (rc_spec command) = Ok validated -> moved_by (Some r) command validated = true) ->
  save_managed_resource now sent_command p (Some key) expected copied sent db = (Ok answer, db1) ->
  claim_next_operation plant now2 controller_id lease capabilities db1 = (Ok said, db2) -> handed said = Some (JStr (op_id o)) ->
  h_uuid host id' = Some (op_id o) -> contract_generation said = Some (JNum (cr_observed_generation report)) ->
  (asked_at < cr_observed_generation report)%Z /\ exists e, report_operation site plant now3 id' report controller_id db2 = (Raise e, db2).
Proof.
  intros command Hr Ho Hkey Hin Hres Hasked Hle Hon Hmoved Hsave Hclaim Hhand Hu Hgen.
  pose proof (save_operations_ok _ _ _ _ _ _ _ _ names_of_declarations _ _ _ _ _ _ _ _ _ _ Hr Ho Hsave) as Ho1.
  destruct (saved_generation _ _ _ _ _ _ _ _ names_of_declarations _ _ _ _ _ _ _ _ _ _ _ Hr Hkey Hsave Hon Hmoved) as (Hr1 & (row & Hrow & Hrid & Hrg) & Hkeep).
  specialize (Hkeep _ Hin).
  destruct (claim_hands _ _ _ _ _ _ _ _ _ Hclaim Hhand contract_shape) as ([Hres2 Hwork] & x & s & contract & Hxid & Hx & Hs & Hc & Hsaid).
  assert (asked_of x = asked_of o) as Hxo.
  { cbn in Hx. apply elem_of_update_where in Hx as (y & Hy & ->).
    assert (asked_of (if lease_lapsed now2 y then released now2 db1 y else y) = asked_of y) as Hrel
      by (destruct (lease_lapsed now2 y); [unfold released; by destruct (switched_off db1 y)|done]).
    rewrite Hrel. assert (op_id y = op_id o) as Hyid by (rewrite <- Hxid; unfold asked_of in Hrel; congruence).
    by rewrite (unique_by op_id _ _ _ (opk_ids _ Ho1) Hy Hkeep Hyid). }
  unfold asked_of in Hxo. injection Hxo as _ Hxres _ _.
  assert (cr_observed_generation report = mr_generation row) as Hcr.
  { unfold contract_of in Hc. rewrite Hxres, Hres, <- Hrid in Hc. rewrite (resource_by_in (mr_id row) s row) in Hc; [|rewrite Hs; apply (rok_ids _ Hr1)|by rewrite Hs|done].
    apply contract_says in Hc. unfold contract_generation in Hc, Hgen. rewrite Hsaid, Hc in Hgen. by injection Hgen as ->. }
  split; [lia|].
  assert (exists y, operation_by (op_id o) db2 = Some y /\ op_input y = op_input o) as (y & Hy & Hinput).
  { assert (asked_of o ∈ map asked_of (db_operations db2)) as (z & Hz & Hzin)%list_elem_of_fmap by (rewrite Hwork; by apply list_elem_of_fmap_2).
    unfold operation_by. destruct (first_where _ _) as [y|] eqn:Hf.
    - exists y. split; [done|]. apply first_where_some in Hf as [Hy Hyid%bool_decide_eq_true].
      assert (asked_of y ∈ map asked_of (db_operations db1)) as (w & Hw & Hwin)%list_elem_of_fmap by (rewrite <- Hwork; by apply list_elem_of_fmap_2).
      unfold asked_of in Hw. injection Hw as Hwid _ _ ->. assert (op_id w = op_id o) as Hwo by congruence.
      by rewrite (unique_by op_id _ _ _ (opk_ids _ Ho1) Hwin Hkeep Hwo).
    - pose proof (first_where_none _ _ Hf _ Hzin) as Hn. cbn in Hn. apply bool_decide_eq_false in Hn. unfold asked_of in Hz. congruence. }
  eapply report_refused; [done|exact Hy|]. rewrite Hinput, Hasked. intros [= Heq]. lia.
Qed.
End Stale.

Lemma found_queued id db o : operation_by id db = Some o -> o ∈ db_operations db.
Proof. intros Ho. by apply first_where_some in Ho as [Hin _]. Qed.

(** An edit to the record of [demo_db] whose reconcile waits: claimed, its contract is of generation 2 and
    the operation of generation 1. *)
Notation demo_plants := (plant (REGISTRY demo_words) demo_connections false (fun _ _ => []) working_plant).
Notation demo_report := (mkControllerReport true 2 [] [] "Done.").

Lemma edited_while_queued_cannot_be_reported_witness :
  exists answer said db1 db2 e,
    demo_save 9 (app_record "10.0.0.5" true) ada (Some "app-dns") None false (Some ["spec"]) demo_db = (Ok answer, db1) /\
    claim_next_operation demo_plants 20 "controller" 60 [(REWRITE_KIND, RECONCILE)] db1 = (Ok said, db2) /\
    report_operation (site demo_host (REGISTRY demo_words)) demo_plants 30 "4" demo_report "controller" db2 = (Raise e, db2).
Proof.
  assert (Hrun : match demo_save 9 (app_record "10.0.0.5" true) ada (Some "app-dns") None false (Some ["spec"]) demo_db with
                 | (Ok _, db1) => match claim_next_operation demo_plants 20 "controller" 60 [(REWRITE_KIND, RECONCILE)] db1 with
                                  | (Ok said, _) => Some (handed said, contract_generation said)
                                  | _ => None end
                 | _ => None end = Some (Some (JStr "4"), Some (JNum 2))) by (vm_compute; reflexivity).
  assert (Hrec : (fun x => (mr_id x, mr_key x, mr_kind x, mr_spec x, mr_enabled x, mr_generation x)) <$> resource_of "app-dns" demo_db
    = Some ("3", "app-dns", REWRITE_KIND, [("domain", JStr "app.example.com"); ("answer", JStr "10.0.0.4")], true, 1%Z)) by (vm_compute; reflexivity).
  assert (Hop : (fun x => (op_id x, op_resource x, attr "generation" (op_input x))) <$> operation_by "4" demo_db = Some ("4", "3", Some (JNum 1))) by (vm_compute; reflexivity).
  destruct (demo_save 9 _ _ _ _ _ _ _) as [[answer|] db1] eqn:Hsave; [|discriminate Hrun].
  destruct (claim_next_operation _ _ _ _ _ _) as [[said|] db2] eqn:Hclaim; [|discriminate Hrun]. injection Hrun as Hhand Hgen.
  destruct (resource_of "app-dns" demo_db) as [r|] eqn:Hr; [|discriminate Hrec]. injection Hrec as Hid Hkey Hkind Hspec Hon Hg.
  destruct (operation_by "4" demo_db) as [o|] eqn:Ho; [|discriminate Hop]. injection Hop as Hoid Hres Hasked.
  pose proof (found_queued _ _ _ Ho) as Hin.
  destruct (edited_while_queued_cannot_be_reported demo_host (REGISTRY demo_words) demo_connections false (fun _ _ => []) (fun _ _ => "") "infrastructure.resource.update" working_plant
    (fun _ _ _ => eq_refl) 9 20 30 (app_record "10.0.0.5" true) ada "app-dns" None false (Some ["spec"]) demo_db db1 db2 answer said r o 1
    "controller" "4" 60 [(REWRITE_KIND, RECONCILE)] demo_report demo_db_ok demo_queue_ok Hr Hin) as (_ & e & He).
  - congruence.
  - exact Hasked.
  - rewrite Hg. reflexivity.
  - exact Hon.
  - intros validated Hv. assert (Hvalid : validate_spec (REGISTRY demo_words) REWRITE_KIND [("domain", JStr "app.example.com"); ("answer", JStr "10.0.0.5")]
      = Ok [("domain", JStr "app.example.com"); ("answer", JStr "10.0.0.5")]) by (vm_compute; reflexivity).
    assert (Hwritten : written_over r (app_record "10.0.0.5" true) (Some ["spec"])
      = mkResourceCommand "app-dns" REWRITE_KIND [("domain", JStr "app.example.com"); ("answer", JStr "10.0.0.5")] true).
    { unfold written_over, as_sent. rewrite Hkey, Hkind, Hon. reflexivity. }
    rewrite Hwritten in Hv |- *. cbn [rc_kind rc_spec] in Hv. rewrite Hvalid in Hv. injection Hv as <-. unfold moved_by. rewrite Hkey, Hkind, Hspec, Hon. reflexivity.
  - exact Hsave.
  - exact Hclaim.
  - rewrite Hoid. exact Hhand.
  - rewrite Hoid. reflexivity.
  - exact Hgen.
  - exists answer, said, db1, db2, e. split; [reflexivity|]. split; [exact Hclaim|exact He].
Defined.
