(* ===== verification/Inventory.v ===== *)
(** What a controller's sweep leaves ([inventory.py], [reading_parts.py]): each kind's last records, the
    declarations found as they were declared, those that differ and how, and the containers that are gone.

    [observations] are the readings a deployment declares with their schemas, [provider_parts] the parts a
    provider's kind is read in, [digest] is [sha256]'s hexadecimal text. *)
From stdpp Require Import base gmap strings list pretty.
From Stdlib Require Import Ascii ZArith Lia.
From S2P Require Import Prelude PyStr Json Refusals Security Models IpAddress Specs Operations Controller PyJson Names Providers Certificates Containers Declarations.

#[local] Open Scope string_scope.

(** * The rows *)

(** [ProviderInventory] *)
Record Reading : Type := mkReading {
  rd_kind : string;
  rd_records : list dict;
  rd_reachable : bool;
  rd_connected : bool;
  rd_error : string;
  rd_refusal : string;
  rd_refused_parts : list dict;
  rd_observed_at : option Z;
  rd_controller_id : string;
  rd_updated_at : Z;
}.

(** [NotManaged] *)
Record NotManaged : Type := mkNotManaged { nm_kind : string; nm_token : string; nm_label : string; nm_actor : string }.

(** The database with the two tables the sweep and adoption keep beside the records. *)
Record Estate : Type := mkEstate { es_db : Db; es_readings : list Reading; es_not_managed : list NotManaged }.

Definition set_es_readings (v : list Reading) (e : Estate) : Estate := mkEstate (es_db e) v (es_not_managed e).
Definition set_es_not_managed (v : list NotManaged) (e : Estate) : Estate := mkEstate (es_db e) (es_readings e) v.

(** Code over [Db] alone. *)
Definition in_db {A} (m : M exn Db A) : M exn Estate A := fun e => let '(o, db) := m (es_db e) in (o, mkEstate db (es_readings e) (es_not_managed e)).

(** * What a controller reports *)

(** The contract's [RefusedPart] *)
Record RefusedPart : Type := mkRefusedPart {
  rp_part : string; rp_refusal : string; rp_reason : string; rp_scope : string; rp_connection_ref : string; rp_address : option string }.

(** The contract's [KindReport] *)
Record KindReport : Type := mkKindReport {
  kr_ok : bool; kr_connected : bool; kr_records : list dict; kr_error : string; kr_refusal : string; kr_refused_parts : list RefusedPart; kr_carried : bool }.

(** A sweep: a JSON object, whose names are each given once. *)
Notation Sweep := (list (string * KindReport)).

(** [ObservationSpec], as far as storing a report goes: [ob_clean] keeps what its schema admits and counts
    the rest. *)
Record Observation : Type := mkObservation {
  ob_label : string; ob_parts : list string; ob_clean : list dict -> list dict * nat; ob_from_last : option (list dict -> list dict -> list dict) }.

(** [text[:n]] *)
Definition clip (n : nat) (text : string) : string := String.substring 0 n text.

(** [_address(value)] *)
Definition address_of (value : option string) : string :=
  match ip_address (strip (match value with Some v => v | None => "" end)) with Some a => ip_str a | None => "" end.

(** One entry of [clean_refused_parts(kind, reported)] as stored. *)
Definition clean_part (entry : RefusedPart) : dict :=
  ([("part", JStr (rp_part entry)); ("refusal", JStr (rp_refusal entry)); ("reason", JStr (clip 300 (rp_reason entry)));
    ("scope", JStr (clip 253 (lower (strip (rp_scope entry))))); ("connection_ref", JStr (clip 160 (rp_connection_ref entry)))] ++
   (if decide (address_of (rp_address entry) = "") then [] else [("address", JStr (address_of (rp_address entry)))]))%list.

Section Inventory.
Variables (providers : Registry) (observations : list (string * Observation)) (provider_parts : string -> list string) (digest : string -> string).

(** [OBSERVATIONS.get(kind)] *)
Definition observation_at (kind : string) : option Observation := snd <$> first_where (fun ko => bool_decide (ko.1 = kind)) observations.

(** The names of [parts_of(kind)] *)
Definition parts_of (kind : string) : list string :=
  "" :: match observation_at kind with Some o => ob_parts o | None => provider_parts kind end.

(** [clean_refused_parts(kind, reported)] *)
Definition clean_refused_parts (kind : string) (reported : list RefusedPart) : list dict :=
  map clean_part (List.filter (fun entry => among (rp_part entry) (parts_of kind)) reported).

(** * What a record is known by *)

(** [service_hostnames(kind, spec)] *)
Definition service_hostnames (kind : string) (spec : dict) : outcome exn (list string) :=
  provider ← provider_named providers kind;
  match pr_hostnames provider with
  | None => Ok []
  | Some hostnames =>
      names ← read_spec spec (fun d => found ← hostnames d; Ok (sorted (map normalized_hostname found)));
      Ok (match names with Some l => l | None => [] end)
  end.

(** [record_identity(kind, spec)] *)
Definition record_identity (kind : string) (spec : dict) : outcome exn (list string) :=
  provider ← provider_named providers kind;
  match pr_identity provider with
  | Some identity => known ← read_spec spec identity; Ok (match known with Some l => l | None => [] end)
  | None => service_hostnames kind spec
  end.

(** [record_token(kind, identity)] *)
Definition unit_separator : string := String "031"%char "".

Definition record_token (kind : string) (identity : list string) : string := clip 16 (digest (join unit_separator (kind :: identity))).

(** * Storing a report *)

Definition reading_at (kind : string) (rows : list Reading) : option Reading := first_where (fun r => bool_decide (rd_kind r = kind)) rows.

Definition update_reading (kind : string) (f : Reading -> Reading) (rows : list Reading) : list Reading :=
  update_where (fun r => bool_decide (rd_kind r = kind)) f rows.

(** [_record_carried(kind, report, controller_id, observed_at)] *)
Definition record_carried (now : Z) (kind : string) (report : KindReport) (controller_id : string) : M exn Estate bool :=
  match clean_refused_parts kind (kr_refused_parts report) with
  | [] => mret false
  | parts =>
      _ ← modify (fun e => set_es_readings (update_reading kind (fun r =>
            mkReading (rd_kind r) (rd_records r) (rd_reachable r) (rd_connected r) (rd_error r) (rd_refusal r) parts (rd_observed_at r) controller_id now)
            (es_readings e)) e);
      mret true
  end.

(** [_schema_records(kind, records, error)] *)
Definition schema_records (kind : string) (records : list dict) (error : string) : list dict * string :=
  match observation_at kind with
  | None => (records, error)
  | Some o =>
      let '(kept, refused) := ob_clean o records in
      (kept, if (0 <? refused)%nat && bool_decide (error = "")
             then counted refused "record" "records" +:+ " did not match the " +:+ kind +:+ " schema." else error)
  end.

(** [_from_last(kind, records)] *)
Definition from_last (kind : string) (records : list dict) (rows : list Reading) : list dict :=
  match observation_at kind ≫= ob_from_last with
  | None => records
  | Some f => f (match reading_at kind rows with Some r => rd_records r | None => [] end) records
  end.

(** [_last_records(kind)] *)
Definition last_records (kind : string) (rows : list Reading) : option (list dict) :=
  match provider_at providers kind ≫= pr_from_record with None => None | Some _ => rd_records <$> reading_at kind rows end.

(** The records as [_record_change] compares them: canonical texts, which are the specs up to the order of
    their names. *)
Fixpoint canonical_specs (kind : string) (records : list dict) : outcome exn (list json) :=
  match records with
  | [] => Ok []
  | record :: rest =>
      spec ← record_spec providers kind record;
      more ← canonical_specs kind rest;
      Ok (match spec with Some d => normal (JObj d) :: more | None => more end)
  end.

Definition not_among (l : list json) (x : json) : bool := negb (bool_decide (x ∈ l)).

Definition READING_AUDIT_TYPE := "Reading".

(** [_record_change(row, before, after, controller_id)] *)
Definition record_change (now : Z) (kind : string) (before after : list dict) (controller_id : string) : M exn Db unit :=
  match provider_at providers kind ≫= pr_from_record with
  | None => mret tt
  | Some _ =>
      old ← lift (canonical_specs kind before);
      new ← lift (canonical_specs kind after);
      let added := length (remove_dups (List.filter (not_among old) new)) in
      let gone := length (remove_dups (List.filter (not_among new) old)) in
      if (added =? 0)%nat && (gone =? 0)%nat then mret tt
      else
        let parts := ((if (0 <? added)%nat then [counted added "record new or changed" "records new or changed"] else []) ++
                      (if (0 <? gone)%nat then [counted gone "record gone" "records gone"] else []))%list in
        _ ← record_event false now (mkEvent "observed" READING_AUDIT_TYPE kind ""
              (registry_label providers (fun k => ob_label <$> observation_at k) kind +:+ " changed: " +:+ join ", " parts)
              [("kind", JStr kind); ("controller_id", JStr controller_id); ("new", JNum (Z.of_nat added)); ("gone", JNum (Z.of_nat gone))] None);
        mret tt
  end.

(** The row a report leaves, over the one there was. *)
Definition reported_row (now : Z) (kind : string) (report : KindReport) (controller_id : string) (records : list dict) (error : string)
    (was : option Reading) : Reading :=
  let reached := kr_ok report in
  mkReading kind (if reached then records else match was with Some r => rd_records r | None => [] end)
    reached (kr_connected report) (clip 500 error) (if reached then "" else kr_refusal report)
    (if reached then clean_refused_parts kind (kr_refused_parts report) else [])
    (if reached then Some now else match was with Some r => rd_observed_at r | None => None end) controller_id now.

(** [ProviderInventory.objects.update_or_create(kind=kind, ...)] *)
Definition store_reading (kind : string) (f : option Reading -> Reading) (rows : list Reading) : list Reading :=
  match reading_at kind rows with
  | Some r => update_reading kind (fun r => f (Some r)) rows
  | None => (rows ++ [f None])%list
  end.

(** [_record_report(kind, report, controller_id, observed_at)] *)
Definition record_report (now : Z) (kind : string) (report : KindReport) (controller_id : string) : M exn Estate unit :=
  let '(kept, error) := schema_records kind (kr_records report) (kr_error report) in
  rows ← gets es_readings;
  let records := if kr_ok report then from_last kind kept rows else kept in
  let before := if kr_ok report then last_records kind rows else None in
  _ ← modify (fun e => set_es_readings (store_reading kind (reported_row now kind report controller_id records error) (es_readings e)) e);
  match before with
  | None => mret tt
  | Some before => in_db (record_change now kind before records controller_id)
  end.

(** [sorted(payload.items())], by the names, which are each given once. *)
Definition by_kind (payload : Sweep) : Sweep := order_by fst payload.

Definition takes_kind (kind : string) : bool := is_some (provider_at providers kind) || is_some (observation_at kind).

(** [record_inventory(payload, principal=..., controller_id=...)]: the kinds stored.  What it says of each
    kind's sight ([_summary]) is left out. *)
Definition record_kind (now : Z) (controller_id : string) (stored : list string) (kr : string * KindReport) : M exn Estate (list string) :=
  let '(kind, report) := kr in
  if negb (takes_kind kind) then mret stored
  else if kr_carried report then
    (held ← record_carried now kind report controller_id;
     mret (if held : bool then (stored ++ [kind])%list else stored))
  else
    (_ ← record_report now kind report controller_id;
     mret (stored ++ [kind])%list).

Definition record_inventory (now : Z) (payload : Sweep) (p : Principal) (controller_id : string) : M exn Estate (list string) :=
  atomic (
    _ ← (match require p MANAGE_INFRASTRUCTURE with Some e => raise e | None => mret tt end);
    fold_each (record_kind now controller_id) [] (by_kind payload)).

(** * Comparing a declaration with what is live *)

(** [_canonical_document(text)] *)
Definition canonical_document (text : string) : outcome exn string :=
  match strip text with
  | String c r =>
      if mem_char c "{[" then
        match json_loads (String c r) with
        | Ok parsed => Ok (dumps parsed)
        | Raise e => if is_value_error e then Ok text else Raise e
        end
      else Ok text
  | "" => Ok text
  end.

(** [_text(value)] *)
Definition text_value (value : json) : outcome exn string :=
  let text := py_str value in canonical_document (if mem_char cr text then settle_text false text else text).

(** One field that differs: its name, what was asked for and what was found. *)
Notation Difference := (string * string * string)%type.

(** [_differences(kind, declared, found)], of the fields still to be compared. *)
Fixpoint differing (unobservable : list string) (declared found : dict) : outcome exn (list Difference) :=
  match declared with
  | [] => Ok []
  | (field, value) :: rest =>
      here ← (if among field unobservable then Ok []
              else match dget field found with
                   | None => Ok []
                   | Some live =>
                       a ← text_value live; b ← text_value value;
                       Ok (if bool_decide (a = b) then [] else [(field, py_str value, py_str live)])
                   end);
      more ← differing unobservable rest found;
      Ok (here ++ more)%list
  end.

Definition differences (kind : string) (declared found : dict) : outcome exn (list Difference) :=
  provider ← provider_named providers kind; differing (pr_unobservable_fields provider) declared found.

(** [field_label(name, title)] *)
Definition sentence_case (text : string) : string := match text with String c r => String (upper_char c) r | "" => "" end.

Definition field_label (name : string) (title : option string) : string :=
  str_or (match title with Some t => t | None => "" end)
    (sentence_case (join " " (map (fun w => if among w ACRONYMS then upper w else w) (words (replace_char "_"%char " " (replace_char "."%char " " name)))))).

(** What two long values are compared by: the top level of the two JSON objects they are, or none. *)
Definition as_objects (asked live : string) : outcome exn (option (dict * dict)) :=
  match json_loads asked, json_loads live with
  | Ok (JObj wanted), Ok (JObj found) => Ok (Some (wanted, found))
  | Ok _, Ok _ => Ok None
  | Ok _, Raise e | Raise e, _ => if is_value_error e then Ok None else Raise e
  end.

(** [_difference_phrase(field, asked, live)] *)
Definition QUOTABLE : nat := 120.

Definition difference_phrase (field asked live : string) : outcome exn string :=
  if ((String.length asked <=? QUOTABLE) && (String.length live <=? QUOTABLE))%nat
  then Ok (field +:+ " is now " +:+ ended (str_or live "blank") +:+ " HQ set it to " +:+ ended (str_or asked "blank"))
  else
    both ← as_objects asked live;
    match both with
    | Some (wanted, found) =>
        let added := minus_names (keys found) (keys wanted) in
        let missing := minus_names (keys wanted) (keys found) in
        let changed := sorted (List.filter (fun k => match dget k found, dget k wanted with Some a, Some b => negb (py_eq a b) | _, _ => false end)
                         (remove_dups (keys found))) in
        let parts := (map (fun k => "+ " +:+ k) added ++ map (fun k => "- " +:+ k) missing ++ map (fun k => k +:+ " changed") changed)%list in
        Ok (ended (field +:+ " differs from HQ's copy: " +:+ str_or (join ", " parts) "layout only"))
    | None =>
        Ok (field +:+ " differs from HQ's copy (" +:+ pretty (String.length live) +:+ " characters live, " +:+ pretty (String.length asked) +:+ " in HQ).")
    end.

Definition condition (type reason message : string) : json :=
  JObj [("type", JStr type); ("status", JBool true); ("reason", JStr reason); ("message", JStr message)].

(** [_difference_condition(kind, drift)] *)
Definition difference_condition (kind : string) (drift : list Difference) : outcome exn json :=
  provider ← provider_named providers kind;
  let reported := List.filter (fun d : Difference => among d.1.1 (pr_reported_fields provider)) drift in
  if negb (bool_decide (reported = [])) && (length reported =? length drift)%nat
  then Ok (condition "Degraded" "Reported" (join " " (map (fun d : Difference => ended d.2) reported)))
  else
    phrases ← each_of (fun d : Difference =>
      difference_phrase (field_label d.1.1 (snd <$> first_where (fun ft => bool_decide (ft.1 = d.1.1)) (pr_field_titles provider))) d.1.2 d.2) drift;
    Ok (condition "Drifted" "Drifted" (join " " phrases)).

Definition MATCHES := "Matches HQ's config.".

(** The live spec of each identity: of two records known by the same one, the later. *)
Fixpoint live_from (kind : string) (records : list dict) (live : list (list string * dict)) : outcome exn (list (list string * dict)) :=
  match records with
  | [] => Ok live
  | record :: rest =>
      spec ← record_spec providers kind record;
      match spec with
      | None => live_from kind rest live
      | Some d => identity ← record_identity kind d; live_from kind rest ((identity, d) :: live)
      end
  end.

(** [_live_specs(kind, records)] *)
Definition live_specs (kind : string) (records : list dict) : outcome exn (list (list string * dict)) := live_from kind records [].

Definition live_at (identity : list string) (live : list (list string * dict)) : option dict :=
  snd <$> first_where (fun x => bool_decide (x.1 = identity)) live.

(** What [_observe(resource, found, seen)] saves, and whether it does. *)
Definition observed_row (now : Z) (found : dict) (r : ManagedResource) : ManagedResource :=
  set_mr_conditions (stamped now (mr_conditions r) [condition "Ready" "Observed" MATCHES])
    (set_mr_status found (set_mr_last_observed_at (Some now) (set_mr_observed_generation (mr_generation r) r))).

Definition seen_already (now : Z) (found : dict) (r : ManagedResource) : bool :=
  (mr_observed_generation r =? mr_generation r)%Z && py_eq (JObj (mr_status r)) (JObj found) &&
  py_eq (JList (mr_conditions r)) (JList (stamped now (mr_conditions r) [condition "Ready" "Observed" MATCHES])).

(** One declaration of a kind that was read: what is done with its row, and whether the row only takes the moment. *)
Inductive Sighting : Type :=
| Absent
| Differs (conditions : list json)
| Confirmed (found : dict) (unchanged : bool).

Definition sighting (now : Z) (kind : string) (live : list (list string * dict)) (r : ManagedResource) : outcome exn Sighting :=
  identity ← record_identity kind (mr_spec r);
  match live_at identity live with
  | None => Ok Absent
  | Some found =>
      drift ← differences kind (mr_spec r) found;
      match drift with
      | [] => Ok (Confirmed found (seen_already now found r))
      | _ => said ← difference_condition kind drift; Ok (Differs (stamped now (mr_conditions r) [said]))
      end
  end.

(** [_record_drift(resource, drift)] and [_observe(resource, found, seen)], on the row itself. *)
Definition sighted_row (now : Z) (s : Sighting) (r : ManagedResource) : ManagedResource :=
  match s with
  | Absent => r
  | Differs conditions => if py_eq (JList conditions) (JList (mr_conditions r)) then r else set_mr_conditions conditions r
  | Confirmed found unchanged => if unchanged then r else observed_row now found r
  end.

(** One turn of the loop over a kind's declarations. *)
Definition confirm_one (now : Z) (kind : string) (live : list (list string * dict)) (acc : nat * list string) (r : ManagedResource) : M exn Db (nat * list string) :=
  seen ← lift (sighting now kind live r);
  let '(confirmed, unchanged) := acc in
  _ ← (match seen with
       | Differs conditions => if py_eq (JList conditions) (JList (mr_conditions r)) then mret tt else save_resource (mr_id r) (sighted_row now seen)
       | Confirmed _ false => save_resource (mr_id r) (sighted_row now seen)
       | _ => mret tt
       end);
  mret (match seen with
        | Confirmed _ true => (S confirmed, unchanged ++ [mr_id r])%list
        | Confirmed _ false => (S confirmed, unchanged)
        | _ => (confirmed, unchanged)
        end).

Definition confirm_kind (now : Z) (acc : nat * list string) (kr : string * KindReport) : M exn Db (nat * list string) :=
  let '(kind, report) := kr in
  if negb (is_some (provider_at providers kind)) || negb (kr_ok report) then mret acc
  else
    live ← lift (live_specs kind (kr_records report));
    if bool_decide (live = []) then mret acc
    else
      declarations ← gets (fun db => order_by mr_key (rows_where (fun r => bool_decide (mr_kind r = kind) && mr_enabled r) (db_resources db)));
      fold_each (confirm_one now kind live) acc declarations.

(** [confirm_observed(payload)] *)
Definition confirm_observed (now : Z) (payload : Sweep) : M exn Db nat :=
  done ← fold_each (confirm_kind now) (0%nat, []) payload;
  let '(confirmed, unchanged) := (done : nat * list string) in
  _ ← modify (fun db => set_db_resources (update_where (fun r => among (mr_id r) unchanged) (set_mr_last_observed_at (Some now)) (db_resources db)) db);
  mret confirmed.

(** * What is gone *)

(** [resource.delete()] and a queryset's: an operation keeps the record it is of ([on_delete=PROTECT]), and
    where one of the rows has any, none goes. *)
Definition PROTECTED : exn :=
  IntegrityError "Cannot delete some instances of model 'ManagedResource' because they are referenced through protected foreign keys: 'OperationRequest.resource'.".

Definition kept_by_operations (db : Db) (r : ManagedResource) : bool := existsb (fun o => bool_decide (op_resource o = mr_id r)) (db_operations db).

Definition delete_resources (p : ManagedResource -> bool) : M exn Db unit :=
  act (fun db =>
    if existsb (kept_by_operations db) (rows_where p (db_resources db)) then (Raise PROTECTED, db)
    else (Ok tt, set_db_resources (delete_where p (db_resources db)) db)).

(** [identity[0]] *)
Definition first_of (identity : list string) : outcome exn string :=
  match identity with x :: _ => Ok x | [] => Raise (OtherError "IndexError" "tuple index out of range") end.

(** Whether a listing of these identities says a container is gone. *)
Definition departed (listed : list (list string)) (hosts : list string) (r : ManagedResource) : outcome exn bool :=
  identity ← record_identity CONTAINER_KIND (mr_spec r);
  host ← first_of identity;
  Ok (negb (negb (among host hosts) || bool_decide (identity ∈ listed) || flag_of "on_demand" (mr_spec r))).

Definition retire_one (listed : list (list string)) (hosts : list string) (retired : list string) (r : ManagedResource) : M exn Db (list string) :=
  gone ← lift (departed listed hosts r);
  if gone : bool then
    (_ ← delete_resources (fun x => bool_decide (mr_id x = mr_id r)); mret (retired ++ [mr_key r])%list)
  else mret retired.

Definition report_of (kind : string) (payload : Sweep) : option KindReport := snd <$> first_where (fun kr => bool_decide (kr.1 = kind)) payload.

(** The identities of a listing HQ can read whole, and none of one it cannot. *)
Fixpoint listed_identities (records : list dict) : outcome exn (option (list (list string))) :=
  match records with
  | [] => Ok (Some [])
  | record :: rest =>
      spec ← record_spec providers CONTAINER_KIND record;
      more ← listed_identities rest;
      match spec, more with
      | Some d, Some l => identity ← record_identity CONTAINER_KIND d; Ok (Some (identity :: l))
      | _, _ => Ok None
      end
  end.

(** [retire_departed(payload)] *)
Definition retire_departed (payload : Sweep) : M exn Db (list string) :=
  match report_of CONTAINER_KIND payload with
  | None => mret []
  | Some report =>
      if negb (kr_ok report) || negb (bool_decide (kr_refused_parts report = [])) || bool_decide (kr_records report = []) then mret []
      else
        listing ← lift (listed_identities (kr_records report));
        match (listing : option (list (list string))) with
        | None => mret []
        | Some listed =>
            hosts ← lift (each_of first_of listed);
            containers ← gets (fun db => order_by mr_key (rows_where (fun r => bool_decide (mr_kind r = CONTAINER_KIND)) (db_resources db)));
            fold_each (retire_one listed hosts) [] containers
        end
  end.

(** * What was found live *)

(** [_joined_kinds()] *)
Definition joined_kind (kind : string) : bool :=
  is_some (observation_at kind) || is_some (provider_at providers kind ≫= pr_from_record) || bool_decide (kind = CONTAINER_KIND).

(** [inventory_records(kind)] *)
Definition inventory_records (kind : string) (e : Estate) : list dict :=
  if joined_kind kind
  then concat (map rd_records (rows_where (fun r => bool_decide (rd_kind r = kind) && rd_connected r && rd_reachable r) (es_readings e)))
  else [].

Fixpoint live_among (kind : string) (identity : list string) (records : list dict) : outcome exn (option dict) :=
  match records with
  | [] => Ok None
  | record :: rest =>
      found ← record_spec providers kind record;
      match found with
      | None => live_among kind identity rest
      | Some d =>
          known ← record_identity kind d;
          if bool_decide (known = identity) then Ok (Some d) else live_among kind identity rest
      end
  end.

(** [live_spec(kind, spec)] *)
Definition live_spec (kind : string) (spec : dict) (e : Estate) : outcome exn (option dict) :=
  identity ← record_identity kind spec; live_among kind identity (inventory_records kind e).

(** [_is_record(kind, record, identity)] *)
Definition is_record (kind : string) (record : dict) (identity : list string) : outcome exn bool :=
  found ← record_spec providers kind record;
  match found with
  | None => Ok false
  | Some d => known ← record_identity kind d; Ok (bool_decide (known = identity))
  end.

Fixpoint not_record (kind : string) (identity : list string) (records : list dict) : outcome exn (list dict) :=
  match records with
  | [] => Ok []
  | record :: rest =>
      same ← is_record kind record identity;
      more ← not_record kind identity rest;
      Ok (if same : bool then more else record :: more)
  end.

(** [strike_removed(kind, spec)] *)
Definition strike_removed (kind : string) (spec : dict) : M exn Estate unit :=
  identity ← lift (record_identity kind spec);
  rows ← gets es_readings;
  match identity, reading_at kind rows with
  | _ :: _, Some snapshot =>
      kept ← lift (not_record kind identity (rd_records snapshot));
      if (length kept =? length (rd_records snapshot))%nat then mret tt
      else modify (fun e => set_es_readings (update_reading kind (fun r =>
             mkReading (rd_kind r) kept (rd_reachable r) (rd_connected r) (rd_error r) (rd_refusal r) (rd_refused_parts r) (rd_observed_at r) (rd_controller_id r) (rd_updated_at r))
             (es_readings e)) e)
  | _, _ => mret tt
  end.

(** * What the sweep finds as declared, and what it does not *)

Lemma bind_ok {E S A B} (m : M E S A) (f : A -> M E S B) s b s' : (m ≫= f) s = (Ok b, s') -> exists a s1, m s = (Ok a, s1) /\ f a s1 = (Ok b, s').
Proof. apply bind_inv_ok. Qed.

Lemma sighted_kind now s r : mr_kind (sighted_row now s r) = mr_kind r /\ mr_id (sighted_row now s r) = mr_id r.
Proof. destruct s as [|c|f u]; cbn; [done|by destruct (py_eq _ _)|by destruct u]. Qed.

Lemma update_where_unique {A} (key : A -> string) f (l : list A) r : NoDup (map key l) -> r ∈ l -> f r = r ->
  update_where (fun x => bool_decide (key x = key r)) f l = l.
Proof.
  intros Hnd Hr Hf. unfold update_where. rewrite <- (map_id l) at 2. apply map_ext_in. intros x Hx%list_elem_of_In.
  case_bool_decide as Hk; [|done]. by rewrite (unique_by key _ _ _ Hnd Hx Hr Hk).
Qed.

Lemma save_resource_ok id f db a db' : save_resource id f db = (Ok a, db') ->
  db' = set_db_resources (update_where (fun r => bool_decide (mr_id r = id)) f (db_resources db)) db.
Proof. unfold save_resource, act. destruct (resource_by id db); by intros [= _ <-]. Qed.

(** One turn writes one row. *)
Lemma confirm_one_ok now kind live acc r db acc' db' :
  NoDup (map mr_id (db_resources db)) -> r ∈ db_resources db -> confirm_one now kind live acc r db = (Ok acc', db') ->
  exists s, sighting now kind live r = Ok s /\
    db' = set_db_resources (update_where (fun x => bool_decide (mr_id x = mr_id r)) (sighted_row now s) (db_resources db)) db /\
    acc' = match s with Confirmed _ true => (S acc.1, acc.2 ++ [mr_id r])%list | Confirmed _ false => (S acc.1, acc.2) | _ => acc end.
Proof.
  intros Hnd Hr H. unfold confirm_one in H. apply bind_ok in H as (s & s1 & Hs & H). unfold lift in Hs. injection Hs as Hs <-.
  exists s. split; [done|]. destruct acc as [n u]. apply bind_ok in H as ([] & s2 & Hw & H). injection H as <- <-.
  assert (forall d : Db, d = set_db_resources (db_resources d) d) as Hself by (by intros []).
  assert (sighted_row now s r = r -> s2 = db -> s2 = set_db_resources (update_where (fun x => bool_decide (mr_id x = mr_id r)) (sighted_row now s) (db_resources db)) db) as Hsame.
  { intros Hrow ->. rewrite (update_where_unique mr_id) by done. apply Hself. }
  split; [|by destruct s as [|c|f []]]. destruct s as [|c|f [] ].
  - injection Hw as <-. by apply Hsame.
  - cbn [sighted_row] in *. destruct (py_eq _ _) eqn:He; [|by apply save_resource_ok in Hw].
    injection Hw as <-. apply Hsame; [by rewrite ?He|done].
  - injection Hw as <-. by apply Hsame.
  - by apply save_resource_ok in Hw.
Qed.

Definition is_confirmed (s : Sighting) : bool := match s with Confirmed _ _ => true | _ => false end.

Definition sight (now : Z) (kind : string) (live : list (list string * dict)) (r : ManagedResource) : Sighting := or_else Absent (sighting now kind live r).

Lemma set_resources_twice a b db : set_db_resources a (set_db_resources b db) = set_db_resources a db.
Proof. by destruct db. Qed.

Lemma set_resources_same db : set_db_resources (db_resources db) db = db.
Proof. by destruct db. Qed.

Lemma map_ids_update (f : ManagedResource -> ManagedResource) l : (forall r, mr_id (f r) = mr_id r) -> map mr_id (map f l) = map mr_id l.
Proof. intros Hf. rewrite map_map. by apply map_ext. Qed.

(** The rows of a kind, each seen once. *)
Lemma confirm_fold now kind live : forall l acc db acc' db',
  NoDup (map mr_id (db_resources db)) -> (forall r, r ∈ l -> r ∈ db_resources db) -> NoDup (map mr_id l) ->
  fold_each (confirm_one now kind live) acc l db = (Ok acc', db') ->
  (forall r, r ∈ l -> exists s, sighting now kind live r = Ok s) /\
  db' = set_db_resources (map (fun x => if among (mr_id x) (map mr_id l) then sighted_row now (sight now kind live x) x else x) (db_resources db)) db /\
  (forall id, id ∈ acc'.2 <-> id ∈ acc.2 \/ exists r f, r ∈ l /\ mr_id r = id /\ sighting now kind live r = Ok (Confirmed f true)) /\
  acc'.1 = (acc.1 + length (List.filter (fun r => is_confirmed (sight now kind live r)) l))%nat.
Proof.
  induction l as [|r l IH]; intros acc db acc' db' Hnd Hin Hl H; cbn [fold_each] in H.
  - injection H as <- <-. split_and!; [by intros r ?%elem_of_nil| | |].
    + cbn. rewrite map_id. symmetry. apply set_resources_same.
    + intros id. split; [by left|intros [?|(r & f & ?%elem_of_nil & _)]; done].
    + cbn. lia.
  - apply bind_ok in H as (acc1 & db1 & H1 & H). apply confirm_one_ok in H1 as (s & Hs & -> & Hacc); [|done|apply Hin; by left].
    cbn [map] in Hl. apply NoDup_cons in Hl as [Hrl Hl]. set (step := fun x => if bool_decide (mr_id x = mr_id r) then sighted_row now s x else x).
    assert (Hstep : forall x, mr_id (step x) = mr_id x) by (intros x; unfold step; case_bool_decide; [apply sighted_kind|done]).
    change (update_where _ (sighted_row now s) (db_resources db)) with (map step (db_resources db)) in H.
    apply IH in H as (Hall & -> & Hids & Hn); [|cbn; by rewrite (map_ids_update _ _ Hstep)| |done].
    2: { intros x Hx. cbn. apply list_elem_of_fmap. exists x. split; [|apply Hin; by right]. unfold step. rewrite bool_decide_eq_false_2; [done|].
         intros He. apply Hrl, list_elem_of_fmap. by exists x. }
    split_and!.
    + intros x [->|Hx]%elem_of_cons; [by exists s|by apply Hall].
    + rewrite set_resources_twice. f_equal. cbn [db_resources set_db_resources]. rewrite map_map. apply map_ext_in. intros x Hx%list_elem_of_In. rewrite Hstep.
      cbn [map]. destruct (decide (mr_id x = mr_id r)) as [He|He].
      * assert (x = r) as -> by (apply (unique_by mr_id _ _ _ Hnd Hx (Hin r (list_elem_of_here _ _)) He)).
        assert (among (mr_id r) (map mr_id l) = false) as Hf by (by apply bool_decide_eq_false).
        assert (among (mr_id r) (mr_id r :: map mr_id l) = true) as Ht by (apply bool_decide_eq_true; by left).
        rewrite Hf, Ht. unfold step. rewrite bool_decide_eq_true_2 by done. unfold sight. by rewrite Hs.
      * unfold step. rewrite bool_decide_eq_false_2 by done.
        assert (among (mr_id x) (mr_id r :: map mr_id l) = among (mr_id x) (map mr_id l)) as ->; [|done].
        apply bool_decide_ext. rewrite elem_of_cons. naive_solver.
    + intros id. rewrite Hids, Hacc. split.
      * intros [Hi|(x & f & Hx & Hid & Hc)]; [|right; exists x, f; split; [by right|done]].
        destruct s as [|c|f []]; cbn in Hi; try (by left). apply elem_of_app in Hi as [Hi| ->%list_elem_of_singleton]; [by left|].
        right. exists r, f. split; [by left|done].
      * intros [Hi|(x & f & [->|Hx]%elem_of_cons & Hid & Hc)].
        -- left. destruct s as [|c|f []]; cbn; [done|done| |done]. apply elem_of_app. by left.
        -- rewrite Hs in Hc. injection Hc as ->. left. cbn. apply elem_of_app. right. by apply list_elem_of_singleton.
        -- right. by exists x, f.
    + rewrite Hn, Hacc. cbn [List.filter]. unfold sight at 2. rewrite Hs. cbn [or_else]. destruct s as [|c|f []]; cbn; lia.
Qed.

(** A declaration as one kind's report shows it: kept as it was where the report is of another kind, was
    not read or says nothing of it. *)
Definition seen_in (now : Z) (kr : string * KindReport) (r : ManagedResource) : Sighting :=
  let '(kind, report) := kr in
  if bool_decide (mr_kind r = kind) && mr_enabled r && is_some (provider_at providers kind) && kr_ok report
  then match live_specs kind (kr_records report) with Ok live => sight now kind live r | Raise _ => Absent end
  else Absent.

(** And as a whole sweep does. *)
Definition seen_by (now : Z) (payload : Sweep) (r : ManagedResource) : Sighting :=
  match report_of (mr_kind r) payload with Some report => seen_in now (mr_kind r, report) r | None => Absent end.

Definition after_sweep (now : Z) (payload : Sweep) (r : ManagedResource) : ManagedResource :=
  match seen_by now payload r with
  | Confirmed _ true => set_mr_last_observed_at (Some now) r
  | s => sighted_row now s r
  end.

Definition only_moment (s : Sighting) : bool := match s with Confirmed _ true => true | _ => false end.

Lemma sight_nothing now kind r : sight now kind [] r = Absent.
Proof. unfold sight, sighting. by destruct (record_identity kind (mr_spec r)). Qed.

Lemma absent_filter (f : ManagedResource -> Sighting) l : (forall r, r ∈ l -> f r = Absent) -> List.filter (fun r => is_confirmed (f r)) l = [].
Proof.
  induction l as [|x l IH]; intros H; [done|]. cbn. rewrite (H x) by (by left). cbn. apply IH. intros r Hr. apply H. by right.
Qed.

Lemma filter_rows_where {A} (p q : A -> bool) l : List.filter q (rows_where p l) = List.filter (fun x => p x && q x) l.
Proof. unfold rows_where. induction l as [|x l IH]; [done|]. cbn. destruct (p x); cbn; by rewrite IH. Qed.

Lemma filter_ext_in' {A} (p q : A -> bool) l : (forall x, x ∈ l -> p x = q x) -> List.filter p l = List.filter q l.
Proof. intros H. apply filter_ext_in. intros x Hx. by apply H, list_elem_of_In. Qed.

Lemma length_filter_perm {A} (p : A -> bool) l l' : l ≡ₚ l' -> length (List.filter p l) = length (List.filter p l').
Proof. induction 1; cbn; repeat case_match; cbn; congruence. Qed.

Lemma confirm_kind_ok now kr acc db acc' db' : NoDup (map mr_id (db_resources db)) -> confirm_kind now acc kr db = (Ok acc', db') ->
  db' = set_db_resources (map (fun r => sighted_row now (seen_in now kr r) r) (db_resources db)) db /\
  (forall id, id ∈ acc'.2 <-> id ∈ acc.2 \/ exists r, r ∈ db_resources db /\ mr_id r = id /\ only_moment (seen_in now kr r) = true) /\
  acc'.1 = (acc.1 + length (List.filter (fun r => is_confirmed (seen_in now kr r)) (db_resources db)))%nat.
Proof.
  intros Hnd H. destruct kr as [kind report]. unfold confirm_kind in H.
  assert (forall (Habs : forall r, r ∈ db_resources db -> seen_in now (kind, report) r = Absent), acc' = acc -> db' = db ->
    db' = set_db_resources (map (fun r => sighted_row now (seen_in now (kind, report) r) r) (db_resources db)) db /\
    (forall id, id ∈ acc'.2 <-> id ∈ acc.2 \/ exists r, r ∈ db_resources db /\ mr_id r = id /\ only_moment (seen_in now (kind, report) r) = true) /\
    acc'.1 = (acc.1 + length (List.filter (fun r => is_confirmed (seen_in now (kind, report) r)) (db_resources db)))%nat) as Hnone.
  { intros Habs -> ->. split_and!.
    - rewrite <- (set_resources_same db) at 1. f_equal. rewrite <- (map_id (db_resources db)) at 1. apply map_ext_in. intros r Hr%list_elem_of_In. by rewrite (Habs r Hr).
    - intros id. split; [by left|]. intros [?|(r & Hr & _ & Hm)]; [done|]. by rewrite (Habs r Hr) in Hm.
    - rewrite (absent_filter _ _ Habs). cbn. lia. }
  destruct (is_some (provider_at providers kind)) eqn:Hp; cbn [negb orb] in H.
  2: { injection H as <- <-. apply Hnone; [|done..]. intros r _. unfold seen_in. by rewrite Hp, andb_false_r. }
  destruct (kr_ok report) eqn:Hok; cbn [negb] in H.
  2: { injection H as <- <-. apply Hnone; [|done..]. intros r _. unfold seen_in. by rewrite Hok, andb_false_r. }
  apply bind_ok in H as (live & s1 & Hlive & H). unfold lift in Hlive. injection Hlive as Hlive <-.
  assert (Hseen : forall r, seen_in now (kind, report) r = if bool_decide (mr_kind r = kind) && mr_enabled r then sight now kind live r else Absent)
    by (intros r; unfold seen_in; rewrite Hp, Hok, !andb_true_r, Hlive; done).
  destruct (bool_decide (live = [])) eqn:Hl.
  { injection H as <- <-. apply Hnone; [|done..]. intros r _. rewrite Hseen. apply bool_decide_eq_true in Hl as ->. rewrite sight_nothing. by destruct (_ && _). }
  apply bind_ok in H as (l & s2 & Hg & H). injection Hg as <- <-.
  set (p := fun r => bool_decide (mr_kind r = kind) && mr_enabled r) in *. set (l := order_by mr_key (rows_where p (db_resources db))) in *.
  assert (Hlin : forall r, r ∈ l <-> p r = true /\ r ∈ db_resources db).
  { intros r. unfold l. rewrite elem_of_order_by, elem_of_rows_where. naive_solver. }
  assert (NoDup (map mr_id l)) as Hnl.
  { unfold l. rewrite (order_by_perm mr_key (rows_where p (db_resources db))). by apply NoDup_map_rows. }
  apply confirm_fold in H as (Hall & -> & Hids & Hn); [|done|by intros r [_ ?]%Hlin|done]. split_and!.
  - f_equal. apply map_ext_in. intros x Hx%list_elem_of_In. rewrite Hseen. destruct (p x) eqn:Hpx; unfold p in Hpx; rewrite Hpx.
    + assert (among (mr_id x) (map mr_id l) = true) as ->; [|done]. apply bool_decide_eq_true, list_elem_of_fmap. exists x. split; [done|]. apply Hlin. by unfold p.
    + assert (among (mr_id x) (map mr_id l) = false) as ->; [|done]. apply bool_decide_eq_false. intros (y & Hy & [Hpy Hyin]%Hlin)%list_elem_of_fmap.
      assert (x = y) as -> by exact (unique_by mr_id _ _ _ Hnd Hx Hyin Hy). unfold p in Hpy. congruence.
  - intros id. rewrite Hids. f_equiv. split.
    + intros (r & f & [Hpr Hrin]%Hlin & Hid & Hc). exists r. split_and!; [done|done|]. rewrite Hseen. unfold p in Hpr. rewrite Hpr. unfold sight. by rewrite Hc.
    + intros (r & Hrin & Hid & Hm). rewrite Hseen in Hm. destruct (bool_decide (mr_kind r = kind) && mr_enabled r) eqn:Hpr; [|done].
      assert (r ∈ l) as Hrl by (by apply Hlin). destruct (Hall r Hrl) as [s Hs]. unfold sight in Hm. rewrite Hs in Hm. destruct s as [|c|f []]; try done. by exists r, f.
  - rewrite Hn. f_equal. rewrite (length_filter_perm _ _ _ (order_by_perm mr_key (rows_where p (db_resources db)))), filter_rows_where. f_equal. apply filter_ext_in'.
    intros r _. rewrite Hseen. unfold p. by destruct (bool_decide (mr_kind r = kind) && mr_enabled r).
Qed.

Lemma seen_in_other now kind report r : mr_kind r <> kind -> seen_in now (kind, report) r = Absent.
Proof. intros H. unfold seen_in. by rewrite bool_decide_eq_false_2. Qed.

Lemma seen_by_cons now kind report rest r : seen_by now ((kind, report) :: rest) r =
  if decide (mr_kind r = kind) then seen_in now (kind, report) r else seen_by now rest r.
Proof.
  unfold seen_by, report_of. cbn [first_where fst]. case_decide as Hk.
  - subst. by rewrite bool_decide_eq_true_2.
  - by rewrite bool_decide_eq_false_2 by congruence.
Qed.

Lemma seen_by_none now rest r : mr_kind r ∉ map fst rest -> seen_by now rest r = Absent.
Proof.
  intros H. unfold seen_by, report_of. destruct (first_where _ rest) as [[k rep]|] eqn:Hf; [|done].
  apply first_where_some in Hf as [Hin Hk%bool_decide_eq_true]. cbn in Hk. subst k. destruct H. apply list_elem_of_fmap. by eexists (_, _).
Qed.

Lemma length_filter_split {A} (p q r : A -> bool) l : (forall x, x ∈ l -> p x = q x || r x /\ q x && r x = false) ->
  length (List.filter p l) = (length (List.filter q l) + length (List.filter r l))%nat.
Proof.
  induction l as [|x l IH]; intros H; [done|]. cbn. destruct (H x (list_elem_of_here _ _)) as [-> Hd].
  destruct (q x), (r x); cbn in *; rewrite IH by (intros y Hy; apply H; by right); try done; lia.
Qed.

Lemma confirm_sweep_ok now : forall payload acc db acc' db', NoDup (map mr_id (db_resources db)) -> NoDup (map fst payload) ->
  fold_each (confirm_kind now) acc payload db = (Ok acc', db') ->
  db' = set_db_resources (map (fun r => sighted_row now (seen_by now payload r) r) (db_resources db)) db /\
  (forall id, id ∈ acc'.2 <-> id ∈ acc.2 \/ exists r, r ∈ db_resources db /\ mr_id r = id /\ only_moment (seen_by now payload r) = true) /\
  acc'.1 = (acc.1 + length (List.filter (fun r => is_confirmed (seen_by now payload r)) (db_resources db)))%nat.
Proof.
  induction payload as [|[kind report] rest IH]; intros acc db acc' db' Hnd Hk H; cbn [fold_each] in H.
  - injection H as <- <-. split_and!; [cbn; by rewrite map_id, set_resources_same|by naive_solver|]. rewrite absent_filter by done. cbn. lia.
  - cbn [map fst] in Hk. apply NoDup_cons in Hk as [Hkr Hk]. apply bind_ok in H as (acc1 & db1 & H1 & H).
    apply confirm_kind_ok in H1 as (-> & Hids1 & Hn1); [|done]. set (step := fun r => sighted_row now (seen_in now (kind, report) r) r) in *.
    assert (Hstep : forall r, mr_kind (step r) = mr_kind r /\ mr_id (step r) = mr_id r) by (intros; apply sighted_kind).
    apply IH in H as (-> & Hids & Hn); [|cbn; rewrite map_ids_update; [done|apply Hstep]|done].
    assert (Hrest : forall r, seen_by now rest (step r) = if decide (mr_kind r = kind) then Absent else seen_by now rest r).
    { intros r. case_decide as Hr; [apply seen_by_none; rewrite (proj1 (Hstep r)); congruence|]. unfold step. by rewrite seen_in_other. }
    split_and!.
    + rewrite set_resources_twice. f_equal. cbn [db_resources set_db_resources]. rewrite map_map. apply map_ext. intros r. rewrite Hrest, seen_by_cons. unfold step.
      case_decide; [done|]. by rewrite seen_in_other.
    + intros id. rewrite Hids, Hids1. cut (forall P Q R S : Prop, (Q \/ R <-> S) -> (P \/ Q) \/ R <-> P \/ S); [intros Hc; apply Hc; clear Hc|naive_solver].
      cbn [db_resources set_db_resources]. split.
      * intros [(r & Hr & Hid & Hm)|(r & (x & -> & Hx)%list_elem_of_fmap & Hid & Hm)].
        -- exists r. split_and!; [done|done|]. rewrite seen_by_cons. case_decide; [done|]. by rewrite seen_in_other in Hm.
        -- exists x. rewrite (proj2 (Hstep x)) in Hid. rewrite Hrest in Hm. split_and!; [done|done|]. rewrite seen_by_cons. by case_decide.
      * intros (r & Hr & Hid & Hm). rewrite seen_by_cons in Hm. case_decide as Hc; [left; by exists r|]. right. exists (step r).
        split_and!; [by apply list_elem_of_fmap_2|by rewrite (proj2 (Hstep r))|]. rewrite Hrest. by rewrite decide_False.
    + rewrite Hn, Hn1, <- Nat.add_assoc. f_equal. cbn [db_resources set_db_resources].
      assert (forall l, length (List.filter (fun r => is_confirmed (seen_by now rest r)) (map step l)) =
        length (List.filter (fun r => is_confirmed (if decide (mr_kind r = kind) then Absent else seen_by now rest r)) l)) as ->.
      { intros l. induction l as [|x l IHl]; [done|]. cbn [map List.filter]. rewrite Hrest. destruct (is_confirmed _); cbn; by rewrite IHl. }
      symmetry. apply length_filter_split. intros r _. rewrite seen_by_cons. case_decide as Hc; [cbn; by rewrite orb_false_r, andb_false_r|].
      by rewrite seen_in_other.
Qed.

(** What a sweep says of the declarations: the loop over kinds, the skipping of rows that say it already
    and the one statement at its end come to one function of each row, and the count is of the rows found
    as they were declared. *)
Theorem confirm_observed_says_what_was_found (now : Z) (payload : Sweep) (db db' : Db) (n : nat) :
  NoDup (map mr_id (db_resources db)) -> NoDup (map fst payload) -> confirm_observed now payload db = (Ok n, db') ->
  db' = set_db_resources (map (after_sweep now payload) (db_resources db)) db /\
  n = length (List.filter (fun r => is_confirmed (seen_by now payload r)) (db_resources db)).
Proof.
  intros Hnd Hk H. unfold confirm_observed in H. apply bind_ok in H as ([m u] & s1 & H1 & H). apply confirm_sweep_ok in H1 as (-> & Hids & Hm); [|done..].
  cbn in H, Hids, Hm. injection H as <- <-. split; [|done]. rewrite set_resources_twice. f_equal. cbn [db_resources set_db_resources].
  unfold update_where. rewrite map_map. apply map_ext_in. intros r Hr%list_elem_of_In. rewrite (proj2 (sighted_kind now (seen_by now payload r) r)).
  unfold after_sweep. destruct (only_moment (seen_by now payload r)) eqn:Ho.
  - assert (among (mr_id r) u = true) as ->. { apply bool_decide_eq_true, Hids. right. by exists r. }
    by destruct (seen_by now payload r) as [|c|f []].
  - assert (among (mr_id r) u = false) as ->; [|by destruct (seen_by now payload r) as [|c|f []]].
    apply bool_decide_eq_false. intros [Hn%elem_of_nil|(x & Hx & Hid & Hox)]%Hids; [done|].
    rewrite (unique_by mr_id _ _ _ Hnd Hx Hr Hid) in Hox. congruence.
Qed.

(** * What a report leaves stored *)

(** One kind's row once its report is stored, over the one there was. *)
Definition stored_row (now : Z) (controller_id kind : string) (report : KindReport) (was : option Reading) : option Reading :=
  if negb (takes_kind kind) then was
  else if kr_carried report then
    match clean_refused_parts kind (kr_refused_parts report) with
    | [] => was
    | parts => (fun r => mkReading (rd_kind r) (rd_records r) (rd_reachable r) (rd_connected r) (rd_error r) (rd_refusal r) parts (rd_observed_at r) controller_id now) <$> was
    end
  else
    let '(kept, error) := schema_records kind (kr_records report) (kr_error report) in
    Some (reported_row now kind report controller_id
            (if kr_ok report then match observation_at kind ≫= ob_from_last with
                                  | None => kept
                                  | Some f => f (match was with Some r => rd_records r | None => [] end) kept
                                  end else kept) error was).

(** What storing readings leaves alone. *)
Record readings_only (e e' : Estate) : Prop := {
  ro_resources : db_resources (es_db e') = db_resources (es_db e);
  ro_operations : db_operations (es_db e') = db_operations (es_db e);
  ro_not_managed : es_not_managed e' = es_not_managed e;
  ro_next : (db_next_id (es_db e) <= db_next_id (es_db e'))%N;
}.

Lemma readings_only_refl e : readings_only e e.
Proof. constructor; [done..|lia]. Qed.

Lemma readings_only_trans a b c : readings_only a b -> readings_only b c -> readings_only a c.
Proof. intros [] []. constructor; [congruence..|lia]. Qed.

Lemma reading_at_update kind f k rows : (forall r, rd_kind r = kind -> rd_kind (f r) = kind) ->
  reading_at k (update_reading kind f rows) = if decide (k = kind) then f <$> reading_at k rows else reading_at k rows.
Proof.
  intros Hf. unfold reading_at, update_reading, update_where. induction rows as [|r rows IH]; cbn; [by case_decide|].
  destruct (decide (rd_kind r = kind)) as [Hr|Hr].
  - rewrite (bool_decide_eq_true_2 (rd_kind r = kind)), Hf, Hr, IH by done. repeat case_decide; subst; repeat case_bool_decide; subst; done.
  - rewrite (bool_decide_eq_false_2 (rd_kind r = kind)), IH by done. repeat case_decide; subst; repeat case_bool_decide; subst; done.
Qed.

Lemma kinds_of_update kind f rows : (forall r, rd_kind r = kind -> rd_kind (f r) = kind) -> map rd_kind (update_reading kind f rows) = map rd_kind rows.
Proof.
  intros Hf. unfold update_reading, update_where. rewrite map_map. apply map_ext. intros x. case_bool_decide as Hx; [by rewrite Hf|done].
Qed.

Lemma reading_at_kind k rows r : reading_at k rows = Some r -> rd_kind r = k.
Proof. by intros [_ H%bool_decide_eq_true]%first_where_some. Qed.

Lemma reading_at_app k a b : reading_at k (a ++ b) = match reading_at k a with Some r => Some r | None => reading_at k b end.
Proof. unfold reading_at. induction a as [|r a IH]; [done|]. cbn. by case_bool_decide. Qed.

Lemma store_reading_at kind f k rows : (forall r, rd_kind (f r) = kind) ->
  reading_at k (store_reading kind f rows) = if decide (k = kind) then Some (f (reading_at kind rows)) else reading_at k rows.
Proof.
  intros Hf. unfold store_reading. destruct (reading_at kind rows) as [r|] eqn:Hr.
  - rewrite reading_at_update by (intros; apply Hf). case_decide as Hk; [|done]. subst. by rewrite Hr.
  - rewrite reading_at_app. case_decide as Hk.
    + subst. rewrite Hr. cbn. by rewrite bool_decide_eq_true_2.
    + destruct (reading_at k rows); [done|]. cbn. by rewrite bool_decide_eq_false_2 by (rewrite Hf; congruence).
Qed.

Lemma store_reading_kinds kind f rows : (forall r, rd_kind (f r) = kind) -> NoDup (map rd_kind rows) -> NoDup (map rd_kind (store_reading kind f rows)).
Proof.
  intros Hf Hnd. unfold store_reading. destruct (reading_at kind rows) as [r|] eqn:Hr.
  - by rewrite kinds_of_update by (intros; apply Hf).
  - rewrite map_app. apply NoDup_app. split_and!; [done| |apply NoDup_singleton]. intros k (x & -> & Hx)%list_elem_of_fmap Hk%list_elem_of_singleton.
    pose proof (first_where_none _ _ Hr _ Hx) as Hn. apply bool_decide_eq_false in Hn. rewrite Hf in Hk. congruence.
Qed.

Lemma record_change_frame now kind before after controller_id db o db' : record_change now kind before after controller_id db = (o, db') ->
  db_resources db' = db_resources db /\ db_operations db' = db_operations db /\ (db_next_id db <= db_next_id db')%N.
Proof.
  unfold record_change. assert (forall o1 : outcome exn unit, (o1, db) = (o, db') -> db_resources db' = db_resources db /\ db_operations db' = db_operations db /\ (db_next_id db <= db_next_id db')%N) as Hsame
    by (intros ? [= _ <-]; by split_and!; [..|lia]).
  destruct (provider_at providers kind ≫= pr_from_record); [|apply Hsame].
  unfold mbind, M_bind, lift. destruct (canonical_specs kind before) as [old|]; [|apply Hsame].
  destruct (canonical_specs kind after) as [new|]; [|apply Hsame]. destruct (_ && _); [apply Hsame|].
  unfold record_event. destruct (db_audit_down db); intros [= _ <-]; cbn; split_and!; (done || lia).
Qed.

(** One kind's turn. *)
Lemma record_kind_ok now controller_id stored kind report e stored' e' :
  NoDup (map rd_kind (es_readings e)) -> record_kind now controller_id stored (kind, report) e = (Ok stored', e') ->
  NoDup (map rd_kind (es_readings e')) /\ readings_only e e' /\
  forall k, reading_at k (es_readings e') =
    if decide (k = kind) then stored_row now controller_id kind report (reading_at kind (es_readings e)) else reading_at k (es_readings e).
Proof.
  intros Hnd H. unfold record_kind in H. unfold stored_row. destruct (takes_kind kind); cbn [negb] in *.
  2: { injection H as <- <-. split_and!; [done|apply readings_only_refl|intros k; by case_decide; subst]. }
  destruct (kr_carried report).
  - apply bind_ok in H as (held & e1 & H1 & H). assert (e' = e1) as -> by (by destruct held; injection H). clear H. unfold record_carried in H1.
    destruct (clean_refused_parts kind (kr_refused_parts report)) as [|part parts].
    { injection H1 as <- <-. split_and!; [done|apply readings_only_refl|intros k; by case_decide; subst]. }
    apply bind_ok in H1 as ([] & e2 & H2 & H1). injection H1 as _ <-. injection H2 as <-. cbn [es_readings set_es_readings]. split_and!.
    + by rewrite kinds_of_update.
    + constructor; [done..|cbn; lia].
    + intros k. rewrite reading_at_update by done. by case_decide; subst.
  - apply bind_ok in H as ([] & e1 & H1 & H). injection H as _ <-. unfold record_report in H1.
    destruct (schema_records kind (kr_records report) (kr_error report)) as [kept error].
    apply bind_ok in H1 as (rows & e2 & Hg & H1). injection Hg as <- <-. apply bind_ok in H1 as ([] & e3 & Hm & H1). injection Hm as <-.
    set (records := if kr_ok report then from_last kind kept (es_readings e) else kept) in *.
    set (e3 := set_es_readings _ e) in *.
    assert (es_readings e1 = es_readings e3 /\ readings_only e3 e1) as [Hrows Hframe].
    { destruct (if kr_ok report then last_records kind (es_readings e) else None) as [before|]; [|injection H1 as <-; split; [done|apply readings_only_refl]].
      unfold in_db in H1. destruct (record_change now kind before records controller_id (es_db e3)) as [o db'] eqn:Hc. injection H1 as _ <-.
      apply record_change_frame in Hc as (? & ? & ?). split; [done|]. by constructor. }
    rewrite Hrows. subst e3. cbn [es_readings set_es_readings]. split_and!.
    + by apply store_reading_kinds.
    + eapply readings_only_trans; [|exact Hframe]. constructor; [done..|cbn; lia].
    + intros k. rewrite store_reading_at by done. case_decide as Hk; [|done]. subst k records. unfold from_last.
      by destruct (kr_ok report), (observation_at kind ≫= ob_from_last).
Qed.

Lemma record_fold_ok now controller_id : forall payload stored e stored' e',
  NoDup (map rd_kind (es_readings e)) -> NoDup (map fst payload) -> fold_each (record_kind now controller_id) stored payload e = (Ok stored', e') ->
  NoDup (map rd_kind (es_readings e')) /\ readings_only e e' /\
  forall k, reading_at k (es_readings e') =
    match report_of k payload with Some report => stored_row now controller_id k report (reading_at k (es_readings e)) | None => reading_at k (es_readings e) end.
Proof.
  induction payload as [|[kind report] rest IH]; intros stored e stored' e' Hnd Hk H; cbn [fold_each] in H.
  - injection H as <- <-. split_and!; [done|apply readings_only_refl|done].
  - cbn [map fst] in Hk. apply NoDup_cons in Hk as [Hkr Hk]. apply bind_ok in H as (stored1 & e1 & H1 & H).
    apply record_kind_ok in H1 as (Hnd1 & Hf1 & Hrow1); [|done]. apply IH in H as (Hnd' & Hf & Hrow); [|done..].
    split_and!; [done|by eapply readings_only_trans|]. intros k. rewrite Hrow, Hrow1. unfold report_of. cbn [first_where fst]. case_decide as Hc.
    + subst k. rewrite bool_decide_eq_true_2 by done. cbn. destruct (first_where _ rest) as [[k' rep]|] eqn:Hf'; [|done].
      apply first_where_some in Hf' as [Hin Hk'%bool_decide_eq_true]. cbn in Hk'. subst k'. destruct Hkr. apply list_elem_of_fmap. by eexists (_, _).
    + by rewrite bool_decide_eq_false_2 by congruence.
Qed.

Lemma report_of_sorted payload k : NoDup (map fst payload) -> report_of k (by_kind payload) = report_of k payload.
Proof.
  intros Hnd. pose proof (order_by_perm fst payload) as Hp. unfold report_of, by_kind.
  destruct (first_where _ payload) as [[k1 r1]|] eqn:H1.
  - apply first_where_some in H1 as [Hin1 Hk1%bool_decide_eq_true]. destruct (first_where _ (order_by fst payload)) as [[k2 r2]|] eqn:H2.
    + apply first_where_some in H2 as [Hin2 Hk2%bool_decide_eq_true]. rewrite Hp in Hin2. cbn in *. subst.
      by pose proof (unique_by fst _ _ _ Hnd Hin1 Hin2 eq_refl) as [= ->].
    + rewrite <- Hp in Hin1. pose proof (first_where_none _ _ H2 _ Hin1) as Hn. apply bool_decide_eq_false in Hn. done.
  - destruct (first_where _ (order_by fst payload)) as [[k2 r2]|] eqn:H2; [|done].
    apply first_where_some in H2 as [Hin2 Hk2]. rewrite Hp in Hin2. pose proof (first_where_none _ _ H1 _ Hin2) as Hn. cbn in *. congruence.
Qed.

Lemma record_inventory_rows now payload p controller_id e stored e' :
  NoDup (map rd_kind (es_readings e)) -> NoDup (map fst payload) -> record_inventory now payload p controller_id e = (Ok stored, e') ->
  holds p MANAGE_INFRASTRUCTURE /\ NoDup (map rd_kind (es_readings e')) /\ readings_only e e' /\
  forall k, reading_at k (es_readings e') =
    match report_of k payload with Some report => stored_row now controller_id k report (reading_at k (es_readings e)) | None => reading_at k (es_readings e) end.
Proof.
  intros Hnd Hk H. unfold record_inventory in H. apply (proj1 (atomic_ok _ _ _ _)) in H. apply bind_ok in H as ([] & e1 & Hr & H).
  destruct (require p MANAGE_INFRASTRUCTURE) eqn:Hq; [done|]. injection Hr as <-. apply require_none in Hq. split; [done|].
  apply record_fold_ok in H as (H1 & H2 & H3); [|done|].
  - split_and!; [done|done|]. intros k. by rewrite H3, report_of_sorted.
  - unfold by_kind. by rewrite order_by_perm.
Qed.

End Inventory.

(** * On a machine of two containers *)

Definition container_registry : Registry := [(CONTAINER_KIND, CONTAINER demo_words)].
Definition web_found : dict := [("connection_ref", JStr "docker"); ("host", JStr "nas"); ("name", JStr "web")].
Definition api_moved : dict := [("connection_ref", JStr "other"); ("host", JStr "nas"); ("name", JStr "api")].
Definition kept_container (id key : string) (spec : dict) : ManagedResource := mkManagedResource id key CONTAINER_KIND spec true "" 1 0 [] [] None 0.

(** One as it was found and one through another connection. *)
Definition two_containers : Db :=
  set_db_resources [kept_container "0" "nas-web" web_found; kept_container "1" "nas-api" (dset "connection_ref" (JStr "docker") api_moved)] empty_db.
Definition found_two : list (string * KindReport) := [(CONTAINER_KIND, mkKindReport true true [web_found; api_moved] "" "" [] false)].
Notation confirmed_two := (confirm_observed container_registry 7 found_two two_containers).

Example what_was_found :
  confirmed_two.1 = Ok 1%nat /\
  map (fun r => (mr_observed_generation r, mr_conditions r)) (db_resources confirmed_two.2) =
    [(1%Z, stamped 7 [] [condition "Ready" "Observed" MATCHES]);
     (0%Z, stamped 7 [] [condition "Drifted" "Drifted" "Portainer is now other. HQ set it to docker."])].
Proof. vm_compute. done. Qed.

Lemma confirm_observed_says_what_was_found_witness :
  confirmed_two = (Ok 1%nat, confirmed_two.2) /\
  confirmed_two.2 = set_db_resources (map (after_sweep container_registry 7 found_two) (db_resources two_containers)) two_containers.
Proof.
  assert (H : confirmed_two.1 = Ok 1%nat) by (vm_compute; reflexivity).
  assert (Hrun : confirmed_two = (Ok 1%nat, confirmed_two.2)) by (rewrite <- H; apply surjective_pairing).
  split; [exact Hrun|].
  refine (proj1 (confirm_observed_says_what_was_found container_registry (fun _ => []) (fun text => text) 7 found_two two_containers _ 1 _ _ Hrun)).
  - apply (bool_decide_eq_true_1 (NoDup _)). vm_compute. reflexivity.
  - apply (bool_decide_eq_true_1 (NoDup _)). vm_compute. reflexivity.
Defined.

Definition sweeper : Principal := principal_of "ada" WEB_INTERFACE {[ MANAGE_INFRASTRUCTURE ]}.
Notation stored_two := (record_inventory container_registry [] (fun _ => []) 7 found_two sweeper "controller" (mkEstate two_containers [] [])).

