(* ===== verification/Adoption.v ===== *)
(** Taking on what a sweep found, and stepping back from it ([adoption.py], [sweep.py]; the removal,
    forgetting and acceptance of [resource_operations.py]; [infrastructure.suggest_key]).

    [slugify] is Django's; the other variables are those of [Inventory] and [Declarations]. *)
From stdpp Require Import base gmap strings list pretty.
From Stdlib Require Import Ascii ZArith Lia.
From S2P Require Import Prelude PyStr Json Refusals Security Models Specs Policy Operations Controller PyJson Names Providers Certificates Containers Declarations Inventory.

#[local] Open Scope string_scope.

(** * Records no declaration accounts for *)

(** [Unmanaged] *)
Record Unmanaged : Type := mkUnmanaged {
  um_kind : string;
  um_identity : list string;
  um_hostnames : list string;
  um_spec : dict;
  um_observed_at : option Z;
  um_adoptable : bool;
  um_connection_ref : string;
  um_observed_only : bool;
}.

(** Python's order of tuples of strings. *)
Fixpoint names_ltb (a b : list string) : bool :=
  match a, b with
  | _, [] => false
  | [], _ :: _ => true
  | x :: a, y :: b => String.ltb x y || bool_decide (x = y) && names_ltb a b
  end.

Definition unmanaged_before (a b : Unmanaged) : bool :=
  names_ltb (um_identity a) (um_identity b) || bool_decide (um_identity a = um_identity b) && String.ltb (um_kind a) (um_kind b).

Fixpoint insert_unmanaged (x : Unmanaged) (l : list Unmanaged) : list Unmanaged :=
  match l with [] => [x] | y :: rest => if unmanaged_before y x then y :: insert_unmanaged x rest else x :: l end.

Definition sort_unmanaged (l : list Unmanaged) : list Unmanaged := fold_right insert_unmanaged [] l.

(** [AdoptCommand] *)
Record AdoptCommand : Type := mkAdoptCommand { ac_kind : string; ac_hostname : string; ac_key : string; ac_token : string }.

(** What [adopt_discovered] passes over: [RecordNotFound], [PolicyError], either validation's error and any [ValueError]. *)
Definition is_passed_over (e : exn) : bool :=
  is_value_error e || match e with Host RecordNotFound _ _ | DjangoValidationError _ _ => true | _ => false end.

Definition not_found (said : string) : exn := Host RecordNotFound said JNull.

(** What an answer's [name] holds, and of that what its field holds. *)
Definition key_answered (answer : dict) : string :=
  match dget "resource" answer ≫= attr "key" with Some (JStr s) => s | _ => "" end.

Section Adoption.
Variables (host : Site) (providers : Registry) (connections : list Managing) (public_dns : bool).
Variables (names_at : list Reading -> Db -> string -> list string) (deploying_label : ManagedResource -> Db -> string) (subject : string) (rest : Plant).
Variables (observations : list (string * Observation)) (provider_parts : string -> list string) (digest slugify : string -> string).

(** [Unmanaged.token] and [Unmanaged.hostname] *)
Definition um_token (u : Unmanaged) : string := record_token digest (um_kind u) (um_identity u).
Definition um_hostname (u : Unmanaged) : string := match um_hostnames u with name :: _ => name | [] => "" end.

(** [declared]: the identities declared, each with its kind. *)
Definition declared_identities (db : Db) : outcome exn (list (string * list string)) :=
  each_of (fun r => identity ← record_identity providers (mr_kind r) (mr_spec r); Ok (mr_kind r, identity))
    (rows_where (fun r => is_some (provider_at providers (mr_kind r))) (db_resources db)).

(** [str(record.get("connection_ref", "") or "")] *)
Definition ref_of (record : dict) : string :=
  match dget "connection_ref" record with Some v => if truthy v then py_str v else "" | None => "" end.

(** One record of a snapshot. *)
Definition unmanaged_record (declared : list (string * list string)) (snapshot : Reading) (provider : ProviderSpec) (record : dict) : outcome exn (option Unmanaged) :=
  spec ← record_spec providers (rd_kind snapshot) record;
  match (spec : option dict) with
  | None => Ok None
  | Some d =>
      identity ← record_identity providers (rd_kind snapshot) d;
      if bool_decide (identity = []) || bool_decide ((rd_kind snapshot, identity) ∈ declared) then Ok None
      else
        hostnames ← service_hostnames providers (rd_kind snapshot) d;
        let gap := negb (bool_decide (pr_adoption_gap provider = "")) in
        Ok (Some (mkUnmanaged (rd_kind snapshot) identity hostnames d (rd_observed_at snapshot)
                    (negb gap && match pr_adopts provider with None => true | Some adopts => adopts record end)
                    (ref_of record) (gap || negb (manages_through providers connections (rd_kind snapshot) (ref_of record)))))
  end.

Definition unmanaged_in (declared : list (string * list string)) (snapshot : Reading) : outcome exn (list (option Unmanaged)) :=
  match provider_at providers (rd_kind snapshot) with
  | None => Ok []
  | Some provider => if is_some (pr_from_record provider) then each_of (unmanaged_record declared snapshot provider) (rd_records snapshot) else Ok []
  end.

(** [unmanaged()] *)
Definition unmanaged (e : Estate) : outcome exn (list Unmanaged) :=
  declared ← declared_identities (es_db e);
  found ← each_of (unmanaged_in declared) (order_by rd_kind (es_readings e));
  Ok (sort_unmanaged (omap id (concat found))).

(** [find_unmanaged(kind, hostname, token=...)] *)
Definition find_unmanaged (kind hostname token : string) (e : Estate) : outcome exn (option Unmanaged) :=
  all ← unmanaged e;
  let candidates := List.filter (fun u => bool_decide (um_kind u = kind)) all in
  Ok (if negb (bool_decide (token = "")) then first_where (fun u => bool_decide (um_token u = token)) candidates
      else first_where (fun u => among (normalized_hostname hostname) (um_hostnames u)) candidates).

(** * What an operator keeps out *)

(** [kept_out()] *)
Definition kept_out (e : Estate) : list (string * string) := map (fun n => (nm_kind n, nm_token n)) (es_not_managed e).

(** [keep_out(kind, token, label, principal=...)] *)
Definition keep_out (kind token label : string) (p : Principal) : M exn Estate unit :=
  modify (fun e =>
    if existsb (fun n => bool_decide ((nm_kind n, nm_token n) = (kind, token))) (es_not_managed e) then e
    else set_es_not_managed (es_not_managed e ++ [mkNotManaged kind token (clip 300 label) (clip 160 (actor p))])%list e).

(** [keep_out_declaration(kind, spec, principal=...)] *)
Definition keep_out_declaration (kind : string) (spec : dict) (p : Principal) : M exn Estate unit :=
  match provider_at providers kind ≫= pr_from_record with
  | None => mret tt
  | Some _ =>
      identity ← lift (record_identity providers kind spec);
      if bool_decide (identity = []) then mret tt
      else keep_out kind (record_token digest kind identity) (join " " identity) p
  end.

(** [let_in(kind, token)] *)
Definition let_in (kind token : string) : M exn Estate unit :=
  modify (fun e => set_es_not_managed (delete_where (fun n => bool_decide ((nm_kind n, nm_token n) = (kind, token))) (es_not_managed e)) e).

(** * Adopting *)

Definition key_taken (db : Db) (key : string) : bool := existsb (fun r => bool_decide (mr_key r = key)) (db_resources db).

(** [suggest_key(kind, spec)] *)
Definition key_hint_of (kind : string) (spec : dict) : outcome exn string :=
  provider ← provider_named providers kind;
  match pr_key_hint provider with
  | Some hint => hint spec
  | None =>
      hostnames ← match pr_hostnames provider with Some f => f spec | None => Ok [] end;
      Ok match (hostnames : list string) with name :: _ => name +:+ "-" +:+ str_or (pr_facet provider) kind | [] => kind end
  end.

Definition suggest_key (kind : string) (spec : dict) (db : Db) : outcome exn string :=
  hint ← key_hint_of kind spec;
  let base := str_or (clip 180 (slugify (replace_char "."%char "-" hint))) (slugify kind) in
  Ok (if negb (key_taken db base) then base
      else match first_where (fun key => negb (key_taken db key)) (map (fun n => clip 176 base +:+ "-" +:+ pretty n) (seqZ 2 98)) with
           | Some key => key
           | None => base
           end).

(** [save_managed_resource(...)] within the estate: what was observed stands while a declaration is saved. *)
Definition save_in_estate (now : Z) (command : ResourceCommand) (p : Principal) (current_key : option string) : M exn Estate dict :=
  readings ← gets es_readings;
  in_db (save_managed_resource host providers connections public_dns (names_at readings) deploying_label subject rest now command p current_key None true None).

Definition ADOPTED : json := condition "Ready" "Adopted" "Added to HQ from what was live.".

(** [_record_as_observed(key, found)] *)
Definition adopted_row (now : Z) (found : Unmanaged) (r : ManagedResource) : ManagedResource :=
  set_mr_conditions (stamped now (mr_conditions r) [ADOPTED])
    (set_mr_status (um_spec found) (set_mr_last_observed_at (Some now) (set_mr_observed_generation (mr_generation r) r))).

Definition record_as_observed (now : Z) (key : string) (found : Unmanaged) : M exn Db unit :=
  modify (fun db =>
    match resource_of key db with
    | None => db
    | Some r => set_db_resources (update_where (fun x => bool_decide (mr_id x = mr_id r)) (adopted_row now found) (db_resources db)) db
    end).

(** [adopt(command, principal=...)] *)
Definition adopt (now : Z) (command : AdoptCommand) (p : Principal) : M exn Estate dict :=
  found ← gets (find_unmanaged (ac_kind command) (ac_hostname command) (ac_token command));
  found ← lift found;
  match (found : option Unmanaged) with
  | None => raise (not_found "HQ found no new record of that type to manage. It may be managed already, or gone.")
  | Some u =>
      provider ← lift (provider_named providers (um_kind u));
      _ ← raise_if (negb (bool_decide (pr_adoption_gap provider = ""))) (policy_error (pr_adoption_gap provider));
      _ ← raise_if (um_observed_only u) (policy_error
            "This record is read through a connection that only reads. Its setup guide says how to let HQ make changes through it, which adopting needs.");
      suggested ← (if decide (ac_key command = "") then (s ← gets (fun e => suggest_key (um_kind u) (um_spec u) (es_db e)); lift s) else mret (ac_key command));
      result ← save_in_estate now (mkResourceCommand suggested (um_kind u) (um_spec u) true) p None;
      _ ← in_db (record_as_observed now (key_answered result) u);
      _ ← let_in (um_kind u) (um_token u);
      mret result
  end.

(** One item of [adopt_discovered]'s loop. *)
Definition adopt_item (now : Z) (p : Principal) (kind : string) (excluded : list (string * string)) (adopted : list string) (u : Unmanaged) : M exn Estate (list string) :=
  if negb (bool_decide (um_kind u = kind)) || negb (um_adoptable u) || um_observed_only u then mret adopted
  else if bool_decide ((um_kind u, um_token u) ∈ excluded) then mret adopted
  else
    try (result ← adopt now (mkAdoptCommand (um_kind u) "" "" (um_token u)) p;
         mret (adopted ++ [key_answered result])%list)
        (fun e => if is_passed_over e then Some (mret adopted) else None).

(** [adopt_discovered(kind, principal=...)] *)
Definition adopt_discovered (now : Z) (kind : string) (p : Principal) : M exn Estate (list string) :=
  excluded ← gets kept_out;
  all ← gets unmanaged;
  all ← lift all;
  adopted ← fold_each (adopt_item now p kind excluded) [] all;
  mret (List.filter (fun key => negb (bool_decide (key = ""))) adopted).

(** [unmanaged_services()] *)
Definition unmanaged_services (e : Estate) : outcome exn (list (string * list Unmanaged)) :=
  all ← unmanaged e;
  let names := List.filter (fun name => negb (bool_decide (name = ""))) (map um_hostname all) in
  Ok (map (fun name => (name, List.filter (fun u => bool_decide (um_hostname u = name)) all)) (sorted (remove_dups names))).

(** [adopt_service(command, principal=...)]: the keys adopted. *)
Fixpoint adopt_each (now : Z) (p : Principal) (items : list Unmanaged) : M exn Estate (list string) :=
  match items with
  | [] => mret []
  | u :: more =>
      result ← adopt now (mkAdoptCommand (um_kind u) "" "" (um_token u)) p;
      keys ← adopt_each now p more;
      mret (key_answered result :: keys)
  end.

Definition adopt_service (now : Z) (hostname : string) (p : Principal) : M exn Estate (string * list string) :=
  atomic (
    services ← gets unmanaged_services;
    services ← lift services;
    match first_where (fun s : string * list Unmanaged => bool_decide (s.1 = normalized_hostname hostname)) services with
    | None => raise (not_found "HQ found nothing new to manage for that name. It may be managed already, or gone.")
    | Some (name, items) =>
        let writable := List.filter (fun u => negb (um_observed_only u)) items in
        _ ← raise_if (bool_decide (writable = [])) (policy_error "HQ reads that name only through connections that only read.");
        adopted ← adopt_each now p writable;
        mret (name, adopted)
    end).

(** * Stepping back ([resource_operations.py]) *)

(** [_contained_keys(resource)] *)
Definition field_is (field value : string) (r : ManagedResource) : bool :=
  match dget field (mr_spec r) with Some (JStr s) => bool_decide (lower s = value) | _ => false end.

Definition contained_keys (r : ManagedResource) (db : Db) : outcome exn (list string) :=
  provider ← provider_named providers (mr_kind r);
  Ok match pr_contains provider with
     | None => []
     | Some (kind, their_field, my_field) =>
         let value := lower (strip (py_str (get_blank my_field (mr_spec r)))) in
         if bool_decide (value = "") then []
         else map mr_key (order_by mr_key (rows_where (fun x => bool_decide (mr_kind x = kind) && field_is their_field value x) (db_resources db)))
     end.

(** [_forget_declaration(resource, command, principal=...)] *)
Definition forget_declaration (now : Z) (r : ManagedResource) (command : OperationCommand) (p : Principal) : M exn Estate dict :=
  atomic (
    held ← gets (fun e => contained_keys r (es_db e));
    contained ← lift held;
    _ ← in_db (delete_resources (fun x => among (mr_key x) contained));
    _ ← keep_out_declaration (mr_kind r) (mr_spec r) p;
    _ ← in_db (delete_resources (fun x => bool_decide (mr_id x = mr_id r)));
    _ ← (match provider_at providers (mr_kind r) with
         | Some provider =>
             if pr_resolution_input provider
             then (readings ← gets es_readings;
                   _ ← in_db (targets ← gets delivery_targets; advance_dependents host providers (names_at readings) subject now targets);
                   mret tt)
             else mret tt
         | None => mret tt
         end);
    mret [("ok", JBool true); ("queued", JBool false); ("forgotten", JStr (mr_key r)); ("released", JList (map JStr contained));
          ("reason", JStr (oc_reason command))]).

(** [request_removal(command, principal=..., current_key=...)] *)
Definition plant_of (e : Estate) : Plant := plant providers connections public_dns (names_at (es_readings e)) rest.

Definition request_removal (now : Z) (command : OperationCommand) (p : Principal) (current_key : string) : M exn Estate dict :=
  r ← in_db (resource_for_operation current_key);
  provider ← lift (provider_named providers (mr_kind (r : ManagedResource)));
  if pr_declaration_only provider || observes_only providers connections (mr_kind r) (mr_spec r) then forget_declaration now r command p
  else
    allowed ← lift (controller_action_policy providers (mr_kind r) DELETE);
    _ ← raise_if (negb (allowed : bool * string).1) (policy_error allowed.2);
    plant ← gets plant_of;
    in_db (queue_operation (site host providers) plant now r command p DELETE false).

(** [accept_observed(command, principal=..., current_key=...)] *)
Definition kept_fields (names : list string) (spec : dict) : dict :=
  omap (fun field => (fun v => (field, v)) <$> dget field spec) names.

Definition accept_observed (now : Z) (command : OperationCommand) (p : Principal) (current_key : string) : M exn Estate dict :=
  atomic (
    r ← in_db (resource_for_operation current_key);
    live ← gets (live_spec providers observations (mr_kind (r : ManagedResource)) (mr_spec r));
    found ← lift live;
    match (found : option dict) with
    | None => raise (not_found "No live record was last seen for this one, so there is nothing to accept.")
    | Some d =>
        provider ← lift (provider_named providers (mr_kind r));
        result ← save_in_estate now (mkResourceCommand (mr_key r) (mr_kind r) (dmerge d (kept_fields (pr_unobservable_fields provider) (mr_spec r))) (mr_enabled r))
                   p (Some (mr_key r));
        mret (dset "reason" (JStr (oc_reason command)) result)
    end).

(** * A sweep, and what it is taken for ([sweep.py]) *)

Definition RECORD_KIND := "cloudflare.dns_record".

(** [_adoptable_kinds()] *)
Definition adoptable_kinds (e : Estate) : outcome exn (list string) :=
  all ← unmanaged e;
  Ok (sorted (remove_dups (List.filter (fun kind => negb (bool_decide (kind = RECORD_KIND))) (map um_kind all)))).

Record Swept : Type := mkSwept { sp_recorded : list string; sp_adopted : list string; sp_confirmed : nat; sp_retired : list string }.

(** [record_sweep(payload, principal=..., controller_id=...)], over the tables of the estate: the records of
    domains, the projects of repositories, the reads a sweep answers ([Cadence]) and the problems it notes
    are left out. *)
Definition adopt_kind (now : Z) (p : Principal) (adopted : list string) (kind : string) : M exn Estate (list string) :=
  more ← adopt_discovered now kind p; mret (adopted ++ more)%list.

Definition record_sweep (now : Z) (payload : Sweep) (p : Principal) (controller_id : string) : M exn Estate Swept :=
  atomic (
    recorded ← record_inventory providers observations provider_parts now payload p controller_id;
    kinds ← gets adoptable_kinds;
    kinds ← lift kinds;
    adopted ← fold_each (adopt_kind now p) [] kinds;
    confirmed ← in_db (confirm_observed providers now payload);
    retired ← in_db (retire_departed providers payload);
    mret (mkSwept recorded adopted confirmed retired)).
End Adoption.
