(* ===== verification/Sweeps.v ===== *)
(** What a sweep may take on and what it never does ([Inventory] and [Adoption] together): adoption writes
    only records a managing connection read, that nobody declared and nobody keeps out; a record stepped
    back from stays out of HQ however often it is found; and what stops a sweep. *)
From stdpp Require Import base gmap strings list pretty.
From Stdlib Require Import Ascii ZArith Lia.
From S2P Require Import Prelude PyStr Json Refusals Security Models Specs Policy Operations Controller PyJson Names Providers Certificates Containers Declarations Inventory Adoption.

#[local] Open Scope string_scope.

Section Sweeps.
Context (host : Site) (providers : Registry) (connections : list Managing) (public_dns : bool).
Context (names_at : list Reading -> Db -> string -> list string) (deploying_label : ManagedResource -> Db -> string) (subject : string) (rest : Plant).
Context (observations : list (string * Observation)) (provider_parts : string -> list string) (digest slugify : string -> string).
Hypothesis names_of_declarations : forall readings db db',
  map authored (db_resources db) = map authored (db_resources db') -> names_at readings db = names_at readings db'.

Hypothesis digest_says : forall text, digest text <> "".

Notation unmanaged := (unmanaged providers connections).
Notation find_unmanaged := (find_unmanaged providers connections digest).
Notation um_token := (um_token digest).
Notation adopt := (adopt host providers connections public_dns names_at deploying_label subject rest digest slugify).
Notation adopt_item := (adopt_item host providers connections public_dns names_at deploying_label subject rest digest slugify).
Notation adopt_discovered := (adopt_discovered host providers connections public_dns names_at deploying_label subject rest digest slugify).
Notation record_sweep := (record_sweep host providers connections public_dns names_at deploying_label subject rest observations provider_parts digest slugify).

(** * What a record found is *)

(** A record a provider holds, as one of the readings says it. *)
Record Found (readings : list Reading) (u : Unmanaged) : Prop := {
  fd_spec : exists snapshot record, snapshot ∈ readings /\ rd_kind snapshot = um_kind u /\ record ∈ rd_records snapshot /\
    record_spec providers (um_kind u) record = Ok (Some (um_spec u)) /\
    (um_observed_only u = false -> manages_through providers connections (um_kind u) (ref_of record) = true);
  fd_identity : record_identity providers (um_kind u) (um_spec u) = Ok (um_identity u);
  fd_known : um_identity u <> [];
}.

Lemma each_of_elem {A B} (f : A -> outcome exn B) xs ys y : each_of f xs = Ok ys -> y ∈ ys -> exists x, x ∈ xs /\ f x = Ok y.
Proof.
  intros H%each_of_ok. induction H as [|x z xs ys Hx _ IH]; intros Hy; [by apply elem_of_nil in Hy|].
  apply elem_of_cons in Hy as [->|Hy]; [exists x; by split; [left|]|]. destruct (IH Hy) as (w & ? & ?). exists w. by split; [right|].
Qed.

Lemma each_of_in {A B} (f : A -> outcome exn B) xs ys x : each_of f xs = Ok ys -> x ∈ xs -> exists y, y ∈ ys /\ f x = Ok y.
Proof.
  intros H%each_of_ok. induction H as [|z y xs ys Hy _ IH]; intros Hx; [by apply elem_of_nil in Hx|].
  apply elem_of_cons in Hx as [->|Hx]; [exists y; by split; [left|]|]. destruct (IH Hx) as (w & ? & ?). exists w. by split; [right|].
Qed.

Lemma insert_unmanaged_perm x l : insert_unmanaged x l ≡ₚ x :: l.
Proof. induction l as [|y l IH]; cbn; [done|]. destruct (unmanaged_before y x); [|done]. rewrite IH. apply Permutation_swap. Qed.

Lemma sort_unmanaged_perm l : sort_unmanaged l ≡ₚ l.
Proof. induction l as [|x l IH]; cbn; [done|]. by rewrite insert_unmanaged_perm, IH. Qed.

(** What is listed as unmanaged was found, and no declaration is known by its identity. *)
Lemma unmanaged_found e all u : unmanaged e = Ok all -> u ∈ all ->
  Found (es_readings e) u /\ forall y, y ∈ db_resources (es_db e) -> mr_kind y = um_kind u -> record_identity providers (um_kind u) (mr_spec y) <> Ok (um_identity u).
Proof.
  unfold Adoption.unmanaged. rewrite outcome_bind_ok. intros (declared & Hd & H). apply outcome_bind_ok in H as (found & Hf & [= <-]) . intros Hu.
  rewrite sort_unmanaged_perm in Hu. apply list_elem_of_omap in Hu as (o & Ho & Hou). cbn in Hou. subst o.
  apply list_elem_of_In, in_concat in Ho as (l & Hl & Ho). apply list_elem_of_In in Hl, Ho.
  destruct (each_of_elem _ _ _ _ Hf Hl) as (snapshot & Hs & Hin). rewrite elem_of_order_by in Hs. unfold unmanaged_in in Hin.
  destruct (provider_at providers (rd_kind snapshot)) as [provider|] eqn:Hp; [|injection Hin as <-; by apply elem_of_nil in Ho].
  destruct (is_some (pr_from_record provider)); [|injection Hin as <-; by apply elem_of_nil in Ho].
  destruct (each_of_elem _ _ _ _ Hin Ho) as (record & Hr & Hrec). unfold unmanaged_record in Hrec.
  apply outcome_bind_ok in Hrec as (spec & Hspec & Hrec). destruct spec as [d|]; [|done]. apply outcome_bind_ok in Hrec as (identity & Hid & Hrec).
  destruct (bool_decide (identity = []) || bool_decide ((rd_kind snapshot, identity) ∈ declared)) eqn:Hno; [done|].
  apply orb_false_iff in Hno as [Hne%bool_decide_eq_false Hund%bool_decide_eq_false]. apply outcome_bind_ok in Hrec as (hostnames & _ & [= <-]). cbn. split.
  - constructor; cbn; [|done..]. exists snapshot, record. split_and!; [done..|]. intros [_ Hm]%orb_false_iff. by apply negb_false_iff in Hm.
  - intros y Hy Hk Hsame. apply Hund. assert (y ∈ rows_where (fun r => is_some (provider_at providers (mr_kind r))) (db_resources (es_db e))) as Hyin
      by (apply elem_of_rows_where; rewrite Hk, Hp; by split).
    destruct (each_of_in _ _ _ _ Hd Hyin) as (pair & Hpair & Hout). apply outcome_bind_ok in Hout as (i & Hi & [= <-]). rewrite Hk in Hi, Hpair. congruence.
Qed.

Lemma find_unmanaged_found e kind hostname token u : find_unmanaged kind hostname token e = Ok (Some u) ->
  um_kind u = kind /\ (token <> "" -> um_token u = token) /\ Found (es_readings e) u /\
  forall y, y ∈ db_resources (es_db e) -> mr_kind y = um_kind u -> record_identity providers (um_kind u) (mr_spec y) <> Ok (um_identity u).
Proof.
  unfold Adoption.find_unmanaged. rewrite outcome_bind_ok. intros (all & Hall & [= H]).
  assert (u ∈ List.filter (fun u => bool_decide (um_kind u = kind)) all /\ (token <> "" -> um_token u = token)) as [Hin Htok].
  { destruct (bool_decide (token = "")) eqn:Ht; cbn [negb] in H.
    - apply bool_decide_eq_true in Ht. by apply first_where_some in H as [? _].
    - by apply first_where_some in H as [? ?%bool_decide_eq_true]. }
  apply list_elem_of_In, filter_In in Hin as [Hin Hk%bool_decide_eq_true]. apply list_elem_of_In in Hin.
  destruct (unmanaged_found _ _ _ Hall Hin). by split_and!.
Qed.

(** * What adopting writes *)

(** Every declaration still stands under its id, saying what it said. *)
Definition still_declared (db db' : Db) : Prop :=
  forall y, y ∈ db_resources db -> exists x, x ∈ db_resources db' /\ mr_id x = mr_id y /\ authored x = authored y.

(** Each row is one there was, or says one of these. *)
Definition declared_or (P : ManagedResource -> Prop) (db db' : Db) : Prop :=
  forall x, x ∈ db_resources db' -> P x \/ exists y, y ∈ db_resources db /\ mr_id x = mr_id y /\ authored x = authored y.

Lemma still_declared_refl db : still_declared db db.
Proof. intros y Hy. by exists y. Qed.

Lemma still_declared_trans a b c : still_declared a b -> still_declared b c -> still_declared a c.
Proof. intros Hab Hbc y Hy. destruct (Hab y Hy) as (x & Hx & Hi & Ha). destruct (Hbc x Hx) as (z & Hz & Hi' & Ha'). exists z. split_and!; [done|congruence..]. Qed.

Lemma declared_or_refl P db : declared_or P db db.
Proof. intros x Hx. right. by exists x. Qed.

Lemma declared_or_trans (P : ManagedResource -> Prop) a b c : (forall x y, P y -> mr_id x = mr_id y -> authored x = authored y -> P x) ->
  declared_or P a b -> declared_or P b c -> declared_or P a c.
Proof.
  intros HP Hab Hbc x Hx. destruct (Hbc x Hx) as [?|(y & Hy & Hi & Ha)]; [by left|].
  destruct (Hab y Hy) as [HPy|(z & Hz & Hi' & Ha')]; [left; by eapply HP|right]. exists z. split_and!; [done|congruence..].
Qed.

Lemma declared_or_weaken (P Q : ManagedResource -> Prop) a b : (forall x, P x -> Q x) -> declared_or P a b -> declared_or Q a b.
Proof. intros H Hd x Hx. destruct (Hd x Hx); [left; auto|by right]. Qed.

Lemma updated_declared p f db : (forall x, mr_id (f x) = mr_id x /\ authored (f x) = authored x) ->
  let db' := set_db_resources (update_where p f (db_resources db)) db in still_declared db db' /\ forall P, declared_or P db db'.
Proof.
  intros Hf db'. split.
  - intros y Hy. exists (if p y then f y else y). split; [by apply elem_of_update_where; exists y|]. destruct (p y); [apply Hf|done].
  - intros P x (y & Hy & ->)%elem_of_update_where. right. exists y. split; [done|]. destruct (p y); [apply Hf|done].
Qed.

(** A save of a new record copied from what is live. *)
Lemma copied_save readings now command p db answer db' : resources_ok db ->
  save_managed_resource host providers connections public_dns (names_at readings) deploying_label subject rest now command p None None true None db = (Ok answer, db') ->
  exists validated, validate_spec providers (rc_kind command) (rc_spec command) = Ok validated /\ key_answered answer = rc_key command /\
    db_operations db' = db_operations db /\ resources_ok db' /\ still_declared db db' /\
    declared_or (fun x => authored x = (rc_key command, rc_kind command, validated, rc_enabled command) /\ mr_id x ∉ map mr_id (db_resources db)) db db'.
Proof.
  intros Hok H. apply save_inv in H as Hrun. apply (resources_run _ _ _ _ _ _ _ _ (names_of_declarations readings)) in Hrun as Hrows; [|done].
  assert (key_answered answer = rc_key command) as Hkey.
  { destruct Hrun as [old cmd validated provider id fp row db1 db3 db4 applying said _ Hnone -> _ _ _ _ _ _ _ Hrow _ _ _ _ Hsaid ->].
    rewrite (Hnone eq_refl) in Hrow. unfold key_answered. cbn. apply outcome_bind_ok in Hsaid as (health & _ & [= <-]). cbn. by rewrite Hrow. }
  destruct Hrows as (old & cmd & validated & provider & fp & id & _ & Hnone & Hcmd & Hv & _ & _ & Hid & _ & Hnew & [f Hf Hin Hok'] & db4 & applying & said & Ho4 & _ & _ & Happ & _).
  rewrite (Hnone eq_refl) in *. subst cmd. specialize (Hnew eq_refl). cbn [is_some andb] in Ho4. rewrite andb_false_r in Happ. destruct Happ as [_ ->].
  set (row := set_mr_desired_fingerprint fp (row_saved now id None command validated)) in *.
  assert (Hfresh : forall x, mr_id x = id -> x ∈ db_resources db -> False).
  { intros x Hx Hxin. destruct (rok_below _ Hok _ Hxin) as (n & Hn & Hlt). rewrite Hn, Hnew in Hx. apply (inj pretty) in Hx. lia. }
  exists validated. split_and!; [done..| |].
  - intros y Hy. exists (f y). destruct (Hf y) as (Ha & Hi & _). split_and!; [|done..]. apply Hin. exists y. split; [done|right]. split; [done|].
    intros Heq. apply (Hfresh y); [congruence|done].
  - intros x (y & -> & [->|[Hy Hne]])%Hin.
    + left. destruct (Hf row) as (-> & -> & _). split; [apply row_saved_authored|]. rewrite Hid. intros (z & Hz & Hzin)%list_elem_of_fmap. by apply (Hfresh z).
    + right. exists y. by destruct (Hf y) as (? & ? & _).
Qed.

Lemma in_db_inv {A} (m : M exn Db A) e o e' : in_db m e = (o, e') -> exists db', m (es_db e) = (o, db') /\ e' = mkEstate db' (es_readings e) (es_not_managed e).
Proof. unfold in_db. destruct (m (es_db e)) as [o' db']. intros [= <- <-]. by exists db'. Qed.

Lemma mkEstate_self e : mkEstate (es_db e) (es_readings e) (es_not_managed e) = e.
Proof. by destruct e. Qed.

Lemma record_as_observed_ok now key u db o db' : record_as_observed now key u db = (o, db') -> resources_ok db ->
  o = Ok tt /\ resources_ok db' /\ db_operations db' = db_operations db /\ still_declared db db' /\ forall P, declared_or P db db'.
Proof.
  unfold record_as_observed, modify. intros [= <- <-] Hok. split; [done|]. destruct (resource_of key db) as [r|]; [|by split_and!; [| |apply still_declared_refl|intros; apply declared_or_refl]].
  assert (Hf : forall x, mr_id (adopted_row now u x) = mr_id x /\ authored (adopted_row now u x) = authored x) by done.
  split_and!; [|done|by apply updated_declared|by apply updated_declared].
  apply resources_update_ok; [|done]. intros x. split_and!; [apply Hf|apply Hf|]. unfold resource_rules. cbn. rewrite !andb_true_iff, !Z.leb_le. lia.
Qed.

(** One adoption that is answered. *)
Record Adopted (u : Unmanaged) (validated : dict) (e e' : Estate) : Prop := {
  ad_readings : es_readings e' = es_readings e;
  ad_not_managed : es_not_managed e' = delete_where (fun n => bool_decide ((nm_kind n, nm_token n) = (um_kind u, um_token u))) (es_not_managed e);
  ad_operations : db_operations (es_db e') = db_operations (es_db e);
  ad_ok : resources_ok (es_db e');
  ad_stands : still_declared (es_db e) (es_db e');
  ad_new : declared_or (fun x => (mr_kind x, mr_spec x, mr_enabled x) = (um_kind u, validated, true)) (es_db e) (es_db e');
}.

Lemma adopt_ok now command p e result e' : resources_ok (es_db e) -> adopt now command p e = (Ok result, e') ->
  exists u validated, find_unmanaged (ac_kind command) (ac_hostname command) (ac_token command) e = Ok (Some u) /\ um_observed_only u = false /\
    validate_spec providers (um_kind u) (um_spec u) = Ok validated /\ Adopted u validated e e'.
Proof.
  intros Hok H. unfold Adoption.adopt in H. apply bind_ok in H as (found & s & [= <- <-] & H). apply bind_ok in H as (found & s & [Hfound ->]%lift_inv & H).
  symmetry in Hfound. destruct found as [u|]; [|done]. apply bind_ok in H as (provider & s & [_ ->]%lift_inv & H).
  apply bind_ok in H as ([] & s & [_ ->]%raise_if_inv & H). apply bind_ok in H as ([] & s & [Hobs ->]%raise_if_inv & H).
  apply bind_ok in H as (key & s & Hkey & H).
  assert (s = e) as ->.
  { destruct (decide (ac_key command = "")); [|by injection Hkey]. by apply bind_ok in Hkey as (? & ? & [= _ <-] & [_ ->]%lift_inv). }
  apply bind_ok in H as (answer & e1 & Hsave & H). unfold save_in_estate in Hsave. apply bind_ok in Hsave as (readings & s & [= <- <-] & Hsave).
  apply in_db_inv in Hsave as (db1 & Hsave & ->). apply copied_save in Hsave as (validated & Hv & _ & Hops & Hok1 & Hst & Hor); [|done].
  cbn [rc_kind rc_spec rc_key rc_enabled] in *. apply bind_ok in H as ([] & e2 & Hrec & H). apply in_db_inv in Hrec as (db2 & Hrec & ->). cbn in Hrec.
  apply record_as_observed_ok in Hrec as (_ & Hok2 & Hops2 & Hst2 & Hor2); [|done]. apply bind_ok in H as ([] & e3 & [= <-] & [= <- <-]).
  exists u, validated. split_and!; [done..|]. constructor; cbn.
  - done.
  - done.
  - congruence.
  - done.
  - by eapply still_declared_trans.
  - eapply declared_or_trans; [| |apply Hor2].
    + intros x y Hy Hi Ha. unfold authored in Ha. injection Ha as _ -> -> ->. exact Hy.
    + eapply declared_or_weaken; [|exact Hor]. intros x [Ha _]. unfold authored in Ha. by injection Ha as _ -> -> ->.
Qed.

(** An adoption that is refused has written nothing. *)
Definition unmoved {A} (m : M exn Estate A) : Prop := forall e o e', m e = (o, e') -> e' = e.
Definition raises_clean {A} (m : M exn Estate A) : Prop := forall e ex e', m e = (Raise ex, e') -> e' = e.

Lemma clean_after_reading {A B} (m : M exn Estate A) (f : A -> M exn Estate B) : unmoved m -> (forall a, raises_clean (f a)) -> raises_clean (m ≫= f).
Proof. intros Hm Hf e ex e' [(a & s & Ha & H)|(ex' & Ha & _)]%bind_inv; apply Hm in Ha as ->; [by eapply Hf|done]. Qed.

Lemma clean_before_writing {A B} (m : M exn Estate A) (f : A -> M exn Estate B) : raises_clean m -> (forall a e ex e', f a e <> (Raise ex, e')) -> raises_clean (m ≫= f).
Proof. intros Hm Hf e ex e' [(a & s & Ha & H)|(ex' & Ha & _)]%bind_inv; [by apply Hf in H|by eapply Hm]. Qed.

Lemma unmoved_lift {A} (o : outcome exn A) : unmoved (lift o).
Proof. by intros e o' e' [_ ->]%lift_inv. Qed.

Lemma unmoved_gets {A} (f : Estate -> A) : unmoved (gets f).
Proof. by intros e o' e' [= _ <-]. Qed.

Lemma unmoved_raise_if t ex : unmoved (raise_if t ex).
Proof. by intros e o' e' [-> _]%guard_inv. Qed.

Lemma unmoved_ret {A} (a : A) : unmoved (mret a).
Proof. by intros e o' e' [= _ <-]. Qed.

Lemma unmoved_bind {A B} (m : M exn Estate A) (f : A -> M exn Estate B) : unmoved m -> (forall a, unmoved (f a)) -> unmoved (m ≫= f).
Proof. intros Hm Hf e o e' [(a & s & Ha & H)|(ex' & Ha & _)]%bind_inv; apply Hm in Ha as ->; [by eapply Hf|done]. Qed.

#[local] Hint Resolve unmoved_lift unmoved_gets unmoved_raise_if unmoved_ret unmoved_bind : core.

Lemma adopt_clean now command p : raises_clean (adopt now command p).
Proof.
  unfold Adoption.adopt. apply clean_after_reading; [done|intros found]. apply clean_after_reading; [done|intros [u|]]; [|by intros e ex e' [= _ <-]].
  apply clean_after_reading; [done|intros provider]. apply clean_after_reading; [done|intros []]. apply clean_after_reading; [done|intros []].
  apply clean_after_reading; [destruct (decide _); auto|intros key]. apply clean_before_writing; [|intros answer e ex e' H].
  - unfold save_in_estate. apply clean_after_reading; [done|]. intros readings e ex e' (db' & H & ->)%in_db_inv.
    apply save_raise in H as ->. apply mkEstate_self.
  - apply bind_inv in H as [([] & s & Ha & H)|(ex' & Ha & _)]; [done|]. by apply in_db_inv in Ha as (? & ? & _).
Qed.

(** * What a sweep takes on *)

(** A declaration taken on in an estate: what a managing connection read, which nothing declared and nobody
    had kept out, validated and switched on. *)
Definition TakenOn (e : Estate) (kind : string) (x : ManagedResource) : Prop :=
  exists u validated, Found (es_readings e) u /\ um_kind u = kind /\ um_observed_only u = false /\ (kind, um_token u) ∉ kept_out e /\
    (forall y, y ∈ db_resources (es_db e) -> mr_kind y = kind -> record_identity providers kind (mr_spec y) <> Ok (um_identity u)) /\
    validate_spec providers kind (um_spec u) = Ok validated /\ (mr_kind x, mr_spec x, mr_enabled x) = (kind, validated, true).

Record Took (P : Estate -> ManagedResource -> Prop) (e e' : Estate) : Prop := {
  tk_readings : es_readings e' = es_readings e;
  tk_not_managed : es_not_managed e' = es_not_managed e;
  tk_operations : db_operations (es_db e') = db_operations (es_db e);
  tk_ok : resources_ok (es_db e');
  tk_stands : still_declared (es_db e) (es_db e');
  tk_new : declared_or (P e) (es_db e) (es_db e');
}.

Lemma took_refl P e : resources_ok (es_db e) -> Took P e e.
Proof. intros Hok. constructor; [done..|apply still_declared_refl|apply declared_or_refl]. Qed.

Lemma taken_on_authored e kind x y : TakenOn e kind y -> mr_id x = mr_id y -> authored x = authored y -> TakenOn e kind x.
Proof.
  intros (u & v & H1 & H2 & H3 & H4 & H5 & H6 & H7) _ Ha. exists u, v. split_and!; [done..|]. unfold authored in Ha. injection Ha as _ -> -> ->. exact H7.
Qed.

(** What is taken on later was there to be taken on before. *)
Lemma taken_on_earlier e e1 kind x : es_readings e1 = es_readings e -> es_not_managed e1 = es_not_managed e -> still_declared (es_db e) (es_db e1) ->
  TakenOn e1 kind x -> TakenOn e kind x.
Proof.
  intros Hr Hn Hst (u & v & H1 & H2 & H3 & H4 & H5 & H6 & H7). exists u, v. unfold kept_out in *. rewrite Hr in H1. rewrite Hn in H4. split_and!; [done..| |done|done].
  intros y Hy Hk. destruct (Hst y Hy) as (z & Hz & _ & Ha). unfold authored in Ha. injection Ha as _ Hkz Hsz _. rewrite <- Hsz. apply H5; [done|congruence].
Qed.

Lemma took_trans (Q : string -> Prop) a b c :
  Took (fun e x => exists kind, Q kind /\ TakenOn e kind x) a b -> Took (fun e x => exists kind, Q kind /\ TakenOn e kind x) b c ->
  Took (fun e x => exists kind, Q kind /\ TakenOn e kind x) a c.
Proof.
  intros [] []. constructor; [congruence..|done|by eapply still_declared_trans|].
  eapply declared_or_trans; [|exact tk_new0|].
  - intros x y (kind & Hq & Hy) Hi Ha. exists kind. split; [done|by eapply taken_on_authored].
  - eapply declared_or_weaken; [|exact tk_new1]. intros x (kind & Hq & Hx). exists kind. split; [done|by eapply taken_on_earlier].
Qed.

Notation TookOf Q := (Took (fun e x => exists kind, Q kind /\ TakenOn e kind x)).

Lemma delete_nothing {A} (p : A -> bool) l : (forall x, x ∈ l -> p x = false) -> delete_where p l = l.
Proof.
  intros H. unfold delete_where. induction l as [|x l IH]; [done|]. cbn. rewrite (H x) by (by left). cbn. f_equal. apply IH. intros y Hy. apply H. by right.
Qed.

Lemma token_says kind identity : record_token digest kind identity <> "".
Proof. unfold record_token, clip. pose proof (digest_says (join unit_separator (kind :: identity))) as H. by destruct (digest _). Qed.

Lemma adopt_item_took now p kind e0 adopted u e adopted' e' : resources_ok (es_db e) -> es_not_managed e = es_not_managed e0 ->
  adopt_item now p kind (kept_out e0) adopted u e = (Ok adopted', e') -> TookOf (eq kind) e e'.
Proof.
  intros Hok Hn H. unfold Adoption.adopt_item in H. destruct (_ || um_observed_only u) eqn:Hskip; [injection H as <- <-; by apply took_refl|].
  apply orb_false_iff in Hskip as [[Hk%negb_false_iff%bool_decide_eq_true _]%orb_false_iff _].
  destruct (bool_decide _) eqn:Hex; [injection H as <- <-; by apply took_refl|]. apply bool_decide_eq_false in Hex.
  apply try_inv in H as [(answer & Hrun & _)|(ex & e1 & Hrun & H)].
  - apply bind_ok in Hrun as (result & e2 & Ha & [= _ <-]). apply adopt_ok in Ha as (v & validated & Hfind & Hobs & Hv & [Hr Hnm Hops Hok' Hst Hnew]); [|done].
    cbn [ac_kind ac_hostname ac_token] in Hfind. apply find_unmanaged_found in Hfind as (Hkind & Htoken & Hfound & Hund). specialize (Htoken (token_says _ _)).
    assert ((um_kind v, um_token v) ∉ kept_out e0) as Hout by (rewrite Hkind, Htoken; exact Hex).
    constructor; [done| |done|done|done|].
    + rewrite Hnm. apply delete_nothing. intros n Hin. apply bool_decide_eq_false. intros Heq. apply Hout. rewrite <- Heq. unfold kept_out. rewrite <- Hn.
      apply list_elem_of_fmap. by exists n.
    + eapply declared_or_weaken; [|exact Hnew]. intros x Hx. exists kind. split; [done|]. exists v, validated. assert (um_kind v = kind) as <- by congruence.
      refine (conj Hfound (conj eq_refl (conj Hobs (conj _ (conj Hund (conj Hv Hx)))))). unfold kept_out in *. by rewrite Hn.
  - destruct (is_passed_over ex); [injection H as <- <-|by destruct H].
    apply bind_inv in Hrun as [(result & e2 & _ & H)|(ex' & Ha & _)]; [done|]. apply adopt_clean in Ha as ->. by apply took_refl.
Qed.

Lemma adopt_fold_took now p kind e0 : forall all adopted e adopted' e', resources_ok (es_db e) -> es_not_managed e = es_not_managed e0 ->
  fold_each (adopt_item now p kind (kept_out e0)) adopted all e = (Ok adopted', e') -> TookOf (eq kind) e e'.
Proof.
  induction all as [|u all IH]; intros adopted e adopted' e' Hok Hn H; cbn [fold_each] in H; [injection H as <- <-; by apply took_refl|].
  apply bind_ok in H as (a1 & e1 & H1 & H). apply adopt_item_took in H1 as Ht; [|done..]. eapply took_trans; [exact Ht|].
  destruct Ht. eapply IH; [done| |exact H]. congruence.
Qed.

Lemma adopt_discovered_took now kind p e adopted e' : resources_ok (es_db e) -> adopt_discovered now kind p e = (Ok adopted, e') -> TookOf (eq kind) e e'.
Proof.
  intros Hok H. unfold Adoption.adopt_discovered in H. apply bind_ok in H as (excluded & s & [= <- <-] & H). apply bind_ok in H as (all & s & [= <- <-] & H).
  apply bind_ok in H as (l & s & [_ ->]%lift_inv & H). apply bind_ok in H as (keys & e1 & Hf & [= _ <-]). by eapply adopt_fold_took.
Qed.

Lemma adopt_kinds_took now p : forall kinds adopted e adopted' e', resources_ok (es_db e) ->
  fold_each (adopt_kind host providers connections public_dns names_at deploying_label subject rest digest slugify now p) adopted kinds e = (Ok adopted', e') ->
  TookOf (fun kind => kind ∈ kinds) e e'.
Proof.
  induction kinds as [|kind kinds IH]; intros adopted e adopted' e' Hok H; cbn [fold_each] in H; [injection H as <- <-; by apply took_refl|].
  apply bind_ok in H as (a1 & e1 & H1 & H). unfold adopt_kind in H1. apply bind_ok in H1 as (more & e2 & H1 & [= _ <-]). apply adopt_discovered_took in H1 as Ht; [|done].
  assert (forall a b, TookOf (eq kind) a b -> TookOf (fun k => k ∈ kind :: kinds) a b) as Hfirst.
  { intros a b []. constructor; [done..|]. eapply declared_or_weaken; [|exact tk_new0]. intros x (k & <- & Hx). exists kind. split; [by left|done]. }
  assert (forall a b, TookOf (fun k => k ∈ kinds) a b -> TookOf (fun k => k ∈ kind :: kinds) a b) as Hrest.
  { intros a b []. constructor; [done..|]. eapply declared_or_weaken; [|exact tk_new0]. intros x (k & Hk & Hx). exists k. split; [by right|done]. }
  eapply took_trans; [by apply Hfirst|]. apply Hrest. destruct Ht. by eapply IH.
Qed.

Lemma adoptable_kinds_say e kinds : adoptable_kinds providers connections e = Ok kinds -> RECORD_KIND ∉ kinds.
Proof.
  unfold Adoption.adoptable_kinds. rewrite outcome_bind_ok. intros (all & _ & [= <-]). rewrite sorted_perm, elem_of_remove_dups.
  intros [_ H]%list_elem_of_In%filter_In. by rewrite bool_decide_eq_true_2 in H.
Qed.

(** * What a sweep lets go of *)

Lemma restated_ok f db : (forall x, mr_id (f x) = mr_id x /\ authored (f x) = authored x /\ (resource_rules x = true -> resource_rules (f x) = true)) -> resources_ok db ->
  let db' := set_db_resources (map f (db_resources db)) db in resources_ok db' /\ still_declared db db' /\ forall P, declared_or P db db'.
Proof.
  intros Hf Hok db'. assert (db' = set_db_resources (update_where (fun _ => true) f (db_resources db)) db) as -> by done. split.
  - apply resources_update_ok; [|done]. intros x. destruct (Hf x) as (? & ? & ?). by split_and!.
  - apply updated_declared. intros x. destruct (Hf x) as (? & ? & _). done.
Qed.

Lemma sighted_says now s r : mr_id (sighted_row now s r) = mr_id r /\ authored (sighted_row now s r) = authored r /\ (resource_rules r = true -> resource_rules (sighted_row now s r) = true).
Proof.
  destruct s as [|c|f []]; cbn [sighted_row]; try (by split; [|split]).
  - by destruct (py_eq _ _); (split; [|split]).
  - split_and!; [done|done|]. unfold resource_rules. cbn. rewrite !andb_true_iff, !Z.leb_le. lia.
Qed.

Lemma confirm_observed_ok now payload db n db' : NoDup (map fst payload) -> resources_ok db -> confirm_observed providers now payload db = (Ok n, db') ->
  db_operations db' = db_operations db /\ resources_ok db' /\ still_declared db db' /\ forall P, declared_or P db db'.
Proof.
  intros Hk Hok H. unfold confirm_observed in H. apply bind_ok in H as ([m u] & db1 & H1 & H).
  apply (confirm_sweep_ok providers provider_parts digest) in H1 as (-> & _); [|apply (rok_ids _ Hok)|done]. apply bind_ok in H as ([] & db2 & Hm & [= _ <-]). unfold modify in Hm. injection Hm as <-.
  destruct (restated_ok (fun r => sighted_row now (seen_by providers now payload r) r) db (fun r => sighted_says now _ r) Hok) as (Hok1 & Hst1 & Hor1).
  split; [done|]. split; [|split].
  - apply resources_update_ok; [|done]. intros x. by split_and!.
  - eapply still_declared_trans; [exact Hst1|]. by apply (updated_declared _ (set_mr_last_observed_at (Some now))).
  - intros P. eapply (declared_or_weaken (fun _ => False)); [done|]. eapply declared_or_trans; [done|apply Hor1|].
    by apply (updated_declared _ (set_mr_last_observed_at (Some now))).
Qed.

(** A complete listing of its machine that does not hold it. *)
Definition Departed (payload : Sweep) (r : ManagedResource) : Prop :=
  exists report listed identity machine, report_of CONTAINER_KIND payload = Some report /\ kr_ok report = true /\ kr_refused_parts report = [] /\
    listed_identities providers (kr_records report) = Ok (Some listed) /\
    record_identity providers CONTAINER_KIND (mr_spec r) = Ok identity /\ hd_error identity = Some machine /\ identity ∉ listed /\
    (exists other, other ∈ listed /\ hd_error other = Some machine) /\ flag_of "on_demand" (mr_spec r) = false.

Lemma departed_says_of payload x y : mr_spec y = mr_spec x -> Departed payload x -> Departed payload y.
Proof. intros Hs (report & listed & identity & machine & Hd). exists report, listed, identity, machine. by rewrite Hs. Qed.

Lemma delete_resources_ok p db u db' : delete_resources p db = (Ok u, db') ->
  db' = set_db_resources (delete_where p (db_resources db)) db /\ forall r, r ∈ db_resources db -> p r = true -> kept_by_operations db r = false.
Proof.
  unfold delete_resources, act. destruct (existsb _ _) eqn:He; [done|]. intros [= _ <-]. split; [done|]. intros r Hr Hp.
  apply not_true_iff_false. intros Hk. apply not_true_iff_false in He. apply He, existsb_exists. exists r. split; [|done].
  by apply list_elem_of_In, elem_of_rows_where.
Qed.

Lemma resources_fewer_ok p db : resources_ok db -> resources_ok (set_db_resources (delete_where p (db_resources db)) db).
Proof.
  intros [Hi Hk Hr Hf Hb]. constructor; cbn [db_resources set_db_resources db_next_id]; try by apply NoDup_map_delete.
  - intros r [Hin _]%elem_of_delete_where. by apply Hr.
  - intros r [Hin _]%elem_of_delete_where. by apply Hf.
  - intros r [Hin _]%elem_of_delete_where. by apply Hb.
Qed.

Lemma retire_one_ok listed hosts retired r db retired' db' : resources_ok db -> retire_one providers listed hosts retired r db = (Ok retired', db') ->
  db_operations db' = db_operations db /\ resources_ok db' /\
  (forall x, x ∈ db_resources db' -> x ∈ db_resources db /\ (mr_id x = mr_id r -> departed providers listed hosts r = Ok false)) /\
  forall x, x ∈ db_resources db -> x ∈ db_resources db' \/
    mr_id x = mr_id r /\ departed providers listed hosts r = Ok true /\ kept_by_operations db x = false.
Proof.
  intros Hok H. unfold retire_one in H. apply bind_ok in H as (gone & s & [Hgone ->]%lift_inv & H). symmetry in Hgone. destruct gone.
  - apply bind_ok in H as ([] & s & H & [= _ <-]). apply delete_resources_ok in H as (-> & Hkept). split; [done|]. split; [by apply resources_fewer_ok|]. split.
    + intros x [Hx Hne%bool_decide_eq_false]%elem_of_delete_where. by split.
    + intros x Hx. destruct (decide (mr_id x = mr_id r)) as [He|He].
      * right. split_and!; [done..|]. apply Hkept; [done|]. by apply bool_decide_eq_true.
      * left. apply elem_of_delete_where. split; [done|]. by apply bool_decide_eq_false.
  - injection H as _ <-. split_and!; [done|done|by intros x Hx; split|by left].
Qed.

Lemma retire_fold_ok listed hosts : forall rows retired db retired' db', resources_ok db -> fold_each (retire_one providers listed hosts) retired rows db = (Ok retired', db') ->
  db_operations db' = db_operations db /\ resources_ok db' /\
  (forall x, x ∈ db_resources db' -> x ∈ db_resources db /\ forall r, r ∈ rows -> mr_id x = mr_id r -> departed providers listed hosts r = Ok false) /\
  forall x, x ∈ db_resources db -> x ∈ db_resources db' \/
    exists r, r ∈ rows /\ mr_id x = mr_id r /\ departed providers listed hosts r = Ok true /\ kept_by_operations db x = false.
Proof.
  induction rows as [|r rows IH]; intros retired db retired' db' Hok H; cbn [fold_each] in H; [injection H as _ <-; split_and!; [done|done| |by left]|].
  { intros x Hx. split; [done|]. by intros r ?%elem_of_nil. }
  apply bind_ok in H as (r1 & db1 & H1 & H). apply retire_one_ok in H1 as (Ho1 & Hok1 & Hin1 & Hgone1); [|done].
  apply IH in H as (Ho & Hok' & Hin & Hgone); [|done]. split; [congruence|]. split; [done|]. split.
  { intros x [Hx Hrows]%Hin. destruct (Hin1 x Hx) as [Hx0 Hr]. split; [done|]. by intros y [->|Hy]%elem_of_cons; [|apply Hrows]. }
  intros x Hx.
  destruct (Hgone1 x Hx) as [Hx1|(? & ? & ?)]; [|right; exists r; split_and!; [by left|done..]].
  destruct (Hgone x Hx1) as [?|(y & Hy & ? & ? & Hk)]; [by left|right]. exists y. split_and!; [by right|done..|]. unfold kept_by_operations in *. by rewrite <- Ho1.
Qed.

Lemma each_first_of listed hosts machine : each_of first_of listed = Ok hosts -> machine ∈ hosts -> exists other, other ∈ listed /\ hd_error other = Some machine.
Proof. intros H Hm. destruct (each_of_elem _ _ _ _ H Hm) as ([|m other] & Hin & Hf); [done|]. injection Hf as ->. by eexists. Qed.

Lemma first_of_head identity machine : first_of identity = Ok machine <-> hd_error identity = Some machine.
Proof. destruct identity; cbn; split; by intros [= ->]. Qed.

(** What a complete listing says of a row is whether it departed. *)
Lemma departed_iff payload report listed hosts r b :
  report_of CONTAINER_KIND payload = Some report -> kr_ok report = true -> kr_refused_parts report = [] ->
  listed_identities providers (kr_records report) = Ok (Some listed) -> each_of first_of listed = Ok hosts ->
  departed providers listed hosts r = Ok b -> b = true <-> Departed payload r.
Proof.
  intros Hrep Hrok Hrp Hl Hh Hd. unfold departed in Hd. apply outcome_bind_ok in Hd as (identity & Hi & Hd).
  apply outcome_bind_ok in Hd as (machine & Hm%first_of_head & [= <-]). rewrite negb_true_iff, !orb_false_iff, negb_false_iff. unfold among.
  rewrite bool_decide_eq_true, bool_decide_eq_false. split.
  - intros [[Hmach Hnot] Hdemand]. exists report, listed, identity, machine. split_and!; [done..|by eapply each_first_of|done].
  - intros (rep & lst & i & m & Hrep' & _ & _ & Hl' & Hi' & Hm' & Hnot & (other & Hin & Ho) & Hdemand).
    assert (rep = report) as -> by congruence. assert (lst = listed) as -> by congruence. assert (i = identity) as -> by congruence.
    assert (m = machine) as -> by congruence. split_and!; [|done|done]. destruct (each_of_in _ _ _ _ Hh Hin) as (host' & Hhost & Hf).
    apply first_of_head in Hf. assert (host' = machine) as -> by congruence. done.
Qed.

Lemma retire_departed_ok payload db retired db' : resources_ok db -> retire_departed providers payload db = (Ok retired, db') ->
  db_operations db' = db_operations db /\ resources_ok db' /\
  (forall x, x ∈ db_resources db' -> x ∈ db_resources db /\ (mr_kind x = CONTAINER_KIND -> ~ Departed payload x)) /\
  forall x, x ∈ db_resources db -> x ∈ db_resources db' \/ mr_kind x = CONTAINER_KIND /\ Departed payload x /\ kept_by_operations db x = false.
Proof.
  intros Hok H. unfold retire_departed in H.
  assert (forall u, (forall x, ~ Departed payload x) -> (mret u : M exn Db (list string)) db = (Ok retired, db') ->
    db_operations db' = db_operations db /\ resources_ok db' /\
    (forall x, x ∈ db_resources db' -> x ∈ db_resources db /\ (mr_kind x = CONTAINER_KIND -> ~ Departed payload x)) /\
    forall x, x ∈ db_resources db -> x ∈ db_resources db' \/ mr_kind x = CONTAINER_KIND /\ Departed payload x /\ kept_by_operations db x = false) as Hstay.
  { intros u Hno Hu. injection Hu as _ <-. split_and!; [done|done| |by left]. intros x Hx. split; [done|]. intros _. apply Hno. }
  destruct (report_of _ _) as [report|] eqn:Hrep; [|apply Hstay in H; [done|by intros x (? & ? & ? & ? & ? & _); simplify_eq]].
  destruct (_ || _ || _) eqn:Hsays.
  { apply Hstay in H; [done|]. intros x (rep & lst & i & m & Hr & Hrok & Hrp & Hl & _ & _ & _ & (other & Hin & _) & _). simplify_eq.
    rewrite Hrok, Hrp in Hsays. cbn in Hsays. apply bool_decide_eq_true in Hsays. rewrite Hsays in Hl. injection Hl as <-. by apply elem_of_nil in Hin. }
  apply orb_false_iff in Hsays as [[Hrok%negb_false_iff Hrp%negb_false_iff%bool_decide_eq_true]%orb_false_iff _].
  apply bind_ok in H as (listing & s & [Hl ->]%lift_inv & H). symmetry in Hl.
  destruct listing as [listed|]; [|apply Hstay in H; [done|]; intros x (rep & lst & i & m & Hrep' & _ & _ & Hl' & _); assert (rep = report) as -> by congruence; congruence].
  apply bind_ok in H as (hosts & s & [Hh ->]%lift_inv & H). symmetry in Hh. apply bind_ok in H as (rows & s & Hg & H). injection Hg as <- <-.
  apply retire_fold_ok in H as (Ho & Hok' & Hin & Hgone); [|done].
  assert (forall x, x ∈ order_by mr_key (rows_where (fun r => bool_decide (mr_kind r = CONTAINER_KIND)) (db_resources db)) <-> x ∈ db_resources db /\ mr_kind x = CONTAINER_KIND) as Hrows
    by (intros x; by rewrite elem_of_order_by, elem_of_rows_where, bool_decide_eq_true).
  split_and!; [done|done| |].
  - intros x [Hx Hstays]%Hin. split; [done|]. intros Hk Hdep. specialize (Hstays x (proj2 (Hrows x) (conj Hx Hk)) eq_refl).
    by apply (departed_iff payload report listed hosts x false) in Hdep.
  - intros x Hx. destruct (Hgone x Hx) as [?|(r & [Hr Hk]%Hrows & Hid & Hd & Hkept)]; [by left|right].
    assert (x = r) as -> by exact (unique_by mr_id _ _ _ (rok_ids _ Hok) Hx Hr Hid). split_and!; [done| |done].
    by apply (departed_iff payload report listed hosts r true).
Qed.

(** * A whole sweep *)

(** The estate with what a sweep read, before anything is taken on. *)
Definition reread (readings : list Reading) (e : Estate) : Estate := set_es_readings readings e.

(** A declaration that stands, under its id and saying what it said, in these rows. *)
Definition stands_in (db : Db) (r : ManagedResource) : Prop := exists x, x ∈ db_resources db /\ mr_id x = mr_id r /\ authored x = authored r.

(** What a sweep that is recorded comes to, over the tables of the estate. *)
Record SweptTo (payload : Sweep) (e e' : Estate) : Prop := {
  sw_kinds : NoDup (map rd_kind (es_readings e'));
  sw_not_managed : es_not_managed e' = es_not_managed e;
  sw_operations : db_operations (es_db e') = db_operations (es_db e);
  sw_ok : resources_ok (es_db e');
  sw_new : forall x, x ∈ db_resources (es_db e') -> stands_in (es_db e) x \/
    exists kind, kind <> RECORD_KIND /\ TakenOn (reread (es_readings e') e) kind x;
  sw_left : forall x, x ∈ db_resources (es_db e') -> mr_kind x = CONTAINER_KIND -> ~ Departed payload x;
  sw_gone : forall y, y ∈ db_resources (es_db e) -> stands_in (es_db e') y \/
    mr_kind y = CONTAINER_KIND /\ Departed payload y /\ kept_by_operations (es_db e) y = false;
}.

Lemma taken_on_reread e e1 kind x : db_resources (es_db e1) = db_resources (es_db e) -> es_not_managed e1 = es_not_managed e ->
  TakenOn e1 kind x -> TakenOn (reread (es_readings e1) e) kind x.
Proof. intros Hr Hn (u & v & H1 & H2 & H3 & H4 & H5 & H6 & H7). exists u, v. unfold kept_out in *. cbn. rewrite <- Hr, <- Hn. by split_and!. Qed.

Lemma stands_through (a b : Db) y : still_declared a b -> y ∈ db_resources a -> stands_in b y.
Proof. intros H Hy. by destruct (H y Hy) as (x & ? & ? & ?); exists x. Qed.

Lemma record_sweep_to now payload p controller_id e swept e' :
  resources_ok (es_db e) -> NoDup (map rd_kind (es_readings e)) -> NoDup (map fst payload) ->
  record_sweep now payload p controller_id e = (Ok swept, e') -> holds p MANAGE_INFRASTRUCTURE /\ SweptTo payload e e'.
Proof.
  intros Hok Hnd Hk H. unfold Adoption.record_sweep in H. apply (proj1 (atomic_ok _ _ _ _)) in H.
  apply bind_ok in H as (recorded & e1 & H1 & H). apply record_inventory_rows in H1 as (Hp & Hnd1 & [Hr1 Ho1 Hn1 Hx1] & _); [|done..]. split; [done|].
  assert (resources_ok (es_db e1)) as Hok1 by (by eapply resources_frame).
  apply bind_ok in H as (kinds & s & [= <- <-] & H). apply bind_ok in H as (kinds & s & [Hkinds ->]%lift_inv & H). symmetry in Hkinds.
  apply adoptable_kinds_say in Hkinds. apply bind_ok in H as (adopted & e2 & H2 & H). apply adopt_kinds_took in H2 as [Hr2 Hn2 Ho2 Hok2 Hst2 Hor2]; [|done].
  apply bind_ok in H as (confirmed & e3 & H3 & H). apply in_db_inv in H3 as (db3 & H3 & ->). apply confirm_observed_ok in H3 as (Ho3 & Hok3 & Hst3 & Hor3); [|done..].
  apply bind_ok in H as (retired & e4 & H4 & [= _ <-]). apply in_db_inv in H4 as (db4 & H4 & ->). cbn in H4.
  apply retire_departed_ok in H4 as (Ho4 & Hok4 & Hin4 & Hgone4); [|done]. constructor; cbn.
  - by rewrite Hr2.
  - congruence.
  - congruence.
  - done.
  - intros x [Hx _]%Hin4. destruct (Hor3 (fun _ => False) x Hx) as [[]|(y & Hy & Hi & Ha)]. destruct (Hor2 y Hy) as [(kind & Hkind & Ht)|(z & Hz & Hi' & Ha')].
    + right. exists kind. split; [by intros ->|]. rewrite Hr2. apply taken_on_reread; [done..|]. by eapply taken_on_authored.
    + left. exists z. rewrite <- Hr1. split_and!; [done|congruence..].
  - intros x Hx%Hin4. apply Hx.
  - intros y Hy. rewrite <- Hr1 in Hy. destruct (Hst2 y Hy) as (z & Hz & Hiz & Haz). destruct (Hst3 z Hz) as (x & Hx & Hix & Hax).
    destruct (Hgone4 x Hx) as [Hin|(Hc & Hd & Hkept)].
    + left. exists x. split_and!; [done|congruence..].
    + right. assert (mr_kind y = mr_kind x /\ mr_spec y = mr_spec x) as [Hky Hsy].
      { unfold authored in Haz, Hax. injection Haz as _ ? ? _. injection Hax as _ ? ? _. split; congruence. }
      split_and!; [congruence| |].
      * by apply (departed_says_of payload x).
      * unfold kept_by_operations in *. rewrite Ho3, Ho2, Ho1 in Hkept. by rewrite <- Hiz, <- Hix.
Qed.


(** * What stops a sweep *)

Lemma keep_out_says kind token label p e : (kind, token) ∈ kept_out (keep_out kind token label p e).2.
Proof.
  unfold keep_out, modify. cbn [snd]. destruct (existsb _ _) eqn:He.
  - apply existsb_exists in He as (n & Hn & Hs%bool_decide_eq_true). rewrite <- Hs. apply list_elem_of_fmap. exists n. split; [done|]. by apply list_elem_of_In.
  - unfold kept_out. cbn. rewrite map_app, elem_of_app. right. by left.
Qed.

Lemma keep_out_frame kind token label p e : es_db (keep_out kind token label p e).2 = es_db e /\ es_readings (keep_out kind token label p e).2 = es_readings e.
Proof. unfold keep_out, modify. cbn [snd]. by destruct (existsb _ _). Qed.


(** A sweep one of whose steps raises has stored nothing. *)
Lemma record_sweep_inv now payload p controller_id e o e' : record_sweep now payload p controller_id e = (o, e') ->
  (exists swept, o = Ok swept) \/ (exists ex, o = Raise ex /\ e' = e).
Proof. intros [(a & H & ->)|(ex & ? & H & -> & ->)]%atomic_inv; [left; eauto|right; eauto]. Qed.

(** A declaration an operation is of is not forgotten. *)
Lemma forget_declaration_kept now r command p e answer e' : r ∈ db_resources (es_db e) ->
  forget_declaration host providers names_at subject digest now r command p e = (Ok answer, e') -> kept_by_operations (es_db e) r = false.
Proof.
  intros Hr H. unfold forget_declaration in H. apply (proj1 (atomic_ok _ _ _ _)) in H.
  apply bind_ok in H as (held & s & [= <- <-] & H). apply bind_ok in H as (contained & s & [_ ->]%lift_inv & H).
  apply bind_ok in H as ([] & e1 & H1 & H). apply in_db_inv in H1 as (db1 & H1 & ->). apply delete_resources_ok in H1 as (-> & Hkept).
  destruct (among (mr_key r) contained) eqn:Hin; [by apply Hkept|].
  apply bind_ok in H as ([] & e2 & H2 & H).
  assert (es_db e2 = set_db_resources (delete_where (fun x => among (mr_key x) contained) (db_resources (es_db e))) (es_db e)) as Hdb2.
  { unfold keep_out_declaration in H2. destruct (provider_at providers (mr_kind r) ≫= pr_from_record); [|by injection H2 as <-].
    apply bind_ok in H2 as (i & s & [_ ->]%lift_inv & H2). case_bool_decide; [by injection H2 as <-|].
    match type of H2 with keep_out ?k ?t ?l ?q ?s = _ => pose proof (proj1 (keep_out_frame k t l q s)) as Hdb end. by rewrite H2 in Hdb. }
  apply bind_ok in H as ([] & e3 & H3 & _). apply in_db_inv in H3 as (db3 & H3 & ->). rewrite Hdb2 in H3.
  apply delete_resources_ok in H3 as (_ & Hkept3). unfold kept_by_operations in *. apply (Hkept3 r); [|by apply bool_decide_eq_true].
  cbn. by apply elem_of_delete_where.
Qed.

Lemma resource_of_in db r : NoDup (map mr_key (db_resources db)) -> r ∈ db_resources db -> resource_of (mr_key r) db = Some r.
Proof.
  intros Hnd Hin. destruct (first_where_is_some (fun x => bool_decide (mr_key x = mr_key r)) _ _ Hin) as [x Hx]; [by apply bool_decide_eq_true|].
  unfold resource_of. rewrite Hx. apply first_where_some in Hx as [Hx Hk%bool_decide_eq_true]. f_equal. by eapply (unique_by mr_key).
Qed.

(** The one removal asked for by its key, of a record HQ only keeps. *)
Lemma removal_forgets now command p current_key e o e' r provider : resource_of current_key (es_db e) = Some r ->
  provider_at providers (mr_kind r) = Some provider -> pr_declaration_only provider || observes_only providers connections (mr_kind r) (mr_spec r) = true ->
  Adoption.request_removal host providers connections public_dns names_at subject rest digest now command p current_key e = (o, e') ->
  forget_declaration host providers names_at subject digest now r command p e = (o, e').
Proof.
  intros Hr Hp Honly H. unfold Adoption.request_removal in H. rewrite (bind_step _ _ _ r e) in H.
  - rewrite (bind_step _ _ _ provider e) in H; [by rewrite Honly in H|]. unfold lift, provider_named. by rewrite Hp.
  - unfold in_db, resource_for_operation, act. rewrite Hr. by rewrite mkEstate_self.
Qed.

(** C23: A container with a history that its machine no longer holds stops the sweep that finds it so, and every
    sweep that finds it so after it: an operation protects the declaration it is of ([on_delete=PROTECT]),
    letting go of a departed container deletes its declaration without them, and what that raises undoes
    everything the sweep had read. Nor can it be let go of by hand, since removing what HQ only keeps does
    the same. *)
Theorem departed_with_history_stops_sweeps (now : Z) (payload : Sweep) (p : Principal) (controller_id : string) (e e' : Estate) (o : outcome exn Swept)
    (r : ManagedResource) (provider : ProviderSpec) :
  resources_ok (es_db e) -> NoDup (map rd_kind (es_readings e)) -> NoDup (map fst payload) ->
  r ∈ db_resources (es_db e) -> mr_kind r = CONTAINER_KIND -> Departed payload r -> kept_by_operations (es_db e) r = true ->
  provider_at providers CONTAINER_KIND = Some provider -> pr_declaration_only provider = true ->
  record_sweep now payload p controller_id e = (o, e') ->
  (exists ex, o = Raise ex) /\ e' = e /\
  forall then_ command q answer e1, Adoption.request_removal host providers connections public_dns names_at subject rest digest then_ command q (mr_key r) e <> (Ok answer, e1).
Proof.
  intros Hok Hnd Hk Hr Hkind Hd Hkept Hp Honly H.
  assert ((exists ex, o = Raise ex) /\ e' = e) as [Hraises He].
  { destruct (record_sweep_inv _ _ _ _ _ _ _ H) as [(swept & ->)|(ex & -> & ->)]; [|by split; [exists ex|]]. exfalso.
    apply record_sweep_to in H as (_ & [_ _ _ _ _ Hleft Hgone]); [|done..]. destruct (Hgone r Hr) as [(x & Hx & _ & Ha)|(_ & _ & Hno)]; [|congruence].
    unfold authored in Ha. injection Ha as _ Hkx Hsx _. apply (Hleft x Hx); [congruence|]. by eapply departed_says_of. }
  split_and!; [done..|]. intros then_ command q answer e1 Hrun. apply (removal_forgets _ _ _ _ _ _ _ r provider) in Hrun.
  - apply forget_declaration_kept in Hrun; [congruence|done].
  - apply resource_of_in; [apply (rok_keys _ Hok)|done].
  - by rewrite Hkind.
  - by rewrite Honly.
Qed.
End Sweeps.

(** * What is stepped back from *)

Section Forgetting.
Context (host : Site) (providers : Registry) (public_dns : bool).
Context (names_at : list Reading -> Db -> string -> list string) (deploying_label : ManagedResource -> Db -> string) (subject : string) (rest : Plant).
Context (observations : list (string * Observation)) (provider_parts : string -> list string) (digest slugify : string -> string).
Hypothesis names_of_declarations : forall readings db db',
  map authored (db_resources db) = map authored (db_resources db') -> names_at readings db = names_at readings db'.
Hypothesis digest_says : forall text, digest text <> "".

(** Sweeps, one after another, each recorded, whatever connections there are by then. *)
Inductive swept_on : Estate -> Estate -> Prop :=
| swept_none e : swept_on e e
| swept_then connections now payload p controller_id swept e e1 e2 : NoDup (map fst payload) ->
    Adoption.record_sweep host providers connections public_dns names_at deploying_label subject rest observations provider_parts digest slugify now payload p controller_id e
      = (Ok swept, e1) ->
    swept_on e1 e2 -> swept_on e e2.

(** A declaration taken on from a record some sweep found, which was not the one of this kind and identity. *)
Definition TakenFromAnother (kind : string) (identity : list string) (x : ManagedResource) : Prop :=
  exists connections readings u validated, Found providers connections readings u /\ (um_kind u, um_identity u) <> (kind, identity) /\
    validate_spec providers (um_kind u) (um_spec u) = Ok validated /\ (mr_kind x, mr_spec x, mr_enabled x) = (um_kind u, validated, true).

Lemma taken_from_another_authored kind identity x y : TakenFromAnother kind identity y -> authored x = authored y -> TakenFromAnother kind identity x.
Proof. intros (c & l & u & v & H1 & H2 & H3 & H4) Ha. exists c, l, u, v. split_and!; [done..|]. unfold authored in Ha. by injection Ha as _ -> -> ->. Qed.

Lemma taken_on_another connections e kind identity k x : (kind, record_token digest kind identity) ∈ kept_out e -> TakenOn providers connections digest e k x -> TakenFromAnother kind identity x.
Proof.
  intros Hout (u & v & H1 & <- & _ & H4 & _ & H6 & H7). exists connections, (es_readings e), u, v. split_and!; [done| |done|done]. intros [= Hk Hi]. apply H4.
  unfold Adoption.um_token. by rewrite Hi, Hk.
Qed.

Lemma swept_on_keeps_out kind identity e e' : swept_on e e' -> resources_ok (es_db e) -> NoDup (map rd_kind (es_readings e)) ->
  (kind, record_token digest kind identity) ∈ kept_out e ->
  forall x, x ∈ db_resources (es_db e') -> stands_in (es_db e) x \/ TakenFromAnother kind identity x.
Proof.
  induction 1 as [e|connections now payload p controller_id swept e e1 e2 Hk H Hon IH]; intros Hok Hnd Hout x Hx; [left; by exists x|].
  apply (record_sweep_to _ _ _ _ _ _ _ _ _ _ _ _ names_of_declarations digest_says) in H as (_ & [Hnd1 Hnm1 _ Hok1 Hnew1 _]); [|done..]. destruct (IH Hok1 Hnd1) with (x := x) as [(y & Hy & Hi & Ha)|?]; [|done| |by right].
  - unfold kept_out in *. by rewrite Hnm1.
  - destruct (Hnew1 y Hy) as [(z & Hz & Hi' & Ha')|(k & _ & Ht)]; [left; exists z; split_and!; [done|congruence..]|right].
    eapply taken_from_another_authored; [|symmetry; exact Ha]. exact (taken_on_another _ (reread (es_readings e1) e) _ _ _ _ Hout Ht).
Qed.

Lemma brought_up_says now fp r : authored (brought_up now fp r) = authored r /\ mr_id (brought_up now fp r) = mr_id r /\ (resource_rules r = true -> resource_rules (brought_up now fp r) = true).
Proof.
  split_and!; [apply brought_up_authored..|]. unfold brought_up. repeat case_decide; [done..|]. unfold resource_rules. cbn. rewrite !andb_true_iff, !Z.leb_le. lia.
Qed.

(** A declaration stepped back from: it is gone, what is left stood before, and its record is kept out. *)
Lemma forget_declaration_ok now r command p e answer e' identity : resources_ok (es_db e) -> r ∈ db_resources (es_db e) ->
  forget_declaration host providers names_at subject digest now r command p e = (Ok answer, e') ->
  is_some (provider_at providers (mr_kind r) ≫= pr_from_record) = true -> record_identity providers (mr_kind r) (mr_spec r) = Ok identity -> identity <> [] ->
  resources_ok (es_db e') /\ es_readings e' = es_readings e /\ (mr_kind r, record_token digest (mr_kind r) identity) ∈ kept_out e' /\
  (forall x, x ∈ db_resources (es_db e') -> mr_id x <> mr_id r /\ stands_in (es_db e) x) /\
  db_operations (es_db e') = db_operations (es_db e).
Proof.
  intros Hok Hr H Hfrom Hid Hne. unfold forget_declaration in H. apply (proj1 (atomic_ok _ _ _ _)) in H.
  apply bind_ok in H as (held & s & [= <- <-] & H). apply bind_ok in H as (contained & s & [_ ->]%lift_inv & H).
  apply bind_ok in H as ([] & e1 & H1 & H). apply in_db_inv in H1 as (db1 & H1 & ->). apply delete_resources_ok in H1 as (-> & _).
  apply bind_ok in H as ([] & e2 & H2 & H). unfold keep_out_declaration in H2.
  destruct (provider_at providers (mr_kind r) ≫= pr_from_record) as [from|]; [|done].
  apply bind_ok in H2 as (i & s & [Hi ->]%lift_inv & H2). rewrite Hid in Hi. injection Hi as ->. rewrite bool_decide_eq_false_2 in H2 by done.
  match type of H2 with keep_out ?k ?t ?l ?q ?s = _ => pose proof (keep_out_says k t l q s) as Hout; pose proof (keep_out_frame k t l q s) as [Hdb2 Hrd2] end.
  rewrite H2 in Hout, Hdb2, Hrd2. cbn [snd es_db es_readings] in Hout, Hdb2, Hrd2.
  apply bind_ok in H as ([] & e3 & H3 & H). apply in_db_inv in H3 as (db3 & H3 & ->). apply delete_resources_ok in H3 as (-> & _). rewrite Hdb2, Hrd2 in H. cbn in H.
  set (db3 := set_db_resources _ _) in H. assert (resources_ok db3) as Hok3 by (by apply resources_fewer_ok, resources_fewer_ok).
  assert (forall x, x ∈ db_resources db3 -> mr_id x <> mr_id r /\ x ∈ db_resources (es_db e)) as Hin3.
  { intros x [[Hx _]%elem_of_delete_where Hne3%bool_decide_eq_false]%elem_of_delete_where. done. }
  apply bind_ok in H as ([] & e4 & H4 & [= _ <-]).
  assert (e4 = mkEstate db3 (es_readings e) (es_not_managed e2) \/
    exists targets advanced db4, advance_dependents host providers (names_at (es_readings e)) subject now targets db3 = (Ok advanced, db4) /\ e4 = mkEstate db4 (es_readings e) (es_not_managed e2)) as Hadv.
  { destruct (provider_at providers (mr_kind r)) as [provider|]; [|injection H4 as <-; by left]. destruct (pr_resolution_input provider); [|injection H4 as <-; by left].
    apply bind_ok in H4 as (readings & s & [= <- <-] & H4). apply bind_ok in H4 as (advanced & e5 & H5 & [= <-]). apply in_db_inv in H5 as (db4 & H5 & ->).
    apply bind_ok in H5 as (targets & s & [= _ <-] & H5). right. by exists targets, advanced, db4. }
  destruct Hadv as [->|(targets & advanced & db4 & Hadv & ->)]; cbn.
  - split_and!; [done|done|done| |done]. intros x [Hn Hx]%Hin3. split; [done|]. by exists x.
  - apply advance_dependents_ok in Hadv as (_ & -> & _); [|apply names_of_declarations|apply (rok_ids _ Hok3)].
    split_and!; [|done|done| |done].
    + apply resources_update_ok; [|done]. intros x. apply brought_up_says.
    + intros x (y & [Hn Hy]%Hin3 & ->)%elem_of_update_where. destruct (mr_enabled y); [|split; [done|by exists y]].
      destruct (brought_up_says now (or_else "" (fingerprint_of host providers (names_at (es_readings e)) targets y db3)) y) as (Ha & Hi' & _).
      rewrite Hi'. split; [done|]. exists y. split_and!; [done|congruence..].
Qed.

End Forgetting.

(** * A machine's containers over four sweeps *)

Definition demo_digest (text : string) : string := "0" +:+ String.string_of_list_ascii (rev (String.list_ascii_of_string text)).

Lemma demo_digest_says text : demo_digest text <> "".
Proof. done. Qed.

Definition swept_registry : Registry := (REGISTRY demo_words ++ [(CONTAINER_KIND, CONTAINER demo_words)])%list.
Definition docker_managed : list Managing := [mkManaging "portainer" "docker" true].
Definition listed_on (machine name : string) : dict :=
  [("connection_ref", JStr "docker"); ("host", JStr machine); ("name", JStr name); ("stack", JBool true)].
Definition docker_listing (names : list string) : list (string * KindReport) :=
  [(CONTAINER_KIND, mkKindReport true true (map (listed_on "nas") names) "" "" [] false)].
Notation demo_sweep connections := (record_sweep demo_host swept_registry connections false (fun _ _ _ => []) (fun _ _ => "") "infrastructure.resource.update" working_plant
  [] (fun _ => []) demo_digest (fun text => text)).
Notation no_estate := (mkEstate empty_db [] []).

(** Two containers found; then one of them gone. *)
Definition both_listed : Estate := (demo_sweep docker_managed 1 (docker_listing ["api"; "web"]) ada "controller" no_estate).2.
Definition one_listed : Estate := (demo_sweep docker_managed 2 (docker_listing ["api"]) ada "controller" both_listed).2.
Definition restarted : Estate :=
  (in_db (request_restart (site demo_host swept_registry) (plant swept_registry docker_managed false (fun _ _ => []) working_plant) 2 (mkOperationCommand "once" "It hangs.") ada "nas-web") both_listed).2.
Notation stuck := (demo_sweep docker_managed 3 (docker_listing ["api"]) ada "controller" restarted).

Definition estate_keys (e : Estate) : list string := map mr_key (db_resources (es_db e)).

(** Stepped back from, and found again. *)
Notation stepped_back := (request_removal demo_host swept_registry docker_managed false (fun _ _ _ => []) "infrastructure.resource.update" working_plant demo_digest
  3 (mkOperationCommand "back" "Not ours.") ada "nas-web" both_listed).
Notation swept_after := (demo_sweep docker_managed 4 (docker_listing ["api"; "web"]) ada "controller" stepped_back.2).

Example what_sweeps_leave :
  map estate_keys [both_listed; one_listed; restarted; stepped_back.2; swept_after.2] =
    [["nas-api"; "nas-web"]; ["nas-api"]; ["nas-api"; "nas-web"]; ["nas-api"]; ["nas-api"]] /\
  stuck.1 = Raise PROTECTED.
Proof. vm_compute. done. Qed.

Lemma answered_run {A S} (r : outcome exn A * S) : match r.1 with Ok _ => true | Raise _ => false end = true -> exists a, r = (Ok a, r.2).
Proof. destruct r as [[a|e] s]; [by exists a|done]. Qed.

Lemma both_listed_ok : resources_ok (es_db both_listed) /\ NoDup (map rd_kind (es_readings both_listed)).
Proof.
  split; [apply resources_checked; vm_compute; reflexivity|].
  assert (map rd_kind (es_readings both_listed) = [CONTAINER_KIND]) as -> by (vm_compute; reflexivity). apply NoDup_singleton.
Qed.

Lemma restarted_ok : resources_ok (es_db restarted) /\ NoDup (map rd_kind (es_readings restarted)).
Proof.
  split; [apply resources_checked; vm_compute; reflexivity|].
  assert (map rd_kind (es_readings restarted) = [CONTAINER_KIND]) as -> by (vm_compute; reflexivity). apply NoDup_singleton.
Qed.

Lemma docker_listing_once names : NoDup (map fst (docker_listing names)).
Proof. apply NoDup_singleton. Qed.


Lemma with_second {A B} (r : A * B) b : r.2 = b -> r = (r.1, b).
Proof. by intros <-; destruct r. Qed.

Lemma some_triple {A B C} (a x : A) (b y : B) (c z : C) : Some (a, b, c) = Some (x, y, z) -> a = x /\ b = y /\ c = z.
Proof. by intros [= -> -> ->]. Qed.

(** The container the listing no longer holds, of an estate. *)
Lemma web_departed e r : resource_of "nas-web" (es_db e) = Some r ->
  (fun x => (mr_kind x, record_identity swept_registry CONTAINER_KIND (mr_spec x), flag_of "on_demand" (mr_spec x))) <$> resource_of "nas-web" (es_db e)
    = Some (CONTAINER_KIND, Ok ["nas"; "web"], false) ->
  r ∈ db_resources (es_db e) /\ mr_kind r = CONTAINER_KIND /\ Departed swept_registry (docker_listing ["api"]) r.
Proof.
  intros Hr Hsays. rewrite Hr in Hsays. apply some_triple in Hsays as (Hk & Hi & Hd). split; [by apply first_where_some in Hr as [? _]|]. split; [done|].
  eexists _, [["nas"; "api"]], ["nas"; "web"], "nas". split_and!; [reflexivity|done|done|vm_compute; reflexivity|done|done| | |done].
  - intros [= ]%list_elem_of_singleton.
  - exists ["nas"; "api"]. split; [by left|done].
Qed.

Lemma departed_with_history_stops_sweeps_witness : stuck = (stuck.1, restarted) /\ stuck.1 = Raise PROTECTED.
Proof.
  split; [|vm_compute; reflexivity]. destruct (resource_of "nas-web" (es_db restarted)) as [r|] eqn:Hr; [|vm_compute in Hr; discriminate Hr].
  destruct (web_departed restarted r Hr ltac:(vm_compute; reflexivity)) as (Hin & Hk & Hd).
  assert (Hops : (fun x => kept_by_operations (es_db restarted) x) <$> resource_of "nas-web" (es_db restarted) = Some true) by (vm_compute; reflexivity).
  rewrite Hr in Hops. apply (inj Some) in Hops.
  pose proof (departed_with_history_stops_sweeps demo_host swept_registry docker_managed false (fun _ _ _ => []) (fun _ _ => "") "infrastructure.resource.update" working_plant
    [] (fun _ => []) demo_digest (fun text => text) (fun _ _ _ _ => eq_refl) demo_digest_says 3 (docker_listing ["api"]) ada "controller" restarted stuck.2 stuck.1 r (CONTAINER demo_words)
    (proj1 restarted_ok) (proj2 restarted_ok) (docker_listing_once _) Hin Hk Hd Hops eq_refl eq_refl (surjective_pairing _)) as (_ & He & _).
  exact (with_second _ _ He).
Defined.

