(* ===== verification/Dates.v ===== *)
(** Days as Python's [datetime.date] counts them: a date is its proleptic Gregorian ordinal, day 1 being
    1 January of year 1, with its year, month and day read off it, and arithmetic that raises past either end. *)
From stdpp Require Import base list list_numbers strings pretty.
From Stdlib Require Import Ascii ZArith Lia.
From S2P Require Import Prelude PyStr Refusals Models.

#[local] Open Scope Z_scope.

(** * The calendar *)

Definition is_leap (y : Z) : bool := (y mod 4 =? 0) && (negb (y mod 100 =? 0) || (y mod 400 =? 0)).

(** [calendar.monthrange(year, month)[1]], of a month from 1 to 12. *)
Definition days_in_month (y m : Z) : Z :=
  if m =? 2 then (if is_leap y then 29 else 28) else if (m =? 4) || (m =? 6) || (m =? 9) || (m =? 11) then 30 else 31.

Definition days_before_year (y : Z) : Z := let p := y - 1 in p * 365 + p / 4 - p / 100 + p / 400.

(** Before the month, in a year that is not a leap year. *)
Definition days_before (m : Z) : Z :=
  nth (Z.to_nat (m - 1)) [0; 31; 59; 90; 120; 151; 181; 212; 243; 273; 304; 334; 365] 365.

Definition days_before_month (y m : Z) : Z := days_before m + (if (2 <? m) && is_leap y then 1 else 0).

(** [date.toordinal()] *)
Definition ymd2ord (y m d : Z) : Z := days_before_year y + days_before_month y m + d.

Fixpoint month_from (y m : Z) (more : nat) (doy : Z) : Z :=
  match more with
  | O => m
  | S more => if doy <? days_before_month y (m + 1) then m else month_from y (m + 1) more doy
  end.

(** The year and the day of it, from zero. *)
Definition year_of (n : Z) : Z * Z :=
  let n0 := n - 1 in
  let '(n400, n) := (n0 / 146097, n0 mod 146097) in
  let '(n100, n) := (n / 36524, n mod 36524) in
  let '(n4, n) := (n / 1461, n mod 1461) in
  let '(n1, n) := (n / 365, n mod 365) in
  let year := n400 * 400 + n100 * 100 + n4 * 4 + n1 + 1 in
  if (n1 =? 4) || (n100 =? 4) then (year - 1, 365) else (year, n).

(** [date.fromordinal(n)], as its three parts. *)
Definition ord2ymd (n : Z) : Z * Z * Z :=
  let '(y, doy) := year_of n in
  let m := month_from y 1 11 doy in (y, m, doy - days_before_month y m + 1).

Definition day_year (n : Z) : Z := (ord2ymd n).1.1.
Definition day_month (n : Z) : Z := (ord2ymd n).1.2.
Definition day_of_month (n : Z) : Z := (ord2ymd n).2.

(** [date.weekday()]: Monday is 0. *)
Definition weekday (n : Z) : Z := (n + 6) mod 7.

(** [date.max] and [date.min] *)
Definition MAXORDINAL : Z := 3652059.

Definition is_day (n : Z) : bool := (1 <=? n) && (n <=? MAXORDINAL).

Definition OVERFLOW : exn := OtherError "OverflowError" "date value out of range".

(** [day + timedelta(days=n)] *)
Definition plus_days (day n : Z) : outcome exn Z := if is_day (day + n) then Ok (day + n) else Raise OVERFLOW.

(** [date(year, month, day)] of a day its month has. *)
Definition new_date (y m d : Z) : outcome exn Z :=
  if (1 <=? y) && (y <=? 9999) then Ok (ymd2ord y m d)
  else Raise (ValueError ("year must be in 1..9999, not " +:+ pretty y)).

(** [date.isoformat()] *)
Definition iso_day (n : Z) : string :=
  let '(y, m, d) := ord2ymd n in (padded 4 y +:+ "-" +:+ padded 2 m +:+ "-" +:+ padded 2 d)%string.

Example some_days : map (fun n => (iso_day n, weekday n)) [1; 59; 60; 730179; 730485; 739526; MAXORDINAL]
  = [("0001-01-01", 0); ("0001-02-28", 2); ("0001-03-01", 3); ("2000-02-29", 1); ("2000-12-31", 6); ("2025-10-02", 3); ("9999-12-31", 4)]%string.
Proof. vm_compute. reflexivity. Qed.

(** * A date and its parts *)

Ltac months m := let H := fresh in assert (m = 1 \/ m = 2 \/ m = 3 \/ m = 4 \/ m = 5 \/ m = 6 \/ m = 7 \/ m = 8 \/ m = 9 \/ m = 10 \/ m = 11 \/ m = 12) as H by lia;
  destruct H as [->|[->|[->|[->|[->|[->|[->|[->|[->|[->|[->| ->]]]]]]]]]]].

Definition valid_day (y m d : Z) : Prop := 1 <= m <= 12 /\ 1 <= d <= days_in_month y m.

Lemma next_month y m : 1 <= m <= 12 -> days_before_month y (m + 1) = days_before_month y m + days_in_month y m.
Proof. intros Hm. unfold days_before_month, days_in_month. months m; cbn; destruct (is_leap y); reflexivity. Qed.

Definition leap_day (y : Z) : Z := if is_leap y then 1 else 0.

Lemma days_before_13 y : days_before_month y 13 = 365 + leap_day y.
Proof. unfold days_before_month, leap_day. cbn. by destruct (is_leap y). Qed.

Lemma days_before_1 y : days_before_month y 1 = 0.
Proof. done. Qed.

Lemma next_year y : days_before_year (y + 1) = days_before_year y + 365 + leap_day y.
Proof.
  unfold days_before_year, leap_day, is_leap. replace (y + 1 - 1) with y by lia.
  destruct (Z.eqb_spec (y mod 4) 0), (Z.eqb_spec (y mod 100) 0), (Z.eqb_spec (y mod 400) 0); cbn; Z.to_euclidean_division_equations; lia.
Qed.

Lemma month_days y m : 1 <= m <= 12 -> 28 <= days_in_month y m <= 31 /\ 0 <= days_before_month y m <= 335.
Proof. intros Hm. unfold days_before_month, days_in_month, days_before. months m; simpl; destruct (is_leap y); lia. Qed.

Lemma months_grow y m m' : 1 <= m -> m < m' -> m' <= 13 -> days_before_month y m + days_in_month y m <= days_before_month y m'.
Proof.
  intros H1 Hlt H13. rewrite <- next_month by lia. revert H13. apply (Zlt_lower_bound_ind (fun x => x <= 13 -> days_before_month y (m + 1) <= days_before_month y x) (m + 1)); [|lia].
  intros x IH Hx H13. destruct (Z.eq_dec x (m + 1)) as [->|]; [lia|]. replace x with (x - 1 + 1) at 1 by lia. rewrite (next_month y (x - 1)) by lia.
  pose proof (month_days y (x - 1)). specialize (IH (x - 1)). lia.
Qed.

Lemma day_of_year y m d : valid_day y m d -> 0 <= days_before_month y m + d - 1 < 365 + leap_day y.
Proof.
  intros [Hm Hd]. pose proof (month_days y m Hm). pose proof (months_grow y m 13). rewrite days_before_13 in *. lia.
Qed.

Lemma month_from_finds y doy : forall more m, 1 <= m -> Z.of_nat more = 12 - m -> days_before_month y m <= doy < 365 + leap_day y ->
  let m' := month_from y m more doy in m <= m' <= 12 /\ days_before_month y m' <= doy < days_before_month y (m' + 1).
Proof.
  induction more as [|more IH]; intros m H1 Hm Hdoy; cbn [month_from].
  - assert (m = 12) as -> by lia. rewrite days_before_13. lia.
  - destruct (Z.ltb_spec doy (days_before_month y (m + 1))); [lia|]. specialize (IH (m + 1)). cbn zeta in IH. lia.
Qed.

Lemma year_of_split n400 r n100 r3 n4 r2 n1 r1 : r = 36524 * n100 + r3 -> r3 = 1461 * n4 + r2 -> r2 = 365 * n1 + r1 ->
  0 <= r < 146097 -> 0 <= r3 < 36524 -> 0 <= r2 < 1461 -> 0 <= r1 < 365 ->
  year_of (146097 * n400 + r + 1) =
    let year := n400 * 400 + n100 * 100 + n4 * 4 + n1 + 1 in if (n1 =? 4) || (n100 =? 4) then (year - 1, 365) else (year, r1).
Proof.
  intros H3 H2 H1 Hr Hr3 Hr2 Hr1. unfold year_of. replace (146097 * n400 + r + 1 - 1) with (146097 * n400 + r) by lia.
  rewrite <- (Z.div_unique (146097 * n400 + r) 146097 n400 r), <- (Z.mod_unique (146097 * n400 + r) 146097 n400 r) by lia.
  rewrite <- (Z.div_unique r 36524 n100 r3), <- (Z.mod_unique r 36524 n100 r3) by lia.
  rewrite <- (Z.div_unique r3 1461 n4 r2), <- (Z.mod_unique r3 1461 n4 r2) by lia.
  by rewrite <- (Z.div_unique r2 365 n1 r1), <- (Z.mod_unique r2 365 n1 r1) by lia.
Qed.

(** A count of days is 400-year, 100-year and 4-year runs, years and days. *)
Lemma runs_of_days a b c d : 0 <= b < 4 -> 0 <= c < 25 -> 0 <= d < 4 ->
  let y := 400 * a + 100 * b + 4 * c + d + 1 in
  leap_day y = (if (d =? 3) && (negb (c =? 24) || (b =? 3)) then 1 else 0) /\ days_before_year y = 146097 * a + 36524 * b + 1461 * c + 365 * d.
Proof.
  intros Hb Hc Hd y. split.
  { unfold leap_day, is_leap, y. destruct (Z.eqb_spec d 3), (Z.eqb_spec c 24), (Z.eqb_spec b 3),
      (Z.eqb_spec ((400 * a + 100 * b + 4 * c + d + 1) mod 4) 0), (Z.eqb_spec ((400 * a + 100 * b + 4 * c + d + 1) mod 100) 0), (Z.eqb_spec ((400 * a + 100 * b + 4 * c + d + 1) mod 400) 0);
      cbn; try reflexivity; exfalso; Z.to_euclidean_division_equations; lia. }
  unfold days_before_year, y. Z.to_euclidean_division_equations; lia.
Qed.

Lemma year_of_runs a b c d doy : 0 <= b < 4 -> 0 <= c < 25 -> 0 <= d < 4 ->
  let y := 400 * a + 100 * b + 4 * c + d + 1 in
  0 <= doy < 365 + leap_day y -> year_of (days_before_year y + doy + 1) = (y, doy).
Proof.
  intros Hb Hc Hd y Hdoy. destruct (runs_of_days a b c d Hb Hc Hd) as [Hleap Hdby]. fold y in Hleap, Hdby. rewrite Hdby. replace (146097 * a + 36524 * b + 1461 * c + 365 * d + doy + 1) with (146097 * a + (36524 * b + 1461 * c + 365 * d + doy) + 1) by lia.
  destruct (Z.eq_dec doy 365) as [->|Hn].
  - assert (d = 3 /\ (c <> 24 \/ b = 3)) as [-> Hcb].
    { destruct (Z.eqb_spec d 3), (Z.eqb_spec c 24), (Z.eqb_spec b 3); cbn in Hleap; lia. }
    destruct (Z.eq_dec c 24) as [->|].
    + assert (b = 3) as -> by lia. rewrite (year_of_split a _ 4 0 0 0 0 0) by lia. cbn. f_equal. unfold y. lia.
    + rewrite (year_of_split a _ b (1461 * c + 1460) c 1460 4 0) by lia. cbn. f_equal. unfold y. lia.
  - assert (doy < 365) by (destruct (_ && _) in Hleap; lia).
    rewrite (year_of_split a _ b (1461 * c + 365 * d + doy) c (365 * d + doy) d doy) by lia. cbn zeta.
    rewrite (proj2 (Z.eqb_neq d 4)), (proj2 (Z.eqb_neq b 4)) by lia. cbn. f_equal. unfold y. lia.
Qed.

Lemma year_of_day y doy : 0 <= doy < 365 + leap_day y -> year_of (days_before_year y + doy + 1) = (y, doy).
Proof.
  intros H. set (p := y - 1). set (r := p mod 400). set (r2 := r mod 100).
  assert (y = 400 * (p / 400) + 100 * (r / 100) + 4 * (r2 / 4) + r2 mod 4 + 1) as Hy.
  { assert (p = 400 * (p / 400) + r) by (apply Z.div_mod; lia). assert (r = 100 * (r / 100) + r2) by (apply Z.div_mod; lia).
    assert (r2 = 4 * (r2 / 4) + r2 mod 4) by (apply Z.div_mod; lia). assert (y = p + 1) by (unfold p; lia). clearbody p r r2. lia. }
  assert (0 <= r < 400) by (apply Z.mod_pos_bound; lia). assert (0 <= r2 < 100) by (apply Z.mod_pos_bound; lia).
  pose proof (Z.mod_pos_bound r2 4). clearbody p r r2. rewrite Hy in H |- *.
  assert (0 <= r / 100 < 4) by (split; [apply Z.div_pos; lia|apply Z.div_lt_upper_bound; lia]).
  assert (0 <= r2 / 4 < 25) by (split; [apply Z.div_pos; lia|apply Z.div_lt_upper_bound; lia]).
  apply year_of_runs; [lia|lia|lia|done].
Qed.

(** The parts of a date are those it was made of. *)
Lemma ord2ymd_parts y m d : valid_day y m d -> ord2ymd (ymd2ord y m d) = (y, m, d).
Proof.
  intros Hv. pose proof (day_of_year _ _ _ Hv) as Hdoy. destruct Hv as [Hm Hd]. unfold ord2ymd, ymd2ord.
  replace (days_before_year y + days_before_month y m + d) with (days_before_year y + (days_before_month y m + d - 1) + 1) by lia.
  rewrite year_of_day by done. pose proof (month_days y m Hm).
  pose proof (month_from_finds y (days_before_month y m + d - 1) 11 1) as Hf. cbn zeta in Hf.
  set (m' := month_from y 1 11 _) in *. assert (m' = m) as ->; [|f_equal; lia].
  destruct Hf as [Hm' Hin]; [lia|lia|rewrite days_before_1; lia|]. rewrite next_month in Hin by lia.
  pose proof (months_grow y m m'). pose proof (months_grow y m' m). lia.
Qed.

(** Every day is the day of its parts. *)
Lemma ymd2ord_parts n : let '(y, m, d) := ord2ymd n in valid_day y m d /\ ymd2ord y m d = n.
Proof.
  assert (exists y doy, 0 <= doy < 365 + leap_day y /\ n = days_before_year y + doy + 1) as (y & doy & Hdoy & ->).
  { pose proof (Z.div_mod (n - 1) 146097) as Hn. pose proof (Z.mod_pos_bound (n - 1) 146097) as Hr.
    set (a := (n - 1) / 146097) in *. set (r := (n - 1) mod 146097) in *. destruct (Z.eq_dec r 146096) as [Hlast|].
    - exists (400 * a + 100 * 3 + 4 * 24 + 3 + 1), 365. destruct (runs_of_days a 3 24 3) as [-> ->]; [lia..|]. cbn. lia.
    - pose proof (Z.div_mod r 36524) as Hb. pose proof (Z.mod_pos_bound r 36524) as Hb'. set (b := r / 36524) in *. set (r3 := r mod 36524) in *.
      pose proof (Z.div_mod r3 1461) as Hc. pose proof (Z.mod_pos_bound r3 1461) as Hc'. set (c := r3 / 1461) in *. set (r2 := r3 mod 1461) in *.
      pose proof (Z.div_mod r2 365) as Hd. pose proof (Z.mod_pos_bound r2 365) as Hd'. set (d := r2 / 365) in *.
      destruct (Z.eq_dec d 4) as [Hd4|].
      + exists (400 * a + 100 * b + 4 * c + 3 + 1), 365. destruct (runs_of_days a b c 3) as [-> ->]; [lia..|]. destruct (Z.eqb_spec c 24), (Z.eqb_spec b 3); cbn; lia.
      + exists (400 * a + 100 * b + 4 * c + d + 1), (r2 - 365 * d). destruct (runs_of_days a b c d) as [-> ->]; [lia..|]. destruct (_ && _); lia. }
  unfold ord2ymd. rewrite year_of_day by done. pose proof (month_from_finds y doy 11 1) as Hf. cbn zeta in Hf.
  destruct Hf as [Hm Hin]; [lia|lia|rewrite days_before_1; lia|].
  set (m := month_from y 1 11 doy) in *. rewrite next_month in Hin by lia. split; [split; lia|]. unfold ymd2ord. lia.
Qed.

(** * Months in a row *)

(** Months counted from that of year 0, and the first day of each. *)
Definition month_index (n : Z) : Z := 12 * day_year n + day_month n - 1.
Definition month_start (k : Z) : Z := ymd2ord (k / 12) (k mod 12 + 1) 1.
Definition month_length (k : Z) : Z := days_in_month (k / 12) (k mod 12 + 1).

Lemma month_number k : 1 <= k mod 12 + 1 <= 12.
Proof. pose proof (Z.mod_pos_bound k 12). lia. Qed.

Lemma month_start_next k : month_start (k + 1) = month_start k + month_length k.
Proof.
  unfold month_start, month_length, ymd2ord. pose proof (month_number k) as Hm. destruct (Z.eq_dec (k mod 12) 11) as [H11|].
  - assert ((k + 1) / 12 = k / 12 + 1 /\ (k + 1) mod 12 = 0) as [-> ->] by (Z.to_euclidean_division_equations; lia).
    rewrite H11. change (11 + 1) with 12. change (0 + 1) with 1. rewrite next_year, days_before_1. pose proof (next_month (k / 12) 12) as Hn. rewrite days_before_13 in Hn. lia.
  - assert ((k + 1) / 12 = k / 12 /\ (k + 1) mod 12 = k mod 12 + 1) as [-> ->] by (Z.to_euclidean_division_equations; lia).
    rewrite next_month by lia. lia.
Qed.

Lemma month_length_bound k : 28 <= month_length k <= 31.
Proof. apply month_days, month_number. Qed.

Lemma month_start_grows k k' : k <= k' -> month_start k + 28 * (k' - k) <= month_start k'.
Proof.
  apply (Zlt_lower_bound_ind (fun k' => month_start k + 28 * (k' - k) <= month_start k') k). intros x IH Hx.
  destruct (Z.eq_dec x k) as [->|]; [lia|]. replace x with (x - 1 + 1) at 2 by lia. rewrite month_start_next. pose proof (month_length_bound (x - 1)). specialize (IH (x - 1)). lia.
Qed.

Lemma month_of_parts y m : 1 <= m <= 12 -> (12 * y + m - 1) / 12 = y /\ (12 * y + m - 1) mod 12 + 1 = m.
Proof. intros. Z.to_euclidean_division_equations; lia. Qed.

Lemma day_in_month n : month_start (month_index n) <= n < month_start (month_index n + 1) /\ day_of_month n = n - month_start (month_index n) + 1 /\
  1 <= day_month n <= 12 /\ 1 <= day_of_month n <= month_length (month_index n).
Proof.
  pose proof (ymd2ord_parts n) as Hn. unfold month_index, day_year, day_month, day_of_month. destruct (ord2ymd n) as [[y m] d]. cbn [fst snd] in *.
  destruct Hn as [[Hm Hd] <-]. rewrite month_start_next. unfold month_start, month_length. destruct (month_of_parts y m Hm) as [-> ->]. unfold ymd2ord. lia.
Qed.

Lemma month_index_in n k : month_start k <= n < month_start (k + 1) -> month_index n = k.
Proof.
  intros H. pose proof (day_in_month n) as (Hn & _). pose proof (month_start_grows (month_index n + 1) k). pose proof (month_start_grows (k + 1) (month_index n)). lia.
Qed.

Lemma month_index_grows n n' : n <= n' -> month_index n <= month_index n'.
Proof.
  intros H. pose proof (day_in_month n) as (Hn & _). pose proof (day_in_month n') as (Hn' & _). pose proof (month_start_grows (month_index n' + 1) (month_index n)). lia.
Qed.

Lemma month_index_parts n : month_index n / 12 = day_year n /\ month_index n mod 12 + 1 = day_month n.
Proof. unfold month_index. apply month_of_parts, day_in_month. Qed.

(** A day of a month, by the months counted. *)
Lemma month_day_parts k d : 1 <= d <= month_length k -> let n := month_start k + d - 1 in month_index n = k /\ day_of_month n = d /\ n = ymd2ord (k / 12) (k mod 12 + 1) d.
Proof.
  intros Hd n. assert (month_index n = k) as Hk by (apply month_index_in; rewrite month_start_next; unfold n; lia).
  destruct (day_in_month n) as (_ & Hdom & _). rewrite Hk in Hdom. split_and!; [done|unfold n in *; lia|]. unfold n, month_start, ymd2ord. lia.
Qed.

(** The days there are end with year 9999. *)
Lemma months_of_9999 n : n <= MAXORDINAL <-> day_year n <= 9999.
Proof.
  destruct (day_in_month n) as (Hn & _ & Hm & _). assert (month_start (12 * 10000) = MAXORDINAL + 1) as Hlast by reflexivity. unfold month_index in Hn. split; intros H.
  - apply Z.nlt_ge. intros Hy. pose proof (month_start_grows (12 * 10000) (12 * day_year n + day_month n - 1)). lia.
  - pose proof (month_start_grows (12 * day_year n + day_month n - 1 + 1) (12 * 10000)). lia.
Qed.

(** Four hundred years on, every month is as long. *)
Lemma month_length_again k j : month_length (k + 4800 * j) = month_length k.
Proof.
  unfold month_length. assert ((k + 4800 * j) / 12 = k / 12 + 400 * j /\ (k + 4800 * j) mod 12 = k mod 12) as [-> ->] by (Z.to_euclidean_division_equations; lia).
  unfold days_in_month. assert (is_leap (k / 12 + 400 * j) = is_leap (k / 12)) as ->; [|done]. unfold is_leap.
  assert (forall y, (y + 400 * j) mod 4 = y mod 4 /\ (y + 400 * j) mod 100 = y mod 100 /\ (y + 400 * j) mod 400 = y mod 400) as Hy; [|by destruct (Hy (k / 12)) as (-> & -> & ->)].
  intros y. split_and!; Z.to_euclidean_division_equations; lia.
Qed.
