(* ===== verification/Recurrence.v ===== *)
(** The operator's own calendar entries (domains/calendars/models.py) and the days each falls on
    (application/calendar_entries.py): the generators a repeating entry steps through, the loop that takes its
    occurrences from them, and that it finds exactly the days the entry's own terms say. *)
From stdpp Require Import base sets list list_numbers strings pretty sorting.
From Stdlib Require Import Ascii ZArith Lia Sorting.Sorted.
From S2P Require Import Prelude PyStr Refusals Models PyJson Dates.

#[local] Open Scope Z_scope.

(** * The row *)

(** Days are ordinals, times of day and moments microseconds. *)
Record Entry := mk_Entry {
  en_id : Z;
  en_uid : string;
  en_title : string;
  en_starts_on : Z;
  en_ends_on : option Z;
  en_starts_at : option Z;
  en_ends_at : option Z;
  en_location : string;
  en_notes : string;
  en_repeat : string;
  en_interval : Z;
  en_weekdays : string;
  en_repeat_until : option Z;
  en_about : string;
  en_about_name : string;
  en_created_at : Z;
  en_updated_at : Z;
}.

Definition all_day (entry : Entry) : bool := negb (is_some (en_starts_at entry)).

(** [int(text)]: spaces around it, a sign, digits with single underscores between them. *)
Definition py_int (text : string) : outcome exn Z :=
  let digits s := if forallb (fun part => negb (bool_decide (part = ""%string))) (split_on "_" s) then int_of (join "" (split_on "_" s)) else None in
  let value := match strip text with
    | String "-" s => Z.opp <$> digits s
    | String "+" s => digits s
    | s => digits s
    end in
  match value with
  | Some n => Ok n
  | None => Raise (ValueError ("invalid literal for int() with base 10: " +:+ repr text))
  end.

(** [sorted({...})] of numbers: in order, each once. *)
Fixpoint insert_number (n : Z) (l : list Z) : list Z :=
  match l with
  | [] => [n]
  | m :: l' => if n <? m then n :: l else if n =? m then l else m :: insert_number n l'
  end.

Definition sorted_set (l : list Z) : list Z := fold_right insert_number [] l.

Fixpoint each_int (parts : list string) : outcome exn (list Z) :=
  match parts with
  | [] => Ok []
  | part :: parts =>
      if bool_decide (strip part = ""%string) then each_int parts
      else n ← py_int part; ns ← each_int parts; mret (n :: ns)
  end.

Definition weekday_numbers (entry : Entry) : outcome exn (list Z) := sorted_set <$> each_int (split_on "," (en_weekdays entry)).

(** * The days an entry starts on *)

(** A generator resumed: the days it yields, in order, one of which may raise, and what it is resumed with next;
    [None] when it is spent. *)
Definition Steps : Type := Z -> list (outcome exn Z) * outcome exn (option Z).

Definition _span_days (entry : Entry) : Z := default (en_starts_on entry) (en_ends_on entry) - en_starts_on entry.

Definition _daily (entry : Entry) : Steps := fun day => ([Ok day], Some <$> plus_days day (en_interval entry)).

(** Its state is the Monday of a week. *)
Definition _weekly (entry : Entry) (days : list Z) : Steps := fun week =>
  (List.filter (fun day => match day with Ok day => en_starts_on entry <=? day | Raise _ => true end) (map (fun weekday => plus_days week weekday) days),
   Some <$> plus_days week (7 * en_interval entry)).

(** Its state is how many months were counted. *)
Definition _monthly (entry : Entry) : Steps := fun index =>
  let start := en_starts_on entry in
  let months := day_month start - 1 + index * en_interval entry in
  let '(year, month) := (day_year start + months / 12, months mod 12 + 1) in
  (if day_of_month start <=? days_in_month year month then [new_date year month (day_of_month start)] else [], Ok (Some (index + 1))).

(** Its state is a year. *)
Definition _yearly (entry : Entry) : Steps := fun year =>
  let start := en_starts_on entry in
  (if day_of_month start <=? days_in_month year (day_month start) then [new_date year (day_month start) (day_of_month start)] else [],
   Ok (Some (year + en_interval entry))).

(** The days a weekly entry names, or the one it starts on. *)
Definition days_or_start (entry : Entry) (days : list Z) : list Z := match days with [] => [weekday (en_starts_on entry)] | _ => days end.

(** The generator and the state it starts in. *)
Definition _starts (entry : Entry) : outcome exn (Z * Steps) :=
  let start := en_starts_on entry in
  if bool_decide (en_repeat entry = ""%string) then Ok (start, fun _ => ([Ok start], Ok None))
  else if bool_decide (en_repeat entry = "daily"%string) then Ok (start, _daily entry)
  else if bool_decide (en_repeat entry = "weekly"%string) then
    days ← weekday_numbers entry; mret (start - weekday start, _weekly entry (days_or_start entry days))
  else if bool_decide (en_repeat entry = "monthly"%string) then Ok (0, _monthly entry)
  else if bool_decide (en_repeat entry = "yearly"%string) then Ok (day_year start, _yearly entry)
  else Raise (OtherError "KeyError" (en_repeat entry)).

(** [for day in ...]: a loop body goes on with what it found so far, or ends with an answer. *)
Definition Body : Type := list Z -> Z -> list Z + outcome exn (list Z).

Fixpoint visits (visit : Body) (days : list (outcome exn Z)) (found : list Z) : list Z + outcome exn (list Z) :=
  match days with
  | [] => inl found
  | Raise e :: _ => inr (Raise e)
  | Ok day :: days =>
      match visit found day with
      | inl found => visits visit days found
      | ended => ended
      end
  end.

(** [2 ^ n] resumptions of a generator, or as many as there are before the loop ends. *)
Fixpoint walk (visit : Body) (step : Steps) (n : nat) (state : Z) (found : list Z) : (list Z * Z) + outcome exn (list Z) :=
  match n with
  | O =>
      match visits visit (step state).1 found with
      | inr ended => inr ended
      | inl found =>
          match (step state).2 with
          | Raise e => inr (Raise e)
          | Ok None => inr (Ok found)
          | Ok (Some state) => inl (found, state)
          end
      end
  | S n =>
      match walk visit step n state found with
      | inl (found, state) => walk visit step n state found
      | ended => ended
      end
  end.

(** [2 ^ 23] is past every day there is ([starts_end]). *)
Definition WALK : nat := 23.
Definition UNENDED : exn := OtherError "RuntimeError" "the loop has not ended".

Definition looped (visit : Body) (entry : Entry) : outcome exn (list Z) :=
  '(state, step) ← _starts entry;
  match walk visit step WALK state [] with inr ended => ended | inl _ => Raise UNENDED end.

Definition MAX_OCCURRENCES : nat := 400.

Definition occurrences (entry : Entry) (first last : Z) : outcome exn (list Z) :=
  earliest ← plus_days first (- _span_days entry);
  let stop := match en_repeat_until entry with Some until => Z.min last until | None => last end in
  looped (fun found day =>
    if (stop <? day) || (MAX_OCCURRENCES <=? length found)%nat then inr (Ok found)
    else inl (if earliest <=? day then found ++ [day] else found)) entry.

Definition upcoming (entry : Entry) (count : nat) (today : Z) : outcome exn (list Z) :=
  looped (fun found day =>
    if match en_repeat_until entry with Some until => until <? day | None => false end || (count <=? length found)%nat then inr (Ok found)
    else match plus_days day (_span_days entry) with
         | Raise e => inr (Raise e)
         | Ok last =>
             let found := if today <=? last then found ++ [day] else found in
             if bool_decide (en_repeat entry = ""%string) then inr (Ok found) else inl found
         end) entry.

Definition an_entry : Entry := {|
  en_id := 1; en_uid := "2f6c1d7e-0000-4000-8000-000000000001"; en_title := "Bins"; en_starts_on := 739526; en_ends_on := None; en_starts_at := None; en_ends_at := None;
  en_location := ""; en_notes := ""; en_repeat := ""; en_interval := 1; en_weekdays := ""; en_repeat_until := None; en_about := ""; en_about_name := "";
  en_created_at := 0; en_updated_at := 0 |}.

Definition repeating (repeat : string) (interval start : Z) (weekdays : string) (entry : Entry) : Entry := {|
  en_id := en_id entry; en_uid := en_uid entry; en_title := en_title entry; en_starts_on := start; en_ends_on := en_ends_on entry; en_starts_at := en_starts_at entry;
  en_ends_at := en_ends_at entry; en_location := en_location entry; en_notes := en_notes entry; en_repeat := repeat; en_interval := interval; en_weekdays := weekdays;
  en_repeat_until := en_repeat_until entry; en_about := en_about entry; en_about_name := en_about_name entry; en_created_at := en_created_at entry; en_updated_at := en_updated_at entry |}.

Definition isos (l : outcome exn (list Z)) : outcome exn (list string) := map iso_day <$> l.

(** Every other Tuesday and Thursday from Thursday 2 October 2025; the 31st of every month; 29 February of every year. *)
Example some_occurrences :
  isos (occurrences (repeating "weekly" 2 739526 "3, 1" an_entry) 739526 739560) = Ok ["2025-10-02"; "2025-10-14"; "2025-10-16"; "2025-10-28"; "2025-10-30"]%string /\
  isos (occurrences (repeating "monthly" 1 (ymd2ord 2025 10 31) "" an_entry) 739500 739800) = Ok ["2025-10-31"; "2025-12-31"; "2026-01-31"; "2026-03-31"; "2026-05-31"]%string /\
  isos (occurrences (repeating "yearly" 1 (ymd2ord 1892 2 29) "" an_entry) (ymd2ord 1892 1 1) (ymd2ord 1910 1 1)) = Ok ["1892-02-29"; "1896-02-29"; "1904-02-29"; "1908-02-29"]%string /\
  isos (occurrences (repeating "daily" 2 (MAXORDINAL - 5) "" an_entry) (MAXORDINAL - 5) MAXORDINAL) = Raise OVERFLOW /\
  isos (upcoming (repeating "monthly" 1 (ymd2ord 2025 10 31) "" an_entry) 2 739600) = Ok ["2025-12-31"; "2026-01-31"]%string.
Proof. split_and!; vm_compute; reflexivity. Qed.

(** * What a loop over the days there are comes to *)

(** The days from [a] up to [b] of a kind. *)
Definition days_between (falls : Z -> bool) (a b : Z) : list Z := List.filter falls (seqZ a (b - a)).

Lemma elem_of_between falls a b d : d ∈ days_between falls a b <-> falls d = true /\ a <= d < b.
Proof. unfold days_between. rewrite list_elem_of_In, filter_In, <- list_elem_of_In, elem_of_seqZ. split; intros [? ?]; split; done || lia. Qed.

Lemma between_nil falls a b : (forall d, a <= d < b -> falls d = false) -> days_between falls a b = [].
Proof.
  intros H. destruct (days_between falls a b) as [|d l] eqn:E; [done|]. assert (d ∈ days_between falls a b) as (Hd & Hr)%elem_of_between by (rewrite E; left).
  by rewrite H in Hd.
Qed.

Lemma between_split falls a b c : a <= b <= c -> days_between falls a c = days_between falls a b ++ days_between falls b c.
Proof.
  intros H. unfold days_between. rewrite <- List.filter_app. f_equal. replace (c - a) with ((b - a) + (c - b)) by lia.
  rewrite seqZ_app by lia. repeat f_equal; lia.
Qed.

Lemma seqZ_sorted a n : StronglySorted Z.lt (seqZ a n).
Proof.
  unfold seqZ. generalize (Z.to_nat n) as k, 0%nat as i. intros k.
  induction k as [|k IH]; intros i; cbn; constructor; [apply IH|]. apply Forall_forall. intros x (y & -> & Hy%elem_of_seq)%list_elem_of_fmap. lia.
Qed.

Lemma filter_sorted (p : Z -> bool) l : StronglySorted Z.lt l -> StronglySorted Z.lt (List.filter p l).
Proof.
  induction 1 as [|x l _ IH Hx]; cbn; [constructor|]. destruct (p x); [|done]. constructor; [done|].
  apply Forall_forall. intros y (Hy & _)%list_elem_of_In%filter_In. rewrite Forall_forall in Hx. by apply Hx, list_elem_of_In.
Qed.

Lemma between_sorted falls a b : StronglySorted Z.lt (days_between falls a b).
Proof. apply filter_sorted, seqZ_sorted. Qed.

Lemma filter_none (p : Z -> bool) l : (forall x, x ∈ l -> p x = false) -> List.filter p l = [].
Proof. induction l as [|x l IH]; intros H; cbn; [done|]. rewrite (H x) by left. apply IH. intros y Hy. apply H. by right. Qed.

Lemma sorted_days_distinct l : StronglySorted Z.lt l -> NoDup l.
Proof. induction 1 as [|x l _ IH Hx]; constructor; [|done]. rewrite Forall_forall in Hx. intros Hin. specialize (Hx x Hin). lia. Qed.

(** Days in order are told by which they are. *)
Lemma sorted_days_eq l l' : StronglySorted Z.lt l -> StronglySorted Z.lt l' -> (forall d, d ∈ l <-> d ∈ l') -> l = l'.
Proof.
  intros Hl Hl' He. assert (AntiSymm (=) Z.lt) by (intros x y; lia). apply (StronglySorted_unique Z.lt); [done|done|].
  by apply NoDup_Permutation; [apply sorted_days_distinct..|].
Qed.

Lemma visits_app visit days more found :
  visits visit (days ++ more) found = match visits visit days found with inl found => visits visit more found | ended => ended end.
Proof.
  revert found. induction days as [|[day|e] days IH]; intros found; cbn; [done| |done]. destruct (visit found day); [apply IH|done].
Qed.

(** What a date past the last there is raises. *)
Definition past_the_last (e : exn) : Prop := e = OVERFLOW \/ exists y, e = ValueError ("year must be in 1..9999, not " +:+ pretty (y : Z))%string.

(** A day the entry falls on, as the generator yields it: itself, or raised of one past the last. *)
Definition yields (y : outcome exn Z) (d : Z) : Prop := if d <=? MAXORDINAL then y = Ok d else exists e, past_the_last e /\ y = Raise e.

(** A loop over the days there are, and then past the last of them. *)
Definition loops_to (visit : Body) (days : list Z) (found : list Z) (ended : outcome exn (list Z)) : Prop :=
  exists e, past_the_last e /\ visits visit (map Ok days ++ [Raise e]) found = inr ended.

Lemma visits_yields visit ys ds rest found :
  Forall2 yields ys ds -> StronglySorted Z.lt ds -> (Exists (fun d => MAXORDINAL < d) ds -> rest = []) ->
  match visits visit ys found with
  | inl found' => Forall (fun d => d <= MAXORDINAL) ds /\ visits visit (map Ok ds) found = inl found'
  | inr ended => loops_to visit (List.filter (fun d => d <=? MAXORDINAL) ds ++ rest) found ended
  end.
Proof.
  intros Hy. revert found. induction Hy as [|y d ys ds Hd Hy IH]; intros found Hs Hrest; cbn; [done|]. apply StronglySorted_cons in Hs as [Hd' Hs]. unfold yields in Hd.
  destruct (Z.leb_spec d MAXORDINAL) as [Hle|Hgt].
  - rewrite Hd. destruct (visit found d) as [found'|ended] eqn:Hv.
    + specialize (IH found' Hs). destruct (visits visit ys found') as [found''|ended].
      * destruct IH as [Hall Hvs]; [by intros; apply Hrest; right|]. split; [by constructor|]. done.
      * destruct IH as (e & He & Hvs); [by intros; apply Hrest; right|]. exists e. split; [done|]. cbn. by rewrite Hv.
    + exists OVERFLOW. split; [by left|]. cbn. by rewrite Hv.
  - destruct Hd as (e & He & ->). rewrite Hrest by by left. exists e. split; [done|]. rewrite app_nil_r.
    enough (List.filter (fun d => d <=? MAXORDINAL) ds = []) as -> by done. rewrite Forall_forall in Hd'. clear -Hd' Hgt.
    destruct (List.filter _ ds) as [|x l] eqn:E; [done|]. assert (x ∈ x :: l) as Hx by left. rewrite <- E in Hx. apply list_elem_of_In, filter_In in Hx as [Hx%list_elem_of_In Hm%Z.leb_le].
    specialize (Hd' x Hx). lia.
Qed.

Section Generator.
Context (visit : Body) (step : Steps) (falls : Z -> bool) (st lo : Z -> Z) (good : Z -> Prop).
(** Resumed for the [k]th time in state [st k], a generator yields the days from [lo k] up to [lo (k + 1)]. *)
Hypothesis lo_grows : forall k, 0 <= k -> lo k <= lo (k + 1).
Hypothesis good_0 : good 0.
Hypothesis step_yields : forall k, 0 <= k -> good k -> Forall2 yields (step (st k)).1 (days_between falls (lo k) (lo (k + 1))) /\
  ((step (st k)).2 = Ok (Some (st (k + 1))) /\ good (k + 1) \/ exists e, (step (st k)).2 = Raise e /\ past_the_last e /\ MAXORDINAL < lo (k + 1)).

Definition cap (d : Z) : Z := Z.min d (MAXORDINAL + 1).

Lemma lo_mono j k : 0 <= j <= k -> lo j <= lo k.
Proof.
  intros [Hj Hk]. apply (Zlt_lower_bound_ind (fun k => lo j <= lo k) j); [|done]. clear k Hk. intros x IH Hx. destruct (Z.eq_dec x j) as [->|]; [done|].
  pose proof (IH (x - 1) ltac:(lia)). pose proof (lo_grows (x - 1) ltac:(lia)) as Hx1. replace (x - 1 + 1) with x in Hx1 by lia. lia.
Qed.

Lemma between_cap a b : List.filter (fun d => d <=? MAXORDINAL) (days_between falls a b) = days_between falls (cap a) (cap b).
Proof.
  apply sorted_days_eq; [apply filter_sorted, between_sorted|apply between_sorted|]. intros d. rewrite list_elem_of_In, filter_In, <- list_elem_of_In, Z.leb_le, !elem_of_between.
  unfold cap. split; [intros [[Hf Hr] Hm]|intros [Hf Hr]]; split_and!; try done; lia.
Qed.

Definition walked (k k' : Z) (found : list Z) (result : (list Z * Z) + outcome exn (list Z)) : Prop :=
  match result with
  | inl (found', s) => s = st k' /\ good k' /\ (forall d, lo k <= d < lo k' -> MAXORDINAL < d -> falls d = false) /\
      visits visit (map Ok (days_between falls (cap (lo k)) (cap (lo k')))) found = inl found'
  | inr ended => loops_to visit (days_between falls (cap (lo k)) (MAXORDINAL + 1)) found ended
  end.

Lemma walk_once k found : 0 <= k -> good k -> walked k (k + 1) found (walk visit step 0 (st k) found).
Proof.
  intros Hk Hg. destruct (step_yields k Hk Hg) as [Hy Hnext]. pose proof (lo_grows k Hk) as Hlo. cbn [walk].
  pose proof (visits_yields visit _ _ (days_between falls (cap (lo (k + 1))) (MAXORDINAL + 1)) found Hy (between_sorted _ _ _)) as Hv. rewrite between_cap in Hv.
  rewrite <- between_split in Hv by (unfold cap; lia). destruct (visits visit _ found) as [found'|ended] eqn:Hvs.
  - destruct Hv as [Hall Hv].
    { intros (d & (Hf & Hd)%elem_of_between & Hmax)%list.Exists_exists. apply between_nil. intros d' Hd'. unfold cap in Hd'. lia. }
    assert (forall d, lo k <= d < lo (k + 1) -> MAXORDINAL < d -> falls d = false) as Hnone.
    { intros d Hd Hmax. destruct (falls d) eqn:Hf; [|done]. rewrite Forall_forall in Hall. assert (d <= MAXORDINAL) by (by apply Hall, elem_of_between). lia. }
    assert (days_between falls (lo k) (lo (k + 1)) = days_between falls (cap (lo k)) (cap (lo (k + 1)))) as Hcap.
    { rewrite <- between_cap. symmetry. apply forallb_filter_id. apply forallb_forall. intros d Hd%list_elem_of_In. rewrite Forall_forall in Hall. by apply Z.leb_le, Hall. }
    destruct Hnext as [[-> Hg']|(e & -> & He & Hmax)]; cbn.
    + by rewrite <- Hcap.
    + exists e. split; [done|]. rewrite visits_app. replace (MAXORDINAL + 1) with (cap (lo (k + 1))) by (unfold cap; lia). by rewrite <- Hcap, Hv.
  - apply Hv. intros (d & (Hf & Hd)%elem_of_between & Hmax)%list.Exists_exists. apply between_nil. intros d' Hd'. unfold cap in Hd'. lia.
Qed.

Lemma walk_walked n : forall k found, 0 <= k -> good k -> walked k (k + 2 ^ Z.of_nat n) found (walk visit step n (st k) found).
Proof.
  induction n as [|n IH]; intros k found Hk Hg; [by apply walk_once|]. cbn [walk]. pose proof (IH k found Hk Hg) as H1.
  assert (0 <= 2 ^ Z.of_nat n) as Hpow by (apply Z.pow_nonneg; lia). replace (2 ^ Z.of_nat (S n)) with (2 ^ Z.of_nat n + 2 ^ Z.of_nat n) by (rewrite Nat2Z.inj_succ, Z.pow_succ_r by lia; lia).
  rewrite Z.add_assoc. set (k' := k + 2 ^ Z.of_nat n) in *. pose proof (lo_mono k k') as Hlo. pose proof (lo_mono k' (k' + 2 ^ Z.of_nat n)) as Hlo'.
  destruct (walk visit step n (st k) found) as [[found' s]|ended]; [|done]. destruct H1 as (-> & Hg' & Hnone & Hv).
  pose proof (IH k' found' ltac:(lia) Hg') as H2. destruct (walk visit step n (st k') found') as [[found'' s]|ended]; cbn in *.
  - destruct H2 as (-> & Hg'' & Hnone' & Hv'). split_and!; [done..| |].
    + intros d Hd Hmax. destruct (decide (d < lo k')); [apply Hnone; lia|apply Hnone'; lia].
    + rewrite (between_split falls _ (cap (lo k'))), map_app, visits_app by (unfold cap; lia). by rewrite Hv.
  - destruct H2 as (e & He & Hv'). exists e. split; [done|]. rewrite (between_split falls _ (cap (lo k'))), map_app, <- app_assoc, visits_app by (unfold cap; lia). by rewrite Hv.
Qed.

(** A generator that comes to a day past the last has enough steps. *)
Lemma walk_ends d : lo 0 <= d < lo (2 ^ Z.of_nat WALK) -> MAXORDINAL < d -> falls d = true -> lo 0 <= MAXORDINAL + 1 ->
  exists ended, walk visit step WALK (st 0) [] = inr ended /\ loops_to visit (days_between falls (lo 0) (MAXORDINAL + 1)) [] ended.
Proof.
  intros Hd Hmax Hf Hlo. pose proof (walk_walked WALK 0 [] (Z.le_refl 0) good_0) as H. destruct (walk visit step WALK (st 0) []) as [[found s]|ended]; cbn in H.
  - destruct H as (_ & _ & Hnone & _). rewrite Hnone in Hf; [done| |done]. done.
  - exists ended. split; [done|]. unfold cap in H. by rewrite Z.min_l in H by lia.
Qed.
End Generator.

(** * The days an entry falls on, by its own terms *)

(** [days] are those of the week a weekly entry falls on. *)
Definition falls_on (entry : Entry) (days : list Z) (d : Z) : bool :=
  let start := en_starts_on entry in
  (start <=? d) &&
  (if bool_decide (en_repeat entry = ""%string) then d =? start
   else if bool_decide (en_repeat entry = "daily"%string) then (d - start) mod en_interval entry =? 0
   else if bool_decide (en_repeat entry = "weekly"%string) then
     bool_decide (weekday d ∈ days) && (((d - weekday d) - (start - weekday start)) / 7 mod en_interval entry =? 0)
   else if bool_decide (en_repeat entry = "monthly"%string) then
     (day_of_month d =? day_of_month start) && ((month_index d - month_index start) mod en_interval entry =? 0)
   else (day_of_month d =? day_of_month start) && (day_month d =? day_month start) && ((day_year d - day_year start) mod en_interval entry =? 0)).

Ltac of_repeat Hr := rewrite Hr; repeat (rewrite bool_decide_eq_false_2 by done); rewrite bool_decide_eq_true_2 by done; cbv iota.

Lemma falls_daily entry days d : en_repeat entry = "daily"%string ->
  falls_on entry days d = true <-> en_starts_on entry <= d /\ (d - en_starts_on entry) mod en_interval entry = 0.
Proof. intros Hr. unfold falls_on. cbv zeta. of_repeat Hr. by rewrite andb_true_iff, Z.leb_le, Z.eqb_eq. Qed.

Lemma falls_weekly entry days d : en_repeat entry = "weekly"%string ->
  falls_on entry days d = true <->
  en_starts_on entry <= d /\ weekday d ∈ days /\ ((d - weekday d) - (en_starts_on entry - weekday (en_starts_on entry))) / 7 mod en_interval entry = 0.
Proof. intros Hr. unfold falls_on. cbv zeta. of_repeat Hr. by rewrite !andb_true_iff, bool_decide_eq_true, Z.leb_le, Z.eqb_eq. Qed.

Lemma falls_monthly entry days d : en_repeat entry = "monthly"%string ->
  falls_on entry days d = true <->
  en_starts_on entry <= d /\ day_of_month d = day_of_month (en_starts_on entry) /\ (month_index d - month_index (en_starts_on entry)) mod en_interval entry = 0.
Proof. intros Hr. unfold falls_on. cbv zeta. of_repeat Hr. by rewrite !andb_true_iff, Z.leb_le, !Z.eqb_eq. Qed.

(** A year apart is twelve months apart. *)
Lemma falls_yearly entry days d : en_repeat entry = "yearly"%string -> 0 < en_interval entry ->
  falls_on entry days d = true <->
  en_starts_on entry <= d /\ day_of_month d = day_of_month (en_starts_on entry) /\ (month_index d - month_index (en_starts_on entry)) mod (12 * en_interval entry) = 0.
Proof.
  intros Hr Hi. unfold falls_on. cbv zeta. rewrite Hr. repeat (rewrite bool_decide_eq_false_2 by done). cbv iota. rewrite !andb_true_iff, Z.leb_le, !Z.eqb_eq.
  destruct (day_in_month d) as (_ & _ & Hm & _), (day_in_month (en_starts_on entry)) as (_ & _ & Hm' & _). unfold month_index.
  set (y := day_year d) in *. set (m := day_month d) in *. set (y' := day_year (en_starts_on entry)) in *. set (m' := day_month (en_starts_on entry)) in *. split.
  - intros (Hs & (Hd & He) & Hmod). split_and!; [done|done|]. apply Z.mod_divide in Hmod as [q Hq]; [|lia]. apply Z.mod_divide; [lia|]. exists q. lia.
  - intros (Hs & Hd & Hmod). apply Z.mod_divide in Hmod as [q Hq]; [|lia]. assert (m = m' /\ y - y' = en_interval entry * q) as [? ?] by lia.
    split_and!; [done..|]. apply Z.mod_divide; [lia|]. exists q. lia.
Qed.

Definition REPEATS : list string := [""; "daily"; "weekly"; "monthly"; "yearly"]%string.

(** An entry whose row holds together, falling on [days] of the week where it is weekly. *)
Definition recurs (entry : Entry) (days : list Z) : Prop :=
  is_day (en_starts_on entry) = true /\ 1 <= en_interval entry /\ en_repeat entry ∈ REPEATS /\
  (en_repeat entry = "weekly"%string -> exists numbers, weekday_numbers entry = Ok numbers /\ days = days_or_start entry numbers /\ Forall (fun n => 0 <= n <= 6) numbers).

Lemma day_mod i k r : 0 < i -> 0 <= r < i -> (i * k + r) mod i = r.
Proof. intros Hi Hr. rewrite Z.add_comm, (Z.mul_comm i), Z.mod_add by lia. by apply Z.mod_small. Qed.

Lemma multiple_in i k x : 0 < i -> x mod i = 0 -> i * k <= x < i * (k + 1) -> x = i * k.
Proof. intros Hi Hm Hx. apply Z.mod_divide in Hm as [q ->]; [|lia]. assert (k = q) as ->; nia. Qed.

Lemma one_day falls a b d : (forall x, falls x = true /\ a <= x < b <-> x = d) -> days_between falls a b = [d].
Proof.
  intros H. apply sorted_days_eq; [apply between_sorted|by repeat constructor|]. intros x. by rewrite elem_of_between, list_elem_of_singleton.
Qed.

Lemma yields_plus day n : 1 <= day + n -> yields (plus_days day n) (day + n).
Proof.
  intros H. unfold yields, plus_days, is_day. rewrite (proj2 (Z.leb_le 1 (day + n))) by done. cbn [andb]. destruct (day + n <=? MAXORDINAL); [done|].
  exists OVERFLOW. split; [by left|done].
Qed.

Lemma insert_number_in n l x : x ∈ insert_number n l <-> x = n \/ x ∈ l.
Proof.
  induction l as [|m l IH]; cbn; [set_solver|]. destruct (Z.ltb_spec n m); [set_solver|]. destruct (Z.eqb_spec n m) as [->|]; [set_solver|]. rewrite !elem_of_cons, IH. naive_solver.
Qed.

Lemma insert_number_sorted n l : StronglySorted Z.lt l -> StronglySorted Z.lt (insert_number n l).
Proof.
  induction 1 as [|m l Hl IH Hm]; cbn; [by repeat constructor|]. destruct (Z.ltb_spec n m).
  { constructor; [by constructor|]. constructor; [done|]. eapply Forall_impl; [done|]. intros; cbn in *; lia. }
  destruct (Z.eqb_spec n m) as [->|]; [by constructor|]. constructor; [done|]. apply Forall_forall. intros x [->|Hx]%insert_number_in; [lia|].
  rewrite Forall_forall in Hm. by apply Hm.
Qed.

Lemma sorted_set_sorted l : StronglySorted Z.lt (sorted_set l).
Proof. induction l; cbn; [constructor|by apply insert_number_sorted]. Qed.

Lemma sorted_set_in l x : x ∈ sorted_set l <-> x ∈ l.
Proof. induction l as [|y l IH]; cbn; [done|]. by rewrite insert_number_in, IH, elem_of_cons. Qed.

Lemma weekday_of week wd : (week + 6) mod 7 = 0 -> 0 <= wd <= 6 -> weekday (week + wd) = wd.
Proof. intros H Hwd. unfold weekday. Z.to_euclidean_division_equations. lia. Qed.

Lemma monday_0 d : (d - weekday d + 6) mod 7 = 0 /\ 0 <= weekday d <= 6.
Proof. unfold weekday. Z.to_euclidean_division_equations. lia. Qed.

Lemma weekly_yields start week days falls hi :
  1 <= week -> start <= MAXORDINAL -> StronglySorted Z.lt days -> Forall (fun n => 0 <= n <= 6) days ->
  (forall d, falls d = true /\ week <= d < hi <-> start <= d /\ exists n, n ∈ days /\ d = week + n) ->
  Forall2 yields (List.filter (fun day => match day with Ok day => start <=? day | Raise _ => true end) (map (fun n => plus_days week n) days)) (days_between falls week hi).
Proof.
  intros Hw Hstart Hs Hd Hf.
  assert (days_between falls week hi = List.filter (fun d => start <=? d) (map (fun n => week + n) days)) as ->.
  { apply sorted_days_eq; [apply between_sorted| |].
    - apply filter_sorted. clear -Hs. induction Hs as [|n l _ IH Hn]; cbn; constructor; [done|]. apply Forall_forall. intros x (m & <- & Hm%list_elem_of_In)%list_elem_of_In%in_map_iff.
      rewrite Forall_forall in Hn. specialize (Hn m Hm). lia.
    - intros d. rewrite elem_of_between, Hf, list_elem_of_In, filter_In, in_map_iff, Z.leb_le. setoid_rewrite list_elem_of_In. naive_solver. }
  clear Hs Hf. induction Hd as [|n days Hn _ IH]; cbn; [constructor|]. pose proof (yields_plus week n ltac:(lia)) as Hy. pose proof Hy as Hy'. unfold yields in Hy.
  destruct (Z.leb_spec (week + n) MAXORDINAL) as [Hm|Hm].
  - rewrite Hy. destruct (start <=? week + n); [|done]. constructor; [by rewrite <- Hy|done].
  - destruct Hy as (e & _ & He). rewrite He, (proj2 (Z.leb_le start (week + n))) by lia. constructor; [by rewrite <- He|done].
Qed.

Lemma month_length_is k : month_length k = days_in_month (k / 12) (k mod 12 + 1).
Proof. done. Qed.

(** Counted by months: the day of each that has one, [j] months apart. *)
Section Months.
Context (start j : Z) (falls : Z -> bool).
Hypothesis j_positive : 0 < j.
Hypothesis start_day : is_day start = true.
Hypothesis falls_when : forall d, falls d = true <-> start <= d /\ day_of_month d = day_of_month start /\ (month_index d - month_index start) mod j = 0.

#[local] Opaque month_start month_index month_length day_of_month MAXORDINAL.

Definition nth_month (k : Z) : Z := month_index start + j * k.
Definition month_lo (k : Z) : Z := month_start (nth_month k).

Lemma month_lo_grows k : month_lo k + 28 <= month_lo (k + 1).
Proof. unfold month_lo, nth_month. pose proof (month_start_grows (month_index start + j * k) (month_index start + j * (k + 1))). nia. Qed.

Lemma months_between k : 0 <= k -> days_between falls (month_lo k) (month_lo (k + 1)) =
  if day_of_month start <=? month_length (nth_month k) then [month_start (nth_month k) + day_of_month start - 1] else [].
Proof.
  intros Hk. pose proof (day_in_month start) as (Hst & Hdom & _ & Hdom1). set (dom := day_of_month start) in *.
  assert (forall d, falls d = true /\ month_lo k <= d < month_lo (k + 1) <-> dom <= month_length (nth_month k) /\ d = month_start (nth_month k) + dom - 1) as Hin.
  { intros d. rewrite falls_when. fold dom. destruct (day_in_month d) as (Hd & Hdd & _ & Hlen). split.
    - intros ((_ & He & Hm) & Hr).
      assert (month_index d = nth_month k) as Hidx.
      { unfold nth_month. enough (month_index d - month_index start = j * k) by lia. apply multiple_in; [done|done|].
        unfold month_lo, nth_month in Hr. pose proof (month_start_grows (month_index d + 1) (month_index start + j * k)). pose proof (month_start_grows (month_index start + j * (k + 1)) (month_index d)). lia. }
      rewrite Hidx in *. lia.
    - intros [Hle ->]. destruct (month_day_parts (nth_month k) dom) as (Hi & Hd1 & _); [lia|]. rewrite Hi, Hd1. unfold month_lo.
      pose proof (month_start_grows (nth_month k + 1) (nth_month (k + 1))). pose proof (month_start_grows (month_index start) (nth_month k)). rewrite month_start_next in *. unfold nth_month in *.
      split_and!; [nia|done| |lia|nia]. replace (month_index start + j * k - month_index start) with (j * k + 0) by lia. by apply day_mod. }
  destruct (Z.leb_spec dom (month_length (nth_month k))).
  - apply one_day. intros d. rewrite Hin. naive_solver.
  - apply between_nil. intros d Hd. destruct (falls d) eqn:Hf; [|done]. destruct (proj1 (Hin d)) as [? _]; [done|lia].
Qed.

Lemma month_yields k year month : 0 <= k -> nth_month k / 12 = year -> nth_month k mod 12 + 1 = month ->
  Forall2 yields (if day_of_month start <=? days_in_month year month then [new_date year month (day_of_month start)] else []) (days_between falls (month_lo k) (month_lo (k + 1))).
Proof.
  intros Hk <- <-. rewrite months_between by done. rewrite <- (month_length_is (nth_month k)). destruct (Z.leb_spec (day_of_month start) (month_length (nth_month k))); [|constructor].
  constructor; [|constructor]. destruct (day_in_month start) as (_ & _ & _ & Hdom). destruct (month_day_parts (nth_month k) (day_of_month start)) as (Hi & _ & Hn); [lia|].
  unfold yields, new_date. set (n := month_start _ + _ - 1) in *. assert (day_year n = nth_month k / 12) as Hy by (by rewrite <- (proj1 (month_index_parts n)), Hi).
  assert (1 <= nth_month k / 12) as H1.
  { apply Z.div_le_lower_bound; [lia|]. assert (12 <= month_index start); [|unfold nth_month; nia].
    apply (month_index_grows 1 start). unfold is_day in start_day. lia. }
  rewrite (proj2 (Z.leb_le 1 _)) by done. pose proof (months_of_9999 n) as Hmax. rewrite Hy in Hmax. cbn [andb].
  destruct (Z.leb_spec n MAXORDINAL), (Z.leb_spec (nth_month k / 12) 9999); try lia; [by rewrite Hn|]. eexists. split; [right; by eexists|done].
Qed.

(** Every four hundred years the calendar repeats itself, so the day comes round past the last there is. *)
Lemma months_come_round q k : k = 4800 * q -> MAXORDINAL <= k ->
  exists d, month_lo 0 <= d < month_lo (k + 1) /\ MAXORDINAL < d /\ falls d = true.
Proof.
  intros Hk Hlast. assert (100 <= MAXORDINAL) as H0 by (rewrite <- (Z.leb_le 100 MAXORDINAL); reflexivity). destruct (day_in_month start) as (Hst & _ & _ & Hdom). assert (month_length (nth_month k) = month_length (month_index start)) as Hlen.
  { unfold nth_month. replace (j * k) with (4800 * (q * j)) by lia. apply month_length_again. }
  assert (month_start (nth_month k) + day_of_month start - 1 ∈ days_between falls (month_lo k) (month_lo (k + 1))) as (Hf & Hd)%elem_of_between.
  { rewrite months_between by lia. rewrite Hlen, (proj2 (Z.leb_le _ _)) by lia. left. }
  eexists. split; [|split; [|exact Hf]].
  - split; [|lia]. pose proof (month_start_grows (nth_month 0) (nth_month k)). unfold month_lo, nth_month in *. nia.
  - pose proof (month_start_grows (month_index start) (nth_month k)). assert (1 <= start) by (unfold is_day in start_day; lia).
    pose proof (month_start_next (month_index start)). pose proof (month_length_bound (month_index start)). unfold nth_month in *.
    assert (k <= j * k) by nia. set (jk := j * k) in *. clearbody jk. lia.
Qed.
End Months.

Section Looped.
Context (visit : Body) (entry : Entry) (days : list Z).
Hypothesis entry_recurs : recurs entry days.

Notation start := (en_starts_on entry).
Notation interval := (en_interval entry).

Lemma falls_from_start lo : lo <= start <= MAXORDINAL -> days_between (falls_on entry days) lo (MAXORDINAL + 1) = days_between (falls_on entry days) start (MAXORDINAL + 1).
Proof.
  intros H. rewrite (between_split _ lo start) by lia. rewrite between_nil; [done|]. intros d Hd. unfold falls_on. by rewrite (proj2 (Z.leb_gt start d)) by lia.
Qed.

Lemma looped_starts state step : _starts entry = Ok (state, step) ->
  looped visit entry = match walk visit step WALK state [] with inr ended => ended | inl _ => Raise UNENDED end.
Proof. unfold looped. by intros ->. Qed.

Lemma looped_by step st lo good d n :
  _starts entry = Ok (st 0, step) -> (forall k, 0 <= k -> lo k <= lo (k + 1)) -> good 0 ->
  (forall k, 0 <= k -> good k -> Forall2 yields (step (st k)).1 (days_between (falls_on entry days) (lo k) (lo (k + 1))) /\
    ((step (st k)).2 = Ok (Some (st (k + 1))) /\ good (k + 1) \/ exists e, (step (st k)).2 = Raise e /\ past_the_last e /\ MAXORDINAL < lo (k + 1))) ->
  lo 0 <= start <= MAXORDINAL -> lo 0 <= d < lo n -> 0 <= n <= 2 ^ Z.of_nat WALK -> MAXORDINAL < d -> falls_on entry days d = true ->
  loops_to visit (days_between (falls_on entry days) start (MAXORDINAL + 1)) [] (looped visit entry).
Proof.
  intros Hstarts Hlo Hgood Hstep Hlo0 Hd Hn Hmax Hf. rewrite <- (falls_from_start (lo 0)) by done. rewrite (looped_starts _ _ Hstarts).
  destruct (walk_ends visit step _ st lo good Hlo Hgood Hstep d) as (ended & -> & Hl); [|done|done|lia|done].
  pose proof (lo_mono lo Hlo n (2 ^ Z.of_nat WALK)) as Hmono. lia.
Qed.

Lemma daily_loops : en_repeat entry = "daily"%string -> loops_to visit (days_between (falls_on entry days) start (MAXORDINAL + 1)) [] (looped visit entry).
Proof.
  destruct entry_recurs as (Hday & Hi & _ & _). intros Hr. unfold is_day in Hday. assert (1 <= start <= MAXORDINAL) as Hs by lia.
  assert (forall d, falls_on entry days d = true <-> start <= d /\ (d - start) mod interval = 0) as Hf by (intros d; by apply falls_daily).
  apply (looped_by (_daily entry) (fun k => start + interval * k) (fun k => start + interval * k) (fun k => start + interval * k <= MAXORDINAL) (start + interval * MAXORDINAL) (MAXORDINAL + 1)).
  - unfold _starts. rewrite Hr. cbn. do 2 f_equal. lia.
  - nia.
  - lia.
  - intros k Hk Hg. cbn. split.
    + rewrite (one_day _ _ _ (start + interval * k)); [constructor; [|constructor]; unfold yields; by rewrite (proj2 (Z.leb_le _ _))|]. intros d. rewrite Hf. split.
      * intros ((_ & Hm) & Hd). enough (d - start = interval * k) by lia. apply multiple_in; lia.
      * intros ->. replace (start + interval * k - start) with (interval * k + 0) by lia. rewrite day_mod by lia. nia.
    + unfold plus_days, is_day. replace (start + interval * k + interval) with (start + interval * (k + 1)) by lia. rewrite (proj2 (Z.leb_le 1 _)) by nia. cbn [andb].
      destruct (Z.leb_spec (start + interval * (k + 1)) MAXORDINAL); [by left|right]. exists OVERFLOW. split_and!; [done|by left|done].
  - lia.
  - nia.
  - done.
  - nia.
  - apply Hf. replace (start + interval * MAXORDINAL - start) with (interval * MAXORDINAL + 0) by lia. rewrite day_mod by lia. nia.
Qed.

Lemma weekly_loops : en_repeat entry = "weekly"%string -> loops_to visit (days_between (falls_on entry days) start (MAXORDINAL + 1)) [] (looped visit entry).
Proof.
  destruct entry_recurs as (Hday & Hi & _ & Hw). intros Hr. unfold is_day in Hday. assert (1 <= start <= MAXORDINAL) as Hs by lia.
  destruct (Hw Hr) as (numbers & Hnum & Hdays & Hwd). assert (StronglySorted Z.lt days /\ Forall (fun n => 0 <= n <= 6) days /\ exists n, n ∈ days) as (Hsort & Hin & n0 & Hn0).
  { rewrite Hdays. unfold weekday_numbers in Hnum. destruct (each_int _) as [l|]; [|done]. injection Hnum as <-. pose proof (sorted_set_sorted l) as Hl. unfold days_or_start.
    destruct (sorted_set l) as [|n ns]; [|split_and!; [done|done|exists n; left]]. destruct (monday_0 start) as [_ Hst].
    refine (conj _ (conj _ _)); [by repeat constructor|constructor; [done|constructor]|eexists; left]. }
  clear Hdays. destruct (monday_0 start) as [Hmon Hwst]. set (week0 := start - weekday start) in *.
  assert (1 <= week0) as Hweek0 by (assert (week0 mod 7 = 1) by (Z.to_euclidean_division_equations; lia); Z.to_euclidean_division_equations; lia).
  assert (forall d, falls_on entry days d = true <-> start <= d /\ weekday d ∈ days /\ ((d - weekday d) - week0) / 7 mod interval = 0) as Hf by (intros d; by apply falls_weekly).
  assert (forall k d, 0 <= k -> falls_on entry days d = true /\ week0 + 7 * interval * k <= d < week0 + 7 * interval * (k + 1) <-> start <= d /\ exists n, n ∈ days /\ d = week0 + 7 * interval * k + n) as Hblock.
  { intros k d Hk. rewrite Hf. rewrite Forall_forall in Hin. assert ((week0 + 7 * interval * k + 6) mod 7 = 0) as Hmk.
    { replace (week0 + 7 * interval * k + 6) with (week0 + 6 + interval * k * 7) by lia. by rewrite Z.mod_add by lia. }
    destruct (monday_0 d) as [Hmd Hwdd]. split.
    - intros ((Hsd & Hmem & Hm) & Hd). split; [done|]. exists (weekday d). split; [done|].
      assert (d - weekday d - week0 = 7 * ((d - weekday d - week0) / 7)) as H7 by (Z.to_euclidean_division_equations; lia).
      set (q := (d - weekday d - week0) / 7) in *. assert (q = interval * k); [|lia]. apply multiple_in; [lia|done|]. nia.
    - intros (Hsd & n & Hn & ->). rewrite (weekday_of (week0 + 7 * interval * k) n Hmk) by by apply Hin.
      replace (week0 + 7 * interval * k + n - n - week0) with (interval * k * 7) by lia. rewrite Z.div_mul by lia. rewrite (Z.mul_comm interval), Z.mod_mul by lia.
      specialize (Hin n Hn). split_and!; [done|done|done|lia|nia]. }
  apply (looped_by (_weekly entry days) (fun k => week0 + 7 * interval * k) (fun k => week0 + 7 * interval * k) (fun k => True) (week0 + 7 * interval * MAXORDINAL + n0) (MAXORDINAL + 1)).
  - unfold _starts. rewrite Hr. cbn. destruct (Hw Hr) as (numbers' & -> & -> & _). cbn. do 2 f_equal. lia.
  - nia.
  - done.
  - intros k Hk _. split.
    + apply weekly_yields; [nia|lia|done|done|]. intros d. by apply Hblock.
    + cbn. unfold plus_days, is_day. replace (week0 + 7 * interval * k + 7 * interval) with (week0 + 7 * interval * (k + 1)) by lia. rewrite (proj2 (Z.leb_le 1 _)) by nia. cbn [andb].
      destruct (Z.leb_spec (week0 + 7 * interval * (k + 1)) MAXORDINAL); [by left|right]. exists OVERFLOW. split_and!; [done|by left|done].
  - lia.
  - rewrite Forall_forall in Hin. specialize (Hin n0 Hn0). nia.
  - done.
  - rewrite Forall_forall in Hin. specialize (Hin n0 Hn0). nia.
  - apply (Hblock MAXORDINAL); [done|]. rewrite Forall_forall in Hin. specialize (Hin n0 Hn0). split; [|by exists n0]. unfold MAXORDINAL in *. nia.
Qed.
Lemma monthly_loops : en_repeat entry = "monthly"%string -> loops_to visit (days_between (falls_on entry days) start (MAXORDINAL + 1)) [] (looped visit entry).
Proof.
  destruct entry_recurs as (Hday & Hi & _ & _). intros Hr. pose proof (fun d => falls_monthly entry days d Hr) as Hf. assert (0 < interval) as Hpos by lia.
  destruct (months_come_round start interval (falls_on entry days) Hpos Hday Hf 761 (4800 * 761) eq_refl ltac:(done)) as (d & Hd & Hmax & Hfd). destruct (day_in_month start) as (Hst & _).
  apply (looped_by (_monthly entry) (fun k => k) (month_lo start interval) (fun _ => True) d (4800 * 761 + 1)).
  - unfold _starts. by of_repeat Hr.
  - intros k _. pose proof (month_lo_grows start interval Hpos k). lia.
  - done.
  - intros k Hk _. cbn [_monthly fst snd]. split; [|by left]. destruct (month_index_parts start) as [Hy Hm].
    apply month_yields; [done..| |]; unfold nth_month, month_index; Z.to_euclidean_division_equations; lia.
  - unfold month_lo, nth_month. rewrite Z.mul_0_r, Z.add_0_r. unfold is_day in Hday. lia.
  - done.
  - done.
  - done.
  - done.
Qed.

Lemma yearly_loops : en_repeat entry = "yearly"%string -> loops_to visit (days_between (falls_on entry days) start (MAXORDINAL + 1)) [] (looped visit entry).
Proof.
  destruct entry_recurs as (Hday & Hi & _ & _). intros Hr. pose proof (fun d => falls_yearly entry days d Hr ltac:(lia)) as Hf. assert (0 < 12 * interval) as Hpos by lia.
  destruct (months_come_round start (12 * interval) (falls_on entry days) Hpos Hday Hf 761 (4800 * 761) eq_refl ltac:(done)) as (d & Hd & Hmax & Hfd). destruct (day_in_month start) as (Hst & _ & Hm & _).
  apply (looped_by (_yearly entry) (fun k => day_year start + interval * k) (month_lo start (12 * interval)) (fun _ => True) d (4800 * 761 + 1)).
  - unfold _starts. of_repeat Hr. do 2 f_equal. lia.
  - intros k _. pose proof (month_lo_grows start (12 * interval) Hpos k). lia.
  - done.
  - intros k Hk _. cbn [_yearly fst snd]. split; [|left; split; [do 2 f_equal; lia|done]].
    apply month_yields; [done..| |]; unfold nth_month, month_index; Z.to_euclidean_division_equations; lia.
  - unfold month_lo, nth_month. rewrite Z.mul_0_r, Z.add_0_r. unfold is_day in Hday. lia.
  - done.
  - done.
  - done.
  - done.
Qed.

(** A repeating entry's loop is over the days it falls on, in order, and past the last of them raises. *)
Lemma repeating_loops : en_repeat entry <> ""%string -> loops_to visit (days_between (falls_on entry days) start (MAXORDINAL + 1)) [] (looped visit entry).
Proof.
  intros Hr. destruct entry_recurs as (_ & _ & Hin & _). unfold REPEATS in Hin. rewrite !elem_of_cons in Hin. destruct Hin as [|[|[|[|[|[]%not_elem_of_nil]]]]]; [done| | | |].
  - by apply daily_loops.
  - by apply weekly_loops.
  - by apply monthly_loops.
  - by apply yearly_loops.
Qed.
End Looped.

Lemma walk_ended visit step n state found ended : walk visit step 0 state found = inr ended -> walk visit step n state found = inr ended.
Proof. intros H. induction n as [|n IH]; [done|]. cbn [walk]. by rewrite IH. Qed.

(** An entry that happens once is visited on its day. *)
Lemma once_loops visit entry : en_repeat entry = ""%string -> looped visit entry = match visit [] (en_starts_on entry) with inl found => Ok found | inr ended => ended end.
Proof.
  intros Hr. unfold looped, _starts. rewrite Hr. cbn [mbind outcome_bind bool_decide]. rewrite bool_decide_eq_true_2 by done. cbn [mbind outcome_bind].
  erewrite walk_ended; [reflexivity|]. cbn. by destruct (visit [] (en_starts_on entry)).
Qed.

(** * What is found in a window *)

(** The days in a window, of those a loop is over. *)
Lemma visits_window earliest stop l e : StronglySorted Z.lt l -> forall found, (found = [] \/ Forall (fun d => earliest <= d) l) -> (length found <= MAX_OCCURRENCES)%nat ->
  let inside := List.filter (fun d => (earliest <=? d) && (d <=? stop)) l in
  visits (fun found day => if (stop <? day) || (MAX_OCCURRENCES <=? length found)%nat then inr (Ok found) else inl (if earliest <=? day then found ++ [day] else found))
    (map Ok l ++ [Raise e]) found =
  inr (if existsb (fun d => stop <? d) l || (MAX_OCCURRENCES <? length (found ++ inside))%nat then Ok (take MAX_OCCURRENCES (found ++ inside)) else Raise e).
Proof.
  induction 1 as [|d l Hl IH Hd]; intros found Hfound Hlen inside; cbn [map app visits existsb].
  { cbn in inside. unfold inside. rewrite app_nil_r, (proj2 (Nat.ltb_ge _ _) Hlen). done. }
  rewrite Forall_forall in Hd. destruct (Z.ltb_spec stop d) as [Hstop|Hstop]; cbn [orb].
  { assert (inside = []) as ->; [|by rewrite app_nil_r, take_ge]. unfold inside. cbn. rewrite (proj2 (Z.leb_gt d stop)), andb_false_r by done.
    apply filter_none. intros x Hx. specialize (Hd x Hx). rewrite (proj2 (Z.leb_gt x stop)) by lia. apply andb_false_r. }
  destruct (Nat.leb_spec MAX_OCCURRENCES (length found)) as [Hfull|Hroom].
  { assert (earliest <= d) as He by (destruct Hfound as [->|Hall]; [cbn in Hfull; unfold MAX_OCCURRENCES in Hfull; lia|by inversion Hall]).
    unfold inside. cbn [List.filter]. rewrite (proj2 (Z.leb_le _ _) He), (proj2 (Z.leb_le _ _) Hstop). cbn [andb].
    rewrite (proj2 (Nat.ltb_lt _ _)), orb_true_r by (rewrite length_app; cbn; lia). by rewrite take_app_le, take_ge by lia. }
  destruct (Z.leb_spec earliest d) as [He|He].
  - rewrite IH.
    + unfold inside. cbn [List.filter]. rewrite (proj2 (Z.leb_le _ _) He), (proj2 (Z.leb_le _ _) Hstop). cbn [andb]. by rewrite <- app_assoc.
    + right. apply Forall_forall. intros x Hx. specialize (Hd x Hx). lia.
    + rewrite length_app. cbn. lia.
  - rewrite IH; [|destruct Hfound as [->|Hall]; [by left|inversion Hall; lia]|done].
    unfold inside. cbn [List.filter]. by rewrite (proj2 (Z.leb_gt _ _) He).
Qed.

Lemma filter_between (p falls : Z -> bool) a b c d : (forall x, falls x = true -> a <= x) -> (forall x, p x = (c <=? x) && (x <? d)) -> d <= b ->
  List.filter p (days_between falls a b) = days_between falls c d.
Proof.
  intros Ha Hp Hb. apply sorted_days_eq; [apply filter_sorted, between_sorted|apply between_sorted|]. intros x.
  rewrite list_elem_of_In, filter_In, <- list_elem_of_In, !elem_of_between, Hp, andb_true_iff, Z.leb_le, Z.ltb_lt. split.
  - by intros [[Hf _] ?].
  - intros [Hf Hx]. specialize (Ha x Hf). split_and!; done || lia.
Qed.

(** C29: The occurrences of an entry in a window are the days it falls on, by its own terms, that touch the window,
    in order and the first [MAX_OCCURRENCES] of them; the loop that finds them ends for every entry, and raises
    only when the entry comes round to a day past the last there is before one that ends the loop. *)
Theorem occurrences_are_the_days_it_falls_on entry days first last :
  recurs entry days -> last <= MAXORDINAL -> is_day (first - _span_days entry) = true ->
  let earliest := first - _span_days entry in
  let stop := match en_repeat_until entry with Some until => Z.min last until | None => last end in
  let found := days_between (falls_on entry days) earliest (stop + 1) in
  if bool_decide (en_repeat entry = ""%string) || existsb (falls_on entry days) (seqZ (stop + 1) (MAXORDINAL - stop)) || (MAX_OCCURRENCES <? length found)%nat
  then occurrences entry first last = Ok (take MAX_OCCURRENCES found)
  else exists e, past_the_last e /\ occurrences entry first last = Raise e.
Proof.
  intros Hr Hlast Hfirst earliest stop found. assert (stop <= MAXORDINAL) as Hstop by (unfold stop; destruct (en_repeat_until entry); lia).
  unfold occurrences, plus_days. rewrite Z.add_opp_r, Hfirst. cbn [mbind outcome_bind]. fold earliest stop.
  assert (forall d, falls_on entry days d = true -> en_starts_on entry <= d) as Hge by (intros d (Hd%Z.leb_le & _)%andb_true_iff; done).
  case_bool_decide as Honce; cbn [orb].
  - rewrite once_loops by done. cbn [length Nat.leb]. rewrite orb_false_r. unfold found. destruct (Z.ltb_spec stop (en_starts_on entry)) as [Hs|Hs].
    + rewrite between_nil; [done|]. intros d Hd. destruct (falls_on entry days d) eqn:Hf; [|done]. specialize (Hge d Hf). lia.
    + assert (forall d, falls_on entry days d = true <-> d = en_starts_on entry) as Hf.
      { intros d. unfold falls_on. cbv zeta. rewrite bool_decide_eq_true_2, andb_true_iff, Z.leb_le, Z.eqb_eq by done. lia. }
      destruct (Z.leb_spec earliest (en_starts_on entry)).
      * rewrite (one_day _ _ _ (en_starts_on entry)); [done|]. intros d. rewrite Hf. lia.
      * rewrite between_nil; [done|]. intros d Hd. destruct (falls_on entry days d) eqn:Hfd; [|done]. apply Hf in Hfd. lia.
  - destruct (repeating_loops (fun found day => if (stop <? day) || (MAX_OCCURRENCES <=? length found)%nat then inr (Ok found) else inl (if earliest <=? day then found ++ [day] else found))
      entry days Hr Honce) as (e & He & Hv).
    rewrite (visits_window earliest stop _ e (between_sorted _ _ _) []) in Hv by (by left || (cbn; lia)). cbn [app] in Hv.
    rewrite (filter_between _ _ _ _ earliest (stop + 1)) in Hv; [|done|intros x; f_equal; lia|lia]. fold found in Hv. apply (inj inr) in Hv. rewrite <- Hv. clear Hv.
    assert (existsb (fun d => stop <? d) (days_between (falls_on entry days) (en_starts_on entry) (MAXORDINAL + 1)) = existsb (falls_on entry days) (seqZ (stop + 1) (MAXORDINAL - stop))) as ->.
    { apply eq_true_iff_eq. rewrite !existsb_exists. setoid_rewrite <- list_elem_of_In. setoid_rewrite elem_of_between. setoid_rewrite elem_of_seqZ. split.
      - intros (d & (Hf & Hd) & Hs%Z.ltb_lt). exists d. split; [lia|done].
      - intros (d & Hd & Hf). exists d. specialize (Hge d Hf). split; [split; [done|lia]|apply Z.ltb_lt; lia]. }
    destruct (_ || _); [done|by exists e].
Qed.

Lemma occurrences_are_the_days_it_falls_on_witness :
  let entry := repeating "monthly" 1 (ymd2ord 2025 10 31) "" an_entry in
  occurrences entry 739500 739800 = Ok [ymd2ord 2025 10 31; ymd2ord 2025 12 31; ymd2ord 2026 1 31; ymd2ord 2026 3 31; ymd2ord 2026 5 31] /\
  exists e, occurrences entry (MAXORDINAL - 40) MAXORDINAL = Raise e.
Proof.
  intros entry. assert (recurs entry []) as Hr by (refine (conj _ (conj _ (conj _ _))); [reflexivity|cbn; lia|apply list_elem_of_In; cbn; tauto|discriminate]).
  pose proof (occurrences_are_the_days_it_falls_on entry [] 739500 739800 Hr ltac:(unfold MAXORDINAL; lia) eq_refl) as H.
  pose proof (occurrences_are_the_days_it_falls_on entry [] (MAXORDINAL - 40) MAXORDINAL Hr (Z.le_refl _) eq_refl) as H'. split.
  - assert (existsb (falls_on entry []) (seqZ (739800 + 1) (MAXORDINAL - 739800)) = true) as He.
    { apply existsb_exists. exists (ymd2ord 2026 7 31). split; [apply list_elem_of_In, elem_of_seqZ; split; [vm_compute; discriminate|vm_compute; reflexivity]|reflexivity]. }
    cbv zeta in H. change (en_repeat_until entry) with (@None Z) in H. cbv iota in H. rewrite He, orb_true_r in H. exact H.
  - cbv zeta in H'. destruct (_ || _) eqn:Hc in H'; [exfalso; revert Hc; vm_compute; discriminate|]. destruct H' as (e & _ & He). by exists e.
Defined.
