(* ===== verification/Calendar.v ===== *)
(** The calendar (application/calendar.py): every dated thing the domains of a deployment hold, read source by source,
    composed into a month of six weeks with its bars in lanes, and into a day. *)
From stdpp Require Import base sets gmap list list_numbers strings pretty sorting.
From Stdlib Require Import Ascii ZArith Lia Sorting.Sorted.
From S2P Require Import Prelude PyStr Refusals Models PyJson IpAddress Dates Recurrence.

#[local] Open Scope Z_scope.

(** * Moments *)

(** An aware [datetime]: what its clock shows, in microseconds from day 0, the instant it is, and its zone. *)
Record Datetime := mk_Datetime { dt_wall : Z; dt_utc : Z; dt_zone : Z }.

(** What a [date]-typed field may hold: a date, a naive [datetime] or an aware one. *)
Inductive Moment : Type := Day (day : Z) | Naive (wall : Z) | At (at_ : Datetime).

(** The zone HQ is read in: which it is, and what its clocks show at an instant. A moment so near either end of
    the calendar that its zone puts it past it is not represented. *)
Record Zone := mk_Zone { here : Z; clock : Z -> Z }.

Definition type_error : exn := OtherError "TypeError" "can't compare offset-naive and offset-aware datetimes".

(** [a < b] of aware datetimes: in one zone by their clocks, else by the instants they are. *)
Definition earlier (a b : Datetime) : bool := if dt_zone a =? dt_zone b then dt_wall a <? dt_wall b else dt_utc a <? dt_utc b.

(** [a < b] *)
Definition less (a b : Moment) : outcome exn bool :=
  match a, b with
  | Day a, Day b => Ok (a <? b)
  | Naive a, Naive b => Ok (a <? b)
  | At a, At b => Ok (earlier a b)
  | _, _ => Raise type_error
  end.

(** * Links *)

Definition scheme_char (c : ascii) : bool :=
  let n := Z.of_nat (code c) in
  ((48 <=? n) && (n <=? 57)) || ((65 <=? n) && (n <=? 90)) || ((97 <=? n) && (n <=? 122)) || (n =? 43) || (n =? 45) || (n =? 46).
Definition letter (c : ascii) : bool := let n := Z.of_nat (code c) in ((65 <=? n) && (n <=? 90)) || ((97 <=? n) && (n <=? 122)).

(** The scheme of a URL, lowered, and the rest of it. *)
Definition url_scheme (url : string) : string * string :=
  match partition ":" url with
  | (String c _ as scheme, true, rest) => if letter c && str_all scheme_char scheme then (lower scheme, rest) else (""%string, url)
  | _ => (""%string, url)
  end.

(** Up to the first slash, question mark or hash. *)
Fixpoint netloc_of (s : string) : string :=
  match s with
  | "" => ""
  | String c s' => if mem_char c "/?#" then "" else String c (netloc_of s')
  end%string.

(** [_check_bracketed_netloc]: whether the brackets hold an address. *)
Definition bracketed_host (host : string) : bool :=
  if startswith "v" host then
    let '(digits, dotted, rest) := partition "." (String.substring 1 (String.length host - 1) host) in
    dotted && negb (bool_decide (digits = ""%string)) && str_all is_hex digits && negb (bool_decide (rest = ""%string)) && negb (mem_char "010" rest)
  else match ip_address host with Some (V6 _ _) => true | _ => false end.

Definition netloc_ok (netloc : string) : bool :=
  let '(opened, closed) := (mem_char "[" netloc, mem_char "]" netloc) in
  if opened && closed then
    let '(_, _, host) := rpartition "@" netloc in
    let '(before, have_open, bracketed) := partition "[" host in
    if have_open then
      let '(hostname, _, port) := partition "]" bracketed in
      bool_decide (before = ""%string) && (bool_decide (port = ""%string) || startswith ":" port) && bracketed_host hostname
    else let '(hostname, _, _) := partition ":" host in bracketed_host hostname
  else bool_decide (opened = closed).

(** [.hostname], blank for none. *)
Definition netloc_host (netloc : string) : string :=
  let '(_, _, host) := rpartition "@" netloc in
  let '(_, have_open, bracketed) := partition "[" host in
  if have_open then (partition "]" bracketed).1.1 else (partition ":" host).1.1.

(** entity_links.py: the text when it is an http(s) URL naming a host. *)
Definition web_url (value : string) : string :=
  let text := strip value in
  if negb (str_all (fun c => negb ((code c <? 32)%nat || (code c =? 127)%nat)) text) then ""%string
  else
    let '(scheme, rest) := url_scheme text in
    if startswith "//" rest then
      let netloc := netloc_of (String.substring 2 (String.length rest - 2) rest) in
      if netloc_ok netloc && (bool_decide (scheme = "http"%string) || bool_decide (scheme = "https"%string)) && negb (bool_decide (netloc_host netloc = ""%string)) then text else ""%string
    else ""%string.

Example some_links : map web_url [" https://example.org/a?b "; "javascript:alert(1)"; "//example.org"; "http://"; "HTTP://u@[::1]:80/"; "http://[::1"; "http://[1.2.3.4]/"]%string
  = ["https://example.org/a?b"; ""; ""; ""; "HTTP://u@[::1]:80/"; ""; ""]%string.
Proof. vm_compute. reflexivity. Qed.

(** * Events *)

Definition EVENT_STATES : list string := [""; "done"; "planned"; "missed"]%string.
Definition SERIES_SLOTS : Z := 10.
Definition CELL_ROWS : nat := 3.
Definition UPCOMING : nat := 8.

Record CalendarEvent := mk_CalendarEvent {
  ev_id : string;
  ev_title : string;
  ev_starts : Moment;
  ev_ends : option Moment;
  ev_detail : string;
  ev_url : string;
  ev_state : string;
  ev_mark : bool;
}.

Definition is_datetime (m : Moment) : bool := match m with Day _ => false | _ => true end.
Definition timed (event : CalendarEvent) : bool := is_datetime (ev_starts event).

Section Events.
Context (zone : Zone).

Definition localtime (at_ : Datetime) : Datetime :=
  if dt_zone at_ =? here zone then at_ else {| dt_wall := clock zone (dt_utc at_); dt_utc := dt_utc at_; dt_zone := here zone |}.

(** [datetime.date()] *)
Definition date_of (wall : Z) : Z := wall / DAY.

(** No event holds a naive [datetime] ([new_event]). *)
Definition _day (value : Moment) : Z :=
  match value with Day day => day | Naive wall => date_of wall | At at_ => date_of (dt_wall (localtime at_)) end.

Definition first_day (event : CalendarEvent) : Z := _day (ev_starts event).

(** The last day covered. An event ending on the first day there is, where the subtraction raises, is not represented. *)
Definition last_day (event : CalendarEvent) : Z :=
  match ev_ends event with
  | None => first_day event
  | Some (At ends) =>
      let last := localtime ends in
      match ev_starts event with
      | At starts => if earlier starts last then date_of (dt_wall last - 1) else date_of (dt_wall last)
      | _ => first_day event
      end
  | Some (Day ends) => Z.max (first_day event) (ends - 1)
  | Some (Naive ends) => date_of ends
  end.

Definition days (event : CalendarEvent) : Z := last_day event - first_day event + 1.
Definition span (event : CalendarEvent) : bool := 1 <? days event.
Definition covers (event : CalendarEvent) (day : Z) : bool := (first_day event <=? day) && (day <=? last_day event).

(** [f"{hour % 12 or 12}..."] *)
Definition time_label (event : CalendarEvent) : string :=
  match ev_starts event with
  | At at_ =>
      let wall := dt_wall (localtime at_) mod DAY in
      let '(hour, minute) := (wall / HOUR, wall mod HOUR / MINUTE) in
      let (twelve, noon) := (if hour mod 12 =? 0 then 12 else hour mod 12, hour <? 12) in
      pretty twelve +:+ (if minute =? 0 then ""%string else ":" +:+ padded 2 minute) +:+ (if noon then "a" else "p")%string
  | _ => ""%string
  end.

(** [CalendarEvent(...)], with its [__post_init__]. *)
Definition new_event (id title : string) (starts : Moment) (ends : option Moment) (detail url state : string) (mark : bool) : outcome exn CalendarEvent :=
  if bool_decide (id = ""%string) || bool_decide (strip title = ""%string) then Raise (ValueError "A calendar event needs an id and a title.")
  else if negb (bool_decide (state ∈ EVENT_STATES)) then Raise (ValueError ("Unknown calendar event state " +:+ repr state +:+ "."))
  else
    match starts with
    | Naive _ => Raise (ValueError "A timed calendar event needs an aware start.")
    | _ =>
        _ ← match ends with
            | None => Ok tt
            | Some ends =>
                if negb (Bool.eqb (is_datetime ends) (is_datetime starts)) then Raise (ValueError "A calendar event starts and ends in the same terms.")
                else before ← less ends starts;
                     if before : bool then Raise (ValueError "A calendar event cannot end before it starts.") else Ok tt
            end;
        let event := {| ev_id := id; ev_title := title; ev_starts := starts; ev_ends := ends; ev_detail := detail;
          ev_url := (if startswith "/" url then url else web_url url); ev_state := state; ev_mark := mark |} in
        if mark && negb (first_day event =? last_day event) then Raise (ValueError "A mark is one day; a longer event is a span.") else Ok event
    end.
End Events.

(** * Sources *)

Record CalendarSource := mk_CalendarSource {
  cs_id : string;
  cs_label : string;
  cs_events : Z -> Z -> outcome exn (list CalendarEvent);
  cs_description : string;
  cs_url : string;
  cs_shown : bool;
  cs_slot : Z;
}.

Definition lower_letter (c : ascii) : bool := let n := Z.of_nat (code c) in (97 <=? n) && (n <=? 122).
Definition id_char (c : ascii) : bool := let n := Z.of_nat (code c) in lower_letter c || ((48 <=? n) && (n <=? 57)) || (n =? 95) || (n =? 45).

(** A part of a source's id: [[a-z][a-z0-9_-]*]. *)
Definition id_part (s : string) : bool := match s with "" => false | String c _ => lower_letter c && str_all id_char s end%string.

(** Without the line break [$] lets an id end in. *)
Fixpoint unended (s : string) : string :=
  match s with
  | "" => ""
  | String c "" => if decide (c = "010"%char) then "" else s
  | String c s' => String c (unended s')
  end%string.

(** [SOURCE_ID.match(id)] *)
Definition source_id (id : string) : bool :=
  let parts := split_on "." (unended id) in
  (1 <? length parts)%nat && forallb id_part parts.

(** [CalendarSource(...)], with its [__post_init__]; the model's types say that its events may be called. *)
Definition new_source (source : CalendarSource) : outcome exn CalendarSource :=
  if negb (source_id (cs_id source)) then Raise (ValueError ("Calendar source id " +:+ repr (cs_id source) +:+ " must be dotted and lower-case."))
  else if negb ((0 <=? cs_slot source) && (cs_slot source <=? SERIES_SLOTS)) then Raise (ValueError ("Calendar source slot must be 0 to " +:+ pretty SERIES_SLOTS +:+ "."))
  else Ok source.

(** What the calendar asks of a domain (domains.py): its label, where its pages stand in the bar, and its provider. *)
Record Domain := mk_Domain { dm_id : string; dm_label : string; dm_orders : list Z; dm_calendars : option (outcome exn (list CalendarSource)) }.

Definition HOST_ORDER_MACHINERY : Z := 900.

Definition bar_order (domain : Domain) : Z := match dm_orders domain with [] => HOST_ORDER_MACHINERY | o :: os => fold_left Z.min os o end.

(** [sorted(rows, key=...)]: rows that compare equal stay in their order. *)
Fixpoint insert_before {A} (before : A -> A -> bool) (x : A) (rows : list A) : list A :=
  match rows with
  | [] => [x]
  | y :: ys => if before y x then y :: insert_before before x ys else x :: rows
  end.

Definition sort_before {A} (before : A -> A -> bool) (rows : list A) : list A := fold_right (insert_before before) [] rows.

(** [a < b] of tuples, part by part. *)
Fixpoint tuple_before (parts : list comparison) : bool :=
  match parts with
  | [] => false
  | Lt :: _ => true
  | Gt :: _ => false
  | Eq :: parts => tuple_before parts
  end.

Definition bool_compare (a b : bool) : comparison := match a, b with false, true => Lt | true, false => Gt | _, _ => Eq end.

Definition domain_before (a b : Domain) : bool := tuple_before [bar_order a ?= bar_order b; String.compare (dm_label a) (dm_label b)].

Fixpoint distinct_ids (seen : gset string) (found : list (string * CalendarSource)) : outcome exn unit :=
  match found with
  | [] => Ok tt
  | (_, source) :: found =>
      if bool_decide (cs_id source ∈ seen) then Raise (ValueError ("Two calendar sources use the id " +:+ repr (cs_id source) +:+ "."))
      else distinct_ids ({[cs_id source]} ∪ seen) found
  end.

Fixpoint domain_sources (domains : list Domain) : outcome exn (list (string * CalendarSource)) :=
  match domains with
  | [] => Ok []
  | domain :: domains =>
      sources ← match dm_calendars domain with None => Ok [] | Some provided => provided end;
      more ← domain_sources domains;
      mret (map (fun source => (dm_label domain, source)) sources ++ more)
  end.

(** Of the operator's own sources and the domains there are. *)
Definition calendar_sources (own : list CalendarSource) (all_domains : list Domain) : outcome exn (list (string * CalendarSource)) :=
  more ← domain_sources (sort_before domain_before all_domains);
  let found := map (fun source => (""%string, source)) own ++ more in
  _ ← distinct_ids ∅ found;
  mret found.

(** * Colors *)

Definition count_of (slot : Z) (taken : list Z) : nat := length (List.filter (Z.eqb slot) taken).

(** [min(range(1, SERIES_SLOTS + 1), key=...)]: the first of the least. *)
Definition slot_before (asked taken : list Z) (a b : Z) : bool :=
  tuple_before [bool_compare (bool_decide (a ∈ asked)) (bool_decide (b ∈ asked)); Nat.compare (count_of a taken) (count_of b taken); a ?= b].

Definition least_slot (asked taken : list Z) : Z :=
  fold_left (fun best slot => if slot_before asked taken slot best then slot else best) (seqZ 2 (SERIES_SLOTS - 1)) 1.

Fixpoint deal (asked : list Z) (sources : list CalendarSource) (taken : list Z) (dealt : gmap string Z) : gmap string Z :=
  match sources with
  | [] => dealt
  | source :: sources => let slot := least_slot asked taken in deal asked sources (taken ++ [slot]) (<[cs_id source := slot]> dealt)
  end.

(** [{source.id: source.slot for ...}] *)
Definition asked_slots (sources : list CalendarSource) : gmap string Z := fold_left (fun dealt source => <[cs_id source := cs_slot source]> dealt) sources ∅.

Definition asks (source : CalendarSource) : bool := negb (cs_slot source =? 0).
Definition hidden_last (a b : CalendarSource) : bool := tuple_before [bool_compare (negb (cs_shown a)) (negb (cs_shown b))].

Definition _slots (sources : list CalendarSource) : gmap string Z :=
  let asking := List.filter asks sources in
  deal (map cs_slot asking) (sort_before hidden_last (List.filter (fun source => negb (asks source)) sources)) (map cs_slot asking) (asked_slots asking).

(** * A window *)

Record SourceView := mk_SourceView {
  sv_id : string;
  sv_label : string;
  sv_group : string;
  sv_slot : Z;
  sv_shown : bool;
  sv_description : string;
  sv_url : string;
  sv_count : Z;
  sv_failure : string;
}.

Record Placed := mk_Placed { pl_event : CalendarEvent; pl_source : SourceView }.

(** [groups.setdefault(group, []).append(view)] *)
Fixpoint under {A} (group : string) (x : A) (groups : list (string * list A)) : list (string * list A) :=
  match groups with
  | [] => [(group, [x])]
  | (name, xs) :: groups => if decide (name = group) then (name, xs ++ [x]) :: groups else (name, xs) :: under group x groups
  end.

(** One row of a week's bars. *)
#[local] Notation Lane := (list (option Placed)).

Section Window.
Context (zone : Zone).

Definition COULD_NOT : string := "Could not be read just now".

Definition touches (first last : Z) (event : CalendarEvent) : bool := (first <=? last_day zone event) && (first_day zone event <=? last).

(** Everything a source raises is caught. *)
Definition _read (source : CalendarSource) (first last : Z) : list CalendarEvent * string :=
  match cs_events source first last with
  | Raise _ => ([], COULD_NOT)
  | Ok events => (List.filter (touches first last) events, ""%string)
  end.

Definition view_of (choices : gmap string bool) (slots : gmap string Z) (first last : Z) (group : string) (source : CalendarSource) : SourceView :=
  let '(events, failure) := _read source first last in
  {| sv_id := cs_id source; sv_label := cs_label source; sv_group := group; sv_slot := default 0 (slots !! cs_id source);
     sv_shown := default (cs_shown source) (choices !! cs_id source); sv_description := cs_description source; sv_url := cs_url source;
     sv_count := Z.of_nat (length events); sv_failure := failure |}.

(** One turn of the loop over the sources. *)
Definition gather_one (choices : gmap string bool) (slots : gmap string Z) (first last : Z)
    (so_far : list (string * list SourceView) * list Placed) (declared : string * CalendarSource) : list (string * list SourceView) * list Placed :=
  let '(group, source) := declared in
  let view := view_of choices slots first last group source in
  (under group view so_far.1, so_far.2 ++ map (fun event => mk_Placed event view) (_read source first last).1).

(** Of the sources declared. *)
Definition gather (declared : list (string * CalendarSource)) (first last : Z) (choices : gmap string bool) : list (string * list SourceView) * list Placed :=
  fold_left (gather_one choices (_slots (map snd declared)) first last) declared ([], []).

(** * A month *)

Record SpanPiece := mk_SpanPiece { sp_placed : Placed; sp_starts_here : bool; sp_ends_here : bool; sp_titled : bool }.

Record CalendarCell := mk_CalendarCell {
  cc_day : Z;
  cc_in_month : bool;
  cc_today : bool;
  cc_past : bool;
  cc_marks : list Placed;
  cc_items : list Placed;
  cc_lanes : list (option SpanPiece);
  cc_more : nat;
}.

Definition weekend (cell : CalendarCell) : bool := 5 <=? weekday (cc_day cell).

(** [CalendarCell.count] *)
Definition cell_count (cell : CalendarCell) : nat :=
  (length (cc_marks cell) + length (cc_items cell) + cc_more cell + length (List.filter is_some (cc_lanes cell)))%nat.

Record CalendarMonth := mk_CalendarMonth {
  cm_month : Z;
  cm_weeks : list (list CalendarCell);
  cm_groups : list (string * list SourceView);
  cm_today : Z;
  cm_upcoming : list Placed;
}.

(** [day.replace(day=1)] *)
Definition month_first (day : Z) : Z := day - day_of_month day + 1.

Definition month_empty (month : CalendarMonth) : bool := negb (existsb (fun week => existsb (fun cell => (0 <? cell_count cell)%nat) week) (cm_weeks month)).
Definition is_current (month : CalendarMonth) : bool := cm_month month =? month_first (cm_today month).
Definition previous (month : CalendarMonth) : outcome exn Z := month_first <$> plus_days (cm_month month) (-1).
Definition next (month : CalendarMonth) : outcome exn Z := month_first <$> plus_days (cm_month month) 32.

(** [reverse("calendar:month")] *)
Definition CALENDAR : string := "/calendar/".

Definition month_url (month : Z) (day : option Z) : string :=
  CALENDAR +:+ "?month=" +:+ padded 4 (day_year month) +:+ "-" +:+ padded 2 (day_month month) +:+ match day with Some day => "&day=" +:+ iso_day day | None => ""%string end.

(** [date(year, month, 1)]: past what a C int holds, the number itself does not fit. *)
Definition date_of_month (year month : Z) : outcome exn Z :=
  if negb ((- 2 ^ 31 <=? year) && (year <? 2 ^ 31) && (- 2 ^ 31 <=? month) && (month <? 2 ^ 31)) then Raise (OtherError "OverflowError" "signed integer is greater than maximum")
  else if negb ((1 <=? year) && (year <=? 9999)) then Raise (ValueError ("year must be in 1..9999, not " +:+ pretty year))
  else if negb ((1 <=? month) && (month <=? 12)) then Raise (ValueError ("month must be in 1..12, not " +:+ pretty month))
  else Ok (ymd2ord year month 1).

Definition month_of (value : option string) (today : Z) : outcome exn Z :=
  let read :=
    match split_on "-" (default ""%string value) with
    | [year; month] => year ← py_int year; month ← py_int month; date_of_month year month
    | _ => Raise (ValueError "the wrong number of values to unpack")
    end in
  match read with
  | Raise (ValueError _) => Ok (month_first today)
  | answer => answer
  end.

Definition sunday_of (day : Z) : Z := (weekday day + 1) mod 7.

Definition _grid (month : Z) : outcome exn (Z * Z) :=
  first ← plus_days month (- sunday_of month);
  last ← plus_days first 41;
  mret (first, last).

(** [datetime.min.time()] of one that is not timed. *)
Definition _sort_time (event : CalendarEvent) : Z := match ev_starts event with At at_ => dt_wall (localtime zone at_) mod DAY | _ => 0 end.

Definition shown_before (a b : Placed) : bool :=
  let '(a, b) := (pl_event a, pl_event b) in
  tuple_before [first_day zone a ?= first_day zone b; - days zone a ?= - days zone b; bool_compare (timed a) (timed b); _sort_time a ?= _sort_time b;
    String.compare (ev_title a) (ev_title b)].

Definition free_over (lane : Lane) (covered : list nat) : bool := forallb (fun index => match lane !! index with Some None => true | _ => false end) covered.

(** [for index in covered: lane[index] = item] *)
Definition take_lane (item : Placed) (covered : list nat) (lane : Lane) : Lane := fold_left (fun lane index => <[index := Some item]> lane) covered lane.

Fixpoint first_free (item : Placed) (covered : list nat) (width : nat) (lanes : list Lane) : list Lane :=
  match lanes with
  | [] => [take_lane item covered (replicate width None)]
  | lane :: lanes => if free_over lane covered then take_lane item covered lane :: lanes else lane :: first_free item covered width lanes
  end.

Definition covered_by (item : Placed) (week : list Z) : list nat :=
  List.filter (fun index => match week !! index with Some day => covers zone (pl_event item) day | None => false end) (seq 0 (length week)).

Definition lane_one (week : list Z) (lanes : list Lane) (item : Placed) : list Lane :=
  match covered_by item week with
  | [] => lanes
  | covered => first_free item covered (length week) lanes
  end.

Definition _lanes (spans : list Placed) (week : list Z) : list Lane := fold_left (lane_one week) spans [].

(** [lane[index]] *)
Definition at_index (index : nat) (lane : Lane) : option Placed := mjoin (lane !! index).

Definition _cell (month today day : Z) (on_day : list Placed) (lanes : list Lane) : CalendarCell :=
  let index := Z.to_nat (sunday_of day) in
  let marks := List.filter (fun item => ev_mark (pl_event item)) on_day in
  let items := List.filter (fun item => negb (ev_mark (pl_event item))) on_day in
  let '(drawn, hidden) := (take CELL_ROWS lanes, drop CELL_ROWS lanes) in
  let piece item := {| sp_placed := item; sp_starts_here := first_day zone (pl_event item) =? day; sp_ends_here := last_day zone (pl_event item) =? day;
    sp_titled := (first_day zone (pl_event item) =? day) || (index =? 0)%nat |} in
  let room := (CELL_ROWS - length drawn)%nat in
  {| cc_day := day; cc_in_month := day_month day =? day_month month; cc_today := day =? today; cc_past := day <? today; cc_marks := marks; cc_items := take room items;
     cc_lanes := map (fun lane => piece <$> at_index index lane) drawn;
     cc_more := (length items - room + length (List.filter (fun lane => is_some (at_index index lane)) hidden))%nat |}.

(** [on_day.get(day, [])]: what is one day's, in order. *)
Definition on_day (shown : list Placed) (day : Z) : list Placed :=
  List.filter (fun item => negb (span zone (pl_event item)) && (first_day zone (pl_event item) =? day)) shown.

Definition calendar_month (declared : list (string * CalendarSource)) (month : Z) (choices : gmap string bool) (today : Z) : outcome exn CalendarMonth :=
  '(first, last) ← _grid month;
  let '(groups, placed) := gather declared first last choices in
  let shown := sort_before shown_before (List.filter (fun item => sv_shown (pl_source item)) placed) in
  let spans := List.filter (fun item => span zone (pl_event item)) shown in
  let week start :=
    let days := seqZ start 7 in
    let lanes := _lanes spans days in
    map (fun day => _cell month today day (on_day shown day) lanes) days in
  let ahead := List.filter (fun item => negb (ev_mark (pl_event item)) && (today <=? last_day zone (pl_event item))) shown in
  mret {| cm_month := month; cm_weeks := map (fun n => week (first + 7 * n)) (seqZ 0 6); cm_groups := groups; cm_today := today; cm_upcoming := take UPCOMING ahead |}.

(** * A day *)

Record CalendarDayView := mk_CalendarDayView { cv_day : Z; cv_today : Z; cv_groups : list (SourceView * list CalendarEvent) }.

Definition event_before (a b : CalendarEvent) : bool :=
  tuple_before [bool_compare (timed a) (timed b); _sort_time a ?= _sort_time b; String.compare (ev_title a) (ev_title b)].

(** [by_source.get(id)]: the events of a source that cover the day, in order. *)
Definition of_source (placed : list Placed) (day : Z) (id : string) : list CalendarEvent :=
  map pl_event (List.filter (fun item => bool_decide (sv_id (pl_source item) = id) && covers zone (pl_event item) day) placed).

Definition calendar_day (declared : list (string * CalendarSource)) (day : Z) (choices : gmap string bool) (today : Z) : CalendarDayView :=
  let '(groups, placed) := gather declared day day choices in
  let views := concat (map snd groups) in
  {| cv_day := day; cv_today := today;
     cv_groups := map (fun view => (view, sort_before event_before (of_source placed day (sv_id view))))
       (List.filter (fun view => match of_source placed day (sv_id view) with [] => false | _ => true end) views) |}.
End Window.

(** * Lanes *)

Lemma filter_seq_sorted (p : nat -> bool) n k : StronglySorted lt (List.filter p (seq k n)).
Proof.
  revert k. induction n as [|n IH]; intros k; cbn; [constructor|]. destruct (p k); [|apply IH]. constructor; [apply IH|].
  apply Forall_forall. intros x (Hx%in_seq & _)%list_elem_of_In%filter_In. lia.
Qed.

Section Lanes.
Context (zone : Zone) (week : list Z).

(** The span a day of the week lies in. *)
Definition covers_at (index : nat) (item : Placed) : bool := match week !! index with Some day => covers zone (pl_event item) day | None => false end.

(** What the lanes hold of one day. *)
Definition lane_column (index : nat) (lanes : list Lane) : list Placed := omap (at_index index) lanes.

Lemma elem_of_covered item index : index ∈ covered_by zone item week <-> covers_at index item = true.
Proof.
  unfold covered_by. rewrite list_elem_of_In, filter_In, in_seq. fold (covers_at index item). split; [tauto|]. intros H. split; [|done].
  unfold covers_at in H. destruct (week !! index) as [day|] eqn:E; [|done]. apply lookup_lt_Some in E. lia.
Qed.

Lemma at_take_lane item covered lane index : (forall i, i ∈ covered -> (i < length lane)%nat) ->
  at_index index (take_lane item covered lane) = if decide (index ∈ covered) then Some item else at_index index lane.
Proof.
  unfold take_lane. revert lane. induction covered as [|i covered IH]; intros lane Hc; cbn [fold_left].
  { by rewrite decide_False by apply not_elem_of_nil. }
  rewrite IH by (intros j Hj; rewrite length_insert; apply Hc; by right). assert (i < length lane)%nat as Hi by (apply Hc; left).
  destruct (decide (index ∈ covered)) as [Hin|Hout]; [by rewrite decide_True by by right|].
  unfold at_index. destruct (decide (index = i)) as [->|Hne].
  - rewrite list_lookup_insert_eq by done. by rewrite decide_True by left.
  - rewrite list_lookup_insert_ne by done. rewrite decide_False; [done|]. rewrite elem_of_cons. tauto.
Qed.

Lemma length_take_lane item covered lane : length (take_lane item covered lane) = length lane.
Proof. unfold take_lane. revert lane. induction covered as [|i covered IH]; intros lane; cbn [fold_left]; [done|]. by rewrite IH, length_insert. Qed.

Lemma free_at lane covered index : free_over lane covered = true -> index ∈ covered -> at_index index lane = None.
Proof.
  unfold free_over. rewrite forallb_forall. intros H Hin. specialize (H index). rewrite <- list_elem_of_In in H. specialize (H Hin). unfold at_index. by destruct (lane !! index) as [[|]|].
Qed.

Definition wide (lane : Lane) : Prop := length lane = length week.

Lemma covered_wide item lane : wide lane -> forall i, i ∈ covered_by zone item week -> (i < length lane)%nat.
Proof. intros Hw i Hi%elem_of_covered. unfold covers_at in Hi. destruct (week !! i) eqn:E; [|done]. apply lookup_lt_Some in E. by rewrite Hw. Qed.

Lemma at_blank index : at_index index (replicate (length week) None : Lane) = None.
Proof. unfold at_index. destruct (replicate (length week) None !! index) as [o|] eqn:E; [|done]. by apply lookup_replicate in E as [-> _]. Qed.

Lemma first_free_column item lanes index : Forall wide lanes ->
  let covered := covered_by zone item week in
  lane_column index (first_free item covered (length week) lanes) ≡ₚ (if covers_at index item then [item] else []) ++ lane_column index lanes /\
  Forall wide (first_free item covered (length week) lanes).
Proof.
  intros Hw covered. assert (forall lane, wide lane -> (covers_at index item = true -> at_index index lane = None) ->
    at_index index (take_lane item covered lane) = if covers_at index item then Some item else at_index index lane) as Htake.
  { intros lane Hl Hfree. rewrite at_take_lane by by apply covered_wide. case_decide as Hin.
    - apply elem_of_covered in Hin. by rewrite Hin.
    - destruct (covers_at index item) eqn:E; [|done]. by apply elem_of_covered in E. }
  induction Hw as [|lane lanes Hl Hw [IHc IHw]]; cbn [first_free].
  - unfold lane_column. cbn [omap list_omap]. rewrite Htake; [|by unfold wide; rewrite length_replicate|intros; apply at_blank]. split; [by destruct (covers_at index item); [|rewrite at_blank]|].
    constructor; [|done]. unfold wide. by rewrite length_take_lane, length_replicate.
  - destruct (free_over lane covered) eqn:Hfree.
    + unfold lane_column in *. cbn [omap list_omap]. assert (covers_at index item = true -> at_index index lane = None) as Hnone.
      { intros Hc. by apply (free_at lane covered), elem_of_covered. }
      rewrite Htake by done. split; [|constructor; [unfold wide; by rewrite length_take_lane|done]].
      destruct (covers_at index item); [by rewrite Hnone|done].
    + unfold lane_column in *. cbn [omap list_omap]. split; [|by constructor]. destruct (at_index index lane) as [other|]; [|done].
      rewrite IHc. by destruct (covers_at index item); cbn; [apply Permutation_swap|].
Qed.

(** Every day's spans are in its lanes, each once. *)
Lemma lanes_columns spans index : lane_column index (_lanes zone spans week) ≡ₚ List.filter (covers_at index) spans /\ Forall wide (_lanes zone spans week).
Proof.
  unfold _lanes. induction spans as [|item spans IH] using rev_ind; [done|]. rewrite fold_left_app. cbn [fold_left]. destruct IH as [IHc IHw].
  set (lanes := fold_left (lane_one zone week) spans []) in *. rewrite List.filter_app. cbn [List.filter]. unfold lane_one.
  destruct (covered_by zone item week) as [|i covered] eqn:E.
  - assert (covers_at index item = false) as ->; [|by rewrite app_nil_r]. apply not_true_iff_false. rewrite <- elem_of_covered, E. apply not_elem_of_nil.
  - destruct (first_free_column item lanes index IHw) as [Hc Hw']. rewrite E in Hc, Hw'. split; [|done]. rewrite Hc, IHc. rewrite Permutation_app_comm.
    by destruct (covers_at index item).
Qed.
(** A lane holds what it holds over all the days of it. *)
Definition level (lane : Lane) : Prop :=
  wide lane /\ forall i x, at_index i lane = Some x -> covers_at i x = true /\ forall j, covers_at j x = true -> at_index j lane = Some x.

Lemma take_lane_level item lane : level lane -> free_over lane (covered_by zone item week) = true -> level (take_lane item (covered_by zone item week) lane).
Proof.
  intros [Hw Hl] Hfree. split; [unfold wide; by rewrite length_take_lane|]. intros i x. rewrite at_take_lane by by apply covered_wide. case_decide as Hi.
  - intros [= <-]. apply elem_of_covered in Hi. split; [done|]. intros j Hj. rewrite at_take_lane by by apply covered_wide. by rewrite decide_True by by apply elem_of_covered.
  - intros Hx. destruct (Hl i x Hx) as [Hc Hall]. split; [done|]. intros j Hj. rewrite at_take_lane by by apply covered_wide. case_decide as Hjc; [|by apply Hall].
    apply (free_at _ _ _ Hfree) in Hjc. by rewrite (Hall j Hj) in Hjc.
Qed.

Lemma blank_level : level (replicate (length week) None).
Proof. split; [unfold wide; by rewrite length_replicate|]. intros i x. by rewrite at_blank. Qed.

Lemma blank_free covered : (forall i, i ∈ covered -> (i < length week)%nat) -> free_over (replicate (length week) None) covered = true.
Proof. intros H. apply forallb_forall. intros i Hi%list_elem_of_In. by rewrite lookup_replicate_2 by by apply H. Qed.

Lemma covered_in item i : i ∈ covered_by zone item week -> (i < length week)%nat.
Proof. intros Hi%elem_of_covered. unfold covers_at in Hi. destruct (week !! i) eqn:E; [|done]. by apply lookup_lt_Some in E. Qed.

(** A span goes into the first lane free over its days, and the others stay; or into a new one, with none free. *)
Lemma first_free_cases item lanes :
  let covered := covered_by zone item week in
  (exists before lane after, lanes = before ++ lane :: after /\ free_over lane covered = true /\
    first_free item covered (length week) lanes = before ++ take_lane item covered lane :: after) \/
  (Forall (fun lane => free_over lane covered = false) lanes /\
    first_free item covered (length week) lanes = lanes ++ [take_lane item covered (replicate (length week) None)]).
Proof.
  intros covered. induction lanes as [|lane lanes IH]; cbn [first_free]; [by right|]. destruct (free_over lane covered) eqn:Hfree.
  - left. by exists [], lane, lanes.
  - destruct IH as [(before & lane' & after & -> & Hf & ->)|[Hall ->]]; [left; by exists (lane :: before), lane', after|right; split; [by constructor|done]].
Qed.

Lemma first_free_level item lanes : Forall level lanes -> Forall level (first_free item (covered_by zone item week) (length week) lanes).
Proof.
  intros Hl. destruct (first_free_cases item lanes) as [(before & lane & after & -> & Hfree & ->)|[_ ->]].
  - rewrite Forall_app, Forall_cons in Hl |- *. destruct Hl as (? & ? & ?). split_and!; [done|by apply take_lane_level|done].
  - apply Forall_app. split; [done|]. constructor; [|done]. apply take_lane_level; [apply blank_level|]. apply blank_free, covered_in.
Qed.

Lemma lanes_level spans : Forall level (_lanes zone spans week).
Proof.
  unfold _lanes. induction spans as [|item spans IH] using rev_ind; [done|]. rewrite fold_left_app. cbn [fold_left]. unfold lane_one at 1.
  destruct (covered_by zone item week) eqn:E; [done|]. rewrite <- E. by apply first_free_level.
Qed.

(** Some day of the week has a span in every lane. *)
Definition crowded (lanes : list Lane) : Prop := lanes = [] \/ exists i, (i < length week)%nat /\ Forall (fun lane => is_some (at_index i lane) = true) lanes.

Lemma first_free_crowded item lanes done_ : (forall i j a b, week !! i = Some a -> week !! j = Some b -> (i <= j)%nat -> a <= b) ->
  Forall (fun x => first_day zone (pl_event x) <= first_day zone (pl_event item)) done_ -> Forall level lanes ->
  (forall i, lane_column i lanes ≡ₚ List.filter (covers_at i) done_) -> covered_by zone item week <> [] ->
  crowded lanes -> crowded (first_free item (covered_by zone item week) (length week) lanes).
Proof.
  intros Hweek Hfirst Hlevel Hcol Hcov Hcrowd. right. destruct (first_free_cases item lanes) as [(before & lane & after & -> & Hfree & ->)|[Hfull ->]].
  - destruct Hcrowd as [Hnil|(i & Hi & Hall)]; [by destruct before|]. exists i. split; [done|]. rewrite Forall_app, Forall_cons in Hall, Hlevel |- *. destruct Hall as (? & ? & ?), Hlevel as (_ & [Hw _] & _).
    split_and!; [done| |done]. rewrite at_take_lane by by apply covered_wide. by case_decide.
  - (* the first of the days the new span takes *)
    destruct (covered_by zone item week) as [|i covered] eqn:E; [done|]. rewrite <- E in *. assert (i ∈ covered_by zone item week) as Hi by (rewrite E; left).
    assert (forall j, j ∈ covered_by zone item week -> (i <= j)%nat) as Hleast.
    { intros j Hj. rewrite E in Hj. apply elem_of_cons in Hj as [->|Hj]; [done|].
      enough (StronglySorted lt (i :: covered)) as [_ Hs]%StronglySorted_inv by (rewrite Forall_forall in Hs; specialize (Hs j Hj); lia).
      rewrite <- E. apply filter_seq_sorted. }
    exists i. split; [by apply (covered_in item)|]. apply Forall_app. split.
    + apply Forall_forall. intros lane Hin. rewrite Forall_forall in Hfull, Hlevel. specialize (Hfull lane Hin). destruct (Hlevel lane Hin) as [Hw Hl].
      apply not_true_iff_false in Hfull. destruct (at_index i lane) as [y|] eqn:Hy; [done|]. exfalso. apply Hfull. apply forallb_forall. intros j Hj%list_elem_of_In.
      pose proof (covered_wide item lane Hw j Hj) as Hlen. destruct (lookup_lt_is_Some_2 lane j Hlen) as [[x|] Hx]; rewrite Hx; [exfalso|done].
      assert (at_index j lane = Some x) as Hat by (unfold at_index; by rewrite Hx). destruct (Hl j x Hat) as [Hcj Hsame].
      assert (x ∈ List.filter (covers_at j) done_) as (Hdone%list_elem_of_In & _)%list_elem_of_In%filter_In.
      { rewrite <- Hcol. apply list_elem_of_omap. by exists lane. }
      rewrite Forall_forall in Hfirst. specialize (Hfirst x Hdone). enough (covers_at i x = true) as Hci by (by rewrite (Hsame i Hci) in Hy).
      apply elem_of_covered in Hi. pose proof (Hleast j Hj) as Hij. unfold covers_at in *. destruct (week !! i) as [a|] eqn:Ha; [|done]. destruct (week !! j) as [b|] eqn:Hb; [|done].
      pose proof (Hweek i j a b Ha Hb Hij) as Hab. unfold covers in *. lia.
    + constructor; [|done]. rewrite at_take_lane by (intros j Hj; rewrite length_replicate; by apply (covered_in item)). by rewrite decide_True.
Qed.

Lemma lanes_crowded spans : (forall i j a b, week !! i = Some a -> week !! j = Some b -> (i <= j)%nat -> a <= b) ->
  StronglySorted (fun x y => first_day zone (pl_event x) <= first_day zone (pl_event y)) spans -> crowded (_lanes zone spans week).
Proof.
  intros Hweek. induction spans as [|item spans IH] using rev_ind; intros Hs; [by left|]. apply StronglySorted_app in Hs as (Hlast & Hs & _).
  specialize (IH Hs). assert (column_ok : forall i, lane_column i (_lanes zone spans week) ≡ₚ List.filter (covers_at i) spans) by (intros i; apply lanes_columns).
  pose proof (lanes_level spans) as Hlevel. unfold _lanes in *. rewrite fold_left_app. cbn [fold_left]. unfold lane_one at 1. destruct (covered_by zone item week) eqn:E; [done|]. rewrite <- E.
  apply (first_free_crowded _ _ spans); [done| |done|done|by rewrite E|done].
  apply Forall_forall. intros x Hx. apply Hlast; [done|by left].
Qed.
End Lanes.

(** * Sorting *)

Section Sorting.
Context {A : Type} (before : A -> A -> bool).

Lemma insert_before_perm x rows : insert_before before x rows ≡ₚ x :: rows.
Proof. induction rows as [|y ys IH]; cbn; [done|]. destruct (before y x); [|done]. rewrite IH. apply Permutation_swap. Qed.

Lemma sort_before_perm rows : sort_before before rows ≡ₚ rows.
Proof. unfold sort_before. induction rows as [|x xs IH]; cbn; [done|]. by rewrite insert_before_perm, IH. Qed.

Lemma sort_before_sorted (R : A -> A -> Prop) rows : (forall x y z, R x y -> R y z -> R x z) ->
  (forall x y, before x y = true -> R x y) -> (forall x y, before x y = false -> R y x) -> StronglySorted R (sort_before before rows).
Proof.
  intros Htr Hb Hnb. unfold sort_before. induction rows as [|x xs IH]; cbn; [constructor|]. revert IH. generalize (fold_right (insert_before before) [] xs) as l.
  induction l as [|y l IHl]; intros Hs; cbn; [by repeat constructor|]. apply StronglySorted_cons in Hs as [Hy Hs]. destruct (before y x) eqn:E.
  - constructor; [by apply IHl|]. rewrite insert_before_perm. constructor; [by apply Hb|done].
  - constructor; [by constructor|]. constructor; [by apply Hnb|]. eapply Forall_impl; [exact Hy|]. intros z Hz. eapply Htr; [by apply Hnb|done].
Qed.
End Sorting.

Lemma filter_perm {A} (p : A -> bool) l l' : l ≡ₚ l' -> List.filter p l ≡ₚ List.filter p l'.
Proof.
  induction 1 as [|x l l' _ IH|x y l|l l' l'' _ IH _ IH']; cbn; [done| | |by rewrite IH].
  - by destruct (p x); rewrite IH.
  - destruct (p x), (p y); try done. apply Permutation_swap.
Qed.

Lemma sorted_filter {A} (R : A -> A -> Prop) (p : A -> bool) l : StronglySorted R l -> StronglySorted R (List.filter p l).
Proof.
  induction 1 as [|x l _ IH Hx]; cbn; [constructor|]. destruct (p x); [|done]. constructor; [done|].
  apply Forall_forall. intros y (Hy%list_elem_of_In & _)%list_elem_of_In%filter_In. rewrite Forall_forall in Hx. by apply Hx.
Qed.

Lemma filter_split {A} (p q : A -> bool) l : length (List.filter q l) = (length (List.filter (fun x => p x && q x) l) + length (List.filter (fun x => negb (p x) && q x) l))%nat.
Proof. induction l as [|x l IH]; cbn; [done|]. destruct (p x), (q x); cbn; lia. Qed.

Lemma filter_both {A} (p q : A -> bool) l : List.filter p (List.filter q l) = List.filter (fun x => q x && p x) l.
Proof. induction l as [|x l IH]; cbn; [done|]. destruct (q x); cbn; [destruct (p x)|]; by rewrite IH. Qed.

(** * What a month shows *)

Lemma shown_sorted zone items : StronglySorted (fun x y => first_day zone (pl_event x) <= first_day zone (pl_event y)) (sort_before (shown_before zone) items).
Proof.
  apply sort_before_sorted; [intros; lia| |]; intros x y; unfold shown_before; cbn; destruct (Z.compare_spec (first_day zone (pl_event x)) (first_day zone (pl_event y))); intros; done || lia.
Qed.

Lemma week_in_order start i j a b : seqZ start 7 !! i = Some a -> seqZ start 7 !! j = Some b -> (i <= j)%nat -> a <= b.
Proof. rewrite !lookup_seqZ. lia. Qed.

Lemma full_column {A} (f : A -> option Placed) l : Forall (fun x => is_some (f x) = true) l -> length (omap f l) = length l.
Proof. induction 1 as [|x l Hx _ IH]; cbn; [done|]. destruct (f x); [cbn; by rewrite IH|done]. Qed.

Lemma some_column {A} (f : A -> option Placed) l : length (omap f l) = length (List.filter (fun x => is_some (f x)) l).
Proof. induction l as [|x l IH]; cbn; [done|]. destruct (f x); cbn; by rewrite IH. Qed.

Lemma bars_columns zone spans start i day : seqZ start 7 !! i = Some day ->
  omap (at_index i) (_lanes zone spans (seqZ start 7)) ≡ₚ List.filter (fun item => covers zone (pl_event item) day) spans.
Proof.
  intros Hi. rewrite (filter_ext _ (covers_at zone (seqZ start 7) i)) by (intros; unfold covers_at; by rewrite Hi). apply lanes_columns.
Qed.

(** The bars of a week: one over several days holds one lane on all of them, each day's bars are in its lanes
    once each, and there are no more lanes than the bars of its fullest day. *)
Theorem bars_stay_level_in_the_fewest_lanes zone items start :
  let spans := List.filter (fun item => span zone (pl_event item)) (sort_before (shown_before zone) items) in
  let week := seqZ start 7 in
  let lanes := _lanes zone spans week in
  (forall item i day, item ∈ spans -> week !! i = Some day -> covers zone (pl_event item) day = true ->
     exists lane, lane ∈ lanes /\ forall j day', week !! j = Some day' -> covers zone (pl_event item) day' = true -> at_index j lane = Some item) /\
  (forall i day, week !! i = Some day -> omap (at_index i) lanes ≡ₚ List.filter (fun item => covers zone (pl_event item) day) spans) /\
  (lanes = [] \/ exists day, day ∈ week /\ length lanes = length (List.filter (fun item => covers zone (pl_event item) day) spans)).
Proof.
  intros spans week lanes. assert (forall i day, week !! i = Some day -> forall item, covers_at zone week i item = covers zone (pl_event item) day) as Hat by (intros i day Hi item; unfold covers_at; by rewrite Hi).
  pose proof (bars_columns zone spans start) as Hcol. fold week lanes in Hcol.
  refine (conj _ (conj Hcol _)).
  - intros item i day Hin Hi Hc. assert (item ∈ omap (at_index i) lanes) as (lane & Hlane & Hl)%list_elem_of_omap.
    { rewrite (Hcol i day Hi). by apply list_elem_of_In, filter_In; rewrite <- list_elem_of_In. }
    exists lane. split; [done|]. intros j day' Hj Hc'. pose proof (lanes_level zone week spans) as Hlevel. rewrite Forall_forall in Hlevel. destruct (Hlevel lane Hlane) as [_ Hall].
    destruct (Hall i item Hl) as [_ Hsame]. apply Hsame. by rewrite (Hat j day').
  - destruct (lanes_crowded zone week spans) as [Hnil|(i & Hi & Hall)]; [intros i j a b; apply week_in_order|apply sorted_filter, shown_sorted|by left|right].
    destruct (lookup_lt_is_Some_2 week i Hi) as [day Hday]. exists day. split; [by apply list_elem_of_lookup_2 in Hday|].
    rewrite <- (Hcol i day Hday). symmetry. by apply full_column.
Qed.

Lemma marks_and_items zone month today day on lanes :
  cell_count (_cell zone month today day on lanes) = (length on + length (List.filter (fun lane => is_some (at_index (Z.to_nat (sunday_of day)) lane)) lanes))%nat.
Proof.
  unfold cell_count, _cell. cbv zeta. cbn [cc_marks cc_items cc_more cc_lanes]. set (i := Z.to_nat (sunday_of day)).
  assert (forall (f : Placed -> SpanPiece) l, length (List.filter is_some (map (fun lane => f <$> at_index i lane) l)) = length (List.filter (fun lane => is_some (at_index i lane)) l)) as ->.
  { intros f l. induction l as [|lane l IH]; cbn; [done|]. destruct (at_index i lane); cbn; by rewrite IH. }
  assert (forall p : Lane -> bool, length (List.filter p lanes) = (length (List.filter p (take CELL_ROWS lanes)) + length (List.filter p (drop CELL_ROWS lanes)))%nat) as ->.
  { intros p. by rewrite <- length_app, <- List.filter_app, take_drop. }
  rewrite length_take.
  assert (length on = (length (List.filter (fun item => ev_mark (pl_event item)) on) + length (List.filter (fun item => negb (ev_mark (pl_event item))) on))%nat) as ->; [|lia].
  induction on as [|x on IH]; cbn; [done|]. destruct (ev_mark _); cbn; lia.
Qed.

Lemma cell_day zone month today day on lanes : cc_day (_cell zone month today day on lanes) = day.
Proof. done. Qed.

Lemma cell_rows zone month today day on lanes : let cell := _cell zone month today day on lanes in (length (cc_lanes cell) + length (cc_items cell) <= CELL_ROWS)%nat.
Proof. cbn [cc_lanes cc_items _cell]. rewrite length_map, !length_take. lia. Qed.

Lemma one_days_and_spans zone shown day : (forall item, item ∈ shown -> first_day zone (pl_event item) <= last_day zone (pl_event item)) ->
  (length (on_day zone shown day) + length (List.filter (fun item => covers zone (pl_event item) day) (List.filter (fun item => span zone (pl_event item)) shown)))%nat =
  length (List.filter (fun item => covers zone (pl_event item) day) shown).
Proof.
  intros Hok. rewrite (filter_split (fun item => span zone (pl_event item)) (fun item => covers zone (pl_event item) day) shown), filter_both, Nat.add_comm. f_equal.
  unfold on_day. f_equal. apply filter_ext_in. intros x Hx%list_elem_of_In. specialize (Hok x Hx). unfold span, covers, days.
  destruct (Z.ltb_spec 1 (last_day zone (pl_event x) - first_day zone (pl_event x) + 1)); cbn [negb andb]; [done|].
  destruct (Z.eqb_spec (first_day zone (pl_event x)) day), (Z.leb_spec (first_day zone (pl_event x)) day), (Z.leb_spec day (last_day zone (pl_event x))); cbn; done || lia.
Qed.

Lemma sunday_index start i : weekday start = 6 -> 0 <= i < 7 -> sunday_of (start + i) = i.
Proof. unfold sunday_of, weekday. intros H Hi. Z.to_euclidean_division_equations. lia. Qed.

Lemma grid_sunday month : weekday (month - sunday_of month) = 6.
Proof. unfold sunday_of, weekday. Z.to_euclidean_division_equations. lia. Qed.

(** The cells of the weeks, as the month is drawn. *)
Lemma month_weeks zone declared month choices today m :
  calendar_month zone declared month choices today = Ok m ->
  let first := month - sunday_of month in
  let shown := sort_before (shown_before zone) (List.filter (fun item => sv_shown (pl_source item)) (gather zone declared first (first + 41) choices).2) in
  cm_weeks m = map (fun n => map (fun day => _cell zone month today day (on_day zone shown day) (_lanes zone (List.filter (fun item => span zone (pl_event item)) shown) (seqZ (first + 7 * n) 7))) (seqZ (first + 7 * n) 7)) (seqZ 0 6).
Proof.
  unfold calendar_month, _grid, plus_days. destruct (is_day _); [|done]. cbn [mbind outcome_bind]. destruct (is_day _); [|done]. cbn [mbind outcome_bind mret outcome_ret].
  rewrite Z.add_opp_r. destruct (gather _ _ _ _ _) as [groups placed] eqn:E. intros [= <-]. reflexivity.
Qed.

(** C31: A month counts every event shown on each of its days: over six weeks from a Sunday, each day's cell counts, drawn
    or folded, the events of the sources checked that cover the day, and draws no more rows than it has. *)
Theorem a_month_counts_every_event_of_its_days zone declared month choices today m :
  calendar_month zone declared month choices today = Ok m ->
  let first := month - sunday_of month in
  let shown := List.filter (fun item => sv_shown (pl_source item)) (gather zone declared first (first + 41) choices).2 in
  (forall item, item ∈ shown -> first_day zone (pl_event item) <= last_day zone (pl_event item)) ->
  map cc_day (concat (cm_weeks m)) = seqZ first 42 /\ weekday first = 6 /\
  forall cell, cell ∈ concat (cm_weeks m) ->
    cell_count cell = length (List.filter (fun item => covers zone (pl_event item) (cc_day cell)) shown) /\
    (length (cc_lanes cell) + length (cc_items cell) <= CELL_ROWS)%nat.
Proof.
  intros Hm first shown Hok. pose proof (month_weeks _ _ _ _ _ _ Hm) as Hw. cbv zeta in Hw. fold first in Hw. fold shown in Hw. set (sorted := sort_before (shown_before zone) shown) in Hw.
  pose proof (grid_sunday month) as Hsun. fold first in Hsun. refine (conj _ (conj Hsun _)).
  - rewrite Hw, concat_map, map_map. rewrite (map_ext _ (fun n => seqZ (first + 7 * n) 7)).
    + change (seqZ 0 6) with [0; 1; 2; 3; 4; 5]. cbn [map concat]. rewrite app_nil_r. replace 42 with (7 + (7 + (7 + (7 + (7 + 7))))) by lia.
      rewrite !seqZ_app by lia. clearbody first. rewrite Z.mul_0_r, Z.add_0_r.
      replace (first + 7 * 1) with (first + 7) by lia. replace (first + 7 * 2) with (first + 7 + 7) by lia. replace (first + 7 * 3) with (first + 7 + 7 + 7) by lia.
      replace (first + 7 * 4) with (first + 7 + 7 + 7 + 7) by lia. by replace (first + 7 * 5) with (first + 7 + 7 + 7 + 7 + 7) by lia.
    + intros n. rewrite map_map. cbn [cc_day _cell]. apply map_id.
  - intros cell Hcell. apply list_elem_of_In, in_concat in Hcell as (week & Hweek & Hcell). rewrite Hw in Hweek. apply in_map_iff in Hweek as (n & <- & _).
    apply in_map_iff in Hcell as (day & <- & Hday%list_elem_of_In%elem_of_seqZ). set (start := first + 7 * n) in *.
    assert (weekday start = 6) as Hstart by (unfold start, weekday in *; Z.to_euclidean_division_equations; lia). rewrite cell_day.
    assert (sunday_of day = day - start) as Hidx by (replace day with (start + (day - start)) at 1 by lia; apply sunday_index; lia).
    split; [|apply cell_rows].
    rewrite marks_and_items, Hidx, <- some_column. pose proof (bars_columns zone (List.filter (fun item => span zone (pl_event item)) sorted) start (Z.to_nat (day - start)) day ltac:(apply lookup_seqZ; lia)) as Hcol.
    rewrite Hcol, one_days_and_spans; [|intros item Hi; apply Hok; by rewrite <- (sort_before_perm (shown_before zone) shown)]. apply Permutation_length, filter_perm, sort_before_perm.
Qed.

(** * Which color a source has *)

Fixpoint slots_dealt (asked : list Z) (n : nat) (taken : list Z) : list Z :=
  match n with
  | O => []
  | S n => let slot := least_slot asked taken in slot :: slots_dealt asked n (taken ++ [slot])
  end.

Lemma slots_dealt_at asked n taken i slot : slots_dealt asked n taken !! i = Some slot -> slot = least_slot asked (taken ++ take i (slots_dealt asked n taken)).
Proof.
  revert taken i. induction n as [|n IH]; intros taken i; cbn; [done|]. destruct i as [|i]; cbn; [intros [= <-]; by rewrite app_nil_r|].
  intros H. apply IH in H. by rewrite <- app_assoc in H.
Qed.

Lemma length_slots_dealt asked n taken : length (slots_dealt asked n taken) = n.
Proof. revert taken. induction n as [|n IH]; intros taken; cbn; [done|]. by rewrite IH. Qed.

Lemma deal_others asked sources taken dealt id : id ∉ map cs_id sources -> deal asked sources taken dealt !! id = dealt !! id.
Proof.
  revert taken dealt. induction sources as [|source sources IH]; intros taken dealt Hid; cbn; [done|]. cbn in Hid. apply not_elem_of_cons in Hid as [Hne Hid].
  rewrite IH by done. by apply lookup_insert_ne.
Qed.

Lemma deal_lookup asked sources taken dealt i source : NoDup (map cs_id sources) -> sources !! i = Some source ->
  deal asked sources taken dealt !! cs_id source = slots_dealt asked (length sources) taken !! i.
Proof.
  revert taken dealt i. induction sources as [|s sources IH]; intros taken dealt i Hnd Hi; [done|]. cbn in Hnd. apply NoDup_cons in Hnd as [Hs Hnd]. cbn.
  destruct i as [|i]; cbn in Hi |- *; [|by apply IH]. injection Hi as <-. rewrite deal_others by done. by rewrite lookup_insert_eq.
Qed.

Lemma asked_lookup sources source : NoDup (map cs_id sources) -> source ∈ sources -> asked_slots sources !! cs_id source = Some (cs_slot source).
Proof.
  intros Hnd Hin. unfold asked_slots. enough (forall dealt, fold_left (fun dealt source => <[cs_id source := cs_slot source]> dealt) sources dealt !! cs_id source = Some (cs_slot source)) as H by apply H.
  assert (forall l (dealt : gmap string Z) id, id ∉ map cs_id l -> fold_left (fun dealt source => <[cs_id source := cs_slot source]> dealt) l dealt !! id = dealt !! id) as Hother.
  { induction l as [|s l IH]; intros dealt id Hid; cbn; [done|]. cbn in Hid. apply not_elem_of_cons in Hid as [Hne Hid]. rewrite IH by done. by apply lookup_insert_ne. }
  induction sources as [|s sources IH]; intros dealt; [by apply not_elem_of_nil in Hin|]. cbn in Hnd |- *. apply NoDup_cons in Hnd as [Hs Hnd]. apply elem_of_cons in Hin as [->|Hin]; [|by apply IH].
  rewrite Hother by done. by rewrite lookup_insert_eq.
Qed.

Definition is_color (slot : Z) : Prop := 1 <= slot <= SERIES_SLOTS.

Lemma slot_before_spec asked taken a b : slot_before asked taken a b = true <->
  (a ∉ asked /\ b ∈ asked) \/ ((a ∈ asked <-> b ∈ asked) /\ ((count_of a taken < count_of b taken)%nat \/ (count_of a taken = count_of b taken /\ a < b))).
Proof.
  unfold slot_before. cbn [tuple_before]. destruct (decide (a ∈ asked)) as [Ha|Ha], (decide (b ∈ asked)) as [Hb|Hb]; rewrite ?(bool_decide_eq_true_2 (a ∈ asked)), ?(bool_decide_eq_true_2 (b ∈ asked)), ?(bool_decide_eq_false_2 (a ∈ asked)), ?(bool_decide_eq_false_2 (b ∈ asked)) by done; cbn [bool_compare].
  all: destruct (Nat.compare_spec (count_of a taken) (count_of b taken)), (Z.compare_spec a b); split; intros H'; try done; try tauto; try (right; split; [tauto|lia]); exfalso; destruct H' as [[? ?]|[? ?]]; tauto || lia.
Qed.

Lemma least_slot_least asked taken : is_color (least_slot asked taken) /\ forall slot, is_color slot -> slot_before asked taken slot (least_slot asked taken) = false.
Proof.
  unfold least_slot. set (before := slot_before asked taken). assert (forall x, before x x = false) as Hirr.
  { intros x. apply not_true_iff_false. unfold before. rewrite slot_before_spec. intuition lia. }
  assert (forall x y z, before x y = true -> before y z = true -> before x z = true) as Htr.
  { intros x y z. unfold before. rewrite !slot_before_spec. intros [?|[? ?]] [?|[? ?]]; first [left; tauto | right; split; [tauto|lia]]. }
  assert (forall x y, before x y = false -> x = y \/ before y x = true) as Htri.
  { intros x y Hxy%not_true_iff_false. unfold before in *. rewrite slot_before_spec in *. destruct (decide (x ∈ asked)), (decide (y ∈ asked)); try tauto.
    all: destruct (Nat.lt_trichotomy (count_of x taken) (count_of y taken)) as [|[|]], (Z.lt_trichotomy x y) as [|[|]]; try tauto; try (exfalso; apply Hxy; right; split; [tauto|lia]); right; right; split; [tauto|lia]. }
  enough (forall l best, let least := fold_left (fun best slot => if before slot best then slot else best) l best in
    (least = best \/ least ∈ l) /\ forall x, x = best \/ x ∈ l -> before x least = false) as H.
  { destruct (H (seqZ 2 (SERIES_SLOTS - 1)) 1) as [Hin Hle]. unfold is_color, SERIES_SLOTS in *. split.
    - destruct Hin as [->|Hin%elem_of_seqZ]; lia.
    - intros x Hx. apply Hle. rewrite elem_of_seqZ. lia. }
  induction l as [|y l IH]; intros best; cbn zeta; cbn [fold_left]; [split; [by left|]; intros x [->|[]%not_elem_of_nil]; apply Hirr|].
  destruct (before y best) eqn:E.
  - destruct (IH y) as [Hin Hle]. cbn zeta in *. split; [set_solver|]. intros x [->|[->|Hx]%elem_of_cons]; [|by apply Hle; left|by apply Hle; right].
    apply not_true_iff_false. intros Hb. pose proof (Hle y ltac:(by left)) as Hy. set (least := fold_left _ _ _) in *.
    assert (before y least = true); [by eapply Htr|congruence].
  - destruct (IH best) as [Hin Hle]. cbn zeta in *. split; [set_solver|]. intros x [->|[->|Hx]%elem_of_cons]; [by apply Hle; left| |by apply Hle; right].
    apply not_true_iff_false. intros Hb. pose proof (Hle best ltac:(by left)) as Hbest. set (least := fold_left _ _ _) in *.
    destruct (Htri y best E) as [->|Hby]; [congruence|]. assert (before best least = true); [by eapply Htr|congruence].
Qed.

(** What the least has: a color asked for only when all are, and of the others the least used. *)
Lemma least_slot_spec asked taken : let least := least_slot asked taken in is_color least /\
  forall slot, is_color slot -> (least ∈ asked -> slot ∈ asked) /\ ((slot ∈ asked <-> least ∈ asked) -> (count_of least taken <= count_of slot taken)%nat).
Proof.
  intros least. destruct (least_slot_least asked taken) as [Hc Hle]. fold least in Hc, Hle. split; [done|]. intros slot Hslot. specialize (Hle slot Hslot).
  apply not_true_iff_false in Hle. rewrite slot_before_spec in Hle. destruct (decide (slot ∈ asked)), (decide (least ∈ asked)); split; try tauto; intros; apply Nat.nlt_ge; intros Hlt; apply Hle; right; tauto.
Qed.

Lemma count_of_in slot l : (0 < count_of slot l)%nat <-> slot ∈ l.
Proof.
  unfold count_of. induction l as [|x l IH]; cbn; [split; [lia|by intros ?%not_elem_of_nil]|]. rewrite elem_of_cons. destruct (Z.eqb_spec slot x) as [->|]; cbn; [split; [by left|lia]|]. rewrite IH. tauto.
Qed.

Lemma nodup_map_filter {A B} (f : A -> B) (p : A -> bool) l : NoDup (map f l) -> NoDup (map f (List.filter p l)).
Proof.
  induction l as [|x l IH]; cbn; [done|]. intros [Hx Hnd]%NoDup_cons. destruct (p x); cbn; [|by apply IH]. apply NoDup_cons. split; [|by apply IH].
  intros (y & He & (Hy & _)%list_elem_of_In%filter_In)%list_elem_of_fmap. apply Hx. rewrite He. by apply list_elem_of_fmap_2, list_elem_of_In.
Qed.

(** The colors dealt: a source that asks for a color has it; one that does not has a color nobody asks for while
    there is one; and two that do not ask share one only when every color is asked for or dealt. *)
Theorem a_color_is_shared_only_when_all_are_taken sources :
  NoDup (map cs_id sources) ->
  let asked := map cs_slot (List.filter asks sources) in
  let color source := _slots sources !! cs_id source in
  (forall source, source ∈ sources -> asks source = true -> color source = Some (cs_slot source)) /\
  (forall source, source ∈ sources -> asks source = false -> exists slot, color source = Some slot /\ is_color slot /\
     (slot ∈ asked -> forall other, is_color other -> other ∈ asked)) /\
  (forall s1 s2, s1 ∈ sources -> s2 ∈ sources -> asks s1 = false -> asks s2 = false -> cs_id s1 <> cs_id s2 -> color s1 = color s2 ->
     forall other, is_color other -> other ∈ asked \/ exists s, s ∈ sources /\ asks s = false /\ color s = Some other).
Proof.
  intros Hnd asked color. set (rest := sort_before hidden_last (List.filter (fun source => negb (asks source)) sources)). set (slots := slots_dealt asked (length rest) asked).
  assert (forall p, NoDup (map cs_id (List.filter p sources))) as Hsub by (intros p; by apply nodup_map_filter).
  assert (rest ≡ₚ List.filter (fun source => negb (asks source)) sources) as Hperm by apply sort_before_perm.
  assert (NoDup (map cs_id rest)) as Hrest by (rewrite Hperm; apply Hsub).
  assert (forall s, s ∈ rest <-> s ∈ sources /\ asks s = false) as Hin by (intros s; by rewrite Hperm, list_elem_of_In, filter_In, <- list_elem_of_In, negb_true_iff).
  assert (forall i s, rest !! i = Some s -> color s = slots !! i) as Hcolor by (intros i s Hi; unfold color, _slots; by apply deal_lookup).
  assert (forall s, s ∈ rest -> exists i slot, rest !! i = Some s /\ slots !! i = Some slot) as Hat.
  { intros s [i Hi]%list_elem_of_lookup. exists i. assert (i < length slots)%nat as Hlen by (unfold slots; rewrite length_slots_dealt; by eapply lookup_lt_Some).
    destruct (lookup_lt_is_Some_2 slots i Hlen) as [slot Hslot]. by exists slot. }
  refine (conj _ (conj _ _)).
  - intros s Hs Ha. unfold color, _slots. fold rest. rewrite deal_others.
    + apply asked_lookup; [apply Hsub|]. by apply list_elem_of_In, filter_In; rewrite <- list_elem_of_In.
    + intros (s' & He & Hs')%list_elem_of_fmap. apply Hin in Hs' as [Hs' Hna]. by rewrite (unique_by cs_id _ _ _ Hnd Hs Hs' He), Hna in Ha.
  - intros s Hs Ha. destruct (Hat s) as (i & slot & Hi & Hslot); [by apply Hin|]. exists slot. rewrite (Hcolor i s Hi). pose proof (slots_dealt_at _ _ _ _ _ Hslot) as Hleast.
    destruct (least_slot_spec asked (asked ++ take i slots)) as [Hc Hspec]. unfold slots in Hc, Hspec. rewrite <- Hleast in Hc, Hspec. refine (conj Hslot (conj Hc _)). intros Hasked other Ho. by apply Hspec.
  - intros s1 s2 H1 H2 Ha1 Ha2 Hne He other Ho. destruct (Hat s1) as (i & slot & Hi & Hslot); [by apply Hin|]. destruct (Hat s2) as (j & slot' & Hj & Hslot'); [by apply Hin|].
    rewrite (Hcolor _ _ Hi), (Hcolor _ _ Hj), Hslot, Hslot' in He. injection He as <-. assert (i <> j) as Hij by congruence.
    assert (exists j, slots !! j = Some slot /\ slot ∈ take j slots) as (k & Hk & Htaken).
    { destruct (Nat.lt_total i j) as [Hlt|[|Hlt]]; [exists j|done|exists i]; (split; [done|]); apply elem_of_take; [by exists i|by exists j]. }
    pose proof (slots_dealt_at _ _ _ _ _ Hk) as Hleast. fold slots in Hleast. destruct (least_slot_spec asked (asked ++ take k slots)) as [_ Hspec]. rewrite <- Hleast in Hspec.
    destruct (Hspec other Ho) as [Hasked Hcount]. destruct (decide (other ∈ asked)) as [|Hother]; [by left|right]. destruct (decide (slot ∈ asked)) as [Hs|Hs]; [tauto|].
    assert (other ∈ asked ++ take k slots) as [|Hot]%elem_of_app; [|done|].
    { apply count_of_in. eapply Nat.lt_le_trans; [|apply Hcount; tauto]. apply count_of_in, elem_of_app. by right. }
    apply elem_of_take in Hot as (n & Hn & _). assert (n < length rest)%nat as Hlen by (apply lookup_lt_Some in Hn; unfold slots in Hn; by rewrite length_slots_dealt in Hn).
    destruct (lookup_lt_is_Some_2 rest n Hlen) as [s Hs']. exists s. destruct (proj1 (Hin s)) as [Hsin Hna]; [by eapply list_elem_of_lookup_2|]. split_and!; [done|done|]. by rewrite (Hcolor n s Hs').
Qed.

(** * A window, source by source *)

Section Gathered.
Context (zone : Zone) (choices : gmap string bool) (slots : gmap string Z) (first last : Z).

Notation one := (gather_one zone choices slots first last).
Notation view := (fun group source => view_of zone choices slots first last group source).

Definition listed_under {A} (group : string) (x : A) (groups : list (string * list A)) : Prop := exists xs, (group, xs) ∈ groups /\ x ∈ xs.

Lemma listed_under_new {A} group (x : A) groups : listed_under group x (under group x groups).
Proof.
  induction groups as [|[name xs] groups IH]; cbn; [by exists [x]; split; left|]. destruct (decide (name = group)) as [->|Hne].
  - exists (xs ++ [x]). split; [left|]. apply elem_of_app. right. left.
  - destruct IH as (ys & Hys & Hx). exists ys. split; [by right|done].
Qed.

Lemma listed_under_kept {A} group group' (x y : A) groups : listed_under group y groups -> listed_under group y (under group' x groups).
Proof.
  intros (ys & Hys & Hy). induction groups as [|[name xs] groups IH]; [by apply not_elem_of_nil in Hys|]. cbn. apply elem_of_cons in Hys as [Heq|Hys].
  - injection Heq as -> ->. destruct (decide (name = group')); [exists (xs ++ [x])|exists xs]; (split; [left|]); [|done]. apply elem_of_app. by left.
  - destruct (decide (name = group')); [exists ys; split; [by right|done]|]. destruct (IH Hys) as (zs & Hzs & Hz). exists zs. split; [by right|done].
Qed.

Lemma gathered_views declared : forall so_far, (forall g v, listed_under g v so_far.1 -> listed_under g v (fold_left one declared so_far).1) /\
  (forall group source, (group, source) ∈ declared -> listed_under group (view group source) (fold_left one declared so_far).1).
Proof.
  induction declared as [|[group source] declared IH]; intros so_far; [split; [done|by intros ? ? ?%not_elem_of_nil]|]. cbn [fold_left]. destruct (IH (one so_far (group, source))) as [Hkeep Hall]. split.
  - intros g v Hv. apply Hkeep. by apply listed_under_kept.
  - intros g s [Heq|Hin]%elem_of_cons; [|by apply Hall]. injection Heq as -> ->. apply Hkeep, listed_under_new.
Qed.

Lemma gathered_placed declared : forall so_far, (fold_left one declared so_far).2 =
  so_far.2 ++ concat (map (fun '(group, source) => map (fun event => mk_Placed event (view group source)) (_read zone source first last).1) declared).
Proof.
  induction declared as [|[group source] declared IH]; intros so_far; cbn [fold_left map concat]; [by rewrite app_nil_r|]. rewrite IH. cbn [gather_one snd]. by rewrite <- app_assoc.
Qed.

Lemma view_id group source : sv_id (view group source) = cs_id source.
Proof. unfold view_of. by destruct (_read _ _ _ _). Qed.

Lemma placed_of declared group source : NoDup (map (fun entry => cs_id entry.2) declared) -> (group, source) ∈ declared ->
  List.filter (fun item => bool_decide (sv_id (pl_source item) = cs_id source))
    (concat (map (fun '(group, source) => map (fun event => mk_Placed event (view group source)) (_read zone source first last).1) declared)) =
  map (fun event => mk_Placed event (view group source)) (_read zone source first last).1.
Proof.
  assert (forall g s events, List.filter (fun item => bool_decide (sv_id (pl_source item) = cs_id source)) (map (fun event => mk_Placed event (view g s)) events) =
    if decide (cs_id s = cs_id source) then map (fun event => mk_Placed event (view g s)) events else []) as Hone.
  { intros g s events. induction events as [|event events IH]; cbn [map List.filter]; [by destruct (decide _)|]. cbn [pl_source]. rewrite view_id, IH. case_bool_decide; by case_decide. }
  induction declared as [|[g s] declared IH]; cbn [map concat]; intros Hnd Hin; [by apply not_elem_of_nil in Hin|]. apply NoDup_cons in Hnd as [Hs Hnd]. cbn [snd] in Hs.
  rewrite List.filter_app, Hone. apply elem_of_cons in Hin as [Heq|Hin].
  - injection Heq as -> ->. rewrite decide_True by done. etrans; [|apply app_nil_r]. f_equal. clear IH Hnd. induction declared as [|[g' s'] declared IH]; cbn [map concat]; [done|].
    cbn [map] in Hs. apply not_elem_of_cons in Hs as [Hne Hs]. cbn [snd] in Hne. rewrite List.filter_app, Hone, decide_False by congruence. by apply IH.
  - rewrite decide_False; [by apply IH|]. intros He. apply Hs. rewrite He. by apply (list_elem_of_fmap_2 (fun entry => cs_id entry.2) declared (group, source)).
Qed.
End Gathered.


(** * At work *)

(** Five hours behind, all year. *)
Definition some_zone : Zone := {| here := 1; clock := fun utc => utc - 5 * HOUR |}.

Definition an_event (id title : string) (starts : Moment) (ends : option Moment) (mark : bool) : CalendarEvent :=
  {| ev_id := id; ev_title := title; ev_starts := starts; ev_ends := ends; ev_detail := ""; ev_url := ""; ev_state := ""; ev_mark := mark |}.

Definition a_source (id label : string) (shown : bool) (slot : Z) (events : outcome exn (list CalendarEvent)) : CalendarSource :=
  {| cs_id := id; cs_label := label; cs_events := fun _ _ => events; cs_description := ""; cs_url := ""; cs_shown := shown; cs_slot := slot |}.

(** October 2026: a trip over two weeks, a call that ends at midnight, a mark and a backup; a source that fails; one unchecked. *)
Definition demo_month : Z := ymd2ord 2026 10 1.
Definition in_utc (day hour : Z) : Datetime := {| dt_wall := day * DAY + hour * HOUR; dt_utc := day * DAY + hour * HOUR; dt_zone := 0 |}.
Definition demo_events : list CalendarEvent := [
  an_event "trip" "A trip" (Day (demo_month + 8)) (Some (Day (demo_month + 12))) false;
  an_event "call" "A call" (At (in_utc (demo_month + 10) 2)) (Some (At (in_utc (demo_month + 10) 5))) false;
  an_event "mark" "A mark" (Day (demo_month + 9)) None true;
  an_event "far" "Next year" (Day (demo_month + 365)) None false ]%string.
Definition demo_sources : list (string * CalendarSource) := [
  ("", a_source "calendar.mine" "My events" true 0 (Ok demo_events));
  ("Estate", a_source "estate.certificates" "Certificates" true 0 (Raise (OtherError "TimeoutError" "")));
  ("Estate", a_source "history.deploys" "Deploys" false 1 (Ok [an_event "deploy" "A deploy" (Day demo_month) None false])) ]%string.

Definition cell_line (cell : CalendarCell) : string * list string * list (option string) * nat :=
  (iso_day (cc_day cell), map (fun item => ev_id (pl_event item)) (cc_marks cell ++ cc_items cell), map (fmap (fun piece => ev_id (pl_event (sp_placed piece)))) (cc_lanes cell), cell_count cell).

Example a_month_drawn :
  match calendar_month some_zone demo_sources demo_month ∅ demo_month with
  | Ok m => map cell_line (default [] (cm_weeks m !! 1%nat)) = [
      ("2026-10-04", [], [None], 0%nat); ("2026-10-05", [], [None], 0%nat); ("2026-10-06", [], [None], 0%nat); ("2026-10-07", [], [None], 0%nat);
      ("2026-10-08", [], [None], 0%nat); ("2026-10-09", [], [Some "trip"], 1%nat); ("2026-10-10", ["mark"; "call"], [Some "trip"], 3%nat)]%string
      /\ map (fun view => (sv_id view, sv_slot view, sv_count view, sv_failure view)) (concat (map snd (cm_groups m))) =
         [("calendar.mine", 2, 3, ""); ("estate.certificates", 3, 0, COULD_NOT); ("history.deploys", 1, 1, "")]%string
  | Raise _ => False
  end.
Proof. vm_compute. split; reflexivity. Qed.

(** What a page is asked for may be a month there is no drawing, and a year no [date] takes. *)
Example some_months : map (fun value => (month_of (Some value) demo_month)) ["2026-02"; "2026-13"; "2026"; ""; "0001-01"; "9999-12"; "99999999999-01"]%string =
    [Ok (ymd2ord 2026 2 1); Ok demo_month; Ok demo_month; Ok demo_month; Ok 1; Ok (ymd2ord 9999 12 1); Raise (OtherError "OverflowError" "signed integer is greater than maximum")] /\
  _grid 1 = Raise OVERFLOW /\ _grid (ymd2ord 9999 12 1) = Raise OVERFLOW /\ _grid (ymd2ord 9999 11 1) = Ok (ymd2ord 9999 10 31, ymd2ord 9999 12 11).
Proof. vm_compute. split_and!; reflexivity. Qed.

Example some_events :
  first_day some_zone (an_event "call" "A call" (At (in_utc 100 2)) None false) = 99 /\
  map (fun made => match made with Ok event => (ev_url event, true) | Raise (ValueError text) => (text, false) | Raise _ => (""%string, false) end)
    [new_event some_zone "a" " " (Day 1) None "" "" "" false; new_event some_zone "a" "x" (Day 5) (Some (Day 4)) "" "" "" false;
     new_event some_zone "a" "x" (Day 5) (Some (Day 7)) "" "" "done" true; new_event some_zone "a" "x" (Day 5) None "" "javascript:1" "" false;
     new_event some_zone "a" "x" (Day 5) None "" "/calendar/" "late" false; new_event some_zone "a" "x" (Day 5) (Some (At (in_utc 6 0))) "" "/calendar/" "" false]%string =
    [("A calendar event needs an id and a title.", false); ("A calendar event cannot end before it starts.", false); ("A mark is one day; a longer event is a span.", false); ("", true);
     ("Unknown calendar event state 'late'.", false); ("A calendar event starts and ends in the same terms.", false)]%string.
Proof. vm_compute. split; reflexivity. Qed.

Lemma a_month_counts_every_event_of_its_days_witness :
  match calendar_month some_zone demo_sources demo_month ∅ demo_month with
  | Ok m => map cc_day (concat (cm_weeks m)) = seqZ (demo_month - sunday_of demo_month) 42
  | Raise _ => False
  end.
Proof.
  destruct (calendar_month some_zone demo_sources demo_month ∅ demo_month) as [m|e] eqn:E.
  - refine (proj1 (a_month_counts_every_event_of_its_days some_zone demo_sources demo_month ∅ demo_month m E _)).
    set (shown := List.filter _ _). assert (forallb (fun item => first_day some_zone (pl_event item) <=? last_day some_zone (pl_event item)) shown = true) as H by (vm_compute; reflexivity).
    intros item Hin. rewrite forallb_forall in H. apply Z.leb_le, H. by apply list_elem_of_In.
  - assert (match calendar_month some_zone demo_sources demo_month ∅ demo_month with Ok _ => true | Raise _ => false end = true) as H by (vm_compute; reflexivity).
    rewrite E in H. discriminate.
Defined.

Lemma a_color_is_shared_only_when_all_are_taken_witness : let sources := map snd demo_sources in
  exists source, source ∈ sources /\ asks source = true /\ _slots sources !! cs_id source = Some (cs_slot source).
Proof.
  intros sources. assert (NoDup (map cs_id sources)) as Hnd by (apply (bool_decide_unpack _); vm_compute; exact I).
  pose proof (a_color_is_shared_only_when_all_are_taken sources Hnd) as (H & _).
  exists (a_source "history.deploys" "Deploys" false 1 (Ok [an_event "deploy" "A deploy" (Day demo_month) None false])).
  assert (a_source "history.deploys" "Deploys" false 1 (Ok [an_event "deploy" "A deploy" (Day demo_month) None false]) ∈ sources) as Hin by (right; right; left).
  split; [exact Hin|]. split; [reflexivity|]. apply H; [exact Hin|reflexivity].
Defined.

