(* ===== verification/CalendarEntries.v ===== *)
(** My Calendar (application/calendar_entries.py, domains/calendars/models.py, application/deletion.py): the operator's own
    entries as they are written and deleted, what an entry is held to, the events they make in a window, and which
    sources a person shows. *)
From stdpp Require Import base sets gmap list list_numbers strings pretty sorting.
From Stdlib Require Import Ascii ZArith Lia Sorting.Sorted.
From S2P Require Import Prelude PyStr Json Refusals Security Models PyJson InputErrors JsonText IpAddress Network Dates Recurrence Calendar.

#[local] Open Scope Z_scope.

(** * The tables *)

(** Which sources one person has checked or unchecked. *)
Record Preference := mk_Preference { pf_user : Z; pf_choices : dict; pf_updated_at : Z }.

(** The tables of the calendar beside the others. *)
Record Book := mk_Book { bk_db : Db; bk_entries : list Entry; bk_preferences : list Preference; bk_next : Z }.

Definition set_bk_entries (v : list Entry) (b : Book) : Book := mk_Book (bk_db b) v (bk_preferences b) (bk_next b).
Definition set_bk_preferences (v : list Preference) (b : Book) : Book := mk_Book (bk_db b) (bk_entries b) v (bk_next b).
Definition set_bk_next (v : Z) (b : Book) : Book := mk_Book (bk_db b) (bk_entries b) (bk_preferences b) v.

(** Code over [Db] alone. *)
Definition over_db {A} (m : M exn Db A) : M exn Book A := fun b => let '(o, db) := m (bk_db b) in (o, mk_Book db (bk_entries b) (bk_preferences b) (bk_next b)).

(** [principal.require(name)] *)
Definition required (p : Principal) (name : string) : M exn Book unit := match require p name with Some e => raise e | None => mret tt end.

(** * What an entry is held to *)

Definition INTERVAL_MINIMUM : Z := 1.
Definition INTERVAL_MAXIMUM : Z := 366.

(** SQLite's TRIM takes spaces alone, and its LENGTH counts up to a NUL. *)
Fixpoint before_nul (s : string) : string :=
  match s with
  | "" => ""
  | String c s' => if (code c =? 0)%nat then "" else String c (before_nul s')
  end%string.

Definition is_blank (c : ascii) : bool := (code c =? 32)%nat.
Definition sql_trim (s : string) : string := rstrip_by is_blank (lstrip_by is_blank s).

(** A [Rule] of [Meta.constraints]: its columns, the one it is said beside, and its condition, where a comparison
    with NULL counts as kept. *)
Record Rule := mk_Rule { rl_columns : list string; rl_field : string; rl_holds : Entry -> bool }.

Definition unless {A} (o : option A) (test : A -> bool) : bool := match o with Some a => test a | None => true end.

Definition RULES : list Rule := [
  mk_Rule ["title"] "title" (fun e => negb (bool_decide (before_nul (sql_trim (en_title e)) = "")));
  mk_Rule ["ends_on"; "starts_on"] "ends_on" (fun e => unless (en_ends_on e) (fun ends => (en_starts_on e <=? ends)%Z));
  mk_Rule ["ends_at"; "starts_at"] "ends_at" (fun e => unless (en_ends_at e) (fun _ => is_some (en_starts_at e)));
  mk_Rule ["ends_at"; "starts_at"; "ends_on"; "starts_on"] "ends_at" (fun e =>
    unless (en_ends_at e) (fun ends => unless (en_starts_at e) (fun starts =>
      match en_ends_on e with Some last => (en_starts_on e <? last)%Z | None => false end || (starts <? ends)%Z)));
  mk_Rule ["interval"] "interval" (fun e => (INTERVAL_MINIMUM <=? en_interval e)%Z && (en_interval e <=? INTERVAL_MAXIMUM)%Z);
  mk_Rule ["weekdays"; "repeat"] "weekdays" (fun e => bool_decide (en_weekdays e = "") || bool_decide (en_repeat e = "weekly"));
  mk_Rule ["repeat_until"; "repeat"] "repeat_until" (fun e => unless (en_repeat_until e) (fun _ => negb (bool_decide (en_repeat e = ""))));
  mk_Rule ["repeat_until"; "starts_on"] "repeat_until" (fun e => unless (en_repeat_until e) (fun until => (en_starts_on e <=? until)%Z)) ]%string.

Definition too_many (limit : nat) (text : string) : list DjangoError :=
  if (limit <? String.length text)%nat then [mkDjangoError "max_length" (Some (JNum (Z.of_nat limit)))] else [].

(** The bounds SQLite has for a PositiveSmallIntegerField. *)
Definition interval_errors (n : Z) : list DjangoError :=
  (if n <? 0 then [mkDjangoError "min_value" (Some (JNum 0))] else []) ++
  (if 9223372036854775807 <? n then [mkDjangoError "max_value" (Some (JNum 9223372036854775807))] else []).

Section Entries.
(** The words a refusal opens with, what a reference names for HQ's own reader ([None] where nothing of an accepted
    kind answers to it), the zone HQ is read in and the instant its clocks show a time at. *)
Context (subject : string) (named : string -> option string) (zone : Zone) (instant : Z -> Z).

(** [ReferenceField.clean], and what it leaves in the column beside it. *)
Definition clean_about (entry : Entry) (rows : list Entry) (adding : bool) : list DjangoError * string :=
  if bool_decide (en_about entry = ""%string) then ([], en_about_name entry)
  else match too_many 300 (en_about entry) with
  | [] =>
      match named (en_about entry) with
      | Some label => ([], take_str 200 label)
      | None =>
          let stored := negb adding && existsb (fun row => (en_id row =? en_id entry) && bool_decide (en_about row = en_about entry)) rows in
          ((if stored then [] else [mkDjangoError "" None]), en_about_name entry)
      end
  | errors => (errors, en_about_name entry)
  end.

(** [clean_fields()]: the columns that may be wrong, in the order of the model. *)
Definition entry_field_errors (entry : Entry) (about : list DjangoError) : list (string * list DjangoError) := [
  ("title", if bool_decide (en_title entry = "") then [mkDjangoError "blank" None] else too_many 160 (en_title entry));
  ("location", too_many 200 (en_location entry));
  ("repeat", if bool_decide (en_repeat entry ∈ REPEATS) then [] else [mkDjangoError "invalid_choice" None]);
  ("interval", interval_errors (en_interval entry));
  ("weekdays", too_many 20 (en_weekdays entry));
  ("about", about) ]%string.

(** [clean()] *)
Definition weekday_errors (entry : Entry) : list (string * list DjangoError) :=
  let days := match weekday_numbers entry with Ok days => days | Raise _ => [-1] end in
  [("weekdays"%string, if existsb (fun day => negb ((0 <=? day) && (day <? 7))) days then [mkDjangoError "" None] else [])].

(** [validate_unique()] *)
Definition uid_errors (entry : Entry) (rows : list Entry) : list (string * list DjangoError) :=
  [("uid"%string, if existsb (fun row => bool_decide (en_uid row = en_uid entry) && negb (en_id row =? en_id entry)) rows then [mkDjangoError "unique" None] else [])].

(** [validate_constraints(exclude)]: a rule over a column that is excluded is not asked. *)
Definition rule_errors (entry : Entry) (exclude : list string) : list (string * list DjangoError) :=
  map (fun rule => (rl_field rule, if existsb (fun column => among column exclude) (rl_columns rule) || rl_holds rule entry then [] else [mkDjangoError "" None])) RULES.

Definition with_errors (errors : list (string * list DjangoError)) : list (string * list DjangoError) :=
  List.filter (fun fe => match fe.2 with [] => false | _ => true end) errors.

(** The errors of one column together ([update_error_dict]). *)
Definition grouped (errors : list (string * list DjangoError)) : list (string * list DjangoError) :=
  fold_left (fun groups fe => fold_left (fun groups e => under fe.1 e groups) fe.2 groups) errors [].

Definition entry_errors (entry : Entry) (about : list DjangoError) (rows : list Entry) : list (string * list DjangoError) :=
  let own := with_errors (entry_field_errors entry about ++ weekday_errors entry) in
  let unique := if among "uid" (map fst own) then [] else with_errors (uid_errors entry rows) in
  own ++ unique ++ with_errors (rule_errors entry (map fst (own ++ unique))).

Definition set_en_about_name (name : string) (e : Entry) : Entry :=
  mk_Entry (en_id e) (en_uid e) (en_title e) (en_starts_on e) (en_ends_on e) (en_starts_at e) (en_ends_at e) (en_location e) (en_notes e) (en_repeat e) (en_interval e)
    (en_weekdays e) (en_repeat_until e) (en_about e) name (en_created_at e) (en_updated_at e).

(** [entry.full_clean()], and the row as it leaves it. *)
Definition full_clean_entry (entry : Entry) (adding : bool) : M exn Book Entry :=
  act (fun b =>
    let '(about, name) := clean_about entry (bk_entries b) adding in
    match entry_errors entry about (bk_entries b) with
    | [] => (Ok (set_en_about_name name entry), b)
    | errors => (Raise (let told := django_refusal subject (grouped errors) in DjangoValidationError (ir_message told) (ir_details told)), b)
    end).

Definition set_en_saved (id now : Z) (e : Entry) : Entry :=
  mk_Entry id (en_uid e) (en_title e) (en_starts_on e) (en_ends_on e) (en_starts_at e) (en_ends_at e) (en_location e) (en_notes e) (en_repeat e) (en_interval e)
    (en_weekdays e) (en_repeat_until e) (en_about e) (if bool_decide (en_about e = ""%string) then ""%string else en_about_name e) (en_created_at e) now.

(** [entry.save()]: a new row has the next key. *)
Definition write_entry (now : Z) (adding : bool) (entry : Entry) : M exn Book Entry :=
  act (fun b =>
    if adding then let saved := set_en_saved (bk_next b) now entry in (Ok saved, set_bk_next (bk_next b + 1) (set_bk_entries (bk_entries b ++ [saved]) b))
    else let saved := set_en_saved (en_id entry) now entry in
         (Ok saved, set_bk_entries (update_where (fun row => en_id row =? en_id entry) (fun _ => saved) (bk_entries b)) b)).
(** * Words *)

Definition MONTHS : list string := ["Jan"; "Feb"; "Mar"; "Apr"; "May"; "Jun"; "Jul"; "Aug"; "Sep"; "Oct"; "Nov"; "Dec"]%string.
Definition _WEEKDAY_NAMES : list string := ["Mon"; "Tue"; "Wed"; "Thu"; "Fri"; "Sat"; "Sun"]%string.
Definition no_break : string := String (ascii_of_nat 160) "".
Definition DOT : string := no_break +:+ String (ascii_of_nat 183) " ".

Definition dotted (parts : list string) : string := join DOT (List.filter (fun part => negb (bool_decide (part = ""%string))) parts).

Definition nth_of (names : list string) (n : Z) : string := default ""%string (names !! Z.to_nat n).

(** moments.py: the day, with its year outside this one. *)
Definition when_day (day today : Z) : string :=
  let said := nth_of MONTHS (day_month day - 1) +:+ no_break +:+ pretty (day_of_month day) in
  if day_year day =? day_year today then said else said +:+ "," +:+ no_break +:+ padded 4 (day_year day).

Definition unit_of (repeat : string) : outcome exn string :=
  if bool_decide (repeat = "daily"%string) then Ok "day"%string
  else if bool_decide (repeat = "weekly"%string) then Ok "week"%string
  else if bool_decide (repeat = "monthly"%string) then Ok "month"%string
  else if bool_decide (repeat = "yearly"%string) then Ok "year"%string
  else Raise (OtherError "KeyError" repeat).

(** A weekday as the tuple is indexed: from its end below zero. *)
Definition weekday_name (day : Z) : outcome exn string :=
  let at_ := if day <? 0 then day + 7 else day in
  if (0 <=? at_) && (at_ <? 7) then Ok (nth_of _WEEKDAY_NAMES at_) else Raise (OtherError "IndexError" "tuple index out of range").

Definition repeat_label (entry : Entry) (today : Z) : outcome exn string :=
  if bool_decide (en_repeat entry = ""%string) then Ok ""%string
  else
    unit ← unit_of (en_repeat entry);
    let every := if en_interval entry =? 1 then "Every " +:+ unit else "Every " +:+ counted (Z.to_nat (en_interval entry)) unit (unit +:+ "s") in
    on ← (if bool_decide (en_repeat entry = "weekly"%string) then
            days ← weekday_numbers entry;
            match days with [] => mret ""%string | _ => names ← each_of weekday_name days; mret (" on " +:+ join ", " names) end
          else mret ""%string);
    mret (every +:+ on +:+ match en_repeat_until entry with Some until => " until " +:+ when_day until today | None => ""%string end).

(** [get_absolute_url()] *)
Definition entry_url (entry : Entry) (day : Z) : string := CALENDAR +:+ "?day=" +:+ iso_day day +:+ "&entry=" +:+ en_uid entry.

(** [time.isoformat(timespec="minutes")] *)
Definition minutes_of (time : Z) : string := padded 2 (time / HOUR) +:+ ":" +:+ padded 2 (time mod HOUR / MINUTE).

Definition or_null {A} (f : A -> string) (o : option A) : json := match o with Some a => JStr (f a) | None => JNull end.

Definition serialize_entry (today : Z) (entry : Entry) : outcome exn dict :=
  label ← repeat_label entry today;
  days ← weekday_numbers entry;
  mret [("uid", JStr (en_uid entry)); ("title", JStr (en_title entry)); ("starts_on", JStr (iso_day (en_starts_on entry))); ("ends_on", or_null iso_day (en_ends_on entry));
    ("starts_at", or_null minutes_of (en_starts_at entry)); ("ends_at", or_null minutes_of (en_ends_at entry)); ("location", JStr (en_location entry));
    ("notes", JStr (en_notes entry)); ("repeat", JStr (en_repeat entry)); ("repeat_label", JStr label); ("interval", JNum (en_interval entry));
    ("weekdays", JList (map JNum days)); ("repeat_until", or_null iso_day (en_repeat_until entry)); ("about", JStr (en_about entry));
    ("url", JStr (entry_url entry (en_starts_on entry))); ("updated_at", JStr (isoformat (en_updated_at entry)))]%string.

(** * Events *)

Definition occurrence (today : Z) (entry : Entry) (day : Z) : outcome exn CalendarEvent :=
  last ← plus_days day (_span_days entry);
  let moment day time := At {| dt_wall := day * DAY + time; dt_utc := instant (day * DAY + time); dt_zone := here zone |} in
  '(starts, ends) ← match en_starts_at entry with
    | None => if day <? last then after ← plus_days last 1; mret (Day day, Some (Day after)) else mret (Day day, None)
    | Some starts_at => mret (moment day starts_at, moment last <$> en_ends_at entry)
    end;
  label ← repeat_label entry today;
  new_event zone (en_uid entry +:+ ":" +:+ iso_day day) (en_title entry) starts ends (dotted [en_location entry; label]) (entry_url entry day) "" false.

(** The rows the window's query asks for, by its two halves. *)
Definition asked_once (first : Z) (entry : Entry) : bool := bool_decide (en_repeat entry = ""%string) && (first <=? default (en_starts_on entry) (en_ends_on entry)).
Definition asked_repeating (first : Z) (entry : Entry) : bool := negb (bool_decide (en_repeat entry = ""%string)) && unless (en_repeat_until entry) (fun until => first <=? until).
Definition asked (first last : Z) (entry : Entry) : bool := (en_starts_on entry <=? last) && (asked_once first entry || asked_repeating first entry).

Definition time_compare (a b : option Z) : comparison := match a, b with None, None => Eq | None, _ => Lt | _, None => Gt | Some a, Some b => a ?= b end.

(** [Meta.ordering], with no time before any. *)
Definition entry_before (a b : Entry) : bool :=
  tuple_before [en_starts_on a ?= en_starts_on b; time_compare (en_starts_at a) (en_starts_at b); String.compare (en_title a) (en_title b)].

Definition entry_events (today : Z) (rows : list Entry) (first last : Z) : outcome exn (list CalendarEvent) :=
  found ← each_of (fun entry => days ← occurrences entry first last; each_of (occurrence today entry) days) (sort_before entry_before (List.filter (asked first last) rows));
  mret (concat found).

Definition OWN_SOURCE : string := "calendar.mine".

Definition own_sources (today : Z) (rows : list Entry) : list CalendarSource := [
  {| cs_id := OWN_SOURCE; cs_label := "My events"; cs_events := entry_events today rows; cs_description := "Events you or your agents added."; cs_url := CALENDAR;
     cs_shown := true; cs_slot := 0 |} ].

(** * Writing *)

Record EntryCommand := mk_EntryCommand {
  ec_title : string;
  ec_starts_on : Z;
  ec_ends_on : option Z;
  ec_starts_at : option Z;
  ec_ends_at : option Z;
  ec_location : string;
  ec_notes : string;
  ec_repeat : string;
  ec_interval : Z;
  ec_weekdays : list Z;
  ec_repeat_until : option Z;
  ec_about : string;
}.

Definition weekdays_text (days : list Z) : string := join "," (map pretty (sorted_set days)).

(** The values a write sets, over the row: [written(command, sent)], its title stripped and its weekdays as text. *)
Definition entry_over (command : EntryCommand) (sent : option (list string)) (entry : Entry) : Entry :=
  let takes {A} (field : string) (value kept : A) : A := if match sent with None => true | Some fields => among field fields end then value else kept in
  mk_Entry (en_id entry) (en_uid entry)
    (takes "title"%string (strip (ec_title command)) (en_title entry)) (takes "starts_on"%string (ec_starts_on command) (en_starts_on entry))
    (takes "ends_on"%string (ec_ends_on command) (en_ends_on entry)) (takes "starts_at"%string (ec_starts_at command) (en_starts_at entry))
    (takes "ends_at"%string (ec_ends_at command) (en_ends_at entry)) (takes "location"%string (ec_location command) (en_location entry))
    (takes "notes"%string (ec_notes command) (en_notes entry)) (takes "repeat"%string (ec_repeat command) (en_repeat entry))
    (takes "interval"%string (ec_interval command) (en_interval entry)) (takes "weekdays"%string (weekdays_text (ec_weekdays command)) (en_weekdays entry))
    (takes "repeat_until"%string (ec_repeat_until command) (en_repeat_until entry)) (takes "about"%string (ec_about command) (en_about entry))
    (en_about_name entry) (en_created_at entry) (en_updated_at entry).

Definition blank_entry (uid : string) (now : Z) : Entry := mk_Entry 0 uid "" 0 None None None "" "" "" 1 "" None "" "" now now.

(** [uuid.UUID(text)], as its own text: 32 digits of hex, with or without braces, hyphens and the prefix of a URN.
    A prefix past the first place and what [int] would read past digits (an underscore, a sign) are not represented. *)
Fixpoint without_char (c : ascii) (s : string) : string :=
  match s with "" => "" | String d s' => if decide (c = d) then without_char c s' else String d (without_char c s') end%string.

Definition unprefixed (prefix s : string) : string := if startswith prefix s then String.substring (String.length prefix) (String.length s - String.length prefix) s else s.

Definition is_brace (c : ascii) : bool := (code c =? 123)%nat || (code c =? 125)%nat.

Definition uuid_text (text : string) : option string :=
  let hex := without_char "-" (rstrip_by is_brace (lstrip_by is_brace (unprefixed "uuid:" (unprefixed "urn:" text)))) in
  let part from len := String.substring from len (lower hex) in
  if (String.length hex =? 32)%nat && str_all IpAddress.is_hex hex then Some (part 0%nat 8%nat +:+ "-" +:+ part 8%nat 4%nat +:+ "-" +:+ part 12%nat 4%nat +:+ "-" +:+ part 16%nat 4%nat +:+ "-" +:+ part 20%nat 12%nat)
  else None.

(** What the row's key refuses a text with, which is no [ValueError]. *)
Definition not_a_uuid : exn := let told := django_refusal subject [(NON_FIELD_ERRORS, [mkDjangoError "invalid" None])] in DjangoValidationError (ir_message told) (ir_details told).

(** record_saves.py, for an entry: what a write says where it is gone or moved on. *)
Record Held := mk_Held { hl_missing : string; hl_stale : string }.

Definition _ENTRY : Held := {| hl_missing := "That calendar event was not found."; hl_stale := "This event changed after it was read." |}.
Definition _RECORD : Held := {| hl_missing := "That record was not found."; hl_stale := "That record changed after it was read." |}.

(** [found(Entry, refusals, {"uid": key})] *)
Definition found_entry (refusals : Held) (key : string) : M exn Book Entry :=
  act (fun b =>
    match uuid_text key with
    | None => (Raise not_a_uuid, b)
    | Some uid =>
        match first_where (fun row => bool_decide (en_uid row = uid)) (bk_entries b) with
        | Some row => (Ok row, b)
        | None => (Raise (Host RecordNotFound (hl_missing refusals) JNull), b)
        end
    end).

(** [held(Entry, refusals, {"uid": key}, expected_updated_at)] *)
Definition held_entry (refusals : Held) (key : string) (expected_updated_at : option string) : M exn Book Entry :=
  row ← found_entry refusals key;
  _ ← raise_if (match expected_updated_at with
                | None | Some ""%string => false
                | Some expected => negb (bool_decide (isoformat (en_updated_at row) = expected))
                end) (Host RecordConflict (hl_stale refusals) JNull);
  mret row.

Definition save_entry (now today : Z) (fresh_uid : string) (command : EntryCommand) (p : Principal) (current_key expected_updated_at : option string) (sent : option (list string))
  : M exn Book dict :=
  atomic (
    _ ← required p WRITE_CALENDAR;
    '(entry, created) ← match current_key with
      | None => mret (blank_entry fresh_uid now, true)
      | Some key => row ← held_entry _ENTRY key expected_updated_at; mret (row, false)
      end;
    let entry := entry_over command (if created : bool then None else sent) entry in
    entry ← full_clean_entry entry created;
    entry ← write_entry now created entry;
    record ← lift (serialize_entry today entry);
    mret [("ok", JBool true); ("created", JBool created); ("entry", JObj record)]%string).

Definition get_entry (today : Z) (uid : string) : M exn Book dict := row ← found_entry _ENTRY uid; lift (serialize_entry today row).

(** [delete_calendar_entry(command, principal=..., current_key=..., expected_updated_at=...)] through [delete_record]. *)
Definition delete_calendar_entry (confirm : string) (p : Principal) (current_key : string) (expected_updated_at : option string) : M exn Book dict :=
  _ ← required p DELETE_CALENDAR;
  _ ← raise_if (negb (bool_decide (confirm = current_key))) (ValueError ("confirm must exactly match target " +:+ repr current_key));
  row ← atomic (
    row ← held_entry _RECORD current_key expected_updated_at;
    _ ← modify (fun b => set_bk_entries (delete_where (fun r => en_id r =? en_id row) (bk_entries b)) b);
    mret row);
  mret [("ok", JBool true); ("deleted", JObj [("type", JStr "calendar entry"); ("target", JStr current_key); ("label", JStr (en_title row))])]%string.

(** * What a person shows *)

(** [calendar_choices(user)] *)
Definition calendar_choices (user : Z) (b : Book) : list (string * bool) :=
  match first_where (fun row => pf_user row =? user) (bk_preferences b) with
  | Some row => map (fun kv => (kv.1, truthy kv.2)) (pf_choices row)
  | None => []
  end.

(** The row of a user, made where there is none, changed. *)
Fixpoint with_choices (user : Z) (change : dict -> dict) (now : Z) (rows : list Preference) : list Preference :=
  match rows with
  | [] => [mk_Preference user (change []) now]
  | row :: rows => if pf_user row =? user then mk_Preference user (change (pf_choices row)) now :: rows else row :: with_choices user change now rows
  end.

(** [choose_source(command, principal=...)], of the domains there are. *)
Definition choose_source (now today : Z) (all_domains : list Domain) (source : string) (shown : bool) (p : Principal) : M exn Book dict :=
  atomic (
    user ← over_db (person p);
    rows ← gets bk_entries;
    sources ← lift (calendar_sources (own_sources today rows) all_domains);
    _ ← raise_if (negb (existsb (fun entry => bool_decide (cs_id entry.2 = source)) sources)) (Host RecordNotFound "No calendar source has that name." JNull);
    _ ← modify (fun b => set_bk_preferences (with_choices (us_pk user) (dset source (JBool shown)) now (bk_preferences b)) b);
    choices ← gets (calendar_choices (us_pk user));
    mret [("ok", JBool true); ("choices", JObj (map (fun kv => (kv.1, JBool kv.2)) choices))]%string).
End Entries.

(** * What is in the tables *)

(** What the types of a command's fields hold it to. *)
Definition a_day (o : option Z) : bool := unless o is_day.
Definition a_time (o : option Z) : bool := unless o (fun time => (0 <=? time) && (time <? DAY)).

Record entry_ok (e : Entry) : Prop := {
  eo_days : is_day (en_starts_on e) && a_day (en_ends_on e) && a_day (en_repeat_until e) = true;
  eo_times : a_time (en_starts_at e) && a_time (en_ends_at e) = true;
  eo_title : strip (en_title e) <> ""%string;
  eo_repeat : en_repeat e ∈ REPEATS;
  eo_weekdays : exists numbers, weekday_numbers e = Ok numbers /\ Forall (fun n => 0 <= n <= 6) numbers;
  eo_rules : forall rule, rule ∈ RULES -> rl_holds rule e = true;
}.

Record entries_ok (b : Book) : Prop := {
  ok_entries : forall e, e ∈ bk_entries b -> entry_ok e;
  ok_ids : NoDup (map en_id (bk_entries b));
  ok_uids : NoDup (map en_uid (bk_entries b));
  ok_keys : forall e, e ∈ bk_entries b -> uuid_text (en_uid e) = Some (en_uid e);
  ok_below : forall e, e ∈ bk_entries b -> 0 < en_id e < bk_next b;
  ok_next : 0 < bk_next b;
}.

Definition command_ok (c : EntryCommand) : bool :=
  is_day (ec_starts_on c) && a_day (ec_ends_on c) && a_day (ec_repeat_until c) && (a_time (ec_starts_at c) && a_time (ec_ends_at c)).

(** Each of the rules in turn. *)
Ltac each_rule H := unfold RULES in H; repeat (apply elem_of_cons in H as [->|H]); [..|by apply not_elem_of_nil in H].

(** What a save fills in is held to nothing. *)
Lemma entry_ok_named name e : entry_ok e -> entry_ok (set_en_about_name name e).
Proof. intros [? ? ? ? ? Hr]. constructor; try done. intros rule Hin. pose proof (Hr rule Hin) as H. clear Hr. each_rule Hin; exact H. Qed.

Lemma entry_ok_saved id now e : entry_ok e -> entry_ok (set_en_saved id now e).
Proof. intros [? ? ? ? ? Hr]. constructor; try done. intros rule Hin. pose proof (Hr rule Hin) as H. clear Hr. each_rule Hin; exact H. Qed.

Lemma with_errors_nil errors : with_errors errors = [] -> forall fe, fe ∈ errors -> fe.2 = [].
Proof.
  unfold with_errors. induction errors as [|fe errors IH]; cbn; intros H x Hx; [by apply not_elem_of_nil in Hx|]. destruct (fe.2) eqn:E; [|done].
  apply elem_of_cons in Hx as [->|Hx]; [done|by apply IH].
Qed.

Lemma no_rule_errors e : with_errors (rule_errors e []) = [] -> forall rule, rule ∈ RULES -> rl_holds rule e = true.
Proof.
  intros H rule Hin. assert (forall f : Rule -> string * list DjangoError, rule_errors e [] = map f RULES -> (f rule).2 = []) as Hf.
  { intros f Hm. apply (with_errors_nil _ H). rewrite Hm. by apply list_elem_of_fmap_2. }
  specialize (Hf _ eq_refl). cbn [snd] in Hf. assert (existsb (fun column => among column []) (rl_columns rule) = false) as Hex by (induction (rl_columns rule) as [|c cs IH]; [done|cbn [existsb]; by rewrite IH]).
  rewrite Hex in Hf. by destruct (rl_holds rule e).
Qed.

(** A row that is let through is held together. *)
Lemma no_errors e about rows : entry_errors e about rows = [] ->
  en_title e <> ""%string /\ en_repeat e ∈ REPEATS /\ about = [] /\ (exists numbers, weekday_numbers e = Ok numbers /\ Forall (fun n => 0 <= n <= 6) numbers) /\
  (forall row, row ∈ rows -> en_uid row = en_uid e -> en_id row = en_id e) /\ forall rule, rule ∈ RULES -> rl_holds rule e = true.
Proof.
  unfold entry_errors. set (own := with_errors (entry_field_errors e about ++ weekday_errors e)). set (unique := if among "uid" (map fst own) then [] else with_errors (uid_errors e rows)).
  intros [Hown [Hunique Hrules]%app_nil]%app_nil. rewrite Hown, Hunique in Hrules. unfold unique in Hunique. rewrite Hown in Hunique. cbn [map among existsb] in Hunique.
  pose proof (with_errors_nil _ Hown) as Hf. split_and!.
  - intros Ht. specialize (Hf ("title"%string, if bool_decide (en_title e = ""%string) then [mkDjangoError "blank" None] else too_many 160 (en_title e)) ltac:(left)). cbn in Hf. by rewrite bool_decide_eq_true_2 in Hf.
  - specialize (Hf ("repeat"%string, if bool_decide (en_repeat e ∈ REPEATS) then [] else [mkDjangoError "invalid_choice" None]) ltac:(do 2 right; left)). cbn in Hf. by case_bool_decide.
  - exact (Hf ("about"%string, about) ltac:(do 5 right; left)).
  - assert ((forall fe, fe ∈ weekday_errors e -> fe.2 = [])) as Hw by (intros fe Hfe; apply Hf, elem_of_app; by right). unfold weekday_errors in Hw. specialize (Hw _ ltac:(left)). cbn [snd] in Hw.
    destruct (weekday_numbers e) as [numbers|]; [|done]. exists numbers. split; [done|]. destruct (existsb _ numbers) eqn:Hex in Hw; [done|]. apply Forall_forall. intros n Hn.
    destruct (decide (0 <= n <= 6)) as [|Hne]; [done|]. exfalso. rewrite <- not_true_iff_false in Hex. apply Hex, existsb_exists. exists n. split; [by apply list_elem_of_In|]. lia.
  - intros row Hrow Hu. pose proof (with_errors_nil _ Hunique) as H. unfold uid_errors in H. specialize (H _ ltac:(left)). cbn [snd] in H. destruct (existsb _ rows) eqn:Hex in H; [done|].
    destruct (Z.eqb_spec (en_id row) (en_id e)) as [|Hne]; [done|]. exfalso. rewrite <- not_true_iff_false in Hex. apply Hex, existsb_exists. exists row. split; [by apply list_elem_of_In|].
    rewrite bool_decide_eq_true_2 by done. by rewrite (proj2 (Z.eqb_neq _ _)).
  - by apply no_rule_errors.
Qed.

Lemma entry_over_ok command sent entry about rows : command_ok command = true -> (sent = None \/ entry_ok entry) ->
  entry_errors (entry_over command sent entry) about rows = [] -> entry_ok (entry_over command sent entry).
Proof.
  intros Hc Hs Hno. destruct (no_errors _ _ _ Hno) as (Ht & Hr & _ & Hw & _ & Hrules). unfold command_ok in Hc. rewrite !andb_true_iff in Hc. destruct Hc as (((H1 & H2) & H3) & H4 & H5).
  constructor; [| | |exact Hr|exact Hw|exact Hrules].
  - rewrite !andb_true_iff. unfold entry_over. cbn [en_starts_on en_ends_on en_repeat_until]. destruct sent as [fields|]; [|split_and!; assumption].
    destruct Hs as [Hs|[Hd _ _ _ _ _]]; [discriminate|]. rewrite !andb_true_iff in Hd. destruct Hd as ((D1 & D2) & D3).
    destruct (among "starts_on" fields), (among "ends_on" fields), (among "repeat_until" fields); split_and!; assumption.
  - rewrite andb_true_iff. unfold entry_over. cbn [en_starts_at en_ends_at]. destruct sent as [fields|]; [|split_and!; assumption].
    destruct Hs as [Hs|[_ Hd _ _ _ _]]; [discriminate|]. rewrite andb_true_iff in Hd. destruct Hd as (D1 & D2).
    destruct (among "starts_at" fields), (among "ends_at" fields); split_and!; assumption.
  - clear - Ht Hs. unfold entry_over in Ht |- *. cbn [en_title] in Ht |- *. destruct sent as [fields|]; [destruct (among "title" fields)|]; [by rewrite strip_strip| |by rewrite strip_strip].
    destruct Hs as [Hs|[_ _ Htitle _ _ _]]; [discriminate|exact Htitle].
Qed.

(** The calls that change the calendar. *)
Inductive CalendarCall : Type :=
| SaveEntry (now today : Z) (fresh_uid : string) (command : EntryCommand) (p : Principal) (current_key expected_updated_at : option string) (sent : option (list string))
| DeleteEntry (confirm : string) (p : Principal) (current_key : string) (expected_updated_at : option string)
| ChooseSource (now today : Z) (all_domains : list Domain) (source : string) (shown : bool) (p : Principal).

Section Kept.
Context (subject : string) (named : string -> option string) (zone : Zone) (instant : Z -> Z).

Definition run_call (call : CalendarCall) : M exn Book dict :=
  match call with
  | SaveEntry now today uid command p key expected sent => save_entry subject named now today uid command p key expected sent
  | DeleteEntry confirm p key expected => delete_calendar_entry subject confirm p key expected
  | ChooseSource now today domains source shown p => choose_source zone instant now today domains source shown p
  end.

(** A command is of its type, and a new key is a UUID. *)
Definition typed_call (call : CalendarCall) : bool := match call with SaveEntry _ _ uid command _ _ _ _ => command_ok command && bool_decide (uuid_text uid = Some uid) | _ => true end.

Lemma found_entry_inv refusals key b o b' : found_entry subject refusals key b = (o, b') ->
  b' = b /\ match o with Ok row => row ∈ bk_entries b /\ uuid_text key = Some (en_uid row) | Raise _ => True end.
Proof.
  unfold found_entry, act. destruct (uuid_text key) as [uid|]; [|by intros [= <- <-]]. destruct (first_where _ _) as [row|] eqn:E; intros [= <- <-]; [|done].
  apply first_where_some in E as [Hin Hu]. apply bool_decide_eq_true in Hu as ->. done.
Qed.

Lemma held_entry_inv refusals key expected b o b' : held_entry subject refusals key expected b = (o, b') ->
  b' = b /\ match o with Ok row => row ∈ bk_entries b /\ uuid_text key = Some (en_uid row) | Raise _ => True end.
Proof.
  unfold held_entry. intros H. apply bind_inv in H as [(row & b0 & Hf & H)|(e & Hf & ->)]; apply found_entry_inv in Hf as [-> Hrow]; [|done].
  apply bind_inv in H as [(u & b0 & Hg & H)|(e & Hg & ->)]; apply guard_inv in Hg as [-> _]; [|done]. by apply ret_inv in H as [-> ->].
Qed.
(** The row a save starts from: a new one, or the one its key names. *)
Definition starts_from (uid : string) (now : Z) (current_key : option string) (b : Book) (old : Entry) : Prop :=
  match current_key with None => old = blank_entry uid now | Some key => old ∈ bk_entries b /\ uuid_text key = Some (en_uid old) end.

(** The tables with a row saved. *)
Definition book_saved (current_key : option string) (row : Entry) (b : Book) : Book :=
  match current_key with
  | None => set_bk_next (bk_next b + 1) (set_bk_entries (bk_entries b ++ [row]) b)
  | Some _ => set_bk_entries (update_where (fun r => en_id r =? en_id row) (fun _ => row) (bk_entries b)) b
  end.

Definition sent_of (current_key : option string) (sent : option (list string)) : option (list string) := match current_key with None => None | Some _ => sent end.

Lemma save_entry_inv now today uid command p current_key expected sent b o b' :
  save_entry subject named now today uid command p current_key expected sent b = (o, b') ->
  match o with
  | Raise _ => b' = b
  | Ok answer => exists old name, require p WRITE_CALENDAR = None /\ starts_from uid now current_key b old /\
      let entry := entry_over command (sent_of current_key sent) old in
      let row := set_en_saved (match current_key with None => bk_next b | Some _ => en_id old end) now (set_en_about_name name entry) in
      entry_errors entry [] (bk_entries b) = [] /\ b' = book_saved current_key row b /\
      exists record, serialize_entry today row = Ok record /\
        answer = [("ok", JBool true); ("created", JBool (match current_key with None => true | Some _ => false end)); ("entry", JObj record)]%string
  end.
Proof.
  intros H. unfold save_entry in H. destruct o as [answer|e]; [|by apply atomic_raise in H]. apply (proj1 (atomic_ok _ _ _ _)) in H.
  apply bind_inv_ok in H as (u & b0 & Hreq & H). unfold required in Hreq. destruct (require p WRITE_CALENDAR) eqn:Hrequire; [by apply raise_inv in Hreq as [? _]|]. apply ret_inv in Hreq as [_ ->].
  apply bind_inv_ok in H as ([old created] & b0 & Hold & H).
  assert (b0 = b /\ starts_from uid now current_key b old /\ created = match current_key with None => true | Some _ => false end) as (-> & Hstarts & ->).
  { destruct current_key as [key|]; cbn [starts_from].
    - apply bind_inv_ok in Hold as (row & b1 & Hheld & Hret). apply held_entry_inv in Hheld as [-> Hrow]. apply ret_inv in Hret as [[= -> ->] ->]. done.
    - by apply ret_inv in Hold as [[= -> ->] ->]. }
  cbv zeta in H. replace (if match current_key with None => true | Some _ => false end then None else sent) with (sent_of current_key sent) in H by by destruct current_key.
  set (entry := entry_over command (sent_of current_key sent) old) in *. apply bind_inv_ok in H as (cleaned & b0 & Hclean & H). unfold full_clean_entry, act in Hclean.
  destruct (clean_about named entry (bk_entries b) _) as [about name]. destruct (entry_errors entry about (bk_entries b)) eqn:Herr; [|done]. injection Hclean as <- <-.
  destruct (no_errors _ _ _ Herr) as (_ & _ & -> & _). apply bind_inv_ok in H as (saved & b0 & Hwrite & H). exists old, name. split; [done|]. split; [done|]. cbv zeta. fold entry. split; [done|].
  apply bind_inv_ok in H as (record & b1 & Hlift & H). apply lift_inv in Hlift as [Hrecord ->]. apply ret_inv in H as [[= ->] ->].
  unfold write_entry, act in Hwrite. destruct current_key as [key|]; injection Hwrite as <- <-; (split; [reflexivity|by exists record]).
Qed.

Lemma delete_entry_inv confirm p key expected b o b' : delete_calendar_entry subject confirm p key expected b = (o, b') ->
  match o with
  | Raise _ => b' = b
  | Ok _ => exists row, require p DELETE_CALENDAR = None /\ confirm = key /\ row ∈ bk_entries b /\ uuid_text key = Some (en_uid row) /\
      b' = set_bk_entries (delete_where (fun r => en_id r =? en_id row) (bk_entries b)) b
  end.
Proof.
  unfold delete_calendar_entry. intros H. apply bind_inv in H as [(u & b0 & Hreq & H)|(e & Hreq & ->)]; unfold required in Hreq; destruct (require p DELETE_CALENDAR) eqn:Hrequire.
  1: by apply raise_inv in Hreq as [? _]. 2: by apply raise_inv in Hreq as [_ ->]. 2: by apply ret_inv in Hreq as [? _].
  apply ret_inv in Hreq as [_ ->]. apply bind_inv in H as [(u1 & b0 & Hg & H)|(e & Hg & ->)]; apply guard_inv in Hg as [-> [[Ht Hu]|[Ht Hu]]]; try done.
  apply negb_false_iff, bool_decide_eq_true in Ht as ->. apply bind_inv in H as [(row & b0 & Ha & H)|(e & Ha & ->)]; [|by apply atomic_raise in Ha].
  apply ret_inv in H as [-> ->]. apply (proj1 (atomic_ok _ _ _ _)) in Ha. apply bind_inv_ok in Ha as (row' & b1 & Hheld & Ha). apply held_entry_inv in Hheld as [-> [Hin Huid]].
  apply bind_inv_ok in Ha as (u2 & b1 & Hm & Ha). apply modify_inv in Hm as [_ ->]. apply ret_inv in Ha as [[= ->] ->]. by exists row'.
Qed.

Lemma choose_source_inv now today domains source shown p b o b' : choose_source zone instant now today domains source shown p b = (o, b') -> bk_entries b' = bk_entries b /\ bk_next b' = bk_next b.
Proof.
  unfold choose_source. intros H. destruct o as [answer|e]; [|by apply atomic_raise in H as ->]. apply (proj1 (atomic_ok _ _ _ _)) in H. apply bind_inv_ok in H as (user & b0 & Hp & H).
  assert (bk_entries b0 = bk_entries b /\ bk_next b0 = bk_next b) as [<- <-] by (unfold over_db in Hp; destruct (person p (bk_db b)) as [? ?]; by injection Hp as _ <-).
  run. done.
Qed.
Lemma created_ok uid now command entry about name b : entries_ok b -> command_ok command = true -> uuid_text uid = Some uid -> entry = entry_over command None (blank_entry uid now) ->
  entry_errors entry about (bk_entries b) = [] -> entries_ok (book_saved None (set_en_saved (bk_next b) now (set_en_about_name name entry)) b).
Proof.
  intros [He Hi Hu Hk Hb Hn] Hc Hkey -> Hno. pose proof (entry_over_ok _ _ _ _ _ Hc (or_introl eq_refl) Hno) as Hok. destruct (no_errors _ _ _ Hno) as (_ & _ & _ & _ & Hunique & _).
  set (row := set_en_saved _ _ _). assert (entry_ok row) as Hrow by by apply entry_ok_saved, entry_ok_named. cbn [book_saved]. constructor; cbn [bk_entries bk_next set_bk_next set_bk_entries].
  - intros e [Hin| ->%list_elem_of_singleton]%elem_of_app; [by apply He|done].
  - rewrite map_app. apply NoDup_app. split; [done|]. split; [|apply NoDup_singleton]. intros id (e & -> & Hin)%list_elem_of_fmap Heq%list_elem_of_singleton.
    specialize (Hb e Hin). cbn [en_id row set_en_saved] in Heq. rewrite Heq in Hb. lia.
  - rewrite map_app. apply NoDup_app. split; [done|]. split; [|apply NoDup_singleton]. intros u (e & -> & Hin)%list_elem_of_fmap Heq%list_elem_of_singleton.
    specialize (Hunique e Hin Heq). specialize (Hb e Hin). cbn [en_id entry_over blank_entry] in Hunique. lia.
  - by intros e [Hin| ->%list_elem_of_singleton]%elem_of_app; [apply Hk|].
  - intros e [Hin| ->%list_elem_of_singleton]%elem_of_app; [specialize (Hb e Hin); lia|]. cbn [en_id row set_en_saved]. lia.
  - lia.
Qed.

Lemma updated_ok key now command sent old about name b : entries_ok b -> command_ok command = true -> old ∈ bk_entries b ->
  entry_errors (entry_over command sent old) about (bk_entries b) = [] ->
  entries_ok (book_saved (Some key) (set_en_saved (en_id old) now (set_en_about_name name (entry_over command sent old))) b).
Proof.
  intros [He Hi Hu Hk Hb Hn] Hc Hold Hno. pose proof (entry_over_ok _ _ _ _ _ Hc (or_intror (He old Hold)) Hno) as Hok.
  set (row := set_en_saved _ _ _). assert (entry_ok row) as Hrow by by apply entry_ok_saved, entry_ok_named. assert (en_id row = en_id old /\ en_uid row = en_uid old) as [Hid Huid] by done. clearbody row. cbn [book_saved].
  assert (forall r, r ∈ bk_entries b -> en_id r = en_id row -> r = old) as Hsame by (intros r Hr Heq; apply (unique_by en_id _ _ _ Hi Hr Hold); by rewrite Heq).
  constructor; cbn [bk_entries bk_next set_bk_next set_bk_entries].
  - intros e (r & Hr & ->)%elem_of_update_where. destruct (en_id r =? en_id row); [done|by apply He].
  - rewrite map_update_where; [done|]. by intros r Hr Heq%Z.eqb_eq.
  - rewrite map_update_where; [done|]. intros r Hr Heq%Z.eqb_eq. by rewrite (Hsame r Hr Heq).
  - intros e (r & Hr & ->)%elem_of_update_where. destruct (en_id r =? en_id row); [rewrite Huid|]; by apply Hk.
  - intros e (r & Hr & ->)%elem_of_update_where. destruct (en_id r =? en_id row); [rewrite Hid|]; by apply Hb.
  - done.
Qed.

(** C16: Every call keeps the calendar whole: from tables whose entries each hold together (their days and times there
    are, a title, a way to repeat, days of the week, the rules of the row) under keys and ids no two share, a save, a
    delete or a choice of sources, answered or refused, leaves such tables. *)
Theorem calendar_calls_keep_entries_whole call b : entries_ok b -> typed_call call = true -> entries_ok (run_call call b).2.
Proof.
  intros Hok Hc. destruct (run_call call b) as [o b'] eqn:H. cbn [snd]. destruct call as [now today uid command p [key|] expected sent|confirm p key expected|now today domains source shown p]; cbn [run_call typed_call] in *.
  - apply andb_true_iff in Hc as [Hc Hkey]. apply save_entry_inv in H. destruct o as [answer|e]; [|by rewrite H]. destruct H as (old & name & _ & [Hin _] & Hno & -> & _). by eapply updated_ok.
  - apply andb_true_iff in Hc as [Hc Hkey%bool_decide_eq_true]. apply save_entry_inv in H. destruct o as [answer|e]; [|by rewrite H]. destruct H as (old & name & _ & -> & Hno & -> & _). by eapply created_ok.
  - apply delete_entry_inv in H. destruct o as [answer|e]; [|by rewrite H]. destruct H as (row & _ & _ & Hin & _ & ->). destruct Hok as [He Hi Hu Hk Hb Hn].
    constructor; cbn [bk_entries bk_next set_bk_entries]; [intros e [Hin' _]%elem_of_delete_where; by apply He|by apply NoDup_map_delete|by apply NoDup_map_delete|intros e [Hin' _]%elem_of_delete_where; by apply Hk|intros e [Hin' _]%elem_of_delete_where; by apply Hb|done].
  - apply choose_source_inv in H as [He Hn]. destruct Hok as [? ? ? ? ? ?]. constructor; rewrite ?He, ?Hn; done.
Qed.
End Kept.

(** * Weekdays as text *)

Lemma str_all_imp (p q : ascii -> bool) s : (forall c, p c = true -> q c = true) -> str_all p s = true -> str_all q s = true.
Proof. intros H. induction s as [|c s IH]; cbn; [done|]. rewrite !andb_true_iff. intros [Hc Hs]. split; [by apply H|by apply IH]. Qed.

Lemma num_chars_plain c : num_char c = true -> is_space c = false /\ c <> ","%char /\ c <> "_"%char.
Proof. intros H. destruct c as [[] [] [] [] [] [] [] []]; try discriminate H; repeat split; discriminate. Qed.

Lemma mem_char_all c s : str_all (fun d => negb (bool_decide (c = d))) s = true -> mem_char c s = false.
Proof. induction s as [|d s IH]; cbn; [done|]. intros [Hd Hs]%andb_true_iff. apply negb_true_iff, bool_decide_eq_false in Hd. destruct (decide (c = d)); [done|]. by apply IH. Qed.

Lemma pretty_plain (z : Z) : strip (pretty z) = pretty z /\ mem_char "," (pretty z) = false /\ mem_char "_" (pretty z) = false.
Proof.
  pose proof (pretty_Z_chars z) as H. split_and!.
  - apply strip_none. eapply str_all_imp; [|exact H]. intros c Hc%num_chars_plain. by destruct Hc as [-> _].
  - apply mem_char_all. eapply str_all_imp; [|exact H]. intros c Hc%num_chars_plain. by rewrite bool_decide_eq_false_2 by naive_solver.
  - apply mem_char_all. eapply str_all_imp; [|exact H]. intros c Hc%num_chars_plain. by rewrite bool_decide_eq_false_2 by naive_solver.
Qed.

Lemma int_of_pretty (n : N) : short_number (Z.of_N n) = true -> int_of (pretty n) = Some (Z.of_N n).
Proof.
  intros Hs. destruct (pretty_digits n) as (c & r & Hp & Hd & _ & Hv). unfold short_number in Hs.
  assert (Z.abs_N (Z.of_N n) = n) as Ha by lia. rewrite Ha in Hs. rewrite Hp in Hs, Hv |- *. unfold int_of. rewrite Hs, Hv, Hd. by rewrite bool_decide_eq_false_2.
Qed.

(** [int] of digits, in groups set apart by underscores. *)
Lemma no_underscores s : mem_char "_" s = false -> s <> ""%string ->
  (if forallb (fun part => negb (bool_decide (part = ""%string))) (split_on "_" s) then int_of (join "" (split_on "_" s)) else None) = int_of s.
Proof. intros Hm Hn. rewrite split_on_none by done. cbn. by rewrite bool_decide_eq_false_2. Qed.

Lemma py_int_digits c r n : ascii_digit c = true -> strip (String c r) = String c r -> mem_char "_" (String c r) = false -> int_of (String c r) = Some n -> py_int (String c r) = Ok n.
Proof.
  intros Hc Hs Hm Hn. unfold py_int. rewrite Hs. pose proof (no_underscores _ Hm ltac:(done)) as Hd. rewrite Hn in Hd.
  destruct c as [[] [] [] [] [] [] [] []]; try discriminate Hc; by rewrite Hd.
Qed.

Lemma py_int_negative r n : strip (String "-" r) = String "-" r -> mem_char "_" r = false -> r <> ""%string -> int_of r = Some n -> py_int (String "-" r) = Ok (- n).
Proof. intros Hs Hm Hr Hn. unfold py_int. rewrite Hs. cbv iota beta zeta. by rewrite no_underscores, Hn. Qed.

Lemma py_int_pretty (z : Z) : short_number z = true -> py_int (pretty z) = Ok z.
Proof.
  intros Hs. destruct (pretty_plain z) as (Hstrip & _ & Hu).
  assert (int_of (pretty (Z.abs_N z)) = Some (Z.abs z)) as Hint.
  { rewrite <- N2Z.inj_abs_N. apply int_of_pretty. unfold short_number in *. by replace (Z.abs_N (Z.of_N (Z.abs_N z))) with (Z.abs_N z) by lia. }
  destruct (pretty_digits (Z.abs_N z)) as (c & r & Hp & Hd & _ & _). rewrite Hp in Hint. assert (ascii_digit c = true) as Hc by by (cbn in Hd; apply andb_true_iff in Hd as [? _]).
  destruct (decide (0 <= z)) as [Hz|Hz].
  - assert (pretty z = pretty (Z.abs_N z)) as Hpz by by (destruct z; try lia). rewrite Hpz, Hp in *. apply py_int_digits; [done..|]. rewrite Hint. f_equal. lia.
  - assert (pretty z = String "-" (pretty (Z.abs_N z))) as Hpz by by (destruct z; try lia). rewrite Hpz, Hp in *. rewrite (py_int_negative _ (Z.abs z)); [f_equal; lia|done| |done|done].
    by cbn in Hu |- *.
Qed.

Lemma each_int_pretty days : Forall (fun d => short_number d = true) days -> each_int (map pretty days) = Ok days.
Proof.
  induction 1 as [|d days Hd _ IH]; [done|]. cbn [map each_int]. destruct (pretty_plain d) as (-> & _ & _). rewrite bool_decide_eq_false_2.
  - rewrite py_int_pretty by done. by rewrite IH.
  - pose proof (py_int_pretty d Hd) as H. intros He. rewrite He in H. discriminate.
Qed.

(** The days of the week a save writes are those a read finds. *)
Lemma weekdays_read_back days : Forall (fun d => short_number d = true) days -> sorted_set <$> each_int (split_on "," (weekdays_text days)) = Ok (sorted_set days).
Proof.
  intros Hd. assert (Forall (fun d => short_number d = true) (sorted_set days)) as Hs by (apply Forall_forall; intros d Hin; rewrite Forall_forall in Hd; by apply Hd, sorted_set_in).
  unfold weekdays_text. destruct (decide (sorted_set days = [])) as [->|Hne]; [done|].
  rewrite split_join; [|intros Hnil; apply Hne; by destruct (sorted_set days)|].
  - rewrite each_int_pretty by done. cbn. f_equal. apply sorted_days_eq; [apply sorted_set_sorted|apply sorted_set_sorted|]. intros d. by rewrite sorted_set_in.
  - apply Forall_forall. intros text (d & <- & _)%list_elem_of_In%in_map_iff. by destruct (pretty_plain d) as (_ & -> & _).
Qed.

Section Saved.
Context (subject : string) (named : string -> option string).

Lemma saved_others current_key row old b e : entries_ok b -> (match current_key with None => en_id row = bk_next b | Some _ => old ∈ bk_entries b /\ en_id row = en_id old /\ en_uid row = en_uid old end) ->
  en_uid e <> en_uid row -> e ∈ bk_entries (book_saved current_key row b) <-> e ∈ bk_entries b.
Proof.
  intros [_ Hi _ _ _ _] Hrow Hne. destruct current_key as [key|]; cbn [book_saved bk_entries set_bk_entries set_bk_next].
  - destruct Hrow as (Hold & Hid & Huid). rewrite elem_of_update_where. split.
    + intros (r & Hr & ->). destruct (Z.eqb_spec (en_id r) (en_id row)); [done|done].
    + intros He. exists e. split; [done|]. destruct (Z.eqb_spec (en_id e) (en_id row)) as [Heq|]; [|done]. exfalso. apply Hne.
      rewrite (unique_by en_id _ e old Hi He Hold); [done|by rewrite Heq].
  - rewrite elem_of_app, list_elem_of_singleton. split; [intros [|]; [done|by subst]|by left].
Qed.

Lemma saved_row current_key row old b : (match current_key with None => True | Some _ => old ∈ bk_entries b /\ en_id row = en_id old end) -> row ∈ bk_entries (book_saved current_key row b).
Proof.
  destruct current_key as [key|]; cbn [book_saved bk_entries set_bk_entries set_bk_next]; [|intros _; apply elem_of_app; right; by apply list_elem_of_singleton].
  intros [Hold Hid]. apply elem_of_update_where. exists old. split; [done|]. by rewrite <- Hid, Z.eqb_refl.
Qed.

Lemma read_of_row today b row : entries_ok b -> row ∈ bk_entries b -> get_entry subject today (en_uid row) b = (serialize_entry today row, b).
Proof.
  intros [_ _ Hu Hk _ _] Hin. unfold get_entry, found_entry, act, mbind, M_bind. rewrite (Hk row Hin).
  destruct (first_where_is_some (fun r => bool_decide (en_uid r = en_uid row)) (bk_entries b) row) as [x Hx]; [done|by apply bool_decide_eq_true|]. rewrite Hx.
  apply first_where_some in Hx as [Hx Heq%bool_decide_eq_true]. by rewrite (unique_by en_uid _ x row Hu Hx Hin Heq).
Qed.

End Saved.

(** * What a window asks for *)

Lemma rule_at n rule e : entry_ok e -> RULES !! n = Some rule -> rl_holds rule e = true.
Proof. intros Hok Hn. apply (eo_rules e Hok). by eapply list_elem_of_lookup_2. Qed.

Lemma span_not_negative e : entry_ok e -> 0 <= _span_days e.
Proof.
  intros Hok. pose proof (rule_at 1 _ e Hok eq_refl) as H. cbn [rl_holds] in H. unfold _span_days. destruct (en_ends_on e) as [ends|]; cbn in *; lia.
Qed.

Lemma interval_range e : entry_ok e -> 1 <= en_interval e <= 366.
Proof. intros Hok. pose proof (rule_at 4 _ e Hok eq_refl) as H. cbn [rl_holds] in H. unfold INTERVAL_MINIMUM, INTERVAL_MAXIMUM in H. lia. Qed.

(** An entry that is held together recurs. *)
Lemma entry_recurs e : entry_ok e -> exists days, recurs e days.
Proof.
  intros Hok. pose proof (interval_range e Hok). destruct Hok as [Hd Ht Htitle Hr (numbers & Hn & Hf) Hrules]. exists (days_or_start e numbers). rewrite !andb_true_iff in Hd. destruct Hd as ((Hd & _) & _).
  split; [done|]. split; [lia|]. split; [done|]. intros _. by exists numbers.
Qed.

(** Every third of the month from 3 October 2025 to 3 December, over five days each time. *)
Definition a_run : Entry := {|
  en_id := 1; en_uid := "2f6c1d7e-0000-4000-8000-000000000001"; en_title := "Away"; en_starts_on := ymd2ord 2025 10 3; en_ends_on := Some (ymd2ord 2025 10 7); en_starts_at := None;
  en_ends_at := None; en_location := ""; en_notes := ""; en_repeat := "monthly"; en_interval := 1; en_weekdays := ""; en_repeat_until := Some (ymd2ord 2025 12 3);
  en_about := ""; en_about_name := ""; en_created_at := 0; en_updated_at := 0 |}.

(** A test of what an entry is held to, where its parts can be worked out. *)
Lemma entry_ok_by e : is_day (en_starts_on e) && a_day (en_ends_on e) && a_day (en_repeat_until e) && (a_time (en_starts_at e) && a_time (en_ends_at e)) &&
  negb (bool_decide (strip (en_title e) = ""%string)) && bool_decide (en_repeat e ∈ REPEATS) &&
  match weekday_numbers e with Ok numbers => forallb (fun n => (0 <=? n) && (n <=? 6)) numbers | Raise _ => false end && forallb (fun rule => rl_holds rule e) RULES = true -> entry_ok e.
Proof.
  rewrite !andb_true_iff. intros ((((((H1 & H2) & H3) & H4) & H5) & H6) & H7). constructor; [by rewrite !andb_true_iff|by rewrite andb_true_iff|by apply negb_true_iff, bool_decide_eq_false in H4|by apply bool_decide_eq_true in H5| |].
  - destruct (weekday_numbers e) as [numbers|]; [|done]. exists numbers. split; [done|]. apply Forall_forall. intros n Hn. rewrite forallb_forall in H6. specialize (H6 n (proj1 (list_elem_of_In _ _) Hn)). lia.
  - intros rule Hin. rewrite forallb_forall in H7. by apply H7, list_elem_of_In.
Qed.

(** C32: What the query of a window leaves out: an entry with no day in it, or one that stopped repeating before the window
    though it takes several days at a time; and of those one may still be running in it, which the window then misses. *)
Theorem a_window_misses_only_runs_that_outlast_their_repeats :
  (forall entry days first last, entry_ok entry -> recurs entry days -> asked first last entry = false ->
     (forall d, falls_on entry days d = true -> d <= last -> unless (en_repeat_until entry) (fun until => d <=? until) = true -> d + _span_days entry < first) \/
     (en_repeat entry <> ""%string /\ 0 < _span_days entry /\ exists until, en_repeat_until entry = Some until /\ until < first)) /\
  (exists entry first last day, entry_ok entry /\ asked first last entry = false /\ occurrences entry first last = Ok [day] /\ day < first <= day + _span_days entry).
Proof.
  split.
  - intros entry days first last Hok Hrec Hasked. pose proof (span_not_negative entry Hok) as Hspan.
    assert (forall d, falls_on entry days d = true -> en_starts_on entry <= d) as Hge by (intros d (Hd%Z.leb_le & _)%andb_true_iff; done).
    unfold asked in Hasked. apply andb_false_iff in Hasked as [Hlate%Z.leb_gt|[Honce Hrep]%orb_false_iff].
    { left. intros d Hf Hd _. specialize (Hge d Hf). lia. }
    unfold asked_once, asked_repeating in *. case_bool_decide as Hr; cbn [negb andb] in *.
    + left. intros d Hf _ _. unfold falls_on in Hf. cbv zeta in Hf. rewrite bool_decide_eq_true_2 in Hf by done. apply andb_true_iff in Hf as [_ ->%Z.eqb_eq].
      unfold _span_days. apply Z.leb_gt in Honce. lia.
    + destruct (en_repeat_until entry) as [until|] eqn:Hu; [|done]. cbn [unless] in Hrep |- *. apply Z.leb_gt in Hrep. destruct (decide (_span_days entry = 0)) as [Hz|Hz].
      * left. intros d _ _ Hd%Z.leb_le. lia.
      * right. split; [done|]. split; [lia|]. by exists until.
  - exists a_run, (ymd2ord 2025 12 5), (ymd2ord 2025 12 31), (ymd2ord 2025 12 3). split; [apply entry_ok_by; vm_compute; reflexivity|]. split; [reflexivity|]. split; [vm_compute; reflexivity|].
    vm_compute. split; [reflexivity|discriminate].
Qed.

(** * An occurrence as an event *)

Lemma weekday_name_ok m : 0 <= m <= 6 -> weekday_name m = Ok (nth_of _WEEKDAY_NAMES m).
Proof.
  intros Hm. unfold weekday_name. rewrite (proj2 (Z.ltb_ge m 0)) by lia. by rewrite (proj2 (Z.leb_le 0 m)), (proj2 (Z.ltb_lt m 7)) by lia.
Qed.

Lemma label_ok today e : entry_ok e -> exists label, repeat_label e today = Ok label.
Proof.
  intros [_ _ _ Hr (numbers & Hn & Hf) _]. unfold repeat_label. case_bool_decide as Hnone; [by eexists|].
  assert (exists unit, unit_of (en_repeat e) = Ok unit) as [unit ->].
  { unfold REPEATS in Hr. rewrite !elem_of_cons in Hr. destruct Hr as [|[->|[->|[->|[->|[]%not_elem_of_nil]]]]]; [done|by eexists..]. }
  cbn [mbind outcome_bind]. case_bool_decide; [|by eexists]. rewrite Hn. cbn [mbind outcome_bind]. destruct numbers as [|n ns]; [by eexists|].
  enough (each_of weekday_name (n :: ns) = Ok (map (nth_of _WEEKDAY_NAMES) (n :: ns))) as -> by by eexists. apply each_of_ok. clear Hn. revert Hf. generalize (n :: ns) as l.
  induction 1 as [|m l Hm _ IH]; [constructor|]. constructor; [by apply weekday_name_ok|done].
Qed.

Lemma new_event_ok zone id title starts ends detail url : id <> ""%string -> strip title <> ""%string -> match starts with Naive _ => False | _ => True end ->
  match ends with None => True | Some ends => is_datetime ends = is_datetime starts /\ less ends starts = Ok false end ->
  exists link, new_event zone id title starts ends detail url "" false =
    Ok {| ev_id := id; ev_title := title; ev_starts := starts; ev_ends := ends; ev_detail := detail; ev_url := link; ev_state := ""; ev_mark := false |}.
Proof.
  intros Hid Ht Hs He. eexists. unfold new_event. rewrite bool_decide_eq_false_2 by done. rewrite bool_decide_eq_false_2 by done. cbn [orb]. rewrite bool_decide_eq_true_2 by (left). cbn [negb].
  destruct ends as [ends|].
  - destruct He as [Hsame Hless]. rewrite Hsame, Hless. destruct starts; [|done|]; rewrite eqb_reflx; reflexivity.
  - destruct starts; [|done|]; reflexivity.
Qed.

Lemma plus_days_ok day n : 1 <= day + n <= MAXORDINAL -> plus_days day n = Ok (day + n).
Proof. intros H. unfold plus_days, is_day. by rewrite (proj2 (Z.leb_le 1 _)), (proj2 (Z.leb_le _ MAXORDINAL)) by lia. Qed.

Lemma day_of_wall day time : 0 <= time < DAY -> date_of (day * DAY + time) = day.
Proof. intros H. unfold date_of. rewrite Z.add_comm, Z.div_add by done. rewrite Z.div_small by done. lia. Qed.

(** The end time of an entry is a time, after its start where it ends the day it starts. *)
Lemma times_in_order e starts ends : entry_ok e -> en_starts_at e = Some starts -> en_ends_at e = Some ends ->
  0 <= starts < DAY /\ 0 <= ends < DAY /\ (_span_days e = 0 -> starts < ends).
Proof.
  intros Hok Hs He. pose proof (eo_times e Hok) as Ht. pose proof (rule_at 3 _ e Hok eq_refl) as Hr. pose proof (span_not_negative e Hok) as Hspan. cbn [rl_holds] in Hr. rewrite Hs, He in *. cbn [unless a_time] in *.
  unfold a_time, unless in Ht. unfold _span_days in *. destruct (en_ends_on e) as [last|]; cbn [default id] in *; lia.
Qed.

(** An entry that is held together makes an event of each day it falls on, which the calendar takes: it starts that
    day and runs over the days the entry does, save that one with a time to start and none to end is of its first day
    alone, and one that ends at midnight ends the day before. *)
Theorem an_occurrence_is_an_event_of_its_days zone instant today entry day :
  entry_ok entry -> is_day day = true -> day + _span_days entry < MAXORDINAL ->
  exists event, occurrence zone instant today entry day = Ok event /\ ev_title event = en_title entry /\ first_day zone event = day /\
    last_day zone event = match en_starts_at entry, en_ends_at entry with
      | None, _ => day + _span_days entry
      | Some _, None => day
      | Some _, Some ends => if ends =? 0 then day + _span_days entry - 1 else day + _span_days entry
      end.
Proof.
  intros Hok Hday Hmax. pose proof (span_not_negative entry Hok) as Hspan. destruct (label_ok today entry Hok) as [label Hlabel]. unfold is_day in Hday. unfold occurrence.
  rewrite (plus_days_ok day) by lia. cbn [mbind outcome_bind]. set (last := day + _span_days entry) in *.
  assert ((en_uid entry +:+ ":" +:+ iso_day day) <> ""%string) as Hid by (destruct (en_uid entry); discriminate). pose proof (eo_title entry Hok) as Htitle.
  destruct (en_starts_at entry) as [starts|] eqn:Hs.
  - cbn [mbind outcome_bind mret outcome_ret]. rewrite Hlabel. cbn [mbind outcome_bind]. destruct (en_ends_at entry) as [ends|] eqn:He; cbn [fmap option_fmap option_map].
    + destruct (times_in_order entry starts ends Hok Hs He) as (H1 & H2 & H3). assert (day * DAY + starts < last * DAY + ends) as Hlt by (unfold last; unfold DAY, HOUR, MINUTE, SECOND in *; lia).
      match goal with |- context [new_event _ _ _ ?s ?e ?d ?u _ _] => destruct (new_event_ok zone (en_uid entry +:+ ":" +:+ iso_day day) (en_title entry) s e d u Hid Htitle) as [link ->] end; [done| |].
      { split; [done|]. cbn [less]. unfold earlier. cbn [dt_zone dt_wall]. rewrite Z.eqb_refl. f_equal. apply Z.ltb_ge. lia. }
      eexists. split; [reflexivity|]. split; [reflexivity|]. unfold first_day, last_day. cbn [ev_starts ev_ends _day]. unfold localtime. cbn [dt_zone]. rewrite Z.eqb_refl. cbn [dt_wall].
      split; [by apply day_of_wall|]. unfold earlier. cbn [dt_zone dt_wall]. rewrite Z.eqb_refl, (proj2 (Z.ltb_lt _ _) Hlt). destruct (Z.eqb_spec ends 0) as [->|Hn].
      * replace (last * DAY + 0 - 1) with ((last - 1) * DAY + (DAY - 1)) by lia. apply day_of_wall. unfold DAY, HOUR, MINUTE, SECOND. lia.
      * replace (last * DAY + ends - 1) with (last * DAY + (ends - 1)) by lia. apply day_of_wall. lia.
    + match goal with |- context [new_event _ _ _ ?s ?e ?d ?u _ _] => destruct (new_event_ok zone (en_uid entry +:+ ":" +:+ iso_day day) (en_title entry) s e d u Hid Htitle) as [link ->] end; [done..|].
      eexists. split; [reflexivity|]. split; [reflexivity|]. unfold last_day, first_day. cbn [ev_starts ev_ends _day]. unfold localtime. cbn [dt_zone]. rewrite Z.eqb_refl. cbn [dt_wall].
      pose proof (eo_times entry Hok) as Ht. rewrite Hs in Ht. unfold a_time, unless in Ht. rewrite day_of_wall by lia. done.
  - destruct (Z.ltb_spec day last) as [Hlt|Hge].
    + rewrite (plus_days_ok last) by lia. cbn [mbind outcome_bind mret outcome_ret]. rewrite Hlabel. cbn [mbind outcome_bind].
      match goal with |- context [new_event _ _ _ ?s ?e ?d ?u _ _] => destruct (new_event_ok zone (en_uid entry +:+ ":" +:+ iso_day day) (en_title entry) s e d u Hid Htitle) as [link ->] end; [done| |].
      { split; [done|]. cbn [less]. f_equal. apply Z.ltb_ge. lia. }
      eexists. split; [reflexivity|]. split; [reflexivity|]. unfold last_day, first_day. cbn [ev_starts ev_ends _day]. split; [done|]. lia.
    + cbn [mbind outcome_bind mret outcome_ret]. rewrite Hlabel. cbn [mbind outcome_bind].
      match goal with |- context [new_event _ _ _ ?s ?e ?d ?u _ _] => destruct (new_event_ok zone (en_uid entry +:+ ":" +:+ iso_day day) (en_title entry) s e d u Hid Htitle) as [link ->] end; [done..|].
      eexists. split; [reflexivity|]. split; [reflexivity|]. unfold last_day, first_day. cbn [ev_starts ev_ends _day]. split; [done|]. unfold last in *. lia.
Qed.

(** * At work *)

Definition demo_uid : string := "2f6c1d7e-0000-4000-8000-000000000002".
Definition cli : Principal := cli_principal demo_deployment.
Definition demo_book : Book := mk_Book empty_db [a_run] [] 2.

(** The bins go out every other Tuesday and Thursday. *)
Definition bins : EntryCommand := {|
  ec_title := " Bins "; ec_starts_on := ymd2ord 2025 10 2; ec_ends_on := None; ec_starts_at := Some (7 * HOUR); ec_ends_at := Some (7 * HOUR + 30 * MINUTE); ec_location := "Front";
  ec_notes := ""; ec_repeat := "weekly"; ec_interval := 2; ec_weekdays := [3; 1; 3]; ec_repeat_until := None; ec_about := "" |}.

Definition save_bins : M exn Book dict := save_entry "The event" (fun _ => None) 5 739526 demo_uid bins cli None None None.

Definition saved_said (o : outcome exn dict) : option (list (option json)) :=
  match o with
  | Ok answer => match dget "entry" answer with Some (JObj record) => Some (map (fun field => dget field record) ["title"; "weekdays"; "repeat_label"; "starts_at"; "url"]%string) | _ => None end
  | Raise _ => None
  end.

Example bins_saved : saved_said (save_bins demo_book).1 = Some [Some (JStr "Bins"); Some (JList [JNum 1; JNum 3]); Some (JStr "Every 2 weeks on Tue, Thu"); Some (JStr "07:00");
  Some (JStr "/calendar/?day=2025-10-02&entry=2f6c1d7e-0000-4000-8000-000000000002")]%string.
Proof. vm_compute. reflexivity. Qed.

(** What is wrong with a command is said field by field. *)
Definition wrong : EntryCommand := {|
  ec_title := " "; ec_starts_on := 10; ec_ends_on := Some 9; ec_starts_at := None; ec_ends_at := Some 5; ec_location := ""; ec_notes := ""; ec_repeat := "";
  ec_interval := 0; ec_weekdays := [9]; ec_repeat_until := Some 5; ec_about := "asset:none" |}.

Example wrong_refused : match (save_entry "The event" (fun _ => None) 5 739526 demo_uid wrong cli None None None demo_book).1 with
  | Raise (DjangoValidationError _ (JObj details)) => details = [("title", JList [JStr "blank"]); ("about", JList [JStr "invalid"]); ("weekdays", JList [JStr "invalid"]); ("ends_on", JList [JStr "invalid"]);
      ("ends_at", JList [JStr "invalid"]); ("interval", JList [JStr "invalid"]); ("repeat_until", JList [JStr "invalid"; JStr "invalid"])]%string
  | _ => False
  end.
Proof. vm_compute. reflexivity. Qed.

Lemma demo_book_ok : entries_ok demo_book.
Proof.
  constructor; cbn [demo_book bk_entries bk_next]; [| | | | |lia].
  - intros e ->%list_elem_of_singleton. apply entry_ok_by. vm_compute. reflexivity.
  - apply NoDup_singleton.
  - apply NoDup_singleton.
  - intros e ->%list_elem_of_singleton. vm_compute. reflexivity.
  - intros e ->%list_elem_of_singleton. cbn. lia.
Qed.

Lemma calendar_calls_keep_entries_whole_witness :
  let call := SaveEntry 5 739526 demo_uid bins cli None None None in
  typed_call call = true /\ entries_ok (run_call "The event" (fun _ => None) some_zone (fun wall => wall) call demo_book).2.
Proof.
  split; [vm_compute; reflexivity|]. apply calendar_calls_keep_entries_whole; [exact demo_book_ok|vm_compute; reflexivity].
Defined.


(** A start time and no end time: on the calendar, the first of its five days. *)
Definition a_timed_run : Entry := {|
  en_id := 1; en_uid := "2f6c1d7e-0000-4000-8000-000000000001"; en_title := "Away"; en_starts_on := ymd2ord 2025 10 3; en_ends_on := Some (ymd2ord 2025 10 7);
  en_starts_at := Some (9 * HOUR); en_ends_at := None; en_location := ""; en_notes := ""; en_repeat := ""; en_interval := 1; en_weekdays := ""; en_repeat_until := None;
  en_about := ""; en_about_name := ""; en_created_at := 0; en_updated_at := 0 |}.

Lemma an_occurrence_is_an_event_of_its_days_witness :
  _span_days a_timed_run = 4 /\
  exists event, occurrence some_zone (fun wall => wall + 5 * HOUR) 739526 a_timed_run (ymd2ord 2025 10 3) = Ok event /\ last_day some_zone event = ymd2ord 2025 10 3.
Proof.
  split; [reflexivity|].
  destruct (an_occurrence_is_an_event_of_its_days some_zone (fun wall => wall + 5 * HOUR) 739526 a_timed_run (ymd2ord 2025 10 3)) as (event & Ho & _ & _ & Hlast).
  - apply entry_ok_by. vm_compute. reflexivity.
  - reflexivity.
  - vm_compute. reflexivity.
  - exists event. split; [exact Ho|exact Hlast].
Defined.
