(* ===== verification/Sessions.v ===== *)
(** Ending sessions (application/sessions.py) and the identity provider's back-channel logout (core/oidc_logout.py):
    a logout token, from its signature to the sessions it ends, through the capability that ends them. *)
From stdpp Require Import base gmap strings list pretty.
From Stdlib Require Import Ascii ZArith Lia.
From S2P Require Import Prelude PyStr Json Refusals Security Models Specs Policy Idempotency Denials Approvals Capabilities Tokens.

#[local] Open Scope string_scope.

(** Where Django's session says whose it is. *)
Definition SESSION_KEY := "_auth_user_id".
Definition SIGN_OUT := "session.sign_out".

Definition live (now : Z) (session : Session) : bool := (now <? sn_expires session)%Z.

(** [str(session.get_decoded().get(SESSION_KEY, ""))] *)
Definition session_person (session : Session) : string :=
  match dget SESSION_KEY (sn_data session) with Some v => py_str v | None => "" end.

(** A live session of the person with this key. *)
Definition theirs (now : Z) (pk : Z) (session : Session) : bool :=
  live now session && bool_decide (session_person session = pretty pk).

(** [Session.objects.filter(session_key__in=keys).delete()] *)
Definition delete_sessions (keys : list string) : M exn Db unit :=
  modify (fun db => set_db_sessions (delete_where (fun s => among (sn_key s) keys) (db_sessions db)) db).

(** [end_sessions(user, reason=...)] *)
Definition end_sessions (now : Z) (user : User) (reason : string) : M exn Db nat :=
  atomic (
    found ← gets (fun db => map sn_key (rows_where (theirs now (us_pk user)) (db_sessions db)));
    _ ← delete_sessions found;
    _ ← record_event true now (mkEvent LOGOUT "User" (pretty (us_pk user)) ""
          (us_username user +:+ " signed out of " +:+ counted (length found) "session" "sessions" +:+ ": " +:+ reason)
          [("sessions", JNum (Z.of_nat (length found)))] (Some (us_pk user)));
    mret (length found)).

Section SignOut.
(** The provider, what hashes a subject, and the deployment with what pydantic answers of the command. *)
Context (provider : IdentityProvider) (host : Site) (validate : dict -> outcome exn json).

Definition key_of_subject (subject : string) : string := sign_in_subject (h_sha256 host) (pv_issuer provider) (strip subject).

(** [sign_out(command, principal=...)] *)
Definition sign_out (call : Call) : M exn Db dict :=
  found ← gets (user_of_key (key_of_subject (attr_str "subject" (cl_command call))));
  match found with
  | None => mret [("ok", JBool true); ("sessions", JNum 0)]
  | Some user =>
      ended ← end_sessions (cl_now call) user "the identity provider signed them out";
      mret [("ok", JBool true); ("sessions", JNum (Z.of_nat ended))]
  end.

(** The capability as it is registered. *)
Definition sign_out_spec : CapabilitySpec := mkCapabilitySpec SIGN_OUT "Sign a person out" "remote_write" [END_SESSIONS]
  "" "" ["subject"] false false false None validate sign_out.

(** * The logout token *)

Definition LOGOUT_TOKEN_TYPES : list string := ["logout+jwt"].
Definition LOGOUT_EVENT := "http://schemas.openid.net/event/backchannel-logout".

(** What a logout token holds beside what [decode] asks of every token: its subject and its retry key. *)
Definition logout_claims (claims : dict) : option (string * string) :=
  match dget "events" claims with
  | Some (JObj events) =>
      if negb (dhas LOGOUT_EVENT events) || dhas "nonce" claims then None
      else match dget "sub" claims, dget "jti" claims with
           | Some (JStr subject), Some (JStr jti) =>
               if bool_decide (strip subject = "") || bool_decide (jti = "") then None else Some (strip subject, jti)
           | _, _ => None
           end
  | _ => None
  end.

(** The keys the process holds and the tables. *)
Record Post : Type := mkPost { po_keys : SigningKeys; po_db : Db }.

Definition with_keys {A} (m : M exn SigningKeys A) : M exn Post A := fun s => let '(o, keys) := m (po_keys s) in (o, mkPost keys (po_db s)).
Definition with_tables {A} (m : M exn Db A) : M exn Post A := fun s => let '(o, db) := m (po_db s) in (o, mkPost (po_keys s) db).

(** [(ran.answer.get("error") or {}).get("code")] *)
Definition error_code (answer : dict) : string :=
  match dget "error" answer with Some (JObj e) => str_or_blank (dget "code" e) | _ => "" end.

Definition NOT_TAKEN : Z * string := (400%Z, "The logout token was not accepted.").

(** The client HQ is at the provider, [OIDC_RP_CLIENT_ID]. *)
Variable client_id : string.

(** [tokens.decode(token, tokens.signing_key(token), ...)], with what a refusal of it answers. *)
Definition decoded_logout (now : Z) (token : string) : M exn Post (option dict) :=
  try (key ← with_keys (signing_key provider token);
       claims ← lift (decode provider now token key client_id LOGOUT_TOKEN_TYPES);
       mret (Some claims))
    (fun e => match e with TokenError _ => Some (mret None) | _ => None end).

(** [backchannel_logout(request)]: its status and body. *)
Definition backchannel_logout (now : Z) (token : string) : M exn Post (Z * string) :=
  claims ← decoded_logout now token;
  match claims ≫= logout_claims with
  | None => mret NOT_TAKEN
  | Some (subject, jti) =>
      ran ← with_tables (run_capability host now SIGN_OUT [("subject", JStr subject)]
              (internal_principal (h_deployment host) "oidc-backchannel-logout") None None (Some jti));
      if ran_ok (rn_answer ran) then mret (200%Z, "")
      else if among (error_code (rn_answer ran)) ["invalid_idempotency_key"; "idempotency_conflict"] then mret NOT_TAKEN
      else mret (500%Z, "The logout could not be completed.")
  end.

(** * What ending sessions ends *)

(** A session by its key is one session. *)
Definition sessions_keyed (db : Db) : Prop := NoDup (map sn_key (db_sessions db)).

Lemma keyed_inj {A B} (f : A -> B) (l : list A) x y : NoDup (map f l) -> x ∈ l -> y ∈ l -> f x = f y -> x = y.
Proof.
  induction l as [|z l IH]; cbn; intros Hnd Hx Hy Hf; [by apply elem_of_nil in Hx|]. apply NoDup_cons in Hnd as [Hz Hnd].
  apply elem_of_cons in Hx as [->|Hx], Hy as [->|Hy]; [done|..|by apply IH]; destruct Hz; apply list_elem_of_fmap; eauto.
Qed.

Lemma delete_found (rows : list Session) (p : Session -> bool) : NoDup (map sn_key rows) ->
  delete_where (fun s => among (sn_key s) (map sn_key (rows_where p rows))) rows = delete_where p rows.
Proof.
  intros Hnd. unfold delete_where. apply filter_ext_in. intros s Hs%list_elem_of_In. f_equal.
  apply eq_true_iff_eq. rewrite among_spec, list_elem_of_fmap. setoid_rewrite elem_of_rows_where. split.
  - intros (t & Hk & Ht & Hp). by rewrite (keyed_inj sn_key rows s t).
  - intros Hp. by exists s.
Qed.

(** The sessions left once a person is signed out. *)
Definition rows_without (now : Z) (user : User) (db : Db) : list Session := delete_where (theirs now (us_pk user)) (db_sessions db).

Lemma end_sessions_inv now user reason db o db' : sessions_keyed db -> end_sessions now user reason db = (o, db') ->
  ((exists e, o = Raise e) /\ db' = db) \/
  (o = Ok (length (rows_where (theirs now (us_pk user)) (db_sessions db))) /\ db_sessions db' = rows_without now user db /\
   db_retry_keys db' = db_retry_keys db /\ exists row, db_audit db' = (db_audit db ++ [row])%list /\ al_action row = LOGOUT /\ al_user row = Some (us_pk user)).
Proof.
  intros Hk H. unfold end_sessions, delete_sessions in H. run; [|left; by split; [eexists|]..]. right.
  unfold record_event in *. cbn in *. destruct (db_audit_down db); simplify_eq/=. rewrite length_map. split; [done|].
  split; [by apply delete_found|]. split; [done|]. by eexists.
Qed.

(** What the handler does, by whether anyone signed in under the subject. *)
Lemma sign_out_inv call db o db' : sessions_keyed db -> sign_out call db = (o, db') ->
  let key := key_of_subject (attr_str "subject" (cl_command call)) in
  ((exists e, o = Raise e) /\ db' = db) \/
  (user_of_key key db = None /\ o = Ok [("ok", JBool true); ("sessions", JNum 0)] /\ db' = db) \/
  (exists user n, user_of_key key db = Some user /\ o = Ok [("ok", JBool true); ("sessions", JNum n)] /\
     db_sessions db' = rows_without (cl_now call) user db /\ db_retry_keys db' = db_retry_keys db /\
     exists row, db_audit db' = (db_audit db ++ [row])%list /\ al_action row = LOGOUT /\ al_user row = Some (us_pk user)).
Proof.
  intros Hk H key. unfold sign_out in H. apply bind_inv in H as [(found & s & Hf & H)|(e & Hf & _)]; [|done].
  apply gets_inv in Hf as [[= ->] ->]. fold key in H. destruct (user_of_key key db) as [user|]; [|right; left; by injection H as <- <-].
  apply bind_inv in H as [(n & s & He & H)|(e & He & ->)]; apply end_sessions_inv in He as [[[e' ?] ->]|(He & ? & ? & ?)]; simplify_eq; try done.
  - injection H as <- <-. right. right. by eexists _, _.
  - left. by split; [eexists|].
Qed.

Lemma sign_out_leaves_key call k : leaves_key k (sign_out call).
Proof.
  intros db. unfold sign_out, end_sessions, delete_sessions, record_event, atomic, mbind, M_bind, gets, modify.
  destruct (user_of_key _ db) as [user|]; [|done]. cbn. by destruct (db_audit_down db).
Qed.

(** * The capability a logout runs *)

(** The call a logout makes: the validated command of its subject, by HQ itself. *)
Definition itself : Principal := internal_principal (h_deployment host) "oidc-backchannel-logout".
Definition logout_payload (subject : string) : dict := [("subject", JStr subject)].

Hypothesis registered_here : registered host SIGN_OUT = Some sign_out_spec.
Hypothesis reads_subject : forall subject, validate (logout_payload subject) = Ok (JObj (logout_payload subject)).

Lemma itself_may_end : require_all itself [END_SESSIONS] = None.
Proof.
  apply require_all_none. intros name ->%list_elem_of_singleton. split_and!.
  - intros H. repeat (apply elem_of_cons in H as [?|H]; [done|]). by apply elem_of_nil in H.
  - apply not_elem_of_empty.
  - cbn. unfold operator_capabilities, host_capabilities. rewrite !elem_of_union, elem_of_list_to_set. do 3 left. by apply (bool_decide_unpack _).
  - reflexivity.
Qed.

(** What the call comes to where its key is one: the handler, once under the key. *)
Definition logout_run (now : Z) (subject : string) : M exn Db dict :=
  run_handler now sign_out_spec (JObj (logout_payload subject)) itself None None (keys (logout_payload subject)).

Lemma run_logout now subject jti db : key_matches jti = true ->
  authorized_run host now sign_out_spec (logout_payload subject) itself None None (Some jti) db =
  once host now sign_out_spec jti (call_envelope (logout_payload subject) None None) (logout_run now subject) (agent_subject itself) db.
Proof.
  intros Hj. assert (jti <> "") as Hne by (by intros ->). unfold authorized_run, authorize_capability. change (sp_required_capabilities sign_out_spec) with [END_SESSIONS]. rewrite itself_may_end.
  rewrite (bind_step _ _ _ tt db) by done. cbn [target_refusal sp_target_kind sign_out_spec].
  assert (retry_key host sign_out_spec (logout_payload subject) (Some jti) db = (Ok (jti, logout_payload subject), db)) as Hk.
  { unfold retry_key. cbn. unfold validate_key. rewrite Hj. by destruct jti. }
  change (target_refusal host sign_out_spec None None) with (@None dict). cbv iota. rewrite (bind_step _ _ _ _ _ Hk).
  rewrite bool_decide_eq_false_2 by done. cbn [andb].
  rewrite (bind_step _ _ _ (JObj (logout_payload subject)) db) by (unfold validate_command, lift; cbn; by rewrite reads_subject).
  rewrite (bind_step _ _ _ (None, itself) db) by done. by rewrite decide_False by done.
Qed.

Lemma run_logout_bad_key now subject jti db : key_matches jti = false -> jti <> "" ->
  run_capability host now SIGN_OUT (logout_payload subject) itself None None (Some jti) db =
  (Ok (ran_refusal "invalid_idempotency_key" KEY_SHAPE JNull), db).
Proof.
  intros Hj Hne. unfold run_capability. rewrite registered_here. unfold try, authorized_run, authorize_capability. change (sp_required_capabilities sign_out_spec) with [END_SESSIONS]. rewrite itself_may_end.
  rewrite (bind_step _ _ _ tt db) by done. change (target_refusal host sign_out_spec None None) with (@None dict). cbv iota.
  rewrite (bind_stop _ _ _ (InvalidIdempotencyKey KEY_SHAPE) db); [done|].
  unfold retry_key. cbn. unfold validate_key. rewrite Hj. destruct jti; done.
Qed.

(** The log says a person's sessions were ended. *)
Definition logged_out (user : User) (db db' : Db) : Prop :=
  exists row, db_audit db' = (db_audit db ++ [row])%list /\ al_action row = LOGOUT /\ al_user row = Some (us_pk user).

(** What a logout that is acted on leaves: nobody's sessions touched but the person's, where there is one. *)
Definition acted_on (now : Z) (subject : string) (db db' : Db) : Prop :=
  match user_of_key (key_of_subject subject) db with
  | Some user => db_sessions db' = rows_without now user db /\ logged_out user db db'
  | None => db_sessions db' = db_sessions db
  end.

Lemma logout_run_inv now subject db o db' : sessions_keyed db -> logout_run now subject db = (o, db') ->
  ((exists e, o = Raise e) /\ db' = db) \/
  (exists r, o = Ok r /\ ran_ok r = true /\ is_held r = false /\ acted_on now subject db db').
Proof.
  intros Hk H. unfold logout_run, run_handler in H. rewrite (bind_step _ _ _ None db) in H by done.
  apply bind_inv in H as [(r & s & Hs & H)|(e & Hs & ->)];
    apply sign_out_inv in Hs; try done;
    change (key_of_subject (attr_str "subject" (cl_command _))) with (key_of_subject subject) in Hs.
  2: { left. destruct Hs as [[? ->]|[(_ & ? & _)|(? & ? & _ & ? & _)]]; [by split; [eexists|]|done..]. }
  right. unfold acted_on.
  destruct Hs as [[[e ?] _]|[(Hn & [= ->] & ->)|(user & n & Hu & [= ->] & Hrows & _ & Hlog)]]; [done|rewrite Hn|rewrite Hu];
    cbn in H; injection H as <- <-; eexists; by split_and!.
Qed.

Lemma logout_run_leaves_key now subject k : leaves_key k (logout_run now subject).
Proof. apply run_handler_leaves_key. intros call. apply sign_out_leaves_key. Qed.

Lemma adapter_refusal_sessions now name e p db : exists d,
  adapter_refusal host now name e p db = (Ok d, (adapter_refusal host now name e p db).2) /\
  d = fields (answer (mapped e name)) /\
  db_sessions (adapter_refusal host now name e p db).2 = db_sessions db.
Proof.
  eexists. unfold adapter_refusal. destruct p as [p|]; [|done]. destruct (_ || _); [|done].
  unfold record_denial, try, record_event, mbind, M_bind. cbn. by destruct (db_audit_down db).
Qed.

(** A call that raised is answered by what it raised, and ends nothing. *)
Lemma logout_raised now e db : exists ran db',
  (match e with
   | InvalidIdempotencyKey reason => mret (ran_refusal "invalid_idempotency_key" reason JNull)
   | _ => refused ← adapter_refusal host now SIGN_OUT e (Some itself); mret (mkRan refused false)
   end : M exn Db Ran) db = (Ok ran, db') /\ db_sessions db' = db_sessions db /\ ran_ok (rn_answer ran) = false.
Proof.
  destruct (adapter_refusal_sessions now SIGN_OUT e (Some itself) db) as (d & Hd & Hans & Hs).
  assert (ran_ok d = false) as Hok by by rewrite Hans.
  destruct e; try (eexists _, _; split; [reflexivity|by split]);
    eexists _, _; (split; [by rewrite (bind_step _ _ _ _ _ Hd)|by split]).
Qed.

(** The capability by its answer: it ends the sessions of the person it names where its key is new, and no sessions otherwise. *)
Lemma logout_capability now subject jti db : sessions_keyed db -> jti <> "" ->
  exists ran db', run_capability host now SIGN_OUT (logout_payload subject) itself None None (Some jti) db = (Ok ran, db') /\
    ((rn_replayed ran = false /\ ran_ok (rn_answer ran) = true /\ acted_on now subject db db') \/
     (db_sessions db' = db_sessions db /\ (ran_ok (rn_answer ran) = true -> rn_replayed ran = true))).
Proof.
  intros Hk Hne. destruct (key_matches jti) eqn:Hj; [|eexists _, _; split; [by apply run_logout_bad_key|by right]].
  unfold run_capability. rewrite registered_here. unfold try at 1. rewrite run_logout by done.
  destruct (once host now sign_out_spec jti _ _ _ db) as [o db1] eqn:H. 
  unfold once in H. apply try_inv in H as [(ran & H & ->)|(e & s0 & H & Hh)].
  - eexists _, _. split; [done|].
    apply bind_inv in H as [([answer replayed] & s1 & H & Hret)|(e & _ & ?)]; [|done]. injection Hret as <- ->. cbn [rn_answer rn_replayed].
    destruct (db_retry_keys (purge now db) !! (actor_sha256 (h_sha256 host) (agent_subject itself), jti)) as [record|] eqn:Hrec.
    + rewrite (execute_once_known _ _ _ _ _ _ _ _ record Hrec) in H. right. case_bool_decide; [|done].
      destruct (ir_response record) as [[]|]; simplify_eq; by split.
    + apply execute_once_fresh in H as [(e & _ & ? & _)|[(r & Hr & [= <- ->] & Hok & ->)|(r & Hr & [= <- ->] & Hok & ->)]];
        [done|..|done|apply logout_run_leaves_key];
        match type of Hr with (?run ?db0).1 = _ => destruct (run db0) as [o' db2] eqn:Hrun; cbn [fst snd] in Hr; subst o';
          apply logout_run_inv in Hrun as [[[? ?] _]|(r' & [= <-] & Hok' & _ & Hacted)]; [done| |done] end; [congruence|].
      left. by split_and!.
  - assert (s0 = db) as -> by (unfold execute_once in H; apply bind_inv in H as [(? & ? & H & ?)|(? & H & ?)]; [done|by apply atomic_raise in H]).
    assert ((o = Raise e /\ db1 = db) \/ exists reason, o = Ok (ran_refusal "idempotency_conflict" reason JNull) /\ db1 = db) as [[-> ->]|(reason & -> & ->)].
    { destruct e; try (destruct Hh as [-> ->]; by left). injection Hh as <- <-. right. by eexists. }
    + destruct (logout_raised now e db) as (ran & db' & Hran & Hs & Hok). exists ran, db'. split; [exact Hran|]. right. by rewrite Hok.
    + eexists _, _. split; [reflexivity|]. right. by split.
Qed.

Lemma logout_run_up now subject db : db_audit_down db = false -> exists r db', logout_run now subject db = (Ok r, db').
Proof.
  intros Hup. unfold logout_run, run_handler. setoid_rewrite (bind_step _ _ _ None db); [|done].
  cbn. unfold sign_out, end_sessions, delete_sessions, record_event, atomic, mbind, M_bind, gets, modify. cbn.
  destruct (user_of_key _ db); cbn; [rewrite Hup|]; eexists _, _; reflexivity.
Qed.

(** A first delivery where the log can be written ends the sessions, and a second under the same key nothing more. *)
Lemma logout_delivered_twice now now' subject jti db : sessions_keyed db -> key_matches jti = true -> db_audit_down db = false ->
  db_retry_keys (purge now db) !! (h_sha256 host (agent_subject itself), jti) = None ->
  (now <= now' < now + h_idempotency_ttl_seconds host * SECOND)%Z ->
  exists r db', run_capability host now SIGN_OUT (logout_payload subject) itself None None (Some jti) db = (Ok (mkRan r false), db') /\
    ran_ok r = true /\ acted_on now subject db db' /\
    forall begun, run_capability host now' SIGN_OUT (logout_payload subject) itself None None (Some jti) (set_db_sessions begun db') =
      (Ok (mkRan r true), purge now' (set_db_sessions begun db')).
Proof.
  intros Hk Hj Hup Hnone Hnow. unfold run_capability. rewrite registered_here. unfold try.
  destruct (execute_once (h_sha256 host) (h_idempotency_ttl_seconds host) now (agent_subject itself) jti
    (request_fingerprint (h_sha256 host) SIGN_OUT (call_envelope (logout_payload subject) None None)) (logout_run now subject) db) as [o db'] eqn:H.
  pose proof H as Hfresh. apply execute_once_fresh in Hfresh; [|done|apply logout_run_leaves_key].
  set (k := (actor_sha256 (h_sha256 host) (agent_subject itself), jti)) in *.
  set (db0 := set_db_retry_keys (<[k := _]> _) _) in Hfresh. cbn zeta in Hfresh.
  destruct (logout_run now subject db0) as [o' db2] eqn:Hrun. assert (Hrun' := Hrun). apply logout_run_inv in Hrun as [[[e ->] _]|(r & -> & Hok & _ & Hacted)]; [|..|done].
  - exfalso. by destruct (logout_run_up now subject db0 Hup) as (? & ? & ?); congruence.
  - cbn [fst snd] in Hfresh. destruct Hfresh as [(? & ? & _)|[(? & [= <-] & _ & ? & _)|(r' & [= <-] & -> & _ & ->)]]; [done|congruence|].
    eexists r, _. rewrite run_logout by done. unfold once, try. rewrite (bind_step _ _ _ _ _ H). split; [reflexivity|]. split_and!; [done..|].
    intros begun. rewrite run_logout by done. unfold once, try.
    match goal with |- context [<[_ := ?record]> _] => set (kept := record) end.
    match goal with |- context [set_db_sessions begun ?d] => set (later := set_db_sessions begun d) end.
    rewrite (bind_step _ _ _ (r, true) (purge now' later)); [done|]. rewrite (execute_once_known _ _ _ _ _ _ _ _ kept).
    + cbn. by rewrite bool_decide_eq_true_2.
    + apply purge_lookup. cbn. rewrite lookup_insert_eq. split; [done|]. cbn. lia.
Qed.

(** * What a logout token does *)

Lemma decoded_logout_cases now token keys db : exists found keys', decoded_logout now token (mkPost keys db) = (Ok found, mkPost keys' db) /\
  forall claims, found = Some claims -> keys' = keys /\
    exists kid key, sk_held keys !! kid = Some key /\ decode provider now token key client_id LOGOUT_TOKEN_TYPES = Ok claims.
Proof.
  unfold decoded_logout, try, with_keys, signing_key, find_key, lift, mbind, M_bind, decode, header. cbn.
  destruct (pv_header provider token) as [h|]; [|by eexists _, _]. destruct (sk_held keys !! _) as [key|] eqn:Hkey; [|by eexists _, _].
  destruct (bool_decide (client_id = "") || _); [by eexists _, _|]. destruct (negb _); [by eexists _, _|].
  destruct (pv_decode _ _ _ _ _ _) as [claims|] eqn:Hd; [|by eexists _, _]. eexists _, _. split; [done|]. intros ? [= <-]. split; [done|].
  eexists _, key. split; [done|]. by rewrite Hd.
Qed.

(** What makes the claims of a token a logout's. *)
Lemma logout_claims_inv claims subject jti : logout_claims claims = Some (subject, jti) -> exists events sent,
  dget "events" claims = Some (JObj events) /\ dhas LOGOUT_EVENT events = true /\ dhas "nonce" claims = false /\
  dget "sub" claims = Some (JStr sent) /\ subject = strip sent /\ jti <> "".
Proof.
  unfold logout_claims. destruct (dget "events" claims) as [[]|]; try done. match goal with |- context [if ?b then _ else _] => destruct b eqn:Hev end; [done|].
  destruct (dget "sub" claims) as [[]|]; try done. destruct (dget "jti" claims) as [[]|]; try done.
  destruct (bool_decide _ || bool_decide _) eqn:H; [done|]. intros [= <- <-]. apply orb_false_iff in H as [_ ?%bool_decide_eq_false].
  apply orb_false_iff in Hev as [?%negb_false_iff ?]. by eexists _, _.
Qed.

Lemma theirs_false now pk session : theirs now pk session = false <-> ~ ((now < sn_expires session)%Z /\ session_person session = pretty pk).
Proof. unfold theirs, live. by rewrite <- not_true_iff_false, andb_true_iff, Z.ltb_lt, bool_decide_eq_true. Qed.

(** C7: Whatever is posted to the logout address, it answers, and a session is ended only by a token the provider signed with a
    key HQ holds, for HQ, that is a logout token and names the person whose session it is: then that person's live
    sessions go, no one else's do, and the log says so. *)
Theorem a_logout_ends_no_one_elses_sessions (now : Z) (token : string) (keys : SigningKeys) (db : Db) :
  sessions_keyed db ->
  exists answer keys' db', backchannel_logout now token (mkPost keys db) = (Ok answer, mkPost keys' db') /\
    (db_sessions db' = db_sessions db \/
     exists kid key claims events subject user,
       sk_held keys !! kid = Some key /\ decode provider now token key client_id LOGOUT_TOKEN_TYPES = Ok claims /\
       dget "events" claims = Some (JObj events) /\ dhas LOGOUT_EVENT events = true /\ dhas "nonce" claims = false /\
       dget "sub" claims = Some (JStr subject) /\ user_of_key (key_of_subject (strip subject)) db = Some user /\
       answer = (200%Z, "") /\ logged_out user db db' /\
       forall session, session ∈ db_sessions db' <->
         session ∈ db_sessions db /\ ~ ((now < sn_expires session)%Z /\ session_person session = pretty (us_pk user))).
Proof.
  intros Hk. unfold backchannel_logout. destruct (decoded_logout_cases now token keys db) as (found & keys' & Hd & Hfound).
  rewrite (bind_step _ _ _ _ _ Hd). destruct found as [claims|]; cbn [mbind option_bind]; [|eexists _, _, _; split; [done|by left]].
  destruct (logout_claims claims) as [[subject jti]|] eqn:Hc; [|eexists _, _, _; split; [done|by left]].
  assert (jti <> "") as Hjti by by apply logout_claims_inv in Hc as (? & ? & _ & _ & _ & _ & _ & ?).
  destruct (logout_capability now subject jti db Hk Hjti) as (ran & db' & Hran & Hwhat).
  rewrite (bind_step _ _ _ ran (mkPost keys' db')) by (unfold with_tables; cbn; unfold itself, logout_payload in Hran; by rewrite Hran).
  destruct (Hfound claims eq_refl) as (-> & kid & key & Hkey & Hdec).
  destruct Hwhat as [(_ & Hok & Hacted)|[Hs _]].
  - rewrite Hok. eexists _, _, _. split; [done|]. unfold acted_on in Hacted.
    destruct (user_of_key _ db) as [user|] eqn:Hu; [right|by left]. destruct Hacted as [Hs Hlog].
    apply logout_claims_inv in Hc as (events & sent & He & Hev & Hno & Hsub & -> & _).
    exists kid, key, claims, events, sent, user. split_and!; try done. intros session. rewrite Hs. unfold rows_without. by rewrite elem_of_delete_where, theirs_false.
  - destruct (ran_ok _); [|destruct (among _ _)]; eexists _, _, _; (split; [done|by left]).
Qed.

(** C8: A logout token signs its person out: on its first delivery every live session of theirs is ended and every other kept,
    and delivered again within the life of its retry key it is answered the same and ends nothing, not even a session
    they have begun since. *)
Theorem a_logout_token_signs_its_person_out (now now' : Z) (token subject jti kid key : string) (h claims : dict) (keys : SigningKeys) (db : Db) :
  sessions_keyed db -> db_audit_down db = false ->
  pv_header provider token = Some h -> kid = str_or_blank (dget "kid" h) -> sk_held keys !! kid = Some key ->
  decode provider now token key client_id LOGOUT_TOKEN_TYPES = Ok claims ->
  decode provider now' token key client_id LOGOUT_TOKEN_TYPES = Ok claims ->
  logout_claims claims = Some (subject, jti) -> key_matches jti = true ->
  db_retry_keys (purge now db) !! (h_sha256 host (agent_subject itself), jti) = None ->
  (now <= now' < now + h_idempotency_ttl_seconds host * SECOND)%Z ->
  exists db', backchannel_logout now token (mkPost keys db) = (Ok (200%Z, ""), mkPost keys db') /\
    (forall session, session ∈ db_sessions db' <-> session ∈ db_sessions db /\
       forall user, user_of_key (key_of_subject subject) db = Some user -> ~ ((now < sn_expires session)%Z /\ session_person session = pretty (us_pk user))) /\
    forall begun, exists db'', backchannel_logout now' token (mkPost keys (set_db_sessions begun db')) = (Ok (200%Z, ""), mkPost keys db'') /\
      db_sessions db'' = begun.
Proof.
  intros Hk Hup Hh -> Hkey Hdec Hdec' Hc Hj Hnone Hnow.
  assert (forall t dbx, decode provider t token key client_id LOGOUT_TOKEN_TYPES = Ok claims ->
    decoded_logout t token (mkPost keys dbx) = (Ok (Some claims), mkPost keys dbx)) as Hd.
  { intros t dbx Ht. unfold decoded_logout, try, with_keys, signing_key, find_key, header, lift, mbind, M_bind. cbn. by rewrite Hh, Hkey, Ht. }
  destruct (logout_delivered_twice now now' subject jti db Hk Hj Hup Hnone Hnow) as (r & db' & Hrun & Hok & Hacted & Hagain).
  assert (forall t dbx dby b, decode provider t token key client_id LOGOUT_TOKEN_TYPES = Ok claims ->
    run_capability host t SIGN_OUT (logout_payload subject) itself None None (Some jti) dbx = (Ok (mkRan r b), dby) ->
    backchannel_logout t token (mkPost keys dbx) = (Ok (200%Z, ""), mkPost keys dby)) as Hpost.
  { intros t dbx dby b Ht Hr. unfold backchannel_logout. rewrite (bind_step _ _ _ _ _ (Hd t dbx Ht)). cbn [mbind option_bind]. rewrite Hc.
    rewrite (bind_step _ _ _ (mkRan r b) (mkPost keys dby)) by (unfold with_tables; cbn; unfold itself, logout_payload in Hr; by rewrite Hr). cbn [rn_answer]. by rewrite Hok. }
  exists db'. split; [by eapply Hpost|]. split.
  - intros session. unfold acted_on in Hacted. destruct (user_of_key _ db) as [user|].
    + destruct Hacted as [-> _]. unfold rows_without. rewrite elem_of_delete_where, theirs_false. naive_solver.
    + rewrite Hacted. naive_solver.
  - intros begun. eexists. split; [by eapply Hpost|]. done.
Qed.
End SignOut.

(** * A sign-out to evaluate on *)

Definition taken_as_sent (payload : dict) : outcome exn json := Ok (JObj payload).

(** The provider signs a token for ada, or for a subject nobody signed in as, with the one key HQ holds. *)
Definition signing_out : IdentityProvider := mkIdentityProvider "" "https://id.example"
  (fun _ => Some [("typ", JStr "logout+jwt"); ("kid", JStr "k1")])
  (fun _ token key audience _ => if bool_decide (key = "key" /\ audience = "hq") then Some
     [("sub", JStr token); ("jti", JStr "once-1"); ("events", JObj [(LOGOUT_EVENT, JObj [])])] else None).

Definition signing_host : Site := mkSite (h_deployment demo_host) [sign_out_spec signing_out demo_host taken_as_sent] [] (h_providers demo_host)
  (h_record_spec demo_host) (h_get_resource demo_host) (h_sha256 demo_host) (h_token demo_host) 24 86400 (h_site_url demo_host)
  (h_approval_entry demo_host) (h_uuid demo_host) (h_moment demo_host) (h_envelope_words demo_host).

Definition one_key : SigningKeys := mkSigningKeys {[ "k1" := "key" ]} false.

Definition ada_signed_in : User := mkUser 7 "ada" (key_of_subject signing_out signing_host "ada") "operator".
Definition session_of (key person : string) (expires : Z) : Session := mkSession key [(SESSION_KEY, JStr person)] expires.
Definition signed_in_db : Db := set_db_sessions [session_of "s1" "7" 100; session_of "s2" "8" 100; session_of "s3" "7" 5; session_of "s4" "7" 90]
  (set_db_users [ada_signed_in] empty_db).

Lemma a_logout_ends_no_one_elses_sessions_witness :
  exists answer keys' db', backchannel_logout signing_out signing_host "hq" 10 "ada" (mkPost one_key signed_in_db) = (Ok answer, mkPost keys' db') /\
    map sn_key (db_sessions db') = ["s2"; "s3"].
Proof.
  destruct (a_logout_ends_no_one_elses_sessions signing_out signing_host taken_as_sent "hq" eq_refl (fun _ => eq_refl) 10 "ada" one_key signed_in_db)
    as (answer & keys' & db' & Hrun & _).
  - apply (bool_decide_unpack _). vm_compute. exact I.
  - exists answer, keys', db'. split; [exact Hrun|]. vm_compute in Hrun. by injection Hrun as _ _ <-.
Defined.

Lemma a_logout_token_signs_its_person_out_witness :
  exists db', backchannel_logout signing_out signing_host "hq" 10 "ada" (mkPost one_key signed_in_db) = (Ok (200%Z, ""), mkPost one_key db') /\
    map sn_key (db_sessions db') = ["s2"; "s3"] /\
    exists db'', backchannel_logout signing_out signing_host "hq" 20 "ada" (mkPost one_key (set_db_sessions [session_of "s5" "7" 100] db')) =
      (Ok (200%Z, ""), mkPost one_key db'') /\ map sn_key (db_sessions db'') = ["s5"].
Proof.
  destruct (a_logout_token_signs_its_person_out signing_out signing_host taken_as_sent "hq" eq_refl (fun _ => eq_refl) 10 20 "ada" "ada" "once-1" "k1" "key"
    [("typ", JStr "logout+jwt"); ("kid", JStr "k1")] [("sub", JStr "ada"); ("jti", JStr "once-1"); ("events", JObj [(LOGOUT_EVENT, JObj [])])]
    one_key signed_in_db) as (db' & Hrun & _ & Hagain); try reflexivity.
  - apply (bool_decide_unpack _). vm_compute. exact I.
  - vm_compute. by split.
  - exists db'. split; [exact Hrun|]. split; [vm_compute in Hrun; by injection Hrun as <-|].
    destruct (Hagain [session_of "s5" "7" 100]) as (db'' & Hrun' & Hs). exists db''. split; [exact Hrun'|]. by rewrite Hs.
Defined.
