(* ===== verification/SignIn.v ===== *)
(** Signing in through the identity provider (core/oidc.py, oidc_views.py, application/linked_accounts.py, the assignment of
    application/roles.py): the account a provider's claims are, the role they give it, what its sign-in binds and
    the session it leaves.  The library HQ's backend extends (mozilla-django-oidc) is an argument: what it makes of the
    methods it is given. *)
From stdpp Require Import base gmap strings list pretty.
From Stdlib Require Import Ascii ZArith Lia.
From S2P Require Import Prelude PyStr Json Refusals Security Models Specs Policy Idempotency Capabilities Tokens Sessions.

#[local] Open Scope string_scope.

(** * The tables *)

(** The user's row, as far as a sign-in reads or writes it. *)
Record Account := mk_Account {
  at_pk : Z; at_username : string; at_email : string; at_first_name : string; at_last_name : string; at_usable_password : bool }.

Record LinkedAccount := mk_LinkedAccount { la_id : Z; la_user : Z; la_provider : string; la_login : string; la_updated_at : Z }.

Record PersonRole := mk_PersonRole { pr_id : Z; pr_user : Z; pr_role : string; pr_resolved_at : Z }.

(** The tables of a sign-in beside the others, with the session of its request and what the backend keeps of it
    ([_userinfo], [_role]). *)
Record Hall := mk_Hall {
  hl_db : Db; hl_accounts : list Account; hl_links : list LinkedAccount; hl_roles : list PersonRole; hl_next : Z;
  hl_session : dict; hl_userinfo : option dict; hl_role : string }.

Definition set_hl_db (v : Db) (h : Hall) : Hall :=
  mk_Hall v (hl_accounts h) (hl_links h) (hl_roles h) (hl_next h) (hl_session h) (hl_userinfo h) (hl_role h).
Definition set_hl_accounts (v : list Account) (h : Hall) : Hall :=
  mk_Hall (hl_db h) v (hl_links h) (hl_roles h) (hl_next h) (hl_session h) (hl_userinfo h) (hl_role h).
Definition set_hl_links (v : list LinkedAccount) (h : Hall) : Hall :=
  mk_Hall (hl_db h) (hl_accounts h) v (hl_roles h) (hl_next h) (hl_session h) (hl_userinfo h) (hl_role h).
Definition set_hl_roles (v : list PersonRole) (h : Hall) : Hall :=
  mk_Hall (hl_db h) (hl_accounts h) (hl_links h) v (hl_next h) (hl_session h) (hl_userinfo h) (hl_role h).
Definition set_hl_next (v : Z) (h : Hall) : Hall :=
  mk_Hall (hl_db h) (hl_accounts h) (hl_links h) (hl_roles h) v (hl_session h) (hl_userinfo h) (hl_role h).
Definition set_hl_session (v : dict) (h : Hall) : Hall :=
  mk_Hall (hl_db h) (hl_accounts h) (hl_links h) (hl_roles h) (hl_next h) v (hl_userinfo h) (hl_role h).
Definition set_hl_userinfo (v : option dict) (h : Hall) : Hall :=
  mk_Hall (hl_db h) (hl_accounts h) (hl_links h) (hl_roles h) (hl_next h) (hl_session h) v (hl_role h).
Definition set_hl_role (v : string) (h : Hall) : Hall :=
  mk_Hall (hl_db h) (hl_accounts h) (hl_links h) (hl_roles h) (hl_next h) (hl_session h) (hl_userinfo h) v.

Definition SIGN_IN := "oidc".
Definition GITHUB := "github".

(** A person's link with one provider, and the role they hold. *)
Definition linked (pk : Z) (provider : string) (l : LinkedAccount) : bool := bool_decide (la_user l = pk) && bool_decide (la_provider l = provider).
Definition link_of (pk : Z) (provider : string) (h : Hall) : option LinkedAccount := first_where (linked pk provider) (hl_links h).
Definition held_role (pk : Z) (h : Hall) : option PersonRole := first_where (fun r => bool_decide (pr_user r = pk)) (hl_roles h).

(** The rows as the other use cases read a person ([User]). *)
Definition user_row (h : Hall) (a : Account) : User := mkUser (at_pk a) (at_username a)
  (match link_of (at_pk a) SIGN_IN h with Some l => la_login l | None => "" end)
  (match held_role (at_pk a) h with Some r => pr_role r | None => "" end).

Definition tables (h : Hall) : Db := set_db_users (map (user_row h) (hl_accounts h)) (hl_db h).

(** Code over [Db] alone. *)
Definition over_db {A} (m : M exn Db A) : M exn Hall A := fun h => let '(o, db) := m (tables h) in (o, set_hl_db db h).

(** The next key of a table: they share a counter. *)
Definition next_pk : M exn Hall Z := act (fun h => (Ok (hl_next h), set_hl_next (hl_next h + 1)%Z h)).

(** * What is kept of a sign-in's claims *)

(** [linked_login(user, provider)] *)
Definition linked_login (pk : Z) (provider : string) (h : Hall) : string :=
  match link_of pk provider h with Some l => la_login l | None => "" end.

(** [_GITHUB_LOGIN.match(value)], of a value stripped *)
Definition letter_or_digit (c : ascii) : bool :=
  ascii_digit c || ((65 <=? code c) && (code c <=? 90))%nat || ((97 <=? code c) && (code c <=? 122))%nat.

Fixpoint github_rest (s : string) : bool :=
  match s with
  | "" => true
  | String c rest =>
      (letter_or_digit c || (bool_decide (c = "-"%char) && match rest with String d _ => letter_or_digit d | "" => false end)) && github_rest rest
  end.

Definition github_login (s : string) : bool :=
  match s with "" => false | String c rest => letter_or_digit c && github_rest rest && (String.length rest <=? 38)%nat end.

(** [claimed_github_login(payload)] *)
Definition claimed_github_login (payload : dict) : string :=
  match dget GITHUB payload with
  | Some (JStr value) => if github_login (strip value) then strip value else ""
  | _ => ""
  end.

Definition LINKED_LABEL := "Linked account".

Definition link_event (action : string) (row : Z) (pk : Z) (message : string) : Event :=
  mkEvent action LINKED_LABEL (pretty row) "" message [] (Some pk).

(** [LinkedAccount.objects.update_or_create(user=..., provider=..., ...)]: the row's key, and whether it is new. *)
Definition write_link (now : Z) (pk : Z) (provider login : string) : M exn Hall (Z * bool) :=
  h ← get;
  _ ← raise_if (existsb (fun l => bool_decide (la_provider l = provider) && bool_decide (la_login l = login) && negb (bool_decide (la_user l = pk))) (hl_links h))
        (IntegrityError "unique_linked_account_login");
  match link_of pk provider h with
  | Some row =>
      _ ← modify (fun h => set_hl_links (update_where (linked pk provider)
            (fun l => mk_LinkedAccount (la_id l) (la_user l) (la_provider l) login now) (hl_links h)) h);
      mret (la_id row, false)
  | None =>
      id ← next_pk;
      _ ← modify (fun h => set_hl_links (hl_links h ++ [mk_LinkedAccount id pk provider login now])%list h);
      mret (id, true)
  end.

(** [_record(user, provider, login)] *)
Definition record_link (now : Z) (pk : Z) (provider login : string) : M exn Hall unit :=
  atomic (
    found ← gets (link_of pk provider);
    if bool_decide (la_login <$> found = Some login) then mret tt
    else if bool_decide (login = "") then
      match found with
      | None => mret tt
      | Some row =>
          _ ← over_db (record_event true now (link_event DELETED (la_id row) pk
                ("Your sign-in no longer names the " +:+ provider +:+ " account " +:+ la_login row)));
          modify (fun h => set_hl_links (delete_where (fun l => bool_decide (la_id l = la_id row)) (hl_links h)) h)
      end
    else
      written ← try (done ← atomic (write_link now pk provider login); mret (Some done))
        (fun e => match e with IntegrityError _ => Some (mret None) | _ => None end);
      match written with
      | None => mret tt
      | Some (id, created) =>
          _ ← over_db (record_event true now (link_event (if created : bool then CREATED else UPDATED) id pk
                ("Your sign-in names the " +:+ provider +:+ " account " +:+ login)));
          mret tt
      end).

(** [bind_sign_in(user, key)] *)
Definition bind_sign_in (now : Z) (pk : Z) (key : string) : M exn Hall unit :=
  if bool_decide (key = "") then mret tt else record_link now pk SIGN_IN key.

(** [record_claimed_accounts(user, payload)] *)
Definition record_claimed_accounts (now : Z) (pk : Z) (payload : dict) : M exn Hall unit :=
  record_link now pk GITHUB (claimed_github_login payload).

(** * The role *)

Definition ROLE_LABEL := "Role".

(** [agent_registry.persons_tools_changed(user)] *)
Definition persons_tools_changed (pk : Z) : M exn Hall unit :=
  keys ← gets (fun h => map la_login (rows_where (linked pk SIGN_IN) (hl_links h)));
  if bool_decide (keys = []) then mret tt else over_db (on_commit (PersonsToolsChanged keys)).

(** [PersonRole.objects.update_or_create(user=..., ...)], which the constraint [person_role_is_a_known_role] may refuse. *)
Definition write_role (now : Z) (pk : Z) (role : string) : M exn Hall Z :=
  _ ← raise_if (negb (among role ROLES)) (IntegrityError "person_role_is_a_known_role");
  held ← gets (held_role pk);
  match held with
  | Some row =>
      _ ← modify (fun h => set_hl_roles (update_where (fun r => bool_decide (pr_user r = pk)) (fun r => mk_PersonRole (pr_id r) pk role now) (hl_roles h)) h);
      mret (pr_id row)
  | None => id ← next_pk; _ ← modify (fun h => set_hl_roles (hl_roles h ++ [mk_PersonRole id pk role now])%list h); mret id
  end.

(** [assign(user, role)]; a role's label in small letters is its value. *)
Definition assign (now : Z) (user : Account) (role : string) : M exn Hall unit :=
  atomic (
    held ← gets (held_role (at_pk user));
    if bool_decide (pr_role <$> held = Some role) then
      modify (fun h => set_hl_roles (update_where (fun r => bool_decide (pr_user r = at_pk user))
        (fun r => mk_PersonRole (pr_id r) (pr_user r) (pr_role r) now) (hl_roles h)) h)
    else
      let before := match held with Some row => pr_role row | None => "" end in
      id ← write_role now (at_pk user) role;
      _ ← over_db (record_event true now (mkEvent (if is_some held then UPDATED else CREATED) ROLE_LABEL (pretty id) ""
            (at_username user +:+ " is now " +:+ role +:+ (if bool_decide (before = "") then "" else ", was " +:+ before))
            [("role", JStr role); ("was", JStr before)] (Some (at_pk user))));
      persons_tools_changed (at_pk user)).

(** [give_operator(user)] *)
Definition give_operator (now : Z) (pk : Z) : M exn Hall unit :=
  held ← gets (held_role pk);
  match held with
  | Some _ => mret tt
  | None => id ← next_pk; modify (fun h => set_hl_roles (hl_roles h ++ [mk_PersonRole id pk "operator" now])%list h)
  end.

(** * Claims *)

Definition TAILSCALE_PRINCIPAL_CLAIM := "tailscale_principal".
Definition TAILSCALE_PRINCIPAL_SESSION_KEY := "oidc_tailscale_principal".
Definition SSO_FAILURE_SESSION_KEY := "oidc_failure".
Definition SIGNED_IN_SESSION_KEY := "signed_in_at".
Definition AVATAR_SESSION_KEY := "avatar".

(** [_tailscale_principal(payload)] *)
Definition tailscale_principal (payload : dict) : string :=
  match dget TAILSCALE_PRINCIPAL_CLAIM payload with
  | Some (JStr value) => let value := strip value in if (String.length value <=? 254)%nat then value else ""
  | _ => ""
  end.

(** [_verified_email(claims)] *)
Definition verified_email (claims : dict) : string :=
  match dget "email" claims, dget "email_verified" claims with
  | Some (JStr email), Some (JBool true) => lower (strip email)
  | _, _ => ""
  end.

(** [claims.get(name, "")] where the code asks text of it: another value has no [strip]. *)
Definition text_claim (name : string) (claims : dict) : outcome exn string :=
  match dget name claims with
  | None => Ok ""
  | Some (JStr s) => Ok s
  | Some _ => Raise (OtherError "AttributeError" "object has no attribute 'strip'")
  end.

(** [claims.get(name, "")[:150]], which a list answers as well as text. *)
Definition sliced (name : string) (claims : dict) : outcome exn json :=
  match dget name claims with
  | None => Ok (JStr "")
  | Some (JStr s) => Ok (JStr (take_str 150 s))
  | Some (JList l) => Ok (JList (take 150 l))
  | Some (JObj _) => Raise (OtherError "KeyError" "slice(None, 150, None)")
  | Some _ => Raise (OtherError "TypeError" "object is not subscriptable")
  end.

(** The entry of a role setting. *)
Fixpoint entry_of (name : string) (entries : list (string * string)) : option string :=
  match entries with
  | [] => None
  | (k, role) :: rest => if decide (k = name) then Some role else entry_of name rest
  end.

(** [_unique_username(base)], over the names taken; [suffix] is the next to try. *)
Fixpoint free_username (fuel : nat) (base : string) (suffix : N) (candidate : string) (names : list string) : option string :=
  if negb (among candidate names) then Some candidate
  else match fuel with
       | 0 => None
       | S fuel' => free_username fuel' base (suffix + 1) (base +:+ "-" +:+ pretty suffix) names
       end.

Definition unique_username (base : string) (names : list string) : option string :=
  let base := take_str 140 (str_or base "oidc-user") in free_username (length names) base 2 base names.

(** What the settings say of signing in. *)
Record SignInSettings := mk_SignInSettings {
  si_client_id : string; si_role_groups : list (string * string); si_allowed_emails : list (string * string);
  si_backends : list string }.

(** [sso_only()] *)
Definition endswith (suffix s : string) : bool := bool_decide (String.substring (String.length s - String.length suffix) (String.length suffix) s = suffix).

Definition sso_only (settings : SignInSettings) : bool :=
  negb (bool_decide (si_backends settings = [])) && negb (existsb (endswith "ModelBackend") (si_backends settings)).

Section Backend.
(** The provider and settings, what hashes a subject, how Django spells a username, the keeping of a picture
    ([avatars.remember_avatar], its own table aside), the moment and the person the request's session already names. *)
Context (provider : IdentityProvider) (settings : SignInSettings) (sha256 : string -> string) (normalize_username : string -> string)
  (remember_avatar : Account -> string -> string -> M exn Db string) (now : Z) (reader : option Z).

(** [_refuse(request, reason)] *)
Definition refuse_sign_in (reason : string) : M exn Hall unit :=
  _ ← over_db (record_event false now (mkEvent DENIED "Sign-in" "" "" reason [] reader));
  modify (fun h => set_hl_session (dset SSO_FAILURE_SESSION_KEY (JStr reason) (hl_session h)) h).

(** [_subject_key(claims)] *)
Definition subject_key (claims : dict) : string :=
  match dget "sub" claims with
  | Some (JStr subject) => if bool_decide (strip subject = "") then "" else sign_in_subject sha256 (pv_issuer provider) (strip subject)
  | _ => ""
  end.

(** [resolved_role(claims)] *)
Definition held_groups (claims : dict) : list string :=
  match dget "groups" claims with
  | Some (JList groups) => omap (fun g => match g with JStr name => entry_of name (si_role_groups settings) | _ => None end) groups
  | _ => []
  end.

Definition resolved_role (claims : dict) : string :=
  highest (held_groups claims ++ match entry_of (verified_email claims) (si_allowed_emails settings) with Some role => [role] | None => [] end)%list.

(** [verify_claims(claims)] *)
Definition verify_claims (claims : dict) : M exn Hall bool :=
  name ← lift (text_claim "preferred_username" claims);
  email ← lift (text_claim "email" claims);
  if (bool_decide (strip name = "") && bool_decide (lower (strip email) = "")) || bool_decide (subject_key claims = "") then
    _ ← refuse_sign_in "Pocket ID did not say who this account is, so HQ cannot sign it in."; mret false
  else if bool_decide (si_role_groups settings = []) && bool_decide (si_allowed_emails settings = []) then
    let reason := "Nobody can sign in until HQ's settings name the people or groups allowed in." in
    _ ← refuse_sign_in reason; raise (OtherError "PermissionDenied" reason)
  else
    let role := resolved_role claims in
    _ ← modify (set_hl_role role);
    if bool_decide (role = "") then
      _ ← refuse_sign_in "Your account is in no group HQ admits. An operator can add you to one, then sign in."; mret false
    else mret true.

(** [filter_users_by_claims(claims)] *)
Definition filter_users_by_claims (claims : dict) : M exn Hall (list Account) := gets (fun h =>
  let key := subject_key claims in
  if bool_decide (key = "") then []
  else
    let bound := rows_where (fun a => existsb (fun l => linked (at_pk a) SIGN_IN l && bool_decide (la_login l = key)) (hl_links h)) (hl_accounts h) in
    match bound with
    | _ :: _ => bound
    | [] =>
        let email := verified_email claims in
        if bool_decide (email = "") then []
        else rows_where (fun a => negb (existsb (linked (at_pk a) SIGN_IN) (hl_links h)) && bool_decide (lower (at_email a) = lower email)) (hl_accounts h)
    end).

(** The name [create_user] starts from; [verify_claims] has read a subject that is text. *)
Definition first_username (claims : dict) : outcome exn string :=
  match text_claim "preferred_username" claims with
  | Raise e => Raise e
  | Ok name =>
      if bool_decide (strip name = "") then
        let local := (partition "@"%char (verified_email claims)).1.1 in
        if bool_decide (local = "") then
          match dget "sub" claims with
          | Some (JStr subject) => Ok subject
          | Some v => if truthy v then Raise (OtherError "TypeError" "object is not subscriptable") else Ok ""
          | None => Ok ""
          end
        else Ok local
      else Ok (strip name)
  end.

(** [create_user(claims)] *)
Definition create_user (claims : dict) : M exn Hall Account :=
  base ← lift (first_username claims);
  names ← gets (fun h => map at_username (hl_accounts h));
  match unique_username base names with
  | None => raise (OtherError "RuntimeError" "no name is free")
  | Some username =>
      first ← lift (sliced "given_name" claims);
      last ← lift (sliced "family_name" claims);
      let username := normalize_username username in
      _ ← raise_if (among username names) (IntegrityError "UNIQUE constraint failed: auth_user.username");
      pk ← next_pk;
      let user := mk_Account pk username (verified_email claims) (py_str first) (py_str last) false in
      _ ← modify (fun h => set_hl_accounts (hl_accounts h ++ [user])%list h);
      mret user
  end.

(** A field of [update_user]: what is claimed where it says something, else what is held. *)
Definition updated (held : string) (claimed : json) : string := if truthy claimed then py_str claimed else held.

(** [update_user(user, claims)] *)
Definition update_user (user : Account) (claims : dict) : M exn Hall Account :=
  first ← lift (sliced "given_name" claims);
  last ← lift (sliced "family_name" claims);
  let user := mk_Account (at_pk user) (at_username user) (updated (at_email user) (JStr (verified_email claims)))
    (updated (at_first_name user) first) (updated (at_last_name user) last) (at_usable_password user) in
  _ ← modify (fun h => set_hl_accounts (update_where (fun a => bool_decide (at_pk a = at_pk user)) (fun a =>
        mk_Account (at_pk a) (at_username a) (at_email user) (at_first_name user) (at_last_name user) (at_usable_password a)) (hl_accounts h)) h);
  mret user.

(** [_remember_picture(user, access_token)] *)
Definition remember_picture (user : Account) (access_token : string) : M exn Hall unit :=
  claims ← gets (fun h => default [] (hl_userinfo h));
  kept ← try (digest ← over_db (remember_avatar user (strip (str_or_blank (dget "picture" claims))) access_token); mret (Some digest))
    (fun _ => Some (mret None));
  match kept with
  | None => mret tt
  | Some digest => modify (fun h => set_hl_session (if bool_decide (digest = "") then dwithout AVATAR_SESSION_KEY (hl_session h)
                                     else dset AVATAR_SESSION_KEY (JStr digest) (hl_session h)) h)
  end.

(** [get_userinfo(...)], of what the provider answered. *)
Definition get_userinfo (answered : outcome exn dict) : M exn Hall dict :=
  claims ← lift answered; _ ← modify (set_hl_userinfo (Some claims)); mret claims.

(** The session a sign-in leaves: since when, and the tailnet name the provider says is theirs. *)
Definition signed_in_session (payload session : dict) : dict :=
  let session := if dhas SIGNED_IN_SESSION_KEY session then session else dset SIGNED_IN_SESSION_KEY (JStr (isoformat now)) session in
  let principal := tailscale_principal payload in
  if bool_decide (principal = "") then dwithout TAILSCALE_PRINCIPAL_SESSION_KEY session
  else dset TAILSCALE_PRINCIPAL_SESSION_KEY (JStr principal) session.

(** The library's own [get_or_create_user], of the methods it asks. *)
Variable super_get_or_create_user : M exn Hall dict -> (dict -> M exn Hall bool) -> (dict -> M exn Hall (list Account)) ->
  (Account -> dict -> M exn Hall Account) -> (dict -> M exn Hall Account) -> M exn Hall (option Account).

(** [get_or_create_user(access_token, id_token, payload)] *)
Definition get_or_create_user (answered : outcome exn dict) (access_token : string) (payload : dict) : M exn Hall (option Account) :=
  found ← super_get_or_create_user (get_userinfo answered) verify_claims filter_users_by_claims update_user create_user;
  match found with
  | None => mret None
  | Some user =>
      _ ← remember_picture user access_token;
      _ ← bind_sign_in now (at_pk user) (subject_key payload);
      _ ← record_claimed_accounts now (at_pk user) payload;
      role ← gets hl_role;
      _ ← (if bool_decide (role = "") then mret tt else assign now user role);
      _ ← modify (fun h => set_hl_session (signed_in_session payload (hl_session h)) h);
      mret (Some user)
  end.

(** [get_payload_data(token, key)] *)
Definition get_payload_data (token key : string) : outcome exn dict :=
  match decode provider now token key (si_client_id settings) ["jwt"] with
  | Raise e => Raise e
  | Ok payload =>
      match dget "aud" payload with
      | None => Raise (OtherError "KeyError" "aud")
      | Some (JList audience) =>
          if (1 <? length audience)%nat && negb (bool_decide (dget "azp" payload = Some (JStr (si_client_id settings)))) then
            Raise (TokenError "The ID token was authorized for another party.")
          else Ok payload
      | Some (JObj audience) =>
          if (1 <? length audience)%nat && negb (bool_decide (dget "azp" payload = Some (JStr (si_client_id settings)))) then
            Raise (TokenError "The ID token was authorized for another party.")
          else Ok payload
      | Some (JStr _) => Ok payload
      | Some _ => Raise (OtherError "TypeError" "object has no len()")
      end
  end.

(** [authenticate(request)], of what the library's own comes to: of a [RequestException] its text is the status it was
    answered, blank for none. *)
Definition authenticate (answer : M exn Hall (option Account)) : M exn Hall (option Account) :=
  try answer (fun e =>
    match e with
    | OtherError "RequestException" status => Some (
        _ ← refuse_sign_in (if among status ["400"; "401"] then
              "Pocket ID refused HQ's client credentials: the client secret HQ holds is not the one Pocket ID issued for this client."
              else "HQ could not reach Pocket ID to finish signing in.");
        mret None)
    | TokenError _ => Some (_ ← refuse_sign_in "HQ could not verify the sign-in Pocket ID sent. Sign in again."; mret None)
    | _ => None
    end).

(** [login_failure()] of HQ's callback, up to the library's own: the session it ends, which keeps why. *)
Definition login_failure (taken_up : bool) : M exn Hall unit :=
  if taken_up && is_some reader then
    reason ← gets (fun h => dget SSO_FAILURE_SESSION_KEY (hl_session h));
    _ ← modify (set_hl_session []);
    match reason with
    | Some v => if truthy v then modify (fun h => set_hl_session (dset SSO_FAILURE_SESSION_KEY v (hl_session h)) h) else mret tt
    | None => mret tt
    end
  else mret tt.
End Backend.

(** * What the tables are held to *)

Section Tables.
Context {A B K : Type}.

Lemma nodup_snoc (g : A -> B) l x : NoDup (map g l) -> (forall y, y ∈ l -> g y <> g x) -> NoDup (map g (l ++ [x])).
Proof.
  intros Hnd Hx. rewrite map_app. apply NoDup_app. split_and!; [done| |apply NoDup_singleton].
  intros k (y & -> & Hy)%list_elem_of_fmap Hk%list_elem_of_singleton. by destruct (Hx y Hy).
Qed.

(** A row rewritten keeps a key unique that its new value takes from no other row. *)
Lemma nodup_update (key : A -> K) (g : A -> B) p f l :
  (forall x y, x ∈ l -> y ∈ l -> p x = true -> p y = false -> g (f x) <> g y) ->
  (forall x y, x ∈ l -> y ∈ l -> p x = true -> p y = true -> key x = key y) ->
  NoDup (map key l) -> NoDup (map g l) -> NoDup (map g (update_where p f l)).
Proof.
  induction l as [|x l IH]; intros Hg Hk Hkeys Hnd; [done|]. cbn in *. apply NoDup_cons in Hkeys as [Hx Hkeys]. apply NoDup_cons in Hnd as [Hgx Hnd].
  assert (NoDup (map g (update_where p f l))) as Hl by (apply IH; try done; intros y z ? ?; [apply Hg|apply Hk]; by right).
  apply NoDup_cons. split; [|done]. intros (y & Hy & Hin)%list_elem_of_fmap. apply elem_of_update_where in Hin as (z & Hz & ->).
  destruct (p x) eqn:Hpx, (p z) eqn:Hpz.
  - destruct Hx. rewrite (Hk x z) by (done || by (left + right)). by apply list_elem_of_fmap; eauto.
  - revert Hy. apply Hg; [by left|by right|done..].
  - symmetry in Hy. revert Hy. apply Hg; [by right|by left|done..].
  - destruct Hgx. rewrite Hy. by apply list_elem_of_fmap; eauto.
Qed.
End Tables.

Definition accounts_ok (next : Z) (accounts : list Account) : Prop :=
  NoDup (map at_pk accounts) /\ forall a, a ∈ accounts -> (at_pk a < next)%Z.

(** [unique_linked_account_per_provider], [unique_linked_account_login] and the keys of the table. *)
Definition links_ok (next : Z) (pks : list Z) (links : list LinkedAccount) : Prop :=
  NoDup (map la_id links) /\ (forall l, l ∈ links -> (la_id l < next)%Z) /\
  NoDup (map (fun l => (la_user l, la_provider l)) links) /\ NoDup (map (fun l => (la_provider l, la_login l)) links) /\
  forall l, l ∈ links -> la_login l <> "" /\ la_user l ∈ pks.

Definition roles_ok (pks : list Z) (roles : list PersonRole) : Prop :=
  NoDup (map pr_user roles) /\ forall r, r ∈ roles -> pr_role r ∈ ROLES /\ pr_user r ∈ pks.

Definition pks (h : Hall) : list Z := map at_pk (hl_accounts h).

Definition whole (h : Hall) : Prop :=
  accounts_ok (hl_next h) (hl_accounts h) /\ links_ok (hl_next h) (pks h) (hl_links h) /\ roles_ok (pks h) (hl_roles h).

Lemma linked_true pk provider l : linked pk provider l = true <-> la_user l = pk /\ la_provider l = provider.
Proof. unfold linked. by rewrite andb_true_iff, !bool_decide_eq_true. Qed.

Lemma linked_false pk provider l : linked pk provider l = false <-> ~ (la_user l = pk /\ la_provider l = provider).
Proof. by rewrite <- linked_true, not_true_iff_false. Qed.

Lemma links_later next next' pks pks' links : (next <= next')%Z -> (forall pk, pk ∈ pks -> pk ∈ pks') -> links_ok next pks links -> links_ok next' pks' links.
Proof. intros Hn Hp (? & Hb & ? & ? & Ho). split_and!; try done; intros l Hl; [specialize (Hb l Hl); lia|]. destruct (Ho l Hl). auto. Qed.

Lemma links_append next pks links pk provider login now : links_ok next pks links -> pk ∈ pks -> login <> "" ->
  (forall l, l ∈ links -> linked pk provider l = false) -> (forall l, l ∈ links -> la_provider l = provider -> la_login l = login -> la_user l = pk) ->
  links_ok (next + 1) pks (links ++ [mk_LinkedAccount next pk provider login now]).
Proof.
  intros (Hids & Hb & Hu & Hl & Ho) Hpk Hne Hnone Hfree. split_and!.
  - apply nodup_snoc; [done|]. intros y Hy. cbn. specialize (Hb y Hy). lia.
  - intros l [Hy| ->%list_elem_of_singleton]%elem_of_app; [specialize (Hb l Hy)|cbn]; lia.
  - apply nodup_snoc; [done|]. intros y Hy [= ? ?]. by apply (linked_false pk provider y); [apply Hnone|].
  - apply nodup_snoc; [done|]. intros y Hy [= Hp Hlog]. apply (linked_false pk provider y); [by apply Hnone|]. split; [by apply Hfree|done].
  - intros l [Hy| ->%list_elem_of_singleton]%elem_of_app; [by apply Ho|done].
Qed.

Lemma links_update next pks links pk provider login now : links_ok next pks links -> login <> "" ->
  (forall l, l ∈ links -> la_provider l = provider -> la_login l = login -> la_user l = pk) ->
  links_ok next pks (update_where (linked pk provider) (fun l => mk_LinkedAccount (la_id l) (la_user l) (la_provider l) login now) links).
Proof.
  intros (Hids & Hb & Hu & Hl & Ho) Hne Hfree. split_and!.
  - by rewrite map_update_where by by intros [].
  - intros l (x & Hx & ->)%elem_of_update_where. specialize (Hb x Hx). by destruct (linked pk provider x).
  - by rewrite map_update_where by by intros [].
  - apply (nodup_update (fun l => (la_user l, la_provider l))); [| |done..].
    + intros x y Hx Hy [Hxu Hxp]%linked_true Hny [= Hp Hlog]. apply linked_false in Hny as []. split; [apply Hfree; congruence|congruence].
    + intros x y _ _ [-> ->]%linked_true [-> ->]%linked_true. done.
  - intros l (x & Hx & ->)%elem_of_update_where. destruct (Ho x Hx). by destruct (linked pk provider x).
Qed.

Lemma links_delete next pks links p : links_ok next pks links -> links_ok next pks (delete_where p links).
Proof.
  intros (Hids & Hb & Hu & Hl & Ho). split_and!; try (by apply NoDup_map_delete);
    intros l [Hin _]%elem_of_delete_where; [by apply Hb|by apply Ho].
Qed.

(** * What binding an account writes *)

(** The conjuncts of a goal as it is written: what the tables are held to stays whole. *)
#[local] Ltac conjs := repeat match goal with |- _ /\ _ => split end.

(** Of the tables, only the links moved. *)
Definition links_moved (h h' : Hall) : Prop :=
  hl_accounts h' = hl_accounts h /\ hl_roles h' = hl_roles h /\ hl_role h' = hl_role h.

(** Another person's account with [provider] is not [login]. *)
Definition free_login (pk : Z) (provider login : string) (h : Hall) : Prop :=
  forall l, l ∈ hl_links h -> la_provider l = provider -> la_login l = login -> la_user l = pk.

Lemma link_of_some pk provider h l : link_of pk provider h = Some l -> l ∈ hl_links h /\ linked pk provider l = true.
Proof. apply first_where_some. Qed.

Lemma link_of_none pk provider h : link_of pk provider h = None -> forall l, l ∈ hl_links h -> linked pk provider l = false.
Proof. apply first_where_none. Qed.

Lemma write_link_inv now pk provider login h o h' : whole h -> pk ∈ pks h -> login <> "" -> write_link now pk provider login h = (o, h') ->
  (h' = h /\ (exists text, o = Raise (IntegrityError text)) /\ ~ free_login pk provider login h) \/
  ((exists done, o = Ok done) /\ whole h' /\ links_moved h h' /\ (forall l, linked pk provider l = false -> l ∈ hl_links h' <-> l ∈ hl_links h) /\
   exists l, l ∈ hl_links h' /\ linked pk provider l = true /\ la_login l = login).
Proof.
  intros (Ha & Hl & Hr) Hpk Hne H. unfold write_link in H. rewrite (bind_step _ _ _ h h) in H by done.
  destruct (existsb _ _) eqn:Hex; cbn [raise_if] in H.
  { left. rewrite (bind_stop _ _ _ (IntegrityError "unique_linked_account_login") h) in H by done. injection H as <- <-. split; [done|]. split; [by eexists|].
    apply existsb_exists in Hex as (l & Hin%list_elem_of_In & Hc). rewrite !andb_true_iff, negb_true_iff, !bool_decide_eq_true, bool_decide_eq_false in Hc.
    destruct Hc as [[? ?] Hu]. intros Hfree. by apply Hu, Hfree. }
  assert (free_login pk provider login h) as Hfree.
  { intros l Hin Hp Hlog. destruct (decide (la_user l = pk)) as [|Hu]; [done|]. exfalso. apply not_true_iff_false in Hex as []. apply existsb_exists.
    exists l. split; [by apply list_elem_of_In|]. by rewrite !bool_decide_eq_true_2, bool_decide_eq_false_2 by done. }
  right. rewrite (bind_step _ _ _ tt h) in H by done. destruct (link_of pk provider h) as [row|] eqn:Hrow.
  - apply link_of_some in Hrow as [Hrin Hrl]. injection H as <- <-. split; [by eexists|]. conjs.
    + refine (conj Ha (conj _ Hr)). by apply links_update.
    + done.
    + intros l Hlf. cbn. rewrite elem_of_update_where. split.
      * intros (x & Hx & ->). destruct (linked pk provider x) eqn:Hxl; [|done]. exfalso. apply linked_true in Hxl. by apply linked_false in Hlf as [].
      * intros Hin. exists l. by rewrite Hlf.
    + eexists. cbn. split; [apply elem_of_update_where; exists row; by rewrite Hrl|done].
  - pose proof (link_of_none _ _ _ Hrow) as Hnone. injection H as <- <-. split; [by eexists|]. conjs.
    + refine (conj _ (conj _ Hr)); [|by apply links_append]. destruct Ha as [? Hb]. split; [done|]. intros a Hin. specialize (Hb a Hin). cbn. lia.
    + done.
    + intros l Hlf. cbn. rewrite elem_of_app, list_elem_of_singleton. split; [|by left]. intros [?| ->]; [done|].
      exfalso. by apply linked_false in Hlf as [].
    + eexists. cbn. split; [apply elem_of_app; right; by apply list_elem_of_singleton|]. split; [by apply linked_true|done].
Qed.

Lemma over_db_inv {A} (m : M exn Db A) h o h' : over_db m h = (o, h') -> exists db, m (tables h) = (o, db) /\ h' = set_hl_db db h.
Proof. unfold over_db. destruct (m (tables h)) as [o' db]. intros [= <- <-]. by exists db. Qed.

Lemma record_link_inv now pk provider login h o h' : whole h -> pk ∈ pks h -> record_link now pk provider login h = (o, h') ->
  whole h' /\ links_moved h h' /\ (forall l, linked pk provider l = false -> l ∈ hl_links h' <-> l ∈ hl_links h) /\
  (o = Ok tt -> login <> "" -> free_login pk provider login h -> exists l, l ∈ hl_links h' /\ linked pk provider l = true /\ la_login l = login).
Proof.
  intros Hw Hpk H. unfold record_link in H. apply atomic_inv in H as [([] & H & ->)|(e & s0 & _ & -> & ->)]; [|by conjs].
  rewrite (bind_step _ _ _ (link_of pk provider h) h) in H by done. case_bool_decide as Hsame.
  { injection H as <-. conjs; try done. intros _ _ _. destruct (link_of pk provider h) as [l|] eqn:Hl; [|done]. injection Hsame as Hsame.
    apply link_of_some in Hl as [? ?]. by exists l. }
  case_bool_decide as Hblank.
  - destruct (link_of pk provider h) as [row|] eqn:Hrow; [|injection H as <-; by conjs]. apply link_of_some in Hrow as [Hrin Hrl].
    apply bind_inv in H as [(n & s & Hev & H)|(e & _ & ?)]; [|done]. apply over_db_inv in Hev as (db & _ & ->). apply modify_inv in H as [_ ->].
    destruct Hw as (Ha & Hl & Hr). conjs; [by refine (conj Ha (conj _ Hr)); apply links_delete|done| |done]. intros l Hlf.
    change (l ∈ delete_where (fun l => bool_decide (la_id l = la_id row)) (hl_links h) <-> l ∈ hl_links h). rewrite elem_of_delete_where, bool_decide_eq_false.
    split; [by intros [? _]|]. intros Hin. split; [done|]. intros Hid. destruct Hl as (Hids & _). by rewrite (keyed_inj la_id _ _ _ Hids Hin Hrin Hid) in Hlf; congruence.
  - apply bind_inv in H as [(written & s & Hw' & H)|(e & _ & ?)]; [|done].
    apply try_inv in Hw' as [(a & Hw' & [= ->])|(e & s0 & Hw' & Hh)].
    + apply bind_inv in Hw' as [(done' & s1 & Hat & Hret)|(e & _ & ?)]; [|done]. injection Hret as <- <-.
      apply atomic_inv in Hat as [(d & Hwl & [= ->])|(? & ? & _ & ? & _)]; [|done].
      apply write_link_inv in Hwl as [(_ & (? & ?) & _)|(_ & Hwh & Hm & Hfr & Hex)]; try done. destruct d as [id created].
      apply bind_inv in H as [(n & s & Hev & H)|(e & _ & ?)]; [|done]. apply over_db_inv in Hev as (db & _ & ->). injection H as <-. by conjs.
    + apply bind_inv in Hw' as [(done' & s1 & _ & ?)|(e' & Hat & [= ->])]; [done|].
      apply atomic_inv in Hat as [(? & _ & ?)|(e'' & s1 & Hwl & [= ->] & ->)]; [done|].
      apply write_link_inv in Hwl as [(-> & (t & [= ->]) & Hnf)|((? & ?) & _)]; try done. injection Hh as <- <-. injection H as <-. by conjs.
Qed.

(** Of the tables, only the roles moved. *)
Definition roles_moved (h h' : Hall) : Prop :=
  hl_accounts h' = hl_accounts h /\ hl_links h' = hl_links h /\ hl_role h' = hl_role h.

(** None of the three tables moved, nor their keys. *)
Definition tables_stand (h h' : Hall) : Prop :=
  hl_accounts h' = hl_accounts h /\ hl_links h' = hl_links h /\ hl_roles h' = hl_roles h /\ hl_next h' = hl_next h.

Lemma whole_stands h h' : tables_stand h h' -> whole h -> whole h'.
Proof. intros (Ha & Hl & Hr & Hn). unfold whole, pks. by rewrite Ha, Hl, Hr, Hn. Qed.

Lemma persons_tools_changed_inv pk h o h' : persons_tools_changed pk h = (o, h') -> tables_stand h h' /\ hl_role h' = hl_role h.
Proof.
  unfold persons_tools_changed. rewrite (bind_step _ _ _ (map la_login (rows_where (linked pk SIGN_IN) (hl_links h))) h) by done.
  case_bool_decide; [by intros [= _ <-]|]. intros (db & _ & ->)%over_db_inv. done.
Qed.

Lemma roles_append ps roles id pk role now : roles_ok ps roles -> pk ∈ ps -> role ∈ ROLES -> (forall r, r ∈ roles -> pr_user r <> pk) ->
  roles_ok ps (roles ++ [mk_PersonRole id pk role now]).
Proof.
  intros [Hnd Ho] Hpk Hrole Hnone. split; [by apply nodup_snoc|].
  intros r [Hy| ->%list_elem_of_singleton]%elem_of_app; [by apply Ho|done].
Qed.

Lemma roles_update ps roles pk f : roles_ok ps roles -> (forall r, pr_user r = pk -> pr_user (f r) = pk) ->
  (forall r, r ∈ roles -> pr_user r = pk -> pr_role (f r) ∈ ROLES) -> roles_ok ps (update_where (fun r => bool_decide (pr_user r = pk)) f roles).
Proof.
  intros [Hnd Ho] Hu Hf. split.
  - rewrite map_update_where; [done|]. intros r _ ?%bool_decide_eq_true. rewrite Hu; congruence.
  - intros r (x & Hx & ->)%elem_of_update_where. destruct (Ho x Hx) as [? Hp]. case_bool_decide as Hpk; [|done]. split; [by apply Hf|]. rewrite Hu; congruence.
Qed.

Lemma others_roles pk f roles r : pr_user r <> pk -> (forall x, pr_user x = pk -> pr_user (f x) = pk) ->
  r ∈ update_where (fun r => bool_decide (pr_user r = pk)) f roles <-> r ∈ roles.
Proof.
  intros Hr Hf. rewrite elem_of_update_where. split.
  - intros (x & Hx & ->). case_bool_decide as Hp; [|done]. by rewrite Hf in Hr.
  - intros Hin. exists r. by rewrite bool_decide_eq_false_2.
Qed.

Lemma held_role_some pk h r : held_role pk h = Some r -> r ∈ hl_roles h /\ pr_user r = pk.
Proof. intros [? ?%bool_decide_eq_true]%first_where_some. done. Qed.

Lemma held_role_none pk h : held_role pk h = None -> forall r, r ∈ hl_roles h -> pr_user r <> pk.
Proof. intros Hn r Hr Hu. pose proof (first_where_none _ _ Hn r Hr) as Hf. cbn in Hf. by rewrite bool_decide_eq_true_2 in Hf. Qed.

Lemma write_role_inv now pk role h o h' : whole h -> pk ∈ pks h -> write_role now pk role h = (o, h') ->
  whole h' /\ roles_moved h h' /\ (forall r, pr_user r <> pk -> r ∈ hl_roles h' <-> r ∈ hl_roles h) /\
  forall id, o = Ok id -> exists r, r ∈ hl_roles h' /\ pr_user r = pk /\ pr_role r = role.
Proof.
  intros (Ha & Hl & Hr) Hpk H. unfold write_role in H. destruct (among role ROLES) eqn:Hknown; cbn [negb raise_if] in H.
  2: { rewrite (bind_stop _ _ _ (IntegrityError "person_role_is_a_known_role") h) in H by done. by injection H as <- <-. }
  apply among_spec in Hknown. rewrite (bind_step _ _ _ tt h), (bind_step _ _ _ (held_role pk h) h) in H by done.
  destruct (held_role pk h) as [row|] eqn:Hrow; injection H as <- <-.
  - apply held_role_some in Hrow as [Hrin Hru]. conjs.
    + refine (conj Ha (conj Hl _)). by apply roles_update.
    + done.
    + intros r Hne. by apply others_roles.
    + intros _ _. exists (mk_PersonRole (pr_id row) pk role now). split; [cbn; apply elem_of_update_where; exists row; split; [done|by rewrite bool_decide_eq_true_2]|done].
  - pose proof (held_role_none _ _ Hrow) as Hnone. conjs.
    + refine (conj _ (conj _ _)); [|by eapply links_later; [|done|exact Hl]; cbn; lia|by apply roles_append].
      destruct Ha as [? Hb]. split; [done|]. intros a Hin. specialize (Hb a Hin). cbn. lia.
    + done.
    + intros r Hne. cbn. rewrite elem_of_app, list_elem_of_singleton. split; [|by left]. by intros [?| ->].
    + intros _ _. eexists. split; [cbn; apply elem_of_app; right; by apply list_elem_of_singleton|done].
Qed.

Lemma assign_inv now user role h o h' : whole h -> at_pk user ∈ pks h -> assign now user role h = (o, h') ->
  whole h' /\ roles_moved h h' /\ (forall r, pr_user r <> at_pk user -> r ∈ hl_roles h' <-> r ∈ hl_roles h) /\
  (o = Ok tt -> exists r, r ∈ hl_roles h' /\ pr_user r = at_pk user /\ pr_role r = role).
Proof.
  intros Hw Hpk H. unfold assign in H. apply atomic_inv in H as [([] & H & ->)|(e & s0 & _ & -> & ->)]; [|by conjs].
  rewrite (bind_step _ _ _ (held_role (at_pk user) h) h) in H by done. case_bool_decide as Hsame.
  - destruct (held_role (at_pk user) h) as [row|] eqn:Hrow; [|done]. injection Hsame as Hsame. apply held_role_some in Hrow as [Hrin Hru].
    injection H as <-. destruct Hw as (Ha & Hl & Hr). conjs.
    + refine (conj Ha (conj Hl _)). apply roles_update; [done..|]. intros r Hin _. exact (proj1 (proj2 Hr r Hin)).
    + done.
    + intros r Hne. by apply others_roles.
    + intros _. exists (mk_PersonRole (pr_id row) (pr_user row) (pr_role row) now). split; [cbn; apply elem_of_update_where; exists row; split; [done|by rewrite bool_decide_eq_true_2]|done].
  - apply bind_inv in H as [(id & s1 & Hwr & H)|(e & _ & ?)]; [|done]. apply write_role_inv in Hwr as (Hw1 & (Ha1 & Hl1 & Hr1) & Ho & Hr); [|done..].
    apply bind_inv in H as [(n & s2 & Hev & H)|(e & _ & ?)]; [|done]. apply over_db_inv in Hev as (db & _ & ->).
    apply persons_tools_changed_inv in H as [Hst Hrole]. pose proof Hst as (Ha2 & Hl2 & Hr2 & _). conjs.
    + by apply (whole_stands _ _ Hst).
    + unfold roles_moved. by rewrite Ha2, Hl2, Hrole.
    + rewrite Hr2. exact Ho.
    + intros _. rewrite Hr2. by eapply Hr.
Qed.

(** * A name that is free *)

Definition numbered (base : string) (n : N) : string := base +:+ "-" +:+ pretty n.

Lemma numbered_inj base : Inj (=) (=) (numbered base).
Proof. intros a b H. unfold numbered in H. simplify_eq. done. Qed.

Lemma numbered_not_base base n : numbered base n <> base.
Proof.
  unfold numbered. induction base as [|c base IH]; [done|]. intros H. cbn in H. injection H as H. by apply IH.
Qed.

(** The names tried after the first, from a suffix on. *)
Fixpoint tried (fuel : nat) (base : string) (suffix : N) : list string :=
  match fuel with 0 => [] | S fuel' => numbered base suffix :: tried fuel' base (suffix + 1) end.

Lemma elem_of_tried fuel base suffix s : s ∈ tried fuel base suffix -> exists n, (suffix <= n)%N /\ s = numbered base n.
Proof.
  revert suffix. induction fuel as [|fuel IH]; cbn; intros suffix; [by intros ?%elem_of_nil|].
  intros [->|(n & Hn & ->)%IH]%elem_of_cons; [exists suffix|exists n]; split; try done; lia.
Qed.

Lemma tried_NoDup fuel base suffix : NoDup (tried fuel base suffix).
Proof.
  revert suffix. induction fuel as [|fuel IH]; cbn; intros suffix; [constructor|]. apply NoDup_cons. split; [|apply IH].
  intros (n & Hn & He)%elem_of_tried. apply numbered_inj in He. lia.
Qed.

Lemma free_username_none fuel base suffix candidate names : free_username fuel base suffix candidate names = None ->
  forall s, s ∈ candidate :: tried fuel base suffix -> s ∈ names.
Proof.
  revert suffix candidate. induction fuel as [|fuel IH]; cbn; intros suffix candidate.
  - destruct (among candidate names) eqn:Hc; cbn; [|done]. intros _ s ->%list_elem_of_singleton. by apply among_spec.
  - destruct (among candidate names) eqn:Hc; cbn; [|done]. intros Hn s [->|Hs]%elem_of_cons; [by apply among_spec|]. by apply (IH _ _ Hn).
Qed.

Lemma free_username_some fuel base suffix candidate names name : free_username fuel base suffix candidate names = Some name -> name ∉ names.
Proof.
  revert suffix candidate. induction fuel as [|fuel IH]; cbn; intros suffix candidate; destruct (among candidate names) eqn:Hc; cbn; try done.
  - intros [= <-]. by rewrite <- among_spec, Hc.
  - apply IH.
  - intros [= <-]. by rewrite <- among_spec, Hc.
Qed.

(** [_unique_username] ends, at a name nobody has: as many tries as there are accounts find one. *)
Lemma unique_username_is_found (base : string) (names : list string) : exists name, unique_username base names = Some name /\ name ∉ names.
Proof.
  unfold unique_username. set (first := take_str 140 _). destruct (free_username _ _ _ _ _) as [name|] eqn:H.
  - exists name. split; [done|]. by eapply free_username_some.
  - exfalso. pose proof (free_username_none _ _ _ _ _ H) as Hin.
    assert (NoDup (first :: tried (length names) first 2)) as Hnd.
    { apply NoDup_cons. split; [|apply tried_NoDup]. intros (n & _ & He)%elem_of_tried. by apply (numbered_not_base first n). }
    apply NoDup_submseteq in Hin; [|done]. apply submseteq_length in Hin. cbn in Hin.
    assert (forall fuel suffix, length (tried fuel first suffix) = fuel) as Hlen by (induction fuel; intros; cbn; auto). rewrite Hlen in Hin. lia.
Qed.

(** * Whose account a sign-in is *)

(** The account [pk] is bound to the subject behind [key]. *)
Definition bound (h : Hall) (key : string) (pk : Z) : Prop := exists l, l ∈ hl_links h /\ linked pk SIGN_IN l = true /\ la_login l = key.

(** Nobody's rows moved but those of [pk]. *)
Definition others_stand (pk : Z) (h h' : Hall) : Prop :=
  (forall a, at_pk a <> pk -> a ∈ hl_accounts h' <-> a ∈ hl_accounts h) /\
  (forall l, la_user l <> pk -> l ∈ hl_links h' <-> l ∈ hl_links h) /\
  (forall r, pr_user r <> pk -> r ∈ hl_roles h' <-> r ∈ hl_roles h).

Lemma others_trans pk h1 h2 h3 : others_stand pk h1 h2 -> others_stand pk h2 h3 -> others_stand pk h1 h3.
Proof. intros (Ha & Hl & Hr) (Ha' & Hl' & Hr'). split_and!; intros x Hx; [rewrite Ha'|rewrite Hl'|rewrite Hr']; auto. Qed.

Lemma others_same pk h h' : tables_stand h h' -> others_stand pk h h'.
Proof. intros (Ha & Hl & Hr & _). unfold others_stand. by rewrite Ha, Hl, Hr. Qed.

Section Claims.
Context (provider : IdentityProvider) (settings : SignInSettings) (sha256 : string -> string) (normalize_username : string -> string)
  (remember_avatar : Account -> string -> string -> M exn Db string) (now : Z) (reader : option Z).

#[local] Notation verify_here := (verify_claims provider settings sha256 now reader).
#[local] Notation filter_here := (filter_users_by_claims provider sha256).
#[local] Notation key_here := (subject_key provider sha256).
#[local] Notation create_here := (create_user normalize_username).
#[local] Notation role_here := (resolved_role settings).

Lemma refuse_sign_in_inv reason h o h' : refuse_sign_in now reader reason h = (o, h') -> tables_stand h h'.
Proof.
  unfold refuse_sign_in. intros [(n & s & Hev & H)|(e & Hev & _)]%bind_inv; apply over_db_inv in Hev as (db & _ & ->); [|done].
  by apply modify_inv in H as [_ ->].
Qed.

(** Claims that pass are somebody's, who holds a role. *)
Lemma verify_claims_inv claims h o h' : verify_here claims h = (o, h') -> tables_stand h h' /\
  (o = Ok true -> hl_role h' = role_here claims /\ role_here claims <> "" /\ key_here claims <> "").
Proof.
  unfold verify_claims. intros H. apply bind_inv in H as [(name & s & Hn & H)|(e & Hn & ->)]; apply lift_inv in Hn as [Hn ->]; [|done].
  apply bind_inv in H as [(email & s & Hem & H)|(e & Hem & ->)]; apply lift_inv in Hem as [Hem ->]; [|done].
  destruct (_ || bool_decide (key_here claims = "")) eqn:Hwho.
  { apply bind_inv in H as [(u & s & Hr & H)|(e & Hr & ->)]; apply refuse_sign_in_inv in Hr; [|done]. by injection H as <- <-. }
  apply orb_false_iff in Hwho as [_ Hkey%bool_decide_eq_false]. destruct (bool_decide _ && bool_decide _).
  { apply bind_inv in H as [(u & s & Hr & H)|(e & Hr & ->)]; apply refuse_sign_in_inv in Hr; [|done]. by injection H as <- <-. }
  rewrite (bind_step _ _ _ tt (set_hl_role (role_here claims) h)) in H by done. case_bool_decide as Hrole.
  - apply bind_inv in H as [(u & s & Hr & H)|(e & Hr & ->)]; apply refuse_sign_in_inv in Hr; [|done]. by injection H as <- <-.
  - by injection H as <- <-.
Qed.

Lemma remember_picture_inv user token h o h' : remember_picture remember_avatar user token h = (o, h') -> tables_stand h h' /\ hl_role h' = hl_role h.
Proof.
  unfold remember_picture. rewrite (bind_step _ _ _ (default [] (hl_userinfo h)) h) by done. intros H.
  apply bind_inv in H as [(kept & s & Ht & H)|(e & Ht & ->)]; (apply try_inv in Ht as [(d & Ht & ?)|(e' & s' & Ht & Hh)];
    (apply bind_inv in Ht as [(digest & s'' & Ht & Hret)|(e'' & Ht & ?)]; apply over_db_inv in Ht as (db & _ & ->); simplify_eq/=));
    try (injection Hh as <- <-); try (injection Hret as <- <-); simplify_eq/=; try done.
  - by injection H as <- <-.
  - by injection H as <- <-.
Qed.

(** How an account is found for a subject: it signed in as it before, or nobody signed in as it yet and this account,
    which nobody has signed in to, holds the address the provider verified. *)
Definition introduced (claims : dict) (h : Hall) (pk : Z) : Prop :=
  (forall l, l ∈ hl_links h -> linked pk SIGN_IN l = false) /\ verified_email claims <> "" /\
  exists a, a ∈ hl_accounts h /\ at_pk a = pk /\ lower (at_email a) = lower (verified_email claims).

Lemma filter_users_inv claims h o h' : whole h -> filter_here claims h = (o, h') -> key_here claims <> "" ->
  h' = h /\ exists found, o = Ok found /\
    (found = [] -> forall pk, ~ bound h (key_here claims) pk) /\
    forall user, user ∈ found -> user ∈ hl_accounts h /\
      (bound h (key_here claims) (at_pk user) \/ ((forall pk, ~ bound h (key_here claims) pk) /\ introduced claims h (at_pk user))).
Proof.
  intros (_ & (_ & _ & _ & _ & Hown) & _) H Hkey. injection H as <- <-. split; [done|]. eexists. split; [done|].
  rewrite bool_decide_eq_false_2 by done. set (key := key_here claims) in *.
  set (p := fun a => existsb (fun l => linked (at_pk a) SIGN_IN l && bool_decide (la_login l = key)) (hl_links h)).
  assert (forall a, a ∈ rows_where p (hl_accounts h) -> a ∈ hl_accounts h /\ bound h key (at_pk a)) as Hp.
  { intros a [Ha Hb]%elem_of_rows_where. split; [done|]. apply existsb_exists in Hb as (l & Hl%list_elem_of_In & [Hk Hlog]%andb_true_iff).
    exists l. split_and!; try done. by apply bool_decide_eq_true in Hlog. }
  assert (rows_where p (hl_accounts h) = [] -> forall pk, ~ bound h key pk) as Hnone.
  { intros Hnil pk (l & Hl & Hk & Hlog). destruct (Hown l Hl) as [_ (a & Ha & Hin)%list_elem_of_fmap]. apply linked_true in Hk as [Hu Hs].
    assert (a ∈ rows_where p (hl_accounts h)) as Hin'; [|rewrite Hnil in Hin'; by apply elem_of_nil in Hin'].
    apply elem_of_rows_where. split; [done|]. apply existsb_exists. exists l. split; [by apply list_elem_of_In|].
    apply andb_true_iff. split; [by apply linked_true|by apply bool_decide_eq_true]. }
  destruct (rows_where p (hl_accounts h)) as [|b bs] eqn:Hb.
  - split; [intros _; by apply Hnone|]. intros user Hu. case_bool_decide as Hem; [by apply elem_of_nil in Hu|].
    apply elem_of_rows_where in Hu as [Hin [Hno Hmail]%andb_true_iff]. split; [done|]. right. split; [by apply Hnone|].
    split_and!; [|done|exists user; split_and!; try done; by apply bool_decide_eq_true in Hmail].
    intros l Hl. apply negb_true_iff in Hno. destruct (linked (at_pk user) SIGN_IN l) eqn:Hk; [|done].
    exfalso. apply not_true_iff_false in Hno as []. apply existsb_exists. exists l. split; [by apply list_elem_of_In|done].
  - split; [done|]. intros user Hu. destruct (Hp user Hu). split; [done|]. by left.
Qed.

Lemma update_user_inv held claims h user h' : whole h -> held ∈ hl_accounts h -> update_user held claims h = (Ok user, h') ->
  at_pk user = at_pk held /\ whole h' /\ pks h' = pks h /\ others_stand (at_pk held) h h' /\ hl_links h' = hl_links h /\ hl_roles h' = hl_roles h /\ hl_role h' = hl_role h.
Proof.
  intros (Ha & Hl & Hr) Hin H. unfold update_user in H. apply bind_inv in H as [(first & s & Hf & H)|(e & _ & ?)]; [|done]. apply lift_inv in Hf as [_ ->].
  apply bind_inv in H as [(last & s & Hf & H)|(e & _ & ?)]; [|done]. apply lift_inv in Hf as [_ ->]. injection H as <- <-. cbn [at_pk].
  match goal with |- context [set_hl_accounts ?rows h] => set (accounts := rows) end.
  assert (map at_pk accounts = map at_pk (hl_accounts h)) as Hpks by by apply map_update_where.
  split; [done|]. split; [refine (conj _ (conj _ _))|].
  - split; [by cbn; rewrite Hpks; apply Ha|]. intros a (x & Hx & ->)%elem_of_update_where. destruct Ha as [_ Hb]. specialize (Hb x Hx). by case_bool_decide.
  - unfold pks. cbn. by rewrite Hpks.
  - unfold pks. cbn. by rewrite Hpks.
  - split; [done|]. split; [|done]. unfold others_stand. cbn. split; [|done]. intros a Hne. unfold accounts. rewrite elem_of_update_where. split.
    + intros (x & Hx & ->). case_bool_decide; [|done]. by destruct Hne.
    + intros Hx. exists a. by rewrite bool_decide_eq_false_2.
Qed.

Lemma create_user_inv claims h user h' : whole h -> create_here claims h = (Ok user, h') ->
  at_pk user ∉ pks h /\ at_pk user ∈ pks h' /\ whole h' /\ others_stand (at_pk user) h h' /\ hl_links h' = hl_links h /\ hl_roles h' = hl_roles h /\ hl_role h' = hl_role h.
Proof.
  intros ([Hnd Hb] & Hl & Hr) H. unfold create_user in H. apply bind_inv in H as [(base & s & Hf & H)|(e & _ & ?)]; [|done]. apply lift_inv in Hf as [_ ->].
  rewrite (bind_step _ _ _ (map at_username (hl_accounts h)) h) in H by done. destruct (unique_username _ _) as [name|]; [|done].
  apply bind_inv in H as [(first & s & Hf & H)|(e & _ & ?)]; [|done]. apply lift_inv in Hf as [_ ->].
  apply bind_inv in H as [(last & s & Hf & H)|(e & _ & ?)]; [|done]. apply lift_inv in Hf as [_ ->].
  destruct (among _ _); [done|]. injection H as <- <-. cbn [at_pk].
  assert (hl_next h ∉ pks h) as Hnew. { intros (a & Heq & Hin)%list_elem_of_fmap. specialize (Hb a Hin). lia. }
  match goal with |- context [mk_Account (hl_next h) ?n ?e ?f ?l ?u] => set (user := mk_Account (hl_next h) n e f l u) end.
  assert (forall pk, pk ∈ pks h -> pk ∈ map at_pk (hl_accounts h ++ [user])) as Hmore by (intros pk Hpk; rewrite map_app; apply elem_of_app; by left).
  split; [done|]. split; [unfold pks; cbn; rewrite map_app; apply elem_of_app; right; by apply list_elem_of_singleton|]. split; [refine (conj _ (conj _ _))|].
  - split; [apply nodup_snoc; [done|]; intros y Hy; specialize (Hb y Hy); cbn; lia|].
    intros a [Hy| ->%list_elem_of_singleton]%elem_of_app; [specialize (Hb a Hy)|]; cbn; lia.
  - eapply links_later; [|exact Hmore|exact Hl]. cbn. lia.
  - destruct Hr as [? Ho]. split; [done|]. intros r Hin. destruct (Ho r Hin). split; [done|]. by apply Hmore.
  - split; [|done]. unfold others_stand. cbn. split; [|done]. intros a Hne. rewrite elem_of_app, list_elem_of_singleton. split; [|by left]. by intros [?| ->].
Qed.
End Claims.

(** * A person, as the doors read them *)

Lemma sign_ins_unique h l l' : whole h -> l ∈ hl_links h -> l' ∈ hl_links h -> la_provider l = la_provider l' -> la_login l = la_login l' -> l = l'.
Proof. intros (_ & (_ & _ & _ & Hnd & _) & _) Hl Hl' Hp Hlog. apply (keyed_inj _ _ _ _ Hnd Hl Hl'). by rewrite Hp, Hlog. Qed.

Lemma bound_unique h key pk pk' : whole h -> bound h key pk -> bound h key pk' -> pk = pk'.
Proof.
  intros Hw (l & Hl & [Hu Hp]%linked_true & Hk) (l' & Hl' & [Hu' Hp']%linked_true & Hk').
  assert (l = l') as -> by (apply (sign_ins_unique h); congruence). congruence.
Qed.

Lemma link_of_linked h l pk provider : whole h -> l ∈ hl_links h -> linked pk provider l = true -> link_of pk provider h = Some l.
Proof.
  intros (_ & (_ & _ & Hnd & _) & _) Hl Hk. unfold link_of. destruct (first_where_is_some _ _ _ Hl Hk) as [l' Hl']. rewrite Hl'. f_equal.
  apply first_where_some in Hl' as [Hin Hk']. apply linked_true in Hk as [? ?], Hk' as [? ?]. apply (keyed_inj _ _ _ _ Hnd Hin Hl). congruence.
Qed.

Lemma held_role_of h r : whole h -> r ∈ hl_roles h -> held_role (pr_user r) h = Some r.
Proof.
  intros (_ & _ & [Hnd _]) Hr. unfold held_role. destruct (first_where_is_some (fun x => bool_decide (pr_user x = pr_user r)) (hl_roles h) r) as [r' Hr'].
  - done.
  - by apply bool_decide_eq_true.
  - rewrite Hr'. f_equal. apply first_where_some in Hr' as [Hin Hu%bool_decide_eq_true]. by apply (keyed_inj _ _ _ _ Hnd Hin Hr).
Qed.

(** What a token of the person is held to is what their role grants. *)
Lemma held_by_bound dep h key pk r : whole h -> key <> "" -> bound h key pk -> r ∈ hl_roles h -> pr_user r = pk ->
  held_by dep key (tables h) = Some (grants dep (pr_role r)).
Proof.
  intros Hw Hne Hbound Hr Hu. pose proof Hbound as (l & Hl & Hk & Hlog). unfold held_by, user_of_key. rewrite decide_False by done.
  assert (exists a, a ∈ hl_accounts h /\ at_pk a = pk) as (a & Ha & Hpk).
  { apply linked_true in Hk as [Hlu _]. destruct Hw as (_ & (_ & _ & _ & _ & Hown) & _). destruct (Hown l Hl) as [_ (a & ? & ?)%list_elem_of_fmap]. exists a. split; congruence. }
  destruct (first_where_is_some (fun u => bool_decide (us_sign_in u = key)) (db_users (tables h)) (user_row h a)) as [u Hu'].
  - cbn. apply list_elem_of_fmap. by exists a.
  - apply bool_decide_eq_true. unfold user_row. cbn. by rewrite Hpk, (link_of_linked h l).
  - rewrite Hu'. apply first_where_some in Hu' as [Hin Hkey%bool_decide_eq_true]. cbn in Hin. apply list_elem_of_fmap in Hin as (a' & -> & Ha').
    assert (at_pk a' = pk) as Hpk'.
    { unfold user_row in Hkey. cbn in Hkey. destruct (link_of (at_pk a') SIGN_IN h) as [l'|] eqn:Hl'; [|congruence].
      apply link_of_some in Hl' as [? ?]. apply (bound_unique h key); [done| |done]. by exists l'. }
    unfold user_row. cbn. rewrite Hpk', <- Hu, (held_role_of h r) by done. rewrite decide_False; [done|].
    destruct Hw as (_ & _ & [_ Hroles]). destruct (Hroles r Hr) as [Hknown _]. intros Hblank. rewrite Hblank in Hknown.
    repeat (apply elem_of_cons in Hknown as [?|Hknown]; [done|]). by apply elem_of_nil in Hknown.
Qed.

(** * Signing in *)

(** What the library's own [get_or_create_user] answers a person by: claims that pass, and the one account they find, updated,
    or a new one where they find none. *)
Definition asks_the_methods (super : M exn Hall dict -> (dict -> M exn Hall bool) -> (dict -> M exn Hall (list Account)) ->
    (Account -> dict -> M exn Hall Account) -> (dict -> M exn Hall Account) -> M exn Hall (option Account)) : Prop :=
  forall userinfo verify filter update create h user h', super userinfo verify filter update create h = (Ok (Some user), h') ->
    exists claims h1 h2 h3 found, userinfo h = (Ok claims, h1) /\ verify claims h1 = (Ok true, h2) /\ filter claims h2 = (Ok found, h3) /\
      ((exists held, found = [held] /\ update held claims h3 = (Ok user, h')) \/ (found = [] /\ create claims h3 = (Ok user, h'))).

(** * The role claims give *)

(** What the settings give these claims: by a group they name, or by an address the provider verified. *)
Definition given (settings : SignInSettings) (claims : dict) (role : string) : Prop :=
  (exists groups name, dget "groups" claims = Some (JList groups) /\ JStr name ∈ groups /\ entry_of name (si_role_groups settings) = Some role) \/
  (exists email, dget "email" claims = Some (JStr email) /\ dget "email_verified" claims = Some (JBool true) /\
     entry_of (lower (strip email)) (si_allowed_emails settings) = Some role).

Lemma highest_ranks l : (highest l = "operator" <-> "operator" ∈ l) /\ (highest l = "viewer" <-> "operator" ∉ l /\ "viewer" ∈ l).
Proof.
  set (held := omap (fun r => index_of r ROLES) l).
  assert (forall n, n ∈ held <-> (n = 0 /\ "viewer" ∈ l) \/ (n = 1 /\ "operator" ∈ l)) as Hheld.
  { intros n. unfold held. rewrite list_elem_of_omap. cbn. split.
    - intros (r & Hr & Hn). case_decide; [injection Hn as <-; subst; by left|]. case_decide; [injection Hn as <-; subst; by right|done].
    - intros [[-> H]|[-> H]]; eexists; (split; [exact H|done]). }
  assert (forall m, m ∈ held -> m <= fold_right Nat.max 0 held) as Hup.
  { clear. induction held as [|n held IH]; intros m; [by intros ?%elem_of_nil|]. intros [->|Hm]%elem_of_cons; cbn; [lia|]. specialize (IH m Hm). lia. }
  assert (held <> [] -> fold_right Nat.max 0 held ∈ held) as Hmax.
  { clear. induction held as [|n held IH]; [done|]. intros _. cbn. destruct held as [|m held]; [cbn; rewrite Nat.max_0_r; by left|].
    destruct (Nat.max_spec n (fold_right Nat.max 0 (m :: held))) as [[_ ->]|[_ ->]]; [right; by apply IH|by left]. }
  assert (highest l = match held with [] => "" | _ => default "" (ROLES !! fold_right Nat.max 0 held) end) as -> by (unfold highest; fold held; by destruct held).
  destruct held as [|n rest] eqn:Hn.
  - assert ("viewer" ∉ l /\ "operator" ∉ l) as [? ?]; [|naive_solver].
    split; intros H; [pose proof (proj2 (Hheld 0) (or_introl (conj eq_refl H))) as E|pose proof (proj2 (Hheld 1) (or_intror (conj eq_refl H))) as E];
      by apply elem_of_nil in E.
  - rewrite <- Hn in *. assert (fold_right Nat.max 0 held ∈ held) as Hin by (apply Hmax; by rewrite Hn). revert Hin Hup. generalize (fold_right Nat.max 0 held) as m. intros m Hin Hup.
    destruct (proj1 (Hheld m) Hin) as [[-> Hv]|[-> Ho]]; cbn; [|naive_solver].
    assert ("operator" ∉ l) as Hno; [|naive_solver]. intros Ho. specialize (Hup 1 (proj2 (Hheld 1) (or_intror (conj eq_refl Ho)))). lia.
Qed.

(** A setting [parse] read names nobody blank. *)
Lemma parse_names entries setting default_ mapped : parse entries setting default_ = Ok mapped -> entry_of "" mapped = None.
Proof.
  unfold parse. assert (entry_of "" [] = None) as Hnil by done. revert Hnil. generalize (@nil (string * string)) as acc.
  induction entries as [|e es IH]; intros acc Hacc; cbn; [by intros [= <-]|]. destruct (parse_entry setting default_ e acc) as [acc'|] eqn:He; [|done].
  apply IH. unfold parse_entry in He. destruct (partition "="%char e) as [[name ?] role]. destruct (_ || _) eqn:Hb; [done|]. destruct (among (strip name) (map fst acc)); [done|].
  injection He as <-. apply orb_false_iff in Hb as [Hname%bool_decide_eq_false _].
  clear -Hacc Hname. induction acc as [|[k r] acc IH]; cbn in *; [by rewrite decide_False|]. destruct (decide (k = "")); [done|]. by apply IH.
Qed.

Lemma resolved_role_given settings claims role : entry_of "" (si_allowed_emails settings) = None ->
  role ∈ (held_groups settings claims ++ match entry_of (verified_email claims) (si_allowed_emails settings) with Some r => [r] | None => [] end)%list <->
  given settings claims role.
Proof.
  intros Hblank. unfold given, held_groups, verified_email. rewrite elem_of_app. split.
  - intros [H|H].
    + left. destruct (dget "groups" claims) as [[| | | |groups|]|]; try (by apply elem_of_nil in H).
      apply list_elem_of_omap in H as ([] & Hin & Hrole); try done. by eexists _, _.
    + right. destruct (dget "email" claims) as [[]|]; try (rewrite Hblank in H; by apply elem_of_nil in H).
      destruct (dget "email_verified" claims) as [[| [] | | | |]|]; try (rewrite Hblank in H; by apply elem_of_nil in H).
      destruct (entry_of (lower (strip s)) (si_allowed_emails settings)) as [r|] eqn:Hr; [|by apply elem_of_nil in H]. apply list_elem_of_singleton in H as ->. by eexists.
  - intros [(groups & name & -> & Hin & Hrole)|(email & -> & -> & ->)]; [left|right; by apply list_elem_of_singleton].
    apply list_elem_of_omap. by exists (JStr name).
Qed.

Section SigningIn.
Context (provider : IdentityProvider) (settings : SignInSettings) (sha256 : string -> string) (normalize_username : string -> string)
  (remember_avatar : Account -> string -> string -> M exn Db string) (now : Z) (reader : option Z).
Context (super : M exn Hall dict -> (dict -> M exn Hall bool) -> (dict -> M exn Hall (list Account)) ->
  (Account -> dict -> M exn Hall Account) -> (dict -> M exn Hall Account) -> M exn Hall (option Account)).
Hypothesis Hsuper : asks_the_methods super.

#[local] Notation sign_in := (get_or_create_user provider settings sha256 normalize_username remember_avatar now reader super).
#[local] Notation key_here := (subject_key provider sha256).

(** The account before anything is bound to it: found or made, with the role the claims resolved to. *)
Lemma found_or_made claims h user h' : whole h ->
  super (get_userinfo (Ok claims)) (verify_claims provider settings sha256 now reader) (filter_users_by_claims provider sha256)
    update_user (create_user normalize_username) h = (Ok (Some user), h') ->
  let pk := at_pk user in let key := key_here claims in
  key <> "" /\ resolved_role settings claims <> "" /\ hl_role h' = resolved_role settings claims /\ whole h' /\ pk ∈ pks h' /\ others_stand pk h h' /\
  hl_links h' = hl_links h /\
  (bound h key pk \/ (forall pk, ~ bound h key pk) /\ (pk ∉ pks h \/ introduced claims h pk)).
Proof.
  intros Hw H pk key. apply Hsuper in H as (claims' & h1 & h2 & h3 & found & Hinfo & Hver & Hfil & Hend). injection Hinfo as <- <-.
  assert (tables_stand h (set_hl_userinfo (Some claims) h)) as Hst by done.
  apply verify_claims_inv in Hver as [Hst2 Hver]. destruct (Hver eq_refl) as (Hrole & Hne & Hkey).
  assert (tables_stand h h2) as Hst' by (destruct Hst as (? & ? & ? & ?), Hst2 as (? & ? & ? & ?); by split_and!; etransitivity).
  assert (whole h2) as Hw2 by by apply (whole_stands h).
  apply filter_users_inv in Hfil as (-> & found' & [= <-] & Hnone & Hfound); [|done..].
  assert (forall x, bound h2 key x <-> bound h key x) as Hbound by (intros x; unfold bound; destruct Hst' as (_ & -> & _); done).
  assert (pks h2 = pks h) as Hpks by (unfold pks; by destruct Hst' as (-> & _)).
  assert (forall x, introduced claims h2 x -> introduced claims h x) as Hintro by (intros x; unfold introduced; by destruct Hst' as (-> & -> & _)).
  destruct Hend as [(held & -> & Hup)|(-> & Hcr)].
  - destruct (Hfound held) as [Hin Hhow]; [by left|]. apply update_user_inv in Hup as (Hpk & Hw' & Hpks' & Ho & Hl & _ & Hr); [|done..].
    split_and!; try done.
    + by rewrite Hr.
    + rewrite Hpks'. unfold pk. rewrite Hpk. by apply list_elem_of_fmap_2.
    + unfold pk. rewrite Hpk. by eapply others_trans; [apply others_same|].
    + rewrite Hl. by destruct Hst' as (_ & -> & _).
    + unfold pk. rewrite Hpk. destruct Hhow as [Hb|[Hn Hi]]; [left; by apply Hbound|right]. split; [intros x; rewrite <- Hbound; apply Hn|]. right. by apply Hintro.
  - apply create_user_inv in Hcr as (Hnew & Hmade & Hw' & Ho & Hl & _ & Hr); [|done]. split_and!; try done.
    + by rewrite Hr.
    + by eapply others_trans; [apply others_same|].
    + rewrite Hl. by destruct Hst' as (_ & -> & _).
    + right. split; [intros x; rewrite <- Hbound; by apply Hnone|]. left. by rewrite <- Hpks.
Qed.

(** What a sign-in leaves of the tables, by the claims it was answered. *)
Lemma signed_in claims token payload h user h' : whole h -> key_here claims = key_here payload ->
  sign_in (Ok claims) token payload h = (Ok (Some user), h') ->
  let pk := at_pk user in let key := key_here payload in
  key <> "" /\ resolved_role settings claims <> "" /\ whole h' /\ others_stand pk h h' /\ bound h' key pk /\
  (bound h key pk \/ (forall pk, ~ bound h key pk) /\ (pk ∉ pks h \/ introduced claims h pk)) /\
  exists r, r ∈ hl_roles h' /\ pr_user r = pk /\ pr_role r = resolved_role settings claims.
Proof.
  intros Hw Hsame H pk key. apply bind_inv in H as [(found & h1 & Hf & H)|(e & _ & ?)]; [|done]. destruct found as [user'|]; [|by injection H].
  apply bind_inv in H as [([] & h2 & Hpic & H)|(e & _ & ?)]; [|done]. apply bind_inv in H as [([] & h3 & Hbind & H)|(e & _ & ?)]; [|done].
  apply bind_inv in H as [([] & h4 & Hgit & H)|(e & _ & ?)]; [|done]. rewrite (bind_step _ _ _ (hl_role h4) h4) in H by done.
  apply bind_inv in H as [([] & h5 & Hrole & H)|(e & _ & ?)]; [|done]. injection H as -> <-. fold pk in Hbind, Hgit.
  apply found_or_made in Hf as (Hkey & Hres & Hr1 & Hw1 & Hin & Ho1 & Hl1 & Hhow); [|done]. rewrite Hsame in *. fold pk key in Hkey, Hin, Ho1, Hhow.
  apply remember_picture_inv in Hpic as [Hst2 Hr2]. assert (whole h2) as Hw2 by by apply (whole_stands h1).
  assert (pks h2 = pks h1) as Hp2 by (unfold pks; by destruct Hst2 as (-> & _)).
  unfold bind_sign_in in Hbind. fold key in Hbind. rewrite bool_decide_eq_false_2 in Hbind by done.
  apply record_link_inv in Hbind as (Hw3 & (Ha3 & Hro3 & Hr3) & Ho3 & Hb3); [|done|by rewrite Hp2].
  assert (pks h3 = pks h2) as Hp3 by (unfold pks; by rewrite Ha3).
  assert (bound h3 key pk) as Hbound3.
  { apply Hb3; [done..|]. intros l Hl Hp Hlog. assert (hl_links h2 = hl_links h) as Heq by (destruct Hst2 as (_ & -> & _); done). rewrite Heq in Hl.
    assert (bound h key (la_user l)) as Hbl by (exists l; split_and!; [done|by apply linked_true|done]).
    destruct Hhow as [Hb|[Hn _]]; [by apply (bound_unique h key)|by destruct (Hn _ Hbl)]. }
  apply record_link_inv in Hgit as (Hw4 & (Ha4 & Hro4 & Hr4) & Ho4 & _); [|done|by rewrite Hp3, Hp2].
  assert (pks h4 = pks h3) as Hp4 by (unfold pks; by rewrite Ha4).
  assert (bound h4 key pk) as Hbound4.
  { destruct Hbound3 as (l & Hl & Hk & Hlog). exists l. split; [|done]. apply Ho4; [|done]. apply linked_true in Hk as [_ Hp].
    apply linked_false. intros [_ Hg]. by rewrite Hp in Hg. }
  rewrite Hr4, Hr3, Hr2, Hr1 in Hrole. rewrite bool_decide_eq_false_2 in Hrole by done.
  apply assign_inv in Hrole as (Hw5 & (Ha5 & Hl5 & _) & Ho5 & Hheld); [|done|by fold pk; rewrite Hp4, Hp3, Hp2].
  assert (forall l, la_user l <> pk -> forall p, linked pk p l = false) as Hothers by (intros l Hl p; apply linked_false; by intros [? _]).
  conjs; [done|done|by apply (whole_stands h5)| | |done|by apply Hheld].
  - apply (others_trans _ h h1); [done|]. apply (others_trans _ h1 h2); [by apply others_same|]. unfold others_stand. cbn. rewrite Ha5, Ha4, Ha3, Hl5.
    conjs.
    + done.
    + intros l Hl. rewrite Ho4 by (by apply Hothers). by apply Ho3, Hothers.
    + intros r Hr. rewrite Ho5 by done. by rewrite Hro4, Hro3.
  - destruct Hbound4 as (l & Hl & ?). exists l. cbn. by rewrite Hl5.
Qed.

(** C5: A sign-in is its subject's own: where the provider's claims and its token name one subject, the account signed in is bound
    to that subject from then on; it is the one the subject was bound to, or, where there was none, a new one or one
    nobody had ever signed in to whose address the provider verified; and no other person's account, binding or role
    is touched. *)
Theorem a_sign_in_is_its_subjects (claims : dict) (token : string) (payload : dict) (h h' : Hall) (user : Account) :
  whole h -> key_here claims = key_here payload -> sign_in (Ok claims) token payload h = (Ok (Some user), h') ->
  let pk := at_pk user in let key := key_here payload in
  whole h' /\ key <> "" /\ (forall other, bound h' key other <-> other = pk) /\ (forall other, bound h key other -> other = pk) /\
  (bound h key pk \/ pk ∉ map at_pk (hl_accounts h) \/ introduced claims h pk) /\
  others_stand pk h h'.
Proof.
  intros Hw Hsame H pk key. destruct (signed_in _ _ _ _ _ _ Hw Hsame H) as (Hkey & _ & Hw' & Ho & Hb & Hhow & _). fold pk key in Hkey, Ho, Hb, Hhow.
  conjs; [done|done| | | |done].
  - intros other. split; [intros Hb'; by apply (bound_unique h' key)|by intros ->].
  - intros other Hb'. destruct Hhow as [Hb0|[Hn _]]; [by apply (bound_unique h key)|by destruct (Hn other)].
  - destruct Hhow as [?|[_ [?|?]]]; [by left|right; by left|right; by right].
Qed.

(** C6: A sign-in gives the role its claims name: a person is signed in only where HQ's settings give a group of theirs, or an
    address the provider verified, a role; they hold the highest so given from then on, and what a token of theirs is held
    to is what that role grants, whatever they held before. *)
Theorem a_sign_in_gives_the_role_its_claims_name (dep : Deployment) (entries : list string) (claims : dict) (token : string) (payload : dict)
    (h h' : Hall) (user : Account) :
  parse entries "SEVERINO_OIDC_ALLOWED_EMAILS" "viewer" = Ok (si_allowed_emails settings) ->
  whole h -> key_here claims = key_here payload -> sign_in (Ok claims) token payload h = (Ok (Some user), h') ->
  exists role, pr_role <$> held_role (at_pk user) h' = Some role /\
    ((role = "operator" /\ given settings claims "operator") \/
     (role = "viewer" /\ given settings claims "viewer" /\ ~ given settings claims "operator")) /\
    held_by dep (key_here payload) (tables h') = Some (grants dep role).
Proof.
  intros Hparse Hw Hsame H. destruct (signed_in _ _ _ _ _ _ Hw Hsame H) as (Hkey & Hne & Hw' & _ & Hb & _ & r & Hr & Hu & Hrole).
  pose proof (parse_names _ _ _ _ Hparse) as Hblank. exists (pr_role r). split; [by rewrite <- Hu, held_role_of|]. split.
  - rewrite <- !(resolved_role_given _ _ _ Hblank). rewrite Hrole. unfold resolved_role.
    destruct (highest_ranks (held_groups settings claims ++ match entry_of (verified_email claims) (si_allowed_emails settings) with Some role => [role] | None => [] end)) as [Hop Hvi].
    assert (pr_role r ∈ ROLES) as Hknown by (destruct Hw' as (_ & _ & [_ Hk]); by destruct (Hk r Hr)).
    rewrite Hrole in Hknown. unfold resolved_role in Hknown.
    apply elem_of_cons in Hknown as [Hv|[Ho| ?%elem_of_nil]%elem_of_cons]; [right|left|done].
    + split; [done|]. by apply Hvi in Hv as [? ?].
    + split; [done|]. by apply Hop.
  - by apply (held_by_bound _ _ _ (at_pk user)).
Qed.
End SigningIn.

(** * A sign-in to evaluate on *)

(** A library that asks the methods in order. *)
Definition plain_library (userinfo : M exn Hall dict) (verify : dict -> M exn Hall bool) (filter : dict -> M exn Hall (list Account))
    (update : Account -> dict -> M exn Hall Account) (create : dict -> M exn Hall Account) : M exn Hall (option Account) :=
  claims ← userinfo;
  passed ← verify claims;
  if (passed : bool) then
    found ← filter claims;
    match (found : list Account) with
    | [] => user ← create claims; mret (Some user)
    | [held] => user ← update held claims; mret (Some user)
    | _ => raise (OtherError "SuspiciousOperation" "Multiple users returned")
    end
  else raise (OtherError "SuspiciousOperation" "Claims verification failed").

Lemma plain_library_asks : asks_the_methods plain_library.
Proof.
  intros userinfo verify filter update create h user h' H. unfold plain_library in H.
  apply bind_inv in H as [(claims & h1 & Hi & H)|(e & _ & ?)]; [|done]. apply bind_inv in H as [([] & h2 & Hv & H)|(e & _ & ?)]; [|done..].
  apply bind_inv in H as [(found & h3 & Hf & H)|(e & _ & ?)]; [|done]. exists claims, h1, h2, h3, found. split_and!; try done.
  destruct found as [|held [|? ?]]; [right|left; exists held|done]; (split; [done|]);
    apply bind_inv in H as [(u & h4 & Hu & H)|(e & _ & ?)]; try done; by injection H as <- <-.
Qed.

Definition plain_provider : IdentityProvider := mkIdentityProvider "" "https://id.example" (fun _ => None) (fun _ _ _ _ _ => None).
Definition plain_settings : SignInSettings := mk_SignInSettings "hq" [("admins", "operator")] [("eve@example.com", "viewer")] [].
Definition no_picture (_ : Account) (_ _ : string) : M exn Db string := mret "".
#[local] Notation signs_in := (get_or_create_user plain_provider plain_settings (fun s => s) (fun s => s) no_picture 0 None plain_library).
#[local] Notation plain_key := (subject_key plain_provider (fun s => s)).

Definition ada_account : Account := mk_Account 7 "ada" "Ada@example.com" "" "" false.
Definition empty_hall : Hall := mk_Hall empty_db [ada_account] [] [] 8 [] None "".
Definition ada_claims : dict := [("sub", JStr "ada"); ("preferred_username", JStr "ada"); ("email", JStr "ada@example.com");
  ("email_verified", JBool true); ("groups", JList [JStr "admins"])].
Definition ada_hall : Hall := (signs_in (Ok ada_claims) "" ada_claims empty_hall).2.

Lemma empty_hall_whole : whole empty_hall.
Proof.
  split; [|split].
  - split; [by apply (bool_decide_unpack _)|]. intros a ->%list_elem_of_singleton. reflexivity.
  - split_and!; try (by apply (bool_decide_unpack _)); by intros l ?%elem_of_nil.
  - split; [by apply (bool_decide_unpack _)|]. by intros r ?%elem_of_nil.
Qed.

Lemma a_sign_in_is_its_subjects_witness :
  signs_in (Ok ada_claims) "" ada_claims empty_hall = (Ok (Some (mk_Account 7 "ada" "ada@example.com" "" "" false)), ada_hall) /\
  forall other, bound ada_hall (plain_key ada_claims) other <-> other = 7%Z.
Proof.
  assert (signs_in (Ok ada_claims) "" ada_claims empty_hall = (Ok (Some (mk_Account 7 "ada" "ada@example.com" "" "" false)), ada_hall)) as H by (vm_compute; reflexivity).
  split; [exact H|]. destruct (a_sign_in_is_its_subjects plain_provider plain_settings (fun s => s) (fun s => s) no_picture 0 None plain_library plain_library_asks
    ada_claims "" ada_claims empty_hall ada_hall _ empty_hall_whole eq_refl H) as (_ & _ & Hbound & _). exact Hbound.
Defined.

Lemma a_sign_in_gives_the_role_its_claims_name_witness :
  exists role, pr_role <$> held_role 7 ada_hall = Some role /\ role = "operator" /\
    held_by (h_deployment demo_host) (plain_key ada_claims) (tables ada_hall) = Some (grants (h_deployment demo_host) role).
Proof.
  assert (signs_in (Ok ada_claims) "" ada_claims empty_hall = (Ok (Some (mk_Account 7 "ada" "ada@example.com" "" "" false)), ada_hall)) as H by (vm_compute; reflexivity).
  destruct (a_sign_in_gives_the_role_its_claims_name plain_provider plain_settings (fun s => s) (fun s => s) no_picture 0 None plain_library plain_library_asks
    (h_deployment demo_host) ["eve@example.com"] ada_claims "" ada_claims empty_hall ada_hall _ eq_refl empty_hall_whole eq_refl H) as (role & Hheld & Hrole & Hby).
  exists role. split; [exact Hheld|]. split; [|exact Hby]. vm_compute in Hheld. by injection Hheld as <-.
Defined.

(** The account is found by the subject of the provider's claims and bound to the subject of its token, and nothing compares the
    two: where they differ, the account is the other subject's from then on. *)
Lemma two_subjects_move_an_account : let eves : dict := [("sub", JStr "eve")] in
  exists h', signs_in (Ok ada_claims) "" eves ada_hall = (Ok (Some (mk_Account 7 "ada" "ada@example.com" "" "" false)), h') /\
    linked_login 7 SIGN_IN ada_hall = plain_key ada_claims /\ linked_login 7 SIGN_IN h' = plain_key eves.
Proof. eexists. split; [vm_compute; reflexivity|]. by vm_compute. Qed.
